(* ===== verification/_CoqProject ===== *)
-Q . S2P
Prelude.v
Memory.v
CString.v
Riscv.v
Csr.v
Spinlock.v
Kalloc.v
Vm.v
Copy.v
PageTable.v
VmProofs.v
VmCopy.v
VmSpace.v
VmFree.v
VmFork.v
VmSpec.v
VmExec.v
Block.v
Cache.v
Sleeplock.v
Bio.v
BioProofs.v
Log.v
LogProofs.v
LogSpec.v
LogSpace.v
Fs.v
FsBlocks.v
FsAlloc.v
FsMap.v
FsFile.v
FsInode.v
FsTrunc.v
FsDir.v
FsName.v
FsSpec.v
Mkfs.v
MkfsProofs.v
MkfsRun.v
MkfsSpec.v
MkfsBoot.v
Kernel.v
Proc.v
ProcRun.v
Uart.v
Printf.v
PrintfSpec.v
Console.v
Pipe.v
PipeProofs.v
PipeSpec.v
ConsoleProofs.v
ConsoleSpec.v
File.v
Process.v
SchedSpec.v
Exec.v
ExecProofs.v
ExecSpec.v
Sysfile.v
FileRefs.v
Syscall.v
Virtio.v
VirtioRing.v
VirtioProofs.v
VirtioSpec.v
Trap.v
Main.v
Umalloc.v
UmallocFree.v
UmallocSpec.v
Ulib.v
Grep.v
GrepSpec.v
LsSpec.v
Sh.v
ShSpec.v
ShRound.v
User.v
ShRunSpec.v
