(* ===== verification/Prelude.v ===== *)
(** * A verification library for tatakOS, an xv6-style kernel for RISC-V, and
      its user programs

    This file opens the library: its first part describes the whole of it, the
    rest holds the machine integers, the monad of the kernel functions and the
    lemmas every other file uses.

    ** The program

    tatakOS is a Unix-like kernel in C.  From the bottom up: spin locks and
    the registers of a hart; the page allocator and the page tables; a buffer
    cache over the disk driver, a write-ahead log over the cache, the file
    system over the log; processes, their scheduler, sleep and wake-up; pipes,
    open files, the console and the UART; the system calls, [exec], traps and
    the start-up.  On top, in user space: the C library with its allocator, the
    shell, [init] and the tools [grep], [wc], [cat], [echo], [ls], [kill], [ln],
    [mkdir] and [rm].  Beside it, [mkfs] makes the disk image on the build host.

    ** How C is modelled

    Integers are [Z]; every place where C narrows a value says so ([u32],
    [s32], ...).  Memory is a total function from addresses to bytes; C
    structures that live in it are read and written at their offsets
    ([Memory], [Block]).  Structures that are only reached through a table
    are records named by their index, a null pointer is [None].  A function
    is a program of the monad [M S A]: it ends with [Ok] and a new state, in
    a [panic], or asleep ([Sleeps]).  A function that sleeps is cut at its
    sleeps; [sched] is cut at [swtch].  What one spin lock protects is one
    step, except in [Spinlock], where every memory access is one.

    ** Files, and the sources they model

    - [Prelude], [Memory], [Block]: integers, monad, bytes and blocks.
    - [CString]: [src/kernel/lib/string.c].
    - [Riscv], [Csr]: [include/kernel/riscv.h], [memlayout.h].
    - [Spinlock]: [src/kernel/spinlock.c]; [Sleeplock]: [sleeplock.c].
    - [Kalloc]: [src/kernel/mm/kalloc.c].  [Vm], [Copy]: [src/kernel/mm/vm.c].
      [PageTable], [VmProofs], [VmCopy], [VmSpace], [VmFree], [VmFork] and
      [VmExec] are its theory, [VmSpec] its properties.
    - [Cache]: the interface of the buffer cache, as the classes [BlockCache]
      (operations) and [CacheSpec] (laws).  [Bio]: [src/kernel/fs/bio.c];
      [BioProofs]: that it implements the interface.
    - [Log]: [src/kernel/fs/log.c] over the interface; [LogProofs],
      [LogSpec], [LogSpace].
    - [Fs]: [src/kernel/fs/fs.c] over the log, with the structures of [fs.h] and
      [stat.h] and the modes of [fcntl.h]; [FsBlocks], [FsAlloc],
      [FsMap], [FsFile], [FsInode], [FsTrunc], [FsDir] and [FsName] are its
      theory, [FsSpec] its properties.
    - [Mkfs]: [script/mkfs.c]; [MkfsProofs], [MkfsRun], [MkfsSpec]: the image it
      makes; [MkfsBoot]: the kernel started on that image.
    - [Kernel]: the global state.  [Proc], [Process]: [src/kernel/proc.c];
      [ProcRun]: how its functions run on one CPU; [SchedSpec]: several CPUs.
    - [Uart], [Console], [Printf]: [uart.c], [console.c],
      [src/kernel/lib/printf.c]; [PrintfSpec], [ConsoleProofs], [ConsoleSpec].
    - [Pipe], [File]: [src/kernel/fs/pipe.c], [file.c]; [PipeProofs],
      [PipeSpec], [FileRefs].
    - [Exec]: [exec.c]; [ExecProofs], [ExecSpec].  [Sysfile], [Syscall]:
      [sysfile.c], [sysproc.c], [syscall.c].  [Virtio]: [virtio_disk.c];
      [VirtioRing], [VirtioProofs], [VirtioSpec].  [Trap]: [trap.c], [plic.c].
      [Main]: [main.c].
    - [Umalloc]: [src/user/lib/umalloc.c]; [UmallocFree], [UmallocSpec].
      [Ulib]: [ulib.c] and the user's [printf.c], over the interface [Usys]
      of the system calls.  [Grep]: [grep.c], [wc.c], [cat.c], [echo.c],
      [ls.c], [kill.c], [ln.c], [mkdir.c], [rm.c]; [GrepSpec], [LsSpec].
    - [Sh]: the parser of [src/user/sh/sh.c]; [ShSpec], [ShRound].  [User]:
      [runcmd] and the command loop of [sh.c], and [init.c]; [ShRunSpec].

    ** What is proved

    - Mutual exclusion: of spin locks at the level of single memory accesses
      ([spinlock_mutex]), of sleep locks ([sleeplock_mutex]), and of CPUs
      on processes ([sched_exclusive]).
    - Memory: the page allocator is a stack of pages; page tables map
      exactly what was asked; address spaces are created, copied, grown, shrunk
      and freed without losing a page; copies between kernel and user space
      move exactly the bytes ([Kalloc], [VmSpec]).
    - Storage: the buffer cache implements its interface ([bio_refinement]); a
      committed transaction is atomic under crashes at any disk write, also
      during recovery ([crash_atomic]); the log never overflows when it is
      large enough, and does when it is as [mkfs] makes it
      ([log_space_enough], [log_space_short]); files are byte sequences that
      [writei] and [readi] change and read ([writei_correct],
      [write_read_roundtrip]), directories are maps ([dirlink_lookup]), paths
      are resolved as the tree on the disk says, without losing a reference
      ([namei_correct]), and a write through all the layers is atomic
      ([write_crash_atomic]).
    - The ends of the storage stack: the driver and a device that answers in any
      order carry out every transfer exactly once and lose no wake-up
      ([virtio_exactly_once]); from the image [mkfs] makes the kernel starts and
      finds every file with its bytes ([mkfs_boots]).
    - Pipes are queues, and nobody sleeps on one who could go on
      ([pipewrite_correct], [piperead_correct], [pipe_no_lost_wakeup]); console
      input is edited by lines and read in order ([consoleintr_correct],
      [consoleread_correct], [console_session]); the
      reference counts of open files are exact over all processes
      ([file_refs_exact]).
    - Programs: [exec] gives the process exactly the address space that the
      bytes of the executable and the arguments denote, and frees the old one,
      or fails and changes nothing, whatever the file contains
      ([exec_correct]).
    - User space: the allocator hands out disjoint blocks and merges what
      comes back ([umalloc_correct]); the shell's parser ends on every line,
      reads back every printed command, and the processes of a line execute
      its commands with the pipes and redirections it says ([sh_parse_total],
      [sh_parse_print], [sh_line_runs]); [grep] prints the lines in the language
      of its pattern ([match_correct], [grep_correct]); [ls] prints the rows of
      the files and directories it is given and closes them ([ls_correct]).

    A property over an interface or a parameter has an example that gives it
    a concrete one: the laws of the cache are those of [Bio], [sbrk] and the
    calls of [Usys] have instances beside the theorems.

    ** Fuel and bounds

    Loops whose end depends on data take a bound; running out is a [panic]
    that names it or the outcome [Sleeps], and the theorems show it is not
    reached: the page-table recursion has depth 3, the scans of [Umalloc] the
    number of blocks on the ring, the loops of [readi] and [writei] one round
    per block, that of [loadseg] one per page, the parser of [Sh] nesting four
    times the length of the line, [grep] and [ls] one [read] per byte of
    input.  The loops that poll a device look at it [spin] times, any number: a
    run that still polls has the outcome [Sleeps].  The endless loops of [sh] and
    [init] take a number of rounds.

    ** Not modelled

    The assembly ([entry.S], [swtch.S], [kernelvec.S], [trampoline.S],
    [initcode.S], [usys.S]): its effect on the C code is where functions are cut
    and which addresses are parameters.  The firmware calls of [sbi.h] and the
    disk itself are parameters.  Weak memory order and the TLB have no
    counterpart.  The test programs [usertests], [grind], [stressfs], [forktest]
    and [zombie] are no part of the system. *)

From stdpp Require Export base numbers list list_numbers gmap strings.
From Stdlib Require Export ZArith Lia.

Global Open Scope Z_scope.

(** ** Machine integers

    C integers are [Z] kept in range by explicit truncation.  [uN x] is the
    conversion to [uintN], [sN x] the (two's complement) conversion to
    [intN]. *)

Definition uwrap (w : Z) (x : Z) : Z := x mod 2 ^ w.

Definition swrap (w : Z) (x : Z) : Z :=
  let y := x mod 2 ^ w in if y <? 2 ^ (w - 1) then y else y - 2 ^ w.

Definition u8 (x : Z) : Z := uwrap 8 x.
Definition u16 (x : Z) : Z := uwrap 16 x.
Definition u32 (x : Z) : Z := uwrap 32 x.
Definition u64 (x : Z) : Z := uwrap 64 x.
Definition s16 (x : Z) : Z := swrap 16 x.
Definition s32 (x : Z) : Z := swrap 32 x.

Create HintDb machine.
Create Rewrite HintDb machine.

Lemma uwrap_range w x : 0 <= w -> 0 <= uwrap w x < 2 ^ w.
Proof. intros. apply Z.mod_pos_bound, Z.pow_pos_nonneg; lia. Qed.

Lemma uwrap_small w x : 0 <= x < 2 ^ w -> uwrap w x = x.
Proof. apply Z.mod_small. Qed.

Lemma u8_range x : 0 <= u8 x < 256.
Proof. apply (uwrap_range 8); lia. Qed.
Lemma u16_range x : 0 <= u16 x < 65536.
Proof. apply (uwrap_range 16); lia. Qed.
Lemma u32_range x : 0 <= u32 x < 4294967296.
Proof. apply (uwrap_range 32); lia. Qed.
Lemma u64_range x : 0 <= u64 x < 18446744073709551616.
Proof. apply (uwrap_range 64); lia. Qed.

Lemma u8_small x : 0 <= x < 256 -> u8 x = x.
Proof. apply (uwrap_small 8). Qed.
Lemma u16_small x : 0 <= x < 65536 -> u16 x = x.
Proof. apply (uwrap_small 16). Qed.
Lemma u32_small x : 0 <= x < 4294967296 -> u32 x = x.
Proof. apply (uwrap_small 32). Qed.
Lemma u64_small x : 0 <= x < 18446744073709551616 -> u64 x = x.
Proof. apply (uwrap_small 64). Qed.

Lemma s32_small x : -2147483648 <= x < 2147483648 -> s32 x = x.
Proof.
  intros H. unfold s32, swrap. change (2 ^ (32 - 1)) with 2147483648.
  change (2 ^ 32) with 4294967296.
  destruct (Z.ltb_spec (x mod 4294967296) 2147483648) as [E|E];
    Z.div_mod_to_equations; lia.
Qed.

Lemma s16_small x : -32768 <= x < 32768 -> s16 x = x.
Proof.
  intros H. unfold s16, swrap. change (2 ^ (16 - 1)) with 32768.
  change (2 ^ 16) with 65536.
  destruct (Z.ltb_spec (x mod 65536) 32768) as [E|E];
    Z.div_mod_to_equations; lia.
Qed.

#[export] Hint Resolve u8_range u16_range u32_range u64_range : machine.
#[export] Hint Rewrite u8_small u16_small u32_small u64_small s32_small s16_small
  using lia : machine.

(** [ring_lia]: linear arithmetic on truncated counters. *)
Ltac ring_lia :=
  unfold u8, u16, u32, u64, uwrap in *;
  change (2 ^ 8) with 256 in *; change (2 ^ 16) with 65536 in *;
  change (2 ^ 32) with 4294967296 in *;
  change (2 ^ 64) with 18446744073709551616 in *;
  Z.div_mod_to_equations; lia.

(** ** Little-endian encodings *)

Fixpoint le_bytes (n : nat) (v : Z) : list Z :=
  match n with
  | O => []
  | S n' => v mod 256 :: le_bytes n' (v / 256)
  end.

Fixpoint le_val (l : list Z) : Z :=
  match l with
  | [] => 0
  | b :: l' => b + 256 * le_val l'
  end.

Definition is_byte (b : Z) : Prop := 0 <= b < 256.

Lemma length_le_bytes n v : length (le_bytes n v) = n.
Proof. revert v. induction n as [|n IH]; intros v; simpl; [done|]. by rewrite IH. Qed.

Lemma le_bytes_bytes n v : Forall is_byte (le_bytes n v).
Proof.
  revert v. induction n as [|n IH]; intros v; simpl; constructor; [|done].
  apply Z.mod_pos_bound. lia.
Qed.

Lemma le_val_le_bytes n v : le_val (le_bytes n v) = v mod 256 ^ Z.of_nat n.
Proof.
  revert v. induction n as [|n IH]; intros v.
  - simpl. by rewrite Z.mod_1_r.
  - cbn [le_bytes le_val]. rewrite IH, Nat2Z.inj_succ, Z.pow_succ_r by lia.
    rewrite Z.rem_mul_r; lia.
Qed.

Lemma le_val_bounds l : Forall is_byte l -> 0 <= le_val l < 256 ^ Z.of_nat (length l).
Proof.
  induction 1 as [|b l Hb _ IH]; [simpl; lia|].
  cbn [le_val length]. rewrite Nat2Z.inj_succ, Z.pow_succ_r by lia.
  unfold is_byte in Hb. lia.
Qed.

Lemma le_bytes_le_val l : Forall is_byte l -> le_bytes (length l) (le_val l) = l.
Proof.
  induction 1 as [|b l Hb Hl IH]; [done|]. cbn [le_val length le_bytes].
  unfold is_byte in Hb.
  f_equal.
  - Z.div_mod_to_equations; lia.
  - rewrite Z.mul_comm, Z.div_add, Z.div_small, Z.add_0_l by lia. done.
Qed.

(** ** Outcomes and the kernel monad

    A kernel function is a state transformer.  It returns a value, panics
    (the kernel's [panic()] never returns), or goes to sleep on a channel, in
    the state it has reached, because a lock or a resource it needs is taken. *)

Inductive outcome (S A : Type) : Type :=
  | Ok (a : A) (s : S)
  | Panic (msg : string)
  | Sleeps (chan : string) (s : S).
Arguments Ok {S A} a s.
Arguments Panic {S A} msg.
Arguments Sleeps {S A} chan s.

Definition M (S A : Type) : Type := S -> outcome S A.

Definition ret {S A} (a : A) : M S A := fun s => Ok a s.

Definition bind {S A B} (m : M S A) (k : A -> M S B) : M S B := fun s =>
  match m s with
  | Ok a s' => k a s'
  | Panic msg => Panic msg
  | Sleeps c s' => Sleeps c s'
  end.

Definition panic {S A} (msg : string) : M S A := fun _ => Panic msg.
Definition sleeps {S A} (c : string) : M S A := fun s => Sleeps c s.
Definition get {S} : M S S := fun s => Ok s s.
Definition gets {S A} (f : S -> A) : M S A := fun s => Ok (f s) s.
Definition modify {S} (f : S -> S) : M S unit := fun s => Ok tt (f s).

Declare Scope kernel_scope.
Delimit Scope kernel_scope with kernel.

Notation "'let!' x := c 'in' k" := (bind c (fun x => k))
  (at level 10, x pattern, c at level 100, k at level 200,
   format "'[v' 'let!'  x  :=  c  'in' '/' k ']'") : kernel_scope.
Notation "c ;; k" := (bind c (fun _ => k))
  (at level 100, k at level 200, right associativity,
   format "'[v' c ;; '/' k ']'") : kernel_scope.

Global Open Scope kernel_scope.

(** [zoom get set m] runs [m] on a component of a larger state. *)
Definition zoom {S T A} (pr : S -> T) (up : T -> S -> S) (m : M T A) : M S A := fun s =>
  match m (pr s) with
  | Ok a t => Ok a (up t s)
  | Panic msg => Panic msg
  | Sleeps c t => Sleeps c (up t s)
  end.

(** C [for] loops over a counter: [for_up n i body] runs [body i],
    [body (i+1)], ..., [n] iterations in all; [for_find] stops at the first
    iteration that returns a value (a [return] or [break] in the body). *)
Fixpoint for_up {S} (n : nat) (i : Z) (body : Z -> M S unit) : M S unit :=
  match n with
  | O => ret tt
  | S n' => body i ;; for_up n' (i + 1) body
  end.

Fixpoint for_find {S R} (n : nat) (i : Z) (body : Z -> M S (option R)) : M S (option R) :=
  match n with
  | O => ret None
  | S n' =>
      let! r := body i in
      match r with
      | Some v => ret (Some v)
      | None => for_find n' (i + 1) body
      end
  end.

(** Loops over the entries of a table: [for_in] runs the body on each,
    [for_first] stops at the first one whose body returns a value. *)
Fixpoint for_in {S A} (l : list A) (body : A -> M S unit) : M S unit :=
  match l with
  | [] => ret tt
  | a :: l' => body a ;; for_in l' body
  end.

Fixpoint for_first {S A R} (l : list A) (body : A -> M S (option R)) : M S (option R) :=
  match l with
  | [] => ret None
  | a :: l' =>
      let! r := body a in
      match r with
      | Some v => ret (Some v)
      | None => for_first l' body
      end
  end.

(** ** Total-correctness triples

    [triple P m Q]: from every state of [P], [m] returns (it neither panics
    nor sleeps) and the value and final state satisfy [Q]. *)

Definition triple {S A} (P : S -> Prop) (m : M S A) (Q : A -> S -> Prop) : Prop :=
  forall s, P s -> exists a s', m s = Ok a s' /\ Q a s'.

Section triples.
Context {S : Type}.

Lemma triple_ret {A} (a : A) (Q : A -> S -> Prop) : triple (Q a) (ret a) Q.
Proof. intros s H. by exists a, s. Qed.

Lemma triple_bind {A B} (m : M S A) (k : A -> M S B) P R Q :
  triple P m R -> (forall a, triple (R a) (k a) Q) -> triple P (bind m k) Q.
Proof.
  intros Hm Hk s HP. destruct (Hm s HP) as (a & s' & E & HR).
  destruct (Hk a s' HR) as (b & s'' & E' & HQ).
  exists b, s''. unfold bind. by rewrite E.
Qed.

Lemma triple_conseq {A} (m : M S A) (P P' : S -> Prop) (Q Q' : A -> S -> Prop) :
  triple P m Q -> (forall s, P' s -> P s) -> (forall a s, Q a s -> Q' a s) ->
  triple P' m Q'.
Proof.
  intros Hm HP HQ s Hs. destruct (Hm s (HP s Hs)) as (a & s' & E & H).
  exists a, s'. auto.
Qed.

Lemma triple_modify (f : S -> S) (Q : unit -> S -> Prop) :
  triple (fun s => Q tt (f s)) (modify f) Q.
Proof. intros s H. by exists tt, (f s). Qed.

Lemma triple_gets {A} (f : S -> A) (Q : A -> S -> Prop) :
  triple (fun s => Q (f s) s) (gets f) Q.
Proof. intros s H. by exists (f s), s. Qed.

(** The rule for counted loops: an invariant indexed by the counter. *)
Lemma triple_for_up (I : Z -> S -> Prop) (body : Z -> M S unit) n i :
  (forall j, i <= j < i + Z.of_nat n ->
     triple (I j) (body j) (fun _ => I (j + 1))) ->
  triple (I i) (for_up n i body) (fun _ => I (i + Z.of_nat n)).
Proof.
  revert i. induction n as [|n IH]; intros i H.
  - simpl. intros s Hs. exists tt, s. rewrite Z.add_0_r. done.
  - eapply triple_bind; [apply H; lia|]. intros [].
    replace (i + Z.of_nat (Datatypes.S n)) with (i + 1 + Z.of_nat n) by lia.
    apply IH. intros j Hj. apply H. lia.
Qed.
End triples.

(** Running a bind whose first part is known to return. *)
Lemma bind_Ok {S A B} (m : M S A) (k : A -> M S B) s a s' :
  m s = Ok a s' -> bind m k s = k a s'.
Proof. unfold bind. by intros ->. Qed.

Lemma bind_Panic {S A B} (m : M S A) (k : A -> M S B) s msg :
  m s = Panic msg -> bind m k s = Panic msg.
Proof. unfold bind. by intros ->. Qed.

Lemma bind_assoc {S A B C} (m : M S A) (k : A -> M S B) (l : B -> M S C) s :
  bind (bind m k) l s = bind m (fun a => bind (k a) l) s.
Proof. unfold bind. by destruct (m s). Qed.

Lemma bind_Ok_inv {S A B} (m : M S A) (k : A -> M S B) s b s' :
  bind m k s = Ok b s' -> exists a s1, m s = Ok a s1 /\ k a s1 = Ok b s'.
Proof. unfold bind. destruct (m s); naive_solver. Qed.

(** ** Function update and ranges *)

Definition in_range (a n x : Z) : bool := (a <=? x) && (x <? a + n).

Lemma in_range_spec a n x : in_range a n x = true <-> a <= x < a + n.
Proof. unfold in_range. rewrite andb_true_iff, Z.leb_le, Z.ltb_lt. lia. Qed.

Lemma in_range_false a n x : in_range a n x = false <-> ~ (a <= x < a + n).
Proof. rewrite <-in_range_spec. destruct (in_range a n x); naive_solver. Qed.

Ltac case_range :=
  match goal with
  | |- context [in_range ?a ?n ?x] =>
      let E := fresh "E" in
      destruct (in_range a n x) eqn:E;
      [apply in_range_spec in E | apply in_range_false in E]
  | H : context [in_range ?a ?n ?x] |- _ =>
      let E := fresh "E" in
      destruct (in_range a n x) eqn:E;
      [apply in_range_spec in E | apply in_range_false in E]
  end.

(** Boolean tests of the code turned into the facts they decide. *)
Ltac breflect :=
  repeat match goal with
  | H : (_ =? _) = true |- _ => apply Z.eqb_eq in H
  | H : (_ =? _) = false |- _ => apply Z.eqb_neq in H
  | H : (_ <? _) = true |- _ => apply Z.ltb_lt in H
  | H : (_ <? _) = false |- _ => apply Z.ltb_ge in H
  | H : (_ <=? _) = true |- _ => apply Z.leb_le in H
  | H : (_ <=? _) = false |- _ => apply Z.leb_gt in H
  | H : _ && _ = true |- _ => apply andb_true_iff in H; destruct H
  | H : _ || _ = false |- _ => apply orb_false_iff in H; destruct H
  | H : negb _ = true |- _ => apply negb_true_iff in H
  | H : negb _ = false |- _ => apply negb_false_iff in H
  end.

(** ** Lists *)

Lemma elem_of_rev {A} (x : A) (l : list A) : x ∈ rev l <-> x ∈ l.
Proof. rewrite !list_elem_of_In. symmetry. apply in_rev. Qed.

(** ** Concrete runs *)

(** The state a run ends in, and that it ends there with a given result. *)
Definition end_of {S A} (m : M S A) (s : S) : S := match m s with Ok _ s' => s' | _ => s end.

Definition ends_with {S A} (eqb : A -> A -> bool) (v : A) (r : outcome S A) : bool :=
  match r with Ok w _ => eqb w v | _ => false end.

Lemma end_of_ok {S A} (eqb : A -> A -> bool) (m : M S A) s v :
  (forall x y, eqb x y = true -> x = y) -> ends_with eqb v (m s) = true -> m s = Ok v (end_of m s).
Proof. unfold ends_with, end_of. intros H. destruct (m s) as [w s'| |]; [|done..]. by intros ->%H. Qed.
