(* ===== verification/Memory.v ===== *)
(** * Physical memory

    Byte-addressed memory as a total function, with the 64-bit loads and
    stores of the kernel's data structures, the block transfers ([memset],
    [memmove]) as range updates, and the separation lemmas every component
    that shares the memory uses. *)

From S2P Require Import Prelude.

Definition mem : Type := Z -> Z.

Definition upd (m : mem) (a v : Z) : mem := fun x => if x =? a then v else m x.

(** [mem_fill m a n c]: the [n] bytes at [a] hold [c]. *)
Definition mem_fill (m : mem) (a n c : Z) : mem :=
  fun x => if in_range a n x then c else m x.

(** [mem_copy m dst src n]: the [n] bytes at [dst] hold what [src] held. *)
Definition mem_copy (m : mem) (dst src n : Z) : mem :=
  fun x => if in_range dst n x then m (x - dst + src) else m x.

(** [mem_write m a l]: the bytes of [l] are stored from [a] on. *)
Definition mem_write (m : mem) (a : Z) (l : list Z) : mem :=
  fun x => if in_range a (Z.of_nat (length l)) x
           then nth (Z.to_nat (x - a)) l 0 else m x.

(** [mem_read m a n]: the [n] bytes from [a] on. *)
Definition mem_read (m : mem) (a : Z) (n : nat) : list Z :=
  map (fun i => m (a + Z.of_nat i)) (seq 0 n).

Definition load64 (m : mem) (a : Z) : Z := le_val (mem_read m a 8).
Definition store64 (m : mem) (a v : Z) : mem := mem_write m a (le_bytes 8 v).

(** ** Extensional equality and agreement on a range *)

Definition mem_eq (m1 m2 : mem) : Prop := forall a, m1 a = m2 a.
Definition agree (m1 m2 : mem) (a n : Z) : Prop :=
  forall x, a <= x < a + n -> m1 x = m2 x.

(** [frame m1 m2 P]: the memories differ at most where [P] holds. *)
Definition frame (m1 m2 : mem) (P : Z -> Prop) : Prop :=
  forall x, ~ P x -> m1 x = m2 x.

#[export] Instance mem_eq_equiv : Equivalence mem_eq.
Proof.
  split; [intros m x; reflexivity | intros m1 m2 H x; auto |].
  intros m1 m2 m3 H H' x. by rewrite H, H'.
Qed.

#[export] Instance mem_fill_proper : Proper (mem_eq ==> eq ==> eq ==> eq ==> mem_eq) mem_fill.
Proof. intros m m' H ? a -> ? n -> ? c -> x. unfold mem_fill. by case_range. Qed.

#[export] Instance mem_write_proper : Proper (mem_eq ==> eq ==> eq ==> mem_eq) mem_write.
Proof. intros m m' H ? a -> ? l -> x. unfold mem_write. by case_range. Qed.

#[export] Instance mem_read_proper : Proper (mem_eq ==> eq ==> eq ==> eq) mem_read.
Proof. intros m m' H ? a -> ? n ->. unfold mem_read. apply map_ext. auto. Qed.

#[export] Instance load64_proper : Proper (mem_eq ==> eq ==> eq) load64.
Proof. intros m m' H ? a ->. unfold load64. by rewrite H. Qed.

(** ** Reads *)

Lemma length_mem_read m a n : length (mem_read m a n) = n.
Proof. unfold mem_read. by rewrite length_map, length_seq. Qed.

Lemma mem_read_S m a n : mem_read m a (S n) = m a :: mem_read m (a + 1) n.
Proof.
  unfold mem_read. cbn [seq map]. rewrite Z.add_0_r. f_equal.
  rewrite <-seq_shift, map_map. apply map_ext. intros i. f_equal. lia.
Qed.

Lemma mem_read_agree m1 m2 a n :
  agree m1 m2 a (Z.of_nat n) -> mem_read m1 a n = mem_read m2 a n.
Proof.
  intros H. unfold mem_read. apply map_ext_in. intros i Hi.
  apply in_seq in Hi. apply H. lia.
Qed.

Lemma load64_agree m1 m2 a : agree m1 m2 a 8 -> load64 m1 a = load64 m2 a.
Proof. intros H. unfold load64. by rewrite (mem_read_agree m1 m2). Qed.

Lemma mem_read_write_same m a l : mem_read (mem_write m a l) a (length l) = l.
Proof.
  apply nth_ext with (d := 0) (d' := 0); [by rewrite length_mem_read|].
  rewrite length_mem_read. intros i Hi. unfold mem_read.
  rewrite nth_indep with (d' := mem_write m a l (a + Z.of_nat 0%nat))
    by (rewrite length_map, length_seq; lia).
  rewrite (map_nth (fun i => mem_write m a l (a + Z.of_nat i))), seq_nth by lia.
  unfold mem_write. case_range; [|lia]. f_equal. lia.
Qed.

Lemma mem_write_agree_disjoint m a l b n :
  a + Z.of_nat (length l) <= b \/ b + n <= a -> agree (mem_write m a l) m b n.
Proof. intros H x Hx. unfold mem_write. case_range; [lia|done]. Qed.

Lemma mem_fill_agree_disjoint m a k c b n :
  a + k <= b \/ b + n <= a -> agree (mem_fill m a k c) m b n.
Proof. intros H x Hx. unfold mem_fill. case_range; [lia|done]. Qed.

Lemma store64_agree_disjoint m a v b n :
  a + 8 <= b \/ b + n <= a -> agree (store64 m a v) m b n.
Proof. intros H. apply mem_write_agree_disjoint. by rewrite length_le_bytes. Qed.

(** ** Loads and stores *)

Lemma load64_store64_same m a v : load64 (store64 m a v) a = u64 v.
Proof.
  unfold load64, store64. rewrite <-(length_le_bytes 8 v) at 2.
  rewrite mem_read_write_same, le_val_le_bytes. done.
Qed.

Lemma load64_store64_other m a b v :
  a + 8 <= b \/ b + 8 <= a -> load64 (store64 m a v) b = load64 m b.
Proof. intros H. apply load64_agree, store64_agree_disjoint. lia. Qed.

Lemma load64_fill_other m a k c b :
  a + k <= b \/ b + 8 <= a -> load64 (mem_fill m a k c) b = load64 m b.
Proof. intros H. apply load64_agree, mem_fill_agree_disjoint. lia. Qed.

Lemma load64_fill_zero m a k b :
  a <= b -> b + 8 <= a + k -> load64 (mem_fill m a k 0) b = 0.
Proof.
  intros H1 H2. unfold load64.
  rewrite (mem_read_agree _ (fun _ => 0)); [done|].
  intros x Hx. unfold mem_fill. case_range; [done|lia].
Qed.

Lemma agree_sym m1 m2 a n : agree m1 m2 a n -> agree m2 m1 a n.
Proof. intros H x Hx. symmetry. auto. Qed.

Lemma agree_trans m1 m2 m3 a n : agree m1 m2 a n -> agree m2 m3 a n -> agree m1 m3 a n.
Proof. intros H H' x Hx. rewrite H; auto. Qed.

Lemma agree_sub m1 m2 a n b k :
  agree m1 m2 a n -> a <= b -> b + k <= a + n -> agree m1 m2 b k.
Proof. intros H ?? x Hx. apply H. lia. Qed.

#[export] Hint Resolve agree_sym : machine.
