(* ===== verification/CString.v ===== *)
(** * The kernel's string library: [src/kernel/lib/string.c]

    Every routine is the C loop over byte memory; the theorems relate each
    loop to the range update or the list function it stands for. *)

From S2P Require Import Prelude Memory.

(** ** Definitions *)

Fixpoint memset_loop (m : mem) (cdst c i : Z) (k : nat) : mem :=
  match k with
  | O => m
  | S k' => memset_loop (upd m (cdst + i) (u8 c)) cdst c (i + 1) k'
  end.

Definition memset (m : mem) (dst c n : Z) : mem :=
  memset_loop m dst c 0 (Z.to_nat n).

Fixpoint memcmp_loop (m : mem) (s1 s2 : Z) (n : nat) : Z :=
  match n with
  | O => 0
  | S n' => if m s1 =? m s2 then memcmp_loop m (s1 + 1) (s2 + 1) n' else m s1 - m s2
  end.

Definition memcmp (m : mem) (v1 v2 n : Z) : Z := memcmp_loop m v1 v2 (Z.to_nat n).

(** [while(n-- > 0) *d++ = *s++;] and [while(n-- > 0) *--d = *--s;] *)
Fixpoint move_up (m : mem) (d s : Z) (n : nat) : mem :=
  match n with
  | O => m
  | S n' => move_up (upd m d (m s)) (d + 1) (s + 1) n'
  end.

Fixpoint move_down (m : mem) (d s : Z) (n : nat) : mem :=
  match n with
  | O => m
  | S n' => move_down (upd m (d - 1) (m (s - 1))) (d - 1) (s - 1) n'
  end.

Definition memmove (m : mem) (dst src n : Z) : mem :=
  if n =? 0 then m
  else if (src <? dst) && (dst <? src + n)
  then move_down m (dst + n) (src + n) (Z.to_nat n)
  else move_up m dst src (Z.to_nat n).

Definition memcpy (m : mem) (dst src n : Z) : mem := memmove m dst src n.

Fixpoint strncmp_loop (m : mem) (p q : Z) (n : nat) : Z :=
  match n with
  | O => 0
  | S n' =>
      if negb (m p =? 0) && (m p =? m q)
      then strncmp_loop m (p + 1) (q + 1) n'
      else u8 (m p) - u8 (m q)
  end.

Definition strncmp (m : mem) (p q n : Z) : Z := strncmp_loop m p q (Z.to_nat n).

(** [while(n-- > 0) *s++ = 0;] *)
Fixpoint zero_pad (m : mem) (s : Z) (n : nat) : mem :=
  match n with
  | O => m
  | S n' => zero_pad (upd m s 0) (s + 1) n'
  end.

(** The first loop of [strncpy] copies up to and including the NUL.  When it
    stops at the NUL, [n] has been decremented once for that byte; when it
    stops because [n] ran out, the padding loop sees [n < 0]. *)
Fixpoint strncpy_loop (m : mem) (s t : Z) (n : nat) : mem :=
  match n with
  | O => m
  | S n' =>
      let m' := upd m s (m t) in
      if m t =? 0 then zero_pad m' (s + 1) n' else strncpy_loop m' (s + 1) (t + 1) n'
  end.

Definition strncpy (m : mem) (s t n : Z) : mem := strncpy_loop m s t (Z.to_nat n).

(** [while(--n > 0 && ( *s++ = *t++) != 0) ; *s = 0;] with [n-1] iterations. *)
Fixpoint safestrcpy_loop (m : mem) (s t : Z) (n : nat) : mem :=
  match n with
  | O => upd m s 0
  | S n' =>
      let m' := upd m s (m t) in
      if m t =? 0 then upd m' (s + 1) 0 else safestrcpy_loop m' (s + 1) (t + 1) n'
  end.

Definition safestrcpy (m : mem) (s t n : Z) : mem :=
  if n <=? 0 then m else safestrcpy_loop m s t (Z.to_nat (n - 1)).

(** [strlen] scans until a NUL; [fuel] bounds the scan. *)
Fixpoint strlen_loop (fuel : nat) (m : mem) (s n : Z) : option Z :=
  match fuel with
  | O => None
  | S f => if m (s + n) =? 0 then Some n else strlen_loop f m s (n + 1)
  end.

Definition strlen (fuel : nat) (m : mem) (s : Z) : option Z := strlen_loop fuel m s 0.

(** ** [memset] is a range fill *)

Lemma memset_loop_spec m d c i k :
  0 <= i ->
  mem_eq (memset_loop m d c i k) (mem_fill m (d + i) (Z.of_nat k) (u8 c)).
Proof.
  revert m i. induction k as [|k IH]; intros m i Hi x; cbn [memset_loop].
  - unfold mem_fill. case_range; [lia|done].
  - rewrite IH by lia. unfold mem_fill, upd.
    repeat case_range; try (destruct (Z.eqb_spec x (d + i)); lia || done).
    all: destruct (Z.eqb_spec x (d + i)); [done|lia].
Qed.

(** [memset] sets exactly the [n] bytes at [dst] to the low byte of [c]. *)
Theorem memset_spec m dst c n :
  mem_eq (memset m dst c n) (mem_fill m dst (Z.max 0 n) (u8 c)).
Proof.
  unfold memset. rewrite memset_loop_spec, Z.add_0_r by lia.
  by replace (Z.of_nat (Z.to_nat n)) with (Z.max 0 n) by lia.
Qed.

(** ** [memmove] is a copy, whatever the overlap *)

Lemma move_up_spec m d s n x :
  d <= s \/ s + Z.of_nat n <= d ->
  move_up m d s n x = mem_copy m d s (Z.of_nat n) x.
Proof.
  revert m d s. induction n as [|n IH]; intros m d s H; cbn [move_up].
  - unfold mem_copy. case_range; [lia|done].
  - rewrite IH by lia. unfold mem_copy, upd.
    case_range.
    + destruct (Z.eqb_spec (x - (d + 1) + (s + 1)) d); [lia|].
      case_range; [|lia]. f_equal. lia.
    + destruct (Z.eqb_spec x d) as [->|]; case_range; try lia; f_equal; lia.
Qed.

Lemma move_down_spec m d s n x :
  s <= d \/ d + Z.of_nat n <= s ->
  move_down m (d + Z.of_nat n) (s + Z.of_nat n) n x = mem_copy m d s (Z.of_nat n) x.
Proof.
  revert m d s. induction n as [|n IH]; intros m d s H; cbn [move_down].
  - unfold mem_copy. case_range; [lia|done].
  - replace (d + Z.of_nat (S n) - 1) with (d + Z.of_nat n) by lia.
    replace (s + Z.of_nat (S n) - 1) with (s + Z.of_nat n) by lia.
    rewrite IH by lia. unfold mem_copy, upd.
    case_range.
    + destruct (Z.eqb_spec (x - d + s) (d + Z.of_nat n)); [lia|].
      case_range; [done|lia].
    + destruct (Z.eqb_spec x (d + Z.of_nat n)) as [->|]; case_range; try lia; f_equal; lia.
Qed.

Lemma memmove_copy m dst src n :
  0 <= n -> mem_eq (memmove m dst src n) (mem_copy m dst src n).
Proof.
  intros Hn x. unfold memmove. destruct (Z.eqb_spec n 0) as [->|_].
  { unfold mem_copy. case_range; [lia|done]. }
  rewrite <-(Z2Nat.id n Hn). generalize (Z.to_nat n). clear n Hn. intros n.
  rewrite Nat2Z.id.
  destruct (Z.ltb_spec src dst), (Z.ltb_spec dst (src + Z.of_nat n)); simpl;
    [apply move_down_spec | apply move_up_spec..]; lia.
Qed.

(** ** Comparisons *)

Lemma memcmp_loop_zero m p q n :
  memcmp_loop m p q n = 0 <-> mem_read m p n = mem_read m q n.
Proof.
  revert p q. induction n as [|n IH]; intros p q; cbn [memcmp_loop]; [done|].
  rewrite !mem_read_S. destruct (Z.eqb_spec (m p) (m q)) as [E|E].
  - rewrite IH. split; [intros ->; congruence|congruence].
  - split; [lia|congruence].
Qed.

(** [memcmp] is zero exactly when the two regions hold the same bytes. *)
Theorem memcmp_zero m p q n :
  memcmp m p q n = 0 <-> mem_read m p (Z.to_nat n) = mem_read m q (Z.to_nat n).
Proof. apply memcmp_loop_zero. Qed.

(** The C string at [p], cut after [n] bytes. *)
Fixpoint cstr (m : mem) (p : Z) (n : nat) : list Z :=
  match n with
  | O => []
  | S n' => if m p =? 0 then [] else m p :: cstr m (p + 1) n'
  end.

Lemma cstr_S m p n :
  cstr m p (S n) = if m p =? 0 then [] else m p :: cstr m (p + 1) n.
Proof. done. Qed.

Lemma length_cstr m p n : (length (cstr m p n) <= n)%nat.
Proof.
  revert p. induction n as [|n IH]; intros p; cbn [cstr]; [done|].
  destruct (m p =? 0); simpl; [lia|]. specialize (IH (p + 1)). lia.
Qed.

Lemma cstr_agree m1 m2 p n :
  agree m1 m2 p (Z.of_nat n) -> cstr m1 p n = cstr m2 p n.
Proof.
  revert p. induction n as [|n IH]; intros p H; cbn [cstr]; [done|].
  rewrite (H p) by lia. destruct (m2 p =? 0); [done|]. f_equal.
  apply IH. eapply agree_sub; [exact H|lia|lia].
Qed.

Definition bytes_mem (m : mem) : Prop := forall a, is_byte (m a).

Lemma strncmp_loop_zero m p q n :
  bytes_mem m -> strncmp_loop m p q n = 0 <-> cstr m p n = cstr m q n.
Proof.
  intros Hm. revert p q. induction n as [|n IH]; intros p q; cbn [strncmp_loop cstr]; [done|].
  pose proof (Hm p) as Hp. pose proof (Hm q) as Hq. unfold is_byte in *.
  destruct (Z.eqb_spec (m p) 0) as [E0|E0]; simpl.
  - rewrite !u8_small by lia. destruct (Z.eqb_spec (m q) 0) as [E1|E1]; [split; [done|lia]|].
    split; [lia|done].
  - destruct (Z.eqb_spec (m p) (m q)) as [E|E].
    + rewrite <-E. destruct (Z.eqb_spec (m p) 0); [done|]. rewrite IH.
      split; [by intros ->|by intros [= ->]].
    + rewrite !u8_small by lia. destruct (Z.eqb_spec (m q) 0); [split; [lia|done]|].
      split; [lia|]. intros [=]. congruence.
Qed.

(** ** Copies of C strings *)

Lemma zero_pad_spec m s n x :
  zero_pad m s n x = mem_fill m s (Z.of_nat n) 0 x.
Proof.
  revert m s. induction n as [|n IH]; intros m s; cbn [zero_pad].
  - unfold mem_fill. case_range; [lia|done].
  - rewrite IH. unfold mem_fill, upd. repeat case_range; try lia; try done;
      destruct (Z.eqb_spec x s); try lia; done.
Qed.

Lemma upd_agree m a v b n : a < b \/ b + n <= a -> agree (upd m a v) m b n.
Proof. intros H x Hx. unfold upd. destruct (Z.eqb_spec x a); [lia|done]. Qed.

Lemma strncpy_loop_frame m s t n x :
  ~ (s <= x < s + Z.of_nat n) -> strncpy_loop m s t n x = m x.
Proof.
  revert m s t. induction n as [|n IH]; intros m s t H; cbn [strncpy_loop]; [done|].
  assert (Hx : x <> s) by lia.
  destruct (m t =? 0).
  - rewrite zero_pad_spec. unfold mem_fill. case_range; [lia|].
    unfold upd. by destruct (Z.eqb_spec x s).
  - rewrite IH by lia. unfold upd. by destruct (Z.eqb_spec x s).
Qed.

Lemma mem_read_zeros m s n :
  (forall x, s <= x < s + Z.of_nat n -> m x = 0) -> mem_read m s n = repeat 0 n.
Proof.
  revert s. induction n as [|n IH]; intros s H; [done|].
  rewrite mem_read_S, H by lia. cbn [repeat]. f_equal. apply IH. intros. apply H. lia.
Qed.

Lemma strncpy_loop_read m s t n :
  s + Z.of_nat n <= t \/ t + Z.of_nat n <= s ->
  mem_read (strncpy_loop m s t n) s n =
  cstr m t n ++ repeat 0 (n - length (cstr m t n)).
Proof.
  revert m s t. induction n as [|n IH]; intros m s t H; cbn [strncpy_loop cstr]; [done|].
  destruct (Z.eqb_spec (m t) 0) as [E|E].
  - apply mem_read_zeros. intros x Hx. rewrite zero_pad_spec. unfold mem_fill, upd.
    case_range; [done|]. destruct (Z.eqb_spec x s); [done|lia].
  - rewrite mem_read_S, strncpy_loop_frame by lia.
    rewrite IH by lia.
    rewrite (cstr_agree (upd m s (m t)) m) by (apply upd_agree; lia).
    unfold upd. rewrite Z.eqb_refl. done.
Qed.

Lemma safestrcpy_loop_frame m s t n x :
  ~ (s <= x < s + Z.of_nat n + 1) -> safestrcpy_loop m s t n x = m x.
Proof.
  revert m s t. induction n as [|n IH]; intros m s t H; cbn [safestrcpy_loop].
  - unfold upd. destruct (Z.eqb_spec x s); [lia|done].
  - destruct (m t =? 0).
    + unfold upd. destruct (Z.eqb_spec x (s + 1)); [lia|].
      destruct (Z.eqb_spec x s); [lia|done].
    + rewrite IH by lia. unfold upd. destruct (Z.eqb_spec x s); [lia|done].
Qed.

Lemma safestrcpy_loop_read m s t n :
  s + Z.of_nat n < t \/ t + Z.of_nat n <= s ->
  cstr (safestrcpy_loop m s t n) s (S n) = cstr m t n.
Proof.
  revert m s t. induction n as [|n IH]; intros m s t H.
  - cbn [safestrcpy_loop cstr]. unfold upd. by rewrite Z.eqb_refl.
  - cbn [safestrcpy_loop]. rewrite cstr_S, (cstr_S m t).
    destruct (Z.eqb_spec (m t) 0) as [E|E].
    + unfold upd at 1. destruct (Z.eqb_spec s (s + 1)); [lia|].
      unfold upd at 1. by rewrite Z.eqb_refl, E.
    + rewrite safestrcpy_loop_frame by lia. unfold upd at 1 2. rewrite Z.eqb_refl.
      destruct (Z.eqb_spec (m t) 0); [done|]. f_equal.
      rewrite IH by lia. apply cstr_agree, upd_agree. lia.
Qed.

(** ** [strlen] *)

Lemma strlen_loop_spec fuel m s n k :
  (forall i, n <= i < k -> m (s + i) <> 0) -> m (s + k) = 0 ->
  n <= k < n + Z.of_nat fuel -> strlen_loop fuel m s n = Some k.
Proof.
  revert n. induction fuel as [|f IH]; intros n Hne H0 Hk; [lia|].
  cbn [strlen_loop]. destruct (Z.eqb_spec (m (s + n)) 0) as [E|E].
  - destruct (Z.eq_dec n k) as [->|]; [done|]. exfalso. apply (Hne n); [lia|done].
  - apply IH; [intros i Hi; apply Hne; lia|done|].
    destruct (Z.eq_dec n k) as [->|]; [congruence|lia].
Qed.

(** ** The two routines the kernel relies on most *)

(** [memmove] copies correctly whatever the overlap of the two ranges:
    afterwards the destination holds the bytes the source held before the
    call, and no other byte has changed. *)
Theorem memmove_correct m dst src n :
  0 <= n ->
  (forall i, 0 <= i < n -> memmove m dst src n (dst + i) = m (src + i)) /\
  frame (memmove m dst src n) m (fun x => dst <= x < dst + n).
Proof.
  intros Hn. pose proof (memmove_copy m dst src n Hn) as E. unfold mem_copy in E. split.
  - intros i Hi. rewrite E. case_range; [f_equal; lia|lia].
  - intros x Hx. rewrite E. case_range; [done|done].
Qed.

(** [safestrcpy] always leaves a NUL-terminated string: the first [n-1]
    bytes of the source string at most, written inside the [n] bytes of the
    destination. *)
Theorem safestrcpy_correct m s t n :
  0 < n -> s + n <= t \/ t + n <= s ->
  let m' := safestrcpy m s t n in
  cstr m' s (Z.to_nat n) = cstr m t (Z.to_nat (n - 1)) /\
  (length (cstr m' s (Z.to_nat n)) < Z.to_nat n)%nat /\
  frame m' m (fun x => s <= x < s + n).
Proof.
  intros Hn Hd. cbv zeta. unfold safestrcpy. destruct (Z.leb_spec n 0); [lia|].
  replace (Z.to_nat n) with (S (Z.to_nat (n - 1))) by lia.
  rewrite safestrcpy_loop_read by lia. split; [done|]. split.
  - pose proof (length_cstr m t (Z.to_nat (n - 1))). lia.
  - intros x Hx. apply safestrcpy_loop_frame. lia.
Qed.

