(* ===== verification/Riscv.v ===== *)
(** * Page and address-space constants

    The macros of [include/kernel/riscv.h] (pages, page-table entries, Sv39
    indices) and of [src/kernel/platform/qemu/include/memlayout.h], with the
    arithmetic facts the memory components rely on. *)

From S2P Require Import Prelude.

Definition PGSIZE : Z := 4096.
Definition PGSHIFT : Z := 12.

(** [(((sz)+PGSIZE-1) & ~(PGSIZE-1))] on [uint64] *)
Definition PGROUNDUP (sz : Z) : Z := Z.land (u64 (sz + PGSIZE - 1)) (Z.lnot (PGSIZE - 1)).
Definition PGROUNDDOWN (a : Z) : Z := Z.land a (Z.lnot (PGSIZE - 1)).

Definition PTE_V : Z := 1.
Definition PTE_R : Z := 2.
Definition PTE_W : Z := 4.
Definition PTE_X : Z := 8.
Definition PTE_U : Z := 16.

Definition PA2PTE (pa : Z) : Z := Z.shiftl (Z.shiftr pa 12) 10.
Definition PTE2PA (pte : Z) : Z := u64 (Z.shiftl (Z.shiftr pte 10) 12).
Definition PTE_FLAGS (pte : Z) : Z := Z.land pte 0x3FF.

Definition PXMASK : Z := 0x1FF.
Definition PXSHIFT (level : Z) : Z := PGSHIFT + 9 * level.
Definition PX (level va : Z) : Z := Z.land (Z.shiftr va (PXSHIFT level)) PXMASK.

Definition MAXVA : Z := Z.shiftl 1 (9 + 9 + 9 + 12 - 1).

Definition UART0 : Z := 0x10000000.
Definition VIRTIO0 : Z := 0x10001000.
Definition CLINT : Z := 0x2000000.
Definition CLINT_MTIME : Z := CLINT + 0xBFF8.
Definition PLIC : Z := 0x0c000000.
Definition KERNBASE : Z := 0x80200000.
Definition PHYSTOP : Z := KERNBASE + 128 * 1024 * 1024.
Definition TRAMPOLINE : Z := MAXVA - PGSIZE.
Definition TRAPFRAME : Z := TRAMPOLINE - PGSIZE.
Definition KSTACK (p : Z) : Z := TRAMPOLINE - (p + 1) * 2 * PGSIZE.

(** [*pte & flag] used as a condition *)
Definition has (x flag : Z) : bool := negb (Z.land x flag =? 0).

Definition aligned (a : Z) : Prop := a mod PGSIZE = 0.

Lemma MAXVA_eq : MAXVA = 274877906944.
Proof. reflexivity. Qed.

(** Arithmetic on page-aligned addresses. *)
Ltac page_lia := unfold aligned, PGSIZE in *; Z.div_mod_to_equations; lia.

(** ** Rounding *)

Lemma land_lnot_mask a : Z.land a (Z.lnot 4095) = a - a mod 4096.
Proof.
  rewrite <-Z.ldiff_land. change 4095 with (Z.ones 12).
  rewrite Z.ldiff_ones_r, Z.shiftl_mul_pow2, Z.shiftr_div_pow2 by lia.
  change (2 ^ 12) with 4096. Z.div_mod_to_equations; lia.
Qed.

Lemma PGROUNDDOWN_eq a : PGROUNDDOWN a = a - a mod 4096.
Proof. apply land_lnot_mask. Qed.

Lemma PGROUNDUP_eq a :
  0 <= a < 18446744073709551616 - 4096 ->
  PGROUNDUP a = (a + 4095) - (a + 4095) mod 4096.
Proof.
  intros H. unfold PGROUNDUP, PGSIZE. rewrite u64_small by lia.
  rewrite land_lnot_mask. f_equal; [lia|f_equal; lia].
Qed.

Lemma PGROUNDDOWN_aligned a : aligned (PGROUNDDOWN a).
Proof. unfold aligned. rewrite PGROUNDDOWN_eq. unfold PGSIZE. Z.div_mod_to_equations; lia. Qed.

Lemma PGROUNDDOWN_bounds a : PGROUNDDOWN a <= a < PGROUNDDOWN a + 4096.
Proof. rewrite PGROUNDDOWN_eq. Z.div_mod_to_equations; lia. Qed.

Lemma PGROUNDDOWN_id a : aligned a -> PGROUNDDOWN a = a.
Proof. unfold aligned, PGSIZE. rewrite PGROUNDDOWN_eq. lia. Qed.

Lemma PGROUNDUP_aligned a :
  0 <= a < 18446744073709551616 - 4096 -> aligned (PGROUNDUP a).
Proof. intros. unfold aligned, PGSIZE. rewrite PGROUNDUP_eq by lia. Z.div_mod_to_equations; lia. Qed.

Lemma PGROUNDUP_bounds a :
  0 <= a < 18446744073709551616 - 4096 -> a <= PGROUNDUP a < a + 4096.
Proof. intros. rewrite PGROUNDUP_eq by lia. Z.div_mod_to_equations; lia. Qed.

Lemma PGROUNDUP_id a :
  0 <= a < 18446744073709551616 - 4096 -> aligned a -> PGROUNDUP a = a.
Proof.
  unfold aligned, PGSIZE. intros. rewrite PGROUNDUP_eq by lia. Z.div_mod_to_equations; lia.
Qed.

(** ** Page-table entries *)

Lemma shiftr_small f n : 0 <= n -> 0 <= f < 2 ^ n -> Z.shiftr f n = 0.
Proof. intros. rewrite Z.shiftr_div_pow2 by lia. apply Z.div_small. lia. Qed.

Lemma shiftl_land_ones y n : 0 <= n -> Z.land (Z.shiftl y n) (Z.ones n) = 0.
Proof.
  intros. rewrite Z.land_ones, Z.shiftl_mul_pow2 by lia. apply Z.mod_mul. lia.
Qed.

(** A page-table entry gives back the address and the flags it was made of. *)
Lemma PTE2PA_PA2PTE pa f :
  0 <= pa < 18446744073709551616 -> aligned pa -> 0 <= f < 1024 ->
  PTE2PA (Z.lor (PA2PTE pa) f) = pa.
Proof.
  unfold aligned, PGSIZE. intros Hpa Hal Hf. unfold PTE2PA, PA2PTE.
  rewrite Z.shiftr_lor, (shiftr_small f 10), Z.lor_0_r by (change (2 ^ 10) with 1024; lia).
  rewrite Z.shiftr_shiftl_l, Z.sub_diag, Z.shiftl_0_r by lia.
  rewrite Z.shiftl_mul_pow2, Z.shiftr_div_pow2 by lia. change (2 ^ 12) with 4096.
  rewrite u64_small; Z.div_mod_to_equations; lia.
Qed.

Lemma PTE_FLAGS_PA2PTE pa f : 0 <= f < 1024 -> PTE_FLAGS (Z.lor (PA2PTE pa) f) = f.
Proof.
  intros Hf. unfold PTE_FLAGS, PA2PTE. change 0x3FF with (Z.ones 10).
  rewrite Z.land_lor_distr_l, shiftl_land_ones, Z.lor_0_l, Z.land_ones by lia.
  apply Z.mod_small. lia.
Qed.

Lemma land_flags pte f : 0 <= f < 1024 -> Z.land (PTE_FLAGS pte) f = Z.land pte f.
Proof.
  intros Hf. unfold PTE_FLAGS. rewrite <-Z.land_assoc. f_equal.
  rewrite Z.land_comm. change 0x3FF with (Z.ones 10). rewrite Z.land_ones by lia.
  apply Z.mod_small. lia.
Qed.

Lemma has_PA2PTE pa f g :
  0 <= f < 1024 -> 0 <= g < 1024 -> has (Z.lor (PA2PTE pa) f) g = has f g.
Proof.
  intros Hf Hg. unfold has. by rewrite <-land_flags, PTE_FLAGS_PA2PTE.
Qed.

Lemma lor_range a b n : 0 <= n -> 0 <= a < 2 ^ n -> 0 <= b < 2 ^ n -> 0 <= Z.lor a b < 2 ^ n.
Proof.
  intros Hn Ha Hb. split; [apply Z.lor_nonneg; lia|].
  destruct (Z.eq_dec (Z.lor a b) 0) as [->|]; [lia|].
  assert (0 < Z.lor a b) by (assert (0 <= Z.lor a b) by (apply Z.lor_nonneg; lia); lia).
  apply Z.log2_lt_pow2; [done|]. rewrite Z.log2_lor by lia.
  apply Z.max_lub_lt.
  - destruct (Z.eq_dec a 0) as [->|]; [|apply Z.log2_lt_pow2; lia].
    destruct (Z.eq_dec n 0) as [->|]; [|simpl; lia].
    simpl in *. assert (b = 0) by lia. subst. done.
  - destruct (Z.eq_dec b 0) as [->|]; [|apply Z.log2_lt_pow2; lia].
    destruct (Z.eq_dec n 0) as [->|]; [|simpl; lia].
    simpl in *. assert (a = 0) by lia. subst. done.
Qed.

Lemma PA2PTE_range pa : 0 <= pa < 18446744073709551616 -> 0 <= PA2PTE pa < 2 ^ 62.
Proof.
  intros H. unfold PA2PTE. rewrite Z.shiftl_mul_pow2, Z.shiftr_div_pow2 by lia.
  change (2 ^ 62) with 4611686018427387904. change (2 ^ 12) with 4096.
  change (2 ^ 10) with 1024. Z.div_mod_to_equations; lia.
Qed.

(** ** Sv39 indices *)

Lemma PX_eq level va :
  0 <= level -> PX level va = (va / 2 ^ (12 + 9 * level)) mod 512.
Proof.
  intros. unfold PX, PXSHIFT, PGSHIFT, PXMASK. change 0x1FF with (Z.ones 9).
  rewrite Z.land_ones, Z.shiftr_div_pow2 by lia. done.
Qed.

Lemma PX_range level va : 0 <= level -> 0 <= PX level va < 512.
Proof. intros. rewrite PX_eq by lia. apply Z.mod_pos_bound. lia. Qed.

(** Two addresses below [MAXVA] with the same three indices are on the same page. *)
(** The addresses that the three-level tables of Sv39 can index; the kernel
    only uses the lower half, up to [MAXVA]. *)
Definition VASPAN : Z := 2 * MAXVA.

Lemma VASPAN_eq : VASPAN = 549755813888.
Proof. reflexivity. Qed.

Lemma PX_inj va va' :
  0 <= va < VASPAN -> 0 <= va' < VASPAN ->
  PX 2 va = PX 2 va' -> PX 1 va = PX 1 va' -> PX 0 va = PX 0 va' ->
  va / 4096 = va' / 4096.
Proof.
  rewrite VASPAN_eq. rewrite !PX_eq by lia.
  change (2 ^ (12 + 9 * 2)) with 1073741824. change (2 ^ (12 + 9 * 1)) with 2097152.
  change (2 ^ (12 + 9 * 0)) with 4096. intros. Z.div_mod_to_equations. lia.
Qed.

Lemma PX_page level va va' :
  0 <= level -> va / 4096 = va' / 4096 -> PX level va = PX level va'.
Proof.
  intros Hl E. rewrite !PX_eq by lia.
  rewrite Z.pow_add_r by lia. change (2 ^ 12) with 4096.
  rewrite <-!Zdiv.Zdiv_Zdiv by (try apply Z.pow_nonneg; lia). by rewrite E.
Qed.
