(* ===== verification/Csr.v ===== *)
(** * The registers of a hart: [include/kernel/riscv.h]

    The supervisor control registers and the thread pointer that the kernel
    reads and writes through the inline functions of [riscv.h].  A register is
    a 64-bit value that holds what was written last.  The accessors of the
    machine-mode registers, which this kernel (started by the SBI firmware in
    supervisor mode) never calls, are left out. *)

From S2P Require Import Prelude Riscv.

Record hart := mkhart {
  sstatus : Z; sip : Z; sie : Z; sepc : Z; stvec : Z; satp : Z; scause : Z; stval : Z; tp : Z
}.

Inductive sstatus_bit := SSTATUS_SPP | SSTATUS_SPIE | SSTATUS_UPIE | SSTATUS_SIE | SSTATUS_UIE.
Definition sstatus_val (b : sstatus_bit) : Z :=
  match b with
  | SSTATUS_SPP => Z.shiftl 1 8
  | SSTATUS_SPIE => Z.shiftl 1 5
  | SSTATUS_UPIE => Z.shiftl 1 4
  | SSTATUS_SIE => Z.shiftl 1 1
  | SSTATUS_UIE => Z.shiftl 1 0
  end.
Coercion sstatus_val : sstatus_bit >-> Z.

Inductive sie_bit := SIE_SEIE | SIE_STIE | SIE_SSIE.
Definition sie_val (b : sie_bit) : Z :=
  match b with SIE_SEIE => Z.shiftl 1 9 | SIE_STIE => Z.shiftl 1 5 | SIE_SSIE => Z.shiftl 1 1 end.
Coercion sie_val : sie_bit >-> Z.


Definition r_sstatus : M hart Z := gets sstatus.
Definition w_sstatus (x : Z) : M hart unit := modify (fun h =>
  mkhart (u64 x) (sip h) (sie h) (sepc h) (stvec h) (satp h) (scause h) (stval h) (tp h)).
Definition r_sip : M hart Z := gets sip.
Definition w_sip (x : Z) : M hart unit := modify (fun h =>
  mkhart (sstatus h) (u64 x) (sie h) (sepc h) (stvec h) (satp h) (scause h) (stval h) (tp h)).
Definition r_sie : M hart Z := gets sie.
Definition w_sie (x : Z) : M hart unit := modify (fun h =>
  mkhart (sstatus h) (sip h) (u64 x) (sepc h) (stvec h) (satp h) (scause h) (stval h) (tp h)).
Definition r_sepc : M hart Z := gets sepc.
Definition w_sepc (x : Z) : M hart unit := modify (fun h =>
  mkhart (sstatus h) (sip h) (sie h) (u64 x) (stvec h) (satp h) (scause h) (stval h) (tp h)).
Definition w_stvec (x : Z) : M hart unit := modify (fun h =>
  mkhart (sstatus h) (sip h) (sie h) (sepc h) (u64 x) (satp h) (scause h) (stval h) (tp h)).
Definition r_satp : M hart Z := gets satp.
Definition w_satp (x : Z) : M hart unit := modify (fun h =>
  mkhart (sstatus h) (sip h) (sie h) (sepc h) (stvec h) (u64 x) (scause h) (stval h) (tp h)).
Definition r_scause : M hart Z := gets scause.
Definition r_stval : M hart Z := gets stval.
Definition r_tp : M hart Z := gets tp.

Definition intr_on : M hart unit := let! x := r_sstatus in w_sstatus (Z.lor x SSTATUS_SIE).
Definition intr_off : M hart unit :=
  let! x := r_sstatus in w_sstatus (Z.land x (Z.lnot SSTATUS_SIE)).
Definition intr_get : M hart bool :=
  let! x := r_sstatus in ret (has x SSTATUS_SIE).

(** [(SATP_SV39 | (((uint64)pagetable) >> 12))] *)
Definition SATP_SV39 : Z := Z.shiftl 8 60.
Definition MAKE_SATP (pagetable : Z) : Z := Z.lor SATP_SV39 (Z.shiftr pagetable 12).

(** ** Facts *)

(** Interrupts of a hart are enabled. *)
Definition enabled (h : hart) : bool := has (sstatus h) SSTATUS_SIE.

(** The hart with its interrupt-enable bit set or cleared. *)
Definition set_sie (b : bool) (h : hart) : hart :=
  mkhart (if b then Z.lor (sstatus h) SSTATUS_SIE else Z.land (sstatus h) (Z.lnot SSTATUS_SIE))
    (sip h) (sie h) (sepc h) (stvec h) (satp h) (scause h) (stval h) (tp h).

Definition hart_ok (h : hart) : Prop := 0 <= sstatus h < 2 ^ 64.

Lemma has_SIE x : has x SSTATUS_SIE = Z.testbit x 1.
Proof.
  unfold has. change (sstatus_val SSTATUS_SIE) with (2 ^ 1). destruct (Z.testbit x 1) eqn:E.
  - apply negb_true_iff, Z.eqb_neq. intros H.
    assert (Z.testbit (Z.land x (2 ^ 1)) 1 = true) by (rewrite Z.land_spec, E; done).
    rewrite H in H0. by rewrite Z.bits_0 in H0.
  - apply negb_false_iff, Z.eqb_eq, Z.bits_inj'. intros n Hn.
    rewrite Z.land_spec, Z.bits_0, Z.pow2_bits_eqb by lia.
    destruct (Z.eqb_spec 1 n) as [<-|]; [by rewrite E|apply andb_false_r].
Qed.

Lemma land_lnot_range x m : 0 <= x < 2 ^ 64 -> 0 <= Z.land x (Z.lnot m) < 2 ^ 64.
Proof.
  intros H. rewrite <- (Z.mod_small x (2 ^ 64)) by done.
  rewrite <- Z.land_ones, <- Z.land_assoc, (Z.land_comm (Z.ones 64)) by lia.
  rewrite Z.land_assoc, Z.land_ones by lia. apply Z.mod_pos_bound. lia.
Qed.

Lemma set_sie_ok b h : hart_ok h -> hart_ok (set_sie b h).
Proof.
  unfold hart_ok. intros H. destruct b; simpl.
  - apply lor_range; [lia|done|]. split; vm_compute; done.
  - by apply land_lnot_range.
Qed.

Lemma intr_on_run h : hart_ok h -> intr_on h = Ok tt (set_sie true h).
Proof.
  intros H. unfold intr_on, bind, r_sstatus, gets, w_sstatus, modify, set_sie.
  rewrite u64_small; [done|]. apply (set_sie_ok true) in H. exact H.
Qed.

Lemma intr_off_run h : hart_ok h -> intr_off h = Ok tt (set_sie false h).
Proof.
  intros H. unfold intr_off, bind, r_sstatus, gets, w_sstatus, modify, set_sie.
  rewrite u64_small; [done|]. apply (set_sie_ok false) in H. exact H.
Qed.

Lemma enabled_set_sie b h : enabled (set_sie b h) = b.
Proof.
  unfold enabled. rewrite has_SIE. destruct b; cbn [set_sie sstatus].
  - rewrite Z.lor_spec. apply orb_true_r.
  - rewrite Z.land_spec. apply andb_false_r.
Qed.

Lemma sie_bit_set n : 0 <= n -> Z.testbit SSTATUS_SIE n = (1 =? n).
Proof. intros. change (sstatus_val SSTATUS_SIE) with (2 ^ 1). apply Z.pow2_bits_eqb. lia. Qed.

Lemma set_sie_id b h : enabled h = b -> set_sie b h = h.
Proof.
  unfold enabled. rewrite has_SIE. intros E. destruct h as [ss p1 p2 p3 p4 p5 p6 p7 p8].
  cbn [sstatus] in E. unfold set_sie; cbn. f_equal. apply Z.bits_inj'. intros n Hn. destruct b.
  - rewrite Z.lor_spec, sie_bit_set by done.
    destruct (Z.eqb_spec 1 n) as [<-|]; [by rewrite E|apply orb_false_r].
  - rewrite Z.land_spec, Z.lnot_spec, sie_bit_set by done.
    destruct (Z.eqb_spec 1 n) as [<-|]; [by rewrite E|apply andb_true_r].
Qed.

Lemma set_sie_twice b c h : set_sie b (set_sie c h) = set_sie b h.
Proof.
  destruct h as [ss p1 p2 p3 p4 p5 p6 p7 p8]. unfold set_sie; simpl. f_equal.
  apply Z.bits_inj'. intros n Hn.
  destruct b, c; rewrite ?Z.lor_spec, ?Z.land_spec, ?Z.lnot_spec, ?Z.lor_spec, ?Z.land_spec, ?Z.lnot_spec, ?sie_bit_set by done;
    destruct (Z.testbit ss n), (1 =? n); done.
Qed.

Lemma tp_set_sie b h : tp (set_sie b h) = tp h.
Proof. done. Qed.

Lemma intr_get_run h : intr_get h = Ok (enabled h) h.
Proof. done. Qed.

#[export] Hint Resolve set_sie_ok : machine.
