(* ===== verification/Spinlock.v ===== *)
(** * Spin locks: [src/kernel/spinlock.c]

    The lock and CPU structures of [spinlock.h] and [proc.h] and the functions
    of [spinlock.c] on one CPU, and below them the same code on several CPUs,
    one memory access per step.  Signed counters such as [noff] are unbounded
    integers: their overflow is undefined in C. *)

From stdpp Require Import functions fin.
From S2P Require Import Prelude Riscv Csr.

Record context := mkcontext { ctx_ra : Z; ctx_sp : Z; ctx_s : list Z }.

Record cpu := mkcpu { c_proc : option nat; c_context : context; c_noff : Z; c_intena : bool }.

Definition set_noff (n : Z) (c : cpu) : cpu := mkcpu (c_proc c) (c_context c) n (c_intena c).
Definition set_intena (b : bool) (c : cpu) : cpu := mkcpu (c_proc c) (c_context c) (c_noff c) b.
Definition set_cproc (p : option nat) (c : cpu) : cpu :=
  mkcpu p (c_context c) (c_noff c) (c_intena c).

(** [struct cpu *cpu]: the index of the CPU in [cpus], or null. *)
Record spinlock := mkspin { sl_locked : Z; sl_name : string; sl_cpu : option Z }.

Definition initlock (name : string) : spinlock := mkspin 0 name None.

(** [int id = r_tp();] and [&cpus[id]] *)
Definition cpuid (h : hart) : Z := s32 (tp h).

Definition on_hart {A} (m : M hart A) : M (hart * cpu) A :=
  zoom fst (fun h x => (h, snd x)) m.
Definition on_cpu (f : cpu -> cpu) : M (hart * cpu) unit := modify (fun x => (fst x, f (snd x))).

Definition push_off : M (hart * cpu) unit :=
  let! old := on_hart intr_get in
  on_hart intr_off ;;
  let! n := gets (fun x => c_noff (snd x)) in
  (if n =? 0 then on_cpu (set_intena old) else ret tt) ;;
  on_cpu (fun c => set_noff (c_noff c + 1) c).

Definition pop_off : M (hart * cpu) unit :=
  let! on := on_hart intr_get in
  if on then panic "pop_off - interruptible"
  else
    let! n := gets (fun x => c_noff (snd x)) in
    if n <? 1 then panic "pop_off"
    else
      on_cpu (fun c => set_noff (c_noff c - 1) c) ;;
      let! c := gets snd in
      if (c_noff c =? 0) && c_intena c then on_hart intr_on else ret tt.

(** [holding]: the lock is taken and its [cpu] is this one. *)
Definition holding (id : Z) (lk : spinlock) : bool :=
  negb (sl_locked lk =? 0) && bool_decide (sl_cpu lk = Some id).

Abbreviation lkst := (hart * cpu * spinlock)%type.

Definition on_lk_cpu {A} (m : M (hart * cpu) A) : M lkst A :=
  zoom fst (fun x y => (x, snd y)) m.
Definition set_lk (f : spinlock -> spinlock) : M lkst unit :=
  modify (fun x => (fst x, f (snd x))).

(** [acquire]; a lock that another CPU holds leaves this one in the
    [while] loop around the atomic swap. *)
Definition acquire : M lkst unit :=
  on_lk_cpu push_off ;;
  let! id := gets (fun x => cpuid (fst (fst x))) in
  let! lk := gets snd in
  if holding id lk then panic "acquire"
  else if negb (sl_locked lk =? 0) then sleeps "acquire: spin"
  else
    set_lk (fun lk => mkspin 1 (sl_name lk) (sl_cpu lk)) ;;
    set_lk (fun lk => mkspin (sl_locked lk) (sl_name lk) (Some id)).

Definition release : M lkst unit :=
  let! id := gets (fun x => cpuid (fst (fst x))) in
  let! lk := gets snd in
  if negb (holding id lk) then panic "release"
  else
    set_lk (fun lk => mkspin (sl_locked lk) (sl_name lk) None) ;;
    set_lk (fun lk => mkspin 0 (sl_name lk) (sl_cpu lk)) ;;
    on_lk_cpu pop_off.

(** ** The functions on one CPU *)

(** The interrupt discipline of a CPU: with [noff] at 0 its interrupts are as
    [want] says; inside, they are off and [intena] remembers [want]. *)
Definition ints_ok (want : bool) (x : hart * cpu) : Prop :=
  hart_ok (fst x) /\ 0 <= c_noff (snd x) /\
  if c_noff (snd x) =? 0 then enabled (fst x) = want
  else enabled (fst x) = false /\ c_intena (snd x) = want.

Definition pushed (x : hart * cpu) : hart * cpu :=
  (set_sie false (fst x),
   mkcpu (c_proc (snd x)) (c_context (snd x)) (c_noff (snd x) + 1)
     (if c_noff (snd x) =? 0 then enabled (fst x) else c_intena (snd x))).

Definition popped (x : hart * cpu) : hart * cpu :=
  (set_sie ((c_noff (snd x) =? 1) && c_intena (snd x)) (fst x),
   set_noff (c_noff (snd x) - 1) (snd x)).

Lemma on_hart_run {A} (m : M hart A) h c a h' :
  m h = Ok a h' -> on_hart m (h, c) = Ok a (h', c).
Proof. intros E. unfold on_hart, zoom. cbn [fst]. by rewrite E. Qed.

Lemma push_off_run x : hart_ok (fst x) -> push_off x = Ok tt (pushed x).
Proof.
  intros H. destruct x as [h [p ctx n i]]. unfold push_off, pushed. cbn [fst snd] in *.
  erewrite bind_Ok by apply on_hart_run, intr_get_run.
  erewrite bind_Ok by (apply on_hart_run, intr_off_run, H).
  unfold bind, gets, on_cpu, modify, ret; cbn. by destruct (n =? 0).
Qed.

Lemma pop_off_run x :
  hart_ok (fst x) -> enabled (fst x) = false -> 1 <= c_noff (snd x) -> pop_off x = Ok tt (popped x).
Proof.
  intros H He Hn. destruct x as [h [p ctx n i]]. unfold pop_off, popped. cbn [fst snd c_noff c_intena] in *.
  erewrite bind_Ok by apply on_hart_run, intr_get_run. rewrite He.
  unfold bind, gets, on_cpu, modify; cbn -[on_hart Z.sub Z.eqb Z.ltb set_sie andb].
  destruct (Z.ltb_spec n 1) as [?|_]; [lia|]. cbn -[on_hart Z.sub Z.eqb set_sie andb].
  replace (n - 1 =? 0) with (n =? 1) by (destruct (Z.eqb_spec n 1), (Z.eqb_spec (n - 1) 0); lia).
  destruct ((n =? 1) && i); cbn [fst snd].
  - apply on_hart_run, intr_on_run, H.
  - unfold ret, set_noff; cbn [c_proc c_context c_intena c_noff]. by rewrite set_sie_id.
Qed.

Lemma pushed_ints w x : ints_ok w x -> ints_ok w (pushed x).
Proof.
  intros (Hh & Hn & Hi). split; [apply set_sie_ok, Hh|]. cbn. split; [lia|].
  destruct (Z.eqb_spec (c_noff (snd x) + 1) 0); [lia|].
  rewrite enabled_set_sie. split; [done|]. destruct (c_noff (snd x) =? 0); [done|apply Hi].
Qed.

Lemma popped_ints w x : ints_ok w x -> 1 <= c_noff (snd x) -> ints_ok w (popped x).
Proof.
  intros (Hh & _ & Hi) Hn. destruct (Z.eqb_spec (c_noff (snd x)) 0); [lia|]. destruct Hi as [He Hi].
  split; [apply set_sie_ok, Hh|]. cbn. split; [lia|]. rewrite enabled_set_sie.
  destruct (Z.eqb_spec (c_noff (snd x)) 1), (Z.eqb_spec (c_noff (snd x) - 1) 0); try lia; done.
Qed.

(** A matched pair gives back the interrupt state, and [noff]. *)
Lemma popped_pushed w x : ints_ok w x ->
  popped (pushed x) =
    (fst x, if c_noff (snd x) =? 0 then set_intena w (snd x) else snd x).
Proof.
  intros (Hh & Hn & Hi). destruct x as [h [p ctx n i]]. unfold popped, pushed.
  cbn [fst snd c_noff c_proc c_context c_intena] in *. unfold set_noff, set_intena; cbn.
  rewrite set_sie_twice. replace (n + 1 - 1) with n by lia.
  destruct (Z.eqb_spec n 0) as [->|Hne].
  - cbn. rewrite Hi. f_equal. by apply set_sie_id.
  - destruct (Z.eqb_spec (n + 1) 1); [lia|]. cbn. f_equal. apply set_sie_id, Hi.
Qed.

Lemma acquire_run x lk :
  hart_ok (fst x) -> sl_locked lk = 0 ->
  acquire (x, lk) = Ok tt (pushed x, mkspin 1 (sl_name lk) (Some (cpuid (fst x)))).
Proof.
  intros H E. unfold acquire, bind at 1, on_lk_cpu, zoom. cbn [fst snd].
  rewrite push_off_run by done. unfold bind, gets, holding; cbn. rewrite E. done.
Qed.

(** Acquiring a lock twice is caught. *)
Lemma acquire_held x lk :
  hart_ok (fst x) -> holding (cpuid (fst x)) lk = true -> acquire (x, lk) = Panic "acquire".
Proof.
  intros H E. unfold acquire, bind at 1, on_lk_cpu, zoom. cbn [fst snd].
  rewrite push_off_run by done. unfold bind, gets; cbn [fst snd pushed].
  unfold cpuid in *. rewrite tp_set_sie, E. done.
Qed.

Lemma release_run x lk :
  hart_ok (fst x) -> enabled (fst x) = false -> 1 <= c_noff (snd x) ->
  holding (cpuid (fst x)) lk = true ->
  release (x, lk) = Ok tt (popped x, mkspin 0 (sl_name lk) None).
Proof.
  intros H He Hn E. unfold release, bind at 1 2, gets. cbn [fst snd]. rewrite E.
  cbn [negb]. unfold bind, set_lk, modify, on_lk_cpu, zoom. cbn [fst snd].
  rewrite pop_off_run by done. done.
Qed.

Lemma release_not_held x lk :
  holding (cpuid (fst x)) lk = false -> release (x, lk) = Panic "release".
Proof. intros E. unfold release, bind, gets. cbn [fst snd]. by rewrite E. Qed.

(** ** The functions on several CPUs, one memory access per step

    [AcqCheck], [AcqCheck2]: the two reads of [holding] in [acquire];
    [AcqSpin]: the atomic swap; [AcqOwn]: [lk->cpu = mycpu()].  [RelCheck],
    [RelCheck2], [RelClear], [RelFree], [RelPop]: the steps of [release]. *)
Inductive lkpc :=
  | Running
  | AcqCheck (lk : nat) | AcqCheck2 (lk : nat) | AcqSpin (lk : nat) | AcqOwn (lk : nat)
  | RelCheck (lk : nat) | RelCheck2 (lk : nat) | RelClear (lk : nat) | RelFree (lk : nat) | RelPop
  | Crashed (msg : string).

(** A CPU: its registers and structure, where it is in the code, the locks it
    holds, its open [push_off]s that belong to no lock, and the interrupt
    state it asked for outside of them. *)
Record lcpu := mklcpu {
  lc_hc : hart * cpu; lc_pc : lkpc; lc_held : list nat; lc_extra : nat; lc_want : bool
}.

Definition set_pc (pc : lkpc) (x : lcpu) : lcpu :=
  mklcpu (lc_hc x) pc (lc_held x) (lc_extra x) (lc_want x).
Definition set_hc (hc : hart * cpu) (x : lcpu) : lcpu :=
  mklcpu hc (lc_pc x) (lc_held x) (lc_extra x) (lc_want x).
Definition set_lheld (l : list nat) (x : lcpu) : lcpu :=
  mklcpu (lc_hc x) (lc_pc x) l (lc_extra x) (lc_want x).
Definition set_extra (n : nat) (x : lcpu) : lcpu :=
  mklcpu (lc_hc x) (lc_pc x) (lc_held x) n (lc_want x).

Abbreviation locks := (nat -> spinlock).
Definition lc_id (x : lcpu) : Z := cpuid (fst (lc_hc x)).

Inductive cstep : lcpu -> locks -> lcpu -> locks -> Prop :=
  (* interrupts are switched outside of any critical section *)
  | cs_intr x L b :
      lc_pc x = Running -> c_noff (snd (lc_hc x)) = 0 ->
      cstep x L (mklcpu (set_sie b (fst (lc_hc x)), snd (lc_hc x)) Running (lc_held x) (lc_extra x) b) L
  (* a [push_off] or [pop_off] of its own, as in [myproc] *)
  | cs_push x L hc :
      lc_pc x = Running -> push_off (lc_hc x) = Ok tt hc ->
      cstep x L (set_extra (S (lc_extra x)) (set_hc hc x)) L
  | cs_pop x L n :
      lc_pc x = Running -> lc_extra x = S n ->
      cstep x L (match pop_off (lc_hc x) with
                 | Ok _ hc => set_extra n (set_hc hc x)
                 | Panic msg => set_pc (Crashed msg) x
                 | Sleeps _ _ => x
                 end) L
  (* acquire *)
  | cs_acquire x L lk hc :
      lc_pc x = Running -> lk ∉ lc_held x -> push_off (lc_hc x) = Ok tt hc ->
      cstep x L (set_pc (AcqCheck lk) (set_hc hc x)) L
  | cs_acq_check x L lk :
      lc_pc x = AcqCheck lk ->
      cstep x L (set_pc (if sl_locked (L lk) =? 0 then AcqSpin lk else AcqCheck2 lk) x) L
  | cs_acq_check2 x L lk :
      lc_pc x = AcqCheck2 lk ->
      cstep x L (set_pc (if bool_decide (sl_cpu (L lk) = Some (lc_id x))
                         then Crashed "acquire" else AcqSpin lk) x) L
  | cs_acq_swap x L lk :
      lc_pc x = AcqSpin lk ->
      cstep x L (set_pc (if sl_locked (L lk) =? 0 then AcqOwn lk else AcqSpin lk) x)
        (<[lk := mkspin 1 (sl_name (L lk)) (sl_cpu (L lk))]> L)
  | cs_acq_own x L lk :
      lc_pc x = AcqOwn lk ->
      cstep x L (set_lheld (lk :: lc_held x) (set_pc Running x))
        (<[lk := mkspin (sl_locked (L lk)) (sl_name (L lk)) (Some (lc_id x))]> L)
  (* release *)
  | cs_release x L lk :
      lc_pc x = Running -> lk ∈ lc_held x -> cstep x L (set_pc (RelCheck lk) x) L
  | cs_rel_check x L lk :
      lc_pc x = RelCheck lk ->
      cstep x L (set_pc (if sl_locked (L lk) =? 0 then Crashed "release" else RelCheck2 lk) x) L
  | cs_rel_check2 x L lk :
      lc_pc x = RelCheck2 lk ->
      cstep x L (set_pc (if bool_decide (sl_cpu (L lk) = Some (lc_id x))
                         then RelClear lk else Crashed "release") x) L
  | cs_rel_clear x L lk :
      lc_pc x = RelClear lk ->
      cstep x L (set_lheld (filter (.≠ lk) (lc_held x)) (set_pc (RelFree lk) x))
        (<[lk := mkspin (sl_locked (L lk)) (sl_name (L lk)) None]> L)
  | cs_rel_free x L lk :
      lc_pc x = RelFree lk ->
      cstep x L (set_pc RelPop x) (<[lk := mkspin 0 (sl_name (L lk)) (sl_cpu (L lk))]> L)
  | cs_rel_pop x L :
      lc_pc x = RelPop ->
      cstep x L (match pop_off (lc_hc x) with
                 | Ok _ hc => set_pc Running (set_hc hc x)
                 | Panic msg => set_pc (Crashed msg) x
                 | Sleeps _ _ => x
                 end) L.

(** [cpus[NCPU]] *)
Definition NCPU : nat := 8.
Definition cno (c : fin NCPU) : Z := Z.of_nat (fin_to_nat c).

Definition lsys : Type := (fin NCPU -> lcpu) * locks.

Inductive lsteps (s0 : lsys) : lsys -> Prop :=
  | ls_refl : lsteps s0 s0
  | ls_step X L c x' L' :
      lsteps s0 (X, L) -> cstep (X c) L x' L' -> lsteps s0 (<[c := x']> X, L').

Lemma cno_inj c d : cno c = cno d -> c = d.
Proof. intros E%Nat2Z.inj. by apply (inj fin_to_nat). Qed.

(** *** Invariant *)

(** The open [push_off] of an [acquire] or [release] under way. *)
Definition pc_depth (pc : lkpc) : Z :=
  match pc with
  | AcqCheck _ | AcqCheck2 _ | AcqSpin _ | AcqOwn _ | RelFree _ | RelPop => 1
  | _ => 0
  end.

Definition pc_ok (x : lcpu) : Prop :=
  match lc_pc x with
  | Running | RelPop => True
  | AcqCheck lk | AcqCheck2 lk | AcqSpin lk | AcqOwn lk | RelFree lk => lk ∉ lc_held x
  | RelCheck lk | RelCheck2 lk | RelClear lk => lk ∈ lc_held x
  | Crashed _ => False
  end.

Record lcpu_inv (c : fin NCPU) (x : lcpu) : Prop := {
  lci_id : lc_id x = cno c;
  lci_ints : ints_ok (lc_want x) (lc_hc x);
  lci_noff : c_noff (snd (lc_hc x)) =
    Z.of_nat (length (lc_held x)) + Z.of_nat (lc_extra x) + pc_depth (lc_pc x);
  lci_nodup : NoDup (lc_held x);
  lci_pc : pc_ok x
}.

(** The CPU has won the lock and not given it back. *)
Definition owns (x : lcpu) (lk : nat) : Prop :=
  lk ∈ lc_held x \/ lc_pc x = AcqOwn lk \/ lc_pc x = RelFree lk.

Record lsys_inv (s : lsys) : Prop := {
  lsi_cpu c : lcpu_inv c (fst s c);
  lsi_excl lk c d : owns (fst s c) lk -> owns (fst s d) lk -> c = d;
  lsi_locked lk : (sl_locked (snd s lk) = 0 /\ forall c, ~ owns (fst s c) lk) \/
    (sl_locked (snd s lk) = 1 /\ exists c, owns (fst s c) lk);
  lsi_owner lk c : sl_cpu (snd s lk) = Some (cno c) <-> lk ∈ lc_held (fst s c)
}.

(** [fn_case c d]: look up the updated function at [d]. *)
Ltac fn_case c d :=
  destruct (decide (d = c)) as [->|];
  [rewrite ?fn_lookup_insert|rewrite ?fn_lookup_insert_ne by congruence].

Lemma silent_inv X L c x' :
  lsys_inv (X, L) -> lcpu_inv c x' -> lc_held x' = lc_held (X c) ->
  (forall lk, owns x' lk <-> owns (X c) lk) -> lsys_inv (<[c := x']> X, L).
Proof.
  intros [Hc He Hl Ho] Hx Hh Hw.
  assert (HO : forall d lk, owns ((<[c := x']> X) d) lk <-> owns (X d) lk) by (intros d lk; by fn_case c d).
  split; cbn [fst snd] in *.
  - intros d. by fn_case c d.
  - intros lk d e. rewrite !HO. apply He.
  - intros lk. destruct (Hl lk) as [[H1 H2]|[H1 [d H2]]]; [left|right]; split; try done.
    + intros d. by rewrite HO.
    + exists d. by rewrite HO.
  - intros lk d. rewrite Ho. fn_case c d; by rewrite ?Hh.
Qed.

(** A step of CPU [c] that only concerns the lock [lk]. *)
Lemma lock_inv X L c x' lk k :
  lsys_inv (X, L) -> lcpu_inv c x' ->
  (forall lk', lk' <> lk ->
    (owns x' lk' <-> owns (X c) lk') /\ (lk' ∈ lc_held x' <-> lk' ∈ lc_held (X c))) ->
  (owns x' lk -> forall d, owns (X d) lk -> d = c) ->
  ((sl_locked k = 0 /\ ~ owns x' lk /\ forall d, owns (X d) lk -> d = c) \/
   (sl_locked k = 1 /\ (owns x' lk \/ exists d, d <> c /\ owns (X d) lk))) ->
  (sl_cpu k = Some (cno c) <-> lk ∈ lc_held x') ->
  (forall d, d <> c -> sl_cpu k = Some (cno d) <-> lk ∈ lc_held (X d)) ->
  lsys_inv (<[c := x']> X, <[lk := k]> L).
Proof.
  intros [Hc He Hl Ho] Hx Hs H1 H2 H3 H4. cbn [fst snd] in *. split; cbn [fst snd].
  - intros d. by fn_case c d.
  - intros l d e. fn_case c d; fn_case c e; [done|..|apply He].
    + destruct (decide (l = lk)) as [->|Hne]; [intros Hw Hd; symmetry; auto|].
      rewrite (proj1 (Hs l Hne)). apply He.
    + destruct (decide (l = lk)) as [->|Hne]; [auto|]. rewrite (proj1 (Hs l Hne)). apply He.
  - intros l. fn_case lk l.
    + destruct H2 as [(E & Hn & Ha)|(E & [Hw|(d & Hd & Hw)])]; [left|right|right]; (split; [done|]).
      * intros d. fn_case c d; [done|]. intros Hw. by apply Ha in Hw.
      * exists c. by rewrite fn_lookup_insert.
      * exists d. by rewrite fn_lookup_insert_ne by congruence.
    + destruct (Hl l) as [[E Hn]|[E [d Hd]]]; [left|right]; (split; [done|]).
      * intros d. fn_case c d; [|apply Hn]. by rewrite (proj1 (Hs l ltac:(done))).
      * exists d. fn_case c d; [|done]. by rewrite (proj1 (Hs l ltac:(done))).
  - intros l d. fn_case lk l; fn_case c d; [done|auto|..|apply Ho].
    rewrite Ho. symmetry. apply Hs. done.
Qed.

Lemma lc_id_push x : lc_id (set_hc (pushed (lc_hc x)) x) = lc_id x.
Proof. done. Qed.
Lemma lc_id_pop x : lc_id (set_hc (popped (lc_hc x)) x) = lc_id x.
Proof. done. Qed.

(** [push_off] inside a CPU that keeps the invariant. *)
Lemma push_inv c x hc :
  lcpu_inv c x -> push_off (lc_hc x) = Ok tt hc ->
  ints_ok (lc_want x) hc /\ cpuid (fst hc) = cno c /\
  c_noff (snd hc) = c_noff (snd (lc_hc x)) + 1.
Proof.
  intros [Hid Hi Hn Hd Hp]. rewrite push_off_run by apply Hi. intros [= <-].
  split; [by apply pushed_ints|]. split; [exact Hid|done].
Qed.

Lemma pop_inv c x :
  lcpu_inv c x -> 1 <= c_noff (snd (lc_hc x)) ->
  exists hc, pop_off (lc_hc x) = Ok tt hc /\ ints_ok (lc_want x) hc /\
    cpuid (fst hc) = cno c /\ c_noff (snd hc) = c_noff (snd (lc_hc x)) - 1.
Proof.
  intros [Hid Hi Hn Hd Hp] H1. exists (popped (lc_hc x)). split.
  - apply pop_off_run; [apply Hi| |done]. destruct Hi as (_ & _ & Hi).
    destruct (Z.eqb_spec (c_noff (snd (lc_hc x))) 0); [lia|apply Hi].
  - split; [by apply popped_ints|]. split; [exact Hid|done].
Qed.

Ltac pc_silent E :=
  unfold owns, set_pc; cbn; intros; rewrite ?E; naive_solver.


Ltac cstep_cases Hst :=
  destruct Hst as [x L b Hp Hn|x L hc Hp Hr|x L n Hp Hn|x L lk hc Hp Hh Hr|x L lk Hp|x L lk Hp|x L lk Hp
    |x L lk Hp|x L lk Hp Hh|x L lk Hp|x L lk Hp|x L lk Hp|x L lk Hp|x L Hp].

(** What the CPU's own invariant needs of the locks. *)
Definition locks_agree (x : lcpu) (L : locks) : Prop :=
  forall lk, (sl_cpu (L lk) = Some (lc_id x) <-> lk ∈ lc_held x) /\
    (lk ∈ lc_held x -> sl_locked (L lk) = 1).

Lemma filter_ne_notin lk (l : list nat) : lk ∉ l -> filter (.≠ lk) l = l.
Proof.
  induction l as [|a l IH]; [done|]. intros [Hne Hin]%not_elem_of_cons.
  rewrite filter_cons_True by done. by rewrite IH.
Qed.

Lemma remove_held lk (l : list nat) :
  NoDup l -> lk ∈ l -> Z.of_nat (length l) = Z.of_nat (length (filter (.≠ lk) l)) + 1.
Proof.
  induction 1 as [|a l Ha Hd IH]; [by intros ?%not_elem_of_nil|]. intros [<-|Hin]%elem_of_cons.
  - rewrite filter_cons_False by naive_solver. cbn.
    rewrite filter_ne_notin by done. lia.
  - rewrite filter_cons_True by (intros ->; done). cbn. apply IH in Hin. lia.
Qed.

Lemma cstep_cpu c x L x' L' :
  lcpu_inv c x -> locks_agree x L -> cstep x L x' L' -> lcpu_inv c x'.
Proof.
  intros Hx Ha Hst. cstep_cases Hst; pose proof Hx as [Hid Hi Hno Hd Hpc];
    unfold pc_ok in Hpc; rewrite Hp in Hno, Hpc; cbn in Hno.
  - split; try done. destruct Hi as (H1 & H2 & _).
    split; [by apply set_sie_ok|]. split; [done|]. cbn. rewrite Hn. apply enabled_set_sie.
  - eapply push_inv in Hr as (H1 & H2 & H3); [|done].
    split; cbn; try done; [rewrite Hp; cbn; lia|unfold pc_ok; cbn; by rewrite Hp].
  - destruct (pop_inv c x Hx) as (hc & -> & H1 & H2 & H3); [lia|].
    split; cbn; try done; [rewrite Hp; cbn; lia|unfold pc_ok; cbn; by rewrite Hp].
  - eapply push_inv in Hr as (H1 & H2 & H3); [|done]. split; cbn; try done. lia.
  - split; try done; destruct (_ =? 0); done.
  - assert (sl_cpu (L lk) <> Some (lc_id x)) by (rewrite (proj1 (Ha lk)); done).
    rewrite bool_decide_false by done. split; done.
  - split; try done; destruct (_ =? 0); done.
  - split; cbn; try done; [lia|by constructor].
  - split; try done.
  - rewrite (proj2 (Ha lk) Hpc). split; done.
  - rewrite bool_decide_true by (by apply Ha). split; done.
  - split; cbn; try done; [rewrite (remove_held lk) in Hno by done; lia|by apply NoDup_filter|].
    unfold pc_ok; cbn. rewrite list_elem_of_filter. by intros [? _].
  - split; done.
  - destruct (pop_inv c x Hx) as (hc & -> & H1 & H2 & H3); [lia|]. split; cbn; try done. lia.
Qed.

Lemma inv_agree X L c : lsys_inv (X, L) -> locks_agree (X c) L.
Proof.
  intros [Hc He Hl Ho] lk. cbn in *. rewrite (lci_id _ _ (Hc c)). split; [apply Ho|].
  intros Hh. destruct (Hl lk) as [[_ Hn]|[E _]]; [|done]. destruct (Hn c). by left.
Qed.

(** Winning the swap. *)
Lemma swap_inv X L c lk :
  lsys_inv (X, L) -> lc_pc (X c) = AcqSpin lk ->
  lcpu_inv c (set_pc (if sl_locked (L lk) =? 0 then AcqOwn lk else AcqSpin lk) (X c)) ->
  lsys_inv (<[c := set_pc (if sl_locked (L lk) =? 0 then AcqOwn lk else AcqSpin lk) (X c)]> X,
            <[lk := mkspin 1 (sl_name (L lk)) (sl_cpu (L lk))]> L).
Proof.
  intros HI Hp Hx. pose proof HI as [Hc He Hl Ho]. cbn [fst snd] in *.
  apply lock_inv; [done|done|..]; cbn [sl_locked sl_cpu lc_held set_pc].
  - intros lk' Hne. split; [|done]. unfold owns. cbn. rewrite Hp. case_match; naive_solver.
  - destruct (Hl lk) as [[-> Hn]|[-> _]]; [intros _ d Hd; by apply Hn in Hd|].
    intros Hw d Hd. apply (He lk); [done|]. destruct Hw as [|[|]]; [by left|done..].
  - right. split; [done|]. destruct (Hl lk) as [[-> Hn]|[-> [d Hd]]]; [left; by right; left|].
    destruct (decide (d = c)) as [->|]; [left|right; by exists d].
    destruct Hd as [?|[?|?]]; [by left|congruence..].
  - apply Ho.
  - intros d _. apply Ho.
Qed.

Lemma own_inv X L c lk :
  lsys_inv (X, L) -> lc_pc (X c) = AcqOwn lk ->
  lcpu_inv c (set_lheld (lk :: lc_held (X c)) (set_pc Running (X c))) ->
  lsys_inv (<[c := set_lheld (lk :: lc_held (X c)) (set_pc Running (X c))]> X,
            <[lk := mkspin (sl_locked (L lk)) (sl_name (L lk)) (Some (lc_id (X c)))]> L).
Proof.
  intros HI Hp Hx. pose proof HI as [Hc He Hl Ho]. cbn [fst snd] in *.
  assert (Hw : owns (X c) lk) by (right; by left). rewrite (lci_id _ _ (Hc c)).
  apply lock_inv; [done|done|..]; cbn [sl_locked sl_cpu lc_held set_pc set_lheld].
  - intros lk' Hne. unfold owns. cbn. rewrite Hp, elem_of_cons. naive_solver.
  - intros _ d Hd. by apply (He lk).
  - right. destruct (Hl lk) as [[_ Hn]|[E _]]; [by destruct (Hn c)|]. split; [done|].
    left. left. apply elem_of_cons. by left.
  - rewrite elem_of_cons. naive_solver.
  - intros d Hd. split; [intros [= E%cno_inj]; congruence|]. intros Hh. destruct Hd. apply (He lk); [by left|done].
Qed.

Lemma clear_inv X L c lk :
  lsys_inv (X, L) -> lc_pc (X c) = RelClear lk ->
  lcpu_inv c (set_lheld (filter (.≠ lk) (lc_held (X c))) (set_pc (RelFree lk) (X c))) ->
  lsys_inv (<[c := set_lheld (filter (.≠ lk) (lc_held (X c))) (set_pc (RelFree lk) (X c))]> X,
            <[lk := mkspin (sl_locked (L lk)) (sl_name (L lk)) None]> L).
Proof.
  intros HI Hp Hx. pose proof HI as [Hc He Hl Ho]. cbn [fst snd] in *.
  assert (Hh : lk ∈ lc_held (X c)) by (pose proof (lci_pc _ _ (Hc c)) as H; unfold pc_ok in H; by rewrite Hp in H).
  apply lock_inv; [done|done|..]; cbn [sl_locked sl_cpu lc_held set_pc set_lheld].
  - intros lk' Hne. unfold owns. cbn. rewrite Hp, list_elem_of_filter. naive_solver.
  - intros _ d Hd. apply (He lk); [done|by left].
  - right. destruct (Hl lk) as [[_ Hn]|[E _]]; [destruct (Hn c); by left|]. split; [done|].
    left. by right; right.
  - rewrite list_elem_of_filter. naive_solver.
  - intros d Hd. split; [done|]. intros Hh'. destruct Hd. apply (He lk); by left.
Qed.

Lemma free_inv X L c lk :
  lsys_inv (X, L) -> lc_pc (X c) = RelFree lk -> lcpu_inv c (set_pc RelPop (X c)) ->
  lsys_inv (<[c := set_pc RelPop (X c)]> X, <[lk := mkspin 0 (sl_name (L lk)) (sl_cpu (L lk))]> L).
Proof.
  intros HI Hp Hx. pose proof HI as [Hc He Hl Ho]. cbn [fst snd] in *.
  assert (Hh : lk ∉ lc_held (X c)) by (pose proof (lci_pc _ _ (Hc c)) as H; unfold pc_ok in H; by rewrite Hp in H).
  assert (Hw : owns (X c) lk) by (right; by right).
  apply lock_inv; [done|done|..]; cbn [sl_locked sl_cpu lc_held set_pc].
  - intros lk' Hne. unfold owns. cbn. rewrite Hp. naive_solver.
  - intros [?|[?|?]]; done.
  - left. split; [done|]. split; [by intros [?|[?|?]]|]. intros d Hd. by apply (He lk).
  - apply Ho.
  - intros d _. apply Ho.
Qed.

Lemma cstep_inv X L c x' L' :
  lsys_inv (X, L) -> cstep (X c) L x' L' -> lsys_inv (<[c := x']> X, L').
Proof.
  intros HI Hst. pose proof (lsi_cpu _ HI c) as Hc. pose proof (inv_agree _ _ c HI) as Ha.
  pose proof (cstep_cpu _ _ _ _ _ Hc Ha Hst) as Hx. cbn [fst snd] in *.
  remember (X c) as x eqn:EX. cstep_cases Hst; rewrite EX in *;
    first [by apply swap_inv|by apply own_inv|by apply clear_inv|by apply free_inv|idtac].
  all: apply silent_inv; [done|done| |]; try done.
  all: try (intros lk'; unfold owns; cbn; rewrite ?Hp; repeat case_match; naive_solver).
  all: try (destruct (pop_off _); done).
  all: intros lk'; destruct (pop_off _); unfold owns; cbn; rewrite ?Hp; naive_solver.
Qed.

Lemma lsteps_inv s0 s : lsys_inv s0 -> lsteps s0 s -> lsys_inv s.
Proof. intros H0. induction 1 as [|X L c x' L' _ IH Hst]; [done|]. by eapply cstep_inv. Qed.

(** The CPUs at boot: interrupts off, no [push_off] open. *)
Definition lsys_boot (s : lsys) : Prop :=
  (forall c, lc_id (fst s c) = cno c /\ hart_ok (fst (lc_hc (fst s c))) /\
     enabled (fst (lc_hc (fst s c))) = lc_want (fst s c) /\ c_noff (snd (lc_hc (fst s c))) = 0 /\
     lc_pc (fst s c) = Running /\ lc_held (fst s c) = [] /\ lc_extra (fst s c) = 0%nat) /\
  forall lk, exists name, snd s lk = initlock name.

Lemma lsys_boot_inv s : lsys_boot s -> lsys_inv s.
Proof.
  intros [Hc Hl]. assert (HO : forall c lk, ~ owns (fst s c) lk).
  { intros c lk. destruct (Hc c) as (_ & _ & _ & _ & Hp & Hh & _). unfold owns.
    rewrite Hp, Hh. intros [?%not_elem_of_nil|[?|?]]; done. }
  split.
  - intros c. destruct (Hc c) as (H1 & H2 & H3 & H4 & Hp & Hh & He). split; [done| |..].
    + split; [done|]. rewrite H4. done.
    + rewrite H4, Hh, He, Hp. done.
    + rewrite Hh. constructor.
    + unfold pc_ok. by rewrite Hp.
  - intros lk c d H. by apply HO in H.
  - intros lk. left. destruct (Hl lk) as [n ->]. done.
  - intros lk c. destruct (Hl lk) as [n ->], (Hc c) as (_ & _ & _ & _ & _ & -> & _). cbn.
    split; [done|by intros ?%not_elem_of_nil].
Qed.

(** C19.  However the memory accesses of several CPUs interleave, when each
    acquires locks it does not hold and releases locks it holds: two CPUs never
    hold the same lock; none of the panics of [acquire], [release] and
    [pop_off] is reached; [holding], on the CPU's own view of the lock, answers
    yes exactly for the holder; a CPU that holds a lock has its interrupts off,
    and one with no lock and no open [push_off] has them as it asked for; and
    a lock that nobody owns is free, so that a CPU spinning on it gets it with
    its next swap. *)
Theorem spinlock_mutex s0 X L c d lk :
  lsys_boot s0 -> lsteps s0 (X, L) ->
  (lk ∈ lc_held (X c) -> lk ∈ lc_held (X d) -> c = d) /\
  (forall msg, lc_pc (X c) <> Crashed msg) /\
  (holding (lc_id (X c)) (L lk) = true <-> lk ∈ lc_held (X c)) /\
  (lk ∈ lc_held (X c) -> enabled (fst (lc_hc (X c))) = false) /\
  (lc_pc (X c) = Running -> lc_held (X c) = [] -> lc_extra (X c) = 0%nat ->
     enabled (fst (lc_hc (X c))) = lc_want (X c)) /\
  ((forall e, ~ owns (X e) lk) -> lc_pc (X c) = AcqSpin lk ->
     cstep (X c) L (set_pc (AcqOwn lk) (X c)) (<[lk := mkspin 1 (sl_name (L lk)) (sl_cpu (L lk))]> L)).
Proof.
  intros H0 Hs. pose proof (lsteps_inv _ _ (lsys_boot_inv _ H0) Hs) as HI.
  pose proof HI as [Hc He Hl Ho]. cbn [fst snd] in *.
  pose proof (Hc c) as [Hid (Hh & Hn0 & Hi) Hn Hd Hp]. split_and!.
  - intros H1 H2. apply (He lk); by left.
  - intros msg E. unfold pc_ok in Hp. by rewrite E in Hp.
  - unfold holding. rewrite andb_true_iff, negb_true_iff, bool_decide_eq_true, Z.eqb_neq, Hid, Ho.
    split; [by intros [_ ?]|]. intros Hin. split; [|done]. by rewrite (proj2 (inv_agree _ _ c HI lk) Hin).
  - intros Hin. destruct (Z.eqb_spec (c_noff (snd (lc_hc (X c)))) 0) as [E|]; [|apply Hi].
    destruct (lc_held (X c)) as [|a l]; [by apply not_elem_of_nil in Hin|]. cbn in Hn.
    destruct (lc_pc (X c)); cbn in Hn; lia.
  - intros E1 E2 E3. rewrite E1, E2, E3 in Hn. by rewrite Hn in Hi.
  - intros Hno Hpc. destruct (Hl lk) as [[E _]|[_ [e Hw]]]; [|by apply Hno in Hw].
    pose proof (cs_acq_swap (X c) L lk Hpc) as Hstep. by rewrite E in Hstep.
Qed.

(** Eight CPUs with interrupts on; CPU 0 acquires lock 5. *)
Definition boot_cpu : cpu := mkcpu None (mkcontext 0 0 []) 0 false.
Definition boot_hart (c : Z) : hart := mkhart 2 0 0 0 0 0 0 0 c.
Definition demo_cpus (c : fin NCPU) : lcpu := mklcpu (boot_hart (cno c), boot_cpu) Running [] 0 true.
Definition demo_locks : locks := fun _ => initlock "demo".

Lemma spinlock_mutex_witness :
  exists X L, lsteps (demo_cpus, demo_locks) (X, L) /\
    5%nat ∈ lc_held (X 0%fin) /\ holding 0 (L 5%nat) = true /\ enabled (fst (lc_hc (X 0%fin))) = false.
Proof.
  eexists _, _. match goal with |- lsteps _ ?s /\ _ => assert (Hs : lsteps (demo_cpus, demo_locks) s) end.
  { eapply ls_step; [eapply ls_step; [eapply ls_step; [eapply ls_step; [apply ls_refl|]|]|]|].
    - eapply (cs_acquire (demo_cpus 0%fin) _ 5); [done|apply not_elem_of_nil|reflexivity].
    - rewrite fn_lookup_insert. by apply (cs_acq_check _ _ 5).
    - rewrite fn_lookup_insert. by apply (cs_acq_swap _ _ 5).
    - rewrite fn_lookup_insert. by apply (cs_acq_own _ _ 5). }
  split; [exact Hs|].
  destruct (fun Hb => spinlock_mutex _ _ _ 0%fin 0%fin 5%nat Hb Hs) as (_ & _ & H1 & H2 & _).
  - split; [|intros lk; by exists "demo"]. intros c. split_and!; try done.
    by inv_all_vec_fin.
  - rewrite fn_lookup_insert in *.
    split; [apply elem_of_cons; by left|]. split; [apply H1|apply H2]; apply elem_of_cons; by left.
Defined.
