(* ===== verification/Kalloc.v ===== *)
(** * The physical page allocator: [src/kernel/mm/kalloc.c]

    The state is the physical memory and [kmem.freelist].  The free list is
    threaded through the free pages themselves: the first eight bytes of a
    free page hold the address of the next one.  [kmem_inv] ties the pointer
    structure to the abstract list of free pages. *)

From S2P Require Import Prelude Memory CString Riscv.

Record phys := mkphys { p_mem : mem; freelist : Z }.

Section kalloc.
(** [end], the first address after the kernel, set by the linker script. *)
Variable kend : Z.

(** [memset] is used as the range fill it is proved to be ([memset_spec]). *)
Definition kfree (pa : Z) : M phys unit :=
  if negb (pa mod PGSIZE =? 0) || (pa <? kend) || (PHYSTOP <=? pa)
  then panic "kfree"
  else modify (fun s =>
    let m1 := mem_fill (p_mem s) pa PGSIZE (u8 1) in
    mkphys (store64 m1 pa (freelist s)) pa).

Definition kalloc : M phys Z := fun s =>
  let r := freelist s in
  if r =? 0 then Ok 0 s
  else
    let fl := load64 (p_mem s) r in
    Ok r (mkphys (mem_fill (p_mem s) r PGSIZE (u8 5)) fl).

(** [for(; p + PGSIZE <= pa_end; p += PGSIZE) kfree(p);] *)
Fixpoint freerange_loop (fuel : nat) (p pa_end : Z) : M phys unit :=
  match fuel with
  | O => panic "out of fuel"
  | S f =>
      if p + PGSIZE <=? pa_end
      then kfree p ;; freerange_loop f (p + PGSIZE) pa_end
      else ret tt
  end.

Definition freerange (pa_start pa_end : Z) : M phys unit :=
  let p := PGROUNDUP pa_start in
  freerange_loop (S (Z.to_nat ((pa_end - p) / PGSIZE))) p pa_end.

Definition kinit : M phys unit := freerange kend PHYSTOP.

(** ** The free list as a list of pages *)

Inductive free_list (m : mem) : Z -> list Z -> Prop :=
  | fl_nil : free_list m 0 []
  | fl_cons p l : p <> 0 -> free_list m (load64 m p) l -> free_list m p (p :: l).

Definition page_ok (p : Z) : Prop := aligned p /\ kend <= p < PHYSTOP.

Definition kmem_inv (s : phys) (l : list Z) : Prop :=
  free_list (p_mem s) (freelist s) l /\ NoDup l /\ Forall page_ok l.

(** Two different pages do not overlap. *)
Lemma pages_disjoint p q : aligned p -> aligned q -> p <> q -> p + 4096 <= q \/ q + 4096 <= p.
Proof. unfold aligned, PGSIZE. intros. Z.div_mod_to_equations; lia. Qed.

Lemma free_list_frame m m' h l :
  (forall p, p ∈ l -> load64 m' p = load64 m p) -> free_list m h l -> free_list m' h l.
Proof.
  intros H Hl. induction Hl as [|p l Hp Hl IH]; constructor; [done|].
  rewrite H by set_solver. apply IH. intros q Hq. apply H. set_solver.
Qed.

(** Updates of one page do not disturb the list of the others. *)
Lemma free_list_other_page m m' h l pa :
  Forall page_ok l -> aligned pa -> pa ∉ l ->
  frame m' m (fun x => pa <= x < pa + 4096) ->
  free_list m h l -> free_list m' h l.
Proof.
  intros Hok Hpa Hni Hf. apply free_list_frame. intros p Hp.
  rewrite Forall_forall in Hok. destruct (Hok p Hp) as [Hal _].
  apply load64_agree. intros x Hx. apply Hf.
  assert (p <> pa) by (intros ->; done).
  destruct (pages_disjoint p pa); try done; lia.
Qed.

Hypothesis kend_pos : 0 < kend.

Lemma page_ok_pos p : page_ok p -> 0 < p.
Proof. unfold page_ok. lia. Qed.

Lemma page_ok_u64 p : page_ok p -> u64 p = p.
Proof.
  intros [_ H]. apply u64_small.
  unfold PHYSTOP, KERNBASE in H. lia.
Qed.

Lemma kfree_guard pa :
  page_ok pa ->
  negb (pa mod PGSIZE =? 0) || (pa <? kend) || (PHYSTOP <=? pa) = false.
Proof.
  intros [Hal H]. unfold aligned in Hal. rewrite Hal. simpl.
  apply orb_false_iff. rewrite Z.ltb_ge, Z.leb_gt. lia.
Qed.

(** The page-sized write of [kfree]: junk, then the link. *)
Lemma kfree_frame m pa v :
  frame (store64 (mem_fill m pa PGSIZE (u8 1)) pa v) m (fun x => pa <= x < pa + 4096).
Proof.
  intros x Hx. unfold store64, mem_write. rewrite length_le_bytes.
  case_range; [lia|]. unfold mem_fill, PGSIZE. case_range; [lia|done].
Qed.

Lemma kfree_run s l pa :
  kmem_inv s l -> page_ok pa -> pa ∉ l ->
  exists s', kfree pa s = Ok tt s' /\ kmem_inv s' (pa :: l) /\
    frame (p_mem s') (p_mem s) (fun x => pa <= x < pa + 4096).
Proof.
  intros (Hfl & Hnd & Hall) Hpa Hni. unfold kfree. rewrite kfree_guard by done.
  eexists. split; [reflexivity|]. split; [|apply kfree_frame].
  split; [|split; [by constructor|by constructor]]. simpl.
  constructor; [apply page_ok_pos in Hpa; lia|].
  rewrite load64_store64_same.
  assert (Hh : u64 (freelist s) = freelist s).
  { destruct Hfl as [|p l' Hp Hl]; [done|]. apply page_ok_u64.
    by apply Forall_inv in Hall. }
  rewrite Hh. eapply free_list_other_page; [done|apply Hpa|done|apply kfree_frame|done].
Qed.

Lemma kalloc_run_nil s : kmem_inv s [] -> kalloc s = Ok 0 s.
Proof. intros (Hfl & _). inversion Hfl as [E|]. unfold kalloc. by rewrite <-E. Qed.

Lemma kalloc_run_cons s p l :
  kmem_inv s (p :: l) ->
  exists s', kalloc s = Ok p s' /\ kmem_inv s' l /\
    p_mem s' = mem_fill (p_mem s) p PGSIZE 5.
Proof.
  intros (Hfl & Hnd & Hall). inversion Hfl as [|p' l' Hp Hl E1 E2]; subst.
  unfold kalloc. destruct (Z.eqb_spec (freelist s) 0) as [|_]; [done|].
  eexists. split; [reflexivity|]. split; [|done]. simpl.
  apply Forall_cons in Hall as [Hp1 Hall]. apply NoDup_cons in Hnd as [Hni Hnd].
  split; [|done]. simpl.
  eapply free_list_other_page with (m := p_mem s) (pa := freelist s); try done; [apply Hp1|].
  intros x Hx. unfold mem_fill, PGSIZE. case_range; [lia|done].
Qed.

(** ** Initialisation *)

(** The pages [kinit] puts on the list, in the order they end up in. *)
Definition pages_from (p : Z) (n : nat) : list Z :=
  rev (map (fun i => p + Z.of_nat i * PGSIZE) (seq 0 n)).

Lemma pages_from_S p n :
  pages_from p (S n) = pages_from (p + PGSIZE) n ++ [p].
Proof.
  unfold pages_from. cbn [seq map rev]. rewrite <-seq_shift, map_map. f_equal.
  - f_equal. apply map_ext. intros i. lia.
  - f_equal. lia.
Qed.

Lemma freerange_loop_run fuel s l p n :
  kmem_inv s l -> aligned p -> kend <= p -> p + Z.of_nat n * PGSIZE <= PHYSTOP ->
  PHYSTOP < p + Z.of_nat n * PGSIZE + PGSIZE -> (n < fuel)%nat ->
  (forall q, q ∈ l -> q < p) ->
  exists s', freerange_loop fuel p PHYSTOP s = Ok tt s' /\
    kmem_inv s' (pages_from p n ++ l).
Proof.
  revert s l p n. induction fuel as [|f IH]; intros s l p n Hinv Hal Hk Hn Hn' Hf Hlt; [lia|].
  cbn [freerange_loop]. destruct n as [|n].
  { destruct (Z.leb_spec (p + PGSIZE) PHYSTOP); [lia|]. by exists s. }
  destruct (Z.leb_spec (p + PGSIZE) PHYSTOP); [|unfold PGSIZE in *; lia].
  assert (Hni : p ∉ l) by (intros Hin; specialize (Hlt p Hin); lia).
  destruct (kfree_run s l p) as (s1 & E1 & Hinv1 & _); try done.
  { split; [done|]. unfold PGSIZE in *; lia. }
  rewrite (bind_Ok _ _ _ _ _ E1).
  destruct (IH s1 (p :: l) (p + PGSIZE) n) as (s2 & E2 & Hinv2);
    [done|..|lia| |].
  - page_lia.
  - page_lia.
  - page_lia.
  - page_lia.
  - intros q [->|Hq]%elem_of_cons; [page_lia|]. specialize (Hlt q Hq). page_lia.
  - exists s2. split; [done|]. rewrite pages_from_S, <-app_assoc. exact Hinv2.
Qed.

Lemma kinit_run s :
  kend <= PHYSTOP - PGSIZE -> freelist s = 0 ->
  let p := PGROUNDUP kend in
  exists s', kinit s = Ok tt s' /\
    kmem_inv s' (pages_from p (Z.to_nat ((PHYSTOP - p) / PGSIZE))).
Proof.
  intros Hk Hs p. unfold kinit, freerange. change PHYSTOP with 2283798528 in *. unfold PGSIZE in *.
  pose proof (PGROUNDUP_bounds kend ltac:(lia)) as Hb.
  pose proof (PGROUNDUP_aligned kend ltac:(lia)) as Ha. fold p in Ha, Hb |- *.
  destruct (freerange_loop_run (S (Z.to_nat ((2283798528 - p) / 4096))) s [] p
    (Z.to_nat ((2283798528 - p) / 4096))) as (s' & E & Hinv).
  - split; [rewrite Hs; constructor|]. split; constructor.
  - done.
  - lia.
  - unfold PGSIZE. change PHYSTOP with 2283798528. Z.div_mod_to_equations; lia.
  - unfold PGSIZE. change PHYSTOP with 2283798528. Z.div_mod_to_equations; lia.
  - lia.
  - intros q Hq. set_solver.
  - exists s'. rewrite app_nil_r in Hinv. done.
Qed.

Lemma elem_of_pages_from p n q :
  q ∈ pages_from p n <-> exists i, (i < n)%nat /\ q = p + Z.of_nat i * PGSIZE.
Proof.
  unfold pages_from. rewrite elem_of_rev, list_elem_of_In, in_map_iff. split.
  - intros (i & <- & Hi%in_seq). exists i. split; [lia|done].
  - intros (i & Hi & ->). exists i. split; [done|]. apply in_seq. lia.
Qed.

(** [kinit] hands the allocator every page of RAM after the kernel, and
    nothing else: a page is on the free list exactly when it is page aligned
    and lies between [end] and [PHYSTOP]. *)
Theorem kinit_frees_all s :
  kend <= PHYSTOP - PGSIZE -> freelist s = 0 ->
  exists s' l, kinit s = Ok tt s' /\ kmem_inv s' l /\ forall q, q ∈ l <-> page_ok q.
Proof.
  intros Hk Hs. destruct (kinit_run s Hk Hs) as (s' & E & Hinv). eexists s', _. split; [done|].
  split; [exact Hinv|]. intros q. change PHYSTOP with 2283798528 in *. unfold PGSIZE in Hk.
  pose proof (PGROUNDUP_bounds kend ltac:(lia)) as Hb.
  pose proof (PGROUNDUP_aligned kend ltac:(lia)) as Ha.
  rewrite elem_of_pages_from. unfold page_ok, aligned in *. change PHYSTOP with 2283798528.
  unfold PGSIZE in *. split.
  - intros (i & Hi & ->). split; [|Z.div_mod_to_equations; lia].
    rewrite Z.mod_add by lia. done.
  - intros [Hq Hr]. exists (Z.to_nat ((q - PGROUNDUP kend) / 4096)).
    Z.div_mod_to_equations; lia.
Qed.

(** C39.  The allocator is a stack of pages: on an allocator whose free list is
    [l], freeing a page that is not on it pushes the page, allocating pops
    the first page (filled with junk, no other byte of memory touched) and
    returns 0 exactly when the list is empty. *)
Theorem kalloc_kfree_stack s l :
  kmem_inv s l ->
  (forall pa, page_ok pa -> pa ∉ l ->
     exists s', kfree pa s = Ok tt s' /\ kmem_inv s' (pa :: l) /\
       frame (p_mem s') (p_mem s) (fun x => pa <= x < pa + PGSIZE)) /\
  match l with
  | [] => kalloc s = Ok 0 s
  | p :: l' => exists s', kalloc s = Ok p s' /\ p <> 0 /\ kmem_inv s' l' /\
      p_mem s' = mem_fill (p_mem s) p PGSIZE 5
  end.
Proof.
  intros Hinv. split; [intros pa Hpa Hni; by apply kfree_run|].
  destruct l as [|p l']; [by apply kalloc_run_nil|].
  destruct (kalloc_run_cons s p l' Hinv) as (s' & E & Hinv' & Hm). exists s'.
  split; [done|]. split; [|done]. destruct Hinv as (_ & _ & Hall).
  apply Forall_inv, page_ok_pos in Hall. lia.
Qed.
End kalloc.

(** A machine whose kernel image leaves 16 pages free. *)
Definition small_end : Z := PHYSTOP - 16 * PGSIZE.

Definition boot_state : phys := mkphys (fun _ => 0) 0.

Lemma small_end_pos : 0 < small_end.
Proof. done. Qed.

Lemma small_boot :
  exists s, kinit small_end boot_state = Ok tt s /\ kmem_inv small_end s (pages_from small_end 16).
Proof. apply (kinit_run small_end small_end_pos boot_state); done. Qed.

Lemma kalloc_kfree_stack_witness :
  exists s s', kmem_inv small_end s (pages_from small_end 16) /\
    kalloc s = Ok (PHYSTOP - PGSIZE) s' /\ kmem_inv small_end s' (pages_from small_end 15).
Proof.
  destruct small_boot as (s & _ & Hs).
  destruct (kalloc_kfree_stack small_end small_end_pos s _ Hs) as [_ (s' & E & _ & H & _)].
  exists s, s'. split; [exact Hs|]. split; [exact E|exact H].
Defined.
