(* ===== verification/Vm.v ===== *)
(** * Virtual memory: [src/kernel/mm/vm.c] and the page-table part of
      [src/kernel/proc.c]

    The page tables live in physical memory and are walked through their
    64-bit entries.  A pointer to a page-table entry is its address; the null
    pointer is 0.  The theory of these definitions is in [PageTable] and
    [VmProofs]. *)

From S2P Require Import Prelude Memory CString Riscv Kalloc.

Definition load_pte (a : Z) : M phys Z := gets (fun s => load64 (p_mem s) a).
Definition store_pte (a v : Z) : M phys unit :=
  modify (fun s => mkphys (store64 (p_mem s) a v) (freelist s)).
Definition fill (a n c : Z) : M phys unit :=
  modify (fun s => mkphys (mem_fill (p_mem s) a n c) (freelist s)).
Definition move (dst src n : Z) : M phys unit :=
  modify (fun s => mkphys (mem_copy (p_mem s) dst src n) (freelist s)).

(** [for(int level = 2; level > 0; level--)] of [walk] *)
Fixpoint walk_loop (level : nat) (pagetable va : Z) (alloc : bool) : M phys Z :=
  match level with
  | O => ret (pagetable + 8 * PX 0 va)
  | S l =>
      let pte := pagetable + 8 * PX (Z.of_nat level) va in
      let! v := load_pte pte in
      if has v PTE_V then walk_loop l (PTE2PA v) va alloc
      else if negb alloc then ret 0
      else
        let! page := kalloc in
        if page =? 0 then ret 0
        else
          fill page PGSIZE 0 ;;
          store_pte pte (Z.lor (PA2PTE page) PTE_V) ;;
          walk_loop l page va alloc
  end.

Definition walk (pagetable va : Z) (alloc : bool) : M phys Z :=
  if MAXVA <=? va then panic "walk" else walk_loop 2 pagetable va alloc.

Definition walkaddr (pagetable va : Z) : M phys Z :=
  if MAXVA <=? va then ret 0
  else
    let! pte := walk pagetable va false in
    if pte =? 0 then ret 0
    else
      let! v := load_pte pte in
      if negb (has v PTE_V) then ret 0
      else if negb (has v PTE_U) then ret 0
      else ret (PTE2PA v).

(** [mappages]: 0 on success, -1 when [walk] cannot allocate a table. *)
Fixpoint mappages_loop (fuel : nat) (pagetable a last pa perm : Z) : M phys Z :=
  match fuel with
  | O => panic "out of fuel"
  | S f =>
      let! pte := walk pagetable a true in
      if pte =? 0 then ret (-1)
      else
        let! v := load_pte pte in
        if has v PTE_V then panic "mappages: remap"
        else
          store_pte pte (Z.lor (Z.lor (PA2PTE pa) perm) PTE_V) ;;
          if a =? last then ret 0
          else mappages_loop f pagetable (u64 (a + PGSIZE)) last (u64 (pa + PGSIZE)) perm
  end.

Definition mappages (pagetable va size pa perm : Z) : M phys Z :=
  if size =? 0 then panic "mappages: size"
  else
    let a := PGROUNDDOWN va in
    let last := PGROUNDDOWN (u64 (va + size - 1)) in
    mappages_loop (S (Z.to_nat ((last - a) / PGSIZE))) pagetable a last pa perm.

Definition kvmmap (kpgtbl va pa sz perm : Z) : M phys unit :=
  let! r := mappages kpgtbl va sz pa perm in
  if negb (r =? 0) then panic "kvmmap" else ret tt.

Section vm.
(** [end], and the symbols [etext] and [trampoline] of the linker script. *)
Variables kend etext trampoline : Z.

Abbreviation kfree := (Kalloc.kfree kend).

(** [for(a = va; a < va + npages*PGSIZE; a += PGSIZE)] of [uvmunmap] *)
Fixpoint uvmunmap_loop (fuel : nat) (pagetable a stop : Z) (do_free : bool) : M phys unit :=
  match fuel with
  | O => panic "out of fuel"
  | S f =>
      if a <? stop then
        let! pte := walk pagetable a false in
        if pte =? 0 then panic "uvmunmap: walk"
        else
          let! v := load_pte pte in
          if negb (has v PTE_V) then panic "uvmunmap: not mapped"
          else if PTE_FLAGS v =? PTE_V then panic "uvmunmap: not a leaf"
          else
            (if do_free then kfree (PTE2PA v) else ret tt) ;;
            store_pte pte 0 ;;
            uvmunmap_loop f pagetable (u64 (a + PGSIZE)) stop do_free
      else ret tt
  end.

Definition uvmunmap (pagetable va npages : Z) (do_free : bool) : M phys unit :=
  if negb (va mod PGSIZE =? 0) then panic "uvmunmap: not aligned"
  else uvmunmap_loop (S (Z.to_nat npages)) pagetable va (u64 (va + npages * PGSIZE)) do_free.

Definition uvmcreate : M phys Z :=
  let! pagetable := kalloc in
  if pagetable =? 0 then ret 0
  else fill pagetable PGSIZE 0 ;; ret pagetable.

Definition uvminit (pagetable src sz : Z) : M phys unit :=
  if PGSIZE <=? sz then panic "inituvm: more than a page"
  else
    let! page := kalloc in
    fill page PGSIZE 0 ;;
    mappages pagetable 0 PGSIZE page (Z.lor (Z.lor (Z.lor PTE_W PTE_R) PTE_X) PTE_U) ;;
    move page src sz.

Definition uvmdealloc (pagetable oldsz newsz : Z) : M phys Z :=
  if oldsz <=? newsz then ret oldsz
  else
    (if PGROUNDUP newsz <? PGROUNDUP oldsz then
       let npages := s32 ((PGROUNDUP oldsz - PGROUNDUP newsz) / PGSIZE) in
       uvmunmap pagetable (PGROUNDUP newsz) npages true
     else ret tt) ;;
    ret newsz.

(** [for(a = oldsz; a < newsz; a += PGSIZE)] of [uvmalloc]; [oldsz] is
    already rounded up. *)
Fixpoint uvmalloc_loop (fuel : nat) (pagetable oldsz a newsz : Z) : M phys Z :=
  match fuel with
  | O => panic "out of fuel"
  | S f =>
      if a <? newsz then
        let! page := kalloc in
        if page =? 0 then
          uvmdealloc pagetable a oldsz ;; ret 0
        else
          fill page PGSIZE 0 ;;
          let! r := mappages pagetable a PGSIZE page
                      (Z.lor (Z.lor (Z.lor PTE_W PTE_X) PTE_R) PTE_U) in
          if negb (r =? 0) then
            kfree page ;; uvmdealloc pagetable a oldsz ;; ret 0
          else uvmalloc_loop f pagetable oldsz (u64 (a + PGSIZE)) newsz
      else ret newsz
  end.

Definition uvmalloc (pagetable oldsz newsz : Z) : M phys Z :=
  if newsz <? oldsz then ret oldsz
  else
    let oldsz := PGROUNDUP oldsz in
    uvmalloc_loop (S (S (Z.to_nat ((newsz - oldsz) / PGSIZE)))) pagetable oldsz oldsz newsz.

(** [freewalk] recurses through the valid non-leaf entries; [depth] bounds
    the recursion (page tables have three levels). *)
Fixpoint freewalk (depth : nat) (pagetable : Z) : M phys unit :=
  match depth with
  | O => panic "out of fuel"
  | S d =>
      for_up 512 0 (fun i =>
        let! pte := load_pte (pagetable + 8 * i) in
        if has pte PTE_V && (Z.land pte (Z.lor (Z.lor PTE_R PTE_W) PTE_X) =? 0) then
          freewalk d (PTE2PA pte) ;; store_pte (pagetable + 8 * i) 0
        else if has pte PTE_V then panic "freewalk: leaf"
        else ret tt) ;;
      kfree pagetable
  end.

Definition uvmfree (pagetable sz : Z) : M phys unit :=
  (if 0 <? sz then uvmunmap pagetable 0 (PGROUNDUP sz / PGSIZE) true else ret tt) ;;
  freewalk 3 pagetable.

(** [for(i = 0; i < sz; i += PGSIZE)] of [uvmcopy], with its error exit *)
Fixpoint uvmcopy_loop (fuel : nat) (old new i sz : Z) : M phys Z :=
  match fuel with
  | O => panic "out of fuel"
  | S f =>
      let err := uvmunmap new 0 (i / PGSIZE) true ;; ret (-1) in
      if i <? sz then
        let! pte := walk old i false in
        if pte =? 0 then panic "uvmcopy: pte should exist"
        else
          let! v := load_pte pte in
          if negb (has v PTE_V) then panic "uvmcopy: page not present"
          else
            let pa := PTE2PA v in
            let flags := PTE_FLAGS v in
            let! page := kalloc in
            if page =? 0 then err
            else
              move page pa PGSIZE ;;
              let! r := mappages new i PGSIZE page flags in
              if negb (r =? 0) then kfree page ;; err
              else uvmcopy_loop f old new (u64 (i + PGSIZE)) sz
      else ret 0
  end.

Definition uvmcopy (old new sz : Z) : M phys Z :=
  uvmcopy_loop (S (S (Z.to_nat (sz / PGSIZE)))) old new 0 sz.

Definition uvmclear (pagetable va : Z) : M phys unit :=
  let! pte := walk pagetable va false in
  if pte =? 0 then panic "uvmclear"
  else
    let! v := load_pte pte in
    store_pte pte (Z.land v (Z.lnot PTE_U)).

(** The kernel's own page table. *)
Fixpoint proc_mapstacks_loop (n : nat) (p kpgtbl : Z) : M phys unit :=
  match n with
  | O => ret tt
  | S n' =>
      let! pa := kalloc in
      if pa =? 0 then panic "kalloc"
      else
        kvmmap kpgtbl (KSTACK p) pa PGSIZE (Z.lor PTE_R PTE_W) ;;
        proc_mapstacks_loop n' (p + 1) kpgtbl
  end.

Definition NPROC : nat := 64.

Definition proc_mapstacks (kpgtbl : Z) : M phys unit := proc_mapstacks_loop NPROC 0 kpgtbl.

Definition kvmmake : M phys Z :=
  let! kpgtbl := kalloc in
  fill kpgtbl PGSIZE 0 ;;
  kvmmap kpgtbl UART0 UART0 PGSIZE (Z.lor PTE_R PTE_W) ;;
  kvmmap kpgtbl VIRTIO0 VIRTIO0 PGSIZE (Z.lor PTE_R PTE_W) ;;
  kvmmap kpgtbl CLINT_MTIME CLINT_MTIME PGSIZE PTE_R ;;
  kvmmap kpgtbl PLIC PLIC 0x400000 (Z.lor PTE_R PTE_W) ;;
  kvmmap kpgtbl KERNBASE KERNBASE (etext - KERNBASE) (Z.lor PTE_R PTE_X) ;;
  kvmmap kpgtbl etext etext (PHYSTOP - etext) (Z.lor PTE_R PTE_W) ;;
  kvmmap kpgtbl TRAMPOLINE trampoline PGSIZE (Z.lor PTE_R PTE_X) ;;
  proc_mapstacks kpgtbl ;;
  ret kpgtbl.

(** [proc_pagetable(p)] of [proc.c]; the trapframe page is the argument. *)
Definition proc_pagetable (trapframe : Z) : M phys Z :=
  let! pagetable := uvmcreate in
  if pagetable =? 0 then ret 0
  else
    let! r := mappages pagetable TRAMPOLINE PGSIZE trampoline (Z.lor PTE_R PTE_X) in
    if r <? 0 then uvmfree pagetable 0 ;; ret 0
    else
      let! r := mappages pagetable TRAPFRAME PGSIZE trapframe (Z.lor PTE_R PTE_W) in
      if r <? 0 then
        uvmunmap pagetable TRAMPOLINE 1 false ;; uvmfree pagetable 0 ;; ret 0
      else ret pagetable.

Definition proc_freepagetable (pagetable sz : Z) : M phys unit :=
  uvmunmap pagetable TRAMPOLINE 1 false ;;
  uvmunmap pagetable TRAPFRAME 1 false ;;
  uvmfree pagetable sz.
End vm.

(** ** Copies between kernel and user memory *)

(** [while(len > 0)] of [copyout]; at most [len / PGSIZE + 2] pages. *)
Fixpoint copyout_loop (fuel : nat) (pagetable dstva src len : Z) : M phys Z :=
  match fuel with
  | O => panic "out of fuel"
  | S f =>
      if 0 <? len then
        let va0 := PGROUNDDOWN dstva in
        let! pa0 := walkaddr pagetable va0 in
        if pa0 =? 0 then ret (-1)
        else
          let n := u64 (PGSIZE - (dstva - va0)) in
          let n := if len <? n then len else n in
          move (pa0 + (dstva - va0)) src n ;;
          copyout_loop f pagetable (u64 (va0 + PGSIZE)) (src + n) (len - n)
      else ret 0
  end.

Definition copyout (pagetable dstva src len : Z) : M phys Z :=
  copyout_loop (Z.to_nat (len / PGSIZE + 3)) pagetable dstva src len.

Fixpoint copyin_loop (fuel : nat) (pagetable dst srcva len : Z) : M phys Z :=
  match fuel with
  | O => panic "out of fuel"
  | S f =>
      if 0 <? len then
        let va0 := PGROUNDDOWN srcva in
        let! pa0 := walkaddr pagetable va0 in
        if pa0 =? 0 then ret (-1)
        else
          let n := u64 (PGSIZE - (srcva - va0)) in
          let n := if len <? n then len else n in
          move dst (pa0 + (srcva - va0)) n ;;
          copyin_loop f pagetable (dst + n) (u64 (va0 + PGSIZE)) (len - n)
      else ret 0
  end.

Definition copyin (pagetable dst srcva len : Z) : M phys Z :=
  copyin_loop (Z.to_nat (len / PGSIZE + 3)) pagetable dst srcva len.

(** The inner loop of [copyinstr] over one page: [n] bytes at [p].  Returns
    whether the NUL was found and how far [dst] and [max] moved. *)
Fixpoint copyinstr_page (n : nat) (p dst max : Z) : M phys (bool * Z * Z) :=
  match n with
  | O => ret (false, dst, max)
  | S n' =>
      let! c := gets (fun s => p_mem s p) in
      if c =? 0 then
        modify (fun s => mkphys (upd (p_mem s) dst 0) (freelist s)) ;;
        ret (true, dst, max)
      else
        modify (fun s => mkphys (upd (p_mem s) dst c) (freelist s)) ;;
        copyinstr_page n' (p + 1) (dst + 1) (max - 1)
  end.

Fixpoint copyinstr_loop (fuel : nat) (pagetable dst srcva max : Z) : M phys Z :=
  match fuel with
  | O => panic "out of fuel"
  | S f =>
      if 0 <? max then
        let va0 := PGROUNDDOWN srcva in
        let! pa0 := walkaddr pagetable va0 in
        if pa0 =? 0 then ret (-1)
        else
          let n := u64 (PGSIZE - (srcva - va0)) in
          let n := if max <? n then max else n in
          let! (got_null, dst, max) :=
            copyinstr_page (Z.to_nat n) (pa0 + (srcva - va0)) dst max in
          if got_null then ret 0
          else copyinstr_loop f pagetable dst (u64 (va0 + PGSIZE)) max
      else ret (-1)
  end.

Definition copyinstr (pagetable dst srcva max : Z) : M phys Z :=
  copyinstr_loop (Z.to_nat (max / PGSIZE + 3)) pagetable dst srcva max.
