(* ===== verification/Copy.v ===== *)
(** * Copies between user space and kernel variables: [src/kernel/mm/vm.c]

    [copyout], [copyin] and [copyinstr] when the kernel side is a local
    variable or the data of a buffer, which are lists of bytes in the model and
    not part of physical memory ([Vm] has the same functions between two
    addresses). *)

From S2P Require Import Prelude Memory CString Riscv Kalloc Vm.

Definition put_bytes (a : Z) (l : list Z) : M phys unit :=
  modify (fun s => mkphys (mem_write (p_mem s) a l) (freelist s)).

Fixpoint copyout_bytes_loop (fuel : nat) (pagetable dstva : Z) (src : list Z) : M phys Z :=
  match fuel with
  | O => panic "out of fuel"
  | S f =>
      let len := Z.of_nat (length src) in
      if 0 <? len then
        let va0 := PGROUNDDOWN dstva in
        let! pa0 := walkaddr pagetable va0 in
        if pa0 =? 0 then ret (-1)
        else
          let n := u64 (PGSIZE - (dstva - va0)) in
          let n := if len <? n then len else n in
          put_bytes (pa0 + (dstva - va0)) (take (Z.to_nat n) src) ;;
          copyout_bytes_loop f pagetable (u64 (va0 + PGSIZE)) (drop (Z.to_nat n) src)
      else ret 0
  end.

Definition copyout_bytes (pagetable dstva : Z) (src : list Z) : M phys Z :=
  copyout_bytes_loop (Z.to_nat (Z.of_nat (length src) / PGSIZE + 3)) pagetable dstva src.

(** The bytes stored to the kernel buffer and the result. *)
Fixpoint copyin_bytes_loop (fuel : nat) (pagetable srcva len : Z) : M phys (list Z * Z) :=
  match fuel with
  | O => panic "out of fuel"
  | S f =>
      if 0 <? len then
        let va0 := PGROUNDDOWN srcva in
        let! pa0 := walkaddr pagetable va0 in
        if pa0 =? 0 then ret ([], -1)
        else
          let n := u64 (PGSIZE - (srcva - va0)) in
          let n := if len <? n then len else n in
          let! l := gets (fun s => mem_read (p_mem s) (pa0 + (srcva - va0)) (Z.to_nat n)) in
          let! r := copyin_bytes_loop f pagetable (u64 (va0 + PGSIZE)) (len - n) in
          ret (l ++ fst r, snd r)
      else ret ([], 0)
  end.

Definition copyin_bytes (pagetable srcva len : Z) : M phys (list Z * Z) :=
  copyin_bytes_loop (Z.to_nat (len / PGSIZE + 3)) pagetable srcva len.

(** The inner loop of [copyinstr] over [n] bytes at [p]: the bytes before a
    NUL, and whether there was one. *)
Fixpoint getstr_page (n : nat) (p : Z) : M phys (bool * list Z) :=
  match n with
  | O => ret (false, [])
  | S n' =>
      let! c := gets (fun s => p_mem s p) in
      if c =? 0 then ret (true, [])
      else
        let! r := getstr_page n' (p + 1) in
        ret (fst r, c :: snd r)
  end.

Fixpoint copyinstr_bytes_loop (fuel : nat) (pagetable srcva max : Z) : M phys (list Z * Z) :=
  match fuel with
  | O => panic "out of fuel"
  | S f =>
      if 0 <? max then
        let va0 := PGROUNDDOWN srcva in
        let! pa0 := walkaddr pagetable va0 in
        if pa0 =? 0 then ret ([], -1)
        else
          let n := u64 (PGSIZE - (srcva - va0)) in
          let n := if max <? n then max else n in
          let! r := getstr_page (Z.to_nat n) (pa0 + (srcva - va0)) in
          if fst r then ret (snd r, 0)
          else
            let! r' := copyinstr_bytes_loop f pagetable (u64 (va0 + PGSIZE))
                         (max - Z.of_nat (length (snd r))) in
            ret (snd r ++ fst r', snd r')
      else ret ([], -1)
  end.

(** The string without its NUL, and 0, or -1 when it does not end in time. *)
Definition copyinstr_bytes (pagetable srcva max : Z) : M phys (list Z * Z) :=
  copyinstr_bytes_loop (Z.to_nat (max / PGSIZE + 3)) pagetable srcva max.
