(* ===== verification/PageTable.v ===== *)
(** * The theory of page tables

    A page table is a tree of pages in physical memory.  [node m pt path]
    is the page reached from the root [pt] through the valid entries of
    [path]; a well-formed table ([pt_wf]) reaches every page by one path only,
    so that a store into one entry is a local change of the tree.  [pte_at]
    is the abstract content of a table: the valid leaf entry of each virtual
    page, the function the operations of [Vm] are specified against. *)

From S2P Require Import Prelude Memory Riscv Kalloc Vm.

Fixpoint node (m : mem) (pt : Z) (path : list Z) : option Z :=
  match path with
  | [] => Some pt
  | i :: rest =>
      let v := load64 m (pt + 8 * i) in
      if has v PTE_V then node m (PTE2PA v) rest else None
  end.

Definition idx_ok (i : Z) : Prop := 0 <= i < 512.

(** The path of an interior page: the root, or one or two indices. *)
Definition path_ok (path : list Z) : Prop := (length path <= 2)%nat /\ Forall idx_ok path.

Definition owns (m : mem) (pt p : Z) : Prop := exists path, path_ok path /\ node m pt path = Some p.

Definition vapath (va : Z) : list Z := [PX 2 va; PX 1 va].

(** The address of the leaf entry for [va], if the interior tables exist. *)
Definition slot (m : mem) (pt va : Z) : option Z :=
  match node m pt (vapath va) with
  | Some p => Some (p + 8 * PX 0 va)
  | None => None
  end.

(** The valid leaf entry for [va]. *)
Definition pte_at (m : mem) (pt va : Z) : option Z :=
  match slot m pt va with
  | Some a => let v := load64 m a in if has v PTE_V then Some v else None
  | None => None
  end.

Definition RWX : Z := Z.lor (Z.lor PTE_R PTE_W) PTE_X.

(** ** Paths *)

Lemma path_ok_nil : path_ok [].
Proof. split; [simpl; lia|constructor]. Qed.

Lemma path_ok_app_l p q : path_ok (p ++ q) -> path_ok p.
Proof. intros [Hl Hf]. rewrite length_app in Hl. apply Forall_app in Hf. split; [lia|tauto]. Qed.

Lemma path_ok_snoc_idx p i : path_ok (p ++ [i]) -> idx_ok i.
Proof. intros [_ Hf]. apply Forall_app in Hf as [_ Hf]. by apply Forall_inv in Hf. Qed.

Lemma path_ok_snoc p i : (length p <= 1)%nat -> path_ok p -> idx_ok i -> path_ok (p ++ [i]).
Proof.
  intros Hl [_ Hf] Hi. split; [rewrite length_app; simpl; lia|].
  apply Forall_app; split; [done|by constructor].
Qed.

Lemma vapath_ok va : path_ok (vapath va).
Proof.
  split; [simpl; lia|]. repeat constructor; apply PX_range; lia.
Qed.

Lemma PX_idx_ok l va : 0 <= l -> idx_ok (PX l va).
Proof. apply PX_range. Qed.

#[export] Hint Resolve path_ok_nil vapath_ok PX_idx_ok : machine.

Lemma node_app m pt p q :
  node m pt (p ++ q) = match node m pt p with Some x => node m x q | None => None end.
Proof.
  revert pt. induction p as [|i p IH]; intros pt; [done|]. cbn [app node].
  destruct (has _ _); [apply IH|done].
Qed.

Lemma node_snoc m pt p i :
  node m pt (p ++ [i]) =
  match node m pt p with
  | Some x => let v := load64 m (x + 8 * i) in if has v PTE_V then Some (PTE2PA v) else None
  | None => None
  end.
Proof. rewrite node_app. by destruct (node m pt p). Qed.

Lemma owns_node m pt path p : path_ok path -> node m pt path = Some p -> owns m pt p.
Proof. by exists path. Qed.

Lemma owns_root m pt : owns m pt pt.
Proof. exists []. auto with machine. Qed.

#[export] Hint Resolve owns_node owns_root : machine.

Section page_table.
Variable kend : Z.
Hypothesis kend_pos : 0 < kend.

Record pt_wf (m : mem) (pt : Z) : Prop := {
  wf_page p : owns m pt p -> page_ok kend p;
  wf_inj path1 path2 p :
    path_ok path1 -> path_ok path2 ->
    node m pt path1 = Some p -> node m pt path2 = Some p -> path1 = path2;
  wf_ptr path i p :
    path_ok (path ++ [i]) -> node m pt path = Some p ->
    has (load64 m (p + 8 * i)) PTE_V = true ->
    Z.land (load64 m (p + 8 * i)) RWX = 0
}.

(** ** Changes away from the table *)

Lemma node_frame m m' pt path :
  (forall p, owns m pt p -> agree m' m p 4096) ->
  path_ok path -> node m' pt path = node m pt path.
Proof.
  intros Hag. induction path as [|i path IH] using rev_ind; intros Hok; [done|].
  rewrite !node_snoc, IH by (by eapply path_ok_app_l).
  destruct (node m pt path) as [p|] eqn:E; [|done].
  apply path_ok_snoc_idx in Hok as Hi. unfold idx_ok in Hi.
  rewrite (load64_agree m' m); [done|].
  eapply agree_sub; [apply Hag; eapply owns_node; [by eapply path_ok_app_l|exact E]|lia|lia].
Qed.

Lemma load_frame m m' pt path p i :
  (forall p, owns m pt p -> agree m' m p 4096) ->
  path_ok path -> node m pt path = Some p -> idx_ok i ->
  load64 m' (p + 8 * i) = load64 m (p + 8 * i).
Proof.
  intros Hag Hok E Hi. unfold idx_ok in Hi. apply load64_agree.
  eapply agree_sub; [apply Hag; by eapply owns_node|lia|lia].
Qed.

Lemma owns_frame m m' pt p :
  (forall p, owns m pt p -> agree m' m p 4096) -> owns m' pt p <-> owns m pt p.
Proof.
  intros Hag. split; intros (path & Hok & E); exists path; (split; [done|]).
  - by rewrite (node_frame m m') in E.
  - by rewrite (node_frame m m').
Qed.

Lemma pte_at_frame m m' pt va :
  (forall p, owns m pt p -> agree m' m p 4096) -> pte_at m' pt va = pte_at m pt va.
Proof.
  intros Hag. unfold pte_at, slot. rewrite (node_frame m m') by auto with machine.
  destruct (node m pt (vapath va)) as [p|] eqn:E; [|done].
  rewrite (load_frame m m' pt (vapath va)); auto with machine. apply PX_range; lia.
Qed.

Lemma pt_wf_frame m m' pt :
  (forall p, owns m pt p -> agree m' m p 4096) -> pt_wf m pt -> pt_wf m' pt.
Proof.
  intros Hag [Hp Hi Hr]. split.
  - intros p Ho. apply Hp. by apply (owns_frame m m').
  - intros path1 path2 p H1 H2. rewrite !(node_frame m m') by done. by apply Hi.
  - intros path i p Hok. rewrite (node_frame m m') by eauto using path_ok_app_l.
    intros E. rewrite (load_frame m m' pt path);
      eauto using path_ok_app_l, path_ok_snoc_idx.
Qed.

(** ** A store into one entry of the table *)

Section store.
Variables (m : mem) (pt : Z) (path : list Z) (p i v : Z).
Hypothesis Hwf : pt_wf m pt.
Hypothesis Hpath : path_ok path.
Hypothesis Hnode : node m pt path = Some p.
Hypothesis Hidx : idx_ok i.

Abbreviation m' := (store64 m (p + 8 * i) v).

Lemma entry_other path' q j :
  path_ok path' -> node m pt path' = Some q -> idx_ok j ->
  ~ (path' = path /\ j = i) ->
  load64 m' (q + 8 * j) = load64 m (q + 8 * j).
Proof.
  intros Hp' Hq Hj Hne. unfold idx_ok in *. apply load64_store64_other.
  destruct (decide (q = p)) as [->|Hqp].
  - assert (path' = path) as -> by (by eapply wf_inj).
    assert (j <> i) by tauto. lia.
  - assert (page_ok kend p) as [Ha _] by (eapply wf_page; eauto with machine).
    assert (page_ok kend q) as [Hb _] by (eapply wf_page; eauto with machine).
    destruct (pages_disjoint p q); try done; lia.
Qed.

Lemma node_store path' :
  path_ok path' -> ~ (path ++ [i]) `prefix_of` path' ->
  node m' pt path' = node m pt path'.
Proof.
  induction path' as [|j path' IH] using rev_ind; intros Hok Hnp; [done|].
  apply path_ok_app_l in Hok as Hok'. apply path_ok_snoc_idx in Hok as Hj.
  rewrite !node_snoc, IH; [|done|].
  2: { intros Hpre. apply Hnp. etrans; [done|]. by apply prefix_app_r. }
  destruct (node m pt path') as [q|] eqn:E; [|done].
  rewrite entry_other with (path' := path'); try done.
  intros [-> ->]. by apply Hnp.
Qed.
End store.

(** A store into a leaf entry changes no interior page. *)
Lemma node_store_leaf m pt va p v path' :
  pt_wf m pt -> node m pt (vapath va) = Some p -> path_ok path' ->
  node (store64 m (p + 8 * PX 0 va) v) pt path' = node m pt path'.
Proof.
  intros Hwf Hn Hok. apply (node_store m pt (vapath va)); auto with machine; [apply PX_range; lia|].
  intros Hpre%prefix_length. destruct Hok as [Hl _]. rewrite length_app in Hpre. simpl in Hpre. lia.
Qed.

Lemma owns_store_leaf m pt va p v q :
  pt_wf m pt -> node m pt (vapath va) = Some p ->
  owns (store64 m (p + 8 * PX 0 va) v) pt q <-> owns m pt q.
Proof.
  intros Hwf Hn. split; intros (path & Hok & E); exists path; (split; [done|]).
  - by rewrite node_store_leaf in E.
  - by rewrite node_store_leaf.
Qed.

Lemma pt_wf_store_leaf m pt va p v :
  pt_wf m pt -> node m pt (vapath va) = Some p ->
  pt_wf (store64 m (p + 8 * PX 0 va) v) pt.
Proof.
  intros Hwf Hn. split.
  - intros q Ho. eapply wf_page; [done|]. by apply owns_store_leaf in Ho.
  - intros path1 path2 q H1 H2. rewrite !node_store_leaf by done. by apply (wf_inj _ _ Hwf).
  - intros path i q Hok. apply path_ok_app_l in Hok as Hok'. apply path_ok_snoc_idx in Hok as Hi.
    rewrite node_store_leaf by done. intros E.
    rewrite (entry_other m pt (vapath va) p (PX 0 va) v) with (path' := path); eauto with machine.
    + by apply (wf_ptr _ _ Hwf path).
    + apply PX_range; lia.
    + intros [-> _]. destruct Hok as [Hl _]. simpl in Hl. lia.
Qed.

Lemma vapath_inj va va' :
  0 <= va < VASPAN -> 0 <= va' < VASPAN -> vapath va = vapath va' -> PX 0 va = PX 0 va' ->
  va / 4096 = va' / 4096.
Proof. intros Hva Hva' [= E2 E1] E0. by apply PX_inj. Qed.

(** The content of the table after a leaf store: one virtual page changes. *)
Lemma pte_at_store_leaf m pt va p v va' :
  pt_wf m pt -> node m pt (vapath va) = Some p ->
  0 <= va < VASPAN -> 0 <= va' < VASPAN ->
  pte_at (store64 m (p + 8 * PX 0 va) v) pt va' =
  if decide (va / 4096 = va' / 4096)
  then (if has (u64 v) PTE_V then Some (u64 v) else None)
  else pte_at m pt va'.
Proof.
  intros Hwf Hn Hva Hva'. unfold pte_at, slot.
  rewrite node_store_leaf by auto with machine.
  case_decide as Hd.
  - assert (vapath va' = vapath va) as Ep
      by (unfold vapath; rewrite !(PX_page _ va va') by (done || lia); done).
    rewrite Ep, Hn, <-(PX_page 0 va va') by (done || lia).
    by rewrite load64_store64_same.
  - destruct (node m pt (vapath va')) as [q|] eqn:E; [|done].
    rewrite (entry_other m pt (vapath va) p (PX 0 va) v) with (path' := vapath va');
      eauto with machine; try (apply PX_range; lia).
    intros [Ep E0]. apply Hd. symmetry. by apply vapath_inj.
Qed.
End page_table.
