(* ===== verification/VmProofs.v ===== *)
(** * Correctness of the page-table operations of [Vm]

    The operations are specified against [pte_at], the function from virtual
    pages to valid leaf entries: [walk] with [alloc] changes no mapping,
    [mappages] adds exactly the requested ones, [uvmunmap] removes exactly the
    requested ones and returns the frames to the allocator. *)

From S2P Require Import Prelude Memory Riscv Kalloc Vm PageTable.

#[local] Set Warnings "-clear-no-such-hyp".

Section vm_proofs.
Variable kend : Z.
Hypothesis kend_pos : 0 < kend.

(** The allocator's invariant, a well-formed table, and no page of the
    table on the free list. *)
Record vm_inv (s : phys) (l : list Z) (pt : Z) : Prop := {
  vi_kmem : kmem_inv kend s l;
  vi_wf : pt_wf kend (p_mem s) pt;
  vi_sep p : owns (p_mem s) pt p -> p ∉ l
}.

(** ** Adding one interior page *)

Section grow.
Variables (m : mem) (pt : Z) (path : list Z) (p i q : Z).
Hypothesis Hwf : pt_wf kend m pt.
Hypothesis Hlen : (length path <= 1)%nat.
Hypothesis Hpath : path_ok path.
Hypothesis Hnode : node m pt path = Some p.
Hypothesis Hidx : idx_ok i.
Hypothesis Hinvalid : has (load64 m (p + 8 * i)) PTE_V = false.
Hypothesis Hq : page_ok kend q.
Hypothesis Hfresh : ~ owns m pt q.

Definition new_pte : Z := Z.lor (PA2PTE q) PTE_V.
Definition grow_mem : mem :=
  store64 (mem_fill (mem_fill m q PGSIZE 5) q PGSIZE 0) (p + 8 * i) new_pte.

Abbreviation m0 := (mem_fill (mem_fill m q PGSIZE 5) q PGSIZE 0).

Lemma new_pte_u64 : u64 new_pte = new_pte.
Proof.
  apply (uwrap_small 64). destruct Hq as [_ Hr]. unfold PHYSTOP, KERNBASE in Hr.
  unfold new_pte. apply lor_range; [lia| |unfold PTE_V; lia].
  assert (0 <= PA2PTE q < 2 ^ 62) by (apply PA2PTE_range; lia). lia.
Qed.

Lemma new_pte_valid : has new_pte PTE_V = true.
Proof. unfold new_pte. by rewrite has_PA2PTE. Qed.

Lemma new_pte_pa : PTE2PA new_pte = q.
Proof.
  destruct Hq as [Ha Hr]. unfold PHYSTOP, KERNBASE in Hr.
  apply PTE2PA_PA2PTE; [lia|done|unfold PTE_V; lia].
Qed.

Lemma new_pte_ptr : Z.land new_pte RWX = 0.
Proof.
  unfold new_pte. rewrite <-land_flags, PTE_FLAGS_PA2PTE; done.
Qed.

Lemma fill_agree x : owns m pt x -> agree m0 m x 4096.
Proof.
  intros Hx. assert (page_ok kend x) as [Ha _] by (by eapply wf_page).
  assert (x <> q) by (intros ->; done).
  destruct (pages_disjoint x q) as [Hd|Hd]; [done|apply Hq|done|..];
    intros y Hy; unfold mem_fill, PGSIZE; repeat (case_range; [lia|]); done.
Qed.

Lemma p_ne_q : p <> q.
Proof. intros ->. apply Hfresh. by eapply owns_node. Qed.

Lemma pq_disjoint : p + 4096 <= q \/ q + 4096 <= p.
Proof.
  apply pages_disjoint; [|apply Hq|apply p_ne_q].
  eapply wf_page; [done|by eapply owns_node].
Qed.

Lemma wf_m0 : pt_wf kend m0 pt.
Proof. eapply pt_wf_frame; [apply fill_agree|done]. Qed.

Lemma node_m0 path' : path_ok path' -> node m0 pt path' = node m pt path'.
Proof. apply node_frame, fill_agree. Qed.

(** The new page is empty. *)
Lemma load_new j : idx_ok j -> load64 grow_mem (q + 8 * j) = 0.
Proof.
  intros Hj. unfold grow_mem, idx_ok in *. pose proof pq_disjoint.
  rewrite load64_store64_other by lia.
  apply load64_fill_zero; unfold PGSIZE; lia.
Qed.

(** Other entries of the table keep their value. *)
Lemma load_old path' x j :
  path_ok path' -> node m pt path' = Some x -> idx_ok j ->
  ~ (path' = path /\ j = i) ->
  load64 grow_mem (x + 8 * j) = load64 m (x + 8 * j).
Proof.
  intros Hp' Hx Hj Hne. unfold grow_mem.
  rewrite (entry_other kend m0 pt path) with (path' := path'); try done;
    try (by rewrite node_m0); [|apply wf_m0].
  eapply load_frame; [apply fill_agree|done..].
Qed.

Lemma not_prefix_path : ~ (path ++ [i]) `prefix_of` path.
Proof. intros H%prefix_length. rewrite length_app in H. simpl in H. lia. Qed.

Lemma node_grow path' :
  path_ok path' ->
  node grow_mem pt path' =
  if decide (path' = path ++ [i]) then Some q
  else if decide ((path ++ [i]) `prefix_of` path') then None
  else node m pt path'.
Proof.
  intros Hok.
  assert (Hnew : node grow_mem pt (path ++ [i]) = Some q).
  { rewrite node_snoc. unfold grow_mem.
    rewrite (node_store kend m0 pt path); try done;
      [|apply wf_m0|by rewrite node_m0|apply not_prefix_path].
    rewrite node_m0, Hnode by done. cbv zeta.
    by rewrite load64_store64_same, new_pte_u64, new_pte_valid, new_pte_pa. }
  case_decide as H1; [by subst|]. case_decide as H2.
  - destruct H2 as [rest ->]. destruct rest as [|j rest].
    { by rewrite app_nil_r in H1. }
    rewrite node_app, Hnew. cbn [node].
    rewrite load_new; [done|]. destruct Hok as [_ Hf].
    apply Forall_app in Hf as [_ Hf]. by apply Forall_inv in Hf.
  - unfold grow_mem. rewrite (node_store kend m0 pt path); try done;
      [by apply node_m0|apply wf_m0|by rewrite node_m0].
Qed.

Lemma owns_grow x : owns grow_mem pt x <-> owns m pt x \/ x = q.
Proof.
  split.
  - intros (path' & Hok & E). rewrite node_grow in E by done.
    repeat case_decide; simplify_eq; [by right|]. left. by exists path'.
  - intros [(path' & Hok & E)| ->].
    + exists path'. split; [done|]. rewrite node_grow by done.
      assert (Hpre : ~ (path ++ [i]) `prefix_of` path').
      { intros [rest ->]. rewrite node_app, node_snoc, Hnode in E. cbv zeta in E.
        by rewrite Hinvalid in E. }
      rewrite decide_False, decide_False; try done. by intros ->.
    + exists (path ++ [i]). assert (path_ok (path ++ [i])) by (by apply path_ok_snoc).
      split; [done|]. rewrite node_grow by done. by rewrite decide_True.
Qed.

Lemma pt_wf_grow : pt_wf kend grow_mem pt.
Proof.
  split.
  - intros x [Hx| ->]%owns_grow; [by eapply wf_page|done].
  - intros path1 path2 x H1 H2. rewrite !node_grow by done.
    repeat case_decide; intros E1 E2; simplify_eq; try done.
    + exfalso. apply Hfresh. by exists path2.
    + exfalso. apply Hfresh. by exists path1.
    + by eapply wf_inj.
  - intros path' j x Hok. apply path_ok_app_l in Hok as Hok'.
    apply path_ok_snoc_idx in Hok as Hj. rewrite node_grow by done.
    repeat case_decide; intros E; simplify_eq.
    + by rewrite load_new.
    + destruct (decide (path' = path /\ j = i)) as [[-> ->]|Hne].
      * unfold grow_mem. rewrite Hnode in E. simplify_eq.
        by rewrite load64_store64_same, new_pte_u64, new_pte_ptr.
      * rewrite (load_old path') by done. by apply (wf_ptr _ _ _ Hwf path').
Qed.

(** No mapping changes: the new page was reached by no valid entry. *)
Lemma pte_at_grow va : pte_at grow_mem pt va = pte_at m pt va.
Proof.
  unfold pte_at, slot. rewrite node_grow by auto with machine.
  destruct (decide ((path ++ [i]) `prefix_of` vapath va)) as [Hpre|Hpre].
  - assert (node m pt (vapath va) = None) as ->.
    { destruct Hpre as [rest ->]. rewrite node_app, node_snoc, Hnode. cbv zeta.
      by rewrite Hinvalid. }
    case_decide; [|done]. rewrite load_new by (apply PX_range; lia). done.
  - rewrite decide_False by (intros E; by rewrite E in Hpre).
    destruct (node m pt (vapath va)) as [x|] eqn:E; [|done].
    rewrite (load_old (vapath va)); auto with machine; [apply PX_range; lia|].
    intros [Ep _]. rewrite <-Ep in Hlen. simpl in Hlen. lia.
Qed.

Lemma grow_frame :
  frame grow_mem m (fun x => p <= x < p + 4096 \/ q <= x < q + 4096).
Proof.
  intros x Hx. unfold grow_mem, store64, mem_write. rewrite length_le_bytes.
  unfold idx_ok in Hidx. case_range; [lia|].
  unfold mem_fill, PGSIZE. repeat (case_range; [lia|]). done.
Qed.
End grow.

(** ** [walk] *)

(** What every operation below guarantees: the interior pages it adds come
    off the free list, and no byte outside the table changes. *)
Record vm_grow (s : phys) (l : list Z) (s' : phys) (l' : list Z) (pt : Z) : Prop := {
  vg_pages : exists new, l = new ++ l' /\
    forall p, owns (p_mem s') pt p <-> owns (p_mem s) pt p \/ p ∈ new;
  vg_frame : frame (p_mem s') (p_mem s)
    (fun x => exists p, owns (p_mem s') pt p /\ p <= x < p + 4096)
}.

(** ... and it changes no mapping. *)
Definition vm_ext (s : phys) (l : list Z) (s' : phys) (l' : list Z) (pt : Z) : Prop :=
  vm_grow s l s' l' pt /\ forall va, pte_at (p_mem s') pt va = pte_at (p_mem s) pt va.

Lemma vm_grow_refl s l pt : vm_grow s l s l pt.
Proof. split; [|done]. exists []. split; [done|]. set_solver. Qed.

Lemma vm_grow_trans s l s1 l1 s2 l2 pt :
  vm_grow s l s1 l1 pt -> vm_grow s1 l1 s2 l2 pt -> vm_grow s l s2 l2 pt.
Proof.
  intros [(n1 & -> & H1) F1] [(n2 & -> & H2) F2]. split.
  - exists (n1 ++ n2). split; [by rewrite app_assoc|].
    intros p. rewrite H2, H1. set_solver.
  - intros x Hx. rewrite F2, F1; [done| |done].
    intros (p & Hp & Hr). apply Hx. exists p. rewrite H2. auto.
Qed.

Lemma vm_ext_refl s l pt : vm_ext s l s l pt.
Proof. split; [apply vm_grow_refl|done]. Qed.

Lemma vm_ext_trans s l s1 l1 s2 l2 pt :
  vm_ext s l s1 l1 pt -> vm_ext s1 l1 s2 l2 pt -> vm_ext s l s2 l2 pt.
Proof.
  intros [G1 P1] [G2 P2]. split; [by eapply vm_grow_trans|]. intros va. by rewrite P2.
Qed.

Lemma vm_inv_grow s q l pt path p i :
  vm_inv s (q :: l) pt -> (length path <= 1)%nat -> path_ok path ->
  node (p_mem s) pt path = Some p -> idx_ok i ->
  has (load64 (p_mem s) (p + 8 * i)) PTE_V = false ->
  exists s1, kalloc s = Ok q s1 /\ kmem_inv kend s1 l /\
    let s2 := mkphys (grow_mem (p_mem s) p i q) (freelist s1) in
    p_mem s1 = mem_fill (p_mem s) q PGSIZE 5 /\
    vm_inv s2 l pt /\ vm_ext s (q :: l) s2 l pt /\
    node (p_mem s2) pt (path ++ [i]) = Some q.
Proof.
  intros [Hk Hwf Hsep] Hlen Hok Hn Hi Hinv.
  assert (Hq : page_ok kend q) by (destruct Hk as (_ & _ & Hall); by apply Forall_inv in Hall).
  assert (Hfresh : ~ owns (p_mem s) pt q) by (intros Ho; apply (Hsep q Ho); set_solver).
  destruct (kalloc_run_cons kend s q l Hk) as (s1 & E1 & Hk1 & Em).
  exists s1. split; [done|]. split; [done|]. cbv zeta. split; [done|].
  assert (Hnd : q ∉ l) by (destruct Hk as (_ & Hnd & _); by apply NoDup_cons in Hnd as [? _]).
  assert (Hown : forall x, owns (grow_mem (p_mem s) p i q) pt x <-> owns (p_mem s) pt x \/ x = q)
    by (intros x; by eapply owns_grow).
  split; [|split].
  - split; simpl.
    + destruct Hk1 as (Hfl & Hnd1 & Hall1). split; [|done]. simpl.
      assert (Hpl : p ∉ l).
      { intros Hin. apply (Hsep p); [by eapply owns_node|set_solver]. }
      assert (Ha : page_ok kend p) by (eapply wf_page; [done|by eapply owns_node]).
      unfold grow_mem. unfold idx_ok in Hi.
      eapply (free_list_other_page kend (mem_fill (mem_fill (p_mem s) q PGSIZE 5) q PGSIZE 0));
        [done|apply Ha|done| |].
      * intros x Hx. unfold store64, mem_write. rewrite length_le_bytes. case_range; [lia|done].
      * rewrite <-Em.
        eapply (free_list_other_page kend (p_mem s1)); [done|apply Hq|done| |done].
        intros x Hx. unfold mem_fill, PGSIZE. case_range; [lia|done].
    + by eapply pt_wf_grow.
    + intros x [Ho| ->]%Hown; [|done]. intros Hin. apply (Hsep x Ho). set_solver.
  - split; [|intros va; by eapply pte_at_grow]. split; simpl.
    + exists [q]. split; [done|]. intros x. rewrite Hown. set_solver.
    + intros x Hx. eapply grow_frame; try done. intros [Hp|Hp]; apply Hx.
      * exists p. split; [|done]. apply Hown. left. by eapply owns_node.
      * exists q. split; [|done]. apply Hown. by right.
  - simpl. rewrite (node_grow _ _ path) by (try done; by apply path_ok_snoc).
    by rewrite decide_True.
Qed.

Fixpoint idxs (lvl : nat) (va : Z) : list Z :=
  match lvl with
  | O => []
  | S l => PX (Z.of_nat lvl) va :: idxs l va
  end.

Lemma walk_loop_alloc lvl va path p s l pt :
  vm_inv s l pt -> vapath va = path ++ idxs lvl va -> path_ok path ->
  node (p_mem s) pt path = Some p ->
  exists r s' l', walk_loop lvl p va true s = Ok r s' /\ vm_inv s' l' pt /\
    vm_ext s l s' l' pt /\ (length l <= length l' + lvl)%nat /\
    (r = 0 /\ l' = [] \/ r <> 0 /\ slot (p_mem s') pt va = Some r).
Proof.
  revert path p s l. induction lvl as [|lvl IH]; intros path p s l Hinv Hva Hok Hn.
  { exists (p + 8 * PX 0 va), s, l. split; [done|]. split; [done|].
    split; [apply vm_ext_refl|]. split; [lia|]. right.
    cbn [idxs] in Hva. rewrite app_nil_r in Hva. split.
    - assert (page_ok kend p) by (eapply wf_page; [apply Hinv|by eapply owns_node]).
      assert (0 < p) by (by eapply page_ok_pos). pose proof (PX_range 0 va). lia.
    - unfold slot. by rewrite Hva, Hn. }
  set (i := PX (Z.of_nat (S lvl)) va). cbn [walk_loop]. fold i.
  assert (Hi : idx_ok i) by (apply PX_range; lia).
  assert (Hva' : vapath va = (path ++ [i]) ++ idxs lvl va) by (by rewrite <-app_assoc).
  assert (Hok' : path_ok (path ++ [i])).
  { eapply path_ok_app_l. rewrite <-Hva'. apply vapath_ok. }
  erewrite bind_Ok by reflexivity.
  destruct (has (load64 (p_mem s) (p + 8 * i)) PTE_V) eqn:Hv.
  { destruct (IH (path ++ [i]) (PTE2PA (load64 (p_mem s) (p + 8 * i))) s l) as (r & s' & l' & E & Hi' & Hx & Hc & Hr);
      [done|done|done|by rewrite node_snoc, Hn; cbv zeta; rewrite Hv|].
    exists r, s', l'. do 3 (split; [done|]). split; [lia|done]. }
  cbn [negb]. destruct l as [|q l].
  { erewrite bind_Ok by (apply (kalloc_run_nil kend); apply Hinv).
    exists 0, s, []. split; [done|]. split; [done|]. split; [apply vm_ext_refl|]. split; [simpl; lia|]. by left. }
  assert (Hlen : (length path <= 1)%nat).
  { destruct Hok' as [Hl _]. rewrite length_app in Hl. simpl in Hl. lia. }
  destruct (vm_inv_grow s q l pt path p i) as (s1 & E1 & Hk1 & Em & Hinv2 & Hext & Hn2); try done.
  erewrite bind_Ok by exact E1.
  assert (Hqp : 0 < q).
  { eapply page_ok_pos; [done|]. destruct Hinv as [(_ & _ & Hall) _ _]. by apply Forall_inv in Hall. }
  destruct (Z.eqb_spec q 0) as [|_]; [lia|].
  erewrite bind_Ok by reflexivity. erewrite bind_Ok by reflexivity. cbn [p_mem freelist].
  rewrite Em.
  destruct (IH (path ++ [i]) q _ l Hinv2 Hva' Hok' Hn2) as (r & s' & l' & E & Hi' & Hx & Hc & Hr).
  exists r, s', l'. split; [exact E|]. split; [done|]. split; [by eapply vm_ext_trans|]. split; [simpl; lia|done].
Qed.

(** [walk] with [alloc]: it returns the leaf slot of [va], having added
    at most two interior pages, all empty, or 0 with the free list exhausted. *)
Lemma walk_alloc_run s l pt va :
  vm_inv s l pt -> 0 <= va < MAXVA ->
  exists r s' l', walk pt va true s = Ok r s' /\ vm_inv s' l' pt /\
    vm_ext s l s' l' pt /\ (length l <= length l' + 2)%nat /\
    (r = 0 /\ l' = [] \/ r <> 0 /\ slot (p_mem s') pt va = Some r).
Proof.
  intros Hinv Hva. unfold walk. destruct (Z.leb_spec MAXVA va); [lia|].
  apply (walk_loop_alloc 2 va []); auto with machine.
Qed.

Lemma walk_loop_noalloc lvl va path p s pt :
  pt_wf kend (p_mem s) pt -> vapath va = path ++ idxs lvl va ->
  node (p_mem s) pt path = Some p ->
  walk_loop lvl p va false s = Ok (default 0 (slot (p_mem s) pt va)) s.
Proof.
  revert path p. induction lvl as [|lvl IH]; intros path p Hwf Hva Hn.
  { cbn [idxs] in Hva. rewrite app_nil_r in Hva. unfold slot. by rewrite Hva, Hn. }
  cbn [walk_loop]. erewrite bind_Ok by reflexivity.
  set (i := PX (Z.of_nat (S lvl)) va) in *.
  assert (Hva' : vapath va = (path ++ [i]) ++ idxs lvl va) by (by rewrite <-app_assoc).
  destruct (has (load64 (p_mem s) (p + 8 * i)) PTE_V) eqn:Hv.
  - apply (IH (path ++ [i])); [done|done|]. rewrite node_snoc, Hn. cbv zeta. by rewrite Hv.
  - cbn [negb]. unfold slot. rewrite Hva', node_app, node_snoc, Hn. cbv zeta. by rewrite Hv.
Qed.

(** [walk] without [alloc] is a pure lookup. *)
Lemma walk_noalloc_run s pt va :
  pt_wf kend (p_mem s) pt -> 0 <= va < MAXVA ->
  walk pt va false s = Ok (default 0 (slot (p_mem s) pt va)) s.
Proof.
  intros Hwf Hva. unfold walk. destruct (Z.leb_spec MAXVA va); [lia|].
  by apply (walk_loop_noalloc 2 va []).
Qed.

Lemma slot_pos s l pt va a : vm_inv s l pt -> slot (p_mem s) pt va = Some a -> 0 < a.
Proof.
  intros Hinv. unfold slot. destruct (node _ _ _) as [p|] eqn:E; intros [= <-].
  assert (page_ok kend p) by (eapply wf_page; [apply Hinv|eapply owns_node; [apply vapath_ok|done]]).
  assert (0 < p) by (by eapply page_ok_pos). pose proof (PX_range 0 va). lia.
Qed.

(** ** Leaf entries *)

Lemma store_slot_run s l pt va a v :
  vm_inv s l pt -> 0 <= va < MAXVA -> slot (p_mem s) pt va = Some a ->
  exists s', store_pte a v s = Ok tt s' /\ vm_inv s' l pt /\ vm_grow s l s' l pt /\
    forall va', 0 <= va' < VASPAN ->
      pte_at (p_mem s') pt va' =
      if decide (va / 4096 = va' / 4096)
      then (if has (u64 v) PTE_V then Some (u64 v) else None)
      else pte_at (p_mem s) pt va'.
Proof.
  intros [Hk Hwf Hsep] Hva. unfold slot.
  destruct (node (p_mem s) pt (vapath va)) as [p|] eqn:Hn; intros [= <-].
  eexists. split; [reflexivity|].
  assert (Hop : owns (p_mem s) pt p) by (eapply owns_node; [apply vapath_ok|done]).
  pose proof (PX_range 0 va) as HP.
  assert (Hfr : frame (store64 (p_mem s) (p + 8 * PX 0 va) v) (p_mem s)
                  (fun x => p <= x < p + 4096)).
  { intros x Hx. unfold store64, mem_write. rewrite length_le_bytes. case_range; [lia|done]. }
  split; [|split].
  - split; simpl.
    + destruct Hk as (Hfl & Hnd & Hall). split; [|done]. simpl.
      eapply (free_list_other_page kend); [done| |by apply Hsep|exact Hfr|done].
      eapply wf_page; [exact Hwf|done].
    + by eapply pt_wf_store_leaf.
    + intros q Hq. apply (owns_store_leaf kend) in Hq; auto.
  - split; simpl.
    + exists []. split; [done|]. intros q. rewrite (owns_store_leaf kend) by done. set_solver.
    + intros x Hx. apply Hfr. intros Hr. apply Hx. exists p. split; [|done].
      by apply (owns_store_leaf kend).
  - intros va' Hva'. simpl. pose proof MAXVA_eq. pose proof VASPAN_eq. eapply pte_at_store_leaf; done || lia.
Qed.

(** ** [mappages] *)

Definition mk_pte (pa perm : Z) : Z := Z.lor (Z.lor (PA2PTE pa) perm) PTE_V.

(** [n] pages are mapped from [a] to the frames from [pa] on, and nothing
    else changes. *)
Definition maps_range (m m' : mem) (pt a n pa perm : Z) : Prop :=
  forall va, 0 <= va < VASPAN ->
    pte_at m' pt va =
    if in_range a (n * 4096) va
    then Some (mk_pte (pa + (PGROUNDDOWN va - a)) perm)
    else pte_at m pt va.

Lemma mk_pte_range pa perm :
  0 <= pa < 18446744073709551616 -> 0 <= perm < 1024 -> u64 (mk_pte pa perm) = mk_pte pa perm.
Proof.
  intros Hpa Hperm. apply (uwrap_small 64). unfold mk_pte.
  apply lor_range; [lia| |unfold PTE_V; lia].
  apply lor_range; [lia| |lia].
  assert (0 <= PA2PTE pa < 2 ^ 62) by (by apply PA2PTE_range). lia.
Qed.

Lemma mk_pte_flags pa perm : mk_pte pa perm = Z.lor (PA2PTE pa) (Z.lor perm PTE_V).
Proof. unfold mk_pte. by rewrite Z.lor_assoc. Qed.

Lemma mk_pte_valid pa perm : 0 <= perm < 1024 -> has (mk_pte pa perm) PTE_V = true.
Proof.
  intros Hp. rewrite mk_pte_flags, has_PA2PTE; [|apply (lor_range _ _ 10); unfold PTE_V; lia|done].
  unfold has, PTE_V. rewrite Z.land_lor_distr_l. change (Z.land 1 1) with 1.
  destruct (Z.eqb_spec (Z.lor (Z.land perm 1) 1) 0) as [E|]; [|done].
  apply Z.lor_eq_0_iff in E as [_ E]. done.
Qed.

Lemma mappages_loop_run fuel s l pt a n pa perm :
  vm_inv s l pt -> aligned a -> 0 <= a -> 0 < n -> a + n * 4096 <= MAXVA ->
  0 <= pa -> pa + n * 4096 <= 18446744073709551616 -> 0 <= perm < 1024 ->
  (forall va, a <= va < a + n * 4096 -> pte_at (p_mem s) pt va = None) ->
  n <= Z.of_nat fuel ->
  exists r s' l' k, mappages_loop fuel pt a (a + (n - 1) * 4096) pa perm s = Ok r s' /\
    vm_inv s' l' pt /\ vm_grow s l s' l' pt /\
    maps_range (p_mem s) (p_mem s') pt a k pa perm /\ Z.of_nat (length l) <= Z.of_nat (length l') + 2 * n /\
    (r = 0 /\ k = n \/ r = -1 /\ l' = [] /\ 0 <= k < n).
Proof.
  revert s l a n pa. induction fuel as [|f IH]; intros s l a n pa Hinv Hal Ha Hn Hmax Hpa Hpa' Hperm Hnone Hf; [lia|].
  cbn [mappages_loop].
  destruct (walk_alloc_run s l pt a) as (r & s1 & l1 & E1 & Hinv1 & [Hg1 Hp1] & Hc1 & Hr); [done|lia|].
  erewrite bind_Ok by exact E1.
  destruct Hr as [[-> ->]|[Hr Hslot]].
  { exists (-1), s1, [], 0. do 3 (split; [done|]). split; [|split; [simpl in *; lia|right; repeat split; done || lia]].
    intros va Hva. case_range; [lia|]. apply Hp1. }
  destruct (Z.eqb_spec r 0) as [|_]; [done|].
  erewrite bind_Ok by reflexivity.
  assert (Hv : has (load64 (p_mem s1) r) PTE_V = false).
  { specialize (Hnone a). rewrite <-Hp1 in Hnone. unfold pte_at in Hnone. rewrite Hslot in Hnone.
    destruct (has _ _); [|done]. cbv zeta in Hnone. specialize (Hnone ltac:(lia)). done. }
  rewrite Hv.
  destruct (store_slot_run s1 l1 pt a r (mk_pte pa perm)) as (s2 & E2 & Hinv2 & Hg2 & Hp2); [done|lia|done|].
  fold (mk_pte pa perm). erewrite bind_Ok by exact E2.
  rewrite mk_pte_range, mk_pte_valid in Hp2 by lia.
  assert (Hone : maps_range (p_mem s) (p_mem s2) pt a 1 pa perm).
  { intros va Hva. rewrite Hp2, Hp1 by done. rewrite PGROUNDDOWN_eq.
    case_decide as Hd; case_range; try done; page_lia || (do 2 f_equal; page_lia). }
  destruct (Z.eqb_spec a (a + (n - 1) * 4096)) as [He|He].
  { exists 0, s2, l1, 1. split; [done|]. split; [done|]. split; [by eapply vm_grow_trans|].
    split; [done|]. split; [lia|]. left. lia. }
  unfold PGSIZE. rewrite (u64_small (a + 4096)) by (rewrite MAXVA_eq in Hmax; lia).
  rewrite (u64_small (pa + 4096)) by lia.
  replace (a + (n - 1) * 4096) with (a + 4096 + (n - 1 - 1) * 4096) by lia.
  destruct (IH s2 l1 (a + 4096) (n - 1) (pa + 4096)) as (r' & s' & l' & k & E & Hi & Hg & Hm & Hc & Hd);
    try done; try lia; [page_lia|..].
  { intros va Hva. pose proof MAXVA_eq. pose proof VASPAN_eq.
    rewrite Hone by lia. case_range; [lia|]. apply Hnone. lia. }
  exists r', s', l', (k + 1). split; [exact E|]. split; [done|].
  split; [eapply vm_grow_trans; [exact Hg1|]; by eapply vm_grow_trans|].
  split; [|split; [lia|destruct Hd as [[-> ->]|(-> & -> & ?)]; [left|right]; repeat split; lia]].
  intros va Hva. rewrite Hm by done.
  case_range; [case_range; [do 2 f_equal; lia|lia]|].
  rewrite Hone by done. repeat case_range; try done; try lia.
Qed.

(** [mappages] maps every page of [va, va+size), or runs out of interior
    pages after mapping a prefix of them. *)
Lemma mappages_run s l pt va size pa perm :
  vm_inv s l pt -> 0 <= va -> 0 < size -> va + size <= MAXVA ->
  let a := PGROUNDDOWN va in
  let n := (PGROUNDDOWN (va + size - 1) - a) / 4096 + 1 in
  0 <= pa -> pa + n * 4096 <= 18446744073709551616 -> 0 <= perm < 1024 ->
  (forall x, a <= x < a + n * 4096 -> pte_at (p_mem s) pt x = None) ->
  exists r s' l' k, mappages pt va size pa perm s = Ok r s' /\
    vm_inv s' l' pt /\ vm_grow s l s' l' pt /\
    maps_range (p_mem s) (p_mem s') pt a k pa perm /\ Z.of_nat (length l) <= Z.of_nat (length l') + 2 * n /\
    (r = 0 /\ k = n \/ r = -1 /\ l' = [] /\ 0 <= k < n).
Proof.
  intros Hinv Hva Hsz Hmax a n Hpa Hpa' Hperm Hnone. unfold mappages.
  destruct (Z.eqb_spec size 0); [lia|]. rewrite MAXVA_eq in Hmax.
  rewrite (u64_small (va + size - 1)) by lia. fold a.
  assert (Hal : aligned a) by apply PGROUNDDOWN_aligned.
  pose proof (PGROUNDDOWN_aligned (va + size - 1)) as Hal'.
  assert (Hlast : PGROUNDDOWN (va + size - 1) = a + (n - 1) * 4096) by (unfold n; page_lia).
  rewrite Hlast. pose proof (PGROUNDDOWN_bounds va) as Hb. fold a in Hb.
  pose proof (PGROUNDDOWN_bounds (va + size - 1)) as Hb'.
  assert (0 <= a) by page_lia.
  assert (0 < n) by (rewrite Hlast in Hb'; lia).
  assert (a + n * 4096 <= MAXVA) by (rewrite MAXVA_eq; rewrite Hlast in Hb', Hal'; page_lia).
  apply mappages_loop_run; try done; page_lia.
Qed.

(** ** [walkaddr] *)

(** The physical page behind a user virtual address, 0 when there is none. *)
Definition user_pa (m : mem) (pt va : Z) : Z :=
  if MAXVA <=? va then 0
  else match pte_at m pt va with
       | Some v => if has v PTE_U then PTE2PA v else 0
       | None => 0
       end.

Lemma walkaddr_run s l pt va :
  vm_inv s l pt -> 0 <= va -> walkaddr pt va s = Ok (user_pa (p_mem s) pt va) s.
Proof.
  intros Hinv Hva. unfold walkaddr, user_pa. destruct (Z.leb_spec MAXVA va); [done|].
  erewrite bind_Ok by (apply walk_noalloc_run; [apply Hinv|lia]).
  unfold pte_at. destruct (slot (p_mem s) pt va) as [a|] eqn:E; [|done]. simpl.
  assert (0 < a) by (by eapply slot_pos). destruct (Z.eqb_spec a 0); [lia|].
  unfold load_pte. erewrite bind_Ok by reflexivity.
  destruct (has (load64 (p_mem s) a) PTE_V); [|done]. cbn [negb].
  by destruct (has (load64 (p_mem s) a) PTE_U).
Qed.

(** ** [uvmunmap] *)

Lemma page_agree p q m m' :
  aligned p -> aligned q -> p <> q -> frame m' m (fun x => q <= x < q + 4096) ->
  agree m' m p 4096.
Proof.
  intros Hp Hq Hne Hf x Hx. apply Hf. destruct (pages_disjoint p q); try done; lia.
Qed.

Lemma kfree_vm s l pt pa :
  vm_inv s l pt -> page_ok kend pa -> pa ∉ l -> ~ owns (p_mem s) pt pa ->
  exists s', kfree kend pa s = Ok tt s' /\ vm_inv s' (pa :: l) pt /\
    (forall p, owns (p_mem s') pt p <-> owns (p_mem s) pt p) /\
    (forall va, slot (p_mem s') pt va = slot (p_mem s) pt va) /\
    (forall va, pte_at (p_mem s') pt va = pte_at (p_mem s) pt va) /\
    frame (p_mem s') (p_mem s) (fun x => pa <= x < pa + 4096).
Proof.
  intros [Hk Hwf Hsep] Hpa Hni Hno.
  destruct (kfree_run kend kend_pos s l pa Hk Hpa Hni) as (s' & E & Hk' & Hf).
  assert (Hag : forall p, owns (p_mem s) pt p -> agree (p_mem s') (p_mem s) p 4096).
  { intros p Hp. eapply page_agree; [|apply Hpa| |exact Hf].
    - eapply wf_page; [exact Hwf|done].
    - intros ->. done. }
  exists s'. split; [done|]. split; [split; [done|by eapply pt_wf_frame|]|].
  { intros p Hp. apply (owns_frame (p_mem s)) in Hp; [|done].
    intros [->|Hin]%elem_of_cons; [done|]. by apply (Hsep p). }
  split; [intros p; by apply owns_frame|]. split; [|split; [|done]].
  - intros va. unfold slot. by rewrite (node_frame (p_mem s) (p_mem s')) by auto with machine.
  - intros va. by apply pte_at_frame.
Qed.

(** The valid leaf entries of [n] pages from [a] on, with their frames. *)
Definition leaf_range (m : mem) (pt a : Z) (frames : list Z) : Prop :=
  forall i f, frames !! i = Some f ->
    exists v, pte_at m pt (a + Z.of_nat i * 4096) = Some v /\
      PTE_FLAGS v <> PTE_V /\ PTE2PA v = f.

Lemma leaf_range_cons m pt a f fs :
  leaf_range m pt a (f :: fs) ->
  (exists v, pte_at m pt a = Some v /\ PTE_FLAGS v <> PTE_V /\ PTE2PA v = f) /\
  leaf_range m pt (a + 4096) fs.
Proof.
  intros H. split.
  - destruct (H 0%nat f) as (v & Hv); [done|]. exists v.
    by replace (a + Z.of_nat 0 * 4096) with a in Hv by lia.
  - intros i g Hg. destruct (H (S i) g) as (v & Hv); [done|]. exists v.
    by replace (a + 4096 + Z.of_nat i * 4096) with (a + Z.of_nat (S i) * 4096) by lia.
Qed.

(** [uvmunmap] with [do_free]: the mappings of the range are gone, every
    other mapping is as before, and the frames are on the free list. *)
Lemma uvmunmap_free_loop_run fuel s l pt a frames :
  vm_inv s l pt -> aligned a -> 0 <= a -> a + Z.of_nat (length frames) * 4096 <= MAXVA ->
  leaf_range (p_mem s) pt a frames -> Forall (page_ok kend) frames -> NoDup frames ->
  (forall f, f ∈ frames -> (f ∉ l) /\ ~ owns (p_mem s) pt f) ->
  (length frames < fuel)%nat ->
  exists s', uvmunmap_loop kend fuel pt a (a + Z.of_nat (length frames) * 4096) true s = Ok tt s' /\
    vm_inv s' (rev frames ++ l) pt /\
    (forall p, owns (p_mem s') pt p <-> owns (p_mem s) pt p) /\
    (forall va, 0 <= va < VASPAN ->
      pte_at (p_mem s') pt va =
      if in_range a (Z.of_nat (length frames) * 4096) va then None else pte_at (p_mem s) pt va) /\
    frame (p_mem s') (p_mem s)
      (fun x => exists p, (owns (p_mem s) pt p \/ p ∈ frames) /\ p <= x < p + 4096).
Proof.
  revert s l a frames. induction fuel as [|fuel IH];
    intros s l a frames Hinv Hal Ha Hmax Hleaf Hok Hnd Hsep Hf; [lia|].
  cbn [uvmunmap_loop]. destruct frames as [|f fs].
  { exists s. destruct (Z.ltb_spec a (a + Z.of_nat (length (@nil Z)) * 4096)) as [Hlt|_]; [simpl in Hlt; lia|].
    do 3 (split; [done|]). split; [|done]. intros va Hva. case_range; [simpl in *; lia|done]. }
  cbn [length] in *. destruct (Z.ltb_spec a (a + Z.of_nat (S (length fs)) * 4096)); [|lia].
  apply leaf_range_cons in Hleaf as [(v & Hpte & Hfl & Hpa) Hleaf].
  apply Forall_cons in Hok as [Hokf Hok]. apply NoDup_cons in Hnd as [Hnif Hnd].
  erewrite bind_Ok by (apply walk_noalloc_run; [apply Hinv|lia]).
  assert (exists sl, slot (p_mem s) pt a = Some sl /\ load64 (p_mem s) sl = v /\ has v PTE_V = true)
    as (sl & Hslot & Hload & Hval).
  { unfold pte_at in Hpte. destruct (slot (p_mem s) pt a) as [sl|]; [|done]. cbv zeta in Hpte.
    destruct (has _ _) eqn:Hh; simplify_eq. eauto. }
  rewrite Hslot. simpl. assert (0 < sl) by (by eapply slot_pos).
  destruct (Z.eqb_spec sl 0); [lia|].
  erewrite bind_Ok by reflexivity. rewrite Hload, Hval. cbn [negb].
  destruct (Z.eqb_spec (PTE_FLAGS v) PTE_V); [done|]. rewrite Hpa.
  destruct (Hsep f) as [Hnl Hno]; [set_solver|].
  destruct (kfree_vm s l pt f) as (s1 & E1 & Hinv1 & Ho1 & Hs1 & Hp1 & Hf1); try done.
  erewrite bind_Ok by exact E1.
  destruct (store_slot_run s1 (f :: l) pt a sl 0) as (s2 & E2 & Hinv2 & Hg2 & Hp2);
    [done|lia|by rewrite Hs1|].
  erewrite bind_Ok by exact E2.
  assert (Ho2 : forall p, owns (p_mem s2) pt p <-> owns (p_mem s) pt p).
  { intros p. destruct Hg2 as [(new & Hnew & Ho) _]. rewrite Ho, Ho1.
    assert (new = []) as -> by (destruct new; [done|]; apply (f_equal length) in Hnew;
      rewrite length_app in Hnew; simpl in Hnew; lia). set_solver. }
  assert (Hp : forall va, 0 <= va < VASPAN ->
    pte_at (p_mem s2) pt va = if in_range a 4096 va then None else pte_at (p_mem s) pt va).
  { intros va Hva. rewrite Hp2, Hp1 by done. case_decide; case_range; try done; page_lia. }
  unfold PGSIZE. rewrite MAXVA_eq in Hmax. rewrite u64_small by lia.
  replace (a + Z.of_nat (S (length fs)) * 4096) with (a + 4096 + Z.of_nat (length fs) * 4096) by lia.
  destruct (IH s2 (f :: l) (a + 4096) fs) as (s' & E & Hinv' & Ho' & Hp' & Hf'); try done; try lia.
  - page_lia.
  - rewrite MAXVA_eq. lia.
  - intros i g Hg. destruct (Hleaf i g Hg) as (w & Hw & Hw'). exists w. split; [|done].
    apply lookup_lt_Some in Hg. rewrite Hp by (rewrite VASPAN_eq; lia). case_range; [lia|done].
  - intros g Hg. rewrite Ho2. destruct (Hsep g) as [Hgl Hgo]; [set_solver|].
    split; [|done]. intros [->|]%elem_of_cons; done.
  - exists s'. split; [exact E|]. split; [simpl; by rewrite <-app_assoc|].
    split; [intros p; by rewrite Ho'|]. split.
    + intros va Hva. rewrite Hp', Hp by done. repeat case_range; try done; lia.
    + intros x Hx. rewrite Hf', (vg_frame _ _ _ _ _ Hg2), Hf1; [done|..].
      * intros Hr. apply Hx. exists f. split; [right; set_solver|done].
      * intros (p & Hp1' & Hr). apply Hx. exists p. rewrite Ho2 in Hp1'. auto.
      * intros (p & Hp1' & Hr). apply Hx. exists p. rewrite Ho2 in Hp1'. split; [set_solver|done].
Qed.
End vm_proofs.
