(* ===== verification/VmCopy.v ===== *)
(** * Copies between kernel and user memory

    [copyout], [copyin] and [copyinstr] of [Vm], specified byte by byte
    through the user page table: what a user address held before and holds
    after the call, on success and on a fault. *)

From S2P Require Import Prelude Memory Riscv Kalloc Vm PageTable VmProofs.

Section vm_copy.
Variable kend : Z.
Hypothesis kend_pos : 0 < kend.

(** The user frames of a table are allocated pages of RAM, not part of the
    table, and different virtual pages have different frames. *)
Record user_sep (m : mem) (l : list Z) (pt : Z) : Prop := {
  us_page va : 0 <= va -> user_pa m pt va <> 0 -> page_ok kend (user_pa m pt va);
  us_free va : 0 <= va -> user_pa m pt va <> 0 -> user_pa m pt va ∉ l;
  us_own va : 0 <= va -> user_pa m pt va <> 0 -> ~ owns m pt (user_pa m pt va);
  us_inj va va' : 0 <= va -> 0 <= va' -> user_pa m pt va <> 0 ->
    user_pa m pt va = user_pa m pt va' -> va / 4096 = va' / 4096
}.

(** The byte a user program sees at [va]. *)
Definition vbyte (m : mem) (pt va : Z) : Z := m (user_pa m pt va + va mod 4096).

Lemma user_pa_page m pt va va' :
  0 <= va -> 0 <= va' -> va / 4096 = va' / 4096 -> user_pa m pt va = user_pa m pt va'.
Proof.
  intros Hva Hva' E. unfold user_pa, pte_at, slot, vapath.
  rewrite !(PX_page _ va va') by (done || lia).
  assert ((MAXVA <=? va) = (MAXVA <=? va')) as ->; [|done].
  rewrite MAXVA_eq. destruct (Z.leb_spec 274877906944 va), (Z.leb_spec 274877906944 va'); try done;
    Z.div_mod_to_equations; lia.
Qed.

Lemma user_pa_down m pt va : 0 <= va -> user_pa m pt (PGROUNDDOWN va) = user_pa m pt va.
Proof.
  intros Hva. apply user_pa_page; rewrite ?PGROUNDDOWN_eq; Z.div_mod_to_equations; lia.
Qed.

(** A store confined to pages outside the table and off the free list. *)
Lemma user_write_inv s l pt pa m' :
  vm_inv kend s l pt -> page_ok kend pa -> pa ∉ l -> ~ owns (p_mem s) pt pa ->
  frame m' (p_mem s) (fun x => pa <= x < pa + 4096) ->
  vm_inv kend (mkphys m' (freelist s)) l pt /\
  (forall va, user_pa m' pt va = user_pa (p_mem s) pt va) /\
  (forall p, owns m' pt p <-> owns (p_mem s) pt p).
Proof.
  intros [Hk Hwf Hsep] Hpa Hni Hno Hf.
  assert (Hag : forall p, owns (p_mem s) pt p -> agree m' (p_mem s) p 4096).
  { intros p Hp. eapply page_agree; [|apply Hpa| |exact Hf].
    - eapply wf_page; [exact Hwf|done].
    - intros ->. done. }
  split; [split; simpl|split].
  - destruct Hk as (Hfl & Hnd & Hall). split; [|done]. simpl.
    by eapply (free_list_other_page kend); [done|apply Hpa|..].
  - by eapply pt_wf_frame.
  - intros p Hp. apply (owns_frame (p_mem s)) in Hp; auto.
  - intros va. unfold user_pa. by rewrite (pte_at_frame (p_mem s) m').
  - intros p. by apply owns_frame.
Qed.

Lemma user_sep_ext m m' l pt :
  (forall va, user_pa m' pt va = user_pa m pt va) ->
  (forall p, owns m' pt p <-> owns m pt p) -> user_sep m l pt -> user_sep m' l pt.
Proof.
  intros Hu Ho [H1 H2 H3 H4].
  split; intros va; [rewrite Hu; auto|rewrite Hu; auto|rewrite Hu, Ho; auto|].
  intros va'. rewrite !Hu. auto.
Qed.

Definition vaddr (m : mem) (pt va : Z) : Z := user_pa m pt va + va mod 4096.

(** Different mapped user addresses are different physical bytes. *)
Lemma vaddr_inj m l pt va va' :
  user_sep m l pt -> 0 <= va -> 0 <= va' ->
  user_pa m pt va <> 0 -> user_pa m pt va' <> 0 ->
  vaddr m pt va = vaddr m pt va' -> va = va'.
Proof.
  intros Hs Hva Hva' H H' E. unfold vaddr in E.
  destruct (us_page _ _ _ Hs va Hva H) as [Ha _]. destruct (us_page _ _ _ Hs va' Hva' H') as [Ha' _].
  assert (user_pa m pt va = user_pa m pt va') as Ep.
  { destruct (decide (user_pa m pt va = user_pa m pt va')) as [|Hne]; [done|].
    pose proof (Z.mod_pos_bound va 4096). pose proof (Z.mod_pos_bound va' 4096).
    destruct (pages_disjoint _ _ Ha Ha' Hne); lia. }
  pose proof (us_inj _ _ _ Hs va va' Hva Hva' H Ep). Z.div_mod_to_equations; lia.
Qed.

(** ** [copyout] *)

(** No byte of [src, src+len) is in a user frame of the range. *)
Definition src_sep (m : mem) (pt va src len : Z) : Prop :=
  forall x y, va <= x < va + len -> user_pa m pt x <> 0 -> src <= y < src + len ->
    ~ (user_pa m pt x <= y < user_pa m pt x + 4096).

(** [k] bytes from [src] are at the user addresses from [dstva] on, and no
    other byte of memory has changed. *)
Record copied_out (m m' : mem) (pt dstva src k : Z) : Prop := {
  co_map va : dstva <= va < dstva + k -> user_pa m pt va <> 0;
  co_in va : dstva <= va < dstva + k -> m' (vaddr m pt va) = m (src + (va - dstva));
  co_frame : frame m' m (fun x => exists va, dstva <= va < dstva + k /\ x = vaddr m pt va);
  co_user va : user_pa m' pt va = user_pa m pt va
}.

Lemma copied_out_nil m pt dstva src : copied_out m m pt dstva src 0.
Proof. split; intros; try done; lia. Qed.

(** One page of the loop. *)
Lemma copied_out_page m m' pt dstva src n :
  0 <= dstva -> 0 < n -> dstva mod 4096 + n <= 4096 -> user_pa m pt dstva <> 0 ->
  m' = mem_copy m (vaddr m pt dstva) src n ->
  (forall va, user_pa m' pt va = user_pa m pt va) ->
  copied_out m m' pt dstva src n.
Proof.
  intros Hd Hn Hpg Hu -> Hu'.
  assert (Hsame : forall va, dstva <= va < dstva + n ->
    user_pa m pt va = user_pa m pt dstva /\ va mod 4096 = dstva mod 4096 + (va - dstva)).
  { intros va Hva. split; [apply user_pa_page; try lia|]; Z.div_mod_to_equations; lia. }
  split; [| | |done].
  - intros va Hva. destruct (Hsame va Hva) as [-> _]. done.
  - intros va Hva. destruct (Hsame va Hva) as [E1 E2]. unfold mem_copy, vaddr. rewrite E1, E2.
    case_range; [f_equal; lia|lia].
  - intros x Hx. unfold mem_copy. case_range; [|done]. exfalso. apply Hx.
    unfold vaddr in *. exists (dstva + (x - (user_pa m pt dstva + dstva mod 4096))).
    split; [lia|]. destruct (Hsame (dstva + (x - (user_pa m pt dstva + dstva mod 4096))))
      as [E1 E2]; [lia|]. rewrite E1, E2. lia.
Qed.

(** A page followed by the rest. *)
Lemma copied_out_app m m1 m' l pt dstva src n k :
  user_sep m l pt -> 0 <= dstva -> 0 <= n -> 0 <= k ->
  src_sep m pt dstva src (n + k) ->
  copied_out m m1 pt dstva src n -> copied_out m1 m' pt (dstva + n) (src + n) k ->
  copied_out m m' pt dstva src (n + k).
Proof.
  intros Hs Hd Hn Hk Hsep [M1 I1 F1 U1] [M2 I2 F2 U2].
  assert (Hva : forall va, vaddr m1 pt va = vaddr m pt va)
    by (intros va; unfold vaddr; by rewrite U1).
  assert (HM : forall va, dstva <= va < dstva + (n + k) -> user_pa m pt va <> 0).
  { intros va H. destruct (decide (va < dstva + n)); [apply M1; lia|].
    rewrite <-U1. apply M2. lia. }
  split; [done| | |intros va; by rewrite U2].
  - intros va H. destruct (decide (va < dstva + n)) as [Hlt|Hge].
    + rewrite F2; [apply I1; lia|]. intros (va' & Hr & E). rewrite Hva in E.
      apply (vaddr_inj m l pt) in E; try done; try lia; apply HM; lia.
    + rewrite <-Hva, I2 by lia.
      replace (src + n + (va - (dstva + n))) with (src + (va - dstva)) by lia.
      apply F1. intros (va' & Hr & E). apply (Hsep va' (src + (va - dstva))); [lia|apply HM; lia|lia|].
      rewrite E. unfold vaddr. pose proof (Z.mod_pos_bound va' 4096). lia.
  - intros x Hx. rewrite F2, F1; [done|..].
    + intros (va & Hr & E). apply Hx. exists va. split; [lia|done].
    + intros (va & Hr & E). apply Hx. exists va. rewrite Hva in E. split; [lia|done].
Qed.

Lemma src_sep_sub m pt va src len n k :
  src_sep m pt va src len -> 0 <= n -> n + k <= len -> src_sep m pt (va + n) (src + n) k.
Proof. intros H Hn Hk x y Hx Hu Hy. apply H; [lia|done|lia]. Qed.

Lemma user_pa_MAXVA m pt va : user_pa m pt va <> 0 -> va < MAXVA.
Proof. unfold user_pa. destruct (Z.leb_spec MAXVA va); done. Qed.

Lemma copyout_loop_run fuel s l pt dstva src len :
  vm_inv kend s l pt -> user_sep (p_mem s) l pt -> 0 <= dstva -> 0 <= len ->
  src_sep (p_mem s) pt dstva src len ->
  (dstva mod 4096 + len + 4095) / 4096 < Z.of_nat fuel ->
  exists r s' k, copyout_loop fuel pt dstva src len s = Ok r s' /\
    vm_inv kend s' l pt /\ user_sep (p_mem s') l pt /\
    copied_out (p_mem s) (p_mem s') pt dstva src k /\
    (r = 0 /\ k = len \/ r = -1 /\ 0 <= k < len /\ user_pa (p_mem s) pt (dstva + k) = 0).
Proof.
  revert s dstva src len. induction fuel as [|f IH];
    intros s dstva src len Hinv Hs Hd Hlen Hsep Hf; [Z.div_mod_to_equations; lia|].
  cbn [copyout_loop]. destruct (Z.ltb_spec 0 len) as [Hpos|Hz].
  2: { exists 0, s, 0. do 3 (split; [done|]). split; [apply copied_out_nil|left; lia]. }
  pose proof (PGROUNDDOWN_bounds dstva) as Hb. rewrite PGROUNDDOWN_eq in *.
  assert (Hoff : dstva - (dstva - dstva mod 4096) = dstva mod 4096) by lia.
  pose proof (Z.mod_pos_bound dstva 4096) as Hm.
  erewrite bind_Ok by (apply (walkaddr_run kend kend_pos s l); [done|Z.div_mod_to_equations; lia]).
  rewrite <-PGROUNDDOWN_eq, user_pa_down by done. rewrite PGROUNDDOWN_eq, Hoff.
  destruct (Z.eqb_spec (user_pa (p_mem s) pt dstva) 0) as [Hu|Hu].
  { exists (-1), s, 0. do 3 (split; [done|]). split; [apply copied_out_nil|right].
    rewrite Z.add_0_r. repeat split; done || lia. }
  unfold PGSIZE. rewrite u64_small by lia.
  set (n := if len <? 4096 - dstva mod 4096 then len else 4096 - dstva mod 4096).
  assert (Hn : 0 < n <= len /\ dstva mod 4096 + n <= 4096 /\
               (n = len \/ n = 4096 - dstva mod 4096)).
  { unfold n. destruct (Z.ltb_spec len (4096 - dstva mod 4096)); lia. }
  erewrite bind_Ok by reflexivity.
  set (m1 := mem_copy (p_mem s) (user_pa (p_mem s) pt dstva + dstva mod 4096) src n).
  destruct (user_write_inv s l pt (user_pa (p_mem s) pt dstva) m1) as (Hinv1 & Hu1 & Ho1);
    [done|by apply Hs|by apply Hs|by apply Hs| |].
  { intros x Hx. unfold m1, mem_copy. case_range; [lia|done]. }
  assert (Hc1 : copied_out (p_mem s) m1 pt dstva src n) by (apply copied_out_page; done || lia).
  assert (Hs1 : user_sep m1 l pt) by (by eapply user_sep_ext).
  destruct (decide (n = len)) as [->|Hne].
  { exists 0, (mkphys m1 (freelist s)), len.
    destruct f as [|f]; [exfalso; Z.div_mod_to_equations; lia|].
    cbn [copyout_loop]. rewrite Z.sub_diag. simpl. do 4 (split; [done|]). left; lia. }
  apply user_pa_MAXVA in Hu as Hmax. rewrite MAXVA_eq in Hmax.
  rewrite u64_small by lia.
  replace (dstva - dstva mod 4096 + 4096) with (dstva + n) by lia.
  destruct (IH (mkphys m1 (freelist s)) (dstva + n) (src + n) (len - n))
    as (r & s' & k & E & Hi & Hs' & Hc & Hr); try done; try lia.
  - intros x y Hx Hux Hy. simpl in *. rewrite Hu1 in *. by apply Hsep; [lia| |lia].
  - Z.div_mod_to_equations; lia.
  - exists r, s', (n + k). split; [exact E|]. do 2 (split; [done|]). split.
    + eapply copied_out_app; [exact Hs|lia..| |exact Hc1|exact Hc].
      intros x y Hx Hux Hy. by apply Hsep; [lia| |lia].
    + simpl in Hr. rewrite Hu1, <-Z.add_assoc in Hr. destruct Hr as [[-> ->]|(-> & ? & ?)]; [left|right]; 
        repeat split; done || lia.
Qed.

(** ** [copyin] and [copyinstr] *)

Lemma vm_inv_other s l pt m' :
  vm_inv kend s l pt ->
  (forall p, owns (p_mem s) pt p \/ p ∈ l -> agree m' (p_mem s) p 4096) ->
  vm_inv kend (mkphys m' (freelist s)) l pt /\
  (forall va, user_pa m' pt va = user_pa (p_mem s) pt va).
Proof.
  intros [Hk Hwf Hsep] Hag.
  assert (Hag' : forall p, owns (p_mem s) pt p -> agree m' (p_mem s) p 4096) by auto.
  split; [split; simpl|].
  - destruct Hk as (Hfl & Hnd & Hall). split; [|done]. simpl.
    eapply free_list_frame; [|done]. intros p Hp. apply load64_agree.
    eapply agree_sub; [by apply Hag; right|lia|lia].
  - by eapply pt_wf_frame.
  - intros p Hp. apply (owns_frame (p_mem s)) in Hp; auto.
  - intros va. unfold user_pa. by rewrite (pte_at_frame (p_mem s) m').
Qed.

(** The kernel buffer [dst, dst+len) overlaps no page-table page, no free
    page and no user frame. *)
Definition buf_sep (m : mem) (l : list Z) (pt dst len : Z) : Prop :=
  forall p y, owns m pt p \/ p ∈ l \/ (p <> 0 /\ exists va, 0 <= va /\ p = user_pa m pt va) ->
    dst <= y < dst + len -> ~ (p <= y < p + 4096).

(** [k] user bytes from [srcva] on are at [dst], and nothing else changed. *)
Record copied_in (m m' : mem) (pt dst srcva k : Z) : Prop := {
  ci_map i : 0 <= i < k -> user_pa m pt (srcva + i) <> 0;
  ci_in i : 0 <= i < k -> m' (dst + i) = m (vaddr m pt (srcva + i));
  ci_frame : frame m' m (fun x => dst <= x < dst + k)
}.

Lemma copied_in_nil m pt dst srcva : copied_in m m pt dst srcva 0.
Proof. split; intros; try done; lia. Qed.

Lemma copied_in_inv s l pt m' dst srcva k len :
  vm_inv kend s l pt -> buf_sep (p_mem s) l pt dst len -> k <= len ->
  copied_in (p_mem s) m' pt dst srcva k ->
  vm_inv kend (mkphys m' (freelist s)) l pt /\
  (forall va, user_pa m' pt va = user_pa (p_mem s) pt va).
Proof.
  intros Hinv Hb Hk [_ _ Hf]. apply vm_inv_other; [done|].
  intros p Hp x Hx. apply Hf. intros Hr. apply (Hb p x); [tauto|lia|lia].
Qed.

Lemma copied_in_app s l m1 m' pt dst srcva n k len :
  let m := p_mem s in
  vm_inv kend s l pt -> buf_sep m l pt dst len -> 0 <= srcva -> 0 <= n -> 0 <= k -> n + k <= len ->
  copied_in m m1 pt dst srcva n -> copied_in m1 m' pt (dst + n) (srcva + n) k ->
  copied_in m m' pt dst srcva (n + k).
Proof.
  intros m Hinv Hb Hs0 Hn Hk Hlen C1 [M2 I2 F2].
  destruct (copied_in_inv s l pt m1 dst srcva n len) as [_ U1]; try done; [lia|].
  destruct C1 as [M1 I1 F1]. fold m in U1.
  assert (HM : forall i, 0 <= i < n + k -> user_pa m pt (srcva + i) <> 0).
  { intros i Hi. destruct (decide (i < n)); [apply M1; lia|].
    rewrite <-U1. replace (srcva + i) with (srcva + n + (i - n)) by lia. apply M2. lia. }
  split; [done| |].
  - intros i Hi. destruct (decide (i < n)) as [Hlt|Hge].
    + rewrite F2 by lia. apply I1. lia.
    + replace (dst + i) with (dst + n + (i - n)) by lia. rewrite I2 by lia.
      replace (srcva + n + (i - n)) with (srcva + i) by lia. unfold vaddr. rewrite U1.
      apply F1. intros Hr. pose proof (Z.mod_pos_bound (srcva + i) 4096).
      apply (Hb (user_pa m pt (srcva + i)) (user_pa m pt (srcva + i) + (srcva + i) mod 4096));
        [right; right; split; [by apply HM|eexists; split; [|done]; lia]|lia|lia].
  - intros x Hx. rewrite F2, F1; [done|lia|lia].
Qed.

Lemma buf_sep_step s l pt m1 dst srcva n len :
  vm_inv kend s l pt -> buf_sep (p_mem s) l pt dst len -> 0 <= n <= len ->
  copied_in (p_mem s) m1 pt dst srcva n ->
  buf_sep m1 l pt (dst + n) (len - n).
Proof.
  intros Hinv Hb Hn C. destruct (copied_in_inv s l pt m1 dst srcva n len) as [_ U1]; try done; [lia|].
  destruct C as [_ _ F].
  assert (Hag : forall p, owns (p_mem s) pt p -> agree m1 (p_mem s) p 4096).
  { intros p Hp x Hx. apply F. intros Hr. apply (Hb p x); [tauto|lia|lia]. }
  intros p y Hp Hy. apply Hb; [|lia].
  destruct Hp as [Ho|[Hl|[Hp0 [va Hva]]]].
  - left. by apply (owns_frame (p_mem s) m1).
  - tauto.
  - right. right. split; [done|]. exists va. rewrite <-U1. done.
Qed.

(** One page of [copyin]. *)
Lemma copied_in_page m pt dst srcva n :
  0 <= srcva -> 0 <= n -> srcva mod 4096 + n <= 4096 -> user_pa m pt srcva <> 0 ->
  copied_in m (mem_copy m dst (vaddr m pt srcva) n) pt dst srcva n.
Proof.
  intros Hd Hn Hpg Hu.
  assert (Hsame : forall i, 0 <= i < n ->
    user_pa m pt (srcva + i) = user_pa m pt srcva /\ (srcva + i) mod 4096 = srcva mod 4096 + i).
  { intros i Hi. split; [apply user_pa_page; try lia|]; Z.div_mod_to_equations; lia. }
  split.
  - intros i Hi. by destruct (Hsame i Hi) as [-> _].
  - intros i Hi. destruct (Hsame i Hi) as [E1 E2]. unfold mem_copy, vaddr. rewrite E1, E2.
    case_range; [f_equal; lia|lia].
  - intros x Hx. unfold mem_copy. by case_range.
Qed.

Lemma copyin_loop_run fuel s l pt dst srcva len :
  vm_inv kend s l pt -> 0 <= srcva -> 0 <= len -> buf_sep (p_mem s) l pt dst len ->
  (srcva mod 4096 + len + 4095) / 4096 < Z.of_nat fuel ->
  exists r s' k, copyin_loop fuel pt dst srcva len s = Ok r s' /\ vm_inv kend s' l pt /\
    copied_in (p_mem s) (p_mem s') pt dst srcva k /\
    (r = 0 /\ k = len \/ r = -1 /\ 0 <= k < len /\ user_pa (p_mem s) pt (srcva + k) = 0).
Proof.
  revert s dst srcva len. induction fuel as [|f IH];
    intros s dst srcva len Hinv Hd Hlen Hsep Hf; [Z.div_mod_to_equations; lia|].
  cbn [copyin_loop]. destruct (Z.ltb_spec 0 len) as [Hpos|Hz].
  2: { exists 0, s, 0. do 2 (split; [done|]). split; [apply copied_in_nil|left; lia]. }
  pose proof (Z.mod_pos_bound srcva 4096) as Hm. rewrite PGROUNDDOWN_eq.
  erewrite bind_Ok by (apply (walkaddr_run kend kend_pos s l); [done|Z.div_mod_to_equations; lia]).
  rewrite <-PGROUNDDOWN_eq, user_pa_down by done. rewrite PGROUNDDOWN_eq.
  replace (srcva - (srcva - srcva mod 4096)) with (srcva mod 4096) by lia.
  destruct (Z.eqb_spec (user_pa (p_mem s) pt srcva) 0) as [Hu|Hu].
  { exists (-1), s, 0. do 2 (split; [done|]). split; [apply copied_in_nil|right].
    rewrite Z.add_0_r. repeat split; done || lia. }
  unfold PGSIZE. rewrite u64_small by lia.
  set (n := if len <? 4096 - srcva mod 4096 then len else 4096 - srcva mod 4096).
  assert (Hn : 0 < n <= len /\ srcva mod 4096 + n <= 4096 /\
               (n = len \/ n = 4096 - srcva mod 4096)).
  { unfold n. destruct (Z.ltb_spec len (4096 - srcva mod 4096)); lia. }
  erewrite bind_Ok by reflexivity.
  fold (vaddr (p_mem s) pt srcva).
  set (m1 := mem_copy (p_mem s) dst (vaddr (p_mem s) pt srcva) n).
  assert (Hc1 : copied_in (p_mem s) m1 pt dst srcva n) by (apply copied_in_page; done || lia).
  destruct (copied_in_inv s l pt m1 dst srcva n len) as [Hinv1 Hu1]; try done; [lia|].
  destruct (decide (n = len)) as [->|Hne].
  { exists 0, (mkphys m1 (freelist s)), len.
    destruct f as [|f]; [exfalso; Z.div_mod_to_equations; lia|].
    cbn [copyin_loop]. rewrite Z.sub_diag. simpl. do 3 (split; [done|]). left; lia. }
  apply user_pa_MAXVA in Hu as Hmax. rewrite MAXVA_eq in Hmax. rewrite u64_small by lia.
  replace (srcva - srcva mod 4096 + 4096) with (srcva + n) by lia.
  destruct (IH (mkphys m1 (freelist s)) (dst + n) (srcva + n) (len - n))
    as (r & s' & k & E & Hi & Hc & Hr); try done; try lia.
  - apply (buf_sep_step s l pt m1 dst srcva n len); try done; lia.
  - Z.div_mod_to_equations; lia.
  - exists r, s', (n + k). split; [exact E|]. split; [done|].
    simpl in Hr. rewrite Hu1, <-Z.add_assoc in Hr.
    split; [|destruct Hr as [[-> ->]|(-> & ? & ?)]; [left|right]; repeat split; done || lia].
    eapply (copied_in_app s l m1 _ pt dst srcva n k len); try done; lia.
Qed.
End vm_copy.
