(* ===== verification/VmSpace.v ===== *)
(** * User address spaces

    A user address space is a page table together with the list of frames
    that back the pages from 0 up to the process size ([uspace]).  [uvmcreate],
    [uvmalloc], [uvmdealloc], [uvmcopy] and [uvmfree] are specified by what
    they do to that list and to the allocator's free list. *)

From S2P Require Import Prelude Memory Riscv Kalloc Vm PageTable VmProofs.

#[local] Set Warnings "-clear-no-such-hyp".

Section vm_space.
Variable kend : Z.
Hypothesis kend_pos : 0 < kend.

(** ** An empty page table *)

Lemma node_zero_page m q path p :
  (forall x, q <= x < q + 4096 -> m x = 0) -> path_ok path -> node m q path = Some p ->
  path = [] /\ p = q.
Proof.
  intros Hz [Hl Hf]. destruct path as [|i path]; cbn [node]; [by intros [= ->]|].
  apply Forall_inv in Hf. unfold idx_ok in Hf.
  assert (load64 m (q + 8 * i) = 0) as ->; [|done].
  unfold load64. rewrite (mem_read_agree m (fun _ => 0)); [done|].
  intros x Hx. apply Hz. lia.
Qed.

Lemma zero_page_wf s l q :
  kmem_inv kend s l -> page_ok kend q -> q ∉ l ->
  (forall x, q <= x < q + 4096 -> p_mem s x = 0) ->
  vm_inv kend s l q /\ (forall va, pte_at (p_mem s) q va = None) /\
  (forall p, owns (p_mem s) q p <-> p = q).
Proof.
  intros Hk Hq Hni Hz.
  assert (Hown : forall p, owns (p_mem s) q p <-> p = q).
  { intros p. split; [|intros ->; apply owns_root].
    intros (path & Hok & Hn). by apply node_zero_page in Hn as [_ ->]. }
  split; [split; [done|split|]|split; [|done]].
  - by intros p ->%Hown.
  - intros path1 path2 p H1 H2 E1 E2.
    apply node_zero_page in E1 as [-> _]; [|done..].
    by apply node_zero_page in E2 as [-> _].
  - intros path i p Hok Hn Hv.
    assert (node (p_mem s) q (path ++ [i]) = Some (PTE2PA (load64 (p_mem s) (p + 8 * i)))) as E.
    { rewrite node_snoc, Hn. cbv zeta. by rewrite Hv. }
    apply node_zero_page in E as [E _]; [|done..]. by destruct path.
  - by intros p ->%Hown.
  - intros va. unfold pte_at, slot.
    destruct (node (p_mem s) q (vapath va)) as [p|] eqn:E; [|done].
    apply node_zero_page in E as [E _]; auto with machine. done.
Qed.

(** [uvmcreate] takes one page and makes it an empty table. *)
Lemma uvmcreate_run s q l :
  kmem_inv kend s (q :: l) ->
  exists s', uvmcreate s = Ok q s' /\ vm_inv kend s' l q /\
    (forall va, pte_at (p_mem s') q va = None) /\
    (forall p, owns (p_mem s') q p <-> p = q) /\
    frame (p_mem s') (p_mem s) (fun x => q <= x < q + 4096).
Proof.
  intros Hk. destruct (kalloc_run_cons kend s q l Hk) as (s1 & E1 & Hk1 & Em).
  destruct Hk as (_ & Hnd & Hall). apply NoDup_cons in Hnd as [Hni _].
  apply Forall_inv in Hall as Hq. assert (0 < q) by (by eapply page_ok_pos).
  unfold uvmcreate. erewrite bind_Ok by exact E1. destruct (Z.eqb_spec q 0); [lia|].
  erewrite bind_Ok by reflexivity. eexists. split; [reflexivity|].
  assert (Hk2 : kmem_inv kend (mkphys (mem_fill (p_mem s1) q PGSIZE 0) (freelist s1)) l).
  { destruct Hk1 as (Hfl & Hnd1 & Hall1). split; [|done]. simpl.
    eapply (free_list_other_page kend); [done|apply Hq|done| |done].
    intros x Hx. unfold mem_fill, PGSIZE. case_range; [lia|done]. }
  destruct (zero_page_wf _ l q Hk2 Hq Hni) as (Hv & Hp & Ho).
  { intros x Hx. simpl. unfold mem_fill, PGSIZE. case_range; [done|lia]. }
  do 3 (split; [done|]). simpl. rewrite Em.
  intros x Hx. unfold mem_fill, PGSIZE. by repeat (case_range; [lia|]).
Qed.

(** ** Mapping one page *)

Lemma mappages_page_run s l pt a pa perm :
  vm_inv kend s l pt -> aligned a -> 0 <= a -> a + 4096 <= MAXVA ->
  0 <= pa -> pa + 4096 <= 18446744073709551616 -> 0 <= perm < 1024 ->
  (forall x, a <= x < a + 4096 -> pte_at (p_mem s) pt x = None) ->
  exists r s' l', mappages pt a PGSIZE pa perm s = Ok r s' /\
    vm_inv kend s' l' pt /\ vm_grow s l s' l' pt /\ Z.of_nat (length l) <= Z.of_nat (length l') + 2 /\
    (r = 0 /\ (forall va, 0 <= va < VASPAN -> pte_at (p_mem s') pt va =
        if in_range a 4096 va then Some (mk_pte pa perm) else pte_at (p_mem s) pt va) \/
     r = -1 /\ l' = [] /\ forall va, 0 <= va < VASPAN -> pte_at (p_mem s') pt va = pte_at (p_mem s) pt va).
Proof.
  intros Hinv Hal Ha Hmax Hpa Hpa' Hperm Hnone.
  assert (Hrd : PGROUNDDOWN a = a) by (by apply PGROUNDDOWN_id).
  assert (Hn : (PGROUNDDOWN (a + PGSIZE - 1) - PGROUNDDOWN a) / 4096 + 1 = 1).
  { rewrite Hrd, PGROUNDDOWN_eq. page_lia. }
  pose proof (mappages_run kend kend_pos s l pt a PGSIZE pa perm Hinv) as H.
  cbv zeta in H. rewrite Hn, Hrd in H. unfold PGSIZE at 1 2 in H.
  destruct H as (r & s' & l' & k & E & Hi & Hg & Hm & Hc & Hr); try lia; [intros x Hx; apply Hnone; lia|].
  exists r, s', l'. do 3 (split; [done|]). split; [lia|].
  destruct Hr as [[-> ->]|(-> & -> & Hk)]; [left|right]; (split; [done|]).
  - intros va Hva. rewrite Hm by done. change (1 * 4096) with 4096. case_range; [|done].
    do 2 f_equal. rewrite PGROUNDDOWN_eq. page_lia.
  - split; [done|]. intros va Hva. rewrite Hm by done. case_range; [lia|done].
Qed.

(** Pages neither in the table nor on the free list keep their content. *)
Lemma vm_grow_agree s l s' l' pt f :
  vm_inv kend s' l' pt -> vm_grow s l s' l' pt -> aligned f ->
  ~ owns (p_mem s) pt f -> f ∉ l -> agree (p_mem s') (p_mem s) f 4096.
Proof.
  intros Hinv [(new & -> & Ho) Hf] Hal Hno Hni x Hx. apply Hf.
  intros (p & Hp & Hr). assert (page_ok kend p) as [Hap _] by (eapply wf_page; [apply Hinv|done]).
  assert (p = f) as ->.
  { destruct (decide (p = f)); [done|]. destruct (pages_disjoint p f); try done; lia. }
  apply Ho in Hp as [|]; [done|]. apply Hni. set_solver.
Qed.

(** ** Address spaces *)

Record uspace (s : phys) (l : list Z) (pt : Z) (frames : list Z) : Prop := {
  sp_inv : vm_inv kend s l pt;
  sp_leaf : leaf_range (p_mem s) pt 0 frames;
  sp_none va : Z.of_nat (length frames) * 4096 <= va < TRAPFRAME -> pte_at (p_mem s) pt va = None;
  sp_page : Forall (page_ok kend) frames;
  sp_nodup : NoDup frames;
  sp_sep f : f ∈ frames -> (f ∉ l) /\ ~ owns (p_mem s) pt f;
  sp_size : Z.of_nat (length frames) * 4096 <= TRAPFRAME
}.

(** A page that the table neither owns nor can take: the operations below
    keep its content. *)
Definition apart (s : phys) (l : list Z) (pt p : Z) : Prop :=
  aligned p /\ (p ∉ l) /\ ~ owns (p_mem s) pt p.

Lemma uspace_apart s l pt frames f : uspace s l pt frames -> f ∈ frames -> apart s l pt f.
Proof.
  intros Hsp Hf. split; [|by apply (sp_sep _ _ _ _ Hsp)].
  pose proof (sp_page _ _ _ _ Hsp) as Hpg. rewrite Forall_forall in Hpg. by apply Hpg.
Qed.

Lemma apart_grow s l s' l' pt p :
  vm_inv kend s' l' pt -> vm_grow s l s' l' pt -> apart s l pt p ->
  apart s' l' pt p /\ agree (p_mem s') (p_mem s) p 4096.
Proof.
  intros Hi Hg (Ha & Hl & Ho). split; [|by eapply vm_grow_agree].
  destruct Hg as [(new & -> & Hown) _]. split; [done|]. rewrite Hown. set_solver.
Qed.

Lemma TRAPFRAME_eq : TRAPFRAME = 274877898752.
Proof. reflexivity. Qed.

Lemma uspace_empty s q l :
  vm_inv kend s l q -> (forall va, pte_at (p_mem s) q va = None) -> uspace s l q [].
Proof.
  intros Hi Hp. split; [done|by intros i f|intros va _; apply Hp|constructor|constructor|set_solver|].
  rewrite TRAPFRAME_eq. simpl. lia.
Qed.

Definition upage_perm : Z := Z.lor (Z.lor (Z.lor PTE_W PTE_X) PTE_R) PTE_U.

(** Adding one fresh, already mapped frame at the end. *)
Lemma uspace_snoc s l pt frames s' l' q perm :
  uspace s (q :: l) pt frames -> vm_inv kend s' l' pt ->
  0 <= perm < 1024 -> Z.lor perm PTE_V <> PTE_V ->
  (exists s1, vm_grow s1 l s' l' pt /\ (forall p, owns (p_mem s1) pt p <-> owns (p_mem s) pt p)) ->
  Z.of_nat (length frames) * 4096 + 4096 <= TRAPFRAME ->
  (forall va, 0 <= va < VASPAN -> pte_at (p_mem s') pt va =
     if in_range (Z.of_nat (length frames) * 4096) 4096 va
     then Some (mk_pte q perm) else pte_at (p_mem s) pt va) ->
  uspace s' l' pt (frames ++ [q]).
Proof.
  intros [Hi Hleaf Hnone Hpg Hnd Hsep Hsz] Hi' Hperm Hpv (s1 & [(new & -> & Ho) _] & Ho1) Hmax Hp.
  rewrite TRAPFRAME_eq in *. pose proof MAXVA_eq. pose proof VASPAN_eq.
  assert (Hq : page_ok kend q).
  { destruct Hi as [(_ & _ & Hall) _ _]. by apply Forall_inv in Hall. }
  assert (Hql : q ∉ new ++ l').
  { destruct Hi as [(_ & HN & _) _ _]. by apply NoDup_cons in HN as [? _]. }
  split; [done|..].
  - intros i f Hf. apply lookup_snoc_Some in Hf as [[Hlt Hf]|[-> <-]].
    + destruct (Hleaf i f Hf) as (v & Hv & Hv'). exists v. split; [|done].
      rewrite Hp by lia. case_range; [lia|done].
    + exists (mk_pte q perm). rewrite Hp by lia. case_range; [|lia].
      assert (0 <= Z.lor perm PTE_V < 1024) by (apply (lor_range _ _ 10); unfold PTE_V; lia).
      split; [done|]. rewrite mk_pte_flags. split.
      * by rewrite PTE_FLAGS_PA2PTE.
      * destruct Hq as [Ha Hr]. unfold PHYSTOP, KERNBASE in Hr. apply PTE2PA_PA2PTE; [lia|done|done].
  - rewrite length_app. simpl. intros va Hva. rewrite TRAPFRAME_eq in Hva.
    rewrite Hp by lia. case_range; [lia|]. apply Hnone. lia.
  - apply Forall_app. split; [done|by constructor].
  - apply NoDup_app. split; [done|]. split; [|apply NoDup_singleton].
    intros f Hf Hin. apply list_elem_of_singleton in Hin. subst f.
    destruct (Hsep q Hf) as [Hc _]. set_solver.
  - intros f [Hf| ->%list_elem_of_singleton]%elem_of_app.
    + destruct (Hsep f Hf) as [Hc Hno]. rewrite Ho, Ho1. split; [set_solver|].
      intros [|Hin]; [done|]. set_solver.
    + rewrite Ho, Ho1. split; [set_solver|]. intros [Hown|Hin]; [|set_solver].
      apply (vi_sep _ _ _ _ Hi q Hown). set_solver.
  - rewrite length_app, TRAPFRAME_eq. simpl. lia.
Qed.

(** ** Shrinking *)

Lemma leaf_range_app_r m pt f1 f2 :
  leaf_range m pt 0 (f1 ++ f2) -> leaf_range m pt (Z.of_nat (length f1) * 4096) f2.
Proof.
  intros H i f Hf. destruct (H (length f1 + i)%nat f) as (v & Hv).
  { rewrite lookup_app_r by lia. by replace (length f1 + i - length f1)%nat with i by lia. }
  exists v. rewrite Nat2Z.inj_add in Hv.
  by replace (Z.of_nat (length f1) * 4096 + Z.of_nat i * 4096)
    with (0 + (Z.of_nat (length f1) + Z.of_nat i) * 4096) by lia.
Qed.

Lemma uspace_unmap s l pt f1 f2 :
  uspace s l pt (f1 ++ f2) ->
  exists s', uvmunmap kend pt (Z.of_nat (length f1) * 4096) (Z.of_nat (length f2)) true s = Ok tt s' /\
    uspace s' (rev f2 ++ l) pt f1 /\
    (forall p, owns (p_mem s') pt p <-> owns (p_mem s) pt p) /\
    (forall va, 0 <= va < VASPAN -> pte_at (p_mem s') pt va =
       if in_range (Z.of_nat (length f1) * 4096) (Z.of_nat (length f2) * 4096) va then None else pte_at (p_mem s) pt va) /\
    (forall p, apart s l pt p -> p ∉ f2 ->
       apart s' (rev f2 ++ l) pt p /\ agree (p_mem s') (p_mem s) p 4096).
Proof.
  intros [Hi Hleaf Hnone Hpg Hnd Hsep Hsz]. unfold uvmunmap, PGSIZE.
  rewrite length_app, Nat2Z.inj_add, TRAPFRAME_eq in *. pose proof MAXVA_eq. pose proof VASPAN_eq.
  assert ((Z.of_nat (length f1) * 4096) mod 4096 = 0) as Hal by (apply Z.mod_mul; lia).
  rewrite Hal. simpl negb. cbv iota. rewrite u64_small by lia. rewrite Nat2Z.id.
  apply Forall_app in Hpg as [Hpg1 Hpg2]. apply NoDup_app in Hnd as (Hnd1 & Hdisj & Hnd2).
  destruct (uvmunmap_free_loop_run kend kend_pos (S (length f2)) s l pt
              (Z.of_nat (length f1) * 4096) f2) as (s' & E & Hi' & Ho & Hp & Hf); try done; try lia.
  { by apply leaf_range_app_r. }
  { intros f Hf. apply Hsep. set_solver. }
  exists s'. split; [exact E|]. split; [split; [done|..]|split; [done|split]].
  - intros i f Hi1. destruct (Hleaf i f) as (v & Hv & Hv').
    { rewrite lookup_app_l; [done|]. by eapply lookup_lt_Some. }
    apply lookup_lt_Some in Hi1. exists v. split; [|done].
    rewrite Hp by lia. case_range; [lia|done].
  - intros va Hva. rewrite TRAPFRAME_eq in Hva. rewrite Hp by lia. case_range; [done|].
    apply Hnone. lia.
  - done.
  - done.
  - intros f Hf1. rewrite Ho. destruct (Hsep f) as [Hc Hno]; [set_solver|]. split; [|done].
    rewrite elem_of_app, elem_of_rev. intros [Hin|]; [|done]. by apply (Hdisj f).
  - rewrite TRAPFRAME_eq. lia.
  - done.
  - intros f (Haf & Hfl & Hfo) Hf2. split.
    { split; [done|]. rewrite Ho, elem_of_app, elem_of_rev. tauto. }
    intros x Hx. apply Hf. intros (p & Hp' & Hr). rewrite Forall_forall in Hpg2.
    destruct (decide (p = f)) as [->|Hne]; [tauto|].
    assert (aligned p) as Hap.
    { destruct Hp' as [Ho'|Hin]; [eapply wf_page; [apply Hi|done]|by apply Hpg2]. }
    destruct (pages_disjoint p f); try done; lia.
Qed.

(** [uvmdealloc] keeps the frames below the new size and frees the others. *)
Lemma uvmdealloc_run s l pt f1 f2 oldsz newsz :
  uspace s l pt (f1 ++ f2) -> 0 <= newsz < oldsz -> oldsz <= TRAPFRAME ->
  PGROUNDUP oldsz = Z.of_nat (length (f1 ++ f2)) * 4096 ->
  PGROUNDUP newsz = Z.of_nat (length f1) * 4096 ->
  exists s', uvmdealloc kend pt oldsz newsz s = Ok newsz s' /\
    uspace s' (rev f2 ++ l) pt f1 /\
    (forall p, owns (p_mem s') pt p <-> owns (p_mem s) pt p) /\
    (forall va, 0 <= va < VASPAN -> pte_at (p_mem s') pt va =
       if in_range (Z.of_nat (length f1) * 4096) (Z.of_nat (length f2) * 4096) va then None else pte_at (p_mem s) pt va) /\
    (forall p, apart s l pt p -> p ∉ f2 ->
       apart s' (rev f2 ++ l) pt p /\ agree (p_mem s') (p_mem s) p 4096).
Proof.
  intros Hsp Hlt Hold Eo En. unfold uvmdealloc.
  destruct (Z.leb_spec oldsz newsz); [lia|]. rewrite Eo, En, length_app, Nat2Z.inj_add.
  rewrite TRAPFRAME_eq in Hold.
  assert (Z.of_nat (length f2) < 67108864).
  { rewrite length_app, Nat2Z.inj_add in Eo. pose proof (PGROUNDUP_bounds oldsz). lia. }
  destruct f2 as [|q f2].
  - destruct (Z.ltb_spec (Z.of_nat (length f1) * 4096)
      ((Z.of_nat (length f1) + Z.of_nat (length (@nil Z))) * 4096)) as [Hc|_]; [simpl in Hc; lia|].
    exists s. rewrite app_nil_r in Hsp. do 3 (split; [done|]). split; [|done].
    intros va Hva. case_range; [simpl in *; lia|done].
  - destruct (Z.ltb_spec (Z.of_nat (length f1) * 4096)
      ((Z.of_nat (length f1) + Z.of_nat (length (q :: f2))) * 4096)) as [_|Hc]; [|simpl in Hc; lia].
    destruct (uspace_unmap s l pt f1 (q :: f2) Hsp) as (s' & E & H').
    unfold PGSIZE.
    replace (((Z.of_nat (length f1) + Z.of_nat (length (q :: f2))) * 4096 -
      Z.of_nat (length f1) * 4096) / 4096) with (Z.of_nat (length (q :: f2)))
      by (rewrite Z.mul_add_distr_r, Z.add_simpl_l, Z.div_mul; lia).
    rewrite s32_small by lia. erewrite bind_Ok by exact E. by exists s'.
Qed.

(** ** Growing *)

(** A page taken off the free list and written. *)
Lemma uspace_take s q l pt frames :
  uspace s (q :: l) pt frames ->
  exists s1, kalloc s = Ok q s1 /\ forall m2, frame m2 (p_mem s1) (fun x => q <= x < q + 4096) ->
    let s2 := mkphys m2 (freelist s1) in
    uspace s2 l pt frames /\
    (forall p, owns m2 pt p <-> owns (p_mem s) pt p) /\
    (forall va, pte_at m2 pt va = pte_at (p_mem s) pt va) /\
    (forall p, apart s (q :: l) pt p -> apart s2 l pt p /\ agree m2 (p_mem s) p 4096).
Proof.
  intros [[Hk Hwf Hvs] Hleaf Hnone Hpg Hnd Hsep Hsz].
  destruct (kalloc_run_cons kend s q l Hk) as (s1 & E1 & Hk1 & Em).
  exists s1. split; [done|]. intros m2 Hm2. cbv zeta. cbn [p_mem].
  assert (Hq : page_ok kend q) by (destruct Hk as (_ & _ & Hall); by apply Forall_inv in Hall).
  assert (Hql : q ∉ l) by (destruct Hk as (_ & HN & _); by apply NoDup_cons in HN as [? _]).
  assert (Hfr : frame m2 (p_mem s) (fun x => q <= x < q + 4096)).
  { intros x Hx. rewrite Hm2, Em by done. unfold mem_fill, PGSIZE. by repeat (case_range; [lia|]). }
  assert (Hag : forall p, owns (p_mem s) pt p -> agree m2 (p_mem s) p 4096).
  { intros p Hp. eapply page_agree; [|apply Hq| |exact Hfr].
    - eapply wf_page; [exact Hwf|done].
    - intros ->. apply (Hvs q Hp). set_solver. }
  assert (Ho : forall p, owns m2 pt p <-> owns (p_mem s) pt p) by (intros p; by apply owns_frame).
  assert (Hp : forall va, pte_at m2 pt va = pte_at (p_mem s) pt va)
    by (intros va; by apply pte_at_frame).
  split; [split; [split|..]|split; [done|split; [done|]]].
  - destruct Hk1 as (Hfl & Hnd1 & Hall1). split; [|done]. cbn [p_mem freelist].
    by eapply (free_list_other_page kend); [done|apply Hq|done| |done].
  - by eapply pt_wf_frame.
  - intros p Hp'%Ho Hin. apply (Hvs p Hp'). set_solver.
  - intros i f Hf. destruct (Hleaf i f Hf) as (v & Hv). exists v. cbn [p_mem]. by rewrite Hp.
  - intros va Hva. cbn [p_mem]. rewrite Hp. auto.
  - done.
  - done.
  - intros f Hf. cbn [p_mem]. rewrite Ho. destruct (Hsep f Hf). set_solver.
  - done.
  - intros p (Hpa & Hpl & Hpo). split.
    + split; [done|]. cbn [p_mem]. rewrite Ho. set_solver.
    + eapply page_agree; [done|apply Hq| |exact Hfr]. intros ->. set_solver.
Qed.

(** The outcome of a growing step: the frames kept unchanged, the new ones
    zero-filled. *)
Definition zero_page (m : mem) (q : Z) : Prop := forall x, q <= x < q + 4096 -> m x = 0.

(** A failed [mappages] leaves the space as it was. *)
Lemma uspace_same s l pt frames s' l' :
  uspace s l pt frames -> vm_inv kend s' l' pt -> vm_grow s l s' l' pt ->
  (forall va, 0 <= va < VASPAN -> pte_at (p_mem s') pt va = pte_at (p_mem s) pt va) ->
  uspace s' l' pt frames.
Proof.
  intros [Hi Hleaf Hnone Hpg Hnd Hsep Hsz] Hi' [(new & -> & Ho) _] Hp.
  rewrite TRAPFRAME_eq in *. pose proof MAXVA_eq. pose proof VASPAN_eq.
  split; [done|..].
  - intros i f Hf. destruct (Hleaf i f Hf) as (v & Hv). exists v.
    apply lookup_lt_Some in Hf. rewrite Hp by lia. done.
  - intros va Hva. rewrite TRAPFRAME_eq in Hva. rewrite Hp by lia. apply Hnone. lia.
  - done.
  - done.
  - intros f Hf. rewrite Ho. destruct (Hsep f Hf) as [Hc Hno]. split; [set_solver|].
    intros [|]; [done|]. set_solver.
  - by rewrite TRAPFRAME_eq.
Qed.

(** Returning a page that belongs to nobody. *)
Lemma uspace_kfree s l pt frames q :
  uspace s l pt frames -> page_ok kend q -> q ∉ frames -> apart s l pt q ->
  exists s', kfree kend q s = Ok tt s' /\ uspace s' (q :: l) pt frames /\
    (forall p, owns (p_mem s') pt p <-> owns (p_mem s) pt p) /\
    (forall va, pte_at (p_mem s') pt va = pte_at (p_mem s) pt va) /\
    (forall p, apart s l pt p -> p <> q ->
       apart s' (q :: l) pt p /\ agree (p_mem s') (p_mem s) p 4096).
Proof.
  intros [Hi Hleaf Hnone Hpg Hnd Hsep Hsz] Hq Hqf (_ & Hql & Hno).
  destruct (kfree_vm kend kend_pos s l pt q) as (s' & E & Hi' & Ho & _ & Hp & Hf); try done.
  exists s'. split; [done|]. split; [split; [done|..]|split; [done|split; [done|]]].
  - intros i f Hlk. destruct (Hleaf i f Hlk) as (v & Hv). exists v. by rewrite Hp.
  - intros va Hva. rewrite Hp. auto.
  - done.
  - done.
  - intros f Hin. rewrite Ho. destruct (Hsep f Hin) as [Hc Hn]. split; [|done].
    intros [->|]%elem_of_cons; done.
  - done.
  - intros p (Hpa & Hpl & Hpo) Hne. split.
    + split; [done|]. rewrite Ho. set_solver.
    + eapply page_agree; [done|apply Hq|done|exact Hf].
Qed.

(** ** One more page

    The step that [uvmalloc] and [uvmcopy] share: a page is taken off the
    free list, filled ([m2]) and mapped after the last one; when a table
    page is missing the page goes back to the free list. *)

Record added (s : phys) (q : Z) (l : list Z) (pt : Z) (frames : list Z) (m2 : mem) (perm : Z)
    (s3 : phys) (l3 : list Z) : Prop := {
  ad_space : uspace s3 l3 pt (frames ++ [q]);
  ad_page : agree (p_mem s3) m2 q 4096;
  ad_pte va : 0 <= va < VASPAN -> pte_at (p_mem s3) pt va =
    if in_range (Z.of_nat (length frames) * 4096) 4096 va
    then Some (mk_pte q perm) else pte_at (p_mem s) pt va;
  ad_apart p : apart s (q :: l) pt p ->
    apart s3 l3 pt p /\ agree (p_mem s3) (p_mem s) p 4096;
  ad_conserve p : p ∈ l -> p ∈ l3 \/ owns (p_mem s3) pt p;
  ad_count : Z.of_nat (length l) <= Z.of_nat (length l3) + 2;
  ad_owns p : owns (p_mem s) pt p -> owns (p_mem s3) pt p
}.

Record add_failed (s : phys) (q : Z) (l : list Z) (pt : Z) (frames : list Z)
    (s4 : phys) : Prop := {
  af_space : uspace s4 [q] pt frames;
  af_pte va : 0 <= va < VASPAN -> pte_at (p_mem s4) pt va = pte_at (p_mem s) pt va;
  af_apart p : apart s (q :: l) pt p ->
    apart s4 [q] pt p /\ agree (p_mem s4) (p_mem s) p 4096;
  af_conserve p : p ∈ l -> owns (p_mem s4) pt p;
  af_count : Z.of_nat (length l) <= 2;
  af_owns p : owns (p_mem s) pt p -> owns (p_mem s4) pt p
}.

Lemma add_page s q l pt frames perm :
  uspace s (q :: l) pt frames -> Z.of_nat (length frames) * 4096 + 4096 <= TRAPFRAME ->
  0 <= perm < 1024 -> Z.lor perm PTE_V <> PTE_V ->
  exists s1, kalloc s = Ok q s1 /\ 0 < q /\
    (forall p, apart s (q :: l) pt p -> agree (p_mem s1) (p_mem s) p 4096) /\
    forall m2, frame m2 (p_mem s1) (fun x => q <= x < q + 4096) ->
    exists r s3, mappages pt (Z.of_nat (length frames) * 4096) PGSIZE q perm
                   (mkphys m2 (freelist s1)) = Ok r s3 /\
      ((r = 0 /\ exists l3, added s q l pt frames m2 perm s3 l3) \/
       (r = -1 /\ exists s4, kfree kend q s3 = Ok tt s4 /\ add_failed s q l pt frames s4)).
Proof.
  intros Hsp Hmax Hperm Hpv. rewrite TRAPFRAME_eq in Hmax. pose proof MAXVA_eq as HM. pose proof VASPAN_eq.
  assert (Hkm : kmem_inv kend s (q :: l)) by apply Hsp.
  assert (Hq : page_ok kend q) by (destruct Hkm as (_ & _ & Hall); by apply Forall_inv in Hall).
  assert (0 <= q /\ q + 4096 <= 18446744073709551616).
  { destruct Hq as [_ Hr]. unfold PHYSTOP, KERNBASE in Hr. lia. }
  assert (Hql : q ∉ l) by (destruct Hkm as (_ & HN & _); by apply NoDup_cons in HN as [? _]).
  assert (Hqf : q ∉ frames) by (intros Hin; destruct (sp_sep _ _ _ _ Hsp q Hin); set_solver).
  assert (Hqo : ~ owns (p_mem s) pt q).
  { intros Ho. apply (vi_sep _ _ _ _ (sp_inv _ _ _ _ Hsp) q Ho). set_solver. }
  destruct (uspace_take s q l pt _ Hsp) as (s1 & E1 & Htake). exists s1. split; [done|].
  split; [by eapply page_ok_pos|]. split; [apply (Htake (p_mem s1)); done|]. intros m2 Hm2.
  destruct (Htake m2 Hm2) as (Hsp2 & Ho2 & Hp2 & Hap2). clear Htake. set (s2 := mkphys m2 _) in *.
  destruct (mappages_page_run s2 l pt (Z.of_nat (length frames) * 4096) q perm)
    as (r & s3 & l3 & E3 & Hi3 & Hg3 & Hc3 & Hr); try done; try lia.
  { apply Hsp2. }
  { unfold aligned, PGSIZE. apply Z.mod_mul. lia. }
  { intros x Hx. apply (sp_none _ _ _ _ Hsp2). rewrite TRAPFRAME_eq. lia. }
  exists r, s3. split; [exact E3|]. pose proof Hg3 as [(new & Enew & Ho3) _].
  assert (Hq2 : apart s2 l pt q) by (split; [apply Hq|]; split; [done|]; simpl; by rewrite Ho2).
  destruct (apart_grow _ _ _ _ _ _ Hi3 Hg3 Hq2) as [Hq3 Hqa].
  assert (Hap3 : forall p, apart s (q :: l) pt p ->
            apart s3 l3 pt p /\ agree (p_mem s3) (p_mem s) p 4096).
  { intros p Hp. destruct (Hap2 p Hp) as [Hp' Ha]. destruct (apart_grow _ _ _ _ _ _ Hi3 Hg3 Hp') as [? Ha'].
    split; [done|]. by eapply agree_trans. }
  assert (Hown : forall p, owns (p_mem s) pt p -> owns (p_mem s3) pt p).
  { intros p Hp. apply Ho3. left. simpl. by rewrite Ho2. }
  destruct Hr as [[-> Hp3]|(-> & -> & Hp3)]; [left|right]; (split; [done|]).
  - exists l3. split; try done.
    + eapply uspace_snoc; try done; [by exists s2|].
      intros va Hva. rewrite Hp3 by done. simpl. by rewrite Hp2.
    + intros va Hva. rewrite Hp3 by done. simpl. by rewrite Hp2.
    + intros p Hp. rewrite Ho3. rewrite Enew in Hp. apply elem_of_app in Hp. tauto.
  - assert (Hsp3 : uspace s3 [] pt frames) by (by eapply uspace_same).
    rewrite app_nil_r in Enew. subst new.
    destruct (uspace_kfree s3 [] pt frames q) as (s4 & E4 & Hsp4 & Ho4 & Hp4 & Ha4); try done.
    exists s4. split; [done|]. split; [done|..].
    + intros va Hva. rewrite Hp4, Hp3 by done. simpl. by rewrite Hp2.
    + intros p Hp. destruct (Hap3 p Hp) as [Hp3' Hag]. destruct (Ha4 p Hp3') as [? Ha].
      { intros ->. destruct Hp as (_ & Hc & _). set_solver. }
      split; [done|]. by eapply agree_trans.
    + intros p Hp. rewrite Ho4, Ho3. tauto.
    + simpl in Hc3. lia.
    + intros p Hp. rewrite Ho4. auto.
Qed.

Lemma PGROUNDUP_mul n : 0 <= n < 134217728 -> PGROUNDUP (n * 4096) = n * 4096.
Proof. intros Hn. apply PGROUNDUP_id; [lia|]. unfold aligned, PGSIZE. apply Z.mod_mul. lia. Qed.

(** The error exit of [uvmalloc]: give back what was added. *)
Lemma uvmalloc_undo s l pt f0 fn :
  uspace s l pt (f0 ++ fn) ->
  exists s', uvmdealloc kend pt (Z.of_nat (length (f0 ++ fn)) * 4096)
               (Z.of_nat (length f0) * 4096) s =
             Ok (Z.of_nat (length f0) * 4096) s' /\
    uspace s' (rev fn ++ l) pt f0 /\
    (forall p, owns (p_mem s') pt p <-> owns (p_mem s) pt p) /\
    (forall va, 0 <= va < VASPAN -> pte_at (p_mem s') pt va =
       if in_range (Z.of_nat (length f0) * 4096) (Z.of_nat (length fn) * 4096) va then None else pte_at (p_mem s) pt va) /\
    (forall p, apart s l pt p -> p ∉ fn ->
       apart s' (rev fn ++ l) pt p /\ agree (p_mem s') (p_mem s) p 4096).
Proof.
  intros Hsp. pose proof (sp_size _ _ _ _ Hsp) as Hsz. rewrite TRAPFRAME_eq in Hsz.
  destruct fn as [|q fn].
  - exists s. unfold uvmdealloc. rewrite app_nil_r in *.
    destruct (Z.leb_spec (Z.of_nat (length f0) * 4096) (Z.of_nat (length f0) * 4096)); [|lia].
    do 3 (split; [done|]). split; [|done]. intros va Hva. case_range; [simpl in *; lia|done].
  - rewrite length_app, Nat2Z.inj_add in Hsz. simpl length in Hsz.
    destruct (uvmdealloc_run s l pt f0 (q :: fn) (Z.of_nat (length (f0 ++ q :: fn)) * 4096)
      (Z.of_nat (length f0) * 4096)) as (s' & E & Hs & Ho & Hh & Ha); [done|..].
    + rewrite length_app, Nat2Z.inj_add. simpl. lia.
    + rewrite TRAPFRAME_eq, length_app, Nat2Z.inj_add. simpl. lia.
    + apply PGROUNDUP_mul. rewrite length_app, Nat2Z.inj_add. simpl. lia.
    + apply PGROUNDUP_mul. lia.
    + by exists s'.
Qed.

Lemma zero_page_agree m m' q : agree m' m q 4096 -> zero_page m q -> zero_page m' q.
Proof. intros Ha Hz x Hx. rewrite Ha by lia. auto. Qed.

(** The space with the frames [f0], the memory [m0] and the free list [l0] has
    got the frames [fn]: fresh, zero-filled and accessible to the user.  Pages
    that were neither free nor of the table keep their contents, no other
    translation changes, and no page is lost. *)
Record growing (m0 : mem) (l0 : list Z) (s : phys) (l : list Z) (pt : Z) (f0 fn : list Z) : Prop := {
  gr_space : uspace s l pt (f0 ++ fn);
  gr_old f : f ∈ f0 -> agree (p_mem s) m0 f 4096;
  gr_apart p : aligned p -> p ∉ l0 -> ~ owns m0 pt p -> apart s l pt p /\ agree (p_mem s) m0 p 4096;
  gr_pte va : 0 <= va < VASPAN -> ~ (Z.of_nat (length f0) * 4096 <= va < Z.of_nat (length (f0 ++ fn)) * 4096) ->
    pte_at (p_mem s) pt va = pte_at m0 pt va;
  gr_user i f : fn !! i = Some f -> pte_at (p_mem s) pt (Z.of_nat (length f0 + i) * 4096) = Some (mk_pte f upage_perm);
  gr_owns p : owns m0 pt p -> owns (p_mem s) pt p;
  gr_conserve p : p ∈ l0 -> p ∈ l \/ p ∈ fn \/ owns (p_mem s) pt p;
  gr_zero : Forall (zero_page (p_mem s)) fn;
  gr_fresh p : p ∈ fn -> p ∈ l0;
  gr_none va : Z.of_nat (length f0) * 4096 <= va < TRAPFRAME -> pte_at m0 pt va = None
}.

(** What [uvmalloc] guarantees: all the pages, or none, and then there were
    at most three free pages for each. *)
Definition grown (m0 : mem) (l : list Z) (pt : Z) (f0 : list Z) (newsz r : Z) (s' : phys) : Prop :=
  exists l' fn, growing m0 l s' l' pt f0 fn /\
    (r = newsz /\ newsz <= TRAPFRAME /\ Z.of_nat (length (f0 ++ fn)) * 4096 = PGROUNDUP newsz /\
       Z.of_nat (length l) <= Z.of_nat (length l') + 3 * Z.of_nat (length fn) \/
     r = 0 /\ fn = [] /\ Z.of_nat (length l) * 4096 <= 3 * (newsz + 4095 - Z.of_nat (length f0) * 4096)).

Lemma growing_start s l pt f0 : uspace s l pt f0 -> growing (p_mem s) l s l pt f0 [].
Proof.
  intros Hsp. split; try done; rewrite ?app_nil_r; try done; [tauto|set_solver|apply Hsp].
Qed.

(** What is free now was free at the start. *)
Lemma growing_free m0 l0 s l pt f0 fn q : growing m0 l0 s l pt f0 fn -> q ∈ l -> q ∈ l0.
Proof.
  intros Hg Hq. destruct (decide (q ∈ l0)) as [|Hn]; [done|]. exfalso. pose proof (sp_inv _ _ _ _ (gr_space _ _ _ _ _ _ _ Hg)) as Hi.
  assert (aligned q) as Ha.
  { destruct (vi_kmem _ _ _ _ Hi) as (_ & _ & Hall). rewrite Forall_forall in Hall. by apply Hall. }
  destruct (gr_apart _ _ _ _ _ _ _ Hg q Ha Hn) as [(_ & Hc & _) _]; [|done].
  intros Ho%(gr_owns _ _ _ _ _ _ _ Hg). by apply (vi_sep _ _ _ _ Hi q).
Qed.

Lemma growing_added m0 l0 s q l pt f0 fn m2 s3 l3 :
  growing m0 l0 s (q :: l) pt f0 fn -> zero_page m2 q ->
  added s q l pt (f0 ++ fn) m2 upage_perm s3 l3 -> growing m0 l0 s3 l3 pt f0 (fn ++ [q]).
Proof.
  intros Hg Hz2 [Hsp3 Hpg Hpte Hap Hc Hn Ho].
  assert (Hq0 : q ∈ l0) by (eapply growing_free; [done|set_solver]).
  destruct Hg as [Hsp Hold Hapt Hpto Hus Hown Hcons Hz Hfr Hno].
  assert (Hag : forall f, f ∈ f0 ++ fn -> agree (p_mem s3) (p_mem s) f 4096).
  { intros f Hf. by apply Hap, (uspace_apart _ _ _ _ _ Hsp). }
  pose proof (sp_size _ _ _ _ Hsp3) as Hsz. rewrite !length_app in Hsz. cbn [length] in Hsz.
  pose proof TRAPFRAME_eq as HT. pose proof VASPAN_eq as HV.
  split; [by rewrite (assoc_L (++))|..].
  - intros f Hf. eapply agree_trans; [apply Hag; set_solver|auto].
  - intros p Hp1 Hp2 Hp3. destruct (Hapt p Hp1 Hp2 Hp3) as [Ha Hg]. destruct (Hap p Ha). split; [done|]. by eapply agree_trans.
  - intros va Hva. pose proof (length_app f0 fn) as Hla. rewrite (assoc_L (++)), (length_app (f0 ++ fn)). simpl length. intros Hn'. rewrite Hpte by done.
    case_range; [lia|]. apply Hpto; [done|lia].
  - intros i f Hi. apply lookup_lt_Some in Hi as Hlt. rewrite length_app in Hlt. cbn [length] in Hlt.
    rewrite Hpte by lia. rewrite length_app. destruct (decide (i < length fn)%nat) as [Hl|Hl].
    + rewrite lookup_app_l in Hi by done. case_range; [lia|]. by apply Hus.
    + rewrite lookup_app_r in Hi by lia. assert (i = length fn) as -> by lia. rewrite Nat.sub_diag in Hi. injection Hi as <-.
      case_range; [done|lia].
  - auto.
  - intros p Hp. rewrite elem_of_app, list_elem_of_singleton.
    destruct (Hcons p Hp) as [[->|Hin]%elem_of_cons|[|]]; [tauto| |tauto|auto].
    destruct (Hc p Hin); tauto.
  - rewrite Forall_forall in Hz. apply Forall_app. split; [apply Forall_forall|apply Forall_singleton].
    + intros f Hf. eapply zero_page_agree; [apply Hag; set_solver|auto].
    + by eapply zero_page_agree.
  - intros p [Hp| ->%list_elem_of_singleton]%elem_of_app; auto.
  - done.
Qed.

(** A page that could not be mapped goes back to the free list. *)
Lemma growing_failed m0 l0 s q l pt f0 fn s4 :
  growing m0 l0 s (q :: l) pt f0 fn -> add_failed s q l pt (f0 ++ fn) s4 -> growing m0 l0 s4 [q] pt f0 fn.
Proof.
  intros [Hsp Hold Hapt Hpto Hus Hown Hcons Hz Hfr Hno] [Hsp4 Hp4 Hap4 Hc4 _ Ho4].
  assert (Hag : forall f, f ∈ f0 ++ fn -> agree (p_mem s4) (p_mem s) f 4096).
  { intros f Hf. by apply Hap4, (uspace_apart _ _ _ _ _ Hsp). }
  pose proof (sp_size _ _ _ _ Hsp) as Hsz. rewrite length_app in Hsz. pose proof TRAPFRAME_eq as HT. pose proof VASPAN_eq as HV.
  split; try done.
  - intros f Hf. eapply agree_trans; [apply Hag; set_solver|auto].
  - intros p Hp1 Hp2 Hp3. destruct (Hapt p Hp1 Hp2 Hp3) as [Ha Hg]. destruct (Hap4 p Ha). split; [done|]. by eapply agree_trans.
  - intros va Hva Hr. rewrite Hp4 by done. auto.
  - intros i f Hi. apply lookup_lt_Some in Hi as Hlt. rewrite Hp4 by lia. auto.
  - auto.
  - intros p Hp. rewrite list_elem_of_singleton. destruct (Hcons p Hp) as [[->|Hin]%elem_of_cons|[|]]; auto.
  - rewrite Forall_forall in Hz |- *. intros f Hf. eapply zero_page_agree; [apply Hag; set_solver|auto].
Qed.

(** Both failures end in [uvmdealloc]. *)
Lemma growing_undo m0 l0 s l pt f0 fn newsz :
  growing m0 l0 s l pt f0 fn -> Z.of_nat (length l0) * 4096 <= 3 * (newsz + 4095 - Z.of_nat (length f0) * 4096) ->
  exists s', (uvmdealloc kend pt (Z.of_nat (length (f0 ++ fn)) * 4096)
               (Z.of_nat (length f0) * 4096) ;; ret 0) s = Ok 0 s' /\
    grown m0 l0 pt f0 newsz 0 s'.
Proof.
  intros [Hsp Hold Hapt Hpto Hus Hown Hcons Hz Hfr Hno] Hfew.
  destruct (uvmalloc_undo s l pt f0 fn Hsp) as (s' & E & Hs' & Ho & Hh & Ha).
  erewrite bind_Ok by exact E. exists s'. split; [done|]. exists (rev fn ++ l), [].
  split; [|by right]. rewrite length_app in Hpto. pose proof (sp_size _ _ _ _ Hsp) as Hsz. pose proof TRAPFRAME_eq as HT. pose proof VASPAN_eq as HV.
  rewrite length_app in Hsz.
  split; rewrite ?app_nil_r; try done.
  - intros f Hin. eapply agree_trans; [|by apply Hold]. apply Ha.
    + eapply uspace_apart; [done|]. set_solver.
    + intros Hf. apply sp_nodup in Hsp. apply NoDup_app in Hsp as (_ & Hd & _). by apply (Hd f).
  - intros p Hp1 Hp2 Hp3. destruct (Hapt p Hp1 Hp2 Hp3) as [Hp4 Hp5]. destruct (Ha p Hp4) as [? ?].
    + intros Hin. by apply Hp2, Hfr.
    + split; [done|]. by eapply agree_trans.
  - intros va Hva _. rewrite Hh by done. case_range; [|apply Hpto; [done|lia]]. symmetry. apply Hno. lia.
  - intros p Hp. rewrite Ho. auto.
  - intros p Hp. rewrite elem_of_app, elem_of_rev, Ho. destruct (Hcons p Hp) as [|[|]]; tauto.
  - set_solver.
Qed.

(** There are fewer pages than user addresses. *)
Lemma pages_bound frames : NoDup frames -> Forall (page_ok kend) frames -> Z.of_nat (length frames) * 4096 <= PHYSTOP.
Proof.
  intros Hnd Hall. rewrite Forall_forall in Hall.
  set (g := fun p : Z => p / 4096). set (gs := g <$> frames).
  assert (H : (length gs <= length (seqZ 0 (PHYSTOP / 4096)))%nat).
  { apply submseteq_length, NoDup_submseteq.
    - apply NoDup_fmap_2_strong; [|done]. intros x y Hx Hy E. destruct (Hall x Hx) as [Hax _], (Hall y Hy) as [Hay _].
      unfold aligned, PGSIZE, g in *. Z.div_mod_to_equations; lia.
    - intros y (x & -> & Hx)%list_elem_of_fmap. apply elem_of_seqZ. destruct (Hall x Hx) as [Ha Hb].
      unfold aligned, PGSIZE, PHYSTOP, KERNBASE, g in *. Z.div_mod_to_equations; lia. }
  unfold gs in H. rewrite length_fmap, length_seqZ in H. unfold PHYSTOP, KERNBASE in *. Z.div_mod_to_equations; lia.
Qed.

Lemma uvmalloc_loop_run fuel m0 l0 s l pt f0 fn newsz :
  growing m0 l0 s l pt f0 fn -> Z.of_nat (length l0) <= Z.of_nat (length l) + 3 * Z.of_nat (length fn) ->
  0 <= newsz < 18446744073709551616 -> Z.of_nat (length (f0 ++ fn)) * 4096 < newsz + 4096 ->
  (newsz + 4095) / 4096 - Z.of_nat (length (f0 ++ fn)) < Z.of_nat fuel ->
  exists r s', uvmalloc_loop kend fuel pt (Z.of_nat (length f0) * 4096)
      (Z.of_nat (length (f0 ++ fn)) * 4096) newsz s = Ok r s' /\
    grown m0 l0 pt f0 newsz r s'.
Proof.
  revert s l fn. induction fuel as [|fuel IH]; intros s l fn Hgr Hcnt Hmax Hlen Hf;
    [Z.div_mod_to_equations; lia|].
  cbn [uvmalloc_loop]. pose proof (gr_space _ _ _ _ _ _ _ Hgr) as Hsp. pose proof TRAPFRAME_eq as HT.
  pose proof (pages_bound _ (sp_nodup _ _ _ _ Hsp) (sp_page _ _ _ _ Hsp)) as Hpb. unfold PHYSTOP, KERNBASE in Hpb.
  destruct (Z.ltb_spec (Z.of_nat (length (f0 ++ fn)) * 4096) newsz) as [Hlt|Hge].
  2: { exists newsz, s. split; [done|]. exists l, fn. split; [done|]. left.
       split; [done|]. split; [pose proof (sp_size _ _ _ _ Hsp); lia|]. split; [|done]. rewrite PGROUNDUP_eq by lia. Z.div_mod_to_equations; lia. }
  assert (Hneed : Z.of_nat (length fn) * 4096 + 4096 <= newsz + 4095 - Z.of_nat (length f0) * 4096).
  { rewrite length_app, Nat2Z.inj_add in Hlt. lia. }
  destruct l as [|q l].
  { erewrite bind_Ok by (apply (kalloc_run_nil kend), Hsp). cbn [Z.eqb].
    edestruct growing_undo as (s' & E & Hg); [done| |exists 0, s'; by split]. cbn in Hcnt. lia. }
  destruct (add_page s q l pt (f0 ++ fn) upage_perm Hsp) as (s1 & E1 & Hq & _ & Hadd); [lia|done..|].
  erewrite bind_Ok by exact E1. destruct (Z.eqb_spec q 0); [lia|]. erewrite bind_Ok by reflexivity.
  destruct (Hadd (mem_fill (p_mem s1) q PGSIZE 0)) as (r & s3 & E3 & Hr).
  { intros x Hx. unfold mem_fill, PGSIZE. case_range; [lia|done]. }
  fold upage_perm. erewrite bind_Ok by exact E3. cbn [length] in Hcnt.
  destruct Hr as [(-> & l3 & Had)|(-> & s4 & E4 & Hfail)].
  - pose proof (ad_count _ _ _ _ _ _ _ _ _ Had) as Hc3. apply (growing_added m0 l0 _ _ _ _ f0 fn) in Had; [|done|].
    2: { intros x Hx. unfold mem_fill, PGSIZE. case_range; [done|lia]. }
    assert (Hal : Z.of_nat (length (f0 ++ fn)) * 4096 + PGSIZE =
                  Z.of_nat (length (f0 ++ fn ++ [q])) * 4096).
    { rewrite (assoc_L (++)), (length_app (f0 ++ fn)). unfold PGSIZE. simpl. lia. }
    simpl negb. cbv iota. unfold PGSIZE in Hal.
    unfold PGSIZE. rewrite Hal, u64_small by lia. apply (IH s3 l3 (fn ++ [q])); [done| |done|lia|].
    + rewrite length_app. cbn [length]. lia.
    + rewrite (assoc_L (++)), (length_app (f0 ++ fn)). simpl length. lia.
  - change (negb (-1 =? 0)) with true. cbv iota. erewrite bind_Ok by exact E4.
    pose proof (af_count _ _ _ _ _ _ Hfail) as Hc4.
    edestruct (growing_undo m0 l0 s4 [q]) as (s' & E & Hg); [by eapply growing_failed| |exists 0, s'; by split]. lia.
Qed.

(** [uvmalloc] on a space of [length f0] pages of which the last one may be
    partly used. *)
Lemma uvmalloc_run s l pt f0 oldsz newsz :
  uspace s l pt f0 -> 0 <= oldsz -> PGROUNDUP oldsz = Z.of_nat (length f0) * 4096 ->
  oldsz <= TRAPFRAME -> oldsz <= newsz < 18446744073709551616 ->
  exists r s', uvmalloc kend pt oldsz newsz s = Ok r s' /\ grown (p_mem s) l pt f0 newsz r s'.
Proof.
  intros Hsp Ho Hr Hot Hn. unfold uvmalloc. rewrite TRAPFRAME_eq in Hot.
  destruct (Z.ltb_spec newsz oldsz); [lia|]. rewrite Hr.
  pose proof (PGROUNDUP_bounds oldsz ltac:(lia)) as Hb.
  pose proof (uvmalloc_loop_run (S (S (Z.to_nat ((newsz - Z.of_nat (length f0) * 4096) / PGSIZE))))
    (p_mem s) l s l pt f0 [] newsz) as Hrun.
  rewrite app_nil_r in Hrun. apply Hrun.
  - by apply growing_start.
  - simpl. lia.
  - lia.
  - lia.
  - unfold PGSIZE. Z.div_mod_to_equations; lia.
Qed.
End vm_space.
