(* ===== verification/VmFree.v ===== *)
(** * Freeing page tables

    [freewalk] and [uvmfree]: every page of a table whose leaf entries have
    been unmapped goes back to the free list exactly once.  The recursion is
    followed on subtrees ([tree m p d]: the table pages reached from [p] by
    fewer than [d] entries). *)

From S2P Require Import Prelude Memory Riscv Kalloc Vm PageTable VmProofs VmSpace.

#[local] Set Warnings "-clear-no-such-hyp".

Section vm_free.
Variable kend : Z.
Hypothesis kend_pos : 0 < kend.

Definition sub (m : mem) (p : Z) (d : nat) (x : Z) : Prop :=
  exists path, (length path < d)%nat /\ Forall idx_ok path /\ node m p path = Some x.

Record tree (m : mem) (p : Z) (d : nat) : Prop := {
  tr_page x : sub m p d x -> page_ok kend x;
  tr_inj path1 path2 x :
    (length path1 < d)%nat -> (length path2 < d)%nat -> Forall idx_ok path1 -> Forall idx_ok path2 ->
    node m p path1 = Some x -> node m p path2 = Some x -> path1 = path2;
  tr_ptr path i x :
    (S (length path) < d)%nat -> Forall idx_ok path -> idx_ok i -> node m p path = Some x ->
    has (load64 m (x + 8 * i)) PTE_V = true -> Z.land (load64 m (x + 8 * i)) RWX = 0;
  tr_leaf path : length path = d -> Forall idx_ok path -> node m p path = None
}.

(** ** Subtrees *)

Lemma sub_self m p d : sub m p (S d) p.
Proof. exists []. split; [simpl; lia|]. split; [constructor|done]. Qed.

Lemma node_sub_frame m m' p d path :
  (forall x, sub m p d x -> agree m' m x 4096) ->
  (length path <= d)%nat -> Forall idx_ok path -> node m' p path = node m p path.
Proof.
  intros Hag. induction path as [|i path IH] using rev_ind; intros Hl Hok; [done|].
  rewrite length_app in Hl. simpl in Hl. apply Forall_app in Hok as [Hok Hi].
  apply Forall_inv in Hi. unfold idx_ok in Hi. rewrite !node_snoc, IH by (done || lia).
  destruct (node m p path) as [x|] eqn:E; [|done].
  rewrite (load64_agree m' m); [done|].
  eapply agree_sub; [apply Hag; exists path; split; [lia|done]|lia|lia].
Qed.

Lemma sub_frame m m' p d x :
  (forall x, sub m p d x -> agree m' m x 4096) -> sub m' p d x <-> sub m p d x.
Proof.
  intros Hag. split; intros (path & Hl & Hok & E); exists path; (do 2 (split; [done|])).
  - by rewrite (node_sub_frame m m' p d) in E by (done || lia).
  - by rewrite (node_sub_frame m m' p d) by (done || lia).
Qed.

Lemma tree_frame m m' p d :
  (forall x, sub m p d x -> agree m' m x 4096) -> tree m p d -> tree m' p d.
Proof.
  intros Hag [Hpg Hinj Hptr Hleaf]. split.
  - intros x Hx. apply Hpg. by apply (sub_frame m m').
  - intros path1 path2 x H1 H2 Hk1 Hk2.
    rewrite !(node_sub_frame m m' p d) by (done || lia). by apply Hinj.
  - intros path i x Hl Hok Hi. rewrite (node_sub_frame m m' p d) by (done || lia). intros E.
    unfold idx_ok in Hi. rewrite (load64_agree m' m); [by apply (Hptr path)|].
    eapply agree_sub; [apply Hag; exists path; split; [lia|done]|lia|lia].
  - intros path Hl Hok. rewrite (node_sub_frame m m' p d) by (done || lia). auto.
Qed.

(** The child behind the entry [i] of [p], if there is one. *)
Definition child (m : mem) (p i : Z) : option Z :=
  let v := load64 m (p + 8 * i) in if has v PTE_V then Some (PTE2PA v) else None.

Lemma node_cons m p i path :
  node m p (i :: path) = match child m p i with Some c => node m c path | None => None end.
Proof. unfold child. simpl. by destruct (has _ _). Qed.

Lemma sub_child m p d i c x : idx_ok i -> child m p i = Some c -> sub m c d x -> sub m p (S d) x.
Proof.
  intros Hi Hc (path & Hl & Hok & E). exists (i :: path). split; [simpl; lia|].
  split; [by constructor|]. by rewrite node_cons, Hc.
Qed.

Lemma sub_inv m p d x :
  sub m p (S d) x -> x = p \/ exists i c, idx_ok i /\ child m p i = Some c /\ sub m c d x.
Proof.
  intros ([|i path] & Hl & Hok & E); [left; simpl in E; congruence|]. right.
  apply Forall_cons in Hok as [Hi Hok]. rewrite node_cons in E.
  destruct (child m p i) as [c|] eqn:Hc; [|done]. exists i, c. do 2 (split; [done|]).
  exists path. split; [simpl in Hl; lia|done].
Qed.

Lemma tree_child m p d i c : tree m p (S d) -> idx_ok i -> child m p i = Some c -> tree m c d.
Proof.
  intros [Hpg Hinj Hptr Hleaf] Hi Hc. split.
  - intros x Hx. apply Hpg. by eapply sub_child.
  - intros path1 path2 x H1 H2 Hk1 Hk2 E1 E2. specialize (Hinj (i :: path1) (i :: path2) x).
    rewrite !node_cons, Hc in Hinj. simpl in Hinj.
    assert (i :: path1 = i :: path2) by (apply Hinj; try done; try lia; by constructor).
    by simplify_eq.
  - intros path j x Hl Hok Hj E. apply (Hptr (i :: path)); [simpl; lia|by constructor|done|].
    by rewrite node_cons, Hc.
  - intros path Hl Hok. specialize (Hleaf (i :: path)). rewrite node_cons, Hc in Hleaf.
    apply Hleaf; [simpl; lia|by constructor].
Qed.

Lemma sub_siblings m p d i j c c' x :
  tree m p (S d) -> idx_ok i -> idx_ok j -> child m p i = Some c -> child m p j = Some c' ->
  sub m c d x -> sub m c' d x -> i = j.
Proof.
  intros [_ Hinj _ _] Hi Hj Hc Hc' (p1 & H1 & Hk1 & E1) (p2 & H2 & Hk2 & E2).
  specialize (Hinj (i :: p1) (j :: p2) x). rewrite !node_cons, Hc, Hc' in Hinj. simpl in Hinj.
  assert (i :: p1 = j :: p2) by (apply Hinj; try done; try lia; by constructor). by simplify_eq.
Qed.

Lemma sub_not_root m p d i c : tree m p (S d) -> idx_ok i -> child m p i = Some c -> ~ sub m c d p.
Proof.
  intros [_ Hinj _ _] Hi Hc (path & Hl & Hok & E).
  specialize (Hinj (i :: path) [] p). rewrite node_cons, Hc in Hinj. simpl in Hinj.
  assert (i :: path = []) by (apply Hinj; try done; try lia; by constructor). done.
Qed.

(** ** [freewalk] *)

(** The pages below the entries of [p] before [i]. *)
Definition below (m : mem) (p i : Z) (d : nat) (x : Z) : Prop :=
  exists j c, 0 <= j < i /\ child m p j = Some c /\ sub m c d x.

Record walking (m0 : mem) (l0 : list Z) (p i : Z) (d : nat) (s : phys) (l : list Z) : Prop := {
  fw_kmem : kmem_inv kend s l;
  fw_list x : x ∈ l <-> x ∈ l0 \/ below m0 p i d x;
  fw_frame : frame (p_mem s) m0 (fun y => p <= y < p + 4096 \/
    exists x, below m0 p i d x /\ x <= y < x + 4096);
  fw_rest j : i <= j < 512 -> load64 (p_mem s) (p + 8 * j) = load64 m0 (p + 8 * j)
}.

Definition freed (m0 : mem) (l0 : list Z) (p : Z) (d : nat) (s' : phys) (l' : list Z) : Prop :=
  kmem_inv kend s' l' /\ (forall x, x ∈ l' <-> x ∈ l0 \/ sub m0 p d x) /\
  frame (p_mem s') m0 (fun y => exists x, sub m0 p d x /\ x <= y < x + 4096).

Lemma below_S m p i d x :
  0 <= i -> below m p (i + 1) d x <->
  below m p i d x \/ exists c, child m p i = Some c /\ sub m c d x.
Proof.
  intros Hi. split.
  - intros (j & c & Hj & Hc & Hs). destruct (decide (j = i)) as [->|]; [eauto|].
    left. exists j, c. split; [lia|done].
  - intros [(j & c & Hj & Hc & Hs)|(c & Hc & Hs)]; [exists j, c|exists i, c]; (split; [lia|done]).
Qed.

(** An empty entry is skipped. *)
Lemma walking_skip m0 l0 p i d s l :
  0 <= i -> child m0 p i = None -> walking m0 l0 p i d s l -> walking m0 l0 p (i + 1) d s l.
Proof.
  intros Hi Hc [Hk Hl Hf Hr].
  assert (Hb : forall x, below m0 p (i + 1) d x <-> below m0 p i d x).
  { intros x. rewrite below_S, Hc by done. split; [intros [|(? & ? & _)]; done|auto]. }
  split; [done|..].
  - intros x. by rewrite Hb.
  - intros y Hy. apply Hf. intros [|(x & Hx & Hr')]; apply Hy; [auto|].
    right. exists x. by rewrite Hb.
  - intros j Hj. apply Hr. lia.
Qed.

(** The pages that are still to be freed keep their content. *)
Lemma walking_agree m0 l0 p i d s l c x :
  tree m0 p (S d) -> idx_ok i -> child m0 p i = Some c -> walking m0 l0 p i d s l ->
  sub m0 c d x -> agree (p_mem s) m0 x 4096.
Proof.
  intros Ht Hi Hc Hw Hx y Hy. apply (fw_frame _ _ _ _ _ _ _ Hw).
  assert (page_ok kend x) as [Hax _] by (eapply tr_page; [done|]; by eapply sub_child).
  intros [Hp|(z & (j & c' & Hj & Hc' & Hz) & Hr)].
  - assert (page_ok kend p) as [Hap _] by (eapply tr_page; [done|apply sub_self]).
    destruct (decide (x = p)) as [->|]; [by eapply sub_not_root|].
    destruct (pages_disjoint x p); try done; lia.
  - assert (page_ok kend z) as [Haz _].
    { eapply tr_page; [done|]. eapply sub_child; [|done|done]. unfold idx_ok in *. lia. }
    destruct (decide (x = z)) as [->|].
    + assert (i = j); [|lia]. eapply (sub_siblings m0 p d i j c c' z); try done. unfold idx_ok in *. lia.
    + destruct (pages_disjoint x z); try done; lia.
Qed.

(** One freed child and the cleared entry. *)
Lemma walking_step m0 l0 p i d s l c s1 l1 :
  tree m0 p (S d) -> idx_ok i -> child m0 p i = Some c -> p ∉ l0 ->
  walking m0 l0 p i d s l -> freed (p_mem s) l c d s1 l1 ->
  (forall x, sub (p_mem s) c d x <-> sub m0 c d x) ->
  walking m0 l0 p (i + 1) d (mkphys (store64 (p_mem s1) (p + 8 * i) 0) (freelist s1)) l1.
Proof.
  intros Ht Hi Hc Hp0 [Hk Hl Hf Hr] (Hk1 & Hl1 & Hf1) Hs. unfold idx_ok in Hi.
  assert (page_ok kend p) as [Hap _] by (eapply tr_page; [done|apply sub_self]).
  assert (Hfr : frame (store64 (p_mem s1) (p + 8 * i) 0) (p_mem s1) (fun x => p + 8 * i <= x < p + 8 * i + 8)).
  { intros x Hx. unfold store64, mem_write. rewrite length_le_bytes. case_range; [lia|done]. }
  assert (Hpl : p ∉ l1).
  { rewrite Hl1, Hl. intros [[|(j & c' & Hj & Hc' & Hp)]|Hp%Hs]; [done| |by eapply sub_not_root].
    eapply (sub_not_root m0 p d j); [done| |done|done]. unfold idx_ok. lia. }
  split; cbn [p_mem].
  - destruct Hk1 as (Hfl & Hnd & Hall). split; [|done]. cbn [p_mem freelist].
    eapply (free_list_other_page kend); [done|exact Hap|done| |done].
    intros x Hx. apply Hfr. lia.
  - intros x. rewrite Hl1, Hl, below_S, Hs by lia. split; [|intros [|[|(c' & Hc' & ?)]]]; try tauto.
    + intros [|]; [tauto|]. right. right. eauto.
    + rewrite Hc in Hc'. simplify_eq. tauto.
  - intros y Hy. rewrite Hfr, Hf1, Hf; [done|..].
    + intros [|(x & Hx & Hr')]; apply Hy; [auto|]. right. exists x. rewrite below_S by lia. auto.
    + intros (x & Hx%Hs & Hr'). apply Hy. right. exists x. rewrite below_S by lia. eauto.
    + intros Hr'. apply Hy. left. lia.
  - intros j Hj. rewrite load64_store64_other by lia. rewrite <- Hr by lia. apply load64_agree.
    intros y Hy. apply Hf1. intros (x & Hx%Hs & Hr').
    assert (page_ok kend x) as [Hax _] by (eapply tr_page; [done|]; by eapply sub_child).
    destruct (decide (x = p)) as [->|]; [by eapply sub_not_root|].
    destruct (pages_disjoint x p); try done; lia.
Qed.

Lemma walking_done m0 l0 p d s l :
  tree m0 p (S d) -> p ∉ l0 -> walking m0 l0 p 512 d s l ->
  exists s', kfree kend p s = Ok tt s' /\ freed m0 l0 p (S d) s' (p :: l).
Proof.
  intros Ht Hp0 [Hk Hl Hf _].
  assert (Hp : page_ok kend p) by (eapply tr_page; [done|apply sub_self]).
  assert (Hpl : p ∉ l).
  { rewrite Hl. intros [|(j & c & Hj & Hc & Hs)]; [done|]. by eapply (sub_not_root m0 p d j). }
  destruct (kfree_run kend kend_pos s l p Hk Hp Hpl) as (s' & E & Hk' & Hf').
  exists s'. split; [done|]. split; [done|]. split.
  - intros x. rewrite elem_of_cons, Hl. split.
    + intros [->|[|(j & c & Hj & Hc & Hs)]]; [right; apply sub_self|tauto|].
      right. by eapply sub_child.
    + intros [|[->|(j & c & Hj & Hc & Hs)]%sub_inv]; [tauto|tauto|].
      right. right. by exists j, c.
  - intros y Hy. rewrite Hf', Hf; [done|..].
    + intros [|(x & (j & c & Hj & Hc & Hs) & Hr)]; apply Hy; [exists p; split; [apply sub_self|done]|].
      exists x. split; [by eapply sub_child|done].
    + intros Hr. apply Hy. exists p. split; [apply sub_self|done].
Qed.

Lemma freewalk_run d p s l :
  kmem_inv kend s l -> tree (p_mem s) p d -> (forall x, sub (p_mem s) p d x -> x ∉ l) ->
  exists s' l', freewalk kend d p s = Ok tt s' /\ freed (p_mem s) l p d s' l'.
Proof.
  revert p s l. induction d as [|d IH]; intros p s l Hk Ht Hsep.
  { pose proof (tr_leaf _ _ _ Ht [] eq_refl (Forall_nil_2 _)). done. }
  cbn [freewalk].
  match goal with |- context [for_up 512 0 ?b] => set (body := b) end.
  assert (Hloop : triple (fun t => exists l', walking (p_mem s) l p 0 d t l') (for_up 512 0 body)
            (fun _ t => exists l', walking (p_mem s) l p 512 d t l')).
  { apply (triple_for_up (fun i t => exists l', walking (p_mem s) l p i d t l')).
    intros i Hi t (lt & Hw). unfold body, load_pte.
    erewrite bind_Ok by reflexivity. rewrite (fw_rest _ _ _ _ _ _ _ Hw) by lia.
    destruct (child (p_mem s) p i) as [c|] eqn:Hc.
    2: { pose proof Hc as Hc'. unfold child in Hc'. destruct (has _ _); [done|]. simpl.
         exists tt, t. split; [done|]. exists lt. apply walking_skip; [lia|done|done]. }
    pose proof Hc as Hc'. unfold child in Hc'. destruct (has _ _) eqn:Hv; [|done].
    cbv zeta in Hc'. injection Hc' as Hc'. rewrite Hc'.
    assert (Hag : forall x, sub (p_mem s) c d x -> agree (p_mem t) (p_mem s) x 4096)
      by (intros x Hx; by eapply walking_agree).
    assert (Hd : (0 < d)%nat).
    { destruct d; [|lia]. pose proof (tr_leaf _ _ _ Ht [i] eq_refl ltac:(by constructor)) as Hn.
      rewrite node_cons, Hc in Hn. done. }
    fold RWX. rewrite (tr_ptr _ _ _ Ht [] i p) by (done || (simpl; lia)).
    destruct (IH c t lt) as (s1 & l1 & E1 & Hfr).
    - apply Hw.
    - eapply tree_frame; [exact Hag|]. by eapply tree_child.
    - intros x Hx%(sub_frame _ _ _ _ _ Hag). rewrite (fw_list _ _ _ _ _ _ _ Hw).
      intros [Hin|(j & c' & Hj & Hc'' & Hx')]; [eapply Hsep; [|done]; by eapply sub_child|].
      assert (i = j); [|lia]. eapply (sub_siblings (p_mem s) p d i j c c' x); try done; unfold idx_ok; lia.
    - change (true && (0 =? 0)) with true. cbv iota.
      erewrite bind_Ok by exact E1. eexists _, _. split; [reflexivity|]. exists l1.
      eapply walking_step; try done.
      + apply Hsep, sub_self.
      + intros x. by apply sub_frame. }
  destruct (Hloop s) as ([] & s1 & E1 & l1 & Hw).
  { exists l. split; [done|..|done|done]. intros x. split; [tauto|].
    intros [|(j & c & Hj & _)]; [done|lia]. }
  erewrite bind_Ok by exact E1.
  edestruct walking_done as (s' & E & Hfr); [done|apply Hsep, sub_self|done|]. eauto.
Qed.

(** ** [uvmfree] *)

Lemma sub_owns m pt x : sub m pt 3 x <-> owns m pt x.
Proof.
  split; intros (path & H); exists path.
  - destruct H as (Hl & Hok & E). split; [|done]. split; [lia|done].
  - destruct H as ((Hl & Hok) & E). split; [lia|done].
Qed.

(** The address with given indices. *)
Lemma PX_indices a b c :
  idx_ok a -> idx_ok b -> idx_ok c ->
  let va := a * 1073741824 + b * 2097152 + c * 4096 in
  0 <= va < VASPAN /\ PX 2 va = a /\ PX 1 va = b /\ PX 0 va = c.
Proof.
  unfold idx_ok. intros Ha Hb Hc. cbv zeta. rewrite VASPAN_eq, !PX_eq by lia.
  change (2 ^ (12 + 9 * 2)) with 1073741824. change (2 ^ (12 + 9 * 1)) with 2097152.
  change (2 ^ (12 + 9 * 0)) with 4096. Z.div_mod_to_equations. lia.
Qed.

Lemma tree_of_wf m pt :
  pt_wf kend m pt -> (forall va, 0 <= va < VASPAN -> pte_at m pt va = None) -> tree m pt 3.
Proof.
  intros [Hpg Hinj Hptr] Hnone. split.
  - intros x Hx. by apply Hpg, sub_owns.
  - intros path1 path2 x H1 H2 Hk1 Hk2. apply Hinj; (split; [lia|done]).
  - intros path i x Hl Hok Hi E. apply (Hptr path); [|done].
    apply path_ok_snoc; [lia|split; [lia|done]|done].
  - intros path Hl Hok. destruct path as [|a [|b [|c [|]]]]; try done.
    apply Forall_cons in Hok as [Ha Hok]. apply Forall_cons in Hok as [Hb Hok].
    apply Forall_cons in Hok as [Hc _].
    destruct (PX_indices a b c Ha Hb Hc) as (Hva & E2 & E1 & E0).
    specialize (Hnone _ Hva). unfold pte_at, slot, vapath in Hnone. rewrite E2, E1, E0 in Hnone.
    change [a; b; c] with ([a; b] ++ [c]). rewrite node_snoc.
    destruct (node m pt [a; b]); [|done]. cbv zeta in *. by destruct (has _ _).
Qed.

(** Every page of the address space, frames and table, goes back to the free
    list; no other page changes. *)
Lemma uvmfree_run s l pt frames sz :
  uspace kend s l pt frames ->
  (forall va, TRAPFRAME <= va < VASPAN -> pte_at (p_mem s) pt va = None) ->
  0 <= sz <= TRAPFRAME -> PGROUNDUP sz = Z.of_nat (length frames) * 4096 ->
  exists s' l', uvmfree kend pt sz s = Ok tt s' /\ kmem_inv kend s' l' /\
    (forall x, x ∈ l' <-> x ∈ l \/ x ∈ frames \/ owns (p_mem s) pt x) /\
    (forall p, apart s l pt p -> p ∉ frames -> agree (p_mem s') (p_mem s) p 4096).
Proof.
  intros Hsp Hhigh Hsz Hr. pose proof TRAPFRAME_eq as HT.
  assert (exists s1, (if 0 <? sz then uvmunmap kend pt 0 (PGROUNDUP sz / PGSIZE) true else ret tt) s =
            Ok tt s1 /\ uspace kend s1 (rev frames ++ l) pt [] /\
            (forall p, owns (p_mem s1) pt p <-> owns (p_mem s) pt p) /\
            (forall va, TRAPFRAME <= va < VASPAN -> pte_at (p_mem s1) pt va = pte_at (p_mem s) pt va) /\
            (forall p, apart s l pt p -> p ∉ frames -> agree (p_mem s1) (p_mem s) p 4096))
    as (s1 & E1 & Hsp1 & Ho1 & Hh1 & Ha1).
  { destruct (Z.ltb_spec 0 sz).
    - rewrite Hr. unfold PGSIZE. rewrite Z.div_mul by lia.
      destruct (uspace_unmap kend kend_pos s l pt [] frames Hsp) as (s1 & E & ? & ? & Hp1 & Ha1).
      exists s1. do 3 (split; [done|]). split; [|intros p Hp1' Hp2'; by apply Ha1].
      intros va Hva. rewrite Hp1 by lia. pose proof (sp_size _ _ _ _ _ Hsp). case_range; [simpl in *; lia|done].
    - assert (sz = 0) as -> by lia. change (PGROUNDUP 0) with 0 in Hr.
      destruct frames; [|simpl in Hr; lia]. by exists s. }
  unfold uvmfree. erewrite bind_Ok by exact E1. destruct Hsp1 as [Hi1 _ Hn1 _ _ _ _].
  destruct (freewalk_run 3 pt s1 (rev frames ++ l)) as (s' & l' & E & Hk & Hl & Hf).
  - apply Hi1.
  - apply tree_of_wf; [apply Hi1|]. intros va Hva. destruct (decide (va < TRAPFRAME)).
    + apply Hn1. simpl. lia.
    + rewrite Hh1 by lia. apply Hhigh. lia.
  - intros x Hx%sub_owns. by apply (vi_sep _ _ _ _ Hi1).
  - exists s', l'. split; [done|]. split; [done|]. split.
    + intros x. rewrite Hl, elem_of_app, elem_of_rev, sub_owns, Ho1. tauto.
    + intros p Hp Hpf. eapply agree_trans; [|by apply Ha1]. intros x Hx. apply Hf. intros (q & Hq%sub_owns & Hxr).
      destruct Hp as (Hal & _ & Hno). assert (page_ok kend q) as [Haq _] by (eapply wf_page; [apply Hi1|done]).
      apply Ho1 in Hq. destruct (decide (p = q)) as [->|Hne]; [done|]. destruct (pages_disjoint p q); try done; lia.
Qed.
End vm_free.
