(* ===== verification/VmFork.v ===== *)
(** * Copying an address space

    [uvmcopy], the memory half of [fork]: the child gets its own copy of every
    page of the parent with the same contents and permissions, or nothing at
    all when memory runs out; the parent's pages are not touched. *)

From S2P Require Import Prelude Memory Riscv Kalloc Vm PageTable VmProofs VmCopy VmSpace.

#[local] Set Warnings "-clear-no-such-hyp".

Section vm_fork.
Variable kend : Z.
Hypothesis kend_pos : 0 < kend.

(** Reading a mapped entry through [walk]. *)
Lemma walk_mapped s l pt va v :
  vm_inv kend s l pt -> 0 <= va < MAXVA -> pte_at (p_mem s) pt va = Some v ->
  exists sl, walk pt va false s = Ok sl s /\ sl <> 0 /\ load_pte sl s = Ok v s /\ has v PTE_V = true.
Proof.
  intros Hi Hva Hp. rewrite (walk_noalloc_run kend) by (done || apply Hi).
  unfold pte_at in Hp. destruct (slot (p_mem s) pt va) as [sl|] eqn:Es; [|done]. cbv zeta in Hp.
  destruct (has _ _) eqn:Hv; simplify_eq. exists sl. split; [done|]. split; [|done].
  assert (0 < sl) by (by eapply slot_pos). lia.
Qed.

Lemma flags_valid v : has v PTE_V = true -> Z.lor (PTE_FLAGS v) PTE_V = PTE_FLAGS v.
Proof.
  unfold has, PTE_FLAGS, PTE_V. intros Hv. apply negb_true_iff, Z.eqb_neq in Hv.
  apply Z.bits_inj'. intros n Hn. rewrite Z.lor_spec, Z.land_spec.
  destruct (Z.eq_dec n 0) as [->|].
  - change (Z.testbit 1 0) with true. rewrite orb_true_r. change (Z.testbit 0x3FF 0) with true.
    rewrite andb_true_r. destruct (Z.testbit v 0) eqn:E; [done|]. destruct Hv.
    apply Z.bits_inj'. intros k Hk. rewrite Z.land_spec, Z.bits_0.
    destruct (Z.eq_dec k 0) as [->|]; [by rewrite E|].
    assert (Z.testbit 1 k = false) as -> by (apply (Z.bits_above_log2 1); simpl; lia). by rewrite andb_false_r.
  - assert (Z.testbit 1 n = false) as -> by (apply (Z.bits_above_log2 1); simpl; lia). by rewrite orb_false_r.
Qed.

Lemma pte_at_valid m pt va v : pte_at m pt va = Some v -> has v PTE_V = true.
Proof.
  unfold pte_at. destruct (slot m pt va); [|done]. cbv zeta. destruct (has _ _) eqn:E; [|done].
  intros. by simplify_eq.
Qed.

Lemma PTE_FLAGS_range v : 0 <= PTE_FLAGS v < 1024.
Proof. unfold PTE_FLAGS. change 0x3FF with (Z.ones 10). rewrite Z.land_ones by lia. apply Z.mod_pos_bound. lia. Qed.

Section copy.
(** The parent: its memory when [fork] starts, its table and its frames. *)
Variables (m0 : mem) (old : Z) (fo : list Z).
Hypothesis Hwf : pt_wf kend m0 old.
Hypothesis Hleaf : leaf_range m0 old 0 fo.
Hypothesis Hpages : Forall (page_ok kend) fo.

Definition oldpage (p : Z) : Prop := owns m0 old p \/ p ∈ fo.

Record copying (l0 : list Z) (s : phys) (l : list Z) (new : Z) (fn : list Z) : Prop := {
  cp_space : uspace kend s l new fn;
  cp_old p : oldpage p -> apart s l new p /\ (p ∉ fn) /\ agree (p_mem s) m0 p 4096;
  cp_copy i f g : fn !! i = Some f -> fo !! i = Some g ->
    forall j, 0 <= j < 4096 -> p_mem s (f + j) = m0 (g + j);
  cp_flags i v : (i < length fn)%nat -> pte_at m0 old (Z.of_nat i * 4096) = Some v ->
    exists w, pte_at (p_mem s) new (Z.of_nat i * 4096) = Some w /\ PTE_FLAGS w = PTE_FLAGS v;
  cp_conserve p : p ∈ l0 -> p ∈ l \/ p ∈ fn \/ owns (p_mem s) new p
}.

Lemma copying_old_inv l0 s l new fn : copying l0 s l new fn -> vm_inv kend s l old.
Proof.
  intros H. assert (Hag : forall p, owns m0 old p -> agree (p_mem s) m0 p 4096).
  { intros p Hp. apply (cp_old _ _ _ _ _ H). by left. }
  split; [apply (cp_space _ _ _ _ _ H)|by eapply pt_wf_frame|].
  intros p Hp. rewrite (owns_frame m0 (p_mem s)) in Hp by done.
  apply (cp_old _ _ _ _ _ H). by left.
Qed.

Lemma copying_old_pte l0 s l new fn va :
  copying l0 s l new fn -> pte_at (p_mem s) old va = pte_at m0 old va.
Proof. intros H. apply pte_at_frame. intros p Hp. apply (cp_old _ _ _ _ _ H). by left. Qed.

(** One page more. *)
Lemma copying_added l0 s q l new fn m2 perm s3 l3 g v :
  copying l0 s (q :: l) new fn -> added kend s q l new fn m2 perm s3 l3 ->
  fo !! length fn = Some g -> (forall j, 0 <= j < 4096 -> m2 (q + j) = m0 (g + j)) ->
  pte_at m0 old (Z.of_nat (length fn) * 4096) = Some v -> perm = PTE_FLAGS v ->
  copying l0 s3 l3 new (fn ++ [q]).
Proof.
  intros [Hsp Hold Hcopy Hfl Hc] [Hsp3 Hpg Hpte Hap Hc3 Ho3] Hg Hm2 Hv ->.
  pose proof (sp_size _ _ _ _ _ Hsp3) as Hsz. rewrite length_app in Hsz. simpl in Hsz.
  pose proof TRAPFRAME_eq. pose proof VASPAN_eq.
  split; [done|..].
  - intros p Hp. destruct (Hold p Hp) as (Hpa & Hpf & Hpg'). destruct (Hap p Hpa) as [Hpa' Hag].
    split; [done|]. split; [|by eapply agree_trans].
    destruct Hpa as (_ & Hpl & _). rewrite elem_of_app, list_elem_of_singleton. set_solver.
  - intros i f g' [[Hlt Hf]|[-> <-]]%lookup_snoc_Some Hg' j Hj.
    + rewrite <- (Hcopy i f g') by done.
      apply (Hap f (uspace_apart _ _ _ _ _ _ Hsp (list_elem_of_lookup_2 _ _ _ Hf))). lia.
    + simplify_eq. rewrite Hpg by lia. auto.
  - intros i w. rewrite length_app. simpl. intros Hi Hw.
    destruct (decide (i = length fn)) as [->|].
    + rewrite Hpte by lia. case_range; [|lia]. eexists. split; [done|]. simplify_eq.
      rewrite mk_pte_flags, flags_valid by (by eapply pte_at_valid).
      apply PTE_FLAGS_PA2PTE, PTE_FLAGS_range.
    + destruct (Hfl i w) as (w' & Hw' & E); [lia|done|]. exists w'. rewrite Hpte by lia.
      case_range; [lia|done].
  - intros p Hp. rewrite elem_of_app, list_elem_of_singleton.
    destruct (Hc p Hp) as [[->|Hin]%elem_of_cons|[|]]; [tauto| |tauto|auto].
    destruct (Hc3 p Hin); tauto.
Qed.

(** The error exit. *)
Lemma copying_undo l0 s l new fn :
  uspace kend s l new fn ->
  (forall p, oldpage p -> apart s l new p /\ (p ∉ fn) /\ agree (p_mem s) m0 p 4096) ->
  (forall p, p ∈ l0 -> p ∈ l \/ p ∈ fn \/ owns (p_mem s) new p) ->
  exists s' l', (uvmunmap kend new 0 (Z.of_nat (length fn) * 4096 / PGSIZE) true ;; ret (-1)) s =
             Ok (-1) s' /\ copying l0 s' l' new [].
Proof.
  intros Hsp Hold Hc. unfold PGSIZE. rewrite Z.div_mul by lia.
  destruct (uspace_unmap kend kend_pos s l new [] fn Hsp) as (s' & E & Hsp' & Ho & _ & Ha).
  erewrite bind_Ok by exact E. exists s', (rev fn ++ l). split; [done|]. split; [done|..].
  - intros p Hp. destruct (Hold p Hp) as (Hpa & Hpf & Hag). destruct (Ha p Hpa Hpf).
    split; [done|]. split; [set_solver|by eapply agree_trans].
  - done.
  - simpl. lia.
  - intros p Hp. rewrite elem_of_app, elem_of_rev, Ho. destruct (Hc p Hp) as [|[|]]; tauto.
Qed.

Lemma uvmcopy_loop_run fuel l0 s l new fn sz :
  copying l0 s l new fn -> (length fn <= length fo)%nat -> 0 <= sz <= TRAPFRAME ->
  PGROUNDUP sz = Z.of_nat (length fo) * 4096 -> (length fo - length fn < fuel)%nat ->
  exists r s' l' fn', uvmcopy_loop kend fuel old new (Z.of_nat (length fn) * 4096) sz s = Ok r s' /\
    copying l0 s' l' new fn' /\
    (r = 0 /\ length fn' = length fo \/ r = -1 /\ fn' = []).
Proof.
  revert s l fn. induction fuel as [|fuel IH]; intros s l fn Hcp Hlen Hsz Hr Hf; [lia|].
  cbn [uvmcopy_loop]. rewrite TRAPFRAME_eq in Hsz. pose proof MAXVA_eq as HM.
  pose proof (PGROUNDUP_bounds sz ltac:(lia)) as Hb.
  destruct (Z.ltb_spec (Z.of_nat (length fn) * 4096) sz) as [Hlt|Hge].
  2: { exists 0, s, l, fn. split; [done|]. split; [done|]. left. split; [done|]. lia. }
  destruct (lookup_lt_is_Some_2 fo (length fn)) as (g & Hg); [lia|].
  destruct (Hleaf (length fn) g Hg) as (v & Hv & Hvl & Hvg). rewrite Z.add_0_l in Hv.
  pose proof (copying_old_inv _ _ _ _ _ Hcp) as Hio.
  destruct (walk_mapped s l old (Z.of_nat (length fn) * 4096) v) as (sl & Ew & Hsl & Eld & Hval);
    [done|lia|by erewrite copying_old_pte|].
  erewrite bind_Ok by exact Ew. destruct (Z.eqb_spec sl 0); [done|].
  erewrite bind_Ok by exact Eld. rewrite Hval. cbn [negb]. rewrite Hvg.
  pose proof Hcp as [Hsp Hold Hcopy Hfl Hc].
  destruct l as [|q l].
  { erewrite bind_Ok by (apply (kalloc_run_nil kend), Hsp). cbn [Z.eqb].
    destruct (copying_undo l0 s [] new fn) as (s' & l' & E & Hcp'); [done..|].
    exists (-1), s', l', []. split; [done|]. split; [done|by right]. }
  destruct (add_page kend kend_pos s q l new fn (PTE_FLAGS v) Hsp) as (s1 & E1 & Hq & Hag1 & Hadd).
  { rewrite TRAPFRAME_eq. lia. }
  { apply PTE_FLAGS_range. }
  { by rewrite flags_valid. }
  erewrite bind_Ok by exact E1. destruct (Z.eqb_spec q 0); [lia|]. erewrite bind_Ok by reflexivity.
  destruct (Hadd (mem_copy (p_mem s1) q g PGSIZE)) as (r & s3 & E3 & Hr3).
  { intros x Hx. unfold mem_copy, PGSIZE. case_range; [lia|done]. }
  erewrite bind_Ok by exact E3.
  destruct Hr3 as [(-> & l3 & Had)|(-> & s4 & E4 & [Hsp4 Hp4 Hap4 Hc4 Ho4])].
  - eapply copying_added in Had; [|done|done| |done|done].
    2: { intros j Hj. unfold mem_copy, PGSIZE. case_range; [|lia].
         replace (q + j - q + g) with (g + j) by lia.
         destruct (Hold g) as (Hpa & _ & Hag); [right; by eapply list_elem_of_lookup_2|].
         rewrite (Hag1 g Hpa) by lia. apply Hag. lia. }
    change (negb (0 =? 0)) with false. cbv iota. unfold PGSIZE.
    replace (u64 (Z.of_nat (length fn) * 4096 + 4096)) with (Z.of_nat (length (fn ++ [q])) * 4096)
      by (rewrite u64_small, length_app by lia; simpl; lia).
    apply (IH s3 l3); try done; rewrite ?TRAPFRAME_eq, ?length_app; simpl; lia.
  - change (negb (-1 =? 0)) with true. cbv iota. erewrite bind_Ok by exact E4.
    destruct (copying_undo l0 s4 [q] new fn) as (s' & l' & E & Hcp'); [done|..].
    + intros p Hp. destruct (Hold p Hp) as (Hpa & Hpf & Hag). destruct (Hap4 p Hpa).
      split; [done|]. split; [done|by eapply agree_trans].
    + intros p Hp. rewrite list_elem_of_singleton.
      destruct (Hc p Hp) as [[->|Hin]%elem_of_cons|[|]]; auto.
    + exists (-1), s', l', []. split; [done|]. split; [done|by right].
Qed.

Lemma copying_old_space l0 s0 s l new fn :
  uspace kend s0 l0 old fo -> p_mem s0 = m0 -> copying l0 s l new fn -> uspace kend s l old fo.
Proof.
  intros [_ _ Hn _ Hnd Hsep Hsz] E Hcp. rewrite E in Hn, Hsep.
  split; [by eapply copying_old_inv|..|done|done| |done].
  - intros i f Hf. erewrite copying_old_pte by done. by apply Hleaf.
  - intros va Hva. erewrite copying_old_pte by done. by apply Hn.
  - intros f Hf. destruct (cp_old _ _ _ _ _ Hcp f) as ((_ & Hfl & _) & _ & _); [by right|].
    split; [done|]. rewrite (owns_frame m0 (p_mem s)); [by apply Hsep|].
    intros p Hp. apply (cp_old _ _ _ _ _ Hcp). by left.
Qed.

(** The user's view of a copied page. *)
Lemma copying_view l0 s l new fn va :
  copying l0 s l new fn -> length fn = length fo -> 0 <= va < Z.of_nat (length fo) * 4096 ->
  (user_pa (p_mem s) new va = 0 <-> user_pa m0 old va = 0) /\
  (user_pa m0 old va <> 0 -> vbyte (p_mem s) new va = vbyte m0 old va).
Proof.
  intros Hcp Hlen Hva. set (i := Z.to_nat (va / 4096)).
  assert (Hi : Z.of_nat i * 4096 <= va < Z.of_nat i * 4096 + 4096).
  { unfold i. Z.div_mod_to_equations; lia. }
  destruct (lookup_lt_is_Some_2 fo i) as (g & Hg); [lia|].
  destruct (lookup_lt_is_Some_2 fn i) as (f & Hf); [lia|].
  pose proof Hcp as [Hsp _ Hcopy Hfl _]. pose proof (sp_size _ _ _ _ _ Hsp) as Hsz.
  rewrite TRAPFRAME_eq in Hsz.
  destruct (Hleaf i g Hg) as (v & Hv & _ & Hvg). rewrite Z.add_0_l in Hv.
  destruct (sp_leaf _ _ _ _ _ Hsp i f Hf) as (w & Hw & _ & Hwpa). rewrite Z.add_0_l in Hw.
  destruct (Hfl i v) as (w' & Hw' & Efl); [lia|done|]. simplify_eq.
  assert (Eu : forall m pt, user_pa m pt va = user_pa m pt (Z.of_nat i * 4096)).
  { intros m pt. apply user_pa_page; [lia..|]. Z.div_mod_to_equations; lia. }
  assert (Hpo : PTE2PA v <> 0 /\ PTE2PA w <> 0).
  { pose proof (sp_page _ _ _ _ _ Hsp) as Hpg. rewrite Forall_forall in Hpg, Hpages.
    apply list_elem_of_lookup_2 in Hg, Hf.
    pose proof (page_ok_pos kend kend_pos _ (Hpages _ Hg)).
    pose proof (page_ok_pos kend kend_pos _ (Hpg _ Hf)). lia. }
  assert (EU : has w PTE_U = has v PTE_U).
  { unfold has. rewrite <- (land_flags w), <- (land_flags v), Efl by done. done. }
  unfold vbyte. rewrite !Eu. unfold user_pa. rewrite MAXVA_eq.
  destruct (Z.leb_spec 274877906944 (Z.of_nat i * 4096)); [lia|]. rewrite Hv, Hw, EU.
  destruct (has v PTE_U); [|done]. split; [lia|]. intros _.
  apply (Hcopy i); try done. Z.div_mod_to_equations; lia.
Qed.
End copy.

(** What [uvmcopy] leaves: the parent as it was, and a child that reads the
    same bytes through pages of its own, or an empty child. *)
Record forked (s : phys) (l : list Z) (old new : Z) (fo : list Z) (r : Z)
    (s' : phys) (l' fn : list Z) : Prop := {
  fk_old : uspace kend s' l' old fo;
  fk_new : uspace kend s' l' new fn;
  fk_disj p : p ∈ fo -> p ∉ fn;
  fk_keep p : owns (p_mem s) old p \/ p ∈ fo -> agree (p_mem s') (p_mem s) p 4096;
  fk_conserve p : p ∈ l -> p ∈ l' \/ p ∈ fn \/ owns (p_mem s') new p;
  fk_result : r = -1 /\ fn = [] \/ r = 0 /\ length fn = length fo;
  fk_view va : r = 0 -> 0 <= va < Z.of_nat (length fo) * 4096 ->
    (user_pa (p_mem s') new va = 0 <-> user_pa (p_mem s) old va = 0) /\
    (user_pa (p_mem s) old va <> 0 -> vbyte (p_mem s') new va = vbyte (p_mem s) old va)
}.

Lemma uvmcopy_run s l old new fo sz :
  uspace kend s l old fo -> uspace kend s l new [] ->
  (forall p, owns (p_mem s) old p \/ p ∈ fo -> ~ owns (p_mem s) new p) ->
  0 <= sz <= TRAPFRAME -> PGROUNDUP sz = Z.of_nat (length fo) * 4096 ->
  exists r s' l' fn, uvmcopy kend old new sz s = Ok r s' /\ forked s l old new fo r s' l' fn.
Proof.
  intros Ho Hn Hdis Hsz Hr. pose proof TRAPFRAME_eq as HT.
  pose proof Ho as [Hio Hlo _ Hpo _ Hso _].
  pose proof (PGROUNDUP_bounds sz ltac:(lia)) as Hb.
  assert (Hcp : copying (p_mem s) old fo l s l new []).
  { split; [done|..|done| |tauto].
    - intros p Hp. split; [|split; [apply not_elem_of_nil|done]]. split; [|split; [|by apply Hdis]].
      + rewrite Forall_forall in Hpo. destruct Hp as [Hp|Hp]; [eapply wf_page; [apply Hio|done]|by apply Hpo].
      + destruct Hp as [Hp|Hp]; [by apply (vi_sep _ _ _ _ Hio)|by apply Hso].
    - simpl. lia. }
  destruct (uvmcopy_loop_run (p_mem s) old fo (vi_wf _ _ _ _ Hio) Hlo Hpo
    (S (S (Z.to_nat (sz / PGSIZE)))) l s l new [] sz) as (r & s' & l' & fn & E & Hcp' & Hres);
    try done; [simpl; lia|unfold PGSIZE; simpl length; Z.div_mod_to_equations; lia|].
  exists r, s', l', fn. split; [exact E|]. split.
  - by eapply (copying_old_space (p_mem s) old fo (vi_wf _ _ _ _ Hio) Hlo Hpo l s).
  - apply (cp_space _ _ _ _ _ _ _ _ Hcp').
  - intros p Hp. apply (cp_old _ _ _ _ _ _ _ _ Hcp'). by right.
  - intros p Hp. by apply (cp_old _ _ _ _ _ _ _ _ Hcp').
  - apply (cp_conserve _ _ _ _ _ _ _ _ Hcp').
  - tauto.
  - intros va -> Hva. eapply copying_view; try done. by destruct Hres as [[_ ?]|[? _]].
Qed.
End vm_fork.
