(* ===== verification/VmSpec.v ===== *)
(** * The specification of virtual memory

    The statements about [vm.c] that its clients rely on, proved from the
    lemmas of [VmProofs], [VmCopy], [VmSpace], [VmFree] and [VmFork], with a
    run of each on a machine with sixteen free pages. *)

From S2P Require Import Prelude Memory Riscv Kalloc Vm PageTable VmProofs VmCopy VmSpace VmFree VmFork.

#[local] Set Warnings "-clear-no-such-hyp".

Section vm_spec.
Variable kend : Z.
Hypothesis kend_pos : 0 < kend.

(** Nothing above the process is accessible to the user. *)
Definition no_user_top (m : mem) (pt : Z) : Prop :=
  forall va, TRAPFRAME <= va -> user_pa m pt va = 0.

Lemma uspace_user_frame s l pt frames va :
  uspace kend s l pt frames -> no_user_top (p_mem s) pt -> 0 <= va -> user_pa (p_mem s) pt va <> 0 ->
  frames !! Z.to_nat (va / 4096) = Some (user_pa (p_mem s) pt va).
Proof.
  intros Hsp Htop Hva Hu. pose proof TRAPFRAME_eq as HT. pose proof MAXVA_eq as HM.
  destruct (decide (TRAPFRAME <= va)) as [|Hlt]; [by rewrite Htop in Hu|].
  destruct (decide (Z.of_nat (length frames) * 4096 <= va)) as [Hge|Hin].
  { unfold user_pa in Hu. rewrite (sp_none _ _ _ _ _ Hsp) in Hu by lia. by destruct (_ <=? _). }
  destruct (lookup_lt_is_Some_2 frames (Z.to_nat (va / 4096))) as (f & Hf).
  { Z.div_mod_to_equations; lia. }
  rewrite Hf. f_equal. destruct (sp_leaf _ _ _ _ _ Hsp _ _ Hf) as (v & Hv & _ & Hvf).
  rewrite Z.add_0_l in Hv.
  rewrite (user_pa_page _ _ va (Z.of_nat (Z.to_nat (va / 4096)) * 4096)) in Hu |- * by
    (Z.div_mod_to_equations; lia).
  unfold user_pa in *. destruct (_ <=? _); [done|]. rewrite Hv in *. by destruct (has v PTE_U).
Qed.

Lemma uspace_user_sep s l pt frames :
  uspace kend s l pt frames -> no_user_top (p_mem s) pt -> user_sep kend (p_mem s) l pt.
Proof.
  intros Hsp Htop.
  assert (Hfr : forall va, 0 <= va -> user_pa (p_mem s) pt va <> 0 -> user_pa (p_mem s) pt va ∈ frames).
  { intros va Hva Hu. eapply list_elem_of_lookup_2. by eapply uspace_user_frame. }
  pose proof (sp_page _ _ _ _ _ Hsp) as Hpg. rewrite Forall_forall in Hpg. split.
  - intros va Hva Hu. by apply Hpg, Hfr.
  - intros va Hva Hu. by apply (sp_sep _ _ _ _ _ Hsp), Hfr.
  - intros va Hva Hu. by apply (sp_sep _ _ _ _ _ Hsp), Hfr.
  - intros va va' Hva Hva' Hu E.
    pose proof (uspace_user_frame _ _ _ _ va Hsp Htop Hva Hu) as H1.
    rewrite E in Hu. pose proof (uspace_user_frame _ _ _ _ va' Hsp Htop Hva' Hu) as H2.
    rewrite E in H1. pose proof (NoDup_lookup _ _ _ _ (sp_nodup _ _ _ _ _ Hsp) H1 H2).
    Z.div_mod_to_equations; lia.
Qed.

(** A new table beside an existing space, as in [fork]. *)
Lemma uvmcreate_beside s q l old fo :
  uspace kend s (q :: l) old fo ->
  exists s', uvmcreate s = Ok q s' /\ uspace kend s' l old fo /\ uspace kend s' l q [] /\
    (forall p, owns (p_mem s') old p \/ p ∈ fo -> ~ owns (p_mem s') q p).
Proof.
  intros Hsp. destruct (uvmcreate_run kend kend_pos s q l) as (s' & E & Hi & Hp & Ho & Hf); [apply Hsp|].
  exists s'. split; [done|].
  assert (Hkm : kmem_inv kend s (q :: l)) by apply Hsp.
  assert (Hql : q ∉ l) by (destruct Hkm as (_ & HN & _); by apply NoDup_cons in HN as [? _]).
  destruct (uspace_take kend kend_pos s q l old fo Hsp) as (s1 & E1 & Ht).
  unfold uvmcreate in E. erewrite bind_Ok in E by exact E1.
  assert (q <> 0).
  { destruct Hkm as (_ & _ & Hall). apply Forall_inv, (page_ok_pos kend kend_pos) in Hall. lia. }
  destruct (Z.eqb_spec q 0); [done|]. erewrite bind_Ok in E by reflexivity. injection E as E.
  destruct (Ht (mem_fill (p_mem s1) q PGSIZE 0)) as (Hsp' & Ho' & _).
  { intros x Hx. unfold mem_fill, PGSIZE. case_range; [lia|done]. }
  rewrite E in Hsp'. split; [done|]. split; [by apply uspace_empty|].
  intros p Hp' ->%Ho. destruct Hp' as [Hq|Hq].
  - rewrite <- E in Hq. simpl in Hq. apply Ho' in Hq.
    apply (vi_sep _ _ _ _ (sp_inv _ _ _ _ _ Hsp) q Hq). set_solver.
  - destruct (sp_sep _ _ _ _ _ Hsp q Hq) as [Hc _]. set_solver.
Qed.

Lemma copied_out_owns s l pt m' dstva src k p :
  vm_inv kend s l pt -> user_sep kend (p_mem s) l pt -> 0 <= dstva ->
  copied_out (p_mem s) m' pt dstva src k -> owns m' pt p <-> owns (p_mem s) pt p.
Proof.
  intros Hi Hs Hd [Hmap _ Hf _]. apply owns_frame. intros q Hq x Hx. apply Hf.
  intros (va & Hva & ->). assert (Hu : user_pa (p_mem s) pt va <> 0) by (apply Hmap; lia).
  destruct (us_page _ _ _ _ Hs va ltac:(lia) Hu) as [Ha _].
  assert (page_ok kend q) as [Haq _] by (eapply wf_page; [apply Hi|done]).
  destruct (decide (q = user_pa (p_mem s) pt va)) as [->|Hne]; [by apply (us_own _ _ _ _ Hs va ltac:(lia) Hu)|].
  unfold vaddr in Hx. pose proof (Z.mod_pos_bound va 4096).
  destruct (pages_disjoint _ _ Haq Ha Hne); lia.
Qed.

Lemma copyout_run s l pt dstva src len :
  vm_inv kend s l pt -> user_sep kend (p_mem s) l pt -> 0 <= dstva -> 0 <= len ->
  src_sep (p_mem s) pt dstva src len ->
  exists r s' k, copyout pt dstva src len s = Ok r s' /\
    vm_inv kend s' l pt /\ user_sep kend (p_mem s') l pt /\
    copied_out (p_mem s) (p_mem s') pt dstva src k /\
    (r = 0 /\ k = len \/ r = -1 /\ 0 <= k < len /\ user_pa (p_mem s) pt (dstva + k) = 0).
Proof.
  intros. apply (copyout_loop_run kend kend_pos); try done. unfold PGSIZE. Z.div_mod_to_equations; lia.
Qed.

Lemma copyin_run s l pt dst srcva len :
  vm_inv kend s l pt -> 0 <= srcva -> 0 <= len -> buf_sep (p_mem s) l pt dst len ->
  exists r s' k, copyin pt dst srcva len s = Ok r s' /\ vm_inv kend s' l pt /\
    copied_in (p_mem s) (p_mem s') pt dst srcva k /\
    (r = 0 /\ k = len \/ r = -1 /\ 0 <= k < len /\ user_pa (p_mem s) pt (srcva + k) = 0).
Proof.
  intros. apply (copyin_loop_run kend kend_pos); try done. unfold PGSIZE. Z.div_mod_to_equations; lia.
Qed.

(** C38.  [uvmalloc] grows a process from [oldsz] to [newsz]: either every page
    of the new range is backed by a fresh zero-filled frame of the user and
    [newsz] is returned, or 0 is returned, the space has its old frames only,
    and there were at most three free pages for each one asked for.  In both
    cases all pages but the free ones and the table keep their contents, no
    other address is remapped, and no free page is lost: it is still free, or
    it backs a new page, or it is a page of the table. *)
Theorem uvmalloc_correct s l pt f0 oldsz newsz :
  uspace kend s l pt f0 -> 0 <= oldsz -> PGROUNDUP oldsz = Z.of_nat (length f0) * 4096 ->
  oldsz <= TRAPFRAME -> oldsz <= newsz < 2 ^ 64 ->
  exists r s', uvmalloc kend pt oldsz newsz s = Ok r s' /\
    grown kend (p_mem s) l pt f0 newsz r s'.
Proof. exact (uvmalloc_run kend kend_pos s l pt f0 oldsz newsz). Qed.

(** [uvmdealloc] keeps exactly the frames below the new size, with their
    contents, and gives the others back to the allocator. *)
Theorem uvmdealloc_correct s l pt f1 f2 oldsz newsz :
  uspace kend s l pt (f1 ++ f2) -> 0 <= newsz < oldsz -> oldsz <= TRAPFRAME ->
  PGROUNDUP oldsz = Z.of_nat (length (f1 ++ f2)) * 4096 ->
  PGROUNDUP newsz = Z.of_nat (length f1) * 4096 ->
  exists s', uvmdealloc kend pt oldsz newsz s = Ok newsz s' /\
    uspace kend s' (rev f2 ++ l) pt f1 /\
    (forall f, f ∈ f1 -> agree (p_mem s') (p_mem s) f 4096).
Proof.
  intros Hsp H1 H2 H3 H4.
  destruct (uvmdealloc_run kend kend_pos s l pt f1 f2 oldsz newsz) as (s' & E & Hs & _ & _ & Ha); try done.
  exists s'. split; [done|]. split; [done|]. intros f Hf. apply Ha.
  - eapply uspace_apart; [done|]. set_solver.
  - intros Hf2. apply sp_nodup, NoDup_app in Hsp as (_ & Hd & _). by apply (Hd f).
Qed.


(** C37.  [uvmfree] returns every frame of the process and every page of its
    table to the allocator, each exactly once, changes no other page, and does
    not panic. *)
Theorem uvmfree_correct s l pt frames sz :
  uspace kend s l pt frames ->
  (forall va, TRAPFRAME <= va < VASPAN -> pte_at (p_mem s) pt va = None) ->
  0 <= sz <= TRAPFRAME -> PGROUNDUP sz = Z.of_nat (length frames) * 4096 ->
  exists s' l', uvmfree kend pt sz s = Ok tt s' /\ kmem_inv kend s' l' /\
    (forall x, x ∈ l' <-> x ∈ l \/ x ∈ frames \/ owns (p_mem s) pt x) /\
    (forall p, apart s l pt p -> p ∉ frames -> agree (p_mem s') (p_mem s) p 4096).
Proof. apply (uvmfree_run kend kend_pos). Qed.

(** C35.  [copyout] writes the bytes of a kernel buffer at the user addresses
    from [dstva] on, across pages, and no other byte; it returns 0 when all
    the pages are mapped and otherwise -1, having stopped exactly at the
    first page that is not. *)
Theorem copyout_correct s l pt frames dstva src len :
  uspace kend s l pt frames -> no_user_top (p_mem s) pt -> 0 <= dstva -> 0 <= len ->
  src_sep (p_mem s) pt dstva src len ->
  exists r s' k, copyout pt dstva src len s = Ok r s' /\ vm_inv kend s' l pt /\
    copied_out (p_mem s) (p_mem s') pt dstva src k /\
    (r = 0 /\ k = len \/ r = -1 /\ 0 <= k < len /\ user_pa (p_mem s) pt (dstva + k) = 0).
Proof.
  intros Hsp Ht Hd Hlen Hsep.
  destruct (copyout_run s l pt dstva src len) as (r & s' & k & E & Hi & _ & H); try done.
  - apply Hsp.
  - by eapply uspace_user_sep.
  - eauto 10.
Qed.

(** What [copyout] wrote, [copyin] reads back: copying a buffer to mapped
    user memory and back into another kernel buffer reproduces its bytes. *)
Theorem copyout_copyin s l pt frames va src dst len :
  uspace kend s l pt frames -> no_user_top (p_mem s) pt -> 0 <= va -> 0 <= len ->
  (forall x, va <= x < va + len -> user_pa (p_mem s) pt x <> 0) ->
  src_sep (p_mem s) pt va src len -> buf_sep (p_mem s) l pt dst len ->
  exists s', (let! r := copyout pt va src len in
              if r =? 0 then copyin pt dst va len else ret r) s = Ok 0 s' /\
    forall i, 0 <= i < len -> p_mem s' (dst + i) = p_mem s (src + i).
Proof.
  intros Hsp Ht Hva Hlen Hmap Hsrc Hbuf. pose proof (uspace_user_sep _ _ _ _ Hsp Ht) as Hus.
  destruct (copyout_run s l pt va src len) as (r & s1 & k & E1 & Hi1 & _ & Hco & Hr); try done.
  { apply Hsp. }
  destruct Hr as [[-> ->]|(_ & Hk & Hu)]; [|exfalso; eapply Hmap; [|exact Hu]; lia].
  erewrite bind_Ok by exact E1. change (0 =? 0) with true. cbv iota.
  pose proof (co_user _ _ _ _ _ _ Hco) as Hcu.
  destruct (copyin_run s1 l pt dst va len) as (r & s2 & k & E2 & _ & Hci & Hr); try done.
  { intros p y Hp Hy. apply (Hbuf p y); [|done].
    rewrite (copied_out_owns s l pt _ va src len) in Hp by (done || apply Hsp).
    destruct Hp as [|[|(Hp & va' & Hva' & E)]]; [tauto|tauto|]. right. right. split; [done|].
    exists va'. by rewrite <- Hcu. }
  destruct Hr as [[-> ->]|(_ & Hk & Hu)].
  2: { rewrite Hcu in Hu. exfalso; eapply Hmap; [|exact Hu]; lia. }
  exists s2. split; [done|]. intros i Hi. rewrite (ci_in _ _ _ _ _ _ Hci) by done.
  unfold vaddr. rewrite Hcu. fold (vaddr (p_mem s) pt (va + i)).
  rewrite (co_in _ _ _ _ _ _ Hco) by lia. f_equal. lia.
Qed.
End vm_spec.

(** ** A small machine

    Sixteen free pages; one process with one page of memory. *)

Definition small_prog : M phys (Z * Z) :=
  kinit small_end ;;
  let! pt := uvmcreate in
  let! r := uvmalloc small_end pt 0 4096 in
  ret (pt, r).

Lemma small_prog_value :
  match small_prog boot_state with
  | Ok (pt, r) s => (pt, r, freelist s, user_pa (p_mem s) pt 0)
  | _ => (0, 0, 0, 0)
  end = (PHYSTOP - 4096, 4096, PHYSTOP - 5 * 4096, PHYSTOP - 2 * 4096).
Proof. vm_compute. reflexivity. Qed.

Lemma small_space :
  exists s, (kinit small_end ;; uvmcreate) boot_state = Ok (PHYSTOP - 4096) s /\
    uspace small_end s (pages_from small_end 15) (PHYSTOP - 4096) [] /\
    forall va, pte_at (p_mem s) (PHYSTOP - 4096) va = None.
Proof.
  destruct small_boot as (s0 & E0 & H0). erewrite bind_Ok by exact E0.
  destruct (uvmcreate_run small_end small_end_pos s0 (PHYSTOP - 4096) (pages_from small_end 15))
    as (s & E & Hi & Hp & _); [exact H0|].
  exists s. split; [done|]. split; [by apply uspace_empty; [exact small_end_pos|..]|done].
Qed.

Lemma small_process :
  exists s q l f, uspace small_end s (q :: l) (PHYSTOP - 4096) [f] /\
    user_pa (p_mem s) (PHYSTOP - 4096) 0 = PHYSTOP - 2 * 4096 /\
    forall va, TRAPFRAME <= va < VASPAN -> pte_at (p_mem s) (PHYSTOP - 4096) va = None.
Proof.
  destruct small_space as (s0 & E0 & H0 & Hp0).
  destruct (uvmalloc_run small_end small_end_pos s0 _ _ [] 0 4096 H0) as (r & s & E & l & fn & Hg & Hr);
    [lia|done|rewrite TRAPFRAME_eq; lia|lia|].
  pose proof small_prog_value as Hv. unfold small_prog in Hv. unfold bind at 1 in Hv. unfold bind in E0.
  destruct (kinit small_end boot_state) as [[] s1| |]; [|done|done].
  unfold bind at 1 in Hv. rewrite E0 in Hv. unfold bind in Hv. rewrite E in Hv. simpl in Hv.
  injection Hv as -> Hfl Hpa.
  pose proof (gr_space _ _ _ _ _ _ _ _ Hg) as Hsp.
  destruct Hr as [(_ & _ & Hlen & _)|[? _]]; [|done]. change (PGROUNDUP 4096) with 4096 in Hlen. simpl in *.
  destruct fn as [|f [|]]; simpl in Hlen; try lia.
  destruct l as [|q l].
  { destruct Hsp as [[[Hl _] _ _] _ _ _ _ _ _]. inversion Hl as [Hz|]. rewrite Hfl in Hz. done. }
  exists s, q, l, f. split; [done|]. split; [done|]. intros va Hva.
  pose proof TRAPFRAME_eq. rewrite (gr_pte _ _ _ _ _ _ _ _ Hg) by (simpl; lia). apply Hp0.
Qed.

Lemma no_user_top_none m pt :
  (forall va, TRAPFRAME <= va < VASPAN -> pte_at m pt va = None) -> no_user_top m pt.
Proof.
  intros Hp va Hva. unfold user_pa. destruct (Z.leb_spec MAXVA va); [done|].
  rewrite Hp; [done|]. rewrite VASPAN_eq. rewrite MAXVA_eq in *. lia.
Qed.

Lemma uvmalloc_correct_witness :
  exists s l pt r s', uspace small_end s l pt [] /\ uvmalloc small_end pt 0 5000 s = Ok r s' /\
    grown small_end (p_mem s) l pt [] 5000 r s'.
Proof.
  destruct small_space as (s & _ & H & _).
  destruct (uvmalloc_correct small_end small_end_pos s _ _ [] 0 5000 H) as (r & s' & E & Hg).
  - lia.
  - done.
  - rewrite TRAPFRAME_eq. lia.
  - lia.
  - exists s, (pages_from small_end 15), (PHYSTOP - 4096), r, s'. split; [exact H|]. split; [exact E|exact Hg].
Defined.


Lemma uvmfree_correct_witness :
  exists s l pt f s' l', uspace small_end s l pt [f] /\ uvmfree small_end pt 4096 s = Ok tt s' /\
    kmem_inv small_end s' l' /\ f ∈ l' /\ pt ∈ l'.
Proof.
  destruct small_process as (s & q & l & f & H & _ & Hh).
  destruct (uvmfree_correct small_end small_end_pos s (q :: l) (PHYSTOP - 4096) [f] 4096 H Hh)
    as (s' & l' & E & Hk & Hl).
  - rewrite TRAPFRAME_eq. lia.
  - done.
  - exists s, (q :: l), (PHYSTOP - 4096), f, s', l'. split; [exact H|]. split; [exact E|]. split; [exact Hk|].
    split; apply Hl; [right; left; apply list_elem_of_singleton; reflexivity|].
    right. right. apply owns_root.
Defined.

(** The buffer of the witnesses lies below the kernel. *)
Lemma low_buffer s l pt frames dst len :
  uspace small_end s l pt frames -> no_user_top (p_mem s) pt -> dst + len <= small_end -> 
  buf_sep (p_mem s) l pt dst len /\ forall va, 0 <= va -> src_sep (p_mem s) pt va dst len.
Proof.
  intros Hsp Ht Hlow. pose proof (uspace_user_sep small_end _ _ _ _ Hsp Ht) as Hu.
  split; [intros p y Hp Hy Hr|intros va Hva x y Hx Hx0 Hy Hr].
  - assert (page_ok small_end p) as [_ Hpok]; [|lia].
    destruct Hp as [Hp|[Hp|(Hp & va & Hva & ->)]].
    + eapply wf_page; [apply (sp_inv _ _ _ _ _ Hsp)|done].
    + destruct Hsp as [[(_ & _ & Hall) _ _] _ _ _ _ _ _]. rewrite Forall_forall in Hall. auto.
    + by eapply us_page.
  - destruct (us_page _ _ _ _ Hu x ltac:(lia) Hx0) as [_ Hpok]. lia.
Qed.

Lemma copyout_correct_witness :
  exists s l pt f r s' k, uspace small_end s l pt [f] /\ copyout pt 4000 1000 200 s = Ok r s' /\
    copied_out (p_mem s) (p_mem s') pt 4000 1000 k.
Proof.
  destruct small_process as (s & q & l & f & H & _ & Hh). apply no_user_top_none in Hh.
  destruct (low_buffer s (q :: l) _ [f] 1000 200 H Hh) as [_ Hsep]; [vm_compute; done|].
  destruct (copyout_correct small_end small_end_pos s (q :: l) (PHYSTOP - 4096) [f] 4000 1000 200 H Hh)
    as (r & s' & k & E & _ & Hc & _).
  - lia.
  - lia.
  - apply Hsep. lia.
  - exists s, (q :: l), (PHYSTOP - 4096), f, r, s', k. split; [exact H|]. split; [exact E|exact Hc].
Defined.

Lemma copyout_copyin_witness :
  exists s s' pt, (let! r := copyout pt 100 1000 50 in
                   if r =? 0 then copyin pt 2000 100 50 else ret r) s = Ok 0 s' /\
    forall i, 0 <= i < 50 -> p_mem s' (2000 + i) = p_mem s (1000 + i).
Proof.
  destruct small_process as (s & q & l & f & H & Hpa & Hh). apply no_user_top_none in Hh.
  destruct (low_buffer s (q :: l) _ [f] 1000 50 H Hh) as [_ Hsep]; [vm_compute; done|].
  destruct (low_buffer s (q :: l) _ [f] 2000 50 H Hh) as [Hbuf _]; [vm_compute; done|].
  destruct (copyout_copyin small_end small_end_pos s (q :: l) (PHYSTOP - 4096) [f] 100 1000 2000 50 H Hh)
    as (s' & E & Hb).
  - lia.
  - lia.
  - intros x Hx. rewrite (user_pa_page _ _ x 0), Hpa; [done|lia|lia|Z.div_mod_to_equations; lia].
  - apply Hsep. lia.
  - exact Hbuf.
  - exists s, s', (PHYSTOP - 4096). split; [exact E|exact Hb].
Defined.
