(* ===== verification/VmExec.v ===== *)
(** * Building and replacing address spaces

    The page-table half of [exec]: [proc_pagetable] and [proc_freepagetable],
    the mappings of the trampoline and of the trapframe above the program, and
    the state of a half-built program ([building]): its pages hold the image
    made so far, and every page that was not free keeps its contents. *)

From S2P Require Import Prelude Memory CString Riscv Kalloc Vm Copy PageTable VmProofs VmSpace VmFree VmFork.

#[local] Set Warnings "-clear-no-such-hyp".

(** The entries [proc_pagetable] makes. *)
Definition top_entry (tramp tf va : Z) : option Z :=
  if in_range TRAMPOLINE 4096 va then Some (mk_pte tramp (Z.lor PTE_R PTE_X))
  else if in_range TRAPFRAME 4096 va then Some (mk_pte tf (Z.lor PTE_R PTE_W))
  else None.

Section vm_exec.
Variable kend : Z.
Hypothesis kend_pos : 0 < kend.

Abbreviation uspace := (uspace kend).

(** ** Entries above the program *)

(** A space keeps its frames when only entries above it and unrelated pages
    change. *)
Lemma uspace_top s l pt frames s' l' :
  uspace s l pt frames -> vm_inv kend s' l' pt -> vm_grow s l s' l' pt ->
  (forall va, 0 <= va < TRAPFRAME -> pte_at (p_mem s') pt va = pte_at (p_mem s) pt va) ->
  uspace s' l' pt frames.
Proof using kend_pos.
  intros [Hi Hleaf Hnone Hpg Hnd Hsep Hsz] Hi' [(new & -> & Ho) _] Hp.
  split; [done|..|done|done| |done].
  - intros i f Hf. destruct (Hleaf i f Hf) as (v & Hv). exists v.
    apply lookup_lt_Some in Hf. rewrite Hp by lia. done.
  - intros va Hva. rewrite Hp by lia. apply Hnone. lia.
  - intros f Hf. rewrite Ho. destruct (Hsep f Hf) as [Hc Hno]. split; [set_solver|].
    intros [|]; [done|]. set_solver.
Qed.

Lemma vm_grow_same s l s' pt p : vm_grow s l s' l pt -> owns (p_mem s') pt p <-> owns (p_mem s) pt p.
Proof using kend_pos.
  intros [(new & E & Ho) _]. assert (new = []) as ->.
  { apply length_zero_iff_nil. apply (f_equal length) in E. rewrite length_app in E. lia. }
  rewrite Ho. set_solver.
Qed.

Lemma frame_page s l pt frames i f :
  uspace s l pt frames -> frames !! i = Some f -> aligned f /\ 0 < f /\ f + 4096 <= 4294967296.
Proof using kend_pos.
  intros Hs Hf. pose proof (sp_page _ _ _ _ _ Hs) as Hall. rewrite Forall_forall in Hall.
  destruct (Hall f) as [Ha Hr]; [by eapply list_elem_of_lookup_2|]. unfold PHYSTOP, KERNBASE in Hr. split; [done|]. lia.
Qed.

(** The slot of a mapped address. *)
Lemma mapped_slot s l pt a v :
  vm_inv kend s l pt -> 0 <= a < MAXVA -> pte_at (p_mem s) pt a = Some v ->
  exists sl, walk pt a false s = Ok sl s /\ sl <> 0 /\ load_pte sl s = Ok v s /\ has v PTE_V = true /\ slot (p_mem s) pt a = Some sl.
Proof using kend_pos.
  intros Hi Ha Hp. destruct (walk_mapped kend kend_pos s l pt a v Hi Ha Hp) as (sl & Ew & Hsl & El & Hv).
  exists sl. repeat split; try done. rewrite (walk_noalloc_run kend) in Ew by (lia || apply Hi). destruct (slot (p_mem s) pt a); naive_solver.
Qed.

(** [uvmunmap(pagetable, a, 1, 0)] *)
Lemma unmap_top s l pt frames a v :
  uspace s l pt frames -> aligned a -> TRAPFRAME <= a -> a + 4096 <= MAXVA ->
  pte_at (p_mem s) pt a = Some v -> PTE_FLAGS v <> PTE_V ->
  exists s', uvmunmap kend pt a 1 false s = Ok tt s' /\ uspace s' l pt frames /\
    (forall p, owns (p_mem s') pt p <-> owns (p_mem s) pt p) /\
    (forall va, 0 <= va < VASPAN -> pte_at (p_mem s') pt va = if in_range a 4096 va then None else pte_at (p_mem s) pt va) /\
    (forall p, apart s l pt p -> apart s' l pt p /\ agree (p_mem s') (p_mem s) p 4096).
Proof using kend_pos.
  intros Hs Ha Ht Hm Hp Hf. pose proof (sp_inv _ _ _ _ _ Hs) as Hi. pose proof TRAPFRAME_eq. pose proof MAXVA_eq. pose proof VASPAN_eq.
  destruct (mapped_slot s l pt a v Hi) as (sl & Ew & Hsl & El & Hv & Eslot); [lia|done|].
  destruct (store_slot_run kend kend_pos s l pt a sl 0 Hi) as (s' & Es & Hi' & Hg & Hp'); [lia|done|].
  assert (Hpte : forall va, 0 <= va < VASPAN -> pte_at (p_mem s') pt va = if in_range a 4096 va then None else pte_at (p_mem s) pt va).
  { intros va Hva. rewrite Hp' by done. change (has (u64 0) PTE_V) with false. cbv iota.
    case_decide; case_range; try done; exfalso; page_lia. }
  exists s'. split.
  - unfold uvmunmap. assert (Em : a mod PGSIZE = 0) by exact Ha. rewrite Em. cbn [Z.eqb negb].
    change (Z.to_nat 1) with 1%nat. replace (u64 (a + 1 * PGSIZE)) with (a + 4096) by (unfold PGSIZE; rewrite u64_small; lia).
    cbn [uvmunmap_loop]. destruct (Z.ltb_spec a (a + 4096)); [|lia].
    rewrite (bind_Ok _ _ _ _ _ Ew). destruct (Z.eqb_spec sl 0); [done|]. rewrite (bind_Ok _ _ _ _ _ El), Hv. cbn [negb].
    destruct (Z.eqb_spec (PTE_FLAGS v) PTE_V); [done|]. erewrite bind_Ok by reflexivity. rewrite (bind_Ok _ _ _ _ _ Es).
    replace (u64 (a + PGSIZE)) with (a + 4096) by (unfold PGSIZE; rewrite u64_small; lia).
    destruct (Z.ltb_spec (a + 4096) (a + 4096)); [lia|]. done.
  - split.
    { eapply uspace_top; [done|done|done|]. intros va Hva. rewrite Hpte by lia. case_range; [lia|done]. }
    split.
    { intros p. by apply vm_grow_same with l. }
    split; [done|]. intros p Hap. by eapply apart_grow.
Qed.

(** [mappages(pagetable, a, PGSIZE, pa, perm)] above the program *)
Lemma map_top s l pt frames a pa perm :
  uspace s l pt frames -> aligned a -> TRAPFRAME <= a -> a + 4096 <= MAXVA ->
  0 <= pa -> pa + 4096 <= 18446744073709551616 -> 0 <= perm < 1024 ->
  (forall x, a <= x < a + 4096 -> pte_at (p_mem s) pt x = None) ->
  exists r s' l', mappages pt a PGSIZE pa perm s = Ok r s' /\ uspace s' l' pt frames /\ vm_grow s l s' l' pt /\
    Z.of_nat (length l) <= Z.of_nat (length l') + 2 /\
    (r = 0 /\ (forall va, 0 <= va < VASPAN -> pte_at (p_mem s') pt va =
        if in_range a 4096 va then Some (mk_pte pa perm) else pte_at (p_mem s) pt va) \/
     r = -1 /\ l' = [] /\ forall va, 0 <= va < VASPAN -> pte_at (p_mem s') pt va = pte_at (p_mem s) pt va).
Proof using kend_pos.
  intros Hs Ha Ht Hm Hpa Hpa' Hperm Hn. pose proof TRAPFRAME_eq. pose proof VASPAN_eq.
  destruct (mappages_page_run kend kend_pos s l pt a pa perm (sp_inv _ _ _ _ _ Hs)) as (r & s' & l' & E & Hi' & Hg & Hc & Hr); [done|lia|done..|].
  exists r, s', l'. split; [done|]. split; [|done]. eapply uspace_top; [done|done|done|]. intros va Hva.
  destruct Hr as [[_ Hp]|(_ & _ & Hp)]; rewrite Hp by lia; [|done]. case_range; [lia|done].
Qed.

Lemma top_entry_mapped tramp tf a :
  a = TRAMPOLINE \/ a = TRAPFRAME ->
  exists v, top_entry tramp tf a = Some v /\ PTE_FLAGS v <> PTE_V.
Proof using Type.
  unfold top_entry. pose proof TRAPFRAME_eq. assert (TRAMPOLINE = TRAPFRAME + 4096) by reflexivity.
  intros [->| ->]; repeat (case_range; try lia); eexists; (split; [reflexivity|]); rewrite mk_pte_flags, PTE_FLAGS_PA2PTE; vm_compute; done.
Qed.

(** [proc_freepagetable] gives every page of the process back. *)
Lemma proc_freepagetable_run s l pt frames sz tramp tf :
  uspace s l pt frames -> (forall va, TRAPFRAME <= va < VASPAN -> pte_at (p_mem s) pt va = top_entry tramp tf va) ->
  0 <= sz <= TRAPFRAME -> PGROUNDUP sz = Z.of_nat (length frames) * 4096 ->
  exists s' l', proc_freepagetable kend pt sz s = Ok tt s' /\ kmem_inv kend s' l' /\
    (forall x, x ∈ l' <-> x ∈ l \/ x ∈ frames \/ owns (p_mem s) pt x) /\
    (forall p, apart s l pt p -> p ∉ frames -> agree (p_mem s') (p_mem s) p 4096).
Proof using kend_pos.
  intros Hs Htop Hsz Hr. pose proof TRAPFRAME_eq as HT. pose proof MAXVA_eq. pose proof VASPAN_eq.
  assert (HTT : TRAMPOLINE = TRAPFRAME + 4096) by reflexivity.
  destruct (top_entry_mapped tramp tf TRAMPOLINE) as (v1 & Ev1 & Hf1); [by left|].
  destruct (top_entry_mapped tramp tf TRAPFRAME) as (v2 & Ev2 & Hf2); [by right|].
  destruct (unmap_top s l pt frames TRAMPOLINE v1 Hs) as (s1 & E1 & Hs1 & Ho1 & Hp1 & Ha1); [reflexivity|lia|lia|by rewrite Htop by lia|done|].
  destruct (unmap_top s1 l pt frames TRAPFRAME v2 Hs1) as (s2 & E2 & Hs2 & Ho2 & Hp2 & Ha2); [reflexivity|lia|lia| |done|].
  { rewrite Hp1 by lia. case_range; [lia|]. by rewrite Htop by lia. }
  destruct (uvmfree_run kend kend_pos s2 l pt frames sz Hs2) as (s' & l' & E3 & Hk & Hl & Ha3); [|done|done|].
  { intros va Hva. rewrite Hp2, Hp1, Htop by lia. unfold top_entry. repeat case_range; try done; lia. }
  exists s', l'. unfold proc_freepagetable. rewrite (bind_Ok _ _ _ _ _ E1), (bind_Ok _ _ _ _ _ E2). split; [done|]. split; [done|]. split.
  - intros x. by rewrite Hl, Ho2, Ho1.
  - intros p Hp Hpf. destruct (Ha1 p Hp) as [Hp1' G1]. destruct (Ha2 p Hp1') as [Hp2' G2].
    eapply agree_trans; [by apply Ha3|]. by eapply agree_trans.
Qed.

(** A space whose pages keep their contents and do not become free. *)
Lemma uspace_transfer s l pt frames s' l' :
  uspace s l pt frames -> kmem_inv kend s' l' ->
  (forall p, owns (p_mem s) pt p \/ p ∈ frames -> (p ∉ l') /\ agree (p_mem s') (p_mem s) p 4096) ->
  uspace s' l' pt frames /\ (forall p, owns (p_mem s') pt p <-> owns (p_mem s) pt p) /\
  (forall va, pte_at (p_mem s') pt va = pte_at (p_mem s) pt va).
Proof using Type.
  intros [[_ Hwf Hown] Hleaf Hnone Hpg Hnd Hsep Hsz] Hk H.
  assert (Hao : forall p, owns (p_mem s) pt p -> agree (p_mem s') (p_mem s) p 4096) by (intros p Hp; apply H; by left).
  assert (Ho : forall p, owns (p_mem s') pt p <-> owns (p_mem s) pt p) by (intros p; by apply owns_frame).
  assert (Hp : forall va, pte_at (p_mem s') pt va = pte_at (p_mem s) pt va) by (intros va; by apply pte_at_frame).
  split; [|done]. split; [|..|done|done| |done].
  - split; [done|by eapply pt_wf_frame|]. intros p. rewrite Ho. intros Hp'. apply H. by left.
  - intros i f Hf. rewrite Hp. by apply Hleaf.
  - intros va Hva. rewrite Hp. by apply Hnone.
  - intros f Hf. rewrite Ho. split; [apply H; by right|by apply Hsep].
Qed.

(** Storing into a page that the table does not own. *)
Lemma uspace_store s l pt frames f m' :
  uspace s l pt frames -> apart s l pt f -> frame m' (p_mem s) (fun x => f <= x < f + 4096) ->
  let s' := mkphys m' (freelist s) in
  uspace s' l pt frames /\ (forall p, owns m' pt p <-> owns (p_mem s) pt p) /\
  (forall va, pte_at m' pt va = pte_at (p_mem s) pt va) /\
  (forall p, apart s l pt p -> apart s' l pt p) /\
  (forall p, aligned p -> p <> f -> agree m' (p_mem s) p 4096).
Proof using kend_pos.
  intros [Hi Hleaf Hnone Hpg Hnd Hsep Hsz] (Hfa & Hfl & Hfo) Hfr s'.
  assert (Hag : forall p, aligned p -> p <> f -> agree m' (p_mem s) p 4096) by (intros p Hp Hne; eapply page_agree; [exact Hp|exact Hfa|done|done]).
  assert (Hao : forall p, owns (p_mem s) pt p -> agree m' (p_mem s) p 4096).
  { intros p Hp. apply Hag; [|by intros ->]. apply (wf_page _ _ _ (vi_wf _ _ _ _ Hi) p Hp). }
  assert (Ho : forall p, owns m' pt p <-> owns (p_mem s) pt p) by (intros p; by apply owns_frame).
  assert (Hp : forall va, pte_at m' pt va = pte_at (p_mem s) pt va) by (intros va; by apply pte_at_frame).
  destruct Hi as [(Hl1 & Hl2 & Hl3) Hwf Hs].
  split; [|split; [done|split; [done|split; [|done]]]].
  - split; [split; cbn; [split; [|done]|by eapply pt_wf_frame|]|..|done|done| |done]; cbn.
    + by eapply (free_list_other_page kend); [done|exact Hfa|done|done|].
    + intros p. rewrite Ho. apply Hs.
    + intros i f' Hf'. rewrite Hp. by apply Hleaf.
    + intros va Hva. rewrite Hp. by apply Hnone.
    + intros f' Hf'. rewrite Ho. by apply Hsep.
  - intros p (A1 & A2 & A3). split; [done|]. cbn. by rewrite Ho.
Qed.

(** ** A half-built program *)
Section building.
(** The memory and the free pages at the start. *)
Variables (m0 : mem) (l0 : list Z).

(** Everything has been given back. *)
Definition returned (s : phys) : Prop :=
  exists l, kmem_inv kend s l /\ (forall x, x ∈ l <-> x ∈ l0) /\
    forall p, aligned p -> p ∉ l0 -> agree (p_mem s) m0 p 4096.

(** The entry of page [i], the guard page [g] excepted accessible to the user. *)
Definition user_entry (g : option nat) (i : nat) (f : Z) : Z :=
  mk_pte f (if decide (g = Some i) then Z.lor (Z.lor PTE_W PTE_X) PTE_R else upage_perm).

(** The table [pt] maps the pages [frames], which hold the image [img]; above
    the program it has the entries [top].  All its pages were free; those that
    were not are as they were. *)
Record building (top : Z -> option Z) (s : phys) (l : list Z) (pt : Z) (frames : list Z) (g : option nat) (img : mem) : Prop := {
  bd_space : uspace s l pt frames;
  bd_keep p : aligned p -> p ∉ l0 -> apart s l pt p /\ agree (p_mem s) m0 p 4096;
  bd_fresh f : f ∈ frames -> f ∈ l0;
  bd_pages p : p ∈ l0 -> p ∈ l \/ p ∈ frames \/ owns (p_mem s) pt p;
  bd_user i f : frames !! i = Some f -> pte_at (p_mem s) pt (Z.of_nat i * 4096) = Some (user_entry g i f);
  bd_top va : TRAPFRAME <= va < VASPAN -> pte_at (p_mem s) pt va = top va;
  bd_img i f j : frames !! i = Some f -> 0 <= j < 4096 -> p_mem s (f + j) = img (Z.of_nat i * 4096 + j);
  bd_zero x : Z.of_nat (length frames) * 4096 <= x -> img x = 0
}.

(** The number of pages taken: three for each of the program, and [c]. *)
Definition spent (c : Z) (l frames : list Z) : Prop :=
  Z.of_nat (length l0) <= Z.of_nat (length l) + 3 * Z.of_nat (length frames) + c.

Abbreviation no_top := (fun _ : Z => @None Z).

Lemma building_owned top s l pt frames g img p : building top s l pt frames g img -> p ∈ l \/ owns (p_mem s) pt p -> p ∈ l0.
Proof using kend_pos.
  intros H Hp. destruct (decide (p ∈ l0)) as [|Hn]; [done|].
  assert (Ha : aligned p).
  { pose proof (sp_inv _ _ _ _ _ (bd_space _ _ _ _ _ _ _ H)) as [(_ & _ & Hk) Hwf _]. destruct Hp as [Hp|Hp].
    - rewrite Forall_forall in Hk. by apply Hk.
    - by apply (wf_page _ _ _ Hwf). }
  destruct (bd_keep _ _ _ _ _ _ _ H p Ha Hn) as [(_ & H1 & H2) _]. tauto.
Qed.

Lemma uvmcreate_building s q l :
  kmem_inv kend s (q :: l) -> p_mem s = m0 -> l0 = q :: l ->
  exists s', uvmcreate s = Ok q s' /\ q <> 0 /\ building no_top s' l q [] None (fun _ => 0).
Proof using kend_pos.
  intros Hk Em El. destruct (uvmcreate_run kend kend_pos s q l Hk) as (s' & E & Hi & Hp & Ho & Hf).
  destruct Hk as (_ & Hnd & Hall). apply NoDup_cons in Hnd as [Hni _]. apply Forall_inv in Hall as Hq.
  exists s'. split; [done|]. split; [pose proof (page_ok_pos _ kend_pos _ Hq); lia|].
  split; [by apply uspace_empty| |by intros f ?%elem_of_nil| |done|by intros va _|done|done].
  - intros p Ha Hn. rewrite El in Hn. apply not_elem_of_cons in Hn as [Hne Hnl].
    split; [split; [done|]; by rewrite Ho|]. rewrite <- Em. eapply page_agree; [done|apply Hq|done|done].
  - intros p Hp0. rewrite El in Hp0. rewrite Ho. apply elem_of_cons in Hp0 as [->|]; [by right; right|by left].
Qed.

Lemma building_map top s l pt frames g img a pa perm :
  building top s l pt frames g img -> aligned a -> TRAPFRAME <= a -> a + 4096 <= MAXVA ->
  0 <= pa -> pa + 4096 <= 18446744073709551616 -> 0 <= perm < 1024 ->
  (forall x, a <= x < a + 4096 -> top x = None) ->
  exists r s' l', mappages pt a PGSIZE pa perm s = Ok r s' /\ Z.of_nat (length l) <= Z.of_nat (length l') + 2 /\
    (r = 0 /\ building (fun va => if in_range a 4096 va then Some (mk_pte pa perm) else top va) s' l' pt frames g img \/
     r = -1 /\ l' = [] /\ building top s' l' pt frames g img).
Proof using kend_pos.
  intros [Hs Hk Hfr Hpg Hu Ht Him Hz] Ha Hat Ham Hpa Hpa' Hperm Hn. pose proof TRAPFRAME_eq. pose proof MAXVA_eq. pose proof VASPAN_eq.
  destruct (map_top s l pt frames a pa perm Hs Ha Hat Ham Hpa Hpa' Hperm) as (r & s' & l' & E & Hs' & Hg & Hc & Hr).
  { intros x Hx. rewrite Ht by lia. by apply Hn. }
  exists r, s', l'. split; [done|]. split; [done|].
  assert (Hb : forall top', (forall va, TRAPFRAME <= va < VASPAN -> pte_at (p_mem s') pt va = top' va) ->
    (forall va, 0 <= va < TRAPFRAME -> pte_at (p_mem s') pt va = pte_at (p_mem s) pt va) -> building top' s' l' pt frames g img).
  { intros top' Ht' Hlow. split; try done.
    - intros p Hal Hp. destruct (Hk p Hal Hp) as [Hap Hag]. destruct (apart_grow kend kend_pos s l s' l' pt p (sp_inv _ _ _ _ _ Hs') Hg Hap) as [Hap' Hag'].
      split; [done|]. by eapply agree_trans.
    - intros p Hp. destruct Hg as [(new & El & Ho) _]. rewrite Ho. destruct (Hpg p Hp) as [Hl|[|]]; [|tauto..].
      rewrite El, elem_of_app in Hl. tauto.
    - intros i f Hf. pose proof (lookup_lt_Some _ _ _ Hf). pose proof (sp_size _ _ _ _ _ Hs). rewrite Hlow by lia. by apply Hu.
    - intros i f j Hf Hj. rewrite <- (Him i f j Hf Hj).
      destruct (apart_grow kend kend_pos s l s' l' pt f (sp_inv _ _ _ _ _ Hs') Hg) as [_ Hag]; [|apply Hag; lia].
      eapply uspace_apart; [done|]. by eapply list_elem_of_lookup_2. }
  destruct Hr as [[-> Hp]|(-> & -> & Hp)]; [left|right]; (split; [done|]); [|split; [done|]]; apply Hb; intros va Hva; rewrite Hp by lia.
  - case_range; [done|]. by apply Ht.
  - case_range; [lia|done].
  - by apply Ht.
  - done.
Qed.

(** What the release of all pages leaves. *)
Lemma building_returned top s l pt frames g img s' l' :
  building top s l pt frames g img -> kmem_inv kend s' l' ->
  (forall x, x ∈ l' <-> x ∈ l \/ x ∈ frames \/ owns (p_mem s) pt x) ->
  (forall p, apart s l pt p -> p ∉ frames -> agree (p_mem s') (p_mem s) p 4096) -> returned s'.
Proof using kend_pos.
  intros H Hk Hl Ha. exists l'. split; [done|]. split.
  - intros x. rewrite Hl. split; [|apply (bd_pages _ _ _ _ _ _ _ H)].
    intros [|[|]]; [eapply building_owned; eauto| |eapply building_owned; eauto]. by apply (bd_fresh _ _ _ _ _ _ _ H).
  - intros p Hal Hp. destruct (bd_keep _ _ _ _ _ _ _ H p Hal Hp) as [Hap Hag].
    eapply agree_trans; [|done]. apply Ha; [done|]. intros Hf. by apply Hp, (bd_fresh _ _ _ _ _ _ _ H).
Qed.

Lemma building_uvmfree s l pt g img : building no_top s l pt [] g img -> exists s', uvmfree kend pt 0 s = Ok tt s' /\ returned s'.
Proof using kend_pos.
  intros H. destruct (uvmfree_run kend kend_pos s l pt [] 0 (bd_space _ _ _ _ _ _ _ H)) as (s' & l' & E & Hk & Hl & Ha);
    [apply (bd_top _ _ _ _ _ _ _ H)|by vm_compute|done|].
  exists s'. split; [done|]. by eapply building_returned.
Qed.

Lemma building_unmap top s l pt frames g img a v :
  building top s l pt frames g img -> aligned a -> TRAPFRAME <= a -> a + 4096 <= MAXVA -> top a = Some v -> PTE_FLAGS v <> PTE_V ->
  exists s', uvmunmap kend pt a 1 false s = Ok tt s' /\
    building (fun va => if in_range a 4096 va then None else top va) s' l pt frames g img.
Proof using kend_pos.
  intros [Hs Hk Hfr Hpg Hu Ht Him Hz] Ha Hat Ham Hv Hf. pose proof TRAPFRAME_eq. pose proof MAXVA_eq. pose proof VASPAN_eq.
  destruct (unmap_top s l pt frames a v Hs Ha Hat Ham) as (s' & E & Hs' & Ho & Hp & Hap); [rewrite Ht by lia; done|done|].
  exists s'. split; [done|]. split; try done.
  - intros p Hal Hp'. destruct (Hk p Hal Hp') as [G1 G2]. destruct (Hap p G1) as [G3 G4]. split; [done|]. by eapply agree_trans.
  - intros p Hp'. rewrite Ho. by apply Hpg.
  - intros i f Hf'. pose proof (lookup_lt_Some _ _ _ Hf'). pose proof (sp_size _ _ _ _ _ Hs). rewrite Hp by lia. case_range; [lia|]. by apply Hu.
  - intros va Hva. rewrite Hp by lia. case_range; [done|]. by apply Ht.
  - intros i f j Hf' Hj. rewrite <- (Him i f j Hf' Hj). destruct (Hap f) as [_ Hag]; [|apply Hag; lia].
    eapply uspace_apart; [done|]. by eapply list_elem_of_lookup_2.
Qed.

Lemma building_top_ext top top' s l pt frames g img :
  (forall va, TRAPFRAME <= va < VASPAN -> top' va = top va) -> building top s l pt frames g img -> building top' s l pt frames g img.
Proof using Type. intros E [H1 H2 H3 H4 H5 H6 H7 H8]. split; try done. intros va Hva. rewrite E by done. by apply H6. Qed.

(** [proc_pagetable]: a table with the trampoline and the trapframe, or 0 and
    all pages given back. *)
Lemma proc_pagetable_run tramp tf s :
  kmem_inv kend s l0 -> p_mem s = m0 ->
  0 <= tramp -> tramp + 4096 <= 18446744073709551616 -> 0 <= tf -> tf + 4096 <= 18446744073709551616 ->
  exists r s', proc_pagetable kend tramp tf s = Ok r s' /\
    (r <> 0 /\ (exists l, building (top_entry tramp tf) s' l r [] None (fun _ => 0) /\ spent 5 l []) \/
     r = 0 /\ returned s' /\ Z.of_nat (length l0) <= 5).
Proof using kend_pos.
  intros Hk Em Htr Htr' Htf Htf'. pose proof TRAPFRAME_eq. pose proof MAXVA_eq. assert (HTT : TRAMPOLINE = TRAPFRAME + 4096) by reflexivity.
  unfold proc_pagetable. destruct l0 as [|q l] eqn:El.
  { assert (Eu : uvmcreate s = Ok 0 s) by (unfold uvmcreate; by rewrite (bind_Ok _ _ _ _ _ (kalloc_run_nil _ _ Hk))).
    exists 0, s. rewrite (bind_Ok _ _ _ _ _ Eu). split; [done|]. right. split; [done|]. split; [|by cbn].
    exists []. split; [done|]. split; [by rewrite El|]. by intros p _ _ x _; rewrite Em. }
  destruct (uvmcreate_building s q l Hk Em El) as (s1 & E1 & Hq & B1). rewrite (bind_Ok _ _ _ _ _ E1). destruct (Z.eqb_spec q 0); [done|].
  destruct (building_map _ _ _ _ _ _ _ TRAMPOLINE tramp (Z.lor PTE_R PTE_X) B1) as (r2 & s2 & l2 & E2 & C2 & R2);
    [reflexivity|lia|reflexivity|done|done|by vm_compute|done|]. rewrite (bind_Ok _ _ _ _ _ E2).
  assert (Hl : Z.of_nat (length l0) = Z.of_nat (length l) + 1) by (rewrite El; cbn [length]; lia). rewrite El in Hl.
  destruct R2 as [[-> B2]|(-> & -> & B2)]; cbn [Z.ltb Z.compare]; last first.
  { destruct (building_uvmfree _ _ _ _ _ B2) as (s3 & E3 & Hr). rewrite (bind_Ok _ _ _ _ _ E3).
    exists 0, s3. split; [done|]. right. cbn [length] in *. repeat split; [done|lia]. }
  destruct (building_map _ _ _ _ _ _ _ TRAPFRAME tf (Z.lor PTE_R PTE_W) B2) as (r3 & s3 & l3 & E3 & C3 & R3);
    [reflexivity|lia|lia|done|done|by vm_compute|intros x Hx; case_range; [lia|done]|]. rewrite (bind_Ok _ _ _ _ _ E3).
  destruct R3 as [[-> B3]|(-> & -> & B3)]; cbn [Z.ltb Z.compare].
  - exists q, s3. split; [done|]. left. split; [done|]. exists l3. split; [|unfold spent; rewrite El; cbn [length] in *; lia].
    eapply building_top_ext; [|exact B3]. intros va Hva. unfold top_entry. repeat case_range; try done; lia.
  - destruct (top_entry_mapped tramp tf TRAMPOLINE) as (v & Ev & Hf); [by left|].
    destruct (building_unmap _ _ _ _ _ _ _ TRAMPOLINE v B3) as (s4 & E4 & B4); [reflexivity|lia|lia| |done|].
    { rewrite <- Ev. unfold top_entry. by case_range. }
    rewrite (bind_Ok _ _ _ _ _ E4).
    destruct (building_uvmfree s4 [] q None (fun _ => 0)) as (s5 & E5 & Hr).
    { eapply building_top_ext; [|exact B4]. intros va Hva. cbv beta. by repeat case_range. }
    rewrite (bind_Ok _ _ _ _ _ E5). exists 0, s5. split; [done|]. right. cbn [length] in *. repeat split; [done|lia].
Qed.

Lemma building_freepagetable tramp tf s l pt frames g img sz :
  building (top_entry tramp tf) s l pt frames g img -> 0 <= sz <= TRAPFRAME -> PGROUNDUP sz = Z.of_nat (length frames) * 4096 ->
  exists s', proc_freepagetable kend pt sz s = Ok tt s' /\ returned s'.
Proof using kend_pos.
  intros H Hsz Hr. destruct (proc_freepagetable_run s l pt frames sz tramp tf (bd_space _ _ _ _ _ _ _ H)) as (s' & l' & E & Hk & Hl & Ha);
    [apply (bd_top _ _ _ _ _ _ _ H)|done|done|].
  exists s'. split; [done|]. by eapply building_returned.
Qed.

(** [uvmalloc] of a half-built program *)
Lemma building_grow top s l pt frames img oldsz newsz :
  building top s l pt frames None img -> 0 <= oldsz -> PGROUNDUP oldsz = Z.of_nat (length frames) * 4096 ->
  oldsz <= TRAPFRAME -> oldsz <= newsz < 18446744073709551616 ->
  exists r s' l' frames', uvmalloc kend pt oldsz newsz s = Ok r s' /\ building top s' l' pt frames' None img /\
    (r = newsz /\ newsz <= TRAPFRAME /\ Z.of_nat (length frames') * 4096 = PGROUNDUP newsz /\ (forall c, spent c l frames -> spent c l' frames') \/
     r = 0 /\ frames' = frames /\ forall c, spent c l frames -> Z.of_nat (length l0) * 4096 <= 3 * (newsz + 4095) + c * 4096).
Proof using kend_pos.
  intros B Ho Hr Hot Hn. pose proof B as [Hs Hk Hfr Hpg Hu Ht Him Hz]. pose proof TRAPFRAME_eq. pose proof VASPAN_eq.
  destruct (uvmalloc_run kend kend_pos s l pt frames oldsz newsz Hs Ho Hr Hot Hn) as (r & s' & E & l' & fn & [G1 G2 G3 G4 G5 G6 G7 G8 G9 G10] & Hres).
  exists r, s', l', (frames ++ fn). split; [done|]. pose proof (sp_size _ _ _ _ _ G1) as Hsz. rewrite length_app in Hsz. split.
  - split; [done|..].
    + intros p Hal Hp. destruct (Hk p Hal Hp) as [(_ & Hap & Hap') Hag]. destruct (G3 p Hal Hap Hap') as [? ?]. split; [done|]. by eapply agree_trans.
    + intros f [Hf|Hf]%elem_of_app; [by apply Hfr|]. eapply building_owned; [done|]. left. by apply G9.
    + intros p Hp. rewrite elem_of_app. destruct (Hpg p Hp) as [Hl|[Hf|Hw]]; [|tauto|].
      * destruct (G7 p Hl) as [|[|]]; tauto.
      * right; right. by apply G6.
    + intros i f Hf. pose proof (lookup_lt_Some _ _ _ Hf) as Hi. rewrite length_app in Hi. apply lookup_app_Some in Hf as [Hf|[Hi' Hf]].
      * pose proof (lookup_lt_Some _ _ _ Hf). rewrite G4 by lia. by apply Hu.
      * pose proof (G5 _ _ Hf) as E5. replace (length frames + (i - length frames))%nat with i in E5 by lia. exact E5.
    + intros va Hva. rewrite G4; [by apply Ht|lia|]. rewrite length_app. lia.
    + intros i f j Hf Hj. pose proof (lookup_lt_Some _ _ _ Hf) as Hi. rewrite length_app in Hi. apply lookup_app_Some in Hf as [Hf|[Hi' Hf]].
      * rewrite <- (Him i f j Hf Hj). apply (G2 f); [by eapply list_elem_of_lookup_2|lia].
      * rewrite Hz by lia. rewrite Forall_forall in G8. apply (G8 f); [by eapply list_elem_of_lookup_2|lia].
    + intros x Hx. rewrite length_app in Hx. apply Hz. lia.
  - unfold spent. destruct Hres as [(-> & H1' & H2' & H3')|(-> & -> & H3')]; [left|right]; (split; [done|]).
    + split; [done|]. split; [done|]. intros c. rewrite length_app. lia.
    + rewrite app_nil_r. split; [done|]. intros c Hc. lia.
Qed.

(** Storing bytes into a page of the program is writing them into the image. *)
Lemma building_write top s l pt frames g img i f j bs m' :
  building top s l pt frames g img -> frames !! i = Some f -> 0 <= j -> j + Z.of_nat (length bs) <= 4096 ->
  (forall x, m' x = mem_write (p_mem s) (f + j) bs x) ->
  building top (mkphys m' (freelist s)) l pt frames g (mem_write img (Z.of_nat i * 4096 + j) bs).
Proof using kend_pos.
  intros [Hs Hk Hfr Hpg Hu Ht Him Hz] Hf Hj Hj' Em. pose proof (list_elem_of_lookup_2 _ _ _ Hf) as Hin.
  pose proof (lookup_lt_Some _ _ _ Hf) as Hil.
  destruct (uspace_store s l pt frames f m' Hs) as (Hs' & Ho & Hp & Hap & Hag); [by eapply uspace_apart|..].
  { intros x Hx. rewrite Em. unfold mem_write. case_range; [lia|done]. }
  split; [done|..|done| | | | |]; cbn.
  - intros p Hal Hp'. destruct (Hk p Hal Hp') as [Hap' Hag']. split; [by apply Hap|].
    eapply agree_trans; [|done]. apply Hag; [done|]. intros ->. by apply Hp', Hfr.
  - intros p Hp'. rewrite Ho. by apply Hpg.
  - intros i' f' Hf'. rewrite Hp. by apply Hu.
  - intros va Hva. rewrite Hp. by apply Ht.
  - intros i' f' j' Hf' Hjr. destruct (decide (i' = i)) as [->|Hne].
    + assert (f' = f) as -> by congruence. rewrite Em. unfold mem_write.
      repeat case_range; try lia; [f_equal; lia|by apply Him].
    + assert (Hff : f' <> f) by (intros ->; apply Hne; by eapply (NoDup_lookup frames); [apply (sp_nodup _ _ _ _ _ Hs)|..]).
      pose proof (sp_page _ _ _ _ _ Hs) as Hpgs. rewrite Forall_forall in Hpgs.
      rewrite (Hag f'); [|apply Hpgs; by eapply list_elem_of_lookup_2|done|lia]. rewrite (Him i' f' j' Hf' Hjr).
      unfold mem_write. case_range; [lia|done].
  - intros x Hx. unfold mem_write. case_range; [lia|]. by apply Hz.
Qed.

Lemma PA2PTE_noflag pa f : 0 <= f < 1024 -> Z.land (PA2PTE pa) f = 0.
Proof using Type.
  intros Hf. unfold PA2PTE. apply Z.bits_inj'. intros n Hn. rewrite Z.land_spec, Z.bits_0.
  destruct (Z.ltb_spec n 10); [rewrite Z.shiftl_spec_low by lia; done|].
  rewrite (Z.bits_above_log2 f n); [by rewrite andb_false_r|lia|].
  destruct (decide (f = 0)) as [->|]; [cbn; lia|]. assert (Z.log2 f < 10) by (apply Z.log2_lt_pow2; lia). lia.
Qed.

(** Clearing [PTE_U] *)
Lemma clear_user f : Z.land (mk_pte f upage_perm) (Z.lnot PTE_U) = mk_pte f (Z.lor (Z.lor PTE_W PTE_X) PTE_R).
Proof using Type.
  rewrite !mk_pte_flags, Z.land_lor_distr_l. f_equal. apply Z.bits_inj'. intros n Hn.
  rewrite Z.land_spec, Z.lnot_spec by done. pose proof (PA2PTE_noflag f PTE_U ltac:(vm_compute; done)) as E.
  apply (f_equal (fun x => Z.testbit x n)) in E. rewrite Z.land_spec, Z.bits_0 in E.
  destruct (Z.testbit (PA2PTE f) n), (Z.testbit PTE_U n); done.
Qed.

(** [uvmclear] leaves the same pages, page [i] without [PTE_U]. *)
Lemma uspace_clear s l pt frames i f :
  uspace s l pt frames -> frames !! i = Some f -> pte_at (p_mem s) pt (Z.of_nat i * 4096) = Some (mk_pte f upage_perm) ->
  exists s', uvmclear pt (Z.of_nat i * 4096) s = Ok tt s' /\ uspace s' l pt frames /\ vm_grow s l s' l pt /\
    forall va, 0 <= va < VASPAN -> pte_at (p_mem s') pt va =
      if decide (Z.of_nat i = va / 4096) then Some (mk_pte f (Z.lor (Z.lor PTE_W PTE_X) PTE_R)) else pte_at (p_mem s) pt va.
Proof using kend_pos.
  intros Hs Hf Hpte. pose proof (sp_inv _ _ _ _ _ Hs) as Hi. pose proof (lookup_lt_Some _ _ _ Hf) as Hil.
  pose proof TRAPFRAME_eq. pose proof MAXVA_eq. pose proof VASPAN_eq. pose proof (sp_size _ _ _ _ _ Hs) as Hsz.
  destruct (frame_page _ _ _ _ _ _ Hs Hf) as (Hfa & Hf0 & Hf1).
  destruct (mapped_slot s l pt (Z.of_nat i * 4096) _ Hi ltac:(lia) Hpte) as (sl & Ew & Hsl & El & Hv & Eslot).
  set (perm := Z.lor (Z.lor PTE_W PTE_X) PTE_R).
  destruct (store_slot_run kend kend_pos s l pt (Z.of_nat i * 4096) sl (mk_pte f perm) Hi) as (s' & Es & Hi' & Hg & Hp'); [lia|done|].
  rewrite mk_pte_range, mk_pte_valid, Z.div_mul in Hp' by (lia || (vm_compute; done)).
  exists s'. split.
  { unfold uvmclear. rewrite (bind_Ok _ _ _ _ _ Ew). destruct (Z.eqb_spec sl 0); [done|]. by rewrite (bind_Ok _ _ _ _ _ El), clear_user. }
  split; [|done]. destruct Hs as [_ Hleaf Hnone Hpages Hnd Hsep _]. split; [done|..|done|done| |done].
  - intros k f' Hf'. pose proof (lookup_lt_Some _ _ _ Hf') as Hkl. rewrite Hp' by lia. case_decide as Hd; [|by apply Hleaf].
    rewrite Z.add_0_l, Z.div_mul in Hd by done. apply Nat2Z.inj in Hd as <-. assert (f' = f) as -> by congruence.
    eexists. split; [reflexivity|]. rewrite mk_pte_flags.
    rewrite PTE_FLAGS_PA2PTE, PTE2PA_PA2PTE by (lia || done || (vm_compute; done)). by vm_compute.
  - intros va Hva. rewrite Hp' by lia. case_decide; [Z.div_mod_to_equations; lia|]. apply Hnone; lia.
  - intros f' Hf'. rewrite (vm_grow_same _ _ _ _ _ Hg). by apply Hsep.
Qed.

(** [uvmclear] makes page [i] the guard page. *)
Lemma building_clear top s l pt frames img i f :
  building top s l pt frames None img -> frames !! i = Some f ->
  exists s', uvmclear pt (Z.of_nat i * 4096) s = Ok tt s' /\ building top s' l pt frames (Some i) img.
Proof using kend_pos.
  intros [Hs Hk Hfr Hpg Hu Ht Him Hz] Hf. pose proof (lookup_lt_Some _ _ _ Hf) as Hil.
  pose proof TRAPFRAME_eq. pose proof VASPAN_eq. pose proof (sp_size _ _ _ _ _ Hs) as Hsz.
  destruct (uspace_clear s l pt frames i f Hs Hf) as (s' & E & Hs' & Hg & Hp'); [by rewrite (Hu i f Hf)|].
  pose proof (fun p => apart_grow kend kend_pos s l s' l pt p (sp_inv _ _ _ _ _ Hs') Hg) as Hap.
  exists s'. split; [done|]. split; try done.
  - intros p Hal Hp. destruct (Hk p Hal Hp) as [H1 H2]. destruct (Hap p H1). split; [done|]. by eapply agree_trans.
  - intros p Hp. rewrite (vm_grow_same _ _ _ _ _ Hg). by apply Hpg.
  - intros k f' Hf'. pose proof (lookup_lt_Some _ _ _ Hf'). rewrite Hp', Z.div_mul by lia. unfold user_entry. case_decide as Hd.
    + apply Nat2Z.inj in Hd as <-. rewrite decide_True by done. congruence.
    + rewrite decide_False by (intros [= ->]; by apply Hd). rewrite (Hu k f' Hf'). unfold user_entry. by rewrite decide_False by done.
  - intros va Hva. rewrite Hp' by lia. case_decide; [Z.div_mod_to_equations; lia|]. by apply Ht.
  - intros k f' j Hf' Hj. rewrite <- (Him k f' j Hf' Hj). destruct (Hap f') as [_ Hag]; [|apply Hag; lia].
    eapply uspace_apart; [done|]. by eapply list_elem_of_lookup_2.
Qed.

Lemma building_walkaddr top s l pt frames g img i f :
  building top s l pt frames g img -> frames !! i = Some f -> g <> Some i -> walkaddr pt (Z.of_nat i * 4096) s = Ok f s.
Proof using kend_pos.
  intros B Hf Hg. pose proof (bd_space _ _ _ _ _ _ _ B) as Hs. pose proof (lookup_lt_Some _ _ _ Hf) as Hil.
  pose proof TRAPFRAME_eq. pose proof MAXVA_eq. pose proof (sp_size _ _ _ _ _ Hs) as Hsz.
  destruct (frame_page _ _ _ _ _ _ Hs Hf) as (Hfa & Hf0 & Hf1).
  rewrite (walkaddr_run kend kend_pos s l pt) by (lia || apply Hs). f_equal. unfold user_pa. destruct (Z.leb_spec MAXVA (Z.of_nat i * 4096)); [lia|].
  rewrite (bd_user _ _ _ _ _ _ _ B i f Hf). unfold user_entry. rewrite decide_False by done. rewrite mk_pte_flags.
  rewrite has_PA2PTE, PTE2PA_PA2PTE by (lia || done || (vm_compute; done)). by vm_compute.
Qed.

Lemma page_base (i : nat) j : 0 <= j < 4096 -> PGROUNDDOWN (Z.of_nat i * 4096 + j) = Z.of_nat i * 4096.
Proof using kend_pos. intros Hj. rewrite PGROUNDDOWN_eq. Z.div_mod_to_equations; lia. Qed.

(** [copyout] within one page of the program *)
Lemma building_copyout top s l pt frames g img i f j src n :
  building top s l pt frames g img -> frames !! i = Some f -> g <> Some i -> 0 <= j -> 0 < n -> j + n <= 4096 ->
  exists s', copyout pt (Z.of_nat i * 4096 + j) src n s = Ok 0 s' /\
    building top s' l pt frames g (mem_write img (Z.of_nat i * 4096 + j) (mem_read (p_mem s) src (Z.to_nat n))).
Proof using kend_pos.
  intros B Hf Hg Hj Hn Hjn. pose proof (building_walkaddr _ _ _ _ _ _ _ _ _ B Hf Hg) as Ew.
  destruct (frame_page _ _ _ _ _ _ (bd_space _ _ _ _ _ _ _ B) Hf) as (Hfa & Hf0 & Hf1).
  exists (mkphys (mem_copy (p_mem s) (f + j) src n) (freelist s)). split.
  - unfold copyout. replace (Z.to_nat (n / PGSIZE + 3)) with (S (S (Z.to_nat (n / PGSIZE + 1)))) by (unfold PGSIZE; Z.div_mod_to_equations; lia).
    cbn [copyout_loop]. destruct (Z.ltb_spec 0 n); [|lia].
    rewrite (page_base i j) by lia. rewrite (bind_Ok _ _ _ _ _ Ew). destruct (Z.eqb_spec f 0); [lia|].
    replace (Z.of_nat i * 4096 + j - Z.of_nat i * 4096) with j by lia. assert (En : (if n <? u64 (PGSIZE - j) then n else u64 (PGSIZE - j)) = n)
      by (unfold PGSIZE; rewrite u64_small by lia; destruct (Z.ltb_spec n (4096 - j)); lia). rewrite !En.
    erewrite bind_Ok by reflexivity. rewrite Z.sub_diag. done.
  - eapply building_write; [done|done|done|rewrite length_mem_read; lia|]. intros x. unfold mem_copy, mem_write. rewrite length_mem_read, Z2Nat.id by lia.
    case_range; [|done]. unfold mem_read. rewrite (nth_indep _ 0 (p_mem s (src + Z.of_nat 0))) by (rewrite length_map, length_seq; lia).
    rewrite (map_nth (fun k => p_mem s (src + Z.of_nat k)) (seq 0 (Z.to_nat n)) 0%nat), seq_nth by lia. f_equal. lia.
Qed.

Lemma building_copyout_bytes top s l pt frames g img i f j bs :
  building top s l pt frames g img -> frames !! i = Some f -> g <> Some i -> 0 <= j -> bs <> [] -> j + Z.of_nat (length bs) <= 4096 ->
  exists s', copyout_bytes pt (Z.of_nat i * 4096 + j) bs s = Ok 0 s' /\
    building top s' l pt frames g (mem_write img (Z.of_nat i * 4096 + j) bs).
Proof using kend_pos.
  intros B Hf Hg Hj Hbs Hjn. pose proof (building_walkaddr _ _ _ _ _ _ _ _ _ B Hf Hg) as Ew.
  destruct (frame_page _ _ _ _ _ _ (bd_space _ _ _ _ _ _ _ B) Hf) as (Hfa & Hf0 & Hf1).
  assert (Hn : 0 < Z.of_nat (length bs)) by (destruct bs; [done|cbn [length]; lia]).
  exists (mkphys (mem_write (p_mem s) (f + j) bs) (freelist s)). split; [|by eapply building_write].
  unfold copyout_bytes. set (n := Z.of_nat (length bs)) in *.
  replace (Z.to_nat (n / PGSIZE + 3)) with (S (S (Z.to_nat (n / PGSIZE + 1)))) by (unfold PGSIZE; Z.div_mod_to_equations; lia).
  cbn [copyout_bytes_loop]. fold n. destruct (Z.ltb_spec 0 n); [|lia].
  rewrite (page_base i j) by lia. rewrite (bind_Ok _ _ _ _ _ Ew). destruct (Z.eqb_spec f 0); [lia|].
  replace (Z.of_nat i * 4096 + j - Z.of_nat i * 4096) with j by lia. assert (En : (if n <? u64 (PGSIZE - j) then n else u64 (PGSIZE - j)) = n)
    by (unfold PGSIZE; rewrite u64_small by lia; destruct (Z.ltb_spec n (4096 - j)); lia). rewrite !En.
  unfold n. rewrite Nat2Z.id, take_ge, drop_ge by lia. erewrite bind_Ok by reflexivity. done.
Qed.

(** ** The space that is replaced *)

(** A space none of whose pages were free is as it was. *)
Lemma building_beside top s l pt frames g img s0 old fo :
  building top s l pt frames g img -> uspace s0 l0 old fo -> p_mem s0 = m0 ->
  uspace s l old fo /\ (forall p, owns (p_mem s) old p <-> owns m0 old p) /\ forall va, pte_at (p_mem s) old va = pte_at m0 old va.
Proof using kend_pos.
  intros B Hs Em. rewrite <- Em. eapply uspace_transfer; [done|apply (bd_space _ _ _ _ _ _ _ B)|].
  intros p Hp. assert (Hpp : aligned p /\ p ∉ l0).
  { destruct Hs as [[_ Hwf Hown] _ _ Hpg _ Hsep _]. destruct Hp as [Hp|Hp]; [split; [apply (wf_page _ _ _ Hwf p Hp)|by apply Hown]|].
    rewrite Forall_forall in Hpg. split; [by apply Hpg|by apply Hsep]. }
  destruct Hpp as [Ha Hn]. rewrite Em. destruct (bd_keep _ _ _ _ _ _ _ B p Ha Hn) as [(_ & ? & _) ?]. done.
Qed.

(** The image is a function: equal images are the same. *)
Lemma building_img_ext top s l pt frames g img img' :
  (forall x, img' x = img x) -> building top s l pt frames g img -> building top s l pt frames g img'.
Proof using Type.
  intros E [H1 H2 H3 H4 H5 H6 H7 H8]. split; try done.
  - intros i f j Hf Hj. rewrite E. by apply H7.
  - intros x Hx. rewrite E. by apply H8.
Qed.
End building.

(** A store into a page that was not free. *)
Lemma building_store_kept m0 l0 top s l pt frames g img a v p :
  building m0 l0 top s l pt frames g img -> aligned p -> p ∉ l0 -> p <= a -> a + 8 <= p + 4096 ->
  building (store64 m0 a v) l0 top (mkphys (store64 (p_mem s) a v) (freelist s)) l pt frames g img.
Proof using kend_pos.
  intros B Ha Hn Hpa Hpa'. pose proof B as [Hs Hk Hfr Hpg Hu Ht Him Hz]. destruct (Hk p Ha Hn) as [Hap _].
  destruct (uspace_store s l pt frames p (store64 (p_mem s) a v) Hs Hap) as (Hs' & Ho & Hp & Hap' & Hag).
  { intros x Hx. unfold store64, mem_write. rewrite length_le_bytes. case_range; [lia|done]. }
  split; [done|..|done| | | | |done]; cbn.
  - intros p' Ha' Hn'. destruct (Hk p' Ha' Hn') as [H1 H2]. split; [by apply Hap'|]. intros x Hx.
    unfold store64, mem_write. case_range; [done|]. by apply H2.
  - intros p' Hp'. rewrite Ho. by apply Hpg.
  - intros i f Hf. rewrite Hp. by apply Hu.
  - intros va Hva. rewrite Hp. by apply Ht.
  - intros i f j Hf Hj. rewrite <- (Him i f j Hf Hj). apply (Hag f); [by destruct (frame_page _ _ _ _ _ _ Hs Hf)| |lia].
    intros ->. apply Hn, Hfr. by eapply list_elem_of_lookup_2.
Qed.
End vm_exec.
