(* ===== verification/Block.v ===== *)
(** * Disk blocks

    A block is a list of [BSIZE] bytes.  The C code overlays structs on the
    bytes of a buffer; here the fields are read and written as little-endian
    integers at their offsets ([get16], [get32], [put16], [put32]) and byte
    ranges with [read_at] and [splice]. *)

From S2P Require Import Prelude.

Definition BSIZE : Z := 1024.

Abbreviation block := (list Z).

Definition block_ok (b : block) : Prop := length b = 1024%nat /\ Forall is_byte b.

Definition zero_block : block := repeat 0 1024.

Definition read_at (b : block) (off n : nat) : list Z := take n (drop off b).

(** [new] written over the bytes of [b] from [off] on. *)
Definition splice (b : block) (off : nat) (new : list Z) : block :=
  take off b ++ new ++ drop (off + length new) b.

Definition get32 (b : block) (off : nat) : Z := le_val (read_at b off 4).
Definition get16 (b : block) (off : nat) : Z := le_val (read_at b off 2).
Definition put32 (b : block) (off : nat) (v : Z) : block := splice b off (le_bytes 4 (u32 v)).
Definition put16 (b : block) (off : nat) (v : Z) : block := splice b off (le_bytes 2 (u16 v)).

(** Signed fields: C [int] and [short]. *)
Definition geti32 (b : block) (off : nat) : Z := s32 (get32 b off).
Definition geti16 (b : block) (off : nat) : Z := s16 (get16 b off).

Lemma length_splice b off new :
  (off + length new <= length b)%nat -> length (splice b off new) = length b.
Proof. intros H. unfold splice. rewrite !length_app, length_take, length_drop. lia. Qed.

Lemma length_read_at b off n : (off + n <= length b)%nat -> length (read_at b off n) = n.
Proof. intros H. unfold read_at. rewrite length_take, length_drop. lia. Qed.

Lemma read_at_splice_same b off new :
  (off + length new <= length b)%nat -> read_at (splice b off new) off (length new) = new.
Proof.
  intros H. unfold read_at, splice.
  rewrite drop_app_ge by (rewrite length_take; lia).
  rewrite length_take. replace (off - (off `min` length b))%nat with 0%nat by lia.
  rewrite drop_0. apply take_app_length.
Qed.

Lemma lookup_splice b off new i :
  (off + length new <= length b)%nat ->
  splice b off new !! i =
  if decide (off <= i < off + length new)%nat then new !! (i - off)%nat else b !! i.
Proof.
  intros H. unfold splice. assert (Hl : length (take off b) = off) by (rewrite length_take; lia).
  destruct (decide (i < off)%nat) as [Hlt|Hge].
  - rewrite lookup_app_l by lia. rewrite lookup_take_lt by lia. case_decide; [lia|done].
  - rewrite lookup_app_r by lia. rewrite Hl.
    destruct (decide (i - off < length new)%nat) as [Hin|Hout].
    + rewrite lookup_app_l by lia. case_decide; [done|lia].
    + rewrite lookup_app_r by lia. rewrite lookup_drop. case_decide; [lia|]. f_equal. lia.
Qed.

Lemma lookup_read_at b off n i :
  read_at b off n !! i = if decide (i < n)%nat then b !! (off + i)%nat else None.
Proof.
  unfold read_at. case_decide.
  - rewrite lookup_take_lt, lookup_drop by done. done.
  - apply lookup_take_ge. lia.
Qed.

Lemma read_at_splice_other b off new off' n :
  (off + length new <= length b)%nat ->
  (off' + n <= off)%nat \/ (off + length new <= off')%nat ->
  read_at (splice b off new) off' n = read_at b off' n.
Proof.
  intros H Hd. apply list_eq. intros i. rewrite !lookup_read_at.
  case_decide; [|done]. rewrite lookup_splice by done. case_decide; [lia|done].
Qed.

Lemma splice_splice_same b off new new' :
  length new = length new' -> (off + length new <= length b)%nat ->
  splice (splice b off new) off new' = splice b off new'.
Proof.
  intros E H. apply list_eq. intros i.
  rewrite lookup_splice by (rewrite length_splice; lia). rewrite !lookup_splice by lia.
  repeat case_decide; try done; lia.
Qed.

(** ** Fields *)

Lemma le_val_u32 v : le_val (le_bytes 4 (u32 v)) = u32 v.
Proof. rewrite le_val_le_bytes. apply Z.mod_small, u32_range. Qed.

Lemma le_val_u16 v : le_val (le_bytes 2 (u16 v)) = u16 v.
Proof. rewrite le_val_le_bytes. apply Z.mod_small, u16_range. Qed.

Lemma get32_put32_same b off v : (off + 4 <= length b)%nat -> get32 (put32 b off v) off = u32 v.
Proof.
  intros H. unfold get32, put32. pose proof (length_le_bytes 4 (u32 v)) as Hl.
  rewrite <- Hl at 2. rewrite read_at_splice_same by lia. apply le_val_u32.
Qed.

Lemma get32_put32_other b off off' v :
  (off + 4 <= length b)%nat -> (off' + 4 <= off)%nat \/ (off + 4 <= off')%nat ->
  get32 (put32 b off v) off' = get32 b off'.
Proof.
  intros H Hd. unfold get32, put32. rewrite read_at_splice_other; [done|rewrite length_le_bytes; lia..].
Qed.

Lemma get16_put16_same b off v : (off + 2 <= length b)%nat -> get16 (put16 b off v) off = u16 v.
Proof.
  intros H. unfold get16, put16. pose proof (length_le_bytes 2 (u16 v)) as Hl.
  rewrite <- Hl at 2. rewrite read_at_splice_same by lia. apply le_val_u16.
Qed.

Lemma length_put32 b off v : (off + 4 <= length b)%nat -> length (put32 b off v) = length b.
Proof. intros. apply length_splice. by rewrite length_le_bytes. Qed.

Lemma length_put16 b off v : (off + 2 <= length b)%nat -> length (put16 b off v) = length b.
Proof. intros. apply length_splice. by rewrite length_le_bytes. Qed.

Lemma bytes_splice b off new : Forall is_byte b -> Forall is_byte new -> Forall is_byte (splice b off new).
Proof.
  intros Hb Hn. unfold splice. apply Forall_app. split; [by apply Forall_take|].
  apply Forall_app. split; [done|by apply Forall_drop].
Qed.

Lemma splice_ok b off new :
  block_ok b -> Forall is_byte new -> (off + length new <= 1024)%nat -> block_ok (splice b off new).
Proof. intros [Hl Hb] Hn H. split; [rewrite length_splice; lia|by apply bytes_splice]. Qed.

Lemma put32_ok b off v : block_ok b -> (off + 4 <= 1024)%nat -> block_ok (put32 b off v).
Proof. intros Hb H. apply splice_ok; [done|apply le_bytes_bytes|by rewrite length_le_bytes]. Qed.

Lemma put16_ok b off v : block_ok b -> (off + 2 <= 1024)%nat -> block_ok (put16 b off v).
Proof. intros Hb H. apply splice_ok; [done|apply le_bytes_bytes|by rewrite length_le_bytes]. Qed.

Lemma zero_block_ok : block_ok zero_block.
Proof. split; [reflexivity|]. apply Forall_forall. intros x Hx. apply list_elem_of_In, repeat_spec in Hx. subst. done. Qed.
