(* ===== verification/Cache.v ===== *)
(** * The block cache interface

    What [log.c] and [fs.c] use of [bio.c], as a class of operations
    ([BlockCache]) and a class of laws over the state a client can observe
    ([CacheSpec]).  The log and the file system are written and verified
    against these classes; [Bio] gives the instance.

    A client sees ([cview]): the contents of the blocks through the cache, the
    contents of the disk, the sequence of disk writes, the blocks it holds
    locked and the blocks that are pinned. *)

From S2P Require Import Prelude Block.

#[local] Set Warnings "-clear-no-such-hyp".

Class BlockCache (S B : Type) := {
  cread : Z -> Z -> M S B;       (** [bread(dev, blockno)] *)
  cwrite : B -> M S unit;        (** [bwrite(b)] *)
  crelse : B -> M S unit;        (** [brelse(b)] *)
  cpin : B -> M S unit;          (** [bpin(b)] *)
  cunpin : B -> M S unit;        (** [bunpin(b)] *)
  cdata : B -> M S block;        (** reading [b->data] *)
  cset : B -> block -> M S unit; (** storing into [b->data] *)
  cblockno : B -> M S Z          (** [b->blockno] *)
}.

(** The number of buffers in the cache. *)
Definition NBUF : nat := 30.

Record cview := mkcview {
  cv_view : Z -> block;
  cv_disk : Z -> block;
  cv_trace : list (Z * block);
  cv_held : list Z;
  cv_pins : list Z
}.

Definition cv_upd (f : Z -> block) (k : Z) (d : block) : Z -> block :=
  fun x => if x =? k then d else f x.

Definition hold (blk : Z) (v : cview) : cview :=
  mkcview (cv_view v) (cv_disk v) (cv_trace v) (blk :: cv_held v) (cv_pins v).
Definition with_held (l : list Z) (v : cview) : cview :=
  mkcview (cv_view v) (cv_disk v) (cv_trace v) l (cv_pins v).
Definition with_pins (l : list Z) (v : cview) : cview :=
  mkcview (cv_view v) (cv_disk v) (cv_trace v) (cv_held v) l.
Definition set_view (blk : Z) (d : block) (v : cview) : cview :=
  mkcview (cv_upd (cv_view v) blk d) (cv_disk v) (cv_trace v) (cv_held v) (cv_pins v).
Definition flush (blk : Z) (v : cview) : cview :=
  mkcview (cv_view v) (cv_upd (cv_disk v) blk (cv_view v blk))
    (cv_trace v ++ [(blk, cv_view v blk)]) (cv_held v) (cv_pins v).

(** Views are compared block by block. *)
Record cview_equiv (v v' : cview) : Prop := {
  ce_view k : cv_view v k = cv_view v' k;
  ce_disk k : cv_disk v k = cv_disk v' k;
  ce_trace : cv_trace v = cv_trace v';
  ce_held : cv_held v = cv_held v';
  ce_pins : cv_pins v = cv_pins v'
}.

#[export] Instance cview_equiv_inst : Equiv cview := cview_equiv.

#[export] Instance cview_equivalence : Equivalence (≡@{cview}).
Proof.
  split.
  - intros v. by split.
  - intros v v' [H1 H2 H3 H4 H5]. by split.
  - intros v1 v2 v3 [H1 H2 H3 H4 H5] [H1' H2' H3' H4' H5'].
    split; [intros k; by rewrite H1|intros k; by rewrite H2|congruence..].
Qed.

(** A buffer can be found for [blk]: it is pinned, hence cached, or fewer than
    [NBUF] blocks are pinned or held. *)
Definition croom (v : cview) (blk : Z) : Prop :=
  blk ∈ cv_pins v \/ (length (cv_pins v) + length (cv_held v) < NBUF)%nat.

Definition blockno_ok (blk : Z) : Prop := 0 <= blk < 2 ^ 32.

Class CacheSpec (S B : Type) `{BlockCache S B} (dev : Z) := {
  crep : S -> cview -> Prop;
  cbuf : S -> B -> Z -> Prop;
  crep_proper :: Proper (eq ==> equiv ==> iff) crep;
  crep_clean s v blk : crep s v -> blk ∉ cv_held v -> blk ∉ cv_pins v ->
    cv_view v blk = cv_disk v blk;
  crep_held s v : crep s v -> NoDup (cv_held v);
  cbuf_held s v b blk : crep s v -> cbuf s b blk -> blk ∈ cv_held v;
  cread_ok s v blk : crep s v -> blockno_ok blk -> blk ∉ cv_held v -> croom v blk ->
    exists b s', cread dev blk s = Ok b s' /\ crep s' (hold blk v) /\ cbuf s' b blk /\
      forall b' blk', cbuf s b' blk' -> cbuf s' b' blk';
  cdata_ok s v b blk : crep s v -> cbuf s b blk -> cdata b s = Ok (cv_view v blk) s;
  cblockno_ok s v b blk : crep s v -> cbuf s b blk -> cblockno b s = Ok blk s;
  cset_ok s v b blk d : crep s v -> cbuf s b blk ->
    exists s', cset b d s = Ok tt s' /\ crep s' (set_view blk d v) /\
      forall b' blk', cbuf s b' blk' -> cbuf s' b' blk';
  cwrite_ok s v b blk : crep s v -> cbuf s b blk ->
    exists s', cwrite b s = Ok tt s' /\ crep s' (flush blk v) /\
      forall b' blk', cbuf s b' blk' -> cbuf s' b' blk';
  cpin_ok s v b blk : crep s v -> cbuf s b blk -> Z.of_nat (length (cv_pins v)) < 2 ^ 31 ->
    exists s', cpin b s = Ok tt s' /\ crep s' (with_pins (blk :: cv_pins v) v) /\
      forall b' blk', cbuf s b' blk' -> cbuf s' b' blk';
  cunpin_ok s v b blk l1 l2 : crep s v -> cbuf s b blk -> cv_pins v = l1 ++ blk :: l2 ->
    exists s', cunpin b s = Ok tt s' /\ crep s' (with_pins (l1 ++ l2) v) /\
      forall b' blk', cbuf s b' blk' -> cbuf s' b' blk';
  crelse_ok s v b blk l1 l2 : crep s v -> cbuf s b blk -> cv_held v = l1 ++ blk :: l2 ->
    blk ∈ cv_pins v \/ cv_view v blk = cv_disk v blk ->
    exists s', crelse b s = Ok tt s' /\ crep s' (with_held (l1 ++ l2) v) /\
      forall b' blk', blk' <> blk -> cbuf s b' blk' -> cbuf s' b' blk'
}.

(** ** Disk contents as a sequence of writes *)

Fixpoint apply_writes (d : Z -> block) (ws : list (Z * block)) : Z -> block :=
  match ws with
  | [] => d
  | (k, b) :: ws' => apply_writes (cv_upd d k b) ws'
  end.

Lemma apply_writes_app d ws1 ws2 :
  apply_writes d (ws1 ++ ws2) = apply_writes (apply_writes d ws1) ws2.
Proof. revert d. induction ws1 as [|[k b] ws1 IH]; intros d; [done|]. apply IH. Qed.

Lemma apply_writes_ext d d' ws x : (forall k, d k = d' k) -> apply_writes d ws x = apply_writes d' ws x.
Proof.
  revert d d'. induction ws as [|[k b] ws IH]; intros d d' H; [apply H|]. cbn [apply_writes].
  apply IH. intros y. unfold cv_upd. by destruct (y =? k).
Qed.

Lemma apply_writes_other d ws x : x ∉ ws.*1 -> apply_writes d ws x = d x.
Proof.
  revert d. induction ws as [|[k b] ws IH]; intros d H; [done|]. cbn [apply_writes fmap list_fmap] in *.
  apply not_elem_of_cons in H as [Hne H]. rewrite IH by done. unfold cv_upd. simpl in Hne.
  destruct (Z.eqb_spec x k); [done|done].
Qed.

Lemma apply_writes_in d ws x b :
  NoDup ws.*1 -> (x, b) ∈ ws -> apply_writes d ws x = b.
Proof.
  revert d. induction ws as [|[k c] ws IH]; intros d Hnd Hin; [by apply not_elem_of_nil in Hin|].
  cbn [apply_writes fmap list_fmap] in *. apply NoDup_cons in Hnd as [Hni Hnd].
  apply elem_of_cons in Hin as [[= -> ->]|Hin]; [|by apply IH].
  simpl in Hni. rewrite apply_writes_other by done. unfold cv_upd. by rewrite Z.eqb_refl.
Qed.
