(* ===== verification/Sleeplock.v ===== *)
(** * Sleep locks: [src/kernel/sleeplock.c]

    The lock's fields; its spin lock makes each function one step, so that it
    is left out.  [acquiresleep] on a taken lock puts the process to sleep
    (the [while] loop re-runs it when the process is woken up).  The step
    relation at the end interleaves any number of processes. *)

From S2P Require Import Prelude.

Record sleeplock := mksleeplock { locked : bool; lkpid : Z }.

Definition initsleeplock : sleeplock := mksleeplock false 0.

Definition acquiresleep (pid : Z) : M sleeplock unit :=
  let! lk := get in
  if locked lk then sleeps "sleep lock"
  else modify (fun _ => mksleeplock true pid).

Definition releasesleep : M sleeplock unit := modify (fun _ => mksleeplock false 0).

Definition holdingsleep (pid : Z) : M sleeplock bool :=
  gets (fun lk => locked lk && (lkpid lk =? pid)).

(** ** Processes sharing one lock

    A process that finds the lock taken waits; [releasesleep] wakes every
    waiting process, which then competes for the lock again. *)

Inductive lkproc := LkIdle | LkTrying | LkAsleep | LkHolds.

Record lkstate := mklkstate { lk_lock : sleeplock; lk_procs : gmap Z lkproc }.

Inductive lkstep : lkstate -> lkstate -> Prop :=
  | lk_start s p :
      lk_procs s !! p = Some LkIdle ->
      lkstep s (mklkstate (lk_lock s) (<[p := LkTrying]> (lk_procs s)))
  | lk_acquire s p lk :
      lk_procs s !! p = Some LkTrying -> acquiresleep p (lk_lock s) = Ok tt lk ->
      lkstep s (mklkstate lk (<[p := LkHolds]> (lk_procs s)))
  | lk_sleep s p c lk :
      lk_procs s !! p = Some LkTrying -> acquiresleep p (lk_lock s) = Sleeps c lk ->
      lkstep s (mklkstate lk (<[p := LkAsleep]> (lk_procs s)))
  | lk_release s p lk :
      lk_procs s !! p = Some LkHolds -> releasesleep (lk_lock s) = Ok tt lk ->
      lkstep s (mklkstate lk
        ((fun q => match q with LkAsleep => LkTrying | _ => q end) <$> <[p := LkIdle]> (lk_procs s))).

Record lk_inv (s : lkstate) : Prop := {
  lki_holds p : lk_procs s !! p = Some LkHolds <->
    locked (lk_lock s) = true /\ lkpid (lk_lock s) = p /\ is_Some (lk_procs s !! p);
  lki_owner : locked (lk_lock s) = true -> is_Some (lk_procs s !! lkpid (lk_lock s));
  lki_asleep p : lk_procs s !! p = Some LkAsleep -> locked (lk_lock s) = true
}.

Lemma lk_inv_init (procs : gmap Z lkproc) :
  (forall p q, procs !! p = Some q -> q = LkIdle) -> lk_inv (mklkstate initsleeplock procs).
Proof.
  intros H. split; simpl.
  - intros p. split; [intros Hp%H; done|intros (? & _); done].
  - done.
  - intros p Hp%H. done.
Qed.

Lemma lk_inv_step s s' : lk_inv s -> lkstep s s' -> lk_inv s'.
Proof.
  intros [Hh Ho Ha] Hst.
  destruct Hst as [s p Hp|s p lk Hp E|s p c lk Hp E|s p lk Hp E].
  - split; simpl.
    + intros q. destruct (decide (q = p)) as [->|Hne].
      * rewrite lookup_insert_eq. split; [done|]. intros (H1 & H2 & _).
        rewrite <- H2 in Hp. destruct (Ho H1) as [y Hy].
        assert (lk_procs s !! lkpid (lk_lock s) = Some LkHolds) by (apply Hh; eauto). congruence.
      * rewrite lookup_insert_ne by done. apply Hh.
    + intros Hl. destruct (decide (lkpid (lk_lock s) = p)) as [->|]; [rewrite lookup_insert_eq|rewrite lookup_insert_ne by done]; eauto.
    + intros q. destruct (decide (q = p)) as [->|]; [by rewrite lookup_insert_eq|].
      rewrite lookup_insert_ne by done. apply Ha.
  - unfold acquiresleep, get, bind, modify in E. destruct (locked (lk_lock s)) eqn:El; [done|].
    injection E as <-. split; simpl.
    + intros q. destruct (decide (q = p)) as [->|Hne].
      * rewrite lookup_insert_eq. split; [eauto|done].
      * rewrite lookup_insert_ne by done. split; [|intros (_ & -> & _); done].
        intros Hq%Hh. destruct Hq as (Hq & _). congruence.
    + intros _. rewrite lookup_insert_eq. eauto.
    + done.
  - unfold acquiresleep, get, bind, modify, sleeps in E. destruct (locked (lk_lock s)) eqn:El; [|done].
    injection E as <- <-. split; simpl.
    + intros q. destruct (decide (q = p)) as [->|Hne].
      * rewrite lookup_insert_eq. split; [done|]. intros (_ & H2 & _).
        assert (lk_procs s !! p = Some LkHolds) by (apply Hh; eauto). congruence.
      * rewrite lookup_insert_ne by done. rewrite Hh, El. done.
    + intros _. destruct (decide (lkpid (lk_lock s) = p)) as [->|]; [rewrite lookup_insert_eq|rewrite lookup_insert_ne by done]; eauto.
    + done.
  - injection E as <-. split; simpl.
    + intros q. split; [|intros (? & _); done]. rewrite lookup_fmap. intros Hq.
      destruct (decide (q = p)) as [->|Hne]; [rewrite lookup_insert_eq in Hq; done|].
      rewrite lookup_insert_ne in Hq by done.
      destruct (lk_procs s !! q) as [[]|] eqn:Eq; try done.
      apply Hh in Eq as (_ & E1 & _). apply Hh in Hp as (_ & E2 & _). congruence.
    + done.
    + intros q. rewrite lookup_fmap. destruct (<[p := LkIdle]> (lk_procs s) !! q) as [[]|]; done.
Qed.

Inductive lksteps : lkstate -> lkstate -> Prop :=
  | lks_refl s : lksteps s s
  | lks_step s1 s2 s3 : lksteps s1 s2 -> lkstep s2 s3 -> lksteps s1 s3.

Lemma lk_inv_steps s s' : lk_inv s -> lksteps s s' -> lk_inv s'.
Proof. intros Hi. induction 1 as [|s1 s2 s3 _ IH Hst]; [done|]. eapply lk_inv_step; [|done]. auto. Qed.


Definition two_procs : gmap Z lkproc := {[ 1 := LkIdle; 2 := LkIdle ]}.

