(* ===== verification/Bio.v ===== *)
(** * The buffer cache: [src/kernel/fs/bio.c]

    The [NBUF] buffers and the list head are a function from indices to
    [buf] records; index [HEAD] is [bcache.head].  Pointers between buffers are
    indices.  [virtio_disk_rw] appears as its completed effect on the disk
    ([Virtio] models the driver); every write is recorded in [trace].  Each
    section under [bcache.lock] is one step; [mypid] is [myproc()->pid]. *)

From S2P Require Import Prelude Block Sleeplock Cache.

#[local] Set Warnings "-clear-no-such-hyp".

Record buf := mkbuf {
  valid : bool;
  b_dev : Z;
  b_blockno : Z;
  b_lock : sleeplock;
  refcnt : Z;
  b_prev : nat;
  b_next : nat;
  b_data : block
}.

Record bcache := mkbcache {
  bufs : nat -> buf;
  disk : Z -> block;
  trace : list (Z * block)
}.

Definition HEAD : nat := NBUF.

(** Field updates. *)
Definition set_valid (x : bool) (b : buf) : buf :=
  mkbuf x (b_dev b) (b_blockno b) (b_lock b) (refcnt b) (b_prev b) (b_next b) (b_data b).
Definition set_lock (x : sleeplock) (b : buf) : buf :=
  mkbuf (valid b) (b_dev b) (b_blockno b) x (refcnt b) (b_prev b) (b_next b) (b_data b).
Definition set_refcnt (x : Z) (b : buf) : buf :=
  mkbuf (valid b) (b_dev b) (b_blockno b) (b_lock b) x (b_prev b) (b_next b) (b_data b).
Definition set_prev (x : nat) (b : buf) : buf :=
  mkbuf (valid b) (b_dev b) (b_blockno b) (b_lock b) (refcnt b) x (b_next b) (b_data b).
Definition set_next (x : nat) (b : buf) : buf :=
  mkbuf (valid b) (b_dev b) (b_blockno b) (b_lock b) (refcnt b) (b_prev b) x (b_data b).
Definition set_data (x : block) (b : buf) : buf :=
  mkbuf (valid b) (b_dev b) (b_blockno b) (b_lock b) (refcnt b) (b_prev b) (b_next b) x.

Definition fupd (f : nat -> buf) (i : nat) (b : buf) : nat -> buf :=
  fun j => if Nat.eqb j i then b else f j.

Definition with_bufs (f : nat -> buf) (s : bcache) : bcache := mkbcache f (disk s) (trace s).

Definition getb (i : nat) : M bcache buf := gets (fun s => bufs s i).
Definition updb (i : nat) (g : buf -> buf) : M bcache unit :=
  modify (fun s => with_bufs (fupd (bufs s) i (g (bufs s i))) s).

(** The sleep lock of buffer [i]. *)
Definition on_lock {A} (i : nat) (m : M sleeplock A) : M bcache A :=
  zoom (fun s => b_lock (bufs s i))
    (fun lk s => with_bufs (fupd (bufs s) i (set_lock lk (bufs s i))) s) m.

(** Insertion after the head, shared by [binit] and [brelse]:
    [b->next = head.next; b->prev = &head; head.next->prev = b; head.next = b]. *)
Definition link_front (b : nat) : M bcache unit :=
  let! h := getb HEAD in
  updb b (set_next (b_next h)) ;;
  updb b (set_prev HEAD) ;;
  let! h := getb HEAD in
  updb (b_next h) (set_prev b) ;;
  updb HEAD (set_next b).

Definition binit : M bcache unit :=
  updb HEAD (set_prev HEAD) ;;
  updb HEAD (set_next HEAD) ;;
  for_up NBUF 0 (fun i =>
    let b := Z.to_nat i in
    let! h := getb HEAD in
    updb b (set_next (b_next h)) ;;
    updb b (set_prev HEAD) ;;
    updb b (set_lock initsleeplock) ;;
    let! h := getb HEAD in
    updb (b_next h) (set_prev b) ;;
    updb HEAD (set_next b)).

(** [for(b = head.next; b != &head; b = b->next)] looking for the block *)
Fixpoint find_cached (fuel : nat) (b : nat) (dev blockno : Z) (s : bcache) : option nat :=
  match fuel with
  | O => None
  | S f =>
      if Nat.eqb b HEAD then None
      else if (b_dev (bufs s b) =? dev) && (b_blockno (bufs s b) =? blockno) then Some b
      else find_cached f (b_next (bufs s b)) dev blockno s
  end.

(** [for(b = head.prev; b != &head; b = b->prev)] looking for a free buffer *)
Fixpoint find_free (fuel : nat) (b : nat) (s : bcache) : option nat :=
  match fuel with
  | O => None
  | S f =>
      if Nat.eqb b HEAD then None
      else if refcnt (bufs s b) =? 0 then Some b
      else find_free f (b_prev (bufs s b)) s
  end.

(** [virtio_disk_rw(b, write)] when the request has completed. *)
Definition virtio_disk_rw (b : nat) (write : bool) : M bcache unit :=
  if write then
    modify (fun s =>
      let x := bufs s b in
      mkbcache (bufs s) (cv_upd (disk s) (b_blockno x) (b_data x))
        (trace s ++ [(b_blockno x, b_data x)]))
  else
    modify (fun s => with_bufs (fupd (bufs s) b (set_data (disk s (b_blockno (bufs s b))) (bufs s b))) s).

Section bio.
Variable mypid : Z.

Definition bget (dev blockno : Z) : M bcache nat :=
  let! s := get in
  match find_cached (S NBUF) (b_next (bufs s HEAD)) dev blockno s with
  | Some b =>
      updb b (fun x => set_refcnt (u32 (refcnt x + 1)) x) ;;
      on_lock b (acquiresleep mypid) ;;
      ret b
  | None =>
      match find_free (S NBUF) (b_prev (bufs s HEAD)) s with
      | Some b =>
          updb b (fun x => mkbuf false dev blockno (b_lock x) 1 (b_prev x) (b_next x) (b_data x)) ;;
          on_lock b (acquiresleep mypid) ;;
          ret b
      | None => panic "bget: no buffers"
      end
  end.

Definition bread (dev blockno : Z) : M bcache nat :=
  let! b := bget dev blockno in
  let! x := getb b in
  (if negb (valid x) then virtio_disk_rw b false ;; updb b (set_valid true) else ret tt) ;;
  ret b.

Definition bwrite (b : nat) : M bcache unit :=
  let! h := on_lock b (holdingsleep mypid) in
  if negb h then panic "bwrite" else virtio_disk_rw b true.

Definition brelse (b : nat) : M bcache unit :=
  let! h := on_lock b (holdingsleep mypid) in
  if negb h then panic "brelse"
  else
    on_lock b releasesleep ;;
    updb b (fun x => set_refcnt (u32 (refcnt x - 1)) x) ;;
    let! x := getb b in
    if refcnt x =? 0 then
      updb (b_next x) (set_prev (b_prev x)) ;;
      let! x := getb b in
      updb (b_prev x) (set_next (b_next x)) ;;
      link_front b
    else ret tt.

Definition bpin (b : nat) : M bcache unit := updb b (fun x => set_refcnt (u32 (refcnt x + 1)) x).

Definition bunpin (b : nat) : M bcache unit := updb b (fun x => set_refcnt (u32 (refcnt x - 1)) x).

#[export] Instance bio_cache : BlockCache bcache nat := {
  cread := bread;
  cwrite := bwrite;
  crelse := brelse;
  cpin := bpin;
  cunpin := bunpin;
  cdata b := gets (fun s => b_data (bufs s b));
  cset b d := updb b (set_data d);
  cblockno b := gets (fun s => b_blockno (bufs s b))
}.
End bio.
