(* ===== verification/BioProofs.v ===== *)
(** * The buffer cache implements the cache interface

    [content] ties the buffers to the view a client has of them: at most one
    buffer per block, the reference count of a buffer is the number of pins
    plus the lock, referenced and cached contents are the client's.  The LRU
    list is a doubly linked ring.  The instance at the end discharges the laws of
    [CacheSpec] for one device. *)

From S2P Require Import Prelude Block Cache Sleeplock Bio.

#[local] Set Warnings "-clear-no-such-hyp".

(** ** Doubly linked rings

    The pointer structure of the LRU list: a head, and the elements reached from
    it by [next] in one order and by [prev] in the other. *)

Lemma rev_NoDup {A} (l : list A) : NoDup l -> NoDup (rev l).
Proof. rewrite !NoDup_ListNoDup. apply List.NoDup_rev. Qed.

Definition pupd (g : nat -> nat) (i x : nat) : nat -> nat :=
  fun j => if Nat.eqb j i then x else g j.

(** [path g a l z]: following [g] from [a] visits [l] and then [z]. *)
Fixpoint path (g : nat -> nat) (a : nat) (l : list nat) (z : nat) : Prop :=
  match l with
  | [] => g a = z
  | x :: l' => g a = x /\ path g x l' z
  end.

Record ring (nx pv : nat -> nat) (h : nat) (l : list nat) : Prop := {
  ring_next : path nx h l h;
  ring_prev : path pv h (rev l) h;
  ring_nodup : NoDup (h :: l)
}.

Lemma pupd_eq g i x : pupd g i x i = x.
Proof. unfold pupd. by rewrite Nat.eqb_refl. Qed.

Lemma pupd_ne g i x j : j <> i -> pupd g i x j = g j.
Proof. intros H. unfold pupd. destruct (Nat.eqb_spec j i); done. Qed.

Lemma path_app g a l1 x l2 z : path g a (l1 ++ x :: l2) z <-> path g a l1 x /\ path g x l2 z.
Proof.
  revert a. induction l1 as [|y l1 IH]; intros a; simpl; [done|]. rewrite IH. tauto.
Qed.

Lemma path_ext g g' a l z : (forall y, y ∈ a :: l -> g' y = g y) -> path g a l z -> path g' a l z.
Proof.
  revert a. induction l as [|x l IH]; intros a H; simpl.
  - rewrite H; [done|set_solver].
  - intros [E Hp]. rewrite H by set_solver. split; [done|]. apply IH; [|done].
    intros y Hy. apply H. set_solver.
Qed.

(** The last element visited. *)
Definition lastof (a : nat) (l : list nat) : nat := default a (last l).

Lemma lastof_cons a x l : lastof a (x :: l) = lastof x l.
Proof. unfold lastof. destruct l as [|y l]; [done|]. simpl. by destruct (last (y :: l)) eqn:E; [|apply last_None in E]. Qed.

Lemma lastof_in a l : lastof a l ∈ a :: l.
Proof.
  revert a. induction l as [|x l IH]; intros a; [set_solver|]. rewrite lastof_cons.
  specialize (IH x). set_solver.
Qed.

Lemma path_first g a l z : path g a l z -> g a = lastof z (rev l).
Proof.
  destruct l as [|x l]; simpl; [done|]. intros [-> _]. unfold lastof. by rewrite last_snoc.
Qed.

(** Unlinking [b]. *)
Lemma path_skip g a l1 b l2 z :
  path g a l1 b -> path g b l2 z -> NoDup (a :: l1) -> (forall y, y ∈ l2 -> y ∉ a :: l1) ->
  path (pupd g (lastof a l1) (g b)) a (l1 ++ l2) z.
Proof.
  revert a. induction l1 as [|x l1 IH]; intros a; simpl.
  - intros Ea Hb _ Hd. unfold lastof. simpl. destruct l2 as [|y l2]; simpl in *.
    + by rewrite pupd_eq.
    + rewrite pupd_eq. destruct Hb as [E Hb]. split; [done|]. eapply path_ext; [|done].
      intros w Hw. apply pupd_ne. intros ->. apply (Hd a); set_solver.
  - intros [E Hp] Hb Hnd Hd. apply NoDup_cons in Hnd as [Hni Hnd]. rewrite lastof_cons.
    rewrite pupd_ne; [|intros ->; pose proof (lastof_in x l1); done].
    split; [done|]. apply IH; [done|done|done|]. intros y Hy. specialize (Hd y Hy). set_solver.
Qed.

(** Linking [b] at the near end and at the far end. *)
Lemma path_cons_front g h l z b :
  b ∉ h :: l -> h ∉ l -> path g h l z -> path (pupd (pupd g b (g h)) h b) h (b :: l) z.
Proof.
  intros Hb Hh Hp. simpl. rewrite pupd_eq. split; [done|].
  assert (b <> h) by set_solver.
  destruct l as [|x l]; simpl in *.
  - rewrite pupd_ne, pupd_eq by done. done.
  - rewrite pupd_ne, pupd_eq by done. destruct Hp as [E Hp]. split; [done|].
    eapply path_ext; [|done]. intros y Hy. rewrite !pupd_ne; [done|set_solver|set_solver].
Qed.

Lemma path_snoc_back g h l z b :
  b ∉ h :: l -> NoDup (h :: l) -> path g h l z ->
  path (pupd (pupd g b z) (lastof h l) b) h (l ++ [b]) z.
Proof.
  intros Hb Hnd Hp. revert h Hb Hnd Hp. induction l as [|x l IH]; intros h Hb Hnd Hp; simpl.
  - unfold lastof. simpl. rewrite pupd_eq. split; [done|].
    rewrite pupd_ne, pupd_eq by set_solver. done.
  - simpl in Hp. destruct Hp as [E Hp]. apply NoDup_cons in Hnd as [Hni Hnd]. rewrite lastof_cons.
    pose proof (lastof_in x l).
    rewrite !pupd_ne; [|set_solver|intros ->; done]. split; [done|]. apply IH; [set_solver|done|done].
Qed.

Lemma ring_neighbours nx pv h l1 b l2 :
  ring nx pv h (l1 ++ b :: l2) -> nx b = lastof h (rev l2) /\ pv b = lastof h l1.
Proof.
  intros [Hn Hp _]. apply path_app in Hn as [_ Hn]. rewrite rev_app_distr in Hp. simpl in Hp.
  rewrite <- app_assoc in Hp. simpl in Hp. apply path_app in Hp as [_ Hp].
  split; [by apply path_first|]. apply path_first in Hp. by rewrite rev_involutive in Hp.
Qed.

Lemma ring_unlink nx pv h l1 b l2 :
  ring nx pv h (l1 ++ b :: l2) ->
  ring (pupd nx (pv b) (nx b)) (pupd pv (nx b) (pv b)) h (l1 ++ l2).
Proof.
  intros Hr. destruct (ring_neighbours _ _ _ _ _ _ Hr) as [En Ep]. destruct Hr as [Hn Hp Hnd].
  apply NoDup_cons in Hnd as [Hh Hnd]. apply NoDup_app in Hnd as (Hnd1 & Hd & Hnd2).
  apply NoDup_cons in Hnd2 as [Hb2 Hnd2].
  apply path_app in Hn as [Hn1 Hn2]. rewrite rev_app_distr in Hp. simpl in Hp.
  rewrite <- app_assoc in Hp. simpl in Hp. apply path_app in Hp as [Hp1 Hp2].
  split.
  - rewrite Ep. apply path_skip; [done|done|constructor; [set_solver|done]|].
    intros y Hy [->|Hy']%elem_of_cons; [set_solver|]. apply (Hd y Hy'). set_solver.
  - rewrite En, rev_app_distr. apply path_skip; [done|done|..].
    + constructor; [rewrite elem_of_rev; set_solver|by apply rev_NoDup].
    + intros y. rewrite elem_of_rev, elem_of_cons, elem_of_rev. intros Hy [->|Hy']; [set_solver|].
      apply (Hd y Hy). set_solver.
  - constructor; [set_solver|]. apply NoDup_app. split; [done|]. split; [|done].
    intros y Hy Hy'. apply (Hd y Hy). set_solver.
Qed.

Lemma ring_link nx pv h l b :
  ring nx pv h l -> b ∉ h :: l ->
  ring (pupd (pupd nx b (nx h)) h b) (pupd (pupd pv b h) (nx h) b) h (b :: l).
Proof.
  intros [Hn Hp Hnd] Hb. apply NoDup_cons in Hnd as [Hh Hnd]. split.
  - by apply path_cons_front.
  - simpl. rewrite (path_first _ _ _ _ Hn). apply path_snoc_back; [|..|done].
    + rewrite elem_of_cons, elem_of_rev. set_solver.
    + constructor; [by rewrite elem_of_rev|by apply rev_NoDup].
  - constructor; [set_solver|]. constructor; [set_solver|done].
Qed.

Lemma fupd_eq f i b : fupd f i b i = b.
Proof. unfold fupd. by rewrite Nat.eqb_refl. Qed.

Lemma fupd_ne f i b j : j <> i -> fupd f i b j = f j.
Proof. intros H. unfold fupd. destruct (Nat.eqb_spec j i); done. Qed.

(** Case analysis on the buffer an update touches. *)
Ltac case_buf i b :=
  destruct (decide (i = b)) as [->|?];
  [rewrite ?fupd_eq in *|rewrite ?(fupd_ne _ b _ i) in * by done].

Definition count (blk : Z) (l : list Z) : nat := count_occ Z.eq_dec l blk.

#[global] Arguments count : simpl never.

Lemma count_cons blk x l : count blk (x :: l) = ((if decide (x = blk) then 1 else 0) + count blk l)%nat.
Proof. unfold count. simpl. destruct (Z.eq_dec x blk), (decide (x = blk)); done. Qed.

Lemma count_app blk l1 l2 : count blk (l1 ++ l2) = (count blk l1 + count blk l2)%nat.
Proof. apply count_occ_app. Qed.

Lemma count_pos blk l : (0 < count blk l)%nat <-> blk ∈ l.
Proof. unfold count. rewrite list_elem_of_In, (count_occ_In Z.eq_dec). lia. Qed.

Lemma count_le blk l : (count blk l <= length l)%nat.
Proof. unfold count. induction l as [|x l IH]; simpl; [lia|]. destruct (Z.eq_dec x blk); lia. Qed.

Definition refs (v : cview) (blk : Z) : Z :=
  Z.of_nat (count blk (cv_pins v)) + (if decide (blk ∈ cv_held v) then 1 else 0).

(** Cache states are compared buffer by buffer. *)
#[export] Instance bcache_equiv : Equiv bcache := fun s s' =>
  (forall i, bufs s i = bufs s' i) /\ disk s = disk s' /\ trace s = trace s'.

#[export] Instance bcache_equivalence : Equivalence (≡@{bcache}).
Proof.
  split.
  - done.
  - intros s s' (E1 & E2 & E3). split; [intros i; by rewrite E1|done].
  - intros s1 s2 s3 (E1 & E2 & E3) (E1' & E2' & E3').
    split; [intros i; by rewrite E1|]. split; congruence.
Qed.

Lemma fupd_fupd f b x y d tr :
  mkbcache (fupd (fupd f b x) b y) d tr ≡ mkbcache (fupd f b y) d tr.
Proof. split; [|done]. intros i. simpl. by case_buf i b. Qed.

Section bio_proofs.
Variables (mypid dev : Z).

Definition live (f : nat -> buf) (i : nat) : Prop := (i < NBUF)%nat /\ b_dev (f i) = dev.

Definition lock_of (v : cview) (blk : Z) : sleeplock :=
  if decide (blk ∈ cv_held v) then mksleeplock true mypid else initsleeplock.

Record content (f : nat -> buf) (d : Z -> block) (v : cview) : Prop := {
  ct_dead i : (i < NBUF)%nat -> b_dev (f i) <> dev -> refcnt (f i) = 0 /\ b_lock (f i) = initsleeplock;
  ct_uniq i j : live f i -> live f j -> b_blockno (f i) = b_blockno (f j) -> i = j;
  ct_valid i : live f i -> valid (f i) = true /\ b_data (f i) = cv_view v (b_blockno (f i));
  ct_ref i : live f i -> refcnt (f i) = refs v (b_blockno (f i));
  ct_lock i : live f i -> b_lock (f i) = lock_of v (b_blockno (f i));
  ct_in blk : blk ∈ cv_held v \/ blk ∈ cv_pins v -> exists i, live f i /\ b_blockno (f i) = blk;
  ct_disk blk : cv_disk v blk = d blk;
  ct_clean blk : blk ∉ cv_held v -> blk ∉ cv_pins v -> cv_view v blk = d blk;
  ct_nodup : NoDup (cv_held v);
  ct_small : Z.of_nat (length (cv_pins v)) <= 2 ^ 31
}.

(** The links do not matter. *)
Lemma content_ext f f' d v :
  (forall i, valid (f' i) = valid (f i) /\ b_dev (f' i) = b_dev (f i) /\ b_blockno (f' i) = b_blockno (f i) /\
     b_lock (f' i) = b_lock (f i) /\ refcnt (f' i) = refcnt (f i) /\ b_data (f' i) = b_data (f i)) ->
  content f d v -> content f' d v.
Proof.
  intros E [H1 H2 H3 H4 H5 H6 H7 H8 H9 H10].
  assert (L : forall i, live f' i <-> live f i).
  { intros i. unfold live. by destruct (E i) as (_ & -> & _). }
  split; try done.
  - intros i. destruct (E i) as (_ & -> & _ & -> & -> & _). apply H1.
  - intros i j. rewrite !L. destruct (E i) as (_ & _ & -> & _). destruct (E j) as (_ & _ & -> & _). apply H2.
  - intros i. rewrite L. destruct (E i) as (-> & _ & -> & _ & _ & ->). apply H3.
  - intros i. rewrite L. destruct (E i) as (_ & _ & -> & _ & -> & _). apply H4.
  - intros i. rewrite L. destruct (E i) as (_ & _ & -> & -> & _ & _). apply H5.
  - intros blk (i & Hi & Eb)%H6. exists i. rewrite L. by destruct (E i) as (_ & _ & -> & _).
Qed.

Lemma content_equiv f d v v' : v ≡ v' -> content f d v -> content f d v'.
Proof.
  intros [E1 E2 E3 E4 E5] [H1 H2 H3 H4 H5 H6 H7 H8 H9 H10]. split; try done.
  - intros i Hi. rewrite <- E1. auto.
  - intros i Hi. unfold refs. rewrite <- E4, <- E5. by apply H4.
  - intros i Hi. unfold lock_of. rewrite <- E4. by apply H5.
  - intros blk. rewrite <- E4, <- E5. apply H6.
  - intros blk. by rewrite <- E2.
  - intros blk. rewrite <- E4, <- E5, <- E1. apply H8.
  - by rewrite <- E4.
  - by rewrite <- E5.
Qed.

Lemma live_fupd f b x i : b_dev x = b_dev (f b) -> live (fupd f b x) i <-> live f i.
Proof. intros E. unfold live. case_buf i b; [by rewrite E|done]. Qed.

(** ** Changes of one buffer *)

(** Locking a cached block. *)
Lemma content_hold f d v b blk :
  content f d v -> live f b -> b_blockno (f b) = blk -> blk ∉ cv_held v ->
  content (fupd f b (set_lock (mksleeplock true mypid) (set_refcnt (refcnt (f b) + 1) (f b)))) d (hold blk v).
Proof.
  intros [H1 H2 H3 H4 H5 H6 H7 H8 H9 H10] Hb Eb Hni.
  assert (L : forall i, live (fupd f b (set_lock (mksleeplock true mypid) (set_refcnt (refcnt (f b) + 1) (f b)))) i
    <-> live f i) by (intros i; by apply live_fupd).
  assert (Hne : forall i, live f i -> i <> b -> b_blockno (f i) <> blk).
  { intros i Hi Hib E. apply Hib, H2; [done|done|congruence]. }
  split; try done.
  - intros i Hi Hd. case_buf i b; [|by apply H1]. simpl in Hd. by destruct Hb.
  - intros i j. rewrite !L. intros Hi Hj. case_buf i b; case_buf j b; simpl; auto.
  - intros i. rewrite L. intros Hi. case_buf i b; apply H3; done.
  - intros i. rewrite L. intros Hi. unfold refs, hold. simpl. case_buf i b; simpl.
    + rewrite Eb. rewrite (H4 b Hb), Eb. unfold refs. rewrite decide_False by done.
      rewrite decide_True by set_solver. lia.
    + rewrite (H4 i Hi). unfold refs. f_equal. pose proof (Hne i Hi ltac:(done)).
      repeat case_decide; try done; set_solver.
  - intros i. rewrite L. intros Hi. unfold lock_of, hold. simpl. case_buf i b; simpl.
    + rewrite Eb, decide_True by set_solver. done.
    + rewrite (H5 i Hi). unfold lock_of. pose proof (Hne i Hi ltac:(done)).
      repeat case_decide; try done; set_solver.
  - intros x Hx. assert (Hx' : x = blk \/ (x ∈ cv_held v \/ x ∈ cv_pins v)) by (simpl in Hx; set_solver).
    destruct Hx' as [->|(i & Hi & E)%H6].
    + exists b. rewrite L. split; [done|]. by rewrite fupd_eq.
    + exists i. rewrite L. split; [done|]. by case_buf i b.
  - intros x Hx Hp. simpl in *. apply H8; [set_solver|done].
  - simpl. constructor; done.
Qed.

(** Recycling an unreferenced buffer for a block that is not cached. *)
Lemma content_recycle f d v b blk :
  content f d v -> (b < NBUF)%nat -> refcnt (f b) = 0 ->
  (forall i, live f i -> b_blockno (f i) <> blk) ->
  content (fupd f b (mkbuf true dev blk (mksleeplock true mypid) 1 (b_prev (f b)) (b_next (f b)) (d blk)))
    d (hold blk v).
Proof.
  intros [H1 H2 H3 H4 H5 H6 H7 H8 H9 H10] Hb Hr Hun.
  set (x := mkbuf _ _ _ _ _ _ _ _).
  assert (Hni : (blk ∉ cv_held v) /\ (blk ∉ cv_pins v)).
  { split; intros Hin; destruct (H6 blk) as (i & Hi & E); auto; by apply (Hun i). }
  assert (L : forall i, i <> b -> live (fupd f b x) i <-> live f i).
  { intros i Hi. unfold live. by rewrite fupd_ne. }
  assert (Hrb : live f b -> refs v (b_blockno (f b)) = 0) by (intros Hl; by rewrite <- H4).
  assert (Hgone : live f b -> (b_blockno (f b) ∉ cv_held v) /\ (b_blockno (f b) ∉ cv_pins v)).
  { intros Hl. specialize (Hrb Hl). unfold refs in Hrb. rewrite <- (count_pos _ (cv_pins v)).
    case_decide; split; (done || lia). }
  split; try done.
  - intros i Hi Hd. case_buf i b; [done|by apply H1].
  - intros i j Hi Hj. case_buf i b; case_buf j b; simpl; try done.
    + intros E. apply (L j) in Hj; [|done]. exfalso. by apply (Hun j).
    + intros E. apply (L i) in Hi; [|done]. exfalso. by apply (Hun i).
    + apply H2; [by apply L|by apply L].
  - intros i Hi. case_buf i b; simpl; [|apply H3; by apply L].
    split; [done|]. symmetry. apply H8; tauto.
  - intros i Hi. unfold refs, hold. simpl. case_buf i b; simpl.
    + rewrite decide_True by set_solver. assert (count blk (cv_pins v) = 0%nat) as ->; [|done].
      destruct Hni as [_ Hp]. rewrite <- count_pos in Hp. lia.
    + apply (L i) in Hi; [|done]. rewrite (H4 i Hi). unfold refs. f_equal. pose proof (Hun i Hi).
      repeat case_decide; try done; set_solver.
  - intros i Hi. unfold lock_of, hold. simpl. case_buf i b; simpl.
    + rewrite decide_True by set_solver. done.
    + apply (L i) in Hi; [|done]. rewrite (H5 i Hi). unfold lock_of. pose proof (Hun i Hi).
      repeat case_decide; try done; set_solver.
  - intros y Hy. assert (Hy' : y = blk \/ (y ∈ cv_held v \/ y ∈ cv_pins v)) by (simpl in Hy; set_solver).
    destruct Hy' as [->|Hy'].
    + exists b. unfold live. by rewrite fupd_eq.
    + destruct (H6 y Hy') as (i & Hi & E). exists i. destruct (decide (i = b)) as [->|].
      * exfalso. destruct (Hgone Hi). rewrite E in *. tauto.
      * rewrite L, fupd_ne by done. done.
  - intros y Hy Hp. simpl in *. apply H8; [set_solver|done].
  - simpl. constructor; tauto.
Qed.

(** Storing into the data of a held buffer. *)
Lemma content_set f d v b blk data :
  content f d v -> live f b -> b_blockno (f b) = blk -> blk ∈ cv_held v ->
  content (fupd f b (set_data data (f b))) d (set_view blk data v).
Proof.
  intros [H1 H2 H3 H4 H5 H6 H7 H8 H9 H10] Hb Eb Hin.
  assert (L : forall i, live (fupd f b (set_data data (f b))) i <-> live f i) by (intros i; by apply live_fupd).
  split; try done.
  - intros i Hi Hd. case_buf i b; by apply H1.
  - intros i j. rewrite !L. intros Hi Hj. case_buf i b; case_buf j b; simpl; auto.
  - intros i. rewrite L. intros Hi. simpl. unfold cv_upd. case_buf i b; simpl.
    + rewrite Eb, Z.eqb_refl. split; [by apply H3|done].
    + destruct (Z.eqb_spec (b_blockno (f i)) blk) as [E|]; [|by apply H3].
      exfalso. assert (i = b) by (apply H2; [done|done|congruence]). done.
  - intros i. rewrite L. intros Hi. case_buf i b; simpl; by apply H4.
  - intros i. rewrite L. intros Hi. case_buf i b; simpl; by apply H5.
  - intros x (i & Hi & E)%H6. exists i. rewrite L. split; [done|]. by case_buf i b.
  - intros x Hx Hp. simpl in *. unfold cv_upd. destruct (Z.eqb_spec x blk) as [->|]; [done|auto].
Qed.

Lemma content_flush f d v b blk :
  content f d v -> live f b -> b_blockno (f b) = blk ->
  content f (cv_upd d blk (b_data (f b))) (flush blk v).
Proof.
  intros [H1 H2 H3 H4 H5 H6 H7 H8 H9 H10] Hb Eb.
  destruct (H3 b Hb) as [_ Ed]. rewrite Eb in Ed.
  split; try done.
  - intros x. simpl. unfold cv_upd. by destruct (x =? blk).
  - intros x Hx Hp. simpl in *. unfold cv_upd. destruct (Z.eqb_spec x blk) as [->|]; [done|auto].
Qed.

(** Changing the number of references by pins. *)
Lemma content_pins f d v b blk pins r :
  content f d v -> live f b -> b_blockno (f b) = blk -> blk ∈ cv_held v ->
  (forall x, x <> blk -> count x pins = count x (cv_pins v)) ->
  Z.of_nat (length pins) <= 2 ^ 31 -> r = refs (with_pins pins v) blk ->
  content (fupd f b (set_refcnt r (f b))) d (with_pins pins v).
Proof.
  intros [H1 H2 H3 H4 H5 H6 H7 H8 H9 H10] Hb Eb Hin Hcnt Hlen ->.
  assert (L : forall i, live (fupd f b (set_refcnt (refs (with_pins pins v) blk) (f b))) i <-> live f i)
    by (intros i; by apply live_fupd).
  assert (Hp : forall x, x <> blk -> x ∈ pins <-> x ∈ cv_pins v).
  { intros x Hx. by rewrite <- !count_pos, Hcnt. }
  split; try done.
  - intros i Hi Hd. case_buf i b; [|by apply H1]. simpl in Hd. by destruct Hb.
  - intros i j. rewrite !L. intros Hi Hj. case_buf i b; case_buf j b; simpl; auto.
  - intros i. rewrite L. intros Hi. case_buf i b; by apply H3.
  - intros i. rewrite L. intros Hi. case_buf i b; simpl; [by rewrite Eb|].
    rewrite (H4 i Hi). unfold refs. simpl. rewrite Hcnt; [done|].
    intros E. assert (i = b) by (apply H2; [done|done|congruence]). done.
  - intros i. rewrite L. intros Hi. case_buf i b; simpl; by apply H5.
  - intros x Hx. destruct (H6 x) as (i & Hi & E).
    { simpl in Hx. destruct (decide (x = blk)) as [->|]; [auto|]. rewrite <- Hp; auto. }
    exists i. rewrite L. split; [done|]. by case_buf i b.
  - intros x Hx Hxp. simpl in *. apply H8; [done|]. destruct (decide (x = blk)) as [->|]; [done|].
    by rewrite <- Hp.
Qed.

(** Unlocking. *)
Lemma content_release f d v b blk l1 l2 :
  content f d v -> live f b -> b_blockno (f b) = blk -> cv_held v = l1 ++ blk :: l2 ->
  blk ∈ cv_pins v \/ cv_view v blk = cv_disk v blk ->
  content (fupd f b (set_refcnt (refcnt (f b) - 1) (set_lock initsleeplock (f b)))) d (with_held (l1 ++ l2) v).
Proof.
  intros [H1 H2 H3 H4 H5 H6 H7 H8 H9 H10] Hb Eb Hh Hcl. set (x := set_refcnt _ _).
  assert (L : forall i, live (fupd f b x) i <-> live f i) by (intros i; by apply live_fupd).
  rewrite Hh in H9. apply NoDup_app in H9 as (Hn1 & Hd & Hn2). apply NoDup_cons in Hn2 as [Hb2 Hn2].
  assert (Hb1 : blk ∉ l1) by (intros Hin; apply (Hd blk Hin); set_solver).
  assert (Hin : forall y, y <> blk -> y ∈ l1 ++ l2 <-> y ∈ cv_held v) by (intros y Hy; rewrite Hh; set_solver).
  assert (Hne : forall i, live f i -> i <> b -> b_blockno (f i) <> blk).
  { intros i Hi Hib E. apply Hib, H2; [done|done|congruence]. }
  split; try done.
  - intros i Hi Hdd. case_buf i b; [|by apply H1]. simpl in Hdd. by destruct Hb.
  - intros i j. rewrite !L. intros Hi Hj. case_buf i b; case_buf j b; simpl; auto.
  - intros i. rewrite L. intros Hi. case_buf i b; by apply H3.
  - intros i. rewrite L. intros Hi. unfold refs. simpl. case_buf i b; simpl.
    + rewrite (H4 b Hb), Eb. unfold refs. rewrite decide_True by (rewrite Hh; set_solver).
      rewrite decide_False by set_solver. lia.
    + rewrite (H4 i Hi). unfold refs. f_equal. pose proof (Hin _ (Hne i Hi ltac:(done))).
      repeat case_decide; tauto.
  - intros i. rewrite L. intros Hi. unfold lock_of. simpl. case_buf i b; simpl.
    + rewrite Eb, decide_False by set_solver. done.
    + rewrite (H5 i Hi). unfold lock_of. pose proof (Hin _ (Hne i Hi ltac:(done))).
      repeat case_decide; tauto.
  - intros y Hy. simpl in Hy. destruct (H6 y) as (i & Hi & E).
    { destruct Hy; [left; rewrite Hh; set_solver|by right]. }
    exists i. rewrite L. split; [done|]. by case_buf i b.
  - intros y Hy Hp. simpl in *. destruct (decide (y = blk)) as [->|].
    + destruct Hcl as [|Hcl]; [done|]. by rewrite Hcl.
    + apply H8; [|done]. by rewrite <- Hin.
  - simpl. apply NoDup_app. split; [done|]. split; [|done]. intros y Hy Hy'. apply (Hd y Hy). set_solver.
Qed.

(** ** The list searches *)

Lemma find_cached_path s l a fuel blk :
  path (fun i => b_next (bufs s i)) a l HEAD -> HEAD ∉ l -> (length l < fuel)%nat ->
  match find_cached fuel (b_next (bufs s a)) dev blk s with
  | Some b => b ∈ l /\ b_dev (bufs s b) = dev /\ b_blockno (bufs s b) = blk
  | None => forall b, b ∈ l -> b_dev (bufs s b) = dev -> b_blockno (bufs s b) <> blk
  end.
Proof.
  revert a fuel. induction l as [|x l IH]; intros a fuel Hp Hh Hf; (destruct fuel as [|fuel]; [simpl in Hf; lia|]).
  - simpl in *. rewrite Hp, Nat.eqb_refl. set_solver.
  - simpl in Hp. destruct Hp as [E Hp]. cbn [find_cached]. rewrite E.
    destruct (Nat.eqb_spec x HEAD) as [->|_]; [set_solver|].
    destruct (Z.eqb_spec (b_dev (bufs s x)) dev) as [Ed|Ed]; simpl.
    + destruct (Z.eqb_spec (b_blockno (bufs s x)) blk) as [Eb|Eb]; [set_solver|].
      specialize (IH x fuel Hp ltac:(set_solver) ltac:(simpl in Hf; lia)).
      destruct (find_cached _ _ _ _ _); [set_solver|]. intros b [->|Hb]%elem_of_cons; auto.
    + specialize (IH x fuel Hp ltac:(set_solver) ltac:(simpl in Hf; lia)).
      destruct (find_cached _ _ _ _ _); [set_solver|]. intros b [->|Hb]%elem_of_cons; [done|auto].
Qed.

Lemma find_free_path s l a fuel :
  path (fun i => b_prev (bufs s i)) a l HEAD -> HEAD ∉ l -> (length l < fuel)%nat ->
  match find_free fuel (b_prev (bufs s a)) s with
  | Some b => b ∈ l /\ refcnt (bufs s b) = 0
  | None => forall b, b ∈ l -> refcnt (bufs s b) <> 0
  end.
Proof.
  revert a fuel. induction l as [|x l IH]; intros a fuel Hp Hh Hf; (destruct fuel as [|fuel]; [simpl in Hf; lia|]).
  - simpl in *. rewrite Hp, Nat.eqb_refl. set_solver.
  - simpl in Hp. destruct Hp as [E Hp]. cbn [find_free]. rewrite E.
    destruct (Nat.eqb_spec x HEAD) as [->|_]; [set_solver|].
    destruct (Z.eqb_spec (refcnt (bufs s x)) 0) as [Er|Er]; [set_solver|].
    specialize (IH x fuel Hp ltac:(set_solver) ltac:(simpl in Hf; lia)).
    destruct (find_free _ _ _); [set_solver|]. intros b [->|Hb]%elem_of_cons; auto.
Qed.

(** ** States *)

Record bio_rep (s : bcache) (v : cview) (lru : list nat) : Prop := {
  br_ring : ring (fun i => b_next (bufs s i)) (fun i => b_prev (bufs s i)) HEAD lru;
  br_all i : i ∈ lru <-> (i < NBUF)%nat;
  br_content : content (bufs s) (disk s) v;
  br_trace : cv_trace v = trace s
}.

Lemma ring_ext nx pv nx' pv' h l :
  (forall i, nx' i = nx i) -> (forall i, pv' i = pv i) -> ring nx pv h l -> ring nx' pv' h l.
Proof. intros E1 E2 [H1 H2 H3]. split; [eapply path_ext; [|exact H1]; auto|eapply path_ext; [|exact H2]; auto|done]. Qed.

(** An update that keeps the links. *)
Lemma bio_rep_keep s v lru b x d v' :
  bio_rep s v lru -> b_next x = b_next (bufs s b) -> b_prev x = b_prev (bufs s b) ->
  content (fupd (bufs s) b x) d v' -> forall tr, cv_trace v' = tr ->
  bio_rep (mkbcache (fupd (bufs s) b x) d tr) v' lru.
Proof.
  intros [Hr Ha _ _] En Ep Hc tr Ht. split; [|done|done|done]. simpl.
  eapply ring_ext; [..|exact Hr]; intros i; simpl; by case_buf i b.
Qed.

Lemma lru_length s v lru : bio_rep s v lru -> length lru = NBUF.
Proof.
  intros [[_ _ Hnd] Ha _ _]. apply NoDup_cons in Hnd as [_ Hnd].
  assert (lru ≡ₚ seq 0 NBUF) as ->; [|apply length_seq].
  apply NoDup_Permutation; [done|apply NoDup_seq|]. intros i. rewrite Ha, elem_of_seq. lia.
Qed.

(** With fewer than [NBUF] references some buffer is free. *)
Lemma free_exists s v lru :
  bio_rep s v lru -> (length (cv_pins v) + length (cv_held v) < NBUF)%nat ->
  exists b, b ∈ lru /\ refcnt (bufs s b) = 0.
Proof.
  intros Hrep Hlt. pose proof (lru_length _ _ _ Hrep) as Hlen. destruct Hrep as [[_ _ Hnd] Ha Hc _].
  destruct (decide (Exists (fun b => refcnt (bufs s b) = 0) lru)) as [He|Hne].
  { apply Exists_exists in He. done. }
  exfalso. apply not_Exists_Forall in Hne; [|intros ?; apply _]. rewrite Forall_forall in Hne.
  assert (Hlive : forall b, b ∈ lru -> live (bufs s) b).
  { intros b Hb. split; [by apply Ha|]. destruct (decide (b_dev (bufs s b) = dev)) as [|Hd]; [done|].
    exfalso. apply (Hne b Hb). apply (ct_dead _ _ _ Hc); [by apply Ha|done]. }
  assert (Hsub : (fun b => b_blockno (bufs s b)) <$> lru ⊆+ cv_pins v ++ cv_held v).
  { apply NoDup_submseteq.
    - apply NoDup_cons in Hnd as [_ Hnd].
      apply NoDup_fmap_2_strong; [|done]. intros i j Hi Hj E. by apply (ct_uniq _ _ _ Hc); auto.
    - intros blk (b & -> & Hb)%list_elem_of_fmap. specialize (Hne b Hb). unfold compose in Hne.
      rewrite (ct_ref _ _ _ Hc) in Hne by auto. unfold refs in Hne. rewrite elem_of_app, <- count_pos.
      case_decide; [tauto|lia]. }
  apply submseteq_length in Hsub. rewrite length_fmap, length_app in Hsub. lia.
Qed.

Definition bio_crep (s : bcache) (v : cview) : Prop := exists lru, bio_rep s v lru.

Definition bio_buf (s : bcache) (b : nat) (blk : Z) : Prop :=
  live (bufs s) b /\ b_blockno (bufs s b) = blk /\ locked (b_lock (bufs s b)) = true.

(** The buffers of other blocks are not affected by an update of [b]. *)
Lemma bio_buf_keep f b x d tr s b' blk' :
  f = bufs s -> b_dev x = b_dev (f b) -> b_blockno x = b_blockno (f b) ->
  (locked (b_lock (f b)) = true -> locked (b_lock x) = true) ->
  bio_buf s b' blk' -> bio_buf (mkbcache (fupd f b x) d tr) b' blk'.
Proof.
  intros -> E1 E2 E3 ((Hl & Hd) & Hb & Hlk). unfold bio_buf, live. simpl.
  case_buf b' b; [|done]. rewrite E1, E2. auto.
Qed.

#[local] Instance bio_crep_proper : Proper (equiv ==> equiv ==> iff) bio_crep.
Proof.
  assert (H : forall s s' v v', s ≡ s' -> v ≡ v' -> bio_crep s v -> bio_crep s' v').
  { intros s s' v v' (E1 & E2 & E3) Ev (lru & [Hr Ha Hc Ht]). exists lru. split.
    - eapply ring_ext; [..|exact Hr]; intros i; simpl; by rewrite E1.
    - done.
    - rewrite <- E2. eapply content_equiv; [exact Ev|]. eapply content_ext; [|exact Hc].
      intros i. by rewrite E1.
    - rewrite <- E3, <- Ht. symmetry. apply Ev. }
  intros s s' Es v v' Ev. split; apply H; done.
Qed.

#[local] Instance bio_buf_proper : Proper (equiv ==> eq ==> eq ==> iff) bio_buf.
Proof.
  intros s s' (E1 & _ & _) b ? <- blk ? <-. unfold bio_buf, live. by rewrite E1.
Qed.

Lemma bio_buf_held s v b blk : bio_crep s v -> bio_buf s b blk -> blk ∈ cv_held v.
Proof.
  intros (lru & Hr) (Hl & <- & Hlk). rewrite (ct_lock _ _ _ (br_content _ _ _ Hr)) in Hlk by done.
  unfold lock_of in Hlk. by case_decide.
Qed.

Lemma holding_run s v b blk :
  bio_crep s v -> bio_buf s b blk -> exists s', on_lock b (holdingsleep mypid) s = Ok true s' /\ s' ≡ s.
Proof.
  intros Hc Hb. pose proof (bio_buf_held _ _ _ _ Hc Hb) as Hin.
  destruct Hc as (lru & Hr), Hb as (Hl & <- & Hlk).
  pose proof (ct_lock _ _ _ (br_content _ _ _ Hr) b Hl) as E. unfold lock_of in E.
  rewrite decide_True in E by done. unfold on_lock, zoom, holdingsleep, gets. rewrite E. simpl.
  rewrite Z.eqb_refl. eexists. split; [reflexivity|]. split; [|done]. intros i. simpl.
  case_buf i b; [|done]. rewrite <- E. by destruct (bufs s b).
Qed.

Lemma refs_bound f d v blk : content f d v -> 0 <= refs v blk <= 2 ^ 31 + 1.
Proof.
  intros Hc. unfold refs. pose proof (count_le blk (cv_pins v)). pose proof (ct_small _ _ _ Hc).
  case_decide; lia.
Qed.

Lemma free_lock f d v b : content f d v -> (b < NBUF)%nat -> refcnt (f b) = 0 -> b_lock (f b) = initsleeplock.
Proof.
  intros Hc Hb Hr. destruct (decide (b_dev (f b) = dev)) as [Hd|Hd]; [|by apply (ct_dead _ _ _ Hc)].
  assert (Hl : live f b) by done. rewrite (ct_lock _ _ _ Hc b Hl). unfold lock_of.
  rewrite (ct_ref _ _ _ Hc b Hl) in Hr. unfold refs in Hr. case_decide; [lia|done].
Qed.

Lemma bread_run s v blk :
  bio_crep s v -> blk ∉ cv_held v -> croom v blk ->
  exists b s', bread mypid dev blk s = Ok b s' /\ bio_crep s' (hold blk v) /\ bio_buf s' b blk /\
    forall b' blk', bio_buf s b' blk' -> bio_buf s' b' blk'.
Proof.
  intros (lru & Hr) Hni Hroom. pose proof Hr as [Hring Ha Hc Ht].
  pose proof (lru_length _ _ _ Hr) as Hlen.
  assert (HH : HEAD ∉ lru) by (destruct Hring as [_ _ Hnd]; by apply NoDup_cons in Hnd as [? _]).
  pose proof (find_cached_path s lru HEAD (S NBUF) blk (ring_next _ _ _ _ Hring) HH ltac:(lia)) as Hf.
  unfold bread, bget, bind at 1 2, get.
  destruct (find_cached _ _ _ _ _) as [b|].
  - destruct Hf as (Hb & Hd & Eb). apply Ha in Hb. assert (Hl : live (bufs s) b) by done.
    pose proof (ct_ref _ _ _ Hc b Hl) as Eref. rewrite Eb in Eref.
    pose proof (refs_bound _ _ _ blk Hc) as Hbd.
    pose proof (ct_lock _ _ _ Hc b Hl) as Elk. unfold lock_of in Elk. rewrite Eb, decide_False in Elk by done.
    pose proof (content_hold _ _ _ b blk Hc Hl Eb Hni) as Hc'.
    unfold updb, modify, on_lock, zoom, acquiresleep, get, bind, with_bufs. simpl. rewrite !fupd_eq. simpl.
    rewrite Elk. simpl. unfold getb, gets. simpl. rewrite !fupd_eq. simpl.
    rewrite (proj1 (ct_valid _ _ _ Hc b Hl)). simpl. eexists b, _. split; [reflexivity|].
    rewrite (u32_small (refcnt (bufs s b) + 1)) by lia.
    split; [|split].
    + rewrite fupd_fupd. exists lru. by eapply bio_rep_keep.
    + rewrite fupd_fupd. unfold bio_buf, live. simpl. by rewrite fupd_eq.
    + intros b' blk' Hb'. rewrite fupd_fupd. by apply (bio_buf_keep _ _ _ _ _ s).
  - assert (Hun : forall i, live (bufs s) i -> b_blockno (bufs s i) <> blk).
    { intros i [Hi Hd]. apply Hf; [by apply Ha|done]. }
    assert (Hlt : (length (cv_pins v) + length (cv_held v) < NBUF)%nat).
    { destruct Hroom as [Hp|]; [|done]. destruct (ct_in _ _ _ Hc blk) as (i & Hi & E); [by right|].
      by destruct (Hun i Hi). }
    destruct (free_exists _ _ _ Hr Hlt) as (b0 & Hb0 & Hr0).
    pose proof (find_free_path s (rev lru) HEAD (S NBUF) (ring_prev _ _ _ _ Hring)) as Hff.
    rewrite elem_of_rev, length_rev in Hff. specialize (Hff HH ltac:(lia)).
    destruct (find_free _ _ _) as [b|]; [|exfalso; apply (Hff b0); [by apply elem_of_rev|done]].
    destruct Hff as [Hb Hrb]. apply elem_of_rev, Ha in Hb. clear b0 Hb0 Hr0.
    assert (Elk : b_lock (bufs s b) = initsleeplock) by (by eapply free_lock).
    pose proof (content_recycle _ _ _ b blk Hc Hb Hrb Hun) as Hc'.
    unfold updb, modify, on_lock, zoom, acquiresleep, get, bind, with_bufs. simpl. rewrite !fupd_eq. simpl.
    rewrite Elk. simpl. unfold getb, gets. simpl. rewrite !fupd_eq. simpl. rewrite !fupd_eq. simpl.
    unfold set_lock, set_data, set_valid. simpl. eexists b, _. split; [reflexivity|].
    split; [|split].
    + rewrite !fupd_fupd. exists lru. by eapply bio_rep_keep.
    + rewrite !fupd_fupd. unfold bio_buf, live. simpl. by rewrite fupd_eq.
    + intros b' blk' (Hl' & Eb' & Hlk'). rewrite !fupd_fupd. unfold bio_buf, live. simpl.
      rewrite fupd_ne; [done|]. intros ->. by rewrite Elk in Hlk'.
Qed.

Lemma bset_run s v b blk d :
  bio_crep s v -> bio_buf s b blk ->
  exists s', updb b (set_data d) s = Ok tt s' /\ bio_crep s' (set_view blk d v) /\
    forall b' blk', bio_buf s b' blk' -> bio_buf s' b' blk'.
Proof.
  intros Hc Hb. pose proof (bio_buf_held _ _ _ _ Hc Hb) as Hin.
  destruct Hc as (lru & Hr), Hb as (Hl & Eb & Hlk).
  eexists. split; [reflexivity|]. split.
  - exists lru. eapply bio_rep_keep; try done; [|apply Hr].
    apply content_set; [apply Hr|done..].
  - intros b' blk' Hb'. by apply (bio_buf_keep _ _ _ _ _ s).
Qed.

Lemma bwrite_run s v b blk :
  bio_crep s v -> bio_buf s b blk ->
  exists s', bwrite mypid b s = Ok tt s' /\ bio_crep s' (flush blk v) /\
    forall b' blk', bio_buf s b' blk' -> bio_buf s' b' blk'.
Proof.
  intros Hc Hb. destruct (holding_run s v b blk Hc Hb) as (s1 & E1 & Hs1).
  unfold bwrite. erewrite bind_Ok by exact E1. simpl. eexists. split; [reflexivity|].
  rewrite <- Hs1 in Hc, Hb. clear E1.
  split; [|intros b' blk' Hb'; rewrite <- Hs1 in Hb'; done].
  destruct Hc as (lru & Hr), Hb as (Hl & Eb & Hlk). exists lru. split; simpl.
  - apply Hr.
  - apply Hr.
  - rewrite Eb. apply content_flush; [apply Hr|done|done].
  - rewrite (br_trace _ _ _ Hr), Eb. destruct (ct_valid _ _ _ (br_content _ _ _ Hr) b Hl) as [_ ->].
    by rewrite Eb.
Qed.

Lemma bpin_run s v b blk :
  bio_crep s v -> bio_buf s b blk -> Z.of_nat (length (cv_pins v)) < 2 ^ 31 ->
  exists s', bpin b s = Ok tt s' /\ bio_crep s' (with_pins (blk :: cv_pins v) v) /\
    forall b' blk', bio_buf s b' blk' -> bio_buf s' b' blk'.
Proof.
  intros Hc Hb Hlen. pose proof (bio_buf_held _ _ _ _ Hc Hb) as Hin.
  destruct Hc as (lru & Hr), Hb as (Hl & Eb & Hlk). pose proof (br_content _ _ _ Hr) as Hct.
  eexists. split; [reflexivity|]. split.
  - exists lru. eapply bio_rep_keep; try done; [|apply Hr].
    apply (content_pins _ _ _ _ blk); try done.
    + intros x Hx. rewrite count_cons. case_decide; [done|lia].
    + simpl length. lia.
    + pose proof (refs_bound _ _ _ blk Hct). rewrite (ct_ref _ _ _ Hct b Hl), Eb.
      rewrite u32_small by lia. unfold refs. simpl. rewrite count_cons. repeat case_decide; try done; lia.
  - intros b' blk' Hb'. by apply (bio_buf_keep _ _ _ _ _ s).
Qed.

Lemma bunpin_run s v b blk l1 l2 :
  bio_crep s v -> bio_buf s b blk -> cv_pins v = l1 ++ blk :: l2 ->
  exists s', bunpin b s = Ok tt s' /\ bio_crep s' (with_pins (l1 ++ l2) v) /\
    forall b' blk', bio_buf s b' blk' -> bio_buf s' b' blk'.
Proof.
  intros Hc Hb Hp. pose proof (bio_buf_held _ _ _ _ Hc Hb) as Hin.
  destruct Hc as (lru & Hr), Hb as (Hl & Eb & Hlk). pose proof (br_content _ _ _ Hr) as Hct.
  eexists. split; [reflexivity|]. split.
  - exists lru. eapply bio_rep_keep; try done; [|apply Hr].
    apply (content_pins _ _ _ _ blk); try done.
    + intros x Hx. rewrite Hp, !count_app, count_cons. case_decide; [done|lia].
    + pose proof (ct_small _ _ _ Hct) as Hs. rewrite Hp in Hs. rewrite length_app in *. simpl in Hs. lia.
    + pose proof (refs_bound _ _ _ blk Hct). rewrite (ct_ref _ _ _ Hct b Hl), Eb. unfold refs in *. simpl.
      assert (count blk (cv_pins v) = S (count blk (l1 ++ l2))) as Hcnt.
      { rewrite Hp, !count_app, count_cons, decide_True by done. lia. }
      rewrite Hcnt in *. rewrite u32_small by (case_decide; lia). case_decide; lia.
  - intros b' blk' Hb'. by apply (bio_buf_keep _ _ _ _ _ s).
Qed.

(** ** Relinking *)

Definition nx (s : bcache) (i : nat) : nat := b_next (bufs s i).
Definition pv (s : bcache) (i : nat) : nat := b_prev (bufs s i).

(** States that differ in the links only. *)
Definition same_data (s s' : bcache) : Prop :=
  (forall i, valid (bufs s' i) = valid (bufs s i) /\ b_dev (bufs s' i) = b_dev (bufs s i) /\
     b_blockno (bufs s' i) = b_blockno (bufs s i) /\ b_lock (bufs s' i) = b_lock (bufs s i) /\
     refcnt (bufs s' i) = refcnt (bufs s i) /\ b_data (bufs s' i) = b_data (bufs s i)) /\
  disk s' = disk s /\ trace s' = trace s.

Lemma same_data_trans s1 s2 s3 : same_data s1 s2 -> same_data s2 s3 -> same_data s1 s3.
Proof.
  intros (H1 & D1 & T1) (H2 & D2 & T2). split; [|split; congruence].
  intros i. destruct (H1 i) as (? & ? & ? & ? & ? & ?), (H2 i) as (? & ? & ? & ? & ? & ?).
  repeat split; congruence.
Qed.

Lemma set_next_run i x s :
  exists s', updb i (set_next x) s = Ok tt s' /\ same_data s s' /\
    (forall j, nx s' j = pupd (nx s) i x j) /\ (forall j, pv s' j = pv s j).
Proof.
  eexists. split; [reflexivity|]. split; [|split].
  - split; [|done]. intros j. simpl. by case_buf j i.
  - intros j. unfold nx, pupd. simpl. unfold fupd. by destruct (Nat.eqb j i).
  - intros j. unfold pv. simpl. by case_buf j i.
Qed.

Lemma set_prev_run i x s :
  exists s', updb i (set_prev x) s = Ok tt s' /\ same_data s s' /\
    (forall j, nx s' j = nx s j) /\ (forall j, pv s' j = pupd (pv s) i x j).
Proof.
  eexists. split; [reflexivity|]. split; [|split].
  - split; [|done]. intros j. simpl. by case_buf j i.
  - intros j. unfold nx. simpl. by case_buf j i.
  - intros j. unfold pv, pupd. simpl. unfold fupd. by destruct (Nat.eqb j i).
Qed.

Lemma pupd_ext g g' i x j : (forall k, g' k = g k) -> pupd g' i x j = pupd g i x j.
Proof. intros H. unfold pupd. by destruct (Nat.eqb j i). Qed.

Lemma link_front_run s b l :
  ring (nx s) (pv s) HEAD l -> b ∉ HEAD :: l ->
  exists s', link_front b s = Ok tt s' /\ same_data s s' /\ ring (nx s') (pv s') HEAD (b :: l).
Proof.
  intros Hr Hb. assert (HbH : b <> HEAD) by set_solver. unfold link_front, getb.
  erewrite bind_Ok by reflexivity. fold (nx s HEAD).
  destruct (set_next_run b (nx s HEAD) s) as (s1 & E1 & D1 & N1 & P1). erewrite bind_Ok by exact E1.
  destruct (set_prev_run b HEAD s1) as (s2 & E2 & D2 & N2 & P2). erewrite bind_Ok by exact E2.
  erewrite bind_Ok by reflexivity. fold (nx s2 HEAD).
  assert (EH : nx s2 HEAD = nx s HEAD) by (rewrite N2, N1, pupd_ne by done; done).
  rewrite EH.
  destruct (set_prev_run (nx s HEAD) b s2) as (s3 & E3 & D3 & N3 & P3). erewrite bind_Ok by exact E3.
  destruct (set_next_run HEAD b s3) as (s4 & E4 & D4 & N4 & P4).
  exists s4. split; [exact E4|]. split; [by eapply same_data_trans; [|eapply same_data_trans; [|eapply same_data_trans]]|].
  eapply ring_ext; [| |by apply ring_link].
  - intros i. rewrite N4. apply pupd_ext. intros j. by rewrite N3, N2, N1.
  - intros i. rewrite P4, P3. apply pupd_ext. intros j. rewrite P2. apply pupd_ext. intros k. by rewrite P1.
Qed.

(** Moving a buffer to the front. *)
Lemma relink_run s b l1 l2 :
  ring (nx s) (pv s) HEAD (l1 ++ b :: l2) ->
  exists s', (let! x := getb b in
    updb (b_next x) (set_prev (b_prev x)) ;;
    let! x := getb b in
    updb (b_prev x) (set_next (b_next x)) ;;
    link_front b) s = Ok tt s' /\ same_data s s' /\ ring (nx s') (pv s') HEAD (b :: l1 ++ l2).
Proof.
  intros Hr. pose proof Hr as [_ _ Hnd]. apply NoDup_cons in Hnd as [HH Hnd].
  destruct (ring_neighbours _ _ _ _ _ _ Hr) as [En Ep].
  assert (Hb : b ∉ HEAD :: l1 ++ l2).
  { apply NoDup_app in Hnd as (_ & Hd & Hnd). apply NoDup_cons in Hnd as [Hb2 _].
    intros [->|[Hin|Hin]%elem_of_app]%elem_of_cons; [set_solver|apply (Hd b Hin); set_solver|done]. }
  assert (Hnb : nx s b <> b).
  { rewrite En. pose proof (lastof_in HEAD (rev l2)) as Hin. intros E. rewrite E in Hin.
    rewrite elem_of_cons, elem_of_rev in Hin. set_solver. }
  unfold getb. erewrite bind_Ok by reflexivity. fold (nx s b) (pv s b).
  destruct (set_prev_run (nx s b) (pv s b) s) as (s1 & E1 & D1 & N1 & P1). erewrite bind_Ok by exact E1.
  erewrite bind_Ok by reflexivity. fold (nx s1 b) (pv s1 b).
  rewrite P1, pupd_ne, N1 by done.
  destruct (set_next_run (pv s b) (nx s b) s1) as (s2 & E2 & D2 & N2 & P2). erewrite bind_Ok by exact E2.
  destruct (link_front_run s2 b (l1 ++ l2)) as (s3 & E3 & D3 & R3).
  - eapply ring_ext; [| |by apply ring_unlink].
    + intros i. rewrite N2. by apply pupd_ext.
    + intros i. by rewrite P2, P1.
  - done.
  - exists s3. split; [exact E3|]. split; [|exact R3]. by eapply same_data_trans; [|eapply same_data_trans].
Qed.

Lemma same_data_rep s s' v lru lru' :
  bio_rep s v lru -> same_data s s' -> ring (nx s') (pv s') HEAD lru' ->
  (forall i, i ∈ lru' <-> i ∈ lru) -> bio_rep s' v lru'.
Proof.
  intros [_ Ha Hc Ht] (Hd & Ed & Et) Hr Hl. split.
  - exact Hr.
  - intros i. by rewrite Hl.
  - rewrite Ed. by eapply content_ext.
  - by rewrite Et.
Qed.

Lemma same_data_buf s s' b blk : same_data s s' -> bio_buf s' b blk <-> bio_buf s b blk.
Proof.
  intros (Hd & _). unfold bio_buf, live. by destruct (Hd b) as (_ & -> & -> & -> & _).
Qed.

Lemma brelse_run s v b blk l1 l2 :
  bio_crep s v -> bio_buf s b blk -> cv_held v = l1 ++ blk :: l2 ->
  blk ∈ cv_pins v \/ cv_view v blk = cv_disk v blk ->
  exists s', brelse mypid b s = Ok tt s' /\ bio_crep s' (with_held (l1 ++ l2) v) /\
    forall b' blk', blk' <> blk -> bio_buf s b' blk' -> bio_buf s' b' blk'.
Proof.
  intros Hc Hb Hh Hcl. destruct (holding_run s v b blk Hc Hb) as (s0 & E0 & Hs0).
  unfold brelse. erewrite bind_Ok by exact E0. cbn [negb].
  assert (Hback : forall b' blk', bio_buf s b' blk' -> bio_buf s0 b' blk') by (intros b' blk'; by rewrite Hs0).
  rewrite <- Hs0 in Hc, Hb. clear E0 Hs0.
  destruct Hc as (lru & Hr), Hb as (Hl & Eb & Hlk). pose proof (br_content _ _ _ Hr) as Hct.
  erewrite bind_Ok by reflexivity. cbn [with_bufs].
  pose proof (refs_bound _ _ _ blk Hct) as Hbd.
  assert (Href : 1 <= refcnt (bufs s0 b)).
  { rewrite (ct_ref _ _ _ Hct b Hl), Eb. unfold refs. rewrite decide_True; [lia|]. rewrite Hh. set_solver. }
  assert (Href' : refcnt (bufs s0 b) <= 2 ^ 31 + 1) by (rewrite (ct_ref _ _ _ Hct b Hl), Eb; lia).
  pose proof (content_release _ _ _ b blk l1 l2 Hct Hl Eb Hh Hcl) as Hct'.
  unfold updb at 1. erewrite bind_Ok by reflexivity. cbn [with_bufs bufs disk trace].
  rewrite fupd_eq. cbn [refcnt set_lock set_refcnt]. rewrite u32_small by lia.
  set (x := set_refcnt (refcnt (bufs s0 b) - 1) (set_lock initsleeplock (bufs s0 b))) in *.
  match goal with |- context [bind _ _ ?t] => set (s1 := t) end.
  assert (Hs1 : s1 ≡ mkbcache (fupd (bufs s0) b x) (disk s0) (trace s0)) by apply fupd_fupd.
  assert (Hr1 : bio_rep s1 (with_held (l1 ++ l2) v) lru).
  { apply (same_data_rep (mkbcache (fupd (bufs s0) b x) (disk s0) (trace s0)) _ _ lru).
    - eapply bio_rep_keep; try done. apply Hr.
    - destruct Hs1 as (E1 & E2 & E3). split; [|done]. intros i. by rewrite E1.
    - eapply ring_ext; [| |apply (br_ring _ _ _ Hr)]; intros i; unfold nx, pv;
        destruct Hs1 as (E1 & _ & _); rewrite E1; simpl; by case_buf i b.
    - done. }
  assert (Hb1 : forall b' blk', blk' <> blk -> bio_buf s b' blk' -> bio_buf s1 b' blk').
  { intros b' blk' Hne Hb'%Hback. rewrite Hs1. destruct Hb' as (Hl' & Eb' & Hlk').
    unfold bio_buf, live. simpl. case_buf b' b; [congruence|done]. }
  destruct (Z.eqb_spec (refcnt (bufs s1 b)) 0) as [Hz|Hz].
  - assert (Hin : b ∈ lru) by (apply (br_all _ _ _ Hr), Hl).
    apply list_elem_of_split in Hin as (m1 & m2 & El).
    destruct (relink_run s1 b m1 m2) as (s2 & E2 & D2 & R2).
    { rewrite <- El. apply (br_ring _ _ _ Hr1). }
    unfold getb, gets in E2 |- *. unfold bind at 1 in E2. unfold bind at 1.
    destruct (Z.eqb_spec (refcnt (bufs s1 b)) 0) as [_|]; [|done].
    exists s2. split; [exact E2|]. split.
    + exists (b :: m1 ++ m2). eapply same_data_rep; [exact Hr1|done|done|]. intros i. rewrite El. set_solver.
    + intros b' blk' Hne Hb'. rewrite (same_data_buf s1 s2) by done. auto.
  - unfold getb, gets, bind at 1. destruct (Z.eqb_spec (refcnt (bufs s1 b)) 0) as [|_]; [done|].
    exists s1. split; [done|]. split; [by exists lru|done].
Qed.

#[export] Instance bio_cachespec : @CacheSpec bcache nat (bio_cache mypid) dev.
Proof.
  refine {| crep := bio_crep; cbuf := bio_buf |}.
  - intros s ? <- v v' Ev. by rewrite Ev.
  - intros s v blk (lru & Hr) Hh Hp. rewrite (ct_disk _ _ _ (br_content _ _ _ Hr)).
    by apply (ct_clean _ _ _ (br_content _ _ _ Hr)).
  - intros s v (lru & Hr). apply (ct_nodup _ _ _ (br_content _ _ _ Hr)).
  - apply bio_buf_held.
  - intros s v blk Hc _. by apply bread_run.
  - intros s v b blk (lru & Hr) (Hl & <- & _). simpl. unfold gets.
    by rewrite (proj2 (ct_valid _ _ _ (br_content _ _ _ Hr) b Hl)).
  - intros s v b blk _ (_ & <- & _). done.
  - intros s v b blk d. apply bset_run.
  - apply bwrite_run.
  - apply bpin_run.
  - apply bunpin_run.
  - apply brelse_run.
Defined.

(** ** Properties *)

(** C33.  The buffer cache implements its contract.  On a state whose buffers
    represent the client's view: [bread] returns the locked buffer of a block
    (its data is the client's view of the block) as long as a buffer can be
    found; [bwrite] puts the data on the disk; [bpin] and [bunpin] change the
    number of pins; [brelse] of a clean or pinned block gives up the lock.
    Each leaves a state that represents the new view, in which every other
    buffer the client holds is still its own. *)
Theorem bio_refinement s v :
  bio_crep s v ->
  (forall blk, blk ∉ cv_held v -> croom v blk ->
     exists b s', bread mypid dev blk s = Ok b s' /\ bio_crep s' (hold blk v) /\ bio_buf s' b blk /\
       b_data (bufs s' b) = cv_view v blk /\
       forall b' blk', bio_buf s b' blk' -> bio_buf s' b' blk') /\
  (forall b blk, bio_buf s b blk ->
     (exists s', bwrite mypid b s = Ok tt s' /\ bio_crep s' (flush blk v)) /\
     (Z.of_nat (length (cv_pins v)) < 2 ^ 31 ->
        exists s', bpin b s = Ok tt s' /\ bio_crep s' (with_pins (blk :: cv_pins v) v)) /\
     (forall l1 l2, cv_pins v = l1 ++ blk :: l2 ->
        exists s', bunpin b s = Ok tt s' /\ bio_crep s' (with_pins (l1 ++ l2) v)) /\
     (forall l1 l2, cv_held v = l1 ++ blk :: l2 -> blk ∈ cv_pins v \/ cv_view v blk = cv_disk v blk ->
        exists s', brelse mypid b s = Ok tt s' /\ bio_crep s' (with_held (l1 ++ l2) v) /\
          forall b' blk', blk' <> blk -> bio_buf s b' blk' -> bio_buf s' b' blk')).
Proof.
  intros Hc. split.
  - intros blk Hh Hroom. destruct (bread_run s v blk Hc Hh Hroom) as (b & s' & E & Hc' & Hb & Hk).
    exists b, s'. do 3 (split; [done|]). split; [|done].
    destruct Hc' as (lru & Hr), Hb as (Hl & <- & _).
    by rewrite (proj2 (ct_valid _ _ _ (br_content _ _ _ Hr) b Hl)).
  - intros b blk Hb. split; [|split; [|split]].
    + destruct (bwrite_run s v b blk Hc Hb) as (s' & E & Hc' & _). eauto.
    + intros Hlen. destruct (bpin_run s v b blk Hc Hb Hlen) as (s' & E & Hc' & _). eauto.
    + intros l1 l2 Hp. destruct (bunpin_run s v b blk l1 l2 Hc Hb Hp) as (s' & E & Hc' & _). eauto.
    + intros l1 l2 Hh Hcl. by apply brelse_run.
Qed.

Lemma find_free_split s l a fuel :
  path (fun i => b_prev (bufs s i)) a l HEAD -> HEAD ∉ l -> (length l < fuel)%nat ->
  forall b, find_free fuel (b_prev (bufs s a)) s = Some b ->
  exists m1 m2, l = m1 ++ b :: m2 /\ forall c, c ∈ m1 -> refcnt (bufs s c) <> 0.
Proof.
  revert a fuel. induction l as [|x l IH]; intros a fuel Hp Hh Hf b; (destruct fuel as [|fuel]; [simpl in Hf; lia|]).
  - simpl in *. by rewrite Hp, Nat.eqb_refl.
  - simpl in Hp. destruct Hp as [E Hp]. cbn [find_free]. rewrite E.
    destruct (Nat.eqb_spec x HEAD) as [->|_]; [set_solver|].
    destruct (Z.eqb_spec (refcnt (bufs s x)) 0) as [Er|Er].
    + intros [= ->]. exists [], l. split; [done|set_solver].
    + intros Hff. destruct (IH x fuel Hp ltac:(set_solver) ltac:(simpl in Hf; lia) b Hff) as (m1 & m2 & -> & Hm).
      exists (x :: m1), m2. split; [done|]. intros c [->|Hc]%elem_of_cons; auto.
Qed.

Lemma bread_index s blk b s' :
  bread mypid dev blk s = Ok b s' ->
  find_cached (S NBUF) (nx s HEAD) dev blk s = Some b \/
  find_cached (S NBUF) (nx s HEAD) dev blk s = None /\ find_free (S NBUF) (pv s HEAD) s = Some b.
Proof.
  unfold bread, bget, nx, pv. intros (b0 & s1 & E & Hk)%bind_Ok_inv.
  assert (b0 = b) as ->.
  { apply bind_Ok_inv in Hk as (x & s2 & _ & Hk). apply bind_Ok_inv in Hk as ([] & s3 & _ & Hk).
    by injection Hk. }
  unfold bind at 1, get in E. destruct (find_cached _ _ _ _ _) as [c|].
  - apply bind_Ok_inv in E as ([] & s2 & _ & E). apply bind_Ok_inv in E as ([] & s3 & _ & E).
    injection E as -> _. by left.
  - destruct (find_free _ _ _) as [c|]; [|done]. right. split; [done|].
    apply bind_Ok_inv in E as ([] & s2 & _ & E). apply bind_Ok_inv in E as ([] & s3 & _ & E).
    by injection E as -> _.
Qed.

End bio_proofs.

(** ** Boot *)

(** The cache before [binit]: memory is zero, the disk is [d]. *)
Definition zero_buf : buf := mkbuf false 0 0 initsleeplock 0 0 0 [].
Definition boot_cache (d : Z -> block) : bcache := mkbcache (fun _ => zero_buf) d [].

Definition idle_view (d : Z -> block) : cview := mkcview d d [] [] [].

Definition binit_state (d : Z -> block) : bcache :=
  match binit (boot_cache d) with Ok _ s => s | _ => boot_cache d end.

Definition untouched (b : buf) : bool :=
  (b_dev b =? 0) && (refcnt b =? 0) && negb (locked (b_lock b)) && (lkpid (b_lock b) =? 0).

Lemma binit_links d :
  path (nx (binit_state d)) HEAD (rev (seq 0 NBUF)) HEAD /\
  path (pv (binit_state d)) HEAD (rev (rev (seq 0 NBUF))) HEAD /\
  forallb (fun i => untouched (bufs (binit_state d) i)) (seq 0 NBUF) = true.
Proof. vm_compute. repeat split. Qed.

Lemma binit_ok d :
  binit (boot_cache d) = Ok tt (binit_state d) /\ disk (binit_state d) = d /\ trace (binit_state d) = [].
Proof. vm_compute. repeat split. Qed.

#[global] Opaque binit_state.

Lemma binit_run mypid dev d :
  dev <> 0 ->
  binit (boot_cache d) = Ok tt (binit_state d) /\ bio_crep mypid dev (binit_state d) (idle_view d).
Proof.
  intros Hdev. destruct (binit_links d) as (Hn & Hp & Hu). destruct (binit_ok d) as (E & Ed & Et).
  split; [exact E|].
  assert (Hd : forall i, (i < NBUF)%nat -> b_dev (bufs (binit_state d) i) = 0 /\
            refcnt (bufs (binit_state d) i) = 0 /\ b_lock (bufs (binit_state d) i) = initsleeplock).
  { intros i Hi. rewrite forallb_forall in Hu. specialize (Hu i). unfold untouched in Hu.
    rewrite in_seq in Hu. specialize (Hu ltac:(lia)). rewrite !andb_true_iff, !Z.eqb_eq, negb_true_iff in Hu.
    destruct Hu as [[[H1 H2] H3] H4]. split; [done|]. split; [done|].
    destruct (b_lock _) as [lk pid]. simpl in *. by subst. }
  assert (Hdead : forall i, ~ live dev (bufs (binit_state d)) i).
  { intros i [Hi E1]. destruct (Hd i Hi) as [E0 _]. congruence. }
  exists (rev (seq 0 NBUF)). split.
  - split; [exact Hn|exact Hp|]. constructor; [|apply rev_NoDup, NoDup_seq].
    rewrite elem_of_rev, elem_of_seq. unfold HEAD. lia.
  - intros i. rewrite elem_of_rev, elem_of_seq. lia.
  - rewrite Ed.
    split; [| | | | | |reflexivity|reflexivity|constructor|simpl; lia].
    + intros i Hi _. by apply Hd.
    + intros i j Hi. by destruct (Hdead i).
    + intros i Hi. by destruct (Hdead i).
    + intros i Hi. by destruct (Hdead i).
    + intros i Hi. by destruct (Hdead i).
    + simpl. intros blk [H|H]; inversion H.
  - by rewrite Et.
Qed.

(**  [binit] on zeroed memory makes an empty cache: every block reads as it
    is on the disk, and the cache satisfies its invariant. *)
Theorem binit_correct mypid dev d :
  dev <> 0 -> exists s, binit (boot_cache d) = Ok tt s /\ bio_crep mypid dev s (idle_view d).
Proof. intros Hdev. exists (binit_state d). by apply binit_run. Qed.

(** A disk whose block [k] holds the byte [k mod 256]. *)
Definition demo_disk (k : Z) : block := repeat (k mod 256) 1024.


Lemma room_idle d blk : croom (idle_view d) blk.
Proof. right. simpl. unfold NBUF. lia. Qed.

Lemma bio_refinement_witness :
  exists b s', bread 7 1 33 (binit_state demo_disk) = Ok b s' /\
    b_data (bufs s' b) = demo_disk 33 /\ bio_crep 7 1 s' (hold 33 (idle_view demo_disk)).
Proof.
  destruct (binit_run 7 1 demo_disk) as [_ Hc]; [discriminate|].
  destruct (bio_refinement 7 1 (binit_state demo_disk) (idle_view demo_disk) Hc) as [Hread _].
  destruct (Hread 33) as (b & s' & E & Hc' & _ & Hd & _).
  - apply not_elem_of_nil.
  - apply room_idle.
  - exists b, s'. split; [exact E|]. split; [exact Hd|exact Hc'].
Defined.

