(* ===== verification/Log.v ===== *)
(** * The write-ahead log: [src/kernel/fs/log.c]

    Written against the block cache interface [BlockCache].  The state is the
    in-memory [struct log] together with the cache below it.  Sections under
    [log.lock] are one step; [begin_op] sleeps where the code calls [sleep].
    The header block is encoded as the C struct overlaid on the buffer. *)

From S2P Require Import Prelude Block Cache.

Definition MAXOPBLOCKS : Z := 10.
Definition LOGSIZE : Z := MAXOPBLOCKS * 3.

(** [struct logheader] in memory: [n] and the array [block]. *)
Record logheader := mklh { lh_n : Z; lh_block : list Z }.

Record logst (S : Type) := mklogst {
  log_start : Z;
  log_size : Z;
  outstanding : Z;
  committing : bool;
  log_dev : Z;
  lh : logheader;
  below : S
}.
Arguments mklogst {S}.
Arguments log_start {S}.
Arguments log_size {S}.
Arguments outstanding {S}.
Arguments committing {S}.
Arguments log_dev {S}.
Arguments lh {S}.
Arguments below {S}.

Definition set_below {S} (x : S) (s : logst S) : logst S :=
  mklogst (log_start s) (log_size s) (outstanding s) (committing s) (log_dev s) (lh s) x.
Definition set_lh {S} (h : logheader) (s : logst S) : logst S :=
  mklogst (log_start s) (log_size s) (outstanding s) (committing s) (log_dev s) h (below s).
Definition set_outstanding {S} (n : Z) (s : logst S) : logst S :=
  mklogst (log_start s) (log_size s) n (committing s) (log_dev s) (lh s) (below s).
Definition set_committing {S} (c : bool) (s : logst S) : logst S :=
  mklogst (log_start s) (log_size s) (outstanding s) c (log_dev s) (lh s) (below s).

(** The operations of the layer below. *)
Definition lift {S A} (m : M S A) : M (logst S) A := zoom below set_below m.

(** [log.lh.block[i]] *)
Definition lh_get (h : logheader) (i : Z) : Z := default 0 (lh_block h !! Z.to_nat i).
Definition lh_put (h : logheader) (i x : Z) : logheader :=
  mklh (lh_n h) (<[Z.to_nat i := x]> (lh_block h)).

(** The on-disk header: [hb->n = n] and [hb->block[i] = block[i]] for [i < n]. *)
Fixpoint encode_blocks (i : nat) (l : list Z) (d : block) : block :=
  match l with
  | [] => d
  | x :: l' => encode_blocks (S i) l' (put32 d (4 + 4 * i) x)
  end.

Definition encode_head (h : logheader) (d : block) : block :=
  encode_blocks 0 (take (Z.to_nat (lh_n h)) (lh_block h)) (put32 d 0 (lh_n h)).

(** [for (i = 0; i < n; i++) log.lh.block[i] = lh->block[i]] *)
Fixpoint decode_blocks (n : nat) (i : nat) (d : block) (h : logheader) : logheader :=
  match n with
  | O => h
  | S n' => decode_blocks n' (S i) d (lh_put h (Z.of_nat i) (geti32 d (4 + 4 * i)))
  end.

Section log.
Context {S B : Type} `{!BlockCache S B}.

Definition install_trans (recovering : bool) : M (logst S) unit :=
  let! st := get in
  for_up (Z.to_nat (lh_n (lh st))) 0 (fun tail =>
    let! st := get in
    let! lbuf := lift (cread (log_dev st) (log_start st + tail + 1)) in
    let! dbuf := lift (cread (log_dev st) (lh_get (lh st) tail)) in
    let! d := lift (cdata lbuf) in
    lift (cset dbuf d) ;;
    lift (cwrite dbuf) ;;
    (if recovering then ret tt else lift (cunpin dbuf)) ;;
    lift (crelse lbuf) ;;
    lift (crelse dbuf)).

Definition read_head : M (logst S) unit :=
  let! st := get in
  let! buf := lift (cread (log_dev st) (log_start st)) in
  let! d := lift (cdata buf) in
  let n := geti32 d 0 in
  modify (fun s => set_lh (decode_blocks (Z.to_nat n) 0 d (mklh n (lh_block (lh s)))) s) ;;
  lift (crelse buf).

Definition write_head : M (logst S) unit :=
  let! st := get in
  let! buf := lift (cread (log_dev st) (log_start st)) in
  let! d := lift (cdata buf) in
  lift (cset buf (encode_head (lh st) d)) ;;
  lift (cwrite buf) ;;
  lift (crelse buf).

Definition recover_from_log : M (logst S) unit :=
  read_head ;;
  install_trans true ;;
  modify (fun s => set_lh (mklh 0 (lh_block (lh s))) s) ;;
  write_head.

(** [sizeof(struct logheader)] is [4 + 4 * LOGSIZE] *)
Definition initlog (dev logstart nlog : Z) : M (logst S) unit :=
  if BSIZE <=? 4 + 4 * LOGSIZE then panic "initlog: too big logheader"
  else
    modify (fun s => mklogst logstart nlog (outstanding s) (committing s) dev (lh s) (below s)) ;;
    recover_from_log.

(** One pass through the loop of [begin_op]: admitted, or asleep on [&log]. *)
Definition begin_op : M (logst S) unit :=
  let! st := get in
  if committing st then sleeps "log"
  else if LOGSIZE <? lh_n (lh st) + (outstanding st + 1) * MAXOPBLOCKS then sleeps "log"
  else modify (set_outstanding (outstanding st + 1)).

Definition write_log : M (logst S) unit :=
  let! st := get in
  for_up (Z.to_nat (lh_n (lh st))) 0 (fun tail =>
    let! st := get in
    let! to := lift (cread (log_dev st) (log_start st + tail + 1)) in
    let! from := lift (cread (log_dev st) (lh_get (lh st) tail)) in
    let! d := lift (cdata from) in
    lift (cset to d) ;;
    lift (cwrite to) ;;
    lift (crelse from) ;;
    lift (crelse to)).

Definition commit : M (logst S) unit :=
  let! st := get in
  if 0 <? lh_n (lh st) then
    write_log ;;
    write_head ;;
    install_trans false ;;
    modify (fun s => set_lh (mklh 0 (lh_block (lh s))) s) ;;
    write_head
  else ret tt.

(** The two locked sections of [end_op]. *)
Definition end_op_enter : M (logst S) bool :=
  let! st := get in
  let out := outstanding st - 1 in
  modify (set_outstanding out) ;;
  if committing st then panic "log.committing"
  else if out =? 0 then modify (set_committing true) ;; ret true
  else ret false.

Definition end_op : M (logst S) unit :=
  let! do_commit := end_op_enter in
  if do_commit then commit ;; modify (set_committing false) else ret tt.

(** [for (i = 0; i < log.lh.n; i++) if (log.lh.block[i] == blockno) break;] *)
Fixpoint find_logged (l : list Z) (n : nat) (i : Z) (blockno : Z) : Z :=
  match n, l with
  | Datatypes.S n', x :: l' => if x =? blockno then i else find_logged l' n' (i + 1) blockno
  | _, _ => i
  end.

Definition log_write (b : B) : M (logst S) unit :=
  let! st := get in
  if (LOGSIZE <=? lh_n (lh st)) || (log_size st - 1 <=? lh_n (lh st)) then panic "too big a transaction"
  else if outstanding st <? 1 then panic "log_write outside of trans"
  else
    let! blockno := lift (cblockno b) in
    let n := lh_n (lh st) in
    let i := find_logged (lh_block (lh st)) (Z.to_nat n) 0 blockno in
    modify (fun s => set_lh (lh_put (lh s) i blockno) s) ;;
    (if i =? n
     then lift (cpin b) ;; modify (fun s => set_lh (mklh (n + 1) (lh_block (lh s))) s)
     else ret tt).
End log.
