(* ===== verification/LogProofs.v ===== *)
(** * Crash safety of the log

    Proved against the cache interface ([CacheSpec]).  The disk after a crash
    is the disk before plus a prefix of the writes that were issued
    ([apply_writes]); [recovered] is the disk a later recovery installs. *)

From S2P Require Import Prelude Block Cache Log.

#[local] Set Warnings "-clear-no-such-hyp".

(** ** Updates of block functions *)

Lemma cv_upd_eq f k d : cv_upd f k d k = d.
Proof. unfold cv_upd. by rewrite Z.eqb_refl. Qed.

Lemma cv_upd_ne f k d x : x <> k -> cv_upd f k d x = f x.
Proof. intros H. unfold cv_upd. destruct (Z.eqb_spec x k); done. Qed.

Lemma cv_upd_ext f g k d x : (forall y, f y = g y) -> cv_upd f k d x = cv_upd g k d x.
Proof. intros H. unfold cv_upd. by destruct (x =? k). Qed.

Lemma apply_writes_snoc d ws k b x :
  apply_writes d (ws ++ [(k, b)]) x = cv_upd (apply_writes d ws) k b x.
Proof. by rewrite apply_writes_app. Qed.

(** Writing the same things twice. *)
Lemma apply_writes_in_gen d d' ws x : x ∈ ws.*1 -> apply_writes d ws x = apply_writes d' ws x.
Proof.
  revert d d'. induction ws as [|[k b] ws IH]; intros d d' Hin; [by apply not_elem_of_nil in Hin|].
  cbn [apply_writes fmap list_fmap] in *. destruct (decide (x ∈ ws.*1)) as [H|H]; [by apply IH|].
  rewrite !apply_writes_other by done. apply elem_of_cons in Hin as [E|]; [|done].
  simpl in E. subst. by rewrite !cv_upd_eq.
Qed.

Lemma apply_writes_again d d' ws x :
  (x ∉ ws.*1 -> d' x = d x) -> apply_writes d' ws x = apply_writes d ws x.
Proof.
  intros H. destruct (decide (x ∈ ws.*1)) as [Hin|Hni]; [by apply apply_writes_in_gen|].
  rewrite !apply_writes_other by done. auto.
Qed.

(** ** The header block *)

Lemma encode_blocks_ok i l d :
  block_ok d -> (4 + 4 * (i + length l) <= 1024)%nat -> block_ok (encode_blocks i l d).
Proof.
  revert i d. induction l as [|x l IH]; intros i d Hd Hl; cbn [encode_blocks length] in *; [done|].
  apply IH; [|lia]. apply put32_ok; [done|lia].
Qed.

Lemma encode_blocks_other i l d off :
  block_ok d -> (4 + 4 * (i + length l) <= 1024)%nat -> (off + 4 <= 4 + 4 * i)%nat ->
  get32 (encode_blocks i l d) off = get32 d off.
Proof.
  revert i d. induction l as [|x l IH]; intros i d Hd Hl Hoff; cbn [encode_blocks length] in *; [done|].
  rewrite IH; [|apply put32_ok; [done|lia]|lia|lia].
  destruct Hd as [Hlen _]. rewrite get32_put32_other; [done|lia|lia].
Qed.

Lemma encode_blocks_get i l d j x :
  block_ok d -> (4 + 4 * (i + length l) <= 1024)%nat -> l !! j = Some x ->
  get32 (encode_blocks i l d) (4 + 4 * (i + j)) = u32 x.
Proof.
  revert i d j. induction l as [|y l IH]; intros i d j Hd Hl Hj; [done|]. cbn [encode_blocks length] in *.
  pose proof Hd as [Hlen _]. destruct j as [|j]; simpl in Hj.
  - simplify_eq. rewrite Nat.add_0_r, encode_blocks_other; [|apply put32_ok; [done|lia]|lia|lia].
    apply get32_put32_same. lia.
  - replace (i + S j)%nat with (S i + j)%nat by lia.
    apply IH; [apply put32_ok; [done|lia]|lia|done].
Qed.

Lemma s32_u32_small x : 0 <= x < 2147483648 -> s32 (u32 x) = x.
Proof. intros H. rewrite u32_small by lia. apply s32_small. lia. Qed.

(** The header encodes [n] and the block numbers [bs]. *)
Record head_encodes (d : block) (bs : list Z) : Prop := {
  he_n : geti32 d 0 = Z.of_nat (length bs);
  he_blk i x : bs !! i = Some x -> geti32 d (4 + 4 * i) = x
}.

Lemma encode_head_spec h d bs :
  block_ok d -> lh_n h = Z.of_nat (length bs) -> take (length bs) (lh_block h) = bs ->
  (length bs <= 30)%nat -> Forall (fun x => 0 <= x < 2147483648) bs ->
  block_ok (encode_head h d) /\ head_encodes (encode_head h d) bs.
Proof.
  intros Hd Hn Hbs Hlen Hall. unfold encode_head. rewrite Hn, Nat2Z.id, Hbs.
  assert (Hd0 : block_ok (put32 d 0 (Z.of_nat (length bs)))) by (apply put32_ok; [done|lia]).
  split; [apply encode_blocks_ok; [done|lia]|]. split.
  - unfold geti32. rewrite encode_blocks_other by (done || lia). destruct Hd as [Hl _].
    rewrite get32_put32_same by lia. apply s32_u32_small. lia.
  - intros i x Hi. unfold geti32. change (4 + 4 * i)%nat with (4 + 4 * (0 + i))%nat.
    rewrite (encode_blocks_get 0 bs _ i x) by (done || lia).
    apply s32_u32_small. rewrite Forall_forall in Hall. apply Hall. by eapply list_elem_of_lookup_2.
Qed.

Lemma decode_blocks_spec n i d h :
  (i + n <= length (lh_block h))%nat ->
  let h' := decode_blocks n i d h in
  lh_n h' = lh_n h /\ length (lh_block h') = length (lh_block h) /\
  (forall j, (i <= j < i + n)%nat -> lh_block h' !! j = Some (geti32 d (4 + 4 * j))) /\
  (forall j, ~ (i <= j < i + n)%nat -> lh_block h' !! j = lh_block h !! j).
Proof.
  revert i h. induction n as [|n IH]; intros i h Hl; cbv zeta; cbn [decode_blocks].
  - do 2 (split; [done|]). split; [lia|done].
  - destruct (IH (S i) (lh_put h (Z.of_nat i) (geti32 d (4 + 4 * i)))) as (H1 & H2 & H3 & H4).
    { unfold lh_put. simpl. rewrite length_insert. lia. }
    cbv zeta in *. split; [by rewrite H1|]. split; [rewrite H2; simpl; by rewrite length_insert|].
    split.
    + intros j Hj. destruct (decide (j = i)) as [->|]; [|apply H3; lia].
      rewrite H4 by lia. unfold lh_put. simpl. rewrite Nat2Z.id.
      rewrite list_lookup_insert_eq by lia. done.
    + intros j Hj. rewrite H4 by lia. unfold lh_put. simpl. rewrite Nat2Z.id.
      rewrite list_lookup_insert_ne by lia. done.
Qed.

Lemma decode_head_blocks d h bs :
  length (lh_block h) = 30%nat -> head_encodes d bs -> (length bs <= 30)%nat ->
  let h' := decode_blocks (length bs) 0 d (mklh (geti32 d 0) (lh_block h)) in
  lh_n h' = Z.of_nat (length bs) /\ length (lh_block h') = 30%nat /\ take (length bs) (lh_block h') = bs.
Proof.
  intros Hl [Hn Hb] Hlen. cbv zeta.
  destruct (decode_blocks_spec (length bs) 0 d (mklh (geti32 d 0) (lh_block h))) as (H1 & H2 & H3 & _).
  { simpl. lia. }
  cbv zeta in *. simpl in *. split; [by rewrite H1|]. split; [by rewrite H2|].
  apply list_eq. intros i. destruct (decide (i < length bs)%nat) as [Hi|Hi].
  - rewrite lookup_take_lt by done. rewrite H3 by lia.
    destruct (lookup_lt_is_Some_2 bs i Hi) as (x & Hx). rewrite Hx. f_equal. by apply Hb.
  - rewrite lookup_take_ge by lia. symmetry. apply lookup_ge_None_2. lia.
Qed.

(** ** One block copied *)

Section runs.
Context {S B : Type} `{HBC : !BlockCache S B} (dev : Z) `{HCS : !CacheSpec S B dev}.

Lemma lift_Ok {A} (m : M S A) (s : logst S) a x :
  m (below s) = Ok a x -> lift m s = Ok a (set_below x s).
Proof. intros E. unfold lift, zoom. by rewrite E. Qed.

(** What a routine leaves: a new cache state that shows the view [v]. *)
Definition shows (s s' : logst S) (v : cview) : Prop :=
  exists x, s' = set_below x s /\ crep (dev := dev) x v.

Definition install_step (src dst : Z) (recovering : bool) : M (logst S) unit :=
  let! lbuf := lift (cread dev src) in
  let! dbuf := lift (cread dev dst) in
  let! d := lift (cdata lbuf) in
  lift (cset dbuf d) ;;
  lift (cwrite dbuf) ;;
  (if recovering then ret tt else lift (cunpin dbuf)) ;;
  lift (crelse lbuf) ;;
  lift (crelse dbuf).

Definition log_step (to from : Z) : M (logst S) unit :=
  let! tob := lift (cread dev to) in
  let! fromb := lift (cread dev from) in
  let! d := lift (cdata fromb) in
  lift (cset tob d) ;;
  lift (cwrite tob) ;;
  lift (crelse fromb) ;;
  lift (crelse tob).

(** The view after [dst] has been overwritten with [d], on the disk as well. *)
Definition copied (dst : Z) (d : block) (pins : list Z) (v : cview) : cview :=
  mkcview (cv_upd (cv_view v) dst d) (cv_upd (cv_disk v) dst d) (cv_trace v ++ [(dst, d)]) [] pins.

Lemma read_both s v a b :
  crep (below s) v -> cv_held v = [] -> a <> b -> blockno_ok a -> blockno_ok b ->
  croom v a -> croom (hold a v) b ->
  exists ba bb x1 x2, lift (cread dev a) s = Ok ba (set_below x1 s) /\
    lift (cread dev b) (set_below x1 s) = Ok bb (set_below x2 s) /\
    crep x2 (hold b (hold a v)) /\ cbuf x2 ba a /\ cbuf x2 bb b.
Proof.
  intros Hc Hh Hne Ha Hb Hra Hrb.
  destruct (cread_ok _ _ a Hc Ha) as (ba & x1 & E1 & Hc1 & Hba & _); [rewrite Hh; set_solver|done|].
  destruct (cread_ok _ _ b Hc1 Hb) as (bb & x2 & E2 & Hc2 & Hbb & Hk); [simpl; rewrite Hh; set_solver|done|].
  exists ba, bb, x1, x2. split; [by apply lift_Ok|]. split; [by apply (lift_Ok _ (set_below x1 s))|].
  split; [done|]. split; [by apply Hk|done].
Qed.

Lemma release_both s v a b ba bb :
  crep (below s) v -> cv_held v = [b; a] -> a <> b -> cbuf (below s) ba a -> cbuf (below s) bb b ->
  (a ∈ cv_pins v \/ cv_view v a = cv_disk v a) -> (b ∈ cv_pins v \/ cv_view v b = cv_disk v b) ->
  (exists s', (lift (crelse ba) ;; lift (crelse bb)) s = Ok tt s' /\ shows s s' (with_held [] v)) /\
  (exists s', (lift (crelse bb) ;; lift (crelse ba)) s = Ok tt s' /\ shows s s' (with_held [] v)).
Proof.
  intros Hc Hh Hne Hba Hbb Hca Hcb. split.
  - destruct (crelse_ok _ _ ba a [b] [] Hc Hba Hh Hca) as (x1 & E1 & Hc1 & Hk).
    destruct (crelse_ok x1 _ bb b [] [] Hc1) as (x2 & E2 & Hc2 & _); [by apply Hk|done|done|].
    exists (set_below x2 s). erewrite bind_Ok by (apply lift_Ok; exact E1).
    split; [by apply (lift_Ok _ (set_below x1 s))|by exists x2].
  - destruct (crelse_ok _ _ bb b [] [a] Hc Hbb Hh Hcb) as (x1 & E1 & Hc1 & Hk).
    destruct (crelse_ok x1 _ ba a [] [] Hc1) as (x2 & E2 & Hc2 & _); [by apply Hk|done|done|].
    exists (set_below x2 s). erewrite bind_Ok by (apply lift_Ok; exact E1).
    split; [by apply (lift_Ok _ (set_below x1 s))|by exists x2].
Qed.

(** A block that nobody holds is clean or pinned. *)
Lemma clean_or_pinned (x : S) v a :
  crep (dev := dev) x v -> a ∉ cv_held v -> a ∈ cv_pins v \/ cv_view v a = cv_disk v a.
Proof.
  intros Hc Ha. destruct (decide (a ∈ cv_pins v)); [by left|right]. by eapply crep_clean.
Qed.

Lemma install_step_run s v src dst (recovering : bool) pins :
  crep (below s) v -> cv_held v = [] -> src <> dst -> blockno_ok src -> blockno_ok dst ->
  croom v src -> croom (hold src v) dst ->
  (if recovering then pins = cv_pins v
   else exists l1 l2, cv_pins v = l1 ++ dst :: l2 /\ pins = l1 ++ l2) ->
  exists s', install_step src dst recovering s = Ok tt s' /\
    shows s s' (copied dst (cv_view v src) pins v).
Proof.
  intros Hc Hh Hne Hs Hd Hrs Hrd Hpins.
  destruct (read_both s v src dst) as (lb & db & x1 & x2 & E1 & E2 & Hc2 & Hlb & Hdb); try done.
  unfold install_step. erewrite bind_Ok by exact E1. erewrite bind_Ok by exact E2.
  erewrite bind_Ok by (apply lift_Ok, (cdata_ok _ _ _ src Hc2 Hlb)).
  destruct (cset_ok _ _ db dst (cv_view v src) Hc2 Hdb) as (x3 & E3 & Hc3 & Hk3).
  erewrite bind_Ok by (apply (lift_Ok _ (set_below x2 s)); exact E3).
  destruct (cwrite_ok _ _ db dst Hc3 (Hk3 _ _ Hdb)) as (x4 & E4 & Hc4 & Hk4).
  erewrite bind_Ok by (apply (lift_Ok _ (set_below x3 s)); exact E4).
  assert (exists x5, (if recovering then ret tt else lift (cunpin db)) (set_below x4 s) = Ok tt (set_below x5 s) /\
            crep x5 (with_pins pins (flush dst (set_view dst (cv_view v src) (hold dst (hold src v))))) /\
            cbuf x5 lb src /\ cbuf x5 db dst) as (x5 & E5 & Hc5 & Hlb5 & Hdb5).
  { destruct recovering.
    - subst pins. exists x4. split; [done|]. split; [exact Hc4|auto].
    - destruct Hpins as (l1 & l2 & Ep & ->).
      destruct (cunpin_ok _ _ db dst l1 l2 Hc4 (Hk4 _ _ (Hk3 _ _ Hdb)) Ep) as (x5 & E5 & Hc5 & Hk5).
      exists x5. split; [by apply (lift_Ok _ (set_below x4 s))|]. split; [done|auto]. }
  erewrite bind_Ok by exact E5.
  destruct (release_both (set_below x5 s) _ src dst lb db Hc5) as [(s' & E6 & Hsh) _]; try done.
  - simpl. by rewrite Hh.
  - simpl. rewrite !cv_upd_ne by done.
    destruct (clean_or_pinned _ _ src Hc) as [Hp|Hcl]; [rewrite Hh; set_solver| |by right].
    left. destruct recovering; [by subst|]. destruct Hpins as (l1 & l2 & Ep & ->). rewrite Ep in Hp. set_solver.
  - right. simpl. by rewrite !cv_upd_eq.
  - exists s'. split; [exact E6|]. destruct Hsh as (x6 & -> & Hc6). exists x6. split; [done|].
    eapply crep_proper; [reflexivity| |exact Hc6].
    split; simpl; try (intros k); unfold cv_upd; rewrite ?Z.eqb_refl; done.
Qed.

Lemma log_step_run s v to from :
  crep (below s) v -> cv_held v = [] -> to <> from -> blockno_ok to -> blockno_ok from ->
  croom v to -> croom (hold to v) from ->
  exists s', log_step to from s = Ok tt s' /\
    shows s s' (copied to (cv_view v from) (cv_pins v) v).
Proof.
  intros Hc Hh Hne Hs Hd Hrs Hrd.
  destruct (read_both s v to from) as (tb & fb & x1 & x2 & E1 & E2 & Hc2 & Htb & Hfb); try done.
  unfold log_step. erewrite bind_Ok by exact E1. erewrite bind_Ok by exact E2.
  erewrite bind_Ok by (apply lift_Ok, (cdata_ok _ _ _ from Hc2 Hfb)).
  destruct (cset_ok _ _ tb to (cv_view v from) Hc2 Htb) as (x3 & E3 & Hc3 & Hk3).
  erewrite bind_Ok by (apply (lift_Ok _ (set_below x2 s)); exact E3).
  destruct (cwrite_ok _ _ tb to Hc3 (Hk3 _ _ Htb)) as (x4 & E4 & Hc4 & Hk4).
  erewrite bind_Ok by (apply (lift_Ok _ (set_below x3 s)); exact E4).
  destruct (release_both (set_below x4 s) _ to from tb fb Hc4) as [_ (s' & E6 & Hsh)]; auto.
  - simpl. by rewrite Hh.
  - right. simpl. by rewrite !cv_upd_eq.
  - simpl. rewrite !cv_upd_ne by done. apply (clean_or_pinned _ _ from Hc). rewrite Hh. set_solver.
  - exists s'. split; [exact E6|]. destruct Hsh as (x6 & -> & Hc6). exists x6. split; [done|].
    eapply crep_proper; [reflexivity| |exact Hc6].
    split; simpl; try (intros k); unfold cv_upd; rewrite ?Z.eqb_refl; done.
Qed.

(** ** The loops *)

Variables (start size : Z).
Hypothesis Hstart : 0 <= start.
Hypothesis Hend : start + size <= 2147483648.

Definition in_log (x : Z) : Prop := start <= x < start + size.

(** A block a transaction may log. *)
Definition data_block (x : Z) : Prop := 0 <= x < 2147483648 /\ ~ in_log x.

(** The in-memory log holds the transaction [bs]. *)
Record log_holds (s : logst S) (bs : list Z) : Prop := {
  lo_start : log_start s = start;
  lo_size : log_size s = size;
  lo_dev : log_dev s = dev;
  lo_n : lh_n (lh s) = Z.of_nat (length bs);
  lo_blocks : take (length bs) (lh_block (lh s)) = bs;
  lo_array : length (lh_block (lh s)) = 30%nat
}.

Lemma lh_get_lookup (s : logst S) bs i x : log_holds s bs -> bs !! i = Some x -> lh_get (lh s) (Z.of_nat i) = x.
Proof.
  intros Hl Hi. unfold lh_get. rewrite Nat2Z.id. rewrite <- (lo_blocks _ _ Hl) in Hi.
  apply lookup_take_Some in Hi as [-> _]. done.
Qed.

(** The view after the writes [ws]. *)
Definition wrote (ws : list (Z * block)) (pins : list Z) (v : cview) : cview :=
  mkcview (apply_writes (cv_view v) ws) (apply_writes (cv_disk v) ws) (cv_trace v ++ ws) [] pins.

Lemma wrote_snoc ws k d pins pins' v :
  copied k d pins (wrote ws pins' v) ≡ wrote (ws ++ [(k, d)]) pins v.
Proof.
  split; simpl; try done.
  - intros x. by rewrite apply_writes_snoc.
  - intros x. by rewrite apply_writes_snoc.
  - by rewrite <- app_assoc.
Qed.

Lemma wrote_nil v : cv_held v = [] -> v ≡ wrote [] (cv_pins v) v.
Proof. intros Hh. split; simpl; try done. by rewrite app_nil_r. Qed.

(** Entry [i] of the log area paired with block [bs !! i]. *)
Definition log_ws (f : Z -> block) (bs : list Z) : list (Z * block) :=
  imap (fun i b => (start + 1 + Z.of_nat i, f b)) bs.

Definition home_ws (f : Z -> block) (bs : list Z) : list (Z * block) :=
  imap (fun i b => (b, f (start + 1 + Z.of_nat i))) bs.

Lemma log_ws_fst f bs x : x ∈ (log_ws f bs).*1 -> start + 1 <= x < start + 1 + Z.of_nat (length bs).
Proof.
  unfold log_ws. rewrite fmap_imap. intros (i & y & -> & Hi)%elem_of_lookup_imap_1.
  apply lookup_lt_Some in Hi. simpl. lia.
Qed.

Lemma home_ws_fst f bs : (home_ws f bs).*1 = bs.
Proof. unfold home_ws. rewrite fmap_imap. apply list_eq. intros i. rewrite list_lookup_imap. by destruct (bs !! i). Qed.

Lemma take_imap_S {A C} (f : nat -> A -> C) l k x :
  l !! k = Some x -> take (Datatypes.S k) (imap f l) = take k (imap f l) ++ [f k x].
Proof. intros Hk. apply take_S_r. by rewrite list_lookup_imap, Hk. Qed.

Lemma elem_of_fst_take (ws : list (Z * block)) k x : x ∈ (take k ws).*1 -> x ∈ ws.*1.
Proof. rewrite fmap_take, elem_of_take. intros (i & Hi & _). by eapply list_elem_of_lookup_2. Qed.

Lemma write_log_run s v bs :
  crep (below s) v -> cv_held v = [] -> cv_pins v = rev bs -> log_holds s bs ->
  Forall data_block bs -> (length bs < NBUF)%nat -> Z.of_nat (length bs) < size ->
  exists s', write_log s = Ok tt s' /\ shows s s' (wrote (log_ws (cv_view v) bs) (rev bs) v).
Proof.
  intros Hc Hh Hp Hl Hdata Hlen Hsz. unfold write_log. erewrite bind_Ok by reflexivity.
  rewrite (lo_n _ _ Hl), Nat2Z.id. rewrite Forall_forall in Hdata.
  set (W := log_ws (cv_view v) bs).
  match goal with |- context [for_up _ 0 ?b] => set (body := b) end.
  pose (I := fun (k : Z) (t : logst S) => shows s t (wrote (take (Z.to_nat k) W) (rev bs) v)).
  assert (Hloop : triple (I 0) (for_up (length bs) 0 body) (fun _ => I (0 + Z.of_nat (length bs)))).
  { apply triple_for_up. intros k Hk t (x & -> & Hx). unfold body. erewrite bind_Ok by reflexivity.
    cbn [log_start log_dev lh set_below]. rewrite (lo_start _ _ Hl), (lo_dev _ _ Hl).
    destruct (lookup_lt_is_Some_2 bs (Z.to_nat k)) as (b & Hb); [lia|].
    assert (Eg : lh_get (lh s) k = b) by (rewrite <- (Z2Nat.id k) by lia; by eapply lh_get_lookup).
    rewrite Eg.
    destruct (Hdata b) as [Hbr Hbl]; [by eapply list_elem_of_lookup_2|].
    assert (Hbp : b ∈ rev bs) by (apply elem_of_rev; by eapply list_elem_of_lookup_2).
    destruct (log_step_run (set_below x s) _ (start + k + 1) b Hx) as (t' & E & x' & -> & Hx').
    - done.
    - intros E. apply Hbl. unfold in_log. lia.
    - unfold blockno_ok. lia.
    - unfold blockno_ok. lia.
    - right. simpl. rewrite length_rev. lia.
    - left. done.
    - exists tt, (set_below x' s). split; [exact E|]. exists x'. split; [done|].
      eapply crep_proper; [reflexivity| |exact Hx'].
      rewrite wrote_snoc. unfold W, log_ws in *. simpl.
      replace (Z.to_nat (k + 1)) with (Datatypes.S (Z.to_nat k)) by lia.
      rewrite (take_imap_S _ _ _ b Hb). rewrite apply_writes_other.
      + replace (start + 1 + Z.of_nat (Z.to_nat k)) with (start + k + 1) by lia. reflexivity.
      + intros Hin. apply elem_of_fst_take, log_ws_fst in Hin. apply Hbl. unfold in_log. lia. }
  destruct (Hloop s) as ([] & s' & E & Hs').
  { exists (below s). split; [by destruct s|]. simpl. rewrite <- Hp.
    eapply crep_proper; [reflexivity|symmetry; by apply wrote_nil|done]. }
  exists s'. split; [exact E|]. unfold I in Hs'.
  rewrite take_ge in Hs'; [done|]. unfold W, log_ws. rewrite length_imap. lia.
Qed.

Lemma install_trans_run s v bs (recovering : bool) :
  crep (below s) v -> cv_held v = [] -> cv_pins v = (if recovering then [] else rev bs) -> log_holds s bs ->
  Forall data_block bs -> (length bs < NBUF)%nat \/ recovering = true -> Z.of_nat (length bs) < size ->
  exists s', install_trans recovering s = Ok tt s' /\ shows s s' (wrote (home_ws (cv_view v) bs) [] v).
Proof.
  intros Hc Hh Hp Hl Hdata Hlen Hsz. unfold install_trans. erewrite bind_Ok by reflexivity.
  rewrite (lo_n _ _ Hl), Nat2Z.id. rewrite Forall_forall in Hdata.
  set (W := home_ws (cv_view v) bs).
  match goal with |- context [for_up _ 0 ?b] => set (body := b) end.
  pose (pins := fun k : Z => if recovering then [] else rev (drop (Z.to_nat k) bs)).
  pose (I := fun (k : Z) (t : logst S) => shows s t (wrote (take (Z.to_nat k) W) (pins k) v)).
  assert (Hloop : triple (I 0) (for_up (length bs) 0 body) (fun _ => I (0 + Z.of_nat (length bs)))).
  { apply triple_for_up. intros k Hk t (x & -> & Hx). unfold body. erewrite bind_Ok by reflexivity.
    cbn [log_start log_dev lh set_below]. rewrite (lo_start _ _ Hl), (lo_dev _ _ Hl).
    destruct (lookup_lt_is_Some_2 bs (Z.to_nat k)) as (b & Hb); [lia|].
    assert (Eg : lh_get (lh s) k = b) by (rewrite <- (Z2Nat.id k) by lia; by eapply lh_get_lookup).
    rewrite Eg.
    destruct (Hdata b) as [Hbr Hbl]; [by eapply list_elem_of_lookup_2|].
    assert (Edrop : drop (Z.to_nat k) bs = b :: drop (Z.to_nat (k + 1)) bs).
    { replace (Z.to_nat (k + 1)) with (Datatypes.S (Z.to_nat k)) by lia. by apply drop_S. }
    destruct (install_step_run (set_below x s) _ (start + k + 1) b recovering (pins (k + 1)) Hx)
      as (t' & E & x' & -> & Hx').
    - done.
    - intros E. apply Hbl. unfold in_log. lia.
    - unfold blockno_ok. lia.
    - unfold blockno_ok. lia.
    - right. simpl. unfold pins. destruct recovering; simpl; [unfold NBUF; lia|].
      destruct Hlen as [Hlen|]; [|done]. rewrite length_rev, length_drop. lia.
    - unfold pins. destruct recovering; [right; simpl; unfold NBUF; lia|].
      left. simpl. rewrite Edrop, elem_of_rev. set_solver.
    - unfold pins. destruct recovering; [done|]. simpl. rewrite Edrop. simpl.
      exists (rev (drop (Z.to_nat (k + 1)) bs)), []. by rewrite app_nil_r.
    - exists tt, (set_below x' s). split; [exact E|]. exists x'. split; [done|].
      eapply crep_proper; [reflexivity| |exact Hx'].
      rewrite wrote_snoc. unfold W, home_ws in *. simpl.
      replace (Z.to_nat (k + 1)) with (Datatypes.S (Z.to_nat k)) by lia.
      rewrite (take_imap_S _ _ _ b Hb). rewrite apply_writes_other.
      + replace (start + 1 + Z.of_nat (Z.to_nat k)) with (start + k + 1) by lia. reflexivity.
      + intros Hin. apply elem_of_fst_take in Hin. fold (home_ws (cv_view v) bs) in Hin.
        rewrite home_ws_fst in Hin. destruct (Hdata _ Hin) as [_ Hn]. apply Hn. unfold in_log. lia. }
  destruct (Hloop s) as ([] & s' & E & Hs').
  { exists (below s). split; [by destruct s|]. unfold pins. change (Z.to_nat 0) with 0%nat.
    rewrite drop_0, <- Hp.
    eapply crep_proper; [reflexivity|symmetry; by apply wrote_nil|done]. }
  exists s'. split; [exact E|]. unfold I, pins in Hs'.
  rewrite take_ge in Hs' by (unfold W, home_ws; rewrite length_imap; lia).
  rewrite drop_ge in Hs' by lia. by destruct recovering.
Qed.

(** ** The header *)

Lemma write_head_run s v bs :
  crep (below s) v -> cv_held v = [] -> (length (cv_pins v) < NBUF)%nat -> log_holds s bs -> 0 < size ->
  exists s', write_head s = Ok tt s' /\
    shows s s' (wrote [(start, encode_head (lh s) (cv_view v start))] (cv_pins v) v).
Proof.
  intros Hc Hh Hp Hl Hsz. unfold write_head. erewrite bind_Ok by reflexivity.
  rewrite (lo_start _ _ Hl), (lo_dev _ _ Hl).
  destruct (cread_ok _ _ start Hc) as (b & x1 & E1 & Hc1 & Hb1 & _);
    [unfold blockno_ok; lia|rewrite Hh; set_solver|right; rewrite Hh; simpl; lia|].
  erewrite bind_Ok by (apply lift_Ok; exact E1).
  erewrite bind_Ok by (apply (lift_Ok _ (set_below x1 s)), (cdata_ok _ _ _ start Hc1 Hb1)).
  set (d := encode_head (lh s) (cv_view (hold start v) start)).
  destruct (cset_ok _ _ b start d Hc1 Hb1) as (x2 & E2 & Hc2 & Hk2).
  erewrite bind_Ok by (apply (lift_Ok _ (set_below x1 s)); exact E2).
  destruct (cwrite_ok _ _ b start Hc2 (Hk2 _ _ Hb1)) as (x3 & E3 & Hc3 & Hk3).
  erewrite bind_Ok by (apply (lift_Ok _ (set_below x2 s)); exact E3).
  destruct (crelse_ok _ _ b start [] [] Hc3 (Hk3 _ _ (Hk2 _ _ Hb1))) as (x4 & E4 & Hc4 & _).
  { simpl. by rewrite Hh. }
  { right. simpl. by rewrite !cv_upd_eq. }
  exists (set_below x4 s). split; [by apply (lift_Ok _ (set_below x3 s))|]. exists x4. split; [done|].
  eapply crep_proper; [reflexivity| |exact Hc4].
  split; simpl; try (intros k); rewrite ?cv_upd_eq; done.
Qed.

Lemma read_head_run s v bs :
  crep (below s) v -> cv_held v = [] -> (length (cv_pins v) < NBUF)%nat ->
  log_start s = start -> log_size s = size -> log_dev s = dev -> length (lh_block (lh s)) = 30%nat ->
  head_encodes (cv_view v start) bs -> (length bs <= 30)%nat -> 0 < size ->
  exists s' x, read_head s = Ok tt s' /\ below s' = x /\ crep (dev := dev) x v /\ log_holds s' bs /\
    outstanding s' = outstanding s /\ committing s' = committing s.
Proof.
  intros Hc Hh Hp E1 E2 E3 Harr Henc Hlen Hsz. unfold read_head. erewrite bind_Ok by reflexivity.
  rewrite E1, E3.
  destruct (cread_ok _ _ start Hc) as (b & x1 & Er & Hc1 & Hb1 & _);
    [unfold blockno_ok; lia|rewrite Hh; set_solver|right; rewrite Hh; simpl; lia|].
  erewrite bind_Ok by (apply lift_Ok; exact Er).
  erewrite bind_Ok by (apply (lift_Ok _ (set_below x1 s)), (cdata_ok _ _ _ start Hc1 Hb1)).
  cbn [cv_view hold]. rewrite (he_n _ _ Henc), Nat2Z.id. erewrite bind_Ok by reflexivity.
  destruct (crelse_ok _ _ b start [] [] Hc1 Hb1) as (x2 & E4 & Hc2 & _).
  { simpl. by rewrite Hh. }
  { simpl. apply (clean_or_pinned _ _ start Hc). rewrite Hh. set_solver. }
  destruct (decode_head_blocks (cv_view v start) (lh s) bs Harr Henc Hlen) as (Hn & Ha & Ht).
  rewrite (he_n _ _ Henc) in Hn, Ha, Ht.
  eexists _, x2. split; [apply lift_Ok; exact E4|]. split; [done|]. split.
  - eapply crep_proper; [reflexivity| |exact Hc2]. by split.
  - split; [|done]. split; try done.
Qed.

Lemma log_holds_shows s s' v bs : log_holds s bs -> shows s s' v -> log_holds s' bs.
Proof. intros [H1 H2 H3 H4 H5 H6] (x & -> & _). by split. Qed.

Lemma wrote_wrote ws1 ws2 p1 p2 v : wrote ws2 p2 (wrote ws1 p1 v) ≡ wrote (ws1 ++ ws2) p2 v.
Proof.
  split; simpl; try done.
  - intros k. by rewrite apply_writes_app.
  - intros k. by rewrite apply_writes_app.
  - by rewrite app_assoc.
Qed.

(** ** [commit] *)

Definition commit_ws (h : logheader) (f : Z -> block) (bs : list Z) : list (Z * block) :=
  let head1 := encode_head h (f start) in
  log_ws f bs ++ [(start, head1)] ++ ((fun b => (b, f b)) <$> bs) ++
  [(start, encode_head (mklh 0 (lh_block h)) head1)].

Lemma log_ws_nodup f bs : NoDup (log_ws f bs).*1.
Proof.
  unfold log_ws. rewrite fmap_imap. apply NoDup_alt. intros i j x. rewrite !list_lookup_imap.
  destruct (bs !! i), (bs !! j); simpl; intros; simplify_eq; lia.
Qed.

Lemma log_ws_get d f bs i b :
  bs !! i = Some b -> apply_writes d (log_ws f bs) (start + 1 + Z.of_nat i) = f b.
Proof.
  intros Hi. apply apply_writes_in; [apply log_ws_nodup|]. unfold log_ws.
  apply list_elem_of_lookup. exists i. by rewrite list_lookup_imap, Hi.
Qed.

Lemma commit_run s v bs :
  crep (below s) v -> cv_held v = [] -> cv_pins v = rev bs -> log_holds s bs ->
  Forall data_block bs -> (0 < length bs < NBUF)%nat -> Z.of_nat (length bs) < size ->
  exists s' x, commit s = Ok tt s' /\ s' = set_lh (mklh 0 (lh_block (lh s))) (set_below x s) /\
    crep (dev := dev) x (wrote (commit_ws (lh s) (cv_view v) bs) [] v).
Proof.
  intros Hc Hh Hp Hl Hdata Hlen Hsz. unfold commit. erewrite bind_Ok by reflexivity.
  rewrite (lo_n _ _ Hl). destruct (Z.ltb_spec 0 (Z.of_nat (length bs))); [|lia].
  destruct (write_log_run s v bs) as (s1 & E1 & Hs1); try done; [lia|].
  erewrite bind_Ok by exact E1. pose proof (log_holds_shows _ _ _ _ Hl Hs1) as Hl1.
  assert (Elh1 : lh s1 = lh s) by (by destruct Hs1 as (? & -> & _)).
  destruct Hs1 as (x1 & Es1 & Hc1).
  destruct (write_head_run s1 (wrote (log_ws (cv_view v) bs) (rev bs) v) bs) as (s2 & E2 & Hs2); [by subst s1|done|simpl; rewrite length_rev; lia|done|lia|].
  erewrite bind_Ok by exact E2. pose proof (log_holds_shows _ _ _ _ Hl1 Hs2) as Hl2.
  assert (Elh2 : lh s2 = lh s) by (destruct Hs2 as (? & -> & _); done).
  destruct Hs2 as (x2 & Es2 & Hc2). rewrite Elh1 in Hc2.
  rewrite (wrote_wrote (log_ws (cv_view v) bs)) in Hc2. cbn [cv_view cv_pins wrote] in Hc2.
  rewrite (apply_writes_other _ _ start) in Hc2.
  2: { intros Hin%log_ws_fst. lia. }
  set (head1 := encode_head (lh s) (cv_view v start)) in *.
  destruct (install_trans_run s2 (wrote (log_ws (cv_view v) bs ++ [(start, head1)]) (rev bs) v) bs false)
    as (s3 & E3 & Hs3); [by subst s2|done|done|done|done|left; lia|done|].
  erewrite bind_Ok by exact E3. pose proof (log_holds_shows _ _ _ _ Hl2 Hs3) as Hl3.
  assert (Elh3 : lh s3 = lh s) by (destruct Hs3 as (? & -> & _); done).
  destruct Hs3 as (x3 & Es3 & Hc3). rewrite wrote_wrote in Hc3. cbn [cv_view wrote] in Hc3.
  assert (Ehome : home_ws (apply_writes (cv_view v) (log_ws (cv_view v) bs ++ [(start, head1)])) bs =
            (fun b => (b, cv_view v b)) <$> bs).
  { unfold home_ws. apply list_eq. intros i. rewrite list_lookup_imap, list_lookup_fmap.
    destruct (bs !! i) as [b|] eqn:Hb; [|done]. simpl. do 2 f_equal.
    rewrite apply_writes_snoc, cv_upd_ne by lia. by apply log_ws_get. }
  rewrite Ehome in Hc3. erewrite bind_Ok by reflexivity.
  set (s3' := set_lh (mklh 0 (lh_block (lh s3))) s3).
  assert (Hl3' : log_holds s3' []).
  { destruct Hl3 as [H1 H2 H3 H4 H5 H6]. by split. }
  destruct (write_head_run s3' (wrote ((log_ws (cv_view v) bs ++ [(start, head1)]) ++ ((fun b => (b, cv_view v b)) <$> bs)) [] v) [])
    as (s4 & E4 & x4 & -> & Hc4); [by subst s3|done|simpl; unfold NBUF; lia|done|lia|].
  unfold s3' in *. rewrite Elh3 in *. cbn [lh set_lh cv_view wrote cv_pins] in Hc4.
  rewrite wrote_wrote in Hc4.
  exists (set_below x4 (set_lh (mklh 0 (lh_block (lh s))) s3)), x4. split; [exact E4|]. split; [by subst|].
  eapply crep_proper; [reflexivity| |exact Hc4]. unfold commit_ws. fold head1.
  rewrite (apply_writes_app _ (_ ++ _)), apply_writes_other.
  - rewrite apply_writes_snoc, cv_upd_eq, <- !app_assoc. reflexivity.
  - rewrite <- list_fmap_compose. intros (b & Eb & Hb)%list_elem_of_fmap. simpl in Eb. subst b.
    rewrite Forall_forall in Hdata. destruct (Hdata _ Hb) as [_ Hn]. apply Hn. unfold in_log. lia.
Qed.

(** ** Recovery *)

Lemma recover_run s v bs :
  crep (below s) v -> cv_held v = [] -> cv_pins v = [] ->
  log_start s = start -> log_size s = size -> log_dev s = dev -> length (lh_block (lh s)) = 30%nat ->
  head_encodes (cv_view v start) bs -> (length bs <= 30)%nat -> Forall data_block bs ->
  Z.of_nat (length bs) < size ->
  exists s' x h, recover_from_log s = Ok tt s' /\ below s' = x /\
    crep (dev := dev) x (wrote (home_ws (cv_view v) bs ++ [(start, encode_head (mklh 0 h) (cv_view v start))]) [] v) /\
    log_holds s' [] /\ outstanding s' = outstanding s /\ committing s' = committing s.
Proof.
  intros Hc Hh Hp E1 E2 E3 Harr Henc Hlen Hdata Hsz. unfold recover_from_log.
  destruct (read_head_run s v bs) as (s1 & x1 & Er & Eb1 & Hc1 & Hl1 & Eo1 & Ec1); try done; [|lia|].
  { rewrite Hp. simpl. unfold NBUF. lia. }
  erewrite bind_Ok by exact Er. rewrite <- Eb1 in Hc1.
  destruct (install_trans_run s1 v bs true Hc1) as (s2 & Ei & Hs2); try done; [by right|].
  erewrite bind_Ok by exact Ei. pose proof (log_holds_shows _ _ _ _ Hl1 Hs2) as Hl2.
  destruct Hs2 as (x2 & -> & Hc2). erewrite bind_Ok by reflexivity.
  set (s3 := set_lh _ _).
  assert (Hl3 : log_holds s3 []) by (destruct Hl2 as [H1 H2 H3 H4 H5 H6]; by split).
  destruct (write_head_run s3 (wrote (home_ws (cv_view v) bs) [] v) []) as (s4 & E4 & x4 & -> & Hc4);
    [done|done|simpl; unfold NBUF; lia|done|lia|].
  exists (set_below x4 s3), x4, (lh_block (lh s1)). split; [exact E4|]. split; [done|]. split; [|split; [by destruct Hl3; split|split; [exact Eo1|exact Ec1]]].
  rewrite wrote_wrote in Hc4. cbn [cv_view wrote] in Hc4. rewrite apply_writes_other in Hc4; [exact Hc4|].
  rewrite home_ws_fst. intros Hin. rewrite Forall_forall in Hdata. destruct (Hdata _ Hin) as [_ Hn].
  apply Hn. unfold in_log. lia.
Qed.
End runs.

(** ** Crashes *)

Section crash.
Variables (start size : Z).
Hypothesis Hsize : 0 < size.

(** The log on the disk is well formed and holds the transaction [bs]. *)
Record disk_log (d : Z -> block) (bs : list Z) : Prop := {
  dl_ok : block_ok (d start);
  dl_head : head_encodes (d start) bs;
  dl_data : Forall (data_block start size) bs;
  dl_len : (length bs <= 30)%nat;
  dl_size : Z.of_nat (length bs) < size
}.

(** The block numbers in the header of the disk. *)
Definition head_list (d : Z -> block) : list Z :=
  (fun i => geti32 (d start) (4 + 4 * i)) <$> seq 0 (Z.to_nat (geti32 (d start) 0)).

(** The disk that recovery makes of [d]. *)
Definition recovered (d : Z -> block) : Z -> block := apply_writes d (home_ws start d (head_list d)).

(** Agreement outside the log. *)
Definition data_eq (d d' : Z -> block) : Prop := forall x, ~ in_log start size x -> d x = d' x.

Lemma head_list_enc d bs : head_encodes (d start) bs -> head_list d = bs.
Proof.
  intros [Hn Hb]. unfold head_list. rewrite Hn, Nat2Z.id. apply list_eq. intros i.
  rewrite list_lookup_fmap. destruct (decide (i < length bs)%nat) as [Hi|Hi].
  - rewrite lookup_seq_lt by done. simpl. destruct (lookup_lt_is_Some_2 bs i Hi) as (x & Hx).
    rewrite Hx. f_equal. by apply Hb.
  - rewrite lookup_seq_ge by lia. simpl. symmetry. apply lookup_ge_None_2. lia.
Qed.

Lemma head_encodes_inj d bs bs' : head_encodes d bs -> head_encodes d bs' -> bs = bs'.
Proof.
  intros H1 H2. rewrite <- (head_list_enc (fun _ => d) bs H1). by apply head_list_enc.
Qed.

Lemma recovered_log d bs x :
  disk_log d bs -> recovered d x = apply_writes d (home_ws start d bs) x.
Proof. intros H. unfold recovered. by rewrite (head_list_enc d bs) by apply H. Qed.

Lemma recovered_empty d x : disk_log d [] -> recovered d x = d x.
Proof. intros H. by rewrite (recovered_log d []). Qed.

Lemma data_block_ne_start b : data_block start size b -> b <> start.
Proof. intros [_ Hn] ->. apply Hn. unfold in_log. lia. Qed.

Lemma home_ws_ext f g bs :
  (forall i, (i < length bs)%nat -> f (start + 1 + Z.of_nat i) = g (start + 1 + Z.of_nat i)) ->
  home_ws start f bs = home_ws start g bs.
Proof.
  intros H. unfold home_ws. apply list_eq. intros i. rewrite !list_lookup_imap.
  destruct (bs !! i) eqn:E; [|done]. simpl. rewrite H; [done|]. by eapply lookup_lt_Some.
Qed.

Lemma disk_log_ext d d' bs : (forall x, d x = d' x) -> disk_log d bs -> disk_log d' bs.
Proof. intros E [H1 H2 H3 H4 H5]. split; try done; by rewrite <- E. Qed.

Lemma recovered_ext d d' x : (forall y, d y = d' y) -> recovered d x = recovered d' x.
Proof.
  intros E. unfold recovered. assert (head_list d = head_list d') as ->.
  { unfold head_list. by rewrite E. }
  rewrite (home_ws_ext d d') by (intros i _; apply E). by apply apply_writes_ext.
Qed.

(** Data writes leave the log alone. *)
Lemma data_writes_log d ws x :
  (forall y, y ∈ ws.*1 -> ~ in_log start size y) -> in_log start size x -> apply_writes d ws x = d x.
Proof. intros H Hx. apply apply_writes_other. intros Hin. by apply (H x Hin). Qed.

(** ** Crashes during a commit *)

Lemma fmap_pair_fst (f : Z -> block) bs : ((fun b => (b, f b)) <$> bs).*1 = bs.
Proof. rewrite <- list_fmap_compose. apply list_fmap_id. Qed.

Lemma apply_pairs d (f : Z -> block) bs x :
  apply_writes d ((fun b => (b, f b)) <$> bs) x = if decide (x ∈ bs) then f x else d x.
Proof.
  revert d. induction bs as [|b bs IH]; intros d; [done|]. cbn [fmap list_fmap apply_writes].
  rewrite IH. destruct (decide (x ∈ bs)) as [Hin|Hni].
  - rewrite decide_True by set_solver. done.
  - destruct (decide (x = b)) as [->|Hne].
    + rewrite cv_upd_eq, decide_True by set_solver. done.
    + rewrite cv_upd_ne, decide_False by set_solver. done.
Qed.

Lemma take_app_cases {A} k (l1 l2 : list A) :
  (k <= length l1 /\ take k (l1 ++ l2) = take k l1)%nat \/
  exists j, k = (length l1 + j)%nat /\ take k (l1 ++ l2) = l1 ++ take j l2.
Proof.
  destruct (decide (k <= length l1)%nat) as [H|H].
  - left. split; [done|]. by apply take_app_le.
  - right. exists (k - length l1)%nat. split; [lia|].
    rewrite take_app_ge by lia. done.
Qed.

Section transaction.
Variables (d0 f : Z -> block) (h : logheader) (bs : list Z).
Hypothesis Hd0 : disk_log d0 [].
Hypothesis Hdata : Forall (data_block start size) bs.
Hypothesis Hlen : (length bs <= 30)%nat.
Hypothesis Hsz : Z.of_nat (length bs) < size.
Hypothesis Hn : lh_n h = Z.of_nat (length bs).
Hypothesis Hbs : take (length bs) (lh_block h) = bs.
Hypothesis Hfs : f start = d0 start.
Hypothesis Hf : forall x, x ∉ bs -> ~ in_log start size x -> f x = d0 x.

Let head1 : block := encode_head h (f start).
Let homes : list (Z * block) := (fun b => (b, f b)) <$> bs.

Lemma bs_range : Forall (fun x => 0 <= x < 2147483648) bs.
Proof. eapply Forall_impl; [exact Hdata|]. by intros x [? _]. Qed.

Lemma head1_ok : block_ok head1 /\ head_encodes head1 bs.
Proof. apply encode_head_spec; try done; [rewrite Hfs; apply Hd0|apply bs_range]. Qed.

Lemma homes_data x : x ∈ homes.*1 -> ~ in_log start size x /\ x <> start.
Proof.
  unfold homes. rewrite fmap_pair_fst. rewrite Forall_forall in Hdata. intros Hx.
  specialize (Hdata x Hx). split; [apply Hdata|by apply data_block_ne_start].
Qed.

Lemma in_log_next i : (i < length bs)%nat -> in_log start size (start + 1 + Z.of_nat i).
Proof. unfold in_log. lia. Qed.

(** Before the header is written: the old contents. *)
Lemma crash_before k :
  let d := apply_writes d0 (take k (log_ws start f bs)) in disk_log d [] /\ data_eq (recovered d) d0.
Proof.
  cbv zeta. set (d := apply_writes _ _).
  assert (Es : d start = d0 start).
  { apply apply_writes_other. intros Hin%elem_of_fst_take%log_ws_fst. lia. }
  assert (Hdl : disk_log d []) by (destruct Hd0; split; by rewrite ?Es).
  split; [done|]. intros x Hx. rewrite recovered_empty by done. apply apply_writes_other.
  intros Hin%elem_of_fst_take%log_ws_fst. apply Hx. unfold in_log. lia.
Qed.

(** Between the two header writes: the new contents. *)
Lemma crash_between j :
  let d := apply_writes d0 (log_ws start f bs ++ (start, head1) :: take j homes) in
  disk_log d bs /\ data_eq (recovered d) f.
Proof.
  cbv zeta. set (d := apply_writes _ _).
  assert (Ein : forall x, in_log start size x ->
    d x = cv_upd (apply_writes d0 (log_ws start f bs)) start head1 x).
  { intros x Hx. unfold d. rewrite apply_writes_app. cbn [apply_writes].
    apply data_writes_log; [|done]. intros y Hy%elem_of_fst_take%homes_data. tauto. }
  assert (Es : d start = head1) by (rewrite Ein, cv_upd_eq; [done|unfold in_log; lia]).
  destruct head1_ok as [Hok Henc].
  assert (Hdl : disk_log d bs) by (split; rewrite ?Es; done).
  split; [done|]. intros x Hx. rewrite (recovered_log d bs) by done.
  assert (Ehome : home_ws start d bs = homes).
  { unfold homes, home_ws. apply list_eq. intros i. rewrite list_lookup_imap, list_lookup_fmap.
    destruct (bs !! i) as [b|] eqn:Hb; [|done]. simpl. do 2 f_equal.
    assert ((i < length bs)%nat) by (by eapply lookup_lt_Some).
    rewrite Ein by (by apply in_log_next). rewrite cv_upd_ne by lia. by apply log_ws_get. }
  rewrite Ehome. unfold homes. rewrite apply_pairs. destruct (decide (x ∈ bs)) as [|Hni]; [done|].
  rewrite Hf by done. unfold d. rewrite apply_writes_app. cbn [apply_writes]. rewrite apply_writes_other.
  - rewrite cv_upd_ne by (intros ->; apply Hx; unfold in_log; lia). apply apply_writes_other.
    intros Hin%log_ws_fst. apply Hx. unfold in_log. lia.
  - intros Hin%elem_of_fst_take. unfold homes in Hin. by rewrite fmap_pair_fst in Hin.
Qed.

(** After the header has been cleared: the new contents. *)
Lemma crash_after :
  let d := apply_writes d0 (commit_ws start h f bs) in disk_log d [] /\ data_eq (recovered d) f /\ data_eq d f.
Proof.
  cbv zeta. set (d := apply_writes _ _). destruct head1_ok as [Hok _].
  destruct (encode_head_spec (mklh 0 (lh_block h)) head1 [] Hok) as [Hok0 Henc0]; [done|done|simpl; lia|done|].
  assert (Ed : forall x, d x = cv_upd (apply_writes d0 (log_ws start f bs ++ (start, head1) :: take (length homes) homes))
                         start (encode_head (mklh 0 (lh_block h)) head1) x).
  { intros x. unfold d, commit_ws. fold head1 homes. rewrite take_ge by done. cbn [app].
    rewrite <- apply_writes_snoc, <- app_assoc. done. }
  assert (Hdl : disk_log d []).
  { split; rewrite ?Ed, ?cv_upd_eq; try done. simpl. lia. }
  assert (Hde : data_eq d f).
  { intros x Hx. rewrite Ed, cv_upd_ne by (intros ->; apply Hx; unfold in_log; lia).
    rewrite take_ge by done. rewrite apply_writes_app. cbn [apply_writes]. unfold homes. rewrite apply_pairs.
    destruct (decide (x ∈ bs)) as [|Hni]; [done|].
    rewrite cv_upd_ne by (intros ->; apply Hx; unfold in_log; lia). rewrite Hf by done.
    apply apply_writes_other. intros Hin%log_ws_fst. apply Hx. unfold in_log. lia. }
  split; [done|]. split; [|done]. intros x Hx. rewrite recovered_empty by done. by apply Hde.
Qed.

Lemma crash_commit k :
  let d := apply_writes d0 (take k (commit_ws start h f bs)) in
  (exists bs', disk_log d bs') /\ (data_eq (recovered d) d0 \/ data_eq (recovered d) f).
Proof.
  cbv zeta. unfold commit_ws at 1 2 3. fold head1 homes.
  destruct (take_app_cases k (log_ws start f bs) ([(start, head1)] ++ homes ++ [(start, encode_head (mklh 0 (lh_block h)) head1)]))
    as [[_ ->]|(j & -> & ->)].
  - destruct (crash_before k) as [H1 H2]. split; [by exists []|by left].
  - destruct j as [|j].
    { cbn [take]. rewrite app_nil_r. pose proof (crash_before (length (log_ws start f bs))) as H.
      rewrite take_ge in H by done. destruct H as [H1 H2]. split; [by exists []|by left]. }
    cbn [app take].
    destruct (take_app_cases j homes [(start, encode_head (mklh 0 (lh_block h)) head1)]) as [[_ ->]|(i & -> & ->)].
    + destruct (crash_between j) as [H1 H2]. split; [by exists bs|by right].
    + destruct i as [|i].
      * cbn [take]. rewrite app_nil_r. pose proof (crash_between (length homes)) as H.
        rewrite take_ge in H by done. destruct H as [H1 H2]. split; [by exists bs|by right].
      * rewrite (take_ge _ (S i)) by (simpl; lia).
        destruct crash_after as (H1 & H2 & _). unfold commit_ws in H1, H2. fold head1 homes in H1, H2.
        split; [by exists []|by right].
Qed.
End transaction.

(** ** Crashes during recovery *)

Definition recovery_ws (d : Z -> block) (bs : list Z) (b0 : list Z) : list (Z * block) :=
  home_ws start d bs ++ [(start, encode_head (mklh 0 b0) (d start))].

Lemma crash_recovery d bs b0 k :
  disk_log d bs ->
  let d' := apply_writes d (take k (recovery_ws d bs b0)) in
  (exists bs', disk_log d' bs') /\ data_eq (recovered d') (recovered d).
Proof.
  intros Hd. cbv zeta. unfold recovery_ws.
  assert (Hho : forall y, y ∈ (home_ws start d bs).*1 -> ~ in_log start size y /\ y <> start).
  { rewrite home_ws_fst. intros y Hy. pose proof (dl_data _ _ Hd) as Hall. rewrite Forall_forall in Hall.
    specialize (Hall y Hy). split; [apply Hall|by apply data_block_ne_start]. }
  assert (Hpart : forall j, let d' := apply_writes d (take j (home_ws start d bs)) in
            disk_log d' bs /\ data_eq (recovered d') (recovered d)).
  { intros j. cbv zeta. set (d' := apply_writes _ _).
    assert (Ein : forall x, in_log start size x -> d' x = d x).
    { intros x Hx. apply data_writes_log; [|done]. intros y Hy%elem_of_fst_take%Hho. tauto. }
    assert (Es : d' start = d start) by (apply Ein; unfold in_log; lia).
    assert (Hdl : disk_log d' bs) by (destruct Hd; split; by rewrite ?Es).
    split; [done|]. intros x Hx. rewrite !(recovered_log _ bs) by done.
    rewrite (home_ws_ext d' d bs).
    - apply apply_writes_again. intros Hni. apply apply_writes_other. by intros Hin%elem_of_fst_take.
    - intros i Hi. apply Ein. unfold in_log. pose proof (dl_size _ _ Hd). lia. }
  destruct (take_app_cases k (home_ws start d bs) [(start, encode_head (mklh 0 b0) (d start))])
    as [[_ ->]|(j & -> & ->)].
  - destruct (Hpart k) as [H1 H2]. split; [by exists bs|done].
  - destruct j as [|j].
    { cbn [take]. rewrite app_nil_r. pose proof (Hpart (length (home_ws start d bs))) as H.
      rewrite take_ge in H by done. destruct H as [H1 H2]. split; [by exists bs|done]. }
    rewrite (take_ge _ (S j)) by (simpl; lia). set (d' := apply_writes _ _).
    destruct (encode_head_spec (mklh 0 b0) (d start) [] (dl_ok _ _ Hd)) as [Hok0 Henc0]; [done|done|simpl; lia|done|].
    assert (Hdl : disk_log d' []).
    { split; try done; unfold d'; rewrite ?apply_writes_snoc, ?cv_upd_eq; try done. simpl. lia. }
    split; [by exists []|]. intros x Hx. rewrite recovered_empty, (recovered_log d bs) by done.
    unfold d'. rewrite apply_writes_snoc, cv_upd_ne; [done|]. intros ->. apply Hx. unfold in_log. lia.
Qed.
End crash.
