(* ===== verification/LogSpec.v ===== *)
(** * The specification of the log

    Atomicity of transactions under crashes at any point, first over the cache
    interface and then for the log running on [bio.c], and the bookkeeping of
    log space by [begin_op], [log_write] and [end_op]. *)

From S2P Require Import Prelude Block Sleeplock Cache Bio BioProofs Log LogProofs.

#[local] Set Warnings "-clear-no-such-hyp".

Section log_spec.
Context {S B : Type} `{HBC : !BlockCache S B} (dev : Z) `{HCS : !CacheSpec S B dev}.
Variables (start size : Z).
Hypothesis Hstart : 0 <= start.
Hypothesis Hend : start + size <= 2147483648.

(** A transaction ready to commit: [bs] are logged and pinned, nothing else
    differs from the disk, and the log on the disk is empty. *)
Record transaction (s : logst S) (v : cview) (bs : list Z) : Prop := {
  tx_rep : crep (dev := dev) (below s) v;
  tx_held : cv_held v = [];
  tx_pins : cv_pins v = rev bs;
  tx_log : log_holds dev start size s bs;
  tx_data : Forall (data_block start size) bs;
  tx_len : (0 < length bs < NBUF)%nat;
  tx_size : Z.of_nat (length bs) < size;
  tx_disk : disk_log start size (cv_disk v) []
}.

(** The state after a commit or a recovery. *)
Record quiet (s : logst S) (v : cview) : Prop := {
  qt_rep : crep (dev := dev) (below s) v;
  qt_held : cv_held v = [];
  qt_pins : cv_pins v = [];
  qt_log : log_holds dev start size s [];
  qt_disk : disk_log start size (cv_disk v) []
}.

Lemma commit_spec s v bs :
  transaction s v bs ->
  exists s' v' ws, commit s = Ok tt s' /\ quiet s' v' /\ cv_trace v' = cv_trace v ++ ws /\
    (forall x, cv_disk v' x = apply_writes (cv_disk v) ws x) /\
    data_eq start size (cv_disk v') (cv_view v) /\
    forall k, let d := apply_writes (cv_disk v) (take k ws) in
      (exists bs', disk_log start size d bs') /\
      (data_eq start size (recovered start d) (cv_disk v) \/
       data_eq start size (recovered start d) (cv_view v)).
Proof.
  intros [Hc Hh Hp Hl Hdata Hlen Hsz Hd].
  assert (Hclean : forall x, x ∉ bs -> cv_view v x = cv_disk v x).
  { intros x Hx. eapply crep_clean; [exact Hc|rewrite Hh; set_solver|by rewrite Hp, elem_of_rev]. }
  assert (Hsb : start ∉ bs).
  { rewrite Forall_forall in Hdata. intros Hin. destruct (Hdata _ Hin) as [_ Hn]. apply Hn.
    unfold in_log. lia. }
  assert (Hl30 : (length bs <= 30)%nat) by (unfold NBUF in Hlen; lia).
  destruct (commit_run dev start size Hstart Hend s v bs) as (s' & x & E & -> & Hc'); try done.
  exists (set_lh (mklh 0 (lh_block (lh s))) (set_below x s)), (wrote (commit_ws start (lh s) (cv_view v) bs) [] v),
    (commit_ws start (lh s) (cv_view v) bs).
  destruct (crash_after start size ltac:(lia) (cv_disk v) (cv_view v) (lh s) bs) as (H1 & _ & H3);
    try done; [apply Hl|apply Hl|by apply Hclean|intros y Hy _; by apply Hclean|].
  split; [done|]. split; [|split; [done|split; [done|split; [done|]]]].
  - split; [done|done|done| |done]. destruct Hl. by split.
  - intros k. apply crash_commit; try done; [lia|apply Hl|apply Hl|by apply Hclean|intros y Hy _; by apply Hclean].
Qed.

(** C30.  A commit is atomic: it runs to completion, leaves every logged block on
    the disk and the log empty; and whatever prefix of its disk writes reaches
    the disk before a crash, the log found after the crash is well formed and
    recovering from it gives either the contents before the transaction or the
    contents after it, for all blocks at once. *)
Theorem commit_atomic s v bs :
  transaction s v bs ->
  exists s' v' ws, commit s = Ok tt s' /\ quiet s' v' /\ cv_trace v' = cv_trace v ++ ws /\
    data_eq start size (cv_disk v') (cv_view v) /\
    forall k, let d := apply_writes (cv_disk v) (take k ws) in
      (exists bs', disk_log start size d bs') /\
      (data_eq start size (recovered start d) (cv_disk v) \/
       data_eq start size (recovered start d) (cv_view v)).
Proof.
  intros H. destruct (commit_spec s v bs H) as (s' & v' & ws & H1 & H2 & H3 & _ & H4 & H5).
  exists s', v', ws. done.
Qed.

Lemma initlog_spec s v bs :
  crep (dev := dev) (below s) v -> cv_held v = [] -> cv_pins v = [] ->
  length (lh_block (lh s)) = 30%nat -> disk_log start size (cv_disk v) bs ->
  exists s' v' b0, initlog dev start size s = Ok tt s' /\ quiet s' v' /\
    cv_trace v' = cv_trace v ++ recovery_ws start (cv_disk v) bs b0 /\
    data_eq start size (cv_disk v') (recovered start (cv_disk v)) /\
    (forall x, cv_view v' x = cv_disk v' x) /\
    outstanding s' = outstanding s /\ committing s' = committing s /\
    forall x, cv_disk v' x = apply_writes (cv_disk v) (recovery_ws start (cv_disk v) bs b0) x.
Proof.
  intros Hc Hh Hp Harr Hd.
  assert (Hclean : forall x, cv_view v x = cv_disk v x).
  { intros x. eapply crep_clean; [exact Hc|rewrite Hh; set_solver|rewrite Hp; set_solver]. }
  unfold initlog. change (BSIZE <=? 4 + 4 * LOGSIZE) with false. cbv iota.
  erewrite bind_Ok by reflexivity. set (s1 := mklogst start size _ _ dev _ _).
  destruct (recover_run dev start size Hstart Hend s1 v bs) as (s' & x & b0 & E & Eb & Hc' & Hl & Eo & Ec);
    try done; [by rewrite Hclean; apply Hd|apply Hd|apply Hd|apply Hd|].
  set (W := home_ws start (cv_view v) bs ++ [(start, encode_head (mklh 0 b0) (cv_view v start))]) in *.
  assert (EW : W = recovery_ws start (cv_disk v) bs b0).
  { unfold W, recovery_ws. rewrite Hclean. f_equal. apply home_ws_ext. intros i _. apply Hclean. }
  exists s', (wrote W [] v), b0. split; [done|].
  pose proof (crash_recovery start size ltac:(pose proof (dl_size _ _ _ _ Hd); lia) (cv_disk v) bs b0 (length W) Hd) as Hcr.
  rewrite <- EW, take_ge in Hcr by done. destruct Hcr as [(bs' & Hd') Hrec].
  assert (Hd0 : disk_log start size (apply_writes (cv_disk v) W) []).
  { destruct (encode_head_spec (mklh 0 b0) (cv_view v start) []) as [Hok0 Henc0];
      [rewrite Hclean; apply Hd|done|done|simpl; lia|done|].
    split; try done; unfold W; rewrite ?apply_writes_snoc, ?cv_upd_eq; try done; [simpl; lia|].
    pose proof (dl_size _ _ _ _ Hd). simpl. lia. }
  split; [|split; [by rewrite <- EW|split; [|split; [|split; [done|split; [done|by rewrite <- EW]]]]]].
  - split; [by rewrite Eb|done|done|done|done].
  - intros y Hy. simpl. rewrite <- (recovered_empty start size) by done. by apply Hrec.
  - intros y. simpl. by apply apply_writes_ext.
Qed.

(** ** [log_write] *)

Lemma find_logged_spec arr n i blk :
  (n <= length arr)%nat ->
  exists j, find_logged arr n i blk = i + Z.of_nat j /\
    ((j < n)%nat /\ arr !! j = Some blk \/ j = n /\ blk ∉ take n arr).
Proof.
  revert n i. induction arr as [|x arr IH]; intros n i Hn.
  { assert (n = 0%nat) as -> by (simpl in Hn; lia). exists 0%nat. split; [simpl; lia|]. right. set_solver. }
  destruct n as [|n]; [exists 0%nat; split; [simpl; lia|right; set_solver]|]. simpl in Hn. cbn [find_logged].
  destruct (Z.eqb_spec x blk) as [->|Hne].
  - exists 0%nat. split; [lia|]. left. split; [lia|done].
  - destruct (IH n (i + 1)) as (j & E & Hj); [lia|]. exists (Datatypes.S j). split; [lia|].
    destruct Hj as [[Hj Hx]|[-> Hni]]; [left; split; [lia|done]|right]. split; [done|].
    simpl. set_solver.
Qed.

Lemma log_write_run s v b blk bs :
  crep (dev := dev) (below s) v -> cbuf (dev := dev) (below s) b blk -> log_holds dev start size s bs ->
  cv_pins v = rev bs -> 1 <= outstanding s -> Z.of_nat (length bs) < LOGSIZE ->
  Z.of_nat (length bs) < size - 1 ->
  exists s', log_write b s = Ok tt s' /\
    let bs' := if decide (blk ∈ bs) then bs else bs ++ [blk] in
    crep (dev := dev) (below s') (with_pins (rev bs') v) /\ log_holds dev start size s' bs' /\
    (forall b' blk', cbuf (dev := dev) (below s) b' blk' -> cbuf (dev := dev) (below s') b' blk') /\
    outstanding s' = outstanding s /\ committing s' = committing s.
Proof.
  intros Hc Hb Hl Hp Ho Hlen Hsz. pose proof Hl as [E1 E2 E3 En Eb Ea]. unfold log_write.
  erewrite bind_Ok by reflexivity. rewrite En, E2. change LOGSIZE with 30 in *.
  destruct (Z.leb_spec 30 (Z.of_nat (length bs))); [lia|].
  destruct (Z.leb_spec (size - 1) (Z.of_nat (length bs))); [lia|]. cbn [orb].
  destruct (Z.ltb_spec (outstanding s) 1); [lia|].
  erewrite bind_Ok by (apply lift_Ok, (cblockno_ok _ _ _ blk Hc Hb)).
  rewrite Nat2Z.id. destruct (find_logged_spec (lh_block (lh s)) (length bs) 0 blk) as (j & Ej & Hj); [lia|].
  rewrite Ej, Z.add_0_l, Eb in *. erewrite bind_Ok by reflexivity.
  assert (Hs : set_below (below s) s = s) by (by destruct s). rewrite Hs.
  destruct Hj as [[Hj Hx]|[-> Hni]].
  - destruct (Z.eqb_spec (Z.of_nat j) (Z.of_nat (length bs))); [lia|].
    assert (Hin : blk ∈ bs).
    { rewrite <- Eb. apply elem_of_take. exists j. split; [done|lia]. }
    eexists. split; [reflexivity|]. cbv zeta. rewrite decide_True by done. split; [|split; [|done]].
    + simpl. eapply crep_proper; [reflexivity| |exact Hc]. by split.
    + unfold set_lh, lh_put. simpl. rewrite Nat2Z.id, list_insert_id by done. destruct s as [? ? ? ? ? [? ?] ?].
      by split.
  - destruct (Z.eqb_spec (Z.of_nat (length bs)) (Z.of_nat (length bs))); [|lia].
    destruct (cpin_ok (below s) v b blk Hc Hb) as (x & Ep & Hx & Hk).
    { rewrite Hp, length_rev. lia. }
    erewrite bind_Ok by (apply (lift_Ok _ (set_lh (lh_put (lh s) (Z.of_nat (length bs)) blk) s)); exact Ep).
    eexists. split; [reflexivity|]. cbv zeta. rewrite decide_False by done. split; [|split; [|done]].
    + simpl. rewrite rev_app_distr. simpl. by rewrite Hp in Hx.
    + split; try done; simpl.
      * rewrite length_app. simpl. lia.
      * rewrite length_app. simpl. rewrite Nat2Z.id, Nat.add_1_r.
        rewrite (take_S_r _ _ blk) by (apply list_lookup_insert_eq; lia).
        f_equal. rewrite take_insert_ge by lia. done.
      * by rewrite length_insert.
Qed.

(** [log_write] adds the block of a locked buffer to the transaction and
    pins it in the cache, once: a block that is already logged is absorbed. *)
Theorem log_write_absorbs s v b blk bs :
  crep (dev := dev) (below s) v -> cbuf (dev := dev) (below s) b blk -> log_holds dev start size s bs ->
  cv_pins v = rev bs -> NoDup bs -> 1 <= outstanding s -> Z.of_nat (length bs) < LOGSIZE ->
  Z.of_nat (length bs) < size - 1 ->
  exists s' bs', log_write b s = Ok tt s' /\ NoDup bs' /\ (forall x, x ∈ bs' <-> x = blk \/ x ∈ bs) /\
    crep (dev := dev) (below s') (with_pins (rev bs') v) /\ log_holds dev start size s' bs'.
Proof.
  intros Hc Hb Hl Hp Hnd Ho Hlen Hsz.
  destruct (log_write_run s v b blk bs) as (s' & E & Hc' & Hl' & _); try done. cbv zeta in *.
  eexists s', _. split; [done|]. split; [|split; [|split; [exact Hc'|exact Hl']]].
  - destruct (decide (blk ∈ bs)); [done|]. apply NoDup_app. split; [done|]. split; [set_solver|apply NoDup_singleton].
  - intros x. destruct (decide (blk ∈ bs)); set_solver.
Qed.
End log_spec.

(** ** The log on the buffer cache *)

Section boot.
Variables (mypid dev start size : Z).

(** Memory at power on, with the disk [d]. *)
Definition power_on (d : Z -> block) : logst bcache :=
  mklogst 0 0 0 false 0 (mklh 0 (repeat 0 30)) (boot_cache d).

(** The part of booting that concerns the disk. *)
Definition boot : M (logst bcache) unit :=
  lift binit ;; initlog (BlockCache0 := bio_cache mypid) dev start size.

(** The disks that can be found after any number of boots, each interrupted
    after some of its disk writes. *)
Inductive reboots (d : Z -> block) : (Z -> block) -> Prop :=
  | rb_here : reboots d d
  | rb_again d1 s k :
      reboots d d1 -> boot (power_on d1) = Ok tt s ->
      reboots d (apply_writes d1 (take k (trace (below s)))).

Hypothesis Hdev : dev <> 0.
Hypothesis Hstart : 0 <= start.
Hypothesis Hend : start + size <= 2147483648.

Lemma boot_run d bs :
  disk_log start size d bs ->
  exists s v b0, boot (power_on d) = Ok tt s /\
    quiet (HCS := bio_cachespec mypid dev) dev start size s v /\
    trace (below s) = recovery_ws start d bs b0 /\
    data_eq start size (disk (below s)) (recovered start d) /\
    (forall x, cv_view v x = disk (below s) x) /\
    outstanding s = 0 /\ committing s = false /\
    forall x, disk (below s) x = apply_writes d (recovery_ws start d bs b0) x.
Proof.
  intros Hd. destruct (binit_run mypid dev d Hdev) as [Eb Hb].
  unfold boot. erewrite bind_Ok by (apply lift_Ok; exact Eb).
  destruct (initlog_spec (HCS := bio_cachespec mypid dev) dev start size Hstart Hend
    (set_below (binit_state d) (power_on d)) (idle_view d) bs) as (s & v & b0 & E & Hq & Ht & Hde & Hv & Ho & Hc & Hap);
    [exact Hb|reflexivity|reflexivity|reflexivity|exact Hd|].
  assert (Hdisk : forall x, cv_disk v x = disk (below s) x).
  { destruct Hq as [(lru & Hr) _ _ _ _]. apply (ct_disk _ _ _ _ _ (br_content _ _ _ _ _ Hr)). }
  exists s, v, b0. split; [exact E|]. split; [done|]. split; [|split; [|split; [|split; [done|split; [done|]]]]].
  - destruct Hq as [(lru & Hr) _ _ _ _]. rewrite <- (br_trace _ _ _ _ _ Hr). exact Ht.
  - intros x Hx. rewrite <- Hdisk. by apply Hde.
  - intros x. by rewrite Hv.
  - intros x. by rewrite <- Hdisk, Hap.
Qed.

Lemma reboots_recovered d d' bs :
  disk_log start size d bs -> reboots d d' ->
  exists bs', disk_log start size d' bs' /\ data_eq start size (recovered start d') (recovered start d).
Proof.
  intros Hd. induction 1 as [|d1 s k Hr IH Eb]; [by exists bs|].
  destruct IH as (bs1 & Hd1 & H1). destruct (boot_run d1 bs1 Hd1) as (s' & v & b0 & E & _ & Ht & _).
  rewrite Eb in E. injection E as <-. rewrite Ht.
  destruct (crash_recovery start size ltac:(pose proof (dl_size _ _ _ _ Hd1); lia) d1 bs1 b0 k Hd1) as [(bs2 & H2) H3].
  exists bs2. split; [done|]. intros x Hx. rewrite H3 by done. auto.
Qed.

Lemma crash_spec s v bs :
  transaction (HCS := bio_cachespec mypid dev) dev start size s v bs ->
  exists s' ws, commit (BlockCache0 := bio_cache mypid) s = Ok tt s' /\
    trace (below s') = trace (below s) ++ ws /\
    forall k d, reboots (apply_writes (disk (below s)) (take k ws)) d ->
    exists s2 v2, boot (power_on d) = Ok tt s2 /\
      quiet (HCS := bio_cachespec mypid dev) dev start size s2 v2 /\
      (forall x, cv_view v2 x = disk (below s2) x) /\
      (data_eq start size (disk (below s2)) (disk (below s)) \/
       data_eq start size (disk (below s2)) (cv_view v)).
Proof.
  intros Htx.
  assert (Hdisk : forall x, cv_disk v x = disk (below s) x).
  { destruct Htx as [(lru & Hr) _ _ _ _ _ _ _]. apply (ct_disk _ _ _ _ _ (br_content _ _ _ _ _ Hr)). }
  destruct (commit_spec (HCS := bio_cachespec mypid dev) dev start size Hstart Hend s v bs Htx)
    as (s' & v' & ws & E & Hq & Ht & _ & _ & Hcrash).
  exists s', ws. split; [exact E|]. split.
  { destruct Hq as [(lru' & Hr') _ _ _ _], Htx as [(lru & Hr) _ _ _ _ _ _ _].
    by rewrite <- (br_trace _ _ _ _ _ Hr'), <- (br_trace _ _ _ _ _ Hr). }
  intros k d Hrb. destruct (Hcrash k) as [(bs1 & Hd1) Hor].
  assert (Eext : forall x, apply_writes (disk (below s)) (take k ws) x = apply_writes (cv_disk v) (take k ws) x).
  { intros x. by apply apply_writes_ext. }
  apply (disk_log_ext start size _ (apply_writes (disk (below s)) (take k ws))) in Hd1; [|done].
  destruct (reboots_recovered _ d bs1 Hd1 Hrb) as (bs2 & Hd2 & Hrec).
  destruct (boot_run d bs2 Hd2) as (s2 & v2 & b0 & Eb & Hq2 & _ & Hde & Hv2 & _).
  exists s2, v2. split; [done|]. split; [done|]. split; [done|].
  assert (Hfin : data_eq start size (disk (below s2)) (recovered start (apply_writes (cv_disk v) (take k ws)))).
  { intros x Hx. rewrite Hde, Hrec by done. by apply recovered_ext. }
  destruct Hor as [Hor|Hor]; [left|right]; intros x Hx; rewrite Hfin, Hor by done; done.
Qed.

(** C29.  Transactions survive crashes, end to end: commit a transaction through
    the buffer cache, stop the machine after any number of its disk writes,
    reboot, crash again during recovery as often as you like, and finally let
    a boot complete: the file system blocks on the disk, and as seen through
    the new cache, are all as before the transaction or all as after it. *)
Theorem crash_atomic s v bs :
  transaction (HCS := bio_cachespec mypid dev) dev start size s v bs ->
  exists s' ws, commit (BlockCache0 := bio_cache mypid) s = Ok tt s' /\
    trace (below s') = trace (below s) ++ ws /\
    forall k d, reboots (apply_writes (disk (below s)) (take k ws)) d ->
    exists s2 v2, boot (power_on d) = Ok tt s2 /\
      quiet (HCS := bio_cachespec mypid dev) dev start size s2 v2 /\
      (forall x, cv_view v2 x = disk (below s2) x) /\
      (data_eq start size (disk (below s2)) (disk (below s)) \/
       data_eq start size (disk (below s2)) (cv_view v)).
Proof. apply crash_spec. Qed.
End boot.

(** ** A transaction on a small disk *)

Definition blank_disk (k : Z) : block := zero_block.
Definition ones_block : block := repeat 1 1024.

Lemma blank_log : disk_log 2 31 blank_disk [].
Proof.
  split; [apply zero_block_ok| |constructor|simpl; lia|simpl; lia].
  split; [reflexivity|]. intros i x Hx. discriminate Hx.
Qed.

Lemma demo_transaction :
  exists s v, transaction (HCS := bio_cachespec 7 1) 1 2 31 s v [100] /\ cv_view v 100 = ones_block /\
    outstanding s = 1.
Proof.
  destruct (boot_run 7 1 2 31 ltac:(lia) ltac:(lia) ltac:(lia) blank_disk [] blank_log)
    as (s0 & v0 & b0 & _ & [Hc Hh Hp Hl Hd] & _ & _ & _ & Ho & Hcm).
  pose (s1 := set_outstanding 1 s0).
  assert (Hl1 : log_holds 1 2 31 s1 []) by (destruct Hl; split; done).
  destruct (cread_ok (CacheSpec := bio_cachespec 7 1) (below s1) v0 100 Hc) as (b & x1 & E1 & Hc1 & Hb1 & _).
  { split; [lia|reflexivity]. }
  { rewrite Hh. apply not_elem_of_nil. }
  { right. rewrite Hh, Hp. simpl. unfold NBUF. lia. }
  destruct (cset_ok (CacheSpec := bio_cachespec 7 1) x1 _ b 100 ones_block Hc1 Hb1) as (x2 & E2 & Hc2 & Hk2).
  destruct (log_write_run (HCS := bio_cachespec 7 1) 1 2 31 ltac:(lia) ltac:(lia) (set_below x2 s1) _ b 100 [] Hc2 (Hk2 _ _ Hb1))
    as (s3 & E3 & Hc3 & Hl3 & Hk3 & Ho3 & _).
  { destruct Hl1. split; done. }
  { simpl. by rewrite Hp. }
  { simpl. lia. }
  { simpl. unfold LOGSIZE, MAXOPBLOCKS. lia. }
  { simpl. lia. }
  cbv zeta in *. rewrite decide_False in Hc3, Hl3 by apply not_elem_of_nil. simpl in Hc3, Hl3.
  destruct (crelse_ok (CacheSpec := bio_cachespec 7 1) (below s3) _ b 100 [] [] Hc3 (Hk3 _ _ (Hk2 _ _ Hb1)))
    as (x4 & E4 & Hc4 & _).
  { simpl. by rewrite Hh. }
  { left. simpl. set_solver. }
  exists (set_below x4 s3), (with_held [] (with_pins [100] (set_view 100 ones_block (hold 100 v0)))).
  split; [|split; [simpl; by rewrite cv_upd_eq|exact Ho3]].
  split; [exact Hc4|reflexivity|reflexivity| | |simpl; unfold NBUF; lia|simpl; lia|exact Hd].
  - destruct Hl3. split; done.
  - constructor; [|constructor]. split; [lia|]. unfold in_log. lia.
Qed.

Lemma commit_atomic_witness :
  exists s v s' ws, transaction (HCS := bio_cachespec 7 1) 1 2 31 s v [100] /\
    commit (BlockCache0 := bio_cache 7) s = Ok tt s' /\
    forall k, let d := apply_writes (cv_disk v) (take k ws) in
      data_eq 2 31 (recovered 2 d) (cv_disk v) \/ data_eq 2 31 (recovered 2 d) (cv_view v).
Proof.
  destruct demo_transaction as (s & v & Htx & _).
  destruct (commit_atomic (HCS := bio_cachespec 7 1) 1 2 31 ltac:(lia) ltac:(lia) s v [100] Htx)
    as (s' & v' & ws & E & _ & _ & _ & H).
  exists s, v, s', ws. split; [exact Htx|]. split; [exact E|]. intros k. apply (H k).
Defined.

Lemma crash_atomic_witness :
  exists s v s' ws, transaction (HCS := bio_cachespec 7 1) 1 2 31 s v [100] /\ cv_view v 100 = ones_block /\
    commit (BlockCache0 := bio_cache 7) s = Ok tt s' /\
    forall k d, reboots 7 1 2 31 (apply_writes (disk (below s)) (take k ws)) d ->
    exists s2, boot 7 1 2 31 (power_on d) = Ok tt s2 /\
      (data_eq 2 31 (disk (below s2)) (disk (below s)) \/ data_eq 2 31 (disk (below s2)) (cv_view v)).
Proof.
  destruct demo_transaction as (s & v & Htx & Hv & _).
  destruct (crash_atomic 7 1 2 31 ltac:(lia) ltac:(lia) ltac:(lia) s v [100] Htx) as (s' & ws & E & _ & H).
  exists s, v, s', ws. split; [exact Htx|]. split; [exact Hv|]. split; [exact E|].
  intros k d Hr. destruct (H k d Hr) as (s2 & v2 & E2 & _ & _ & Ho). exists s2. split; [exact E2|exact Ho].
Defined.
