(* ===== verification/LogSpace.v ===== *)
(** * Reservation of log space

    [begin_op] admits an operation when the log has room for [MAXOPBLOCKS]
    blocks of every admitted operation.  Operations of different processes
    interleave freely between their calls ([op_step]); the second component of
    a state lists how many blocks each operation under way may still log. *)

From S2P Require Import Prelude Block Sleeplock Cache Bio Log.

#[local] Set Warnings "-clear-no-such-hyp".

(** ** Programs that only use the layer below *)

Definition keeps_log {S A} (m : M (logst S) A) : Prop :=
  forall s a s', m s = Ok a s' -> exists x, s' = set_below x s.

Section keeps.
Context {S : Type}.

Lemma keeps_lift {A} (m : M S A) : keeps_log (lift m).
Proof.
  intros s a s'. unfold lift, zoom. destruct (m (below s)); intros [= <- <-]. eauto.
Qed.

Lemma keeps_ret {A} (a : A) : keeps_log (S := S) (ret a).
Proof. intros s b s' [= <- <-]. exists (below s). by destruct s. Qed.

Lemma keeps_get : keeps_log (S := S) get.
Proof. intros s b s' [= <- <-]. exists (below s). by destruct s. Qed.

Lemma keeps_bind {A C} (m : M (logst S) A) (k : A -> M (logst S) C) :
  keeps_log m -> (forall a, keeps_log (k a)) -> keeps_log (bind m k).
Proof.
  intros Hm Hk s c s' (a & s1 & E1 & E2)%bind_Ok_inv.
  apply Hm in E1 as (x & ->). apply Hk in E2 as (y & ->). by exists y.
Qed.

Lemma keeps_for_up n i (body : Z -> M (logst S) unit) :
  (forall j, keeps_log (body j)) -> keeps_log (for_up n i body).
Proof.
  intros Hb. revert i. induction n as [|n IH]; intros i; [apply keeps_ret|].
  apply keeps_bind; [apply Hb|]. intros _. apply IH.
Qed.
End keeps.

Create HintDb keeps.
#[local] Hint Resolve keeps_lift keeps_ret keeps_get : keeps.

Ltac keeps :=
  repeat (first
    [ apply keeps_bind; [|intros ?]
    | apply keeps_for_up; intros ?
    | match goal with |- keeps_log (if ?b then _ else _) => destruct b end
    | solve [eauto with keeps] ]).

Section space.
Context {S B : Type} `{HBC : !BlockCache S B}.

Lemma keeps_write_log : keeps_log write_log.
Proof. unfold write_log. keeps. Qed.

Lemma keeps_write_head : keeps_log write_head.
Proof. unfold write_head. keeps. Qed.

Lemma keeps_install recovering : keeps_log (install_trans recovering).
Proof. unfold install_trans. keeps. Qed.

Lemma commit_clears s s' :
  commit s = Ok tt s' ->
  lh_n (lh s') = (if 0 <? lh_n (lh s) then 0 else lh_n (lh s)) /\ outstanding s' = outstanding s /\
  committing s' = committing s /\ log_size s' = log_size s.
Proof.
  unfold commit. intros E. unfold bind at 1, get in E. destruct (0 <? lh_n (lh s)); [|by injection E as <-].
  apply bind_Ok_inv in E as ([] & s1 & (x1 & ->)%keeps_write_log & E).
  apply bind_Ok_inv in E as ([] & s2 & (x2 & ->)%keeps_write_head & E).
  apply bind_Ok_inv in E as ([] & s3 & (x3 & ->)%keeps_install & E).
  apply bind_Ok_inv in E as ([] & s4 & Ec & E). injection Ec as <-.
  apply keeps_write_head in E as (x5 & ->). done.
Qed.

(** ** Interleaved operations *)

Inductive op_step : logst S * list Z -> logst S * list Z -> Prop :=
  | os_begin s s' l :
      begin_op s = Ok tt s' -> op_step (s, l) (s', MAXOPBLOCKS :: l)
  | os_write s s' b l1 k l2 :
      0 < k -> log_write b s = Ok tt s' -> op_step (s, l1 ++ k :: l2) (s', l1 ++ (k - 1) :: l2)
  | os_end s s' l1 k l2 :
      end_op s = Ok tt s' -> op_step (s, l1 ++ k :: l2) (s', l1 ++ l2)
  | os_cache s x l :
      op_step (s, l) (set_below x s, l).

Inductive op_steps : logst S * list Z -> logst S * list Z -> Prop :=
  | oss_refl p : op_steps p p
  | oss_step p q r : op_steps p q -> op_step q r -> op_steps p r.

Definition sumZ (l : list Z) : Z := foldr Z.add 0 l.

Lemma sumZ_app l1 l2 : sumZ (l1 ++ l2) = sumZ l1 + sumZ l2.
Proof. unfold sumZ. induction l1 as [|x l1 IH]; simpl; lia. Qed.

Lemma sumZ_bounds l : Forall (fun k => 0 <= k <= MAXOPBLOCKS) l -> 0 <= sumZ l <= MAXOPBLOCKS * Z.of_nat (length l).
Proof. unfold sumZ, MAXOPBLOCKS. induction 1; simpl length; simpl foldr; lia. Qed.

Record space_inv (size : Z) (p : logst S * list Z) : Prop := {
  spi_commit : committing p.1 = false;
  spi_out : outstanding p.1 = Z.of_nat (length p.2);
  spi_n : 0 <= lh_n (lh p.1);
  spi_range : Forall (fun k => 0 <= k <= MAXOPBLOCKS) p.2;
  spi_sum : lh_n (lh p.1) + sumZ p.2 <= LOGSIZE;
  spi_size : log_size p.1 = size
}.

Lemma log_write_n b s s' :
  log_write b s = Ok tt s' ->
  (lh_n (lh s') = lh_n (lh s) \/ lh_n (lh s') = lh_n (lh s) + 1) /\ outstanding s' = outstanding s /\
  committing s' = committing s /\ log_size s' = log_size s.
Proof.
  unfold log_write. intros E. unfold bind at 1, get in E. destruct (_ || _); [done|].
  destruct (_ <? 1); [done|]. apply bind_Ok_inv in E as (blk & s1 & (x1 & ->)%keeps_lift & E).
  apply bind_Ok_inv in E as ([] & s2 & E2 & E). injection E2 as <-.
  destruct (_ =? _).
  - apply bind_Ok_inv in E as ([] & s3 & (x3 & ->)%keeps_lift & E). injection E as <-. simpl. auto.
  - injection E as <-. simpl. auto.
Qed.

Lemma space_inv_step size p q : space_inv size p -> op_step p q -> space_inv size q.
Proof.
  intros [Hc Ho Hn Hr Hs Hz] Hst. destruct Hst as [s s' l E|s s' b l1 k l2 Hk E|s s' l1 k l2 E|s x l]; simpl in *.
  - unfold begin_op in E. unfold bind, get in E. rewrite Hc in E.
    destruct (Z.ltb_spec LOGSIZE (lh_n (lh s) + (outstanding s + 1) * MAXOPBLOCKS)) as [|Hle]; [done|].
    injection E as <-. pose proof (sumZ_bounds l Hr). split; simpl; try done.
    + lia.
    + constructor; [unfold MAXOPBLOCKS; lia|done].
    + unfold sumZ, MAXOPBLOCKS in *. simpl in *. lia.
  - apply log_write_n in E as (Hn' & Ho' & Hc' & Hz'). rewrite sumZ_app in Hs. simpl in Hs.
    apply Forall_app in Hr as [Hr1 Hr2]. apply Forall_cons in Hr2 as [Hrk Hr2].
    split; simpl; try congruence.
    + rewrite Ho', Ho, !length_app. simpl. lia.
    + lia.
    + apply Forall_app. split; [done|]. constructor; [lia|done].
    + rewrite sumZ_app. simpl. unfold sumZ in *. simpl in *. lia.
  - unfold end_op, end_op_enter in E. rewrite sumZ_app in Hs. apply Forall_app in Hr as [Hr1 Hr2].
    apply Forall_cons in Hr2 as [Hrk Hr2].
    assert (Hr' : Forall (fun k => 0 <= k <= MAXOPBLOCKS) (l1 ++ l2)) by (apply Forall_app; by split).
    rewrite length_app in Ho. simpl in Ho.
    apply bind_Ok_inv in E as (dc & s1 & E1 & E). unfold bind, get, modify in E1. simpl in E1. rewrite Hc in E1.
    destruct (Z.eqb_spec (outstanding s - 1) 0) as [Hz0|Hz0]; injection E1 as <- <-.
    + assert (length l1 = 0%nat /\ length l2 = 0%nat) as [Hl1 Hl2] by lia.
      apply nil_length_inv in Hl1, Hl2. subst l1 l2.
      apply bind_Ok_inv in E as ([] & s1 & (En & Eo & _ & Es)%commit_clears & E). injection E as <-.
      simpl in *. split; simpl; try done.
      * lia.
      * rewrite En. destruct (Z.ltb_spec 0 (lh_n (lh s))); lia.
      * unfold sumZ. simpl. rewrite En. destruct (Z.ltb_spec 0 (lh_n (lh s))); unfold LOGSIZE, MAXOPBLOCKS; lia.
      * congruence.
    + injection E as <-. split; simpl; try done.
      * rewrite length_app. lia.
      * rewrite sumZ_app. unfold sumZ in *. simpl in Hs. lia.
  - by split.
Qed.

Lemma space_inv_steps size p q : space_inv size p -> op_steps p q -> space_inv size q.
Proof. intros Hp. induction 1 as [|p q r _ IH Hst]; [done|]. eapply space_inv_step; [|done]. auto. Qed.

Definition fresh_log (size : Z) (x : S) : logst S := mklogst 2 size 0 false 1 (mklh 0 (repeat 0 30)) x.

Lemma fresh_inv size x : space_inv size (fresh_log size x, []).
Proof. split; try done. Qed.
End space.

Section on_bio.
Variable mypid : Z.
#[local] Existing Instance bio_cache.
#[local] Instance bc : BlockCache bcache nat := bio_cache mypid.

Lemma log_write_total b (s : logst bcache) :
  lh_n (lh s) < LOGSIZE -> lh_n (lh s) < log_size s - 1 -> 1 <= outstanding s ->
  exists s', log_write b s = Ok tt s'.
Proof.
  intros H1 H2 H3. unfold log_write. unfold bind at 1, get.
  destruct (Z.leb_spec LOGSIZE (lh_n (lh s))); [lia|].
  destruct (Z.leb_spec (log_size s - 1) (lh_n (lh s))); [lia|]. cbn [orb].
  destruct (Z.ltb_spec (outstanding s) 1); [lia|].
  erewrite bind_Ok by reflexivity. erewrite bind_Ok by reflexivity.
  destruct (_ =? _); [|by eexists]. erewrite bind_Ok by reflexivity. by eexists.
Qed.


(** ** A log of [LOGSIZE] blocks *)

(** A cache whose first buffer holds block [k]. *)
Definition cache_of (k : Z) : bcache :=
  mkbcache (fun _ => mkbuf true 1 k initsleeplock 1 0 0 zero_block) (fun _ => zero_block) [].

Lemma find_logged_fresh l n i blk : blk ∉ take n l -> (n <= length l)%nat -> find_logged l n i blk = i + Z.of_nat n.
Proof.
  revert n i. induction l as [|y l IH]; intros n i Hni Hn.
  { assert (n = 0%nat) as -> by (simpl in Hn; lia). simpl. lia. }
  destruct n as [|n]; simpl in *; [lia|]. destruct (Z.eqb_spec y blk) as [->|]; [set_solver|].
  rewrite IH; [lia|set_solver|lia].
Qed.

Lemma three_ops_fill n :
  (n <= 29)%nat -> exists s l, op_steps (fresh_log LOGSIZE (cache_of 0), []) (s, l) /\
    lh_n (lh s) = Z.of_nat n /\ length (lh_block (lh s)) = 30%nat /\
    (forall y, y ∈ take n (lh_block (lh s)) -> y < Z.of_nat n) /\
    outstanding s = 3 /\ log_size s = LOGSIZE /\ sumZ l = 30 - Z.of_nat n.
Proof.
  induction n as [|n IH]; intros Hn.
  - pose (fr := fresh_log LOGSIZE (cache_of 0)).
    exists (set_outstanding 3 fr), [MAXOPBLOCKS; MAXOPBLOCKS; MAXOPBLOCKS]. split.
    { apply (oss_step _ (set_outstanding 2 fr, [MAXOPBLOCKS; MAXOPBLOCKS])); [|by apply os_begin].
      apply (oss_step _ (set_outstanding 1 fr, [MAXOPBLOCKS])); [|by apply os_begin].
      apply (oss_step _ (fr, [])); [apply oss_refl|by apply os_begin]. }
    do 2 (split; [done|]). split; [intros y Hy; simpl in Hy; by apply not_elem_of_nil in Hy|]. done.
  - destruct IH as (s & l & Hst & En & Ea & Hy & Ho & Hz & Hs); [lia|].
    assert (exists l1 k l2, l = l1 ++ k :: l2 /\ 0 < k) as (l1 & k & l2 & -> & Hk).
    { clear -Hs Hn. assert (Hpos : 0 < sumZ l) by lia. clear Hs. unfold sumZ in Hpos.
      induction l as [|k l IH]; simpl in Hpos; [lia|].
      destruct (Z.lt_ge_cases 0 k); [by exists [], k, l|]. destruct IH as (l1 & k' & l2 & -> & Hk'); [lia|].
      by exists (k :: l1), k', l2. }
    pose (s1 := set_below (cache_of (Z.of_nat n)) s).
    assert (Hw : exists s', log_write 0%nat s1 = Ok tt s' /\ lh_n (lh s') = Z.of_nat (S n) /\
       lh_block (lh s') = <[n := Z.of_nat n]> (lh_block (lh s)) /\ outstanding s' = 3 /\ log_size s' = LOGSIZE).
    { unfold log_write. erewrite (bind_Ok get) by reflexivity.
      unfold s1. cbn [lh outstanding log_size set_below]. rewrite En, Ho, Hz.
      destruct (Z.leb_spec LOGSIZE (Z.of_nat n)); [unfold LOGSIZE, MAXOPBLOCKS in *; lia|].
      destruct (Z.leb_spec (LOGSIZE - 1) (Z.of_nat n)); [unfold LOGSIZE, MAXOPBLOCKS in *; lia|].
      cbn [orb]. change (3 <? 1) with false. cbv iota.
      assert (Eb : lift (cblockno 0%nat) (set_below (cache_of (Z.of_nat n)) s) =
                   Ok (Z.of_nat n) (set_below (cache_of (Z.of_nat n)) s)) by reflexivity.
      erewrite bind_Ok by exact Eb. rewrite Nat2Z.id, find_logged_fresh by (lia || (intros Hin%Hy; lia)).
      rewrite Z.add_0_l, Z.eqb_refl. erewrite bind_Ok by reflexivity. erewrite bind_Ok by reflexivity.
      eexists. split; [reflexivity|]. cbn [lh lh_n set_lh lh_block lh_put set_below outstanding log_size].
      rewrite Nat2Z.id. split; [lia|]. split; [done|]. by split. }
    destruct Hw as (s' & E & En' & Eb' & Ho' & Hz').
    exists s', (l1 ++ (k - 1) :: l2). split.
    { eapply oss_step; [eapply oss_step; [exact Hst|apply (os_cache s (cache_of (Z.of_nat n)))]|].
      by apply (os_write s1 s' 0%nat). }
    split; [done|]. split; [rewrite Eb', length_insert; done|]. split; [|split; [done|split; [done|]]].
    + intros y. rewrite Eb'. rewrite (take_S_r _ _ (Z.of_nat n)) by (apply list_lookup_insert_eq; lia).
      rewrite take_insert_ge by lia. intros [Hin%Hy|Hin]%elem_of_app; [lia|]. set_solver by lia.
    + rewrite sumZ_app in *. unfold sumZ in *. simpl in *. lia.
Qed.

(** C32.  With the log that [mkfs] makes, of [LOGSIZE] blocks including its
    header, the reservation of [begin_op] is one block too generous: three
    operations that were admitted together and stay within [MAXOPBLOCKS]
    blocks each can reach a state in which one of them still has budget but
    its next [log_write] panics. *)
Theorem log_space_short :
  exists s l k b, op_steps (fresh_log LOGSIZE (cache_of 0), []) (s, l) /\ k ∈ l /\ 0 < k /\
    log_write b s = Panic "too big a transaction".
Proof.
  destruct (three_ops_fill 29) as (s & l & Hst & En & _ & _ & Ho & Hz & Hs); [lia|].
  assert (exists k, k ∈ l /\ 0 < k) as (k & Hk & Hpos).
  { clear -Hs. assert (Hp : 0 < sumZ l) by lia. clear Hs. unfold sumZ in Hp.
    induction l as [|k l IH]; simpl in Hp; [lia|].
    destruct (Z.lt_ge_cases 0 k); [exists k; set_solver|]. destruct IH as (k' & Hin & Hk'); [lia|].
    exists k'. set_solver. }
  exists s, l, k, 0%nat. do 3 (split; [done|]). unfold log_write, bind at 1, get. by rewrite En, Hz.
Qed.
End on_bio.

