(* ===== verification/Fs.v ===== *)
(** * The file system: [src/kernel/fs/fs.c], with [include/kernel/fs.h], [stat.h]
      and [fcntl.h]

    Blocks, inodes, directories and path names over the log.  The state is the
    superblock, the inode table and the log below; an inode pointer is an index
    of the table.  Each section under [itable.lock] is one step.  On-disk
    structures are read and written at their C offsets in the bytes of a block.

    [readi] and [writei] move bytes between a block and memory through
    [either_copyout] and [either_copyin]; here the destination memory is an
    argument and a result of [readi] (of any type [X], with the copy function),
    and the source of [writei] is a copy function, so that the same definition
    serves user memory, kernel memory and the local [struct dirent] of the
    directory functions. *)

From S2P Require Import Prelude Memory CString Block Cache Sleeplock Log.

Definition FSMAGIC : Z := 0x10203040.
Definition NDIRECT : Z := 12.
Definition NINDIRECT : Z := BSIZE / 4.
Definition MAXFILE : Z := NDIRECT + NINDIRECT.
Definition ROOTINO : Z := 1.
Definition ROOTDEV : Z := 1.
Definition NINODE : nat := 50.
Definition DIRSIZ : Z := 14.
Definition T_DIR : Z := 1.
Definition T_FILE : Z := 2.
Definition T_DEVICE : Z := 3.

(** Open modes, shared by the system calls and the shell. *)
Inductive oflag := O_RDONLY | O_WRONLY | O_RDWR | O_CREATE | O_TRUNC.
Definition oflag_val (f : oflag) : Z :=
  match f with O_RDONLY => 0x000 | O_WRONLY => 0x001 | O_RDWR => 0x002 | O_CREATE => 0x200 | O_TRUNC => 0x400 end.
Coercion oflag_val : oflag >-> Z.

Record superblock := mksb {
  sb_magic : Z;
  sb_size : Z;
  sb_nblocks : Z;
  sb_ninodes : Z;
  sb_nlog : Z;
  sb_logstart : Z;
  sb_inodestart : Z;
  sb_bmapstart : Z
}.

(** Inodes per block: [sizeof(struct dinode)] is 64. *)
Definition IPB : Z := BSIZE / 64.
Definition IBLOCK (i : Z) (sb : superblock) : Z := u32 (i / IPB + sb_inodestart sb).
Definition BPB : Z := BSIZE * 8.
Definition BBLOCK (b : Z) (sb : superblock) : Z := u32 (b / BPB + sb_bmapstart sb).

(** [struct inode], the in-memory copy. *)
Record inode := mkinode {
  i_dev : Z;
  i_inum : Z;
  i_ref : Z;
  i_lock : sleeplock;
  i_valid : bool;
  i_type : Z;
  i_major : Z;
  i_minor : Z;
  i_nlink : Z;
  i_size : Z;
  i_addrs : list Z
}.

Record stat := mkstat { st_dev : Z; st_ino : Z; st_type : Z; st_nlink : Z; st_size : Z }.

Definition set_iref (x : Z) (i : inode) : inode :=
  mkinode (i_dev i) (i_inum i) x (i_lock i) (i_valid i) (i_type i) (i_major i) (i_minor i) (i_nlink i) (i_size i) (i_addrs i).
Definition set_ilock (x : sleeplock) (i : inode) : inode :=
  mkinode (i_dev i) (i_inum i) (i_ref i) x (i_valid i) (i_type i) (i_major i) (i_minor i) (i_nlink i) (i_size i) (i_addrs i).
Definition set_ivalid (x : bool) (i : inode) : inode :=
  mkinode (i_dev i) (i_inum i) (i_ref i) (i_lock i) x (i_type i) (i_major i) (i_minor i) (i_nlink i) (i_size i) (i_addrs i).
Definition set_itype (x : Z) (i : inode) : inode :=
  mkinode (i_dev i) (i_inum i) (i_ref i) (i_lock i) (i_valid i) x (i_major i) (i_minor i) (i_nlink i) (i_size i) (i_addrs i).
Definition set_idev (maj min nlink : Z) (i : inode) : inode :=
  mkinode (i_dev i) (i_inum i) (i_ref i) (i_lock i) (i_valid i) (i_type i) maj min nlink (i_size i) (i_addrs i).
Definition set_inlink (x : Z) (i : inode) : inode := set_idev (i_major i) (i_minor i) x i.
Definition set_isize (x : Z) (i : inode) : inode :=
  mkinode (i_dev i) (i_inum i) (i_ref i) (i_lock i) (i_valid i) (i_type i) (i_major i) (i_minor i) (i_nlink i) x (i_addrs i).
Definition set_iaddrs (x : list Z) (i : inode) : inode :=
  mkinode (i_dev i) (i_inum i) (i_ref i) (i_lock i) (i_valid i) (i_type i) (i_major i) (i_minor i) (i_nlink i) (i_size i) x.

(** [ip->addrs[k]] *)
Definition addr_at (l : list Z) (k : Z) : Z := default 0 (l !! Z.to_nat k).

(** [struct dinode] at byte [o] of a block: [type], [major], [minor], [nlink]
    (shorts), [size] and [addrs[NDIRECT+1]] (uints). *)
Fixpoint put_addrs (l : list Z) (o : nat) (d : block) : block :=
  match l with
  | [] => d
  | a :: l' => put_addrs l' (o + 4) (put32 d o a)
  end.

Definition get_addrs (d : block) (o : nat) : list Z :=
  map (fun k => get32 d (o + 4 * k)) (seq 0 13).

Definition store_dinode (i : inode) (o : nat) (d : block) : block :=
  put_addrs (i_addrs i) (o + 12)
    (put32 (put16 (put16 (put16 (put16 d o (i_type i)) (o + 2) (i_major i)) (o + 4) (i_minor i))
       (o + 6) (i_nlink i)) (o + 8) (i_size i)).

Definition load_dinode (d : block) (o : nat) (i : inode) : inode :=
  mkinode (i_dev i) (i_inum i) (i_ref i) (i_lock i) (i_valid i)
    (geti16 d o) (geti16 d (o + 2)) (geti16 d (o + 4)) (geti16 d (o + 6))
    (get32 d (o + 8)) (get_addrs d (o + 12)).

(** Byte offset of inode [inum] in its block. *)
Definition dinode_off (inum : Z) : nat := Z.to_nat (inum mod IPB * 64).

(** [bp->data[bi/8] & m] for [m = 1 << (bi % 8)], and the byte with the bit set
    or cleared. *)
Definition bit_mask (bi : Z) : Z := Z.shiftl 1 (bi mod 8).
Definition byte_at (d : block) (i : Z) : Z := default 0 (d !! Z.to_nat i).
Definition bit_used (d : block) (bi : Z) : bool :=
  negb (Z.land (byte_at d (bi / 8)) (bit_mask bi) =? 0).
Definition bit_set (d : block) (bi : Z) : block :=
  <[Z.to_nat (bi / 8) := u8 (Z.lor (byte_at d (bi / 8)) (bit_mask bi))]> d.
Definition bit_clear (d : block) (bi : Z) : block :=
  <[Z.to_nat (bi / 8) := u8 (Z.land (byte_at d (bi / 8)) (Z.lnot (bit_mask bi)))]> d.

(** [for(bi = 0; bi < BPB && b + bi < sb.size; bi++)] up to the first free bit *)
Fixpoint find_free_bit (n : nat) (bi b size : Z) (d : block) : option Z :=
  match n with
  | O => None
  | S n' =>
      if b + bi <? size then
        if bit_used d bi then find_free_bit n' (bi + 1) b size d else Some bi
      else None
  end.

(** ** The operations *)

Record fsst (S : Type) := mkfsst {
  fs_sb : superblock;
  itable : nat -> inode;
  fs_log : logst S
}.
Arguments mkfsst {S}.
Arguments fs_sb {S}.
Arguments itable {S}.
Arguments fs_log {S}.

Definition set_fslog {S} (l : logst S) (s : fsst S) : fsst S := mkfsst (fs_sb s) (itable s) l.
Definition set_itable {S} (t : nat -> inode) (s : fsst S) : fsst S := mkfsst (fs_sb s) t (fs_log s).
Definition iupd (t : nat -> inode) (k : nat) (i : inode) : nat -> inode :=
  fun j => if Nat.eqb j k then i else t j.

(** The scan of [iget] over the table: the entry of the inode, if it is there,
    and otherwise the first unused entry. *)
Fixpoint iget_scan (n : nat) (t : nat -> inode) (dev inum : Z) (k : nat) (empty : option nat) :
    option nat * option nat :=
  match n with
  | O => (None, empty)
  | S n' =>
      if (0 <? i_ref (t k)) && (i_dev (t k) =? dev) && (i_inum (t k) =? inum) then (Some k, empty)
      else iget_scan n' t dev inum (S k)
             (match empty with
              | None => if i_ref (t k) =? 0 then Some k else None
              | _ => empty
              end)
  end.

(** ** Names

    A name is the bytes of a C string up to [DIRSIZ], NUL-terminated if
    shorter; bytes past the end of the list read as NUL. *)

(** Memory holding [s] at 0 and [t] at 32. *)
Definition two_names (s t : list Z) : mem :=
  fun a => if a <? 32 then nth (Z.to_nat a) s 0 else nth (Z.to_nat (a - 32)) t 0.

Definition namecmp (s t : list Z) : Z := strncmp (two_names s t) 0 32 DIRSIZ.

(** [strncpy(de.name, name, DIRSIZ)] *)
Definition fill_name (name : list Z) : list Z :=
  mem_read (strncpy (two_names [] name) 0 32 DIRSIZ) 0 14.

(** [struct dirent]: a 16-bit inode number and [DIRSIZ] bytes of name. *)
Definition de_inum (de : list Z) : Z := le_val (take 2 de).
Definition de_name (de : list Z) : list Z := drop 2 de.
Definition mkdirent (inum : Z) (name : list Z) : list Z := le_bytes 2 (u16 inum) ++ fill_name name.

(** Copying to and from a local [struct dirent]. *)
Definition de_copyout (dst : Z) (src : list Z) (de : list Z) : list Z * Z :=
  (splice de (Z.to_nat dst) src, 0).
Definition de_copyin (de : list Z) (src len : Z) : list Z * Z :=
  (read_at de (Z.to_nat src) (Z.to_nat len), 0).

Fixpoint skip_slashes (path : list Z) : list Z :=
  match path with
  | c :: path' => if c =? 47 then skip_slashes path' else path
  | [] => []
  end.

(** The path element at the front, and what follows it. *)
Fixpoint take_elem (path : list Z) : list Z * list Z :=
  match path with
  | [] => ([], [])
  | c :: path' =>
      if (c =? 47) || (c =? 0) then ([], path)
      else let '(e, r) := take_elem path' in (c :: e, r)
  end.

(** [*path == 0] *)
Definition at_end (path : list Z) : bool :=
  match path with [] => true | c :: _ => c =? 0 end.

(** [skipelem(path, name)]: the rest of the path and the new contents of the
    array [name]; [None] is the null pointer.  A path is the bytes of the
    string, without its NUL. *)
Definition skipelem (path name : list Z) : option (list Z * list Z) :=
  let path := skip_slashes path in
  if at_end path then None
  else
    let '(s, rest) := take_elem path in
    let name' :=
      if DIRSIZ <=? Z.of_nat (length s) then splice name 0 (take 14 s)
      else splice name 0 (s ++ [0]) in
    Some (skip_slashes rest, name').

Section fs.
Context {S B : Type} `{!BlockCache S B}.
Variable mypid : Z.

Definition flift {A} (m : M (logst S) A) : M (fsst S) A := zoom fs_log set_fslog m.
Definition bread' (dev blockno : Z) : M (fsst S) B := flift (lift (cread dev blockno)).
Definition brelse' (b : B) : M (fsst S) unit := flift (lift (crelse b)).
Definition bdata (b : B) : M (fsst S) block := flift (lift (cdata b)).
Definition bstore (b : B) (d : block) : M (fsst S) unit := flift (lift (cset b d)).
Definition log_write' (b : B) : M (fsst S) unit := flift (log_write b).
Definition ientry (ip : nat) : M (fsst S) inode := gets (fun s => itable s ip).
Definition iset (ip : nat) (f : inode -> inode) : M (fsst S) unit :=
  modify (fun s => set_itable (iupd (itable s) ip (f (itable s ip))) s).
Definition on_ilock {A} (ip : nat) (m : M sleeplock A) : M (fsst S) A :=
  zoom (fun s => i_lock (itable s ip))
    (fun lk s => set_itable (iupd (itable s) ip (set_ilock lk (itable s ip))) s) m.

Definition readsb (dev : Z) : M (fsst S) superblock :=
  let! bp := bread' dev 1 in
  let! d := bdata bp in
  let sb := mksb (get32 d 0) (get32 d 4) (get32 d 8) (get32 d 12) (get32 d 16) (get32 d 20)
              (get32 d 24) (get32 d 28) in
  brelse' bp ;;
  ret sb.

Definition fsinit (dev : Z) : M (fsst S) unit :=
  let! sb := readsb dev in
  modify (fun s => mkfsst sb (itable s) (fs_log s)) ;;
  if negb (sb_magic sb =? FSMAGIC) then panic "invalid file system"
  else flift (initlog dev (s32 (sb_logstart sb)) (s32 (sb_nlog sb))).

Definition bzero (dev bno : Z) : M (fsst S) unit :=
  let! bp := bread' dev bno in
  bstore bp zero_block ;;
  log_write' bp ;;
  brelse' bp.

(** [n] bounds the number of bitmap blocks. *)
Fixpoint balloc_loop (n : nat) (dev b : Z) : M (fsst S) Z :=
  match n with
  | O => panic "balloc: out of blocks"
  | Datatypes.S n' =>
      let! s := get in
      let sb := fs_sb s in
      if b <? sb_size sb then
        let! bp := bread' dev (BBLOCK b sb) in
        let! d := bdata bp in
        match find_free_bit (Z.to_nat BPB) 0 b (sb_size sb) d with
        | Some bi =>
            bstore bp (bit_set d bi) ;;
            log_write' bp ;;
            brelse' bp ;;
            bzero dev (b + bi) ;;
            ret (b + bi)
        | None => brelse' bp ;; balloc_loop n' dev (b + BPB)
        end
      else panic "balloc: out of blocks"
  end.

Definition balloc (dev : Z) : M (fsst S) Z :=
  let! s := get in
  balloc_loop (Z.to_nat (sb_size (fs_sb s) / BPB + 1)) dev 0.

Definition bfree (dev b : Z) : M (fsst S) unit :=
  let! s := get in
  let! bp := bread' dev (BBLOCK b (fs_sb s)) in
  let bi := b mod BPB in
  let! d := bdata bp in
  if negb (bit_used d bi) then panic "freeing free block"
  else
    bstore bp (bit_clear d bi) ;;
    log_write' bp ;;
    brelse' bp.

Definition iinit : M (fsst S) unit :=
  for_up NINODE 0 (fun i => iset (Z.to_nat i) (set_ilock initsleeplock)).

Definition iget (dev inum : Z) : M (fsst S) nat :=
  let! s := get in
  match iget_scan NINODE (itable s) dev inum 0 None with
  | (Some ip, _) => iset ip (fun i => set_iref (s32 (i_ref i + 1)) i) ;; ret ip
  | (None, None) => panic "iget: no inodes"
  | (None, Some ip) =>
      iset ip (fun i => mkinode dev inum 1 (i_lock i) false (i_type i) (i_major i) (i_minor i)
                          (i_nlink i) (i_size i) (i_addrs i)) ;;
      ret ip
  end.

(** [n] is the number of inode numbers left to try. *)
Fixpoint ialloc_loop (n : nat) (dev type inum : Z) : M (fsst S) nat :=
  match n with
  | O => panic "ialloc: no inodes"
  | Datatypes.S n' =>
      let! s := get in
      let! bp := bread' dev (IBLOCK inum (fs_sb s)) in
      let! d := bdata bp in
      let o := dinode_off inum in
      if geti16 d o =? 0 then
        bstore bp (put16 (splice d o (repeat 0 64)) o type) ;;
        log_write' bp ;;
        brelse' bp ;;
        iget dev inum
      else
        brelse' bp ;;
        ialloc_loop n' dev type (inum + 1)
  end.

Definition ialloc (dev type : Z) : M (fsst S) nat :=
  let! s := get in
  ialloc_loop (Z.to_nat (sb_ninodes (fs_sb s) - 1)) dev type 1.

Definition iupdate (ip : nat) : M (fsst S) unit :=
  let! s := get in
  let! i := ientry ip in
  let! bp := bread' (i_dev i) (IBLOCK (i_inum i) (fs_sb s)) in
  let! d := bdata bp in
  bstore bp (store_dinode i (dinode_off (i_inum i)) d) ;;
  log_write' bp ;;
  brelse' bp.

Definition idup (ip : nat) : M (fsst S) nat :=
  iset ip (fun i => set_iref (s32 (i_ref i + 1)) i) ;;
  ret ip.

Definition ilock (ip : nat) : M (fsst S) unit :=
  let! i := ientry ip in
  if i_ref i <? 1 then panic "ilock"
  else
    on_ilock ip (acquiresleep mypid) ;;
    let! s := get in
    let! i := ientry ip in
    if negb (i_valid i) then
      let! bp := bread' (i_dev i) (IBLOCK (i_inum i) (fs_sb s)) in
      let! d := bdata bp in
      iset ip (load_dinode d (dinode_off (i_inum i))) ;;
      brelse' bp ;;
      iset ip (set_ivalid true) ;;
      let! i := ientry ip in
      if i_type i =? 0 then panic "ilock: no type" else ret tt
    else ret tt.

Definition iunlock (ip : nat) : M (fsst S) unit :=
  let! i := ientry ip in
  let! h := on_ilock ip (holdingsleep mypid) in
  if negb h || (i_ref i <? 1) then panic "iunlock"
  else on_ilock ip releasesleep.

Definition bmap (ip : nat) (bn : Z) : M (fsst S) Z :=
  let! i := ientry ip in
  if bn <? NDIRECT then
    let addr := addr_at (i_addrs i) bn in
    if addr =? 0 then
      let! addr := balloc (i_dev i) in
      iset ip (fun i => set_iaddrs (<[Z.to_nat bn := addr]> (i_addrs i)) i) ;;
      ret addr
    else ret addr
  else
    let bn := bn - NDIRECT in
    if bn <? NINDIRECT then
      let addr := addr_at (i_addrs i) NDIRECT in
      let! addr :=
        (if addr =? 0 then
           let! addr := balloc (i_dev i) in
           iset ip (fun i => set_iaddrs (<[Z.to_nat NDIRECT := addr]> (i_addrs i)) i) ;;
           ret addr
         else ret addr) in
      let! bp := bread' (i_dev i) addr in
      let! a := bdata bp in
      let addr := get32 a (4 * Z.to_nat bn) in
      let! addr :=
        (if addr =? 0 then
           let! addr := balloc (i_dev i) in
           let! a := bdata bp in
           bstore bp (put32 a (4 * Z.to_nat bn) addr) ;;
           log_write' bp ;;
           ret addr
         else ret addr) in
      brelse' bp ;;
      ret addr
    else panic "bmap: out of range".

Definition itrunc (ip : nat) : M (fsst S) unit :=
  for_up (Z.to_nat NDIRECT) 0 (fun k =>
    let! i := ientry ip in
    if negb (addr_at (i_addrs i) k =? 0) then
      bfree (i_dev i) (addr_at (i_addrs i) k) ;;
      iset ip (fun i => set_iaddrs (<[Z.to_nat k := 0]> (i_addrs i)) i)
    else ret tt) ;;
  let! i := ientry ip in
  (if negb (addr_at (i_addrs i) NDIRECT =? 0) then
     let! bp := bread' (i_dev i) (addr_at (i_addrs i) NDIRECT) in
     for_up (Z.to_nat NINDIRECT) 0 (fun j =>
       let! a := bdata bp in
       if negb (get32 a (4 * Z.to_nat j) =? 0) then bfree (i_dev i) (get32 a (4 * Z.to_nat j))
       else ret tt) ;;
     brelse' bp ;;
     bfree (i_dev i) (addr_at (i_addrs i) NDIRECT) ;;
     iset ip (fun i => set_iaddrs (<[Z.to_nat NDIRECT := 0]> (i_addrs i)) i)
   else ret tt) ;;
  iset ip (set_isize 0) ;;
  iupdate ip.

Definition iput (ip : nat) : M (fsst S) unit :=
  let! i := ientry ip in
  (if (i_ref i =? 1) && i_valid i && (i_nlink i =? 0) then
     on_ilock ip (acquiresleep mypid) ;;
     itrunc ip ;;
     iset ip (set_itype 0) ;;
     iupdate ip ;;
     iset ip (set_ivalid false) ;;
     on_ilock ip releasesleep
   else ret tt) ;;
  iset ip (fun i => set_iref (s32 (i_ref i - 1)) i).

Definition iunlockput (ip : nat) : M (fsst S) unit :=
  iunlock ip ;;
  iput ip.

Definition stati (ip : nat) : M (fsst S) stat :=
  let! i := ientry ip in
  ret (mkstat (s32 (i_dev i)) (i_inum i) (i_type i) (i_nlink i) (i_size i)).

(** [m = min(n - tot, BSIZE - off%BSIZE)] *)
Definition chunk (n tot off : Z) : Z := Z.min (u32 (n - tot)) (BSIZE - off mod BSIZE).

Fixpoint readi_loop {X} (fuel : nat) (copyout : Z -> list Z -> X -> X * Z) (ip : nat) (x : X)
    (dst off n tot : Z) : M (fsst S) (Z * X) :=
  match fuel with
  | O => panic "readi: fuel"
  | Datatypes.S f =>
      if tot <? n then
        let! i := ientry ip in
        let! addr := bmap ip (off / BSIZE) in
        let! bp := bread' (i_dev i) addr in
        let m := chunk n tot off in
        let! d := bdata bp in
        let '(x', r) := copyout dst (read_at d (Z.to_nat (off mod BSIZE)) (Z.to_nat m)) x in
        if r =? -1 then brelse' bp ;; ret (-1, x')
        else
          brelse' bp ;;
          readi_loop f copyout ip x' (u64 (dst + m)) (u32 (off + m)) n (u32 (tot + m))
      else ret (s32 tot, x)
  end.

Definition readi {X} (copyout : Z -> list Z -> X -> X * Z) (ip : nat) (x : X) (dst off n : Z) :
    M (fsst S) (Z * X) :=
  let! i := ientry ip in
  if (i_size i <? off) || (u32 (off + n) <? off) then ret (0, x)
  else
    let n := if i_size i <? u32 (off + n) then u32 (i_size i - off) else n in
    readi_loop (Datatypes.S (Z.to_nat n)) copyout ip x dst off n 0.

(** The loop of [writei] returns [off] and [tot].  [copyin] gives the bytes
    stored into the buffer, all of them or those before the failure, and the
    result. *)
Fixpoint writei_loop (fuel : nat) (copyin : Z -> Z -> list Z * Z) (ip : nat) (src off n tot : Z) :
    M (fsst S) (Z * Z) :=
  match fuel with
  | O => panic "writei: fuel"
  | Datatypes.S f =>
      if tot <? n then
        let! i := ientry ip in
        let! addr := bmap ip (off / BSIZE) in
        let! bp := bread' (i_dev i) addr in
        let m := chunk n tot off in
        let! d := bdata bp in
        let '(bytes, r) := copyin src m in
        bstore bp (splice d (Z.to_nat (off mod BSIZE)) bytes) ;;
        if r =? -1 then brelse' bp ;; ret (off, tot)
        else
          log_write' bp ;;
          brelse' bp ;;
          writei_loop f copyin ip (u64 (src + m)) (u32 (off + m)) n (u32 (tot + m))
      else ret (off, tot)
  end.

Definition writei (copyin : Z -> Z -> list Z * Z) (ip : nat) (src off n : Z) : M (fsst S) Z :=
  let! i := ientry ip in
  if (i_size i <? off) || (u32 (off + n) <? off) then ret (-1)
  else if MAXFILE * BSIZE <? u32 (off + n) then ret (-1)
  else
    let! r := writei_loop (Datatypes.S (Z.to_nat n)) copyin ip src off n 0 in
    let '(off, tot) := r in
    let! i := ientry ip in
    (if i_size i <? off then iset ip (set_isize off) else ret tt) ;;
    iupdate ip ;;
    ret (s32 tot).

(** ** Directories *)

(** The loop of [dirlookup] from [off] on, with the local [de]; the result is
    the inode and the offset stored to [*poff]. *)
Fixpoint dirlookup_loop (fuel : nat) (dp : nat) (name : list Z) (de : list Z) (off : Z) :
    M (fsst S) (option (nat * Z)) :=
  match fuel with
  | O => panic "dirlookup: fuel"
  | Datatypes.S f =>
      let! i := ientry dp in
      if off <? i_size i then
        let! r := readi de_copyout dp de 0 off 16 in
        let '(n, de) := r in
        if negb (n =? 16) then panic "dirlookup read"
        else if de_inum de =? 0 then dirlookup_loop f dp name de (u32 (off + 16))
        else if namecmp name (de_name de) =? 0 then
          let! ip := iget (i_dev i) (de_inum de) in
          ret (Some (ip, off))
        else dirlookup_loop f dp name de (u32 (off + 16))
      else ret None
  end.

Definition dirlookup (dp : nat) (name : list Z) : M (fsst S) (option (nat * Z)) :=
  let! i := ientry dp in
  if negb (i_type i =? T_DIR) then panic "dirlookup not DIR"
  else dirlookup_loop (Z.to_nat (i_size i / 16 + 2)) dp name (repeat 0 16) 0.

(** The search for an empty entry: the offset where the loop ends. *)
Fixpoint find_empty (fuel : nat) (dp : nat) (de : list Z) (off : Z) : M (fsst S) Z :=
  match fuel with
  | O => panic "dirlink: fuel"
  | Datatypes.S f =>
      let! i := ientry dp in
      if off <? i_size i then
        let! r := readi de_copyout dp de 0 off 16 in
        let '(n, de) := r in
        if negb (n =? 16) then panic "dirlink read"
        else if de_inum de =? 0 then ret off
        else find_empty f dp de (off + 16)
      else ret off
  end.

Definition dirlink (dp : nat) (name : list Z) (inum : Z) : M (fsst S) Z :=
  let! r := dirlookup dp name in
  match r with
  | Some (ip, _) => iput ip ;; ret (-1)
  | None =>
      let! i := ientry dp in
      let! off := find_empty (Z.to_nat (i_size i / 16 + 2)) dp (repeat 0 16) 0 in
      let! n := writei (de_copyin (mkdirent inum name)) dp 0 off 16 in
      if negb (n =? 16) then panic "dirlink" else ret 0
  end.

(** ** Paths *)

(** The loop of [namex]; the path gets shorter at every element. *)
Fixpoint namex_loop (fuel : nat) (ip : nat) (path : list Z) (parent : bool) (name : list Z) :
    M (fsst S) (option nat * list Z) :=
  match fuel with
  | O => panic "namex: fuel"
  | Datatypes.S f =>
      match skipelem path name with
      | None => if parent then iput ip ;; ret (None, name) else ret (Some ip, name)
      | Some (path, name) =>
          ilock ip ;;
          let! i := ientry ip in
          if negb (i_type i =? T_DIR) then iunlockput ip ;; ret (None, name)
          else if parent && at_end path then iunlock ip ;; ret (Some ip, name)
          else
            let! next := dirlookup ip name in
            match next with
            | None => iunlockput ip ;; ret (None, name)
            | Some (next, _) => iunlockput ip ;; namex_loop f next path parent name
            end
      end
  end.

(** [cwd] is [myproc()->cwd]. *)
Definition namex (cwd : nat) (path : list Z) (parent : bool) (name : list Z) :
    M (fsst S) (option nat * list Z) :=
  let! ip := (match path with
              | 47 :: _ => iget ROOTDEV ROOTINO
              | _ => idup cwd
              end) in
  namex_loop (Datatypes.S (length path)) ip path parent name.

Definition namei (cwd : nat) (path : list Z) : M (fsst S) (option nat) :=
  let! r := namex cwd path false (repeat 0 14) in
  ret (fst r).

Definition nameiparent (cwd : nat) (path name : list Z) : M (fsst S) (option nat * list Z) :=
  namex cwd path true name.
End fs.
