(* ===== verification/FsBlocks.v ===== *)
(** * The file system's steps on blocks

    Every file system routine works on blocks through five steps: read a block
    into a locked buffer, look at it, store into it, log it, release it.  Here
    each step is given its effect on what the file system sees ([fs_rep]): the
    contents [D] of the blocks, the blocks [h] whose buffers are held and the
    blocks [bs] logged so far.  The disk itself ([dk]) does not change inside a
    transaction. *)

From S2P Require Import Prelude Memory CString Block Cache Sleeplock Log LogProofs LogSpec Fs.

#[local] Set Warnings "-clear-no-such-hyp".

Definition logadd (blk : Z) (bs : list Z) : list Z := if decide (blk ∈ bs) then bs else bs ++ [blk].

Lemma elem_of_logadd x blk bs : x ∈ logadd blk bs <-> x = blk \/ x ∈ bs.
Proof. unfold logadd. destruct (decide (blk ∈ bs)); set_solver. Qed.

Lemma logadd_NoDup blk bs : NoDup bs -> NoDup (logadd blk bs).
Proof.
  intros H. unfold logadd. destruct (decide (blk ∈ bs)); [done|].
  apply NoDup_app. split; [done|]. split; [set_solver|apply NoDup_singleton].
Qed.

(** The log grew from [bs] to [bs'] by blocks of [W]. *)
Record logged (bs bs' W : list Z) : Prop := {
  lg_nodup : NoDup bs -> NoDup bs';
  lg_more x : x ∈ bs -> x ∈ bs';
  lg_only x : x ∈ bs' -> x ∈ bs \/ x ∈ W
}.

Lemma logged_refl bs W : logged bs bs W.
Proof. split; auto. Qed.

Lemma logged_trans bs1 bs2 bs3 W1 W2 W :
  logged bs1 bs2 W1 -> logged bs2 bs3 W2 -> (forall x, x ∈ W1 -> x ∈ W) -> (forall x, x ∈ W2 -> x ∈ W) ->
  logged bs1 bs3 W.
Proof.
  intros [N1 M1 O1] [N2 M2 O2] H1 H2. split; [auto..|].
  intros x [Hx|Hx]%O2; [|auto]. apply O1 in Hx as [Hx|Hx]; auto.
Qed.

Lemma logged_weaken bs bs' W W' : logged bs bs' W -> (forall x, x ∈ W -> x ∈ W') -> logged bs bs' W'.
Proof. intros [N M O] H. split; [done..|]. intros x [Hx|Hx]%O; auto. Qed.

Lemma logged_add blk bs : logged bs (logadd blk bs) [blk].
Proof.
  split; [apply logadd_NoDup|intros x Hx; apply elem_of_logadd; auto|].
  intros x [->|Hx]%elem_of_logadd; [right; set_solver|auto].
Qed.

Lemma logged_length bs bs' W : NoDup bs -> logged bs bs' W -> (length bs' <= length bs + length W)%nat.
Proof.
  intros Hn [N M O]. rewrite <- length_app. apply submseteq_length, NoDup_submseteq; [auto|].
  intros x [Hx|Hx]%O; apply elem_of_app; auto.
Qed.

Section blocks.
Context {S B : Type} `{HBC : !BlockCache S B} (dev : Z) `{HCS : !CacheSpec S B dev}.
Variables (start size : Z) (dk : Z -> block).
Hypothesis Hstart : 0 <= start.
Hypothesis Hend : start + size <= 2147483648.
Hypothesis Hsize : 30 <= size.

Record fs_rep (s : fsst S) (D : Z -> block) (h bs : list Z) : Prop := {
  fr_view : exists v, crep (dev := dev) (below (fs_log s)) v /\ (forall k, cv_view v k = D k) /\
    (forall k, cv_disk v k = dk k) /\ cv_held v = h /\ cv_pins v = rev bs;
  fr_log : log_holds dev start size (fs_log s) bs;
  fr_out : 1 <= outstanding (fs_log s);
  fr_nodup : NoDup bs
}.

(** Buffer [b] is held for block [blk]. *)
Definition has (s : fsst S) (b : B) (blk : Z) : Prop := cbuf (dev := dev) (below (fs_log s)) b blk.

(** Only the state below the file system changed. *)
Definition same (s s' : fsst S) : Prop := fs_sb s' = fs_sb s /\ itable s' = itable s.

Lemma same_refl s : same s s.
Proof. done. Qed.

Lemma same_trans s1 s2 s3 : same s1 s2 -> same s2 s3 -> same s1 s3.
Proof. intros [E1 E2] [E3 E4]. split; congruence. Qed.

Lemma fs_rep_ext s D D' h bs : fs_rep s D h bs -> (forall k, D k = D' k) -> fs_rep s D' h bs.
Proof.
  intros [(v & Hc & Hv & H) Hl Ho Hn] E. split; [|done..]. exists v. split; [done|]. split; [|done].
  intros k. by rewrite Hv.
Qed.

(** The inode table is not part of the representation. *)
Lemma fs_rep_itable s D h bs t : fs_rep s D h bs -> fs_rep (set_itable t s) D h bs.
Proof. intros [H1 H2 H3 H4]. by split. Qed.

Lemma flift_Ok {A} (m : M (logst S) A) (s : fsst S) a x :
  m (fs_log s) = Ok a x -> flift m s = Ok a (set_fslog x s).
Proof. intros E. unfold flift, zoom. by rewrite E. Qed.

Lemma llift_Ok {A} (m : M S A) (s : fsst S) a x :
  m (below (fs_log s)) = Ok a x -> flift (lift m) s = Ok a (set_fslog (set_below x (fs_log s)) s).
Proof. intros E. by apply flift_Ok, lift_Ok. Qed.

Lemma log_holds_below l bs x : log_holds dev start size l bs -> log_holds (S := S) dev start size (set_below x l) bs.
Proof. intros [H1 H2 H3 H4 H5 H6]. by split. Qed.

Lemma fbread_run s D h bs blk :
  fs_rep s D h bs -> blockno_ok blk -> blk ∉ h -> (length bs + length h < 30)%nat ->
  exists b s', bread' dev blk s = Ok b s' /\ fs_rep s' D (blk :: h) bs /\ has s' b blk /\
    (forall b' blk', has s b' blk' -> has s' b' blk') /\ same s s' /\ (blk ∈ bs \/ D blk = dk blk).
Proof.
  intros [(v & Hc & Hv & Hd & Hh & Hp) Hl Ho Hn] Hok Hni Hlen.
  destruct (cread_ok (below (fs_log s)) v blk Hc Hok) as (b & x & E & Hc' & Hb & Hk).
  { by rewrite Hh. }
  { right. rewrite Hp, Hh, length_rev. unfold NBUF. lia. }
  exists b, (set_fslog (set_below x (fs_log s)) s). split; [by apply llift_Ok|]. split; [|split; [done|split; [done|split; [done|]]]].
  - split; [|by apply log_holds_below|done|done]. exists (hold blk v). simpl. by rewrite Hh.
  - destruct (decide (blk ∈ bs)) as [Hin|Hin]; [by left|right].
    rewrite <- Hv, <- Hd. eapply crep_clean; [exact Hc|by rewrite Hh|by rewrite Hp, elem_of_rev].
Qed.

Lemma bdata_run s D h bs b blk :
  fs_rep s D h bs -> has s b blk -> bdata b s = Ok (D blk) s.
Proof.
  intros [(v & Hc & Hv & _) _ _ _] Hb. unfold bdata. rewrite <- Hv.
  erewrite llift_Ok by (apply (cdata_ok _ _ _ blk Hc Hb)). by destruct s as [? ? []].
Qed.

Lemma bstore_run s D h bs b blk d :
  fs_rep s D h bs -> has s b blk ->
  exists s', bstore b d s = Ok tt s' /\ fs_rep s' (cv_upd D blk d) h bs /\
    (forall b' blk', has s b' blk' -> has s' b' blk') /\ same s s'.
Proof.
  intros [(v & Hc & Hv & Hd & Hh & Hp) Hl Ho Hn] Hb.
  destruct (cset_ok _ v b blk d Hc Hb) as (x & E & Hc' & Hk).
  exists (set_fslog (set_below x (fs_log s)) s). split; [by apply llift_Ok|]. split; [|done].
  split; [|by apply log_holds_below|done|done]. exists (set_view blk d v). split; [done|]. split; [|done].
  intros k. simpl. unfold cv_upd. by destruct (k =? blk).
Qed.

Lemma logw_run s D h bs b blk :
  fs_rep s D h bs -> has s b blk -> (length bs < 29)%nat ->
  exists s', log_write' b s = Ok tt s' /\ fs_rep s' D h (logadd blk bs) /\
    (forall b' blk', has s b' blk' -> has s' b' blk') /\ same s s'.
Proof.
  intros [(v & Hc & Hv & Hd & Hh & Hp) Hl Ho Hn] Hb Hlen.
  destruct (log_write_run dev start size Hstart Hend (fs_log s) v b blk bs) as (l & E & Hc' & Hl' & Hk & Eo & _);
    [done..|change LOGSIZE with 30; lia|lia|].
  exists (set_fslog l s). split; [by apply flift_Ok|]. split; [|done].
  split; [|done|simpl; lia|by apply logadd_NoDup].
  eexists. split; [exact Hc'|]. done.
Qed.

Lemma fbrelse_run s D h bs b blk :
  fs_rep s D (blk :: h) bs -> has s b blk -> blk ∈ bs \/ D blk = dk blk ->
  exists s', brelse' b s = Ok tt s' /\ fs_rep s' D h bs /\
    (forall b' blk', blk' <> blk -> has s b' blk' -> has s' b' blk') /\ same s s'.
Proof.
  intros [(v & Hc & Hv & Hd & Hh & Hp) Hl Ho Hn] Hb Hcl.
  destruct (crelse_ok _ v b blk [] h Hc Hb) as (x & E & Hc' & Hk).
  { done. }
  { destruct Hcl as [Hin|Hcl]; [left; by rewrite Hp, elem_of_rev|right]. by rewrite Hv, Hd. }
  exists (set_fslog (set_below x (fs_log s)) s). split; [by apply llift_Ok|]. split; [|done].
  split; [|by apply log_holds_below|done|done]. eexists. split; [exact Hc'|]. done.
Qed.

(** The common endings: release what was only read, or store, log and release. *)
Lemma read_release s D h bs blk {A} (k : block -> M (fsst S) A) (b : B) :
  fs_rep s D (blk :: h) bs -> has s b blk -> blk ∈ bs \/ D blk = dk blk ->
  exists s', (let! d := bdata b in brelse' b ;; k d) s = k (D blk) s' /\ fs_rep s' D h bs /\
    (forall b' blk', blk' <> blk -> has s b' blk' -> has s' b' blk') /\ same s s'.
Proof.
  intros Hr Hb Hc. destruct (fbrelse_run s D h bs b blk Hr Hb Hc) as (s' & E & H).
  exists s'. split; [|done]. erewrite bind_Ok by (eapply bdata_run; eassumption). by erewrite bind_Ok by exact E.
Qed.

Lemma store_log_release s D h bs blk d (b : B) {A} (k : M (fsst S) A) :
  fs_rep s D (blk :: h) bs -> has s b blk -> (length bs < 29)%nat ->
  exists s', (bstore b d ;; log_write' b ;; brelse' b ;; k) s = k s' /\
    fs_rep s' (cv_upd D blk d) h (logadd blk bs) /\
    (forall b' blk', blk' <> blk -> has s b' blk' -> has s' b' blk') /\ same s s'.
Proof.
  intros Hr Hb Hlen. destruct (bstore_run s D _ bs b blk d Hr Hb) as (s1 & E1 & Hr1 & Hk1 & Hs1).
  destruct (logw_run s1 _ _ bs b blk Hr1 (Hk1 _ _ Hb) Hlen) as (s2 & E2 & Hr2 & Hk2 & Hs2).
  destruct (fbrelse_run s2 _ h _ b blk Hr2) as (s3 & E3 & Hr3 & Hk3 & Hs3); [auto|left; apply elem_of_logadd; auto|].
  exists s3. split; [|split; [done|split; [auto|]]].
  - erewrite bind_Ok by exact E1. erewrite bind_Ok by exact E2. by erewrite bind_Ok by exact E3.
  - eauto using same_trans.
Qed.

Lemma store_log_release_end s D h bs blk d (b : B) :
  fs_rep s D (blk :: h) bs -> has s b blk -> (length bs < 29)%nat ->
  exists s', (bstore b d ;; log_write' b ;; brelse' b) s = Ok tt s' /\
    fs_rep s' (cv_upd D blk d) h (logadd blk bs) /\
    (forall b' blk', blk' <> blk -> has s b' blk' -> has s' b' blk') /\ same s s'.
Proof.
  intros Hr Hb Hlen. destruct (store_log_release s D h bs blk d b (ret tt) Hr Hb Hlen) as (s' & E & H).
  exists s'. split; [|done]. change (Ok tt s') with (ret (S := fsst S) tt s'). rewrite <- E. unfold bind, ret.
  destruct (bstore b d s) as [? s1| |]; [|done..]. destruct (log_write' b s1) as [? s2| |]; [|done..].
  by destruct (brelse' b s2) as [[] s3| |].
Qed.

Lemma bzero_run s D h bs bno :
  fs_rep s D h bs -> blockno_ok bno -> bno ∉ h -> (length bs + length h < 29)%nat ->
  exists s', bzero dev bno s = Ok tt s' /\ fs_rep s' (cv_upd D bno zero_block) h (logadd bno bs) /\
    (forall b' blk', blk' <> bno -> has s b' blk' -> has s' b' blk') /\ same s s'.
Proof.
  intros Hr Hok Hni Hlen. unfold bzero.
  destruct (fbread_run s D h bs bno) as (b & s1 & E1 & Hr1 & Hb1 & Hk1 & Hs1 & _); [done..|lia|].
  erewrite bind_Ok by exact E1.
  destruct (store_log_release_end s1 D h bs bno zero_block b) as (s2 & E2 & Hr2 & Hk2 & Hs2); [done..|lia|].
  exists s2. split; [done|]. split; [done|]. split; [auto|by eapply same_trans].
Qed.
End blocks.
