(* ===== verification/FsAlloc.v ===== *)
(** * Block allocation: [balloc] and [bfree]

    The free map as a predicate on block numbers ([used]), and the effect of
    the two routines on it. *)

From S2P Require Import Prelude Memory CString Block Cache Sleeplock Log LogProofs LogSpec Fs FsBlocks.

#[local] Set Warnings "-clear-no-such-hyp".

(** ** Bits of a bitmap block *)

Lemma land_pow2 x k : 0 <= k -> Z.land x (2 ^ k) = if Z.testbit x k then 2 ^ k else 0.
Proof.
  intros Hk. apply Z.bits_inj'. intros n Hn. rewrite Z.land_spec, Z.pow2_bits_eqb by done.
  destruct (Z.eqb_spec k n) as [<-|Hne].
  - destruct (Z.testbit x k); [|by rewrite Z.bits_0]. rewrite Z.pow2_bits_true by done. done.
  - rewrite andb_false_r. destruct (Z.testbit x k); [|by rewrite Z.bits_0].
    by rewrite Z.pow2_bits_false.
Qed.

Lemma bit_used_testbit d bi : bit_used d bi = Z.testbit (byte_at d (bi / 8)) (bi mod 8).
Proof.
  unfold bit_used, bit_mask. rewrite Z.shiftl_mul_pow2, Z.mul_1_l by (Z.div_mod_to_equations; lia).
  rewrite land_pow2 by (Z.div_mod_to_equations; lia).
  destruct (Z.testbit _ _); [|done].
  assert (0 < 2 ^ (bi mod 8)) by (apply Z.pow_pos_nonneg; Z.div_mod_to_equations; lia).
  by destruct (Z.eqb_spec (2 ^ (bi mod 8)) 0); [lia|].
Qed.

Lemma byte_at_range d i : Forall is_byte d -> 0 <= byte_at d i < 256.
Proof.
  intros H. unfold byte_at. destruct (d !! Z.to_nat i) as [x|] eqn:E; simpl; [|lia].
  rewrite Forall_lookup in H. apply (H _ _ E).
Qed.

Lemma byte_at_insert d i j x :
  0 <= i < Z.of_nat (length d) -> 0 <= j ->
  byte_at (<[Z.to_nat i := x]> d) j = if i =? j then x else byte_at d j.
Proof.
  intros Hi Hj. unfold byte_at. destruct (Z.eqb_spec i j) as [->|Hne].
  - by rewrite list_lookup_insert_eq by lia.
  - by rewrite list_lookup_insert_ne by lia.
Qed.

Lemma testbit_u8 x k : 0 <= k < 8 -> Z.testbit (u8 x) k = Z.testbit x k.
Proof. intros Hk. unfold u8, uwrap. by rewrite Z.mod_pow2_bits_low by lia. Qed.

Lemma bit_mask_testbit bi k : 0 <= k -> Z.testbit (bit_mask bi) k = (bi mod 8 =? k).
Proof.
  intros Hk. unfold bit_mask. rewrite Z.shiftl_mul_pow2, Z.mul_1_l by (Z.div_mod_to_equations; lia).
  rewrite Z.pow2_bits_eqb by (Z.div_mod_to_equations; lia). done.
Qed.

Lemma bit_index bi bj : (bi / 8 =? bj / 8) && (bi mod 8 =? bj mod 8) = (bi =? bj).
Proof.
  destruct (Z.eqb_spec bi bj) as [->|Hne]; [by rewrite !Z.eqb_refl|].
  destruct (Z.eqb_spec (bi / 8) (bj / 8)), (Z.eqb_spec (bi mod 8) (bj mod 8)); try done.
  exfalso. apply Hne. rewrite (Z.div_mod bi 8), (Z.div_mod bj 8) by lia. lia.
Qed.

Lemma bit_byte_range d bi : block_ok d -> 0 <= bi < BPB -> 0 <= bi / 8 < Z.of_nat (length d).
Proof. intros [-> _] Hi. unfold BPB, BSIZE in Hi. Z.div_mod_to_equations; lia. Qed.

Section bits.
Variables (d : block) (bi bj : Z).
Hypothesis Hd : block_ok d.
Hypothesis Hi : 0 <= bi < BPB.
Hypothesis Hj : 0 <= bj < BPB.

Lemma bit_used_set : bit_used (bit_set d bi) bj = (bi =? bj) || bit_used d bj.
Proof using Hd Hi Hj.
  assert (0 <= bj / 8) by (apply Z.div_pos; lia).
  assert (0 <= bj mod 8 < 8) by (apply Z.mod_pos_bound; lia).
  rewrite !bit_used_testbit. unfold bit_set. rewrite byte_at_insert by first [assumption | apply bit_byte_range; assumption].
  rewrite <- (bit_index bi bj). destruct (Z.eqb_spec (bi / 8) (bj / 8)) as [E|E]; [|done].
  rewrite testbit_u8 by done. rewrite Z.lor_spec, bit_mask_testbit by lia. rewrite E.
  simpl. apply orb_comm.
Qed.

Lemma bit_used_clear : bit_used (bit_clear d bi) bj = negb (bi =? bj) && bit_used d bj.
Proof using Hd Hi Hj.
  assert (0 <= bj / 8) by (apply Z.div_pos; lia).
  assert (0 <= bj mod 8 < 8) by (apply Z.mod_pos_bound; lia).
  rewrite !bit_used_testbit. unfold bit_clear. rewrite byte_at_insert by first [assumption | apply bit_byte_range; assumption].
  rewrite <- (bit_index bi bj). destruct (Z.eqb_spec (bi / 8) (bj / 8)) as [E|E]; [|done].
  rewrite testbit_u8 by done. rewrite Z.land_spec, Z.lnot_spec, bit_mask_testbit by lia. rewrite E.
  simpl. apply andb_comm.
Qed.
End bits.

Lemma insert_byte_ok d i x : block_ok d -> block_ok (<[i := u8 x]> d).
Proof.
  intros [Hl Hb]. split; [by rewrite length_insert|]. apply Forall_insert; [done|]. apply u8_range.
Qed.

(** ** The search in one bitmap block *)

Lemma find_free_bit_spec n bi b size d :
  match find_free_bit n bi b size d with
  | Some r => bi <= r < bi + Z.of_nat n /\ b + r < size /\ bit_used d r = false /\
      forall x, bi <= x < r -> bit_used d x = true
  | None => forall x, bi <= x < bi + Z.of_nat n -> b + x < size -> bit_used d x = true
  end.
Proof.
  revert bi. induction n as [|n IH]; intros bi; cbn [find_free_bit]; [lia|].
  destruct (Z.ltb_spec (b + bi) size) as [Hlt|Hge]; [|lia].
  destruct (bit_used d bi) eqn:Eu.
  - specialize (IH (bi + 1)). destruct (find_free_bit n (bi + 1) b size d) as [r|].
    + destruct IH as (H1 & H2 & H3 & H4). split; [lia|]. split; [done|]. split; [done|].
      intros x Hx. destruct (decide (x = bi)) as [->|]; [done|]. apply H4. lia.
    + intros x Hx Hs. destruct (decide (x = bi)) as [->|]; [done|]. apply IH; lia.
  - split; [lia|]. split; [done|]. split; [done|]. lia.
Qed.

(** ** The free map *)

(** Block [b] is marked in use. *)
Definition used (sb : superblock) (D : Z -> block) (b : Z) : bool := bit_used (D (BBLOCK b sb)) (b mod BPB).

(** The first block after the bitmap. *)
Definition datastart (sb : superblock) : Z := sb_bmapstart sb + sb_size sb / BPB + 1.

(** The regions follow each other: inodes, bitmap, data. *)
Record layout (sb : superblock) : Prop := {
  ly_ninodes : 0 <= sb_ninodes sb;
  ly_inode : 0 < sb_inodestart sb;
  ly_bmap : sb_inodestart sb + sb_ninodes sb / IPB + 1 <= sb_bmapstart sb;
  ly_data : datastart sb <= sb_size sb;
  ly_size : sb_size sb < 2 ^ 31 - BPB
}.

Definition is_bitmap (sb : superblock) (x : Z) : Prop := sb_bmapstart sb <= x < datastart sb.

(** A sound disk: blocks of the right size, everything before the data in use. *)
Record bitmap_ok (sb : superblock) (D : Z -> block) : Prop := {
  bo_blocks k : block_ok (D k);
  bo_meta b : 0 <= b < datastart sb -> used sb D b = true
}.

(** [D'] is [D] with block [r] allocated and zeroed. *)
Record alloc_step (sb : superblock) (D : Z -> block) (r : Z) (D' : Z -> block) : Prop := {
  as_free : used sb D r = false;
  as_range : datastart sb <= r < sb_size sb;
  as_ok : bitmap_ok sb D';
  as_used b : 0 <= b < sb_size sb -> used sb D' b = (r =? b) || used sb D b;
  as_zero : D' r = zero_block;
  as_frame x : x <> r -> ~ is_bitmap sb x -> D' x = D x
}.

(** [D'] is [D] with block [r] freed. *)
Record free_step (sb : superblock) (D : Z -> block) (r : Z) (D' : Z -> block) : Prop := {
  fe_ok : bitmap_ok sb D';
  fe_used b : 0 <= b < sb_size sb -> used sb D' b = negb (r =? b) && used sb D b;
  fe_frame x : ~ is_bitmap sb x -> D' x = D x
}.

Section layout.
Variable sb : superblock.
Hypothesis Hly : layout sb.

Lemma BBLOCK_eq b : 0 <= b < sb_size sb -> BBLOCK b sb = b / BPB + sb_bmapstart sb.
Proof using Hly.
  intros Hb. destruct Hly as [H0 H1 H2 H3 H4]. unfold BBLOCK, datastart in *. apply u32_small.
  assert (0 <= sb_ninodes sb / IPB) by (apply Z.div_pos; [lia|done]).
  assert (0 <= b / BPB <= sb_size sb / BPB) by (split; [apply Z.div_pos; [lia|done]|apply Z.div_le_mono; [done|lia]]).
  change (2 ^ 31) with 2147483648 in H4. assert (0 < BPB) by done. lia.
Qed.

Lemma BBLOCK_bitmap b : 0 <= b < sb_size sb -> is_bitmap sb (BBLOCK b sb).
Proof using Hly.
  intros Hb. rewrite BBLOCK_eq by done. unfold is_bitmap, datastart.
  assert (0 <= b / BPB <= sb_size sb / BPB) by (split; [apply Z.div_pos; [lia|done]|apply Z.div_le_mono; [done|lia]]).
  lia.
Qed.

Lemma bitmap_pos x : is_bitmap sb x -> 0 < x < sb_size sb.
Proof using Hly.
  intros [H1 H2]. destruct Hly as [H0 H3 H4 H5 H6].
  assert (0 <= sb_ninodes sb / IPB) by (apply Z.div_pos; [lia|done]). lia.
Qed.

Lemma size_blockno x : 0 <= x < sb_size sb -> blockno_ok x.
Proof using Hly.
  intros Hx. destruct Hly as [_ _ _ _ H]. unfold blockno_ok. change (2 ^ 31) with 2147483648 in H.
  unfold BPB, BSIZE in H. lia.
Qed.

Lemma BPB_mod b : 0 <= b mod BPB < BPB.
Proof using Type. by apply Z.mod_pos_bound. Qed.

Lemma BBLOCK_same b r :
  0 <= b < sb_size sb -> 0 <= r < sb_size sb -> BBLOCK b sb = BBLOCK r sb -> (r mod BPB =? b mod BPB) = (r =? b).
Proof using Hly.
  intros Hb Hr E. rewrite !BBLOCK_eq in E by done.
  destruct (Z.eqb_spec r b) as [->|Hne]; [by rewrite Z.eqb_refl|].
  destruct (Z.eqb_spec (r mod BPB) (b mod BPB)) as [Em|]; [|done]. exfalso. apply Hne.
  rewrite (Z.div_mod r BPB), (Z.div_mod b BPB) by done. f_equal; [|done]. f_equal. lia.
Qed.

(** Changing the bitmap block of [r] changes [used] as the bit changes. *)
Lemma used_upd D r d b :
  0 <= b < sb_size sb -> 0 <= r < sb_size sb ->
  used sb (cv_upd D (BBLOCK r sb) d) b =
  if BBLOCK b sb =? BBLOCK r sb then bit_used d (b mod BPB) else used sb D b.
Proof using Type. intros Hb Hr. unfold used, cv_upd. by destruct (BBLOCK b sb =? BBLOCK r sb). Qed.

Lemma used_frame D D' b :
  0 <= b < sb_size sb -> (forall x, is_bitmap sb x -> D' x = D x) -> used sb D' b = used sb D b.
Proof using Hly. intros Hb H. unfold used. by rewrite H by (by apply BBLOCK_bitmap). Qed.

Lemma alloc_step_intro D r :
  bitmap_ok sb D -> 0 <= r < sb_size sb -> used sb D r = false ->
  alloc_step sb D r (cv_upd (cv_upd D (BBLOCK r sb) (bit_set (D (BBLOCK r sb)) (r mod BPB))) r zero_block).
Proof using Hly.
  intros [Hok Hm] Hr Hf.
  assert (Hge : datastart sb <= r) by (destruct (Z.le_gt_cases (datastart sb) r) as [|Hlt]; [done|rewrite Hm in Hf by lia; done]).
  assert (Hnb : ~ is_bitmap sb r) by (unfold is_bitmap; lia).
  set (D1 := cv_upd D _ _).
  assert (Hu : forall b, 0 <= b < sb_size sb -> used sb (cv_upd D1 r zero_block) b = (r =? b) || used sb D b).
  { intros b Hb. rewrite (used_frame D1) by (intros; rewrite ?cv_upd_ne by congruence; done).
    unfold D1. rewrite used_upd by done. destruct (Z.eqb_spec (BBLOCK b sb) (BBLOCK r sb)) as [E|E].
    - rewrite bit_used_set by (apply Hok || apply BPB_mod). rewrite (BBLOCK_same b r) by done.
      unfold used. by rewrite E.
    - destruct (Z.eqb_spec r b) as [->|]; [done|done]. }
  split; [done|lia| |done| |].
  - split.
    + intros k. unfold D1, cv_upd. destruct (k =? r); [apply zero_block_ok|].
      destruct (k =? _); [by apply insert_byte_ok|done].
    + intros b Hb. pose proof Hly.(ly_data _). rewrite Hu by lia. rewrite Hm by done. apply orb_true_r.
  - by rewrite cv_upd_eq.
  - intros x Hx Hb. unfold D1. rewrite !cv_upd_ne; [done| |done]. intros ->. by apply Hb, BBLOCK_bitmap.
Qed.

Lemma free_step_intro D r :
  bitmap_ok sb D -> datastart sb <= r < sb_size sb -> 0 <= datastart sb ->
  free_step sb D r (cv_upd D (BBLOCK r sb) (bit_clear (D (BBLOCK r sb)) (r mod BPB))).
Proof using Hly.
  intros [Hok Hm] Hr H0.
  assert (Hu : forall b, 0 <= b < sb_size sb ->
    used sb (cv_upd D (BBLOCK r sb) (bit_clear (D (BBLOCK r sb)) (r mod BPB))) b = negb (r =? b) && used sb D b).
  { intros b Hb. rewrite used_upd by lia. destruct (Z.eqb_spec (BBLOCK b sb) (BBLOCK r sb)) as [E|E].
    - rewrite bit_used_clear by (apply Hok || apply BPB_mod). rewrite (BBLOCK_same b r) by (done || lia).
      unfold used. by rewrite E.
    - destruct (Z.eqb_spec r b) as [->|]; [done|done]. }
  split; [|done|].
  - split.
    + intros k. unfold cv_upd. destruct (k =? _); [by apply insert_byte_ok|done].
    + intros b Hb. rewrite Hu by lia. rewrite Hm by done. destruct (Z.eqb_spec r b); [lia|done].
  - intros x Hb. rewrite cv_upd_ne; [done|]. intros ->. apply Hb, BBLOCK_bitmap. lia.
Qed.

Lemma datastart_pos : 0 < datastart sb.
Proof using Hly.
  destruct Hly as [H0 H1 H2 H3 H4]. unfold datastart.
  assert (0 <= sb_ninodes sb / IPB) by (apply Z.div_pos; [lia|done]).
  assert (-1 <= sb_size sb / BPB).
  { unfold datastart in H3. unfold BPB, BSIZE in *. Z.div_mod_to_equations; lia. }
  lia.
Qed.
End layout.

(** ** The routines *)

Section alloc.
Context {S B : Type} `{HBC : !BlockCache S B} (dev : Z) `{HCS : !CacheSpec S B dev}.
Variables (start size : Z) (dk : Z -> block) (sb : superblock).
Hypothesis Hstart : 0 <= start.
Hypothesis Hend : start + size <= 2147483648.
Hypothesis Hsize : 30 <= size.
Hypothesis Hly : layout sb.

(** The held blocks are data blocks in use. *)
Definition held_ok (D : Z -> block) (h : list Z) : Prop :=
  forall x, x ∈ h -> datastart sb <= x /\ used sb D x = true.

Lemma balloc_loop_run n s D h bs b :
  fs_rep dev start size dk s D h bs -> fs_sb s = sb -> bitmap_ok sb D -> held_ok D h ->
  (length bs + length h < 28)%nat -> 0 <= b -> b mod BPB = 0 -> sb_size sb < b + Z.of_nat n * BPB ->
  (exists r s' bs', balloc_loop n dev b s = Ok r s' /\ b <= r < sb_size sb /\
     (forall y, b <= y < r -> used sb D y = true) /\ used sb D r = false /\
     fs_rep dev start size dk s' (cv_upd (cv_upd D (BBLOCK r sb) (bit_set (D (BBLOCK r sb)) (r mod BPB))) r zero_block) h bs' /\
     logged bs bs' [BBLOCK r sb; r] /\ same s s' /\
     (forall b' blk', blk' ∈ h -> has dev s b' blk' -> has dev s' b' blk')) \/
  (balloc_loop n dev b s = Panic "balloc: out of blocks" /\ forall y, b <= y < sb_size sb -> used sb D y = true).
Proof.
  revert s b. induction n as [|n IH]; intros s b Hr Esb Hok Hh Hlen Hb0 Hbm Hn.
  { right. split; [done|]. lia. }
  cbn [balloc_loop]. erewrite bind_Ok by reflexivity. rewrite Esb.
  destruct (Z.ltb_spec b (sb_size sb)) as [Hlt|Hge]; [|right; split; [done|lia]].
  assert (Hbit : is_bitmap sb (BBLOCK b sb)) by (apply BBLOCK_bitmap; [done|lia]).
  assert (Hni : BBLOCK b sb ∉ h) by (intros [Hx _]%Hh; unfold is_bitmap in Hbit; lia).
  destruct (fbread_run dev start size dk s D h bs (BBLOCK b sb)) as (bp & s1 & E1 & Hr1 & Hb1 & Hk1 & Hs1 & Hcl);
    [done| |done|lia|].
  { apply size_blockno with sb; [done|]. apply bitmap_pos in Hbit; [lia|done]. }
  erewrite bind_Ok by exact E1. erewrite bind_Ok by (eapply bdata_run; eassumption).
  assert (Hsb : forall bi, 0 <= bi < BPB -> (b + bi) / BPB = b / BPB /\ (b + bi) mod BPB = bi).
  { intros bi Hbi. unfold BPB, BSIZE in *. Z.div_mod_to_equations; lia. }
  assert (Hu : forall bi, 0 <= bi < BPB -> used sb D (b + bi) = bit_used (D (BBLOCK b sb)) bi).
  { intros bi Hbi. destruct (Hsb bi Hbi) as [E2 E3]. unfold used, BBLOCK. by rewrite E2, E3. }
  pose proof (find_free_bit_spec (Z.to_nat BPB) 0 b (sb_size sb) (D (BBLOCK b sb))) as Hf.
  destruct (find_free_bit _ _ _ _ _) as [bi|]; rewrite Z2Nat.id, Z.add_0_l in Hf by done.
  - destruct Hf as (Hbi & Hlt' & Hfree & Hbefore). left.
    destruct (Hsb bi Hbi) as [Ediv Emod]. assert (Hfr : used sb D (b + bi) = false) by (by rewrite Hu).
    assert (Hnh : b + bi ∉ h) by (intros [_ Hx]%Hh; congruence).
    destruct (store_log_release dev start size dk Hstart Hend Hsize s1 D h bs (BBLOCK b sb) (bit_set (D (BBLOCK b sb)) bi) bp
      (bzero dev (b + bi) ;; ret (b + bi))) as (s2 & E2 & Hr2 & Hk2 & Hs2); [done|done|lia|].
    pose proof (logged_length _ _ _ (fr_nodup _ _ _ _ _ _ _ _ Hr) (logged_add (BBLOCK b sb) bs)) as Hl1. simpl in Hl1.
    destruct (bzero_run dev start size dk Hstart Hend Hsize s2 _ h _ (b + bi) Hr2) as (s3 & E3 & Hr3 & Hk3 & Hs3);
      [apply size_blockno with sb; [done|lia]|done|lia|].
    exists (b + bi), s3, (logadd (b + bi) (logadd (BBLOCK b sb) bs)).
    assert (EB : BBLOCK (b + bi) sb = BBLOCK b sb) by (unfold BBLOCK; by rewrite Ediv).
    split; [rewrite E2; by erewrite bind_Ok by exact E3|]. split; [lia|]. split; [|split; [done|split; [|split; [|split]]]].
    + intros y Hy. replace y with (b + (y - b)) by lia. rewrite Hu by lia. apply Hbefore. lia.
    + by rewrite EB, Emod.
    + rewrite EB. eapply logged_trans; [apply logged_add|apply logged_add|set_solver|set_solver].
    + eauto using same_trans.
    + intros b' blk' Hin Hhas. apply Hk3; [congruence|]. apply Hk2; [congruence|]. auto.
  - destruct (fbrelse_run dev start size dk s1 D h bs bp (BBLOCK b sb)) as (s2 & E2 & Hr2 & Hk2 & Hs2); [done..|].
    erewrite bind_Ok by exact E2.
    assert (Hall : forall y, b <= y < b + BPB -> y < sb_size sb -> used sb D y = true).
    { intros y Hy Hys. replace y with (b + (y - b)) by lia. rewrite Hu by lia. apply Hf; lia. }
    destruct (IH s2 (b + BPB)) as [(r & s' & bs' & E & Hrr & Hbef & H1 & H2 & H3 & H4 & H5)|[E Hall']]; try done.
    + destruct Hs1 as [Es1 _], Hs2 as [Es2 _]. congruence.
    + unfold BPB, BSIZE in *. lia.
    + by rewrite <- Zplus_mod_idemp_r, Z_mod_same_full, Z.add_0_r.
    + lia.
    + left. exists r, s', bs'. assert (0 < BPB) by done. split; [done|]. split; [lia|]. split; [|split; [done|split; [done|split; [done|split]]]].
      * intros y Hy. destruct (Z.lt_ge_cases y (b + BPB)); [apply Hall; lia|apply Hbef; lia].
      * eauto using same_trans.
      * intros b' blk' Hin Hhas. apply H5; [done|]. apply Hk2; [congruence|]. auto.
    + right. split; [done|]. intros y Hy. destruct (Z.lt_ge_cases y (b + BPB)); [apply Hall; lia|apply Hall'; lia].
Qed.

(** [balloc] takes the first free block of the disk and zeroes it, or panics
    when there is none. *)
Lemma balloc_run s D h bs :
  fs_rep dev start size dk s D h bs -> fs_sb s = sb -> bitmap_ok sb D -> held_ok D h ->
  (length bs + length h < 28)%nat ->
  (exists r s' D' bs', balloc dev s = Ok r s' /\ alloc_step sb D r D' /\
     (forall y, 0 <= y < r -> used sb D y = true) /\
     fs_rep dev start size dk s' D' h bs' /\ logged bs bs' [BBLOCK r sb; r] /\ same s s' /\
     (forall b' blk', blk' ∈ h -> has dev s b' blk' -> has dev s' b' blk')) \/
  (balloc dev s = Panic "balloc: out of blocks" /\ forall y, 0 <= y < sb_size sb -> used sb D y = true).
Proof.
  intros Hr Esb Hok Hh Hlen. unfold balloc. erewrite bind_Ok by reflexivity. rewrite Esb.
  pose proof (datastart_pos sb Hly). pose proof (ly_data _ Hly).
  assert (0 <= sb_size sb / BPB) by (apply Z.div_pos; [lia|done]).
  destruct (balloc_loop_run (Z.to_nat (sb_size sb / BPB + 1)) s D h bs 0) as [(r & s' & bs' & E & Hrr & Hbef & Hf & Hrest)|Hfull];
    try done.
  - rewrite Z2Nat.id by lia. unfold BPB, BSIZE. Z.div_mod_to_equations; lia.
  - left. eexists r, s', _, bs'. split; [done|]. split; [by apply alloc_step_intro|]. done.
  - by right.
Qed.

Lemma bfree_run s D h bs b :
  fs_rep dev start size dk s D h bs -> fs_sb s = sb -> bitmap_ok sb D -> held_ok D h ->
  (length bs + length h < 29)%nat -> datastart sb <= b < sb_size sb -> used sb D b = true ->
  exists s' D', bfree dev b s = Ok tt s' /\ free_step sb D b D' /\
    fs_rep dev start size dk s' D' h (logadd (BBLOCK b sb) bs) /\ same s s' /\
    (forall b' blk', blk' ∈ h -> has dev s b' blk' -> has dev s' b' blk').
Proof.
  intros Hr Esb Hok Hh Hlen Hb Hu. unfold bfree. erewrite bind_Ok by reflexivity. rewrite Esb.
  pose proof (datastart_pos sb Hly).
  assert (Hbit : is_bitmap sb (BBLOCK b sb)) by (apply BBLOCK_bitmap; [done|lia]).
  assert (Hni : BBLOCK b sb ∉ h) by (intros [Hx _]%Hh; unfold is_bitmap in Hbit; lia).
  destruct (fbread_run dev start size dk s D h bs (BBLOCK b sb)) as (bp & s1 & E1 & Hr1 & Hb1 & Hk1 & Hs1 & Hcl);
    [done| |done|lia|].
  { apply size_blockno with sb; [done|]. apply bitmap_pos in Hbit; [lia|done]. }
  erewrite bind_Ok by exact E1. erewrite bind_Ok by (eapply bdata_run; eassumption).
  unfold used in Hu. rewrite Hu. cbn [negb].
  destruct (store_log_release_end dev start size dk Hstart Hend Hsize s1 D h bs (BBLOCK b sb)
    (bit_clear (D (BBLOCK b sb)) (b mod BPB)) bp) as (s2 & E2 & Hr2 & Hk2 & Hs2); [done|done|lia|].
  eexists s2, _. split; [exact E2|]. split; [by apply free_step_intro; [..|lia]|]. split; [done|].
  split; [by eapply same_trans|]. intros b' blk' Hin Hhas. apply Hk2; [congruence|]. auto.
Qed.

(** Freeing a free block is caught. *)
Lemma bfree_free s D h bs b :
  fs_rep dev start size dk s D h bs -> fs_sb s = sb -> held_ok D h ->
  (length bs + length h < 29)%nat -> 0 <= b < sb_size sb -> used sb D b = false ->
  bfree dev b s = Panic "freeing free block".
Proof.
  intros Hr Esb Hh Hlen Hb Hu. unfold bfree. erewrite bind_Ok by reflexivity. rewrite Esb.
  assert (Hbit : is_bitmap sb (BBLOCK b sb)) by (by apply BBLOCK_bitmap).
  assert (Hni : BBLOCK b sb ∉ h) by (intros [Hx _]%Hh; unfold is_bitmap in Hbit; lia).
  destruct (fbread_run dev start size dk s D h bs (BBLOCK b sb)) as (bp & s1 & E1 & Hr1 & Hb1 & _);
    [done| |done|lia|].
  { apply size_blockno with sb; [done|]. apply bitmap_pos in Hbit; [lia|done]. }
  erewrite bind_Ok by exact E1. erewrite bind_Ok by (eapply bdata_run; eassumption).
  unfold used in Hu. by rewrite Hu.
Qed.
End alloc.
