(* ===== verification/FsMap.v ===== *)
(** * The blocks of a file: [bmap]

    An inode has 269 slots: the [NDIRECT] direct blocks, the indirect block and
    the [NINDIRECT] entries of the indirect block.  [file_wf] says that the
    slots in use name distinct allocated data blocks.  Growing a file fills
    empty slots with fresh zeroed blocks ([grow_step]) and touches no block of
    any other file. *)

From S2P Require Import Prelude Memory CString Block Cache Sleeplock Log LogProofs LogSpec Fs FsBlocks FsAlloc.

#[local] Set Warnings "-clear-no-such-hyp".

Definition NSLOT : Z := 269.

(** The slot of block [bn] of the file. *)
Definition ix (bn : Z) : Z := if bn <? NDIRECT then bn else bn + 1.

Definition entry (d : block) (j : Z) : Z := get32 d (4 * Z.to_nat j).

Definition slot (D : Z -> block) (i : inode) (k : Z) : Z :=
  if k <? 13 then addr_at (i_addrs i) k
  else if addr_at (i_addrs i) NDIRECT =? 0 then 0
  else entry (D (addr_at (i_addrs i) NDIRECT)) (k - 13).

(** ** Counting free blocks *)

Definition nfree (sb : superblock) (D : Z -> block) : nat :=
  length (filter (fun b => used sb D b = false) (seqZ 0 (sb_size sb))).

Lemma filter_iff_in {A} (P Q : A -> Prop) `{!forall x, Decision (P x)} `{!forall x, Decision (Q x)} (l : list A) :
  (forall x, x ∈ l -> P x <-> Q x) -> filter P l = filter Q l.
Proof.
  induction l as [|y l IH]; intros Hpq; [done|]. rewrite !filter_cons.
  assert (Hy : P y <-> Q y) by (apply Hpq; set_solver). rewrite IH by (intros; apply Hpq; set_solver).
  destruct (decide (P y)); [by rewrite decide_True by tauto|by rewrite decide_False by tauto].
Qed.

Lemma filter_remove_length `{EqDecision A} (P Q : A -> Prop) `{!forall x, Decision (P x)} `{!forall x, Decision (Q x)} (l : list A) r :
  NoDup l -> r ∈ l -> P r -> (forall x, x ∈ l -> Q x <-> P x /\ x <> r) ->
  length (filter P l) = Datatypes.S (length (filter Q l)).
Proof.
  induction l as [|y l IH]; intros Hnd Hin Hpr Hq; [by apply not_elem_of_nil in Hin|].
  apply NoDup_cons in Hnd as [Hni Hnd]. rewrite !filter_cons.
  destruct (decide (r = y)) as [->|Hne].
  - rewrite (decide_True (P := P y)) by done. rewrite (decide_False (P := Q y)) by (rewrite Hq by set_solver; tauto).
    simpl. f_equal. f_equal. apply filter_iff_in. intros x Hx.
    rewrite Hq by set_solver. assert (x <> y) by set_solver. tauto.
  - assert (Hin' : r ∈ l) by set_solver. specialize (IH Hnd Hin' Hpr (fun x Hx => Hq x (list_elem_of_further _ _ _ Hx))).
    assert (Hy : Q y <-> P y) by (rewrite Hq by set_solver; naive_solver).
    destruct (decide (P y)) as [HP|HP].
    + rewrite decide_True by tauto. simpl. by rewrite IH.
    + rewrite decide_False by tauto. done.
Qed.

Lemma nfree_alloc sb D r D' : alloc_step sb D r D' -> 0 <= r -> nfree sb D = Datatypes.S (nfree sb D').
Proof.
  intros [Hf Hr _ Hu _ _] H0. unfold nfree. apply filter_remove_length with r.
  - apply NoDup_seqZ.
  - apply elem_of_seqZ. lia.
  - done.
  - intros x Hx%elem_of_seqZ. rewrite Hu by lia. destruct (Z.eqb_spec r x) as [->|Hne]; simpl; [naive_solver|naive_solver].
Qed.

Lemma nfree_pos sb D : (0 < nfree sb D)%nat -> exists y, 0 <= y < sb_size sb /\ used sb D y = false.
Proof.
  unfold nfree. destruct (filter _ _) as [|y l] eqn:E; [simpl; lia|]. intros _. exists y.
  assert (Hin : y ∈ filter (fun b => used sb D b = false) (seqZ 0 (sb_size sb))) by (rewrite E; set_solver).
  apply list_elem_of_filter in Hin as [Hu Hy%elem_of_seqZ]. split; [lia|done].
Qed.

Lemma nfree_frame sb D D' :
  (forall b, 0 <= b < sb_size sb -> used sb D' b = used sb D b) -> nfree sb D' = nfree sb D.
Proof.
  intros H. unfold nfree. f_equal. apply filter_iff_in. intros x Hx%elem_of_seqZ.
  by rewrite H by lia.
Qed.

(** ** Files *)

Section file.
Variable sb : superblock.

Record file_wf (D : Z -> block) (i : inode) : Prop := {
  fw_len : length (i_addrs i) = 13%nat;
  fw_range k : 0 <= k < NSLOT -> slot D i k <> 0 ->
    datastart sb <= slot D i k < sb_size sb /\ used sb D (slot D i k) = true;
  fw_inj j k : 0 <= j < NSLOT -> 0 <= k < NSLOT -> slot D i j <> 0 -> slot D i j = slot D i k -> j = k
}.

(** Growing a file within [D] from [i] to [i']: only slots of [ks] change. *)
Record grow_step (D : Z -> block) (i : inode) (D' : Z -> block) (i' : inode) (ks : Z -> Prop) : Prop := {
  gs_inode : exists l, i' = set_iaddrs l i;
  gs_ok0 : bitmap_ok sb D;
  gs_wf : file_wf D' i';
  gs_ok : bitmap_ok sb D';
  gs_keep k : 0 <= k < NSLOT -> slot D i k <> 0 -> slot D' i' k = slot D i k;
  gs_new k : 0 <= k < NSLOT -> ~ ks k -> slot D' i' k = slot D i k;
  gs_unused k : 0 <= k < NSLOT -> slot D i k = 0 -> slot D' i' k <> 0 -> used sb D (slot D' i' k) = false;
  gs_zero k : 0 <= k < NSLOT -> k <> 12 -> slot D i k = 0 -> slot D' i' k <> 0 -> D' (slot D' i' k) = zero_block;
  gs_used x : 0 <= x < sb_size sb -> used sb D x = true -> used sb D' x = true;
  gs_fresh x : 0 <= x < sb_size sb -> used sb D' x = true -> used sb D x = false ->
    exists k, 0 <= k < NSLOT /\ slot D' i' k = x;
  gs_frame x : 0 <= x < sb_size sb -> used sb D x = true -> ~ is_bitmap sb x -> x <> slot D i 12 -> D' x = D x
}.

Hypothesis Hly : layout sb.

Lemma grow_refl D i ks : file_wf D i -> bitmap_ok sb D -> grow_step D i D i ks.
Proof.
  intros Hw Hok. split; try done; try congruence.
  exists (i_addrs i). by destruct i.
Qed.

Lemma slot12 D D' i : slot D i 12 = slot D' i 12.
Proof. done. Qed.

Lemma grow_trans D1 i1 D2 i2 D3 i3 ks1 ks2 (ks : Z -> Prop) :
  (forall k, ks1 k -> ks k) -> (forall k, ks2 k -> ks k) ->
  grow_step D1 i1 D2 i2 ks1 -> grow_step D2 i2 D3 i3 ks2 -> grow_step D1 i1 D3 i3 ks.
Proof.
  intros K1 K2 [[l1 E1] H01 Hw1 Ho1 Hk1 Hn1 Hu1 Hz1 Hus1 Hf1 Hfr1] [[l2 E2] H02 Hw2 Ho2 Hk2 Hn2 Hu2 Hz2 Hus2 Hf2 Hfr2].
  pose proof (datastart_pos sb Hly) as Hds.
  assert (Hsl : forall k, 0 <= k < NSLOT -> slot D2 i2 k <> 0 -> slot D3 i3 k = slot D2 i2 k) by auto.
  split; try done.
  - exists l2. by rewrite E2, E1.
  - intros k Hk Hs. rewrite Hk2; [auto|done|]. by rewrite Hk1.
  - intros k Hk Hs. rewrite Hn2, Hn1 by auto. done.
  - intros k Hk Hs Hs'. destruct (decide (slot D2 i2 k = 0)) as [E|E].
    + destruct (used sb D1 (slot D3 i3 k)) eqn:Eu; [|done].
      destruct (fw_range _ _ Hw2 k Hk Hs') as [Hr _]. apply Hus1 in Eu; [|lia]. by rewrite Hu2 in Eu.
    + rewrite Hsl by done. by apply Hu1.
  - intros k Hk H12 Hs Hs'. destruct (decide (slot D2 i2 k = 0)) as [E|E]; [by apply Hz2|].
    rewrite Hsl by done. destruct (fw_range _ _ Hw1 k Hk E) as [Hr Hu]. rewrite Hfr2; [by apply Hz1|lia|done| |].
    + unfold is_bitmap. lia.
    + intros E'. apply H12, (fw_inj _ _ Hw1); try done.
  - auto.
  - intros x Hx H3 H1. destruct (used sb D2 x) eqn:E2x; [|by apply Hf2].
    destruct (Hf1 x Hx E2x H1) as (k & Hk & Ek). exists k. split; [done|]. rewrite Hsl; [done|done|].
    rewrite Ek. intros ->. rewrite (bo_meta _ _ H01) in H1 by lia. done.
  - intros x Hx Hu Hb Hne. rewrite Hfr2; [by apply Hfr1|done|by apply Hus1|done|].
    destruct (decide (slot D1 i1 12 = 0)) as [E0|E0].
    + intros ->. destruct (decide (slot D2 i2 12 = 0)) as [E0'|E0']; [congruence|].
      rewrite Hu1 in Hu; [done|unfold NSLOT; lia|done|done].
    + by rewrite Hk1 by (done || unfold NSLOT; lia).
Qed.

(** Filling slot [k], a pointer of the inode, with the fresh block [r]. *)
Lemma addr_at_insert l k j x :
  length l = 13%nat -> 0 <= k < 13 -> 0 <= j ->
  addr_at (<[Z.to_nat k := x]> l) j = if j =? k then x else addr_at l j.
Proof using Type.
  intros Hl Hk Hj. unfold addr_at. destruct (Z.eqb_spec j k) as [->|Hne].
  - by rewrite list_lookup_insert_eq by lia.
  - by rewrite list_lookup_insert_ne by lia.
Qed.

Lemma entry_zero j : 0 <= j < 256 -> entry zero_block j = 0.
Proof using Type.
  intros Hj. unfold entry, get32, read_at, zero_block.
  replace (repeat 0 1024) with (replicate 1024 0) by done.
  rewrite drop_replicate, take_replicate. replace (4 `min` (1024 - 4 * Z.to_nat j))%nat with 4%nat by lia. done.
Qed.

Lemma slot_insert D D1 i k r j :
  file_wf D i -> 0 <= k < 13 -> slot D i k = 0 -> r <> 0 -> alloc_step sb D r D1 -> 0 <= j < NSLOT ->
  slot D1 (set_iaddrs (<[Z.to_nat k := r]> (i_addrs i)) i) j = if j =? k then r else slot D i j.
Proof.
  intros Hw Hk Hs Hr0 Ha Hj. unfold slot. simpl. rewrite !addr_at_insert by (apply Hw || unfold NDIRECT; lia).
  destruct (Z.ltb_spec j 13) as [Hlt|Hge]; [done|]. destruct (Z.eqb_spec j k) as [->|Hne]; [lia|].
  unfold NDIRECT. destruct (Z.eqb_spec 12 k) as [<-|H12].
  - unfold slot in Hs. change (12 <? 13) with true in Hs. cbv iota in Hs. rewrite Hs.
    destruct (Z.eqb_spec r 0); [done|]. rewrite (as_zero _ _ _ _ Ha). simpl. apply entry_zero. unfold NSLOT in Hj. lia.
  - destruct (Z.eqb_spec (addr_at (i_addrs i) 12) 0) as [E|E]; [done|].
    assert (Hs12 : slot D i 12 <> 0) by done. destruct (fw_range _ _ Hw 12) as [Hrng Hu]; [unfold NSLOT; lia|done|].
    rewrite (as_frame _ _ _ _ Ha); [done| |].
    + intros E2. rewrite <- E2 in Ha. pose proof (as_free _ _ _ _ Ha) as Hf. unfold slot in Hu. simpl in Hu. congruence.
    + unfold is_bitmap. unfold slot in Hrng. simpl in Hrng. unfold NDIRECT in Hrng. lia.
Qed.

(** What a grown file must satisfy when one slot got the fresh block [r]. *)
Lemma grow_one D i D1 D' i' k r :
  file_wf D i -> bitmap_ok sb D -> 0 <= k < NSLOT -> slot D i k = 0 -> alloc_step sb D r D1 ->
  (exists l, i' = set_iaddrs l i) -> length (i_addrs i') = 13%nat -> bitmap_ok sb D' ->
  (forall x, 0 <= x < sb_size sb -> used sb D' x = used sb D1 x) ->
  (forall j, 0 <= j < NSLOT -> slot D' i' j = if j =? k then r else slot D i j) ->
  (forall x, 0 <= x < sb_size sb -> ~ is_bitmap sb x -> x <> slot D i 12 -> D' x = D1 x) ->
  grow_step D i D' i' (fun j => j = k).
Proof.
  intros Hw Hok Hk Hs Ha Hi Hl Hok' Hu Hsl Hfr. pose proof (datastart_pos sb Hly) as Hds.
  destruct Ha as [Af Ar Ao Au Az Afr].
  assert (Hnew : forall j, 0 <= j < NSLOT -> slot D i j <> r).
  { intros j Hj E. destruct (fw_range _ _ Hw j Hj) as [_ Hx]; [lia|]. congruence. }
  split; try done.
  - split; [done| |].
    + intros j Hj. rewrite Hsl by done. destruct (Z.eqb_spec j k) as [->|Hne]; intros Hnz.
      * split; [lia|]. rewrite Hu, Au by lia. by rewrite Z.eqb_refl.
      * destruct (fw_range _ _ Hw j Hj Hnz) as [Hr Hx]. split; [done|]. rewrite Hu, Au by lia. rewrite Hx. apply orb_true_r.
    + intros j1 j2 Hj1 Hj2. rewrite !Hsl by done.
      destruct (Z.eqb_spec j1 k) as [->|H1], (Z.eqb_spec j2 k) as [->|H2]; intros Hnz E; try done.
      * symmetry in E. by apply Hnew in E.
      * by apply Hnew in E.
      * by apply (fw_inj _ _ Hw).
  - intros j Hj Hnz. rewrite Hsl by done. destruct (Z.eqb_spec j k); [congruence|done].
  - intros j Hj Hne. rewrite Hsl by done. by destruct (Z.eqb_spec j k).
  - intros j Hj H0. rewrite Hsl by done. by destruct (Z.eqb_spec j k).
  - intros j Hj H12 H0. rewrite Hsl by done. destruct (Z.eqb_spec j k) as [->|]; [|done]. intros _.
    rewrite Hfr; [done|lia|unfold is_bitmap; lia|]. intros E. by apply (Hnew 12).
  - intros x Hx Hux. rewrite Hu, Au by done. rewrite Hux. apply orb_true_r.
  - intros x Hx Hux Hnx. rewrite Hu, Au, Hnx, orb_false_r in Hux by done. apply Z.eqb_eq in Hux as <-.
    exists k. split; [done|]. rewrite Hsl by done. by rewrite Z.eqb_refl.
  - intros x Hx Hux Hb Hne. rewrite Hfr by done. apply Afr; [|done]. intros ->. congruence.
Qed.

Lemma grow_pointer D i k r D1 :
  file_wf D i -> bitmap_ok sb D -> 0 <= k < 13 -> slot D i k = 0 -> alloc_step sb D r D1 ->
  grow_step D i D1 (set_iaddrs (<[Z.to_nat k := r]> (i_addrs i)) i) (fun j => j = k).
Proof.
  intros Hw Hok Hk Hs Ha. pose proof (datastart_pos sb Hly).
  assert (Hr0 : r <> 0) by (pose proof (as_range _ _ _ _ Ha); lia).
  apply grow_one with D1 r; try done.
  - unfold NSLOT. lia.
  - by eexists.
  - simpl. rewrite length_insert. apply Hw.
  - apply Ha.
  - intros j Hj. by apply slot_insert.
Qed.

Lemma entry_put d j k r :
  block_ok d -> 0 <= j < 256 -> 0 <= k < 256 -> 0 <= r < 2 ^ 32 ->
  entry (put32 d (4 * Z.to_nat k) r) j = if j =? k then r else entry d j.
Proof using Type.
  intros [Hl _] Hj Hk Hr. unfold entry. destruct (Z.eqb_spec j k) as [->|Hne].
  - rewrite get32_put32_same by lia. by apply u32_small.
  - by rewrite get32_put32_other by lia.
Qed.

(** Filling an entry of the indirect block. *)
Lemma grow_entry D i k r D1 :
  file_wf D i -> bitmap_ok sb D -> 13 <= k < NSLOT -> slot D i 12 <> 0 -> slot D i k = 0 -> alloc_step sb D r D1 ->
  let a := slot D i 12 in
  grow_step D i (cv_upd D1 a (put32 (D1 a) (4 * Z.to_nat (k - 13)) r)) i (fun j => j = k).
Proof.
  intros Hw Hok Hk H12 Hs Ha a. pose proof (datastart_pos sb Hly) as Hds. pose proof (as_range _ _ _ _ Ha) as Hrr.
  destruct (fw_range _ _ Hw 12) as [Hra Hua]; [unfold NSLOT; lia|done|]. fold a in Hra, Hua.
  assert (Hnb : ~ is_bitmap sb a) by (unfold is_bitmap; lia).
  assert (Har : a <> r) by (intros ->; pose proof (as_free _ _ _ _ Ha); congruence).
  assert (Hu : forall x, 0 <= x < sb_size sb -> used sb (cv_upd D1 a (put32 (D1 a) (4 * Z.to_nat (k - 13)) r)) x = used sb D1 x).
  { intros x Hx. apply used_frame; [done|done|]. intros y Hy. apply cv_upd_ne. by intros ->. }
  apply grow_one with D1 r; try done.
  - lia.
  - exists (i_addrs i). by destruct i.
  - apply Hw.
  - split.
    + intros x. unfold cv_upd. destruct (x =? a); [|apply Ha]. apply put32_ok; [apply Ha|]. unfold NSLOT in Hk. lia.
    + intros x Hx. pose proof (ly_data _ Hly). rewrite Hu by lia. by apply Ha.
  - intros j Hj. assert (Ea : addr_at (i_addrs i) NDIRECT = a) by done. unfold slot. rewrite Ea.
    destruct (Z.ltb_spec j 13) as [Hlt|Hge].
    { destruct (Z.eqb_spec j k); [lia|done]. }
    destruct (Z.eqb_spec a 0); [done|]. rewrite cv_upd_eq. unfold NSLOT in *. rewrite entry_put.
    + rewrite (as_frame _ _ _ _ Ha) by done. destruct (Z.eqb_spec (j - 13) (k - 13)), (Z.eqb_spec j k); try lia; done.
    + apply Ha.
    + lia.
    + lia.
    + pose proof (size_blockno sb Hly r). unfold blockno_ok in *. lia.
  - intros x Hx Hb Hne. by apply cv_upd_ne.
Qed.
End file.

(** ** [bmap] *)

Section bmap.
Context {S B : Type} `{HBC : !BlockCache S B} (dev : Z) `{HCS : !CacheSpec S B dev}.
Variables (start size : Z) (dk : Z -> block) (sb : superblock).
Hypothesis Hstart : 0 <= start.
Hypothesis Hend : start + size <= 2147483648.
Hypothesis Hsize : 30 <= size.
Hypothesis Hly : layout sb.

(** The state of the file system as a file operation sees it: [i] is the
    table entry of the inode. *)
Record at_inode (s : fsst S) (D : Z -> block) (bs : list Z) (ip : nat) (i : inode) : Prop := {
  ai_rep : fs_rep dev start size dk s D [] bs;
  ai_sb : fs_sb s = sb;
  ai_ok : bitmap_ok sb D;
  ai_entry : itable s ip = i;
  ai_dev : i_dev i = dev;
  ai_wf : file_wf sb D i
}.

(** Nothing changed but the entry [ip] of the inode table and what is below. *)
Definition isame (ip : nat) (s s' : fsst S) : Prop :=
  fs_sb s' = fs_sb s /\ forall j, j <> ip -> itable s' j = itable s j.

Lemma same_isame ip s s' : same s s' -> isame ip s s'.
Proof using Type. intros [E1 E2]. split; [done|]. intros j _. by rewrite E2. Qed.

Lemma isame_trans ip s1 s2 s3 : isame ip s1 s2 -> isame ip s2 s3 -> isame ip s1 s3.
Proof using Type. intros [E1 H1] [E2 H2]. split; [congruence|]. intros j Hj. by rewrite H2, H1. Qed.

Lemma iset_run s ip f :
  exists s', iset (S := S) ip f s = Ok tt s' /\ itable s' ip = f (itable s ip) /\ isame ip s s' /\
    forall D h bs, fs_rep dev start size dk s D h bs -> fs_rep dev start size dk s' D h bs.
Proof using Type.
  eexists. split; [reflexivity|]. simpl. unfold iupd. rewrite Nat.eqb_refl. split; [done|]. split.
  - split; [done|]. intros j Hj. simpl. by destruct (Nat.eqb_spec j ip).
  - intros D h bs H. by apply fs_rep_itable.
Qed.

Definition fsblocks (W : list Z) : Prop := Forall (fun x => sb_inodestart sb <= x < sb_size sb) W.

Lemma balloc_some s D h bs :
  fs_rep dev start size dk s D h bs -> fs_sb s = sb -> bitmap_ok sb D -> held_ok sb D h ->
  (length bs + length h < 28)%nat -> (0 < nfree sb D)%nat ->
  exists r s' D' bs', balloc dev s = Ok r s' /\ alloc_step sb D r D' /\
     fs_rep dev start size dk s' D' h bs' /\ logged bs bs' [BBLOCK r sb; r] /\ same s s' /\
     (forall b' blk', blk' ∈ h -> has dev s b' blk' -> has dev s' b' blk') /\
     nfree sb D = Datatypes.S (nfree sb D') /\ fsblocks [BBLOCK r sb; r].
Proof.
  intros Hr Esb Hok Hh Hlen Hf.
  destruct (balloc_run dev start size dk sb Hstart Hend Hsize Hly s D h bs) as [(r & s' & D' & bs' & E & Ha & _ & H)|[_ Hall]];
    [done..| |].
  - exists r, s', D', bs'. pose proof (as_range _ _ _ _ Ha). pose proof (datastart_pos sb Hly).
    destruct H as (? & ? & ? & ?). repeat (split; [done|]). split; [apply nfree_alloc with r; [done|lia]|].
    pose proof (BBLOCK_bitmap sb Hly r ltac:(lia)) as Hb. pose proof (bitmap_pos sb Hly _ Hb).
    destruct Hly as [L1 L2 L3 L4 L5]. unfold is_bitmap, datastart in *.
    assert (0 <= sb_ninodes sb / IPB) by (apply Z.div_pos; [lia|done]).
    assert (0 <= sb_size sb / BPB) by (apply Z.div_pos; [lia|done]).
    repeat constructor; lia.
  - apply nfree_pos in Hf as (y & Hy & Hu). rewrite Hall in Hu by lia. done.
Qed.

Lemma slot_blockno D i k : file_wf sb D i -> 0 <= k < NSLOT -> slot D i k <> 0 -> blockno_ok (slot D i k).
Proof.
  intros Hw Hk Hs. destruct (fw_range _ _ _ Hw k Hk Hs) as [Hr _]. pose proof (datastart_pos sb Hly).
  apply size_blockno with sb; [done|lia].
Qed.

(** A block that is there is found; nothing changes. *)
Lemma bmap_hit s D bs ip i bn :
  at_inode s D bs ip i -> 0 <= bn < MAXFILE -> slot D i (ix bn) <> 0 -> (length bs < 29)%nat ->
  exists s', bmap ip bn s = Ok (slot D i (ix bn)) s' /\ at_inode s' D bs ip i /\ isame ip s s'.
Proof.
  intros [Hr Esb Hok Ei Ed Hw] Hbn Hs Hlen. unfold MAXFILE, NINDIRECT, NDIRECT in Hbn. change (BSIZE / 4) with 256 in Hbn.
  unfold bmap. erewrite bind_Ok by reflexivity. rewrite Ei. unfold ix in *. unfold NDIRECT in *.
  destruct (Z.ltb_spec bn 12) as [Hlt|Hge].
  - assert (Es : slot D i bn = addr_at (i_addrs i) bn) by (unfold slot; destruct (Z.ltb_spec bn 13); [done|lia]).
    rewrite Es in *. destruct (Z.eqb_spec (addr_at (i_addrs i) bn) 0); [done|].
    exists s. split; [done|]. split; [by split|]. by apply same_isame.
  - change NINDIRECT with 256. destruct (Z.ltb_spec (bn - 12) 256); [|lia].
    assert (Es : slot D i (bn + 1) = if addr_at (i_addrs i) 12 =? 0 then 0 else entry (D (addr_at (i_addrs i) 12)) (bn - 12)).
    { unfold slot, NDIRECT. destruct (Z.ltb_spec (bn + 1) 13); [lia|]. by replace (bn + 1 - 13) with (bn - 12) by lia. }
    rewrite Es in Hs. destruct (Z.eqb_spec (addr_at (i_addrs i) 12) 0) as [E0|E0]; [done|].
    erewrite bind_Ok by reflexivity. rewrite Ed.
    destruct (fbread_run dev start size dk s D [] bs (addr_at (i_addrs i) 12)) as (b & s1 & E1 & Hr1 & Hb1 & _ & Hs1 & Hcl).
    { done. }
    { apply (slot_blockno D i 12 Hw); [unfold NSLOT; lia|done]. }
    { apply not_elem_of_nil. }
    { simpl. lia. }
    erewrite bind_Ok by exact E1. erewrite bind_Ok by (eapply bdata_run; eassumption).
    fold (entry (D (addr_at (i_addrs i) 12)) (bn - 12)). destruct (Z.eqb_spec (entry (D (addr_at (i_addrs i) 12)) (bn - 12)) 0); [done|].
    erewrite bind_Ok by reflexivity.
    destruct (fbrelse_run dev start size dk s1 D [] bs b _ Hr1 Hb1 Hcl) as (s2 & E2 & Hr2 & _ & Hs2).
    erewrite bind_Ok by exact E2. pose proof (same_trans _ _ _ Hs1 Hs2) as Hs3. exists s2. rewrite Es.
    split; [done|]. split; [|by apply same_isame]. destruct Hs3 as [E3 E4]. split; try done; congruence.
Qed.

(** A pointer of the inode, filled if it is 0. *)
Lemma bmap_pointer s D bs ip i k :
  at_inode s D bs ip i -> 0 <= k < 13 -> (length bs < 28)%nat -> (0 < nfree sb D)%nat ->
  exists addr s' D' i' bs' W,
    ((if addr_at (i_addrs i) k =? 0 then
       let! addr := balloc dev in
       iset ip (fun i => set_iaddrs (<[Z.to_nat k := addr]> (i_addrs i)) i) ;;
       ret addr
     else ret (addr_at (i_addrs i) k)) : M (fsst S) Z) s = Ok addr s' /\
    at_inode s' D' bs' ip i' /\ isame ip s s' /\
    grow_step sb D i D' i' (fun j => j = k) /\ slot D' i' k = addr /\ addr <> 0 /\
    logged bs bs' W /\ fsblocks W /\ (length W <= 2)%nat /\ (nfree sb D <= nfree sb D' + 1)%nat.
Proof.
  intros Hat Hk Hlen Hfree. destruct Hat as [Hr Esb Hok Ei Ed Hw].
  assert (Es : slot D i k = addr_at (i_addrs i) k) by (unfold slot; destruct (Z.ltb_spec k 13); [done|lia]).
  rewrite <- Es. destruct (Z.eqb_spec (slot D i k) 0) as [Hs|Hs]; last first.
  { exists (slot D i k), s, D, i, bs, []. split; [done|]. split; [done|]. split; [by apply same_isame|].
    split; [by apply grow_refl|]. split; [done|]. split; [done|]. split; [apply logged_refl|].
    split; [constructor|]. simpl. split; lia. }
  destruct (balloc_some s D [] bs) as (r & s1 & D1 & bs1 & E1 & Ha & Hr1 & Hlg & Hs1 & _ & Hnf & HW);
    [done|done|done|intros x Hx; by apply not_elem_of_nil in Hx|simpl; lia|lia|].
  erewrite bind_Ok by exact E1.
  destruct (iset_run s1 ip (fun i => set_iaddrs (<[Z.to_nat k := r]> (i_addrs i)) i)) as (s2 & E2 & Ei2 & Hs2 & Hrep2).
  erewrite bind_Ok by exact E2. pose proof (as_range _ _ _ _ Ha) as Hrr. destruct Hs1 as [Es1 Et1].
  pose proof (datastart_pos sb Hly) as Hds. rewrite Et1, Ei in Ei2.
  assert (Hg : grow_step sb D i D1 (itable s2 ip) (fun j => j = k)) by (rewrite Ei2; by apply grow_pointer).
  exists r, s2, D1, (itable s2 ip), bs1, [BBLOCK r sb; r]. split; [done|].
  split; [|split; [|split; [done|split; [|split; [lia|split; [done|split; [done|split; [simpl; lia|lia]]]]]]]].
  - split; [by apply Hrep2|destruct Hs2; congruence|apply Hg|done|by rewrite Ei2|apply Hg].
  - eapply isame_trans; [|exact Hs2]. by apply same_isame.
  - rewrite Ei2. rewrite (slot_insert sb D D1) by (done || lia || unfold NSLOT; lia). by rewrite Z.eqb_refl.
Qed.

(** An entry of the indirect block, filled if it is 0. *)
Lemma bmap_entry s D bs ip i j :
  at_inode s D bs ip i -> 0 <= j < 256 -> slot D i 12 <> 0 -> (length bs < 27)%nat -> (0 < nfree sb D)%nat ->
  exists addr s' D' bs' W,
    ((let! bp := bread' dev (slot D i 12) in
     let! a := bdata bp in
     let addr := get32 a (4 * Z.to_nat j) in
     let! addr :=
       (if addr =? 0 then
          let! addr := balloc dev in
          let! a := bdata bp in
          bstore bp (put32 a (4 * Z.to_nat j) addr) ;;
          log_write' bp ;;
          ret addr
        else ret addr) in
     brelse' bp ;;
     ret addr) : M (fsst S) Z) s = Ok addr s' /\
    at_inode s' D' bs' ip i /\ isame ip s s' /\
    grow_step sb D i D' i (fun k => k = j + 13) /\ slot D' i (j + 13) = addr /\ addr <> 0 /\
    logged bs bs' W /\ fsblocks W /\ (length W <= 3)%nat /\ (nfree sb D <= nfree sb D' + 1)%nat.
Proof.
  intros Hat Hj H12 Hlen Hfree. destruct Hat as [Hr Esb Hok Ei Ed Hw]. set (a := slot D i 12) in *.
  assert (H12r : 0 <= 12 < NSLOT) by (unfold NSLOT; lia). assert (Hjr : 0 <= j + 13 < NSLOT) by (unfold NSLOT; lia).
  destruct (fw_range _ _ _ Hw 12 H12r H12) as [Hra Hua]. fold a in Hra, Hua.
  pose proof (datastart_pos sb Hly) as Hds.
  destruct (fbread_run dev start size dk s D [] bs a) as (b & s1 & E1 & Hr1 & Hb1 & _ & Hs1 & Hcl);
    [done|by apply (slot_blockno D i 12)|apply not_elem_of_nil|simpl; lia|].
  erewrite bind_Ok by exact E1. erewrite bind_Ok by (eapply bdata_run; eassumption).
  assert (Es : forall D0, slot D0 i (j + 13) = entry (D0 a) j).
  { intros D0. unfold slot. destruct (Z.ltb_spec (j + 13) 13); [lia|]. fold a. change (addr_at (i_addrs i) NDIRECT) with a.
    destruct (Z.eqb_spec a 0); [done|]. f_equal. lia. }
  fold (entry (D a) j). cbv zeta. destruct (Z.eqb_spec (entry (D a) j) 0) as [E0|E0]; last first.
  { erewrite bind_Ok by reflexivity.
    destruct (fbrelse_run dev start size dk s1 D [] bs b a Hr1 Hb1 Hcl) as (s2 & E2 & Hr2 & _ & Hs2).
    erewrite bind_Ok by exact E2. pose proof (same_trans _ _ _ Hs1 Hs2) as Hs3.
    exists (entry (D a) j), s2, D, bs, []. split; [done|]. split; [|split; [by apply same_isame|]].
    { destruct Hs3 as [E3 E4]. split; try done; congruence. }
    split; [by apply grow_refl|]. split; [apply Es|]. split; [done|]. split; [apply logged_refl|].
    split; [constructor|]. simpl. split; lia. }
  destruct (balloc_some s1 D [a] bs) as (r & s2 & D1 & bs1 & E2 & Ha & Hr2 & Hlg & Hs2 & Hk2 & Hnf & HW);
    [done|destruct Hs1; congruence|done| |simpl; lia|lia|].
  { intros x ->%list_elem_of_singleton. split; [lia|done]. }
  assert (Hb2 : has dev s2 b a) by (apply Hk2; [set_solver|done]).
  pose proof (logged_length _ _ _ (fr_nodup _ _ _ _ _ _ _ _ Hr) Hlg) as Hl1. simpl in Hl1.
  rewrite bind_assoc. erewrite bind_Ok by exact E2. rewrite bind_assoc. erewrite bind_Ok by (eapply bdata_run; eassumption).
  rewrite bind_assoc.
  destruct (bstore_run dev start size dk s2 D1 [a] bs1 b a (put32 (D1 a) (4 * Z.to_nat j) r) Hr2 Hb2) as (s3 & E3 & Hr3 & Hk3 & Hs3).
  erewrite bind_Ok by exact E3. rewrite bind_assoc.
  destruct (logw_run dev start size dk Hstart Hend Hsize s3 _ [a] bs1 b a Hr3 (Hk3 _ _ Hb2)) as (s4 & E4 & Hr4 & Hk4 & Hs4); [lia|].
  erewrite bind_Ok by exact E4. erewrite bind_Ok by reflexivity.
  destruct (fbrelse_run dev start size dk s4 _ [] _ b a Hr4) as (s5 & E5 & Hr5 & _ & Hs5); [auto|left; apply elem_of_logadd; auto|].
  erewrite bind_Ok by exact E5. pose proof (as_range _ _ _ _ Ha) as Hrr.
  pose proof (grow_entry sb Hly D i (j + 13) r D1 Hw Hok ltac:(unfold NSLOT; lia) H12 ltac:(by rewrite Es) Ha) as Hg.
  cbv zeta in Hg. fold a in Hg. replace (j + 13 - 13) with j in Hg by lia.
  assert (Hs : same s s5) by eauto 6 using same_trans.
  eexists r, s5, _, (logadd a bs1), [BBLOCK r sb; r; a]. split; [reflexivity|]. split; [|split; [by apply same_isame|split; [exact Hg|]]].
  { destruct Hs as [E6 E7]. split; [done|congruence|apply Hg|congruence|done|apply Hg]. }
  rewrite Es, cv_upd_eq. rewrite entry_put by (lia || apply Ha || apply (size_blockno sb Hly); lia). rewrite Z.eqb_refl.
  split; [done|]. split; [lia|]. split; [|split; [|split; [simpl; lia|]]].
  - eapply logged_trans; [exact Hlg|apply logged_add|set_solver|set_solver].
  - apply Forall_app with (l1 := [_; _]) (l2 := [a]). split; [done|]. constructor; [|constructor].
    destruct Hly as [L1 L2 L3 L4 L5]. unfold is_bitmap, datastart in *.
    assert (0 <= sb_ninodes sb / IPB) by (apply Z.div_pos; [lia|done]).
    assert (0 <= sb_size sb / BPB) by (apply Z.div_pos; [lia|done]). lia.
  - rewrite Hnf. rewrite (nfree_frame sb D1 (cv_upd D1 a _)); [lia|]. intros x Hx. apply used_frame; [done|done|].
    intros y Hy. apply cv_upd_ne. intros ->. unfold is_bitmap in Hy. lia.
Qed.

(** The block [bn], allocated if needed. *)
Lemma bmap_run s D bs ip i bn :
  at_inode s D bs ip i -> 0 <= bn < MAXFILE -> (length bs < 25)%nat -> (2 <= nfree sb D)%nat ->
  exists addr s' D' i' bs' W, bmap ip bn s = Ok addr s' /\ at_inode s' D' bs' ip i' /\ isame ip s s' /\
    grow_step sb D i D' i' (fun k => k = ix bn \/ k = 12) /\ slot D' i' (ix bn) = addr /\ addr <> 0 /\
    logged bs bs' W /\ fsblocks W /\ (length W <= 5)%nat /\ (nfree sb D <= nfree sb D' + 2)%nat.
Proof.
  intros Hat Hbn Hlen Hfree. unfold MAXFILE, NINDIRECT, NDIRECT in Hbn. change (BSIZE / 4) with 256 in Hbn.
  unfold bmap. erewrite bind_Ok by reflexivity. rewrite (ai_entry _ _ _ _ _ Hat), (ai_dev _ _ _ _ _ Hat).
  unfold ix, NDIRECT in *. destruct (Z.ltb_spec bn 12) as [Hlt|Hge].
  - destruct (bmap_pointer s D bs ip i bn) as (addr & s' & D' & i' & bs' & W & E & H1 & H2 & H3 & H4 & H5 & H6 & H7 & H8 & H9);
      [done|lia|lia|lia|].
    exists addr, s', D', i', bs', W. split; [exact E|]. split; [done|]. split; [done|]. split; [|split; [done|split; [done|split; [done|split; [done|lia]]]]].
    eapply (grow_trans sb Hly); [..|exact H3|apply grow_refl; apply H3]; [intros k ->; auto|intros k Hk; exact Hk].
  - change NINDIRECT with 256. destruct (Z.ltb_spec (bn - 12) 256); [|lia].
    destruct (bmap_pointer s D bs ip i 12) as (a & s1 & D1 & i1 & bs1 & W1 & E1 & H1 & H2 & H3 & H4 & H5 & H6 & H7 & H8 & H9);
      [done|lia|lia|lia|].
    erewrite bind_Ok by exact E1. rewrite <- H4.
    pose proof (logged_length _ _ _ (fr_nodup _ _ _ _ _ _ _ _ (ai_rep _ _ _ _ _ Hat)) H6) as Hl1.
    destruct (bmap_entry s1 D1 bs1 ip i1 (bn - 12)) as (addr & s' & D' & bs' & W & E & K1 & K2 & K3 & K4 & K5 & K6 & K7 & K8 & K9);
      [done|lia|by rewrite H4|lia|lia|].
    replace (bn - 12 + 13) with (bn + 1) in * by lia.
    exists addr, s', D', i1, bs', (W1 ++ W). split; [exact E|]. split; [done|]. split; [by eapply isame_trans|].
    split; [|split; [done|split; [done|split; [|split; [by apply Forall_app|split; [rewrite length_app; lia|lia]]]]]].
    + eapply (grow_trans sb Hly); [..|exact H3|exact K3]; [intros k ->; auto|intros k ->; auto].
    + eapply logged_trans; [exact H6|exact K6|set_solver|set_solver].
Qed.
End bmap.
