(* ===== verification/FsFile.v ===== *)
(** * Reading and writing files: [readi], [writei], [iupdate]

    The contents of a file are a function from offsets to bytes ([fbyte]).
    [readi] delivers a range of it, [writei] replaces a range and extends the
    file; nothing outside the blocks of the file changes, the bitmap and the
    block of the inode excepted. *)

From S2P Require Import Prelude Memory CString Block Cache Sleeplock Log LogProofs LogSpec Fs FsBlocks FsAlloc FsMap.

#[local] Set Warnings "-clear-no-such-hyp".

(** Byte [j] of the file. *)
Definition fbyte (D : Z -> block) (i : inode) (j : Z) : Z :=
  byte_at (D (slot D i (ix (j / BSIZE)))) (j mod BSIZE).

Definition file_read (D : Z -> block) (i : inode) (off n : Z) : list Z := map (fbyte D i) (seqZ off n).

(** The first [n] bytes are backed by blocks. *)
Definition backed (D : Z -> block) (i : inode) (n : Z) : Prop :=
  forall j, 0 <= j < n -> slot D i (ix (j / BSIZE)) <> 0.

Lemma maxfile_bytes : MAXFILE * BSIZE = 274432.
Proof. done. Qed.

Lemma ix_range bn : 0 <= bn < MAXFILE -> 0 <= ix bn < NSLOT /\ ix bn <> 12.
Proof.
  unfold MAXFILE, NINDIRECT, NDIRECT, ix, NSLOT. change (BSIZE / 4) with 256. unfold NDIRECT.
  destruct (Z.ltb_spec bn 12); lia.
Qed.

Lemma ix_inj a b : ix a = ix b -> a = b.
Proof. unfold ix, NDIRECT. destruct (Z.ltb_spec a 12), (Z.ltb_spec b 12); lia. Qed.

Lemma map_seqZ_lookup (f : Z -> Z) a n k : (k < Z.to_nat n)%nat -> map f (seqZ a n) !! k = Some (f (a + Z.of_nat k)).
Proof. intros Hk. rewrite list_lookup_fmap, lookup_seqZ_lt by lia. done. Qed.

Lemma length_map_seqZ (f : Z -> Z) a n : length (map f (seqZ a n)) = Z.to_nat n.
Proof. rewrite length_map. apply length_seqZ. Qed.

Lemma byte_at_lookup d k : (Z.to_nat k < length d)%nat -> d !! Z.to_nat k = Some (byte_at d k).
Proof. intros Hk. unfold byte_at. by destruct (lookup_lt_is_Some_2 d _ Hk) as (x & ->). Qed.

(** The part of a block a pass of the loops handles. *)
Lemma read_at_file D i off m :
  block_ok (D (slot D i (ix (off / BSIZE)))) -> 0 <= off -> 0 <= m -> off mod BSIZE + m <= BSIZE ->
  read_at (D (slot D i (ix (off / BSIZE)))) (Z.to_nat (off mod BSIZE)) (Z.to_nat m) = file_read D i off m.
Proof.
  intros [Hl _] Hoff Hm Hfit. unfold BSIZE in *. assert (0 <= off mod 1024 < 1024) by (apply Z.mod_pos_bound; lia).
  apply list_eq. intros k. rewrite lookup_read_at. unfold file_read. case_decide as Hk.
  - rewrite map_seqZ_lookup by lia. unfold fbyte, BSIZE.
    assert (E1 : (off + Z.of_nat k) / 1024 = off / 1024) by (Z.div_mod_to_equations; lia).
    assert (E2 : (off + Z.of_nat k) mod 1024 = off mod 1024 + Z.of_nat k) by (Z.div_mod_to_equations; lia).
    rewrite E1, E2. rewrite <- byte_at_lookup by lia. f_equal. lia.
  - symmetry. apply lookup_ge_None_2. rewrite length_map_seqZ. lia.
Qed.

Lemma file_read_app D i off n1 n2 :
  0 <= n1 -> 0 <= n2 -> file_read D i off n1 ++ file_read D i (off + n1) n2 = file_read D i off (n1 + n2).
Proof. intros H1 H2. unfold file_read. by rewrite seqZ_app, map_app by done. Qed.

(** [m = min(n - tot, BSIZE - off%BSIZE)] is positive and stays in the block. *)
Lemma chunk_spec n tot off :
  0 <= tot < n -> n < 2 ^ 32 -> 0 <= off ->
  let m := chunk n tot off in 1 <= m <= n - tot /\ off mod BSIZE + m <= BSIZE.
Proof.
  intros Ht Hn Hoff. unfold chunk. change (2 ^ 32) with 4294967296 in Hn. rewrite u32_small by lia.
  unfold BSIZE. assert (0 <= off mod 1024 < 1024) by (apply Z.mod_pos_bound; lia). cbv zeta. lia.
Qed.

(** The number of blocks that [k] bytes from [off] on touch. *)
Definition blocks_left (off k : Z) : Z := if k =? 0 then 0 else (off mod BSIZE + k + (BSIZE - 1)) / BSIZE.

Lemma blocks_left_step off k m :
  0 <= off -> 1 <= m <= k -> m = k \/ m = BSIZE - off mod BSIZE ->
  0 <= blocks_left (off + m) (k - m) /\ blocks_left (off + m) (k - m) + 1 <= blocks_left off k.
Proof.
  intros Hoff Hm Hc. unfold blocks_left, BSIZE in *.
  destruct (Z.eqb_spec k 0); [lia|]. destruct (Z.eqb_spec (k - m) 0) as [E|E]; Z.div_mod_to_equations; lia.
Qed.

Lemma chunk_cases n tot off :
  0 <= tot < n -> n < 2 ^ 32 -> chunk n tot off = n - tot \/ chunk n tot off = BSIZE - off mod BSIZE.
Proof. intros Ht Hn. unfold chunk. change (2 ^ 32) with 4294967296 in Hn. rewrite u32_small by lia. lia. Qed.

(** The copies [readi] makes, in order. *)
Fixpoint copy_chunks {X} (copyout : Z -> list Z -> X -> X * Z) (dst : Z) (cs : list (list Z)) (x : X) : X :=
  match cs with
  | [] => x
  | c :: cs' => copy_chunks copyout (dst + Z.of_nat (length c)) cs' (fst (copyout dst c x))
  end.

(** ** Blocks before the data *)

Section meta.
Variable sb : superblock.
Hypothesis Hly : layout sb.

(** Writing a block before the data keeps files and the free map. *)
Definition meta (x : Z) : Prop := sb_inodestart sb <= x < sb_bmapstart sb.

Lemma meta_below x : meta x -> x < datastart sb /\ ~ is_bitmap sb x /\ 0 <= x < sb_size sb.
Proof.
  intros Hx. unfold meta, is_bitmap in *. pose proof (datastart_pos sb Hly). destruct Hly as [L1 L2 L3 L4 L5].
  unfold datastart in *. assert (0 <= sb_size sb / BPB); [|lia].
  assert (0 <= sb_ninodes sb / IPB) by (apply Z.div_pos; [lia|done]). apply Z.div_pos; [|done].
  assert (-1 <= sb_size sb / BPB) by (unfold BPB, BSIZE in *; Z.div_mod_to_equations; lia). lia.
Qed.

Lemma slot_ext D D' i k :
  file_wf sb D i -> 0 <= k < NSLOT -> (forall x, datastart sb <= x < sb_size sb -> D' x = D x) -> slot D' i k = slot D i k.
Proof.
  intros Hw Hk Hd. unfold slot. destruct (k <? 13); [done|].
  destruct (Z.eqb_spec (addr_at (i_addrs i) NDIRECT) 0) as [E|E]; [done|].
  destruct (fw_range _ _ _ Hw 12) as [Hr _]; [unfold NSLOT; lia|done|]. change (slot D i 12) with (addr_at (i_addrs i) NDIRECT) in Hr.
  by rewrite Hd.
Qed.

Lemma file_wf_ext D D' i :
  file_wf sb D i -> (forall x, is_bitmap sb x \/ datastart sb <= x < sb_size sb -> D' x = D x) -> file_wf sb D' i.
Proof.
  intros Hw Hd. assert (Es : forall k, 0 <= k < NSLOT -> slot D' i k = slot D i k) by (intros; eapply slot_ext; eauto).
  pose proof (datastart_pos sb Hly) as Hds. split; [apply Hw| |].
  - intros k Hk. rewrite Es by done. intros Hs. destruct (fw_range _ _ _ Hw k Hk Hs) as [H1 H2]. split; [done|].
    rewrite (used_frame sb Hly D); [done|lia|auto].
  - intros j k Hj Hk. rewrite !Es by done. by apply Hw.
Qed.

Lemma bitmap_ok_meta D x d : bitmap_ok sb D -> meta x -> block_ok d -> bitmap_ok sb (cv_upd D x d).
Proof.
  intros Hok Hx Hd. destruct (meta_below x Hx) as (_ & Hb & _). split.
  - intros k. unfold cv_upd. destruct (k =? x); [done|apply Hok].
  - intros b Hbr. pose proof (ly_data _ Hly). rewrite (used_frame sb Hly D); [by apply Hok|lia|].
    intros y Hy. apply cv_upd_ne. by intros ->.
Qed.

Lemma IBLOCK_meta inum : 0 <= inum < sb_ninodes sb -> meta (IBLOCK inum sb).
Proof.
  intros Hi. destruct Hly as [L1 L2 L3 L4 L5]. unfold meta, IBLOCK.
  assert (0 <= inum / IPB <= sb_ninodes sb / IPB) by (split; [apply Z.div_pos; [lia|done]|apply Z.div_le_mono; [done|lia]]).
  assert (0 <= sb_ninodes sb / IPB) by (apply Z.div_pos; [lia|done]).
  pose proof (datastart_pos sb Hly). unfold datastart in *.
  assert (sb_size sb < 2147483648) by (change (2 ^ 31) with 2147483648 in L5; unfold BPB, BSIZE in L5; lia).
  assert (-1 <= sb_size sb / BPB) by (unfold BPB, BSIZE in *; Z.div_mod_to_equations; lia).
  rewrite u32_small by lia. lia.
Qed.

Lemma put_addrs_ok l o d : block_ok d -> (o + 4 * length l <= 1024)%nat -> block_ok (put_addrs l o d).
Proof.
  revert o d. induction l as [|a l IH]; intros o d Hd Hl; [done|]. cbn [put_addrs]. simpl in Hl.
  apply IH; [|lia]. apply put32_ok; [done|lia].
Qed.

Lemma store_dinode_ok i o d :
  block_ok d -> length (i_addrs i) = 13%nat -> (o + 64 <= 1024)%nat -> block_ok (store_dinode i o d).
Proof.
  intros Hd Hl Ho. unfold store_dinode. apply put_addrs_ok; [|lia]. apply put32_ok; [|lia].
  repeat (apply put16_ok; [|lia]). done.
Qed.

Lemma dinode_off_bound inum : (dinode_off inum + 64 <= 1024)%nat.
Proof.
  unfold dinode_off, IPB, BSIZE. change (1024 / 64) with 16.
  assert (0 <= inum mod 16 < 16) by (apply Z.mod_pos_bound; lia). lia.
Qed.

End meta.

Section file.
Context {S B : Type} `{HBC : !BlockCache S B} (dev : Z) `{HCS : !CacheSpec S B dev}.
Variables (start size : Z) (dk : Z -> block) (sb : superblock).
Hypothesis Hstart : 0 <= start.
Hypothesis Hend : start + size <= 2147483648.
Hypothesis Hsize : 30 <= size.
Hypothesis Hly : layout sb.

Abbreviation at_inode := (at_inode dev start size dk sb).

(** ** [readi] *)

Section readi.
Context {X : Type} (copyout : Z -> list Z -> X -> X * Z) (I : X -> Prop) (hi : Z).
(** The destination accepts copies up to address [hi]. *)
Hypothesis Hcopy : forall dst l x, I x -> 0 <= dst -> dst + Z.of_nat (length l) <= hi ->
  snd (copyout dst l x) <> -1 /\ I (fst (copyout dst l x)).
Hypothesis Hhi : hi < 2 ^ 64.

Lemma readi_loop_run fuel s D bs ip i x dst off n tot :
  at_inode s D bs ip i -> I x -> backed D i (i_size i) -> i_size i <= MAXFILE * BSIZE -> (length bs < 29)%nat ->
  0 <= off -> 0 <= tot <= n -> n < 2 ^ 31 -> off + (n - tot) <= i_size i -> 0 <= dst -> dst + (n - tot) <= hi ->
  (Z.to_nat (n - tot) < fuel)%nat ->
  exists s' cs, readi_loop fuel copyout ip x dst off n tot s = Ok (n, copy_chunks copyout dst cs x) s' /\
    concat cs = file_read D i off (n - tot) /\ at_inode s' D bs ip i /\ isame ip s s' /\ I (copy_chunks copyout dst cs x).
Proof.
  revert s x dst off tot. induction fuel as [|fuel IH]; intros s x dst off tot Hat Hx Hbk Hmax Hlen Hoff Htot Hn Hoffn Hdst Hdn Hfuel; [lia|].
  cbn [readi_loop]. change (2 ^ 31) with 2147483648 in Hn. change (2 ^ 64) with 18446744073709551616 in Hhi.
  destruct (Z.ltb_spec tot n) as [Hlt|Hge]; last first.
  { assert (tot = n) as -> by lia. exists s, []. split; [|split; [|split; [done|split; [by apply same_isame|done]]]].
    - unfold ret. by rewrite s32_small by lia.
    - unfold file_read. by rewrite Z.sub_diag. }
  assert (Hbn : 0 <= off / BSIZE < MAXFILE).
  { split; [apply Z.div_pos; [lia|done]|]. apply Z.div_lt_upper_bound; [done|lia]. }
  assert (Hs : slot D i (ix (off / BSIZE)) <> 0) by (apply Hbk; lia).
  erewrite bind_Ok by reflexivity.
  destruct (bmap_hit dev start size dk sb Hly s D bs ip i (off / BSIZE) Hat Hbn Hs) as (s1 & E1 & Hat1 & Hsm1); [lia|].
  erewrite bind_Ok by exact E1. rewrite (ai_entry _ _ _ _ _ _ _ _ _ _ Hat), (ai_dev _ _ _ _ _ _ _ _ _ _ Hat).
  destruct (ix_range _ Hbn) as [Hix Hix12].
  destruct (fbread_run dev start size dk s1 D [] bs (slot D i (ix (off / BSIZE)))) as (b & s2 & E2 & Hr2 & Hb2 & _ & Hs2 & Hcl);
    [apply Hat1|eapply slot_blockno; [done|apply Hat|done|done]|apply not_elem_of_nil|simpl; lia|].
  erewrite bind_Ok by exact E2. erewrite bind_Ok by (eapply bdata_run; eassumption).
  destruct (chunk_spec n tot off) as [Hm Hfit]; [lia|change (2 ^ 32) with 4294967296; lia|lia|].
  set (m := chunk n tot off) in *. rewrite read_at_file by (lia || apply Hat).
  set (c := file_read D i off m). assert (Hlc : Z.of_nat (length c) = m) by (unfold c, file_read; rewrite length_map_seqZ; lia).
  destruct (Hcopy dst c x) as [Hok HI]; [done|lia|lia|].
  destruct (copyout dst c x) as [x' r] eqn:Ec. simpl in Hok, HI.
  destruct (Z.eqb_spec r (-1)); [done|].
  destruct (fbrelse_run dev start size dk s2 D [] bs b _ Hr2 Hb2 Hcl) as (s3 & E3 & Hr3 & _ & Hs3).
  erewrite bind_Ok by exact E3. pose proof (same_trans _ _ _ Hs2 Hs3) as [Esb Eit].
  assert (Hat3 : at_inode s3 D bs ip i) by (destruct Hat1; split; try done; congruence).
  rewrite !u32_small, u64_small by (rewrite maxfile_bytes in Hmax; lia).
  destruct (IH s3 x' (dst + m) (off + m) (tot + m)) as (s' & cs & E & Hcs & Hat' & Hsm & HI'); try done; try lia.
  exists s', (c :: cs). cbn [copy_chunks]. rewrite Ec, Hlc. simpl fst. split; [done|]. split; [|split; [done|split; [|done]]].
  - simpl. rewrite Hcs. unfold c. rewrite file_read_app by lia. f_equal. lia.
  - eapply isame_trans; [exact Hsm1|]. eapply isame_trans; [|exact Hsm]. by apply same_isame.
Qed.

(** [readi] delivers the bytes of the file from [off] on, as many as there are
    up to [n]. *)
Lemma readi_run s D bs ip i x dst off n :
  at_inode s D bs ip i -> I x -> backed D i (i_size i) -> 0 <= i_size i <= MAXFILE * BSIZE -> (length bs < 29)%nat ->
  0 <= off <= i_size i -> 0 <= n -> off + n < 2 ^ 32 -> 0 <= dst -> dst + Z.min n (i_size i - off) <= hi ->
  let k := Z.min n (i_size i - off) in
  exists s' cs, readi copyout ip x dst off n s = Ok (k, copy_chunks copyout dst cs x) s' /\
    concat cs = file_read D i off k /\ at_inode s' D bs ip i /\ isame ip s s' /\ I (copy_chunks copyout dst cs x).
Proof.
  intros Hat Hx Hbk Hmax Hlen Hoff Hn Hsum Hdst Hdn k. unfold readi. erewrite bind_Ok by reflexivity.
  rewrite (ai_entry _ _ _ _ _ _ _ _ _ _ Hat). change (2 ^ 32) with 4294967296 in Hsum. rewrite u32_small by lia.
  destruct (Z.ltb_spec (i_size i) off); [lia|]. destruct (Z.ltb_spec (off + n) off); [lia|]. cbn [orb].
  assert (Ek : (if i_size i <? off + n then u32 (i_size i - off) else n) = k).
  { rewrite maxfile_bytes in Hmax. destruct (Z.ltb_spec (i_size i) (off + n)); [rewrite u32_small|]; lia. }
  rewrite Ek. destruct (readi_loop_run (Datatypes.S (Z.to_nat k)) s D bs ip i x dst off k 0) as (s' & cs & Hres); try done; try lia.
  - rewrite maxfile_bytes in Hmax. change (2 ^ 31) with 2147483648. lia.
  - exists s', cs. by rewrite Z.sub_0_r in Hres.
Qed.
End readi.

(** ** [iupdate] *)

Lemma iupdate_run s D bs ip i :
  at_inode s D bs ip i -> 0 <= i_inum i < sb_ninodes sb -> (length bs < 29)%nat ->
  let ib := IBLOCK (i_inum i) sb in
  let D' := cv_upd D ib (store_dinode i (dinode_off (i_inum i)) (D ib)) in
  exists s', iupdate ip s = Ok tt s' /\ at_inode s' D' (logadd ib bs) ip i /\ isame ip s s'.
Proof.
  intros [Hr Esb Hok Ei Ed Hw] Hin Hlen ib D'. pose proof (IBLOCK_meta sb Hly _ Hin) as Hm. fold ib in Hm.
  destruct (meta_below sb Hly _ Hm) as (Hlt & Hnb & Hsz). unfold iupdate. erewrite bind_Ok by reflexivity.
  erewrite bind_Ok by reflexivity. rewrite Ei, Ed, Esb. fold ib.
  destruct (fbread_run dev start size dk s D [] bs ib) as (b & s1 & E1 & Hr1 & Hb1 & _ & Hs1 & _);
    [done|by apply size_blockno with sb|apply not_elem_of_nil|simpl; lia|].
  erewrite bind_Ok by exact E1. erewrite bind_Ok by (eapply bdata_run; eassumption).
  destruct (store_log_release_end dev start size dk Hstart Hend Hsize s1 D [] bs ib (store_dinode i (dinode_off (i_inum i)) (D ib)) b)
    as (s2 & E2 & Hr2 & _ & Hs2); [done..|].
  pose proof (same_trans _ _ _ Hs1 Hs2) as Hs3. exists s2. split; [exact E2|]. split; [|by apply same_isame].
  destruct Hs3 as [E3 E4]. split; [done|congruence| |congruence|done|].
  - apply (bitmap_ok_meta sb Hly); [done|done|]. apply store_dinode_ok; [apply Hok|apply Hw|apply dinode_off_bound].
  - apply (file_wf_ext sb Hly D); [done|]. intros x Hx. apply cv_upd_ne. intros ->. destruct Hx as [Hx|Hx]; [done|lia].
Qed.

(** ** [writei] *)

(** [D], [i] result from [D0], [i0] by storing [g off0 .. g (off0+t-1)] at
    offsets [off0] on. *)
Record written (g : Z -> Z) (D0 : Z -> block) (i0 : inode) (off0 t : Z) (D : Z -> block) (i : inode) : Prop := {
  wr_inode : exists l, i = set_iaddrs l i0;
  wr_keep k : 0 <= k < NSLOT -> slot D0 i0 k <> 0 -> slot D i k = slot D0 i0 k;
  wr_unused k : 0 <= k < NSLOT -> slot D0 i0 k = 0 -> slot D i k <> 0 -> used sb D0 (slot D i k) = false;
  wr_backed : backed D i (Z.max (i_size i0) (off0 + t));
  wr_bytes j : 0 <= j < Z.max (i_size i0) (off0 + t) ->
    fbyte D i j = if in_range off0 t j then g j else fbyte D0 i0 j;
  wr_used x : 0 <= x < sb_size sb -> used sb D0 x = true -> used sb D x = true;
  wr_fresh x : 0 <= x < sb_size sb -> used sb D x = true -> used sb D0 x = false ->
    exists k, 0 <= k < NSLOT /\ slot D i k = x;
  wr_frame x : 0 <= x < sb_size sb -> used sb D0 x = true -> ~ is_bitmap sb x ->
    (forall k, 0 <= k < NSLOT -> slot D0 i0 k <> x) -> D x = D0 x
}.

Lemma written_refl g D i off : 0 <= off <= i_size i -> backed D i (i_size i) -> written g D i off 0 D i.
Proof.
  intros Hoff Hb. rewrite <- (Z.max_l (i_size i) (off + 0)) in Hb by lia.
  split; try done; try congruence.
  - exists (i_addrs i). by destruct i.
  - intros j _. case_range; [lia|done].
Qed.

(** Growing keeps the bytes that are there. *)
Lemma grow_fbyte D i D1 i1 ks j :
  file_wf sb D i -> grow_step sb D i D1 i1 ks -> 0 <= j < MAXFILE * BSIZE -> slot D i (ix (j / BSIZE)) <> 0 ->
  fbyte D1 i1 j = fbyte D i j.
Proof.
  intros Hw Hg Hj Hs. unfold fbyte.
  assert (Hbn : 0 <= j / BSIZE < MAXFILE).
  { split; [apply Z.div_pos; [lia|done]|]. apply Z.div_lt_upper_bound; [done|lia]. }
  destruct (ix_range _ Hbn) as [Hix H12]. rewrite (gs_keep _ _ _ _ _ _ Hg) by done.
  destruct (fw_range _ _ _ Hw _ Hix Hs) as [Hr Hu]. pose proof (datastart_pos sb Hly).
  rewrite (gs_frame _ _ _ _ _ _ Hg); [done|lia|done|unfold is_bitmap; lia|].
  intros E. apply H12, (fw_inj _ _ _ Hw); try done.
Qed.

(** Storing into a data block of the file changes no slot. *)
Lemma slot_store D i a d k :
  file_wf sb D i -> a <> slot D i 12 -> slot (cv_upd D a d) i k = slot D i k.
Proof using Type.
  intros Hw Ha. unfold slot. destruct (k <? 13); [done|]. destruct (Z.eqb_spec (addr_at (i_addrs i) NDIRECT) 0); [done|].
  rewrite cv_upd_ne; [done|]. intros E. by apply Ha.
Qed.

Lemma file_wf_store D i a d :
  file_wf sb D i -> datastart sb <= a < sb_size sb -> a <> slot D i 12 -> file_wf sb (cv_upd D a d) i.
Proof.
  intros Hw Ha H12. pose proof (datastart_pos sb Hly). split; [apply Hw| |].
  - intros k Hk. rewrite slot_store by done. intros Hs. destruct (fw_range _ _ _ Hw k Hk Hs) as [H1 H2]. split; [done|].
    rewrite (used_frame sb Hly D); [done|lia|]. intros x Hx. apply cv_upd_ne. intros ->. unfold is_bitmap in Hx. lia.
  - intros j k Hj Hk. rewrite !slot_store by done. by apply Hw.
Qed.

Lemma bitmap_ok_store D a d :
  bitmap_ok sb D -> datastart sb <= a -> block_ok d -> bitmap_ok sb (cv_upd D a d).
Proof.
  intros Hok Ha Hd. split.
  - intros k. unfold cv_upd. destruct (k =? a); [done|apply Hok].
  - intros b Hbr. pose proof (ly_data _ Hly). rewrite (used_frame sb Hly D); [by apply Hok|lia|].
    intros y Hy. apply cv_upd_ne. intros ->. unfold is_bitmap in Hy. lia.
Qed.

Lemma byte_at_splice d o new k :
  (Z.to_nat o + length new <= length d)%nat -> 0 <= o -> 0 <= k ->
  byte_at (splice d (Z.to_nat o) new) k = if in_range o (Z.of_nat (length new)) k then byte_at new (k - o) else byte_at d k.
Proof using Type.
  intros Hl Ho Hk. unfold byte_at. rewrite lookup_splice by done. case_range.
  - rewrite decide_True by lia. do 2 f_equal. lia.
  - rewrite decide_False by lia. done.
Qed.

(** One pass: the file grew to [D1], [i1], then [m] bytes were stored in the
    block of [off]. *)
Lemma written_step g D0 i0 off0 t D i D1 i1 m off bytes ks :
  let a := slot D1 i1 (ix (off / BSIZE)) in
  let D2 := cv_upd D1 a (splice (D1 a) (Z.to_nat (off mod BSIZE)) bytes) in
  written g D0 i0 off0 t D i -> bitmap_ok sb D0 -> file_wf sb D i -> grow_step sb D i D1 i1 ks -> a <> 0 ->
  off = off0 + t -> 0 <= off0 <= i_size i0 -> i_size i0 <= MAXFILE * BSIZE -> 0 <= t -> off + m <= MAXFILE * BSIZE ->
  1 <= m -> off mod BSIZE + m <= BSIZE -> bytes = map g (seqZ off m) ->
  written g D0 i0 off0 (t + m) D2 i1.
Proof.
  intros a D2 [Wi Wk Wn Wb Wy Wu Wf Wfr] Hok0 Hw Hg Ha Eoff Hoff0 Hmax Ht Hend' Hm Hfit Ebytes.
  pose proof (gs_wf _ _ _ _ _ _ Hg) as Hw1. pose proof (datastart_pos sb Hly) as Hds.
  assert (Hbn : 0 <= off / BSIZE < MAXFILE).
  { split; [apply Z.div_pos; [lia|done]|]. apply Z.div_lt_upper_bound; [done|lia]. }
  destruct (ix_range _ Hbn) as [Hix H12]. destruct (fw_range _ _ _ Hw1 _ Hix Ha) as [Har Hau]. fold a in Har, Hau.
  assert (Ha12 : a <> slot D1 i1 12) by (intros E; apply H12, (fw_inj _ _ _ Hw1); try done).
  assert (Hsl : forall k, slot D2 i1 k = slot D1 i1 k) by (intros k; by apply slot_store).
  assert (Hnb : ~ is_bitmap sb a) by (unfold is_bitmap; lia).
  assert (Hu2 : forall x, 0 <= x < sb_size sb -> used sb D2 x = used sb D1 x).
  { intros x Hx. apply used_frame; [done|done|]. intros y Hy. apply cv_upd_ne. by intros ->. }
  assert (Hlb : length bytes = Z.to_nat m) by (rewrite Ebytes; apply length_map_seqZ).
  assert (Hdiv : forall j, 0 <= j < MAXFILE * BSIZE -> 0 <= j / BSIZE < MAXFILE).
  { intros j Hj. split; [apply Z.div_pos; [lia|done]|]. apply Z.div_lt_upper_bound; [done|lia]. }
  assert (Hnz : forall j, 0 <= j < Z.max (i_size i0) (off0 + (t + m)) -> slot D1 i1 (ix (j / BSIZE)) <> 0).
  { intros j Hj. destruct (Z.lt_ge_cases j (Z.max (i_size i0) (off0 + t))) as [Hlt|Hge].
    - pose proof (Wb j ltac:(lia)) as Hs. destruct (ix_range _ (Hdiv j ltac:(lia))) as [Hj' _].
      by rewrite (gs_keep _ _ _ _ _ _ Hg).
    - replace (j / BSIZE) with (off / BSIZE); [done|]. unfold BSIZE in *. Z.div_mod_to_equations; lia. }
  assert (Hun : forall k, 0 <= k < NSLOT -> slot D0 i0 k = 0 -> slot D2 i1 k <> 0 -> used sb D0 (slot D2 i1 k) = false).
  { intros k Hk H0. rewrite Hsl. intros H1. destruct (decide (slot D i k = 0)) as [E|E].
    - destruct (fw_range _ _ _ Hw1 k Hk H1) as [Hr _]. destruct (used sb D0 (slot D1 i1 k)) eqn:Eu; [|done].
      apply Wu in Eu; [|lia]. by rewrite (gs_unused _ _ _ _ _ _ Hg) in Eu.
    - rewrite (gs_keep _ _ _ _ _ _ Hg) by done. by apply Wn. }
  split.
  - destruct Wi as [l1 ->], (gs_inode _ _ _ _ _ _ Hg) as [l2 ->]. by exists l2.
  - intros k Hk Hs. rewrite Hsl, (gs_keep _ _ _ _ _ _ Hg) by (rewrite ?Wk; done). by apply Wk.
  - exact Hun.
  - intros j Hj. rewrite Hsl. by apply Hnz.
  - intros j Hj. specialize (Hnz j Hj). assert (Hjm : 0 <= j < MAXFILE * BSIZE) by lia.
    destruct (ix_range _ (Hdiv j Hjm)) as [Hj' Hj12].
    assert (E1 : fbyte D2 i1 j = if in_range off m j then g j else fbyte D1 i1 j).
    { unfold fbyte. rewrite Hsl. destruct (decide (j / BSIZE = off / BSIZE)) as [E|E].
      - rewrite E. fold a. unfold D2. rewrite cv_upd_eq.
        assert (0 <= off mod BSIZE < BSIZE /\ 0 <= j mod BSIZE < BSIZE) as [Hom Hjm'] by (split; by apply Z.mod_pos_bound).
        assert (Hlen1 : length (D1 a) = 1024%nat) by apply (gs_ok _ _ _ _ _ _ Hg).
        rewrite byte_at_splice by (unfold BSIZE in *; lia). rewrite Hlb, Z2Nat.id by lia.
        assert (Ej : j - off = j mod BSIZE - off mod BSIZE).
        { rewrite (Z.div_mod j BSIZE) at 1 by done. rewrite (Z.div_mod off BSIZE) at 1 by done. lia. }
        repeat case_range; try lia; try done. unfold byte_at. rewrite Ebytes, map_seqZ_lookup by lia. simpl. f_equal. lia.
      - unfold D2. rewrite cv_upd_ne.
        + case_range; [|done]. exfalso. apply E. unfold BSIZE in *. Z.div_mod_to_equations; lia.
        + intros E2. apply E, ix_inj, (fw_inj _ _ _ Hw1); try done. }
    rewrite E1. destruct (Z.lt_ge_cases j (Z.max (i_size i0) (off0 + t))) as [Hlt|Hge].
    + rewrite (grow_fbyte D i D1 i1 ks) by (done || apply Wb; lia). rewrite Wy by lia.
      repeat case_range; try lia; done.
    + repeat case_range; try lia; done.
  - intros x Hx Hux. rewrite Hu2 by done. apply (gs_used _ _ _ _ _ _ Hg); [done|]. by apply Wu.
  - intros x Hx Hux Hnx. rewrite Hu2 in Hux by done. destruct (used sb D x) eqn:Ex.
    + destruct (Wf x Hx Ex Hnx) as (k & Hk & Ek). exists k. split; [done|]. rewrite Hsl, (gs_keep _ _ _ _ _ _ Hg); [done|done|].
      rewrite Ek. intros ->. rewrite (bo_meta _ _ Hok0) in Hnx by lia. done.
    + destruct (gs_fresh _ _ _ _ _ _ Hg x Hx Hux Ex) as (k & Hk & Ek). exists k. by rewrite Hsl.
  - intros x Hx Hux Hb Hno. assert (Hua : used sb D x = true) by (by apply Wu).
    assert (Hno1 : forall k, 0 <= k < NSLOT -> slot D i k <> x).
    { intros k Hk E. destruct (decide (slot D0 i0 k = 0)) as [E0|E0]; [|by apply (Hno k); rewrite <- ?Wk].
      rewrite <- E, Wn in Hux; [done|done|done|]. intros E2. apply (Hno k Hk). congruence. }
    assert (Hxa : x <> a).
    { intros E. destruct (decide (slot D0 i0 (ix (off / BSIZE)) = 0)) as [E0|E0].
      - pose proof (Hun _ Hix E0) as Hf. rewrite Hsl in Hf. fold a in Hf. rewrite E, Hf in Hux by done. done.
      - apply (Hno _ Hix). rewrite E. unfold a. rewrite (gs_keep _ _ _ _ _ _ Hg), Wk by (rewrite ?Wk; done). done. }
    unfold D2. rewrite cv_upd_ne by done.
    rewrite (gs_frame _ _ _ _ _ _ Hg); [by apply Wfr|done|done|done|].
    intros E. apply (Hno1 12); [unfold NSLOT; lia|done].
Qed.

(** The effect of a completed [writei]. *)
Record wrote_file (g : Z -> Z) (D : Z -> block) (i : inode) (off n : Z) (D' : Z -> block) (i' : inode) : Prop := {
  wf_inode : exists l, i' = set_isize (Z.max (i_size i) (off + n)) (set_iaddrs l i);
  wf_backed : backed D' i' (i_size i');
  wf_bytes j : 0 <= j < i_size i' -> fbyte D' i' j = if in_range off n j then g j else fbyte D i j;
  wf_used x : 0 <= x < sb_size sb -> used sb D x = true -> used sb D' x = true;
  wf_dinode : let ib := IBLOCK (i_inum i) sb in D' ib = store_dinode i' (dinode_off (i_inum i)) (D ib);
  wf_frame x : 0 <= x < sb_size sb -> used sb D x = true -> ~ is_bitmap sb x -> x <> IBLOCK (i_inum i) sb ->
    (forall k, 0 <= k < NSLOT -> slot D i k <> x) -> D' x = D x
}.

Lemma wrote_file_intro g D i off n D1 i1 i2 :
  written g D i off n D1 i1 -> file_wf sb D i -> bitmap_ok sb D -> file_wf sb D1 i1 -> 0 <= i_inum i < sb_ninodes sb ->
  0 <= off -> 0 <= n -> i_size i <= MAXFILE * BSIZE -> off + n <= MAXFILE * BSIZE ->
  i2 = set_isize (Z.max (i_size i) (off + n)) i1 ->
  let ib := IBLOCK (i_inum i) sb in
  wrote_file g D i off n (cv_upd D1 ib (store_dinode i2 (dinode_off (i_inum i)) (D1 ib))) i2.
Proof.
  intros [[l El] Wk Wn Wb Wy Wu Wf Wfr] Hw Hok Hw1 Hin Hoff Hn Hm1 Hm2 E2 ib.
  pose proof (IBLOCK_meta sb Hly _ Hin) as Hm. destruct (meta_below sb Hly _ Hm) as (Hlt & Hnb & Hsz). fold ib in Hlt, Hnb, Hsz, Hm.
  pose proof (datastart_pos sb Hly) as Hds.
  assert (Hno : forall k, 0 <= k < NSLOT -> slot D i k <> ib).
  { intros k Hk E. pose proof (ly_inode _ Hly). unfold meta in Hm.
    destruct (fw_range _ _ _ Hw k Hk) as [Hr _]; [rewrite E; lia|lia]. }
  assert (Eib : D1 ib = D ib) by (apply Wfr; [lia|apply Hok; lia|done|done]).
  set (D2 := cv_upd D1 ib _).
  assert (Hsl : forall k, 0 <= k < NSLOT -> slot D2 i2 k = slot D1 i1 k).
  { intros k Hk. rewrite E2. change (slot D2 (set_isize (Z.max (i_size i) (off + n)) i1) k) with (slot D2 i1 k).
    apply (slot_ext sb); [done|done|]. intros x Hx. apply cv_upd_ne. lia. }
  assert (Hix : forall j, 0 <= j < Z.max (i_size i) (off + n) -> 0 <= ix (j / BSIZE) < NSLOT).
  { intros j Hj. apply ix_range. split; [apply Z.div_pos; [lia|done]|]. apply Z.div_lt_upper_bound; [done|lia]. }
  assert (Es2 : i_size i2 = Z.max (i_size i) (off + n)) by (by rewrite E2).
  split.
  - exists l. by rewrite E2, El.
  - intros j Hj. rewrite Es2 in Hj. rewrite Hsl by auto. by apply Wb.
  - intros j Hj. rewrite Es2 in Hj. rewrite <- Wy by done. unfold fbyte. rewrite Hsl by auto. unfold D2.
    rewrite cv_upd_ne; [done|]. destruct (fw_range _ _ _ Hw1 _ (Hix j Hj)) as [Hr _]; [by apply Wb|lia].
  - intros x Hx Hux. rewrite (used_frame sb Hly D1); [by apply Wu|done|]. intros y Hy. apply cv_upd_ne. by intros ->.
  - cbv zeta. unfold D2. fold ib. by rewrite cv_upd_eq, Eib.
  - intros x Hx Hux Hb Hne Hnx. unfold D2. rewrite cv_upd_ne by done. by apply Wfr.
Qed.

Section writei.
Context (copyin : Z -> Z -> list Z * Z) (mem : Z -> Z) (hi : Z).
(** The source: its bytes are [mem], and copies below [hi] succeed. *)
Hypothesis Hcopyin : forall a m, 0 <= a -> 0 <= m -> a + m <= hi ->
  exists r, copyin a m = (map mem (seqZ a m), r) /\ r <> -1.
Hypothesis Hmem : forall a, is_byte (mem a).
Hypothesis Hhi : hi < 2 ^ 64.

Lemma writei_loop_run fuel s D0 i0 D bs ip i src0 off0 n tot :
  let g := fun j => mem (src0 + (j - off0)) in
  at_inode s D bs ip i -> bitmap_ok sb D0 -> written g D0 i0 off0 tot D i ->
  0 <= off0 <= i_size i0 -> i_size i0 <= MAXFILE * BSIZE -> off0 + n <= MAXFILE * BSIZE ->
  0 <= tot <= n -> 0 <= src0 -> src0 + n <= hi ->
  Z.of_nat (length bs) + 6 * blocks_left (off0 + tot) (n - tot) <= 28 ->
  2 * blocks_left (off0 + tot) (n - tot) <= Z.of_nat (nfree sb D) ->
  (Z.to_nat (n - tot) < fuel)%nat ->
  exists s' D' i' bs' W,
    writei_loop fuel copyin ip (src0 + tot) (off0 + tot) n tot s = Ok (off0 + n, n) s' /\
    at_inode s' D' bs' ip i' /\ isame ip s s' /\ written g D0 i0 off0 n D' i' /\
    logged bs bs' W /\ fsblocks sb W /\ Z.of_nat (length W) <= 6 * blocks_left (off0 + tot) (n - tot).
Proof.
  intros g. revert s D bs i tot. induction fuel as [|fuel IH];
    intros s D bs i tot Hat Hok0 Hwr Hoff0 Hmax Hend' Htot Hsrc Hsn Hlen Hfree Hfuel; [lia|].
  cbn [writei_loop]. change (2 ^ 64) with 18446744073709551616 in Hhi. pose proof maxfile_bytes as Emax.
  destruct (Z.ltb_spec tot n) as [Hlt|Hge]; last first.
  { assert (tot = n) as -> by lia. exists s, D, i, bs, []. split; [done|]. split; [done|]. split; [by apply same_isame|].
    split; [done|]. split; [apply logged_refl|]. split; [constructor|]. rewrite Z.sub_diag. done. }
  set (off := off0 + tot) in *.
  assert (Hbn : 0 <= off / BSIZE < MAXFILE).
  { split; [apply Z.div_pos; [lia|done]|]. apply Z.div_lt_upper_bound; [done|lia]. }
  destruct (chunk_spec n tot off) as [Hm Hfit]; [lia|change (2 ^ 32) with 4294967296; lia|lia|].
  destruct (blocks_left_step off (n - tot) (chunk n tot off)) as [Hb0 Hbl];
    [lia|lia|apply chunk_cases; [lia|change (2 ^ 32) with 4294967296; lia]|].
  set (m := chunk n tot off) in *. replace (n - tot - m) with (n - (tot + m)) in Hb0, Hbl by lia.
  erewrite bind_Ok by reflexivity.
  destruct (bmap_run dev start size dk sb Hstart Hend Hsize Hly s D bs ip i (off / BSIZE) Hat Hbn)
    as (a & s1 & D1 & i1 & bs1 & W1 & E1 & Hat1 & Hsm1 & Hg & Ea & Ha0 & Hlg1 & HW1 & HlW1 & Hnf1); [lia|lia|].
  erewrite bind_Ok by exact E1. rewrite (ai_entry _ _ _ _ _ _ _ _ _ _ Hat), (ai_dev _ _ _ _ _ _ _ _ _ _ Hat).
  destruct (ix_range _ Hbn) as [Hix Hix12]. pose proof (ai_wf _ _ _ _ _ _ _ _ _ _ Hat1) as Hw1.
  pose proof (fw_range _ _ _ Hw1 _ Hix) as Har. rewrite Ea in Har. destruct (Har Ha0) as [Har' Hau].
  assert (Ha12 : a <> slot D1 i1 12).
  { intros E. apply Hix12, (fw_inj _ _ _ Hw1); try done; by rewrite Ea. }
  pose proof (logged_length _ _ _ (fr_nodup _ _ _ _ _ _ _ _ (ai_rep _ _ _ _ _ _ _ _ _ _ Hat)) Hlg1) as Hl1.
  pose proof (datastart_pos sb Hly) as Hds.
  destruct (fbread_run dev start size dk s1 D1 [] bs1 a) as (b & s2 & E2 & Hr2 & Hb2 & _ & Hs2 & _);
    [apply Hat1|apply size_blockno with sb; [done|lia]|apply not_elem_of_nil|simpl; lia|].
  erewrite bind_Ok by exact E2. erewrite bind_Ok by (eapply bdata_run; eassumption).
  destruct (Hcopyin (src0 + tot) m) as (r & Er & Hr); [lia|lia|lia|]. rewrite Er.
  set (bytes := map mem (seqZ (src0 + tot) m)). destruct (Z.eqb_spec r (-1)); [done|].
  destruct (store_log_release dev start size dk Hstart Hend Hsize s2 D1 [] bs1 a (splice (D1 a) (Z.to_nat (off mod BSIZE)) bytes) b
    (writei_loop fuel copyin ip (u64 (src0 + tot + m)) (u32 (off + m)) n (u32 (tot + m)))) as (s3 & E3 & Hr3 & _ & Hs3);
    [done|done|lia|].
  rewrite E3. clear E3. rewrite !u32_small, u64_small by lia.
  assert (Ebytes : bytes = map g (seqZ off m)).
  { apply list_eq. intros k. destruct (decide (k < Z.to_nat m)%nat) as [Hk|Hk].
    - unfold bytes. rewrite !map_seqZ_lookup by done. unfold g. do 2 f_equal. lia.
    - rewrite !lookup_ge_None_2; [done|rewrite length_map_seqZ; lia|unfold bytes; rewrite length_map_seqZ; lia]. }
  assert (Hbok : block_ok (splice (D1 a) (Z.to_nat (off mod BSIZE)) bytes)).
  { assert (0 <= off mod BSIZE < BSIZE) by (by apply Z.mod_pos_bound).
    apply splice_ok; [apply Hat1| |unfold bytes; rewrite length_map_seqZ; unfold BSIZE in *; lia].
    apply Forall_map, Forall_forall. intros x _. apply Hmem. }
  assert (Hat3 : at_inode s3 (cv_upd D1 a (splice (D1 a) (Z.to_nat (off mod BSIZE)) bytes)) (logadd a bs1) ip i1).
  { destruct Hat1 as [_ Esb1 Hok1 Ei1 Ed1 _], Hs2 as [E4 E5], Hs3 as [E6 E7].
    split; [done|congruence|by apply bitmap_ok_store; [..|lia|]|congruence|done|by apply file_wf_store]. }
  pose proof (written_step g D0 i0 off0 tot D i D1 i1 m off bytes) as Hst. cbv zeta in Hst. rewrite Ea in Hst.
  pose proof (logged_length _ _ _ (lg_nodup _ _ _ Hlg1 (fr_nodup _ _ _ _ _ _ _ _ (ai_rep _ _ _ _ _ _ _ _ _ _ Hat))) (logged_add a bs1)) as Hl2.
  simpl in Hl2.
  destruct (IH s3 _ (logadd a bs1) i1 (tot + m) Hat3) as (s' & D' & i' & bs' & W & E & HA & HI & HWr & HL & HB & HlW);
    [done|eapply Hst; try done; try lia; apply Hat|lia|lia|lia|lia|lia|lia| | |lia|].
  { replace (off0 + (tot + m)) with (off + m) by lia. lia. }
  { replace (off0 + (tot + m)) with (off + m) by lia. rewrite (nfree_frame sb D1); [lia|].
    intros x Hx. apply used_frame; [done|done|]. intros y Hy. apply cv_upd_ne. intros ->. unfold is_bitmap in Hy. lia. }
  replace (off0 + (tot + m)) with (off + m) in E, HlW by lia. replace (src0 + (tot + m)) with (src0 + tot + m) in E by lia.
  exists s', D', i', bs', (W1 ++ [a] ++ W). split; [exact E|]. split; [done|]. split; [|split; [done|split; [|split]]].
  - eapply isame_trans; [exact Hsm1|]. eapply isame_trans; [|exact HI]. apply same_isame. by eapply same_trans.
  - eapply logged_trans; [exact Hlg1| |set_solver|].
    + eapply logged_trans with (W := [a] ++ W); [apply logged_add|exact HL|set_solver|set_solver].
    + set_solver.
  - apply Forall_app. split; [done|]. apply Forall_app. split; [|done]. constructor; [|constructor].
    destruct Hly as [L1 L2 L3 L4 L5]. unfold datastart in *.
    assert (0 <= sb_ninodes sb / IPB) by (apply Z.div_pos; [lia|done]).
    assert (0 <= sb_size sb / BPB) by (apply Z.div_pos; [lia|done]). lia.
  - rewrite !length_app. simpl. lia.
Qed.

(** [writei] stores [n] bytes at [off], extending the file if needed. *)
Lemma writei_run s D bs ip i src off n :
  let g := fun j => mem (src + (j - off)) in
  at_inode s D bs ip i -> backed D i (i_size i) -> 0 <= i_inum i < sb_ninodes sb ->
  0 <= off <= i_size i -> i_size i <= MAXFILE * BSIZE -> 0 <= n -> off + n <= MAXFILE * BSIZE ->
  0 <= src -> src + n <= hi ->
  Z.of_nat (length bs) + 6 * blocks_left off n <= 28 -> 2 * blocks_left off n <= Z.of_nat (nfree sb D) ->
  exists s' D' i' bs' W, writei copyin ip src off n s = Ok n s' /\
    at_inode s' D' bs' ip i' /\ isame ip s s' /\ wrote_file g D i off n D' i' /\
    logged bs bs' W /\ fsblocks sb W /\ Z.of_nat (length W) <= 6 * blocks_left off n + 1 /\
    IBLOCK (i_inum i) sb ∈ bs'.
Proof.
  intros g Hat Hbk Hin Hoff Hmax Hn Hend' Hsrc Hsn Hlen Hfree. pose proof maxfile_bytes as Emax.
  unfold writei. erewrite bind_Ok by reflexivity. rewrite (ai_entry _ _ _ _ _ _ _ _ _ _ Hat).
  rewrite u32_small by lia.
  destruct (Z.ltb_spec (i_size i) off); [lia|]. destruct (Z.ltb_spec (off + n) off); [lia|]. cbn [orb].
  destruct (Z.ltb_spec (MAXFILE * BSIZE) (off + n)); [lia|].
  destruct (writei_loop_run (Datatypes.S (Z.to_nat n)) s D i D bs ip i src off n 0) as
    (s1 & D1 & i1 & bs1 & W1 & E1 & Hat1 & Hsm1 & Hwr & Hlg & HW & HlW); try done; try lia.
  { apply Hat. }
  { by apply written_refl. }
  { by rewrite Z.add_0_r, Z.sub_0_r. }
  { by rewrite Z.add_0_r, Z.sub_0_r. }
  rewrite !Z.add_0_r in E1. erewrite bind_Ok by exact E1. cbv beta iota. erewrite bind_Ok by reflexivity.
  rewrite (ai_entry _ _ _ _ _ _ _ _ _ _ Hat1). rewrite Z.add_0_r, Z.sub_0_r in HlW.
  destruct (wr_inode _ _ _ _ _ _ _ Hwr) as [l El].
  assert (Esz : i_size i1 = i_size i) by (by rewrite El).
  set (i2 := set_isize (Z.max (i_size i) (off + n)) i1).
  assert (Hstep : exists s2, (if i_size i1 <? off + n then iset ip (set_isize (off + n)) else ret tt) s1 = Ok tt s2 /\
    at_inode s2 D1 bs1 ip i2 /\ isame ip s1 s2).
  { rewrite Esz. destruct (Z.ltb_spec (i_size i) (off + n)) as [Hgt|Hle].
    - destruct (iset_run dev start size dk s1 ip (set_isize (off + n))) as (s2 & E2 & Ei2 & Hs2 & Hrep2).
      exists s2. split; [done|]. split; [|done]. destruct Hat1 as [A1 A2 A3 A4 A5 A6]. unfold i2. rewrite Z.max_r by lia.
      split; [by apply Hrep2|destruct Hs2; congruence|done|congruence|done|]. destruct A6 as [B1 B2 B3]. by split.
    - exists s1. split; [done|]. split; [|by apply same_isame]. unfold i2. rewrite Z.max_l by lia. rewrite <- Esz.
      by replace (set_isize (i_size i1) i1) with i1 by (by destruct i1). }
  destruct Hstep as (s2 & E2 & Hat2 & Hs2). erewrite bind_Ok by exact E2.
  pose proof (logged_length _ _ _ (fr_nodup _ _ _ _ _ _ _ _ (ai_rep _ _ _ _ _ _ _ _ _ _ Hat)) Hlg) as Hl1.
  assert (Ein : i_inum i2 = i_inum i) by (unfold i2; by rewrite El).
  destruct (iupdate_run s2 D1 bs1 ip i2) as (s3 & E3 & Hat3 & Hs3); [done|by rewrite Ein|lia|].
  erewrite bind_Ok by exact E3. rewrite Ein in Hat3.
  eexists s3, _, i2, (logadd (IBLOCK (i_inum i) sb) bs1), (W1 ++ [IBLOCK (i_inum i) sb]).
  split; [unfold ret; by rewrite s32_small by lia|]. split; [exact Hat3|]. split; [|split; [|split; [|split; [|split]]]].
  - eapply isame_trans; [exact Hsm1|]. by eapply isame_trans.
  - eapply wrote_file_intro; try done; try lia; [apply Hat|apply Hat|apply Hat1].
  - eapply logged_trans; [exact Hlg|apply logged_add|set_solver|set_solver].
  - apply Forall_app. split; [done|]. constructor; [|constructor]. pose proof (IBLOCK_meta sb Hly _ Hin) as Hm.
    destruct (meta_below sb Hly _ Hm) as (_ & _ & Hsz). unfold meta in Hm. lia.
  - rewrite length_app. simpl. lia.
  - apply elem_of_logadd. by left.
Qed.
End writei.
End file.
