(* ===== verification/FsInode.v ===== *)
(** * Inodes: the on-disk format and the inode table

    [store_dinode] and [load_dinode] are inverse to each other and touch only
    the 64 bytes of their inode; [iget], [idup] and [iput] keep the table free
    of duplicates; [ilock] gives the locked entry the contents of the disk. *)

From S2P Require Import Prelude Memory CString Block Cache Sleeplock Log LogProofs LogSpec Fs FsBlocks FsAlloc FsMap FsFile.

#[local] Set Warnings "-clear-no-such-hyp".

(** ** The on-disk format *)

(** Fields written elsewhere do not show. *)
Definition apart (o n o' n' : nat) : Prop := (o' + n' <= o)%nat \/ (o + n <= o')%nat.

Lemma get32_put16 d o o' v : (o + 2 <= length d)%nat -> apart o 2 o' 4 -> get32 (put16 d o v) o' = get32 d o'.
Proof. intros H Ha. unfold get32, put16. rewrite read_at_splice_other; [done|rewrite length_le_bytes; lia|rewrite length_le_bytes; done]. Qed.

Lemma get16_put16 d o o' v : (o + 2 <= length d)%nat -> apart o 2 o' 2 -> get16 (put16 d o v) o' = get16 d o'.
Proof. intros H Ha. unfold get16, put16. rewrite read_at_splice_other; [done|rewrite length_le_bytes; lia|rewrite length_le_bytes; done]. Qed.

Lemma get16_put32 d o o' v : (o + 4 <= length d)%nat -> apart o 4 o' 2 -> get16 (put32 d o v) o' = get16 d o'.
Proof. intros H Ha. unfold get16, put32. rewrite read_at_splice_other; [done|rewrite length_le_bytes; lia|rewrite length_le_bytes; done]. Qed.

Lemma length_put_addrs l o d : (o + 4 * length l <= length d)%nat -> length (put_addrs l o d) = length d.
Proof.
  revert o d. induction l as [|a l IH]; intros o d H; [done|]. cbn [put_addrs]. simpl in H.
  rewrite IH; rewrite length_put32; lia.
Qed.

Lemma read_put_addrs l o d o' n :
  (o + 4 * length l <= length d)%nat -> apart o (4 * length l) o' n -> read_at (put_addrs l o d) o' n = read_at d o' n.
Proof.
  revert o d. induction l as [|a l IH]; intros o d H Ha; [done|]. cbn [put_addrs]. simpl in H. unfold apart in *. simpl in Ha.
  rewrite IH; [|rewrite length_put32; lia|lia]. unfold put32. apply read_at_splice_other; rewrite length_le_bytes; lia.
Qed.

Lemma get32_put_addrs l o d k a :
  (o + 4 * length l <= length d)%nat -> l !! k = Some a -> get32 (put_addrs l o d) (o + 4 * k) = u32 a.
Proof.
  revert o d k. induction l as [|x l IH]; intros o d k H Hk; [done|]. cbn [put_addrs]. simpl in H.
  destruct k as [|k]; simpl in Hk.
  - injection Hk as ->. rewrite Nat.mul_0_r, Nat.add_0_r. unfold get32 at 1.
    rewrite read_put_addrs; [|rewrite length_put32; lia|unfold apart; lia]. apply get32_put32_same. lia.
  - replace (o + 4 * Datatypes.S k)%nat with (o + 4 + 4 * k)%nat by lia. apply IH; [rewrite length_put32; lia|done].
Qed.

Lemma s16_u16 x : -32768 <= x < 32768 -> s16 (u16 x) = x.
Proof.
  intros H. unfold s16, swrap, u16, uwrap. change (2 ^ (16 - 1)) with 32768. change (2 ^ 16) with 65536.
  rewrite Z.mod_mod by lia. destruct (Z.ltb_spec (x mod 65536) 32768); Z.div_mod_to_equations; lia.
Qed.

Definition short (x : Z) : Prop := -32768 <= x < 32768.

(** The fields are in the range of their C types. *)
Record dinode_ok (i : inode) : Prop := {
  do_type : short (i_type i);
  do_major : short (i_major i);
  do_minor : short (i_minor i);
  do_nlink : short (i_nlink i);
  do_size : 0 <= i_size i < 4294967296;
  do_len : length (i_addrs i) = 13%nat;
  do_addrs : Forall (fun a => 0 <= a < 4294967296) (i_addrs i)
}.

(** [j] with the fields that live on the disk taken from [i]. *)
Definition disk_fields (i j : inode) : inode :=
  mkinode (i_dev j) (i_inum j) (i_ref j) (i_lock j) (i_valid j)
    (i_type i) (i_major i) (i_minor i) (i_nlink i) (i_size i) (i_addrs i).

Section codec.
Variables (i : inode) (o : nat) (d : block).
Hypothesis Hi : dinode_ok i.
Hypothesis Ho : (o + 64 <= length d)%nat.

Let d1 := put16 d o (i_type i).
Let d2 := put16 d1 (o + 2) (i_major i).
Let d3 := put16 d2 (o + 4) (i_minor i).
Let d4 := put16 d3 (o + 6) (i_nlink i).
Let d5 := put32 d4 (o + 8) (i_size i).

Lemma dinode_lengths : length d1 = length d /\ length d2 = length d /\ length d3 = length d /\ length d4 = length d /\ length d5 = length d.
Proof using Ho.
  assert (H1 : length d1 = length d) by (unfold d1; rewrite length_put16; lia).
  assert (H2 : length d2 = length d) by (unfold d2; rewrite length_put16; lia).
  assert (H3 : length d3 = length d) by (unfold d3; rewrite length_put16; lia).
  assert (H4 : length d4 = length d) by (unfold d4; rewrite length_put16; lia).
  assert (H5 : length d5 = length d) by (unfold d5; rewrite length_put32; lia).
  done.
Qed.

Lemma load_store_dinode j : load_dinode (store_dinode i o d) o j = disk_fields i j.
Proof using Hi Ho.
  destruct dinode_lengths as (L1 & L2 & L3 & L4 & L5). destruct Hi as [T1 T2 T3 T4 T5 T6 T7].
  assert (Es : store_dinode i o d = put_addrs (i_addrs i) (o + 12) d5) by done.
  assert (E16 : forall p, (p + 2 <= o + 12)%nat -> get16 (store_dinode i o d) p = get16 d5 p).
  { intros p Hp. unfold get16, store_dinode. f_equal. apply read_put_addrs; [lia|unfold apart; lia]. }
  assert (E32 : get32 (store_dinode i o d) (o + 8) = i_size i).
  { rewrite Es. unfold get32. rewrite read_put_addrs by (unfold apart; lia). transitivity (u32 (i_size i)); [|by apply u32_small].
    apply get32_put32_same. lia. }
  unfold load_dinode, disk_fields, geti16. rewrite !E16, E32 by lia. f_equal.
  - unfold d5. rewrite get16_put32 by (unfold apart; lia). unfold d4. rewrite get16_put16 by (unfold apart; lia). unfold d3. rewrite get16_put16 by (unfold apart; lia). unfold d2. rewrite get16_put16 by (unfold apart; lia). unfold d1.
    rewrite get16_put16_same by lia. by apply s16_u16.
  - unfold d5. rewrite get16_put32 by (unfold apart; lia). unfold d4. rewrite get16_put16 by (unfold apart; lia). unfold d3. rewrite get16_put16 by (unfold apart; lia). unfold d2.
    rewrite get16_put16_same by lia. by apply s16_u16.
  - unfold d5. rewrite get16_put32 by (unfold apart; lia). unfold d4. rewrite get16_put16 by (unfold apart; lia). unfold d3.
    rewrite get16_put16_same by lia. by apply s16_u16.
  - unfold d5. rewrite get16_put32 by (unfold apart; lia). unfold d4.
    rewrite get16_put16_same by lia. by apply s16_u16.
  - apply list_eq. intros k. unfold get_addrs. rewrite list_lookup_fmap.
    destruct (decide (k < 13)%nat) as [Hk|Hk].
    + rewrite lookup_seq_lt by done. transitivity (Some (get32 (store_dinode i o d) (o + 12 + 4 * k))); [done|].
      destruct (lookup_lt_is_Some_2 (i_addrs i) k) as (a & Ea); [lia|]. rewrite Ea.
      rewrite Es, (get32_put_addrs _ _ _ _ a) by (done || lia). rewrite Forall_forall in T7.
      rewrite u32_small; [done|]. apply T7. by eapply list_elem_of_lookup_2.
    + rewrite lookup_seq_ge by lia. simpl. symmetry. apply lookup_ge_None_2. lia.
Qed.

(** The other inodes of the block keep their bytes. *)
Lemma store_dinode_other o' : length (i_addrs i) = 13%nat -> apart o 64 o' 64 -> read_at (store_dinode i o d) o' 64 = read_at d o' 64.
Proof using Ho.
  intros Hl Ha. destruct dinode_lengths as (L1 & L2 & L3 & L4 & L5). unfold apart in Ha.
  change (store_dinode i o d) with (put_addrs (i_addrs i) (o + 12) d5). rewrite read_put_addrs by (unfold apart; lia).
  unfold d5, put32. rewrite read_at_splice_other by (rewrite length_le_bytes; lia).
  unfold d4, put16. rewrite read_at_splice_other by (rewrite length_le_bytes; lia).
  unfold d3, put16. rewrite read_at_splice_other by (rewrite length_le_bytes; lia).
  unfold d2, put16. rewrite read_at_splice_other by (rewrite length_le_bytes; lia).
  unfold d1, put16. by rewrite read_at_splice_other by (rewrite length_le_bytes; lia).
Qed.
End codec.

(** The type field alone. *)
Lemma store_dinode_type i o d :
  length (i_addrs i) = 13%nat -> (o + 64 <= length d)%nat -> short (i_type i) -> geti16 (store_dinode i o d) o = i_type i.
Proof.
  intros Hl Ho Ht. destruct (dinode_lengths i o d Ho) as (L1 & L2 & L3 & L4 & L5). unfold store_dinode, geti16, get16.
  rewrite read_put_addrs by (unfold apart; lia). match goal with |- s16 (le_val (read_at ?x _ _)) = _ => change (s16 (get16 x o) = i_type i) end.
  rewrite get16_put32, 3!get16_put16 by (unfold apart; lia). rewrite get16_put16_same by lia. by apply s16_u16.
Qed.

(** ** The inode table *)

(** An entry in use for inode [inum]. *)
Definition live (t : nat -> inode) (dev inum : Z) (k : nat) : Prop :=
  (k < NINODE)%nat /\ 0 < i_ref (t k) /\ i_dev (t k) = dev /\ i_inum (t k) = inum.

Record itable_ok (t : nat -> inode) : Prop := {
  io_ref k : (k < NINODE)%nat -> 0 <= i_ref (t k) < 2147483647;
  io_unique dev inum j k : live t dev inum j -> live t dev inum k -> j = k
}.

(** How many references the kernel holds to an inode. *)
Definition refs_of (t : nat -> inode) (dev inum : Z) : Z :=
  match fst (iget_scan NINODE t dev inum 0 None) with Some k => i_ref (t k) | None => 0 end.

Lemma iget_scan_spec n t dev inum k e :
  match iget_scan n t dev inum k e with
  | (Some ip, _) => (k <= ip < k + n)%nat /\ 0 < i_ref (t ip) /\ i_dev (t ip) = dev /\ i_inum (t ip) = inum
  | (None, e') =>
      (forall j, (k <= j < k + n)%nat -> 0 < i_ref (t j) -> i_dev (t j) = dev -> i_inum (t j) = inum -> False) /\
      (match e with
       | Some x => e' = Some x
       | None => match e' with
                 | Some x => (k <= x < k + n)%nat /\ i_ref (t x) = 0
                 | None => forall j, (k <= j < k + n)%nat -> i_ref (t j) <> 0
                 end
       end)
  end.
Proof.
  revert k e. induction n as [|n IH]; intros k e; cbn [iget_scan].
  { split; [lia|]. destruct e; [done|lia]. }
  destruct ((0 <? i_ref (t k)) && (i_dev (t k) =? dev) && (i_inum (t k) =? inum)) eqn:E.
  - breflect. lia.
  - match goal with |- context [iget_scan n t dev inum (S k) ?x] => set (e' := x) end.
    specialize (IH (S k) e'). destruct (iget_scan n t dev inum (S k) e') as [[ip|] e2].
    + destruct IH as (H1 & H2). split; [lia|done].
    + destruct IH as [Hno He]. split.
      * intros j Hj H1 H2 H3. destruct (decide (j = k)) as [->|Hne]; [|apply (Hno j); lia || done].
        apply andb_false_iff in E as [E|E]; [apply andb_false_iff in E as [E|E]|]; breflect; lia.
      * unfold e' in He. destruct e as [x|]; [done|]. destruct (Z.eqb_spec (i_ref (t k)) 0) as [E0|E0].
        -- rewrite He. split; [lia|done].
        -- destruct e2 as [x|]; [destruct He; split; [lia|done]|]. intros j Hj.
           destruct (decide (j = k)) as [->|Hne]; [done|]. apply He. lia.
Qed.

Lemma refs_of_live t dev inum k : itable_ok t -> live t dev inum k -> refs_of t dev inum = i_ref (t k).
Proof.
  intros Hok Hl. unfold refs_of. pose proof (iget_scan_spec NINODE t dev inum 0 None) as H.
  destruct (iget_scan NINODE t dev inum 0 None) as [[ip|] e]; simpl.
  - destruct H as (H1 & H2). do 2 f_equal. apply (io_unique _ Hok dev inum); [|done]. split; [lia|done].
  - destruct H as [Hno _], Hl as (H1 & H2 & H3 & H4). exfalso. apply (Hno k); try done. lia.
Qed.

Lemma refs_of_dead t dev inum : (forall k, ~ live t dev inum k) -> refs_of t dev inum = 0.
Proof.
  intros Hn. unfold refs_of. pose proof (iget_scan_spec NINODE t dev inum 0 None) as H.
  destruct (iget_scan NINODE t dev inum 0 None) as [[ip|] e]; simpl; [|done].
  destruct H as (H1 & H2). exfalso. apply (Hn ip). split; [lia|done].
Qed.

Lemma refs_of_cases t dev inum : (exists k, live t dev inum k) \/ (forall k, ~ live t dev inum k).
Proof.
  pose proof (iget_scan_spec NINODE t dev inum 0 None) as H.
  destruct (iget_scan NINODE t dev inum 0 None) as [[ip|] e].
  - left. exists ip. destruct H as (H1 & H2). split; [lia|done].
  - right. destruct H as [Hno _]. intros k (H1 & H2 & H3 & H4). apply (Hno k); try done. lia.
Qed.

(** Changing the entry [ip], which is free or already stands for this inode,
    into one with [r] references. *)
Lemma itable_update t ip i dev inum r :
  itable_ok t -> (ip < NINODE)%nat -> 0 <= r < 2147483647 -> i_ref i = r -> i_dev i = dev -> i_inum i = inum ->
  live t dev inum ip \/ i_ref (t ip) = 0 /\ (forall k, ~ live t dev inum k) ->
  itable_ok (iupd t ip i) /\ refs_of (iupd t ip i) dev inum = r /\
  forall dev' inum', (dev', inum') <> (dev, inum) -> refs_of (iupd t ip i) dev' inum' = refs_of t dev' inum'.
Proof.
  intros Hok Hip Hr Er Ed En Hc. set (t' := iupd t ip i).
  assert (Et : forall k, t' k = if decide (k = ip) then i else t k).
  { intros k. unfold t', iupd. destruct (Nat.eqb_spec k ip); by destruct (decide (k = ip)). }
  assert (Hsame : forall k, live t' dev inum k -> k = ip).
  { intros k Hl. destruct (decide (k = ip)) as [|Hne]; [done|]. exfalso.
    unfold live in Hl. rewrite Et, decide_False in Hl by done.
    destruct Hc as [Hl'|[_ Hn]]; [apply Hne, (io_unique _ Hok dev inum); done|by apply (Hn k)]. }
  assert (Hother : forall d n k, (d, n) <> (dev, inum) -> live t' d n k <-> live t d n k).
  { intros d n k Hdn. unfold live. rewrite Et. destruct (decide (k = ip)) as [->|]; [|done]. split.
    - intros (_ & _ & E1 & E2). congruence.
    - intros (_ & H1 & E1 & E2). destruct Hc as [(_ & _ & E3 & E4)|[H0 _]]; [congruence|lia]. }
  assert (Hok' : itable_ok t').
  { split.
    - intros k Hk. rewrite Et. destruct (decide (k = ip)); [lia|by apply Hok].
    - intros d n j k Hj Hk. destruct (decide ((d, n) = (dev, inum))) as [[= -> ->]|Hne].
      + by rewrite (Hsame j Hj), (Hsame k Hk).
      + apply (io_unique _ Hok d n); by apply Hother. }
  split; [done|]. split.
  - destruct (decide (r = 0)) as [->|Hr0].
    + apply refs_of_dead. intros k Hl. pose proof (Hsame k Hl) as ->. destruct Hl as (_ & H1 & _).
      rewrite Et, decide_True in H1 by done. lia.
    + rewrite (refs_of_live t' dev inum ip); [by rewrite Et, decide_True|done|].
      unfold live. rewrite Et, decide_True by done. split; [done|]. split; [lia|done].
  - intros d n Hdn. destruct (refs_of_cases t d n) as [[k Hl]|Hn].
    + rewrite (refs_of_live t d n k), (refs_of_live t' d n k) by (done || by apply Hother).
      assert (k <> ip); [|by rewrite Et, decide_False]. intros ->. destruct Hl as (_ & H1 & E1 & E2).
      destruct Hc as [(_ & _ & E3 & E4)|[H0 _]]; [congruence|lia].
    + rewrite !refs_of_dead; [done|done|]. intros k Hl. by apply (Hn k), Hother.
Qed.

(** Only the identity and the count of the entries matter. *)
Lemma itable_agree t t' :
  (forall k, i_ref (t' k) = i_ref (t k) /\ i_dev (t' k) = i_dev (t k) /\ i_inum (t' k) = i_inum (t k)) ->
  itable_ok t -> itable_ok t' /\ forall dev inum, refs_of t' dev inum = refs_of t dev inum.
Proof.
  intros Ht Hok.
  assert (Hl : forall d n k, live t' d n k <-> live t d n k).
  { intros d n k. unfold live. destruct (Ht k) as (-> & -> & ->). done. }
  assert (Hok' : itable_ok t').
  { split; [intros k Hk; destruct (Ht k) as (-> & _); by apply Hok|].
    intros d n j k Hj%Hl Hk%Hl. by apply (io_unique _ Hok d n). }
  split; [done|]. intros d n. destruct (refs_of_cases t d n) as [[k Hk]|Hn].
  - rewrite (refs_of_live t d n k), (refs_of_live t' d n k) by (done || by apply Hl). apply Ht.
  - rewrite !refs_of_dead; [done|done|]. intros k Hk%Hl. by apply (Hn k).
Qed.

Section table.
Context {S B : Type} `{HBC : !BlockCache S B}.

(** [iget] finds the entry of the inode or makes one, and counts the reference;
    it panics exactly when the inode is not in the table and no entry is free. *)
Lemma iget_run (s : fsst S) dev inum :
  itable_ok (itable s) -> refs_of (itable s) dev inum < 2147483646 ->
  (exists ip s', iget dev inum s = Ok ip s' /\ live (itable s') dev inum ip /\ itable_ok (itable s') /\
     refs_of (itable s') dev inum = refs_of (itable s) dev inum + 1 /\
     (forall dev' inum', (dev', inum') <> (dev, inum) -> refs_of (itable s') dev' inum' = refs_of (itable s) dev' inum') /\
     (forall k, k <> ip -> itable s' k = itable s k) /\ fs_sb s' = fs_sb s /\ fs_log s' = fs_log s /\
     (if decide (refs_of (itable s) dev inum = 0) then i_valid (itable s' ip) = false
      else itable s' ip = set_iref (i_ref (itable s ip) + 1) (itable s ip))) \/
  (iget dev inum s = Panic "iget: no inodes" /\ refs_of (itable s) dev inum = 0 /\
     forall k, (k < NINODE)%nat -> 0 < i_ref (itable s k)).
Proof.
  intros Hok Hmax. unfold iget. erewrite bind_Ok by reflexivity.
  pose proof (iget_scan_spec NINODE (itable s) dev inum 0 None) as H.
  destruct (iget_scan NINODE (itable s) dev inum 0 None) as [[ip|] e] eqn:E.
  - left. destruct H as (H1 & H2). assert (Hl : live (itable s) dev inum ip) by (split; [lia|done]).
    rewrite (refs_of_live _ _ _ ip) in * by done. destruct Hl as (L1 & L2 & L3 & L4).
    set (i := set_iref (s32 (i_ref (itable s ip) + 1)) (itable s ip)).
    destruct (itable_update (itable s) ip i dev inum (i_ref (itable s ip) + 1)) as (U1 & U2 & U3); try done; try lia.
    { unfold i. simpl. rewrite s32_small; lia. }
    { left. done. }
    exists ip, (set_itable (iupd (itable s) ip i) s). split; [reflexivity|]. simpl.
    assert (Ei : iupd (itable s) ip i ip = i) by (unfold iupd; by rewrite Nat.eqb_refl).
    split; [|split; [done|split; [done|split; [done|split; [|split; [done|split; [done|]]]]]]].
    + unfold live. rewrite Ei. unfold i. simpl. rewrite s32_small by lia. split; [done|]. split; [lia|done].
    + intros k Hk. unfold iupd. by destruct (Nat.eqb_spec k ip).
    + destruct (decide (i_ref (itable s ip) = 0)); [lia|]. rewrite Ei. unfold i. by rewrite s32_small by lia.
  - destruct H as [Hno He]. assert (Hdead : forall k, ~ live (itable s) dev inum k).
    { intros k (L1 & L2 & L3 & L4). apply (Hno k); try done. lia. }
    rewrite refs_of_dead in * by done. destruct e as [ip|]; [left|right].
    + destruct He as [H1 H2]. set (t := itable s ip).
      set (i := mkinode dev inum 1 (i_lock t) false (i_type t) (i_major t) (i_minor t) (i_nlink t) (i_size t) (i_addrs t)).
      destruct (itable_update (itable s) ip i dev inum 1) as (U1 & U2 & U3); try done; try lia.
      { right. done. }
      exists ip, (set_itable (iupd (itable s) ip i) s). split; [reflexivity|]. simpl.
      assert (Ei : iupd (itable s) ip i ip = i) by (unfold iupd; by rewrite Nat.eqb_refl).
      split; [|split; [done|split; [lia|split; [done|split; [|split; [done|split; [done|]]]]]]].
      * unfold live. rewrite Ei. split; [lia|]. split; [simpl; lia|done].
      * intros k Hk. unfold iupd. by destruct (Nat.eqb_spec k ip).
      * by rewrite Ei.
    + split; [done|]. split; [done|]. intros k Hk. specialize (He k ltac:(lia)). pose proof (io_ref _ Hok k Hk). lia.
Qed.

Lemma idup_run (s : fsst S) dev inum ip :
  itable_ok (itable s) -> live (itable s) dev inum ip -> refs_of (itable s) dev inum < 2147483646 ->
  exists s', idup ip s = Ok ip s' /\ live (itable s') dev inum ip /\ itable_ok (itable s') /\
    refs_of (itable s') dev inum = refs_of (itable s) dev inum + 1 /\
    (forall dev' inum', (dev', inum') <> (dev, inum) -> refs_of (itable s') dev' inum' = refs_of (itable s) dev' inum') /\
    (forall k, k <> ip -> itable s' k = itable s k) /\ fs_log s' = fs_log s.
Proof.
  intros Hok Hl Hmax. rewrite (refs_of_live _ _ _ ip) in * by done. destruct Hl as (L1 & L2 & L3 & L4).
  set (i := set_iref (s32 (i_ref (itable s ip) + 1)) (itable s ip)).
  destruct (itable_update (itable s) ip i dev inum (i_ref (itable s ip) + 1)) as (U1 & U2 & U3); try done; try lia.
  { unfold i. simpl. rewrite s32_small; lia. }
  { left. done. }
  exists (set_itable (iupd (itable s) ip i) s). split; [reflexivity|]. simpl.
  assert (Ei : iupd (itable s) ip i ip = i) by (unfold iupd; by rewrite Nat.eqb_refl).
  split; [|split; [done|split; [done|split; [done|split; [|done]]]]].
  - unfold live. rewrite Ei. unfold i. simpl. rewrite s32_small by lia. split; [done|]. split; [lia|done].
  - intros k Hk. unfold iupd. by destruct (Nat.eqb_spec k ip).
Qed.

(** [iput] of an inode that stays allocated only drops the reference. *)
Lemma iput_keep mypid (s : fsst S) dev inum ip :
  itable_ok (itable s) -> live (itable s) dev inum ip ->
  (i_ref (itable s ip) =? 1) && i_valid (itable s ip) && (i_nlink (itable s ip) =? 0) = false ->
  exists s', iput mypid ip s = Ok tt s' /\ itable_ok (itable s') /\
    refs_of (itable s') dev inum = refs_of (itable s) dev inum - 1 /\
    (forall dev' inum', (dev', inum') <> (dev, inum) -> refs_of (itable s') dev' inum' = refs_of (itable s) dev' inum') /\
    (forall k, k <> ip -> itable s' k = itable s k) /\ fs_sb s' = fs_sb s /\ fs_log s' = fs_log s.
Proof.
  intros Hok Hl Hf. rewrite (refs_of_live _ _ _ ip) by done. pose proof Hl as (L1 & L2 & L3 & L4).
  pose proof (io_ref _ Hok ip L1) as Hr. unfold iput. erewrite bind_Ok by reflexivity. rewrite Hf. erewrite bind_Ok by reflexivity.
  set (i := set_iref (s32 (i_ref (itable s ip) - 1)) (itable s ip)).
  destruct (itable_update (itable s) ip i dev inum (i_ref (itable s ip) - 1)) as (U1 & U2 & U3); try done; try lia.
  { unfold i. simpl. rewrite s32_small; lia. }
  { left. done. }
  exists (set_itable (iupd (itable s) ip i) s). split; [reflexivity|]. split; [done|]. split; [done|]. split; [done|].
  split; [|done]. intros k Hk. simpl. unfold iupd. by destruct (Nat.eqb_spec k ip).
Qed.
End table.
