(* ===== verification/FsTrunc.v ===== *)
(** * Freeing files: [itrunc] and the last [iput]

    Truncating a file frees exactly the blocks its slots name and clears the
    slots; the last [iput] of an unlinked inode does that and marks the inode
    free on the disk. *)

From S2P Require Import Prelude Memory CString Block Cache Sleeplock Log LogProofs LogSpec Fs FsBlocks FsAlloc FsMap FsFile FsInode.

#[local] Set Warnings "-clear-no-such-hyp".

(** [D'] is [D] with the blocks of [l] freed. *)
Record freed (sb : superblock) (D : Z -> block) (l : list Z) (D' : Z -> block) : Prop := {
  fd_ok : bitmap_ok sb D';
  fd_used b : 0 <= b < sb_size sb -> used sb D' b = used sb D b && negb (bool_decide (b ∈ l));
  fd_frame x : ~ is_bitmap sb x -> D' x = D x
}.

Lemma freed_nil sb D : bitmap_ok sb D -> freed sb D [] D.
Proof. intros H. split; [done| |done]. intros b _. rewrite bool_decide_eq_false_2 by apply not_elem_of_nil. by rewrite andb_true_r. Qed.

Lemma freed_step sb D l D' r D'' : freed sb D l D' -> free_step sb D' r D'' -> freed sb D (r :: l) D''.
Proof.
  intros [O1 U1 F1] [O2 U2 F2]. split; [done| |].
  - intros b Hb. rewrite U2, U1 by done. destruct (Z.eqb_spec r b) as [->|Hne]; simpl.
    + rewrite bool_decide_eq_true_2 by set_solver. by rewrite andb_false_r.
    + rewrite (bool_decide_ext (b ∈ r :: l) (b ∈ l)) by set_solver. done.
  - intros x Hx. by rewrite F2, F1.
Qed.

(** The blocks of the bitmap. *)
Definition bitmap_list (sb : superblock) : list Z := seqZ (sb_bmapstart sb) (sb_size sb / BPB + 1).

Section trunc.
Context {S B : Type} `{HBC : !BlockCache S B} (dev : Z) `{HCS : !CacheSpec S B dev}.
Variables (start size : Z) (dk : Z -> block) (sb : superblock).
Hypothesis Hstart : 0 <= start.
Hypothesis Hend : start + size <= 2147483648.
Hypothesis Hsize : 30 <= size.
Hypothesis Hly : layout sb.

Abbreviation at_inode := (at_inode dev start size dk sb).

Lemma elem_bitmap_list x : x ∈ bitmap_list sb <-> is_bitmap sb x.
Proof using Type. unfold bitmap_list, is_bitmap, datastart. rewrite elem_of_seqZ. lia. Qed.

(** One block more is freed. *)
Lemma bfree_one s D l D' h bs bs' b :
  fs_rep dev start size dk s D' h bs' -> fs_sb s = sb -> NoDup bs -> freed sb D l D' -> held_ok sb D' h ->
  logged bs bs' (bitmap_list sb) -> (length bs + length (bitmap_list sb) + length h < 29)%nat ->
  datastart sb <= b < sb_size sb -> used sb D b = true -> b ∉ l ->
  exists s' D'' bs'', bfree dev b s = Ok tt s' /\ freed sb D (b :: l) D'' /\ fs_rep dev start size dk s' D'' h bs'' /\
    logged bs bs'' (bitmap_list sb) /\ same s s' /\ (forall b' blk', blk' ∈ h -> has dev s b' blk' -> has dev s' b' blk').
Proof.
  intros Hr Esb Hnd Hf Hh Hlg Hlen Hb Hu Hni. pose proof (datastart_pos sb Hly) as Hds.
  pose proof (logged_length _ _ _ Hnd Hlg) as Hl.
  destruct (bfree_run dev start size dk sb Hstart Hend Hsize Hly s D' h bs' b) as (s' & D'' & E & Hst & Hr' & Hs & Hk); try done.
  - apply Hf.
  - lia.
  - rewrite (fd_used _ _ _ _ Hf) by lia. rewrite Hu, bool_decide_eq_false_2 by done. done.
  - exists s', D'', (logadd (BBLOCK b sb) bs'). split; [done|]. split; [by eapply freed_step|]. split; [done|].
    split; [|done]. eapply logged_trans; [exact Hlg|apply logged_add|done|].
    intros x ->%list_elem_of_singleton. apply elem_bitmap_list, BBLOCK_bitmap; [done|lia].
Qed.

(** [l] are the blocks of the slots [P]. *)
Definition slots_in (D : Z -> block) (i : inode) (P : Z -> Prop) (l : list Z) : Prop :=
  forall x, x ∈ l <-> x <> 0 /\ exists j, P j /\ slot D i j = x.

Lemma slots_in_add D i (P P' : Z -> Prop) k l :
  slots_in D i P l -> (forall j, P' j <-> P j \/ j = k) ->
  slots_in D i P' (if slot D i k =? 0 then l else slot D i k :: l).
Proof using Type.
  intros H HP x. destruct (Z.eqb_spec (slot D i k) 0) as [E|E]; [|rewrite elem_of_cons]; rewrite (H x).
  - split; intros (H0 & j & Hj & Ej); (split; [done|]); exists j; (split; [|done]); [apply HP; auto|].
    apply HP in Hj as [Hj| ->]; [done|congruence].
  - split.
    + intros [->|(H0 & j & Hj & Ej)]; (split; [done|]); [exists k|exists j]; (split; [apply HP; auto|done]).
    + intros (H0 & j & Hj & Ej). apply HP in Hj as [Hj| ->]; [right|by left]. split; [done|]. by exists j.
Qed.

Lemma slot_fresh D i (P : Z -> Prop) k l :
  file_wf sb D i -> slots_in D i P l -> (forall j, P j -> 0 <= j < NSLOT) -> 0 <= k < NSLOT -> ~ P k -> slot D i k <> 0 ->
  slot D i k ∉ l.
Proof using Type.
  intros Hw H HP Hk HnP Hs Hin. apply H in Hin as (_ & j & Hj & Ej). assert (j = k) as ->; [|done].
  apply (fw_inj _ _ _ Hw); auto. by rewrite Ej.
Qed.

(** The address array with the first [k] pointers cleared. *)
Definition cleared (k : Z) (l : list Z) : list Z := replicate (Z.to_nat k) 0 ++ drop (Z.to_nat k) l.

Lemma cleared_S k l : 0 <= k < Z.of_nat (length l) -> <[Z.to_nat k := 0]> (cleared k l) = cleared (k + 1) l.
Proof using Type.
  intros Hk. unfold cleared. rewrite insert_app_r_alt by (rewrite length_replicate; lia). rewrite length_replicate, Nat.sub_diag.
  destruct (lookup_lt_is_Some_2 l (Z.to_nat k)) as (x & Hx); [lia|]. rewrite (drop_S l x) by done. simpl.
  replace (Z.to_nat (k + 1)) with (Datatypes.S (Z.to_nat k)) by lia.
  rewrite replicate_S_end, <- app_assoc. done.
Qed.

Lemma cleared_zero k l x : l !! Z.to_nat k = Some 0 -> 0 <= k -> x = cleared k l -> x = cleared (k + 1) l.
Proof using Type.
  intros Hk H0 ->. pose proof (lookup_lt_Some _ _ _ Hk). rewrite <- cleared_S by lia.
  rewrite list_insert_id; [done|]. unfold cleared. rewrite lookup_app_r by (rewrite length_replicate; lia).
  rewrite length_replicate, Nat.sub_diag, lookup_drop, Nat.add_0_r. done.
Qed.

Lemma addr_cleared k l : 0 <= k -> addr_at (cleared k l) k = addr_at l k.
Proof using Type.
  intros Hk. unfold addr_at, cleared. rewrite lookup_app_r by (rewrite length_replicate; lia).
  by rewrite length_replicate, Nat.sub_diag, lookup_drop, Nat.add_0_r.
Qed.

(** Progress of [itrunc]: the blocks of [l] are free, nothing else changed. *)
Record truncating (s : fsst S) (D : Z -> block) (bs : list Z) (ip : nat) (i : inode) (l : list Z)
    (s' : fsst S) (D' : Z -> block) (bs' h : list Z) (addrs : list Z) : Prop := {
  tg_rep : fs_rep dev start size dk s' D' h bs';
  tg_same : isame ip s s';
  tg_freed : freed sb D l D';
  tg_logged : logged bs bs' (bitmap_list sb);
  tg_entry : itable s' ip = set_iaddrs addrs i
}.

Definition room (bs : list Z) : Prop := (length bs + length (bitmap_list sb) < 27)%nat.

Lemma direct_step s D bs ip i k l s1 D1 bs1 :
  at_inode s D bs ip i -> room bs -> 0 <= k < 12 -> slots_in D i (fun j => 0 <= j < k) l ->
  truncating s D bs ip i l s1 D1 bs1 [] (cleared k (i_addrs i)) ->
  exists l' s2 D2 bs2,
    ((let! i := ientry ip in
     if negb (addr_at (i_addrs i) k =? 0) then
       bfree (i_dev i) (addr_at (i_addrs i) k) ;;
       iset ip (fun i => set_iaddrs (<[Z.to_nat k := 0]> (i_addrs i)) i)
     else ret tt) : M (fsst S) unit) s1 = Ok tt s2 /\
    slots_in D i (fun j => 0 <= j < k + 1) l' /\ truncating s D bs ip i l' s2 D2 bs2 [] (cleared (k + 1) (i_addrs i)).
Proof.
  intros Hat Hroom Hk Hsb [Hr Hsm Hf Hlg Ei]. destruct Hat as [Hr0 Esb Hok Ei0 Ed Hw]. unfold room in Hroom.
  assert (Hkr : 0 <= k < NSLOT) by (unfold NSLOT; lia).
  assert (Es : slot D i k = addr_at (i_addrs i) k) by (unfold slot; destruct (Z.ltb_spec k 13); [done|lia]).
  pose proof (slots_in_add D i (fun j => 0 <= j < k) (fun j => 0 <= j < k + 1) k l Hsb ltac:(cbv beta; lia)) as Hsb'. pose proof (fw_len _ _ _ Hw) as Hl13.
  erewrite bind_Ok by reflexivity. rewrite Ei. cbn [i_addrs set_iaddrs i_dev]. rewrite addr_cleared, <- Es by lia.
  change (i_dev (set_iaddrs _ i)) with (i_dev i). rewrite Ed.
  destruct (Z.eqb_spec (slot D i k) 0) as [E0|E0]; cbn [negb].
  - exists l, s1, D1, bs1. split; [done|]. split; [done|]. split; try done. rewrite Ei. f_equal.
    eapply cleared_zero; [|lia|done]. destruct (lookup_lt_is_Some_2 (i_addrs i) (Z.to_nat k)) as (x & Hx); [lia|].
    rewrite Hx. f_equal. rewrite E0 in Es. unfold addr_at in Es. by rewrite Hx in Es.
  - destruct (fw_range _ _ _ Hw k Hkr E0) as [Hrng Hu].
    destruct (bfree_one s1 D l D1 [] bs bs1 (slot D i k)) as (s2 & D2 & bs2 & E2 & Hf2 & Hr2 & Hlg2 & Hs2 & _); try done.
    { destruct Hsm as [E1 _]. congruence. }
    { apply Hr0. }
    { intros x Hx. by apply not_elem_of_nil in Hx. }
    { simpl. lia. }
    { apply (slot_fresh D i (fun j => 0 <= j < k)); try done; unfold NSLOT; lia. }
    erewrite bind_Ok by exact E2.
    destruct (iset_run dev start size dk s2 ip (fun i => set_iaddrs (<[Z.to_nat k := 0]> (i_addrs i)) i)) as (s3 & E3 & Ei3 & Hs3 & Hrep3).
    exists (slot D i k :: l), s3, D2, bs2. split; [exact E3|]. split; [done|]. split; [by apply Hrep3| |done|done|].
    + eapply isame_trans; [exact Hsm|]. eapply isame_trans; [by apply same_isame|exact Hs3].
    + rewrite Ei3. destruct Hs2 as [_ ->]. rewrite Ei. simpl. unfold set_iaddrs. simpl. f_equal. apply cleared_S. lia.
Qed.

Lemma direct_run n s D bs ip i k l s1 D1 bs1 :
  at_inode s D bs ip i -> room bs -> 0 <= k -> k + Z.of_nat n = 12 -> slots_in D i (fun j => 0 <= j < k) l ->
  truncating s D bs ip i l s1 D1 bs1 [] (cleared k (i_addrs i)) ->
  exists l' s2 D2 bs2,
    for_up n k (fun k =>
     let! i := ientry ip in
     if negb (addr_at (i_addrs i) k =? 0) then
       bfree (i_dev i) (addr_at (i_addrs i) k) ;;
       iset ip (fun i => set_iaddrs (<[Z.to_nat k := 0]> (i_addrs i)) i)
     else ret tt) s1 = Ok tt s2 /\
    slots_in D i (fun j => 0 <= j < 12) l' /\ truncating s D bs ip i l' s2 D2 bs2 [] (cleared 12 (i_addrs i)).
Proof.
  intros Hat Hroom. revert k l s1 D1 bs1. induction n as [|n IH]; intros k l s1 D1 bs1 Hk Hn Hsb Ht.
  { assert (k = 12) as -> by lia. exists l, s1, D1, bs1. done. }
  cbn [for_up]. destruct (direct_step s D bs ip i k l s1 D1 bs1) as (l' & s2 & D2 & bs2 & E & Hsb' & Ht'); [done..|lia|done|done|].
  erewrite bind_Ok by exact E. apply (IH (k + 1) l' s2 D2 bs2); [lia|lia|done|done].
Qed.

(** The slots before entry [j] of the indirect block, the pointer to it left
    out. *)
Definition before_entry (j k : Z) : Prop := 0 <= k < 12 \/ 13 <= k < 13 + j.

Lemma entry_step s D bs ip i addrs j l s1 D1 bs1 bp :
  at_inode s D bs ip i -> room bs -> 0 <= j < 256 -> slot D i 12 <> 0 -> slots_in D i (before_entry j) l ->
  truncating s D bs ip i l s1 D1 bs1 [slot D i 12] addrs -> has dev s1 bp (slot D i 12) ->
  exists l' s2 D2 bs2,
    ((let! a := bdata bp in
      if negb (get32 a (4 * Z.to_nat j) =? 0) then bfree dev (get32 a (4 * Z.to_nat j)) else ret tt)
      : M (fsst S) unit) s1 = Ok tt s2 /\
    slots_in D i (before_entry (j + 1)) l' /\
    truncating s D bs ip i l' s2 D2 bs2 [slot D i 12] addrs /\ has dev s2 bp (slot D i 12).
Proof.
  intros [Hr0 Esb Hok Ei0 Ed Hw] Hroom Hj Ha Hl [Hr Hsm Hf Hlg Ei] Hhas. unfold room in Hroom. set (a := slot D i 12) in *.
  assert (H12 : 0 <= 12 < NSLOT) by (unfold NSLOT; lia). assert (Hkr : 0 <= j + 13 < NSLOT) by (unfold NSLOT; lia).
  destruct (fw_range _ _ _ Hw 12 H12 Ha) as [Hra Hua]. fold a in Hra, Hua. pose proof (datastart_pos sb Hly) as Hds.
  assert (ED : D1 a = D a) by (apply (fd_frame _ _ _ _ Hf); unfold is_bitmap; lia).
  assert (Es : slot D i (j + 13) = get32 (D a) (4 * Z.to_nat j)).
  { unfold slot. destruct (Z.ltb_spec (j + 13) 13); [lia|]. change (addr_at (i_addrs i) NDIRECT) with a.
    destruct (Z.eqb_spec a 0); [done|]. unfold entry. by replace (j + 13 - 13) with j by lia. }
  erewrite bind_Ok by (eapply bdata_run; eassumption). rewrite ED, <- Es.
  pose proof (slots_in_add D i (before_entry j) (before_entry (j + 1)) (j + 13) l Hl ltac:(unfold before_entry; lia)) as Hl'.
  destruct (Z.eqb_spec (slot D i (j + 13)) 0) as [E0|E0]; cbn [negb].
  - exists l, s1, D1, bs1. done.
  - destruct (fw_range _ _ _ Hw _ Hkr E0) as [Hrng Hu].
    destruct (bfree_one s1 D l D1 [a] bs bs1 (slot D i (j + 13))) as (s2 & D2 & bs2 & E2 & Hf2 & Hr2 & Hlg2 & Hs2 & Hk2); try done.
    { destruct Hsm as [E1 _]. congruence. }
    { apply Hr0. }
    { intros x ->%list_elem_of_singleton. split; [lia|]. rewrite (fd_used _ _ _ _ Hf) by lia.
      rewrite Hua, bool_decide_eq_false_2; [done|].
      apply (slot_fresh D i (before_entry j)); try done; unfold before_entry, NSLOT; lia. }
    { simpl. lia. }
    { apply (slot_fresh D i (before_entry j)); try done; unfold before_entry, NSLOT; lia. }
    exists (slot D i (j + 13) :: l), s2, D2, bs2. split; [done|]. split; [done|].
    split; [|apply Hk2; [set_solver|done]]. split; [done| |done|done|].
    + eapply isame_trans; [exact Hsm|by apply same_isame].
    + destruct Hs2 as [_ ->]. done.
Qed.

Lemma entries_run n s D bs ip i addrs j l s1 D1 bs1 bp :
  at_inode s D bs ip i -> room bs -> 0 <= j -> j + Z.of_nat n = 256 -> slot D i 12 <> 0 -> slots_in D i (before_entry j) l ->
  truncating s D bs ip i l s1 D1 bs1 [slot D i 12] addrs -> has dev s1 bp (slot D i 12) ->
  exists l' s2 D2 bs2,
    for_up n j (fun j =>
      let! a := bdata bp in
      if negb (get32 a (4 * Z.to_nat j) =? 0) then bfree dev (get32 a (4 * Z.to_nat j)) else ret tt) s1 = Ok tt s2 /\
    slots_in D i (before_entry 256) l' /\
    truncating s D bs ip i l' s2 D2 bs2 [slot D i 12] addrs /\ has dev s2 bp (slot D i 12).
Proof.
  intros Hat Hroom. revert j l s1 D1 bs1. induction n as [|n IH]; intros j l s1 D1 bs1 Hj Hn Ha Hl Ht Hhas.
  { assert (j = 256) as -> by lia. exists l, s1, D1, bs1. done. }
  cbn [for_up]. destruct (entry_step s D bs ip i addrs j l s1 D1 bs1 bp) as (l' & s2 & D2 & bs2 & E & Hl' & Ht' & Hh'); [done..|lia|done|done|done|done|].
  erewrite bind_Ok by exact E. apply (IH (j + 1) l' s2 D2 bs2); [lia|lia|done..].
Qed.

(** The pointer to the indirect block, and all it points to. *)
Lemma indirect_run s D bs ip i l s1 D1 bs1 :
  at_inode s D bs ip i -> room bs -> slots_in D i (fun j => 0 <= j < 12) l ->
  truncating s D bs ip i l s1 D1 bs1 [] (cleared 12 (i_addrs i)) ->
  exists l' s2 D2 bs2,
    ((let! i := ientry ip in
      if negb (addr_at (i_addrs i) NDIRECT =? 0) then
        let! bp := bread' (i_dev i) (addr_at (i_addrs i) NDIRECT) in
        for_up (Z.to_nat NINDIRECT) 0 (fun j =>
          let! a := bdata bp in
          if negb (get32 a (4 * Z.to_nat j) =? 0) then bfree (i_dev i) (get32 a (4 * Z.to_nat j))
          else ret tt) ;;
        brelse' bp ;;
        bfree (i_dev i) (addr_at (i_addrs i) NDIRECT) ;;
        iset ip (fun i => set_iaddrs (<[Z.to_nat NDIRECT := 0]> (i_addrs i)) i)
      else ret tt) : M (fsst S) unit) s1 = Ok tt s2 /\
    slots_in D i (fun j => 0 <= j < NSLOT) l' /\ truncating s D bs ip i l' s2 D2 bs2 [] (replicate 13 0).
Proof.
  intros Hat Hroom Hl Ht. pose proof Hat as [Hr0 Esb Hok Ei0 Ed Hw]. pose proof Ht as [Hr Hsm Hf Hlg Ei]. set (a := slot D i 12) in *.
  assert (H12 : 0 <= 12 < NSLOT) by (unfold NSLOT; lia). pose proof (fw_len _ _ _ Hw) as Hl13.
  assert (Ecl : <[Z.to_nat NDIRECT := 0]> (cleared 12 (i_addrs i)) = replicate 13 0).
  { unfold NDIRECT. rewrite cleared_S by lia. unfold cleared. rewrite drop_ge by lia. apply app_nil_r. }
  erewrite bind_Ok by reflexivity. rewrite Ei. cbn [i_addrs set_iaddrs]. rewrite (addr_cleared NDIRECT) by (unfold NDIRECT; lia).
  change (i_dev (set_iaddrs _ i)) with (i_dev i). rewrite Ed. change (addr_at (i_addrs i) NDIRECT) with a.
  destruct (Z.eqb_spec a 0) as [E0|E0]; cbn [negb].
  - exists l, s1, D1, bs1. split; [done|]. split.
    + intros x. rewrite (Hl x). split; intros (H0 & j & Hj & Ej); (split; [done|]); exists j; (split; [|done]); [unfold NSLOT; lia|].
      destruct (Z.lt_ge_cases j 12) as [|Hge]; [lia|]. exfalso. apply H0. rewrite <- Ej. unfold slot.
      change (addr_at (i_addrs i) NDIRECT) with a. rewrite E0. destruct (Z.ltb_spec j 13); [|done].
      assert (j = 12) as -> by lia. exact E0.
    + split; try done. rewrite Ei. f_equal. rewrite <- Ecl. unfold NDIRECT. rewrite cleared_S by lia.
      eapply cleared_zero; [|lia|done]. destruct (lookup_lt_is_Some_2 (i_addrs i) (Z.to_nat 12)) as (x & Hx); [lia|].
      rewrite Hx. f_equal. change (default 0 (i_addrs i !! Z.to_nat 12) = 0) in E0. by rewrite Hx in E0.
  - destruct (fw_range _ _ _ Hw 12 H12 E0) as [Hra Hua]. fold a in Hra, Hua. pose proof (datastart_pos sb Hly) as Hds.
    unfold room in Hroom. pose proof (logged_length _ _ _ (fr_nodup _ _ _ _ _ _ _ _ Hr0) Hlg) as Hlen1.
    destruct (fbread_run dev start size dk s1 D1 [] bs1 a) as (bp & s2 & E2 & Hr2 & Hb2 & _ & Hs2 & _);
      [done|apply size_blockno with sb; [done|lia]|apply not_elem_of_nil|simpl; lia|].
    erewrite bind_Ok by exact E2.
    destruct (entries_run 256 s D bs ip i (cleared 12 (i_addrs i)) 0 l s2 D1 bs1 bp) as (l3 & s3 & D3 & bs3 & E3 & Hl3 & Ht3 & Hb3);
      [done|done|lia|lia|done| | |done|].
    { intros x. rewrite (Hl x). split; intros (H0 & j & Hj & Ej); (split; [done|]); exists j; (split; [|done]); unfold before_entry in *; lia. }
    { split; [done| |done|done|destruct Hs2 as [_ ->]; done]. eapply isame_trans; [exact Hsm|by apply same_isame]. }
    change (Z.to_nat NINDIRECT) with 256%nat. erewrite bind_Ok by exact E3. destruct Ht3 as [Hr3 Hsm3 Hf3 Hlg3 Ei3].
    assert (ED : D3 a = D a) by (apply (fd_frame _ _ _ _ Hf3); unfold is_bitmap; lia).
    assert (Hcl : a ∈ bs3 \/ D3 a = dk a).
    { destruct (fbread_run dev start size dk s D [] bs a) as (_ & _ & _ & _ & _ & _ & _ & Hc0);
        [done|apply size_blockno with sb; [done|lia]|apply not_elem_of_nil|simpl; lia|].
      destruct Hc0 as [Hin|Hc0]; [left; by apply (lg_more _ _ _ Hlg3)|right; congruence]. }
    destruct (fbrelse_run dev start size dk s3 D3 [] bs3 bp a Hr3 Hb3 Hcl) as (s4 & E4 & Hr4 & _ & Hs4).
    erewrite bind_Ok by exact E4.
    assert (Hna : a ∉ l3) by (apply (slot_fresh D i (before_entry 256)); try done; unfold before_entry, NSLOT; lia).
    destruct (bfree_one s4 D l3 D3 [] bs bs3 a) as (s5 & D5 & bs5 & E5 & Hf5 & Hr5 & Hlg5 & Hs5 & _); try done.
    { destruct Hsm3 as [E6 _], Hs4 as [E7 _]. congruence. }
    { apply Hr0. }
    { intros x Hx. by apply not_elem_of_nil in Hx. }
    { simpl. lia. }
    erewrite bind_Ok by exact E5.
    destruct (iset_run dev start size dk s5 ip (fun i => set_iaddrs (<[Z.to_nat NDIRECT := 0]> (i_addrs i)) i)) as (s6 & E6 & Ei6 & Hs6 & Hrep6).
    exists (a :: l3), s6, D5, bs5. split; [exact E6|]. split; [|split; [by apply Hrep6| |done|done|]].
    + pose proof (slots_in_add D i (before_entry 256) (fun j => 0 <= j < NSLOT) 12 l3 Hl3
        ltac:(unfold before_entry, NSLOT; cbv beta; lia)) as Hfin. fold a in Hfin. by destruct (Z.eqb_spec a 0).
    + eapply isame_trans; [exact Hsm3|]. eapply isame_trans; [|exact Hs6]. apply same_isame. by eapply same_trans.
    + rewrite Ei6. destruct Hs5 as [_ ->], Hs4 as [_ ->]. rewrite Ei3. unfold set_iaddrs. simpl. f_equal. exact Ecl.
Qed.

(** [itrunc]: exactly the blocks of the file are freed, the inode is empty in
    memory and on the disk. *)
Lemma itrunc_run s D bs ip i :
  at_inode s D bs ip i -> room bs -> 0 <= i_inum i < sb_ninodes sb ->
  let i' := set_isize 0 (set_iaddrs (replicate 13 0) i) in
  let ib := IBLOCK (i_inum i) sb in
  exists s' D' bs', itrunc ip s = Ok tt s' /\ at_inode s' D' bs' ip i' /\ isame ip s s' /\
    (forall x, 0 <= x < sb_size sb -> used sb D' x = true <->
       used sb D x = true /\ ~ exists k, 0 <= k < NSLOT /\ x <> 0 /\ slot D i k = x) /\
    D' ib = store_dinode i' (dinode_off (i_inum i)) (D ib) /\
    (forall x, ~ is_bitmap sb x -> x <> ib -> D' x = D x) /\
    logged bs bs' (ib :: bitmap_list sb).
Proof.
  intros Hat Hroom Hin i' ib. unfold itrunc. pose proof Hat as [Hr0 Esb Hok Ei0 Ed Hw].
  destruct (direct_run 12 s D bs ip i 0 [] s D bs) as (l1 & s1 & D1 & bs1 & E1 & Hl1 & Ht1); try done.
  { intros x. split; [intros Hx; by apply not_elem_of_nil in Hx|intros (_ & j & Hj & _); lia]. }
  { split; [done|by apply same_isame|by apply freed_nil|apply logged_refl|]. rewrite Ei0. by destruct i. }
  change (Z.to_nat NDIRECT) with 12%nat at 1. erewrite bind_Ok by exact E1.
  destruct (indirect_run s D bs ip i l1 s1 D1 bs1) as (l2 & s2 & D2 & bs2 & E2 & Hl2 & Ht2); try done.
  rewrite <- bind_assoc. erewrite bind_Ok by exact E2. destruct Ht2 as [Hr2 Hsm2 Hf2 Hlg2 Ei2].
  destruct (iset_run dev start size dk s2 ip (set_isize 0)) as (s3 & E3 & Ei3 & Hs3 & Hrep3).
  erewrite bind_Ok by exact E3. rewrite Ei2 in Ei3. fold i' in Ei3.
  assert (Hz : forall D0 k, slot D0 i' k = 0).
  { intros D0 k. unfold slot. change (i_addrs i') with (replicate 13 0).
    assert (Hz0 : forall m, addr_at (replicate 13 0) m = 0).
    { intros m. unfold addr_at. destruct (replicate 13 0 !! Z.to_nat m) as [x|] eqn:Ex; [|done].
      by apply lookup_replicate in Ex as [-> _]. }
    rewrite !Hz0. by destruct (k <? 13). }
  assert (Hat3 : at_inode s3 D2 bs2 ip i').
  { split; [by apply Hrep3|destruct Hsm2, Hs3; congruence|apply Hf2|done|done|].
    split; [done|intros k _ Hs; by rewrite Hz in Hs|intros j k _ _ Hs; by rewrite Hz in Hs]. }
  pose proof (logged_length _ _ _ (fr_nodup _ _ _ _ _ _ _ _ Hr0) Hlg2) as Hlen2. unfold room in Hroom.
  destruct (iupdate_run dev start size dk sb Hstart Hend Hsize Hly s3 D2 bs2 ip i') as (s4 & E4 & Hat4 & Hs4); [done|done|lia|].
  change (i_inum i') with (i_inum i) in Hat4. fold ib in Hat4.
  pose proof (IBLOCK_meta sb Hly _ Hin) as Hm. destruct (meta_below sb Hly _ Hm) as (Hlt & Hnb & Hsz). fold ib in Hlt, Hnb, Hsz.
  eexists s4, _, (logadd ib bs2). split; [exact E4|]. split; [exact Hat4|]. split; [|split; [|split; [|split]]].
  - eapply isame_trans; [exact Hsm2|]. by eapply isame_trans.
  - intros x Hx. rewrite (used_frame sb Hly D2) by (done || intros y Hy; apply cv_upd_ne; by intros ->).
    rewrite (fd_used _ _ _ _ Hf2) by done. rewrite andb_true_iff, negb_true_iff, bool_decide_eq_false, (Hl2 x).
    split; intros [H1 H2]; (split; [done|]); intros H3; apply H2; [|by destruct H3 as (H0 & k & Hk & Ek); exists k].
    destruct H3 as (k & Hk & H0 & Ek). split; [done|]. by exists k.
  - rewrite cv_upd_eq. by rewrite (fd_frame _ _ _ _ Hf2).
  - intros x Hxb Hxi. rewrite cv_upd_ne by done. by apply Hf2.
  - eapply logged_trans; [exact Hlg2|apply logged_add|intros x Hx; apply elem_of_cons; by right|].
    intros x ->%list_elem_of_singleton. apply elem_of_cons. by left.
Qed.

(** ** Locks *)

Variable mypid : Z.

Lemma on_ilock_run {A} (s : fsst S) ip (m : M sleeplock A) a lk :
  m (i_lock (itable s ip)) = Ok a lk ->
  exists s', on_ilock ip m s = Ok a s' /\ itable s' ip = set_ilock lk (itable s ip) /\ isame ip s s' /\
    forall D h bs, fs_rep dev start size dk s D h bs -> fs_rep dev start size dk s' D h bs.
Proof using Type.
  intros E. exists (set_itable (iupd (itable s) ip (set_ilock lk (itable s ip))) s).
  split; [unfold on_ilock, zoom; by rewrite E|]. simpl. unfold iupd. rewrite Nat.eqb_refl. split; [done|]. split.
  - split; [done|]. intros j Hj. simpl. by destruct (Nat.eqb_spec j ip).
  - intros D h bs H. by apply fs_rep_itable.
Qed.

(** [ilock] of a free lock: the entry is locked, and valid with the contents of
    the disk if it was not valid before. *)
Lemma ilock_run s D bs ip :
  let i := itable s ip in
  let ib := IBLOCK (i_inum i) sb in
  let o := dinode_off (i_inum i) in
  fs_rep dev start size dk s D [] bs -> fs_sb s = sb -> 1 <= i_ref i -> locked (i_lock i) = false -> i_dev i = dev ->
  0 <= i_inum i < sb_ninodes sb -> (length bs < 29)%nat -> i_valid i = true \/ geti16 (D ib) o <> 0 ->
  exists s', ilock mypid ip s = Ok tt s' /\ isame ip s s' /\ fs_rep dev start size dk s' D [] bs /\
    itable s' ip = set_ivalid true (set_ilock (mksleeplock true mypid) (if i_valid i then i else load_dinode (D ib) o i)).
Proof.
  intros i ib o Hr Esb Href Hlk Ed Hin Hlen Hty. unfold ilock. erewrite bind_Ok by reflexivity. fold i.
  destruct (Z.ltb_spec (i_ref i) 1); [lia|].
  destruct (on_ilock_run s ip (acquiresleep mypid) tt (mksleeplock true mypid)) as (s1 & E1 & Ei1 & Hs1 & Hrep1).
  { unfold acquiresleep. erewrite bind_Ok by reflexivity. fold i. by rewrite Hlk. }
  erewrite bind_Ok by exact E1. erewrite bind_Ok by reflexivity. erewrite bind_Ok by reflexivity.
  fold i in Ei1. rewrite Ei1. set (i1 := set_ilock (mksleeplock true mypid) i).
  change (i_valid i1) with (i_valid i). destruct (i_valid i) eqn:Ev; cbn [negb].
  - exists s1. split; [done|]. split; [done|]. split; [by apply Hrep1|]. rewrite Ei1. unfold set_ivalid, i1, set_ilock. simpl. by rewrite Ev.
  - destruct Hty as [Hty|Hty]; [done|]. destruct Hs1 as [Esb1 Hot1]. rewrite Esb1, Esb.
    change (i_dev i1) with (i_dev i). change (i_inum i1) with (i_inum i). rewrite Ed. fold ib o.
    destruct (meta_below sb Hly _ (IBLOCK_meta sb Hly _ Hin)) as (Hlt & Hnb & Hsz). fold ib in Hlt, Hnb, Hsz.
    destruct (fbread_run dev start size dk s1 D [] bs ib) as (b & s2 & E2 & Hr2 & Hb2 & _ & [Esb2 Eit2] & Hcl);
      [by apply Hrep1|by apply size_blockno with sb|apply not_elem_of_nil|simpl; lia|].
    erewrite bind_Ok by exact E2. erewrite bind_Ok by (eapply bdata_run; eassumption).
    destruct (iset_run dev start size dk s2 ip (load_dinode (D ib) o)) as (s3 & E3 & Ei3 & [Esb3 Hot3] & Hrep3).
    erewrite bind_Ok by exact E3.
    assert (Hb3 : has dev s3 b ib) by (injection E3 as <-; exact Hb2).
    destruct (fbrelse_run dev start size dk s3 D [] bs b ib (Hrep3 _ _ _ Hr2) Hb3 Hcl) as (s4 & E4 & Hr4 & _ & [Esb4 Eit4]).
    erewrite bind_Ok by exact E4.
    destruct (iset_run dev start size dk s4 ip (set_ivalid true)) as (s5 & E5 & Ei5 & [Esb5 Hot5] & Hrep5).
    erewrite bind_Ok by exact E5. erewrite bind_Ok by reflexivity.
    rewrite Ei5, Eit4, Ei3, Eit2, Ei1. match goal with |- context [i_type ?x =? 0] => change (i_type x) with (geti16 (D ib) o) end.
    destruct (Z.eqb_spec (geti16 (D ib) o) 0); [done|].
    exists s5. split; [done|]. split; [|split; [by apply Hrep5|]].
    + split; [congruence|]. intros j Hj. rewrite Hot5, Eit4, Hot3, Eit2, Hot1 by done. done.
    + rewrite Ei5, Eit4, Ei3, Eit2, Ei1. done.
Qed.

Lemma iunlock_run s ip :
  let i := itable s ip in
  locked (i_lock i) = true -> lkpid (i_lock i) = mypid -> 1 <= i_ref i ->
  exists s', iunlock (S := S) mypid ip s = Ok tt s' /\ itable s' ip = set_ilock (mksleeplock false 0) i /\ isame ip s s' /\
    forall D h bs, fs_rep dev start size dk s D h bs -> fs_rep dev start size dk s' D h bs.
Proof using Type.
  intros i Hl Hp Hr. unfold iunlock. erewrite bind_Ok by reflexivity.
  destruct (on_ilock_run s ip (holdingsleep mypid) true (i_lock i)) as (s1 & E1 & Ei1 & Hs1 & Hrep1).
  { unfold holdingsleep, gets. fold i. by rewrite Hl, Hp, Z.eqb_refl. }
  erewrite bind_Ok by exact E1. fold i. destruct (Z.ltb_spec (i_ref i) 1); [lia|]. cbn [negb orb].
  destruct (on_ilock_run s1 ip releasesleep tt (mksleeplock false 0)) as (s2 & E2 & Ei2 & Hs2 & Hrep2); [done|].
  exists s2. split; [done|]. split; [by rewrite Ei2, Ei1|]. split; [by eapply isame_trans|auto].
Qed.

(** The last [iput] of an unlinked inode frees its blocks and the inode. *)
Lemma iput_free s D bs ip i :
  at_inode s D bs ip i -> room bs -> 0 <= i_inum i < sb_ninodes sb -> i_ref i = 1 -> i_valid i = true -> i_nlink i = 0 ->
  locked (i_lock i) = false ->
  let ib := IBLOCK (i_inum i) sb in
  let o := dinode_off (i_inum i) in
  exists s' D' bs', iput mypid ip s = Ok tt s' /\ fs_rep dev start size dk s' D' [] bs' /\ bitmap_ok sb D' /\ isame ip s s' /\
    i_ref (itable s' ip) = 0 /\ geti16 (D' ib) o = 0 /\
    (forall o', apart o 64 o' 64 -> read_at (D' ib) o' 64 = read_at (D ib) o' 64) /\
    (forall x, 0 <= x < sb_size sb -> used sb D' x = true <->
       used sb D x = true /\ ~ exists k, 0 <= k < NSLOT /\ x <> 0 /\ slot D i k = x) /\
    (forall x, ~ is_bitmap sb x -> x <> ib -> D' x = D x) /\
    logged bs bs' (ib :: bitmap_list sb).
Proof.
  intros Hat Hroom Hin Hr1 Hv Hn Hlk ib o. pose proof Hat as [Hr Esb Hok Ei Ed Hw].
  unfold iput. erewrite bind_Ok by reflexivity. rewrite Ei, Hr1, Hv, Hn. cbn [Z.eqb Pos.eqb andb].
  rewrite bind_assoc.
  destruct (on_ilock_run s ip (acquiresleep mypid) tt (mksleeplock true mypid)) as (s1 & E1 & Ei1 & Hs1 & Hrep1).
  { unfold acquiresleep. erewrite bind_Ok by reflexivity. rewrite Ei. by rewrite Hlk. }
  erewrite bind_Ok by exact E1. rewrite bind_assoc. rewrite Ei in Ei1. set (i1 := set_ilock (mksleeplock true mypid) i) in *.
  assert (Hat1 : at_inode s1 D bs ip i1).
  { split; [by apply Hrep1|destruct Hs1; congruence|done|done|done|]. destruct Hw as [W1 W2 W3]. by split. }
  destruct (itrunc_run s1 D bs ip i1 Hat1 Hroom Hin) as (s2 & D2 & bs2 & E2 & Hat2 & Hs2 & Hu2 & Hd2 & Hf2 & Hlg2).
  change (i_inum i1) with (i_inum i) in *. fold ib o in Hd2, Hf2, Hlg2. erewrite bind_Ok by exact E2. rewrite bind_assoc.
  destruct (iset_run dev start size dk s2 ip (set_itype 0)) as (s3 & E3 & Ei3 & Hs3 & Hrep3).
  erewrite bind_Ok by exact E3. rewrite bind_assoc.
  set (i2 := set_isize 0 (set_iaddrs (replicate 13 0) i1)) in *.
  assert (Hat3 : at_inode s3 D2 bs2 ip (set_itype 0 i2)).
  { destruct Hat2 as [A1 A2 A3 A4 A5 A6]. split; [by apply Hrep3|destruct Hs3; congruence|done|by rewrite Ei3, A4|done|].
    destruct A6 as [W1 W2 W3]. by split. }
  assert (Hndb : NoDup bs) by apply Hr. unfold room in Hroom.
  pose proof (logged_length _ _ _ Hndb Hlg2) as Hlen2. simpl in Hlen2.
  destruct (iupdate_run dev start size dk sb Hstart Hend Hsize Hly s3 D2 bs2 ip (set_itype 0 i2) Hat3) as (s4 & E4 & Hat4 & Hs4);
    [done|lia|].
  erewrite bind_Ok by exact E4. rewrite bind_assoc. change (i_inum (set_itype 0 i2)) with (i_inum i) in Hat4. fold ib o in Hat4.
  destruct (iset_run dev start size dk s4 ip (set_ivalid false)) as (s5 & E5 & Ei5 & Hs5 & Hrep5).
  erewrite bind_Ok by exact E5.
  destruct (on_ilock_run s5 ip releasesleep tt (mksleeplock false 0)) as (s6 & E6 & Ei6 & Hs6 & Hrep6); [done|].
  erewrite bind_Ok by exact E6.
  destruct (iset_run dev start size dk s6 ip (fun i => set_iref (s32 (i_ref i - 1)) i)) as (s7 & E7 & Ei7 & Hs7 & Hrep7).
  set (D4 := cv_upd D2 ib (store_dinode (set_itype 0 i2) o (D2 ib))) in *.
  destruct (meta_below sb Hly _ (IBLOCK_meta sb Hly _ Hin)) as (Hlt & Hnb & Hsz). fold ib in Hlt, Hnb, Hsz.
  assert (Hl : length (D2 ib) = 1024%nat) by apply (ai_ok _ _ _ _ _ _ _ _ _ _ Hat2).
  pose proof (dinode_off_bound (i_inum i)) as Hob. fold o in Hob.
  exists s7, D4, (logadd ib bs2). split; [exact E7|]. split; [apply Hrep7, Hrep6, Hrep5, Hat4|].
  split; [apply Hat4|]. split; [eauto 8 using isame_trans|].
  split; [|split; [|split; [|split; [|split]]]].
  - rewrite Ei7, Ei6, Ei5. rewrite (ai_entry _ _ _ _ _ _ _ _ _ _ Hat4). simpl. rewrite Hr1. done.
  - unfold D4. rewrite cv_upd_eq. apply store_dinode_type; [done|lia|done].
  - intros o' Ha. unfold D4. rewrite cv_upd_eq, store_dinode_other by (done || lia). rewrite Hd2.
    apply store_dinode_other; [|done|done]. pose proof (bo_blocks _ _ Hok ib) as [-> _]. done.
  - intros x Hx. rewrite (used_frame sb Hly D2); [exact (Hu2 x Hx)|done|].
    intros y Hy. apply cv_upd_ne. by intros ->.
  - intros x Hb Hx. unfold D4. rewrite cv_upd_ne by done. by apply Hf2.
  - eapply logged_trans; [exact Hlg2|apply logged_add|done|]. intros x ->%list_elem_of_singleton. apply elem_of_cons. by left.
Qed.
End trunc.
