(* ===== verification/FsDir.v ===== *)
(** * Directories and path names

    A directory is a file of 16-byte entries.  Its meaning is the finite map
    [dir_map] from names to inode numbers; [dirlookup] reads it and [dirlink]
    adds a binding.  [skipelem] is shown to cut a path into its elements. *)

From S2P Require Import Prelude Memory CString Block Cache Sleeplock Log LogProofs LogSpec Fs FsBlocks FsAlloc FsMap FsFile FsInode.

#[local] Set Warnings "-clear-no-such-hyp".

(** ** Names *)

(** What a name array denotes: its bytes up to the first NUL, at most [n]. *)
Fixpoint name_key (n : nat) (l : list Z) : list Z :=
  match n, l with
  | S n', c :: l' => if c =? 0 then [] else c :: name_key n' l'
  | _, _ => []
  end.

Lemma cstr_nth m p n l :
  (forall k, (k < n)%nat -> m (p + Z.of_nat k) = nth k l 0) -> cstr m p n = name_key n l.
Proof.
  revert p l. induction n as [|n IH]; intros p l H; [done|]. cbn [cstr name_key].
  pose proof (H 0%nat ltac:(lia)) as H0. rewrite Z.add_0_r in H0. rewrite H0.
  destruct l as [|c l]; simpl nth; [done|]. destruct (c =? 0); [done|]. f_equal. apply IH.
  intros k Hk. specialize (H (S k) ltac:(lia)). simpl nth in H. rewrite <- H. f_equal. lia.
Qed.

Lemma two_names_fst s t n : (n <= 32)%nat -> cstr (two_names s t) 0 n = name_key n s.
Proof.
  intros Hn. apply cstr_nth. intros k Hk. unfold two_names. destruct (Z.ltb_spec (0 + Z.of_nat k) 32); [|lia].
  f_equal. lia.
Qed.

Lemma two_names_snd s t n : cstr (two_names s t) 32 n = name_key n t.
Proof.
  apply cstr_nth. intros k Hk. unfold two_names. destruct (Z.ltb_spec (32 + Z.of_nat k) 32); [lia|].
  f_equal. lia.
Qed.

Lemma nth_byte l k : Forall is_byte l -> is_byte (nth k l 0).
Proof.
  intros H. revert k. induction H as [|x l Hx _ IH]; intros k; destruct k; simpl; try done; unfold is_byte; lia || auto.
Qed.

Lemma namecmp_key s t : Forall is_byte s -> Forall is_byte t -> namecmp s t = 0 <-> name_key 14 s = name_key 14 t.
Proof.
  intros Hs Ht. unfold namecmp, strncmp, DIRSIZ. change (Z.to_nat 14) with 14%nat. rewrite strncmp_loop_zero.
  - by rewrite two_names_fst, two_names_snd by lia.
  - intros a. unfold two_names. destruct (a <? 32); by apply nth_byte.
Qed.

Lemma name_key_length n l : (length (name_key n l) <= n)%nat.
Proof. revert l. induction n as [|n IH]; intros l; destruct l as [|c l]; simpl; try lia. destruct (c =? 0); simpl; [lia|]. specialize (IH l). lia. Qed.

Lemma name_key_nonzero n l : Forall (fun c => c <> 0) (name_key n l).
Proof. revert l. induction n as [|n IH]; intros l; destruct l as [|c l]; simpl; try done. destruct (Z.eqb_spec c 0); constructor; auto. Qed.

Lemma name_key_pad n l k : Forall (fun c => c <> 0) l -> (length l <= n)%nat -> name_key n (l ++ repeat 0 k) = l.
Proof.
  revert l. induction n as [|n IH]; intros l Hl Hn.
  - destruct l; [|simpl in Hn; lia]. by destruct k.
  - destruct l as [|c l]; [by destruct k|]. apply Forall_cons in Hl as [Hc Hl]. simpl in *.
    destruct (Z.eqb_spec c 0); [done|]. f_equal. apply IH; [done|lia].
Qed.

(** [strncpy] pads the name with NULs. *)
Lemma fill_name_eq name : fill_name name = name_key 14 name ++ repeat 0 (14 - length (name_key 14 name)).
Proof.
  unfold fill_name, strncpy, DIRSIZ. change (Z.to_nat 14) with 14%nat. rewrite strncpy_loop_read by (simpl; lia).
  by rewrite two_names_snd.
Qed.

Lemma fill_name_length name : length (fill_name name) = 14%nat.
Proof. rewrite fill_name_eq, length_app, repeat_length. pose proof (name_key_length 14 name). lia. Qed.

Lemma fill_name_key name : name_key 14 (fill_name name) = name_key 14 name.
Proof. rewrite fill_name_eq. apply name_key_pad; [apply name_key_nonzero|apply name_key_length]. Qed.

(** ** Directory entries *)

Definition dent (D : Z -> block) (i : inode) (k : Z) : list Z := file_read D i (16 * k) 16.

(** An entry as a pair of inode number and name. *)
Definition dent_val (de : list Z) : Z * list Z := (de_inum de, name_key 14 (de_name de)).

Definition dents (D : Z -> block) (i : inode) : list (Z * list Z) :=
  map (fun k => dent_val (dent D i k)) (seqZ 0 (i_size i / 16)).

(** The first entry in use with the name. *)
Fixpoint assoc (l : list (Z * list Z)) (key : list Z) : option Z :=
  match l with
  | [] => None
  | (inum, name) :: l' => if negb (inum =? 0) && bool_decide (name = key) then Some inum else assoc l' key
  end.

Definition dir_map (D : Z -> block) (i : inode) (key : list Z) : option Z := assoc (dents D i) key.

Lemma assoc_app l1 l2 key : assoc (l1 ++ l2) key = match assoc l1 key with Some x => Some x | None => assoc l2 key end.
Proof. induction l1 as [|[n x] l1 IH]; [done|]. simpl. by destruct (negb (n =? 0) && bool_decide (x = key)). Qed.

(** Filling an unused entry binds its name. *)
Lemma assoc_insert l1 l2 n0 x0 inum key key' :
  assoc (l1 ++ (0, x0) :: l2) key = None -> inum <> 0 -> n0 = 0 ->
  assoc (l1 ++ (inum, key) :: l2) key' = if bool_decide (key = key') then Some inum else assoc (l1 ++ (n0, x0) :: l2) key'.
Proof.
  intros Hn Hi ->. rewrite !assoc_app in *. simpl in *. destruct (Z.eqb_spec inum 0); [done|]. simpl.
  destruct (assoc l1 key) eqn:E1; [done|]. case_bool_decide as Ek; [|by destruct (assoc l1 key')].
  subst key'. by rewrite E1.
Qed.

Lemma assoc_snoc l inum key key' :
  assoc l key = None -> inum <> 0 -> assoc (l ++ [(inum, key)]) key' = if bool_decide (key = key') then Some inum else assoc l key'.
Proof.
  intros Hn Hi. rewrite assoc_app. simpl. destruct (Z.eqb_spec inum 0); [done|]. simpl.
  case_bool_decide as Ek; [subst key'; by rewrite Hn|]. by destruct (assoc l key').
Qed.

(** ** Reading an entry *)

Lemma splice_app_chunk x o c l :
  (o + length c + length l <= length x)%nat -> splice (splice x o c) (o + length c) l = splice x o (c ++ l).
Proof.
  intros H. apply list_eq. intros k. rewrite !lookup_splice by (rewrite ?length_app, ?length_splice; lia). rewrite length_app.
  repeat case_decide; try lia; try done.
  - rewrite lookup_app_r by lia. f_equal. lia.
  - by rewrite lookup_app_l by lia.
Qed.

Lemma de_chunks cs x (o : nat) :
  (o + length (concat cs) <= length x)%nat -> copy_chunks de_copyout (Z.of_nat o) cs x = splice x o (concat cs).
Proof.
  revert x o. induction cs as [|c cs IH]; intros x o H; cbn [copy_chunks concat].
  - unfold splice. simpl. by rewrite Nat.add_0_r, take_drop.
  - unfold de_copyout at 2. cbn [fst]. rewrite Nat2Z.id, <- Nat2Z.inj_add. simpl in H. rewrite length_app in H.
    rewrite IH by (rewrite length_splice; lia). apply splice_app_chunk. lia.
Qed.

Lemma splice_all x l : length x = length l -> splice x 0 l = l.
Proof. intros H. unfold splice. rewrite take_0. simpl. by rewrite drop_ge, app_nil_r by lia. Qed.

(** What the loop computes: the entries from [k] on, the first with the name. *)
Fixpoint find_dent (D : Z -> block) (i : inode) (name : list Z) (n : nat) (k : Z) : option Z :=
  match n with
  | O => None
  | S n' =>
      if negb (de_inum (dent D i k) =? 0) && (namecmp name (de_name (dent D i k)) =? 0) then Some k
      else find_dent D i name n' (k + 1)
  end.

(** The search agrees with [dir_map]. *)
Lemma dent_bytes D i k : (forall k, block_ok (D k)) -> Forall is_byte (dent D i k).
Proof.
  intros Hok. unfold dent, file_read. apply Forall_map, Forall_forall. intros j _. unfold fbyte.
  apply byte_at_range. apply Hok.
Qed.

Lemma find_dent_spec D i name n k :
  (forall k, block_ok (D k)) -> Forall is_byte name ->
  match find_dent D i name n k with
  | None => assoc (map (fun k => dent_val (dent D i k)) (seqZ k (Z.of_nat n))) (name_key 14 name) = None
  | Some j => k <= j < k + Z.of_nat n /\ de_inum (dent D i j) <> 0 /\
      assoc (map (fun k => dent_val (dent D i k)) (seqZ k (Z.of_nat n))) (name_key 14 name) = Some (de_inum (dent D i j))
  end.
Proof.
  intros Hok Hb. revert k. induction n as [|n IH]; intros k; [done|]. cbn [find_dent].
  rewrite Nat2Z.inj_succ, seqZ_cons by lia. rewrite Z.pred_succ, <- Z.add_1_r. cbn [map]. unfold dent_val at 1 3. cbn [assoc].
  assert (Hde : Forall is_byte (de_name (dent D i k))) by (apply Forall_drop, dent_bytes, Hok).
  assert (Hcmp : (namecmp name (de_name (dent D i k)) =? 0) = bool_decide (name_key 14 (de_name (dent D i k)) = name_key 14 name)).
  { apply eq_true_iff_eq. rewrite Z.eqb_eq, bool_decide_eq_true, namecmp_key by done. naive_solver. }
  rewrite Hcmp. specialize (IH (k + 1)). destruct (Z.eqb_spec (de_inum (dent D i k)) 0) as [E0|E0]; cbn [negb andb].
  - destruct (find_dent D i name n (k + 1)); [|done]. destruct IH as (H1 & H2). split; [lia|done].
  - case_bool_decide as Ek; [split; [lia|done]|].
    destruct (find_dent D i name n (k + 1)); [|done]. destruct IH as (H1 & H2). split; [lia|done].
Qed.

Lemma find_dent_map D i name :
  (forall k, block_ok (D k)) -> Forall is_byte name -> 0 <= i_size i ->
  match find_dent D i name (Z.to_nat (i_size i / 16)) 0 with
  | None => dir_map D i (name_key 14 name) = None
  | Some j => 0 <= j < i_size i / 16 /\ dir_map D i (name_key 14 name) = Some (de_inum (dent D i j))
  end.
Proof.
  intros Hok Hb Hsz. assert (0 <= i_size i / 16) by (apply Z.div_pos; lia).
  pose proof (find_dent_spec D i name (Z.to_nat (i_size i / 16)) 0 Hok Hb) as H1.
  rewrite Z2Nat.id, Z.add_0_l in H1 by done. unfold dir_map, dents.
  destruct (find_dent _ _ _ _ _); [|done]. destruct H1 as (? & ? & ?). done.
Qed.

(** The local [struct dirent] as the source of [writei]. *)
Lemma de_copyin_spec de a m :
  0 <= a -> 0 <= m -> a + m <= Z.of_nat (length de) ->
  exists r, de_copyin de a m = (map (byte_at de) (seqZ a m), r) /\ r <> -1.
Proof.
  intros Ha Hm Hl. exists 0. split; [|done]. unfold de_copyin. f_equal. apply list_eq. intros k.
  rewrite lookup_read_at. case_decide as Hk.
  - rewrite map_seqZ_lookup by done. rewrite <- byte_at_lookup by lia. f_equal. lia.
  - symmetry. apply lookup_ge_None_2. rewrite length_map_seqZ. lia.
Qed.

Lemma mkdirent_length inum name : length (mkdirent inum name) = 16%nat.
Proof. unfold mkdirent. by rewrite length_app, length_le_bytes, fill_name_length. Qed.

Lemma fill_name_bytes name : Forall is_byte name -> Forall is_byte (fill_name name).
Proof.
  intros H. rewrite fill_name_eq. apply Forall_app. split.
  - generalize 14%nat. induction H as [|c l Hc _ IH]; intros n; destruct n; simpl; try done.
    destruct (c =? 0); [done|]. constructor; auto.
  - apply Forall_forall. intros x Hx. apply list_elem_of_In, repeat_spec in Hx. subst. done.
Qed.

Lemma mkdirent_bytes inum name a : Forall is_byte name -> is_byte (byte_at (mkdirent inum name) a).
Proof.
  intros H. apply byte_at_range. unfold mkdirent. apply Forall_app. split; [apply le_bytes_bytes|by apply fill_name_bytes].
Qed.

Lemma mkdirent_val inum name : 0 <= inum < 65536 -> dent_val (mkdirent inum name) = (inum, name_key 14 name).
Proof.
  intros Hi. unfold dent_val, de_inum, de_name, mkdirent. f_equal.
  - rewrite take_app_length' by (by rewrite length_le_bytes). rewrite le_val_u16. by apply u16_small.
  - rewrite drop_app_length' by (by rewrite length_le_bytes). apply fill_name_key.
Qed.

(** Entry [j] replaced, the others as before. *)
Lemma dents_update D i D' i' j inum name :
  0 <= j <= i_size i / 16 -> 0 <= i_size i -> i_size i mod 16 = 0 -> i_size i' = Z.max (i_size i) (16 * j + 16) ->
  (forall k, 0 <= k < i_size i / 16 -> k <> j -> dent D' i' k = dent D i k) ->
  dent D' i' j = mkdirent inum name -> 0 < inum < 65536 ->
  (j < i_size i / 16 -> de_inum (dent D i j) = 0) -> dir_map D i (name_key 14 name) = None ->
  forall key, dir_map D' i' key = if bool_decide (name_key 14 name = key) then Some inum else dir_map D i key.
Proof.
  intros Hj Hsz Hm Es Hother Hnew Hi He Hno key. unfold dir_map, dents in *. set (f := fun k => dent_val (dent D i k)) in *.
  set (f' := fun k => dent_val (dent D' i' k)). set (n := i_size i / 16) in *.
  assert (Hl : map f' (seqZ 0 j) = map f (seqZ 0 j)).
  { apply map_ext_in. intros k Hk%list_elem_of_In%elem_of_seqZ. unfold f', f. by rewrite Hother by lia. }
  destruct (decide (j = n)) as [->|Hne].
  - assert (Es' : i_size i' / 16 = n + 1) by (rewrite Es; unfold n in *; Z.div_mod_to_equations; lia).
    rewrite Es', (seqZ_app 0 n 1) by lia. rewrite map_app, Hl, Z.add_0_l, (seqZ_cons n) by lia. cbn [map].
    unfold f' at 1. rewrite Hnew, mkdirent_val by lia. change (seqZ (Z.succ n) (Z.pred 1)) with (@nil Z). cbn [map]. apply assoc_snoc; [done|lia].
  - assert (Es' : i_size i' / 16 = n) by (rewrite Es; unfold n in *; Z.div_mod_to_equations; lia).
    assert (Eseq : seqZ 0 n = seqZ 0 j ++ j :: seqZ (j + 1) (n - j - 1)).
    { replace n with (j + (n - j)) at 1 by lia. rewrite seqZ_app by lia. rewrite Z.add_0_l, (seqZ_cons j) by lia.
      do 3 f_equal; lia. }
    assert (Hr : map f' (seqZ (j + 1) (n - j - 1)) = map f (seqZ (j + 1) (n - j - 1))).
    { apply map_ext_in. intros k Hk%list_elem_of_In%elem_of_seqZ. unfold f', f. by rewrite Hother by lia. }
    rewrite Es', Eseq in *. rewrite !map_app in *. cbn [map] in *. rewrite Hl, Hr.
    assert (Efj : f j = (0, snd (f j))) by (unfold f, dent_val; simpl; rewrite He by lia; done).
    assert (Efj' : f' j = (inum, name_key 14 name)) by (unfold f'; rewrite Hnew; apply mkdirent_val; lia).
    rewrite Efj' , Efj in *. apply assoc_insert; [done|lia|done].
Qed.

(** A directory: its size is a whole number of entries. *)
Record dir_wf (D : Z -> block) (i : inode) : Prop := {
  dw_type : i_type i = T_DIR;
  dw_size : 0 <= i_size i <= MAXFILE * BSIZE;
  dw_mod : i_size i mod 16 = 0;
  dw_backed : backed D i (i_size i)
}.

Section dir.
Context {S B : Type} `{HBC : !BlockCache S B} (dev : Z) `{HCS : !CacheSpec S B dev}.
Variables (start size : Z) (dk : Z -> block) (sb : superblock).
Hypothesis Hstart : 0 <= start.
Hypothesis Hend : start + size <= 2147483648.
Hypothesis Hsize : 30 <= size.
Hypothesis Hly : layout sb.
Variable mypid : Z.

Abbreviation at_inode := (at_inode dev start size dk sb).

Lemma read_dent s D bs dp i de k :
  at_inode s D bs dp i -> dir_wf D i -> (length bs < 29)%nat -> length de = 16%nat -> 0 <= k < i_size i / 16 ->
  exists s', readi de_copyout dp de 0 (16 * k) 16 s = Ok (16, dent D i k) s' /\ at_inode s' D bs dp i /\ isame dp s s'.
Proof.
  intros Hat Hd Hlen Hde Hk. destruct Hd as [Ht Hsz Hm Hb].
  assert (Hfit : 16 * k + 16 <= i_size i) by (Z.div_mod_to_equations; lia). pose proof maxfile_bytes as Emax.
  destruct (readi_run dev start size dk sb Hly de_copyout (fun x => length x = 16%nat) 16) with (s := s) (D := D) (bs := bs)
    (ip := dp) (i := i) (x := de) (dst := 0) (off := 16 * k) (n := 16) as (s' & cs & E & Hcs & Hat' & Hs & _); try done; try lia.
  { intros dst l x Hx Hdst Hl. split; [done|]. simpl. rewrite length_splice; lia. }
  assert (Ek : Z.min 16 (i_size i - 16 * k) = 16) by lia. rewrite Ek in *. exists s'. split; [|done].
  rewrite E. do 2 f_equal. fold (dent D i k) in Hcs.
  assert (Hl : length (dent D i k) = 16%nat) by (unfold dent, file_read; by rewrite length_map_seqZ).
  pose proof (de_chunks cs de 0 ltac:(rewrite Hcs, Hl; lia)) as Hc. change (Z.of_nat 0) with 0 in Hc. rewrite Hc, Hcs. apply splice_all. lia.
Qed.

(** ** [dirlookup] *)

Lemma dirlookup_loop_run fuel s D bs dp i name de k n :
  at_inode s D bs dp i -> dir_wf D i -> (length bs < 29)%nat -> length de = 16%nat ->
  0 <= k -> k + Z.of_nat n = i_size i / 16 -> (n < fuel)%nat ->
  exists s', at_inode s' D bs dp i /\ isame dp s s' /\
    dirlookup_loop fuel dp name de (16 * k) s =
    match find_dent D i name n k with
    | None => Ok None s'
    | Some j => (let! ip := iget dev (de_inum (dent D i j)) in ret (Some (ip, 16 * j))) s'
    end.
Proof.
  revert s de k n. induction fuel as [|fuel IH]; intros s de k n Hat Hd Hlen Hde Hk Hn Hf; [lia|].
  pose proof maxfile_bytes as Emax. pose proof (dw_size _ _ Hd) as Hsz. pose proof (dw_mod _ _ Hd) as Hm.
  cbn [dirlookup_loop]. erewrite bind_Ok by reflexivity. rewrite (ai_entry _ _ _ _ _ _ _ _ _ _ Hat).
  destruct n as [|n]; cbn [find_dent].
  - destruct (Z.ltb_spec (16 * k) (i_size i)); [Z.div_mod_to_equations; lia|].
    exists s. split; [done|]. split; [by apply same_isame|done].
  - destruct (Z.ltb_spec (16 * k) (i_size i)); [|Z.div_mod_to_equations; lia].
    destruct (read_dent s D bs dp i de k) as (s1 & E1 & Hat1 & Hs1); [done..|lia|].
    erewrite bind_Ok by exact E1. cbv beta iota. change (negb (16 =? 16)) with false. cbv iota.
    assert (Hl : length (dent D i k) = 16%nat) by (unfold dent, file_read; by rewrite length_map_seqZ).
    rewrite u32_small by (Z.div_mod_to_equations; lia). replace (16 * k + 16) with (16 * (k + 1)) by lia.
    destruct (IH s1 (dent D i k) (k + 1) n) as (s2 & Hat2 & Hs2 & E2); [done..|lia|lia|lia|].
    destruct (Z.eqb_spec (de_inum (dent D i k)) 0) as [E0|E0]; cbn [negb andb].
    { exists s2. split; [done|]. split; [by eapply isame_trans|done]. }
    destruct (Z.eqb_spec (namecmp name (de_name (dent D i k))) 0) as [En|En].
    + exists s1. split; [done|]. split; [done|]. by rewrite (ai_dev _ _ _ _ _ _ _ _ _ _ Hat).
    + exists s2. split; [done|]. split; [by eapply isame_trans|done].
Qed.

Lemma dirlookup_run s D bs dp i name :
  at_inode s D bs dp i -> dir_wf D i -> (length bs < 29)%nat ->
  exists s', at_inode s' D bs dp i /\ isame dp s s' /\
    dirlookup dp name s =
    match find_dent D i name (Z.to_nat (i_size i / 16)) 0 with
    | None => Ok None s'
    | Some j => (let! ip := iget dev (de_inum (dent D i j)) in ret (Some (ip, 16 * j))) s'
    end.
Proof.
  intros Hat Hd Hlen. unfold dirlookup. erewrite bind_Ok by reflexivity. rewrite (ai_entry _ _ _ _ _ _ _ _ _ _ Hat), (dw_type _ _ Hd).
  change (negb (T_DIR =? T_DIR)) with false. cbv iota. pose proof (dw_size _ _ Hd).
  assert (0 <= i_size i / 16) by (apply Z.div_pos; lia).
  apply (dirlookup_loop_run (Z.to_nat (i_size i / 16 + 2)) s D bs dp i name (repeat 0 16) 0 (Z.to_nat (i_size i / 16))); try done; lia.
Qed.

(** ** [dirlink] *)

Lemma find_empty_run fuel s D bs dp i de k n :
  at_inode s D bs dp i -> dir_wf D i -> (length bs < 29)%nat -> length de = 16%nat ->
  0 <= k -> k + Z.of_nat n = i_size i / 16 -> (n < fuel)%nat ->
  exists s' j, find_empty fuel dp de (16 * k) s = Ok (16 * j) s' /\ at_inode s' D bs dp i /\ isame dp s s' /\
    k <= j <= i_size i / 16 /\ (j < i_size i / 16 -> de_inum (dent D i j) = 0).
Proof.
  revert s de k n. induction fuel as [|fuel IH]; intros s de k n Hat Hd Hlen Hde Hk Hn Hf; [lia|].
  pose proof (dw_mod _ _ Hd) as Hm. cbn [find_empty]. erewrite bind_Ok by reflexivity. rewrite (ai_entry _ _ _ _ _ _ _ _ _ _ Hat).
  destruct n as [|n].
  - destruct (Z.ltb_spec (16 * k) (i_size i)); [Z.div_mod_to_equations; lia|].
    exists s, k. split; [done|]. split; [done|]. split; [by apply same_isame|lia].
  - destruct (Z.ltb_spec (16 * k) (i_size i)); [|Z.div_mod_to_equations; lia].
    destruct (read_dent s D bs dp i de k) as (s1 & E1 & Hat1 & Hs1); [done..|lia|].
    erewrite bind_Ok by exact E1. cbv beta iota. change (negb (16 =? 16)) with false. cbv iota.
    assert (Hl : length (dent D i k) = 16%nat) by (unfold dent, file_read; by rewrite length_map_seqZ).
    destruct (Z.eqb_spec (de_inum (dent D i k)) 0) as [E0|E0].
    + exists s1, k. split; [done|]. split; [done|]. split; [done|]. split; [lia|done].
    + replace (16 * k + 16) with (16 * (k + 1)) by lia.
      destruct (IH s1 (dent D i k) (k + 1) n) as (s2 & j & E2 & Hat2 & Hs2 & Hj & He); [done..|lia|lia|lia|].
      exists s2, j. split; [done|]. split; [done|]. split; [by eapply isame_trans|]. split; [lia|done].
Qed.

(** Adding a name that is not there. *)
Lemma dirlink_run s D bs dp i name inum :
  at_inode s D bs dp i -> dir_wf D i -> Forall is_byte name -> dir_map D i (name_key 14 name) = None ->
  0 < inum < 65536 -> 0 <= i_inum i < sb_ninodes sb -> i_size i + 16 <= MAXFILE * BSIZE ->
  (length bs <= 22)%nat -> (2 <= nfree sb D)%nat ->
  exists s' D' i' bs' W, dirlink (S := S) (B := B) mypid dp name inum s = Ok 0 s' /\ at_inode s' D' bs' dp i' /\ dir_wf D' i' /\ isame dp s s' /\
    (forall key, dir_map D' i' key = if bool_decide (name_key 14 name = key) then Some inum else dir_map D i key) /\
    logged bs bs' W /\ fsblocks sb W /\ (length W <= 7)%nat /\ i_ref i' = i_ref i /\ i_inum i' = i_inum i.
Proof.
  intros Hat Hd Hb Hno Hi Hin Hmax Hlen Hfree. pose proof maxfile_bytes as Emax.
  destruct Hd as [Ht Hsz Hm Hbk] eqn:Edw. clear Edw. pose proof Hd as Hdw.
  assert (Hok : forall k, block_ok (D k)) by apply (ai_ok _ _ _ _ _ _ _ _ _ _ Hat).
  destruct (dirlookup_run s D bs dp i name Hat Hdw) as (s1 & Hat1 & Hs1 & E1); [lia|].
  pose proof (find_dent_map D i name Hok Hb ltac:(lia)) as Hf.
  destruct (find_dent D i name (Z.to_nat (i_size i / 16)) 0) as [j|]; [destruct Hf as [_ Hf]; congruence|]. clear Hf.
  unfold dirlink. erewrite bind_Ok by exact E1. cbv iota. erewrite bind_Ok by reflexivity.
  rewrite (ai_entry _ _ _ _ _ _ _ _ _ _ Hat1). assert (0 <= i_size i / 16) by (apply Z.div_pos; lia).
  destruct (find_empty_run (Z.to_nat (i_size i / 16 + 2)) s1 D bs dp i (repeat 0 16) 0 (Z.to_nat (i_size i / 16)))
    as (s2 & j & E2 & Hat2 & Hs2 & Hj & He); [done|done|lia|done|lia|lia|lia|].
  erewrite bind_Ok by exact E2.
  assert (Hbl : blocks_left (16 * j) 16 = 1) by (unfold blocks_left, BSIZE; simpl; Z.div_mod_to_equations; lia).
  destruct (writei_run dev start size dk sb Hstart Hend Hsize Hly (de_copyin (mkdirent inum name)) (byte_at (mkdirent inum name)) 16)
    with (s := s2) (D := D) (bs := bs) (ip := dp) (i := i) (src := 0) (off := 16 * j) (n := 16)
    as (s3 & D3 & i3 & bs3 & W & E3 & Hat3 & Hs3 & Hw & Hlg & HW & HlW & _); try done; try lia.
  { intros a m Ha Hm' Hle. apply de_copyin_spec; [done|done|]. rewrite mkdirent_length. lia. }
  { intros a. by apply mkdirent_bytes. }
  { Z.div_mod_to_equations; lia. }
  { Z.div_mod_to_equations; lia. }
  erewrite bind_Ok by exact E3. change (negb (16 =? 16)) with false. cbv iota.
  destruct (wf_inode _ _ _ _ _ _ _ _ Hw) as [l Ei3].
  assert (Esz : i_size i3 = Z.max (i_size i) (16 * j + 16)) by (by rewrite Ei3).
  exists s3, D3, i3, bs3, W. split; [done|]. split; [done|]. split; [|split; [eauto using isame_trans|split; [|split; [done|split; [done|split; [lia|by rewrite Ei3]]]]]].
  - split; [by rewrite Ei3|rewrite Esz; Z.div_mod_to_equations; lia|rewrite Esz; Z.div_mod_to_equations; lia|apply Hw].
  - assert (Hdent : forall k, 0 <= k -> 16 * k + 16 <= i_size i3 ->
      dent D3 i3 k = if k =? j then mkdirent inum name else dent D i k).
    { intros k Hk0 Hk1. apply list_eq. intros q. unfold dent at 1, file_read.
      destruct (decide (q < 16)%nat) as [Hq|Hq]; last first.
      { rewrite lookup_ge_None_2 by (rewrite length_map_seqZ; lia). symmetry. apply lookup_ge_None_2.
        destruct (k =? j); [rewrite mkdirent_length; lia|]. unfold dent, file_read. rewrite length_map_seqZ. lia. }
      rewrite map_seqZ_lookup by lia. rewrite (wf_bytes _ _ _ _ _ _ _ _ Hw) by lia.
      destruct (Z.eqb_spec k j) as [->|Hne]; case_range; try lia.
      - replace (0 + (16 * j + Z.of_nat q - 16 * j)) with (Z.of_nat q) by lia.
        rewrite <- byte_at_lookup by (rewrite mkdirent_length; lia). by rewrite Nat2Z.id.
      - unfold dent, file_read. by rewrite map_seqZ_lookup by lia. }
    apply (dents_update D i D3 i3 j inum name); try done; try lia.
    + intros k Hk Hne. rewrite Hdent by (Z.div_mod_to_equations; lia). by destruct (Z.eqb_spec k j).
    + rewrite Hdent by lia. by rewrite Z.eqb_refl.
Qed.

(** A name that is there is refused. *)
Lemma dirlink_exists s D bs dp i name inum :
  at_inode s D bs dp i -> dir_wf D i -> Forall is_byte name -> (length bs < 29)%nat -> is_Some (dir_map D i (name_key 14 name)) ->
  exists s' inum', at_inode s' D bs dp i /\ isame dp s s' /\ dir_map D i (name_key 14 name) = Some inum' /\
    dirlink (S := S) (B := B) mypid dp name inum s = (let! ip := iget dev inum' in iput mypid ip ;; ret (-1)) s'.
Proof.
  intros Hat Hd Hb Hlen [x Hx]. pose proof (dw_size _ _ Hd) as Hsz.
  assert (Hok : forall k, block_ok (D k)) by apply (ai_ok _ _ _ _ _ _ _ _ _ _ Hat).
  destruct (dirlookup_run s D bs dp i name Hat Hd Hlen) as (s1 & Hat1 & Hs1 & E1).
  pose proof (find_dent_map D i name Hok Hb ltac:(lia)) as Hf.
  destruct (find_dent D i name (Z.to_nat (i_size i / 16)) 0) as [j|]; [|congruence]. destruct Hf as [Hj Hf].
  exists s1, (de_inum (dent D i j)). split; [done|]. split; [done|]. split; [done|].
  unfold dirlink. unfold bind at 1. rewrite E1. unfold bind, ret.
  destruct (iget dev (de_inum (dent D i j)) s1); done.
Qed.
End dir.
