(* ===== verification/FsName.v ===== *)
(** * Path resolution: [namex], [namei], [nameiparent]

    What a path denotes on the disk is a walk through directory maps
    ([resolve]).  [namex] is shown to find exactly that inode, with one more
    reference to it in the inode table and every other count as before; the
    buffer cache and the log are only read. *)

From S2P Require Import Prelude Memory CString Block Cache Sleeplock Log LogProofs LogSpec Fs FsBlocks FsAlloc FsMap FsFile FsInode FsTrunc FsDir.

(** ** Paths

    [skipelem] against the list of the elements of a path. *)

(** The non-empty stretches between slashes; [acc] is the element so far. *)
Fixpoint elems_from (acc : list Z) (path : list Z) : list (list Z) :=
  match path with
  | [] => if bool_decide (acc = []) then [] else [acc]
  | c :: path' =>
      if c =? 47 then (if bool_decide (acc = []) then [] else [acc]) ++ elems_from [] path'
      else elems_from (acc ++ [c]) path'
  end.

Definition path_elems (path : list Z) : list (list Z) := elems_from [] path.

(** The bytes of a C string. *)
Definition path_ok (path : list Z) : Prop := Forall (fun c => c <> 0) path.

Lemma skip_slashes_elems path : path_elems (skip_slashes path) = path_elems path.
Proof.
  induction path as [|c path IH]; [done|]. unfold path_elems in *. cbn [skip_slashes elems_from].
  destruct (c =? 47) eqn:E; [|cbn [elems_from]; by rewrite E]. rewrite IH. by rewrite bool_decide_eq_true_2.
Qed.

Lemma skip_slashes_length path : (length (skip_slashes path) <= length path)%nat.
Proof. induction path as [|c path IH]; simpl; [lia|]. destruct (c =? 47); simpl; lia. Qed.

Lemma skip_slashes_head path c rest : skip_slashes path = c :: rest -> c <> 47.
Proof. induction path as [|d path IH]; [done|]. simpl. destruct (Z.eqb_spec d 47) as [|Hd]; [auto|]. by intros [= <- _]. Qed.

Lemma skip_slashes_suffix path : exists l, path = l ++ skip_slashes path.
Proof.
  induction path as [|c path [l IH]]; [by exists []|]. cbn [skip_slashes]. destruct (c =? 47); [|by exists []].
  exists (c :: l). simpl. congruence.
Qed.

Lemma skip_slashes_ok path : path_ok path -> path_ok (skip_slashes path).
Proof. intros H. destruct (skip_slashes_suffix path) as [l E]. unfold path_ok in *. rewrite E in H. by apply Forall_app in H as [_ ?]. Qed.

Lemma take_elem_spec path e rest :
  path_ok path -> take_elem path = (e, rest) ->
  path = e ++ rest /\ Forall (fun c => c <> 47) e /\ (rest = [] \/ exists r, rest = 47 :: r).
Proof.
  intros H. revert e rest. induction H as [|c path Hc _ IH]; intros e rest; cbn [take_elem].
  - intros [= <- <-]. split; [done|]. split; [constructor|by left].
  - destruct (Z.eqb_spec c 47) as [->|Hs]; cbn [orb].
    + intros [= <- <-]. split; [done|]. split; [constructor|right; by eexists].
    + destruct (Z.eqb_spec c 0); [done|]. destruct (take_elem path) as [e' r']. intros [= <- <-].
      destruct (IH e' r' eq_refl) as (E & H1 & H2). split; [by rewrite E|]. split; [by constructor|done].
Qed.

Lemma elems_from_elem acc e rest :
  Forall (fun c => c <> 47) e -> elems_from acc (e ++ rest) = elems_from (acc ++ e) rest.
Proof.
  intros H. revert acc. induction H as [|c e Hc _ IH]; intros acc; [by rewrite app_nil_r|].
  cbn [app elems_from]. destruct (Z.eqb_spec c 47); [done|]. rewrite IH. by rewrite <- app_assoc.
Qed.

Lemma elems_from_nonempty acc path : acc <> [] -> elems_from acc path <> [].
Proof.
  revert acc. induction path as [|c path IH]; intros acc Ha; cbn [elems_from].
  - by rewrite bool_decide_eq_false_2.
  - destruct (c =? 47); [by rewrite bool_decide_eq_false_2|]. apply IH. by destruct acc.
Qed.

Lemma elems_of_elem e rest :
  e <> [] -> Forall (fun c => c <> 47) e -> (rest = [] \/ exists r, rest = 47 :: r) ->
  path_elems (e ++ rest) = e :: path_elems rest.
Proof.
  intros Hne He Hr. unfold path_elems. rewrite elems_from_elem by done. simpl app.
  destruct Hr as [->|[r ->]]; cbn [elems_from]; [by rewrite bool_decide_eq_false_2|].
  rewrite Z.eqb_refl. rewrite bool_decide_eq_false_2 by done. done.
Qed.

Lemma name_key_take n l : path_ok l -> name_key n l = take n l.
Proof.
  intros H. revert n. induction H as [|c l Hc _ IH]; intros n; destruct n; try done. simpl.
  destruct (Z.eqb_spec c 0); [done|]. by rewrite IH.
Qed.

Lemma name_key_stop n l rest : path_ok l -> (length l < n)%nat -> name_key n (l ++ 0 :: rest) = l.
Proof.
  intros H. revert n. induction H as [|c l Hc _ IH]; intros n Hn; destruct n; simpl in *; try lia; [done|].
  destruct (Z.eqb_spec c 0); [done|]. f_equal. apply IH. lia.
Qed.

(** The array [name] after [skipelem] denotes the element, cut to [DIRSIZ]. *)
Lemma skipelem_name name s :
  path_ok s -> length name = 14%nat ->
  let name' := if DIRSIZ <=? Z.of_nat (length s) then splice name 0 (take 14 s) else splice name 0 (s ++ [0]) in
  length name' = 14%nat /\ name_key 14 name' = take 14 s.
Proof.
  intros Hs Hl. cbv zeta. unfold DIRSIZ. destruct (Z.leb_spec 14 (Z.of_nat (length s))) as [Hge|Hlt].
  - assert (Ht : length (take 14 s) = 14%nat) by (rewrite length_take; lia).
    rewrite splice_all by lia. split; [done|]. rewrite name_key_take; [by rewrite take_take|]. by apply Forall_take.
  - split; [rewrite length_splice; rewrite ?length_app; simpl; lia|]. unfold splice. rewrite take_0. simpl app at 1.
    rewrite <- app_assoc. simpl app. rewrite name_key_stop by (done || lia). by rewrite take_ge by lia.
Qed.

(** [skipelem] takes the path apart element by element: it returns the null
    pointer exactly when no element is left; otherwise the element, cut to
    [DIRSIZ] bytes, is in [name] and the returned path, which is shorter and
    has no leading slash, holds the remaining elements. *)
Lemma skipelem_spec path name :
  path_ok path -> length name = 14%nat ->
  match skipelem path name with
  | None => path_elems path = []
  | Some (rest, name') => exists e, path_elems path = e :: path_elems rest /\ name_key 14 name' = take 14 e /\
      length name' = 14%nat /\ (length rest < length path)%nat /\ path_ok rest /\
      (at_end rest = true <-> path_elems rest = [])
  end.
Proof.
  intros Hp Hn. unfold skipelem. pose proof (skip_slashes_ok _ Hp) as Hp'. pose proof (skip_slashes_length path) as Hl.
  rewrite <- (skip_slashes_elems path). destruct (skip_slashes path) as [|c l] eqn:E; [done|].
  pose proof (skip_slashes_head _ _ _ E) as Hc. pose proof Hp' as Hp2. apply Forall_cons in Hp2 as [Hc0 _].
  cbn [at_end]. destruct (Z.eqb_spec c 0) as [|_]; [done|]. destruct (take_elem (c :: l)) as [s rest] eqn:Et.
  destruct (take_elem_spec _ _ _ Hp' Et) as (Es & Hs & Hr).
  assert (Hsne : s <> []).
  { intros ->. cbn [take_elem] in Et. destruct (Z.eqb_spec c 47); [done|]. destruct (Z.eqb_spec c 0); [done|]. cbn [orb] in Et.
    by destruct (take_elem l). }
  rewrite Es in Hp'. apply Forall_app in Hp' as [Hps Hpr].
  destruct (skipelem_name name s Hps Hn) as [Hn1 Hn2]. exists s.
  rewrite Es, elems_of_elem, skip_slashes_elems by done. split; [done|]. split; [done|]. split; [done|]. split; [|split].
  - pose proof (skip_slashes_length rest). apply (f_equal length) in Es. rewrite length_app in Es.
    assert (0 < length s)%nat by (destruct s; [done|simpl; lia]). lia.
  - by apply skip_slashes_ok.
  - rewrite <- (skip_slashes_elems rest). pose proof (skip_slashes_ok _ Hpr) as Hok.
    destruct (skip_slashes rest) as [|d r] eqn:Er; [done|]. pose proof (skip_slashes_head _ _ _ Er) as Hd.
    apply Forall_cons in Hok as [Hd0 _]. simpl. destruct (Z.eqb_spec d 0); [done|]. split; [done|]. intros Hx. exfalso.
    unfold path_elems in Hx. cbn [elems_from] in Hx. destruct (Z.eqb_spec d 47); [done|].
    by apply elems_from_nonempty in Hx.
Qed.

(** The bytes of path and element are bytes of the path. *)
Lemma skipelem_bytes path name rest name' :
  Forall is_byte path -> Forall is_byte name -> skipelem path name = Some (rest, name') -> Forall is_byte rest /\ Forall is_byte name'.
Proof.
  intros Hp Hn. unfold skipelem.
  assert (Hss : forall l, Forall is_byte l -> Forall is_byte (skip_slashes l)).
  { intros l Hl. destruct (skip_slashes_suffix l) as [l' E]. rewrite E in Hl. by apply Forall_app in Hl as [_ ?]. }
  assert (Hte : forall l, Forall is_byte l -> Forall is_byte (fst (take_elem l)) /\ Forall is_byte (snd (take_elem l))).
  { intros l Hl. induction Hl as [|c l Hc Hl [I1 I2]]; [done|]. cbn [take_elem]. destruct ((c =? 47) || (c =? 0)); [by split; [|constructor]|].
    destruct (take_elem l) as [a b]. cbn in *. split; [by constructor|done]. }
  destruct (at_end (skip_slashes path)); [done|]. pose proof (Hte _ (Hss _ Hp)) as [H1 H2].
  destruct (take_elem (skip_slashes path)) as [a b]. cbn in H1, H2. intros [= <- <-]. split; [by apply Hss|].
  destruct (DIRSIZ <=? _); apply bytes_splice; try done; [by apply Forall_take|]. apply Forall_app. split; [done|]. repeat constructor; done.
Qed.

#[local] Set Warnings "-clear-no-such-hyp".

(** ** Directories on the disk *)

Section tree.
Variable sb : superblock.

(** An entry of the table that holds nothing. *)
Definition blank_inode : inode := mkinode 0 0 0 initsleeplock false 0 0 0 0 0 [].

(** Inode [inum] as the disk has it. *)
Definition disk_inode (D : Z -> block) (inum : Z) : inode :=
  load_dinode (D (IBLOCK inum sb)) (dinode_off inum) blank_inode.

(** An allocated inode with a name. *)
Record linked (D : Z -> block) (inum : Z) : Prop := {
  lk_range : 0 < inum < sb_ninodes sb;
  lk_type : i_type (disk_inode D inum) <> 0;
  lk_nlink : i_nlink (disk_inode D inum) <> 0
}.

(** Directories are well formed and name linked inodes. *)
Record tree_ok (D : Z -> block) : Prop := {
  to_dir inum : linked D inum -> i_type (disk_inode D inum) = T_DIR ->
    dir_wf D (disk_inode D inum) /\ file_wf sb D (disk_inode D inum);
  to_entry inum key n : linked D inum -> i_type (disk_inode D inum) = T_DIR ->
    dir_map D (disk_inode D inum) key = Some n -> linked D n
}.

(** What the elements of a path denote, from inode [inum] on: the inode, or with
    [parent] the directory of the last element. *)
Fixpoint resolve (D : Z -> block) (parent : bool) (inum : Z) (elems : list (list Z)) : option Z :=
  match elems with
  | [] => if parent then None else Some inum
  | e :: es =>
      if negb (i_type (disk_inode D inum) =? T_DIR) then None
      else if parent && bool_decide (es = []) then Some inum
      else
        match dir_map D (disk_inode D inum) (take 14 e) with
        | None => None
        | Some n => resolve D parent n es
        end
  end.

(** [i] has the fields of inode [inum] on the disk. *)
Definition loaded (D : Z -> block) (i : inode) : Prop :=
  load_dinode (D (IBLOCK (i_inum i) sb)) (dinode_off (i_inum i)) i = i.

Lemma loaded_fields D i :
  loaded D i -> i_type i = i_type (disk_inode D (i_inum i)) /\ i_nlink i = i_nlink (disk_inode D (i_inum i)) /\
    i_size i = i_size (disk_inode D (i_inum i)) /\ i_addrs i = i_addrs (disk_inode D (i_inum i)).
Proof. unfold loaded. intros H. rewrite <- H at 1 3 5 7. done. Qed.

Lemma slot_same D i i' k : i_addrs i' = i_addrs i -> slot D i' k = slot D i k.
Proof. intros E. unfold slot. by rewrite E. Qed.

Lemma file_wf_same D i i' : i_addrs i' = i_addrs i -> file_wf sb D i -> file_wf sb D i'.
Proof.
  intros E [H1 H2 H3]. split; [by rewrite E| |].
  - intros k. rewrite (slot_same D i i') by done. apply H2.
  - intros j k. rewrite !(slot_same D i i') by done. apply H3.
Qed.

Lemma fbyte_same D i i' j : i_addrs i' = i_addrs i -> fbyte D i' j = fbyte D i j.
Proof. intros E. unfold fbyte. by rewrite (slot_same D i i'). Qed.

Lemma dir_wf_same D i i' :
  i_type i' = i_type i -> i_size i' = i_size i -> i_addrs i' = i_addrs i -> dir_wf D i -> dir_wf D i'.
Proof.
  intros Et Es Ea [H1 H2 H3 H4]. split; [congruence|by rewrite Es|by rewrite Es|]. rewrite Es. intros j Hj.
  rewrite (slot_same D i i') by done. by apply H4.
Qed.

Lemma dir_map_same D i i' key : i_size i' = i_size i -> i_addrs i' = i_addrs i -> dir_map D i' key = dir_map D i key.
Proof.
  intros Es Ea. assert (E : forall k, dent D i' k = dent D i k).
  { intros k. apply map_ext. intros j. by apply fbyte_same. }
  unfold dir_map, dents. rewrite Es. erewrite map_ext; [reflexivity|]. intros k. by rewrite E.
Qed.
End tree.

(** ** The inode table *)

Definition busy (i : inode) : Z := if 0 <? i_ref i then 1 else 0.

(** How many entries are in use. *)
Definition nlive (t : nat -> inode) : Z := foldr (fun k n => busy (t k) + n) 0 (seq 0 NINODE).

Lemma nlive_list (t t' : nat -> inode) ip l :
  NoDup l -> (forall k, k <> ip -> t' k = t k) ->
  foldr (fun k n => busy (t' k) + n) 0 l =
  foldr (fun k n => busy (t k) + n) 0 l + if decide (ip ∈ l) then busy (t' ip) - busy (t ip) else 0.
Proof.
  intros Hl Ht. induction Hl as [|k l Hk Hl IH]; [cbn [foldr]; rewrite decide_False by apply not_elem_of_nil; lia|]. cbn [foldr]. rewrite IH.
  destruct (decide (k = ip)) as [->|Hne].
  - rewrite (decide_False (P := ip ∈ l)) by done. rewrite decide_True by (by left). lia.
  - rewrite (Ht k) by done. destruct (decide (ip ∈ l)) as [H|H].
    + rewrite decide_True by (by right). lia.
    + rewrite decide_False; [lia|]. intros [?|?]%elem_of_cons; congruence.
Qed.

Lemma nlive_update (t t' : nat -> inode) ip :
  (ip < NINODE)%nat -> (forall k, k <> ip -> t' k = t k) -> nlive t' = nlive t + (busy (t' ip) - busy (t ip)).
Proof.
  intros Hip Ht. unfold nlive. rewrite (nlive_list t t' ip) by (apply NoDup_ListNoDup, seq_NoDup || done).
  rewrite decide_True; [done|]. apply list_elem_of_In, in_seq. lia.
Qed.

Lemma nlive_full t : (forall k, (k < NINODE)%nat -> 0 < i_ref (t k)) -> nlive t = Z.of_nat NINODE.
Proof.
  intros H. unfold nlive. assert (E : forall l, (forall k, k ∈ l -> busy (t k) = 1) -> foldr (fun k n => busy (t k) + n) 0 l = Z.of_nat (length l)).
  { induction l as [|k l IH]; intros Hl; [done|]. cbn [foldr length]. rewrite IH, Hl by set_solver. lia. }
  rewrite E; [by rewrite length_seq|]. intros k Hk%list_elem_of_In%in_seq. unfold busy. specialize (H k ltac:(lia)).
  by destruct (Z.ltb_spec 0 (i_ref (t k))); [|lia].
Qed.

Section name.
Context {S B : Type} `{HBC : !BlockCache S B} (dev : Z) `{HCS : !CacheSpec S B dev}.
Variables (start size : Z) (dk : Z -> block) (sb : superblock).
Hypothesis Hstart : 0 <= start.
Hypothesis Hend : start + size <= 2147483648.
Hypothesis Hsize : 30 <= size.
Hypothesis Hly : layout sb.
Variable mypid : Z.
Variables (D : Z -> block) (bs : list Z).
Hypothesis Hbs : (length bs < 29)%nat.
Hypothesis Hbit : bitmap_ok sb D.
Hypothesis Htree : tree_ok sb D.

Abbreviation fs_rep := (fs_rep dev start size dk).

(** No inode is locked but possibly [but], and what the table holds is what the disk holds. *)
Record settled (but : option nat) (s : fsst S) : Prop := {
  se_rep : fs_rep s D [] bs;
  se_sb : fs_sb s = sb;
  se_ok : itable_ok (itable s);
  se_lock k : (k < NINODE)%nat -> Some k <> but -> locked (i_lock (itable s k)) = false;
  se_valid inum k : live (itable s) dev inum k -> i_valid (itable s k) = true -> loaded sb D (itable s k)
}.

Lemma loaded_keep v lk r i : loaded sb D i -> loaded sb D (set_iref r (set_ivalid v (set_ilock lk i))).
Proof using Type.
  unfold loaded, load_dinode, set_iref, set_ivalid, set_ilock. destruct i as [a b c d e f g h k l m].
  cbn [i_dev i_inum i_ref i_lock i_valid i_type i_major i_minor i_nlink i_size i_addrs]. intros H. injection H. intros. by repeat f_equal.
Qed.

Lemma loaded_iref r i : loaded sb D i -> loaded sb D (set_iref r i).
Proof using Type. intros H. apply (loaded_keep (i_valid i) (i_lock i) r) in H. by destruct i. Qed.

(** ** The steps of the loop *)

(** Entry [ip] is locked by this process and holds inode [inum]. *)
Record holding_inode (s : fsst S) (ip : nat) (inum : Z) : Prop := {
  hi_live : live (itable s) dev inum ip;
  hi_valid : i_valid (itable s ip) = true;
  hi_loaded : loaded sb D (itable s ip);
  hi_lock : i_lock (itable s ip) = mksleeplock true mypid
}.

Lemma name_ilock s ip inum :
  settled None s -> live (itable s) dev inum ip -> linked sb D inum ->
  exists s', ilock mypid ip s = Ok tt s' /\ settled (Some ip) s' /\ holding_inode s' ip inum /\
    (forall d n, refs_of (itable s') d n = refs_of (itable s) d n) /\ nlive (itable s') = nlive (itable s).
Proof using Hstart Hend Hsize Hly Hbs.
  intros [H1 H2 H3 H4 H5] Hl [K1 K2 K3]. pose proof Hl as (L1 & L2 & L3 & L4).
  destruct (ilock_run dev start size dk sb Hly mypid s D bs ip H1 H2) as (s' & E & [Es Ho] & Hr & Ei); try done; try lia.
  { by apply H4. }
  { right. rewrite L4. exact K2. }
  set (j := if i_valid (itable s ip) then itable s ip else _) in Ei.
  assert (Hj : loaded sb D j /\ i_ref j = i_ref (itable s ip) /\ i_dev j = i_dev (itable s ip) /\ i_inum j = i_inum (itable s ip)).
  { unfold j. destruct (i_valid (itable s ip)) eqn:Ev; [|done]. split; [|done]. by apply (H5 inum). }
  destruct Hj as (J1 & J2 & J3 & J4).
  assert (Hid : forall k, i_ref (itable s' k) = i_ref (itable s k) /\ i_dev (itable s' k) = i_dev (itable s k) /\ i_inum (itable s' k) = i_inum (itable s k)).
  { intros k. destruct (decide (k = ip)) as [->|Hne]; [|by rewrite Ho]. rewrite Ei. cbn. done. }
  assert (Hlo : loaded sb D (itable s' ip)).
  { rewrite Ei. replace (set_ivalid _ _) with (set_iref (i_ref j) (set_ivalid true (set_ilock (mksleeplock true mypid) j))) by done. by apply loaded_keep. }
  destruct (itable_agree _ _ Hid H3) as [Hok Href].
  exists s'. split; [done|]. split; [|split; [|split; [done|]]].
  - split; [done|congruence|done| |].
    + intros k Hk Hne. rewrite Ho by congruence. by apply H4.
    + intros m k Hk Hv. destruct (decide (k = ip)) as [->|Hne]; [done|]. rewrite Ho in * by done. apply (H5 m k); [|done].
      unfold live in *. by rewrite Ho in Hk.
  - split; [|by rewrite Ei|done|by rewrite Ei]. unfold live. destruct (Hid ip) as (-> & -> & ->). done.
  - rewrite (nlive_update (itable s) (itable s') ip L1 Ho). unfold busy. destruct (Hid ip) as (-> & _). lia.
Qed.

Lemma iput_plain s ip :
  (i_ref (itable s ip) =? 1) && i_valid (itable s ip) && (i_nlink (itable s ip) =? 0) = false ->
  iput (S := S) mypid ip s = Ok tt (set_itable (iupd (itable s) ip (set_iref (s32 (i_ref (itable s ip) - 1)) (itable s ip))) s).
Proof using Type. intros H. unfold iput. erewrite bind_Ok by reflexivity. rewrite H. by erewrite bind_Ok by reflexivity. Qed.

Lemma name_iunlock s ip inum :
  settled (Some ip) s -> holding_inode s ip inum ->
  exists s', iunlock mypid ip s = Ok tt s' /\ settled None s' /\ (forall m k, live (itable s') dev m k <-> live (itable s) dev m k) /\
    (forall d n, refs_of (itable s') d n = refs_of (itable s) d n) /\ nlive (itable s') = nlive (itable s).
Proof using Hstart Hend Hsize Hly Hbs.
  intros [H1 H2 H3 H4 H5] [K1 K2 K3 K4]. pose proof K1 as (L1 & L2 & L3 & L4).
  destruct (iunlock_run dev start size dk mypid s ip) as (s1 & E1 & Ei & [Es Ho] & Hr); [by rewrite K4|by rewrite K4|lia|].
  assert (Hid : forall k, i_ref (itable s1 k) = i_ref (itable s k) /\ i_dev (itable s1 k) = i_dev (itable s k) /\ i_inum (itable s1 k) = i_inum (itable s k)).
  { intros k. destruct (decide (k = ip)) as [->|Hne]; [by rewrite Ei|by rewrite Ho]. }
  destruct (itable_agree _ _ Hid H3) as [Hok Href].
  exists s1. split; [done|]. split; [|split; [|split; [done|]]].
  - split; [by apply Hr|congruence|done| |].
    + intros k Hk _. destruct (decide (k = ip)) as [->|Hne]; [by rewrite Ei|]. rewrite Ho by done. apply H4; congruence.
    + intros m k Hk Hv. destruct (decide (k = ip)) as [->|Hne].
      * rewrite Ei. replace (set_ilock _ _) with (set_iref (i_ref (itable s ip)) (set_ivalid true (set_ilock (mksleeplock false 0) (itable s ip)))).
        -- by apply loaded_keep.
        -- unfold set_iref, set_ivalid, set_ilock. cbn. by rewrite K2.
      * unfold live in Hk. rewrite Ho in * by done. by apply (H5 m).
  - intros m k. unfold live. by destruct (Hid k) as (-> & -> & ->).
  - rewrite (nlive_update (itable s) (itable s1) ip L1 Ho). unfold busy. destruct (Hid ip) as (-> & _). lia.
Qed.

Lemma name_iput s ip inum :
  settled None s -> live (itable s) dev inum ip -> linked sb D inum ->
  exists s', iput mypid ip s = Ok tt s' /\ settled None s' /\
    (forall m k, live (itable s) dev m k -> (m = inum -> 1 < refs_of (itable s) dev inum) -> live (itable s') dev m k) /\
    (forall d n, refs_of (itable s') d n = refs_of (itable s) d n - if decide ((d, n) = (dev, inum)) then 1 else 0) /\
    nlive (itable s') = nlive (itable s) - (if decide (refs_of (itable s) dev inum = 1) then 1 else 0).
Proof using Hstart Hend Hsize Hly Hbs.
  intros [H1 H2 H3 H4 H5] K1 Hlk. pose proof K1 as (L1 & L2 & L3 & L4).
  assert (Hcond : (i_ref (itable s ip) =? 1) && i_valid (itable s ip) && (i_nlink (itable s ip) =? 0) = false).
  { destruct (i_valid (itable s ip)) eqn:Ev; [|by rewrite andb_false_r].
    destruct (loaded_fields sb D _ (H5 inum ip K1 Ev)) as (_ & En & _). rewrite En, L4.
    destruct (Z.eqb_spec (i_nlink (disk_inode sb D inum)) 0) as [E0|]; [|by rewrite andb_false_r]. by destruct (lk_nlink _ _ _ Hlk). }
  destruct (iput_keep mypid s dev inum ip H3 K1 Hcond) as (s2 & E2 & Hok2 & R1 & R2 & Hot & Esb & Elog).
  pose proof (iput_plain s ip Hcond) as E2'. rewrite E2 in E2'. injection E2' as E2'. pose proof (io_ref _ H3 ip L1) as Hr.
  assert (Eip : itable s2 ip = set_iref (i_ref (itable s ip) - 1) (itable s ip)).
  { rewrite E2'. cbn. unfold iupd. rewrite Nat.eqb_refl. by rewrite s32_small by lia. }
  exists s2. split; [done|]. split; [|split; [|split]].
  - split; [|congruence|done| |].
    + rewrite E2'. by apply fs_rep_itable.
    + intros k Hk _. destruct (decide (k = ip)) as [->|Hne]; [rewrite Eip; by apply H4|]. rewrite Hot by done. by apply H4.
    + intros m k Hk Hv. destruct (decide (k = ip)) as [->|Hne]; [|unfold live in Hk; rewrite Hot in * by done; by apply (H5 m)].
      rewrite Eip in *. by apply loaded_iref, (H5 inum).
  - intros m k Hk Hm. destruct (decide (k = ip)) as [->|Hne]; [|unfold live; by rewrite Hot].
    assert (m = inum) as -> by (destruct Hk as (_ & _ & _ & <-); done). specialize (Hm eq_refl). rewrite (refs_of_live _ _ _ _ H3 K1) in Hm.
    unfold live. rewrite Eip. cbn. split_and!; [done|lia|done|done].
  - intros d n. destruct (decide ((d, n) = (dev, inum))) as [[= -> ->]|Hne]; [by rewrite R1|]. rewrite R2 by done. lia.
  - rewrite (nlive_update (itable s) (itable s2) ip L1 Hot). unfold busy. rewrite Eip. cbn.
    rewrite (refs_of_live _ _ _ _ H3 K1). destruct (Z.ltb_spec 0 (i_ref (itable s ip))), (Z.ltb_spec 0 (i_ref (itable s ip) - 1)), (decide (i_ref (itable s ip) = 1)); lia.
Qed.

Lemma name_unlockput s ip inum :
  settled (Some ip) s -> holding_inode s ip inum -> linked sb D inum ->
  exists s', iunlockput mypid ip s = Ok tt s' /\ settled None s' /\
    (forall m k, live (itable s) dev m k -> (m = inum -> 1 < refs_of (itable s) dev inum) -> live (itable s') dev m k) /\
    (forall d n, refs_of (itable s') d n = refs_of (itable s) d n - if decide ((d, n) = (dev, inum)) then 1 else 0) /\
    nlive (itable s') = nlive (itable s) - (if decide (refs_of (itable s) dev inum = 1) then 1 else 0).
Proof using Hstart Hend Hsize Hly Hbs.
  intros Hs Hh Hlk. destruct (name_iunlock s ip inum Hs Hh) as (s1 & E1 & Hs1 & Hl1 & R1 & N1).
  destruct (name_iput s1 ip inum Hs1) as (s2 & E2 & Hs2 & Hl2 & R2 & N2); [by apply Hl1, Hh|done|].
  exists s2. unfold iunlockput. rewrite (bind_Ok _ _ _ _ _ E1). rewrite R1, N1 in N2. rewrite R1 in Hl2.
  split; [done|]. split; [done|]. split; [|split; [|done]].
  - intros m k Hk. by apply Hl2, Hl1.
  - intros d n. by rewrite R2, R1.
Qed.

Lemma iget_lock d n s ip s' : iget (S := S) d n s = Ok ip s' -> i_lock (itable s' ip) = i_lock (itable s ip).
Proof using Type.
  unfold iget. erewrite bind_Ok by reflexivity. destruct (iget_scan _ _ _ _ _ _) as [[k|] e].
  - intros [= <- <-]. cbn. unfold iupd. by rewrite Nat.eqb_refl.
  - destruct e as [k|]; [|done]. intros [= <- <-]. cbn. unfold iupd. by rewrite Nat.eqb_refl.
Qed.

(** An entry that [iget] takes for a new inode was free. *)
Lemma iget_was_free t t' n next :
  itable_ok t -> refs_of t dev n = 0 -> live t' dev n next -> (forall k, k <> next -> t' k = t k) ->
  (forall d m, (d, m) <> (dev, n) -> refs_of t' d m = refs_of t d m) -> itable_ok t' -> i_ref (t next) = 0.
Proof using Hbs.
  intros Hok H0 Hl Hot Href Hok'. pose proof Hl as (L1 & L2 & L3 & L4). pose proof (io_ref _ Hok next L1) as Hr.
  destruct (decide (i_ref (t next) = 0)) as [|Hne]; [done|]. exfalso.
  set (d := i_dev (t next)). set (m := i_inum (t next)). assert (Hln : live t d m next) by (split; [done|split; [lia|done]]).
  destruct (decide ((d, m) = (dev, n))) as [[= E1 E2]|Hdm].
  - rewrite E1, E2 in Hln. rewrite (refs_of_live _ _ _ _ Hok Hln) in H0. lia.
  - pose proof (Href d m Hdm) as E. rewrite (refs_of_live _ _ _ _ Hok Hln) in E.
    destruct (refs_of_cases t' d m) as [[k Hk]|Hn]; [|rewrite (refs_of_dead _ _ _ Hn) in E; lia].
    destruct (decide (k = next)) as [->|Hkn]; [destruct Hk as (_ & _ & E1 & E2); congruence|].
    unfold live in Hk. rewrite Hot in Hk by done. apply Hkn, (io_unique _ Hok d m); [exact Hk|exact Hln].
Qed.

(** [iget] while [ip] is locked. *)
Lemma name_iget s but n :
  settled but s -> nlive (itable s) < Z.of_nat NINODE -> refs_of (itable s) dev n < 2147483646 ->
  exists next s', iget dev n s = Ok next s' /\ settled but s' /\ live (itable s') dev n next /\
    (forall d m, refs_of (itable s') d m = refs_of (itable s) d m + if decide ((d, m) = (dev, n)) then 1 else 0) /\
    nlive (itable s') = nlive (itable s) + (if decide (refs_of (itable s) dev n = 0) then 1 else 0) /\
    (forall ip inum, holding_inode s ip inum -> holding_inode s' ip inum).
Proof using Hbs.
  intros [H1 H2 H3 H4 H5] Hn Hmax.
  destruct (iget_run s dev n H3 Hmax) as [(next & s' & E & Hl & Hok & R1 & R2 & Hot & Es & Elog & Hent)|(_ & _ & Hall)]; last first.
  { rewrite (nlive_full _ Hall) in Hn. lia. }
  pose proof Hl as (L1 & L2 & L3 & L4).
  assert (Hnext : refs_of (itable s) dev n <> 0 -> live (itable s) dev n next).
  { intros H0. rewrite decide_False in Hent by done. destruct (refs_of_cases (itable s) dev n) as [[k Hk]|Hd]; [|by rewrite refs_of_dead in H0].
    rewrite Hent in L2, L3, L4. cbn in L2, L3, L4. pose proof (io_ref _ H3 next L1) as Hr.
    destruct (decide (k = next)) as [->|Hne]; [done|]. exfalso.
    apply Hne, (io_unique _ Hok dev n); [|done]. unfold live. by rewrite Hot. }
  exists next, s'. split; [done|]. split; [|split; [done|split; [|split]]].
  - split; [|congruence|done| |].
    + destruct H1 as [Hv Hlo Ho Hnd]. split; by rewrite ?Elog.
    + intros k Hk Hne. destruct (decide (k = next)) as [->|Hkn]; [rewrite (iget_lock _ _ _ _ _ E)|rewrite Hot by done]; by apply H4.
    + intros m k Hk Hv. destruct (decide (k = next)) as [->|Hkn]; last first.
      { unfold live in Hk. rewrite Hot in * by done. by apply (H5 m). }
      destruct (decide (refs_of (itable s) dev n = 0)) as [E0|E0]; [congruence|]. rewrite Hent in *. cbn in Hv.
      by apply loaded_iref, (H5 n next (Hnext E0)).
  - intros d m. destruct (decide ((d, m) = (dev, n))) as [[= -> ->]|Hne]; [by rewrite R1|]. rewrite R2 by done. lia.
  - rewrite (nlive_update _ _ next L1 Hot). unfold busy. destruct (Z.ltb_spec 0 (i_ref (itable s' next))); [|lia].
    destruct (decide (refs_of (itable s) dev n = 0)) as [E0|E0].
    + rewrite (iget_was_free (itable s) (itable s') n next) by done. cbn. lia.
    + destruct (Hnext E0) as (_ & Hp & _). destruct (Z.ltb_spec 0 (i_ref (itable s next))); lia.
  - intros ip inum [K1 K2 K3 K4]. destruct (decide (ip = next)) as [->|Hne]; last first.
    { split; unfold live; by rewrite Hot. }
    assert (inum = n) as ->.
    { destruct (decide (refs_of (itable s) dev n = 0)) as [E0|E0].
      - pose proof (iget_was_free (itable s) (itable s') n next H3 E0 Hl Hot R2 Hok). destruct K1 as (_ & ? & _). lia.
      - destruct (Hnext E0) as (_ & _ & _ & En). destruct K1 as (_ & _ & _ & En'). congruence. }
    assert (E0 : refs_of (itable s) dev n <> 0) by (rewrite (refs_of_live _ _ _ _ H3 K1); destruct K1 as (_ & ? & _); lia).
    rewrite decide_False in Hent by done. split; [done|by rewrite Hent|rewrite Hent|by rewrite Hent].
    by apply loaded_iref.
Qed.

(** [dirlookup] in the locked directory [inum]. *)
Lemma name_lookup s ip inum name :
  settled (Some ip) s -> holding_inode s ip inum -> linked sb D inum -> i_type (disk_inode sb D inum) = T_DIR -> Forall is_byte name ->
  nlive (itable s) < Z.of_nat NINODE -> (forall n, refs_of (itable s) dev n < 2147483646) ->
  match dir_map D (disk_inode sb D inum) (name_key 14 name) with
  | None => exists s', dirlookup ip name s = Ok None s' /\ settled (Some ip) s' /\ holding_inode s' ip inum /\
      (forall d m, refs_of (itable s') d m = refs_of (itable s) d m) /\ nlive (itable s') = nlive (itable s)
  | Some n => exists next off s', dirlookup ip name s = Ok (Some (next, off)) s' /\ settled (Some ip) s' /\ holding_inode s' ip inum /\
      live (itable s') dev n next /\
      (forall d m, refs_of (itable s') d m = refs_of (itable s) d m + if decide ((d, m) = (dev, n)) then 1 else 0) /\
      nlive (itable s') = nlive (itable s) + (if decide (refs_of (itable s) dev n = 0) then 1 else 0)
  end.
Proof using Hstart Hend Hsize Hly Hbs Hbit Htree.
  intros Hse Hho Hlk Hty Hname Hn Hmax. pose proof Hho as [K1 K2 K3 K4]. pose proof K1 as (L1 & L2 & L3 & L4).
  destruct (loaded_fields sb D _ K3) as (F1 & F2 & F3 & F4). rewrite L4 in F1, F2, F3, F4.
  destruct (to_dir _ _ Htree inum Hlk Hty) as [Hdw Hfw].
  pose proof (dir_wf_same D _ _ F1 F3 F4 Hdw) as Hdw'. pose proof (file_wf_same sb D _ _ F4 Hfw) as Hfw'.
  assert (Hat : at_inode dev start size dk sb s D bs ip (itable s ip)) by (split; try done; apply Hse).
  destruct (dirlookup_run dev start size dk sb Hly s D bs ip (itable s ip) name Hat Hdw' Hbs) as (s1 & Hat1 & [Es1 Ho1] & E).
  pose proof (find_dent_map D (itable s ip) name (bo_blocks _ _ Hbit) Hname (proj1 (dw_size _ _ Hdw'))) as Hmap.
  rewrite (dir_map_same D _ _ _ F3 F4) in Hmap.
  assert (Et : forall k, itable s1 k = itable s k).
  { intros k. destruct (decide (k = ip)) as [->|]; [apply Hat1|by apply Ho1]. }
  assert (Hid : forall k, i_ref (itable s1 k) = i_ref (itable s k) /\ i_dev (itable s1 k) = i_dev (itable s k) /\ i_inum (itable s1 k) = i_inum (itable s k))
    by (intros k; by rewrite Et).
  destruct Hse as [H1 H2 H3 H4 H5]. destruct (itable_agree _ _ Hid H3) as [Hok Href].
  assert (Hse1 : settled (Some ip) s1).
  { split; [apply Hat1|apply Hat1|done|intros k; rewrite Et; apply H4|]. intros m k. unfold live. rewrite Et. apply H5. }
  assert (Hho1 : holding_inode s1 ip inum) by (split; unfold live; by rewrite Et).
  assert (Hnl : nlive (itable s1) = nlive (itable s)).
  { rewrite (nlive_update (itable s) (itable s1) ip L1) by (intros k _; apply Et). rewrite Et. lia. }
  destruct (find_dent D (itable s ip) name _ 0) as [j|].
  - destruct Hmap as [_ ->]. set (n := de_inum _) in *.
    destruct (name_iget s1 (Some ip) n Hse1) as (next & s2 & E2 & Hse2 & Hl2 & R2 & N2 & Hh2); [lia|by rewrite Href|].
    exists next, (16 * j), s2. rewrite E, (bind_Ok _ _ _ _ _ E2). split; [done|]. split; [done|]. split; [by apply Hh2|]. split; [done|].
    rewrite N2, Hnl, Href. split; [|done]. intros d m. by rewrite R2, Href.
  - rewrite Hmap. by exists s1.
Qed.

(** ** The loop *)

(** One reference to inode [n], on device [d], among the references to [cur]. *)
Definition one (cur d n : Z) : Z := if decide ((d, n) = (dev, cur)) then 1 else 0.

(** The table holds the references [R0] of others, over [L0] entries, and one to [cur]. *)
Definition others (R0 : Z -> Z -> Z) (L0 : Z) (cur : Z) (t : nat -> inode) : Prop :=
  (forall d n, refs_of t d n = R0 d n + one cur d n) /\ nlive t = L0 + if decide (R0 dev cur = 0) then 1 else 0.

Lemma namex_loop_run fuel s ip cur path parent name R0 L0 :
  settled None s -> live (itable s) dev cur ip -> linked sb D cur -> others R0 L0 cur (itable s) ->
  L0 + 2 <= Z.of_nat NINODE -> (forall n, 0 <= R0 dev n < 2147483640) ->
  path_ok path -> Forall is_byte path -> length name = 14%nat -> Forall is_byte name -> (length path < fuel)%nat ->
  exists r s', namex_loop mypid fuel ip path parent name s = Ok r s' /\ settled None s' /\
    match resolve sb D parent cur (path_elems path) with
    | Some n => exists ip', fst r = Some ip' /\ live (itable s') dev n ip' /\ linked sb D n /\ others R0 L0 n (itable s') /\
        (parent = true -> exists e, last (path_elems path) = Some e /\ name_key 14 (snd r) = take 14 e)
    | None => fst r = None /\ forall d n, refs_of (itable s') d n = R0 d n
    end.
Proof using Hstart Hend Hsize Hly Hbs Hbit Htree.
  revert s ip cur path name. induction fuel as [|fuel IH]; intros s ip cur path name Hs Hl Hlk [HR HL] H2 HR0 Hp Hpb Hn Hnb Hf; [lia|].
  cbn [namex_loop]. pose proof (skipelem_spec path name Hp Hn) as Hsk. destruct (skipelem path name) as [[rest name']|] eqn:Esk; last first.
  { rewrite Hsk. cbn [resolve]. destruct parent.
    - destruct (name_iput s ip cur Hs Hl Hlk) as (s1 & E1 & Hs1 & _ & R1 & _). rewrite (bind_Ok _ _ _ _ _ E1).
      eexists _, s1. split; [reflexivity|]. split; [done|]. split; [done|]. intros d n. rewrite R1, HR. unfold one. lia.
    - eexists _, s. split; [reflexivity|]. split; [done|]. exists ip. split_and!; try done. }
  destruct Hsk as (e & Ee & Hkey & Hn' & Hlen & Hp' & Hend'). rewrite Ee. cbn [resolve].
  destruct (skipelem_bytes path name rest name' Hpb Hnb Esk) as [Hpb' Hnb'].
  destruct (name_ilock s ip cur Hs Hl Hlk) as (s1 & E1 & Hs1 & Hh1 & R1 & N1). rewrite (bind_Ok _ _ _ _ _ E1).
  erewrite bind_Ok by reflexivity. pose proof (hi_live _ _ _ Hh1) as (L1 & L2 & L3 & L4).
  destruct (loaded_fields sb D _ (hi_loaded _ _ _ Hh1)) as (F1 & _). rewrite L4 in F1. rewrite F1.
  destruct (Z.eqb_spec (i_type (disk_inode sb D cur)) T_DIR) as [Hty|Hty]; cbn [negb]; last first.
  { destruct (name_unlockput s1 ip cur Hs1 Hh1 Hlk) as (s2 & E2 & Hs2 & _ & R2 & _). rewrite (bind_Ok _ _ _ _ _ E2).
    eexists _, s2. split; [reflexivity|]. split; [done|]. split; [done|]. intros d n. rewrite R2, R1, HR. unfold one. lia. }
  assert (Hae : at_end rest = bool_decide (path_elems rest = [])).
  { apply eq_true_iff_eq. by rewrite bool_decide_eq_true, Hend'. }
  rewrite Hae. destruct (parent && bool_decide (path_elems rest = [])) eqn:Epar.
  { destruct (name_iunlock s1 ip cur Hs1 Hh1) as (s2 & E2 & Hs2 & Hl2 & R2 & N2). rewrite (bind_Ok _ _ _ _ _ E2).
    eexists _, s2. split; [reflexivity|]. split; [done|]. exists ip. split; [done|]. split; [by apply Hl2, Hh1|]. split; [done|]. split.
    - split; [intros d n; by rewrite R2, R1|by rewrite N2, N1].
    - intros _. apply andb_true_iff in Epar as [_ Epar%bool_decide_eq_true]. rewrite Epar. exists e. done. }
  assert (Hfree : nlive (itable s1) < Z.of_nat NINODE) by (rewrite N1, HL; destruct (decide _); lia).
  assert (Hmax : forall n, refs_of (itable s1) dev n < 2147483646).
  { intros n. rewrite R1, HR. specialize (HR0 n). unfold one. repeat destruct (decide _); lia. }
  pose proof (name_lookup s1 ip cur name' Hs1 Hh1 Hlk Hty Hnb' Hfree Hmax) as Hlu. rewrite Hkey in Hlu.
  destruct (dir_map D (disk_inode sb D cur) (take 14 e)) as [n|] eqn:Em; last first.
  { destruct Hlu as (s2 & E2 & Hs2 & Hh2 & R2 & _). rewrite (bind_Ok _ _ _ _ _ E2).
    destruct (name_unlockput s2 ip cur Hs2 Hh2 Hlk) as (s3 & E3 & Hs3 & _ & R3 & _). rewrite (bind_Ok _ _ _ _ _ E3).
    eexists _, s3. split; [reflexivity|]. split; [done|]. split; [done|]. intros d m. rewrite R3, R2, R1, HR. unfold one. lia. }
  destruct Hlu as (next & off & s2 & E2 & Hs2 & Hh2 & Hl2 & R2 & N2). rewrite (bind_Ok _ _ _ _ _ E2).
  destruct (name_unlockput s2 ip cur Hs2 Hh2 Hlk) as (s3 & E3 & Hs3 & Hl3 & R3 & N3). rewrite (bind_Ok _ _ _ _ _ E3).
  assert (Hlkn : linked sb D n) by (by apply (to_entry _ _ Htree cur (take 14 e))).
  assert (Hoth : others R0 L0 n (itable s3)).
  { split; [intros d m; rewrite R3, R2, R1, HR; unfold one; lia|]. rewrite N3, N2, N1, HL, R2, !R1, !HR.
    pose proof (HR0 n). pose proof (HR0 cur). unfold one. destruct (decide (n = cur)) as [->|Hne].
    - repeat (rewrite (decide_True (P := (dev, cur) = (dev, cur))) by done). repeat destruct (decide _); lia.
    - rewrite (decide_False (P := (dev, n) = (dev, cur))) by congruence. rewrite (decide_True (P := (dev, cur) = (dev, cur))) by done.
      rewrite (decide_False (P := (dev, cur) = (dev, n))) by congruence. repeat destruct (decide _); lia. }
  specialize (Hl3 n next Hl2). rewrite R2, R1, HR in Hl3.
  assert (Hln : live (itable s3) dev n next).
  { apply Hl3. intros ->. pose proof (HR0 cur). unfold one. rewrite !decide_True by done. lia. }
  destruct (IH s3 next n rest name' Hs3 Hln Hlkn Hoth H2 HR0 Hp' Hpb' Hn' Hnb' ltac:(lia)) as (r & s4 & E4 & Hs4 & Hpost).
  exists r, s4. split; [done|]. split; [done|].
  destruct (resolve sb D parent n (path_elems rest)) as [m|]; [|done]. destruct Hpost as (ip2 & P1 & P2 & P3 & P4 & P5).
  exists ip2. split_and!; try done. intros Hpar. destruct (P5 Hpar) as (e' & Ee' & Hk'). exists e'. split; [|done].
  rewrite last_cons, Ee'. done.
Qed.

Lemma name_idup s ip c :
  settled None s -> live (itable s) dev c ip -> refs_of (itable s) dev c < 2147483646 ->
  exists s', idup ip s = Ok ip s' /\ settled None s' /\ live (itable s') dev c ip /\
    (forall d m, refs_of (itable s') d m = refs_of (itable s) d m + one c d m) /\ nlive (itable s') = nlive (itable s).
Proof using Hbs.
  intros [H1 H2 H3 H4 H5] Hl Hmax. pose proof Hl as (L1 & L2 & L3 & L4).
  destruct (idup_run s dev c ip H3 Hl Hmax) as (s' & E & Hl' & Hok & R1 & R2 & Hot & Elog).
  rewrite (refs_of_live _ _ _ _ H3 Hl) in Hmax. pose proof (io_ref _ H3 ip L1) as Hr.
  assert (E' : idup ip s = Ok ip (set_itable (iupd (itable s) ip (set_iref (s32 (i_ref (itable s ip) + 1)) (itable s ip))) s)) by done.
  rewrite E in E'. injection E' as E'. assert (Eip : itable s' ip = set_iref (i_ref (itable s ip) + 1) (itable s ip)).
  { rewrite E'. cbn. unfold iupd. rewrite Nat.eqb_refl. by rewrite s32_small by lia. }
  exists s'. split; [done|]. split; [|split; [done|split]].
  - split; [|by rewrite E'|done| |].
    + rewrite E'. by apply fs_rep_itable.
    + intros k Hk Hn. destruct (decide (k = ip)) as [->|Hne]; [rewrite Eip|rewrite Hot by done]; by apply H4.
    + intros m k Hk Hv. destruct (decide (k = ip)) as [->|Hne]; [|unfold live in Hk; rewrite Hot in * by done; by apply (H5 m)].
      rewrite Eip in *. by apply loaded_iref, (H5 c).
  - intros d m. unfold one. destruct (decide ((d, m) = (dev, c))) as [[= -> ->]|Hne]; [by rewrite R1|]. rewrite R2 by done. lia.
  - rewrite (nlive_update (itable s) (itable s') ip L1 Hot). unfold busy. rewrite Eip. cbn.
    destruct (Z.ltb_spec 0 (i_ref (itable s ip))), (Z.ltb_spec 0 (i_ref (itable s ip) + 1)); lia.
Qed.

Lemma slash_case {A} (path : list Z) (a b : A) :
  (match path with 47 :: _ => a | _ => b end) = if decide (head path = Some 47) then a else b.
Proof using Type.
  destruct path as [|x path]; [done|]. cbn [head]. destruct (decide (Some x = Some 47)) as [[= ->]|Hx]; [done|].
  destruct x as [|x|x]; try done. do 6 (destruct x as [x|x|]; try done).
Qed.

(** The inode a path starts from. *)
Definition path_start (c : Z) (path : list Z) : Z := match path with 47 :: _ => ROOTINO | _ => c end.

Lemma namex_run s cwd c path parent name :
  dev = ROOTDEV -> settled None s -> (head path = Some 47 \/ live (itable s) dev c cwd /\ linked sb D c) -> linked sb D ROOTINO ->
  nlive (itable s) + 2 <= Z.of_nat NINODE -> (forall n, refs_of (itable s) dev n < 2147483640) ->
  path_ok path -> Forall is_byte path -> length name = 14%nat -> Forall is_byte name ->
  exists r s', namex mypid cwd path parent name s = Ok r s' /\ settled None s' /\
    match resolve sb D parent (path_start c path) (path_elems path) with
    | Some n => exists ip, fst r = Some ip /\ live (itable s') dev n ip /\ linked sb D n /\
        (forall d m, refs_of (itable s') d m = refs_of (itable s) d m + one n d m) /\
        (parent = true -> exists e, last (path_elems path) = Some e /\ name_key 14 (snd r) = take 14 e)
    | None => fst r = None /\ forall d m, refs_of (itable s') d m = refs_of (itable s) d m
    end.
Proof using Hstart Hend Hsize Hly Hbs Hbit Htree.
  intros Hdev Hs Hc Hlr Hnl Hmax Hp Hpb Hn Hnb. set (cur := path_start c path).
  assert (Hst : exists ip s1, (match path with 47 :: _ => iget ROOTDEV ROOTINO | _ => idup cwd end) s = Ok ip s1 /\ settled None s1 /\
    live (itable s1) dev cur ip /\ others (refs_of (itable s)) (nlive (itable s)) cur (itable s1)).
  { unfold cur, path_start. rewrite !slash_case. destruct (decide (head path = Some 47)) as [Eh|Eh].
    - rewrite <- Hdev. destruct (name_iget s None ROOTINO Hs) as (ip & s1 & E1 & Hs1 & Hl1 & R1 & N1 & _); [lia|specialize (Hmax ROOTINO); lia|].
      by exists ip, s1.
    - destruct Hc as [?|[Hcw Hlc]]; [done|].
      destruct (name_idup s cwd c Hs Hcw) as (s1 & E1 & Hs1 & Hl1 & R1 & N1); [specialize (Hmax c); lia|].
      exists cwd, s1. split_and!; try done. split; [done|]. rewrite N1, decide_False; [lia|].
      rewrite (refs_of_live _ _ _ _ (se_ok _ _ Hs) Hcw). destruct Hcw as (_ & ? & _). lia. }
  destruct Hst as (ip & s1 & E1 & Hs1 & Hl1 & Ho1). unfold namex. rewrite (bind_Ok _ _ _ _ _ E1).
  assert (Hlk : linked sb D cur).
  { unfold cur, path_start. rewrite slash_case. destruct (decide _); [done|]. by destruct Hc as [?|[_ ?]]. }
  assert (HR0 : forall n, 0 <= refs_of (itable s) dev n < 2147483640).
  { intros n. split; [|apply Hmax]. destruct (refs_of_cases (itable s) dev n) as [[k Hk]|Hd]; [|by rewrite refs_of_dead].
    rewrite (refs_of_live _ _ _ _ (se_ok _ _ Hs) Hk). destruct Hk as (_ & ? & _). lia. }
  destruct (namex_loop_run (Datatypes.S (length path)) s1 ip cur path parent name _ _ Hs1 Hl1 Hlk Ho1 Hnl HR0 Hp Hpb Hn Hnb ltac:(lia))
    as (r & s2 & E2 & Hs2 & Hpost). exists r, s2. split; [done|]. split; [done|].
  destruct (resolve sb D parent cur (path_elems path)) as [m|]; [|done].
  destruct Hpost as (ip' & P1 & P2 & P3 & [P4 _] & P5). by exists ip'.
Qed.

(** C24.  Path resolution.  In a file system whose directories are well formed,
    [namei] finds exactly the inode the path denotes, from the root or from the
    current directory, through any number of directories, or returns the null
    pointer if it denotes none; [nameiparent] finds the directory of the last
    element and leaves that element, cut to [DIRSIZ] bytes, in [name].  The
    result has one reference more than before, every other inode as many as
    before, whichever way the walk ends; no inode stays locked. *)
Theorem namei_correct s cwd c path name :
  dev = ROOTDEV -> settled None s -> (head path = Some 47 \/ live (itable s) dev c cwd /\ linked sb D c) -> linked sb D ROOTINO ->
  nlive (itable s) + 2 <= Z.of_nat NINODE -> (forall n, refs_of (itable s) dev n < 2147483640) ->
  path_ok path -> Forall is_byte path -> length name = 14%nat -> Forall is_byte name ->
  let elems := path_elems path in
  (exists r s', namei mypid cwd path s = Ok r s' /\ settled None s' /\
    match resolve sb D false (path_start c path) elems with
    | Some n => exists ip, r = Some ip /\ live (itable s') dev n ip /\
        forall d m, refs_of (itable s') d m = refs_of (itable s) d m + one n d m
    | None => r = None /\ forall d m, refs_of (itable s') d m = refs_of (itable s) d m
    end) /\
  (exists r name' s', nameiparent mypid cwd path name s = Ok (r, name') s' /\ settled None s' /\
    match resolve sb D true (path_start c path) elems with
    | Some n => exists ip e, r = Some ip /\ live (itable s') dev n ip /\ last elems = Some e /\ name_key 14 name' = take 14 e /\
        forall d m, refs_of (itable s') d m = refs_of (itable s) d m + one n d m
    | None => r = None /\ forall d m, refs_of (itable s') d m = refs_of (itable s) d m
    end).
Proof using Hstart Hend Hsize Hly Hbs Hbit Htree.
  intros Hdev Hs Hc Hlr Hnl Hmax Hp Hpb Hn Hnb elems. split.
  - assert (Hz : Forall is_byte (repeat 0 14)) by (repeat constructor; done).
    destruct (namex_run s cwd c path false (repeat 0 14) Hdev Hs Hc Hlr Hnl Hmax Hp Hpb eq_refl Hz) as (r & s' & E & Hs' & Hpost).
    exists (fst r), s'. unfold namei. rewrite (bind_Ok _ _ _ _ _ E). split; [done|]. split; [done|]. fold elems in Hpost.
    destruct (resolve _ _ _ _ _); [|done]. destruct Hpost as (ip & P1 & P2 & _ & P4 & _). by exists ip.
  - destruct (namex_run s cwd c path true name Hdev Hs Hc Hlr Hnl Hmax Hp Hpb Hn Hnb) as ([r name'] & s' & E & Hs' & Hpost).
    exists r, name', s'. split; [done|]. split; [done|]. fold elems in Hpost.
    destruct (resolve _ _ _ _ _); [|done]. destruct Hpost as (ip & P1 & P2 & _ & P4 & P5).
    destruct (P5 eq_refl) as (e & E1 & E2). by exists ip, e.
Qed.
End name.
