(* ===== verification/FsSpec.v ===== *)
(** * The specification of the file system

    The properties of [fs.c], over any block cache that satisfies the
    interface, and end to end on [bio.c]: a file write followed by the commit
    of its transaction is atomic under crashes. *)

From S2P Require Import Prelude Memory CString Block Cache Sleeplock Bio BioProofs Log LogProofs LogSpec LogSpace Fs FsBlocks FsAlloc FsMap FsFile FsInode FsTrunc FsDir.

(** ** What file system code leaves alone

    The operations of [fs.c] call [log_write] but neither [begin_op] nor
    [end_op]: they do not change the bookkeeping of outstanding operations. *)

Definition keeps_ops {S A} (m : M (fsst S) A) : Prop :=
  forall s a s', m s = Ok a s' ->
    outstanding (fs_log s') = outstanding (fs_log s) /\ committing (fs_log s') = committing (fs_log s).

Create HintDb keeps_ops.

Section keeps.
Context {S B : Type} `{HBC : !BlockCache S B}.

Lemma ops_ret {A} (a : A) : keeps_ops (S := S) (ret a).
Proof. by intros s b s' [= <- <-]. Qed.

Lemma ops_get : keeps_ops (S := S) get.
Proof. by intros s b s' [= <- <-]. Qed.

Lemma ops_gets {A} (f : fsst S -> A) : keeps_ops (gets f).
Proof. by intros s b s' [= <- <-]. Qed.

Lemma ops_panic {A} msg : keeps_ops (S := S) (A := A) (panic msg).
Proof. by intros s b s'. Qed.

Lemma ops_bind {A C} (m : M (fsst S) A) (k : A -> M (fsst S) C) :
  keeps_ops m -> (forall a, keeps_ops (k a)) -> keeps_ops (bind m k).
Proof.
  intros Hm Hk s c s' (a & s1 & E1 & E2)%bind_Ok_inv.
  apply Hm in E1 as [E3 E4]. apply Hk in E2 as [E5 E6]. split; congruence.
Qed.

Lemma ops_below {A} (m : M S A) : keeps_ops (flift (lift m)).
Proof.
  intros s a s'. unfold flift, lift, zoom. destruct (m (below (fs_log s))); [|done..]. by intros [= <- <-].
Qed.

Lemma ops_log_write (b : B) : keeps_ops (log_write' b).
Proof.
  intros s a s'. unfold log_write', flift, zoom. destruct (log_write b (fs_log s)) as [[] l| |] eqn:E; [|done..].
  intros [= <- <-]. apply log_write_n in E as (_ & Eo & Ec & _). done.
Qed.

Lemma ops_iset ip f : keeps_ops (iset (S := S) ip f).
Proof. by intros s a s' [= <- <-]. Qed.

Lemma ops_ilock {A} ip (m : M sleeplock A) : keeps_ops (on_ilock (S := S) ip m).
Proof. intros s a s'. unfold on_ilock, zoom. destruct (m _); [|done..]. by intros [= <- <-]. Qed.

Lemma ops_for_up n i (body : Z -> M (fsst S) unit) : (forall j, keeps_ops (body j)) -> keeps_ops (for_up n i body).
Proof.
  intros Hb. revert i. induction n as [|n IH]; intros i; [apply ops_ret|]. apply ops_bind; [apply Hb|]. intros _. apply IH.
Qed.
End keeps.

#[export] Hint Resolve ops_ret ops_get ops_gets ops_panic ops_below ops_log_write ops_iset ops_ilock : keeps_ops.

Ltac keeps_ops :=
  repeat (first
    [ progress cbv zeta
    | match goal with
      | |- keeps_ops (bind _ _) => apply ops_bind; [|intros ?]
      | |- keeps_ops (for_up _ _ _) => apply ops_for_up; intros ?
      | |- keeps_ops (if ?b then _ else _) => destruct b
      | |- keeps_ops (match ?x with _ => _ end) => destruct x
      end
    | solve [eauto with keeps_ops] ]).

Section fs_ops.
Context {S B : Type} `{HBC : !BlockCache S B}.

Lemma ops_bzero dev bno : keeps_ops (bzero (S := S) dev bno).
Proof. unfold bzero, bread', bstore, brelse'. keeps_ops. Qed.
#[local] Hint Resolve ops_bzero : keeps_ops.

Lemma ops_balloc_loop n dev b : keeps_ops (balloc_loop (S := S) n dev b).
Proof.
  revert b. induction n as [|n IH]; intros b; cbn [balloc_loop]; [apply ops_panic|].
  unfold bread', bdata, bstore, brelse'. keeps_ops.
Qed.
#[local] Hint Resolve ops_balloc_loop : keeps_ops.

Lemma ops_balloc dev : keeps_ops (balloc (S := S) dev).
Proof. unfold balloc. keeps_ops. Qed.
#[local] Hint Resolve ops_balloc : keeps_ops.

Lemma ops_bmap ip bn : keeps_ops (bmap (S := S) ip bn).
Proof. unfold bmap, ientry, bread', bdata, bstore, brelse'. keeps_ops. Qed.
#[local] Hint Resolve ops_bmap : keeps_ops.

Lemma ops_iupdate ip : keeps_ops (iupdate (S := S) ip).
Proof. unfold iupdate, ientry, bread', bdata, bstore, brelse'. keeps_ops. Qed.
#[local] Hint Resolve ops_iupdate : keeps_ops.

Lemma ops_writei_loop fuel copyin ip src off n tot : keeps_ops (writei_loop (S := S) fuel copyin ip src off n tot).
Proof.
  revert src off tot. induction fuel as [|fuel IH]; intros src off tot; cbn [writei_loop]; [apply ops_panic|].
  unfold ientry, bread', bdata, bstore, brelse'. keeps_ops.
Qed.
#[local] Hint Resolve ops_writei_loop : keeps_ops.

Lemma ops_writei copyin ip src off n : keeps_ops (writei (S := S) copyin ip src off n).
Proof. unfold writei, ientry. keeps_ops. Qed.

Lemma ops_readi_loop {X} fuel copyout ip (x : X) dst off n tot : keeps_ops (readi_loop (S := S) fuel copyout ip x dst off n tot).
Proof.
  revert x dst off tot. induction fuel as [|fuel IH]; intros x dst off tot; cbn [readi_loop]; [apply ops_panic|].
  unfold ientry, bread', bdata, brelse'. keeps_ops.
Qed.
#[local] Hint Resolve ops_readi_loop : keeps_ops.

Lemma ops_readi {X} copyout ip (x : X) dst off n : keeps_ops (readi (S := S) copyout ip x dst off n).
Proof. unfold readi, ientry. keeps_ops. Qed.
#[local] Hint Resolve ops_readi : keeps_ops.

Lemma ops_iget dev inum : keeps_ops (iget (S := S) dev inum).
Proof. unfold iget. keeps_ops. Qed.
#[local] Hint Resolve ops_iget : keeps_ops.

Lemma ops_lock mypid ip : keeps_ops (Fs.ilock (S := S) mypid ip).
Proof. unfold Fs.ilock, ientry, bread', bdata, brelse'. keeps_ops. Qed.
#[local] Hint Resolve ops_lock : keeps_ops.

Lemma ops_bfree dev b : keeps_ops (bfree (S := S) dev b).
Proof. unfold bfree, bread', bdata, bstore, brelse'. keeps_ops. Qed.
#[local] Hint Resolve ops_bfree : keeps_ops.

Lemma ops_itrunc ip : keeps_ops (itrunc (S := S) ip).
Proof. unfold itrunc, ientry, bread', bdata, brelse'. keeps_ops. Qed.
#[local] Hint Resolve ops_itrunc : keeps_ops.

Lemma ops_iunlockput mypid ip : keeps_ops (iunlockput (S := S) mypid ip).
Proof. unfold iunlockput, iunlock, iput, ientry. keeps_ops. Qed.
#[local] Hint Resolve ops_iunlockput : keeps_ops.

Lemma ops_iunlock mypid ip : keeps_ops (iunlock (S := S) mypid ip).
Proof. unfold iunlock, ientry. keeps_ops. Qed.
#[local] Hint Resolve ops_iunlock : keeps_ops.

Lemma ops_dirlookup_loop fuel dp name de off : keeps_ops (dirlookup_loop (S := S) fuel dp name de off).
Proof. revert de off. induction fuel as [|fuel IH]; intros de off; cbn [dirlookup_loop]; [apply ops_panic|]. unfold ientry. keeps_ops. Qed.
#[local] Hint Resolve ops_dirlookup_loop : keeps_ops.

Lemma ops_namex_loop mypid fuel ip path parent name : keeps_ops (namex_loop (S := S) mypid fuel ip path parent name).
Proof.
  revert ip path name. induction fuel as [|fuel IH]; intros ip path name; cbn [namex_loop]; [apply ops_panic|].
  unfold dirlookup, iput, ientry. keeps_ops.
Qed.
#[local] Hint Resolve ops_namex_loop : keeps_ops.

Lemma ops_namei mypid cwd path : keeps_ops (namei (S := S) mypid cwd path).
Proof. unfold namei, namex, idup. keeps_ops. Qed.
End fs_ops.

#[local] Set Warnings "-clear-no-such-hyp".

(** A destination that collects what is copied to it. *)
Definition collect (dst : Z) (src : list Z) (x : list Z) : list Z * Z := (x ++ src, 0).

Lemma collect_chunks dst cs x : copy_chunks collect dst cs x = x ++ concat cs.
Proof.
  revert dst x. induction cs as [|c cs IH]; intros dst x; cbn [copy_chunks concat]; [by rewrite app_nil_r|].
  rewrite IH. simpl. by rewrite <- app_assoc.
Qed.

Section spec.
Context {S B : Type} `{HBC : !BlockCache S B} (dev : Z) `{HCS : !CacheSpec S B dev}.
Variables (start size : Z) (dk : Z -> block) (sb : superblock).
Hypothesis Hstart : 0 <= start.
Hypothesis Hend : start + size <= 2147483648.
Hypothesis Hsize : 30 <= size.
Hypothesis Hly : layout sb.

Abbreviation at_inode := (at_inode dev start size dk sb).

(** C27.  [balloc] takes the first free block of the disk, marks it used and
    zeroes it, leaving every other block and every other bit of the free map
    as it was; it panics exactly when no block is free. *)
Theorem balloc_correct s D h bs :
  fs_rep dev start size dk s D h bs -> fs_sb s = sb -> bitmap_ok sb D -> held_ok sb D h ->
  (length bs + length h < 28)%nat ->
  match balloc dev s with
  | Ok r s' => exists D' bs', alloc_step sb D r D' /\ (forall y, 0 <= y < r -> used sb D y = true) /\
      fs_rep dev start size dk s' D' h bs' /\ logged bs bs' [BBLOCK r sb; r]
  | Panic msg => msg = "balloc: out of blocks" /\ forall y, 0 <= y < sb_size sb -> used sb D y = true
  | Sleeps _ _ => False
  end.
Proof.
  intros Hr Esb Hok Hh Hlen.
  destruct (balloc_run dev start size dk sb Hstart Hend Hsize Hly s D h bs Hr Esb Hok Hh Hlen)
    as [(r & s' & D' & bs' & E & H1 & H2 & H3 & H4 & _)|[E H1]]; rewrite E; [|done].
  exists D', bs'. done.
Qed.

(** C22.  [writei] of [n] bytes at [off] returns [n], stores exactly those bytes,
    extends the size as far as needed, records the inode on the disk, and
    changes no used block that is not the file's own, the bitmap or the block
    of its inode. *)
Theorem writei_correct copyin mem hi s D bs ip i src off n :
  (forall a m, 0 <= a -> 0 <= m -> a + m <= hi -> exists r, copyin a m = (map mem (seqZ a m), r) /\ r <> -1) ->
  (forall a, is_byte (mem a)) -> hi < 2 ^ 64 ->
  at_inode s D bs ip i -> backed D i (i_size i) -> 0 <= i_inum i < sb_ninodes sb ->
  0 <= off <= i_size i -> i_size i <= MAXFILE * BSIZE -> 0 <= n -> off + n <= MAXFILE * BSIZE ->
  0 <= src -> src + n <= hi ->
  Z.of_nat (length bs) + 6 * blocks_left off n <= 28 -> 2 * blocks_left off n <= Z.of_nat (nfree sb D) ->
  exists s' D' i' bs', writei copyin ip src off n s = Ok n s' /\ at_inode s' D' bs' ip i' /\ isame ip s s' /\
    wrote_file sb (fun j => mem (src + (j - off))) D i off n D' i'.
Proof.
  intros Hc Hm Hhi Hat Hb Hin Hoff Hmax Hn Hle Hs Hsh Hbl Hf.
  destruct (writei_run dev start size dk sb Hstart Hend Hsize Hly copyin mem hi Hc Hm Hhi s D bs ip i src off n)
    as (s' & D' & i' & bs' & W & E & H1 & H2 & H3 & _); try done. by exists s', D', i', bs'.
Qed.

(** C23.  What [writei] stored, [readi] delivers: after a write of [n] bytes a read
    of the same range returns [n] and copies out exactly those bytes. *)
Theorem write_read_roundtrip copyin mem hi s D bs ip i src off n :
  (forall a m, 0 <= a -> 0 <= m -> a + m <= hi -> exists r, copyin a m = (map mem (seqZ a m), r) /\ r <> -1) ->
  (forall a, is_byte (mem a)) -> hi < 2 ^ 64 ->
  at_inode s D bs ip i -> backed D i (i_size i) -> 0 <= i_inum i < sb_ninodes sb ->
  0 <= off <= i_size i -> i_size i <= MAXFILE * BSIZE -> 0 <= n -> off + n <= MAXFILE * BSIZE ->
  0 <= src -> src + n <= hi ->
  Z.of_nat (length bs) + 6 * blocks_left off n + 1 <= 28 -> 2 * blocks_left off n <= Z.of_nat (nfree sb D) ->
  exists s' s'', writei copyin ip src off n s = Ok n s' /\
    readi collect ip [] 0 off n s' = Ok (n, map mem (seqZ src n)) s''.
Proof.
  intros Hc Hm Hhi Hat Hb Hin Hoff Hmax Hn Hle Hs Hsh Hbl Hf. pose proof maxfile_bytes as Emax.
  destruct (writei_run dev start size dk sb Hstart Hend Hsize Hly copyin mem hi Hc Hm Hhi s D bs ip i src off n)
    as (s' & D' & i' & bs' & W & E & Hat' & _ & Hw & Hlg & _ & HlW & _); try done; [lia|].
  pose proof (logged_length _ _ _ (fr_nodup _ _ _ _ _ _ _ _ (ai_rep _ _ _ _ _ _ _ _ _ _ Hat)) Hlg) as Hlen.
  destruct (wf_inode _ _ _ _ _ _ _ _ Hw) as [l Ei]. assert (Es : i_size i' = Z.max (i_size i) (off + n)) by (by rewrite Ei).
  destruct (readi_run dev start size dk sb Hly collect (fun _ => True) (2 ^ 32)) with (s := s') (D := D') (bs := bs') (ip := ip)
    (i := i') (x := @nil Z) (dst := 0) (off := off) (n := n) as (s'' & cs & E2 & Hcs & _); try done; try lia.
  { apply Hw. }
  exists s', s''. split; [done|]. rewrite E2, collect_chunks, Hcs, Z.min_l by lia. cbn [app]. do 2 f_equal.
  apply list_eq. intros k. unfold file_read. destruct (decide (k < Z.to_nat n)%nat) as [Hk|Hk].
  - rewrite !map_seqZ_lookup by done. rewrite (wf_bytes _ _ _ _ _ _ _ _ Hw) by lia. case_range; [|lia]. do 2 f_equal. lia.
  - rewrite !lookup_ge_None_2; [done|rewrite length_map_seqZ; lia..].
Qed.

(** C26.  The last [iput] of an unlinked inode frees exactly the blocks of its file
    and marks the inode free on the disk, without touching the other inodes
    or the contents of any other block. *)
Theorem iput_frees mypid s D bs ip i :
  at_inode s D bs ip i -> (length bs + length (bitmap_list sb) < 27)%nat -> 0 <= i_inum i < sb_ninodes sb ->
  i_ref i = 1 -> i_valid i = true -> i_nlink i = 0 -> locked (i_lock i) = false ->
  let ib := IBLOCK (i_inum i) sb in
  let o := dinode_off (i_inum i) in
  exists s' D' bs', iput mypid ip s = Ok tt s' /\ fs_rep dev start size dk s' D' [] bs' /\ bitmap_ok sb D' /\
    i_ref (itable s' ip) = 0 /\ geti16 (D' ib) o = 0 /\
    (forall o', apart o 64 o' 64 -> read_at (D' ib) o' 64 = read_at (D ib) o' 64) /\
    (forall x, 0 <= x < sb_size sb -> used sb D' x = true <->
       used sb D x = true /\ ~ exists k, 0 <= k < NSLOT /\ x <> 0 /\ slot D i k = x) /\
    (forall x, ~ is_bitmap sb x -> x <> ib -> D' x = D x).
Proof.
  intros Hat Hr Hin H1 Hv Hn Hl ib o.
  destruct (iput_free dev start size dk sb Hstart Hend Hsize Hly mypid s D bs ip i Hat Hr Hin H1 Hv Hn Hl)
    as (s' & D' & bs' & K1 & K2 & K3 & _ & K5 & K6 & K7 & K8 & K9 & _).
  exists s', D', bs'. repeat (split; [assumption|]). exact K9.
Qed.

(** C25.  [dirlink] binds a new name in the directory and nothing else, and
    [dirlookup] then finds it: the entry it returns is in the inode table for
    the linked inode.  ([dir_map] is the directory as a finite map.) *)
Theorem dirlink_lookup mypid s D bs dp i name inum :
  at_inode s D bs dp i -> dir_wf D i -> Forall is_byte name -> dir_map D i (name_key 14 name) = None ->
  0 < inum < 65536 -> 0 <= i_inum i < sb_ninodes sb -> i_size i + 16 <= MAXFILE * BSIZE ->
  (length bs <= 21)%nat -> (2 <= nfree sb D)%nat ->
  itable_ok (itable s) -> (exists k, (k < NINODE)%nat /\ i_ref (itable s k) = 0) -> refs_of (itable s) dev inum < 2147483646 ->
  exists s1 D' i' bs', dirlink (B := B) mypid dp name inum s = Ok 0 s1 /\ at_inode s1 D' bs' dp i' /\ dir_wf D' i' /\
    (forall key, dir_map D' i' key = if bool_decide (name_key 14 name = key) then Some inum else dir_map D i key) /\
    exists ip off s2, dirlookup (B := B) dp name s1 = Ok (Some (ip, off)) s2 /\ live (itable s2) dev inum ip.
Proof.
  intros Hat Hd Hb Hno Hi Hin Hmax Hlen Hf Htab (k & Hk & Hk0) Hrefs.
  destruct (dirlink_run dev start size dk sb Hstart Hend Hsize Hly mypid s D bs dp i name inum)
    as (s1 & D' & i' & bs' & W & E & Hat' & Hd' & Hs & Hmap & Hlg & HW & HlW & Hi'); try done; [lia|].
  exists s1, D', i', bs'. split; [done|]. split; [done|]. split; [done|]. split; [done|].
  pose proof (logged_length _ _ _ (fr_nodup _ _ _ _ _ _ _ _ (ai_rep _ _ _ _ _ _ _ _ _ _ Hat)) Hlg) as Hl1.
  destruct (dirlookup_run dev start size dk sb Hly s1 D' bs' dp i' name Hat' Hd') as (s2 & Hat2 & Hs2 & E2); [lia|].
  assert (Hok : forall k, block_ok (D' k)) by apply (ai_ok _ _ _ _ _ _ _ _ _ _ Hat').
  pose proof (find_dent_map D' i' name Hok Hb ltac:(apply Hd')) as Hfm.
  destruct (find_dent D' i' name _ 0) as [j|]; rewrite Hmap, bool_decide_eq_true_2 in Hfm by done; [|done].
  destruct Hfm as [_ [= Ej]]. rewrite <- Ej in E2.
  destruct (itable_agree (itable s) (itable s2)) as [Htok Er]; [|done|].
  { intros q. destruct (decide (q = dp)) as [->|Hq].
    - rewrite (ai_entry _ _ _ _ _ _ _ _ _ _ Hat2), (ai_entry _ _ _ _ _ _ _ _ _ _ Hat), (ai_dev _ _ _ _ _ _ _ _ _ _ Hat),
        (ai_dev _ _ _ _ _ _ _ _ _ _ Hat'). by destruct Hi' as [-> ->].
    - destruct Hs as [_ Hs], Hs2 as [_ Hs2]. by rewrite Hs2, Hs. }
  rewrite <- Er in Hrefs.
  destruct (iget_run s2 dev inum Htok Hrefs) as [(ip & s3 & E3 & Hl & _)|(_ & _ & Hfull)].
  - exists ip, (16 * j), s3. split; [|done]. rewrite E2. by erewrite bind_Ok by exact E3.
  - specialize (Hfull k Hk). exfalso. destruct (decide (k = dp)) as [->|Hne].
    + rewrite (ai_entry _ _ _ _ _ _ _ _ _ _ Hat2) in Hfull. rewrite (ai_entry _ _ _ _ _ _ _ _ _ _ Hat) in Hk0. destruct Hi' as [Hx _]. lia.
    + destruct Hs as [_ Hs], Hs2 as [_ Hs2]. rewrite Hs2, Hs in Hfull by done. lia.
Qed.
End spec.

(** C28.  The inode table is a table of reference counts: [iget] adds one
    reference to the inode and none to any other, in the one entry the inode
    has, and a fresh entry is not valid; it panics exactly when the inode is
    not in the table and every entry is in use. *)
Theorem iget_correct {S} (s : fsst S) dev inum :
  itable_ok (itable s) -> refs_of (itable s) dev inum < 2147483646 ->
  match iget dev inum s with
  | Ok ip s' => live (itable s') dev inum ip /\ itable_ok (itable s') /\
      refs_of (itable s') dev inum = refs_of (itable s) dev inum + 1 /\
      (forall dev' inum', (dev', inum') <> (dev, inum) -> refs_of (itable s') dev' inum' = refs_of (itable s) dev' inum') /\
      (refs_of (itable s) dev inum = 0 -> i_valid (itable s' ip) = false)
  | Panic _ => refs_of (itable s) dev inum = 0 /\ forall k, (k < NINODE)%nat -> 0 < i_ref (itable s k)
  | Sleeps _ _ => False
  end.
Proof.
  intros Hok Hr. destruct (iget_run s dev inum Hok Hr) as [(ip & s' & E & H1 & H2 & H3 & H4 & _ & _ & _ & H5)|(E & H1 & H2)]; rewrite E; [|done].
  split; [done|]. split; [done|]. split; [done|]. split; [done|]. intros H0. by rewrite decide_True in H5.
Qed.

(** ** Crashes *)

Section crash.
Variables (mypid dev start size : Z) (dk : Z -> block) (sb : superblock).
Hypothesis Hdev : dev <> 0.
Hypothesis Hstart : 0 <= start.
Hypothesis Hend : start + size <= 2147483648.
Hypothesis Hsize : 30 <= size.
Hypothesis Hly : layout sb.
Hypothesis Hlog : start + size <= sb_inodestart sb.

#[local] Instance fs_cache : BlockCache bcache nat := bio_cache mypid.

(** What the file system logged is a transaction of the log. *)
Lemma fs_transaction (s : fsst bcache) D bs :
  fs_rep (HCS := bio_cachespec mypid dev) dev start size dk s D [] bs -> disk_log start size dk [] ->
  fsblocks sb bs -> (0 < length bs < 30)%nat -> Z.of_nat (length bs) < size ->
  exists v, transaction (HCS := bio_cachespec mypid dev) dev start size (fs_log s) v bs /\ forall x, cv_view v x = D x.
Proof.
  intros [(v & Hc & Hv & Hdk & Hh & Hp) Hl Ho Hn] Hd Hfb Hlen Hsz. exists v. split; [|done].
  split; try done.
  - eapply Forall_impl; [exact Hfb|]. intros x Hx. cbv beta in Hx. pose proof (ly_size _ Hly) as Hs. change (2 ^ 31) with 2147483648 in Hs.
    unfold BPB, BSIZE in Hs. pose proof (ly_inode _ Hly). split; [lia|]. unfold in_log. lia.
  - eapply disk_log_ext; [|exact Hd]. intros x. by rewrite Hdk.
Qed.

(** C21.  File writes are atomic under crashes.  Write [n] bytes to a file in a
    transaction of its own and end it: whatever part of the resulting disk
    writes reaches the disk, however often the machine crashes again while it
    recovers, the next complete boot shows either the disk as it was before
    the write or the disk with the whole write ([wrote_file]) on it. *)
Theorem write_crash_atomic copyin mem hi (s : fsst bcache) D ip i src off n :
  (forall a m, 0 <= a -> 0 <= m -> a + m <= hi -> exists r, copyin a m = (map mem (seqZ a m), r) /\ r <> -1) ->
  (forall a, is_byte (mem a)) -> hi < 2 ^ 64 ->
  at_inode (HCS := bio_cachespec mypid dev) dev start size dk sb s D [] ip i -> backed D i (i_size i) ->
  0 <= i_inum i < sb_ninodes sb -> 0 <= off <= i_size i -> i_size i <= MAXFILE * BSIZE -> 0 <= n ->
  off + n <= MAXFILE * BSIZE -> 0 <= src -> src + n <= hi -> 6 * blocks_left off n <= 28 ->
  2 * blocks_left off n <= Z.of_nat (nfree sb D) -> disk_log start size dk [] ->
  outstanding (fs_log s) = 1 -> committing (fs_log s) = false ->
  exists s1 s2 D' i' ws, writei copyin ip src off n s = Ok n s1 /\
    wrote_file sb (fun j => mem (src + (j - off))) D i off n D' i' /\
    flift end_op s1 = Ok tt s2 /\
    trace (below (fs_log s2)) = trace (below (fs_log s1)) ++ ws /\
    forall k d, reboots mypid dev start size (apply_writes (disk (below (fs_log s1))) (take k ws)) d ->
    exists s3 v3, boot mypid dev start size (power_on d) = Ok tt s3 /\
      (data_eq start size (cv_view v3) dk \/ data_eq start size (cv_view v3) D') /\
      forall x, cv_view v3 x = disk (below s3) x.
Proof.
  intros Hc Hm Hhi Hat Hb Hin Hoff Hmax Hn Hle Hsrc Hsh Hbl Hf Hd Hout Hcm.
  destruct (writei_run (HCS := bio_cachespec mypid dev) dev start size dk sb Hstart Hend Hsize Hly copyin mem hi Hc Hm Hhi s D [] ip i src off n)
    as (s1 & D' & i' & bs & W & E & Hat' & Hsm & Hw & Hlg & HW & HlW & Hib); try done.
  assert (Hn0 : NoDup (@nil Z)) by constructor. pose proof (logged_length _ _ _ Hn0 Hlg) as Hlen. simpl in Hlen.
  assert (Hfb : fsblocks sb bs).
  { apply Forall_forall. intros x Hx. apply Hlg in Hx as [Hx|Hx]; [by apply not_elem_of_nil in Hx|].
    unfold fsblocks in HW. rewrite Forall_forall in HW. by apply HW. }
  assert (Hpos : (0 < length bs)%nat) by (destruct bs; [by apply not_elem_of_nil in Hib|simpl; lia]).
  set (l1 := set_committing true (set_outstanding (outstanding (fs_log s1) - 1) (fs_log s1))).
  destruct (fs_transaction s1 D' bs) as (v & Htx & Hv); [apply Hat'|done|done|lia|lia|].
  assert (Htx1 : transaction (HCS := bio_cachespec mypid dev) dev start size l1 v bs).
  { destruct Htx as [T1 T2 T3 T4 T5 T6 T7 T8]. split; try done. destruct T4. by split. }
  destruct (crash_spec mypid dev start size Hdev Hstart Hend l1 v bs Htx1) as (l2 & ws & E2 & Htr & Hcrash).
  assert (Hout1 : outstanding (fs_log s1) = 1 /\ committing (fs_log s1) = false).
  { pose proof (ops_writei copyin ip src off n s n s1 E) as [Eo Ec]. split; congruence. }
  assert (Hdk1 : forall x, disk (below (fs_log s1)) x = dk x).
  { intros x. destruct (fr_view _ _ _ _ _ _ _ _ (ai_rep _ _ _ _ _ _ _ _ _ _ Hat')) as (v1 & (lru & Hr) & _ & Hdk & _).
    rewrite <- (ct_disk _ _ _ _ _ (br_content _ _ _ _ _ Hr)). apply Hdk. }
  destruct Hout1 as [Eo Ec].
  exists s1, (set_fslog (set_committing false l2) s1), D', i', ws. split; [done|]. split; [done|]. split; [|split; [exact Htr|]].
  - apply flift_Ok. transitivity ((commit ;; modify (set_committing false)) l1); [|by erewrite bind_Ok by exact E2].
    unfold end_op, end_op_enter. unfold bind at 1 2 3, get, modify. cbv beta iota. rewrite Ec, Eo. unfold l1. by rewrite Eo.
  - intros k d Hrb. destruct (Hcrash k d) as (s3 & v3 & E3 & _ & Hv3 & Hor).
    { exact Hrb. }
    exists s3, v3. split; [done|]. split; [|done]. destruct Hor as [Hor|Hor]; [left|right]; intros x Hx; rewrite Hv3, Hor by done.
    + apply Hdk1.
    + apply Hv.
Qed.
End crash.

(** ** A small file system

    60 blocks: the log in blocks 2 to 32, inodes in 33 and 34, the bitmap in
    35, data from 36 on; every data block is free. *)

Definition demo_sb : superblock := mksb FSMAGIC 60 24 16 31 2 33 35.
Definition demo_bitmap : block := [255; 255; 255; 255; 15] ++ repeat 0 1019.
Definition demo_disk (x : Z) : block := if x =? 35 then demo_bitmap else zero_block.

(** An empty file or directory, inode 1, locked by process 7. *)
Definition demo_inode (type nlink : Z) (lk : sleeplock) : inode :=
  mkinode 1 1 1 lk true type 0 0 nlink 0 (replicate 13 0).
Definition free_inode : inode := mkinode 0 0 0 initsleeplock false 0 0 0 0 0 (replicate 13 0).
Definition demo_table (i : inode) : nat -> inode := iupd (fun _ => free_inode) 0 i.

Lemma demo_layout : layout demo_sb.
Proof. split; vm_compute; split || idtac; congruence. Qed.

Lemma demo_blocks_ok k : block_ok (demo_disk k).
Proof.
  unfold demo_disk. destruct (k =? 35); [|apply zero_block_ok]. split; [reflexivity|].
  unfold demo_bitmap. apply Forall_app. split; [repeat constructor; unfold is_byte; lia|].
  apply Forall_forall. intros x Hx. apply list_elem_of_In, repeat_spec in Hx. subst. done.
Qed.

Lemma demo_log : disk_log 2 31 demo_disk [].
Proof.
  split; [apply zero_block_ok| |constructor|simpl; lia|simpl; lia].
  split; [reflexivity|]. intros i x Hx. discriminate Hx.
Qed.

Lemma demo_used_all b : 0 <= b < 60 -> used demo_sb demo_disk b = (b <? 36).
Proof.
  intros Hb. assert (Hall : forallb (fun b => Bool.eqb (used demo_sb demo_disk b) (b <? 36)) (seqZ 0 60) = true) by (vm_compute; reflexivity).
  rewrite forallb_forall in Hall. apply Bool.eqb_prop, Hall, list_elem_of_In, elem_of_seqZ. lia.
Qed.

Lemma demo_used b : 0 <= b < datastart demo_sb -> used demo_sb demo_disk b = true.
Proof.
  intros Hb. change (datastart demo_sb) with 36 in Hb. rewrite demo_used_all by lia. apply Z.ltb_lt. lia.
Qed.

Lemma demo_slots i D k : i_addrs i = replicate 13 0 -> slot D i k = 0.
Proof.
  intros E. unfold slot. rewrite E. assert (Hz : forall m, addr_at (replicate 13 0) m = 0).
  { intros m. unfold addr_at. destruct (replicate 13 0 !! Z.to_nat m) as [x|] eqn:Ex; [|done].
    by apply lookup_replicate in Ex as [-> _]. }
  rewrite !Hz. by destruct (k <? 13).
Qed.

#[local] Instance demo_cache : BlockCache bcache nat := bio_cache 7.

Abbreviation demo_at := (at_inode (HCS := bio_cachespec 7 1) 1 2 31).

(** The machine booted on this disk, inside an operation, with [i] in the table. *)
Lemma demo_state i :
  i_dev i = 1 -> i_addrs i = replicate 13 0 ->
  exists s D dk, demo_at dk demo_sb s D [] 0 i /\ itable s = demo_table i /\ nfree demo_sb D = 24%nat /\
    disk_log 2 31 dk [] /\ outstanding (fs_log s) = 1 /\ committing (fs_log s) = false /\
    forall b, 0 <= b < 60 -> used demo_sb D b = (b <? 36).
Proof.
  intros Ed Ea. destruct (boot_run 7 1 2 31 ltac:(lia) ltac:(lia) ltac:(lia) demo_disk [] demo_log)
    as (s0 & v0 & b0 & _ & [Hc Hh Hp Hl Hd] & _ & _ & Hv & Ho & Hcm & Hap).
  assert (Hdk : forall x, cv_disk v0 x = disk (below s0) x).
  { destruct Hc as (lru & Hr). apply (ct_disk _ _ _ _ _ (br_content _ _ _ _ _ Hr)). }
  assert (Hne : forall x, x <> 2 -> cv_view v0 x = demo_disk x).
  { intros x Hx. rewrite Hv, Hap. apply apply_writes_other. simpl. set_solver. }
  assert (Hu : forall b, 0 <= b < sb_size demo_sb -> used demo_sb (cv_view v0) b = used demo_sb demo_disk b).
  { intros b Hb. apply used_frame; [apply demo_layout|done|]. intros x Hx. apply Hne. unfold is_bitmap in Hx. simpl in Hx. lia. }
  exists (mkfsst demo_sb (demo_table i) (set_outstanding 1 s0)), (cv_view v0), (cv_disk v0).
  split; [|split; [done|split; [|split; [done|split; [done|split; [done|]]]]]].
  - split; [|done| |done|done|].
    + split; [|destruct Hl; by split|simpl; lia|constructor]. exists v0. done.
    + split.
      * intros k. destruct (decide (k = 2)) as [->|Hk]; [|rewrite Hne by done; apply demo_blocks_ok].
        rewrite Hv, <- Hdk. apply Hd.
      * intros b Hb. assert (b < 60) by (change (datastart demo_sb) with 36 in Hb; lia). rewrite Hu by (simpl; lia). by apply demo_used.
    + split; [by rewrite Ea|intros k _ Hs; by rewrite demo_slots in Hs|intros j k _ _ Hs; by rewrite demo_slots in Hs].
  - rewrite (nfree_frame demo_sb demo_disk) by done. vm_compute. reflexivity.
  - intros b Hb. rewrite Hu by (simpl; lia). apply demo_used_all. lia.
Qed.

(** A source of bytes: address [a] holds [a mod 256]. *)
Definition demo_mem (a : Z) : Z := a mod 256.
Definition demo_copyin (a m : Z) : list Z * Z := (map demo_mem (seqZ a m), 0).

Lemma demo_copyin_ok a m : 0 <= a -> 0 <= m -> a + m <= 65536 -> exists r, demo_copyin a m = (map demo_mem (seqZ a m), r) /\ r <> -1.
Proof. intros. exists 0. split; [reflexivity|lia]. Qed.

Lemma demo_mem_byte a : is_byte (demo_mem a).
Proof. apply Z.mod_pos_bound. lia. Qed.

Lemma demo_backed D i : backed D i 0.
Proof. intros j Hj. lia. Qed.

Definition held_lock : sleeplock := mksleeplock true 7.

Lemma balloc_correct_witness : exists s s' : fsst bcache, balloc 1 s = Ok 36 s'.
Proof.
  destruct (demo_state (demo_inode T_FILE 1 held_lock) eq_refl eq_refl) as (s & D & dk & Hat & _ & Hnf & _ & _ & _ & Hu).
  pose proof (balloc_correct (HCS := bio_cachespec 7 1) 1 2 31 dk demo_sb ltac:(lia) ltac:(lia) ltac:(lia) demo_layout s D [] []
    (ai_rep _ _ _ _ _ _ _ _ _ _ Hat) (ai_sb _ _ _ _ _ _ _ _ _ _ Hat) (ai_ok _ _ _ _ _ _ _ _ _ _ Hat)) as H.
  assert (Hh : held_ok demo_sb D []) by (intros x Hx; by apply not_elem_of_nil in Hx).
  specialize (H Hh ltac:(simpl; lia)). exists s. destruct (balloc 1 s) as [r s'|msg|c s'] eqn:E; [|exfalso|exfalso; exact H].
  - exists s'. destruct H as (D' & bs' & Ha & Hbef & _). pose proof (as_range _ _ _ _ Ha) as Hr. pose proof (as_free _ _ _ _ Ha) as Hf.
    change (datastart demo_sb) with 36 in Hr. simpl in Hr. assert (r = 36) as ->; [|reflexivity].
    destruct (Z.eq_dec r 36) as [|Hne]; [assumption|]. specialize (Hbef 36 ltac:(lia)). rewrite Hu in Hbef by lia. discriminate.
  - destruct H as [_ H]. specialize (H 40 ltac:(simpl; lia)). rewrite Hu in H by lia. discriminate.
Defined.

Lemma writei_correct_witness :
  exists (s s' : fsst bcache) D i D' i', writei demo_copyin 0 1000 0 1500 s = Ok 1500 s' /\
    wrote_file demo_sb (fun j => demo_mem (1000 + (j - 0))) D i 0 1500 D' i' /\ i_size i' = 1500.
Proof.
  destruct (demo_state (demo_inode T_FILE 1 held_lock) eq_refl eq_refl) as (s & D & dk & Hat & _ & Hnf & _).
  destruct (writei_correct (HCS := bio_cachespec 7 1) 1 2 31 dk demo_sb ltac:(lia) ltac:(lia) ltac:(lia) demo_layout
    demo_copyin demo_mem 65536 s D [] 0 (demo_inode T_FILE 1 held_lock) 1000 0 1500) as (s' & D' & i' & bs' & E & _ & _ & Hw);
    [exact demo_copyin_ok|exact demo_mem_byte|reflexivity|exact Hat|apply demo_backed|simpl; lia|simpl; lia|vm_compute; congruence|lia
    |vm_compute; congruence|lia|lia|vm_compute; congruence|rewrite Hnf; vm_compute; congruence|].
  exists s, s', D, (demo_inode T_FILE 1 held_lock), D', i'. split; [exact E|]. split; [exact Hw|].
  destruct (wf_inode _ _ _ _ _ _ _ _ Hw) as [l ->]. reflexivity.
Defined.

Lemma write_read_roundtrip_witness :
  exists (s s' s'' : fsst bcache), writei demo_copyin 0 1000 0 1500 s = Ok 1500 s' /\
    readi collect 0 [] 0 0 1500 s' = Ok (1500, map demo_mem (seqZ 1000 1500)) s''.
Proof.
  destruct (demo_state (demo_inode T_FILE 1 held_lock) eq_refl eq_refl) as (s & D & dk & Hat & _ & Hnf & _).
  destruct (write_read_roundtrip (HCS := bio_cachespec 7 1) 1 2 31 dk demo_sb ltac:(lia) ltac:(lia) ltac:(lia) demo_layout
    demo_copyin demo_mem 65536 s D [] 0 (demo_inode T_FILE 1 held_lock) 1000 0 1500) as (s' & s'' & E1 & E2);
    [exact demo_copyin_ok|exact demo_mem_byte|reflexivity|exact Hat|apply demo_backed|simpl; lia|simpl; lia|vm_compute; congruence|lia
    |vm_compute; congruence|lia|lia|vm_compute; congruence|rewrite Hnf; vm_compute; congruence|].
  exists s, s', s''. split; [exact E1|exact E2].
Defined.

Lemma iput_frees_witness : exists s s' : fsst bcache, iput 7 0 s = Ok tt s' /\ i_ref (itable s' 0%nat) = 0.
Proof.
  destruct (demo_state (demo_inode T_FILE 0 initsleeplock) eq_refl eq_refl) as (s & D & dk & Hat & _).
  destruct (iput_frees (HCS := bio_cachespec 7 1) 1 2 31 dk demo_sb ltac:(lia) ltac:(lia) ltac:(lia) demo_layout
    7 s D [] 0 (demo_inode T_FILE 0 initsleeplock) Hat) as (s' & D' & bs' & E & _ & _ & Hr & _);
    [vm_compute; lia|simpl; lia|reflexivity|reflexivity|reflexivity|reflexivity|].
  exists s, s'. split; [exact E|exact Hr].
Defined.

Lemma demo_itable i : 0 < i_ref i < 2147483647 -> itable_ok (demo_table i).
Proof.
  intros Hi. split.
  - intros k _. unfold demo_table, iupd. destruct (Nat.eqb k 0); simpl; lia.
  - assert (H0 : forall d n k, live (demo_table i) d n k -> k = 0%nat).
    { intros d n k (_ & Hr & _). unfold demo_table, iupd in Hr. destruct (Nat.eqb_spec k 0); [assumption|simpl in Hr; lia]. }
    intros d n j k Hj Hk. by rewrite (H0 _ _ _ Hj), (H0 _ _ _ Hk).
Qed.

Lemma dirlink_lookup_witness :
  exists (s s1 s2 : fsst bcache) ip off, dirlink 7 0 [97; 98] 5 s = Ok 0 s1 /\ dirlookup 0 [97; 98] s1 = Ok (Some (ip, off)) s2 /\
    live (itable s2) 1 5 ip.
Proof.
  destruct (demo_state (demo_inode T_DIR 1 held_lock) eq_refl eq_refl) as (s & D & dk & Hat & Et & Hnf & _).
  destruct (dirlink_lookup (HCS := bio_cachespec 7 1) 1 2 31 dk demo_sb ltac:(lia) ltac:(lia) ltac:(lia) demo_layout
    7 s D [] 0 (demo_inode T_DIR 1 held_lock) [97; 98] 5 Hat) as (s1 & D' & i' & bs' & E1 & _ & _ & _ & ip & off & s2 & E2 & Hl).
  - split; [reflexivity|vm_compute; split; congruence|reflexivity|apply demo_backed].
  - repeat constructor; unfold is_byte; lia.
  - reflexivity.
  - lia.
  - simpl. lia.
  - vm_compute. congruence.
  - simpl. lia.
  - rewrite Hnf. lia.
  - rewrite Et. apply demo_itable. simpl. lia.
  - rewrite Et. exists 1%nat. split; [unfold NINODE; lia|reflexivity].
  - rewrite Et. vm_compute. reflexivity.
  - exists s, s1, s2, ip, off. split; [exact E1|]. split; [exact E2|exact Hl].
Defined.

Lemma iget_correct_witness :
  let s := mkfsst (S := unit) demo_sb (demo_table (demo_inode T_FILE 1 held_lock)) (mklogst 0 0 0 false 0 (mklh 0 []) tt) in
  match iget 1 1 s with Ok ip s' => refs_of (itable s') 1 1 = refs_of (itable s) 1 1 + 1 | _ => False end.
Proof.
  intros s. pose proof (iget_correct s 1 1 (demo_itable (demo_inode T_FILE 1 held_lock) ltac:(simpl; lia)) ltac:(vm_compute; reflexivity)) as H.
  destruct (iget 1 1 s) as [ip s'|msg|c s'] eqn:E; [apply H|vm_compute in E; discriminate|exact H].
Defined.

Lemma write_crash_atomic_witness :
  exists (s s1 s2 : fsst bcache) D' ws dk, writei demo_copyin 0 1000 0 1500 s = Ok 1500 s1 /\ flift end_op s1 = Ok tt s2 /\
    forall k d, reboots 7 1 2 31 (apply_writes (disk (below (fs_log s1))) (take k ws)) d ->
    exists s3 v3, boot 7 1 2 31 (power_on d) = Ok tt s3 /\
      (data_eq 2 31 (cv_view v3) dk \/ data_eq 2 31 (cv_view v3) D').
Proof.
  destruct (demo_state (demo_inode T_FILE 1 held_lock) eq_refl eq_refl) as (s & D & dk & Hat & _ & Hnf & Hd & Ho & Hc & _).
  destruct (write_crash_atomic 7 1 2 31 dk demo_sb ltac:(lia) ltac:(lia) ltac:(lia) ltac:(lia) demo_layout ltac:(simpl; lia)
    demo_copyin demo_mem 65536 s D 0 (demo_inode T_FILE 1 held_lock) 1000 0 1500) as (s1 & s2 & D' & i' & ws & E1 & _ & E2 & _ & Hall);
    [exact demo_copyin_ok|exact demo_mem_byte|reflexivity|exact Hat|apply demo_backed|simpl; lia|simpl; lia|vm_compute; congruence|lia
    |vm_compute; congruence|lia|lia|vm_compute; congruence|rewrite Hnf; vm_compute; congruence|exact Hd|exact Ho|exact Hc|].
  exists s, s1, s2, D', ws, dk. split; [exact E1|]. split; [exact E2|]. intros k d Hr.
  destruct (Hall k d Hr) as (s3 & v3 & E3 & Hor & _). exists s3, v3. split; [exact E3|exact Hor].
Defined.
