(* ===== verification/Mkfs.v ===== *)
(** * The image builder: [script/mkfs.c]

    The program that makes the disk image the kernel boots from.  The state is
    the image file, its length in blocks and the two counters of the program; a
    failed assertion and a call of [die] are panics.  The files of the host are
    a parameter: whether the image can be created, and for every name the
    pieces successive calls of [read] deliver.  Writing the image is taken to
    succeed; reading past its end does not.  [struct dinode] is the part of
    [inode] that is stored on disk. *)

From S2P Require Import Prelude Memory CString Block Cache Sleeplock Log Fs.

Definition FSSIZE : Z := 1000.
Definition NINODES : Z := 200.

Definition nbitmap : Z := FSSIZE / (BSIZE * 8) + 1.
Definition ninodeblocks : Z := NINODES / IPB + 1.
Definition nmeta : Z := 2 + LOGSIZE + ninodeblocks + nbitmap.

Record mkst := mkmkst {
  m_img : Z -> block;
  m_len : Z;
  freeinode : Z;
  freeblock : Z
}.

Definition set_mimg (f : Z -> block) (len : Z) (s : mkst) : mkst := mkmkst f len (freeinode s) (freeblock s).
Definition set_freeinode (x : Z) (s : mkst) : mkst := mkmkst (m_img s) (m_len s) x (freeblock s).
Definition set_freeblock (x : Z) (s : mkst) : mkst := mkmkst (m_img s) (m_len s) (freeinode s) x.

(** The files of the host. *)
Record host := mkhost {
  h_creat : list Z -> bool;
  h_open : list Z -> option (list (list Z))
}.

(** The integer whose bytes in memory are the low bytes of [x], lowest first. *)
Definition xshort (x : Z) : Z := le_val [u8 x; u8 (Z.shiftr x 8)].
Definition xint (x : Z) : Z := le_val [u8 x; u8 (Z.shiftr x 8); u8 (Z.shiftr x 16); u8 (Z.shiftr x 24)].

(** The superblock [main] fills in; [nlog] is [LOGSIZE]. *)
Definition mkfs_sb : superblock :=
  let nlog := LOGSIZE in
  let nblocks := FSSIZE - nmeta in
  mksb FSMAGIC (xint FSSIZE) (xint nblocks) (xint NINODES) (xint nlog) (xint 2) (xint (2 + nlog))
    (xint (2 + nlog + ninodeblocks)).

(** ** Sectors *)

(** The block [lseek(fsfd, sec * BSIZE, 0)] goes to; the product is 32 bits wide. *)
Definition seek (sec : Z) : Z := u32 (sec * BSIZE) / BSIZE.

Definition wsect (sec : Z) (buf : block) : M mkst unit :=
  modify (fun s => set_mimg (cv_upd (m_img s) (seek sec) buf) (Z.max (m_len s) (seek sec + 1)) s).

Definition rsect (sec : Z) : M mkst block :=
  let! s := get in
  if seek sec <? m_len s then ret (m_img s (seek sec)) else panic "read".

(** ** Inodes *)

Definition no_inode : inode := mkinode 0 0 0 initsleeplock false 0 0 0 0 0 (repeat 0 13).

Definition winode (inum : Z) (ip : inode) : M mkst unit :=
  let bn := IBLOCK inum mkfs_sb in
  let! buf := rsect bn in
  wsect bn (store_dinode ip (dinode_off inum) buf).

Definition rinode (inum : Z) : M mkst inode :=
  let bn := IBLOCK inum mkfs_sb in
  let! buf := rsect bn in
  ret (load_dinode buf (dinode_off inum) no_inode).

Definition mkfs_ialloc (type : Z) : M mkst Z :=
  let! s := get in
  let inum := freeinode s in
  modify (set_freeinode (u32 (inum + 1))) ;;
  winode inum (set_isize (xint 0) (set_inlink (s16 (xshort 1)) (set_itype (s16 (xshort type)) no_inode))) ;;
  ret inum.

(** ** Blocks *)

(** [for(i = 0; i < used; i++) buf[i/8] = buf[i/8] | (0x1 << (i%8));] *)
Definition set_bits (used : Z) (buf : block) : block := fold_left bit_set (seqZ 0 used) buf.

Definition mkfs_balloc (used : Z) : M mkst unit :=
  if negb (used <? BSIZE * 8) then panic "used < BSIZE*8"
  else wsect (sb_bmapstart mkfs_sb) (set_bits used zero_block).

(** [freeblock++] *)
Definition next_block : M mkst Z :=
  let! s := get in
  modify (set_freeblock (u32 (freeblock s + 1))) ;;
  ret (freeblock s).

(** [if(xint(din.addrs[k]) == 0) din.addrs[k] = xint(freeblock++);] *)
Definition append_pointer (din : inode) (k : Z) : M mkst inode :=
  if xint (addr_at (i_addrs din) k) =? 0 then
    let! b := next_block in
    ret (set_iaddrs (<[Z.to_nat k := xint b]> (i_addrs din)) din)
  else ret din.

(** The block [x] of block [fbn] of the file, made if it is not there. *)
Definition append_block (din : inode) (fbn : Z) : M mkst (inode * Z) :=
  if fbn <? NDIRECT then
    let! din := append_pointer din fbn in
    ret (din, xint (addr_at (i_addrs din) fbn))
  else
    let! din := append_pointer din NDIRECT in
    let a := xint (addr_at (i_addrs din) NDIRECT) in
    let o := (4 * Z.to_nat (fbn - NDIRECT))%nat in
    let! indirect := rsect a in
    if get32 indirect o =? 0 then
      let! b := next_block in
      let indirect := put32 indirect o (xint b) in
      wsect a indirect ;;
      ret (din, xint (get32 indirect o))
    else ret (din, xint (get32 indirect o)).

(** [while(n > 0)] of [iappend]: [p] are the bytes still to be written. *)
Fixpoint iappend_loop (fuel : nat) (din : inode) (off : Z) (p : list Z) : M mkst (inode * Z) :=
  match fuel with
  | O => panic "iappend: fuel"
  | S f =>
      let n := Z.of_nat (length p) in
      if negb (0 <? n) then ret (din, off)
      else
        let fbn := off / BSIZE in
        if negb (fbn <? MAXFILE) then panic "fbn < MAXFILE"
        else
          let! r := append_block din fbn in
          let n1 := Z.min n (u32 ((fbn + 1) * BSIZE - off)) in
          let! buf := rsect (snd r) in
          wsect (snd r) (splice buf (Z.to_nat (off - fbn * BSIZE)) (take (Z.to_nat n1) p)) ;;
          iappend_loop f (fst r) (u32 (off + n1)) (drop (Z.to_nat n1) p)
  end.

Definition iappend (inum : Z) (p : list Z) : M mkst unit :=
  let! din := rinode inum in
  let! r := iappend_loop (S (length p)) din (xint (i_size din)) p in
  winode inum (set_isize (xint (snd r)) (fst r)).

(** ** [main] *)

(** [strrchr(argv[i], '/')], one further; the whole name if there is no slash. *)
Fixpoint after_slash (name : list Z) : list Z :=
  match name with
  | [] => []
  | c :: name' => if existsb (Z.eqb 47) name' then after_slash name' else if c =? 47 then name' else name
  end.

(** [if(shortname[0] == '_') shortname += 1;] *)
Definition short_name (arg : list Z) : list Z :=
  match after_slash arg with
  | c :: name => if c =? 95 then name else c :: name
  | [] => []
  end.

(** [while((cc = read(fd, buf, sizeof(buf))) > 0) iappend(inum, buf, cc);] *)
Fixpoint copy_file (inum : Z) (reads : list (list Z)) : M mkst unit :=
  match reads with
  | [] => ret tt
  | [] :: _ => ret tt
  | buf :: reads' => iappend inum buf ;; copy_file inum reads'
  end.

(** The body of the loop over the arguments. *)
Definition add_file (h : host) (rootino : Z) (arg : list Z) : M mkst unit :=
  let shortname := after_slash arg in
  if existsb (Z.eqb 47) shortname then panic "index(shortname, '/') == 0"
  else
    match h_open h arg with
    | None => panic "open"
    | Some reads =>
        let! inum := mkfs_ialloc T_FILE in
        iappend rootino (mkdirent (xshort inum) (short_name arg)) ;;
        copy_file inum reads
    end.

(** The block with the superblock. *)
Definition sb_block (sb : superblock) : block :=
  splice zero_block 0 (concat (map (fun x => le_bytes 4 (u32 x))
    [sb_magic sb; sb_size sb; sb_nblocks sb; sb_ninodes sb; sb_nlog sb; sb_logstart sb; sb_inodestart sb; sb_bmapstart sb])).

(** "fix size of root inode dir" *)
Definition fix_root_size (rootino : Z) : M mkst unit :=
  let! din := rinode rootino in
  let off := u32 ((xint (i_size din) / BSIZE + 1) * BSIZE) in
  winode rootino (set_isize (xint off) din).

Definition mkfs_main (h : host) (argv : list (list Z)) : M mkst unit :=
  match argv with
  | [] => panic "Usage: mkfs fs.img files..."
  | img :: files =>
      if negb (h_creat h img) then panic "open"
      else
        modify (set_freeblock nmeta) ;;
        for_in (seqZ 0 FSSIZE) (fun i => wsect i zero_block) ;;
        wsect 1 (sb_block mkfs_sb) ;;
        let! rootino := mkfs_ialloc T_DIR in
        if negb (rootino =? ROOTINO) then panic "rootino == ROOTINO"
        else
          iappend rootino (mkdirent (xshort rootino) [46]) ;;
          iappend rootino (mkdirent (xshort rootino) [46; 46]) ;;
          for_in files (add_file h rootino) ;;
          fix_root_size rootino ;;
          let! s := get in
          mkfs_balloc (s32 (freeblock s))
  end.

(** The program as it starts: an empty image. *)
Definition mkfs_start : mkst := mkmkst (fun _ => zero_block) 0 1 0.
