(* ===== verification/MkfsProofs.v ===== *)
(** * The invariant of the image under construction

    [volume] is what the allocations of [mkfs] maintain over all files at once:
    every pointer leads to a data block below [freeblock], no block is pointed
    to twice, and the blocks from [freeblock] on are still zero.  [holds] adds
    that every file has exactly the blocks its size needs and contains given
    bytes.  The lemmas follow the steps of [append_block] and [iappend]. *)

From stdpp Require Import functions.
From S2P Require Import Prelude Memory CString Block Cache Sleeplock Log LogProofs Fs FsBlocks FsAlloc FsMap FsFile FsInode Mkfs.

#[local] Set Warnings "-clear-no-such-hyp".

(** Files are numbered from 0 here: file [a] is inode [a + 1]. *)
Record volume (D : Z -> block) (fb : Z) (T : nat -> inode) (n : nat) : Prop := {
  vo_blocks x : block_ok (D x);
  vo_fb : nmeta <= fb;
  vo_len a : (a < n)%nat -> length (i_addrs (T a)) = 13%nat;
  vo_range a k : (a < n)%nat -> 0 <= k < NSLOT -> slot D (T a) k <> 0 -> nmeta <= slot D (T a) k < fb;
  vo_inj a b j k : (a < n)%nat -> (b < n)%nat -> 0 <= j < NSLOT -> 0 <= k < NSLOT ->
    slot D (T a) j <> 0 -> slot D (T a) j = slot D (T b) k -> a = b /\ j = k;
  vo_fresh x : fb <= x -> D x = zero_block
}.

(** Slot [k] is needed for a file of [sz] bytes. *)
Definition needed (k sz : Z) : Prop :=
  (if k =? 12 then 12 else if k <? 12 then k else k - 1) * BSIZE < sz.

#[local] Instance needed_dec k sz : Decision (needed k sz) := decide (_ < _).

(** The number of blocks of a file of [sz] bytes, the indirect block included. *)
Definition blocks_of (sz : Z) : Z := (sz + (BSIZE - 1)) / BSIZE + if NDIRECT * BSIZE <? sz then 1 else 0.

Definition snug (D : Z -> block) (i : inode) : Prop :=
  forall k, 0 <= k < NSLOT -> slot D i k <> 0 <-> needed k (i_size i).

Definition content (D : Z -> block) (i : inode) : list Z := file_read D i 0 (i_size i).

Lemma nmeta_eq : nmeta = 46.
Proof. done. Qed.

Lemma needed_ix bn sz : 0 <= bn -> needed (ix bn) sz <-> bn * BSIZE < sz.
Proof.
  intros H. unfold needed, ix, NDIRECT, BSIZE. destruct (Z.ltb_spec bn 12).
  - destruct (Z.eqb_spec bn 12), (Z.ltb_spec bn 12); lia.
  - destruct (Z.eqb_spec (bn + 1) 12), (Z.ltb_spec (bn + 1) 12); lia.
Qed.

Lemma needed_12 sz : needed 12 sz <-> NDIRECT * BSIZE < sz.
Proof. done. Qed.

(** Every slot but the indirect pointer is that of a block of the file. *)
Lemma slot_cases k : 0 <= k < NSLOT -> k = 12 \/ exists bn, 0 <= bn < MAXFILE /\ k = ix bn.
Proof.
  intros H. unfold NSLOT, ix, NDIRECT in *. change MAXFILE with 268. destruct (decide (k = 12)); [by left|]. right.
  destruct (decide (k < 12)); [exists k|exists (k - 1)]; (split; [lia|]).
  - destruct (Z.ltb_spec k 12); lia.
  - destruct (Z.ltb_spec (k - 1) 12); lia.
Qed.

(** ** Steps of the volume *)

Section volume.
Variables (D : Z -> block) (fb : Z) (T : nat -> inode) (n : nat).
Hypothesis Hv : volume D fb T n.

(** A slot that was empty now holds the next free block. *)
Lemma vol_grow D' T' a k :
  (a < n)%nat -> 0 <= k < NSLOT -> slot D (T a) k = 0 ->
  (forall x, block_ok (D' x)) -> (forall b, (b < n)%nat -> length (i_addrs (T' b)) = 13%nat) ->
  (forall x, fb < x -> D' x = D x) ->
  (forall b j, (b < n)%nat -> 0 <= j < NSLOT -> slot D' (T' b) j = if bool_decide (b = a /\ j = k) then fb else slot D (T b) j) ->
  volume D' (fb + 1) T' n.
Proof using Hv.
  intros Ha Hk Hz Hok Hlen Hfr Hs. pose proof (vo_fb _ _ _ _ Hv) as Hfb. split; [done|lia|done| | |].
  - intros b j Hb Hj. rewrite Hs by done. case_bool_decide; [lia|]. intros Hne. pose proof (vo_range _ _ _ _ Hv b j Hb Hj Hne). lia.
  - intros b c i j Hb Hc Hi Hj. rewrite !Hs by done. do 2 case_bool_decide; intros H1 H2.
    + naive_solver.
    + exfalso. pose proof (vo_range _ _ _ _ Hv c j Hc Hj). lia.
    + exfalso. pose proof (vo_range _ _ _ _ Hv b i Hb Hi). lia.
    + by apply (vo_inj _ _ _ _ Hv).
  - intros x Hx. rewrite Hfr by lia. apply (vo_fresh _ _ _ _ Hv). lia.
Qed.

Lemma vol_pointer a k :
  (a < n)%nat -> 0 <= k < 13 -> slot D (T a) k = 0 ->
  let T' := <[a := set_iaddrs (<[Z.to_nat k := fb]> (i_addrs (T a))) (T a)]> T in
  (forall b j, (b < n)%nat -> 0 <= j < NSLOT -> slot D (T' b) j = if bool_decide (b = a /\ j = k) then fb else slot D (T b) j) /\
  volume D (fb + 1) T' n.
Proof using Hv.
  intros Ha Hk Hz T'. pose proof (vo_fb _ _ _ _ Hv) as Hfb. rewrite nmeta_eq in Hfb.
  assert (Hs : forall b j, (b < n)%nat -> 0 <= j < NSLOT -> slot D (T' b) j = if bool_decide (b = a /\ j = k) then fb else slot D (T b) j).
  { intros b j Hb Hj. unfold T'. destruct (decide (b = a)) as [->|Hne]; last first.
    { rewrite fn_lookup_insert_ne by done. by rewrite bool_decide_eq_false_2 by tauto. }
    rewrite fn_lookup_insert. unfold slot. cbn [i_addrs set_iaddrs].
    rewrite !addr_at_insert by (apply (vo_len _ _ _ _ Hv a Ha) || unfold NDIRECT; lia). unfold NSLOT, NDIRECT in *.
    destruct (Z.ltb_spec j 13).
    - destruct (Z.eqb_spec j k) as [->|]; [by rewrite bool_decide_eq_true_2|by rewrite bool_decide_eq_false_2 by tauto].
    - rewrite bool_decide_eq_false_2 by lia. destruct (Z.eqb_spec 12 k) as [<-|]; [|done].
      unfold slot in Hz. cbn in Hz. rewrite Hz, Z.eqb_refl. destruct (Z.eqb_spec fb 0); [lia|].
      rewrite (vo_fresh _ _ _ _ Hv) by lia. apply entry_zero. lia. }
  split; [exact Hs|]. apply vol_grow with a k; [done|unfold NSLOT; lia|done|apply Hv| |done|exact Hs].
  intros b Hb. unfold T'. destruct (decide (b = a)) as [->|]; [|rewrite fn_lookup_insert_ne by done; by apply Hv].
  rewrite fn_lookup_insert. cbn [i_addrs set_iaddrs]. rewrite length_insert. by apply Hv.
Qed.

(** Changing a block that is no indirect block keeps the slots. *)
Lemma slot_upd x d b j :
  (b < n)%nat -> 0 <= j < NSLOT -> slot D (T b) 12 = 0 \/ slot D (T b) 12 <> x -> slot (cv_upd D x d) (T b) j = slot D (T b) j.
Proof using Type.
  intros Hb Hj Hx. unfold slot in *. cbn in Hx. unfold NDIRECT in *. destruct (j <? 13); [done|].
  destruct (Z.eqb_spec (addr_at (i_addrs (T b)) 12) 0); [done|]. rewrite cv_upd_ne; [done|tauto].
Qed.

Lemma vol_entry a k :
  (a < n)%nat -> 13 <= k < NSLOT -> slot D (T a) 12 <> 0 -> slot D (T a) k = 0 -> fb < 4294967296 ->
  let x := slot D (T a) 12 in
  let D' := cv_upd D x (put32 (D x) (4 * Z.to_nat (k - 13)) fb) in
  (forall b j, (b < n)%nat -> 0 <= j < NSLOT -> slot D' (T b) j = if bool_decide (b = a /\ j = k) then fb else slot D (T b) j) /\
  volume D' (fb + 1) T n.
Proof using Hv.
  intros Ha Hk H12 Hz Hb32 x D'. pose proof (vo_fb _ _ _ _ Hv) as Hfb. unfold NSLOT in Hk. rewrite nmeta_eq in Hfb.
  pose proof (vo_range _ _ _ _ Hv a 12 Ha ltac:(unfold NSLOT; lia) H12) as Hr. fold x in Hr.
  assert (Hs : forall b j, (b < n)%nat -> 0 <= j < NSLOT -> slot D' (T b) j = if bool_decide (b = a /\ j = k) then fb else slot D (T b) j).
  { intros b j Hb Hj. destruct (decide (b = a)) as [->|Hne]; last first.
    { rewrite bool_decide_eq_false_2 by tauto. unfold D'. apply slot_upd; [done..|].
      destruct (decide (slot D (T b) 12 = 0)); [by left|]. right. intros E.
      destruct (vo_inj _ _ _ _ Hv b a 12 12) as [-> _]; unfold NSLOT; try lia; done. }
    unfold slot at 1. change (addr_at (i_addrs (T a)) NDIRECT) with x. unfold NSLOT in Hj. destruct (Z.ltb_spec j 13).
    - rewrite bool_decide_eq_false_2 by lia. unfold slot. by destruct (Z.ltb_spec j 13); [|lia].
    - destruct (Z.eqb_spec x 0); [lia|]. unfold D', cv_upd. rewrite Z.eqb_refl.
      rewrite entry_put by (apply Hv || lia). destruct (Z.eqb_spec (j - 13) (k - 13)).
      + by rewrite bool_decide_eq_true_2 by (split; [done|lia]).
      + rewrite bool_decide_eq_false_2 by lia. unfold slot. destruct (Z.ltb_spec j 13); [lia|].
        change (addr_at (i_addrs (T a)) NDIRECT) with x. by destruct (Z.eqb_spec x 0). }
  split; [exact Hs|]. apply vol_grow with a k; [done|unfold NSLOT; lia|done| |apply Hv| |exact Hs].
  - intros y. unfold D', cv_upd. destruct (y =? x); [|apply Hv]. apply put32_ok; [apply Hv|lia].
  - intros y Hy. unfold D'. apply cv_upd_ne. lia.
Qed.

(** Writing a data block of a file. *)
Lemma vol_write a k d :
  (a < n)%nat -> 0 <= k < NSLOT -> k <> 12 -> slot D (T a) k <> 0 -> block_ok d ->
  let D' := cv_upd D (slot D (T a) k) d in
  (forall b j, (b < n)%nat -> 0 <= j < NSLOT -> slot D' (T b) j = slot D (T b) j) /\ volume D' fb T n.
Proof using Hv.
  intros Ha Hk H12 Hs Hd D'. pose proof (vo_range _ _ _ _ Hv a k Ha Hk Hs) as Hr.
  assert (Hsl : forall b j, (b < n)%nat -> 0 <= j < NSLOT -> slot D' (T b) j = slot D (T b) j).
  { intros b j Hb Hj. apply slot_upd; [done..|]. destruct (decide (slot D (T b) 12 = 0)); [by left|]. right. intros E.
    symmetry in E. destruct (vo_inj _ _ _ _ Hv a b k 12) as [_ ?]; unfold NSLOT; try lia; done. }
  split; [exact Hsl|]. split; [|apply Hv..| | |].
  - intros x. unfold D', cv_upd. destruct (x =? _); [done|apply Hv].
  - intros b j Hb Hj. rewrite Hsl by done. by apply Hv.
  - intros b c i j Hb Hc Hi Hj. rewrite !Hsl by done. by apply Hv.
  - intros x Hx. unfold D'. rewrite cv_upd_ne by lia. by apply Hv.
Qed.
End volume.

(** Pointers depend on the addresses only. *)
Lemma slot_addrs D i i' k : i_addrs i' = i_addrs i -> slot D i' k = slot D i k.
Proof. intros E. unfold slot. by rewrite E. Qed.

Lemma vol_ext D fb T T' n :
  (forall b, (b < n)%nat -> i_addrs (T' b) = i_addrs (T b)) -> volume D fb T n -> volume D fb T' n.
Proof.
  intros E Hv. assert (Es : forall b k, (b < n)%nat -> slot D (T' b) k = slot D (T b) k) by (intros; by apply slot_addrs, E).
  split; try apply Hv.
  - intros a Ha. rewrite E by done. by apply Hv.
  - intros a k Ha. rewrite Es by done. by apply Hv.
  - intros a b j k Ha Hb. rewrite !Es by done. by apply Hv.
Qed.

Lemma set_same_addrs (T : nat -> inode) a b : (<[a := set_iaddrs (i_addrs (T a)) (T a)]> T) b = T b.
Proof.
  destruct (decide (b = a)) as [->|]; [|by rewrite fn_lookup_insert_ne]. rewrite fn_lookup_insert. by destruct (T a).
Qed.

(** ** The steps of the program *)

Lemma xint_id x : 0 <= x < 4294967296 -> xint x = x.
Proof.
  intros Hx. unfold xint. cbn [le_val]. unfold u8, uwrap. rewrite !Z.shiftr_div_pow2 by lia.
  change (2 ^ 8) with 256. change (2 ^ 16) with 65536. change (2 ^ 24) with 16777216. Z.div_mod_to_equations; lia.
Qed.

Lemma xshort_id x : 0 <= x < 65536 -> xshort x = x.
Proof.
  intros Hx. unfold xshort. cbn [le_val]. unfold u8, uwrap. rewrite !Z.shiftr_div_pow2 by lia.
  change (2 ^ 8) with 256. Z.div_mod_to_equations; lia.
Qed.

Lemma mkfs_sb_eq : mkfs_sb = mksb FSMAGIC 1000 954 200 30 2 32 45.
Proof. reflexivity. Qed.

Lemma seek_id x : 0 <= x < 1000 -> seek x = x.
Proof. intros H. unfold seek, BSIZE. rewrite u32_small by lia. apply Z.div_mul. lia. Qed.

Lemma rsect_run s x : m_len s = 1000 -> 0 <= x < 1000 -> rsect x s = Ok (m_img s x) s.
Proof. intros Hl Hx. unfold rsect, bind, get. rewrite seek_id, Hl by done. by destruct (Z.ltb_spec x 1000); [|lia]. Qed.

Lemma wsect_run s x d : m_len s = 1000 -> 0 <= x < 1000 -> wsect x d s = Ok tt (set_mimg (cv_upd (m_img s) x d) 1000 s).
Proof. intros Hl Hx. unfold wsect, modify. rewrite seek_id, Hl by done. by rewrite Z.max_l by lia. Qed.

(** The next state of the image and of [freeblock]. *)
Definition grown (D : Z -> block) (fb : Z) (s : mkst) : mkst := mkmkst D (m_len s) (freeinode s) fb.

Lemma append_pointer_run s T n a din k :
  let D := m_img s in
  let fb := freeblock s in
  volume D fb T n -> (a < n)%nat -> i_addrs din = i_addrs (T a) -> 0 <= k < 13 ->
  let fb' := fb + if slot D (T a) k =? 0 then 1 else 0 in
  fb' <= 1000 ->
  exists l, append_pointer din k s = Ok (set_iaddrs l din) (grown D fb' s) /\
    let T' := <[a := set_iaddrs l (T a)]> T in
    volume D fb' T' n /\ slot D (T' a) k <> 0 /\
    forall b j, (b < n)%nat -> 0 <= j < NSLOT ->
      slot D (T' b) j = if bool_decide (b = a /\ j = k /\ slot D (T a) k = 0) then fb else slot D (T b) j.
Proof.
  intros D fb Hv Ha Hl Hk fb' Hfb. pose proof (vo_fb _ _ _ _ Hv) as Hf0. rewrite nmeta_eq in Hf0.
  assert (Es : addr_at (i_addrs din) k = slot D (T a) k) by (rewrite Hl; unfold slot; by destruct (Z.ltb_spec k 13); [|lia]).
  assert (Hr : 0 <= slot D (T a) k < 4294967296).
  { destruct (decide (slot D (T a) k = 0)) as [->|Hne]; [lia|].
    pose proof (vo_range _ _ _ _ Hv a k Ha ltac:(unfold NSLOT; lia) Hne) as H. rewrite nmeta_eq in H. unfold fb' in Hfb. destruct (_ =? 0); lia. }
  unfold append_pointer. rewrite Es, xint_id by done. unfold fb' in *. destruct (Z.eqb_spec (slot D (T a) k) 0) as [E|E].
  - destruct (vol_pointer _ _ _ _ Hv a k Ha Hk E) as [Hs Hv']. exists (<[Z.to_nat k := fb]> (i_addrs (T a))).
    split; [|split; [exact Hv'|split]].
    + unfold next_block, bind, get, modify, ret. rewrite xint_id by lia. rewrite Hl, u32_small by (unfold fb in *; lia). done.
    + rewrite Hs by (unfold NSLOT; lia). rewrite bool_decide_eq_true_2 by done. lia.
    + intros b j Hb Hj. rewrite Hs by done. repeat case_bool_decide; try done; tauto.
  - exists (i_addrs (T a)). rewrite Z.add_0_r. split; [|split; [|split]].
    + rewrite <- Hl. unfold ret, grown, D, fb. f_equal; [by destruct din|by destruct s].
    + eapply vol_ext; [|exact Hv]. intros b _. by rewrite set_same_addrs.
    + by rewrite set_same_addrs.
    + intros b j Hb Hj. rewrite set_same_addrs. by rewrite bool_decide_eq_false_2 by tauto.
Qed.

(** File [a] gets a block for its block [bn]. *)
Record grows (D : Z -> block) (fb : Z) (T : nat -> inode) (n a : nat) (bn : Z)
    (D' : Z -> block) (fb' : Z) (T' : nat -> inode) : Prop := {
  gr_vol : volume D' fb' T' n;
  gr_keep b j : (b < n)%nat -> 0 <= j < NSLOT -> slot D (T b) j <> 0 -> slot D' (T' b) j = slot D (T b) j;
  gr_new b j : (b < n)%nat -> 0 <= j < NSLOT -> slot D' (T' b) j <> 0 ->
    slot D (T b) j <> 0 \/ b = a /\ (j = ix bn \/ j = 12 /\ NDIRECT <= bn);
  gr_slot : slot D' (T' a) (ix bn) <> 0;
  gr_fresh : slot D (T a) (ix bn) = 0 -> fb <= slot D' (T' a) (ix bn);
  gr_ind : NDIRECT <= bn -> slot D' (T' a) 12 <> 0;
  gr_frame x : D' x = D x \/ x = slot D' (T' a) 12 /\ x <> 0
}.

Definition new_blocks (D : Z -> block) (i : inode) (bn : Z) : Z :=
  (if slot D i (ix bn) =? 0 then 1 else 0) + if (NDIRECT <=? bn) && (slot D i 12 =? 0) then 1 else 0.

Lemma append_block_run s T n a din bn :
  let D := m_img s in
  let fb := freeblock s in
  volume D fb T n -> m_len s = 1000 -> (a < n)%nat -> i_addrs din = i_addrs (T a) -> 0 <= bn < MAXFILE ->
  let fb' := fb + new_blocks D (T a) bn in
  fb' <= 1000 ->
  exists l D', let T' := <[a := set_iaddrs l (T a)]> T in
    append_block din bn s = Ok (set_iaddrs l din, slot D' (T' a) (ix bn)) (grown D' fb' s) /\
    grows D fb T n a bn D' fb' T'.
Proof.
  intros D fb Hv Hlen Ha Hl Hbn. change MAXFILE with 268 in Hbn. unfold new_blocks, append_block, NDIRECT in *.
  pose proof (vo_fb _ _ _ _ Hv) as Hf0. rewrite nmeta_eq in Hf0. fold fb in Hf0.
  unfold ix, NDIRECT. destruct (Z.ltb_spec bn 12) as [Hlt|Hge].
  - destruct (Z.leb_spec 12 bn); [lia|]. cbn [andb]. rewrite Z.add_0_r. cbv zeta. intros Hfb.
    set (n1 := if slot D (T a) bn =? 0 then 1 else 0) in *.
    destruct (append_pointer_run s T n a din bn Hv Ha Hl ltac:(lia) Hfb) as (l & E & Hv' & H1 & Hs).
    fold D fb n1 in E, Hv', H1, Hs.
    exists l, D. rewrite (bind_Ok _ _ _ _ _ E).
    assert (Ex : xint (addr_at (i_addrs (set_iaddrs l din)) bn) = slot D ((<[a := set_iaddrs l (T a)]> T) a) bn).
    { pose proof (vo_range _ _ _ _ Hv' a bn Ha ltac:(unfold NSLOT; lia) H1) as H2. rewrite nmeta_eq in H2. revert H2. rewrite fn_lookup_insert.
      unfold slot. destruct (Z.ltb_spec bn 13); [|lia]. intros H2. cbn [i_addrs set_iaddrs] in *. apply xint_id. lia. }
    split; [unfold ret; by rewrite Ex|]. split; [exact Hv'| | | | |unfold NDIRECT; lia|by left].
    + intros b j Hb Hj H0. rewrite Hs by done. case_bool_decide as Hc; [|done]. destruct Hc as (-> & -> & ?). done.
    + intros b j Hb Hj. rewrite Hs by done. unfold ix, NDIRECT. destruct (Z.ltb_spec bn 12); [|lia]. case_bool_decide; [tauto|by left].
    + unfold ix, NDIRECT. by destruct (Z.ltb_spec bn 12); [|lia].
    + unfold ix, NDIRECT. destruct (Z.ltb_spec bn 12); [|lia]. intros Hz. rewrite Hs by (unfold NSLOT; lia). by rewrite bool_decide_eq_true_2.
  - destruct (Z.leb_spec 12 bn); [|lia]. cbn [andb]. cbv zeta. intros Hfb.
    set (e := slot D (T a) (bn + 1)) in *. set (n12 := if slot D (T a) 12 =? 0 then 1 else 0) in *.
    assert (Hn : 0 <= n12 <= 1) by (unfold n12; destruct (_ =? 0); lia).
    assert (He : 0 <= (if e =? 0 then 1 else 0) <= 1) by (destruct (e =? 0); lia).
    destruct (append_pointer_run s T n a din 12 Hv Ha Hl ltac:(lia)) as (l & E & Hv' & H1 & Hs); [fold D fb n12; lia|].
    fold D fb n12 in E, Hv', H1, Hs. set (T' := <[a := set_iaddrs l (T a)]> T) in *.
    pose proof (vo_range _ _ _ _ Hv' a 12 Ha ltac:(unfold NSLOT; lia) H1) as Hx. rewrite nmeta_eq in Hx.
    assert (Ea : xint (addr_at (i_addrs (set_iaddrs l din)) 12) = slot D (T' a) 12).
    { unfold T' in Hx |- *. rewrite fn_lookup_insert in *. apply xint_id. change (46 <= addr_at l 12 < fb + n12) in Hx. cbn. lia. }
    assert (Ee : get32 (D (slot D (T' a) 12)) (4 * Z.to_nat (bn - 12)) = e).
    { unfold e. pose proof (Hs a (bn + 1) Ha ltac:(unfold NSLOT; lia)) as H2. rewrite bool_decide_eq_false_2 in H2 by lia.
      rewrite <- H2. unfold slot at 2. destruct (Z.ltb_spec (bn + 1) 13); [lia|].
      change (addr_at (i_addrs (T' a)) NDIRECT) with (slot D (T' a) 12). destruct (Z.eqb_spec (slot D (T' a) 12) 0); [done|].
      unfold entry. do 3 f_equal. lia. }
    assert (Hk1 : forall b j, (b < n)%nat -> 0 <= j < NSLOT -> slot D (T b) j <> 0 -> slot D (T' b) j = slot D (T b) j).
    { intros b j Hb Hj H0. rewrite Hs by done. case_bool_decide as Hc; [|done]. destruct Hc as (-> & -> & ?). done. }
    rewrite (bind_Ok _ _ _ _ _ E), Ea.
    rewrite (bind_Ok _ _ _ _ _ (rsect_run (grown D (fb + n12) s) (slot D (T' a) 12) Hlen ltac:(lia))). cbn [m_img grown]. rewrite Ee.
    destruct (Z.eqb_spec e 0) as [E0|E0].
    + pose proof (vol_entry _ _ _ _ Hv' a (bn + 1) Ha ltac:(unfold NSLOT; lia) H1) as Hve. cbv zeta in Hve.
      rewrite Hs in Hve by (unfold NSLOT; lia). rewrite bool_decide_eq_false_2 in Hve by lia.
      specialize (Hve E0 ltac:(lia)). replace (bn + 1 - 13) with (bn - 12) in Hve by lia. destruct Hve as [Hs2 Hv2].
      set (x := slot D (T' a) 12) in *. exists l, (cv_upd D x (put32 (D x) (4 * Z.to_nat (bn - 12)) (fb + n12))).
      cbv zeta. fold T'. replace (fb + (1 + n12)) with (fb + n12 + 1) by lia.
      assert (Hs3 := Hs2 a (bn + 1) Ha ltac:(unfold NSLOT; lia)). rewrite bool_decide_eq_true_2 in Hs3 by done. split.
      * unfold next_block, bind, get, modify, ret. cbn [freeblock grown]. rewrite xint_id by lia.
        rewrite wsect_run by (done || lia). rewrite get32_put32_same by (rewrite (proj1 (vo_blocks _ _ _ _ Hv x)); lia).
        rewrite !u32_small, xint_id, Hs3 by lia. unfold set_freeblock, set_mimg, grown. cbn. by rewrite Hlen.
      * split; [exact Hv2| | | | | |].
        -- intros b j Hb Hj H0. rewrite Hs2 by done. case_bool_decide as Hc; [|by apply Hk1].
           destruct Hc as [-> ->]. done.
        -- intros b j Hb Hj. rewrite Hs2, Hs by done. unfold ix, NDIRECT. destruct (Z.ltb_spec bn 12); [lia|].
           repeat case_bool_decide; tauto.
        -- unfold ix, NDIRECT. destruct (Z.ltb_spec bn 12); [lia|]. rewrite Hs3. lia.
        -- intros _. unfold ix, NDIRECT. destruct (Z.ltb_spec bn 12); [lia|]. rewrite Hs3. lia.
        -- intros _. rewrite Hs2 by (unfold NSLOT; lia). rewrite bool_decide_eq_false_2 by lia. exact H1.
        -- intros y. destruct (decide (y = x)) as [->|]; [|left; by apply cv_upd_ne]. right. split; [|exact H1].
           rewrite Hs2 by (unfold NSLOT; lia). by rewrite bool_decide_eq_false_2 by lia.
    + exists l, D. cbv zeta. fold T'. rewrite Z.add_0_l.
      assert (Hs3 := Hs a (bn + 1) Ha ltac:(unfold NSLOT; lia)). rewrite bool_decide_eq_false_2 in Hs3 by lia. fold e in Hs3.
      assert (He' := vo_range _ _ _ _ Hv a (bn + 1) Ha ltac:(unfold NSLOT; lia) E0). rewrite nmeta_eq in He'. fold e in He'. split.
      * unfold ret. rewrite xint_id by lia. by rewrite Hs3.
      * split; [exact Hv'|exact Hk1| | | | |by left].
        -- intros b j Hb Hj. rewrite Hs by done. unfold ix, NDIRECT. destruct (Z.ltb_spec bn 12); [lia|].
           case_bool_decide; [tauto|by left].
        -- unfold ix, NDIRECT. destruct (Z.ltb_spec bn 12); [lia|]. by rewrite Hs3.
        -- unfold ix, NDIRECT. by destruct (Z.ltb_spec bn 12); [lia|].
        -- by intros _.
Qed.

(** ** Files with their contents *)

(** File [a] of the image contains [l !! a], and zeros up to the end of its last block. *)
Record holds (D : Z -> block) (fb : Z) (T : nat -> inode) (l : list (list Z)) : Prop := {
  ho_vol : volume D fb T (length l);
  ho_snug a c : l !! a = Some c -> snug D (T a);
  ho_content a c : l !! a = Some c -> content D (T a) = c;
  ho_size a c : l !! a = Some c -> 0 <= i_size (T a) <= MAXFILE * BSIZE;
  ho_tail a c j : l !! a = Some c -> i_size (T a) <= j < MAXFILE * BSIZE -> slot D (T a) (ix (j / BSIZE)) <> 0 -> fbyte D (T a) j = 0
}.

Lemma ho_length D fb T l a c : holds D fb T l -> l !! a = Some c -> i_size (T a) = Z.of_nat (length c).
Proof.
  intros H Ha. pose proof (ho_size _ _ _ _ H a c Ha). rewrite <- (ho_content _ _ _ _ H a c Ha). unfold content, file_read.
  rewrite length_map_seqZ. lia.
Qed.

Lemma file_read_ext D i D' i' off n :
  (forall j, off <= j < off + n -> fbyte D' i' j = fbyte D i j) -> file_read D' i' off n = file_read D i off n.
Proof. intros H. unfold file_read. apply map_ext_in. intros j Hj%list_elem_of_In%elem_of_seqZ. apply H. lia. Qed.

(** The blocks a pass of the loop of [iappend] takes are those the new size needs. *)
Lemma new_blocks_of D i m :
  snug D i -> 0 <= i_size i -> 0 < m -> i_size i mod BSIZE + m <= BSIZE -> i_size i + m <= MAXFILE * BSIZE ->
  new_blocks D i (i_size i / BSIZE) = blocks_of (i_size i + m) - blocks_of (i_size i).
Proof.
  intros Hs H0 Hm Hfit Hmax. rewrite maxfile_bytes in Hmax. set (off := i_size i) in *. unfold BSIZE in *.
  assert (Hbn : 0 <= off / 1024 < MAXFILE) by (change MAXFILE with 268; Z.div_mod_to_equations; lia).
  destruct (Hs (ix (off / 1024))) as [S1 S2]; [by apply ix_range|]. rewrite needed_ix in S1, S2 by lia.
  destruct (Hs 12) as [S3 S4]; [unfold NSLOT; lia|]. rewrite needed_12 in S3, S4. fold off in S1, S2, S3, S4.
  unfold new_blocks, blocks_of, BSIZE, NDIRECT in *.
  destruct (Z.eqb_spec (slot D i (ix (off / 1024))) 0), (Z.eqb_spec (slot D i 12) 0), (Z.leb_spec 12 (off / 1024)),
    (Z.ltb_spec (12 * 1024) (off + m)), (Z.ltb_spec (12 * 1024) off); cbn [andb];
    first [apply S1 in n|assert (~ off / 1024 * 1024 < off) by tauto]; first [apply S3 in n0|assert (~ 12 * 1024 < off) by tauto|idtac];
    Z.div_mod_to_equations; lia.
Qed.

(** Bytes [p] are appended to file [a] within its last block. *)
Section append.
Variables (D : Z -> block) (fb : Z) (T : nat -> inode) (l : list (list Z)) (a : nat) (c p : list Z).
Hypothesis Hh : holds D fb T l.
Hypothesis Ha : l !! a = Some c.
Let off := i_size (T a).
Let bn := off / BSIZE.
Let m := Z.of_nat (length p).
Hypothesis Hm : 0 < m.
Hypothesis Hfit : off mod BSIZE + m <= BSIZE.
Hypothesis Hmax : off + m <= MAXFILE * BSIZE.
Hypothesis Hp : Forall is_byte p.
Variables (D1 : Z -> block) (fb1 : Z) (ad : list Z).
Let T1 := <[a := set_iaddrs ad (T a)]> T.
Hypothesis Hg : grows D fb T (length l) a bn D1 fb1 T1.
Let x := slot D1 (T1 a) (ix bn).
Let D2 := cv_upd D1 x (splice (D1 x) (Z.to_nat (off mod BSIZE)) p).
Let T2 := <[a := set_isize (off + m) (set_iaddrs ad (T a))]> T.

Lemma append_bounds : 0 <= off /\ 0 <= bn < MAXFILE /\ bn * BSIZE <= off < (bn + 1) * BSIZE /\ (a < length l)%nat.
Proof using All.
  pose proof (ho_size _ _ _ _ Hh a c Ha) as H. fold off in H. rewrite maxfile_bytes in *. unfold bn, BSIZE. change MAXFILE with 268.
  split; [lia|]. split; [Z.div_mod_to_equations; lia|]. split; [Z.div_mod_to_equations; lia|]. by eapply lookup_lt_Some.
Qed.

Lemma append_block_ok : block_ok (splice (D1 x) (Z.to_nat (off mod BSIZE)) p).
Proof using All.
  apply splice_ok; [apply Hg|done|]. unfold BSIZE in *. assert (0 <= off mod 1024) by (apply Z.mod_pos_bound; lia). lia.
Qed.

Lemma append_slot b j : (b < length l)%nat -> 0 <= j < NSLOT -> slot D2 (T2 b) j = slot D1 (T1 b) j.
Proof using All.
  intros Hb Hj. destruct append_bounds as (H0 & Hbn & _ & Hla). destruct (ix_range bn Hbn) as [Hix H12].
  destruct (vol_write _ _ _ _ (gr_vol _ _ _ _ _ _ _ _ _ Hg) a (ix bn) _ Hla Hix H12 (gr_slot _ _ _ _ _ _ _ _ _ Hg) append_block_ok) as [Hs _].
  rewrite <- (Hs b j Hb Hj). apply slot_addrs. unfold T1, T2.
  destruct (decide (b = a)) as [->|]; [by rewrite !fn_lookup_insert|by rewrite !fn_lookup_insert_ne].
Qed.

Lemma append_vol : volume D2 fb1 T2 (length l).
Proof using All.
  destruct append_bounds as (H0 & Hbn & _ & Hla). destruct (ix_range bn Hbn) as [Hix H12].
  destruct (vol_write _ _ _ _ (gr_vol _ _ _ _ _ _ _ _ _ Hg) a (ix bn) _ Hla Hix H12 (gr_slot _ _ _ _ _ _ _ _ _ Hg) append_block_ok) as [_ Hv].
  eapply vol_ext; [|exact Hv]. intros b Hb. unfold T1, T2.
  destruct (decide (b = a)) as [->|]; [by rewrite !fn_lookup_insert|by rewrite !fn_lookup_insert_ne].
Qed.

(** A block that some file had keeps its bytes, the one written to excepted. *)
Lemma append_frame b k :
  (b < length l)%nat -> 0 <= k < NSLOT -> k <> 12 -> slot D (T b) k <> 0 -> ~ (b = a /\ k = ix bn) ->
  slot D2 (T2 b) k = slot D (T b) k /\ D2 (slot D (T b) k) = D (slot D (T b) k).
Proof using All.
  intros Hb Hk H12 Hs Hne. destruct append_bounds as (H0 & Hbn & _ & Hla). destruct (ix_range bn Hbn) as [Hix Hix12].
  pose proof (gr_vol _ _ _ _ _ _ _ _ _ Hg) as Hv. pose proof (gr_keep _ _ _ _ _ _ _ _ _ Hg b k Hb Hk Hs) as Ek.
  split; [by rewrite append_slot, Ek|]. unfold D2. rewrite cv_upd_ne; last first.
  { rewrite <- Ek. unfold x. intros E. destruct (vo_inj _ _ _ _ Hv b a k (ix bn)) as [-> ->]; try done; [congruence|tauto]. }
  destruct (gr_frame _ _ _ _ _ _ _ _ _ Hg (slot D (T b) k)) as [?|[E _]]; [done|].
  rewrite <- Ek in E at 1. destruct (vo_inj _ _ _ _ Hv b a k 12) as [_ ?]; try done; congruence.
Qed.

Lemma append_other_byte b j :
  b <> a -> (b < length l)%nat -> 0 <= j -> j / BSIZE < MAXFILE -> slot D (T b) (ix (j / BSIZE)) <> 0 -> fbyte D2 (T2 b) j = fbyte D (T b) j.
Proof using All.
  intros Hb Hlb Hj Hjm Hs. destruct (ix_range (j / BSIZE)) as [Hi1 Hi2]; [split; [by apply Z.div_pos|done]|].
  destruct (append_frame b (ix (j / BSIZE))) as [E1 E2]; try done; [tauto|]. unfold fbyte. by rewrite E1, E2.
Qed.

(** The bytes of the file itself. *)
Lemma append_data_block : D1 x = D x.
Proof using All.
  destruct append_bounds as (H0 & Hbn & _ & Hla). destruct (ix_range bn Hbn) as [Hix Hix12].
  destruct (gr_frame _ _ _ _ _ _ _ _ _ Hg x) as [?|[E _]]; [done|]. exfalso. unfold x in E.
  destruct (vo_inj _ _ _ _ (gr_vol _ _ _ _ _ _ _ _ _ Hg) a a (ix bn) 12) as [_ ?]; try done; apply Hg.
Qed.

Lemma append_old_byte j : 0 <= j < off -> fbyte D2 (T2 a) j = fbyte D (T a) j.
Proof using All.
  intros Hj. destruct append_bounds as (H0 & Hbn & Hb & Hla). assert (Hjb : 0 <= j / BSIZE <= bn) by (unfold bn, BSIZE in *; Z.div_mod_to_equations; lia).
  destruct (ix_range (j / BSIZE)) as [Hi1 Hi2]; [lia|].
  assert (Hs : slot D (T a) (ix (j / BSIZE)) <> 0).
  { apply (ho_snug _ _ _ _ Hh a c Ha); [done|]. apply needed_ix; [lia|]. fold off. unfold BSIZE in *. Z.div_mod_to_equations; lia. }
  destruct (decide (j / BSIZE = bn)) as [E|E]; last first.
  { destruct (append_frame a (ix (j / BSIZE))) as [E1 E2]; try done; [intros [_ Ei]; by apply E, ix_inj|]. unfold fbyte. by rewrite E1, E2. }
  unfold fbyte. rewrite E in *. rewrite append_slot by done. fold x. rewrite <- (gr_keep _ _ _ _ _ _ _ _ _ Hg a (ix bn) Hla Hi1 Hs). fold x.
  rewrite <- append_data_block. unfold D2. rewrite cv_upd_eq. unfold byte_at. f_equal.
  unfold bn, BSIZE in *. rewrite lookup_splice by (rewrite (proj1 (vo_blocks _ _ _ _ (gr_vol _ _ _ _ _ _ _ _ _ Hg) x)); Z.div_mod_to_equations; lia).
  case_decide; [|done]. exfalso. Z.div_mod_to_equations; lia.
Qed.

Lemma append_new_bytes : file_read D2 (T2 a) off m = p.
Proof using All.
  destruct append_bounds as (H0 & Hbn & Hb & Hla). destruct (ix_range bn Hbn) as [Hix Hix12].
  rewrite <- read_at_file; [|apply append_vol|lia..]. fold bn. rewrite append_slot by done. fold x. unfold D2. rewrite cv_upd_eq.
  unfold m. rewrite Nat2Z.id. apply read_at_splice_same.
  rewrite (proj1 (vo_blocks _ _ _ _ (gr_vol _ _ _ _ _ _ _ _ _ Hg) x)). unfold BSIZE in *. assert (0 <= off mod 1024) by (apply Z.mod_pos_bound; lia). lia.
Qed.

Lemma append_snug : snug D2 (T2 a).
Proof using All.
  destruct append_bounds as (H0 & Hbn & Hb & Hla). intros k Hk. rewrite append_slot by done.
  assert (Ez : i_size (T2 a) = off + m) by (unfold T2; by rewrite fn_lookup_insert). rewrite Ez.
  pose proof (ho_snug _ _ _ _ Hh a c Ha k Hk) as Hold. fold off in Hold.
  assert (off + m <= (bn + 1) * BSIZE) by (unfold bn, BSIZE in *; Z.div_mod_to_equations; lia). split.
  - intros [H1|[_ H1]]%(gr_new _ _ _ _ _ _ _ _ _ Hg a k Hla Hk).
    + apply Hold in H1. unfold needed in *. lia.
    + destruct H1 as [->|[-> H1]]; [apply needed_ix; lia|apply needed_12; unfold NDIRECT, BSIZE in *; lia].
  - intros Hn. destruct (decide (needed k off)) as [Ho|Ho].
    + apply Hold in Ho. by rewrite (gr_keep _ _ _ _ _ _ _ _ _ Hg a k Hla Hk Ho).
    + destruct (slot_cases k Hk) as [->|(b & Hbb & ->)].
      * apply Hg. rewrite needed_12 in *. unfold NDIRECT, BSIZE in *. lia.
      * rewrite needed_ix in * by lia. assert (b = bn) as -> by (unfold BSIZE in *; lia). apply Hg.
Qed.

Lemma append_tail j : off + m <= j < MAXFILE * BSIZE -> slot D2 (T2 a) (ix (j / BSIZE)) <> 0 -> fbyte D2 (T2 a) j = 0.
Proof using All.
  intros Hj Hs. destruct append_bounds as (H0 & Hbn & Hb & Hla). destruct (ix_range bn Hbn) as [Hix Hix12]. rewrite maxfile_bytes in Hj.
  assert (Hjb : 0 <= j / BSIZE < MAXFILE) by (change MAXFILE with 268; unfold BSIZE; Z.div_mod_to_equations; lia).
  pose proof (vo_blocks _ _ _ _ (gr_vol _ _ _ _ _ _ _ _ _ Hg) x) as Hx.
  apply append_snug in Hs; [|by apply ix_range]. apply (needed_ix (j / BSIZE)) in Hs; [|lia].
  assert (Ez : i_size (T2 a) = off + m) by (unfold T2; by rewrite fn_lookup_insert). rewrite Ez in Hs.
  assert (Ej : j / BSIZE = bn) by (unfold bn, BSIZE in *; Z.div_mod_to_equations; lia).
  unfold fbyte. rewrite Ej, append_slot by done. fold x. unfold D2. rewrite cv_upd_eq.
  assert (byte_at (D x) (j mod BSIZE) = 0) as <-.
  { destruct (decide (slot D (T a) (ix bn) = 0)) as [E|E].
    - rewrite (vo_fresh _ _ _ _ (ho_vol _ _ _ _ Hh)) by (by apply (gr_fresh _ _ _ _ _ _ _ _ _ Hg)). unfold byte_at.
      destruct (zero_block !! _) as [y|] eqn:Ey; [|done]. by apply list_elem_of_lookup_2, list_elem_of_In, repeat_spec in Ey.
    - pose proof (ho_tail _ _ _ _ Hh a c j Ha ltac:(fold off; rewrite maxfile_bytes; lia)) as Ht. rewrite Ej in Ht. specialize (Ht E).
      unfold fbyte in Ht. rewrite Ej in Ht. unfold x. by rewrite (gr_keep _ _ _ _ _ _ _ _ _ Hg a (ix bn) Hla Hix E). }
  rewrite <- append_data_block. unfold byte_at. f_equal.
  unfold bn, BSIZE in *. rewrite lookup_splice by (rewrite (proj1 Hx); Z.div_mod_to_equations; lia).
  case_decide; [|done]. exfalso. Z.div_mod_to_equations; lia.
Qed.

Lemma holds_append : holds D2 fb1 T2 (<[a := c ++ p]> l).
Proof using All.
  destruct append_bounds as (H0 & Hbn & Hb & Hla).
  assert (Hoth : forall b d, b <> a -> <[a := c ++ p]> l !! b = Some d -> l !! b = Some d /\ T2 b = T b /\ (b < length l)%nat).
  { intros b d Hne. rewrite list_lookup_insert_ne by done. intros E. unfold T2. rewrite fn_lookup_insert_ne by done.
    split_and!; [done|done|by eapply lookup_lt_Some]. }
  split.
  - rewrite length_insert. apply append_vol.
  - intros b d Hd. destruct (decide (b = a)) as [->|Hne]; [apply append_snug|]. destruct (Hoth b d Hne Hd) as (Hd' & ET & Hlb).
    intros k Hk. rewrite append_slot, ET by done. rewrite <- (ho_snug _ _ _ _ Hh b d Hd' k Hk). split.
    + intros [?|[? _]]%(gr_new _ _ _ _ _ _ _ _ _ Hg b k Hlb Hk); done.
    + intros Hs. by rewrite (gr_keep _ _ _ _ _ _ _ _ _ Hg b k Hlb Hk Hs).
  - intros b d Hd. destruct (decide (b = a)) as [->|Hne].
    + rewrite list_lookup_insert_eq in Hd by done. injection Hd as <-. unfold content. unfold T2 at 2. rewrite fn_lookup_insert. cbn [i_size set_isize].
      rewrite <- file_read_app by lia. f_equal; [|apply append_new_bytes]. rewrite <- (ho_content _ _ _ _ Hh a c Ha).
      apply file_read_ext. intros j Hj. apply append_old_byte. lia.
    + destruct (Hoth b d Hne Hd) as (Hd' & ET & Hlb). rewrite <- (ho_content _ _ _ _ Hh b d Hd'). unfold content. rewrite ET. rewrite <- ET at 1.
      apply file_read_ext. intros j Hj. pose proof (ho_size _ _ _ _ Hh b d Hd') as Hz. rewrite maxfile_bytes in Hz.
      apply append_other_byte; try done; [lia|change MAXFILE with 268; unfold BSIZE; Z.div_mod_to_equations; lia|].
      apply (ho_snug _ _ _ _ Hh b d Hd'); [apply ix_range; change MAXFILE with 268; unfold BSIZE; Z.div_mod_to_equations; lia|].
      apply needed_ix; unfold BSIZE; Z.div_mod_to_equations; lia.
  - intros b d Hd. destruct (decide (b = a)) as [->|Hne].
    + unfold T2. rewrite fn_lookup_insert. cbn [i_size set_isize]. lia.
    + destruct (Hoth b d Hne Hd) as (Hd' & -> & _). by apply (ho_size _ _ _ _ Hh b d).
  - intros b d j Hd. destruct (decide (b = a)) as [->|Hne].
    + replace (i_size (T2 a)) with (off + m) by (unfold T2; by rewrite fn_lookup_insert). apply append_tail.
    + destruct (Hoth b d Hne Hd) as (Hd' & ET & Hlb). rewrite ET. intros Hj. pose proof (ho_size _ _ _ _ Hh b d Hd') as Hz. rewrite maxfile_bytes in Hz, Hj.
      assert (Hjb : 0 <= j / BSIZE < MAXFILE) by (change MAXFILE with 268; unfold BSIZE; Z.div_mod_to_equations; lia).
      rewrite <- ET, append_slot by (done || by apply ix_range). intros [Hs|[? _]]%(gr_new _ _ _ _ _ _ _ _ _ Hg b _ Hlb (proj1 (ix_range _ Hjb))); [|done].
      rewrite append_other_byte by (done || lia). apply (ho_tail _ _ _ _ Hh b d); [done|rewrite maxfile_bytes; lia|done].
Qed.
End append.
