(* ===== verification/MkfsRun.v ===== *)
(** * The steps of [mkfs]

    The functions of [mkfs] are followed from the empty image to the last file.
    [image s l] says that inode [k + 1] of the image in [s] contains [l !! k]:
    [mkfs_ialloc] adds an empty file, [iappend] adds bytes to one, and both
    succeed as long as inodes and blocks suffice.  The last sections are about
    the bitmap and about directories padded with zeros. *)

From stdpp Require Import functions.
From S2P Require Import Prelude Memory CString Block Cache Sleeplock Log LogProofs Fs FsBlocks FsAlloc FsMap FsFile FsInode FsDir Mkfs MkfsProofs.

#[local] Set Warnings "-clear-no-such-hyp".

(** ** [iappend] *)

Lemma holds_ext D fb T T' l : (forall b, T' b = T b) -> holds D fb T l -> holds D fb T' l.
Proof.
  intros E [H1 H2 H3 H4 H5]. split.
  - eapply vol_ext; [|exact H1]. intros b _. by rewrite E.
  - intros a c. rewrite E. apply H2.
  - intros a c. rewrite E. apply H3.
  - intros a c. rewrite E. apply H4.
  - intros a c. rewrite E. apply H5.
Qed.

Lemma blocks_of_mono a b : 0 <= a <= b -> blocks_of a <= blocks_of b.
Proof.
  intros H. unfold blocks_of, BSIZE, NDIRECT. destruct (Z.ltb_spec (12 * 1024) a), (Z.ltb_spec (12 * 1024) b); Z.div_mod_to_equations; lia.
Qed.

Lemma iappend_loop_run fuel s T l a c din p :
  let off := i_size (T a) in
  let off' := off + Z.of_nat (length p) in
  let fb' := freeblock s + (blocks_of off' - blocks_of off) in
  holds (m_img s) (freeblock s) T l -> m_len s = 1000 -> l !! a = Some c -> i_addrs din = i_addrs (T a) ->
  Forall is_byte p -> off' <= MAXFILE * BSIZE -> fb' <= 1000 -> (length p < fuel)%nat ->
  exists ad D', iappend_loop fuel din off p s = Ok (set_iaddrs ad din, off') (grown D' fb' s) /\
    holds D' fb' (<[a := set_isize off' (set_iaddrs ad (T a))]> T) (<[a := c ++ p]> l) /\
    forall x, x < nmeta -> D' x = m_img s x.
Proof.
  revert s T l c din p. induction fuel as [|fuel IH]; intros s T l c din p off off' fb' Hh Hlen Ha Hl Hp Hmax Hfb Hf; [lia|].
  pose proof (ho_size _ _ _ _ Hh a c Ha) as Hz. fold off in Hz. rewrite maxfile_bytes in *.
  cbn [iappend_loop]. destruct (Z.ltb_spec 0 (Z.of_nat (length p))) as [Hn|Hn]; cbn [negb]; last first.
  { destruct p; [|simpl in Hn; lia]. exists (i_addrs din), (m_img s).
    assert (Eo : off' = off) by (unfold off'; simpl; lia). assert (Ef : fb' = freeblock s) by (unfold fb'; rewrite Eo; lia). rewrite Eo, Ef.
    split; [|split; [|done]].
    - unfold ret, grown. f_equal; [f_equal; by destruct din|by destruct s].
    - rewrite app_nil_r, list_insert_id by done. eapply holds_ext; [|exact Hh]. intros b.
      destruct (decide (b = a)) as [->|]; [|by rewrite fn_lookup_insert_ne]. rewrite fn_lookup_insert, Hl. unfold off. by destruct (T a). }
  assert (Hbn : 0 <= off / BSIZE < MAXFILE) by (change MAXFILE with 268; unfold off', BSIZE in *; Z.div_mod_to_equations; lia).
  destruct (Z.ltb_spec (off / BSIZE) MAXFILE); [|lia]. cbn [negb].
  assert (Hu : u32 ((off / BSIZE + 1) * BSIZE - off) = BSIZE - off mod BSIZE) by (rewrite u32_small; unfold BSIZE in *; Z.div_mod_to_equations; lia).
  rewrite Hu. set (n1 := Z.min (Z.of_nat (length p)) (BSIZE - off mod BSIZE)) in *.
  assert (Hn1 : 0 < n1 <= Z.of_nat (length p) /\ off mod BSIZE + n1 <= BSIZE /\ n1 <= BSIZE)
    by (unfold n1, BSIZE; pose proof (Z.mod_pos_bound off 1024); lia).
  set (p1 := take (Z.to_nat n1) p) in *. set (p2 := drop (Z.to_nat n1) p) in *.
  assert (Hp1 : Z.of_nat (length p1) = n1) by (unfold p1; rewrite length_take; lia).
  assert (Hp2 : Z.of_nat (length p2) = Z.of_nat (length p) - n1) by (unfold p2; rewrite length_drop; lia).
  assert (Hnb := new_blocks_of (m_img s) (T a) n1 (ho_snug _ _ _ _ Hh a c Ha) ltac:(lia) ltac:(lia) ltac:(fold off; lia)
    ltac:(fold off; rewrite maxfile_bytes; unfold off' in *; lia)). fold off in Hnb.
  assert (Hmono := blocks_of_mono (off + n1) off' ltac:(unfold off'; lia)).
  destruct (append_block_run s T (length l) a din (off / BSIZE) (ho_vol _ _ _ _ Hh) Hlen ltac:(by eapply lookup_lt_Some) Hl Hbn)
    as (ad & D1 & E & Hg); [rewrite Hnb; unfold fb' in *; lia|]. cbv zeta in E, Hg. rewrite Hnb in E, Hg. set (fb1 := freeblock s + (blocks_of (off + n1) - blocks_of off)) in *.
  rewrite (bind_Ok _ _ _ _ _ E). cbn [fst snd]. set (T1 := <[a := set_iaddrs ad (T a)]> T) in *. set (x := slot D1 (T1 a) (ix (off / BSIZE))) in *.
  pose proof (gr_vol _ _ _ _ _ _ _ _ _ Hg) as Hv1. assert (Hla : (a < length l)%nat) by by eapply lookup_lt_Some.
  pose proof (vo_range _ _ _ _ Hv1 a (ix (off / BSIZE)) Hla (proj1 (ix_range _ Hbn)) (gr_slot _ _ _ _ _ _ _ _ _ Hg)) as Hx. rewrite nmeta_eq in Hx. fold x in Hx.
  assert (Hf1 : fb1 <= 1000) by (unfold fb1, fb' in *; lia).
  rewrite (bind_Ok _ _ _ _ _ (rsect_run (grown D1 fb1 s) x Hlen ltac:(lia))). cbn [m_img grown].
  replace (off - off / BSIZE * BSIZE) with (off mod BSIZE) by (unfold BSIZE; Z.div_mod_to_equations; lia).
  rewrite (bind_Ok _ _ _ _ _ (wsect_run (grown D1 fb1 s) x _ Hlen ltac:(lia))). cbn [m_img grown].
  assert (Hh2 := holds_append _ _ _ _ _ _ p1 Hh Ha ltac:(lia) ltac:(rewrite Hp1; fold off; lia)
    ltac:(rewrite Hp1, maxfile_bytes; fold off; unfold off' in *; lia) ltac:(by apply Forall_take) _ _ _ Hg). cbv zeta in Hh2.
  fold T1 off x in Hh2. rewrite Hp1 in Hh2. set (D2 := cv_upd D1 x _) in *. set (T2 := <[a := _]> T) in Hh2.
  rewrite u32_small by (unfold off' in *; lia).
  assert (E2 : i_size (T2 a) = off + n1) by (unfold T2; by rewrite fn_lookup_insert).
  destruct (IH (set_mimg D2 1000 (grown D1 fb1 s)) T2 (<[a := c ++ p1]> l) (c ++ p1) (set_iaddrs ad din) p2) as (ad2 & D3 & E3 & Hh3 & Hfr);
    cbn [m_img freeblock m_len set_mimg grown]; try rewrite E2; try done.
  { apply list_lookup_insert_eq. by eapply lookup_lt_Some. }
  { unfold T2. by rewrite fn_lookup_insert. }
  { by apply Forall_drop. }
  { rewrite Hp2. unfold off' in *. lia. }
  { rewrite Hp2. replace (off + n1 + _) with off' by (unfold off'; lia). unfold fb1, fb' in *. lia. }
  { lia. }
  rewrite E2 in E3, Hh3. cbn [m_img freeblock m_len freeinode set_mimg grown] in E3, Hh3, Hfr.
  replace (off + n1 + Z.of_nat (length p2)) with off' in E3, Hh3 by (unfold off'; lia).
  replace (fb1 + (blocks_of off' - blocks_of (off + n1))) with fb' in E3, Hh3 by (unfold fb1, fb'; lia).
  exists ad2, D3. split; [|split].
  - rewrite E3. unfold grown. cbn. by rewrite Hlen.
  - rewrite list_insert_insert_eq, <- app_assoc in Hh3. unfold p1, p2 in Hh3. rewrite take_drop in Hh3. eapply holds_ext; [|exact Hh3].
    intros b. destruct (decide (b = a)) as [->|]; [|unfold T2; by rewrite !fn_lookup_insert_ne]. rewrite !fn_lookup_insert. unfold T2. by rewrite fn_lookup_insert.
  - intros y Hy. rewrite Hfr by done. unfold D2. rewrite nmeta_eq in Hy. rewrite cv_upd_ne by lia.
    destruct (gr_frame _ _ _ _ _ _ _ _ _ Hg y) as [->|[Ey Hy0]]; [done|].
    assert (H12 : slot D1 (T1 a) 12 <> 0) by congruence.
    pose proof (vo_range _ _ _ _ Hv1 a 12 Hla ltac:(unfold NSLOT; lia) H12) as Hr. rewrite nmeta_eq in Hr. lia.
Qed.

(** ** Inodes in the image *)

Definition dinode_at (D : Z -> block) (inum : Z) : inode :=
  load_dinode (D (IBLOCK inum mkfs_sb)) (dinode_off inum) no_inode.

Lemma read_at_within d o k n m : (k + n <= m)%nat -> read_at d (o + k) n = read_at (read_at d o m) k n.
Proof.
  intros H. apply list_eq. intros i. rewrite !lookup_read_at. case_decide; [|done].
  rewrite decide_True by lia. f_equal. lia.
Qed.

Lemma load_dinode_ext d d' o j : read_at d o 64 = read_at d' o 64 -> load_dinode d o j = load_dinode d' o j.
Proof.
  intros E. assert (Er : forall k n, (k + n <= 64)%nat -> read_at d (o + k) n = read_at d' (o + k) n).
  { intros k n H. by rewrite !(read_at_within _ o k n 64), E by done. }
  assert (E0 : read_at d o 2 = read_at d' o 2) by (rewrite <- (Nat.add_0_r o); apply Er; lia).
  unfold load_dinode, geti16, get16, get_addrs, get32. rewrite E0, !Er by lia. f_equal.
  apply map_ext_in. intros k Hk%in_seq. rewrite <- Nat.add_assoc. by rewrite Er by lia.
Qed.

Lemma IBLOCK_eq inum : 0 <= inum < 208 -> IBLOCK inum mkfs_sb = 32 + inum / 16 /\ 32 <= IBLOCK inum mkfs_sb < 45.
Proof.
  intros H. unfold IBLOCK. rewrite mkfs_sb_eq. cbn [sb_inodestart]. change IPB with 16. rewrite u32_small; Z.div_mod_to_equations; lia.
Qed.

Section winode.
Variables (s : mkst) (inum : Z) (i : inode).
Hypothesis Hlen : m_len s = 1000.
Hypothesis Hok : forall x, block_ok (m_img s x).
Hypothesis Hin : 0 <= inum < 208.
Hypothesis Hi : dinode_ok i.
Let bn := IBLOCK inum mkfs_sb.
Let D' := cv_upd (m_img s) bn (store_dinode i (dinode_off inum) (m_img s bn)).

Lemma rinode_run : rinode inum s = Ok (dinode_at (m_img s) inum) s.
Proof using Hlen Hin.
  destruct (IBLOCK_eq inum Hin) as [_ Hb]. unfold rinode. by rewrite (bind_Ok _ _ _ _ _ (rsect_run s (IBLOCK inum mkfs_sb) Hlen ltac:(lia))).
Qed.

Lemma winode_run : winode inum i s = Ok tt (set_mimg D' 1000 s).
Proof using Hlen Hin.
  destruct (IBLOCK_eq inum Hin) as [_ Hb]. unfold winode. rewrite (bind_Ok _ _ _ _ _ (rsect_run s (IBLOCK inum mkfs_sb) Hlen ltac:(lia))).
  by apply wsect_run; [|lia].
Qed.

Lemma winode_ok x : block_ok (D' x).
Proof using Hok Hi.
  unfold D', cv_upd. destruct (x =? bn); [|apply Hok]. apply store_dinode_ok; [apply Hok|apply Hi|apply dinode_off_bound].
Qed.

Lemma winode_at : dinode_at D' inum = disk_fields i no_inode.
Proof using Hok Hi.
  unfold dinode_at. fold bn. unfold D'. rewrite cv_upd_eq. apply load_store_dinode; [done|].
  rewrite (proj1 (Hok bn)). apply dinode_off_bound.
Qed.

Lemma winode_other k : 0 <= k < 208 -> k <> inum -> dinode_at D' k = dinode_at (m_img s) k.
Proof using Hok Hi Hin.
  intros Hk Hne. unfold dinode_at, D'. destruct (decide (IBLOCK k mkfs_sb = bn)) as [E|E]; [|by rewrite cv_upd_ne].
  rewrite E, cv_upd_eq. apply load_dinode_ext, store_dinode_other; [rewrite (proj1 (Hok bn)); apply dinode_off_bound|apply Hi|].
  unfold bn in E. rewrite (proj1 (IBLOCK_eq k Hk)), (proj1 (IBLOCK_eq inum Hin)) in E.
  unfold apart, dinode_off. change IPB with 16. Z.div_mod_to_equations; lia.
Qed.

Lemma winode_frame x : x < 32 \/ 45 <= x -> D' x = m_img s x.
Proof using Hin. intros Hx. destruct (IBLOCK_eq inum Hin) as [_ Hb]. apply cv_upd_ne. unfold bn. lia. Qed.
End winode.

(** ** The image under construction *)

(** The blocks that the files occupy. *)
Definition blocks_total (l : list (list Z)) : Z := foldr (fun c n => blocks_of (Z.of_nat (length c)) + n) 0 l.

Lemma blocks_total_app l l' : blocks_total (l ++ l') = blocks_total l + blocks_total l'.
Proof. unfold blocks_total. induction l as [|c l IH]; [done|]. cbn [foldr app]. lia. Qed.

Lemma blocks_total_insert l a c c' :
  l !! a = Some c -> blocks_total (<[a := c']> l) = blocks_total l + (blocks_of (Z.of_nat (length c')) - blocks_of (Z.of_nat (length c))).
Proof.
  intros H. rewrite insert_take_drop by (by eapply lookup_lt_Some). rewrite <- (take_drop_middle l a c H) at 3.
  rewrite !blocks_total_app. unfold blocks_total. cbn [foldr]. lia.
Qed.

(** Inode [a + 1] as [mkfs] leaves it but for size and addresses. *)
Definition file_type (a : nat) : Z := if Nat.eqb a 0 then T_DIR else T_FILE.

Record plain (a : nat) (i : inode) : Prop := {
  pl_type : i_type i = file_type a;
  pl_nlink : i_nlink i = 1;
  pl_rest : i_major i = 0 /\ i_minor i = 0 /\ disk_fields i no_inode = i
}.

Record image (s : mkst) (T : nat -> inode) (l : list (list Z)) : Prop := {
  im_len : m_len s = 1000;
  im_ino : freeinode s = Z.of_nat (length l) + 1;
  im_max : Z.of_nat (length l) < NINODES;
  im_holds : holds (m_img s) (freeblock s) T l;
  im_fb : freeblock s = nmeta + blocks_total l;
  im_fit : freeblock s <= 1000;
  im_dinode a : (a < length l)%nat -> dinode_at (m_img s) (Z.of_nat a + 1) = T a;
  im_plain a : (a < length l)%nat -> plain a (T a);
  im_free k : Z.of_nat (length l) < k < 208 -> dinode_at (m_img s) k = no_inode;
  im_low x : x < 32 -> m_img s x = if x =? 1 then sb_block mkfs_sb else zero_block
}.

(** The fields of the inodes are in range. *)
Lemma image_dinode_ok D fb T l a c :
  holds D fb T l -> fb <= 1000 -> l !! a = Some c -> plain a (T a) -> dinode_ok (T a).
Proof.
  intros Hh Hfb Ha [P1 P2 (P3 & P4 & _)]. pose proof (ho_size _ _ _ _ Hh a c Ha) as Hz. rewrite maxfile_bytes in Hz.
  pose proof (ho_vol _ _ _ _ Hh) as Hv. assert (Hla : (a < length l)%nat) by by eapply lookup_lt_Some.
  pose proof (vo_len _ _ _ _ Hv a Hla) as Hl. unfold short.
  split; unfold short; rewrite ?P1, ?P2, ?P3, ?P4; try lia; [unfold file_type; destruct (Nat.eqb a 0); unfold T_DIR, T_FILE; lia|].
  apply Forall_lookup. intros k x Hk. pose proof (lookup_lt_Some _ _ _ Hk).
  assert (E : slot D (T a) (Z.of_nat k) = x).
  { unfold slot, addr_at. destruct (Z.ltb_spec (Z.of_nat k) 13); [|lia]. by rewrite Nat2Z.id, Hk. }
  destruct (decide (x = 0)); [lia|]. pose proof (vo_range _ _ _ _ Hv a (Z.of_nat k) Hla ltac:(unfold NSLOT; lia) ltac:(congruence)) as Hr.
  rewrite E, nmeta_eq in Hr. lia.
Qed.

(** Blocks before the data do not matter to the files. *)
Lemma holds_frame D D' fb T l :
  (forall x, nmeta <= x -> D' x = D x) -> (forall x, block_ok (D' x)) -> holds D fb T l -> holds D' fb T l.
Proof.
  intros Hf Hok Hh. pose proof (ho_vol _ _ _ _ Hh) as Hv.
  assert (Hs : forall b k, (b < length l)%nat -> slot D' (T b) k = slot D (T b) k).
  { intros b k Hb. unfold slot. destruct (k <? 13); [done|]. destruct (Z.eqb_spec (addr_at (i_addrs (T b)) NDIRECT) 0) as [|E]; [done|].
    rewrite Hf; [done|]. by apply (vo_range _ _ _ _ Hv b 12 Hb ltac:(unfold NSLOT; lia)). }
  assert (Hfb : forall a j, (a < length l)%nat -> 0 <= j -> slot D (T a) (ix (j / BSIZE)) <> 0 -> j < MAXFILE * BSIZE -> fbyte D' (T a) j = fbyte D (T a) j).
  { intros a j Ha Hj Hsl Hm. rewrite maxfile_bytes in Hm. unfold fbyte. rewrite Hs by done. rewrite Hf; [done|].
    apply (vo_range _ _ _ _ Hv a _ Ha); [|done]. apply ix_range. change MAXFILE with 268. unfold BSIZE. Z.div_mod_to_equations; lia. }
  split; [split; try apply Hv| | |by apply Hh|].
  - done.
  - intros a k Ha. rewrite Hs by done. by apply Hv.
  - intros a b j k Ha Hb. rewrite !Hs by done. by apply Hv.
  - intros x Hx. pose proof (vo_fb _ _ _ _ Hv). rewrite Hf by lia. by apply Hv.
  - intros a c Ha k Hk. rewrite Hs by (by eapply lookup_lt_Some). by apply (ho_snug _ _ _ _ Hh a c).
  - intros a c Ha. assert (Hla : (a < length l)%nat) by by eapply lookup_lt_Some. rewrite <- (ho_content _ _ _ _ Hh a c Ha).
    pose proof (ho_size _ _ _ _ Hh a c Ha) as Hz. rewrite maxfile_bytes in Hz.
    apply file_read_ext. intros j Hj. apply Hfb; [done|lia| |rewrite maxfile_bytes; lia].
    apply (ho_snug _ _ _ _ Hh a c Ha); [apply ix_range; change MAXFILE with 268; unfold BSIZE; Z.div_mod_to_equations; lia|].
    apply needed_ix; unfold BSIZE; Z.div_mod_to_equations; lia.
  - intros a c j Ha Hj. assert (Hla : (a < length l)%nat) by by eapply lookup_lt_Some. rewrite Hs by done. intros Hsl.
    pose proof (ho_size _ _ _ _ Hh a c Ha). rewrite Hfb by (done || lia). by apply (ho_tail _ _ _ _ Hh a c).
Qed.

Lemma plain_update a i ad sz : plain a i -> plain a (set_isize sz (set_iaddrs ad i)).
Proof.
  intros [P1 P2 (P3 & P4 & P5)]. split; [done|done|]. split_and!; [done|done|]. destruct i. unfold disk_fields in *. cbn in *. injection P5; intros. by subst.
Qed.

(** Storing the inode of a file, an old one or the next, completes its change. *)
Lemma image_store s T l s1 a i l' :
  image s T l -> (a < length l')%nat -> (length l <= length l')%nat -> (forall b, (b < length l')%nat -> b <> a -> (b < length l)%nat) ->
  m_len s1 = 1000 -> freeinode s1 = Z.of_nat (length l') + 1 -> Z.of_nat (length l') < NINODES ->
  freeblock s1 = nmeta + blocks_total l' -> freeblock s1 <= 1000 -> plain a i -> (forall x, x < nmeta -> m_img s1 x = m_img s x) ->
  holds (m_img s1) (freeblock s1) (<[a := i]> T) l' ->
  exists s', winode (Z.of_nat a + 1) i s1 = Ok tt s' /\ image s' (<[a := i]> T) l'.
Proof.
  intros Him Ha Hll Hold Hlen Hino Hmax Hfb Hfit Hp Hlow Hh. destruct Him as [I1 I2 I3 I4 I5 I6 I7 I8 I9 I10]. unfold NINODES in *.
  assert (Hn : 0 <= Z.of_nat a + 1 < 208) by lia. rewrite nmeta_eq in Hlow.
  assert (Hok : forall x, block_ok (m_img s1 x)) by apply Hh.
  assert (Hi : dinode_ok i).
  { destruct (lookup_lt_is_Some_2 l' a ltac:(lia)) as [c Hc].
    pose proof (image_dinode_ok _ _ _ l' a c Hh Hfit Hc) as H. rewrite fn_lookup_insert in H. by apply H. }
  assert (Hd : forall k, 0 <= k < 208 -> dinode_at (m_img s1) k = dinode_at (m_img s) k).
  { intros k Hk. unfold dinode_at. destruct (IBLOCK_eq k Hk) as [_ Hb]. by rewrite Hlow by lia. }
  rewrite (winode_run s1 _ i Hlen Hn). eexists. split; [reflexivity|].
  pose proof (winode_at s1 (Z.of_nat a + 1) i Hok Hi) as W1. pose proof (winode_other s1 (Z.of_nat a + 1) i Hok Hn Hi) as W2.
  pose proof (winode_frame s1 (Z.of_nat a + 1) i Hn) as W3. pose proof (winode_ok s1 (Z.of_nat a + 1) i Hok Hi) as W4. cbv zeta in *.
  set (D' := cv_upd _ _ _) in *. split; cbn [m_img m_len freeinode freeblock set_mimg]; try done.
  - eapply holds_frame; [|exact W4|exact Hh]. intros x Hx. rewrite nmeta_eq in Hx. apply W3. lia.
  - intros b Hb. destruct (decide (b = a)) as [->|Hne]; [rewrite W1, fn_lookup_insert; apply Hp|].
    rewrite W2, Hd, fn_lookup_insert_ne by (done || lia). by apply I7, Hold.
  - intros b Hb. destruct (decide (b = a)) as [->|Hne]; [by rewrite fn_lookup_insert|]. rewrite fn_lookup_insert_ne by done. by apply I8, Hold.
  - intros k Hk. rewrite W2, Hd by lia. apply I9. lia.
  - intros x Hx. rewrite W3, Hlow by lia. by apply I10.
Qed.

Lemma iappend_run s T l a c p :
  image s T l -> l !! a = Some c -> Forall is_byte p ->
  Z.of_nat (length (c ++ p)) <= MAXFILE * BSIZE -> nmeta + blocks_total (<[a := c ++ p]> l) <= 1000 ->
  exists s' T', iappend (Z.of_nat a + 1) p s = Ok tt s' /\ image s' T' (<[a := c ++ p]> l).
Proof.
  intros Him Ha Hp Hmax Hfit. pose proof (im_holds _ _ _ Him) as Hh. pose proof (lookup_lt_Some _ _ _ Ha) as Hla.
  pose proof (im_max _ _ _ Him) as Hm. unfold NINODES in Hm. pose proof (ho_length _ _ _ _ _ _ Hh Ha) as Hsz.
  rewrite (blocks_total_insert _ _ _ _ Ha), length_app, Nat2Z.inj_add in Hfit. rewrite length_app, Nat2Z.inj_add in Hmax.
  pose proof (im_fb _ _ _ Him) as Hfb. pose proof maxfile_bytes as Em.
  unfold iappend. rewrite (bind_Ok _ _ _ _ _ (rinode_run s (Z.of_nat a + 1) (im_len _ _ _ Him) ltac:(lia))), (im_dinode _ _ _ Him a Hla).
  rewrite xint_id by lia.
  destruct (iappend_loop_run (S (length p)) s T l a c (T a) p Hh (im_len _ _ _ Him) Ha eq_refl Hp) as (ad & D' & E & Hh' & Hfr); try (rewrite ?Hsz; lia).
  rewrite (bind_Ok _ _ _ _ _ E). cbn [fst snd]. rewrite xint_id by lia.
  pose proof (im_ino _ _ _ Him) as Hino.
  edestruct (image_store s T l (grown D' (freeblock s + (blocks_of (i_size (T a) + Z.of_nat (length p)) - blocks_of (i_size (T a)))) s))
    as (s' & E' & Him'); [exact Him| | | |apply Him| | | | | |exact Hfr|exact Hh'|]; cbn [freeblock freeinode grown]; rewrite ?length_insert; try done.
  - rewrite (blocks_total_insert _ _ _ _ Ha), length_app, Nat2Z.inj_add, Hfb, Hsz. lia.
  - rewrite Hsz. lia.
  - by apply plain_update, Him.
  - by eexists _, _.
Qed.

(** A new file is empty. *)
Definition new_inode (type : Z) : inode := set_isize 0 (set_inlink 1 (set_itype type no_inode)).

Lemma new_slot D type k : slot D (new_inode type) k = 0.
Proof.
  assert (E : forall k, addr_at (repeat 0 13) k = 0).
  { intros j. unfold addr_at. destruct (repeat 0 13 !! Z.to_nat j) as [x|] eqn:Ex; [|done]. cbn.
    apply list_elem_of_lookup_2, list_elem_of_In, repeat_spec in Ex. done. }
  unfold slot. cbn [i_addrs new_inode set_isize set_inlink set_idev set_itype no_inode]. rewrite !E. by destruct (k <? 13).
Qed.

Lemma holds_new D fb T l type : holds D fb T l -> holds D fb (<[length l := new_inode type]> T) (l ++ [[]]).
Proof.
  intros Hh. pose proof (ho_vol _ _ _ _ Hh) as Hv. set (T' := <[length l := new_inode type]> T).
  assert (En : T' (length l) = new_inode type) by apply fn_lookup_insert.
  assert (Eo : forall b, (b < length l)%nat -> T' b = T b) by (intros b Hb; apply fn_lookup_insert_ne; lia).
  assert (Hc : forall b, (b < length (l ++ [[]]))%nat -> (b < length l)%nat \/ b = length l) by (intros b; rewrite length_app; simpl; lia).
  assert (Hsl : forall b k, (b < length (l ++ [[]]))%nat -> slot D (T' b) k <> 0 -> (b < length l)%nat).
  { intros b k Hb Hs. destruct (Hc b Hb) as [| ->]; [done|]. by rewrite En, new_slot in Hs. }
  assert (Hl : forall a c, (l ++ [[]]) !! a = Some c -> (l !! a = Some c /\ T' a = T a) \/ (a = length l /\ c = [])).
  { intros a c H. apply lookup_snoc_Some in H as [[H1 H2]|[<- <-]]; [left; by rewrite Eo|by right]. }
  split; [split; try apply Hv| | | |].
  - intros b Hb. destruct (Hc b Hb) as [H| ->]; [rewrite Eo by done; by apply Hv|by rewrite En].
  - intros b k Hb Hk Hs. pose proof (Hsl b k Hb Hs). rewrite Eo in * by done. by apply Hv.
  - intros b d j k Hb Hd Hj Hk Hs E. pose proof (Hsl b j Hb Hs) as H1. pose proof (Hsl d k Hd ltac:(congruence)) as H2.
    rewrite !Eo in * by done. by apply Hv.
  - intros a c [[H ->]|[-> ->]]%Hl; [by eapply ho_snug|]. intros k Hk. rewrite En, new_slot. unfold needed. cbn.
    split; [done|]. unfold BSIZE. destruct (Z.eqb_spec k 12), (Z.ltb_spec k 12); lia.
  - intros a c [[H ->]|[-> ->]]%Hl; [by eapply ho_content|]. by rewrite En.
  - intros a c [[H ->]|[-> ->]]%Hl; [by eapply ho_size|]. by rewrite En.
  - intros a c j [[H ->]|[-> ->]]%Hl; [by eapply ho_tail|]. intros _. by rewrite En, new_slot.
Qed.

Lemma ialloc_run s T l :
  image s T l -> Z.of_nat (length l) + 1 < NINODES ->
  exists s' T', mkfs_ialloc (file_type (length l)) s = Ok (Z.of_nat (length l) + 1) s' /\ image s' T' (l ++ [[]]).
Proof.
  intros Him Hmax. unfold NINODES in Hmax. pose proof (im_ino _ _ _ Him) as Hino.
  set (s1 := set_freeinode (u32 (freeinode s + 1)) s).
  edestruct (image_store s T l s1 (length l) (new_inode (file_type (length l))) (l ++ [[]]) Him) as (s' & E & Him');
    try (rewrite length_app; simpl; lia); try apply Him; try done.
  - cbn. rewrite Hino, length_app, u32_small by lia. simpl. lia.
  - rewrite length_app. unfold NINODES. simpl. lia.
  - cbn. rewrite (im_fb _ _ _ Him), blocks_total_app. change (blocks_total [[]]) with 0. lia.
  - cbn. apply holds_new, Him.
  - exists s', (<[length l := new_inode (file_type (length l))]> T). split; [|exact Him'].
    unfold mkfs_ialloc, bind, get, modify. fold s1. rewrite Hino.
    replace (set_isize _ _) with (new_inode (file_type (length l))) by (unfold file_type; by destruct (Nat.eqb (length l) 0)).
    by rewrite E.
Qed.

(** ** Files and their entries *)

Lemma blocks_of_nonneg n : 0 <= n -> 0 <= blocks_of n.
Proof. intros H. apply (blocks_of_mono 0 n). lia. Qed.

Lemma blocks_total_nonneg l : 0 <= blocks_total l.
Proof. unfold blocks_total. induction l as [|c l IH]; cbn [foldr]; [lia|]. pose proof (blocks_of_nonneg (Z.of_nat (length c)) ltac:(lia)). lia. Qed.

Lemma blocks_total_cons c l : blocks_total (c :: l) = blocks_of (Z.of_nat (length c)) + blocks_total l.
Proof. done. Qed.

(** What the calls of [read] deliver, up to the one that returns 0. *)
Fixpoint file_bytes (reads : list (list Z)) : list Z :=
  match reads with
  | [] => []
  | [] :: _ => []
  | buf :: reads' => buf ++ file_bytes reads'
  end.

Lemma copy_file_run reads s T l a c :
  image s T l -> l !! a = Some c -> Forall (Forall is_byte) reads ->
  Z.of_nat (length (c ++ file_bytes reads)) <= MAXFILE * BSIZE -> nmeta + blocks_total (<[a := c ++ file_bytes reads]> l) <= 1000 ->
  exists s' T', copy_file (Z.of_nat a + 1) reads s = Ok tt s' /\ image s' T' (<[a := c ++ file_bytes reads]> l).
Proof.
  revert s T l c. induction reads as [|buf reads IH]; intros s T l c Him Ha Hb Hmax Hfit.
  { exists s, T. cbn [file_bytes]. by rewrite app_nil_r, list_insert_id. }
  destruct buf as [|x buf]; [exists s, T; cbn [file_bytes]; by rewrite app_nil_r, list_insert_id|].
  cbn [file_bytes copy_file] in *. set (b := x :: buf) in *. apply Forall_cons in Hb as [Hb1 Hb2].
  assert (Hlen : (length (c ++ b) <= length (c ++ b ++ file_bytes reads))%nat) by (rewrite !length_app; lia).
  destruct (iappend_run s T l a c b Him Ha Hb1) as (s1 & T1 & E1 & Him1); [lia| |].
  { rewrite (blocks_total_insert _ _ _ _ Ha) in Hfit. rewrite (blocks_total_insert _ _ _ _ Ha).
    pose proof (blocks_of_mono (Z.of_nat (length (c ++ b))) (Z.of_nat (length (c ++ b ++ file_bytes reads)))). lia. }
  assert (Ha1 : <[a := c ++ b]> l !! a = Some (c ++ b)) by (apply list_lookup_insert_eq; by eapply lookup_lt_Some).
  destruct (IH s1 T1 _ (c ++ b) Him1 Ha1 Hb2) as (s2 & T2 & E2 & Him2); rewrite <- ?app_assoc, ?list_insert_insert_eq; try done.
  rewrite <- app_assoc, list_insert_insert_eq in Him2. exists s2, T2. split; [|done]. by rewrite (bind_Ok _ _ _ _ _ E1).
Qed.

Lemma after_slash_none arg : existsb (Z.eqb 47) (after_slash arg) = false.
Proof.
  induction arg as [|c arg IH]; [done|]. cbn [after_slash]. destruct (existsb (Z.eqb 47) arg) eqn:E; [done|].
  destruct (Z.eqb_spec c 47) as [|Hc]; [done|]. cbn [existsb]. rewrite E. by destruct (Z.eqb_spec 47 c).
Qed.

Lemma mkdirent_all_bytes inum name : Forall is_byte name -> Forall is_byte (mkdirent inum name).
Proof. intros H. unfold mkdirent. apply Forall_app. split; [apply le_bytes_bytes|by apply fill_name_bytes]. Qed.

Lemma short_name_bytes arg : Forall is_byte arg -> Forall is_byte (short_name arg).
Proof.
  intros H. unfold short_name. assert (Ha : Forall is_byte (after_slash arg)).
  { induction H as [|c l Hc Hl IH]; [done|]. cbn [after_slash]. destruct (existsb _ l); [done|]. destruct (c =? 47); [done|by constructor]. }
  destruct Ha as [|c l Hc Hl]; [done|]. destruct (c =? 95); [done|by constructor].
Qed.

Lemma add_file_run h s T root fs arg reads :
  let inum := Z.of_nat (length fs) + 2 in
  let root' := root ++ mkdirent inum (short_name arg) in
  image s T (root :: fs) -> h_open h arg = Some reads -> Forall is_byte arg -> Forall (Forall is_byte) reads ->
  inum < NINODES -> Z.of_nat (length root') <= MAXFILE * BSIZE -> Z.of_nat (length (file_bytes reads)) <= MAXFILE * BSIZE ->
  nmeta + blocks_total (root' :: fs ++ [file_bytes reads]) <= 1000 ->
  exists s' T', add_file h 1 arg s = Ok tt s' /\ image s' T' (root' :: fs ++ [file_bytes reads]).
Proof.
  intros inum root' Him Ho Hna Hrd Hn Hr Hm Hfit. unfold add_file. rewrite after_slash_none, Ho.
  destruct (ialloc_run s T _ Him) as (s1 & T1 & E1 & Him1); [cbn [length]; lia|].
  assert (Ei : Z.of_nat (length (root :: fs)) + 1 = inum) by (cbn [length]; lia). rewrite Ei in E1. change (file_type _) with T_FILE in E1.
  rewrite (bind_Ok _ _ _ _ _ E1). unfold NINODES in Hn. rewrite xshort_id by lia.
  rewrite blocks_total_cons, blocks_total_app in Hfit. pose proof (blocks_total_nonneg [file_bytes reads]).
  destruct (iappend_run s1 T1 _ 0 root (mkdirent inum (short_name arg)) Him1 eq_refl) as (s2 & T2 & E2 & Him2).
  { by apply mkdirent_all_bytes, short_name_bytes. }
  { exact Hr. }
  { cbn [insert list_insert]. fold root'. rewrite <- app_comm_cons. cbn [insert list_insert]. rewrite blocks_total_cons, blocks_total_app.
    change (blocks_total [[]]) with 0. lia. }
  rewrite (bind_Ok _ _ _ _ _ E2). rewrite <- app_comm_cons in Him2. cbn [insert list_insert] in Him2. fold root' in Him2.
  assert (Hl : (root' :: fs ++ [[]]) !! S (length fs) = Some []) by (simpl; rewrite lookup_app_r, Nat.sub_diag by lia; done).
  assert (El : <[S (length fs) := file_bytes reads]> (root' :: fs ++ [[]]) = root' :: fs ++ [file_bytes reads]).
  { change (root' :: <[length fs := file_bytes reads]> (fs ++ [[]]) = root' :: fs ++ [file_bytes reads]). f_equal. rewrite insert_app_r_alt by lia. by rewrite Nat.sub_diag. }
  replace inum with (Z.of_nat (S (length fs)) + 1) by lia. rewrite <- El.
  apply (copy_file_run reads s2 T2 _ _ [] Him2 Hl Hrd); cbn [app]; [exact Hm|].
  rewrite El, blocks_total_cons, blocks_total_app. lia.
Qed.

(** The entries of the files in the root directory. *)
Fixpoint root_entries (k : Z) (args : list (list Z)) : list Z :=
  match args with
  | [] => []
  | arg :: args' => mkdirent k (short_name arg) ++ root_entries (k + 1) args'
  end.

Lemma add_files_run h files rds s T root fs :
  let root' := root ++ root_entries (Z.of_nat (length fs) + 2) files in
  Forall2 (fun arg reads => h_open h arg = Some reads) files rds ->
  Forall (Forall is_byte) files -> Forall (Forall (Forall is_byte)) rds ->
  Forall (fun reads => Z.of_nat (length (file_bytes reads)) <= MAXFILE * BSIZE) rds ->
  image s T (root :: fs) -> Z.of_nat (length fs + length files) + 1 < NINODES -> Z.of_nat (length root') <= MAXFILE * BSIZE ->
  nmeta + blocks_total (root' :: fs ++ map file_bytes rds) <= 1000 ->
  exists s' T', for_in files (add_file h 1) s = Ok tt s' /\ image s' T' (root' :: fs ++ map file_bytes rds).
Proof.
  intros root' Hf. revert s T root fs root'. induction Hf as [|arg reads files rds Ho Hf IH]; intros s T root fs root' Hb1 Hb2 Hsz Him Hn Hr Hfit.
  { exists s, T. unfold root'. cbn [root_entries map for_in]. by rewrite !app_nil_r. }
  apply Forall_cons in Hb1 as [Hb1 Hb1'], Hb2 as [Hb2 Hb2'], Hsz as [Hs1 Hs2]. cbn [length map root_entries] in *.
  set (root1 := root ++ mkdirent (Z.of_nat (length fs) + 2) (short_name arg)) in *.
  assert (Er : root' = root1 ++ root_entries (Z.of_nat (length (fs ++ [file_bytes reads])) + 2) files).
  { unfold root', root1. rewrite <- app_assoc, length_app. cbn [length]. do 3 f_equal. lia. }
  assert (El : fs ++ file_bytes reads :: map file_bytes rds = (fs ++ [file_bytes reads]) ++ map file_bytes rds) by by rewrite <- app_assoc.
  rewrite El in *. rewrite Er in *. clear Er El root'.
  assert (Hl1 : (length root1 <= length (root1 ++ root_entries (Z.of_nat (length (fs ++ [file_bytes reads])) + 2) files))%nat) by (rewrite length_app; lia).
  pose proof (blocks_of_mono (Z.of_nat (length root1)) _ ltac:(split; [lia|apply Nat2Z.inj_le, Hl1])) as Hmono.
  pose proof (blocks_total_nonneg (map file_bytes rds)).
  destruct (add_file_run h s T root fs arg reads Him Ho Hb1 Hb2 ltac:(lia)) as (s1 & T1 & E1 & Him1); [fold root1; lia|done| |].
  { fold root1. rewrite blocks_total_cons, blocks_total_app in Hfit. rewrite blocks_total_cons. lia. }
  fold root1 in Him1. destruct (IH s1 T1 root1 (fs ++ [file_bytes reads])) as (s2 & T2 & E2 & Him2); try done.
  { rewrite length_app. simpl. lia. }
  exists s2, T2. split; [|done]. cbn [for_in]. by rewrite (bind_Ok _ _ _ _ _ E1).
Qed.

(** ** The empty image *)

Lemma zero_dinode k : dinode_at (fun _ => zero_block) k = no_inode.
Proof.
  unfold dinode_at, dinode_off. change IPB with 16. pose proof (Z.mod_pos_bound k 16 ltac:(lia)) as H. revert H. generalize (k mod 16). intros r H.
  assert (r = 0 \/ r = 1 \/ r = 2 \/ r = 3 \/ r = 4 \/ r = 5 \/ r = 6 \/ r = 7 \/ r = 8 \/ r = 9 \/ r = 10 \/ r = 11 \/ r = 12 \/ r = 13 \/ r = 14 \/ r = 15)
    as Hr by lia. repeat (destruct Hr as [->|Hr]; [reflexivity|]). by subst.
Qed.

Lemma zero_run n s a :
  m_len s = a -> 0 <= a -> a + Z.of_nat n <= 1000 -> (forall x, m_img s x = zero_block) ->
  exists D, for_in (seqZ a (Z.of_nat n)) (fun i => wsect i zero_block) s = Ok tt (set_mimg D (a + Z.of_nat n) s) /\ forall x, D x = zero_block.
Proof.
  revert s a. induction n as [|n IH]; intros s a Hl Ha Hn Hz.
  { exists (m_img s). split; [|done]. rewrite Z.add_0_r, <- Hl. unfold ret, set_mimg. by destruct s. }
  rewrite seqZ_cons by lia. cbn [for_in]. 
  assert (E0 : wsect a zero_block s = Ok tt (set_mimg (cv_upd (m_img s) a zero_block) (a + 1) s))
    by (unfold wsect, modify; by rewrite seek_id, Hl, Z.max_r by lia).
  rewrite (bind_Ok _ _ _ _ _ E0).
  destruct (IH (set_mimg (cv_upd (m_img s) a zero_block) (a + 1) s) (a + 1)) as (D & E & HD); [done|lia|lia| |].
  { intros x. cbn. unfold cv_upd. by destruct (x =? a). }
  exists D. split; [|exact HD]. replace (Z.pred (Z.of_nat (S n))) with (Z.of_nat n) by lia. replace (Z.succ a) with (a + 1) by lia. rewrite E.
  unfold set_mimg. cbn. do 2 f_equal. lia.
Qed.

Lemma zero_all s :
  m_len s = 0 -> (forall x, m_img s x = zero_block) ->
  exists D, for_in (seqZ 0 FSSIZE) (fun i => wsect i zero_block) s = Ok tt (set_mimg D 1000 s) /\ forall x, D x = zero_block.
Proof.
  intros Hl Hz. assert (Hf : Z.of_nat (Z.to_nat FSSIZE) = FSSIZE) by (apply Z2Nat.id; done). unfold FSSIZE in *.
  destruct (zero_run (Z.to_nat 1000) s 0 Hl) as (D & E & HD); [lia|lia|done|]. rewrite Hf in E. by exists D.
Qed.

Lemma sb_block_ok : block_ok (sb_block mkfs_sb).
Proof. rewrite mkfs_sb_eq. apply splice_ok; [apply zero_block_ok| |vm_compute; lia]. vm_compute. repeat (constructor; [split; [discriminate|reflexivity]|]). constructor. Qed.

Lemma image_empty D :
  (forall x, D x = zero_block) -> image (mkmkst (cv_upd D 1 (sb_block mkfs_sb)) 1000 1 nmeta) (fun _ => no_inode) [].
Proof.
  intros HD. set (D' := cv_upd D 1 (sb_block mkfs_sb)).
  assert (HD' : forall x, x <> 1 -> D' x = zero_block) by (intros x Hx; unfold D'; by rewrite cv_upd_ne).
  split; cbn [m_len freeinode freeblock m_img length]; try done; try (intros a Ha; lia).
  - split; [split| | | |]; try done; try (simpl; lia).
    + intros x. unfold D', cv_upd. destruct (x =? 1); [apply sb_block_ok|]. rewrite HD. apply zero_block_ok.
    + intros x Hx. apply HD'. rewrite nmeta_eq in Hx. lia.
  - intros k Hk. rewrite <- (zero_dinode k). unfold dinode_at. destruct (IBLOCK_eq k ltac:(lia)) as [_ Hb]. by rewrite HD' by lia.
  - intros x Hx. unfold D', cv_upd. destruct (x =? 1); [done|apply HD].
Qed.

(** ** The bitmap *)

Lemma bit_set_ok d b : block_ok d -> block_ok (bit_set d b).
Proof.
  intros [H1 H2]. unfold bit_set. split; [by rewrite length_insert|]. apply Forall_insert; [done|].
  unfold is_byte, u8, uwrap. apply Z.mod_pos_bound. done.
Qed.

Lemma set_bits_spec n : (Z.of_nat n <= BPB) ->
  block_ok (set_bits (Z.of_nat n) zero_block) /\
  forall b, 0 <= b < BPB -> bit_used (set_bits (Z.of_nat n) zero_block) b = (b <? Z.of_nat n).
Proof.
  unfold set_bits. induction n as [|n IH]; intros Hn.
  - split; [apply zero_block_ok|]. intros b Hb. change (fold_left bit_set (seqZ 0 (Z.of_nat 0)) zero_block) with zero_block.
    rewrite bit_used_testbit. assert (E : byte_at zero_block (b / 8) = 0).
    { unfold byte_at. destruct (zero_block !! _) as [y|] eqn:Ey; [|done]. by apply list_elem_of_lookup_2, list_elem_of_In, repeat_spec in Ey. }
    rewrite E, Z.testbit_0_l. by destruct (Z.ltb_spec b (Z.of_nat 0)); [lia|].
  - destruct (IH ltac:(lia)) as [I1 I2]. replace (Z.of_nat (S n)) with (Z.of_nat n + 1) by lia. rewrite seqZ_app by lia.
    rewrite fold_left_app. change (seqZ (0 + Z.of_nat n) 1) with [Z.of_nat n]. cbn [fold_left]. split; [by apply bit_set_ok|].
    intros b Hb. rewrite bit_used_set by (done || lia). rewrite I2 by done.
    destruct (Z.eqb_spec (Z.of_nat n) b), (Z.ltb_spec b (Z.of_nat n)), (Z.ltb_spec b (Z.of_nat n + 1)); simpl; lia || done.
Qed.

(** ** The root directory *)

Lemma root_entries_concat k args :
  root_entries k args = concat (zip_with mkdirent (seqZ k (Z.of_nat (length args))) (map short_name args)).
Proof.
  revert k. induction args as [|arg args IH]; intros k; [done|]. cbn [length map root_entries]. rewrite seqZ_cons by lia. cbn [zip_with concat].
  rewrite IH. do 4 f_equal; lia.
Qed.

(** A directory whose bytes are entries, and zeros after them. *)
Lemma dents_entries D r es k :
  Forall (fun e => length e = 16%nat) es -> file_read D r (16 * k) (16 * Z.of_nat (length es)) = concat es ->
  map (fun k => dent_val (dent D r k)) (seqZ k (Z.of_nat (length es))) = map dent_val es.
Proof.
  intros He. revert k. induction He as [|e es Hl He IH]; intros k Hr; [done|]. cbn [length concat] in *.
  replace (16 * Z.of_nat (S (length es))) with (16 + 16 * Z.of_nat (length es)) in Hr by lia. rewrite <- file_read_app in Hr by lia.
  apply app_inj_1 in Hr as [H1 H2]; [|unfold file_read; by rewrite length_map_seqZ, Hl].
  rewrite seqZ_cons by lia. cbn [map]. unfold dent at 1. rewrite H1. f_equal.
  replace (Z.pred (Z.of_nat (S (length es)))) with (Z.of_nat (length es)) by lia. apply IH. rewrite <- H2. f_equal. lia.
Qed.

Lemma dents_zero D r k n :
  0 <= k -> (forall j, 16 * k <= j < 16 * (k + Z.of_nat n) -> fbyte D r j = 0) ->
  map (fun k => dent_val (dent D r k)) (seqZ k (Z.of_nat n)) = repeat (0, []) n.
Proof.
  revert k. induction n as [|n IH]; intros k Hk Hz; [done|]. rewrite seqZ_cons by lia. cbn [map repeat]. f_equal.
  - unfold dent, file_read. erewrite (map_ext_in _ (fun _ => 0)); [reflexivity|].
    intros j Hj%list_elem_of_In%elem_of_seqZ. apply Hz. lia.
  - replace (Z.pred (Z.of_nat (S n))) with (Z.of_nat n) by lia. apply IH; [lia|]. intros j Hj. apply Hz. lia.
Qed.

Lemma dents_padded D r es N :
  i_size r = 16 * Z.of_nat N -> (length es <= N)%nat -> Forall (fun e => length e = 16%nat) es ->
  file_read D r 0 (16 * Z.of_nat (length es)) = concat es ->
  (forall j, 16 * Z.of_nat (length es) <= j < i_size r -> fbyte D r j = 0) ->
  dents D r = map dent_val es ++ repeat (0, []) (N - length es).
Proof.
  intros Hs Hl He Hr Hz. unfold dents. rewrite Hs, Z.mul_comm, Z.div_mul by lia.
  replace (Z.of_nat N) with (Z.of_nat (length es) + Z.of_nat (N - length es)) by lia.
  rewrite seqZ_app, map_app by lia. f_equal.
  - by apply (dents_entries D r es 0).
  - apply dents_zero; [lia|]. intros j Hj. apply Hz. lia.
Qed.
