(* ===== verification/MkfsSpec.v ===== *)
(** * The image [mkfs] makes

    What the kernel relies on when it boots from the image: superblock, empty
    log, free map, root directory and files ([boot_image]).  [mkfs_image] says
    that [mkfs] makes such an image whenever inodes and blocks suffice. *)

From stdpp Require Import functions.
From S2P Require Import Prelude Memory CString Block Cache Sleeplock Log LogProofs Fs FsBlocks FsAlloc FsMap FsFile FsInode FsDir Mkfs MkfsProofs MkfsRun.

(** The size [main] gives the root directory. *)
Definition padded (sz : Z) : Z := (sz / BSIZE + 1) * BSIZE.

(** The image has the files [files] under the names [names], in this order, from
    inode 2 on, and its first [fb] blocks are in use. *)
Record boot_image (D : Z -> block) (fb : Z) (names files : list (list Z)) : Prop := {
  bi_sb : let d := D 1 in
    mksb (get32 d 0) (get32 d 4) (get32 d 8) (get32 d 12) (get32 d 16) (get32 d 20) (get32 d 24) (get32 d 28) = mkfs_sb;
  bi_layout : layout mkfs_sb;
  bi_len : length names = length files;
  bi_log : geti32 (D (sb_logstart mkfs_sb)) 0 = 0;
  bi_bitmap : bitmap_ok mkfs_sb D;
  bi_used b : 0 <= b < FSSIZE -> used mkfs_sb D b = (b <? fb);
  bi_root : let r := dinode_at D ROOTINO in
    i_type r = T_DIR /\ i_nlink r = 1 /\ i_size r = padded (16 * (Z.of_nat (length names) + 2)) /\ file_wf mkfs_sb D r /\
    (exists pad, dents D r = (1, [46]) :: (1, [46; 46]) :: zip (seqZ 2 (Z.of_nat (length names))) names ++ repeat (0, []) pad) /\
    (backed D r (i_size r) <-> (16 * (Z.of_nat (length names) + 2)) mod BSIZE <> 0);
  bi_file k c : files !! k = Some c -> let i := dinode_at D (Z.of_nat k + 2) in
    i_type i = T_FILE /\ i_nlink i = 1 /\ i_size i = Z.of_nat (length c) /\ i_size i <= MAXFILE * BSIZE /\ file_wf mkfs_sb D i /\ backed D i (i_size i) /\
    file_read D i 0 (i_size i) = c;
  bi_apart a b j k : 1 <= a < Z.of_nat (length files) + 2 -> 1 <= b < Z.of_nat (length files) + 2 -> 0 <= j < NSLOT -> 0 <= k < NSLOT ->
    slot D (dinode_at D a) j <> 0 -> slot D (dinode_at D a) j = slot D (dinode_at D b) k -> a = b /\ j = k;
  bi_free k : Z.of_nat (length files) + 2 <= k < sb_ninodes mkfs_sb -> i_type (dinode_at D k) = 0
}.

(** ** [main] up to the last file *)

Definition dot_entries : list Z := mkdirent 1 [46] ++ mkdirent 1 [46; 46].

(** The bytes of the root directory. *)
Definition root_bytes (files : list (list Z)) : list Z := dot_entries ++ root_entries 2 files.

Lemma root_entries_length k args : length (root_entries k args) = (16 * length args)%nat.
Proof. revert k. induction args as [|arg args IH]; intros k; [done|]. cbn [root_entries length]. rewrite length_app, mkdirent_length, IH. lia. Qed.

Lemma root_length files : length (root_bytes files) = (16 * (length files + 2))%nat.
Proof. unfold root_bytes, dot_entries. rewrite !length_app, !mkdirent_length, root_entries_length. lia. Qed.

Section main.
Variables (h : host) (img : list Z) (files : list (list Z)) (rds : list (list (list Z))).
Hypothesis Hcreat : h_creat h img = true.
Hypothesis Hopen : Forall2 (fun arg reads => h_open h arg = Some reads) files rds.
Hypothesis Hnames : Forall (Forall is_byte) files.
Hypothesis Hbytes : Forall (Forall (Forall is_byte)) rds.
Hypothesis Hsizes : Forall (fun reads => Z.of_nat (length (file_bytes reads)) <= MAXFILE * BSIZE) rds.
Hypothesis Hinodes : Z.of_nat (length files) + 2 <= NINODES.
Let root := root_bytes files.
Hypothesis Hblocks : nmeta + blocks_total (root :: map file_bytes rds) <= FSSIZE.

Lemma main_run :
  exists s T, image s T (root :: map file_bytes rds) /\
    mkfs_main h (img :: files) mkfs_start = (fix_root_size 1 ;; let! s := get in mkfs_balloc (s32 (freeblock s))) s.
Proof using All.
  pose proof (root_length files) as Hrl. fold root in Hrl. unfold NINODES in *. change FSSIZE with 1000 in Hblocks.
  pose proof (blocks_total_nonneg (map file_bytes rds)) as Hnn. rewrite blocks_total_cons in Hblocks.
  destruct (zero_all (set_freeblock nmeta mkfs_start) eq_refl ltac:(done)) as (D & E1 & HD).
  pose proof (image_empty D HD) as Him0.
  destruct (ialloc_run _ _ _ Him0 ltac:(done)) as (s1 & T1 & E2 & Him1). change (Z.of_nat (@length (list Z) []) + 1) with 1 in E2.
  assert (Hmono : forall p : list Z, (length p <= length root)%nat -> blocks_of (Z.of_nat (length p)) <= blocks_of (Z.of_nat (length root)))
    by (intros p Hp; apply blocks_of_mono; lia).
  pose proof maxfile_bytes as Em. assert (Hb46 : Forall is_byte [46; 46]) by (repeat constructor; done).
  destruct (iappend_run s1 T1 _ 0 [] (mkdirent 1 [46]) Him1 eq_refl) as (s2 & T2 & E3 & Him2).
  { apply mkdirent_all_bytes. by apply Forall_cons in Hb46 as [_ ?]. }
  { simpl app. rewrite mkdirent_length. lia. }
  { specialize (Hmono (mkdirent 1 [46])). rewrite mkdirent_length in Hmono. cbn [insert list_insert app]. rewrite blocks_total_cons, mkdirent_length.
    change (blocks_total []) with 0. lia. }
  destruct (iappend_run s2 T2 _ 0 (mkdirent 1 [46]) (mkdirent 1 [46; 46]) Him2 eq_refl) as (s3 & T3 & E4 & Him3).
  { by apply mkdirent_all_bytes. }
  { rewrite length_app, !mkdirent_length. lia. }
  { specialize (Hmono (mkdirent 1 [46] ++ mkdirent 1 [46; 46])). rewrite length_app, !mkdirent_length in Hmono. cbn [insert list_insert app].
    rewrite blocks_total_cons, length_app, !mkdirent_length. change (blocks_total []) with 0. lia. }
  destruct (add_files_run h files rds s3 T3 dot_entries [] Hopen Hnames Hbytes Hsizes Him3) as (s4 & T4 & E5 & Him4); cbn [length app].
  { unfold NINODES. lia. }
  { change (Z.of_nat (length root) <= MAXFILE * BSIZE). lia. }
  { change (nmeta + blocks_total (root :: map file_bytes rds) <= 1000). rewrite blocks_total_cons. lia. }
  exists s4, T4. split; [exact Him4|]. unfold mkfs_main. rewrite Hcreat. cbn [negb].
  assert (E0 : modify (set_freeblock nmeta) mkfs_start = Ok tt (set_freeblock nmeta mkfs_start)) by done.
  rewrite (bind_Ok _ _ _ _ _ E0), (bind_Ok _ _ _ _ _ E1).
  rewrite (bind_Ok _ _ _ _ _ (wsect_run (set_mimg D 1000 (set_freeblock nmeta mkfs_start)) 1 (sb_block mkfs_sb) eq_refl ltac:(lia))).
  change T_DIR with (file_type (length (@nil (list Z)))). rewrite (bind_Ok _ _ _ _ _ E2). change (negb (1 =? ROOTINO)) with false. cbv iota.
  change (xshort 1) with 1.
  rewrite (bind_Ok _ _ _ _ _ E3), (bind_Ok _ _ _ _ _ E4), (bind_Ok _ _ _ _ _ E5). reflexivity.
Qed.
End main.

(** ** The end of [main] *)

Lemma mkfs_layout : layout mkfs_sb.
Proof. rewrite mkfs_sb_eq. split; done. Qed.

Section finish.
Variables (s : mkst) (T : nat -> inode) (root : list Z) (fs : list (list Z)).
Hypothesis Him : image s T (root :: fs).
Hypothesis Hroot : Z.of_nat (length root) < 4096.
Let l := root :: fs.
Let r := set_isize (padded (Z.of_nat (length root))) (T 0%nat).

(** The finished image. *)
Definition finished (D : Z -> block) : Prop :=
  (forall x, x < 32 \/ 46 <= x -> D x = m_img s x) /\ (forall x, block_ok (D x)) /\
  D 45 = set_bits (freeblock s) zero_block /\ dinode_at D 1 = r /\
  (forall k, 0 <= k < 208 -> k <> 1 -> dinode_at D k = dinode_at (m_img s) k).

Lemma finish_run :
  exists s', (fix_root_size 1 ;; let! s := get in mkfs_balloc (s32 (freeblock s))) s = Ok tt s' /\ finished (m_img s') /\
    freeblock s' = freeblock s /\ m_len s' = FSSIZE.
Proof using All.
  pose proof (im_holds _ _ _ Him) as Hh. pose proof (im_len _ _ _ Him) as Hlen. pose proof (im_fit _ _ _ Him) as Hfit.
  pose proof (vo_fb _ _ _ _ (ho_vol _ _ _ _ Hh)) as Hfb. rewrite nmeta_eq in Hfb.
  assert (E0 : dinode_at (m_img s) 1 = T 0%nat) by (apply (im_dinode _ _ _ Him 0); simpl; lia).
  pose proof (ho_length _ _ _ _ 0 root Hh eq_refl) as Hsz.
  assert (Hpad : 0 <= padded (Z.of_nat (length root)) < 8192) by (unfold padded, BSIZE; Z.div_mod_to_equations; lia).
  assert (Hok : forall x, block_ok (m_img s x)) by apply Hh.
  assert (Hr : dinode_ok r).
  { destruct (image_dinode_ok _ _ _ _ 0 root Hh Hfit eq_refl (im_plain _ _ _ Him 0 ltac:(simpl; lia))) as [? ? ? ? ? ? ?].
    split; try done. cbn. lia. }
  assert (E1 : fix_root_size 1 s = winode 1 r s).
  { unfold fix_root_size. rewrite (bind_Ok _ _ _ _ _ (rinode_run s 1 Hlen ltac:(lia))), E0, Hsz. rewrite (xint_id (Z.of_nat _)) by lia.
    change ((Z.of_nat (length root) / BSIZE + 1) * BSIZE) with (padded (Z.of_nat (length root))). rewrite u32_small, xint_id by lia. done. }
  rewrite (winode_run s 1 r Hlen ltac:(lia)) in E1.
  pose proof (winode_at s 1 r Hok Hr) as W1. pose proof (winode_other s 1 r Hok ltac:(lia) Hr) as W2.
  pose proof (winode_frame s 1 r ltac:(lia)) as W3. pose proof (winode_ok s 1 r Hok Hr) as W4. cbv zeta in *.
  set (D' := cv_upd _ _ _) in *. rewrite (bind_Ok _ _ _ _ _ E1). set (s1 := set_mimg D' 1000 s) in *.
  assert (Ef : Z.of_nat (Z.to_nat (freeblock s)) = freeblock s) by lia.
  pose proof (set_bits_spec (Z.to_nat (freeblock s)) ltac:(unfold BPB, BSIZE; lia)) as [Hb _]. rewrite Ef in Hb.
  exists (set_mimg (cv_upd D' 45 (set_bits (freeblock s) zero_block)) 1000 s1). split; [|split; [|done]].
  - unfold bind at 1, get. unfold mkfs_balloc. cbn [freeblock s1 set_mimg]. rewrite s32_small by lia. unfold BSIZE.
    destruct (Z.ltb_spec (freeblock s) (1024 * 8)); [|lia]. cbn [negb].
    change (sb_bmapstart mkfs_sb) with 45. apply (wsect_run s1 45 _ eq_refl). lia.
  - assert (Hin : forall k, 0 <= k < 208 -> dinode_at (cv_upd D' 45 (set_bits (freeblock s) zero_block)) k = dinode_at D' k).
    { intros k Hk. unfold dinode_at. destruct (IBLOCK_eq k Hk) as [_ Hk']. by rewrite cv_upd_ne by lia. }
    cbn [m_img set_mimg]. unfold finished. split_and!.
    + intros x Hx. rewrite cv_upd_ne, W3 by lia. done.
    + intros x. unfold cv_upd. destruct (x =? 45); [done|apply W4].
    + apply cv_upd_eq.
    + rewrite Hin, W1 by lia. destruct (plain_update 0 _ (i_addrs (T 0%nat)) (padded (Z.of_nat (length root))) (im_plain _ _ _ Him 0 ltac:(simpl; lia))) as [_ _ (_ & _ & Hd)].
      unfold r. destruct (T 0%nat). exact Hd.
    + intros k Hk Hne. rewrite Hin by done. by apply W2.
Qed.

Variable D : Z -> block.
Hypothesis Hfin : finished D.

Lemma fin_holds : holds D (freeblock s) T l.
Proof using Him Hfin.
  destruct Hfin as (H1 & H2 & _). eapply holds_frame; [|exact H2|apply Him]. intros x Hx. rewrite nmeta_eq in Hx. apply H1. lia.
Qed.

Lemma fin_fb : 46 <= freeblock s <= 1000.
Proof using Him. pose proof (im_fit _ _ _ Him). pose proof (vo_fb _ _ _ _ (ho_vol _ _ _ _ (im_holds _ _ _ Him))) as Hf. rewrite nmeta_eq in Hf. lia. Qed.

Lemma fin_inode a : (0 < a < length l)%nat -> dinode_at D (Z.of_nat a + 1) = T a.
Proof using Him Hfin.
  intros Ha. destruct Hfin as (_ & _ & _ & _ & H). pose proof (im_max _ _ _ Him) as Hm. unfold NINODES in Hm. fold l in Hm.
  rewrite H by lia. apply (im_dinode _ _ _ Him). apply Ha.
Qed.

Lemma fin_addrs a : (a < length l)%nat -> i_addrs (dinode_at D (Z.of_nat a + 1)) = i_addrs (T a).
Proof using Him Hfin.
  intros Ha. destruct a as [|a]; [|by rewrite fin_inode by lia]. destruct Hfin as (_ & _ & _ & H & _).
  change (Z.of_nat 0 + 1) with 1. by rewrite H.
Qed.

Lemma fin_used b : 0 <= b < FSSIZE -> used mkfs_sb D b = (b <? freeblock s).
Proof using Him Hfin.
  intros Hb. unfold FSSIZE in Hb. destruct Hfin as (_ & _ & H & _). pose proof fin_fb as Hf. unfold used, BBLOCK.
  rewrite Z.div_small, Z.mod_small by (unfold BPB, BSIZE; lia). change (u32 (0 + sb_bmapstart mkfs_sb)) with 45. rewrite H.
  destruct (set_bits_spec (Z.to_nat (freeblock s)) ltac:(unfold BPB, BSIZE; lia)) as [_ Hu].
  rewrite Z2Nat.id in Hu by lia. apply Hu. unfold BPB, BSIZE. lia.
Qed.

Lemma fin_wf a i : (a < length l)%nat -> i_addrs i = i_addrs (T a) -> file_wf mkfs_sb D i.
Proof using Him Hfin.
  intros Ha Ei. pose proof (ho_vol _ _ _ _ fin_holds) as Hv. pose proof fin_fb as Hf.
  split.
  - rewrite Ei. by apply Hv.
  - intros k Hk. rewrite (slot_addrs _ _ _ _ Ei). intros Hs. pose proof (vo_range _ _ _ _ Hv a k Ha Hk Hs) as Hr. rewrite nmeta_eq in Hr.
    change (datastart mkfs_sb) with 46. change (sb_size mkfs_sb) with 1000. split; [lia|]. rewrite fin_used by (unfold FSSIZE; lia).
    apply Z.ltb_lt. lia.
  - intros j k Hj Hk. rewrite !(slot_addrs _ _ _ _ Ei). intros Hs E. by apply (vo_inj _ _ _ _ Hv a a j k).
Qed.

Lemma fin_bitmap : bitmap_ok mkfs_sb D.
Proof using Him Hfin.
  pose proof fin_fb. split; [apply Hfin|]. intros b. change (datastart mkfs_sb) with 46. intros Hb. rewrite fin_used by (unfold FSSIZE; lia).
  apply Z.ltb_lt. lia.
Qed.

Lemma fin_apart a b j k :
  1 <= a < Z.of_nat (length fs) + 2 -> 1 <= b < Z.of_nat (length fs) + 2 -> 0 <= j < NSLOT -> 0 <= k < NSLOT ->
  slot D (dinode_at D a) j <> 0 -> slot D (dinode_at D a) j = slot D (dinode_at D b) k -> a = b /\ j = k.
Proof using Him Hfin.
  intros Ha Hb Hj Hk.
  assert (Es : forall c i, 1 <= c < Z.of_nat (length fs) + 2 -> slot D (dinode_at D c) i = slot D (T (Z.to_nat (c - 1))) i).
  { intros c i Hc. apply slot_addrs. replace c with (Z.of_nat (Z.to_nat (c - 1)) + 1) at 1 by lia. apply fin_addrs. simpl. lia. }
  rewrite !Es by done. intros Hs E.
  destruct (vo_inj _ _ _ _ (ho_vol _ _ _ _ fin_holds) (Z.to_nat (a - 1)) (Z.to_nat (b - 1)) j k); try done; simpl; lia.
Qed.

Lemma fin_file k c : fs !! k = Some c -> let i := dinode_at D (Z.of_nat k + 2) in
  i_type i = T_FILE /\ i_nlink i = 1 /\ i_size i = Z.of_nat (length c) /\ i_size i <= MAXFILE * BSIZE /\ file_wf mkfs_sb D i /\ backed D i (i_size i) /\
  file_read D i 0 (i_size i) = c.
Proof using Him Hfin.
  intros Hk. cbv zeta. replace (Z.of_nat k + 2) with (Z.of_nat (S k) + 1) by lia. pose proof (lookup_lt_Some _ _ _ Hk) as Hlk.
  assert (Ha : (0 < S k < length l)%nat) by (simpl; lia). rewrite fin_inode by done. pose proof fin_holds as Hh.
  destruct (im_plain _ _ _ Him (S k) (proj2 Ha)) as [P1 P2 _]. split_and!; [done|done| | | | |].
  - by apply (ho_length _ _ _ _ _ _ Hh).
  - by apply (ho_size _ _ _ _ Hh (S k) c).
  - by apply (fin_wf (S k)); [lia|].
  - intros j Hj. pose proof (ho_size _ _ _ _ Hh (S k) c Hk) as Hz. rewrite maxfile_bytes in Hz.
    apply (ho_snug _ _ _ _ Hh (S k) c Hk); [apply ix_range; change MAXFILE with 268; unfold BSIZE; Z.div_mod_to_equations; lia|].
    apply needed_ix; unfold BSIZE; Z.div_mod_to_equations; lia.
  - by apply (ho_content _ _ _ _ Hh (S k)).
Qed.

(** The root directory: what follows its entries reads as zeros. *)
Lemma fin_root_tail j : Z.of_nat (length root) <= j < padded (Z.of_nat (length root)) -> fbyte D r j = 0.
Proof using All.
  intros Hj. pose proof fin_holds as Hh. pose proof (ho_length _ _ _ _ 0 root Hh eq_refl) as Hsz.
  change (fbyte D r j) with (fbyte D (T 0%nat) j). destruct (decide (slot D (T 0%nat) (ix (j / BSIZE)) = 0)) as [E|E].
  - unfold fbyte. rewrite E. rewrite (proj1 Hfin) by lia. rewrite (im_low _ _ _ Him) by lia. cbn [Z.eqb]. unfold byte_at.
    destruct (zero_block !! _) as [y|] eqn:Ey; [|done]. by apply list_elem_of_lookup_2, list_elem_of_In, repeat_spec in Ey.
  - apply (ho_tail _ _ _ _ Hh 0 root); [done| |done]. rewrite maxfile_bytes. unfold padded, BSIZE in *. Z.div_mod_to_equations; lia.
Qed.

Lemma fin_root_read n : 0 <= n -> file_read D r 0 n = file_read D (T 0%nat) 0 n.
Proof using Type. done. Qed.

Lemma fin_root_backed : backed D r (i_size r) <-> Z.of_nat (length root) mod BSIZE <> 0.
Proof using All.
  pose proof fin_holds as Hh. pose proof (ho_length _ _ _ _ 0 root Hh eq_refl) as Hsz. set (sz := Z.of_nat (length root)) in *.
  assert (Hs : forall j, 0 <= j < padded sz -> slot D r (ix (j / BSIZE)) <> 0 <-> j / BSIZE * BSIZE < sz).
  { intros j Hj. change (slot D r (ix (j / BSIZE))) with (slot D (T 0%nat) (ix (j / BSIZE))). unfold padded, BSIZE in *.
    assert (Hb : 0 <= j / 1024 < MAXFILE) by (change MAXFILE with 268; Z.div_mod_to_equations; lia).
    rewrite (ho_snug _ _ _ _ Hh 0 root eq_refl _ (proj1 (ix_range _ Hb))), needed_ix, Hsz by lia. done. }
  change (i_size r) with (padded sz). unfold backed. split.
  - intros Hb. specialize (Hb (padded sz - 1)). rewrite Hs in Hb by (unfold padded, BSIZE in *; Z.div_mod_to_equations; lia).
    unfold padded, BSIZE in *. Z.div_mod_to_equations; lia.
  - intros Hm j Hj. apply Hs; [done|]. unfold padded, BSIZE in *. Z.div_mod_to_equations; lia.
Qed.
End finish.

Lemma mkdirent_zip ks names :
  Forall (fun x => 0 <= x < 65536) ks -> map dent_val (zip_with mkdirent ks names) = zip ks (map (name_key 14) names).
Proof.
  intros Hk. revert names. induction Hk as [|k ks Hk _ IH]; intros names; [done|]. destruct names as [|name names]; [done|].
  cbn [zip_with map]. by rewrite mkdirent_val, IH.
Qed.

(** The entries of the root directory. *)
Lemma root_dents D r files :
  i_size r = padded (Z.of_nat (length (root_bytes files))) -> file_read D r 0 (Z.of_nat (length (root_bytes files))) = root_bytes files ->
  (forall j, Z.of_nat (length (root_bytes files)) <= j < padded (Z.of_nat (length (root_bytes files))) -> fbyte D r j = 0) ->
  Z.of_nat (length files) < 1000 ->
  exists pad, dents D r = (1, [46]) :: (1, [46; 46]) ::
    zip (seqZ 2 (Z.of_nat (length files))) (map (fun arg => name_key 14 (short_name arg)) files) ++ repeat (0, []) pad.
Proof.
  intros Hsz Hr Hz Hn. set (es := mkdirent 1 [46] :: mkdirent 1 [46; 46] :: zip_with mkdirent (seqZ 2 (Z.of_nat (length files))) (map short_name files)).
  assert (Hle : length es = (length files + 2)%nat).
  { unfold es. cbn [length]. rewrite length_zip_with, length_seqZ, length_map. lia. }
  assert (Hc : concat es = root_bytes files).
  { unfold es, root_bytes, dot_entries. cbn [concat]. by rewrite root_entries_concat, <- app_assoc. }
  assert (He : Forall (fun e => length e = 16%nat) es).
  { apply Forall_forall. intros e [->|[->|H]%elem_of_cons]%elem_of_cons; [apply mkdirent_length..|].
    apply elem_of_lookup_zip_with in H as (i & x & y & -> & _). apply mkdirent_length. }
  rewrite root_length in *. unfold padded, BSIZE in *. set (q := Z.of_nat (16 * (length files + 2)) / 1024) in *.
  assert (Hq : Z.of_nat (length files + 2) <= 64 * (q + 1)) by (unfold q; Z.div_mod_to_equations; lia).
  assert (Hq0 : 0 <= q) by (apply Z.div_pos; lia).
  exists (Z.to_nat (64 * (q + 1)) - length es)%nat.
  rewrite (dents_padded D r es (Z.to_nat (64 * (q + 1)))); try done; try lia.
  - unfold es at 1. cbn [map app]. rewrite !mkdirent_val by lia. do 2 f_equal. f_equal.
    rewrite <- (map_map short_name), mkdirent_zip; [done|]. apply Forall_forall. intros x Hx%elem_of_seqZ. lia.
  - rewrite Hc, Hle, <- Hr. f_equal. lia.
  - intros j Hj. apply Hz. lia.
Qed.

(** [mkfs] makes a bootable image.  If every file can be read and is no
    longer than the largest file, and inodes and blocks suffice, [mkfs] ends
    without an error and leaves an image of [FSSIZE] blocks in which the kernel
    finds: its superblock; an empty log; a bitmap that marks exactly the blocks
    handed out; a root directory with [.], [..] and one entry per file, under its
    name without directory and leading underscore, and nothing else; every file
    with its bytes, all of them backed by blocks; no block in two files; the other
    inodes free.  The root directory is backed over its whole size unless its
    entries fill its last block exactly. *)
Lemma mkfs_image h img files rds :
  h_creat h img = true -> Forall2 (fun arg reads => h_open h arg = Some reads) files rds ->
  Forall (Forall is_byte) files -> Forall (Forall (Forall is_byte)) rds ->
  Forall (fun reads => Z.of_nat (length (file_bytes reads)) <= MAXFILE * BSIZE) rds ->
  Z.of_nat (length files) + 2 <= NINODES ->
  nmeta + blocks_of (16 * (Z.of_nat (length files) + 2)) + blocks_total (map file_bytes rds) <= FSSIZE ->
  exists s, mkfs_main h (img :: files) mkfs_start = Ok tt s /\ m_len s = FSSIZE /\
    freeblock s = nmeta + blocks_of (16 * (Z.of_nat (length files) + 2)) + blocks_total (map file_bytes rds) /\
    boot_image (m_img s) (freeblock s) (map (fun arg => name_key 14 (short_name arg)) files) (map file_bytes rds).
Proof.
  intros Hc Ho Hn Hb Hs Hi Hbl. pose proof (root_length files) as Hrl.
  assert (Erl : Z.of_nat (length (root_bytes files)) = 16 * (Z.of_nat (length files) + 2)) by lia. unfold NINODES in Hi.
  destruct (main_run h img files rds Hc Ho Hn Hb Hs ltac:(done)) as (s & T & Him & E).
  { rewrite blocks_total_cons, Erl. lia. }
  assert (Hlr : Z.of_nat (length (root_bytes files)) < 4096) by lia.
  destruct (finish_run s T _ _ Him Hlr) as (s' & E' & Hfin & Ef & El). rewrite E' in E.
  assert (Hfb : freeblock s = nmeta + blocks_of (16 * (Z.of_nat (length files) + 2)) + blocks_total (map file_bytes rds)).
  { rewrite (im_fb _ _ _ Him), blocks_total_cons, Erl. lia. }
  exists s'. split; [done|]. split; [done|]. split; [congruence|]. rewrite Ef.
  pose proof Hfin as (H1 & H2 & H3 & H4 & H5). pose proof (fin_holds s T _ _ Him _ Hfin) as Hh.
  assert (Hlow : forall x, x < 32 -> m_img s' x = if x =? 1 then sb_block mkfs_sb else zero_block).
  { intros x Hx. rewrite H1 by lia. by apply (im_low _ _ _ Him). }
  split.
  - cbv zeta. rewrite Hlow by lia. vm_compute. reflexivity.
  - apply mkfs_layout.
  - rewrite !length_map. by eapply Forall2_length.
  - change (sb_logstart mkfs_sb) with 2. rewrite Hlow by lia. reflexivity.
  - by apply (fin_bitmap s T _ _ Him).
  - by apply (fin_used s T _ _ Him).
  - cbv zeta. change ROOTINO with 1. rewrite H4. destruct (im_plain _ _ _ Him 0 ltac:(simpl; lia)) as [P1 P2 _].
    split; [exact P1|]. split; [exact P2|]. split; [by rewrite length_map, <- Erl|]. split; [|split].
    + apply (fin_wf s T _ _ Him _ Hfin 0); [simpl; lia|done].
    + rewrite length_map. apply root_dents; [done| |by apply (fin_root_tail s T _ _ Him)|lia].
      rewrite <- (ho_length _ _ _ _ 0 _ Hh eq_refl). by apply (ho_content _ _ _ _ Hh 0).
    + rewrite length_map, <- Erl. by apply (fin_root_backed s T _ _ Him).
  - by apply (fin_file s T _ _ Him).
  - by apply (fin_apart s T _ _ Him).
  - rewrite length_map. intros k Hk. change (sb_ninodes mkfs_sb) with 200 in Hk. apply Forall2_length in Ho.
    rewrite H5 by lia. rewrite (im_free _ _ _ Him); [done|]. simpl. rewrite length_map. lia.
Qed.
