(* ===== verification/MkfsBoot.v ===== *)
(** * From the image to the running kernel

    The kernel is booted from an image that [mkfs] made: buffer cache, inode
    table, superblock and log are set up from the bytes of the image, paths are
    resolved in it and files are read from it.  The theorem joins the builder,
    the buffer cache, the log and the file system. *)

From stdpp Require Import functions.
From S2P Require Import Prelude Memory CString Block Cache Sleeplock Bio BioProofs Log LogProofs LogSpec Fs FsBlocks FsAlloc FsMap FsFile FsInode FsTrunc FsDir FsName FsSpec Mkfs MkfsProofs MkfsRun MkfsSpec.

#[local] Set Warnings "-clear-no-such-hyp".

Section boot.
Variable mypid : Z.

#[local] Instance boot_cache_inst : BlockCache bcache nat := bio_cache mypid.

(** Memory at power on: no inode is in use. *)
Definition fs_power_on (d : Z -> block) : fsst bcache :=
  mkfsst (mksb 0 0 0 0 0 0 0 0) (fun _ => blank_inode) (power_on d).

(** [binit], [iinit] and [fsinit], as [main] and [forkret] call them. *)
Definition boot_fs : M (fsst bcache) unit :=
  flift (lift binit) ;;
  iinit ;;
  fsinit ROOTDEV.

Section image.
Variables (D : Z -> block) (fb : Z) (names files : list (list Z)).
Hypothesis Hbi : boot_image D fb names files.

Lemma image_log : disk_log 2 30 D [].
Proof using Hbi.
  pose proof (bo_blocks _ _ (bi_bitmap _ _ _ _ Hbi)) as Hok. split; [apply Hok| |done|simpl; lia|simpl; lia].
  split; [apply (bi_log _ _ _ _ Hbi)|done].
Qed.

(** The table after [iinit]. *)
Lemma iinit_run (s : fsst bcache) :
  (forall k, itable s k = blank_inode) -> exists t, iinit s = Ok tt (set_itable t s) /\ forall k, t k = blank_inode.
Proof using Type.
  unfold iinit. assert (H : forall n a (s : fsst bcache), (forall k, itable s k = blank_inode) ->
    exists t, for_up n a (fun i => iset (Z.to_nat i) (set_ilock initsleeplock)) s = Ok tt (set_itable t s) /\ forall k, t k = blank_inode).
  { induction n as [|n IH]; intros a s0 Hs; [exists (itable s0); by destruct s0|]. cbn [for_up].
    set (s1 := set_itable (iupd (itable s0) (Z.to_nat a) (set_ilock initsleeplock (itable s0 (Z.to_nat a)))) s0).
    assert (E : iset (Z.to_nat a) (set_ilock initsleeplock) s0 = Ok tt s1) by done. rewrite (bind_Ok _ _ _ _ _ E).
    destruct (IH (a + 1) s1) as (t & E1 & Ht).
    { intros k. cbn. unfold iupd. destruct (Nat.eqb k _); [by rewrite Hs|done]. }
    exists t. split; [by rewrite E1|done]. }
  apply H.
Qed.

(** What [boot_fs] and [begin_op] leave: only the header of the log was written. *)
Lemma boot_fs_run :
  exists s0 s1 D', boot_fs (fs_power_on D) = Ok tt s0 /\ flift begin_op s0 = Ok tt s1 /\
    fs_rep (HCS := bio_cachespec mypid ROOTDEV) ROOTDEV 2 30 D' s1 D' [] [] /\ fs_sb s1 = mkfs_sb /\
    (forall k, itable s1 k = blank_inode) /\ (forall x, x <> 2 -> D' x = D x) /\ block_ok (D' 2) /\ outstanding (fs_log s0) = 0.
Proof using Hbi.
  destruct (binit_run mypid ROOTDEV D ltac:(done)) as [Eb Hb].
  unfold boot_fs. rewrite (bind_Ok _ _ _ _ _ (llift_Ok binit (fs_power_on D) tt (binit_state D) Eb)).
  set (s1 := set_fslog _ _). destruct (iinit_run s1) as (t & Et & Ht); [done|]. rewrite (bind_Ok _ _ _ _ _ Et).
  set (s2 := set_itable t s1).
  (* the superblock *)
  unfold fsinit, readsb.
  pose proof (@cread_ok bcache nat (bio_cache mypid) ROOTDEV (bio_cachespec mypid ROOTDEV) (binit_state D) (idle_view D) 1) as Hrd.
  specialize (Hrd Hb). assert (Hroom : croom (idle_view D) 1) by (right; simpl; unfold NBUF; lia).
  assert (Hbn : blockno_ok 1) by (unfold blockno_ok; lia).
  specialize (Hrd Hbn (not_elem_of_nil 1) Hroom).
  destruct Hrd as (b & x & E & Hc & Hbuf & _).
  assert (E1 : bread' ROOTDEV 1 s2 = Ok b (set_fslog (set_below x (fs_log s2)) s2)) by (by apply llift_Ok).
  set (s3 := set_fslog (set_below x (fs_log s2)) s2) in *.
  pose proof (@cdata_ok bcache nat (bio_cache mypid) ROOTDEV (bio_cachespec mypid ROOTDEV) x _ b 1 Hc Hbuf) as E2.
  assert (E2' : bdata b s3 = Ok (D 1) (set_fslog (set_below x (fs_log s3)) s3)) by (by apply llift_Ok).
  pose proof (@crelse_ok bcache nat (bio_cache mypid) ROOTDEV (bio_cachespec mypid ROOTDEV) x (hold 1 (idle_view D)) b 1 [] [] Hc Hbuf eq_refl (or_intror eq_refl))
    as (y & E3 & Hc3 & _).
  assert (E3' : brelse' b (set_fslog (set_below x (fs_log s3)) s3) = Ok tt (set_fslog (set_below y (fs_log s3)) s3)) by exact (llift_Ok (crelse b) (set_fslog (set_below x (fs_log s3)) s3) tt y E3).
  set (s4 := set_fslog (set_below y (fs_log s3)) s3) in *.
  assert (Ersb : readsb ROOTDEV s2 = Ok mkfs_sb s4).
  { unfold readsb. rewrite (bind_Ok _ _ _ _ _ E1), (bind_Ok _ _ _ _ _ E2'), (bind_Ok _ _ _ _ _ E3'). unfold ret. by rewrite (bi_sb _ _ _ _ Hbi). }
  fold (readsb (B := nat) ROOTDEV). rewrite (bind_Ok _ _ _ _ _ Ersb).
  set (s5 := mkfsst mkfs_sb (itable s4) (fs_log s4)).
  assert (E5 : modify (fun s => mkfsst mkfs_sb (itable s) (fs_log s)) s4 = Ok tt s5) by done. rewrite (bind_Ok _ _ _ _ _ E5).
  change (negb (sb_magic mkfs_sb =? FSMAGIC)) with false. cbv iota.
  change (s32 (sb_logstart mkfs_sb)) with 2. change (s32 (sb_nlog mkfs_sb)) with 30.
  destruct (initlog_spec (HCS := bio_cachespec mypid ROOTDEV) ROOTDEV 2 30 ltac:(lia) ltac:(lia) (fs_log s5)
    (with_held ([] ++ []) (hold 1 (idle_view D))) []) as (l & v & b0 & E6 & [Q1 Q2 Q3 Q4 Q5] & _ & _ & Hvd & Ho & Hcm & Hap);
    [exact Hc3|reflexivity|reflexivity|reflexivity|exact image_log|].
  set (s6 := set_fslog l s5). exists s6, (set_fslog (set_outstanding (outstanding l + 1) l) s6), (cv_view v).
  change (outstanding l = 0) in Ho. change (committing l = false) in Hcm. destruct Q4 as [G1 G2 G3 G4 G5 G6].
  split; [exact (flift_Ok (initlog ROOTDEV 2 30) s5 tt l E6)|]. split; [|split; [|split; [done|split; [exact Ht|split; [|split; [|exact Ho]]]]]].
  - assert (Eb' : begin_op l = Ok tt (set_outstanding (outstanding l + 1) l)).
    { unfold begin_op, bind, get. rewrite Hcm, G4, Ho. reflexivity. }
    exact (flift_Ok begin_op s6 tt _ Eb').
  - split.
    + exists v. split_and!; [exact Q1|done|intros k; symmetry; apply Hvd|exact Q2|exact Q3].
    + by split.
    + cbn. lia.
    + constructor.
  - intros k Hk. rewrite Hvd, Hap. apply apply_writes_other. cbn. intros [?|H]%elem_of_cons; [lia|by apply not_elem_of_nil in H].
  - rewrite Hvd. apply Q5.
Qed.

(** ** The tree the kernel sees *)

Hypothesis Hbacked : (16 * (Z.of_nat (length names) + 2)) mod BSIZE <> 0.
Hypothesis Hfew : Z.of_nat (length files) + 2 <= NINODES.
Variable D' : Z -> block.
Hypothesis HD : forall x, x <> 2 -> D' x = D x.
Hypothesis HD2 : block_ok (D' 2).

Lemma seen_fields inum :
  0 <= inum < 200 ->
  i_type (disk_inode mkfs_sb D' inum) = i_type (dinode_at D inum) /\ i_nlink (disk_inode mkfs_sb D' inum) = i_nlink (dinode_at D inum) /\
  i_size (disk_inode mkfs_sb D' inum) = i_size (dinode_at D inum) /\ i_addrs (disk_inode mkfs_sb D' inum) = i_addrs (dinode_at D inum).
Proof using All.
  intros Hi. destruct (IBLOCK_eq inum ltac:(lia)) as [_ Hb]. unfold disk_inode, dinode_at. by rewrite HD by lia.
Qed.

Lemma seen_wf i i' : file_wf mkfs_sb D i -> i_addrs i' = i_addrs i -> file_wf mkfs_sb D' i'.
Proof using All.
  intros Hw Ea. apply (file_wf_same mkfs_sb D' i i' Ea). apply (file_wf_ext mkfs_sb mkfs_layout D); [done|].
  intros x. unfold is_bitmap. change (sb_bmapstart mkfs_sb) with 45. change (datastart mkfs_sb) with 46. intros Hx. apply HD. lia.
Qed.

Lemma seen_slot i i' k : file_wf mkfs_sb D i -> i_addrs i' = i_addrs i -> 0 <= k < NSLOT -> slot D' i' k = slot D i k.
Proof using All.
  intros Hw Ea Hk. rewrite (slot_same D' i i') by done. apply (slot_ext mkfs_sb D D' i k Hw Hk).
  change (datastart mkfs_sb) with 46. intros x Hx. apply HD. lia.
Qed.

Lemma seen_byte i i' j :
  file_wf mkfs_sb D i -> i_addrs i' = i_addrs i -> 0 <= j < MAXFILE * BSIZE -> slot D i (ix (j / BSIZE)) <> 0 -> fbyte D' i' j = fbyte D i j.
Proof using All.
  intros Hw Ea Hj Hs. rewrite maxfile_bytes in Hj.
  assert (Hk : 0 <= ix (j / BSIZE) < NSLOT) by (apply ix_range; change MAXFILE with 268; unfold BSIZE; Z.div_mod_to_equations; lia).
  unfold fbyte. rewrite (seen_slot i i') by done. destruct (fw_range _ _ _ Hw _ Hk Hs) as [Hr _]. change (datastart mkfs_sb) with 46 in Hr.
  by rewrite HD by lia.
Qed.

Lemma seen_read i i' n :
  file_wf mkfs_sb D i -> i_addrs i' = i_addrs i -> backed D i n -> n <= MAXFILE * BSIZE ->
  backed D' i' n /\ forall off m, 0 <= off -> off + m <= n -> file_read D' i' off m = file_read D i off m.
Proof using All.
  intros Hw Ea Hb Hn. split.
  - intros j Hj. rewrite maxfile_bytes in Hn. rewrite (seen_slot i i'); [by apply Hb|done|done|].
    apply ix_range. change MAXFILE with 268. unfold BSIZE. Z.div_mod_to_equations; lia.
  - intros off m Ho Hm. apply file_read_ext. intros j Hj. apply seen_byte; [done|done|lia|]. apply Hb. lia.
Qed.

Let n := Z.of_nat (length files).

Lemma root_size : i_size (dinode_at D 1) = padded (16 * (Z.of_nat (length names) + 2)) /\ 0 <= i_size (dinode_at D 1) <= 4096.
Proof using All.
  destruct (bi_root _ _ _ _ Hbi) as (_ & _ & Hs & _). change ROOTINO with 1 in Hs. rewrite Hs. split; [done|].
  rewrite (bi_len _ _ _ _ Hbi). unfold NINODES, padded, BSIZE in *. Z.div_mod_to_equations; lia.
Qed.

Lemma seen_root :
  let r := disk_inode mkfs_sb D' ROOTINO in
  i_type r = T_DIR /\ i_nlink r = 1 /\ dir_wf D' r /\ file_wf mkfs_sb D' r /\ forall key, dir_map D' r key = dir_map D (dinode_at D ROOTINO) key.
Proof using All.
  intros r. destruct (bi_root _ _ _ _ Hbi) as (R1 & R2 & R3 & R4 & _ & R6). destruct root_size as [Hsz Hsz'].
  destruct (seen_fields 1 ltac:(lia)) as (F1 & F2 & F3 & F4). change ROOTINO with 1 in *. fold r in F1, F2, F3, F4.
  apply R6 in Hbacked as Hb. destruct (seen_read _ r _ R4 F4 Hb) as [Hb' Hrd]; [rewrite maxfile_bytes; lia|].
  split; [congruence|]. split; [congruence|]. split; [|split; [by eapply seen_wf|]].
  - split; [congruence|rewrite F3, maxfile_bytes; lia| |by rewrite F3].
    rewrite F3, Hsz. unfold padded, BSIZE. Z.div_mod_to_equations; lia.
  - intros key. unfold dir_map, dents. rewrite F3. erewrite map_ext_in; [reflexivity|].
    intros k Hk%list_elem_of_In%elem_of_seqZ. cbv beta. f_equal. unfold dent. apply Hrd; [lia|]. Z.div_mod_to_equations; lia.
Qed.

(** The inodes in use: the root and the files. *)
Lemma seen_kind inum :
  1 <= inum <= n + 1 -> let i := disk_inode mkfs_sb D' inum in i_type i <> 0 /\ i_nlink i <> 0 /\ (i_type i = T_DIR -> inum = ROOTINO).
Proof using All.
  intros Hi. unfold NINODES in Hfew. fold n in Hfew. destruct (seen_fields inum ltac:(lia)) as (F1 & F2 & _). cbv zeta. rewrite F1, F2.
  destruct (decide (inum = ROOTINO)) as [->|Hne].
  - destruct (bi_root _ _ _ _ Hbi) as (-> & -> & _). done.
  - unfold ROOTINO in Hne. destruct (lookup_lt_is_Some_2 files (Z.to_nat (inum - 2))) as [c Hc]; [unfold n in Hi; lia|].
    pose proof (bi_file _ _ _ _ Hbi _ _ Hc) as (Ht & Hl & _). replace (Z.of_nat (Z.to_nat (inum - 2)) + 2) with inum in Ht, Hl by lia.
    rewrite Ht, Hl. done.
Qed.

Lemma seen_linked inum : linked mkfs_sb D' inum <-> 1 <= inum <= n + 1.
Proof using All.
  unfold NINODES in Hfew. fold n in Hfew. split.
  - intros [H1 H2 _]. change (sb_ninodes mkfs_sb) with 200 in H1. destruct (decide (inum <= n + 1)) as [|Hgt]; [lia|]. exfalso.
    destruct (seen_fields inum ltac:(lia)) as (F1 & _). apply H2. rewrite F1. apply (bi_free _ _ _ _ Hbi).
    change (sb_ninodes mkfs_sb) with 200. fold n. lia.
  - intros Hi. destruct (seen_kind inum Hi) as (K1 & K2 & _). split; [change (sb_ninodes mkfs_sb) with 200; lia|done|done].
Qed.

(** Every inode in use has its bytes, and file [k] those of the host. *)
Lemma seen_file inum :
  linked mkfs_sb D' inum -> let i := disk_inode mkfs_sb D' inum in
  file_wf mkfs_sb D' i /\ backed D' i (i_size i) /\ 0 <= i_size i <= MAXFILE * BSIZE /\
  forall k c, files !! k = Some c -> inum = Z.of_nat k + 2 -> file_read D' i 0 (i_size i) = c.
Proof using All.
  rewrite seen_linked. intros Hi. cbv zeta. unfold NINODES in Hfew. fold n in Hfew. destruct (decide (inum = ROOTINO)) as [->|Hne].
  - destruct seen_root as (_ & _ & [_ Hs _ Hb] & Hw & _). split; [done|]. split; [done|]. split; [done|]. unfold ROOTINO. lia.
  - unfold ROOTINO in Hne. destruct (lookup_lt_is_Some_2 files (Z.to_nat (inum - 2))) as [c Hc]; [unfold n in Hi; lia|].
    destruct (bi_file _ _ _ _ Hbi _ _ Hc) as (_ & _ & Hsz & Hmax & Hwf & Hbk & Hrd). replace (Z.of_nat (Z.to_nat (inum - 2)) + 2) with inum in * by lia.
    destruct (seen_fields inum ltac:(lia)) as (_ & _ & F3 & F4). rewrite <- F3 in *.
    destruct (seen_read _ (disk_inode mkfs_sb D' inum) _ Hwf F4 Hbk Hmax) as [Hb' Hrd'].
    split; [by eapply seen_wf|]. split; [done|]. split; [lia|]. intros k c' Hk Ek. rewrite Hrd' by lia. replace (Z.to_nat (inum - 2)) with k in Hc by lia. congruence.
Qed.

Lemma assoc_in l key m : assoc l key = Some m -> m <> 0 /\ (m, key) ∈ l.
Proof using Type.
  induction l as [|[k x] l IH]; [done|]. cbn [assoc]. destruct (Z.eqb_spec k 0) as [|Hk]; cbn [negb andb]; [|case_bool_decide as Ex].
  - intros [? ?]%IH. split; [done|by right].
  - intros [= <-]. subst x. split; [done|left].
  - intros [? ?]%IH. split; [done|by right].
Qed.

Lemma seen_tree : tree_ok mkfs_sb D'.
Proof using All.
  destruct seen_root as (R1 & R2 & R3 & R4 & R5). split.
  - intros inum Hl%seen_linked Ht. pose proof (seen_kind inum Hl) as (_ & _ & H). by rewrite (H Ht).
  - intros inum key m Hl%seen_linked Ht Hm. pose proof (seen_kind inum Hl) as (_ & _ & H). rewrite (H Ht), R5 in Hm.
    apply seen_linked. destruct (bi_root _ _ _ _ Hbi) as (_ & _ & _ & _ & (pad & Hd) & _). unfold dir_map in Hm. rewrite Hd in Hm.
    apply assoc_in in Hm as [H0 Hin]. pose proof (bi_len _ _ _ _ Hbi) as Hlen.
    apply elem_of_cons in Hin as [[= -> _]|Hin]; [unfold n; lia|]. apply elem_of_cons in Hin as [[= -> _]|Hin]; [unfold n; lia|].
    apply elem_of_app in Hin as [Hin|Hin].
    + apply elem_of_zip_l, elem_of_seqZ in Hin. unfold n. lia.
    + apply list_elem_of_In, repeat_spec in Hin. congruence.
Qed.

Lemma seen_bitmap : bitmap_ok mkfs_sb D'.
Proof using All.
  destruct (bi_bitmap _ _ _ _ Hbi) as [B1 B2]. split.
  - intros k. destruct (decide (k = 2)) as [->|Hk]; [done|]. by rewrite HD.
  - intros b Hb. rewrite (used_frame mkfs_sb mkfs_layout D); [by apply B2| |].
    + change (datastart mkfs_sb) with 46 in Hb. change (sb_size mkfs_sb) with 1000. lia.
    + intros x. unfold is_bitmap. change (sb_bmapstart mkfs_sb) with 45. intros Hx. apply HD. lia.
Qed.

(** A name is looked up in the root directory. *)
Lemma seen_name k name :
  names !! k = Some name -> (forall j, (j < k)%nat -> names !! j <> Some name) -> name <> [46] -> name <> [46; 46] ->
  dir_map D' (disk_inode mkfs_sb D' ROOTINO) name = Some (Z.of_nat k + 2).
Proof using All.
  intros Hk Hfirst H1 H2. destruct seen_root as (_ & _ & _ & _ & R5). rewrite R5.
  destruct (bi_root _ _ _ _ Hbi) as (_ & _ & _ & _ & (pad & Hd) & _). unfold dir_map. rewrite Hd. cbn [assoc].
  rewrite !bool_decide_eq_false_2 by congruence. cbn [negb andb Z.eqb]. rewrite assoc_app. clear Hd.
  enough (forall b (l : list (list Z)) k, 0 < b -> l !! k = Some name -> (forall j, (j < k)%nat -> l !! j <> Some name) ->
    assoc (zip (seqZ b (Z.of_nat (length l))) l) name = Some (b + Z.of_nat k)) as Hz.
  { rewrite (Hz 2 names k) by (done || lia). f_equal. lia. }
  clear. intros b l. revert b. induction l as [|x l IH]; intros b k Hb Hk Hf; [done|]. cbn [length]. rewrite seqZ_cons by lia. cbn [zip_with assoc].
  destruct (Z.eqb_spec b 0); [lia|]. cbn [negb andb]. case_bool_decide as Ex.
  - destruct k as [|k]; [f_equal; lia|]. subst x. by destruct (Hf 0%nat ltac:(lia)).
  - destruct k as [|k]; [cbn in Hk; congruence|]. replace (Z.pred (Z.of_nat (S (length l)))) with (Z.of_nat (length l)) by lia.
    rewrite (IH (Z.succ b) k) by (done || lia || (intros j Hj; apply (Hf (S j)); lia)). f_equal. lia.
Qed.

(** ** Reading a file *)

Variable s1 : fsst bcache.
Hypothesis Hrep : fs_rep (HCS := bio_cachespec mypid ROOTDEV) ROOTDEV 2 30 D' s1 D' [] [].
Hypothesis Hsb : fs_sb s1 = mkfs_sb.
Hypothesis Htab : forall k, itable s1 k = blank_inode.

Abbreviation settled := (settled (HCS := bio_cachespec mypid ROOTDEV) ROOTDEV 2 30 D' mkfs_sb D' []).

Lemma no_refs d m : refs_of (itable s1) d m = 0.
Proof using Htab. apply refs_of_dead. intros k (_ & H & _). by rewrite Htab in H. Qed.

Lemma boot_settled : settled None s1 /\ nlive (itable s1) = 0.
Proof using All.
  split; [split|].
  - exact Hrep.
  - exact Hsb.
  - split; [intros k _; by rewrite Htab|]. intros d m j k (_ & H & _). by rewrite Htab in H.
  - intros k _ _. by rewrite Htab.
  - intros m k (_ & H & _). by rewrite Htab in H.
  - unfold nlive. assert (E : forall l, foldr (fun k n => busy (itable s1 k) + n) 0 l = 0); [|apply E].
    induction l as [|k l IH]; [done|]. cbn [foldr]. by rewrite IH, Htab.
Qed.

(** Entry [ip] holds the inode of file [k], locked: [readi] delivers its bytes. *)
Lemma read_file s ip k c :
  settled (Some ip) s -> holding_inode ROOTDEV mkfs_sb mypid D' s ip (Z.of_nat k + 2) -> files !! k = Some c ->
  exists s', readi collect ip [] 0 0 (Z.of_nat (length c)) s = Ok (Z.of_nat (length c), c) s'.
Proof using All.
  intros Hs [[L1 [L2 [L3 L4]]] K2 K3 K4] Hk. pose proof (lookup_lt_Some _ _ _ Hk) as Hlt. unfold NINODES in Hfew.
  destruct (bi_file _ _ _ _ Hbi k c Hk) as (_ & _ & Hsz & Hmax & Hwf & Hbk & Hrd).
  destruct (seen_fields (Z.of_nat k + 2) ltac:(lia)) as (_ & _ & F3 & F4).
  destruct (loaded_fields mkfs_sb D' _ K3) as (_ & _ & G3 & G4). rewrite L4, F3 in G3. rewrite L4, F4 in G4.
  rewrite Hsz in Hbk, Hrd, G3, Hmax.
  destruct (seen_read _ (itable s ip) _ Hwf G4 Hbk Hmax) as [Hb' Hrd'].
  assert (Hat : at_inode (HCS := bio_cachespec mypid ROOTDEV) ROOTDEV 2 30 D' mkfs_sb s D' [] ip (itable s ip)).
  { split; [apply Hs|apply Hs|apply seen_bitmap|done|done|by eapply seen_wf]. }
  destruct (readi_run (HCS := bio_cachespec mypid ROOTDEV) ROOTDEV 2 30 D' mkfs_sb mkfs_layout collect (fun _ => True) (2 ^ 32)) with
    (s := s) (D := D') (bs := @nil Z) (ip := ip) (i := itable s ip) (x := @nil Z) (dst := 0) (off := 0) (n := Z.of_nat (length c))
    as (s' & cs & E & Hcs & _).
  { intros dst l x _ _ _. split; [done|done]. }
  { reflexivity. }
  { exact Hat. }
  { exact I. }
  { by rewrite G3. }
  { rewrite G3. lia. }
  { simpl. lia. }
  { rewrite G3. lia. }
  { lia. }
  { rewrite maxfile_bytes in Hmax. lia. }
  { lia. }
  { rewrite G3, maxfile_bytes in *. lia. }
  rewrite G3, Z.sub_0_r, Z.min_id in E, Hcs. exists s'. etransitivity; [exact E|]. rewrite collect_chunks, Hcs. cbn [app]. rewrite Hrd' by lia. by rewrite Hrd.
Qed.

Lemma kernel_reads cwd k name c :
  names !! k = Some name -> files !! k = Some c -> (forall j, (j < k)%nat -> names !! j <> Some name) ->
  name <> [] -> name <> [46] -> name <> [46; 46] -> Forall (fun x => x <> 0 /\ x <> 47) name -> Forall is_byte name -> (length name <= 14)%nat ->
  exists ip s2 s3 s4, namei mypid cwd (47 :: name) s1 = Ok (Some ip) s2 /\ ilock mypid ip s2 = Ok tt s3 /\
    readi collect ip [] 0 0 (Z.of_nat (length c)) s3 = Ok (Z.of_nat (length c), c) s4.
Proof using All.
  intros Hn Hk Hfirst H0 H1 H2 Hch Hby Hlen. destruct boot_settled as [Hs Hnl].
  assert (Hel : path_elems (47 :: name) = [name]).
  { change (path_elems (47 :: name)) with (path_elems name). rewrite <- (app_nil_r name) at 1. rewrite elems_of_elem; [done|done| |by left].
    eapply Forall_impl; [exact Hch|]. by intros x [_ ?]. }
  destruct (namex_run (HCS := bio_cachespec mypid ROOTDEV) ROOTDEV 2 30 D' mkfs_sb ltac:(lia) ltac:(lia) ltac:(lia) mkfs_layout mypid D' [] ltac:(simpl; lia)
    seen_bitmap seen_tree s1 cwd 0 (47 :: name) false (repeat 0 14) eq_refl Hs) as (r & s2 & E2 & Hs2 & Hpost).
  { by left. }
  { apply seen_linked. unfold n, ROOTINO. lia. }
  { rewrite Hnl. done. }
  { intros m. by rewrite no_refs. }
  { constructor; [done|]. eapply Forall_impl; [exact Hch|]. by intros x [? _]. }
  { by constructor. }
  { done. }
  { repeat constructor; done. }
  rewrite Hel in Hpost. cbn [path_start resolve] in Hpost. destruct seen_root as (R1 & _). rewrite R1 in Hpost. cbn [negb andb Z.eqb T_DIR] in Hpost.
  rewrite take_ge, (seen_name k name) in Hpost by done. destruct Hpost as (ip & P1 & P2 & P3 & _).
  destruct (name_ilock (HCS := bio_cachespec mypid ROOTDEV) ROOTDEV 2 30 D' mkfs_sb ltac:(lia) ltac:(lia) ltac:(lia) mkfs_layout mypid D' [] ltac:(simpl; lia) s2 ip _ Hs2 P2 P3)
    as (s3 & E3 & Hs3 & Hh3 & _).
  destruct (read_file s3 ip k c Hs3 Hh3 Hk) as (s4 & E4).
  exists ip, s2, s3, s4. split; [|done]. unfold namei. rewrite (bind_Ok _ _ _ _ _ E2). by rewrite P1.
Qed.
End image.

Lemma name_key_bytes m l : Forall is_byte l -> Forall is_byte (name_key m l).
Proof using Type.
  intros H. revert m. induction H as [|c l Hc _ IH]; intros [|m]; try constructor. cbn [name_key]. destruct (c =? 0); by constructor.
Qed.

Lemma short_name_plain arg : Forall (fun x => x <> 0 /\ x <> 47) (name_key 14 (short_name arg)).
Proof using Type.
  assert (Hs : Forall (fun x => x <> 47) (short_name arg)).
  { pose proof (after_slash_none arg) as H. unfold short_name.
    assert (Ha : Forall (fun x => x <> 47) (after_slash arg)).
    { revert H. generalize (after_slash arg). intros l. induction l as [|c l IH]; [done|]. cbn [existsb].
      intros [Hc Hl]%orb_false_iff. constructor; [|by apply IH]. intros ->. done. }
    destruct Ha as [|c l Hc Hl]; [done|]. destruct (c =? 95); [done|by constructor]. }
  revert Hs. generalize (short_name arg), 14%nat. intros l m Hl. revert m. induction Hl as [|c l Hc _ IH]; intros [|m]; try constructor.
  cbn [name_key]. destruct (Z.eqb_spec c 0); by constructor.
Qed.

End boot.

(** ** An example *)

(** One file of two reads, [u/_cat]. *)
Definition demo_host : host := mkhost (fun _ => true) (fun _ => Some [repeat 65 1024; [66; 10]; []]).
Definition demo_files : list (list Z) := [[117; 47; 95; 99; 97; 116]].
Definition demo_reads : list (list (list Z)) := [[repeat 65 1024; [66; 10]; []]].

Lemma demo_bytes : Forall (Forall (Forall is_byte)) demo_reads.
Proof.
  assert (H65 : Forall is_byte (repeat 65 1024)) by (apply Forall_forall; intros x Hx%list_elem_of_In%repeat_spec; by subst).
  constructor; [|constructor]. constructor; [exact H65|]. repeat constructor; done.
Qed.

Lemma demo_open : Forall2 (fun arg reads => h_open demo_host arg = Some reads) demo_files demo_reads.
Proof. constructor; [reflexivity|constructor]. Qed.

Lemma demo_names : Forall (Forall is_byte) demo_files.
Proof. repeat constructor; done. Qed.

Lemma demo_sizes : Forall (fun reads => Z.of_nat (length (file_bytes reads)) <= MAXFILE * BSIZE) demo_reads.
Proof. constructor; [vm_compute; discriminate|constructor]. Qed.


(** The kernel resolves [/cat] on this image. *)
Lemma namei_correct_witness :
  exists (s s' : fsst bcache) ip, namei (BlockCache0 := bio_cache 7) 7 0 [47; 99; 97; 116] s = Ok (Some ip) s' /\ live (itable s') ROOTDEV 2 ip.
Proof.
  destruct (mkfs_image demo_host [105] demo_files demo_reads) as (m & _ & _ & _ & Hbi);
    [reflexivity|exact demo_open|exact demo_names|exact demo_bytes|exact demo_sizes|vm_compute; discriminate|vm_compute; discriminate|].
  destruct (boot_fs_run 7 _ _ _ _ Hbi) as (s0 & s1 & D' & _ & _ & Hrep & Hsb & Htab & HD & HD2 & _).
  assert (Hm : (16 * (Z.of_nat (length (map (fun arg => name_key 14 (short_name arg)) demo_files)) + 2)) mod BSIZE <> 0) by (vm_compute; discriminate).
  assert (Hf : Z.of_nat (length (map file_bytes demo_reads)) + 2 <= NINODES) by (vm_compute; discriminate).
  destruct (boot_settled 7 (m_img m) (freeblock m) _ _ Hbi Hm Hf D' HD HD2 s1 Hrep Hsb Htab) as [Hs Hnl].
  pose proof (seen_root 7 (m_img m) (freeblock m) _ _ Hbi Hm Hf D' HD HD2) as (R1 & _).
  pose proof (seen_name 7 (m_img m) (freeblock m) _ _ Hbi Hm Hf D' HD HD2 0 [99; 97; 116] eq_refl ltac:(lia) ltac:(discriminate) ltac:(discriminate)) as Hnm.
  destruct (namei_correct (HCS := bio_cachespec 7 ROOTDEV) ROOTDEV 2 30 D' mkfs_sb ltac:(lia) ltac:(lia) ltac:(lia) mkfs_layout 7 D' [] ltac:(simpl; lia)
    (seen_bitmap 7 _ _ _ _ Hbi Hm Hf D' HD HD2) (seen_tree 7 _ _ _ _ Hbi Hm Hf D' HD HD2) s1 0 0 [47; 99; 97; 116] (repeat 0 14)) as [(r & s' & E & _ & Hpost) _].
  - reflexivity.
  - exact Hs.
  - by left.
  - apply (seen_linked 7 _ _ _ _ Hbi Hm Hf D' HD HD2). vm_compute. split; discriminate.
  - rewrite Hnl. vm_compute. discriminate.
  - intros n. rewrite (no_refs s1 Htab). reflexivity.
  - repeat constructor; discriminate.
  - repeat constructor; discriminate.
  - reflexivity.
  - repeat constructor; discriminate.
  - change (path_elems [47; 99; 97; 116]) with [[99; 97; 116]] in Hpost. cbn [path_start resolve] in Hpost. rewrite R1 in Hpost.
    cbn [negb andb Z.eqb T_DIR take] in Hpost. rewrite Hnm in Hpost. destruct Hpost as (ip & -> & Hl & _). exists s1, s', ip. split; [exact E|exact Hl].
Defined.
