(* ===== verification/Kernel.v ===== *)
(** * The kernel's state

    The global data of the kernel as one hart sees it: its registers and
    [struct cpu], the spin locks, the process table ([include/kernel/proc.h]),
    physical memory, the file system, the file table ([include/kernel/file.h]),
    pipes, console, UART and tick counter, and the memory-mapped devices, which
    are a parameter.  The functions of [proc.c], [pipe.c], [file.c],
    [console.c], [uart.c], [trap.c] and the system calls are state transformers
    on it, in the files that follow.

    A spin lock is named by a [lockid], a sleep channel (an address in C) by a
    [chan]; a process, file or inode by its index in its table. *)

From stdpp Require Import functions.
From S2P Require Import Prelude Memory Riscv Csr Spinlock CString Kalloc Vm Block Cache Log Fs.

Inductive lockid :=
  | LkPid | LkWait | LkProc (p : nat) | LkFtable | LkTicks | LkCons | LkUart | LkPipe (pi : Z) | LkPr
  | LkDisk.

Inductive chan :=
  | ChNread (pi : Z) | ChNwrite (pi : Z) | ChProc (p : nat) | ChTicks | ChCons | ChUart
  | ChDisk | ChBuf (b : nat).

#[export] Instance lockid_eq : EqDecision lockid.
Proof. solve_decision. Defined.
#[export] Instance chan_eq : EqDecision chan.
Proof. solve_decision. Defined.

Inductive procstate := UNUSED | USED | SLEEPING | RUNNABLE | RUNNING | ZOMBIE.

#[export] Instance procstate_eq : EqDecision procstate.
Proof. solve_decision. Defined.

(** [struct proc]; [p->lock] is [LkProc p]. *)
Record proc := mkproc {
  p_state : procstate;
  p_chan : option chan;
  p_killed : Z;
  p_xstate : Z;
  p_pid : Z;
  p_parent : option nat;
  p_kstack : Z;
  p_sz : Z;
  p_pagetable : Z;
  p_trapframe : Z;
  p_context : context;
  p_ofile : nat -> option nat;
  p_cwd : option nat;
  p_name : list Z
}.

Definition set_state (x : procstate) (p : proc) : proc :=
  mkproc x (p_chan p) (p_killed p) (p_xstate p) (p_pid p) (p_parent p) (p_kstack p) (p_sz p)
    (p_pagetable p) (p_trapframe p) (p_context p) (p_ofile p) (p_cwd p) (p_name p).
Definition set_chan (x : option chan) (p : proc) : proc :=
  mkproc (p_state p) x (p_killed p) (p_xstate p) (p_pid p) (p_parent p) (p_kstack p) (p_sz p)
    (p_pagetable p) (p_trapframe p) (p_context p) (p_ofile p) (p_cwd p) (p_name p).
Definition set_killed (x : Z) (p : proc) : proc :=
  mkproc (p_state p) (p_chan p) x (p_xstate p) (p_pid p) (p_parent p) (p_kstack p) (p_sz p)
    (p_pagetable p) (p_trapframe p) (p_context p) (p_ofile p) (p_cwd p) (p_name p).
Definition set_xstate (x : Z) (p : proc) : proc :=
  mkproc (p_state p) (p_chan p) (p_killed p) x (p_pid p) (p_parent p) (p_kstack p) (p_sz p)
    (p_pagetable p) (p_trapframe p) (p_context p) (p_ofile p) (p_cwd p) (p_name p).
Definition set_pid (x : Z) (p : proc) : proc :=
  mkproc (p_state p) (p_chan p) (p_killed p) (p_xstate p) x (p_parent p) (p_kstack p) (p_sz p)
    (p_pagetable p) (p_trapframe p) (p_context p) (p_ofile p) (p_cwd p) (p_name p).
Definition set_parent (x : option nat) (p : proc) : proc :=
  mkproc (p_state p) (p_chan p) (p_killed p) (p_xstate p) (p_pid p) x (p_kstack p) (p_sz p)
    (p_pagetable p) (p_trapframe p) (p_context p) (p_ofile p) (p_cwd p) (p_name p).
Definition set_kstack (x : Z) (p : proc) : proc :=
  mkproc (p_state p) (p_chan p) (p_killed p) (p_xstate p) (p_pid p) (p_parent p) x (p_sz p)
    (p_pagetable p) (p_trapframe p) (p_context p) (p_ofile p) (p_cwd p) (p_name p).
Definition set_sz (x : Z) (p : proc) : proc :=
  mkproc (p_state p) (p_chan p) (p_killed p) (p_xstate p) (p_pid p) (p_parent p) (p_kstack p) x
    (p_pagetable p) (p_trapframe p) (p_context p) (p_ofile p) (p_cwd p) (p_name p).
Definition set_pagetable (x : Z) (p : proc) : proc :=
  mkproc (p_state p) (p_chan p) (p_killed p) (p_xstate p) (p_pid p) (p_parent p) (p_kstack p) (p_sz p)
    x (p_trapframe p) (p_context p) (p_ofile p) (p_cwd p) (p_name p).
Definition set_trapframe (x : Z) (p : proc) : proc :=
  mkproc (p_state p) (p_chan p) (p_killed p) (p_xstate p) (p_pid p) (p_parent p) (p_kstack p) (p_sz p)
    (p_pagetable p) x (p_context p) (p_ofile p) (p_cwd p) (p_name p).
Definition set_context (x : context) (p : proc) : proc :=
  mkproc (p_state p) (p_chan p) (p_killed p) (p_xstate p) (p_pid p) (p_parent p) (p_kstack p) (p_sz p)
    (p_pagetable p) (p_trapframe p) x (p_ofile p) (p_cwd p) (p_name p).
Definition set_ofile (fd : nat) (x : option nat) (p : proc) : proc :=
  mkproc (p_state p) (p_chan p) (p_killed p) (p_xstate p) (p_pid p) (p_parent p) (p_kstack p) (p_sz p)
    (p_pagetable p) (p_trapframe p) (p_context p) (<[fd := x]> (p_ofile p)) (p_cwd p) (p_name p).
Definition set_cwd (x : option nat) (p : proc) : proc :=
  mkproc (p_state p) (p_chan p) (p_killed p) (p_xstate p) (p_pid p) (p_parent p) (p_kstack p) (p_sz p)
    (p_pagetable p) (p_trapframe p) (p_context p) (p_ofile p) x (p_name p).
Definition set_name (x : list Z) (p : proc) : proc :=
  mkproc (p_state p) (p_chan p) (p_killed p) (p_xstate p) (p_pid p) (p_parent p) (p_kstack p) (p_sz p)
    (p_pagetable p) (p_trapframe p) (p_context p) (p_ofile p) (p_cwd p) x.

(** Offsets in [struct trapframe], which fills a page of its own. *)
Definition TF_kernel_satp : Z := 0.
Definition TF_kernel_sp : Z := 8.
Definition TF_kernel_trap : Z := 16.
Definition TF_epc : Z := 24.
Definition TF_kernel_hartid : Z := 32.
Definition TF_sp : Z := 48.
(** [a0] to [a7] *)
Definition TF_a (n : Z) : Z := 112 + 8 * n.
Definition TF_SIZE : Z := 288.

(** [struct file] *)
Inductive fdtype := FD_NONE | FD_PIPE | FD_INODE | FD_DEVICE.

Record file := mkfile {
  f_type : fdtype; f_ref : Z; f_readable : bool; f_writable : bool;
  f_pipe : Z; f_ip : nat; f_off : Z; f_major : Z
}.

Definition set_fref (x : Z) (f : file) : file :=
  mkfile (f_type f) x (f_readable f) (f_writable f) (f_pipe f) (f_ip f) (f_off f) (f_major f).
Definition set_ftype (x : fdtype) (f : file) : file :=
  mkfile x (f_ref f) (f_readable f) (f_writable f) (f_pipe f) (f_ip f) (f_off f) (f_major f).
Definition set_fmode (r w : bool) (f : file) : file :=
  mkfile (f_type f) (f_ref f) r w (f_pipe f) (f_ip f) (f_off f) (f_major f).
Definition set_fpipe (x : Z) (f : file) : file :=
  mkfile (f_type f) (f_ref f) (f_readable f) (f_writable f) x (f_ip f) (f_off f) (f_major f).
Definition set_fip (x : nat) (f : file) : file :=
  mkfile (f_type f) (f_ref f) (f_readable f) (f_writable f) (f_pipe f) x (f_off f) (f_major f).
Definition set_foff (x : Z) (f : file) : file :=
  mkfile (f_type f) (f_ref f) (f_readable f) (f_writable f) (f_pipe f) (f_ip f) x (f_major f).
Definition set_fmajor (x : Z) (f : file) : file :=
  mkfile (f_type f) (f_ref f) (f_readable f) (f_writable f) (f_pipe f) (f_ip f) (f_off f) x.

(** [struct pipe]; [pi->lock] is [LkPipe pi]. *)
Record pipe := mkpipe {
  pi_data : Z -> Z; pi_nread : Z; pi_nwrite : Z; pi_readopen : bool; pi_writeopen : bool
}.

(** The console's input buffer [cons] and the UART's output buffer. *)
Record consst := mkcons { cons_buf : Z -> Z; cons_r : Z; cons_w : Z; cons_e : Z }.
Record uartst := mkuart { uart_tx_buf : Z -> Z; uart_tx_w : Z; uart_tx_r : Z }.

(** ** The disk driver's data: [struct disk] of [virtio_disk.c], [virtio.h]

    The physical addresses that the driver puts into descriptors: a request
    header [disk.ops[i]], the data of a buffer, a status byte
    [disk.info[i].status]. *)
Inductive dma := DNull | DOps (i : nat) | DData (b : nat) | DStatus (i : nat).

Record virtq_desc := mkdesc { d_addr : dma; d_len : Z; d_flags : Z; d_next : Z }.
Record virtio_blk_req := mkreq { rq_type : Z; rq_reserved : Z; rq_sector : Z }.

(** The descriptors, the available and the used ring, and the driver's own
    records; [b->disk] of a buffer is part of [v_bdisk]. *)
Record vdisk := mkvdisk {
  v_desc : nat -> virtq_desc;
  v_avail_idx : Z;
  v_avail : nat -> Z;
  v_usedring_idx : Z;
  v_used : nat -> Z;
  v_free : nat -> bool;
  v_used_idx : Z;
  v_info_b : nat -> option nat;
  v_status : nat -> Z;
  v_ops : nat -> virtio_blk_req;
  v_bdisk : nat -> bool
}.

(** Memory-mapped devices: reading a register may change the device. *)
Class Mmio (D : Type) := {
  mmio_read : Z -> D -> Z * D;
  mmio_write : Z -> Z -> D -> D
}.

Record kernel (S D : Type) := mkkernel {
  k_hart : hart;
  k_cpu : cpu;
  k_locks : lockid -> spinlock;
  k_procs : nat -> proc;
  k_initproc : option nat;
  k_nextpid : Z;
  k_ticks : Z;
  k_phys : phys;
  k_fs : fsst S;
  k_files : nat -> file;
  k_pipes : Z -> pipe;
  k_cons : consst;
  k_uart : uartst;
  k_disk : vdisk;
  k_dev : D;
  k_panicked : bool;
  k_locking : bool;
  k_first : bool
}.
Arguments mkkernel {S D}.
Arguments k_hart {S D}. Arguments k_cpu {S D}. Arguments k_locks {S D}. Arguments k_procs {S D}.
Arguments k_initproc {S D}. Arguments k_nextpid {S D}. Arguments k_ticks {S D}.
Arguments k_phys {S D}. Arguments k_fs {S D}. Arguments k_files {S D}. Arguments k_pipes {S D}.
Arguments k_cons {S D}. Arguments k_uart {S D}. Arguments k_disk {S D}. Arguments k_dev {S D}.
Arguments k_panicked {S D}. Arguments k_locking {S D}. Arguments k_first {S D}.

Section setters.
Context {S D : Type}.
Definition set_khart (x : hart) (s : kernel S D) : kernel S D :=
  mkkernel x (k_cpu s) (k_locks s) (k_procs s) (k_initproc s) (k_nextpid s) (k_ticks s) (k_phys s)
    (k_fs s) (k_files s) (k_pipes s) (k_cons s) (k_uart s) (k_disk s) (k_dev s) (k_panicked s)
    (k_locking s) (k_first s).
Definition set_kcpu (x : cpu) (s : kernel S D) : kernel S D :=
  mkkernel (k_hart s) x (k_locks s) (k_procs s) (k_initproc s) (k_nextpid s) (k_ticks s) (k_phys
    s) (k_fs s) (k_files s) (k_pipes s) (k_cons s) (k_uart s) (k_disk s) (k_dev s) (k_panicked s)
    (k_locking s) (k_first s).
Definition set_klocks (x : lockid -> spinlock) (s : kernel S D) : kernel S D :=
  mkkernel (k_hart s) (k_cpu s) x (k_procs s) (k_initproc s) (k_nextpid s) (k_ticks s) (k_phys s)
    (k_fs s) (k_files s) (k_pipes s) (k_cons s) (k_uart s) (k_disk s) (k_dev s) (k_panicked s)
    (k_locking s) (k_first s).
Definition set_kprocs (x : nat -> proc) (s : kernel S D) : kernel S D :=
  mkkernel (k_hart s) (k_cpu s) (k_locks s) x (k_initproc s) (k_nextpid s) (k_ticks s) (k_phys s)
    (k_fs s) (k_files s) (k_pipes s) (k_cons s) (k_uart s) (k_disk s) (k_dev s) (k_panicked s)
    (k_locking s) (k_first s).
Definition set_kinitproc (x : option nat) (s : kernel S D) : kernel S D :=
  mkkernel (k_hart s) (k_cpu s) (k_locks s) (k_procs s) x (k_nextpid s) (k_ticks s) (k_phys s)
    (k_fs s) (k_files s) (k_pipes s) (k_cons s) (k_uart s) (k_disk s) (k_dev s) (k_panicked s)
    (k_locking s) (k_first s).
Definition set_knextpid (x : Z) (s : kernel S D) : kernel S D :=
  mkkernel (k_hart s) (k_cpu s) (k_locks s) (k_procs s) (k_initproc s) x (k_ticks s) (k_phys s)
    (k_fs s) (k_files s) (k_pipes s) (k_cons s) (k_uart s) (k_disk s) (k_dev s) (k_panicked s)
    (k_locking s) (k_first s).
Definition set_kticks (x : Z) (s : kernel S D) : kernel S D :=
  mkkernel (k_hart s) (k_cpu s) (k_locks s) (k_procs s) (k_initproc s) (k_nextpid s) x (k_phys s)
    (k_fs s) (k_files s) (k_pipes s) (k_cons s) (k_uart s) (k_disk s) (k_dev s) (k_panicked s)
    (k_locking s) (k_first s).
Definition set_kphys (x : phys) (s : kernel S D) : kernel S D :=
  mkkernel (k_hart s) (k_cpu s) (k_locks s) (k_procs s) (k_initproc s) (k_nextpid s) (k_ticks s) x
    (k_fs s) (k_files s) (k_pipes s) (k_cons s) (k_uart s) (k_disk s) (k_dev s) (k_panicked s)
    (k_locking s) (k_first s).
Definition set_kfs (x : fsst S) (s : kernel S D) : kernel S D :=
  mkkernel (k_hart s) (k_cpu s) (k_locks s) (k_procs s) (k_initproc s) (k_nextpid s) (k_ticks s)
    (k_phys s) x (k_files s) (k_pipes s) (k_cons s) (k_uart s) (k_disk s) (k_dev s) (k_panicked s)
    (k_locking s) (k_first s).
Definition set_kfiles (x : nat -> file) (s : kernel S D) : kernel S D :=
  mkkernel (k_hart s) (k_cpu s) (k_locks s) (k_procs s) (k_initproc s) (k_nextpid s) (k_ticks s)
    (k_phys s) (k_fs s) x (k_pipes s) (k_cons s) (k_uart s) (k_disk s) (k_dev s) (k_panicked s)
    (k_locking s) (k_first s).
Definition set_kpipes (x : Z -> pipe) (s : kernel S D) : kernel S D :=
  mkkernel (k_hart s) (k_cpu s) (k_locks s) (k_procs s) (k_initproc s) (k_nextpid s) (k_ticks s)
    (k_phys s) (k_fs s) (k_files s) x (k_cons s) (k_uart s) (k_disk s) (k_dev s) (k_panicked s)
    (k_locking s) (k_first s).
Definition set_kcons (x : consst) (s : kernel S D) : kernel S D :=
  mkkernel (k_hart s) (k_cpu s) (k_locks s) (k_procs s) (k_initproc s) (k_nextpid s) (k_ticks s)
    (k_phys s) (k_fs s) (k_files s) (k_pipes s) x (k_uart s) (k_disk s) (k_dev s) (k_panicked s)
    (k_locking s) (k_first s).
Definition set_kuart (x : uartst) (s : kernel S D) : kernel S D :=
  mkkernel (k_hart s) (k_cpu s) (k_locks s) (k_procs s) (k_initproc s) (k_nextpid s) (k_ticks s)
    (k_phys s) (k_fs s) (k_files s) (k_pipes s) (k_cons s) x (k_disk s) (k_dev s) (k_panicked s)
    (k_locking s) (k_first s).
Definition set_kdisk (x : vdisk) (s : kernel S D) : kernel S D :=
  mkkernel (k_hart s) (k_cpu s) (k_locks s) (k_procs s) (k_initproc s) (k_nextpid s) (k_ticks s)
    (k_phys s) (k_fs s) (k_files s) (k_pipes s) (k_cons s) (k_uart s) x (k_dev s) (k_panicked s)
    (k_locking s) (k_first s).
Definition set_kdev (x : D) (s : kernel S D) : kernel S D :=
  mkkernel (k_hart s) (k_cpu s) (k_locks s) (k_procs s) (k_initproc s) (k_nextpid s) (k_ticks s)
    (k_phys s) (k_fs s) (k_files s) (k_pipes s) (k_cons s) (k_uart s) (k_disk s) x (k_panicked s)
    (k_locking s) (k_first s).
Definition set_kpanicked (x : bool) (s : kernel S D) : kernel S D :=
  mkkernel (k_hart s) (k_cpu s) (k_locks s) (k_procs s) (k_initproc s) (k_nextpid s) (k_ticks s)
    (k_phys s) (k_fs s) (k_files s) (k_pipes s) (k_cons s) (k_uart s) (k_disk s) (k_dev s) x
    (k_locking s) (k_first s).
Definition set_klocking (x : bool) (s : kernel S D) : kernel S D :=
  mkkernel (k_hart s) (k_cpu s) (k_locks s) (k_procs s) (k_initproc s) (k_nextpid s) (k_ticks s)
    (k_phys s) (k_fs s) (k_files s) (k_pipes s) (k_cons s) (k_uart s) (k_disk s) (k_dev s)
    (k_panicked s) x (k_first s).
Definition set_kfirst (x : bool) (s : kernel S D) : kernel S D :=
  mkkernel (k_hart s) (k_cpu s) (k_locks s) (k_procs s) (k_initproc s) (k_nextpid s) (k_ticks s)
    (k_phys s) (k_fs s) (k_files s) (k_pipes s) (k_cons s) (k_uart s) (k_disk s) (k_dev s)
    (k_panicked s) (k_locking s) x.
End setters.
