(* ===== verification/Proc.v ===== *)
(** * Processes: [src/kernel/proc.c]

    The process table, allocation and release of its entries, sleep and
    wake-up, [kill], [growproc] and the copies to and from either address
    space.  [fork], [exit] and [wait], which also touch files, are in
    [Process].

    [sched] and [scheduler] meet in [swtch], which leaves one kernel thread and
    enters another.  The part of [sched] before the switch ends the run of the
    thread with the outcome [Sleeps]; what it does when it is switched to again
    is a definition of its own ([sched_return], [sleep_return]).  The contents
    of a saved context are tracked only where the code sets them. *)

From stdpp Require Import functions.
From S2P Require Import Prelude Memory CString Riscv Csr Spinlock Kalloc Vm Copy Block Cache Log Fs Kernel.

Section proc.
Context {S B D : Type} `{!BlockCache S B} `{!Mmio D}.
(** [end] and [trampoline] of the linker script, the address of [forkret]. *)
Variables kend trampoline forkret_pc : Z.

Abbreviation kern := (kernel S D).

(** ** Access to the parts of the state *)

Definition on_phys {A} (m : M phys A) : M kern A := zoom k_phys set_kphys m.
Definition on_fs {A} (m : M (fsst S) A) : M kern A := zoom k_fs set_kfs m.
Definition on_dev {A} (m : M D A) : M kern A := zoom k_dev set_kdev m.
Definition on_hc {A} (m : M (hart * cpu) A) : M kern A :=
  zoom (fun s => (k_hart s, k_cpu s)) (fun x s => set_kcpu (snd x) (set_khart (fst x) s)) m.
Definition on_reg {A} (m : M hart A) : M kern A := zoom k_hart set_khart m.
Definition on_lock {A} (l : lockid) (m : M lkst A) : M kern A :=
  zoom (fun s => (k_hart s, k_cpu s, k_locks s l))
    (fun x s => set_klocks (<[l := snd x]> (k_locks s))
                  (set_kcpu (snd (fst x)) (set_khart (fst (fst x)) s))) m.
Definition get_proc (p : nat) : M kern proc := gets (fun s => k_procs s p).
Definition upd_proc (p : nat) (f : proc -> proc) : M kern unit :=
  modify (fun s => set_kprocs (<[p := f (k_procs s p)]> (k_procs s)) s).

Definition acquire (l : lockid) : M kern unit := on_lock l Spinlock.acquire.
Definition release (l : lockid) : M kern unit := on_lock l Spinlock.release.
Definition mycpu : M kern cpu := gets k_cpu.
Definition upd_cpu (f : cpu -> cpu) : M kern unit := modify (fun s => set_kcpu (f (k_cpu s)) s).

Definition myproc : M kern (option nat) :=
  on_hc push_off ;;
  let! c := mycpu in
  let p := c_proc c in
  on_hc pop_off ;;
  ret p.

(** [myproc()] where the code goes on to dereference it. *)
Definition curproc : M kern nat :=
  let! p := myproc in
  match p with Some p => ret p | None => panic "null pointer" end.

(** ** Start-up and identifiers *)

Definition init_lock (l : lockid) (name : string) : M kern unit :=
  modify (fun s => set_klocks (<[l := initlock name]> (k_locks s)) s).

Definition procinit : M kern unit :=
  init_lock LkPid "nextpid" ;;
  init_lock LkWait "wait_lock" ;;
  for_in (seq 0 NPROC) (fun p =>
    init_lock (LkProc p) "proc" ;;
    upd_proc p (set_kstack (KSTACK (Z.of_nat p)))).

Definition allocpid : M kern Z :=
  acquire LkPid ;;
  let! pid := gets k_nextpid in
  modify (set_knextpid (s32 (pid + 1))) ;;
  release LkPid ;;
  ret pid.

(** ** Table entries *)

Definition freeproc (p : nat) : M kern unit :=
  let! q := get_proc p in
  (if negb (p_trapframe q =? 0) then on_phys (kfree kend (p_trapframe q)) else ret tt) ;;
  upd_proc p (set_trapframe 0) ;;
  (if negb (p_pagetable q =? 0) then on_phys (proc_freepagetable kend (p_pagetable q) (p_sz q))
   else ret tt) ;;
  upd_proc p (set_pagetable 0) ;;
  upd_proc p (set_sz 0) ;;
  upd_proc p (set_pid 0) ;;
  upd_proc p (set_parent None) ;;
  upd_proc p (fun q => set_name (<[0%nat := 0]> (p_name q)) q) ;;
  upd_proc p (set_chan None) ;;
  upd_proc p (set_killed 0) ;;
  upd_proc p (set_xstate 0) ;;
  upd_proc p (set_state UNUSED).

(** The code after the label [found]; [p->lock] is held. *)
Definition allocproc_found (p : nat) : M kern (option nat) :=
  let! pid := allocpid in
  upd_proc p (set_pid pid) ;;
  upd_proc p (set_state USED) ;;
  let! tf := on_phys kalloc in
  upd_proc p (set_trapframe tf) ;;
  if tf =? 0 then freeproc p ;; release (LkProc p) ;; ret None
  else
    let! pt := on_phys (proc_pagetable kend trampoline tf) in
    upd_proc p (set_pagetable pt) ;;
    if pt =? 0 then freeproc p ;; release (LkProc p) ;; ret None
    else
      upd_proc p (fun q => set_context (mkcontext forkret_pc (p_kstack q + PGSIZE) (repeat 0 12)) q) ;;
      ret (Some p).

Definition allocproc : M kern (option nat) :=
  let! found := for_first (seq 0 NPROC) (fun p =>
    acquire (LkProc p) ;;
    let! q := get_proc p in
    if bool_decide (p_state q = UNUSED) then ret (Some p)
    else release (LkProc p) ;; ret None) in
  match found with
  | None => ret None
  | Some p => allocproc_found p
  end.

(** ** The scheduler *)

(** One entry of the scheduler's loop, up to [swtch]: whether the process has
    been chosen to run. *)
Definition scheduler_enter (p : nat) : M kern bool :=
  acquire (LkProc p) ;;
  let! q := get_proc p in
  if bool_decide (p_state q = RUNNABLE) then
    upd_proc p (set_state RUNNING) ;;
    upd_cpu (set_cproc (Some p)) ;;
    ret true
  else release (LkProc p) ;; ret false.

(** Back from [swtch]. *)
Definition scheduler_return (p : nat) : M kern unit :=
  upd_cpu (set_cproc None) ;;
  release (LkProc p).

(** One pass over the table, up to the first process it switches to. *)
Definition scheduler_pass : M kern (option nat) :=
  on_reg intr_on ;;
  for_first (seq 0 NPROC) (fun p =>
    let! run := scheduler_enter p in
    ret (if run then Some p else None)).

(** [sched], up to [swtch]; the result is the saved [intena]. *)
Definition sched : M kern bool :=
  let! p := curproc in
  let! h := gets k_hart in
  let! lk := gets (fun s => k_locks s (LkProc p)) in
  if negb (holding (cpuid h) lk) then panic "sched p->lock"
  else
    let! c := mycpu in
    if negb (c_noff c =? 1) then panic "sched locks"
    else
      let! q := get_proc p in
      if bool_decide (p_state q = RUNNING) then panic "sched running"
      else
        let! on := on_reg intr_get in
        if on then panic "sched interruptible"
        else ret (c_intena c).

(** Back from [swtch], perhaps on another CPU. *)
Definition sched_return (intena : bool) : M kern unit := upd_cpu (set_intena intena).

Definition yield : M kern bool :=
  let! p := curproc in
  acquire (LkProc p) ;;
  upd_proc p (set_state RUNNABLE) ;;
  sched.

Definition yield_return (p : nat) (intena : bool) : M kern unit :=
  sched_return intena ;;
  release (LkProc p).

(** ** Sleep and wake-up *)

(** [sleep], up to [swtch]. *)
Definition sleep_enter (ch : chan) (lk : lockid) : M kern bool :=
  let! p := curproc in
  acquire (LkProc p) ;;
  release lk ;;
  upd_proc p (set_chan (Some ch)) ;;
  upd_proc p (set_state SLEEPING) ;;
  sched.

(** Back from [swtch]: the rest of [sleep]. *)
Definition sleep_awake (p : nat) (intena : bool) : M kern unit :=
  sched_return intena ;;
  upd_proc p (set_chan None) ;;
  release (LkProc p).

Definition sleep_return (p : nat) (intena : bool) (lk : lockid) : M kern unit :=
  sleep_awake p intena ;;
  acquire lk.

(** [sleep] in a caller that starts over when it is woken up. *)
Definition sleep {A} (ch : chan) (lk : lockid) : M kern A :=
  sleep_enter ch lk ;; sleeps "sleep".

(** The body of the loop of [wakeup], for the entry [p]. *)
Definition wakeup_at (ch : chan) (p : nat) : M kern unit :=
  let! me := myproc in
  if bool_decide (me = Some p) then ret tt
  else
    acquire (LkProc p) ;;
    (let! q := get_proc p in
     if bool_decide (p_state q = SLEEPING) && bool_decide (p_chan q = Some ch)
     then upd_proc p (set_state RUNNABLE) else ret tt) ;;
    release (LkProc p).

Definition wakeup (ch : chan) : M kern unit := for_in (seq 0 NPROC) (wakeup_at ch).

(** The body of the loop of [kill]; a result ends the loop. *)
Definition kill_at (pid : Z) (p : nat) : M kern (option Z) :=
  acquire (LkProc p) ;;
  let! q := get_proc p in
  if p_pid q =? pid then
    upd_proc p (set_killed 1) ;;
    (if bool_decide (p_state q = SLEEPING) then upd_proc p (set_state RUNNABLE) else ret tt) ;;
    release (LkProc p) ;;
    ret (Some 0)
  else release (LkProc p) ;; ret None.

Definition kill (pid : Z) : M kern Z :=
  let! found := for_first (seq 0 NPROC) (kill_at pid) in
  ret (default (-1) found).

(** Pass the abandoned children of [p] to init. *)
Definition reparent (p : nat) : M kern unit :=
  for_in (seq 0 NPROC) (fun pp =>
    let! q := get_proc pp in
    if bool_decide (p_parent q = Some p) then
      let! init := gets k_initproc in
      upd_proc pp (set_parent init) ;;
      match init with Some i => wakeup (ChProc i) | None => ret tt end
    else ret tt).

(** ** Memory of a process *)

(** [sz] is a 32-bit [uint]. *)
Definition growproc (n : Z) : M kern Z :=
  let! p := curproc in
  let! q := get_proc p in
  let sz := u32 (p_sz q) in
  if 0 <? n then
    let! r := on_phys (uvmalloc kend (p_pagetable q) sz (u32 (sz + n))) in
    let sz := u32 r in
    if sz =? 0 then ret (-1) else upd_proc p (set_sz sz) ;; ret 0
  else if n <? 0 then
    let! r := on_phys (uvmdealloc kend (p_pagetable q) sz (u32 (sz + n))) in
    upd_proc p (set_sz (u32 r)) ;; ret 0
  else upd_proc p (set_sz sz) ;; ret 0.

(** The bytes come from, or go to, a kernel variable. *)
Definition either_copyout (user_dst : bool) (dst : Z) (src : list Z) : M kern Z :=
  let! p := curproc in
  let! q := get_proc p in
  if user_dst then on_phys (copyout_bytes (p_pagetable q) dst src)
  else on_phys (put_bytes dst src) ;; ret 0.

Definition either_copyin (user_src : bool) (src len : Z) : M kern (list Z * Z) :=
  let! p := curproc in
  let! q := get_proc p in
  if user_src then on_phys (copyin_bytes (p_pagetable q) src len)
  else
    let! l := gets (fun s => mem_read (p_mem (k_phys s)) src (Z.to_nat len)) in
    ret (l, 0).

(** [safestrcpy(p->name, s, sizeof(p->name))] *)
Definition copy_name (name s : list Z) : list Z :=
  mem_read (safestrcpy (two_names name s) 0 32 16) 0 16.
End proc.
