(* ===== verification/ProcRun.v ===== *)
(** * Running the process functions on one CPU

    What the lock functions, [myproc], [wakeup] and [kill] do to the state when
    the locks they take are free: the lemmas that the proofs about pipes,
    files and processes compute with. *)

From stdpp Require Import functions.
From Stdlib Require Import FunctionalExtensionality.
From S2P Require Import Prelude Memory CString Riscv Csr Spinlock Kalloc Vm Copy Block Cache Sleeplock Log Fs Kernel Proc.

Lemma fn_insert_insert {A B} `{EqDecision A} (f : A -> B) k x y : <[k := y]> (<[k := x]> f) = <[k := y]> f.
Proof.
  apply functional_extensionality. intros a. destruct (decide (a = k)) as [->|].
  - by rewrite !fn_lookup_insert.
  - by rewrite !fn_lookup_insert_ne by congruence.
Qed.

Lemma fn_insert_id {A B} `{EqDecision A} (f : A -> B) k x : f k = x -> <[k := x]> f = f.
Proof.
  intros <-. apply functional_extensionality. intros a. destruct (decide (a = k)) as [->|].
  - by rewrite !fn_lookup_insert.
  - by rewrite !fn_lookup_insert_ne by congruence.
Qed.

Lemma fn_insert_comm {A B} `{EqDecision A} (f : A -> B) k l x y :
  k <> l -> <[k := x]> (<[l := y]> f) = <[l := y]> (<[k := x]> f).
Proof.
  intros Hne. apply functional_extensionality. intros a.
  destruct (decide (a = k)) as [->|]; [|destruct (decide (a = l)) as [->|]].
  - rewrite (fn_lookup_insert_ne _ l) by done. by rewrite !fn_lookup_insert.
  - rewrite (fn_lookup_insert_ne _ k) by done. by rewrite !fn_lookup_insert.
  - by rewrite !fn_lookup_insert_ne by congruence.
Qed.

Section run.
Context {S D : Type}.
Abbreviation kern := (kernel S D).
Implicit Types s : kern.

(** The CPU is in order: interrupts and [noff] agree, and outside of critical
    sections [intena] is what the last [push_off] has left there. *)
Definition calm s : Prop :=
  hart_ok (k_hart s) /\ 0 <= c_noff (k_cpu s) /\
  (c_noff (k_cpu s) = 0 -> c_intena (k_cpu s) = enabled (k_hart s)) /\
  (c_noff (k_cpu s) <> 0 -> enabled (k_hart s) = false).

(** A lock nobody holds, as [initlock] and [release] leave it. *)
Definition lock_free s (l : lockid) : Prop :=
  sl_locked (k_locks s l) = 0 /\ sl_cpu (k_locks s l) = None.

(** This CPU holds the lock. *)
Definition lock_mine s (l : lockid) : Prop :=
  k_locks s l = mkspin 1 (sl_name (k_locks s l)) (Some (cpuid (k_hart s))).

Definition hc s : hart * cpu := (k_hart s, k_cpu s).
Definition with_hc (x : hart * cpu) s : kern := set_kcpu (snd x) (set_khart (fst x) s).

(** The states after [acquire] and [release]. *)
Definition taken (l : lockid) s : kern :=
  set_klocks (<[l := mkspin 1 (sl_name (k_locks s l)) (Some (cpuid (k_hart s)))]> (k_locks s))
    (with_hc (pushed (hc s)) s).
Definition given (l : lockid) s : kern :=
  set_klocks (<[l := mkspin 0 (sl_name (k_locks s l)) None]> (k_locks s))
    (with_hc (popped (hc s)) s).

Lemma calm_ints s : calm s -> ints_ok (c_intena (k_cpu s)) (hc s).
Proof.
  intros (H1 & H2 & H3 & H4). split; [done|]. split; [done|]. cbn.
  destruct (Z.eqb_spec (c_noff (k_cpu s)) 0); [symmetry; auto|auto].
Qed.

Lemma calm_popped_pushed s : calm s -> popped (pushed (hc s)) = hc s.
Proof.
  intros H. rewrite (popped_pushed _ _ (calm_ints s H)). destruct H as (H1 & H2 & H3 & H4). cbn.
  destruct (Z.eqb_spec (c_noff (k_cpu s)) 0) as [E|]; [|done].
  unfold hc. f_equal. by destruct (k_cpu s).
Qed.

Lemma with_hc_id s : with_hc (hc s) s = s.
Proof. by destruct s. Qed.

Lemma acquire_ok l s : calm s -> lock_free s l -> acquire l s = Ok tt (taken l s).
Proof.
  intros Hc [Hf _]. unfold acquire, on_lock, zoom.
  rewrite (acquire_run (hc s)) by (apply Hc || done). done.
Qed.

Lemma release_ok l s :
  calm s -> 1 <= c_noff (k_cpu s) -> lock_mine s l -> release l s = Ok tt (given l s).
Proof.
  intros (H1 & H2 & H3 & H4) Hn Hm. unfold release, on_lock, zoom.
  rewrite (release_run (hc s)); [done|done|apply H4; lia|done|].
  rewrite Hm. unfold holding. cbn. by rewrite bool_decide_true.
Qed.

Lemma taken_calm l s : calm s -> calm (taken l s).
Proof.
  intros (H1 & H2 & H3 & H4). unfold calm, taken; cbn. split; [by apply set_sie_ok|].
  split; [lia|]. split; [lia|]. intros _. apply enabled_set_sie.
Qed.

Lemma taken_noff l s : c_noff (k_cpu (taken l s)) = c_noff (k_cpu s) + 1.
Proof. done. Qed.

Lemma taken_mine l s : lock_mine (taken l s) l.
Proof. unfold lock_mine, taken; cbn. rewrite fn_lookup_insert. done. Qed.

Lemma given_taken l s : calm s -> lock_free s l -> given l (taken l s) = s.
Proof.
  intros Hc [Hf Hn]. pose proof (calm_popped_pushed s Hc) as E.
  destruct s as [h c L p0 p1 p2 p3 p4 p5 p6 p7 p8 p9 p10 p11 p12 p13 p14].
  unfold given, taken, with_hc, hc in *; cbn [k_hart k_cpu k_locks set_klocks set_kcpu set_khart
    k_procs k_initproc k_nextpid k_ticks k_phys k_fs k_files k_pipes k_cons k_uart k_disk k_dev k_panicked k_locking k_first] in *.
  change (fst (pushed (h, c)), snd (pushed (h, c))) with (pushed (h, c)). rewrite E. cbn [fst snd].
  rewrite fn_insert_insert, fn_lookup_insert. cbn. rewrite (fn_insert_id L); [done|].
  destruct (L l); cbn in *. by subst.
Qed.

Lemma given_calm l s : calm s -> 1 <= c_noff (k_cpu s) -> calm (given l s).
Proof.
  intros Hc Hn. pose proof (popped_ints _ _ (calm_ints s Hc) Hn) as (H1 & H2 & H3).
  unfold calm, given; cbn in *. split; [done|]. split; [lia|].
  destruct (Z.eqb_spec (c_noff (k_cpu s) - 1) 0); (split; [|intros]; [intros|]); try lia; [by symmetry|apply H3].
Qed.

Lemma myproc_ok s : calm s -> myproc s = Ok (c_proc (k_cpu s)) s.
Proof.
  intros Hc. unfold myproc. unfold bind at 1. unfold on_hc, zoom at 1.
  change (k_hart s, k_cpu s) with (hc s). rewrite push_off_run by apply Hc.
  unfold bind, mycpu, gets, zoom. cbn [k_hart k_cpu set_kcpu set_khart].
  change (fst (pushed (hc s)), snd (pushed (hc s))) with (pushed (hc s)).
  rewrite pop_off_run; [|by apply set_sie_ok, Hc|apply enabled_set_sie|cbn; destruct Hc; lia].
  rewrite calm_popped_pushed by done. unfold ret. f_equal. by destruct s.
Qed.

Lemma curproc_ok s p : calm s -> c_proc (k_cpu s) = Some p -> curproc s = Ok p s.
Proof. intros Hc E. unfold curproc. erewrite bind_Ok by (by apply myproc_ok). by rewrite E. Qed.

(** ** Critical sections *)

Definition cpart s : hart * cpu * (lockid -> spinlock) := (k_hart s, k_cpu s, k_locks s).

(** [s1] with the CPU and the locks of [s]. *)
Definition restore s s1 : kern := set_klocks (k_locks s) (with_hc (hc s) s1).

Lemma release_restore l s s1 :
  calm s -> lock_free s l -> cpart s1 = cpart (taken l s) -> release l s1 = Ok tt (restore s s1).
Proof.
  intros Hc Hf He.
  assert (E1 : k_hart s1 = k_hart (taken l s)) by exact (f_equal (fun x => fst (fst x)) He).
  assert (E2 : k_cpu s1 = k_cpu (taken l s)) by exact (f_equal (fun x => snd (fst x)) He).
  assert (E3 : k_locks s1 = k_locks (taken l s)) by exact (f_equal snd He).
  pose proof (taken_calm l s Hc) as Hc1. pose proof (taken_mine l s) as Hm.
  assert (calm s1) as Hc'. { unfold calm. by rewrite E1, E2. }
  rewrite release_ok; [|done|rewrite E2, taken_noff; destruct Hc; lia|unfold lock_mine; by rewrite E3, E1].
  f_equal. pose proof (given_taken l s Hc Hf) as E.
  unfold given, restore, with_hc, hc in *. rewrite E1, E2, E3.
  apply (f_equal (fun x => (k_hart x, k_cpu x, k_locks x))) in E. cbn in E. injection E as Ea Eb Ec.
  cbn. by rewrite Ea, Eb, Ec.
Qed.

(** [acquire(l); m; release(l);] *)
Lemma locked_run {A} l (m : M kern A) s a s1 :
  calm s -> lock_free s l -> m (taken l s) = Ok a s1 -> cpart s1 = cpart (taken l s) ->
  bind (acquire l) (fun _ => bind m (fun x => bind (release l) (fun _ => ret x))) s = Ok a (restore s s1).
Proof.
  intros Hc Hf Hm He. erewrite bind_Ok by (by apply acquire_ok). erewrite bind_Ok by exact Hm.
  erewrite bind_Ok by (by apply release_restore). done.
Qed.

Lemma locked_run_unit l (m : M kern unit) s s1 :
  calm s -> lock_free s l -> m (taken l s) = Ok tt s1 -> cpart s1 = cpart (taken l s) ->
  bind (acquire l) (fun _ => bind m (fun _ => release l)) s = Ok tt (restore s s1).
Proof.
  intros Hc Hf Hm He. erewrite bind_Ok by (by apply acquire_ok). erewrite bind_Ok by exact Hm.
  by apply release_restore.
Qed.

Lemma restore_procs l s P : restore s (set_kprocs P (taken l s)) = set_kprocs P s.
Proof. by destruct s. Qed.

Lemma calm_procs P s : calm (set_kprocs P s) <-> calm s.
Proof. done. Qed.
Lemma lock_free_procs P s l : lock_free (set_kprocs P s) l <-> lock_free s l.
Proof. done. Qed.

(** ** [wakeup] and [kill] *)

(** [p] is asleep on the channel. *)
Definition asleep_on (ch : chan) (q : proc) : bool :=
  bool_decide (p_state q = SLEEPING) && bool_decide (p_chan q = Some ch).
Definition wake (ch : chan) (q : proc) : proc := if asleep_on ch q then set_state RUNNABLE q else q.

(** The table after [wakeup(ch)] by the process [me]. *)
Definition woken (me : option nat) (ch : chan) (P : nat -> proc) : nat -> proc := fun p =>
  if decide ((p < NPROC)%nat /\ me <> Some p) then wake ch (P p) else P p.

Definition proc_locks_free s : Prop :=
  forall p, (p < NPROC)%nat -> c_proc (k_cpu s) <> Some p -> lock_free s (LkProc p).

Lemma wakeup_body ch p s :
  calm s -> (c_proc (k_cpu s) <> Some p -> lock_free s (LkProc p)) ->
  wakeup_at ch p s =
  Ok tt (if decide (c_proc (k_cpu s) = Some p) then s
         else set_kprocs (<[p := wake ch (k_procs s p)]> (k_procs s)) s).
Proof.
  intros Hc Hf. unfold wakeup_at. erewrite bind_Ok by (by apply myproc_ok).
  destruct (decide (c_proc (k_cpu s) = Some p)) as [E|E]; [by rewrite bool_decide_true|].
  rewrite bool_decide_false by done.
  rewrite (locked_run_unit _ _ s (set_kprocs (<[p := wake ch (k_procs s p)]> (k_procs s)) (taken (LkProc p) s))).
  - by rewrite restore_procs.
  - done.
  - auto.
  - unfold bind, get_proc, gets, upd_proc, modify, ret, wake, asleep_on; cbn.
    destruct (_ && _); [done|]. rewrite fn_insert_id by done. by destruct s.
  - done.
Qed.

Lemma wakeup_loop ch n i s :
  calm s -> (forall p, (i <= p < i + n)%nat -> c_proc (k_cpu s) <> Some p -> lock_free s (LkProc p)) ->
  for_in (seq i n) (wakeup_at ch) s =
  Ok tt (set_kprocs (fun p => if decide ((i <= p < i + n)%nat /\ c_proc (k_cpu s) <> Some p)
                              then wake ch (k_procs s p) else k_procs s p) s).
Proof.
  revert i s. induction n as [|n IH]; intros i s Hc Hf; cbn [seq for_in].
  - unfold ret. f_equal. destruct s; unfold set_kprocs; cbn. f_equal.
    apply functional_extensionality. intros p. rewrite decide_False by lia. done.
  - erewrite bind_Ok by (apply wakeup_body; [done|intros; apply Hf; [lia|done]]).
    destruct (decide (c_proc (k_cpu s) = Some i)) as [E|E].
    + rewrite IH by (done || (intros; apply Hf; [lia|done])). f_equal. f_equal.
      apply functional_extensionality. intros p. destruct (decide (p = i)) as [->|].
      * rewrite !decide_False; [done|naive_solver|lia].
      * destruct (decide _), (decide _); (done || naive_solver lia).
    + rewrite IH; [|done|intros; apply Hf; [lia|done]]. f_equal. cbn.
      destruct s; unfold set_kprocs; cbn in *. f_equal.
      apply functional_extensionality. intros p. destruct (decide (p = i)) as [->|].
      * rewrite fn_lookup_insert, decide_False by (intros [? _]; lia).
        rewrite decide_True by (split; [lia|done]). done.
      * rewrite fn_lookup_insert_ne by congruence.
        destruct (decide _), (decide _); (done || naive_solver lia).
Qed.

Lemma wakeup_ok ch s :
  calm s -> proc_locks_free s ->
  wakeup ch s = Ok tt (set_kprocs (woken (c_proc (k_cpu s)) ch (k_procs s)) s).
Proof.
  intros Hc Hf. unfold wakeup. rewrite wakeup_loop; [|done|intros; apply Hf; [lia|done]].
  f_equal. f_equal. apply functional_extensionality. intros p. unfold woken.
  destruct (decide _), (decide _); (done || naive_solver lia).
Qed.

(** ** [sleep] *)

(** The table after [p] has gone to sleep on [ch]. *)
Definition slept (p : nat) (ch : chan) (P : nat -> proc) : nat -> proc :=
  <[p := set_state SLEEPING (set_chan (Some ch) (P p))]> P.

Lemma asleep_slept p ch P : asleep_on ch (slept p ch P p) = true.
Proof. unfold slept, asleep_on. rewrite fn_lookup_insert. by rewrite !bool_decide_true. Qed.

Lemma sched_ok p s :
  calm s -> c_noff (k_cpu s) = 1 -> c_proc (k_cpu s) = Some p -> lock_mine s (LkProc p) ->
  p_state (k_procs s p) <> RUNNING -> sched s = Ok (c_intena (k_cpu s)) s.
Proof.
  intros Hc Hn Hp Hm Hs. unfold sched. erewrite bind_Ok by (by apply curproc_ok).
  erewrite bind_Ok by reflexivity. erewrite bind_Ok by reflexivity.
  assert (holding (cpuid (k_hart s)) (k_locks s (LkProc p)) = true) as ->
    by (rewrite Hm; unfold holding; cbn; by rewrite bool_decide_true).
  cbn [negb]. erewrite bind_Ok by reflexivity. rewrite Hn. change (negb (1 =? 1)) with false. cbv iota.
  erewrite bind_Ok by reflexivity. rewrite bool_decide_false by done.
  erewrite bind_Ok by (unfold on_reg, zoom; rewrite intr_get_run; reflexivity).
  rewrite (proj2 (proj2 (proj2 Hc))) by lia. unfold ret. f_equal. by destruct s.
Qed.

(** The lock functions only change the CPU part of the state. *)
Definition put_cpart (x : hart * cpu * (lockid -> spinlock)) s : kern :=
  set_klocks (snd x) (with_hc (fst x) s).
Definition tk (l : lockid) (x : hart * cpu * (lockid -> spinlock)) :=
  (pushed (fst x), <[l := mkspin 1 (sl_name (snd x l)) (Some (cpuid (fst (fst x))))]> (snd x)).
Definition gv (l : lockid) (x : hart * cpu * (lockid -> spinlock)) :=
  (popped (fst x), <[l := mkspin 0 (sl_name (snd x l)) None]> (snd x)).

Lemma put_put x y s : put_cpart x (put_cpart y s) = put_cpart x s.
Proof. reflexivity. Qed.
Lemma cpart_put x s : cpart (put_cpart x s) = x.
Proof. by destruct x as [[h c] L]. Qed.
Lemma taken_put l s : taken l s = put_cpart (tk l (cpart s)) s.
Proof. reflexivity. Qed.
Lemma given_put l s : given l s = put_cpart (gv l (cpart s)) s.
Proof. reflexivity. Qed.
Lemma cpart_taken l s : cpart (taken l s) = tk l (cpart s).
Proof. by rewrite taken_put, cpart_put. Qed.
Lemma cpart_restore s s1 : cpart (restore s s1) = cpart s.
Proof. reflexivity. Qed.

(** Taking a second lock and giving back the first. *)
Lemma gv_tk l l' x :
  c_noff (snd (fst x)) = 0 -> l <> l' -> sl_locked (snd x l) = 0 -> sl_cpu (snd x l) = None ->
  gv l (tk l' (tk l x)) = tk l' x.
Proof.
  destruct x as [[h c] L]. cbn [fst snd]. intros Hn Hne Hl Hc. unfold gv, tk. cbn [fst snd].
  rewrite !(fn_lookup_insert_ne _ l' l), (fn_lookup_insert_ne _ l l'), fn_lookup_insert by done. cbn [sl_name].
  f_equal.
  - unfold popped, pushed. cbn. rewrite Hn. cbn. rewrite !set_sie_twice. done.
  - rewrite (fn_insert_comm _ l), fn_insert_insert by done. f_equal.
    apply fn_insert_id. destruct (L l); cbn in *. by subst.
Qed.

(** [sleep(ch, lk)] up to the switch, when [lk] is the only lock held. *)
Lemma sleep_enter_ok ch lk p s s1 :
  calm s -> c_noff (k_cpu s) = 0 -> c_proc (k_cpu s) = Some p -> lk <> LkProc p ->
  lock_free s lk -> lock_free s (LkProc p) -> cpart s1 = cpart (taken lk s) ->
  sleep_enter ch lk s1 =
    Ok (enabled (k_hart s)) (set_kprocs (slept p ch (k_procs s1)) (taken (LkProc p) (restore s s1))).
Proof.
  intros Hc Hn Hp Hne Hf Hfp He.
  assert (E1 : k_hart s1 = k_hart (taken lk s)) by exact (f_equal (fun x => fst (fst x)) He).
  assert (E2 : k_cpu s1 = k_cpu (taken lk s)) by exact (f_equal (fun x => snd (fst x)) He).
  assert (E3 : k_locks s1 = k_locks (taken lk s)) by exact (f_equal snd He).
  assert (Hc1 : calm s1) by (unfold calm; rewrite E1, E2; by apply taken_calm).
  assert (Hfp1 : lock_free s1 (LkProc p)).
  { unfold lock_free. rewrite E3. cbn. by rewrite !fn_lookup_insert_ne. }
  unfold sleep_enter. erewrite bind_Ok by (apply curproc_ok; [done|by rewrite E2]).
  erewrite bind_Ok by (by apply acquire_ok).
  assert (Hg : given lk (taken (LkProc p) s1) = taken (LkProc p) (restore s s1)).
  { rewrite given_put, cpart_taken, He, cpart_taken, (gv_tk lk) by (done || apply Hf).
    rewrite !taken_put, cpart_restore. reflexivity. }
  erewrite bind_Ok.
  2:{ apply release_ok.
      - by apply taken_calm.
      - rewrite taken_noff. destruct Hc1. lia.
      - unfold lock_mine. cbn. rewrite fn_lookup_insert_ne by done. rewrite E3, E1. cbn.
        by rewrite fn_lookup_insert. }
  rewrite Hg. unfold bind at 1 2, upd_proc, modify.
  match goal with |- sched ?x = _ => set (s2 := x) end.
  assert (Hs2 : s2 = set_kprocs (slept p ch (k_procs s1)) (taken (LkProc p) (restore s s1))).
  { unfold s2, slept. cbn. rewrite fn_lookup_insert, fn_insert_insert. done. }
  rewrite Hs2. erewrite (sched_ok p).
  - f_equal. cbn. by rewrite Hn.
  - apply calm_procs, taken_calm. unfold calm, restore, with_hc, hc; cbn. exact Hc.
  - cbn. by rewrite Hn.
  - done.
  - unfold lock_mine; cbn. rewrite fn_lookup_insert. done.
  - unfold slept; cbn. rewrite fn_lookup_insert. done.
Qed.
(** ** Who is asleep *)

Definition awake s (pr : nat) : Prop := p_state (k_procs s pr) <> SLEEPING.

Lemma awake_not_asleep s pr ch : awake s pr -> asleep_on ch (k_procs s pr) = false.
Proof. intros H. unfold asleep_on. by rewrite bool_decide_false. Qed.

Lemma asleep_wake ch ch' q : asleep_on ch (wake ch' q) = true -> asleep_on ch q = true /\ ch <> ch'.
Proof.
  unfold wake. destruct (asleep_on ch' q) eqn:E; [done|]. intros H. split; [done|].
  intros ->. congruence.
Qed.

Lemma asleep_woken pr ch ch' P p :
  (p < NPROC)%nat -> asleep_on ch (P pr) = false -> asleep_on ch (woken (Some pr) ch' P p) = true ->
  asleep_on ch (P p) = true /\ ch <> ch'.
Proof.
  intros Hp Hpr. unfold woken. destruct (decide _) as [|Hn]; [apply asleep_wake|].
  assert (p = pr) as -> by (destruct (decide (p = pr)); [done|]; destruct Hn; split; [done|congruence]).
  congruence.
Qed.
End run.

(** ** A small kernel state

    One CPU that runs process 1, whose first user page is mapped; process 0 is
    [init] and waits for its children.  The examples of the properties start
    from it. *)

(** The page table of process 1: three table pages and the page of address 0. *)
Definition demo_pt : Z := 0x80400000.
Definition demo_page : Z := demo_pt + 3 * 4096.
Definition demo_tf : Z := demo_pt + 4 * 4096.

(** Every byte outside of the table entries is its address modulo 256. *)
Definition demo_mem : mem :=
  store64 (store64 (store64 (fun a => a mod 256)
    demo_pt (Z.lor (PA2PTE (demo_pt + 4096)) PTE_V))
    (demo_pt + 4096) (Z.lor (PA2PTE (demo_pt + 2 * 4096)) PTE_V))
    (demo_pt + 2 * 4096) (Z.lor (PA2PTE demo_page) 0x17).

Definition demo_proc (st : procstate) (ch : option chan) (pid : Z) (parent : option nat) : proc :=
  mkproc st ch 0 0 pid parent 0 4096 demo_pt demo_tf (mkcontext 0 0 [])
    (fun _ => None) (Some 0%nat) (repeat 0 16).

Definition demo_procs : nat -> proc := fun p =>
  match p with
  | O => demo_proc SLEEPING (Some (ChProc 0)) 1 None
  | 1%nat => demo_proc RUNNING None 2 (Some 0%nat)
  | _ => mkproc UNUSED None 0 0 0 None (KSTACK (Z.of_nat p)) 0 0 0 (mkcontext 0 0 []) (fun _ => None) None (repeat 0 16)
  end.

Definition demo_kernel : kernel unit unit :=
  mkkernel (mkhart 2 0 0 0 0 0 0 0 0) (mkcpu (Some 1%nat) (mkcontext 0 0 []) 0 true)
    (fun _ => initlock "lock") demo_procs (Some 0%nat) 3 100 (mkphys demo_mem 0)
    (mkfsst (mksb 0 0 0 0 0 0 0 0) (fun _ => mkinode 0 0 0 initsleeplock false 0 0 0 0 0 [])
       (mklogst 0 0 0 false 0 (mklh 0 []) tt))
    (fun _ => mkfile FD_NONE 0 false false 0 0 0 0) (fun _ => mkpipe (fun _ => 0) 0 0 true true)
    (mkcons (fun _ => 0) 0 0 0) (mkuart (fun _ => 0) 0 0)
    (mkvdisk (fun _ => mkdesc DNull 0 0 0) 0 (fun _ => 0) 0 (fun _ => 0) (fun _ => true) 0
       (fun _ => None) (fun _ => 0) (fun _ => mkreq 0 0 0) (fun _ => false))
    tt false true false.

Lemma demo_calm : calm demo_kernel.
Proof. unfold calm, hart_ok; cbn. split_and!; (done || lia). Qed.
