(* ===== verification/Uart.v ===== *)
(** * The UART driver: [src/kernel/platform/qemu/driver/uart.c]

    The 16550a's registers are bytes of the memory-mapped device; the transmit
    buffer is a ring indexed by two 64-bit counters.  Loops that poll the
    device look at it at most [spin] times; a run that is still polling then
    has the outcome [Sleeps]. *)

From stdpp Require Import functions.
From S2P Require Import Prelude Memory Riscv Csr Spinlock Kalloc Block Cache Log Fs Kernel Proc.

(** The registers, by their offsets from [UART0], and their bits. *)
Inductive ureg := RHR | THR | IER | FCR | ISR | LCR | LSR.
Definition ureg_off (r : ureg) : Z :=
  match r with RHR => 0 | THR => 0 | IER => 1 | FCR => 2 | ISR => 2 | LCR => 3 | LSR => 5 end.
Coercion ureg_off : ureg >-> Z.

Inductive ubit := IER_RX_ENABLE | IER_TX_ENABLE | FCR_FIFO_ENABLE | FCR_FIFO_CLEAR | LCR_EIGHT_BITS | LCR_BAUD_LATCH | LSR_RX_READY | LSR_TX_IDLE.
Definition ubit_val (b : ubit) : Z :=
  match b with
  | IER_RX_ENABLE => Z.shiftl 1 0
  | IER_TX_ENABLE => Z.shiftl 1 1
  | FCR_FIFO_ENABLE => Z.shiftl 1 0
  | FCR_FIFO_CLEAR => Z.shiftl 3 1
  | LCR_EIGHT_BITS => Z.shiftl 3 0
  | LCR_BAUD_LATCH => Z.shiftl 1 7
  | LSR_RX_READY => Z.shiftl 1 0
  | LSR_TX_IDLE => Z.shiftl 1 5
  end.
Coercion ubit_val : ubit >-> Z.

Definition UART_TX_BUF_SIZE : Z := 32.

Section uart.
Context {S D : Type} `{!Mmio D}.
Variable spin : nat.

Abbreviation kern := (kernel S D).

Definition ReadReg (reg : Z) : M kern Z :=
  on_dev (fun d => let '(v, d') := mmio_read (UART0 + reg) d in Ok (u8 v) d').
Definition WriteReg (reg v : Z) : M kern unit :=
  on_dev (modify (mmio_write (UART0 + reg) (u8 v))).

Definition set_uart (f : uartst -> uartst) : M kern unit :=
  modify (fun s => set_kuart (f (k_uart s)) s).

Definition uartinit : M kern unit :=
  WriteReg IER 0 ;;
  WriteReg LCR LCR_BAUD_LATCH ;;
  WriteReg 0 3 ;;
  WriteReg 1 0 ;;
  WriteReg LCR LCR_EIGHT_BITS ;;
  WriteReg FCR (Z.lor FCR_FIFO_ENABLE FCR_FIFO_CLEAR) ;;
  WriteReg IER (Z.lor IER_TX_ENABLE IER_RX_ENABLE) ;;
  init_lock LkUart "uart".

(** The loop of [uartstart]; every iteration but the last empties one slot. *)
Fixpoint uartstart_loop (fuel : nat) : M kern unit :=
  match fuel with
  | O => panic "uartstart: fuel"
  | Datatypes.S f =>
      let! u := gets k_uart in
      if uart_tx_w u =? uart_tx_r u then ret tt
      else
        let! lsr := ReadReg LSR in
        if negb (has lsr LSR_TX_IDLE) then ret tt
        else
          let c := uart_tx_buf u (uart_tx_r u mod UART_TX_BUF_SIZE) in
          set_uart (fun u => mkuart (uart_tx_buf u) (uart_tx_w u) (u64 (uart_tx_r u + 1))) ;;
          wakeup ChUart ;;
          WriteReg THR c ;;
          uartstart_loop f
  end.

Definition uartstart : M kern unit := uartstart_loop 33.

(** One iteration of the [while(1)] of [uartputc]: whether the byte has been
    queued; if not, the process sleeps and then runs the loop again. *)
Definition uartputc_loop (c : Z) : M kern bool :=
  let! u := gets k_uart in
  if uart_tx_w u =? u64 (uart_tx_r u + UART_TX_BUF_SIZE) then sleep_enter ChUart LkUart ;; ret false
  else
    set_uart (fun u => mkuart (<[uart_tx_w u mod UART_TX_BUF_SIZE := u8 c]> (uart_tx_buf u))
                         (u64 (uart_tx_w u + 1)) (uart_tx_r u)) ;;
    uartstart ;;
    release LkUart ;;
    ret true.

Definition uartputc (c : Z) : M kern bool :=
  acquire LkUart ;;
  let! stop := gets k_panicked in
  if stop then sleeps "panicked" else uartputc_loop c.

(** [while((ReadReg(LSR) & LSR_TX_IDLE) == 0);] *)
Fixpoint wait_tx_idle (n : nat) : M kern unit :=
  match n with
  | O => sleeps "uart busy"
  | Datatypes.S n' =>
      let! lsr := ReadReg LSR in
      if has lsr LSR_TX_IDLE then ret tt else wait_tx_idle n'
  end.

Definition uartputc_sync (c : Z) : M kern unit :=
  on_hc push_off ;;
  let! stop := gets k_panicked in
  if stop then sleeps "panicked"
  else
    wait_tx_idle spin ;;
    WriteReg THR c ;;
    on_hc pop_off.

Definition uartgetc : M kern Z :=
  let! lsr := ReadReg LSR in
  if has lsr 1 then ReadReg RHR else ret (-1).
End uart.
