(* ===== verification/Printf.v ===== *)
(** * Formatted kernel output: [src/kernel/lib/printf.c], [consputc] of
      [src/kernel/console.c], [procdump] of [src/kernel/proc.c]

    Strings are lists of bytes without their NUL.  The arguments that
    [va_arg] fetches are a list; fetching one that is not there or has
    another type is undefined in C and stops the model. *)

From stdpp Require Import functions.
From S2P Require Import Prelude Memory Riscv Csr Spinlock Kalloc Vm Block Cache Log Fs Kernel Proc Uart.

Fixpoint bytes_of (s : string) : list Z :=
  match s with
  | EmptyString => []
  | String a s' => Z.of_N (Ascii.N_of_ascii a) :: bytes_of s'
  end.

Inductive parg := AInt (x : Z) | APtr (x : Z) | AStr (s : option (list Z)).

Definition BACKSPACE : Z := 0x100.

Definition digits : list Z := bytes_of "0123456789abcdef".
Definition digit (d : Z) : Z := nth (Z.to_nat d) digits 0.

(** [do { buf[i++] = digits[x % base]; } while((x /= base) != 0);] on a
    32-bit [x]: at most 32 rounds for a base of at least 2. *)
Fixpoint print_digits (fuel : nat) (x base : Z) : list Z :=
  match fuel with
  | O => []
  | S f => digit (x mod base) :: (if x / base =? 0 then [] else print_digits f (x / base) base)
  end.

(** The contents of [buf] when it is written out, from index 0. *)
Definition printint_buf (xx base : Z) (sign : bool) : list Z :=
  let neg := sign && (xx <? 0) in
  let x := if neg then u32 (- xx) else u32 xx in
  print_digits 32 x base ++ (if neg then [45] else []).

(** The 16 digits of [printptr]: [digits[x >> 60]], then [x <<= 4]. *)
Fixpoint ptr_digits (n : nat) (x : Z) : list Z :=
  match n with
  | O => []
  | S n' => digit (Z.shiftr x 60) :: ptr_digits n' (u64 (Z.shiftl x 4))
  end.

Section printf.
Context {S D : Type} `{!Mmio D}.
Variable spin : nat.

Abbreviation kern := (kernel S D).

Definition consputc (c : Z) : M kern unit :=
  if c =? BACKSPACE then uartputc_sync spin 8 ;; uartputc_sync spin 32 ;; uartputc_sync spin 8
  else uartputc_sync spin c.

Definition printint (xx base : Z) (sign : bool) : M kern unit :=
  for_in (rev (printint_buf xx base sign)) consputc.

Definition printptr (x : Z) : M kern unit :=
  consputc 48 ;; consputc 120 ;; for_in (ptr_digits 16 x) consputc.

(** The conversion after a [%], and the arguments left. *)
Definition print_conv (c : Z) (args : list parg) : M kern (list parg) :=
  if c =? 100 then
    match args with AInt x :: rest => printint x 10 true ;; ret rest | _ => panic "va_arg" end
  else if c =? 120 then
    match args with AInt x :: rest => printint x 16 true ;; ret rest | _ => panic "va_arg" end
  else if c =? 112 then
    match args with APtr x :: rest => printptr x ;; ret rest | _ => panic "va_arg" end
  else if c =? 115 then
    match args with
    | AStr s :: rest => for_in (default (bytes_of "(null)") s) consputc ;; ret rest
    | _ => panic "va_arg"
    end
  else if c =? 37 then consputc 37 ;; ret args
  else consputc 37 ;; consputc c ;; ret args.

Fixpoint printf_loop (fmt : list Z) (args : list parg) : M kern unit :=
  match fmt with
  | [] => ret tt
  | c :: fmt' =>
      if negb (c =? 37) then consputc c ;; printf_loop fmt' args
      else
        match fmt' with
        | [] => ret tt
        | c :: fmt'' => let! rest := print_conv c args in printf_loop fmt'' rest
        end
  end.

Definition printf (fmt : string) (args : list parg) : M kern unit :=
  let! locking := gets k_locking in
  (if locking then acquire LkPr else ret tt) ;;
  printf_loop (bytes_of fmt) args ;;
  (if locking then release LkPr else ret tt).

Definition NL : string := String (Ascii.ascii_of_nat 10) EmptyString.

(** [panic(s)]: the message, then an endless loop. *)
Definition kpanic {A} (s : string) : M kern A :=
  modify (set_klocking false) ;;
  printf "panic: " [] ;;
  printf s [] ;;
  printf NL [] ;;
  modify (set_kpanicked true) ;;
  panic s.

Definition printfinit : M kern unit :=
  init_lock LkPr "pr" ;;
  modify (set_klocking true).

(** The names of [procdump]; the table has no entry for [USED]. *)
Definition state_name (st : procstate) : string :=
  match st with
  | UNUSED => "unused" | SLEEPING => "sleep " | RUNNABLE => "runble"
  | RUNNING => "run   " | ZOMBIE => "zombie" | USED => "???"
  end.

(** The bytes of a NUL-terminated array. *)
Fixpoint cstring (l : list Z) : list Z :=
  match l with
  | [] => []
  | c :: l' => if c =? 0 then [] else c :: cstring l'
  end.

Definition procdump : M kern unit :=
  printf NL [] ;;
  for_in (seq 0 NPROC) (fun p =>
    let! q := get_proc p in
    if bool_decide (p_state q = UNUSED) then ret tt
    else
      printf "%d %s %s" [AInt (p_pid q); AStr (Some (bytes_of (state_name (p_state q))));
                         AStr (Some (cstring (p_name q)))] ;;
      printf NL []).
End printf.
