(* ===== verification/PrintfSpec.v ===== *)
(** * Numbers that the kernel prints

    [printint] writes the digits of a 32-bit integer into a 16-byte buffer,
    from the least significant on, and sends them out backwards. *)

From S2P Require Import Prelude Printf.

(** The value of a digit character. *)
Definition digit_val (c : Z) : option Z :=
  if (48 <=? c) && (c <=? 57) then Some (c - 48)
  else if (97 <=? c) && (c <=? 102) then Some (c - 97 + 10)
  else None.

(** The number that a list of digits denotes, most significant first. *)
Fixpoint parse_digits (base acc : Z) (l : list Z) : option Z :=
  match l with
  | [] => Some acc
  | c :: l' =>
      match digit_val c with
      | Some d => if d <? base then parse_digits base (acc * base + d) l' else None
      | None => None
      end
  end.

Definition parse_int (base : Z) (l : list Z) : option Z :=
  match l with
  | 45 :: (_ :: _) as l' => Z.opp <$> parse_digits base 0 (tail l)
  | _ :: _ => parse_digits base 0 l
  | [] => None
  end.

Lemma digit_val_digit d : 0 <= d < 16 -> digit_val (digit d) = Some d.
Proof.
  intros H. assert (d ∈ seqZ 0 16) as Hd by (apply elem_of_seqZ; lia).
  revert d H Hd. change (seqZ 0 16) with [0;1;2;3;4;5;6;7;8;9;10;11;12;13;14;15].
  intros d _ Hd. repeat (apply elem_of_cons in Hd as [->|Hd]; [reflexivity|]). by apply not_elem_of_nil in Hd.
Qed.

Lemma digit_not_minus d : 0 <= d < 16 -> digit d <> 45.
Proof. intros H E. pose proof (digit_val_digit d H) as Hd. by rewrite E in Hd. Qed.

Lemma digit_zero d : 0 <= d < 16 -> digit d = 48 -> d = 0.
Proof. intros H E. pose proof (digit_val_digit d H) as Hd. rewrite E in Hd. by injection Hd. Qed.

Lemma parse_digits_app base acc l l' :
  parse_digits base acc (l ++ l') = parse_digits base acc l ≫= fun a => parse_digits base a l'.
Proof.
  revert acc. induction l as [|c l IH]; intros acc; [done|]. cbn.
  destruct (digit_val c) as [d|]; [|done]. destruct (d <? base); [apply IH|done].
Qed.

(** The digits of [x], read backwards, are a numeral for it that is no longer
    than needed. *)
Lemma print_digits_spec base k fuel x :
  2 <= base <= 16 -> (k <= fuel)%nat -> (0 < k)%nat -> 0 <= x < base ^ Z.of_nat k ->
  parse_digits base 0 (rev (print_digits fuel x base)) = Some x /\
  (0 < length (print_digits fuel x base) <= k)%nat /\
  Forall (fun c => c <> 45) (print_digits fuel x base) /\
  (base <= x -> forall d, last (print_digits fuel x base) = Some d -> d <> 48).
Proof.
  intros Hb. revert k x. induction fuel as [|f IH]; intros k x Hk Hk0 Hx; [lia|].
  cbn [print_digits]. assert (Hm : 0 <= x mod base < base) by (apply Z.mod_pos_bound; lia).
  destruct (Z.eqb_spec (x / base) 0) as [E|E].
  - assert (x < base) by (apply Z.div_small_iff in E; lia). rewrite Z.mod_small by lia.
    cbn [rev app length]. unfold parse_digits. rewrite digit_val_digit by lia.
    destruct (Z.ltb_spec x base); [|lia]. split; [f_equal; lia|]. split; [lia|].
    split; [|lia]. constructor; [|constructor]. apply digit_not_minus. lia.
  - assert (Hd : 0 < x / base) by (pose proof (Z.div_pos x base); lia).
    destruct k as [|[|k]]; [lia| |].
    { rewrite Z.pow_1_r in Hx. rewrite Z.div_small in Hd by lia. lia. }
    destruct (IH (S k) (x / base)) as (H1 & H2 & H3 & H4); [lia|lia| |].
    { rewrite (Nat2Z.inj_succ (S k)), Z.pow_succ_r in Hx by lia. split; [lia|].
      apply Z.div_lt_upper_bound; lia. }
    cbn [rev length]. rewrite parse_digits_app, H1. cbn [mbind option_bind]. unfold parse_digits.
    rewrite digit_val_digit by lia. destruct (Z.ltb_spec (x mod base) base); [|lia].
    split; [f_equal; rewrite (Z.div_mod x base) at 3; lia|]. split; [lia|]. split.
    { constructor; [apply digit_not_minus; lia|done]. }
    intros _ d. destruct (print_digits f (x / base) base) as [|c l] eqn:Ep; [cbn in H2; lia|].
    rewrite last_cons_cons. destruct (decide (base <= x / base)) as [Hge|Hlt]; [by apply H4|].
    (* the last quotient is a single non-zero digit *)
    destruct f as [|f']; [done|]. cbn [print_digits] in Ep. rewrite (Z.div_small (x / base) base), (Z.mod_small (x / base)) in Ep by lia.
    change (0 =? 0) with true in Ep. cbv iota in Ep. injection Ep as <- <-. intros [= <-] E48.
    apply digit_zero in E48; lia.
Qed.


