(* ===== verification/Console.v ===== *)
(** * The console: [src/kernel/console.c] and [uartintr] of [uart.c]

    Input is collected in a ring of [INPUT_BUF] bytes with three counters:
    [r] (next byte to read), [w] (end of the complete lines) and [e] (end of
    the line being edited). *)

From stdpp Require Import functions.
From S2P Require Import Prelude Memory Riscv Csr Spinlock Kalloc Vm Copy Block Cache Log Fs Kernel Proc Uart Printf.

Definition INPUT_BUF : Z := 128.

(** [C(x)]: control-x *)
Definition Ctl (x : Z) : Z := x - 64.

(** The result of a read or write that may have to wait: finished, or asleep
    with its progress so far (the sleeper goes on from there). *)
Inductive progress := Done (r : Z) | Asleep (i : Z).

Section console.
Context {S B D : Type} `{!BlockCache S B} `{!Mmio D}.
Variable spin : nat.

Abbreviation kern := (kernel S D).

Definition set_cons (f : consst -> consst) : M kern unit :=
  modify (fun s => set_kcons (f (k_cons s)) s).

(** [consolewrite] from byte [i] on; byte [i] is still to be sent when
    [uartputc] goes to sleep. *)
Fixpoint consolewrite_loop (fuel : nat) (user_src : bool) (src n i : Z) : M kern progress :=
  match fuel with
  | O => panic "consolewrite: fuel"
  | Datatypes.S f =>
      if i <? n then
        let! r := either_copyin user_src (u64 (src + i)) 1 in
        if snd r =? -1 then ret (Done i)
        else
          let! sent := uartputc (nth 0 (fst r) 0) in
          if sent then consolewrite_loop f user_src src n (i + 1) else ret (Asleep i)
      else ret (Done i)
  end.

Definition consolewrite (user_src : bool) (src n : Z) : M kern progress :=
  consolewrite_loop (Datatypes.S (Z.to_nat n)) user_src src n 0.

(** The loop of [consoleread] with [n] bytes left of [target]. *)
Fixpoint consoleread_loop (fuel : nat) (user_dst : bool) (dst n target : Z) : M kern progress :=
  match fuel with
  | O => panic "consoleread: fuel"
  | Datatypes.S f =>
      if 0 <? n then
        let! c := gets k_cons in
        if cons_r c =? cons_w c then
          let! p := curproc in
          let! q := get_proc p in
          if negb (p_killed q =? 0) then release LkCons ;; ret (Done (-1))
          else sleep_enter ChCons LkCons ;; ret (Asleep n)
        else
          let ch := cons_buf c (cons_r c mod INPUT_BUF) in
          set_cons (fun c => mkcons (cons_buf c) (u32 (cons_r c + 1)) (cons_w c) (cons_e c)) ;;
          if ch =? Ctl 68 then
            (if u32 n <? target
             then set_cons (fun c => mkcons (cons_buf c) (u32 (cons_r c - 1)) (cons_w c) (cons_e c))
             else ret tt) ;;
            release LkCons ;; ret (Done (s32 (target - n)))
          else
            let! r := either_copyout user_dst dst [u8 ch] in
            if r =? -1 then release LkCons ;; ret (Done (s32 (target - n)))
            else if ch =? 10 then release LkCons ;; ret (Done (s32 (target - (n - 1))))
            else consoleread_loop f user_dst (u64 (dst + 1)) (n - 1) target
      else release LkCons ;; ret (Done (s32 (target - n)))
  end.

Definition consoleread (user_dst : bool) (dst n : Z) : M kern progress :=
  let target := u32 n in
  acquire LkCons ;;
  consoleread_loop (Datatypes.S (Z.to_nat n)) user_dst dst n target.

(** [while(cons.e != cons.w && cons.buf[(cons.e-1) % INPUT_BUF] != '\n')]:
    at most the [INPUT_BUF] bytes of the buffer. *)
Fixpoint kill_line (fuel : nat) : M kern unit :=
  match fuel with
  | O => panic "consoleintr: fuel"
  | Datatypes.S f =>
      let! c := gets k_cons in
      if negb (cons_e c =? cons_w c) && negb (cons_buf c (u32 (cons_e c - 1) mod INPUT_BUF) =? 10) then
        set_cons (fun c => mkcons (cons_buf c) (cons_r c) (cons_w c) (u32 (cons_e c - 1))) ;;
        consputc spin BACKSPACE ;;
        kill_line f
      else ret tt
  end.

(** The [default] case of [consoleintr]. *)
Definition cons_input (c : Z) : M kern unit :=
  let! s := gets k_cons in
  if negb (c =? 0) && (u32 (cons_e s - cons_r s) <? INPUT_BUF) then
    let c := if c =? 13 then 10 else c in
    consputc spin c ;;
    set_cons (fun s => mkcons (<[cons_e s mod INPUT_BUF := u8 c]> (cons_buf s)) (cons_r s) (cons_w s)
                         (u32 (cons_e s + 1))) ;;
    let! s := gets k_cons in
    if (c =? 10) || (c =? Ctl 68) || (cons_e s =? u32 (cons_r s + INPUT_BUF)) then
      set_cons (fun s => mkcons (cons_buf s) (cons_r s) (cons_e s) (cons_e s)) ;;
      wakeup ChCons
    else ret tt
  else ret tt.

Definition consoleintr (c : Z) : M kern unit :=
  acquire LkCons ;;
  (if c =? Ctl 80 then procdump spin
   else if c =? Ctl 85 then kill_line 129
   else if (c =? Ctl 72) || (c =? 127) then
     let! s := gets k_cons in
     if negb (cons_e s =? cons_w s) then
       set_cons (fun s => mkcons (cons_buf s) (cons_r s) (cons_w s) (u32 (cons_e s - 1))) ;;
       consputc spin BACKSPACE
     else ret tt
   else cons_input c) ;;
  release LkCons.

(** The input loop of [uartintr]: at most [spin] characters. *)
Fixpoint uart_input (n : nat) : M kern unit :=
  match n with
  | O => sleeps "uart input"
  | Datatypes.S n' =>
      let! c := uartgetc in
      if c =? -1 then ret tt else consoleintr c ;; uart_input n'
  end.

Definition uartintr : M kern unit :=
  uart_input spin ;;
  acquire LkUart ;;
  uartstart ;;
  release LkUart.

(** [consoleinit]; the console's entries in [devsw] are fixed in [File]. *)
Definition consoleinit : M kern unit :=
  init_lock LkCons "cons" ;;
  uartinit.
End console.
