(* ===== verification/Pipe.v ===== *)
(** * Pipes: [src/kernel/fs/pipe.c]

    A pipe is a ring of [PIPESIZE] bytes with two 32-bit counters that are
    never reset; the structure fills a page got from [kalloc], whose address
    names the pipe.  [pipealloc], which also allocates files, is in [File]. *)

From stdpp Require Import functions.
From S2P Require Import Prelude Memory Riscv Csr Spinlock Kalloc Vm Copy Block Cache Log Fs Kernel Proc Console.

Definition PIPESIZE : Z := 512.

Section pipe.
Context {S D : Type}.
Variable kend : Z.

Abbreviation kern := (kernel S D).

Definition get_pipe (pi : Z) : M kern pipe := gets (fun s => k_pipes s pi).
Definition upd_pipe (pi : Z) (f : pipe -> pipe) : M kern unit :=
  modify (fun s => set_kpipes (<[pi := f (k_pipes s pi)]> (k_pipes s)) s).

Definition pipeclose (pi : Z) (writable : bool) : M kern unit :=
  acquire (LkPipe pi) ;;
  (if writable then
     upd_pipe pi (fun q => mkpipe (pi_data q) (pi_nread q) (pi_nwrite q) (pi_readopen q) false) ;;
     wakeup (ChNread pi)
   else
     upd_pipe pi (fun q => mkpipe (pi_data q) (pi_nread q) (pi_nwrite q) false (pi_writeopen q)) ;;
     wakeup (ChNwrite pi)) ;;
  let! q := get_pipe pi in
  if negb (pi_readopen q) && negb (pi_writeopen q) then
    release (LkPipe pi) ;;
    on_phys (kfree kend pi)
  else release (LkPipe pi).

(** [pi->data[pi->nwrite++ % PIPESIZE] = ch;] *)
Definition pipe_put (ch : Z) (q : pipe) : pipe :=
  mkpipe (<[pi_nwrite q mod PIPESIZE := u8 ch]> (pi_data q)) (pi_nread q) (u32 (pi_nwrite q + 1))
    (pi_readopen q) (pi_writeopen q).

(** [ch = pi->data[pi->nread++ % PIPESIZE];] *)
Definition pipe_get (q : pipe) : Z := pi_data q (pi_nread q mod PIPESIZE).
Definition pipe_advance (q : pipe) : pipe :=
  mkpipe (pi_data q) (u32 (pi_nread q + 1)) (pi_nwrite q) (pi_readopen q) (pi_writeopen q).

Definition pipe_full (q : pipe) : bool := pi_nwrite q =? u32 (pi_nread q + PIPESIZE).
Definition pipe_empty (q : pipe) : bool := pi_nread q =? pi_nwrite q.

(** The end of [pipewrite]. *)
Definition pipewrite_end (pi i : Z) : M kern progress :=
  wakeup (ChNread pi) ;;
  release (LkPipe pi) ;;
  ret (Done i).

(** The loop of [pipewrite] from byte [i] on, in process [pr]. *)
Fixpoint pipewrite_loop (fuel pr : nat) (pi addr n i : Z) : M kern progress :=
  match fuel with
  | O => panic "pipewrite: fuel"
  | Datatypes.S f =>
      if i <? n then
        let! q := get_pipe pi in
        let! p := get_proc pr in
        if negb (pi_readopen q) || negb (p_killed p =? 0) then release (LkPipe pi) ;; ret (Done (-1))
        else if pipe_full q then
          wakeup (ChNread pi) ;;
          sleep_enter (ChNwrite pi) (LkPipe pi) ;;
          ret (Asleep i)
        else
          let! r := on_phys (copyin_bytes (p_pagetable p) (u64 (addr + i)) 1) in
          if snd r =? -1 then pipewrite_end pi i
          else
            upd_pipe pi (pipe_put (nth 0 (fst r) 0)) ;;
            pipewrite_loop f pr pi addr n (i + 1)
      else pipewrite_end pi i
  end.

Definition pipewrite (pi addr n : Z) : M kern progress :=
  let! pr := curproc in
  acquire (LkPipe pi) ;;
  pipewrite_loop (Datatypes.S (Z.to_nat n)) pr pi addr n 0.

(** The end of [piperead]. *)
Definition piperead_end (pi i : Z) : M kern progress :=
  wakeup (ChNwrite pi) ;;
  release (LkPipe pi) ;;
  ret (Done i).

(** [for(i = 0; i < n; i++)] *)
Fixpoint piperead_copy (fuel pr : nat) (pi addr n i : Z) : M kern progress :=
  match fuel with
  | O => panic "piperead: fuel"
  | Datatypes.S f =>
      if i <? n then
        let! q := get_pipe pi in
        if pipe_empty q then piperead_end pi i
        else
          let! p := get_proc pr in
          upd_pipe pi pipe_advance ;;
          let! r := on_phys (copyout_bytes (p_pagetable p) (u64 (addr + i)) [pipe_get q]) in
          if r =? -1 then piperead_end pi i
          else piperead_copy f pr pi addr n (i + 1)
      else piperead_end pi i
  end.

(** [piperead] once it holds the lock; it comes back here after a sleep. *)
Definition piperead_loop (pr : nat) (pi addr n : Z) : M kern progress :=
  let! q := get_pipe pi in
  if pipe_empty q && pi_writeopen q then
    let! p := get_proc pr in
    if negb (p_killed p =? 0) then release (LkPipe pi) ;; ret (Done (-1))
    else sleep_enter (ChNread pi) (LkPipe pi) ;; ret (Asleep 0)
  else piperead_copy (Datatypes.S (Z.to_nat n)) pr pi addr n 0.

Definition piperead (pi addr n : Z) : M kern progress :=
  let! pr := curproc in
  acquire (LkPipe pi) ;;
  piperead_loop pr pi addr n.
End pipe.
