(* ===== verification/PipeProofs.v ===== *)
(** * Pipes are queues

    The bytes between the two counters of a pipe, across the wrap-around of the
    ring and of the 32-bit counters, are a queue of at most [PIPESIZE] bytes:
    [pipewrite] appends to it, [piperead] takes from its front, and every
    sleeper is woken when its condition changes. *)

From stdpp Require Import functions list_numbers.
From Stdlib Require Import FunctionalExtensionality.
From S2P Require Import Prelude Memory CString Riscv Csr Spinlock Kalloc Vm Copy Block Cache Log Fs Kernel Proc ProcRun Console Pipe.

(** ** The queue of a pipe *)

Definition pipe_len (q : pipe) : Z := u32 (pi_nwrite q - pi_nread q).

Definition pipe_inv (q : pipe) : Prop :=
  0 <= pi_nread q < 2 ^ 32 /\ 0 <= pi_nwrite q < 2 ^ 32 /\ pipe_len q <= PIPESIZE.

Definition contents (q : pipe) : list Z :=
  (fun i => pi_data q ((pi_nread q + i) mod PIPESIZE)) <$> seqZ 0 (pipe_len q).

Lemma mod_ring x : (u32 x) mod PIPESIZE = x mod PIPESIZE.
Proof. unfold PIPESIZE. ring_lia. Qed.

Lemma pipe_len_nonneg q : 0 <= pipe_len q.
Proof. apply u32_range. Qed.

Lemma length_contents q : Z.of_nat (length (contents q)) = pipe_len q.
Proof.
  unfold contents. rewrite length_fmap, length_seqZ. pose proof (pipe_len_nonneg q). lia.
Qed.

Lemma pipe_full_len q : pipe_inv q -> pipe_full q = (pipe_len q =? PIPESIZE).
Proof.
  intros (H1 & H2 & H3). unfold pipe_full, pipe_len, PIPESIZE in *.
  apply eq_true_iff_eq. rewrite !Z.eqb_eq. ring_lia.
Qed.

Lemma pipe_empty_len q : pipe_inv q -> pipe_empty q = (pipe_len q =? 0).
Proof.
  intros (H1 & H2 & H3). unfold pipe_empty, pipe_len in *.
  apply eq_true_iff_eq. rewrite !Z.eqb_eq. ring_lia.
Qed.

Lemma pipe_put_len q c : pipe_inv q -> pipe_full q = false -> pipe_len (pipe_put c q) = pipe_len q + 1.
Proof.
  intros Hq. rewrite pipe_full_len by done. intros E%Z.eqb_neq. destruct Hq as (H1 & H2 & H3).
  unfold pipe_put, pipe_len, PIPESIZE in *; cbn. ring_lia.
Qed.

Lemma pipe_put_inv q c : pipe_inv q -> pipe_full q = false -> pipe_inv (pipe_put c q).
Proof.
  intros Hq Hf. unfold pipe_inv. rewrite pipe_put_len by done.
  rewrite pipe_full_len in Hf by done. apply Z.eqb_neq in Hf. destruct Hq as (H1 & H2 & H3).
  split; [done|]. split; [apply u32_range|]. lia.
Qed.

Lemma contents_put q c :
  pipe_inv q -> pipe_full q = false -> contents (pipe_put c q) = contents q ++ [u8 c].
Proof.
  intros Hq Hf. unfold contents. rewrite pipe_put_len by done. pose proof (pipe_len_nonneg q).
  rewrite pipe_full_len in Hf by done. apply Z.eqb_neq in Hf. destruct Hq as (H1 & H2 & H3).
  rewrite seqZ_app, fmap_app by lia. cbn [pipe_put pi_data pi_nread].
  assert (E : pi_nwrite q mod PIPESIZE = (pi_nread q + pipe_len q) mod PIPESIZE)
    by (unfold pipe_len, PIPESIZE; ring_lia).
  rewrite E. f_equal.
  - apply list_fmap_ext. intros k i [-> Hi]%lookup_seqZ. apply fn_lookup_insert_ne.
    unfold PIPESIZE in *. Z.div_mod_to_equations; lia.
  - change (seqZ (0 + pipe_len q) 1) with [0 + pipe_len q]. cbn. by rewrite fn_lookup_insert.
Qed.

Lemma pipe_advance_len q : pipe_inv q -> pipe_empty q = false -> pipe_len (pipe_advance q) = pipe_len q - 1.
Proof.
  intros Hq. rewrite pipe_empty_len by done. intros E%Z.eqb_neq. destruct Hq as (H1 & H2 & H3).
  unfold pipe_advance, pipe_len in *; cbn. ring_lia.
Qed.

Lemma pipe_advance_inv q : pipe_inv q -> pipe_empty q = false -> pipe_inv (pipe_advance q).
Proof.
  intros Hq Hf. unfold pipe_inv. rewrite pipe_advance_len by done. destruct Hq as (H1 & H2 & H3).
  split; [apply u32_range|]. split; [done|]. lia.
Qed.

Lemma contents_get q :
  pipe_inv q -> pipe_empty q = false -> contents q = pipe_get q :: contents (pipe_advance q).
Proof.
  intros Hq Hf. unfold contents. rewrite pipe_advance_len by done. pose proof (pipe_len_nonneg q).
  rewrite pipe_empty_len in Hf by done. apply Z.eqb_neq in Hf.
  rewrite seqZ_cons by lia. cbn [fmap list_fmap]. f_equal.
  - by rewrite Z.add_0_r.
  - replace (Z.succ 0) with (1 + 0) by lia. rewrite <- fmap_add_seqZ, <- list_fmap_compose.
    replace (Z.pred (pipe_len q)) with (pipe_len q - 1) by lia. apply list_fmap_ext.
    intros k i _. cbn [compose pipe_advance pi_data pi_nread]. f_equal.
    rewrite (Zplus_mod (u32 (pi_nread q + 1))), mod_ring, <- Zplus_mod. f_equal. lia.
Qed.

Lemma contents_empty q : pipe_inv q -> pipe_empty q = true -> contents q = [].
Proof. intros Hq. rewrite pipe_empty_len by done. intros E%Z.eqb_eq. unfold contents. by rewrite E. Qed.

(** ** Single bytes of user memory *)

Definition waddr (ph : phys) (pt va : Z) : Z :=
  match walkaddr pt va ph with Ok pa _ => pa | _ => 0 end.

Lemma walk_loop_pure level pt va ph : exists a, walk_loop level pt va false ph = Ok a ph.
Proof.
  revert pt. induction level as [|l IH]; intros pt; [by eexists|].
  cbn [walk_loop]. unfold bind, load_pte, gets. destruct (has _ _); [apply IH|by eexists].
Qed.

Lemma walkaddr_pure pt va ph : walkaddr pt va ph = Ok (waddr ph pt va) ph.
Proof.
  unfold waddr. assert (H : exists a, walkaddr pt va ph = Ok a ph); [|destruct H as [a ->]; done].
  unfold walkaddr, walk. destruct (MAXVA <=? va); [by eexists|].
  destruct (walk_loop_pure 2 pt va ph) as [a E]. erewrite bind_Ok by exact E.
  destruct (a =? 0); [by eexists|]. unfold bind, load_pte, gets.
  destruct (has _ PTE_V); [|by eexists]. destruct (has _ PTE_U); by eexists.
Qed.

(** The physical address of a user byte; [None] when it is not mapped. *)
Definition uaddr (ph : phys) (pt a : Z) : option Z :=
  let pa := waddr ph pt (PGROUNDDOWN a) in
  if pa =? 0 then None else Some (pa + (a - PGROUNDDOWN a)).

Definition uread (ph : phys) (pt a : Z) : option Z := p_mem ph <$> uaddr ph pt a.

(** The memory after storing a byte at a mapped user address. *)
Definition uwrite (ph : phys) (pt a c : Z) : option phys :=
  (fun pa => mkphys (mem_write (p_mem ph) pa [c]) (freelist ph)) <$> uaddr ph pt a.

Lemma page_offset a : 0 < PGSIZE - (a - PGROUNDDOWN a) <= PGSIZE.
Proof. pose proof (PGROUNDDOWN_bounds a). unfold PGSIZE. lia. Qed.

Lemma copyin1 pt a ph :
  copyin_bytes pt a 1 ph = Ok (match uread ph pt a with Some c => ([c], 0) | None => ([], -1) end) ph.
Proof.
  unfold copyin_bytes. change (Z.to_nat (1 / PGSIZE + 3)) with 3%nat. cbn [copyin_bytes_loop].
  change (0 <? 1) with true. cbv iota. erewrite bind_Ok by apply walkaddr_pure.
  unfold uread, uaddr. destruct (waddr ph pt (PGROUNDDOWN a) =? 0); [done|].
  pose proof (page_offset a) as Ho. rewrite u64_small by (unfold PGSIZE in *; lia).
  assert ((if 1 <? PGSIZE - (a - PGROUNDDOWN a) then 1 else PGSIZE - (a - PGROUNDDOWN a)) = 1) as ->
    by (destruct (Z.ltb_spec 1 (PGSIZE - (a - PGROUNDDOWN a))); lia).
  erewrite bind_Ok by done. change (0 <? 1 - 1) with false. cbv iota.
  unfold bind, ret, mem_read. cbn [app fst snd fmap option_fmap option_map].
  change (map _ (seq 0 (Z.to_nat 1))) with [p_mem ph (waddr ph pt (PGROUNDDOWN a) + (a - PGROUNDDOWN a) + 0)].
  by rewrite Z.add_0_r.
Qed.

Lemma copyout1 pt a c ph :
  copyout_bytes pt a [c] ph = match uwrite ph pt a c with Some ph' => Ok 0 ph' | None => Ok (-1) ph end.
Proof.
  unfold copyout_bytes. change (Z.to_nat (Z.of_nat (length [c]) / PGSIZE + 3)) with 3%nat.
  cbn [copyout_bytes_loop length]. change (0 <? Z.of_nat 1) with true. cbv iota zeta.
  erewrite bind_Ok by apply walkaddr_pure.
  unfold uwrite, uaddr. destruct (waddr ph pt (PGROUNDDOWN a) =? 0); [done|].
  pose proof (page_offset a) as Ho. rewrite u64_small by (unfold PGSIZE in *; lia).
  assert ((if Z.of_nat 1 <? PGSIZE - (a - PGROUNDDOWN a) then Z.of_nat 1 else PGSIZE - (a - PGROUNDDOWN a)) = 1) as ->
    by (destruct (Z.ltb_spec (Z.of_nat 1) (PGSIZE - (a - PGROUNDDOWN a))); lia).
  done.
Qed.

(** ** Many bytes *)

Definition put_all (l : list Z) (q : pipe) : pipe := foldl (fun q c => pipe_put c q) q l.

Lemma put_all_spec l q :
  pipe_inv q -> pipe_len q + Z.of_nat (length l) <= PIPESIZE ->
  pipe_inv (put_all l q) /\ contents (put_all l q) = contents q ++ (u8 <$> l) /\
  pi_readopen (put_all l q) = pi_readopen q /\ pi_writeopen (put_all l q) = pi_writeopen q.
Proof.
  revert q. induction l as [|c l IH]; intros q Hq Hl; cbn [put_all foldl fmap list_fmap].
  - by rewrite app_nil_r.
  - cbn [length] in Hl. assert (Hf : pipe_full q = false).
    { rewrite pipe_full_len by done. apply Z.eqb_neq. lia. }
    destruct (IH (pipe_put c q)) as (H1 & H2 & H3 & H4).
    + by apply pipe_put_inv.
    + rewrite pipe_put_len by done. lia.
    + unfold put_all in H1, H2, H3, H4. rewrite H2, contents_put, <- app_assoc by done. done.
Qed.

(** Taking [k] bytes from the front. *)
Definition take_all (k : nat) (q : pipe) : pipe := Nat.iter k pipe_advance q.

Lemma take_all_spec k q :
  pipe_inv q -> Z.of_nat k <= pipe_len q ->
  pipe_inv (take_all k q) /\ contents (take_all k q) = drop k (contents q) /\
  pi_readopen (take_all k q) = pi_readopen q /\ pi_writeopen (take_all k q) = pi_writeopen q.
Proof.
  intros Hq. induction k as [|k IH]; intros Hk; [done|]. destruct IH as (H1 & H2 & H3 & H4); [lia|].
  assert (He : pipe_empty (take_all k q) = false).
  { rewrite pipe_empty_len, <- length_contents, H2, length_drop by done.
    pose proof (length_contents q). apply Z.eqb_neq. lia. }
  change (take_all (Datatypes.S k) q) with (pipe_advance (take_all k q)).
  split; [by apply pipe_advance_inv|]. split; [|done].
  pose proof (contents_get _ H1 He) as E. rewrite H2 in E.
  replace (Datatypes.S k) with (k + 1)%nat by lia. rewrite <- drop_drop, E. done.
Qed.

(** ** [pipewrite] *)

Section pipe_run.
Context {S D : Type}.
Abbreviation kern := (kernel S D).
Implicit Types s : kern.

(** The process [pr] is running, outside of any critical section, and the
    locks that pipe operations take are free. *)
Record pipe_ready s (pr : nat) (pi : Z) : Prop := {
  pr_calm : calm s;
  pr_noff : c_noff (k_cpu s) = 0;
  pr_me : c_proc (k_cpu s) = Some pr;
  pr_bound : (pr < NPROC)%nat;
  pr_lock : lock_free s (LkPipe pi);
  pr_procs p : (p < NPROC)%nat -> lock_free s (LkProc p)
}.

(** The user bytes of [pr] from [a] on are [l]. *)
Definition user_bytes s (pr : nat) (a : Z) (l : list Z) : Prop :=
  forall k c, l !! k = Some c ->
    uread (k_phys s) (p_pagetable (k_procs s pr)) (u64 (a + Z.of_nat k)) = Some c.

(** The state after [l] has been appended to the pipe. *)
Definition piped (pi : Z) (l : list Z) s : kern :=
  set_kpipes (<[pi := put_all l (k_pipes s pi)]> (k_pipes s)) s.
Definition readers_woken (pr : nat) (pi : Z) s : kern :=
  set_kprocs (woken (Some pr) (ChNread pi) (k_procs s)) s.
Definition writers_woken (pr : nat) (pi : Z) s : kern :=
  set_kprocs (woken (Some pr) (ChNwrite pi) (k_procs s)) s.

(** What [pipewrite] does from byte [i] on: the bytes it appends, its result
    and the final state. *)
Inductive wrote s (pr : nat) (pi addr n i : Z) (l : list Z) : progress -> kern -> Prop :=
  | wrote_dead :
      l = [] -> i < n -> pi_readopen (k_pipes s pi) = false \/ p_killed (k_procs s pr) <> 0 ->
      wrote s pr pi addr n i l (Done (-1)) s
  | wrote_all :
      Z.of_nat (length l) = Z.max 0 (n - i) ->
      wrote s pr pi addr n i l (Done (i + Z.of_nat (length l))) (readers_woken pr pi (piped pi l s))
  | wrote_fault :
      i + Z.of_nat (length l) < n ->
      uread (k_phys s) (p_pagetable (k_procs s pr)) (u64 (addr + i + Z.of_nat (length l))) = None ->
      wrote s pr pi addr n i l (Done (i + Z.of_nat (length l))) (readers_woken pr pi (piped pi l s))
  | wrote_full :
      i + Z.of_nat (length l) < n -> pi_readopen (k_pipes s pi) = true ->
      pipe_full (put_all l (k_pipes s pi)) = true ->
      wrote s pr pi addr n i l (Asleep (i + Z.of_nat (length l)))
        (let s' := readers_woken pr pi (piped pi l s) in
         set_kprocs (slept pr (ChNwrite pi) (k_procs s')) (taken (LkProc pr) s')).

Lemma piped_nil pi s : piped pi [] s = s.
Proof. unfold piped. cbn. rewrite fn_insert_id by done. by destruct s. Qed.

(** The loop's state: the lock taken, and bytes already appended. *)
Lemma pipewrite_end_ok s pr pi l j :
  pipe_ready s pr pi ->
  pipewrite_end pi j (piped pi l (taken (LkPipe pi) s)) = Ok (Done j) (readers_woken pr pi (piped pi l s)).
Proof.
  intros [Hc Hn Hp Hb Hl Hpl]. unfold pipewrite_end.
  erewrite bind_Ok.
  2:{ apply wakeup_ok; [by apply taken_calm|]. intros p Hp1 _. unfold lock_free, taken; cbn.
      rewrite fn_lookup_insert_ne by done. by apply Hpl. }
  erewrite bind_Ok by (by apply (release_restore (LkPipe pi) s)). cbn [taken]. unfold ret. f_equal.
  unfold restore, readers_woken, piped. cbn. rewrite Hp. by destruct s.
Qed.

Lemma upd_pipe_piped pi l c s : upd_pipe pi (pipe_put c) (piped pi l s) = Ok tt (piped pi (l ++ [c]) s).
Proof.
  unfold upd_pipe, modify, piped; cbn. rewrite fn_lookup_insert, fn_insert_insert.
  unfold put_all. by rewrite foldl_app.
Qed.

Lemma piped_lookup pi l s : k_pipes (piped pi l s) pi = put_all l (k_pipes s pi).
Proof. cbn. apply fn_lookup_insert. Qed.

Lemma woken_lookup pr pi l s : k_pipes (readers_woken pr pi (piped pi l s)) pi = put_all l (k_pipes s pi).
Proof. exact (piped_lookup pi l s). Qed.

Lemma user_bytes_snoc s pr a l c :
  user_bytes s pr a l ->
  uread (k_phys s) (p_pagetable (k_procs s pr)) (u64 (a + Z.of_nat (length l))) = Some c ->
  user_bytes s pr a (l ++ [c]).
Proof.
  intros Hl Hc k x. destruct (decide (k < length l)%nat) as [Hk|Hk].
  - rewrite lookup_app_l by done. apply Hl.
  - rewrite lookup_app_r by lia. intros [E <-]%list_lookup_singleton_Some.
    by replace k with (length l) by lia.
Qed.

(** The sleeping branch. *)
Lemma pipewrite_sleep s pr pi l (j : Z) :
  pipe_ready s pr pi ->
  (wakeup (ChNread pi) ;; sleep_enter (ChNwrite pi) (LkPipe pi) ;; ret (Asleep j))
    (piped pi l (taken (LkPipe pi) s)) =
  Ok (Asleep j) (let s' := readers_woken pr pi (piped pi l s) in
    set_kprocs (slept pr (ChNwrite pi) (k_procs s')) (taken (LkProc pr) s')).
Proof.
  intros [Hc Hn Hp Hb Hl Hpl].
  erewrite bind_Ok.
  2:{ apply wakeup_ok; [by apply taken_calm|]. intros p Hp1 _. unfold lock_free, taken; cbn.
      rewrite fn_lookup_insert_ne by done. by apply Hpl. }
  erewrite bind_Ok by (apply (sleep_enter_ok _ _ pr s); done || by apply Hpl).
  unfold ret, readers_woken, piped. cbn. by rewrite Hp.
Qed.

Lemma pipewrite_loop_ok fuel s pr pi addr n i l :
  pipe_ready s pr pi -> pipe_inv (k_pipes s pi) ->
  pipe_len (k_pipes s pi) + Z.of_nat (length l) <= PIPESIZE -> user_bytes s pr (addr + i) l ->
  (l <> [] -> pi_readopen (k_pipes s pi) = true /\ p_killed (k_procs s pr) = 0 /\ i + Z.of_nat (length l) <= n) ->
  n - (i + Z.of_nat (length l)) < Z.of_nat fuel -> (0 < fuel)%nat ->
  exists l' r s', pipewrite_loop fuel pr pi addr n (i + Z.of_nat (length l)) (piped pi l (taken (LkPipe pi) s)) = Ok r s' /\
    wrote s pr pi addr n i (l ++ l') r s' /\ user_bytes s pr (addr + i) (l ++ l') /\
    pipe_len (k_pipes s pi) + Z.of_nat (length (l ++ l')) <= PIPESIZE.
Proof.
  intros Hr Hq. revert l. induction fuel as [|f IH]; intros l Hlen Hub Halive Hf Hf0; [lia|].
  destruct (put_all_spec l _ Hq Hlen) as (Hq' & Hc' & Hro & Hwo). cbn [pipewrite_loop].
  destruct (Z.ltb_spec (i + Z.of_nat (length l)) n) as [Hlt|Hge].
  2:{ exists [], (Done (i + Z.of_nat (length l))), (readers_woken pr pi (piped pi l s)).
      rewrite app_nil_r. split; [by apply pipewrite_end_ok|]. split; [|done].
      apply wrote_all. destruct (decide (l = [])) as [->|Hne]; [cbn in *; lia|]. destruct (Halive Hne) as (_ & _ & ?). lia. }
  erewrite bind_Ok by done. erewrite bind_Ok by done.
  change (k_procs (piped pi l (taken (LkPipe pi) s)) pr) with (k_procs s pr).
  rewrite piped_lookup. change (k_pipes (taken (LkPipe pi) s)) with (k_pipes s). rewrite Hro.
  destruct (negb (pi_readopen (k_pipes s pi)) || negb (p_killed (k_procs s pr) =? 0)) eqn:Ed.
  { assert (l = []) as ->.
    { destruct (decide (l = [])) as [|Hne]; [done|]. destruct (Halive Hne) as (E1 & E2 & _). by rewrite E1, E2 in Ed. }
    exists [], (Done (-1)), s. cbn [app]. split; [|split; [|done]].
    - rewrite piped_nil. erewrite bind_Ok by (by apply (release_restore (LkPipe pi) s); [apply Hr|apply Hr|]).
      unfold ret. f_equal. unfold restore. by destruct s.
    - apply wrote_dead; [done|cbn in *; lia|]. destruct (pi_readopen _); [right|by left]. cbn in Ed.
      by apply negb_true_iff, Z.eqb_neq in Ed. }
  apply orb_false_iff in Ed as [Ed1%negb_false_iff Ed2%negb_false_iff%Z.eqb_eq].
  destruct (pipe_full (put_all l (k_pipes s pi))) eqn:Ef.
  { exists [], (Asleep (i + Z.of_nat (length l))). eexists. rewrite app_nil_r.
    split; [by apply pipewrite_sleep|]. split; [|done]. by apply wrote_full. }
  erewrite bind_Ok by (unfold on_phys, zoom; rewrite copyin1; reflexivity).
  change (k_phys (piped pi l (taken (LkPipe pi) s))) with (k_phys s).
  replace (addr + (i + Z.of_nat (length l))) with (addr + i + Z.of_nat (length l)) by lia.
  match goal with |- context [set_kphys ?x ?y] => change (set_kphys x y) with y end.
  destruct (uread _ _ _) as [c|] eqn:Eu; cbn [fst snd nth].
  - change (0 =? -1) with false. cbv iota. erewrite bind_Ok by apply upd_pipe_piped.
    assert (El : i + Z.of_nat (length l) + 1 = i + Z.of_nat (length (l ++ [c]))) by (rewrite length_app; cbn; lia).
    rewrite El. assert (Hnf : pipe_len (k_pipes s pi) + Z.of_nat (length l) <> PIPESIZE).
    { rewrite pipe_full_len, <- length_contents, Hc', length_app, length_fmap in Ef by done.
      apply Z.eqb_neq in Ef. rewrite <- length_contents. lia. }
    destruct (IH (l ++ [c])) as (l' & r & s' & E & Hw & Hu & Hl');
      [rewrite length_app; cbn; lia|by apply user_bytes_snoc|intros _; by split_and!; [..|lia]|lia|lia|].
    exists (c :: l'), r, s'. rewrite <- app_assoc in Hw, Hu, Hl'. done.
  - change (-1 =? -1) with true. cbv iota.
    exists [], (Done (i + Z.of_nat (length l))), (readers_woken pr pi (piped pi l s)). rewrite app_nil_r.
    split; [by apply pipewrite_end_ok|]. split; [|done]. by apply wrote_fault.
Qed.

(** ** [piperead] *)

(** Storing the bytes of [l] one by one from the user address [a] on. *)
Fixpoint uwrites (ph : phys) (pt a : Z) (l : list Z) : option phys :=
  match l with
  | [] => Some ph
  | c :: l' => match uwrite ph pt (u64 a) c with Some ph' => uwrites ph' pt (a + 1) l' | None => None end
  end.

Lemma uwrites_snoc ph pt a l c :
  uwrites ph pt a (l ++ [c]) =
  match uwrites ph pt a l with Some ph' => uwrite ph' pt (u64 (a + Z.of_nat (length l))) c | None => None end.
Proof.
  revert ph a. induction l as [|x l IH]; intros ph a; cbn [app uwrites length].
  - rewrite Z.add_0_r. by destruct (uwrite _ _ _ _).
  - destruct (uwrite ph pt (u64 a) x) as [ph'|]; [|done]. rewrite IH.
    by replace (a + 1 + Z.of_nat (length l)) with (a + Z.of_nat (Datatypes.S (length l))) by lia.
Qed.

(** The state after [k] bytes have left the pipe and memory has become [ph]. *)
Definition drained (pi : Z) (k : nat) (ph : phys) s : kern :=
  set_kphys ph (set_kpipes (<[pi := take_all k (k_pipes s pi)]> (k_pipes s)) s).

(** What [piperead] does: the bytes it delivers, its result and the final
    state.  A byte that cannot be stored is lost. *)
Inductive read_out s (pr : nat) (pi addr n : Z) (l : list Z) : progress -> kern -> Prop :=
  | read_dead :
      l = [] -> contents (k_pipes s pi) = [] -> pi_writeopen (k_pipes s pi) = true ->
      p_killed (k_procs s pr) <> 0 -> read_out s pr pi addr n l (Done (-1)) s
  | read_sleep :
      l = [] -> contents (k_pipes s pi) = [] -> pi_writeopen (k_pipes s pi) = true ->
      read_out s pr pi addr n l (Asleep 0)
        (set_kprocs (slept pr (ChNread pi) (k_procs s)) (taken (LkProc pr) s))
  | read_all ph :
      (contents (k_pipes s pi) = [] -> pi_writeopen (k_pipes s pi) = false) ->
      l = take (Z.to_nat n) (contents (k_pipes s pi)) ->
      uwrites (k_phys s) (p_pagetable (k_procs s pr)) addr l = Some ph ->
      read_out s pr pi addr n l (Done (Z.of_nat (length l)))
        (writers_woken pr pi (drained pi (length l) ph s))
  | read_fault ph c rest :
      contents (k_pipes s pi) = l ++ c :: rest -> Z.of_nat (length l) < n ->
      uwrites (k_phys s) (p_pagetable (k_procs s pr)) addr l = Some ph ->
      uwrites (k_phys s) (p_pagetable (k_procs s pr)) addr (l ++ [c]) = None ->
      read_out s pr pi addr n l (Done (Z.of_nat (length l)))
        (writers_woken pr pi (drained pi (Datatypes.S (length l)) ph s)).

Lemma piperead_end_ok s pr pi k ph j :
  pipe_ready s pr pi ->
  piperead_end pi j (drained pi k ph (taken (LkPipe pi) s)) = Ok (Done j) (writers_woken pr pi (drained pi k ph s)).
Proof.
  intros [Hc Hn Hp Hb Hl Hpl]. unfold piperead_end.
  erewrite bind_Ok.
  2:{ apply (wakeup_ok _ (drained pi k ph (taken (LkPipe pi) s))); [exact (taken_calm (LkPipe pi) s Hc)|]. intros p Hp1 _. unfold lock_free, taken; cbn.
      rewrite fn_lookup_insert_ne by done. by apply Hpl. }
  erewrite bind_Ok by (by apply (release_restore (LkPipe pi) s)). unfold ret. f_equal.
  unfold restore, writers_woken, drained. cbn. rewrite Hp. by destruct s.
Qed.

Lemma upd_pipe_drained pi k ph s :
  upd_pipe pi pipe_advance (drained pi k ph s) = Ok tt (drained pi (Datatypes.S k) ph s).
Proof. unfold upd_pipe, modify, drained; cbn. by rewrite fn_lookup_insert, fn_insert_insert. Qed.

Lemma drained_lookup pi k ph s : k_pipes (drained pi k ph s) pi = take_all k (k_pipes s pi).
Proof. cbn. apply fn_lookup_insert. Qed.

Lemma drained_phys pi k ph ph' s : set_kphys ph' (drained pi k ph s) = drained pi k ph' s.
Proof. done. Qed.

Lemma piperead_copy_ok fuel s pr pi addr n k ph :
  pipe_ready s pr pi -> pipe_inv (k_pipes s pi) ->
  (contents (k_pipes s pi) = [] -> pi_writeopen (k_pipes s pi) = false) ->
  Z.of_nat k <= pipe_len (k_pipes s pi) -> (k = 0%nat \/ Z.of_nat k <= n) ->
  uwrites (k_phys s) (p_pagetable (k_procs s pr)) addr (take k (contents (k_pipes s pi))) = Some ph ->
  n - Z.of_nat k < Z.of_nat fuel -> (0 < fuel)%nat ->
  exists l r s', piperead_copy fuel pr pi addr n (Z.of_nat k) (drained pi k ph (taken (LkPipe pi) s)) = Ok r s' /\
    read_out s pr pi addr n l r s'.
Proof.
  intros Hr Hq Hw. revert k ph. induction fuel as [|f IH]; intros k ph Hk Hkn Hph Hf Hf0; [lia|].
  destruct (take_all_spec k _ Hq Hk) as (Hq' & Hc' & Hro & Hwo).
  pose proof (length_contents (k_pipes s pi)) as Hlen.
  assert (Hlk : length (take k (contents (k_pipes s pi))) = k) by (rewrite length_take; lia).
  assert (Hend : take k (contents (k_pipes s pi)) = take (Z.to_nat n) (contents (k_pipes s pi)) ->
    exists l r s', piperead_end pi (Z.of_nat k) (drained pi k ph (taken (LkPipe pi) s)) = Ok r s' /\
      read_out s pr pi addr n l r s').
  { intros E. exists (take k (contents (k_pipes s pi))), (Done (Z.of_nat k)), (writers_woken pr pi (drained pi k ph s)).
    split; [by apply piperead_end_ok|].
    pose proof (read_all s pr pi addr n _ ph Hw E Hph) as H. by rewrite Hlk in H. }
  cbn [piperead_copy]. destruct (Z.ltb_spec (Z.of_nat k) n) as [Hlt|Hge].
  2:{ apply Hend. destruct Hkn as [->|Hkn]; [|f_equal; lia]. by replace (Z.to_nat n) with 0%nat by lia. }
  erewrite bind_Ok by done. rewrite drained_lookup. change (k_pipes (taken (LkPipe pi) s)) with (k_pipes s).
  destruct (pipe_empty (take_all k (k_pipes s pi))) eqn:Ee.
  { apply Hend. apply contents_empty in Ee; [|done]. rewrite Hc' in Ee. apply drop_nil_inv in Ee.
    rewrite !take_ge by lia. done. }
  pose proof (contents_get _ Hq' Ee) as Eg. rewrite Hc' in Eg.
  erewrite bind_Ok by done. erewrite bind_Ok by apply upd_pipe_drained.
  set (c := pipe_get (take_all k (k_pipes s pi))) in *.
  change (k_procs (drained pi k ph (taken (LkPipe pi) s)) pr) with (k_procs s pr).
  assert (Hsk : take (Datatypes.S k) (contents (k_pipes s pi)) = take k (contents (k_pipes s pi)) ++ [c]).
  { apply take_S_r. rewrite <- (Nat.add_0_r k), <- lookup_drop, Eg. done. }
  pose proof (uwrites_snoc (k_phys s) (p_pagetable (k_procs s pr)) addr (take k (contents (k_pipes s pi))) c) as Hsn.
  rewrite Hph, Hlk in Hsn.
  destruct (uwrite ph (p_pagetable (k_procs s pr)) (u64 (addr + Z.of_nat k)) c) as [ph'|] eqn:Ew.
  - erewrite (bind_Ok (on_phys _)).
    2:{ unfold on_phys, zoom. rewrite copyout1.
        change (k_phys (drained pi (Datatypes.S k) ph (taken (LkPipe pi) s))) with ph. rewrite Ew. reflexivity. }
    rewrite drained_phys. change (0 =? -1) with false. cbv iota.
    replace (Z.of_nat k + 1) with (Z.of_nat (Datatypes.S k)) by lia.
    apply IH; [|lia|by rewrite Hsk|lia|lia].
    apply (f_equal length) in Eg. rewrite length_drop in Eg. cbn in Eg. lia.
  - erewrite (bind_Ok (on_phys _)).
    2:{ unfold on_phys, zoom. rewrite copyout1.
        change (k_phys (drained pi (Datatypes.S k) ph (taken (LkPipe pi) s))) with ph. rewrite Ew. reflexivity. }
    rewrite drained_phys. change (-1 =? -1) with true. cbv iota.
    exists (take k (contents (k_pipes s pi))), (Done (Z.of_nat k)), (writers_woken pr pi (drained pi (Datatypes.S k) ph s)).
    split; [by apply piperead_end_ok|].
    pose proof (read_fault s pr pi addr n (take k (contents (k_pipes s pi))) ph c (contents (pipe_advance (take_all k (k_pipes s pi))))) as H.
    rewrite Hlk in H. apply H; [|lia|done|done]. rewrite <- Eg. symmetry. apply take_drop.
Qed.

Lemma drained_0 pi s : drained pi 0 (k_phys s) s = s.
Proof. unfold drained. cbn. rewrite fn_insert_id by done. by destruct s. Qed.

Lemma piperead_loop_ok s pr pi addr n :
  pipe_ready s pr pi -> pipe_inv (k_pipes s pi) ->
  exists l r s', piperead_loop pr pi addr n (taken (LkPipe pi) s) = Ok r s' /\ read_out s pr pi addr n l r s'.
Proof.
  intros Hr Hq. unfold piperead_loop. erewrite bind_Ok by done.
  change (k_pipes (taken (LkPipe pi) s)) with (k_pipes s).
  destruct (pipe_empty (k_pipes s pi) && pi_writeopen (k_pipes s pi)) eqn:E.
  - apply andb_true_iff in E as [E1 E2]. apply contents_empty in E1; [|done].
    erewrite bind_Ok by done. change (k_procs (taken (LkPipe pi) s) pr) with (k_procs s pr).
    destruct (Z.eqb_spec (p_killed (k_procs s pr)) 0) as [Ek|Ek]; cbn [negb].
    + exists [], (Asleep 0). eexists. split; [|by apply read_sleep].
      erewrite bind_Ok by (apply (sleep_enter_ok _ _ pr s); done || apply Hr; apply Hr). done.
    + exists [], (Done (-1)), s. split; [|by apply read_dead].
      erewrite bind_Ok by (by apply (release_restore (LkPipe pi) s); [apply Hr|apply Hr|]).
      unfold ret. f_equal. unfold restore. by destruct s.
  - pose proof (drained_0 pi (taken (LkPipe pi) s)) as E0. pose proof (pipe_len_nonneg (k_pipes s pi)).
    destruct (piperead_copy_ok (Datatypes.S (Z.to_nat n)) s pr pi addr n 0 (k_phys s)) as (l & r & s' & E1 & H1);
      [done|done| |lia|by left|done|lia|lia|].
    + intros E'. rewrite (pipe_empty_len _ Hq), <- length_contents, E' in E. done.
    + exists l, r, s'. change (k_phys (taken (LkPipe pi) s)) with (k_phys s) in E0. rewrite E0 in E1. done.
Qed.

(** ** Whole calls *)

Lemma pipewrite_ok s pr pi addr n :
  pipe_ready s pr pi -> pipe_inv (k_pipes s pi) ->
  exists l r s', pipewrite pi addr n s = Ok r s' /\ wrote s pr pi addr n 0 l r s' /\
    user_bytes s pr addr l /\ pipe_len (k_pipes s pi) + Z.of_nat (length l) <= PIPESIZE.
Proof.
  intros Hr Hq. unfold pipewrite. erewrite bind_Ok by (apply curproc_ok; apply Hr).
  erewrite bind_Ok by (apply acquire_ok; apply Hr).
  destruct (pipewrite_loop_ok (Datatypes.S (Z.to_nat n)) s pr pi addr n 0 []) as (l & r & s' & E & H & Hu & Hl);
    try done; try lia.
  - cbn. destruct Hq. lia.
  - rewrite piped_nil in E. rewrite Z.add_0_r in Hu. exists l, r, s'. done.
Qed.

Lemma piperead_ok s pr pi addr n :
  pipe_ready s pr pi -> pipe_inv (k_pipes s pi) ->
  exists l r s', piperead pi addr n s = Ok r s' /\ read_out s pr pi addr n l r s'.
Proof.
  intros Hr Hq. unfold piperead. erewrite bind_Ok by (apply curproc_ok; apply Hr).
  erewrite bind_Ok by (apply acquire_ok; apply Hr). by apply piperead_loop_ok.
Qed.

(** ** Nobody sleeps for nothing *)

(** A process asleep in [piperead] finds the pipe empty and the writing end
    open; one asleep in [pipewrite] finds it full and the reading end open. *)
Definition pipe_live (pi : Z) s : Prop :=
  forall p, (p < NPROC)%nat ->
    (asleep_on (ChNread pi) (k_procs s p) = true ->
       contents (k_pipes s pi) = [] /\ pi_writeopen (k_pipes s pi) = true) /\
    (asleep_on (ChNwrite pi) (k_procs s p) = true ->
       pipe_full (k_pipes s pi) = true /\ pi_readopen (k_pipes s pi) = true).

(** The bytes written leave no reader asleep, and a sleeping writer means that
    there was no room for any. *)
Lemma wrote_live s pr pi addr n i l r s' :
  pipe_inv (k_pipes s pi) -> pipe_live pi s -> awake s pr ->
  wrote s pr pi addr n i l r s' -> pipe_len (k_pipes s pi) + Z.of_nat (length l) <= PIPESIZE ->
  pipe_inv (k_pipes s' pi) /\ pipe_live pi s'.
Proof.
  intros Hq Hv Ha Hw Hlen. destruct (put_all_spec l _ Hq Hlen) as (Hq' & Hc' & Hro & Hwo).
  pose proof (length_contents (k_pipes s pi)) as Hlc.
  assert (Hfw : forall p, (p < NPROC)%nat -> asleep_on (ChNwrite pi) (k_procs s p) = true ->
    pipe_full (put_all l (k_pipes s pi)) = true /\ pi_readopen (put_all l (k_pipes s pi)) = true).
  { intros p Hp E. destruct (Hv p Hp) as [_ H]. destruct (H E) as [Hf Hr]. rewrite Hro. split; [|done].
    rewrite pipe_full_len in Hf by done. apply Z.eqb_eq in Hf. destruct l; [|cbn in Hlen; lia].
    cbn. rewrite pipe_full_len by done. by apply Z.eqb_eq. }
  assert (Hmain : forall p, (p < NPROC)%nat ->
    (asleep_on (ChNread pi) (woken (Some pr) (ChNread pi) (k_procs s) p) = true -> False) /\
    (asleep_on (ChNwrite pi) (woken (Some pr) (ChNread pi) (k_procs s) p) = true ->
      pipe_full (put_all l (k_pipes s pi)) = true /\ pi_readopen (put_all l (k_pipes s pi)) = true)).
  { intros p Hp. split; intros E; apply asleep_woken in E as [E Hne]; try done; try (by apply awake_not_asleep).
    by eapply Hfw. }
  destruct Hw as [-> H1 H2|H1|H1 H2|H1 H2 H3]; [done|..].
  1,2: split; [by rewrite woken_lookup|]; intros p Hp; destruct (Hmain p Hp) as [Ha1 Ha2];
    split; [by intros ?%Ha1|rewrite woken_lookup; exact Ha2].
  cbn zeta. cbn [k_procs set_kprocs].
  match goal with |- context [k_pipes (set_kprocs ?x ?y) pi] =>
    change (k_pipes (set_kprocs x y) pi) with (k_pipes (readers_woken pr pi (piped pi l s)) pi) end.
  unfold pipe_live. match goal with |- context [k_pipes (set_kprocs ?x ?y) pi] =>
    change (k_pipes (set_kprocs x y) pi) with (k_pipes (readers_woken pr pi (piped pi l s)) pi) end.
  rewrite woken_lookup. split; [done|]. intros p Hp. cbn [k_procs set_kprocs]. unfold slept. destruct (decide (p = pr)) as [->|Hne].
  - rewrite fn_lookup_insert. split; [intros E; unfold asleep_on in E; cbn in E; by apply bool_decide_eq_true in E|].
    intros _. by rewrite Hro.
  - rewrite fn_lookup_insert_ne by done. destruct (Hmain p Hp) as [Ha1 Ha2]. split; [by intros ?%Ha1|exact Ha2].
Qed.

Lemma drained_live s pr pi k ph :
  pipe_inv (k_pipes s pi) -> pipe_live pi s -> awake s pr -> Z.of_nat k <= pipe_len (k_pipes s pi) ->
  (forall p, (p < NPROC)%nat -> asleep_on (ChNread pi) (k_procs s p) = false) ->
  pipe_inv (k_pipes (writers_woken pr pi (drained pi k ph s)) pi) /\
  pipe_live pi (writers_woken pr pi (drained pi k ph s)).
Proof.
  intros Hq Hv Ha Hk Hn. destruct (take_all_spec k _ Hq Hk) as (Hq' & Hc' & Hro & Hwo).
  assert (E : k_pipes (writers_woken pr pi (drained pi k ph s)) pi = take_all k (k_pipes s pi))
    by exact (drained_lookup pi k ph s).
  unfold pipe_live. rewrite E. split; [done|]. intros p Hp.
  change (k_procs (writers_woken pr pi (drained pi k ph s)) p)
    with (woken (Some pr) (ChNwrite pi) (k_procs s) p).
  split; intros Es; apply asleep_woken in Es as [Es Hne]; try done; try (by apply awake_not_asleep).
  by rewrite Hn in Es.
Qed.

Lemma read_live s pr pi addr n l r s' :
  pipe_inv (k_pipes s pi) -> pipe_live pi s -> awake s pr -> read_out s pr pi addr n l r s' ->
  pipe_inv (k_pipes s' pi) /\ pipe_live pi s'.
Proof.
  intros Hq Hv Ha Hw. pose proof (length_contents (k_pipes s pi)) as Hlc.
  destruct Hw as [_ H1 H2 H3|_ H1 H2|ph H1 -> H3|ph c rest H1 H2 H3 H4]; [done|..].
  - split; [done|]. intros p Hp. cbn [k_procs set_kprocs]. unfold slept.
    match goal with |- context [k_pipes (set_kprocs ?x ?y) pi] =>
      change (k_pipes (set_kprocs x y) pi) with (k_pipes s pi) end.
    destruct (decide (p = pr)) as [->|Hne].
    + rewrite fn_lookup_insert. split; [done|]. intros E. unfold asleep_on in E; cbn in E.
      by apply bool_decide_eq_true in E.
    + rewrite fn_lookup_insert_ne by done. by apply Hv.
  - apply drained_live; try done.
    + rewrite length_take. lia.
    + intros p Hp. destruct (asleep_on (ChNread pi) (k_procs s p)) eqn:E; [|done].
      destruct (Hv p Hp) as [Hr _]. destruct (Hr E) as [E1 E2]. apply H1 in E1. congruence.
  - apply drained_live; try done.
    + rewrite H1, length_app in Hlc. cbn in Hlc. lia.
    + intros p Hp. destruct (asleep_on (ChNread pi) (k_procs s p)) eqn:E; [|done].
      destruct (Hv p Hp) as [Hr _]. destruct (Hr E) as [E1 _]. rewrite E1 in H1. by destruct l.
Qed.

(** *** Closing an end *)

Definition close_end (w : bool) (q : pipe) : pipe :=
  if w then mkpipe (pi_data q) (pi_nread q) (pi_nwrite q) (pi_readopen q) false
  else mkpipe (pi_data q) (pi_nread q) (pi_nwrite q) false (pi_writeopen q).
Definition close_chan (w : bool) (pi : Z) : chan := if w then ChNread pi else ChNwrite pi.

(** The state after [pipeclose], before the page of a dead pipe is freed. *)
Definition closed (pr : nat) (pi : Z) (w : bool) s : kern :=
  set_kprocs (woken (Some pr) (close_chan w pi) (k_procs s))
    (set_kpipes (<[pi := close_end w (k_pipes s pi)]> (k_pipes s)) s).

Lemma pipeclose_ok kend s pr pi w :
  pipe_ready s pr pi ->
  pipeclose kend pi w s =
    (if negb (pi_readopen (close_end w (k_pipes s pi))) && negb (pi_writeopen (close_end w (k_pipes s pi)))
     then on_phys (kfree kend pi) else ret tt) (closed pr pi w s).
Proof.
  intros [Hc Hn Hp Hb Hl Hpl]. unfold pipeclose. erewrite bind_Ok by (by apply acquire_ok).
  set (t := set_kpipes (<[pi := close_end w (k_pipes s pi)]> (k_pipes s)) (taken (LkPipe pi) s)).
  assert (Hw : wakeup (close_chan w pi) t = Ok tt (set_kprocs (woken (Some pr) (close_chan w pi) (k_procs s)) t)).
  { rewrite wakeup_ok; [unfold t; cbn; by rewrite Hp|exact (taken_calm _ _ Hc)|].
    intros p Hp1 _. unfold lock_free, t, taken; cbn. rewrite fn_lookup_insert_ne by done. by apply Hpl. }
  erewrite bind_Ok.
  2:{ destruct w; (erewrite bind_Ok by reflexivity); exact Hw. }
  erewrite bind_Ok by reflexivity. cbn [k_pipes set_kprocs t set_kpipes]. rewrite fn_lookup_insert.
  assert (Hr : release (LkPipe pi) (set_kprocs (woken (Some pr) (close_chan w pi) (k_procs s)) t) = Ok tt (closed pr pi w s)).
  { by rewrite (release_restore (LkPipe pi) s) by done. }
  destruct (_ && _); [erewrite bind_Ok by exact Hr; done|exact Hr].
Qed.

Lemma closed_live s pr pi w :
  pipe_inv (k_pipes s pi) -> pipe_live pi s -> awake s pr ->
  pipe_inv (k_pipes (closed pr pi w s) pi) /\ pipe_live pi (closed pr pi w s).
Proof.
  intros Hq Hv Ha.
  assert (E : k_pipes (closed pr pi w s) pi = close_end w (k_pipes s pi)) by (cbn; apply fn_lookup_insert).
  unfold pipe_live. rewrite E. split; [by destruct w|]. intros p Hp.
  change (k_procs (closed pr pi w s) p) with (woken (Some pr) (close_chan w pi) (k_procs s) p).
  destruct (Hv p Hp) as [H1 H2].
  split; intros Es; apply asleep_woken in Es as [Es Hne]; try done; try (by apply awake_not_asleep).
  - destruct (H1 Es) as [E1 E2]. destruct w; [done|]. exact (conj E1 E2).
  - destruct (H2 Es) as [E1 E2]. destruct w; [|done]. exact (conj E1 E2).
Qed.
End pipe_run.
