(* ===== verification/PipeSpec.v ===== *)
(** * What pipes promise

    The properties of [pipewrite], [piperead] and [pipeclose] as their callers
    see them, and the wake-up property of any interleaving of them. *)

From stdpp Require Import functions list_numbers.
From S2P Require Import Prelude Memory CString Riscv Csr Spinlock Kalloc Vm Copy Block Cache Sleeplock Log Fs Kernel Proc ProcRun Console Pipe PipeProofs.

Section pipe_spec.
Context {S D : Type}.
Abbreviation kern := (kernel S D).
Implicit Types s : kern.

Lemma wrote_pipe s pr pi addr n i l r s' :
  wrote s pr pi addr n i l r s' ->
  k_pipes s' pi = put_all l (k_pipes s pi) /\ k_phys s' = k_phys s /\
  forall v, r = Done v -> cpart s' = cpart s.
Proof.
  intros [El H1 H2|H1|H1 H2|H1 H2 H3]; [by rewrite El|..].
  1,2: split; [by rewrite woken_lookup|done].
  split; [exact (woken_lookup pr pi l s)|]. done.
Qed.

(** C13.  [pipewrite] on any pipe, at any position of its wrapping counters:
    it appends to the queue, in order, the bytes of the caller's memory from
    [addr] on, and nothing else; it returns [n] when all are in, fewer exactly
    when the next byte is not mapped, -1 with nothing appended when the reading
    end is closed or the caller was killed; and it goes to sleep, with its
    progress, exactly when the queue has reached [PIPESIZE] bytes.  When it
    returns, the locks and the interrupt state are as before. *)
Theorem pipewrite_correct s pr pi addr n :
  pipe_ready s pr pi -> pipe_inv (k_pipes s pi) ->
  exists l r s', pipewrite pi addr n s = Ok r s' /\ user_bytes s pr addr l /\
    contents (k_pipes s' pi) = contents (k_pipes s pi) ++ (u8 <$> l) /\
    pipe_inv (k_pipes s' pi) /\ k_phys s' = k_phys s /\
    match r with
    | Done v =>
        cpart s' = cpart s /\
        (v = -1 /\ l = [] /\ 0 < n /\
           (pi_readopen (k_pipes s pi) = false \/ p_killed (k_procs s pr) <> 0) \/
         v = Z.of_nat (length l) /\
           (v = Z.max 0 n \/
            v < n /\ uread (k_phys s) (p_pagetable (k_procs s pr)) (u64 (addr + v)) = None))
    | Asleep j =>
        j = Z.of_nat (length l) /\ j < n /\ Z.of_nat (length (contents (k_pipes s' pi))) = PIPESIZE /\
        asleep_on (ChNwrite pi) (k_procs s' pr) = true /\ lock_mine s' (LkProc pr)
    end.
Proof.
  intros Hr Hq. destruct (pipewrite_ok s pr pi addr n Hr Hq) as (l & r & s' & E & Hw & Hu & Hlen).
  destruct (put_all_spec l _ Hq Hlen) as (Hq' & Hc' & Hro & Hwo).
  destruct (wrote_pipe _ _ _ _ _ _ _ _ _ Hw) as (Ep & Eph & Ecp).
  exists l, r, s'. rewrite Ep. split_and!; try done.
  destruct Hw as [El H1 H2|H1|H1 H2|H1 H2 H3].
  - split; [done|]. left. split_and!; [done|done|lia|done].
  - split; [by eapply Ecp|]. right. split; [lia|]. left. lia.
  - split; [by eapply Ecp|]. right. split; [lia|]. right. split; [lia|].
    by replace (addr + (0 + Z.of_nat (length l))) with (addr + 0 + Z.of_nat (length l)) by lia.
  - split; [lia|]. split; [lia|]. split; [|split].
    + rewrite length_contents. rewrite pipe_full_len in H3 by done. by apply Z.eqb_eq.
    + apply asleep_slept.
    + unfold lock_mine; cbn. by rewrite fn_lookup_insert.
Qed.

(** C14.  [piperead]: it takes bytes from the front of the queue, in order, and
    stores exactly them in the caller's memory from [addr] on; at most [n], all
    there is if fewer; it returns their number, 0 only at the end of input (or
    for [n = 0], or a fault), and sleeps exactly when the queue is empty and
    the writing end is open.  At an unmapped address it stops, and the byte it
    could not store is lost. *)
Theorem piperead_correct s pr pi addr n :
  pipe_ready s pr pi -> pipe_inv (k_pipes s pi) ->
  exists l lost r s', piperead pi addr n s = Ok r s' /\
    contents (k_pipes s pi) = l ++ lost ++ contents (k_pipes s' pi) /\ pipe_inv (k_pipes s' pi) /\
    uwrites (k_phys s) (p_pagetable (k_procs s pr)) addr l = Some (k_phys s') /\
    match r with
    | Done v =>
        (v = -1 /\ l = [] /\ lost = [] /\ contents (k_pipes s pi) = [] /\
           pi_writeopen (k_pipes s pi) = true /\ p_killed (k_procs s pr) <> 0) \/
        v = Z.of_nat (length l) /\
          (lost = [] /\ l = take (Z.to_nat n) (contents (k_pipes s pi)) /\
             (contents (k_pipes s pi) = [] -> pi_writeopen (k_pipes s pi) = false) \/
           exists c, lost = [c] /\ v < n /\
             uwrites (k_phys s) (p_pagetable (k_procs s pr)) addr (l ++ [c]) = None)
    | Asleep j =>
        j = 0 /\ contents (k_pipes s pi) = [] /\ pi_writeopen (k_pipes s pi) = true /\
        asleep_on (ChNread pi) (k_procs s' pr) = true /\ lock_mine s' (LkProc pr)
    end.
Proof.
  intros Hr Hq. destruct (piperead_ok s pr pi addr n Hr Hq) as (l & r & s' & E & Hw).
  destruct Hw as [El H1 H2 H3|El H1 H2|ph H1 H2 H3|ph c rest H1 H2 H3 H4].
  - exists [], [], (Done (-1)), s. split_and!; try done. left. done.
  - exists [], []. eexists _, _. split; [exact E|]. split_and!; try done.
    + apply asleep_slept.
    + unfold lock_mine; cbn. by rewrite fn_lookup_insert.
  - pose proof (length_contents (k_pipes s pi)) as Hlc.
    destruct (take_all_spec (length l) _ Hq) as (Hq' & Hc' & _); [rewrite H2, length_take; lia|].
    exists l, []. eexists _, _. split; [exact E|]. change (k_pipes (writers_woken pr pi ?x)) with (k_pipes x).
    rewrite drained_lookup, Hc'. split_and!; try done.
    + cbn. rewrite H2 at 1. rewrite H2, length_take.
      destruct (decide (Z.to_nat n <= length (contents (k_pipes s pi)))%nat) as [Hle|Hgt].
      * rewrite Nat.min_l by done. symmetry. apply take_drop.
      * rewrite Nat.min_r, drop_ge, app_nil_r, take_ge by lia. done.
    + right. split; [done|]. left. done.
  - pose proof (length_contents (k_pipes s pi)) as Hlc. rewrite H1, length_app in Hlc. cbn in Hlc.
    destruct (take_all_spec (Datatypes.S (length l)) _ Hq) as (Hq' & Hc' & _); [lia|].
    exists l, [c]. eexists _, _. split; [exact E|]. change (k_pipes (writers_woken pr pi ?x)) with (k_pipes x).
    rewrite drained_lookup, Hc'. split_and!; try done.
    + rewrite H1. cbn [app]. f_equal. f_equal. rewrite <- (Nat.add_1_r), <- drop_drop, drop_app_length. done.
    + right. split; [done|]. right. exists c. done.
Qed.

(** ** Interleavings *)

(** A step of the system at a pipe: the locked section of a [pipewrite] that has
    already written [i] bytes (0 in a new call, more after a sleep), of a
    [piperead], a [pipeclose], or anything that neither touches the pipe nor
    puts a process to sleep on its channels. *)
Inductive pipe_step (kend pi : Z) : kern -> kern -> Prop :=
  | pst_write s pr addr n i r s' :
      pipe_ready s pr pi -> awake s pr -> 0 <= i ->
      pipewrite_loop (Datatypes.S (Z.to_nat n)) pr pi addr n i (taken (LkPipe pi) s) = Ok r s' ->
      pipe_step kend pi s s'
  | pst_read s pr addr n r s' :
      pipe_ready s pr pi -> awake s pr ->
      piperead_loop pr pi addr n (taken (LkPipe pi) s) = Ok r s' -> pipe_step kend pi s s'
  | pst_close s pr w s' :
      pipe_ready s pr pi -> awake s pr -> pipeclose kend pi w s = Ok tt s' -> pipe_step kend pi s s'
  | pst_other s s' :
      k_pipes s' pi = k_pipes s pi ->
      (forall p, asleep_on (ChNread pi) (k_procs s' p) = true -> asleep_on (ChNread pi) (k_procs s p) = true) ->
      (forall p, asleep_on (ChNwrite pi) (k_procs s' p) = true -> asleep_on (ChNwrite pi) (k_procs s p) = true) ->
      pipe_step kend pi s s'.

Inductive pipe_steps (kend pi : Z) (s0 : kern) : kern -> Prop :=
  | psts_refl : pipe_steps kend pi s0 s0
  | psts_step s s' : pipe_steps kend pi s0 s -> pipe_step kend pi s s' -> pipe_steps kend pi s0 s'.

Lemma pipe_step_live kend pi s s' :
  pipe_inv (k_pipes s pi) -> pipe_live pi s -> pipe_step kend pi s s' ->
  pipe_inv (k_pipes s' pi) /\ pipe_live pi s'.
Proof.
  intros Hq Hv Hst. destruct Hst as [s pr addr n i r s' Hr Ha Hi E|s pr addr n r s' Hr Ha E|s pr w s' Hr Ha E|s s' E H1 H2].
  - destruct (pipewrite_loop_ok (Datatypes.S (Z.to_nat n)) s pr pi addr n i []) as (l & r' & s1 & E' & Hw & _ & Hl);
      try done; try (cbn; lia).
    { cbn. destruct Hq. lia. }
    rewrite piped_nil in E'. cbn [length] in E'. rewrite Z.add_0_r in E'. rewrite E in E'. injection E' as <- <-.
    by eapply wrote_live.
  - destruct (piperead_loop_ok s pr pi addr n Hr Hq) as (l & r' & s1 & E' & Hw).
    rewrite E in E'. injection E' as <- <-. by eapply read_live.
  - rewrite (pipeclose_ok kend s pr pi w Hr) in E. destruct (closed_live s pr pi w Hq Hv Ha) as [H1 H2].
    destruct (_ && _); [|by injection E as <-]. unfold on_phys, zoom in E.
    destruct (kfree kend pi _); [|done|done]. injection E as _ <-. done.
  - unfold pipe_live. rewrite E. split; [done|]. intros p Hp. destruct (Hv p Hp) as [Hv1 Hv2].
    split; intros H; [by apply Hv1, H1|by apply Hv2, H2].
Qed.

(** C15.  No wake-up is lost, however reads, writes, closes and resumed calls of
    any processes interleave: whenever a process is asleep in [piperead] the
    pipe is empty and may still be written, whenever one is asleep in
    [pipewrite] the pipe is full and may still be read; so nobody sleeps who
    could go on, in particular a reader and a writer are never both asleep. *)
Theorem pipe_no_lost_wakeup kend pi s0 s p q :
  pipe_inv (k_pipes s0 pi) -> pipe_live pi s0 -> pipe_steps kend pi s0 s ->
  (p < NPROC)%nat -> (q < NPROC)%nat ->
  (asleep_on (ChNread pi) (k_procs s p) = true ->
     contents (k_pipes s pi) = [] /\ pi_writeopen (k_pipes s pi) = true) /\
  (asleep_on (ChNwrite pi) (k_procs s q) = true ->
     Z.of_nat (length (contents (k_pipes s pi))) = PIPESIZE /\ pi_readopen (k_pipes s pi) = true) /\
  ~ (asleep_on (ChNread pi) (k_procs s p) = true /\ asleep_on (ChNwrite pi) (k_procs s q) = true).
Proof.
  intros Hq Hv Hs Hp Hpq. assert (H : pipe_inv (k_pipes s pi) /\ pipe_live pi s).
  { induction Hs as [|s s' _ IH Hst]; [done|]. destruct IH. by eapply pipe_step_live. }
  destruct H as [Hq' Hv']. destruct (Hv' p Hp) as [H1 _], (Hv' q Hpq) as [_ H2].
  rewrite pipe_full_len, Z.eqb_eq, <- length_contents in H2 by done.
  split; [done|]. split; [done|]. intros [E1 E2]. apply H1 in E1 as [E1 _]. apply H2 in E2 as [E2 _].
  rewrite E1 in E2. done.
Qed.
End pipe_spec.

(** ** Examples *)

Lemma demo_pipe_ready PP pi : pipe_ready (set_kpipes PP demo_kernel) 1 pi.
Proof. split; [apply demo_calm|done|done|unfold NPROC; lia|done|done]. Qed.

(** A pipe whose counters are about to wrap: 500 bytes, the last of them past
    2^32. *)
Definition wrapping_pipe : pipe := mkpipe (fun i => i mod 256) (2 ^ 32 - 300) 200 true true.
Definition wrap_kernel : kernel unit unit := set_kpipes (fun _ => wrapping_pipe) demo_kernel.

Lemma wrap_inv : pipe_inv wrapping_pipe.
Proof. unfold pipe_inv. split_and!; vm_compute; done. Qed.

(** Writing 20 bytes into it: 12 go in, then the writer sleeps. *)
Lemma pipewrite_correct_witness :
  exists l r s', pipewrite 7 0 20 wrap_kernel = Ok r s' /\
    contents (k_pipes s' 7) = contents wrapping_pipe ++ (u8 <$> l) /\
    (r = Done (-1) \/ r = Done (Z.of_nat (length l)) \/
     r = Asleep (Z.of_nat (length l)) /\ Z.of_nat (length (contents (k_pipes s' 7))) = 512).
Proof.
  destruct (pipewrite_correct wrap_kernel 1 7 0 20) as (l & r & s' & E & _ & Hc & _ & _ & Hr).
  - apply demo_pipe_ready.
  - exact wrap_inv.
  - exists l, r, s'. split; [exact E|]. split; [exact Hc|].
    destruct r as [v|j].
    + destruct Hr as (_ & [(-> & _)|(-> & _)]); [left; reflexivity|right; left; reflexivity].
    + destruct Hr as (-> & _ & H & _). right. right. split; [reflexivity|exact H].
Defined.

Lemma piperead_correct_witness :
  exists l lost r s', piperead 7 0 400 wrap_kernel = Ok r s' /\
    contents wrapping_pipe = l ++ lost ++ contents (k_pipes s' 7).
Proof.
  destruct (piperead_correct wrap_kernel 1 7 0 400) as (l & lost & r & s' & E & Hc & _).
  - apply demo_pipe_ready.
  - exact wrap_inv.
  - exists l, lost, r, s'. split; [exact E|exact Hc].
Defined.

(** Process 1 reads from an empty pipe and falls asleep. *)
Definition reader_asleep : kernel unit unit :=
  set_kprocs (slept 1 (ChNread 7) (k_procs demo_kernel)) (taken (LkProc 1) demo_kernel).

Lemma pipe_no_lost_wakeup_witness :
  piperead_loop 1 7 0 10 (taken (LkPipe 7) demo_kernel) = Ok (Asleep 0) reader_asleep /\
  asleep_on (ChNread 7) (k_procs reader_asleep 1%nat) = true /\
  contents (k_pipes reader_asleep 7) = [] /\ asleep_on (ChNwrite 7) (k_procs reader_asleep 0%nat) <> true.
Proof.
  assert (E : piperead_loop 1 7 0 10 (taken (LkPipe 7) demo_kernel) = Ok (Asleep 0) reader_asleep).
  { unfold piperead_loop. erewrite bind_Ok by reflexivity. change (pipe_empty _ && _) with true. cbv iota.
    erewrite bind_Ok by reflexivity. change (negb _) with false. cbv iota.
    erewrite bind_Ok by (apply (sleep_enter_ok _ _ 1 demo_kernel); done || apply demo_calm). done. }
  split; [exact E|].
  assert (Es : asleep_on (ChNread 7) (k_procs reader_asleep 1%nat) = true) by reflexivity. split; [exact Es|].
  destruct (pipe_no_lost_wakeup 0 7 demo_kernel reader_asleep 1%nat 0%nat) as (H1 & _ & H3).
  - split_and!; vm_compute; done.
  - intros p Hp. split; intros H; exfalso; do 2 (destruct p as [|p]; [done|]); done.
  - eapply psts_step; [apply psts_refl|]. apply (pst_read 0 7 demo_kernel 1 0 10 (Asleep 0)); [|done|exact E].
    exact (demo_pipe_ready (k_pipes demo_kernel) 7).
  - unfold NPROC; lia.
  - unfold NPROC; lia.
  - destruct (H1 Es) as [Hc _]. split; [exact Hc|]. intros Hw. by apply H3.
Defined.
