(* ===== verification/ConsoleProofs.v ===== *)
(** * The console is a line editor

    The ring of [console.c] as two lists of bytes: the complete lines that
    [consoleread] may take, and the line being edited.  [consoleintr] changes
    them as the line editor [key] does, across the wrap-around of the ring and
    of the 32-bit counters. *)

From stdpp Require Import functions list_numbers.
From Stdlib Require Import FunctionalExtensionality.
From S2P Require Import Prelude Memory CString Riscv Csr Spinlock Kalloc Vm Copy Block Cache Log Fs Kernel Proc ProcRun Uart Printf Console Pipe PipeProofs.

(** ** The editor *)

(** The complete lines, and the line being edited. *)
Abbreviation lines := (list Z * list Z)%type.

Definition erases (c : Z) : bool := (c =? Ctl 72) || (c =? 127).
Definition newline (c : Z) : Z := if c =? 13 then 10 else c.
Definition room (st : lines) : bool := Z.of_nat (length (fst st) + length (snd st)) <? INPUT_BUF.

(** Whether the line is complete once [c] has been typed. *)
Definition completes (c : Z) (st : lines) : bool :=
  (c =? 10) || (c =? Ctl 68) || (Z.of_nat (length (fst st) + length (snd st)) + 1 =? INPUT_BUF).

Definition type_in (c : Z) (st : lines) : lines :=
  if completes c st then (fst st ++ snd st ++ [c], []) else (fst st, snd st ++ [c]).

(** What a key does to the lines. *)
Definition key (c : Z) (st : lines) : lines :=
  if c =? Ctl 80 then st
  else if c =? Ctl 85 then (fst st, [])
  else if erases c then (fst st, removelast (snd st))
  else if negb (c =? 0) && room st then type_in (newline c) st
  else st.

(** Whether it wakes the readers up. *)
Definition rouses (c : Z) (st : lines) : bool :=
  negb (c =? Ctl 80) && negb (c =? Ctl 85) && negb (erases c) && negb (c =? 0) && room st && completes (newline c) st.

(** What is sent back to the terminal, except for control-p. *)
Definition rubout : list Z := [8; 32; 8].
Definition echo (c : Z) (st : lines) : list Z :=
  if c =? Ctl 85 then concat (replicate (length (snd st)) rubout)
  else if erases c then (if bool_decide (snd st = []) then [] else rubout)
  else if negb (c =? 0) && room st then [newline c]
  else [].

(** ** The ring *)

Definition stretch (b : Z -> Z) (from n : Z) : list Z :=
  (fun i => b ((from + i) mod INPUT_BUF)) <$> seqZ 0 n.

Definition lines_of (c : consst) : lines :=
  (stretch (cons_buf c) (cons_r c) (u32 (cons_w c - cons_r c)),
   stretch (cons_buf c) (cons_w c) (u32 (cons_e c - cons_w c))).

(** The counters are 32-bit integers in the order [r], [w], [e], at most
    [INPUT_BUF] apart, and the buffer holds bytes. *)
Record ring_ok (c : consst) : Prop := {
  ro_r : 0 <= cons_r c < 4294967296;
  ro_w : 0 <= cons_w c < 4294967296;
  ro_e : 0 <= cons_e c < 4294967296;
  ro_fits : u32 (cons_w c - cons_r c) + u32 (cons_e c - cons_w c) <= INPUT_BUF;
  ro_bytes i : is_byte (cons_buf c i)
}.

(** There is no newline in the line being edited. *)
Definition cons_inv (c : consst) : Prop := ring_ok c /\ 10 ∉ snd (lines_of c).

Lemma length_stretch b from n : 0 <= n -> Z.of_nat (length (stretch b from n)) = n.
Proof. intros H. unfold stretch. rewrite length_fmap, length_seqZ. lia. Qed.

Lemma stretch_app b from n m :
  0 <= n -> 0 <= m -> stretch b from (n + m) = stretch b from n ++ stretch b (from + n) m.
Proof.
  intros Hn Hm. unfold stretch. rewrite seqZ_app, fmap_app by lia. f_equal.
  assert (seqZ (0 + n) m = Z.add n <$> seqZ 0 m) as -> by (rewrite fmap_add_seqZ; f_equal; lia).
  rewrite <- list_fmap_compose. apply list_fmap_ext. intros k i _. cbn. do 2 f_equal. lia.
Qed.

Lemma stretch_mod b from from' n : from mod INPUT_BUF = from' mod INPUT_BUF -> stretch b from n = stretch b from' n.
Proof.
  intros E. apply list_fmap_ext. intros k i _. f_equal. by rewrite (Zplus_mod from), E, <- Zplus_mod.
Qed.

Lemma stretch_one b from : stretch b from 1 = [b (from mod INPUT_BUF)].
Proof. unfold stretch. change (seqZ 0 1) with [0]. cbn [fmap list_fmap]. by rewrite Z.add_0_r. Qed.

Lemma stretch_put b from n at_ x :
  0 <= n < INPUT_BUF -> at_ mod INPUT_BUF = (from + n) mod INPUT_BUF ->
  stretch (<[at_ mod INPUT_BUF := x]> b) from n = stretch b from n.
Proof.
  intros Hn E. apply list_fmap_ext. intros k i [-> Hi]%lookup_seqZ. rewrite E. apply fn_lookup_insert_ne.
  unfold INPUT_BUF in *. Z.div_mod_to_equations; lia.
Qed.

Lemma ring_mod x : u32 x mod INPUT_BUF = x mod INPUT_BUF.
Proof. unfold INPUT_BUF. ring_lia. Qed.

(** Lengths of the two lists. *)
Lemma lines_len c :
  Z.of_nat (length (fst (lines_of c))) = u32 (cons_w c - cons_r c) /\
  Z.of_nat (length (snd (lines_of c))) = u32 (cons_e c - cons_w c).
Proof. unfold lines_of; cbn [fst snd]. split; apply length_stretch; apply u32_range. Qed.

Lemma room_eq c : ring_ok c -> (u32 (cons_e c - cons_r c) <? INPUT_BUF) = room (lines_of c).
Proof.
  intros Hc. destruct (lines_len c) as [E1 E2], Hc as [H1 H2 H3 H4 _]. unfold room.
  rewrite Nat2Z.inj_add, E1, E2. f_equal. unfold INPUT_BUF in H4. clear E1 E2. ring_lia.
Qed.

Lemma edit_nil c : ring_ok c -> (cons_e c =? cons_w c) = bool_decide (snd (lines_of c) = []).
Proof.
  intros Hc. destruct (lines_len c) as [_ E2], Hc as [H1 H2 H3 H4 _].
  apply eq_true_iff_eq. rewrite Z.eqb_eq, bool_decide_eq_true, <- length_zero_iff_nil. unfold INPUT_BUF in H4.
  split; intros E.
  - rewrite E, Z.sub_diag in E2. change (u32 0) with 0 in E2. lia.
  - rewrite E in E2. clear E. ring_lia.
Qed.

Lemma ready_nil c : ring_ok c -> (cons_r c =? cons_w c) = bool_decide (fst (lines_of c) = []).
Proof.
  intros Hc. destruct (lines_len c) as [E1 _], Hc as [H1 H2 H3 H4 _].
  apply eq_true_iff_eq. rewrite Z.eqb_eq, bool_decide_eq_true, <- length_zero_iff_nil. unfold INPUT_BUF in H4.
  split; intros E.
  - rewrite E, Z.sub_diag in E1. change (u32 0) with 0 in E1. lia.
  - rewrite E in E1. clear E. ring_lia.
Qed.

(** Rubbing out the last byte of the line. *)
Definition rub (c : consst) : consst := mkcons (cons_buf c) (cons_r c) (cons_w c) (u32 (cons_e c - 1)).

Lemma rub_lines c :
  cons_inv c -> snd (lines_of c) <> [] ->
  exists l x, snd (lines_of c) = l ++ [x] /\ x = cons_buf c (u32 (cons_e c - 1) mod INPUT_BUF) /\
    lines_of (rub c) = (fst (lines_of c), l) /\ cons_inv (rub c).
Proof.
  intros Hc Hne. assert (Ene : cons_e c <> cons_w c).
  { apply Z.eqb_neq. rewrite edit_nil by apply Hc. by apply bool_decide_eq_false. }
  pose proof Hc as [[H1 H2 H3 H4 H5] H6]. unfold INPUT_BUF in H4.
  assert (E : u32 (cons_e c - cons_w c) = u32 (u32 (cons_e c - 1) - cons_w c) + 1) by ring_lia.
  assert (El : snd (lines_of c) = stretch (cons_buf c) (cons_w c) (u32 (u32 (cons_e c - 1) - cons_w c)) ++
    [cons_buf c (u32 (cons_e c - 1) mod INPUT_BUF)]).
  { unfold lines_of; cbn [snd]. rewrite E, stretch_app, stretch_one by (apply u32_range || lia).
    do 3 f_equal. unfold INPUT_BUF. ring_lia. }
  eexists _, _. split; [exact El|]. split; [done|]. split; [done|].
  split; [split; cbn; [done|done|apply u32_range|unfold INPUT_BUF; lia|done]|].
  rewrite El in H6. intros Hin. apply H6, elem_of_app. by left.
Qed.

(** Typing a byte. *)
Definition store (x : Z) (c : consst) : consst :=
  mkcons (<[cons_e c mod INPUT_BUF := x]> (cons_buf c)) (cons_r c) (cons_w c) (u32 (cons_e c + 1)).
Definition complete (c : consst) : consst := mkcons (cons_buf c) (cons_r c) (cons_e c) (cons_e c).

Lemma store_lines x c :
  ring_ok c -> room (lines_of c) = true -> lines_of (store x c) = (fst (lines_of c), snd (lines_of c) ++ [x]).
Proof.
  intros Hc Hr. rewrite <- room_eq in Hr by done. apply Z.ltb_lt in Hr. pose proof Hc as [H1 H2 H3 H4 H5].
  unfold INPUT_BUF in H4, Hr. unfold lines_of, store; cbn.
  assert (E : u32 (u32 (cons_e c + 1) - cons_w c) = u32 (cons_e c - cons_w c) + 1) by ring_lia.
  rewrite E, stretch_app, stretch_one by (apply u32_range || lia).
  assert (Ew : cons_e c mod INPUT_BUF = (cons_w c + u32 (cons_e c - cons_w c)) mod INPUT_BUF) by (unfold INPUT_BUF; ring_lia).
  assert (Er : cons_e c mod INPUT_BUF = (cons_r c + (u32 (cons_w c - cons_r c) + u32 (cons_e c - cons_w c))) mod INPUT_BUF)
    by (unfold INPUT_BUF; ring_lia).
  f_equal.
  - assert (Ht : stretch (<[cons_e c mod INPUT_BUF := x]> (cons_buf c)) (cons_r c) (u32 (cons_w c - cons_r c) + u32 (cons_e c - cons_w c)) =
      stretch (cons_buf c) (cons_r c) (u32 (cons_w c - cons_r c) + u32 (cons_e c - cons_w c))).
    { apply stretch_put; [|done]. pose proof (u32_range (cons_w c - cons_r c)). pose proof (u32_range (cons_e c - cons_w c)).
      unfold INPUT_BUF. clear Ew Er E. ring_lia. }
    rewrite !stretch_app in Ht by apply u32_range. apply app_inj_1 in Ht; [apply Ht|].
    apply Nat2Z.inj. by rewrite !length_stretch by apply u32_range.
  - rewrite <- Ew, fn_lookup_insert. f_equal. apply stretch_put; [|done]. pose proof (u32_range (cons_e c - cons_w c)).
    pose proof (u32_range (cons_w c - cons_r c)). unfold INPUT_BUF. clear Ew Er E. ring_lia.
Qed.

Lemma complete_lines c : ring_ok c -> lines_of (complete c) = (fst (lines_of c) ++ snd (lines_of c), []).
Proof.
  intros [H1 H2 H3 H4 _]. unfold INPUT_BUF in H4. unfold lines_of, complete; cbn. rewrite Z.sub_diag. f_equal.
  rewrite (stretch_mod _ (cons_w c) (cons_r c + u32 (cons_w c - cons_r c))) by (unfold INPUT_BUF; ring_lia).
  rewrite <- stretch_app by apply u32_range. f_equal. ring_lia.
Qed.

Lemma store_ring x c : ring_ok c -> room (lines_of c) = true -> is_byte x -> ring_ok (store x c).
Proof.
  intros Hc Hr Hx. split; [apply Hc|apply Hc|apply u32_range| |].
  - destruct (lines_len (store x c)) as [E1 E2]. rewrite <- E1, <- E2, store_lines by done. cbn [fst snd].
    rewrite length_app. cbn [length]. unfold room in Hr. apply Z.ltb_lt in Hr. lia.
  - intros i. cbn. destruct (decide (i = cons_e c mod INPUT_BUF)) as [->|].
    + by rewrite fn_lookup_insert.
    + rewrite fn_lookup_insert_ne by congruence. apply Hc.
Qed.

Lemma complete_inv c : ring_ok c -> cons_inv (complete c).
Proof.
  intros Hc. split; [|by rewrite complete_lines; [apply not_elem_of_nil|]].
  pose proof Hc as [H1 H2 H3 H4 H5]. split; cbn; [done..| |done]. rewrite Z.sub_diag. change (u32 0) with 0.
  unfold INPUT_BUF in *. ring_lia.
Qed.

(** The last free byte has been used. *)
Lemma store_full x c :
  ring_ok c -> room (lines_of c) = true -> is_byte x ->
  (cons_e (store x c) =? u32 (cons_r c + INPUT_BUF)) = (Z.of_nat (length (fst (lines_of c)) + length (snd (lines_of c))) + 1 =? INPUT_BUF).
Proof.
  intros Hc Hr Hx. pose proof (store_ring x c Hc Hr Hx) as Hs. destruct (lines_len (store x c)) as [E1 E2].
  rewrite store_lines in E1, E2 by done. cbn [fst snd] in E1, E2. rewrite length_app in E2. cbn [length] in E2.
  apply eq_true_iff_eq. rewrite !Z.eqb_eq. rewrite Nat2Z.inj_add. destruct Hs as [H1 H2 H3 H4 _].
  change (cons_r (store x c)) with (cons_r c) in *. change (cons_w (store x c)) with (cons_w c) in *.
  generalize dependent (cons_e (store x c)). intros e E2 H3 H4. unfold INPUT_BUF in *. ring_lia.
Qed.

(** ** Sending bytes to the terminal *)

(** The device after its status register has been read until it says that the
    transmitter is idle; [None] if it does not within [n] looks. *)
Fixpoint poll {D} `{!Mmio D} (n : nat) (d : D) : option D :=
  match n with
  | O => None
  | Datatypes.S n' =>
      let '(v, d') := mmio_read (UART0 + LSR) d in
      if has (u8 v) LSR_TX_IDLE then Some d' else poll n' d'
  end.

(** The transmitter becomes idle within [n] looks, whatever the device has
    been given to send. *)
Class Transmits (D : Type) `{!Mmio D} (n : nat) : Prop := tx_ready d : exists d', poll n d = Some d'.

Section cons_run.
Context {S D : Type} `{!Mmio D} (spin : nat) `{!Transmits D spin}.
Abbreviation kern := (kernel S D).
Implicit Types s : kern.

Definition sent (d : D) (c : Z) : D := mmio_write (UART0 + THR) (u8 c) (default d (poll spin d)).
Definition sends (d : D) (l : list Z) : D := foldl sent d l.

(** Nothing has panicked and the CPU is in order. *)
Definition well s : Prop := calm s /\ k_panicked s = false.

Lemma well_dev d s : well s -> well (set_kdev d s).
Proof. done. Qed.

Lemma dev_dev d d' s : set_kdev d' (set_kdev d s) = set_kdev d' s.
Proof. reflexivity. Qed.
Lemma dev_id s : set_kdev (k_dev s) s = s.
Proof. by destruct s. Qed.

Lemma wait_tx_idle_ok n s d : poll n (k_dev s) = Some d -> wait_tx_idle n s = Ok tt (set_kdev d s).
Proof.
  revert s. induction n as [|n IH]; intros s E; [done|]. cbn [poll] in E. cbn [wait_tx_idle].
  destruct (mmio_read (UART0 + LSR) (k_dev s)) as [v d'] eqn:Er.
  assert (Ed : ReadReg LSR s = Ok (u8 v) (set_kdev d' s)) by (unfold ReadReg, on_dev, zoom; by rewrite Er).
  erewrite bind_Ok by exact Ed. destruct (has (u8 v) LSR_TX_IDLE).
  - by injection E as ->.
  - rewrite (IH (set_kdev d' s) E). done.
Qed.

Lemma uartputc_sync_ok c s : well s -> uartputc_sync spin c s = Ok tt (set_kdev (sent (k_dev s) c) s).
Proof.
  intros [Hc Hp]. unfold uartputc_sync.
  assert (E1 : on_hc push_off s = Ok tt (with_hc (pushed (hc s)) s))
    by (unfold on_hc, zoom; change (k_hart s, k_cpu s) with (hc s); by rewrite push_off_run by apply Hc).
  erewrite bind_Ok by exact E1. erewrite bind_Ok by reflexivity. change (k_panicked (with_hc _ s)) with (k_panicked s).
  rewrite Hp. destruct (tx_ready (n := spin) (k_dev s)) as [d Ed].
  erewrite bind_Ok by (apply wait_tx_idle_ok; exact Ed). erewrite bind_Ok by reflexivity.
  unfold on_hc, zoom. cbn [k_hart k_cpu set_kdev with_hc set_kcpu set_khart].
  change (fst (pushed (hc s)), snd (pushed (hc s))) with (pushed (hc s)).
  rewrite pop_off_run; [|by apply set_sie_ok, Hc|apply enabled_set_sie|cbn; destruct Hc; lia].
  rewrite calm_popped_pushed by done. unfold sent. by rewrite Ed.
Qed.

(** A computation that does nothing but send bytes to the terminal, and one
    that sends the bytes [l]. *)
Definition prints {A} (m : M kern A) (a : A) : Prop := forall s, well s -> exists d, m s = Ok a (set_kdev d s).
Definition prints_as (m : M kern unit) (l : list Z) : Prop := forall s, well s -> m s = Ok tt (set_kdev (sends (k_dev s) l) s).

Lemma prints_bind {A B} (m : M kern A) (k : A -> M kern B) a b : prints m a -> prints (k a) b -> prints (bind m k) b.
Proof.
  intros Hm Hk s Hs. destruct (Hm s Hs) as (d & E). destruct (Hk (set_kdev d s) Hs) as (d' & E').
  exists d'. erewrite bind_Ok by exact E. by rewrite E'.
Qed.

Lemma prints_ret {A} (a : A) : prints (ret a) a.
Proof. intros s _. exists (k_dev s). by rewrite dev_id. Qed.

Lemma prints_for {A} (l : list A) (body : A -> M kern unit) : (forall x, prints (body x) tt) -> prints (for_in l body) tt.
Proof. intros H. induction l as [|x l IH]; [apply prints_ret|]. cbn [for_in]. by eapply prints_bind. Qed.

Lemma prints_as_bind m k l l' : prints_as m l -> prints_as k l' -> prints_as (m ;; k) (l ++ l').
Proof.
  intros Hm Hk s Hs. erewrite bind_Ok by (by apply Hm). rewrite Hk by done. unfold sends. by rewrite foldl_app.
Qed.

Lemma consputc_as c : prints_as (consputc spin c) (if c =? BACKSPACE then rubout else [c]).
Proof.
  assert (H : forall x, prints_as (uartputc_sync spin x) [x]) by (intros x s; apply uartputc_sync_ok).
  unfold consputc. destruct (c =? BACKSPACE); [|apply H]. apply (prints_as_bind _ _ [8] [32; 8]); [apply H|].
  apply (prints_as_bind _ _ [32] [8]); apply H.
Qed.

Lemma consputc_prints c : prints (consputc spin c) tt.
Proof. intros s Hs. eexists. by apply consputc_as. Qed.

(** ** [procdump] *)

(** The arguments left after a conversion, if the first one fits it. *)
Definition conv_args (c : Z) (args : list parg) : option (list parg) :=
  if (c =? 100) || (c =? 120) then match args with AInt _ :: rest => Some rest | _ => None end
  else if c =? 112 then match args with APtr _ :: rest => Some rest | _ => None end
  else if c =? 115 then match args with AStr _ :: rest => Some rest | _ => None end
  else Some args.

Fixpoint fmt_ok (fmt : list Z) (args : list parg) : bool :=
  match fmt with
  | [] => true
  | c :: fmt' =>
      if negb (c =? 37) then fmt_ok fmt' args
      else
        match fmt' with
        | [] => true
        | c :: fmt'' => match conv_args c args with Some rest => fmt_ok fmt'' rest | None => false end
        end
  end.

Ltac prints_step :=
  first [apply consputc_prints | apply prints_ret | apply prints_for; intros; apply consputc_prints
        | eapply prints_bind].

Lemma print_conv_prints c args rest : conv_args c args = Some rest -> prints (print_conv spin c args) rest.
Proof.
  unfold conv_args, print_conv, printint, printptr. intros E.
  destruct (c =? 100); [destruct args as [|[]]; try done; injection E as <-; repeat prints_step|].
  destruct (c =? 120); [destruct args as [|[]]; try done; injection E as <-; repeat prints_step|].
  destruct (c =? 112); [destruct args as [|[]]; try done; injection E as <-; repeat prints_step|].
  destruct (c =? 115); [destruct args as [|[]]; try done; injection E as <-; repeat prints_step|].
  injection E as <-. destruct (c =? 37); repeat prints_step.
Qed.

Lemma printf_loop_prints : forall fmt args, fmt_ok fmt args = true -> prints (printf_loop spin fmt args) tt.
Proof.
  fix IH 1. intros [|c fmt] args E; [apply prints_ret|]. cbn [fmt_ok printf_loop] in *.
  destruct (negb (c =? 37)); [eapply prints_bind; [apply consputc_prints|by apply IH]|].
  destruct fmt as [|c' fmt]; [apply prints_ret|].
  destruct (conv_args c' args) as [rest|] eqn:Ec; [|done].
  eapply prints_bind; [by apply print_conv_prints|by apply IH].
Qed.

Definition pr_free s : Prop := k_locking s = true -> lock_free s LkPr.

Lemma printf_prints fmt args s :
  fmt_ok (bytes_of fmt) args = true -> well s -> pr_free s -> exists d, printf spin fmt args s = Ok tt (set_kdev d s).
Proof.
  intros Hf Hw Hp. pose proof (printf_loop_prints _ _ Hf) as Hb. unfold printf. erewrite bind_Ok by reflexivity.
  destruct (k_locking s) eqn:El.
  - destruct (Hb (taken LkPr s)) as [d E]; [split; [by apply taken_calm, Hw|apply Hw]|]. exists d.
    by rewrite (locked_run_unit LkPr _ s _ (proj1 Hw) (Hp El) E eq_refl); destruct s.
  - destruct (Hb s Hw) as [d E]. exists d. erewrite bind_Ok by reflexivity. by erewrite bind_Ok by exact E.
Qed.

Lemma procdump_prints s : well s -> pr_free s -> exists d, procdump spin s = Ok tt (set_kdev d s).
Proof.
  intros Hw Hp. unfold procdump. destruct (printf_prints NL [] s eq_refl Hw Hp) as [d0 E0].
  erewrite bind_Ok by exact E0. clear E0. revert d0.
  induction (seq 0 NPROC) as [|p l IH]; intros d0; [by exists d0|]. cbn [for_in].
  assert (H : exists d, (let! q := get_proc p in
    if bool_decide (p_state q = UNUSED) then ret tt
    else printf spin "%d %s %s" [AInt (p_pid q); AStr (Some (bytes_of (state_name (p_state q)))); AStr (Some (cstring (p_name q)))] ;;
         printf spin NL []) (set_kdev d0 s) = Ok tt (set_kdev d s)).
  { erewrite bind_Ok by reflexivity. destruct (bool_decide _); [by exists d0|].
    destruct (printf_prints "%d %s %s" [AInt (p_pid (k_procs s p)); AStr (Some (bytes_of (state_name (p_state (k_procs s p)))));
      AStr (Some (cstring (p_name (k_procs s p))))] (set_kdev d0 s) eq_refl Hw Hp) as [d1 E1].
    erewrite bind_Ok by exact E1. apply (printf_prints NL [] (set_kdev d1 s) eq_refl Hw Hp). }
  destruct H as [d1 E1]. erewrite bind_Ok by exact E1. apply (IH d1).
Qed.

(** ** [consoleintr] *)

Lemma kill_line_ok fuel s :
  well s -> cons_inv (k_cons s) -> (length (snd (lines_of (k_cons s))) < fuel)%nat ->
  exists c', kill_line spin fuel s =
    Ok tt (set_kcons c' (set_kdev (sends (k_dev s) (concat (replicate (length (snd (lines_of (k_cons s)))) rubout))) s)) /\
    lines_of c' = (fst (lines_of (k_cons s)), []) /\ cons_inv c'.
Proof.
  revert s. induction fuel as [|f IH]; intros s Hw Hc Hf; [lia|]. cbn [kill_line].
  erewrite bind_Ok by reflexivity. rewrite edit_nil by apply Hc.
  destruct (bool_decide_reflect (snd (lines_of (k_cons s)) = [])) as [E|E].
  { exists (k_cons s). cbn [negb andb]. rewrite E. split; [by destruct s|]. split; [|done].
    rewrite <- E. by destruct (lines_of (k_cons s)). }
  destruct (rub_lines _ Hc E) as (l & x & El & Ex & Er & Hc').
  assert (Hx : x <> 10). { intros ->. apply (proj2 Hc). rewrite El. apply elem_of_app. right. by constructor. }
  rewrite <- Ex. destruct (Z.eqb_spec x 10) as [|_]; [done|]. cbn [negb andb].
  erewrite bind_Ok by reflexivity. erewrite bind_Ok by (apply (consputc_as BACKSPACE); exact Hw).
  set (s1 := set_kdev _ _). destruct (IH s1) as (c' & E1 & E2 & E3); [exact Hw|exact Hc'| |].
  { change (k_cons s1) with (rub (k_cons s)). rewrite Er. cbn [snd]. rewrite El, length_app in Hf. cbn in Hf. lia. }
  change (k_cons s1) with (rub (k_cons s)) in *. rewrite Er in *. cbn [fst snd] in *.
  exists c'. split; [|done]. rewrite E1, El, length_app. cbn [length]. rewrite Nat.add_1_r. cbn [replicate concat].
  unfold sends. rewrite foldl_app. by destruct s.
Qed.

Lemma type_in_ok x c :
  cons_inv c -> room (lines_of c) = true -> is_byte x ->
  let c1 := store x c in
  ((x =? 10) || (x =? Ctl 68) || (cons_e c1 =? u32 (cons_r c1 + INPUT_BUF))) = completes x (lines_of c) /\
  let c2 := if completes x (lines_of c) then complete c1 else c1 in
  lines_of c2 = type_in x (lines_of c) /\ cons_inv c2.
Proof.
  intros [Hc Hl] Hr Hx c1. change (cons_r c1) with (cons_r c). unfold c1 at 1. rewrite store_full by done. split; [done|].
  pose proof (store_lines x c Hc Hr) as El. pose proof (store_ring x c Hc Hr Hx) as Hs. fold c1 in El, Hs.
  unfold type_in. destruct (completes x (lines_of c)) eqn:Ec; cbv zeta.
  - split; [by rewrite complete_lines, El|by apply complete_inv].
  - split; [done|]. split; [done|]. rewrite El. cbn [snd]. intros [Hin|Hin]%elem_of_app; [done|].
    apply list_elem_of_singleton in Hin. by subst x.
Qed.

(** The state after a key. *)
Definition typed (c : consst) (d : D) (P : nat -> proc) s : kern := set_kprocs P (set_kcons c (set_kdev d s)).

Lemma typed_same s : typed (k_cons s) (k_dev s) (k_procs s) s = s.
Proof. by destruct s. Qed.

(** The default case of the switch. *)
Lemma cons_input_ok c s :
  well s -> proc_locks_free s -> cons_inv (k_cons s) -> is_byte c ->
  let st := lines_of (k_cons s) in
  let ok := negb (c =? 0) && room st in
  exists c', cons_input spin c s =
    Ok tt (typed c' (sends (k_dev s) (if ok then [newline c] else []))
      (if ok && completes (newline c) st then woken (c_proc (k_cpu s)) ChCons (k_procs s) else k_procs s) s) /\
    lines_of c' = (if ok then type_in (newline c) st else st) /\ cons_inv c'.
Proof.
  intros Hw Hp Hc Hb st ok. unfold cons_input. erewrite bind_Ok by reflexivity.
  rewrite room_eq by apply Hc. fold st. change (negb (c =? 0) && room st) with ok.
  destruct ok eqn:Eo; cbn [andb]; cycle 1.
  { exists (k_cons s). split; [|done]. by rewrite typed_same. }
  apply andb_true_iff in Eo as [_ Hr]. change (if c =? 13 then 10 else c) with (newline c).
  assert (Hn : is_byte (newline c)) by (unfold newline; destruct (c =? 13); [split; lia|done]).
  destruct (type_in_ok _ _ Hc Hr Hn) as [Ec [El Hi]]. fold st in Ec, El, Hi.
  erewrite bind_Ok by (by apply consputc_as).
  destruct (Z.eqb_spec (newline c) BACKSPACE) as [E|_]; [unfold is_byte, BACKSPACE in *; lia|].
  erewrite bind_Ok by reflexivity. erewrite bind_Ok by reflexivity.
  set (s1 := set_kcons _ _). assert (E1 : k_cons s1 = store (newline c) (k_cons s)) by (unfold s1, store; cbn; by rewrite u8_small).
  rewrite E1, Ec. destruct (completes (newline c) st).
  - erewrite bind_Ok by reflexivity. rewrite E1. exists (complete (store (newline c) (k_cons s))). split; [|done].
    rewrite wakeup_ok; [|exact (proj1 Hw)|exact Hp]. by destruct s.
  - exists (store (newline c) (k_cons s)). split; [|done]. unfold ret. f_equal. rewrite <- E1. by destruct s.
Qed.

(** The switch of [consoleintr]. *)
Definition cons_switch (c : Z) : M kern unit :=
  if c =? Ctl 80 then procdump spin
  else if c =? Ctl 85 then kill_line spin 129
  else if (c =? Ctl 72) || (c =? 127) then
    let! x := gets k_cons in
    if negb (cons_e x =? cons_w x) then
      set_cons (fun x => mkcons (cons_buf x) (cons_r x) (cons_w x) (u32 (cons_e x - 1))) ;;
      consputc spin BACKSPACE
    else ret tt
  else cons_input spin c.

Lemma cons_switch_ok c s :
  well s -> pr_free s -> proc_locks_free s -> cons_inv (k_cons s) -> is_byte c ->
  let st := lines_of (k_cons s) in
  exists c' d', cons_switch c s =
    Ok tt (typed c' d' (if rouses c st then woken (c_proc (k_cpu s)) ChCons (k_procs s) else k_procs s) s) /\
    lines_of c' = key c st /\ cons_inv c' /\ (c <> Ctl 80 -> d' = sends (k_dev s) (echo c st)).
Proof.
  intros Hw Hpr Hp Hc Hb st. unfold cons_switch, rouses, key, echo, erases.
  destruct (Z.eqb_spec c (Ctl 80)) as [E|_]; cbn [negb andb].
  { destruct (procdump_prints s Hw Hpr) as [d Ed]. exists (k_cons s), d. rewrite Ed. split; [by destruct s|done]. }
  destruct (c =? Ctl 85); cbn [negb andb].
  { destruct (kill_line_ok 129 s Hw Hc) as (c' & E1 & E2 & E3).
    { destruct (lines_len (k_cons s)) as [L1 L2]. pose proof (ro_fits _ (proj1 Hc)) as Hf.
      pose proof (u32_range (cons_w (k_cons s) - cons_r (k_cons s))). unfold INPUT_BUF in Hf. lia. }
    eexists c', _. split; [by rewrite E1; destruct s|done]. }
  destruct ((c =? Ctl 72) || (c =? 127)); cbn [negb andb].
  { erewrite bind_Ok by reflexivity. rewrite edit_nil by apply Hc. fold st.
    destruct (bool_decide_reflect (snd st = [])) as [E|E]; cbn [negb].
    - exists (k_cons s), (k_dev s). rewrite typed_same. split; [done|]. split; [|done]. fold st.
      destruct st as [r e]. cbn in *. by rewrite E.
    - destruct (rub_lines _ Hc E) as (l & x & El & _ & Er & Hc'). erewrite bind_Ok by reflexivity.
      exists (rub (k_cons s)), (sends (k_dev s) rubout). rewrite (consputc_as BACKSPACE) by exact Hw. split; [by destruct s|].
      split; [|done]. rewrite Er. fold st in El |- *. rewrite El. by rewrite removelast_last. }
  destruct (cons_input_ok c s Hw Hp Hc Hb) as (c' & E1 & E2 & E3). fold st in E1, E2. exists c'. eexists.
  split; [exact E1|]. split; [done|]. done.
Qed.

Lemma consoleintr_ok c s :
  well s -> lock_free s LkCons -> pr_free s -> (forall p, (p < NPROC)%nat -> lock_free s (LkProc p)) ->
  cons_inv (k_cons s) -> is_byte c ->
  let st := lines_of (k_cons s) in
  exists c' d', consoleintr spin c s =
    Ok tt (typed c' d' (if rouses c st then woken (c_proc (k_cpu s)) ChCons (k_procs s) else k_procs s) s) /\
    lines_of c' = key c st /\ cons_inv c' /\ (c <> Ctl 80 -> d' = sends (k_dev s) (echo c st)).
Proof.
  intros [Hw Hpk] Hl Hpr Hp Hc Hb st. destruct (cons_switch_ok c (taken LkCons s)) as (c' & d' & E1 & E2 & E3 & E4).
  - split; [by apply taken_calm|done].
  - intros H. unfold lock_free, taken; cbn. rewrite fn_lookup_insert_ne by done. by apply Hpr.
  - intros p Hp1 _. unfold lock_free, taken; cbn. rewrite fn_lookup_insert_ne by done. by apply Hp.
  - done.
  - done.
  - exists c', d'. split; [|done]. change (consoleintr spin c) with (acquire LkCons ;; cons_switch c ;; release LkCons).
    by rewrite (locked_run_unit LkCons _ s _ Hw Hl E1 eq_refl); destruct s.
Qed.
End cons_run.

(** ** [consoleread] *)

(** The ring after [k] bytes have been taken. *)
Definition took (k : nat) (c : consst) : consst :=
  mkcons (cons_buf c) (u32 (cons_r c + Z.of_nat k)) (cons_w c) (cons_e c).

Lemma took_lines k c :
  cons_inv c -> (k <= length (fst (lines_of c)))%nat ->
  lines_of (took k c) = (drop k (fst (lines_of c)), snd (lines_of c)) /\ cons_inv (took k c).
Proof.
  intros [[H1 H2 H3 H4 H5] H6] Hk. destruct (lines_len c) as [L1 _]. unfold INPUT_BUF in H4.
  assert (Hk' : Z.of_nat k <= u32 (cons_w c - cons_r c)) by lia. clear L1.
  assert (E : lines_of (took k c) = (drop k (fst (lines_of c)), snd (lines_of c))).
  { unfold lines_of, took; cbn. f_equal.
    assert (Ew : u32 (cons_w c - cons_r c) = Z.of_nat k + u32 (cons_w c - u32 (cons_r c + Z.of_nat k))) by (clear H6; ring_lia).
    rewrite Ew. rewrite stretch_app by (apply u32_range || lia).
    rewrite drop_app_length' by (apply Nat2Z.inj; by rewrite length_stretch by lia).
    apply stretch_mod, ring_mod. }
  split; [done|]. split; [|by rewrite E]. split; cbn; [apply u32_range|done|done| |done].
  unfold INPUT_BUF. clear E H6. ring_lia.
Qed.

Lemma took_head k c x rest :
  cons_inv c -> drop k (fst (lines_of c)) = x :: rest ->
  cons_buf c (u32 (cons_r c + Z.of_nat k) mod INPUT_BUF) = x /\ is_byte x.
Proof.
  intros Hc E. destruct (took_lines k c Hc) as [El [Hr _]].
  { apply (f_equal length) in E. rewrite length_drop in E. cbn [length] in E. lia. }
  destruct (lines_len (took k c)) as [L1 _]. rewrite El in L1. cbn [fst] in L1. rewrite E in L1.
  assert (Hh : head (fst (lines_of (took k c))) = Some x) by (by rewrite El; cbn [fst]; rewrite E).
  unfold lines_of in Hh. cbn [fst] in Hh. rewrite <- L1 in Hh. unfold stretch in Hh. cbn [length] in Hh.
  rewrite seqZ_cons in Hh by lia. cbn [fmap list_fmap head] in Hh. rewrite Z.add_0_r in Hh. injection Hh as Hh.
  cbn in Hh. rewrite <- Hh. split; [done|apply Hc].
Qed.

(** An ordinary byte: neither the end of a line nor the end of input. *)
Definition plain (c : Z) : Prop := c <> 10 /\ c <> 4.

Section cons_read.
Context {S D : Type}.
Abbreviation kern := (kernel S D).
Implicit Types s : kern.

Record cons_ready s (pr : nat) : Prop := {
  cr_calm : calm s;
  cr_noff : c_noff (k_cpu s) = 0;
  cr_me : c_proc (k_cpu s) = Some pr;
  cr_bound : (pr < NPROC)%nat;
  cr_lock : lock_free s LkCons;
  cr_procs p : (p < NPROC)%nat -> lock_free s (LkProc p)
}.

(** [k] bytes have been taken and memory has become [ph]. *)
Definition fed (k : nat) (ph : phys) s : kern := set_kphys ph (set_kcons (took k (k_cons s)) s).

(** What [consoleread] does with [n] bytes of [target] still to read: the bytes
    it delivers, its result and the final state. *)
Inductive line_read s (pr : nat) (dst n target : Z) (l : list Z) : progress -> kern -> Prop :=
  | lr_killed ph :
      Forall plain l -> fst (lines_of (k_cons s)) = l -> Z.of_nat (length l) < n -> p_killed (k_procs s pr) <> 0 ->
      uwrites (k_phys s) (p_pagetable (k_procs s pr)) dst l = Some ph ->
      line_read s pr dst n target l (Done (-1)) (fed (length l) ph s)
  | lr_wait ph :
      Forall plain l -> fst (lines_of (k_cons s)) = l -> Z.of_nat (length l) < n -> p_killed (k_procs s pr) = 0 ->
      uwrites (k_phys s) (p_pagetable (k_procs s pr)) dst l = Some ph ->
      line_read s pr dst n target l (Asleep (n - Z.of_nat (length l)))
        (set_kprocs (slept pr ChCons (k_procs s)) (taken (LkProc pr) (fed (length l) ph s)))
  | lr_full ph rest :
      Forall plain l -> fst (lines_of (k_cons s)) = l ++ rest -> Z.of_nat (length l) = n ->
      uwrites (k_phys s) (p_pagetable (k_procs s pr)) dst l = Some ph ->
      line_read s pr dst n target l (Done target) (fed (length l) ph s)
  | lr_line ph l' rest :
      Forall plain l' -> l = l' ++ [10] -> fst (lines_of (k_cons s)) = l ++ rest -> Z.of_nat (length l) <= n ->
      uwrites (k_phys s) (p_pagetable (k_procs s pr)) dst l = Some ph ->
      line_read s pr dst n target l (Done (target - n + Z.of_nat (length l))) (fed (length l) ph s)
  | lr_eof ph rest :
      Forall plain l -> fst (lines_of (k_cons s)) = l ++ 4 :: rest -> Z.of_nat (length l) < n ->
      uwrites (k_phys s) (p_pagetable (k_procs s pr)) dst l = Some ph ->
      line_read s pr dst n target l (Done (target - n + Z.of_nat (length l)))
        (fed (if target - n + Z.of_nat (length l) =? 0 then 1 else length l) ph s)
  | lr_fault ph c rest :
      Forall plain l -> fst (lines_of (k_cons s)) = l ++ c :: rest -> c <> 4 -> Z.of_nat (length l) < n ->
      uwrites (k_phys s) (p_pagetable (k_procs s pr)) dst l = Some ph ->
      uwrites (k_phys s) (p_pagetable (k_procs s pr)) dst (l ++ [c]) = None ->
      line_read s pr dst n target l (Done (target - n + Z.of_nat (length l))) (fed (Datatypes.S (length l)) ph s).

Lemma fed_release k ph s pr :
  cons_ready s pr -> release LkCons (fed k ph (taken LkCons s)) = Ok tt (fed k ph s).
Proof. intros Hr. by rewrite (release_restore LkCons s) by (done || apply Hr); destruct s. Qed.

Lemma fed_sleep k ph s pr (j : Z) :
  cons_ready s pr ->
  (sleep_enter ChCons LkCons ;; ret (Asleep j)) (fed k ph (taken LkCons s)) =
  Ok (Asleep j) (set_kprocs (slept pr ChCons (k_procs s)) (taken (LkProc pr) (fed k ph s))).
Proof.
  intros [Hc Hn Hp Hb Hl Hpl]. erewrite bind_Ok by (apply (sleep_enter_ok _ _ pr s); done || by apply Hpl).
  by destruct s.
Qed.

Lemma fed_next k ph s :
  set_cons (fun c => mkcons (cons_buf c) (u32 (cons_r c + 1)) (cons_w c) (cons_e c)) (fed k ph s) = Ok tt (fed (Datatypes.S k) ph s).
Proof.
  assert (E : u32 (u32 (cons_r (k_cons s) + Z.of_nat k) + 1) = u32 (cons_r (k_cons s) + Z.of_nat (Datatypes.S k))) by ring_lia.
  unfold set_cons, modify, fed, took. rewrite <- E. reflexivity.
Qed.

Lemma fed_back k ph s :
  set_cons (fun c => mkcons (cons_buf c) (u32 (cons_r c - 1)) (cons_w c) (cons_e c)) (fed (Datatypes.S k) ph s) = Ok tt (fed k ph s).
Proof.
  assert (E : u32 (u32 (cons_r (k_cons s) + Z.of_nat (Datatypes.S k)) - 1) = u32 (cons_r (k_cons s) + Z.of_nat k)) by ring_lia.
  unfold set_cons, modify, fed, took. rewrite <- E. reflexivity.
Qed.

(** One byte to the user. *)
Lemma fed_copyout k ph s pr a c :
  cons_ready s pr ->
  either_copyout true a [c] (fed k ph (taken LkCons s)) =
  match uwrite ph (p_pagetable (k_procs s pr)) a c with
  | Some ph' => Ok 0 (fed k ph' (taken LkCons s))
  | None => Ok (-1) (fed k ph (taken LkCons s))
  end.
Proof.
  intros Hr. unfold either_copyout.
  erewrite bind_Ok by (apply (curproc_ok _ pr); [exact (taken_calm LkCons s (cr_calm _ _ Hr))|apply (cr_me _ _ Hr)]).
  erewrite bind_Ok by reflexivity. unfold on_phys, zoom. rewrite copyout1.
  change (k_phys (fed k ph (taken LkCons s))) with ph.
  change (k_procs (fed k ph (taken LkCons s))) with (k_procs s).
  by destruct (uwrite ph (p_pagetable (k_procs s pr)) a c).
Qed.

(** One round of the loop, after [k] bytes. *)
Section round.
Variables (s : kern) (pr : nat) (dst n target : Z) (k : nat) (ph : phys).
Let ready := fst (lines_of (k_cons s)).
Hypotheses (Hr : cons_ready s pr) (Hc : cons_inv (k_cons s)) (Ht : n <= target < 2147483648).
Hypotheses (Hk : (k <= length ready)%nat) (Hkn : Z.of_nat k < n) (Hpl : Forall plain (take k ready))
  (Hph : uwrites (k_phys s) (p_pagetable (k_procs s pr)) dst (take k ready) = Some ph).

Definition round_ends (m : M kern progress) : Prop :=
  exists l r s', m (fed k ph (taken LkCons s)) = Ok r s' /\ line_read s pr dst n target l r s'.

Lemma taken_len : length (take k ready) = k.
Proof using Hk. rewrite length_take. lia. Qed.

(** Nothing is left. *)
Lemma read_nothing f : drop k ready = [] -> round_ends (consoleread_loop (Datatypes.S f) true (u64 (dst + Z.of_nat k)) (n - Z.of_nat k) target).
Proof using Hr Hc Hk Hkn Hpl Hph.
  intros Ed. pose proof taken_len as Hlk. unfold round_ends. cbn [consoleread_loop]. destruct (Z.ltb_spec 0 (n - Z.of_nat k)); [|lia].
  erewrite bind_Ok by reflexivity. change (k_cons (fed k ph (taken LkCons s))) with (took k (k_cons s)).
  destruct (took_lines k _ Hc Hk) as [El [Hro _]]. rewrite ready_nil, El by done. cbn [fst]. fold ready. rewrite Ed, bool_decide_true by done.
  assert (Ht' : take k ready = ready) by (rewrite <- (take_drop k ready) at 2; by rewrite Ed, app_nil_r).
  erewrite bind_Ok by (apply (curproc_ok _ pr); [exact (taken_calm LkCons s (cr_calm _ _ Hr))|apply (cr_me _ _ Hr)]).
  erewrite bind_Ok by reflexivity. change (k_procs (fed k ph (taken LkCons s)) pr) with (k_procs s pr).
  destruct (Z.eqb_spec (p_killed (k_procs s pr)) 0) as [Ek|Ek]; cbn [negb].
  - pose proof (lr_wait s pr dst n target _ ph Hpl (eq_sym Ht') ltac:(lia) Ek Hph) as Hend. rewrite Hlk in Hend.
    eexists _, _, _. split; [by apply fed_sleep|exact Hend].
  - pose proof (lr_killed s pr dst n target _ ph Hpl (eq_sym Ht') ltac:(lia) Ek Hph) as Hend. rewrite Hlk in Hend.
    eexists _, _, _. split; [|exact Hend]. by erewrite bind_Ok by (by eapply fed_release).
Qed.

(** The rest of the loop's body, once the byte [c] has been taken. *)
Definition with_byte (f : nat) (c : Z) : M kern progress :=
  if c =? Ctl 68 then
    (if u32 (n - Z.of_nat k) <? target
     then set_cons (fun c => mkcons (cons_buf c) (u32 (cons_r c - 1)) (cons_w c) (cons_e c))
     else ret tt) ;;
    release LkCons ;; ret (Done (s32 (target - (n - Z.of_nat k))))
  else
    let! r := either_copyout true (u64 (dst + Z.of_nat k)) [u8 c] in
    if r =? -1 then release LkCons ;; ret (Done (s32 (target - (n - Z.of_nat k))))
    else if c =? 10 then release LkCons ;; ret (Done (s32 (target - (n - Z.of_nat k - 1))))
    else consoleread_loop f true (u64 (u64 (dst + Z.of_nat k) + 1)) (n - Z.of_nat k - 1) target.

Lemma read_byte f c rest :
  drop k ready = c :: rest ->
  consoleread_loop (Datatypes.S f) true (u64 (dst + Z.of_nat k)) (n - Z.of_nat k) target (fed k ph (taken LkCons s)) =
  with_byte f c (fed (Datatypes.S k) ph (taken LkCons s)).
Proof using Hc Hk Hkn.
  intros Ed. cbn [consoleread_loop]. destruct (Z.ltb_spec 0 (n - Z.of_nat k)); [|lia].
  erewrite bind_Ok by reflexivity. change (k_cons (fed k ph (taken LkCons s))) with (took k (k_cons s)).
  destruct (took_lines k _ Hc Hk) as [El [Hro _]]. rewrite ready_nil, El by done. cbn [fst]. fold ready. rewrite Ed, bool_decide_false by done.
  destruct (took_head _ _ _ _ Hc Ed) as [Eh _].
  change (cons_buf (took k (k_cons s)) (cons_r (took k (k_cons s)) mod INPUT_BUF)) with
    (cons_buf (k_cons s) (u32 (cons_r (k_cons s) + Z.of_nat k) mod INPUT_BUF)). rewrite Eh.
  by erewrite bind_Ok by apply fed_next.
Qed.

Lemma read_eof f rest :
  drop k ready = 4 :: rest -> round_ends (consoleread_loop (Datatypes.S f) true (u64 (dst + Z.of_nat k)) (n - Z.of_nat k) target).
Proof using All.
  intros Ed. pose proof taken_len as Hlk. unfold round_ends. rewrite (read_byte _ _ _ Ed). unfold with_byte. change (4 =? Ctl 68) with true. cbv iota.
  assert (Er : ready = take k ready ++ 4 :: rest) by (by rewrite <- Ed, take_drop).
  pose proof (lr_eof s pr dst n target _ ph rest Hpl Er ltac:(lia) Hph) as Hend. rewrite Hlk in Hend.
  eexists _, _, _. split; [|exact Hend]. rewrite u32_small by lia.
  replace (n - Z.of_nat k <? target) with (negb (target - n + Z.of_nat k =? 0))
    by (destruct (Z.eqb_spec (target - n + Z.of_nat k) 0), (Z.ltb_spec (n - Z.of_nat k) target); (done || lia)).
  destruct (Z.eqb_spec (target - n + Z.of_nat k) 0) as [E0|E0]; cbn [negb].
  - replace k with 0%nat by lia. erewrite bind_Ok by reflexivity. erewrite bind_Ok by (by eapply fed_release).
    unfold ret. rewrite s32_small by lia. do 2 f_equal. lia.
  - erewrite bind_Ok by apply fed_back. erewrite bind_Ok by (by eapply fed_release).
    unfold ret. rewrite s32_small by lia. do 2 f_equal. lia.
Qed.
End round.

Lemma consoleread_loop_ok fuel s pr dst n target k ph :
  cons_ready s pr -> cons_inv (k_cons s) -> n <= target < 2147483648 ->
  let ready := fst (lines_of (k_cons s)) in
  (k <= length ready)%nat -> Z.of_nat k <= n -> Forall plain (take k ready) ->
  uwrites (k_phys s) (p_pagetable (k_procs s pr)) dst (take k ready) = Some ph -> n - Z.of_nat k < Z.of_nat fuel ->
  exists l r s', consoleread_loop fuel true (u64 (dst + Z.of_nat k)) (n - Z.of_nat k) target (fed k ph (taken LkCons s)) = Ok r s' /\
    line_read s pr dst n target l r s'.
Proof.
  intros Hr Hc Ht ready. revert k ph. induction fuel as [|f IH]; intros k ph Hk Hkn Hpl Hph Hf; [lia|].
  pose proof (taken_len s k Hk) as Hlk. fold ready in Hlk. destruct (decide (n = Z.of_nat k)) as [En|En].
  { pose proof (lr_full s pr dst n target _ ph (drop k ready) Hpl (eq_sym (take_drop k ready)) ltac:(lia) Hph) as H.
    rewrite Hlk in H. eexists _, _, _. split; [|exact H]. cbn [consoleread_loop]. destruct (Z.ltb_spec 0 (n - Z.of_nat k)); [lia|].
    erewrite bind_Ok by (by eapply fed_release). unfold ret. rewrite s32_small by lia. do 2 f_equal. lia. }
  destruct (drop k ready) as [|c rest] eqn:Ed; [by apply read_nothing; (done || lia)|].
  destruct (decide (c = 4)) as [->|Hc4]; [by eapply read_eof; (done || lia)|].
  rewrite (read_byte s dst n target k ph Hc Hk ltac:(lia) _ _ _ Ed).
  destruct (took_head _ _ _ _ Hc Ed) as [_ Hb]. assert (Er : ready = take k ready ++ c :: rest) by (by rewrite <- Ed, take_drop).
  unfold with_byte. change (Ctl 68) with 4. rewrite (proj2 (Z.eqb_neq _ _) Hc4).
  rewrite u8_small by done. unfold bind at 1. rewrite (fed_copyout _ _ _ pr) by done.
  pose proof (uwrites_snoc (k_phys s) (p_pagetable (k_procs s pr)) dst (take k ready) c) as Hsn. rewrite Hph, Hlk in Hsn.
  assert (Hsk : take (Datatypes.S k) ready = take k ready ++ [c])
    by (apply take_S_r; rewrite <- (Nat.add_0_r k), <- lookup_drop; by rewrite Ed).
  destruct (uwrite ph (p_pagetable (k_procs s pr)) (u64 (dst + Z.of_nat k)) c) as [ph'|].
  - change (0 =? -1) with false. cbv iota. destruct (Z.eqb_spec c 10) as [->|Hc10].
    + assert (Hl : length (take k ready ++ [10]) = Datatypes.S k) by (rewrite length_app, Hlk; cbn; lia).
      pose proof (lr_line s pr dst n target _ ph' _ rest Hpl eq_refl ltac:(by rewrite <- app_assoc) ltac:(lia) Hsn) as H.
      rewrite Hl in H. eexists _, _, _. split; [|exact H]. erewrite bind_Ok by (by eapply fed_release).
      unfold ret. rewrite s32_small by lia. do 2 f_equal. lia.
    + replace (u64 (u64 (dst + Z.of_nat k) + 1)) with (u64 (dst + Z.of_nat (Datatypes.S k))) by ring_lia.
      replace (n - Z.of_nat k - 1) with (n - Z.of_nat (Datatypes.S k)) by lia.
      apply IH; [|lia| |by rewrite Hsk|lia].
      * apply (f_equal length) in Er. rewrite length_app, Hlk in Er. cbn [length] in Er. lia.
      * rewrite Hsk. apply Forall_app. split; [done|]. constructor; [by split|constructor].
  - pose proof (lr_fault s pr dst n target _ ph c rest Hpl Er Hc4 ltac:(lia) Hph Hsn) as H. rewrite Hlk in H.
    eexists _, _, _. split; [|exact H]. change (-1 =? -1) with true. cbv iota. erewrite bind_Ok by (by eapply fed_release).
    unfold ret. rewrite s32_small by lia. do 2 f_equal. lia.
Qed.
End cons_read.
