(* ===== verification/ConsoleSpec.v ===== *)
(** * What the console promises

    The properties of [consoleintr] and [consoleread] as the terminal and the
    callers of [read] see them, and of any interleaving of the two. *)

From stdpp Require Import functions list_numbers.
From S2P Require Import Prelude Memory CString Riscv Csr Spinlock Kalloc Vm Copy Block Cache Sleeplock Log Fs Kernel Proc ProcRun Uart Printf Console Pipe PipeProofs ConsoleProofs.

Section console_spec.
Context {S D : Type} `{!Mmio D} (spin : nat) `{!Transmits D spin}.
Abbreviation kern := (kernel S D).
Implicit Types s : kern.

(** The input interrupt can be handled: no lock it takes is held. *)
Record intr_ready s : Prop := {
  ir_well : well s;
  ir_cons : lock_free s LkCons;
  ir_pr : pr_free s;
  ir_procs p : (p < NPROC)%nat -> lock_free s (LkProc p)
}.

(** C17.  The input handler is a line editor, at any position of its ring and of
    its wrapping counters.  On every byte it returns, and the lines become
    those of the editor: control-u empties the line being edited, backspace and
    delete remove its last byte, a byte is appended if it is not NUL and there
    is room, a carriage return as a newline, and newline, control-d or the last
    free byte complete the line.  It echoes exactly what the editor says, wakes
    the readers exactly when a line is complete, changes nothing else in the
    kernel, and the ring stays well formed. *)
Theorem consoleintr_correct c s :
  intr_ready s -> cons_inv (k_cons s) -> is_byte c ->
  let st := lines_of (k_cons s) in
  exists cons' dev', consoleintr spin c s =
    Ok tt (typed cons' dev' (if rouses c st then woken (c_proc (k_cpu s)) ChCons (k_procs s) else k_procs s) s) /\
    lines_of cons' = key c st /\ cons_inv cons' /\
    (c <> Ctl 80 -> dev' = sends spin (k_dev s) (echo c st)).
Proof. intros [H1 H2 H3 H4] Hc Hb. by apply consoleintr_ok. Qed.

(** How a call ends that has [done] bytes from before its last sleep and [n]
    more to read, when it delivers [l] and drops [lost]. *)
Definition read_ends (s s' : kern) (pr : nat) (dst done n : Z) (l lost : list Z) (r : progress) : Prop :=
  let rest := fst (lines_of (k_cons s')) in
  match r with
  | Done v =>
      v = -1 /\ lost = [] /\ Forall plain l /\ rest = [] /\ p_killed (k_procs s pr) <> 0 \/
      v = done + Z.of_nat (length l) /\
        (lost = [] /\ Forall plain l /\ Z.of_nat (length l) = n \/
         lost = [] /\ Z.of_nat (length l) <= n /\ (exists l', l = l' ++ [10] /\ Forall plain l') \/
         v = 0 /\ lost = [4] /\ 0 < n \/
         0 < v /\ lost = [] /\ Forall plain l /\ Z.of_nat (length l) < n /\ head rest = Some 4 \/
         Forall plain l /\ Z.of_nat (length l) < n /\
           exists c, lost = [c] /\ uwrites (k_phys s) (p_pagetable (k_procs s pr)) dst (l ++ [c]) = None)
  | Asleep j =>
      j = n - Z.of_nat (length l) /\ 0 < j /\ lost = [] /\ Forall plain l /\ rest = [] /\
      p_killed (k_procs s pr) = 0 /\ asleep_on ChCons (k_procs s' pr) = true /\ lock_mine s' (LkProc pr)
  end.

Lemma line_read_ends s pr dst n target l r s' :
  cons_inv (k_cons s) -> n <= target -> line_read s pr dst n target l r s' ->
  exists lost, k_cons s' = took (length (l ++ lost)) (k_cons s) /\
    fst (lines_of (k_cons s)) = l ++ lost ++ fst (lines_of (k_cons s')) /\
    snd (lines_of (k_cons s')) = snd (lines_of (k_cons s)) /\ cons_inv (k_cons s') /\
    uwrites (k_phys s) (p_pagetable (k_procs s pr)) dst l = Some (k_phys s') /\ read_ends s s' pr dst (target - n) n l lost r.
Proof.
  intros Hc Ht Hl.
  assert (H : exists lost rest, k_cons s' = took (length (l ++ lost)) (k_cons s) /\
    fst (lines_of (k_cons s)) = (l ++ lost) ++ rest /\
    uwrites (k_phys s) (p_pagetable (k_procs s pr)) dst l = Some (k_phys s') /\
    (fst (lines_of (k_cons s')) = rest -> read_ends s s' pr dst (target - n) n l lost r)).
  { destruct Hl as [ph H1 H2 H3 H4 H5|ph H1 H2 H3 H4 H5|ph rest H1 H2 H3 H4|ph l' rest H1 H2 H3 H4 H5|ph rest H1 H2 H3 H4|ph c rest H1 H2 H3 H4 H5 H6].
    - exists [], []. rewrite !app_nil_r. split_and!; [done..|]. intros Er. left. done.
    - exists [], []. rewrite !app_nil_r. split_and!; [done..|]. intros Er. cbn. split_and!; try (done || lia).
      + apply asleep_slept.
      + unfold lock_mine; cbn. by rewrite fn_lookup_insert.
    - exists [], rest. rewrite !app_nil_r. split_and!; [done..|]. intros Er. right. split; [lia|]. by left.
    - exists [], rest. rewrite !app_nil_r. split_and!; [done..|]. intros Er. right. split; [lia|]. right. left.
      split_and!; [done|done|by exists l'].
    - destruct (Z.eqb_spec (target - n + Z.of_nat (length l)) 0) as [E0|E0].
      + exists [4], rest. destruct l; [|cbn in E0; lia]. split_and!; [done..|]. intros Er. right. split; [lia|]. do 2 right. left.
        split_and!; [done|done|cbn in H3; lia].
      + exists [], (4 :: rest). rewrite !app_nil_r. split_and!; [done..|]. intros Er. right. split; [lia|]. do 3 right. left.
        rewrite Er. split_and!; [lia|done..].
    - exists [c], rest. rewrite <- app_assoc, length_app. cbn [length]. rewrite Nat.add_1_r.
      split_and!; [done..|]. intros Er. right. split; [lia|]. do 4 right. split_and!; [done|done|by exists c]. }
  destruct H as (lost & rest & E1 & E2 & E3 & E4). exists lost.
  destruct (took_lines (length (l ++ lost)) _ Hc) as [El Hi]; [rewrite E2, (length_app (l ++ lost)); lia|].
  rewrite <- E1 in El, Hi. rewrite E2, drop_app_length in El. rewrite El in *. cbn [fst snd] in *.
  split_and!; try done; [by rewrite E2, app_assoc|by apply E4].
Qed.

Lemma fed_nothing s : cons_inv (k_cons s) -> fed 0 (k_phys s) (taken LkCons s) = taken LkCons s.
Proof.
  intros Hc. unfold fed, took. cbn. rewrite Z.add_0_r, u32_small by apply Hc.
  by destruct s as [? ? ? ? ? ? ? ? ? ? ? [] ? ? ? ? ? ?].
Qed.

(** A call, or what is left of it after a sleep. *)
Lemma consoleread_part s pr dst n target :
  cons_ready s pr -> cons_inv (k_cons s) -> 0 <= dst < 2 ^ 64 -> 0 <= n <= target -> target < 2147483648 ->
  exists l lost r s', consoleread_loop (Datatypes.S (Z.to_nat n)) true dst n target (taken LkCons s) = Ok r s' /\
    k_cons s' = took (length (l ++ lost)) (k_cons s) /\
    fst (lines_of (k_cons s)) = l ++ lost ++ fst (lines_of (k_cons s')) /\
    snd (lines_of (k_cons s')) = snd (lines_of (k_cons s)) /\ cons_inv (k_cons s') /\
    uwrites (k_phys s) (p_pagetable (k_procs s pr)) dst l = Some (k_phys s') /\ read_ends s s' pr dst (target - n) n l lost r /\
    forall p, k_procs s' p = k_procs s p \/ fst (lines_of (k_cons s')) = [].
Proof.
  intros Hr Hc Hd Hn Ht.
  destruct (consoleread_loop_ok (Datatypes.S (Z.to_nat n)) s pr dst n target 0 (k_phys s) Hr Hc ltac:(lia) ltac:(lia) ltac:(lia) ltac:(constructor) eq_refl ltac:(lia))
    as (l & r & s' & E & Hl).
  rewrite Z.add_0_r, Z.sub_0_r, u64_small, fed_nothing in E by (done || lia).
  destruct (line_read_ends s pr dst n target l r s' Hc ltac:(lia) Hl) as (lost & H). exists l, lost, r, s'.
  split; [done|]. destruct H as (H1 & H2 & H3 & H4 & H5 & H6). split_and!; try done.
  intros p. destruct r as [v|j]; [left; by inversion Hl|right; apply H6].
Qed.

(** C18.  [consoleread] of [n] bytes: it takes bytes from the front of the
    complete lines, in order, and stores exactly them in the caller's memory; it
    returns their number as soon as [n] are there, a newline has been delivered,
    or the next byte is control-d, which it drops only if it has delivered
    nothing; so a line never crosses a call.  It sleeps exactly when nothing is
    left, and returns -1 instead if the caller has been killed.  At an unmapped
    address it stops, and the byte it could not store is lost. *)
Theorem consoleread_correct s pr dst n :
  cons_ready s pr -> cons_inv (k_cons s) -> 0 <= dst < 2 ^ 64 -> 0 <= n < 2147483648 ->
  exists l lost r s', consoleread true dst n s = Ok r s' /\
    fst (lines_of (k_cons s)) = l ++ lost ++ fst (lines_of (k_cons s')) /\
    snd (lines_of (k_cons s')) = snd (lines_of (k_cons s)) /\ cons_inv (k_cons s') /\
    uwrites (k_phys s) (p_pagetable (k_procs s pr)) dst l = Some (k_phys s') /\ read_ends s s' pr dst 0 n l lost r.
Proof.
  intros Hr Hc Hd Hn. destruct (consoleread_part s pr dst n n Hr Hc Hd ltac:(lia) ltac:(lia)) as (l & lost & r & s' & E & _ & H1 & H2 & H3 & H4 & H5 & _).
  rewrite Z.sub_diag in H5. exists l, lost, r, s'. split_and!; try done. unfold consoleread. rewrite u32_small by lia.
  erewrite bind_Ok by (apply acquire_ok; apply Hr). exact E.
Qed.

(** ** Interleavings *)

Inductive event := Typed (c : Z) | Taken (k : Z) | Other.

(** A step of the system at the console: an interrupt with a byte, the locked
    section of a [consoleread] with [n] bytes of [target] left (a new call, or
    one woken up), or anything that neither touches the ring nor puts a process
    to sleep on it.  The event of a read says how far it has moved [cons.r]. *)
Inductive cons_step : kern -> event -> kern -> Prop :=
  | cs_key s c s' :
      intr_ready s -> (forall p, c_proc (k_cpu s) = Some p -> awake s p) -> is_byte c -> consoleintr spin c s = Ok tt s' ->
      cons_step s (Typed c) s'
  | cs_read s pr dst n target r s' :
      cons_ready s pr -> awake s pr -> 0 <= dst < 2 ^ 64 -> 0 <= n <= target -> target < 2147483648 ->
      consoleread_loop (Datatypes.S (Z.to_nat n)) true dst n target (taken LkCons s) = Ok r s' ->
      cons_step s (Taken (u32 (cons_r (k_cons s') - cons_r (k_cons s)))) s'
  | cs_other s s' :
      k_cons s' = k_cons s ->
      (forall p, asleep_on ChCons (k_procs s' p) = true -> asleep_on ChCons (k_procs s p) = true) -> cons_step s Other s'.

Inductive cons_run (s0 : kern) : list event -> kern -> Prop :=
  | cn_start : cons_run s0 [] s0
  | cn_step tr s ev s' : cons_run s0 tr s -> cons_step s ev s' -> cons_run s0 (tr ++ [ev]) s'.

(** The editor's view of an event. *)
Definition replay (st : lines) (ev : event) : lines :=
  match ev with
  | Typed c => key c st
  | Taken k => (drop (Z.to_nat k) (fst st), snd st)
  | Other => st
  end.

(** Nobody sleeps while there is a byte to read. *)
Definition cons_live s : Prop :=
  forall p, (p < NPROC)%nat -> asleep_on ChCons (k_procs s p) = true -> fst (lines_of (k_cons s)) = [].

Lemma key_ready c st : rouses c st = false -> fst (key c st) = fst st.
Proof.
  unfold rouses, key. destruct (c =? Ctl 80); [done|]. destruct (c =? Ctl 85); [done|]. destruct (erases c); [done|].
  cbn [negb andb]. destruct (negb (c =? 0)); [|done]. destruct (room st); [|done]. cbn [andb]. unfold type_in. by intros ->.
Qed.

Lemma cons_step_ok s ev s' :
  cons_inv (k_cons s) -> cons_live s -> cons_step s ev s' ->
  cons_inv (k_cons s') /\ cons_live s' /\ lines_of (k_cons s') = replay (lines_of (k_cons s)) ev.
Proof.
  intros Hc Hv Hst. destruct Hst as [s c s' [I1 I2 I3 I4] Ha Hb E|s pr dst n target r s' Hr Ha Hd Hn Ht E|s s' E H].
  - destruct (consoleintr_ok spin c s I1 I2 I3 I4 Hc Hb) as (c' & d' & E1 & E2 & E3 & _). rewrite E in E1. injection E1 as ->.
    split; [done|]. split; [|done]. intros p Hp. unfold typed. cbn [k_procs set_kprocs k_cons set_kcons]. rewrite E2.
    destruct (rouses c (lines_of (k_cons s))) eqn:Er.
    + intros Hs. exfalso. destruct (c_proc (k_cpu s)) as [me|] eqn:Em.
      * destruct (asleep_woken me ChCons ChCons (k_procs s) p Hp) as [_ Hne]; [by apply awake_not_asleep, Ha|done|done].
      * unfold woken in Hs. rewrite decide_True in Hs by done. by apply asleep_wake in Hs as [_ ?].
    + intros Hs. rewrite key_ready by done. by apply (Hv p).
  - destruct (consoleread_part s pr dst n target Hr Hc Hd Hn Ht) as (l & lost & r' & s1 & E1 & H1 & H2 & H3 & H4 & H5 & H6 & H7).
    rewrite E in E1. injection E1 as <- <-. split; [done|].
    assert (Hk : u32 (cons_r (k_cons s') - cons_r (k_cons s)) = Z.of_nat (length (l ++ lost))).
    { destruct (lines_len (k_cons s)) as [L1 _]. rewrite H2, app_assoc, length_app in L1. pose proof (ro_fits _ (proj1 Hc)) as Hf.
      pose proof (u32_range (cons_e (k_cons s) - cons_w (k_cons s))). unfold INPUT_BUF in Hf.
      assert (Z.of_nat (length (l ++ lost)) <= 128) by lia. clear L1 Hf.
      rewrite H1. unfold took; cbn [cons_r]. pose proof (ro_r _ (proj1 Hc)). ring_lia. }
    split.
    + intros p Hp Hs. destruct (H7 p) as [Ep|]; [|done]. rewrite Ep in Hs. rewrite (Hv p Hp Hs) in H2.
      symmetry in H2. apply app_nil in H2 as [_ H2]. by apply app_nil in H2 as [_ H2].
    + cbn [replay]. rewrite Hk, Nat2Z.id, H2 at 1. rewrite app_assoc, drop_app_length, <- H3. by destruct (lines_of (k_cons s')).
  - rewrite E. split; [done|]. split; [|done]. intros p Hp Hs. rewrite E. by apply (Hv p), H.
Qed.

(** C16.  However bytes arrive and processes read, go to sleep and are woken up,
    the ring is what the line editor makes of the same events: bytes are read
    once each, in the order typed, after editing; and no wake-up is lost: while
    any process sleeps for input there is no complete line. *)
Theorem console_session s0 tr s :
  cons_inv (k_cons s0) -> cons_live s0 -> cons_run s0 tr s ->
  cons_inv (k_cons s) /\ lines_of (k_cons s) = foldl replay (lines_of (k_cons s0)) tr /\
  forall p, (p < NPROC)%nat -> asleep_on ChCons (k_procs s p) = true -> fst (lines_of (k_cons s)) = [].
Proof.
  intros Hc Hv Hr. assert (H : cons_inv (k_cons s) /\ cons_live s /\ lines_of (k_cons s) = foldl replay (lines_of (k_cons s0)) tr).
  { induction Hr as [|tr s ev s' _ (H1 & H2 & H3) Hst]; [done|]. destruct (cons_step_ok _ _ _ H1 H2 Hst) as (Q1 & Q2 & Q3).
    by rewrite foldl_app, <- H3. }
  destruct H as (H1 & H2 & H3). done.
Qed.
End console_spec.

(** ** Examples *)

(** A terminal that is always idle and keeps what it is sent, latest first. *)
#[local] Instance terminal : Mmio (list Z) := {|
  mmio_read := fun a d => (if a =? UART0 + LSR then 32 else 0, d);
  mmio_write := fun a v d => if a =? UART0 + THR then v :: d else d
|}.

#[local] Instance terminal_transmits : Transmits (list Z) 1.
Proof. intros d. by exists d. Qed.

(** The small kernel with that terminal and an input ring about to wrap, in
    which "ls" is being edited. *)
Definition cons_kernel (c : consst) : kernel unit (list Z) :=
  let s := demo_kernel in
  mkkernel (k_hart s) (k_cpu s) (k_locks s) (k_procs s) (k_initproc s) (k_nextpid s) (k_ticks s) (k_phys s) (k_fs s)
    (k_files s) (k_pipes s) c (k_uart s) (k_disk s) [] false true false.

Definition ls_ring : consst :=
  mkcons (fun i => if i =? 126 then 108 else if i =? 127 then 115 else 0) (2 ^ 32 - 2) (2 ^ 32 - 2) 0.

Lemma ls_inv : cons_inv ls_ring.
Proof.
  split.
  - split; cbn; try (split; lia); [vm_compute; done|]. intros i. unfold is_byte.
    destruct (i =? 126), (i =? 127); lia.
  - vm_compute. intros H. by repeat (apply elem_of_cons in H as [H|H]; [discriminate|]); apply not_elem_of_nil in H.
Qed.

Lemma cons_kernel_ready c : intr_ready (cons_kernel c).
Proof. split; [split; [apply demo_calm|done]|done|done|done]. Qed.

Lemma consoleintr_correct_witness :
  exists cons', consoleintr 1 8 (cons_kernel ls_ring) = Ok tt (typed cons' [8; 32; 8] demo_procs (cons_kernel ls_ring)) /\
    lines_of cons' = ([], [108]).
Proof.
  destruct (consoleintr_correct 1 8 (cons_kernel ls_ring) (cons_kernel_ready _) ls_inv ltac:(split; lia)) as (c' & d' & E & El & _ & Hd).
  rewrite (Hd ltac:(discriminate)) in E. exists c'. split; [exact E|exact El].
Defined.

(** A line and a control-d are waiting; process 1 reads. *)
Definition line_ring : consst :=
  mkcons (fun i => if i =? 127 then 104 else if i =? 0 then 10 else if i =? 1 then 4 else 0) (2 ^ 32 - 1) 2 2.

Lemma line_inv : cons_inv line_ring.
Proof.
  split.
  - split; cbn; try (split; lia); [vm_compute; done|]. intros i. unfold is_byte.
    destruct (i =? 127), (i =? 0), (i =? 1); lia.
  - apply not_elem_of_nil.
Qed.

Lemma cons_kernel_read c : cons_ready (cons_kernel c) 1.
Proof. split; [apply demo_calm|done|done|unfold NPROC; lia|done|done]. Qed.

Lemma consoleread_correct_witness :
  exists l lost r s', consoleread true 0 10 (cons_kernel line_ring) = Ok r s' /\
    [104; 10; 4] = l ++ lost ++ fst (lines_of (k_cons s')).
Proof.
  destruct (consoleread_correct (cons_kernel line_ring) 1 0 10 (cons_kernel_read _) line_inv) as (l & lost & r & s' & E & Hl & _); [lia|lia|].
  exists l, lost, r, s'. split; [exact E|exact Hl].
Defined.

(** Newline completes the line. *)
Lemma console_session_witness :
  exists cons' dev', consoleintr 1 13 (cons_kernel ls_ring) =
    Ok tt (typed cons' dev' (woken (Some 1%nat) ChCons demo_procs) (cons_kernel ls_ring)) /\ lines_of cons' = ([108; 115; 10], []).
Proof.
  destruct (consoleintr_ok 1 13 (cons_kernel ls_ring)) as (c' & d' & E & _).
  - split; [apply demo_calm|done].
  - done.
  - done.
  - done.
  - exact ls_inv.
  - split; lia.
  - exists c', d'. split; [exact E|]. set (s' := typed _ _ _ _) in E.
    destruct (console_session 1 (cons_kernel ls_ring) [Typed 13] s') as (_ & Hl & _).
    + exact ls_inv.
    + intros p Hp H. exfalso. do 2 (destruct p as [|p]; [discriminate|]). discriminate.
    + apply (cn_step 1 (cons_kernel ls_ring) [] (cons_kernel ls_ring) (Typed 13) s'); [apply cn_start|].
      apply cs_key; [apply cons_kernel_ready| |split; lia|exact E]. intros p [= <-]. discriminate.
    + exact Hl.
Defined.
