(* ===== verification/File.v ===== *)
(** * Open files: [src/kernel/fs/file.c] and [pipealloc] of [pipe.c]

    A file is named by its index in [ftable.file].  [devsw] has one entry, the
    console ([consoleinit]). *)

From stdpp Require Import functions.
From S2P Require Import Prelude Memory Riscv Csr Spinlock Kalloc Vm Copy Block Cache Sleeplock Log Fs Kernel Proc Uart Printf Console Pipe.

Definition NFILE : nat := 100.
Definition NDEV : Z := 10.
Definition CONSOLE : Z := 1.

(** [devsw[major]] has its functions. *)
Definition devsw_set (major : Z) : bool := major =? CONSOLE.

(** [struct stat] in memory; four bytes of padding before [size]. *)
Definition encode_stat (pad : list Z) (st : stat) : list Z :=
  le_bytes 4 (u32 (st_dev st)) ++ le_bytes 4 (u32 (st_ino st)) ++ le_bytes 2 (u16 (st_type st)) ++
  le_bytes 2 (u16 (st_nlink st)) ++ take 4 pad ++ le_bytes 8 (u64 (st_size st)).

Section file.
Context {S B D : Type} `{!BlockCache S B} `{!Mmio D}.
Variables kend : Z.
Variable spin : nat.
(** What the stack holds in the padding of [filestat]'s local [st]. *)
Variable stat_pad : list Z.

Abbreviation kern := (kernel S D).

Definition get_file (f : nat) : M kern file := gets (fun s => k_files s f).
Definition upd_file (f : nat) (g : file -> file) : M kern unit :=
  modify (fun s => set_kfiles (<[f := g (k_files s f)]> (k_files s)) s).

(** The file system as the current process calls it. *)
Definition with_pid {A} (m : Z -> M (fsst S) A) : M kern A :=
  let! p := curproc in
  let! q := get_proc p in
  on_fs (m (p_pid q)).
Definition k_begin_op : M kern unit := on_fs (flift begin_op).
Definition k_end_op : M kern unit := on_fs (flift end_op).

(** [either_copyout] and [either_copyin] as [readi] and [writei] call them. *)
Definition copy_to (user_dst : bool) (pagetable dst : Z) (src : list Z) (ph : phys) : phys * Z :=
  if user_dst then
    match copyout_bytes pagetable dst src ph with
    | Ok r ph' => (ph', r)
    | _ => (ph, -1)
    end
  else (mkphys (mem_write (p_mem ph) dst src) (freelist ph), 0).

Definition copy_from (user_src : bool) (pagetable : Z) (ph : phys) (src len : Z) : list Z * Z :=
  if user_src then
    match copyin_bytes pagetable src len ph with
    | Ok r _ => r
    | _ => ([], -1)
    end
  else (mem_read (p_mem ph) src (Z.to_nat len), 0).

Definition k_readi (ip : nat) (user_dst : bool) (dst off n : Z) : M kern Z :=
  let! p := curproc in
  let! q := get_proc p in
  let! ph := gets k_phys in
  let! r := on_fs (readi (copy_to user_dst (p_pagetable q)) ip ph dst off n) in
  modify (set_kphys (snd r)) ;;
  ret (fst r).

Definition k_writei (ip : nat) (user_src : bool) (src off n : Z) : M kern Z :=
  let! p := curproc in
  let! q := get_proc p in
  let! ph := gets k_phys in
  on_fs (writei (copy_from user_src (p_pagetable q) ph) ip src off n).

(** ** References *)

Definition fileinit : M kern unit := init_lock LkFtable "ftable".

Definition filealloc : M kern (option nat) :=
  acquire LkFtable ;;
  let! found := for_first (seq 0 NFILE) (fun f =>
    let! x := get_file f in
    if f_ref x =? 0 then
      upd_file f (set_fref 1) ;;
      release LkFtable ;;
      ret (Some f)
    else ret None) in
  match found with
  | Some f => ret (Some f)
  | None => release LkFtable ;; ret None
  end.

Definition filedup (f : nat) : M kern nat :=
  acquire LkFtable ;;
  let! x := get_file f in
  if f_ref x <? 1 then panic "filedup"
  else
    upd_file f (set_fref (f_ref x + 1)) ;;
    release LkFtable ;;
    ret f.

Definition fileclose (f : nat) : M kern unit :=
  acquire LkFtable ;;
  let! x := get_file f in
  if f_ref x <? 1 then panic "fileclose"
  else
    upd_file f (set_fref (f_ref x - 1)) ;;
    if 0 <? f_ref x - 1 then release LkFtable
    else
      let! ff := get_file f in
      upd_file f (set_fref 0) ;;
      upd_file f (set_ftype FD_NONE) ;;
      release LkFtable ;;
      match f_type ff with
      | FD_PIPE => pipeclose kend (f_pipe ff) (f_writable ff)
      | FD_INODE | FD_DEVICE =>
          k_begin_op ;;
          with_pid (fun pid => iput pid (f_ip ff)) ;;
          k_end_op
      | FD_NONE => ret tt
      end.

(** ** Metadata and data *)

Definition filestat (f : nat) (addr : Z) : M kern Z :=
  let! p := curproc in
  let! x := get_file f in
  match f_type x with
  | FD_INODE | FD_DEVICE =>
      with_pid (fun pid => ilock pid (f_ip x)) ;;
      let! st := on_fs (stati (f_ip x)) in
      with_pid (fun pid => iunlock pid (f_ip x)) ;;
      let! q := get_proc p in
      let! r := on_phys (copyout_bytes (p_pagetable q) addr (encode_stat stat_pad st)) in
      if r <? 0 then ret (-1) else ret 0
  | _ => ret (-1)
  end.

Definition fileread (f : nat) (addr n : Z) : M kern progress :=
  let! x := get_file f in
  if negb (f_readable x) then ret (Done (-1))
  else
    match f_type x with
    | FD_PIPE => piperead (f_pipe x) addr n
    | FD_DEVICE =>
        if (f_major x <? 0) || (NDEV <=? f_major x) || negb (devsw_set (f_major x)) then ret (Done (-1))
        else consoleread true addr n
    | FD_INODE =>
        with_pid (fun pid => ilock pid (f_ip x)) ;;
        let! r := k_readi (f_ip x) true addr (f_off x) (u32 n) in
        (if 0 <? r then upd_file f (fun x => set_foff (u32 (f_off x + r)) x) else ret tt) ;;
        with_pid (fun pid => iunlock pid (f_ip x)) ;;
        ret (Done r)
    | FD_NONE => panic "fileread"
    end.

(** [((MAXOPBLOCKS-1-1-2) / 2) * BSIZE] *)
Definition filewrite_max : Z := (MAXOPBLOCKS - 1 - 1 - 2) / 2 * BSIZE.

(** [while(i < n)] of [filewrite]; the value of [i] at the end. *)
Fixpoint filewrite_loop (fuel f : nat) (addr n i : Z) : M kern Z :=
  match fuel with
  | O => panic "filewrite: fuel"
  | Datatypes.S fuel' =>
      if i <? n then
        let n1 := if filewrite_max <? n - i then filewrite_max else n - i in
        k_begin_op ;;
        let! x := get_file f in
        with_pid (fun pid => ilock pid (f_ip x)) ;;
        let! r := k_writei (f_ip x) true (u64 (addr + i)) (f_off x) (u32 n1) in
        (if 0 <? r then upd_file f (fun x => set_foff (u32 (f_off x + r)) x) else ret tt) ;;
        with_pid (fun pid => iunlock pid (f_ip x)) ;;
        k_end_op ;;
        if negb (r =? n1) then ret i else filewrite_loop fuel' f addr n (i + r)
      else ret i
  end.

Definition filewrite (f : nat) (addr n : Z) : M kern progress :=
  let! x := get_file f in
  if negb (f_writable x) then ret (Done (-1))
  else
    match f_type x with
    | FD_PIPE => pipewrite (f_pipe x) addr n
    | FD_DEVICE =>
        if (f_major x <? 0) || (NDEV <=? f_major x) || negb (devsw_set (f_major x)) then ret (Done (-1))
        else consolewrite true addr n
    | FD_INODE =>
        let! i := filewrite_loop (Datatypes.S (Z.to_nat n)) f addr n 0 in
        ret (Done (if i =? n then n else -1))
    | FD_NONE => panic "filewrite"
    end.

(** ** Pipes *)

(** The label [bad] of [pipealloc] before the page has been allocated. *)
Definition pipealloc_bad (f0 f1 : option nat) : M kern (option (nat * nat)) :=
  (match f0 with Some f => fileclose f | None => ret tt end) ;;
  (match f1 with Some f => fileclose f | None => ret tt end) ;;
  ret None.

(** The two files, reading end first; [None] for the result -1. *)
Definition pipealloc : M kern (option (nat * nat)) :=
  let! f0 := filealloc in
  match f0 with
  | None => pipealloc_bad None None
  | Some f0 =>
      let! f1 := filealloc in
      match f1 with
      | None => pipealloc_bad (Some f0) None
      | Some f1 =>
          let! pi := on_phys kalloc in
          if pi =? 0 then pipealloc_bad (Some f0) (Some f1)
          else
            upd_pipe pi (fun q => mkpipe (pi_data q) 0 0 true true) ;;
            init_lock (LkPipe pi) "pipe" ;;
            upd_file f0 (fun x => set_fpipe pi (set_fmode true false (set_ftype FD_PIPE x))) ;;
            upd_file f1 (fun x => set_fpipe pi (set_fmode false true (set_ftype FD_PIPE x))) ;;
            ret (Some (f0, f1))
      end
  end.
End file.
