(* ===== verification/Process.v ===== *)
(** * Life of a process: [fork], [exit], [wait], [userinit] of
      [src/kernel/proc.c] *)

From stdpp Require Import functions.
From S2P Require Import Prelude Memory CString Riscv Csr Spinlock Kalloc Vm Copy Block Cache Log Fs Kernel Proc Uart Printf Console Pipe File.

Definition NOFILE : nat := 16.

(** The program of the first process, [uchar initcode[]]. *)
Definition initcode : list Z := [
  0x17; 0x05; 0x00; 0x00; 0x13; 0x05; 0x45; 0x02;
  0x97; 0x05; 0x00; 0x00; 0x93; 0x85; 0x35; 0x02;
  0x93; 0x08; 0x70; 0x00; 0x73; 0x00; 0x00; 0x00;
  0x93; 0x08; 0x20; 0x00; 0x73; 0x00; 0x00; 0x00;
  0xef; 0xf0; 0x9f; 0xff; 0x2f; 0x69; 0x6e; 0x69;
  0x74; 0x00; 0x00; 0x24; 0x00; 0x00; 0x00; 0x00;
  0x00; 0x00; 0x00; 0x00].

(** [uvminit] of [vm.c] with the program as a list of bytes. *)
Definition uvminit_bytes (pagetable : Z) (src : list Z) : M phys unit :=
  if PGSIZE <=? Z.of_nat (length src) then panic "inituvm: more than a page"
  else
    let! page := kalloc in
    fill page PGSIZE 0 ;;
    mappages pagetable 0 PGSIZE page (Z.lor (Z.lor (Z.lor PTE_W PTE_R) PTE_X) PTE_U) ;;
    put_bytes page src.

Section process.
Context {S B D : Type} `{!BlockCache S B} `{!Mmio D}.
Variables kend trampoline forkret_pc : Z.

Abbreviation kern := (kernel S D).

(** [p->trapframe->field], at offset [off]. *)
Definition load_tf (p : nat) (off : Z) : M kern Z :=
  let! q := get_proc p in
  gets (fun s => load64 (p_mem (k_phys s)) (p_trapframe q + off)).
Definition store_tf (p : nat) (off v : Z) : M kern unit :=
  let! q := get_proc p in
  on_phys (store_pte (p_trapframe q + off) v).

Definition userinit : M kern unit :=
  let! np := allocproc kend trampoline forkret_pc in
  modify (set_kinitproc np) ;;
  match np with
  | None => panic "null pointer"
  | Some p =>
      let! q := get_proc p in
      on_phys (uvminit_bytes (p_pagetable q) initcode) ;;
      upd_proc p (set_sz PGSIZE) ;;
      store_tf p TF_epc 0 ;;
      store_tf p TF_sp PGSIZE ;;
      upd_proc p (fun q => set_name (copy_name (p_name q) (bytes_of "initcode")) q) ;;
      (* no process runs yet: the path is absolute, so that [cwd] is not used,
         and the root inode is neither locked nor released *)
      let! ip := on_fs (namei 0 0 [47]) in
      upd_proc p (set_cwd ip) ;;
      upd_proc p (set_state RUNNABLE) ;;
      release (LkProc p)
  end.

(** The open files and the current directory of the parent, shared. *)
Definition fork_files (p np : nat) : M kern unit :=
  for_in (seq 0 NOFILE) (fun i =>
    let! q := get_proc p in
    match p_ofile q i with
    | Some f => let! f' := filedup f in upd_proc np (set_ofile i (Some f'))
    | None => ret tt
    end) ;;
  let! q := get_proc p in
  match p_cwd q with
  | Some ip => let! ip' := on_fs (idup ip) in upd_proc np (set_cwd (Some ip'))
  | None => panic "null pointer"
  end.

(** The last critical section of [fork]. *)
Definition fork_ready (np : nat) : M kern unit :=
  acquire (LkProc np) ;;
  upd_proc np (set_state RUNNABLE) ;;
  release (LkProc np).

Definition fork : M kern Z :=
  let! p := curproc in
  let! r := allocproc kend trampoline forkret_pc in
  match r with
  | None => ret (-1)
  | Some np =>
      let! q := get_proc p in
      let! nq := get_proc np in
      let! e := on_phys (uvmcopy kend (p_pagetable q) (p_pagetable nq) (p_sz q)) in
      if e <? 0 then
        freeproc kend np ;;
        release (LkProc np) ;;
        ret (-1)
      else
        upd_proc np (set_sz (p_sz q)) ;;
        on_phys (move (p_trapframe nq) (p_trapframe q) TF_SIZE) ;;
        store_tf np (TF_a 0) 0 ;;
        fork_files p np ;;
        upd_proc np (fun nq => set_name (copy_name (p_name nq) (p_name q)) nq) ;;
        let! nq := get_proc np in
        let pid := p_pid nq in
        release (LkProc np) ;;
        acquire LkWait ;;
        upd_proc np (set_parent (Some p)) ;;
        release LkWait ;;
        fork_ready np ;;
        ret pid
  end.

(** [for(int fd = 0; fd < NOFILE; fd++)] of [exit] *)
Definition exit_files (p : nat) : M kern unit :=
  for_in (seq 0 NOFILE) (fun fd =>
    let! q := get_proc p in
    match p_ofile q fd with
    | Some f => fileclose kend f ;; upd_proc p (set_ofile fd None)
    | None => ret tt
    end).

(** The end of [exit], from the acquisition of its own lock to the switch. *)
Definition exit_switch (p : nat) (status : Z) : M kern bool :=
  acquire (LkProc p) ;;
  upd_proc p (set_xstate status) ;;
  upd_proc p (set_state ZOMBIE) ;;
  release LkWait ;;
  sched.

(** The end of [exit], from the acquisition of [wait_lock] to the switch. *)
Definition exit_zombie (p : nat) (status : Z) : M kern bool :=
  acquire LkWait ;;
  reparent p ;;
  let! q := get_proc p in
  (match p_parent q with Some pp => wakeup (ChProc pp) | None => ret tt end) ;;
  exit_switch p status.

(** [exit], up to [swtch]. *)
Definition exit_run (status : Z) : M kern bool :=
  let! p := curproc in
  let! init := gets k_initproc in
  if bool_decide (init = Some p) then panic "init exiting"
  else
    exit_files p ;;
    k_begin_op ;;
    let! q := get_proc p in
    match p_cwd q with
    | None => panic "null pointer"
    | Some ip =>
        with_pid (fun pid => iput pid ip) ;;
        k_end_op ;;
        upd_proc p (set_cwd None) ;;
        exit_zombie p status
    end.

(** [exit] does not return: it ends in the scheduler. *)
Definition exit {A} (status : Z) : M kern A := exit_run status ;; sleeps "zombie".

(** The scan of [wait] over the table entries [l]: the result, if it returns
    from there, and [havekids]. *)
Fixpoint wait_scan (l : list nat) (p : nat) (addr : Z) (havekids : bool) : M kern (option Z * bool) :=
  match l with
  | [] => ret (None, havekids)
  | np :: l' =>
      let! nq := get_proc np in
      if bool_decide (p_parent nq = Some p) then
        acquire (LkProc np) ;;
        let! nq := get_proc np in
        if bool_decide (p_state nq = ZOMBIE) then
          let pid := p_pid nq in
          let! q := get_proc p in
          let! r := (if negb (addr =? 0)
                     then on_phys (copyout_bytes (p_pagetable q) addr (le_bytes 4 (u32 (p_xstate nq))))
                     else ret 0) in
          if r <? 0 then
            release (LkProc np) ;; release LkWait ;; ret (Some (-1), true)
          else
            freeproc kend np ;;
            release (LkProc np) ;; release LkWait ;; ret (Some pid, true)
        else release (LkProc np) ;; wait_scan l' p addr true
      else wait_scan l' p addr havekids
  end.

(** One round of the [for(;;)] of [wait], with [wait_lock] held. *)
Definition wait_loop (p : nat) (addr : Z) : M kern Z :=
  let! r := wait_scan (seq 0 NPROC) p addr false in
  match r with
  | (Some v, _) => ret v
  | (None, havekids) =>
      let! q := get_proc p in
      if negb havekids || negb (p_killed q =? 0) then release LkWait ;; ret (-1)
      else sleep (ChProc p) LkWait
  end.

Definition wait (addr : Z) : M kern Z :=
  let! p := curproc in
  acquire LkWait ;;
  wait_loop p addr.
End process.
