(* ===== verification/SchedSpec.v ===== *)
(** * Scheduling on several CPUs

    The functions of [proc.c] that change the state of a process, run by any
    number of CPUs on the shared process table, one critical section at a time:
    no process is ever executed by two CPUs. *)

From stdpp Require Import functions fin.
From S2P Require Import Prelude Memory CString Riscv Csr Spinlock Kalloc Vm Copy Block Cache Sleeplock Log Fs Kernel Proc ProcRun Uart Printf Console Pipe File Process.

(** One step of a successful run. *)
Ltac run_step H :=
  let a := fresh "a" in let s := fresh "s" in let H1 := fresh "R" in
  apply bind_Ok_inv in H as (a & s & H1 & H); lazymatch type of a with unit => destruct a | _ => idtac end.

Section sched_spec.
Context {S D : Type}.
Variables kend trampoline forkret_pc : Z.
Abbreviation kern := (kernel S D).
Implicit Types s : kern.

(** ** What a successful run says of the locks *)

(** Nothing changes but locks, interrupt state and [noff]. *)
Record same_run s s' : Prop := {
  sr_procs : k_procs s' = k_procs s;
  sr_me : c_proc (k_cpu s') = c_proc (k_cpu s);
  sr_id : cpuid (k_hart s') = cpuid (k_hart s)
}.

Lemma intr_on_tp h h' : intr_on h = Ok tt h' -> tp h' = tp h.
Proof. unfold intr_on, bind, r_sstatus, gets, w_sstatus, modify. by intros [= <-]. Qed.
Lemma intr_off_tp h h' : intr_off h = Ok tt h' -> tp h' = tp h.
Proof. unfold intr_off, bind, r_sstatus, gets, w_sstatus, modify. by intros [= <-]. Qed.

Lemma push_off_inv x y :
  push_off x = Ok tt y -> tp (fst y) = tp (fst x) /\ c_proc (snd y) = c_proc (snd x).
Proof.
  unfold push_off. intros H. apply bind_Ok_inv in H as (old & x1 & H1 & H).
  unfold on_hart, zoom in H1. rewrite intr_get_run in H1. injection H1 as <- <-.
  unfold bind, on_hart, zoom in H. cbn [fst snd] in H.
  destruct (intr_off (fst x)) as [[] h| |] eqn:E; try done. apply intr_off_tp in E.
  unfold gets, on_cpu, modify, ret in H. cbn in H. destruct (c_noff (snd x) =? 0); injection H as <-; done.
Qed.

Lemma pop_off_inv x y :
  pop_off x = Ok tt y -> tp (fst y) = tp (fst x) /\ c_proc (snd y) = c_proc (snd x).
Proof.
  unfold pop_off. intros H. apply bind_Ok_inv in H as (on & x1 & H1 & H).
  unfold on_hart, zoom in H1. rewrite intr_get_run in H1. injection H1 as <- <-.
  destruct (enabled (fst x)); [done|]. unfold bind, gets, on_cpu, modify in H. cbn in H.
  destruct (c_noff (snd x) <? 1); [done|]. cbn in H. destruct (_ && _).
  - unfold on_hart, zoom in H. cbn [fst snd] in H. destruct (intr_on (fst x)) as [[] h| |] eqn:E; try done.
    apply intr_on_tp in E. injection H as <-. done.
  - unfold ret in H. injection H as <-. done.
Qed.

Lemma acquire_inv l s s' :
  acquire l s = Ok tt s' ->
  same_run s s' /\ sl_locked (k_locks s l) = 0 /\
  k_locks s' = <[l := mkspin 1 (sl_name (k_locks s l)) (Some (cpuid (k_hart s)))]> (k_locks s).
Proof.
  unfold acquire, on_lock, zoom, Spinlock.acquire. unfold bind at 1, on_lk_cpu, zoom. cbn [fst snd].
  destruct (push_off (k_hart s, k_cpu s)) as [[] y| |] eqn:E; try done.
  apply push_off_inv in E as [E1 E2]. unfold bind, gets. cbn [fst snd] in *.
  unfold cpuid. rewrite E1. destruct (holding _ _); [done|].
  destruct (Z.eqb_spec (sl_locked (k_locks s l)) 0) as [E0|]; [|done]. cbn. intros [= <-].
  split; [|split; [done|]].
  - split; cbn; [done|done|]. unfold cpuid. by rewrite E1.
  - done.
Qed.

Lemma release_inv l s s' :
  release l s = Ok tt s' ->
  same_run s s' /\ k_locks s' = <[l := mkspin 0 (sl_name (k_locks s l)) None]> (k_locks s) /\
  sl_cpu (k_locks s l) = Some (cpuid (k_hart s)).
Proof.
  unfold release, on_lock, zoom, Spinlock.release. unfold bind at 1 2, gets. cbn [fst snd].
  destruct (holding (cpuid (k_hart s)) (k_locks s l)) eqn:Eh; [|done]. cbn [negb].
  unfold bind, set_lk, modify, on_lk_cpu, zoom. cbn [fst snd].
  destruct (pop_off (k_hart s, k_cpu s)) as [[] y| |] eqn:E; try done.
  apply pop_off_inv in E as [E1 E2]. cbn in *. intros [= <-]. split; [|split].
  - split; cbn; [done|done|]. unfold cpuid. by rewrite E1.
  - done.
  - unfold holding in Eh. apply andb_true_iff in Eh as [_ Eh]. by apply bool_decide_eq_true in Eh.
Qed.

Lemma myproc_inv s p s' : myproc s = Ok p s' -> same_run s s' /\ k_locks s' = k_locks s /\ p = c_proc (k_cpu s).
Proof.
  unfold myproc. intros H. apply bind_Ok_inv in H as ([] & s1 & H1 & H).
  unfold on_hc, zoom in H1. destruct (push_off (k_hart s, k_cpu s)) as [[] y| |] eqn:E; try done.
  injection H1 as <-. apply push_off_inv in E as [E1 E2].
  unfold bind, mycpu, gets, on_hc, zoom in H. cbn [k_hart k_cpu set_kcpu set_khart] in H.
  destruct (pop_off (fst y, snd y)) as [[] z| |] eqn:Ez; try done. apply pop_off_inv in Ez as [Ez1 Ez2].
  cbn in *. injection H as <- <-. split; [|split; [done|by rewrite E2]].
  split; cbn; [done|by rewrite Ez2|]. unfold cpuid. by rewrite Ez1, E1.
Qed.

Lemma curproc_inv s p s' :
  curproc s = Ok p s' -> same_run s s' /\ k_locks s' = k_locks s /\ c_proc (k_cpu s) = Some p.
Proof.
  unfold curproc. intros H. apply bind_Ok_inv in H as (q & s1 & H1 & H).
  apply myproc_inv in H1 as (H1 & H2 & ->). destruct (c_proc (k_cpu s)); [|done].
  injection H as <- <-. done.
Qed.

(** ** Effects on who runs and who holds a process's lock *)

Definition heldby (id : Z) (p : nat) s : Prop :=
  sl_locked (k_locks s (LkProc p)) <> 0 /\ sl_cpu (k_locks s (LkProc p)) = Some id.
Definition instate s (p : nat) (st : procstate) : Prop := p_state (k_procs s p) = st.
#[local] Instance instate_dec s p st : Decision (instate s p st).
Proof. unfold instate. apply _. Defined.
Abbreviation running s p := (instate s p RUNNING).

(** The locks of the processes held by other CPUs stay held by them, and no
    other lock becomes theirs. *)
Definition foreign s s' : Prop :=
  forall id p, id <> cpuid (k_hart s) -> heldby id p s' <-> heldby id p s.

(** Nobody starts or stops running, and an entry in use by [fork] stays so,
    except for the entries in [X]. *)
Record mild (X : nat -> Prop) s s' : Prop := {
  ml_me : c_proc (k_cpu s') = c_proc (k_cpu s);
  ml_id : cpuid (k_hart s') = cpuid (k_hart s);
  ml_held : foreign s s';
  ml_run p : ~ X p -> running s' p <-> running s p;
  ml_used p : ~ X p -> instate s p USED -> instate s' p USED
}.

Definition none (p : nat) : Prop := False.

Lemma not_none p : ~ none p.
Proof. intros []. Qed.

Lemma mild_refl X s : mild X s s.
Proof. done. Qed.

Lemma mild_trans X s1 s2 s3 : mild X s1 s2 -> mild X s2 s3 -> mild X s1 s3.
Proof.
  intros [A1 A2 A3 A4 A5] [B1 B2 B3 B4 B5]. split; [congruence|congruence|..].
  - intros id p Hp. etrans; [apply B3; congruence|by apply A3].
  - intros p Hp. by rewrite B4, A4.
  - auto.
Qed.

Lemma mild_weaken (X Y : nat -> Prop) s s' : (forall p, X p -> Y p) -> mild X s s' -> mild Y s s'.
Proof. intros H [A1 A2 A3 A4 A5]. split; auto. Qed.

Lemma same_mild X s s' : same_run s s' -> foreign s s' -> mild X s s'.
Proof. intros [E1 E2 E3] Hf. split; try done; intros; unfold instate in *; by rewrite E1. Qed.

Lemma locks_foreign s s' : k_locks s' = k_locks s -> foreign s s'.
Proof. intros E id p _. unfold heldby. by rewrite E. Qed.

Lemma acquire_mild X l s s' : acquire l s = Ok tt s' -> mild X s s'.
Proof.
  intros (Hs & H0 & El)%acquire_inv. apply same_mild; [done|]. intros id p Hid. unfold heldby. rewrite El.
  destruct (decide (l = LkProc p)) as [->|]; [|by rewrite fn_lookup_insert_ne].
  rewrite fn_lookup_insert, H0. cbn. split; intros [? [= ?]]; congruence.
Qed.

Lemma release_mild X l s s' : release l s = Ok tt s' -> mild X s s'.
Proof.
  intros (Hs & El & H0)%release_inv. apply same_mild; [done|]. intros id p Hid. unfold heldby. rewrite El.
  destruct (decide (l = LkProc p)) as [->|]; [|by rewrite fn_lookup_insert_ne].
  rewrite fn_lookup_insert, H0. cbn. split; intros [? [= ?]]; congruence.
Qed.

Lemma upd_proc_mild (X : nat -> Prop) p f s s' :
  upd_proc p f s = Ok tt s' ->
  X p \/ p_state (f (k_procs s p)) = p_state (k_procs s p) \/
  (p_state (f (k_procs s p)) <> RUNNING /\ ~ running s p /\ ~ instate s p USED) ->
  mild X s s'.
Proof.
  intros [= <-] H. split; try done; intros q Hq; unfold instate in *; cbn;
    (destruct (decide (q = p)) as [->|]; [rewrite fn_lookup_insert; naive_solver congruence|by rewrite fn_lookup_insert_ne]).
Qed.

Lemma on_phys_mild X {A} (m : M phys A) a s s' : on_phys m s = Ok a s' -> mild X s s'.
Proof.
  unfold on_phys, zoom. destruct (m (k_phys s)) as [? ph| |]; try done. intros [= _ <-]. by apply same_mild.
Qed.

Lemma myproc_mild X p s s' : myproc s = Ok p s' -> mild X s s' /\ p = c_proc (k_cpu s).
Proof. intros (H1 & H2 & H3)%myproc_inv. split; [|done]. apply same_mild; [done|by apply locks_foreign]. Qed.
Lemma curproc_mild X p s s' : curproc s = Ok p s' -> mild X s s' /\ c_proc (k_cpu s) = Some p.
Proof. intros (H1 & H2 & H3)%curproc_inv. split; [|done]. apply same_mild; [done|by apply locks_foreign]. Qed.
(** An entry whose change is accounted for. *)
Lemma mild_none p s s' :
  mild (eq p) s s' -> (running s' p <-> running s p) -> ~ instate s p USED -> mild none s s'.
Proof.
  intros [A1 A2 A3 A4 A5] Hr Hu. split; try done; intros q _.
  - destruct (decide (p = q)) as [<-|]; [done|by apply A4].
  - destruct (decide (p = q)) as [<-|]; [done|by apply A5].
Qed.

Lemma upd_own p f s s' : upd_proc p f s = Ok tt s' -> mild (eq p) s s'.
Proof. intros H. eapply upd_proc_mild; [exact H|by left]. Qed.

Lemma opt_phys_mild X (b : bool) (m : M phys unit) s s' :
  (if b then on_phys m else ret tt) s = Ok tt s' -> mild X s s'.
Proof. destruct b; [apply on_phys_mild|by intros [= <-]]. Qed.

Lemma freeproc_mild p s s' :
  freeproc kend p s = Ok tt s' -> mild (eq p) s s' /\ instate s' p UNUSED.
Proof.
  unfold freeproc, get_proc, gets. unfold bind at 1. intros H.
  run_step H. apply (opt_phys_mild (eq p)) in R.
  run_step H. apply upd_own in R0.
  run_step H. apply (opt_phys_mild (eq p)) in R1.
  do 8 apply bind_Ok_inv in H as ([] & ? & ?%upd_own & H).
  assert (instate s' p UNUSED) as Hu
    by (injection H as <-; unfold instate; cbn; by rewrite fn_lookup_insert).
  apply upd_own in H. split; [|done].
  repeat (eapply mild_trans; [eassumption|]). apply mild_refl.
Qed.

Lemma wakeup_at_mild ch p s s' : wakeup_at ch p s = Ok tt s' -> mild none s s'.
Proof.
  unfold wakeup_at. intros H. run_step H. apply (myproc_mild none) in R as [R _]. eapply mild_trans; [exact R|].
  case_bool_decide; [by injection H as <-|]. run_step H. eapply mild_trans; [by eapply acquire_mild|].
  run_step H. eapply mild_trans; [|by eapply release_mild].
  unfold bind, get_proc, gets in R1. destruct (_ && _) eqn:E; [|by injection R1 as <-].
  apply andb_true_iff in E as [E%bool_decide_eq_true _].
  eapply upd_proc_mild; [exact R1|]. right; right. unfold instate. rewrite E. done.
Qed.

Lemma kill_at_mild pid p r s s' : kill_at pid p s = Ok r s' -> mild none s s'.
Proof.
  unfold kill_at. intros H. run_step H. eapply mild_trans; [by eapply acquire_mild|].
  unfold bind at 1, get_proc, gets in H. destruct (p_pid _ =? pid).
  - run_step H. eapply mild_trans; [eapply upd_proc_mild; [exact R0|by right; left]|].
    run_step H. run_step H. injection H as _ <-. eapply mild_trans; [|by eapply release_mild].
    case_bool_decide as E; [|by injection R1 as <-]. eapply upd_proc_mild; [exact R1|].
    right; right. injection R0 as <-. unfold instate; cbn. rewrite fn_lookup_insert; cbn. rewrite E. done.
  - run_step H. injection H as _ <-. by eapply release_mild.
Qed.

Lemma allocpid_mild X n s s' : allocpid s = Ok n s' -> mild X s s'.
Proof.
  unfold allocpid. intros H. run_step H. eapply mild_trans; [by eapply acquire_mild|].
  unfold bind at 1, gets in H. unfold bind at 1, modify in H. run_step H. injection H as _ <-.
  eapply mild_trans; [|by eapply release_mild]. by apply same_mild.
Qed.

Lemma upd_instate p f st s s' :
  upd_proc p f s = Ok tt s' -> p_state (f (k_procs s p)) = p_state (k_procs s p) -> instate s p st -> instate s' p st.
Proof. intros [= <-] E Hs. unfold instate; cbn. by rewrite fn_lookup_insert, E. Qed.
Lemma set_instate p st s s' : upd_proc p (set_state st) s = Ok tt s' -> instate s' p st.
Proof. intros [= <-]. unfold instate; cbn. by rewrite fn_lookup_insert. Qed.
Lemma on_phys_instate {A} (m : M phys A) a p st s s' : on_phys m s = Ok a s' -> instate s p st -> instate s' p st.
Proof. unfold on_phys, zoom. destruct (m (k_phys s)); try done. by intros [= _ <-]. Qed.
Lemma release_instate l p st s s' : release l s = Ok tt s' -> instate s p st -> instate s' p st.
Proof. intros ([E _ _] & _)%release_inv. unfold instate. by rewrite E. Qed.
Lemma acquire_instate l p st s s' : acquire l s = Ok tt s' -> instate s p st -> instate s' p st.
Proof. intros ([E _ _] & _)%acquire_inv. unfold instate. by rewrite E. Qed.

Lemma alloc_search l r s s' :
  for_first l (fun p =>
    acquire (LkProc p) ;;
    let! q := get_proc p in
    if bool_decide (p_state q = UNUSED) then ret (Some p)
    else release (LkProc p) ;; ret None) s = Ok r s' ->
  same_run s s' /\ mild none s s' /\ match r with Some p => p ∈ l /\ instate s p UNUSED | None => True end.
Proof.
  revert s. induction l as [|p l IH]; intros s H; cbn in H; [by injection H as <- <-|].
  run_step H. run_step R. unfold bind, get_proc, gets in R.
  pose proof (acquire_inv _ _ _ R0) as (Hs & _). apply (acquire_mild none) in R0.
  case_bool_decide as E.
  - injection R as <- <-. injection H as <- <-. split; [done|split; [done|]]. split; [by apply elem_of_cons; left|].
    unfold instate in *. destruct Hs as [<- _ _]. done.
  - destruct (release _ _) as [[] s3| |] eqn:Er; try done. injection R as <- <-.
    pose proof (release_inv _ _ _ Er) as (Hs2 & _). apply (release_mild none) in Er.
    destruct (IH _ H) as (Hs3 & Hm & Hr). destruct Hs, Hs2, Hs3. split; [split; congruence|].
    split; [by repeat (eapply mild_trans; [eassumption|])|]. destruct r; [|done]. destruct Hr as [Hr1 Hr]. split; [by apply elem_of_cons; right|].
    unfold instate in *. congruence.
Qed.

(** The entry it gives up or hands out. *)
Lemma alloc_found p r s s' :
  allocproc_found kend trampoline forkret_pc p s = Ok r s' ->
  mild (eq p) s s' /\ match r with Some q => q = p /\ instate s' p USED | None => instate s' p UNUSED end.
Proof.
  unfold allocproc_found. intros H. run_step H. apply (allocpid_mild (eq p)) in R.
  run_step H. apply upd_own in R0. run_step H. pose proof (set_instate _ _ _ _ R1) as Hu. apply upd_own in R1.
  run_step H. pose proof (on_phys_instate _ _ _ _ _ _ R2 Hu) as Hu2. apply (on_phys_mild (eq p)) in R2.
  run_step H. pose proof (upd_instate _ _ _ _ _ R3 eq_refl Hu2) as Hu3. apply upd_own in R3.
  destruct (_ =? 0).
  - run_step H. run_step H. injection H as <- <-. apply freeproc_mild in R4 as [R4 Hf].
    split; [|by eapply release_instate]. apply (release_mild (eq p)) in R5.
    by repeat (eapply mild_trans; [eassumption|]).
  - run_step H. pose proof (on_phys_instate _ _ _ _ _ _ R4 Hu3) as Hu4. apply (on_phys_mild (eq p)) in R4.
    run_step H. pose proof (upd_instate _ _ _ _ _ R5 eq_refl Hu4) as Hu5. apply upd_own in R5.
    destruct (_ =? 0); run_step H.
    + run_step H. injection H as <- <-. apply freeproc_mild in R6 as [R6 Hf].
      split; [|by eapply release_instate]. apply (release_mild (eq p)) in R7.
      by repeat (eapply mild_trans; [eassumption|]).
    + injection H as <- <-. pose proof (upd_instate _ _ _ _ _ R6 eq_refl Hu5). apply upd_own in R6.
      split; [|done]. by repeat (eapply mild_trans; [eassumption|]).
Qed.

Lemma allocproc_mild r s s' :
  allocproc kend trampoline forkret_pc s = Ok r s' ->
  mild none s s' /\ match r with Some p => instate s' p USED /\ ~ instate s p USED | None => True end.
Proof.
  unfold allocproc. intros H. run_step H. apply alloc_search in R as (Hs & Hm & Hr).
  destruct a as [p|]; [|by injection H as <- <-]. destruct Hr as [_ Hr]. apply alloc_found in H as [Hm2 Hr2].
  assert (instate s0 p UNUSED) as Hr0 by (destruct Hs as [E _ _]; unfold instate; by rewrite E).
  assert (mild none s0 s') as Hm3.
  { eapply mild_none; [exact Hm2|..]; unfold instate in *; [|congruence].
    destruct r; [destruct Hr2|]; split; congruence. }
  split; [by eapply mild_trans|]. destruct r; [|done]. destruct Hr2 as [-> ?]. split; [done|].
  unfold instate in *. congruence.
Qed.

Lemma fork_ready_mild p s s' :
  fork_ready p s = Ok tt s' -> mild (eq p) s s' /\ instate s' p RUNNABLE.
Proof.
  unfold fork_ready. intros H. run_step H. apply (acquire_mild (eq p)) in R. run_step H.
  pose proof (set_instate _ _ _ _ R0). apply upd_own in R0.
  pose proof (release_instate _ _ _ _ _ H ltac:(eassumption)). apply (release_mild (eq p)) in H.
  split; [|done]. by repeat (eapply mild_trans; [eassumption|]).
Qed.

(** ** Leaving and entering a process *)

Lemma sched_inv s ie s' :
  sched s = Ok ie s' ->
  exists p, c_proc (k_cpu s) = Some p /\ same_run s s' /\ k_locks s' = k_locks s /\
    ~ running s p /\ heldby (cpuid (k_hart s)) p s.
Proof.
  unfold sched. intros H. run_step H. apply curproc_inv in R as (R1 & R2 & R3). exists a.
  unfold bind, gets, mycpu, get_proc, on_reg in H.
  destruct (holding _ _) eqn:Eh; [|done]. cbn [negb] in H. cbv beta delta [gets] in H. cbv iota beta in H.
  destruct (c_noff (k_cpu s0) =? 1); [|done]. cbn [negb] in H.
  case_bool_decide; [done|]. unfold zoom in H. rewrite intr_get_run in H. destruct (enabled _); [done|].
  injection H as _ <-. unfold holding in Eh. apply andb_true_iff in Eh as [Eh1 Eh2].
  apply negb_true_iff, Z.eqb_neq in Eh1. apply bool_decide_eq_true in Eh2. destruct R1 as [E1 E2 E3].
  split; [done|]. split; [by split|]. split; [by destruct s0|].
  unfold instate, heldby in *. rewrite <- R2, <- E1. split; [done|]. split; [done|]. congruence.
Qed.

(** The run of [p] on this CPU ends: [p] has stopped running, its lock is held. *)
Definition left (p : nat) s s' : Prop :=
  mild (eq p) s s' /\ ~ running s' p /\ heldby (cpuid (k_hart s)) p s'.

Lemma sched_left p s s1 ie s' :
  c_proc (k_cpu s) = Some p -> mild (eq p) s s1 -> sched s1 = Ok ie s' -> left p s s'.
Proof.
  intros Hp Hm H. apply sched_inv in H as (q & Hq & Hs & Hl & Hr & Hh).
  assert (q = p) as -> by (destruct Hm; congruence). split; [|split].
  - eapply mild_trans; [exact Hm|]. apply same_mild; [done|by apply locks_foreign].
  - unfold instate. destruct Hs as [-> _ _]. done.
  - unfold heldby in *. rewrite Hl. destruct Hm as [_ <- _ _ _]. done.
Qed.

Lemma yield_left p ie s s' : c_proc (k_cpu s) = Some p -> yield s = Ok ie s' -> left p s s'.
Proof.
  unfold yield. intros Hp H. run_step H. apply (curproc_mild (eq p)) in R as [R Hp']. assert (a = p) as -> by congruence.
  run_step H. apply (acquire_mild (eq p)) in R0. run_step H. apply upd_own in R1.
  eapply sched_left; [done| |exact H]. by repeat (eapply mild_trans; [eassumption|]).
Qed.

Lemma sleep_left p ch lk ie s s' : c_proc (k_cpu s) = Some p -> sleep_enter ch lk s = Ok ie s' -> left p s s'.
Proof.
  unfold sleep_enter. intros Hp H. run_step H. apply (curproc_mild (eq p)) in R as [R Hp'].
  assert (a = p) as -> by congruence. run_step H. apply (acquire_mild (eq p)) in R0.
  run_step H. apply (release_mild (eq p)) in R1. run_step H. apply upd_own in R2. run_step H. apply upd_own in R3.
  eapply sched_left; [done| |exact H]. by repeat (eapply mild_trans; [eassumption|]).
Qed.

Lemma exit_left p st ie s s' : c_proc (k_cpu s) = Some p -> exit_switch p st s = Ok ie s' -> left p s s'.
Proof.
  unfold exit_switch. intros Hp H. run_step H. apply (acquire_mild (eq p)) in R.
  run_step H. apply upd_own in R0. run_step H. apply upd_own in R1. run_step H. apply (release_mild (eq p)) in R2.
  eapply sched_left; [done| |exact H]. by repeat (eapply mild_trans; [eassumption|]).
Qed.

Lemma sched_return_mild X ie s s' : sched_return ie s = Ok tt s' -> mild X s s'.
Proof. intros [= <-]. by apply same_mild. Qed.

Lemma yield_return_mild p ie s s' : yield_return p ie s = Ok tt s' -> mild none s s'.
Proof.
  unfold yield_return. intros H. run_step H. eapply mild_trans; [by eapply sched_return_mild|by eapply release_mild].
Qed.

Lemma sleep_awake_mild p ie s s' : sleep_awake p ie s = Ok tt s' -> mild none s s'.
Proof.
  unfold sleep_awake. intros H. run_step H. eapply mild_trans; [by eapply sched_return_mild|].
  run_step H. eapply mild_trans; [|by eapply release_mild]. eapply upd_proc_mild; [exact R0|]. by right; left.
Qed.

(** The scheduler's choice: the entry was runnable and its lock free. *)
Lemma enter_inv p r s s' :
  scheduler_enter p s = Ok r s' ->
  if r then instate s p RUNNABLE /\ (forall id, ~ heldby id p s) /\ c_proc (k_cpu s') = Some p /\
            cpuid (k_hart s') = cpuid (k_hart s) /\ foreign s s' /\ running s' p /\
            heldby (cpuid (k_hart s)) p s' /\ (forall q, q <> p -> k_procs s' q = k_procs s q)
  else mild none s s'.
Proof.
  unfold scheduler_enter. intros H. run_step H. pose proof (acquire_mild none _ _ _ R) as [_ _ Hf _ _].
  pose proof (acquire_inv _ _ _ R) as ([E1 E2 E3] & E4 & E5). unfold bind at 1, get_proc, gets in H.
  case_bool_decide as E.
  - injection H as <- <-. unfold instate, heldby, foreign in *; cbn.
    rewrite !fn_lookup_insert, E5, !fn_lookup_insert. cbn. split; [congruence|].
    split; [intros id [? _]; congruence|]. do 2 (split; [done|]). split.
    { exact Hf. }
    do 2 (split; [done|]). intros q Hq. by rewrite fn_lookup_insert_ne, E1.
  - run_step H. injection H as <- <-. eapply mild_trans; [by eapply acquire_mild|by eapply release_mild].
Qed.

Lemma back_inv p s s' :
  scheduler_return p s = Ok tt s' ->
  k_procs s' = k_procs s /\ cpuid (k_hart s') = cpuid (k_hart s) /\ c_proc (k_cpu s') = None /\ foreign s s'.
Proof.
  unfold scheduler_return. intros H. run_step H. injection R as <-.
  pose proof (release_inv _ _ _ H) as ([E1 E2 E3] & _). apply (release_mild none) in H as [_ _ Hf _ _].
  done.
Qed.

(** ** Several CPUs *)

(** Where a CPU is: in the loop of [scheduler]; switched to [p], which has not
    released its lock yet; executing [p]; back from [p], whose lock it holds. *)
Inductive place : Type := AtSched | Entered (p : nat) | Runs (p : nat) | Left (p : nat).

Definition on_cpu_of (a : place) : option nat :=
  match a with AtSched => None | Entered p | Runs p | Left p => Some p end.

(** [m_fork p] is the table entry that the kernel thread of [p], in [fork], has
    allocated and not made runnable yet. *)
Record msys : Type := mkmsys {
  m_cpus : fin NCPU -> hart * cpu;
  m_at : fin NCPU -> place;
  m_fork : nat -> option nat;
  m_sys : kern
}.

(** The kernel as CPU [c] sees it, and the system after a step of [c]. *)
Definition view (m : msys) (c : fin NCPU) : kern :=
  set_kcpu (snd (m_cpus m c)) (set_khart (fst (m_cpus m c)) (m_sys m)).
Definition after (m : msys) (c : fin NCPU) (a : place) (fk : nat -> option nat) (s : kern) : msys :=
  mkmsys (<[c := (k_hart s, k_cpu s)]> (m_cpus m)) (<[c := a]> (m_at m)) fk s.

(** In the scheduler's loop, interrupted or not, or in a process. *)
Definition at_work (a : place) : Prop := match a with AtSched | Runs _ => True | _ => False end.

(** One step of one CPU: a critical section of a process lock, or anything that
    leaves the process states and locks alone. *)
Inductive kstep (fk : nat -> option nat) s : place -> place -> (nat -> option nat) -> kern -> Prop :=
  | ks_pick p s' : scheduler_enter p s = Ok true s' -> kstep fk s AtSched (Entered p) fk s'
  | ks_skip p s' : scheduler_enter p s = Ok false s' -> kstep fk s AtSched AtSched fk s'
  | ks_forkret p s' : release (LkProc p) s = Ok tt s' -> kstep fk s (Entered p) (Runs p) fk s'
  | ks_yielded p ie s' : yield_return p ie s = Ok tt s' -> kstep fk s (Entered p) (Runs p) fk s'
  | ks_awake p ie s' : sleep_awake p ie s = Ok tt s' -> kstep fk s (Entered p) (Runs p) fk s'
  | ks_yield p ie s' : yield s = Ok ie s' -> kstep fk s (Runs p) (Left p) fk s'
  | ks_sleep p ch lk ie s' : sleep_enter ch lk s = Ok ie s' -> kstep fk s (Runs p) (Left p) fk s'
  | ks_exit p st ie s' : exit_switch p st s = Ok ie s' -> kstep fk s (Runs p) (Left p) fk s'
  | ks_back p s' : scheduler_return p s = Ok tt s' -> kstep fk s (Left p) AtSched fk s'
  | ks_alloc p np s' :
      fk p = None -> allocproc kend trampoline forkret_pc s = Ok (Some np) s' ->
      kstep fk s (Runs p) (Runs p) (<[p := Some np]> fk) s'
  | ks_noalloc p s' :
      allocproc kend trampoline forkret_pc s = Ok None s' -> kstep fk s (Runs p) (Runs p) fk s'
  | ks_unfork p np s' :
      fk p = Some np -> freeproc kend np s = Ok tt s' -> kstep fk s (Runs p) (Runs p) (<[p := None]> fk) s'
  | ks_fork p np s' :
      fk p = Some np -> fork_ready np s = Ok tt s' -> kstep fk s (Runs p) (Runs p) (<[p := None]> fk) s'
  | ks_reap p np s' :
      instate s np ZOMBIE -> freeproc kend np s = Ok tt s' -> kstep fk s (Runs p) (Runs p) fk s'
  | ks_wakeup a ch q s' : at_work a -> wakeup_at ch q s = Ok tt s' -> kstep fk s a a fk s'
  | ks_kill p pid q r s' : kill_at pid q s = Ok r s' -> kstep fk s (Runs p) (Runs p) fk s'
  | ks_acquire a l s' : at_work a -> acquire l s = Ok tt s' -> kstep fk s a a fk s'
  | ks_release a l s' : at_work a -> release l s = Ok tt s' -> kstep fk s a a fk s'
  | ks_other a s' :
      at_work a -> c_proc (k_cpu s') = c_proc (k_cpu s) -> tp (k_hart s') = tp (k_hart s) ->
      k_locks s' = k_locks s -> (forall q, p_state (k_procs s' q) = p_state (k_procs s q)) ->
      kstep fk s a a fk s'.

Inductive msteps (m : msys) : msys -> Prop :=
  | ms_refl : msteps m m
  | ms_step m1 c a fk s' :
      msteps m m1 -> kstep (m_fork m1) (view m1 c) (m_at m1 c) a fk s' -> msteps m (after m1 c a fk s').

(** ** The invariant *)

Definition at_ok (id : Z) (a : place) s : Prop :=
  c_proc (k_cpu s) = on_cpu_of a /\
  match a with
  | AtSched => True
  | Entered p => running s p /\ heldby id p s
  | Runs p => running s p
  | Left p => ~ running s p /\ heldby id p s
  end.

Definition forks_ok (fk : nat -> option nat) s : Prop :=
  (forall p np, fk p = Some np -> instate s np USED) /\
  (forall p q np, fk p = Some np -> fk q = Some np -> p = q).

Record minv (m : msys) : Prop := {
  mi_id c : cpuid (fst (m_cpus m c)) = cno c;
  mi_at c : at_ok (cno c) (m_at m c) (view m c);
  mi_one c1 c2 p : on_cpu_of (m_at m c1) = Some p -> on_cpu_of (m_at m c2) = Some p -> c1 = c2;
  mi_run p : running (m_sys m) p -> exists c, on_cpu_of (m_at m c) = Some p;
  mi_forks : forks_ok (m_fork m) (m_sys m)
}.

(** A step of [c] keeps the invariant when it accounts for its own change of
    place and leaves the processes on other CPUs alone. *)
Lemma minv_after m c a fk s' :
  minv m -> cpuid (k_hart s') = cno c -> foreign (view m c) s' -> at_ok (cno c) a s' ->
  (forall q, on_cpu_of (m_at m c) <> Some q -> on_cpu_of a <> Some q -> running s' q <-> running (view m c) q) ->
  (forall q, on_cpu_of a = Some q -> on_cpu_of (m_at m c) = Some q \/ forall c', on_cpu_of (m_at m c') <> Some q) ->
  (forall q, on_cpu_of (m_at m c) = Some q -> running s' q -> on_cpu_of a = Some q) ->
  forks_ok fk s' -> minv (after m c a fk s').
Proof.
  intros [I1 I2 I3 I4 I5] Hid Hf Ha Hr Hnew Hold Hfk. unfold after. split; cbn.
  - intros c'. destruct (decide (c' = c)) as [->|]; [by rewrite fn_lookup_insert|by rewrite fn_lookup_insert_ne].
  - intros c'. unfold view; cbn. destruct (decide (c' = c)) as [->|Hne]; [by rewrite !fn_lookup_insert|].
    rewrite !fn_lookup_insert_ne by done. destruct (I2 c') as [J1 J2]. split; [exact J1|].
    assert (forall q, heldby (cno c') q (view m c') -> heldby (cno c') q s') as Hh.
    { intros q Hq. apply Hf; [|exact Hq]. unfold view; cbn. rewrite I1. intros ?%cno_inj. congruence. }
    assert (forall q, on_cpu_of (m_at m c') = Some q -> running s' q <-> running (view m c') q) as Hq.
    { intros q Hq. apply Hr; [intros E; apply Hne; by eapply I3|].
      intros E. destruct (Hnew q E) as [E'|E']; [apply Hne; by eapply I3|by eapply E']. }
    destruct (m_at m c') as [|p|p|p]; [done|..]; specialize (Hq p eq_refl); specialize (Hh p);
      unfold instate, heldby in *; cbn in *; tauto.
  - intros c1 c2 p. assert (forall c', c' <> c -> on_cpu_of a = Some p -> on_cpu_of (m_at m c') <> Some p) as Hx.
    { intros c' Hne E E'. destruct (Hnew p E) as [E2|E2]; [apply Hne; by eapply I3|by eapply E2]. }
    destruct (decide (c1 = c)) as [->|H1], (decide (c2 = c)) as [->|H2];
      rewrite ?fn_lookup_insert, ?fn_lookup_insert_ne by done; intros E1 E2; [done|..]; [|by apply Hx in E1|by eapply I3].
    by apply Hx in E2.
  - intros p Hp. destruct (decide (on_cpu_of a = Some p)) as [E|E]; [exists c; by rewrite fn_lookup_insert|].
    destruct (I4 p) as [c' Hc'].
    { destruct (decide (on_cpu_of (m_at m c) = Some p)) as [E'|E']; [by destruct E; apply Hold|by apply (Hr p)]. }
    exists c'. rewrite fn_lookup_insert_ne; [done|]. intros ->. by apply E, Hold.
  - done.
Qed.

Lemma forks_mild fk s s' : forks_ok fk s -> mild none s s' -> forks_ok fk s'.
Proof. intros [H1 H2] Hm. split; [|done]. intros p np E. eapply ml_used; [exact Hm|apply not_none|by eapply H1]. Qed.

(** The thread of [p] starts or finishes its [fork]. *)
Lemma forks_start fk p np s s' :
  forks_ok fk s -> mild none s s' -> ~ instate s np USED -> instate s' np USED -> forks_ok (<[p := Some np]> fk) s'.
Proof.
  intros [H1 H2] Hm Hn Hu.
  assert (forall q, fk q <> Some np) as Hx by (intros q E; by apply Hn, (H1 q)).
  split.
  - intros q nq. destruct (decide (q = p)) as [->|].
    + rewrite fn_lookup_insert. by intros [= <-].
    + rewrite fn_lookup_insert_ne by done. intros E. eapply ml_used; [exact Hm|apply not_none|by eapply H1].
  - intros q q' nq. destruct (decide (q = p)) as [->|], (decide (q' = p)) as [->|];
      rewrite ?fn_lookup_insert, ?fn_lookup_insert_ne by done; intros E E'; [done|..|by eapply H2]; exfalso.
    + injection E as <-. by eapply Hx.
    + injection E' as <-. by eapply Hx.
Qed.

Lemma forks_end fk p np s s' :
  forks_ok fk s -> fk p = Some np -> mild (eq np) s s' -> forks_ok (<[p := None]> fk) s'.
Proof.
  intros [H1 H2] Hp Hm. split.
  - intros q nq. destruct (decide (q = p)) as [->|]; [by rewrite fn_lookup_insert|].
    rewrite fn_lookup_insert_ne by done. intros E. eapply ml_used; [exact Hm| |by eapply H1].
    intros <-. by eapply n, H2.
  - intros q q' nq. destruct (decide (q = p)) as [->|]; [by rewrite fn_lookup_insert|].
    destruct (decide (q' = p)) as [->|]; [by rewrite fn_lookup_insert|].
    rewrite !fn_lookup_insert_ne by done. apply H2.
Qed.

Lemma minv_mild X m c a fk s' :
  minv m -> mild X (view m c) s' -> (forall q, X q -> running s' q <-> running (view m c) q) ->
  on_cpu_of a = on_cpu_of (m_at m c) -> at_work a -> (forall p, m_at m c <> Left p) -> forks_ok fk s' ->
  minv (after m c a fk s').
Proof.
  intros I [M1 M2 M3 M4 M5] HX Ha Hw Hl Hfk.
  assert (forall q, (running s' q -> running (view m c) q) /\ (running (view m c) q -> running s' q)) as Hr.
  { intros q. destruct (decide (running s' q)) as [E|E], (decide (running (view m c) q)) as [E'|E']; [tauto|..|tauto].
    - exfalso. assert (~ X q) as Hn by (intros Hx; by apply E', (HX q)). by apply E', (M4 q).
    - exfalso. assert (~ X q) as Hn by (intros Hx; by apply E, (HX q)). by apply E, (M4 q). }
  pose proof (mi_at m I c) as [J1 J2]. apply minv_after; try done.
  - rewrite M2. apply (mi_id m I).
  - split; [congruence|]. destruct a as [|p|p|p]; try done. apply Hr. cbn in Ha.
    destruct (m_at m c) as [|q|q|q] eqn:E; try done; injection Ha as <-; [by destruct J2|done|by edestruct Hl].
  - intros q _ _. split; apply Hr.
  - intros q Hq. left. congruence.
  - intros q Hq _. congruence.
Qed.

Lemma minv_left m c p s' :
  minv m -> m_at m c = Runs p -> left p (view m c) s' -> minv (after m c (Left p) (m_fork m) s').
Proof.
  intros I E ([M1 M2 M3 M4 M5] & Hn & Hh). pose proof (mi_at m I c) as [J1 J2]. rewrite E in J1, J2.
  pose proof (mi_id m I c) as Hid. apply minv_after; try done.
  - by rewrite M2.
  - split; [by rewrite M1|]. split; [done|]. unfold view in Hh; cbn in Hh. by rewrite Hid in Hh.
  - intros q _ Hq. apply M4. cbn in Hq. congruence.
  - intros q Hq. left. by rewrite E.
  - intros q. rewrite E. cbn. done.
  - destruct (mi_forks m I) as [F1 F2]. split; [|done]. intros q np Hq. apply M5; [|by eapply F1].
    intros <-. pose proof (F1 q p Hq) as Hu. unfold instate, view in *; cbn in *. congruence.
Qed.

Lemma minv_pick m c p s' :
  minv m -> m_at m c = AtSched -> scheduler_enter p (view m c) = Ok true s' ->
  minv (after m c (Entered p) (m_fork m) s').
Proof.
  intros I E H. apply enter_inv in H as (H1 & H2 & H3 & H4 & H5 & H6 & H7 & H8).
  pose proof (mi_id m I c) as Hid. apply minv_after; try done.
  - by rewrite H4.
  - split; [done|]. split; [done|]. unfold view in H7; cbn in H7. by rewrite Hid in H7.
  - intros q _ Hq. unfold instate. rewrite H8; [done|]. cbn in Hq. congruence.
  - intros q [= <-]. right. intros c' Hc'. pose proof (mi_at m I c') as [_ J].
    destruct (m_at m c') as [|q|q|q]; [done|..]; injection Hc' as ->.
    + by eapply H2, J.
    + unfold instate, view in *; cbn in *. congruence.
    + by eapply H2, J.
  - rewrite E. done.
  - destruct (mi_forks m I) as [F1 F2]. split; [|done]. intros q np Hq. pose proof (F1 q np Hq) as Hu.
    unfold instate, view in *; cbn in *. rewrite H8; [done|]. intros ->. congruence.
Qed.

Lemma minv_back m c p s' :
  minv m -> m_at m c = Left p -> scheduler_return p (view m c) = Ok tt s' ->
  minv (after m c AtSched (m_fork m) s').
Proof.
  intros I E (H1 & H2 & H3 & H4)%back_inv. pose proof (mi_at m I c) as [J1 J2]. rewrite E in J2.
  apply minv_after; try done.
  - rewrite H2. apply (mi_id m I).
  - intros q _ _. unfold instate. by rewrite H1.
  - intros q. rewrite E. cbn. intros [= <-]. unfold instate in *. rewrite H1. naive_solver.
  - destruct (mi_forks m I) as [F1 F2]. split; [|done]. intros q np Hq. unfold instate. rewrite H1. by apply (F1 q).
Qed.

Lemma minv_step m c a fk s' :
  minv m -> kstep (m_fork m) (view m c) (m_at m c) a fk s' -> minv (after m c a fk s').
Proof.
  intros I H. pose proof (mi_forks m I) as F. pose proof (mi_at m I c) as [J1 J2].
  remember (m_at m c) as b eqn:Eb. symmetry in Eb.
  assert (forall a', mild none (view m c) s' -> on_cpu_of a' = on_cpu_of b -> at_work a' ->
    (forall p, b <> Left p) -> minv (after m c a' (m_fork m) s')) as Hmild.
  { intros a' Hm Ha Hw Hl. eapply (minv_mild none); rewrite ?Eb; try done. exact (forks_mild _ (view m c) _ F Hm). }
  destruct H.
  - by eapply minv_pick.
  - apply Hmild; [by apply (enter_inv p false)|done..].
  - apply Hmild; [by eapply release_mild|done..].
  - apply Hmild; [by eapply yield_return_mild|done..].
  - apply Hmild; [by eapply sleep_awake_mild|done..].
  - apply minv_left; [done|done|by eapply yield_left].
  - apply minv_left; [done|done|by eapply sleep_left].
  - apply minv_left; [done|done|by eapply exit_left].
  - by eapply minv_back.
  - apply allocproc_mild in H0 as (Hm & Hu & Hn). eapply (minv_mild none); rewrite ?Eb; try done. exact (forks_start _ _ _ (view m c) _ F Hm Hn Hu).
  - apply allocproc_mild in H as (Hm & _). by apply Hmild.
  - apply freeproc_mild in H0 as (Hm & Hu). pose proof (proj1 F _ _ H) as Hnu.
    eapply (minv_mild (eq np)); try done; rewrite ?Eb; try done.
    + intros q <-. unfold instate, view in *; cbn in *. split; congruence.
    + exact (forks_end _ _ _ (view m c) _ F H Hm).
  - apply fork_ready_mild in H0 as (Hm & Hu). pose proof (proj1 F _ _ H) as Hnu.
    eapply (minv_mild (eq np)); try done; rewrite ?Eb; try done.
    + intros q <-. unfold instate, view in *; cbn in *. split; congruence.
    + exact (forks_end _ _ _ (view m c) _ F H Hm).
  - apply freeproc_mild in H0 as (Hm & Hu). apply Hmild; try done.
    eapply mild_none; [exact Hm|..]; unfold instate in *; [split|]; congruence.
  - apply Hmild; try done; [by eapply wakeup_at_mild|by destruct a].
  - apply Hmild; try done. by eapply kill_at_mild.
  - apply Hmild; try done; [by eapply acquire_mild|by destruct a].
  - apply Hmild; try done; [by eapply release_mild|by destruct a].
  - apply Hmild; try done; [|by destruct a]. split; try done.
    + unfold cpuid. by f_equal.
    + by apply locks_foreign.
    + intros q _. unfold instate. by rewrite H3.
    + intros q _. unfold instate. by rewrite H3.
Qed.

Lemma minv_steps m m' : minv m -> msteps m m' -> minv m'.
Proof. intros I H. induction H; [done|by apply minv_step]. Qed.

(** ** The theorem *)

(** Every CPU has just entered [scheduler]. *)
Definition booted (m : msys) : Prop :=
  (forall c, m_at m c = AtSched /\ c_proc (snd (m_cpus m c)) = None /\ cpuid (fst (m_cpus m c)) = cno c) /\
  (forall p, m_fork m p = None) /\ (forall p, ~ running (m_sys m) p).

Lemma minv_booted m : booted m -> minv m.
Proof.
  intros (H1 & H2 & H3). split.
  - intros c. apply H1.
  - intros c. destruct (H1 c) as (-> & ? & _). done.
  - intros c1 c2 p. destruct (H1 c1) as (-> & _). done.
  - intros p Hp. by destruct (H3 p).
  - split; intros p; rewrite H2; done.
Qed.

(** C1. The scheduler never runs a process on two CPUs.  From start-up, under any
    interleaving of the critical sections of [scheduler], [sched], [yield],
    [sleep], [wakeup], [kill], [exit], [fork], [wait] and interrupt handlers on
    eight CPUs: [c->proc] of two CPUs never names the same process; a process in
    state RUNNING is [c->proc] of exactly one CPU; a CPU that executes a process
    finds it RUNNING, and between [sched] and the end of the scheduler's turn the
    CPU that stopped it holds its lock. *)
Theorem sched_exclusive m0 m :
  booted m0 -> msteps m0 m ->
  (forall c1 c2 p, c_proc (snd (m_cpus m c1)) = Some p -> c_proc (snd (m_cpus m c2)) = Some p -> c1 = c2) /\
  (forall p, p_state (k_procs (m_sys m) p) = RUNNING ->
     exists c, c_proc (snd (m_cpus m c)) = Some p /\ forall c', c_proc (snd (m_cpus m c')) = Some p -> c' = c) /\
  (forall c p, m_at m c = Runs p -> c_proc (snd (m_cpus m c)) = Some p /\ p_state (k_procs (m_sys m) p) = RUNNING) /\
  (forall c p, m_at m c = Left p ->
     c_proc (snd (m_cpus m c)) = Some p /\ holding (cno c) (k_locks (m_sys m) (LkProc p)) = true).
Proof.
  intros Hb Hs. apply minv_booted in Hb. apply (minv_steps _ _ Hb) in Hs as [I1 I2 I3 I4 _].
  assert (forall c, c_proc (snd (m_cpus m c)) = on_cpu_of (m_at m c)) as Hc by (intros c; apply (I2 c)).
  split; [intros c1 c2 p; rewrite !Hc; apply I3|]. split; [|split].
  - intros p Hp. destruct (I4 p Hp) as [c Ec]. exists c. rewrite Hc. split; [done|].
    intros c'. rewrite Hc. intros E. by eapply I3.
  - intros c p E. rewrite Hc. destruct (I2 c) as [_ J]. by rewrite E in *.
  - intros c p E. rewrite Hc. destruct (I2 c) as [_ J]. rewrite E in *. split; [done|]. destruct J as [_ [J1 J2]].
    unfold holding, view in *; cbn in *. apply andb_true_iff. split; [by apply negb_true_iff, Z.eqb_neq|].
    by apply bool_decide_eq_true.
Qed.
End sched_spec.

(** Two runnable processes. *)
Definition demo_two : kernel unit unit :=
  set_kprocs (fun p => match p with
    | 1%nat | 2%nat => demo_proc RUNNABLE None (Z.of_nat p) None
    | _ => demo_proc UNUSED None 0 None end) demo_kernel.

Definition demo_boot : msys (S := unit) (D := unit) :=
  mkmsys (fun c => (boot_hart (cno c), boot_cpu)) (fun _ => AtSched) (fun _ => None) demo_two.

Definition demo_pick (m : msys (S := unit) (D := unit)) (c : fin NCPU) (p : nat) : msys :=
  after m c (Entered p) (m_fork m) (end_of (scheduler_enter p) (view m c)).

Lemma sched_exclusive_witness :
  let m := demo_pick (demo_pick demo_boot 0%fin 1) 1%fin 2 in
  p_state (k_procs (m_sys m) 2%nat) = RUNNING /\
  exists c, c_proc (snd (m_cpus m c)) = Some 2%nat /\
    forall c', c_proc (snd (m_cpus m c')) = Some 2%nat -> c' = c.
Proof.
  intros m. assert (p_state (k_procs (m_sys m) 2%nat) = RUNNING) as Hr by (vm_compute; reflexivity).
  split; [exact Hr|].
  destruct (fun Hb Hs => sched_exclusive 0 0 0 demo_boot m Hb Hs) as (_ & H & _).
  - split_and!; [|done|].
    + intros c. split_and!; try done. by inv_all_vec_fin.
    + intros p. unfold instate. destruct p as [|[|[|p]]]; done.
  - eapply (ms_step 0 0 0 _ (demo_pick demo_boot 0%fin 1)); [eapply ms_step; [apply ms_refl|]|]; (apply ks_pick, (end_of_ok Bool.eqb); [apply eqb_true_iff|vm_compute; reflexivity]).
  - exact (H _ Hr).
Defined.
