(* ===== verification/Exec.v ===== *)
(** * [exec]: [src/kernel/exec.c] and [include/kernel/elf.h]

    The headers of the executable are read into local structures, lists of
    bytes with the offsets of the C structures; segments are read into the
    physical pages of the new page table.  The arguments are strings in
    physical memory. *)

From stdpp Require Import functions.
From S2P Require Import Prelude Memory CString Riscv Csr Spinlock Kalloc Vm Copy Block Cache Log Fs Kernel Proc Uart Printf Console Pipe File Process.

Definition ELF_MAGIC : Z := 0x464C457F.
Definition ELF_PROG_LOAD : Z := 1.
Definition ELFHDR_SIZE : Z := 64.
Definition PROGHDR_SIZE : Z := 56.
Definition MAXARG : Z := 32.

Definition field (n : nat) (l : list Z) (off : nat) : Z := le_val (read_at l off n).

(** [struct elfhdr] *)
Record elfhdr := mkelfhdr {
  elf_magic : Z;
  elf_type : Z;
  elf_machine : Z;
  elf_version : Z;
  elf_entry : Z;
  elf_phoff : Z;
  elf_shoff : Z;
  elf_flags : Z;
  elf_ehsize : Z;
  elf_phentsize : Z;
  elf_phnum : Z;
  elf_shentsize : Z;
  elf_shnum : Z;
  elf_shstrndx : Z
}.

(** [struct elfhdr] in the 64 bytes read from the file. *)
Definition elfhdr_of (e : list Z) : elfhdr :=
  mkelfhdr (field 4 e 0) (field 2 e 16) (field 2 e 18) (field 4 e 20) (field 8 e 24) (field 8 e 32) (field 8 e 40)
    (field 4 e 48) (field 2 e 52) (field 2 e 54) (field 2 e 56) (field 2 e 58) (field 2 e 60) (field 2 e 62).

Record proghdr := mkproghdr {
  ph_type : Z;
  ph_flags : Z;
  ph_off : Z;
  ph_vaddr : Z;
  ph_paddr : Z;
  ph_filesz : Z;
  ph_memsz : Z;
  ph_align : Z
}.

(** [struct proghdr] in 56 bytes of the file. *)
Definition proghdr_of (h : list Z) : proghdr :=
  mkproghdr (field 4 h 0) (field 4 h 4) (field 8 h 8) (field 8 h 16) (field 8 h 24) (field 8 h 32) (field 8 h 40) (field 8 h 48).

(** [for(last=s=path; *s; s++) if( *s == '/') last = s+1;] *)
Fixpoint last_elem (path last : list Z) : list Z :=
  match path with
  | [] => last
  | c :: path' => if c =? 47 then last_elem path' path' else last_elem path' last
  end.

Section exec.
Context {S B D : Type} `{!BlockCache S B} `{!Mmio D}.
Variables kend trampoline : Z.

Abbreviation kern := (kernel S D).

(** [namei] with the current directory of the process. *)
Definition k_cwd (path : list Z) : M kern nat :=
  let! p := curproc in
  let! q := get_proc p in
  match path, p_cwd q with
  | 47 :: _, _ => ret 0%nat
  | _, Some ip => ret ip
  | _, None => panic "null pointer"
  end.
Definition k_namei (path : list Z) : M kern (option nat) :=
  let! cwd := k_cwd path in
  with_pid (fun pid => namei pid cwd path).
Definition k_nameiparent (path name : list Z) : M kern (option nat * list Z) :=
  let! cwd := k_cwd path in
  with_pid (fun pid => nameiparent pid cwd path name).
Definition k_ilock (ip : nat) : M kern unit := with_pid (fun pid => ilock pid ip).
Definition k_iunlock (ip : nat) : M kern unit := with_pid (fun pid => iunlock pid ip).
Definition k_iput (ip : nat) : M kern unit := with_pid (fun pid => iput pid ip).
Definition k_iunlockput (ip : nat) : M kern unit := with_pid (fun pid => iunlockput pid ip).

(** [readi] into a local structure. *)
Definition readi_local (ip : nat) (buf : list Z) (off n : Z) : M kern (Z * list Z) :=
  on_fs (readi de_copyout ip buf 0 off n).

(** [for(i = 0; i < sz; i += PGSIZE)] of [loadseg] *)
Fixpoint loadseg_loop (fuel : nat) (pagetable va : Z) (ip : nat) (offset sz i : Z) : M kern Z :=
  match fuel with
  | O => panic "loadseg: fuel"
  | Datatypes.S f =>
      if i <? sz then
        let! pa := on_phys (walkaddr pagetable (u64 (va + i))) in
        if pa =? 0 then panic "loadseg: address should exist"
        else
          let n := if u32 (sz - i) <? PGSIZE then u32 (sz - i) else PGSIZE in
          let! r := k_readi ip false pa (u32 (offset + i)) n in
          if negb (r =? n) then ret (-1)
          else loadseg_loop f pagetable va ip offset sz (u32 (i + PGSIZE))
      else ret 0
  end.

Definition loadseg (pagetable va : Z) (ip : nat) (offset sz : Z) : M kern Z :=
  loadseg_loop (Z.to_nat (sz / PGSIZE + 2)) pagetable va ip offset sz 0.

(** [for(i=0, off=elf.phoff; i<elf.phnum; i++, off+=sizeof(ph))]: the value of
    [sz] and whether no step failed. *)
Fixpoint exec_load (n : nat) (pagetable : Z) (ip : nat) (off sz : Z) (ph : list Z) : M kern (Z * bool) :=
  match n with
  | O => ret (sz, true)
  | Datatypes.S n' =>
      let! r := readi_local ip ph (u32 off) PROGHDR_SIZE in
      let ph := snd r in
      let off' := s32 (off + PROGHDR_SIZE) in
      if negb (fst r =? PROGHDR_SIZE) then ret (sz, false)
      else if negb (ph_type (proghdr_of ph) =? ELF_PROG_LOAD) then exec_load n' pagetable ip off' sz ph
      else if ph_memsz (proghdr_of ph) <? ph_filesz (proghdr_of ph) then ret (sz, false)
      else if u64 (ph_vaddr (proghdr_of ph) + ph_memsz (proghdr_of ph)) <? ph_vaddr (proghdr_of ph) then ret (sz, false)
      else
        let! sz1 := on_phys (uvmalloc kend pagetable sz (u64 (ph_vaddr (proghdr_of ph) + ph_memsz (proghdr_of ph)))) in
        if sz1 =? 0 then ret (sz, false)
        else if negb (ph_vaddr (proghdr_of ph) mod PGSIZE =? 0) then ret (sz1, false)
        else
          let! r := loadseg pagetable (ph_vaddr (proghdr_of ph)) ip (u32 (ph_off (proghdr_of ph))) (u32 (ph_filesz (proghdr_of ph))) in
          if r <? 0 then ret (sz1, false)
          else exec_load n' pagetable ip off' sz1 ph
  end.

(** The label [bad]. *)
Definition exec_bad (pagetable sz : Z) (ip : option nat) : M kern Z :=
  (if negb (pagetable =? 0) then on_phys (proc_freepagetable kend pagetable sz) else ret tt) ;;
  (match ip with
   | Some ip => k_iunlockput ip ;; k_end_op
   | None => ret tt
   end) ;;
  ret (-1).

(** [sp -= n; sp -= sp % 16;] *)
Definition push_sp (sp n : Z) : Z := let sp := u64 (sp - n) in sp - sp mod 16.

(** [strlen] of a string in physical memory, at most a page long. *)
Definition strlen_at (a : Z) : M kern Z :=
  let! m := gets (fun s => p_mem (k_phys s)) in
  match strlen 4097 m a with Some n => ret n | None => panic "strlen: fuel" end.

(** The loop that pushes the argument strings; [ustack] is collected in
    order.  [None] for [goto bad]. *)
Fixpoint exec_args (pagetable stackbase : Z) (argv : list Z) (argc sp : Z) (ustack : list Z) :
    M kern (option (Z * Z * list Z)) :=
  match argv with
  | [] => ret (Some (argc, sp, ustack))
  | a :: argv' =>
      if MAXARG <=? argc then ret None
      else
        let! n := strlen_at a in
        let sp := push_sp sp (n + 1) in
        if sp <? stackbase then ret None
        else
          let! r := on_phys (copyout pagetable sp a (n + 1)) in
          if r <? 0 then ret None
          else exec_args pagetable stackbase argv' (argc + 1) sp (ustack ++ [sp])
  end.

(** From the allocation of the stack to the end. *)
Definition exec_stack (path argv elf : list Z) (pagetable sz : Z) : M kern Z :=
  let! p := curproc in
  let! q := get_proc p in
  let oldsz := p_sz q in
  let sz := PGROUNDUP sz in
  let! sz1 := on_phys (uvmalloc kend pagetable sz (u64 (sz + 2 * PGSIZE))) in
  if sz1 =? 0 then exec_bad pagetable sz None
  else
    let sz := sz1 in
    on_phys (uvmclear pagetable (sz - 2 * PGSIZE)) ;;
    let stackbase := sz - PGSIZE in
    let! r := exec_args pagetable stackbase argv 0 sz [] in
    match r with
    | None => exec_bad pagetable sz None
    | Some (argc, sp, ustack) =>
        let ustack := ustack ++ [0] in
        let sp := push_sp sp ((argc + 1) * 8) in
        if sp <? stackbase then exec_bad pagetable sz None
        else
          let! r := on_phys (copyout_bytes pagetable sp (concat (map (le_bytes 8) ustack))) in
          if r <? 0 then exec_bad pagetable sz None
          else
            store_tf p (TF_a 1) sp ;;
            upd_proc p (fun q => set_name (copy_name (p_name q) (last_elem path path)) q) ;;
            let! q := get_proc p in
            let oldpagetable := p_pagetable q in
            upd_proc p (set_pagetable pagetable) ;;
            upd_proc p (set_sz sz) ;;
            store_tf p TF_epc (elf_entry (elfhdr_of elf)) ;;
            store_tf p TF_sp sp ;;
            on_phys (proc_freepagetable kend oldpagetable oldsz) ;;
            ret (s32 argc)
    end.

(** [argv] is the array up to its null pointer.  The local structures [elf]
    and [ph] start with whatever the stack holds; here, zeros. *)
Definition exec (path argv : list Z) : M kern Z :=
  let! p := curproc in
  k_begin_op ;;
  let! ip := k_namei path in
  match ip with
  | None => k_end_op ;; ret (-1)
  | Some ip =>
      k_ilock ip ;;
      let! r := readi_local ip (repeat 0 64) 0 ELFHDR_SIZE in
      let elf := snd r in
      if negb (fst r =? ELFHDR_SIZE) then exec_bad 0 0 (Some ip)
      else if negb (elf_magic (elfhdr_of elf) =? ELF_MAGIC) then exec_bad 0 0 (Some ip)
      else
        let! q := get_proc p in
        let! pagetable := on_phys (proc_pagetable kend trampoline (p_trapframe q)) in
        if pagetable =? 0 then exec_bad 0 0 (Some ip)
        else
          let! r := exec_load (Z.to_nat (elf_phnum (elfhdr_of elf))) pagetable ip (s32 (elf_phoff (elfhdr_of elf))) 0 (repeat 0 56) in
          if negb (snd r) then exec_bad pagetable (fst r) (Some ip)
          else
            k_iunlockput ip ;;
            k_end_op ;;
            exec_stack path argv elf pagetable (fst r)
  end.
End exec.
