(* ===== verification/ExecProofs.v ===== *)
(** * The steps of [exec]

    What [exec] does to the file system while it reads the executable, to the
    pages of the new program while segments and arguments are loaded, and how
    the two are composed in the kernel's state. *)

From stdpp Require Import functions.
From S2P Require Import Prelude Memory CString Riscv Csr Spinlock Kalloc Vm Copy PageTable VmProofs VmCopy VmSpace VmFree VmFork VmExec Block Cache Sleeplock Log LogProofs LogSpec Fs FsBlocks FsAlloc FsMap FsFile FsInode FsTrunc FsDir FsName FsSpec Kernel Proc ProcRun Uart Printf Console Pipe File Process Exec.

#[local] Set Warnings "-clear-no-such-hyp".

(** ** Slices of a file *)

(** The [n] bytes of [f] from [off] on, if it has them. *)
Definition slice (f : list Z) (off n : Z) : option (list Z) :=
  let l := take (Z.to_nat n) (drop (Z.to_nat off) f) in
  if Z.of_nat (length l) =? n then Some l else None.

Lemma file_read_slice D i len off n :
  0 <= off -> 0 <= n -> 0 <= len -> let k := Z.min n (len - off) in 0 <= k ->
  file_read D i off k = take (Z.to_nat n) (drop (Z.to_nat off) (file_read D i 0 len)).
Proof.
  intros Hoff Hn Hlen k Hk. unfold file_read. apply list_eq. intros j.
  destruct (decide (j < Z.to_nat k)%nat) as [Hj|Hj].
  - rewrite map_seqZ_lookup by done. rewrite lookup_take_lt by lia. rewrite lookup_drop, map_seqZ_lookup by lia. do 2 f_equal. lia.
  - rewrite lookup_ge_None_2 by (rewrite length_map_seqZ; lia). symmetry. apply lookup_ge_None_2.
    rewrite length_take, length_drop, length_map_seqZ. lia.
Qed.

Lemma slice_bytes f off n l : Forall is_byte f -> slice f off n = Some l -> Forall is_byte l /\ Z.of_nat (length l) = n.
Proof.
  intros Hf. unfold slice. destruct (Z.eqb_spec (Z.of_nat (length (take (Z.to_nat n) (drop (Z.to_nat off) f)))) n) as [E|]; [|done]. intros [= <-].
  split; [by apply Forall_take, Forall_drop|done].
Qed.

Lemma slice_some f off n :
  0 <= off -> 0 <= n -> n = 0 \/ off + n <= Z.of_nat (length f) -> slice f off n = Some (take (Z.to_nat n) (drop (Z.to_nat off) f)).
Proof.
  intros Hoff Hn H. unfold slice. destruct (Z.eqb_spec (Z.of_nat (length (take (Z.to_nat n) (drop (Z.to_nat off) f)))) n) as [|E]; [done|].
  exfalso. apply E. rewrite length_take, length_drop. lia.
Qed.

Lemma slice_none f off n : 0 <= off -> 0 < n -> Z.of_nat (length f) < off + n -> slice f off n = None.
Proof.
  intros Hoff Hn H. unfold slice. destruct (Z.eqb_spec (Z.of_nat (length (take (Z.to_nat n) (drop (Z.to_nat off) f)))) n) as [E|]; [|done].
  exfalso. rewrite length_take, length_drop in E. lia.
Qed.

Lemma field_bounds n l off : Forall is_byte l -> 0 <= field n l off < 256 ^ Z.of_nat n.
Proof.
  intros Hl. unfold field. assert (Hb : Forall is_byte (read_at l off n)) by (unfold read_at; by apply Forall_take, Forall_drop).
  pose proof (le_val_bounds _ Hb) as H. unfold read_at in *. rewrite length_take, length_drop in H.
  pose proof (Z.pow_le_mono_r 256 (Z.of_nat (n `min` (length l - off))) (Z.of_nat n)) as Hp. lia.
Qed.

(** ** The program an executable denotes *)

(** The segments of the program headers from [off] on, over the image [img] of
    size [sz]: headers and contents must lie in the file, a segment is page
    aligned, not shorter in memory than in the file, and ends below the
    trapframe. *)
Fixpoint load_segs (n : nat) (f : list Z) (off sz : Z) (img : mem) : option (Z * mem) :=
  match n with
  | O => Some (sz, img)
  | Datatypes.S n' =>
      match slice f off PROGHDR_SIZE with
      | None => None
      | Some h =>
          let ph := proghdr_of h in
          if negb (ph_type ph =? ELF_PROG_LOAD) then load_segs n' f (off + PROGHDR_SIZE) sz img
          else
            let top := ph_vaddr ph + ph_memsz ph in
            if (ph_memsz ph <? ph_filesz ph) || (TRAPFRAME <? top) || (Z.max sz top =? 0) || negb (ph_vaddr ph mod PGSIZE =? 0) then None
            else
              match slice f (u32 (ph_off ph)) (ph_filesz ph) with
              | None => None
              | Some bytes => load_segs n' f (off + PROGHDR_SIZE) (Z.max sz top) (mem_write img (ph_vaddr ph) bytes)
              end
      end
  end.

(** The stack pointer after a push of [n] bytes. *)
Definition pushed_sp (sp n : Z) : Z := (sp - n) - (sp - n) mod 16.

(** The argument strings on the stack page that starts at [base]; [ustack] are
    their addresses. *)
Fixpoint push_strs (base : Z) (strs : list (list Z)) (sp : Z) (ustack : list Z) (img : mem) : option (Z * list Z * mem) :=
  match strs with
  | [] => Some (sp, ustack, img)
  | str :: strs' =>
      let sp := pushed_sp sp (Z.of_nat (length str) + 1) in
      if (MAXARG <=? Z.of_nat (length ustack)) || (sp <? base) then None
      else push_strs base strs' sp (ustack ++ [sp]) (mem_write img sp (str ++ [0]))
  end.

Record program := mkprogram {
  pg_entry : Z;
  pg_sz : Z;
  pg_sp : Z;
  pg_argc : Z;
  pg_img : mem
}.

(** The address space of the program in the file [f] when it is started with
    the arguments [strs]. *)
Definition exec_stack_image (entry sz : Z) (img : mem) (strs : list (list Z)) : option program :=
  let sz := (sz + 4095) / 4096 * 4096 + 2 * PGSIZE in
  if TRAPFRAME <? sz then None
  else
    match push_strs (sz - PGSIZE) strs sz [] img with
    | None => None
    | Some (sp, ustack, img) =>
        let sp := pushed_sp sp ((Z.of_nat (length ustack) + 1) * 8) in
        if sp <? sz - PGSIZE then None
        else Some (mkprogram entry sz sp (Z.of_nat (length ustack)) (mem_write img sp (concat (map (le_bytes 8) (ustack ++ [0])))))
    end.

Definition exec_image (f : list Z) (strs : list (list Z)) : option program :=
  match slice f 0 ELFHDR_SIZE with
  | None => None
  | Some e =>
      if negb (elf_magic (elfhdr_of e) =? ELF_MAGIC) then None
      else
        match load_segs (Z.to_nat (elf_phnum (elfhdr_of e))) f (u32 (elf_phoff (elfhdr_of e))) 0 (fun _ => 0) with
        | None => None
        | Some (sz, img) => exec_stack_image (elf_entry (elfhdr_of e)) sz img strs
        end
  end.

Lemma load_segs_mono n f off sz img sz' img' : load_segs n f off sz img = Some (sz', img') -> sz <= sz'.
Proof.
  revert off sz img. induction n as [|n IH]; intros off sz img; cbn [load_segs]; [intros [= -> _]; lia|].
  destruct (slice f off PROGHDR_SIZE) as [h|]; [|done]. case_match; [apply IH|]. case_match; [done|].
  destruct (slice f _ _) as [b|]; [|done]. intros Hm%IH. lia.
Qed.

(** ** The executable as a locked file *)
Section exec_fs.
Context {S B : Type} `{HBC : !BlockCache S B} (dev : Z) `{HCS : !CacheSpec S B dev}.
Variables (start size : Z) (dk : Z -> block) (sb : superblock).
Hypothesis Hstart : 0 <= start.
Hypothesis Hend : start + size <= 2147483648.
Hypothesis Hsize : 30 <= size.
Hypothesis Hly : layout sb.
Variable mypid : Z.
Variable D : Z -> block.
Hypothesis Hbit : bitmap_ok sb D.
Hypothesis Htree : tree_ok sb D.

Abbreviation settled := (settled dev start size dk sb D []).

(** Every file is well formed: its bytes are backed by blocks of its own. *)
Definition files_ok : Prop := forall inum, linked sb D inum ->
  let i := disk_inode sb D inum in
  file_wf sb D i /\ backed D i (i_size i) /\ 0 <= i_size i <= MAXFILE * BSIZE.
Hypothesis Hfiles : files_ok.

Definition contents (inum : Z) : list Z :=
  let i := disk_inode sb D inum in file_read D i 0 (i_size i).

Lemma contents_size inum : linked sb D inum -> Z.of_nat (length (contents inum)) = i_size (disk_inode sb D inum) /\ Z.of_nat (length (contents inum)) <= 274432.
Proof using Hfiles.
  intros Hl. destruct (Hfiles inum Hl) as (_ & _ & H). rewrite maxfile_bytes in H. unfold contents, file_read. rewrite length_map_seqZ. lia.
Qed.

(** No file system call is in progress; [R] are the reference counts. *)
Record fs_rest (R : Z -> Z -> Z) (s : fsst S) : Prop := {
  re_settled : settled None (set_fslog (set_outstanding 1 (fs_log s)) s);
  re_out : outstanding (fs_log s) = 0;
  re_committing : committing (fs_log s) = false;
  re_refs d n : refs_of (itable s) d n = R d n
}.

(** In the one operation in progress, [but] is locked. *)
Record fs_op (but : option nat) (s : fsst S) : Prop := {
  op_settled : settled but s;
  op_out : outstanding (fs_log s) = 1;
  op_committing : committing (fs_log s) = false
}.

Lemma rest_begin R s :
  fs_rest R s -> exists s', flift begin_op s = Ok tt s' /\ fs_op None s' /\ itable s' = itable s.
Proof using Type.
  intros [H1 H2 H3 H4]. exists (set_fslog (set_outstanding 1 (fs_log s)) s). split; [|by split].
  apply flift_Ok. unfold begin_op, bind, get. rewrite H3, H2. pose proof (lo_n _ _ _ _ _ (fr_log _ _ _ _ _ _ _ _ (se_rep _ _ _ _ _ _ _ _ _ H1))) as En.
  cbn in En. rewrite En. reflexivity.
Qed.

Lemma op_end s R : fs_op None s -> (forall d n, refs_of (itable s) d n = R d n) -> exists s', flift end_op s = Ok tt s' /\ fs_rest R s' /\ itable s' = itable s.
Proof using Type.
  intros [H1 H2 H3] HR. pose proof (lo_n _ _ _ _ _ (fr_log _ _ _ _ _ _ _ _ (se_rep _ _ _ _ _ _ _ _ _ H1))) as En. cbn [length] in En.
  destruct s as [sb' it [ls lz o c ld h x]]. cbn in *. subst o c.
  exists (mkfsst sb' it (mklogst ls lz 0 false ld h x)). split; [|split; [|done]].
  - destruct h as [n bl]. cbn in En. subst n. reflexivity.
  - split; cbn; done.
Qed.

Lemma op_keeps {A} but but' (m : M (fsst S) A) s a s' :
  fs_op but s -> keeps_ops m -> m s = Ok a s' -> settled but' s' -> fs_op but' s'.
Proof using Type. intros [_ H2 H3] Hk E Hs. destruct (Hk s a s' E) as [E1 E2]. split; [done|congruence..]. Qed.

(** [readi] from the locked executable *)
Lemma op_read {X} (copyout : Z -> list Z -> X -> X * Z) hi s ip inum x dst off n :
  (forall dst l x, 0 <= dst -> dst + Z.of_nat (length l) <= hi -> snd (copyout dst l x) <> -1) -> hi < 2 ^ 64 ->
  fs_op (Some ip) s -> holding_inode dev sb mypid D s ip inum -> linked sb D inum ->
  0 <= off < 2 ^ 32 -> 0 <= n <= 2 ^ 31 -> 0 <= dst -> dst + n <= hi ->
  exists s' cs, readi copyout ip x dst off n s = Ok (Z.of_nat (length (concat cs)), copy_chunks copyout dst cs x) s' /\
    concat cs = take (Z.to_nat n) (drop (Z.to_nat off) (contents inum)) /\
    fs_op (Some ip) s' /\ holding_inode dev sb mypid D s' ip inum /\ forall k, itable s' k = itable s k.
Proof using Hfiles Hly Hbit Hstart Hend Hsize.
  intros Hcopy Hhi Hop Hho Hlk Hoff Hn Hdst Hdn. pose proof (op_settled _ _ Hop) as Hse. pose proof Hho as [K1 K2 K3 K4]. pose proof K1 as (L1 & L2 & L3 & L4).
  destruct (loaded_fields sb D _ K3) as (F1 & F2 & F3 & F4). rewrite L4 in F1, F2, F3, F4. destruct (Hfiles inum Hlk) as (Hfw & Hbk & Hsz).
  pose proof (contents_size inum Hlk) as [Elen Hmax]. pose proof (file_wf_same sb D _ _ F4 Hfw) as Hfw'.
  assert (Hbk' : backed D (itable s ip) (i_size (itable s ip))) by (intros j Hj; rewrite (slot_same D _ _ _ F4), F3 in *; by apply Hbk).
  destruct (Z.ltb_spec (i_size (itable s ip)) off) as [Hover|Hover].
  { exists s, []. split; [|split; [|done]].
    - unfold readi, ientry, gets, bind. by destruct (Z.ltb_spec (i_size (itable s ip)) off); [|lia].
    - rewrite drop_ge by lia. by rewrite take_nil. }
  assert (Hat : at_inode dev start size dk sb s D [] ip (itable s ip)) by (split; try done; apply Hse).
  destruct (readi_run dev start size dk sb Hly copyout (fun _ => True) hi) with (s := s) (D := D) (bs := @nil Z) (ip := ip) (i := itable s ip) (x := x)
    (dst := dst) (off := off) (n := n) as (s' & cs & E & Hcs & Hat' & [Es Ho] & _); try done; try (cbn [length]; lia).
  { intros dst' l' x' _ H1 H2. split; [by apply Hcopy|done]. }
  all: try (rewrite F3; lia).
  all: try (rewrite F3 in Hover; lia).
  assert (Et : forall k, itable s' k = itable s k).
  { intros k. destruct (decide (k = ip)) as [->|]; [apply Hat'|by apply Ho]. }
  assert (Ecs : concat cs = take (Z.to_nat n) (drop (Z.to_nat off) (contents inum))).
  { rewrite Hcs, F3. unfold contents. rewrite <- (file_read_slice D _ (i_size (disk_inode sb D inum)) off n) by lia.
    unfold file_read. apply map_ext. intros j. by apply fbyte_same. }
  exists s', cs. split.
  { rewrite E. do 2 f_equal. rewrite Ecs, length_take, length_drop. lia. }
  split; [done|]. split; [|split; [split; unfold live; by rewrite Et|done]].
  eapply (op_keeps (Some ip) (Some ip)); [done| |exact E|]; [apply ops_readi|]. destruct Hse as [H1 H2 H3 H4 H5].
  destruct (itable_agree _ _ (fun k => conj (f_equal i_ref (Et k)) (conj (f_equal i_dev (Et k)) (f_equal i_inum (Et k)))) H3) as [Hok _].
  split; [apply Hat'|apply Hat'|done|intros k; rewrite Et; apply H4|]. intros m k. unfold live. rewrite Et. apply H5.
Qed.

Lemma op_namei s cwd c path :
  dev = ROOTDEV -> fs_op None s -> (head path = Some 47 \/ live (itable s) dev c cwd /\ linked sb D c) -> linked sb D ROOTINO ->
  nlive (itable s) + 2 <= Z.of_nat NINODE -> (forall n, refs_of (itable s) dev n < 2147483640) ->
  FsName.path_ok path -> Forall is_byte path ->
  exists r s', namei mypid cwd path s = Ok r s' /\ fs_op None s' /\
    match resolve sb D false (path_start c path) (path_elems path) with
    | Some n => exists ip, r = Some ip /\ live (itable s') dev n ip /\ linked sb D n /\
        forall d m, refs_of (itable s') d m = refs_of (itable s) d m + one dev n d m
    | None => r = None /\ forall d m, refs_of (itable s') d m = refs_of (itable s) d m
    end.
Proof using Hstart Hend Hsize Hly Hbit Htree.
  intros Hd Hop Hcwd Hroot Hn Href Hp Hpb.
  destruct (namex_run dev start size dk sb Hstart Hend Hsize Hly mypid D [] ltac:(cbn; lia) Hbit Htree s cwd c path false (repeat 0 14) Hd
    (op_settled _ _ Hop) Hcwd Hroot Hn Href Hp Hpb) as ([r nm] & s' & E & Hs & Hr); [done|by repeat constructor|].
  assert (En : namei mypid cwd path s = Ok r s') by (unfold namei; by rewrite (bind_Ok _ _ _ _ _ E)).
  exists r, s'. split; [done|]. split; [eapply (op_keeps None None); [done| |exact En|done]; apply ops_namei|].
  cbn [fst] in Hr. destruct (resolve _ _ _ _ _) as [n|]; [|done]. destruct Hr as (ip & H1 & H2 & H3 & H4 & _). by exists ip.
Qed.

Lemma op_ilock s ip inum :
  fs_op None s -> live (itable s) dev inum ip -> linked sb D inum ->
  exists s', ilock mypid ip s = Ok tt s' /\ fs_op (Some ip) s' /\ holding_inode dev sb mypid D s' ip inum /\
    forall d n, refs_of (itable s') d n = refs_of (itable s) d n.
Proof using Hstart Hend Hsize Hly.
  intros Hop Hl Hlk.
  destruct (name_ilock dev start size dk sb Hstart Hend Hsize Hly mypid D [] ltac:(cbn; lia) s ip inum (op_settled _ _ Hop) Hl Hlk) as (s' & E & Hs & Hh & Hr & _).
  exists s'. split; [done|]. split; [eapply (op_keeps None (Some ip)); [done| |exact E|done]; apply ops_lock|]. done.
Qed.

Lemma op_close s ip inum R :
  fs_op (Some ip) s -> holding_inode dev sb mypid D s ip inum -> linked sb D inum ->
  (forall d n, refs_of (itable s) d n = R d n + one dev inum d n) ->
  exists s1 s2, iunlockput mypid ip s = Ok tt s1 /\ flift end_op s1 = Ok tt s2 /\ fs_rest R s2.
Proof using Hstart Hend Hsize Hly.
  intros Hop Hh Hlk HR.
  destruct (name_unlockput dev start size dk sb Hstart Hend Hsize Hly mypid D [] ltac:(cbn; lia) s ip inum (op_settled _ _ Hop) Hh Hlk) as (s1 & E & Hs & _ & Hr & _).
  assert (Hop1 : fs_op None s1) by (eapply (op_keeps (Some ip) None); [done| |exact E|done]; apply ops_iunlockput).
  destruct (op_end s1 R Hop1) as (s2 & E2 & H2 & _); [|by exists s1, s2].
  intros d n. rewrite Hr, HR. unfold one. case_decide; lia.
Qed.
End exec_fs.

(** ** The kernel's state *)
Section exec_kernel.
Context {S B Dv : Type} `{HBC : !BlockCache S B}.

Abbreviation kern := (kernel S Dv).

(** [k] with another memory and file system *)
Definition with_pf (k : kern) (ph : phys) (fs : fsst S) : kern := set_kphys ph (set_kfs fs k).

Variables (k : kern) (p : nat).
Hypothesis Hcalm : calm k.
Hypothesis Hproc : c_proc (k_cpu k) = Some p.

Lemma on_phys_pf {A} (m : M phys A) ph fs a ph' : m ph = Ok a ph' -> on_phys m (with_pf k ph fs) = Ok a (with_pf k ph' fs).
Proof using Type. intros E. unfold on_phys, zoom. cbn. by rewrite E. Qed.

Lemma on_fs_pf {A} (m : M (fsst S) A) ph fs a fs' : m fs = Ok a fs' -> on_fs m (with_pf k ph fs) = Ok a (with_pf k ph fs').
Proof using Type. intros E. unfold on_fs, zoom. cbn. by rewrite E. Qed.

Lemma curproc_pf ph fs : curproc (with_pf k ph fs) = Ok p (with_pf k ph fs).
Proof using Hcalm Hproc. by apply curproc_ok. Qed.

Lemma with_pid_pf {A} (m : Z -> M (fsst S) A) ph fs a fs' :
  m (p_pid (k_procs k p)) fs = Ok a fs' -> with_pid m (with_pf k ph fs) = Ok a (with_pf k ph fs').
Proof using Hcalm Hproc.
  intros E. unfold with_pid. rewrite (bind_Ok _ _ _ _ _ (curproc_pf ph fs)). erewrite bind_Ok by reflexivity. by apply on_fs_pf.
Qed.

Lemma k_readi_pf ip u dst off n ph fs r ph' fs' :
  readi (copy_to u (p_pagetable (k_procs k p))) ip ph dst off n fs = Ok (r, ph') fs' ->
  k_readi ip u dst off n (with_pf k ph fs) = Ok r (with_pf k ph' fs').
Proof using Hcalm Hproc.
  intros E. unfold k_readi. rewrite (bind_Ok _ _ _ _ _ (curproc_pf ph fs)). do 2 (erewrite bind_Ok by reflexivity).
  rewrite (bind_Ok _ _ _ _ _ (on_fs_pf _ ph fs _ fs' E)). by erewrite bind_Ok by reflexivity.
Qed.
End exec_kernel.

(** ** Loading *)

Lemma mem_write_app m a l1 l2 x : mem_write (mem_write m a l1) (a + Z.of_nat (length l1)) l2 x = mem_write m a (l1 ++ l2) x.
Proof.
  unfold mem_write. rewrite length_app, Nat2Z.inj_add. repeat case_range; try lia.
  - rewrite app_nth2 by lia. f_equal. lia.
  - rewrite app_nth1 by lia. done.
Qed.

(** [readi] into physical memory *)
Lemma copy_to_chunks pg cs dst ph :
  exists m', copy_chunks (copy_to false pg) dst cs ph = mkphys m' (freelist ph) /\ forall x, m' x = mem_write (p_mem ph) dst (concat cs) x.
Proof.
  revert dst ph. induction cs as [|c cs IH]; intros dst ph; cbn [copy_chunks concat].
  - exists (p_mem ph). split; [by destruct ph|]. intros x. unfold mem_write. case_range; [cbn in *; lia|done].
  - cbn [copy_to fst]. destruct (IH (dst + Z.of_nat (length c)) (mkphys (mem_write (p_mem ph) dst c) (freelist ph))) as (m' & E & Hm).
    exists m'. split; [done|]. intros x. rewrite Hm. apply mem_write_app.
Qed.

Lemma header_bounds h : Forall is_byte h -> let hd := proghdr_of h in
  0 <= ph_vaddr hd < 18446744073709551616 /\ 0 <= ph_filesz hd /\ 0 <= ph_memsz hd < 18446744073709551616.
Proof.
  intros Hh. cbn. pose proof (field_bounds 8 h 16 Hh) as H1. pose proof (field_bounds 8 h 32 Hh) as H2. pose proof (field_bounds 8 h 40 Hh) as H3.
  change (256 ^ Z.of_nat 8) with 18446744073709551616 in *. lia.
Qed.

Lemma u32_s32 x : u32 (s32 x) = u32 x.
Proof.
  unfold u32, s32, uwrap, swrap. change (2 ^ 32) with 4294967296. change (2 ^ (32 - 1)) with 2147483648.
  destruct (Z.ltb_spec (x mod 4294967296) 2147483648); Z.div_mod_to_equations; lia.
Qed.

Lemma next_header off offs : u32 off = offs -> offs + 56 < 4294967296 -> u32 (s32 (off + 56)) = offs + 56.
Proof. intros <- H. rewrite u32_s32. ring_lia. Qed.

Section loading.
Context {S B Dv : Type} `{HBC : !BlockCache S B} (dev : Z) `{HCS : !CacheSpec S B dev}.
Variables (start size : Z) (dk : Z -> block) (sb : superblock).
Hypothesis Hstart : 0 <= start.
Hypothesis Hend : start + size <= 2147483648.
Hypothesis Hsize : 30 <= size.
Hypothesis Hly : layout sb.
Variable D : Z -> block.
Hypothesis Hbit : bitmap_ok sb D.
Hypothesis Hfiles : files_ok sb D.
Variables (kend : Z) (k : kernel S Dv) (p : nat).
Hypothesis kend_pos : 0 < kend.
Hypothesis Hcalm : calm k.
Hypothesis Hproc : c_proc (k_cpu k) = Some p.
(** The executable *)
Variables (ip : nat) (inum : Z).
Hypothesis Hlk : linked sb D inum.
(** The pages of the new program *)
Variables (m0 : mem) (l0 : list Z) (top : Z -> option Z) (pt : Z).

Abbreviation mypid := (p_pid (k_procs k p)).
Abbreviation f := (contents sb D inum).
Abbreviation building := (building kend m0 l0 top).

(** The executable is open in [fs], whose inode table is that of [fs0]. *)
Record reading (fs0 fs : fsst S) : Prop := {
  rd_op : fs_op dev start size dk sb D (Some ip) fs;
  rd_hold : holding_inode dev sb mypid D fs ip inum;
  rd_same j : itable fs j = itable fs0 j
}.

Lemma reading_read {X} (copyout : Z -> list Z -> X -> X * Z) hi fs0 fs x dst off n :
  (forall dst l x, 0 <= dst -> dst + Z.of_nat (length l) <= hi -> snd (copyout dst l x) <> -1) -> hi < 2 ^ 64 ->
  reading fs0 fs -> 0 <= off < 2 ^ 32 -> 0 <= n <= 2 ^ 31 -> 0 <= dst -> dst + n <= hi ->
  exists fs' cs, readi copyout ip x dst off n fs = Ok (Z.of_nat (length (concat cs)), copy_chunks copyout dst cs x) fs' /\
    concat cs = take (Z.to_nat n) (drop (Z.to_nat off) f) /\ reading fs0 fs'.
Proof using Hfiles Hly Hbit Hstart Hend Hsize Hlk.
  intros Hc Hhi [H1 H2 H3] Hoff Hn Hdst Hdn.
  destruct (op_read dev start size dk sb Hstart Hend Hsize Hly mypid D Hbit Hfiles copyout hi fs ip inum x dst off n Hc Hhi H1 H2 Hlk Hoff Hn Hdst Hdn)
    as (fs' & cs & E & Ecs & G1 & G2 & G3).
  exists fs', cs. split; [done|]. split; [done|]. split; [done|done|]. intros j. by rewrite G3.
Qed.

Lemma loadseg_loop_run fuel fs0 fs ph l frames img va off sz i :
  let done := Z.min i sz in
  building ph l pt frames None (mem_write img va (take (Z.to_nat done) (drop (Z.to_nat off) f))) -> reading fs0 fs ->
  0 <= va -> va mod 4096 = 0 -> 0 <= sz -> va + sz <= Z.of_nat (length frames) * 4096 -> 0 <= off < 4294967296 ->
  0 <= i -> i mod 4096 = 0 -> done = 0 \/ off + done <= Z.of_nat (length f) -> 1 <= Z.of_nat fuel -> sz <= i + 4096 * (Z.of_nat fuel - 1) ->
  exists r ph' fs', loadseg_loop fuel pt va ip off sz i (with_pf k ph fs) = Ok r (with_pf k ph' fs') /\ reading fs0 fs' /\
    (r = 0 /\ (exists bytes, slice f off sz = Some bytes /\ building ph' l pt frames None (mem_write img va bytes)) \/
     r = -1 /\ slice f off sz = None /\ exists img', building ph' l pt frames None img').
Proof using All.
  revert fs ph i. induction fuel as [|fuel IH]; intros fs ph i; cbv zeta; intros Hb Hr Hva Hva' Hsz Htop Hoff Hi Hi' Hdone Hfuel1 Hfuel; [lia|].
  cbn [loadseg_loop]. pose proof (bd_space _ _ _ _ _ _ _ _ _ _ Hb) as Hs. pose proof (sp_size _ _ _ _ _ Hs) as Hlen. rewrite TRAPFRAME_eq in Hlen.
  pose proof (pages_bound kend kend_pos _ (sp_nodup _ _ _ _ _ Hs) (sp_page _ _ _ _ _ Hs)) as Hpb. unfold PHYSTOP, KERNBASE in Hpb.
  destruct (Z.ltb_spec i sz) as [Hlt|Hge]; last first.
  { exists 0, ph, fs. split; [done|]. split; [done|]. left. split; [done|]. replace (Z.min i sz) with sz in * by lia.
    eexists. split; [apply slice_some; lia|]. done. }
  replace (Z.min i sz) with i in * by lia. pose proof (contents_size sb D Hfiles inum Hlk) as [_ Hmax].
  set (pi := Z.to_nat ((va + i) / 4096)). assert (Epi : Z.of_nat pi * 4096 = va + i) by (unfold pi; Z.div_mod_to_equations; lia).
  destruct (lookup_lt_is_Some_2 frames pi) as [fr Hfr]; [lia|].
  destruct (frame_page kend kend_pos _ _ _ _ _ _ Hs Hfr) as (Hfa & Hf0 & Hf1).
  pose proof (building_walkaddr kend kend_pos _ _ _ _ _ _ _ _ _ _ _ Hb Hfr ltac:(done)) as Ew. rewrite Epi in Ew.
  rewrite u64_small by lia. rewrite (bind_Ok _ _ _ _ _ (on_phys_pf k _ ph fs _ ph Ew)). destruct (Z.eqb_spec fr 0) as [|_]; [lia|].
  set (n := if u32 (sz - i) <? PGSIZE then u32 (sz - i) else PGSIZE).
  assert (En : n = Z.min (sz - i) 4096) by (unfold n, PGSIZE; rewrite u32_small by lia; destruct (Z.ltb_spec (sz - i) 4096); lia).
  assert (Eoff : u32 (off + i) = off + i) by (apply u32_small; lia).
  destruct (reading_read (copy_to false (p_pagetable (k_procs k p))) 4294967296 fs0 fs ph fr (off + i) n) as (fs' & cs & E & Ecs & Hr'); [done|lia|done|lia..|].
  destruct (copy_to_chunks (p_pagetable (k_procs k p)) cs fr ph) as (m' & Ech & Hm'). rewrite Ech in E.
  rewrite Eoff, (bind_Ok _ _ _ _ _ (k_readi_pf k p Hcalm Hproc ip false fr (off + i) n ph fs _ _ fs' E)).
  assert (Hlcs : Z.of_nat (length (concat cs)) <= n) by (rewrite Ecs, length_take; lia).
  pose proof (building_write kend kend_pos _ _ _ _ _ _ _ _ _ pi fr 0 (concat cs) m' Hb Hfr ltac:(lia) ltac:(lia) ltac:(by intros x; rewrite Z.add_0_r)) as Hb'.
  rewrite Epi, Z.add_0_r in Hb'.
  destruct (Z.eqb_spec (Z.of_nat (length (concat cs))) n) as [Efull|Epart]; cbn [negb]; last first.
  { exists (-1), (mkphys m' (freelist ph)), fs'. split; [done|]. split; [done|]. right. split; [done|]. split; [|by eexists].
    apply slice_none; [lia|lia|]. rewrite Ecs, length_take, length_drop in Epart. lia. }
  replace (u32 (i + PGSIZE)) with (i + 4096) by (unfold PGSIZE; rewrite u32_small; lia).
  assert (Hok : off + i + n <= Z.of_nat (length f)) by (rewrite Ecs, length_take, length_drop in Efull; lia).
  apply (IH fs' _ (i + 4096)); try done; try (rewrite Z.add_mod by lia; by rewrite Hi'); try lia.
  eapply building_img_ext; [|exact Hb']. intros x.
  set (A := take (Z.to_nat i) (drop (Z.to_nat off) f)).
  assert (EA : Z.of_nat (length A) = i) by (unfold A; rewrite length_take, length_drop; lia).
  rewrite <- EA at 2. rewrite mem_write_app. f_equal. unfold A. rewrite Ecs.
  replace (Z.to_nat (off + i)) with (Z.to_nat off + Z.to_nat i)%nat by lia. rewrite <- drop_drop, take_take_drop. f_equal. lia.
Qed.

Lemma loadseg_run fs0 fs ph l frames img va off sz :
  building ph l pt frames None img -> reading fs0 fs ->
  0 <= va -> va mod 4096 = 0 -> 0 <= sz -> va + sz <= Z.of_nat (length frames) * 4096 -> 0 <= off < 4294967296 ->
  exists r ph' fs', loadseg pt va ip off sz (with_pf k ph fs) = Ok r (with_pf k ph' fs') /\ reading fs0 fs' /\
    (r = 0 /\ (exists bytes, slice f off sz = Some bytes /\ building ph' l pt frames None (mem_write img va bytes)) \/
     r = -1 /\ slice f off sz = None /\ exists img', building ph' l pt frames None img').
Proof using All.
  intros Hb Hr Hva Hva' Hsz Htop Hoff. unfold loadseg. apply loadseg_loop_run; try done; unfold PGSIZE; try (Z.div_mod_to_equations; lia).
  rewrite Z.min_l by lia. change (Z.to_nat 0) with 0%nat. rewrite take_0. eapply building_img_ext; [|exact Hb]. intros x. unfold mem_write. case_range; [cbn [length] in *; lia|done].
Qed.

Lemma contents_bytes : Forall is_byte f.
Proof using Hbit.
  unfold contents, file_read. apply Forall_forall. intros x (j & -> & _)%list_elem_of_fmap. unfold fbyte, byte_at.
  destruct (bo_blocks _ _ Hbit (slot D (disk_inode sb D inum) (ix (j / BSIZE)))) as [_ Hall].
  destruct (_ !! _) as [b|] eqn:E; cbn; [|unfold is_byte; lia]. rewrite Forall_lookup in Hall. by eapply Hall.
Qed.

(** [readi] into a local structure of [n] bytes *)
Lemma header_read fs0 fs ph buf off n :
  reading fs0 fs -> Z.of_nat (length buf) = n -> n <= 64 -> 0 <= off < 4294967296 ->
  exists r buf' fs', readi_local ip buf off n (with_pf k ph fs) = Ok (r, buf') (with_pf k ph fs') /\ reading fs0 fs' /\ length buf' = length buf /\
    match slice f off n with Some h => r = n /\ buf' = h | None => r <> n end.
Proof using Hfiles Hly Hbit Hstart Hend Hsize Hlk.
  intros Hr Hn Hn' Hoff. destruct (reading_read de_copyout 64 fs0 fs buf 0 off n) as (fs' & cs & E & Ecs & Hr'); [done|lia|done|lia..|].
  pose proof (de_chunks cs buf 0) as Hch. change (Z.of_nat 0) with 0 in Hch. rewrite Hch in E by (rewrite Ecs, length_take; lia). clear Hch.
  eexists _, _, fs'. split; [by apply on_fs_pf, E|]. split; [done|]. split; [rewrite length_splice by (rewrite Ecs, length_take; lia); done|].
  unfold slice. rewrite <- Ecs. destruct (Z.eqb_spec (Z.of_nat (length (concat cs))) n) as [E1|E1]; [|done]. split; [done|]. apply splice_all. lia.
Qed.

(** [uvmalloc(pagetable, sz, newsz)] as [exec] calls it *)
Lemma alloc_run ph l frames img sz newsz :
  building ph l pt frames None img -> 0 <= sz <= TRAPFRAME -> PGROUNDUP sz = Z.of_nat (length frames) * 4096 -> spent l0 5 l frames ->
  0 <= newsz < 18446744073709551616 ->
  exists sz1 ph1 l1 frames1, uvmalloc kend pt sz newsz ph = Ok sz1 ph1 /\ building ph1 l1 pt frames1 None img /\
    (sz1 = Z.max sz newsz /\ Z.max sz newsz <= TRAPFRAME /\ PGROUNDUP sz1 = Z.of_nat (length frames1) * 4096 /\ spent l0 5 l1 frames1 \/
     sz1 = 0 /\ sz <= newsz /\ frames1 = frames /\ Z.of_nat (length l0) * 4096 <= 3 * (newsz + 4095) + 5 * 4096).
Proof using kend_pos.
  intros Hb Hsz Hr Hsp Hn. destruct (Z.ltb_spec newsz sz) as [Hlt|Hge].
  - exists sz, ph, l, frames. split; [unfold uvmalloc; by destruct (Z.ltb_spec newsz sz); [|lia]|]. split; [done|]. left. rewrite Z.max_l by lia. split_and!; [done|lia|done|done].
  - destruct (building_grow kend kend_pos m0 l0 top ph l pt frames img sz newsz Hb ltac:(lia) Hr ltac:(lia) ltac:(lia)) as (r & ph1 & l1 & frames1 & E & Hb1 & Hres).
    exists r, ph1, l1, frames1. split; [done|]. split; [done|]. rewrite Z.max_r by lia.
    destruct Hres as [(-> & H1 & H2 & H3)|(-> & -> & H3)]; [left|right]; (split; [done|]).
    + split; [done|]. split; [done|]. by apply H3.
    + split; [done|]. split; [done|]. by apply H3.
Qed.

(** The state between two segments. *)
Definition loaded_to (sz : Z) (fs0 : fsst S) (ph : phys) (fs : fsst S) (l frames : list Z) (img : mem) : Prop :=
  reading fs0 fs /\ building ph l pt frames None img /\ 0 <= sz <= TRAPFRAME /\ PGROUNDUP sz = Z.of_nat (length frames) * 4096.

(** Too few pages for a program of size [sz]. *)
Definition scarce (sz : Z) : Prop := Z.of_nat (length l0) * 4096 <= 3 * (sz + 4095) + 5 * 4096.

(** The part of the loop after the checks of the header, for one segment; [K]
    is the next iteration. *)
Definition load_segment (ph : proghdr) (sz : Z) (K : Z -> M (kernel S Dv) (Z * bool)) : M (kernel S Dv) (Z * bool) :=
  let! sz1 := on_phys (uvmalloc kend pt sz (u64 (ph_vaddr ph + ph_memsz ph))) in
  if sz1 =? 0 then ret (sz, false)
  else if negb (ph_vaddr ph mod PGSIZE =? 0) then ret (sz1, false)
  else
    let! r := loadseg pt (ph_vaddr ph) ip (u32 (ph_off ph)) (u32 (ph_filesz ph)) in
    if r <? 0 then ret (sz1, false) else K sz1.

Lemma load_segment_run hd sz K fs0 ph fs l frames img :
  let top := ph_vaddr hd + ph_memsz hd in
  loaded_to sz fs0 ph fs l frames img -> spent l0 5 l frames ->
  0 <= ph_vaddr hd -> 0 <= ph_filesz hd <= ph_memsz hd -> top < 18446744073709551616 ->
  exists ph1 fs1 l1 frames1 img1,
    (exists szr, load_segment hd sz K (with_pf k ph fs) = Ok (szr, false) (with_pf k ph1 fs1) /\ loaded_to szr fs0 ph1 fs1 l1 frames1 img1 /\
       (Z.max sz top = 0 \/ ph_vaddr hd mod PGSIZE <> 0 \/ slice f (u32 (ph_off hd)) (ph_filesz hd) = None \/ scarce (Z.max sz top))) \/
    (exists bytes, load_segment hd sz K (with_pf k ph fs) = K (Z.max sz top) (with_pf k ph1 fs1) /\
       loaded_to (Z.max sz top) fs0 ph1 fs1 l1 frames1 (mem_write img (ph_vaddr hd) bytes) /\ spent l0 5 l1 frames1 /\
       Z.max sz top <> 0 /\ ph_vaddr hd mod PGSIZE = 0 /\ slice f (u32 (ph_off hd)) (ph_filesz hd) = Some bytes).
Proof using All.
  intros top' (Hr & Hb & Hsz & Hpg) Hsp Hva Hfs Htop. unfold load_segment, scarce, loaded_to. rewrite u64_small by lia. fold top'.
  destruct (alloc_run ph l frames img sz top' Hb Hsz Hpg Hsp ltac:(lia)) as (sz1 & ph1 & l1 & frames1 & E & Hb1 & Hres).
  rewrite (bind_Ok _ _ _ _ _ (on_phys_pf k _ ph fs _ ph1 E)).
  destruct Hres as [(-> & Hmax & Hpg1 & Hsp1)|(-> & Hle & -> & Hfew)]; last first.
  { exists ph1, fs, l1, frames, img. left. exists sz. rewrite Z.max_r by done. split; [done|]. split; [split_and!; done || lia|]. by do 3 right. }
  pose proof (pages_bound kend kend_pos _ (sp_nodup _ _ _ _ _ (bd_space _ _ _ _ _ _ _ _ _ _ Hb1)) (sp_page _ _ _ _ _ (bd_space _ _ _ _ _ _ _ _ _ _ Hb1))) as Hpb.
  pose proof TRAPFRAME_eq. pose proof (PGROUNDUP_bounds (Z.max sz top') ltac:(lia)) as Hpgb. rewrite Hpg1 in Hpgb. unfold PHYSTOP, KERNBASE in Hpb.
  destruct (Z.eqb_spec (Z.max sz top') 0) as [E0|E0].
  { exists ph1, fs, l1, frames1, img. left. exists sz. split; [done|]. split; [|by left]. split_and!; [done|done|lia|lia|]. by replace sz with (Z.max sz top') by lia. }
  destruct (Z.eqb_spec (ph_vaddr hd mod PGSIZE) 0) as [Ea|Ea]; cbn [negb]; last first.
  { exists ph1, fs, l1, frames1, img. left. exists (Z.max sz top'). split; [done|]. split; [|by right; left]. split_and!; done || lia. }
  rewrite (u32_small (ph_filesz hd)) by lia.
  destruct (loadseg_run fs0 fs ph1 l1 frames1 img (ph_vaddr hd) (u32 (ph_off hd)) (ph_filesz hd) Hb1 Hr Hva Ea) as (r & ph2 & fs2 & E2 & Hr2 & Hres2); [lia|lia|apply u32_range|].
  rewrite (bind_Ok _ _ _ _ _ E2). destruct Hres2 as [(-> & bytes & Es & Hb2)|(-> & Es & img' & Hb2)].
  - exists ph2, fs2, l1, frames1, img. right. exists bytes. split; [done|]. split_and!; done || lia.
  - exists ph2, fs2, l1, frames1, img'. left. exists (Z.max sz top'). split; [done|]. split; [|by right; right; left]. split_and!; done || lia.
Qed.

(** The loop over the program headers implements [load_segs]. *)
Lemma exec_load_run n fs0 fs ph l frames img off offs sz buf :
  loaded_to sz fs0 ph fs l frames img -> spent l0 5 l frames -> u32 off = offs -> length buf = 56%nat ->
  exists r ph' fs' l' frames' img', exec_load kend n pt ip off sz buf (with_pf k ph fs) = Ok r (with_pf k ph' fs') /\
    loaded_to (fst r) fs0 ph' fs' l' frames' img' /\
    match load_segs n f offs sz img with
    | None => snd r = false
    | Some (sz', im) => r = (sz', true) /\ img' = im /\ spent l0 5 l' frames' \/ snd r = false /\ scarce sz'
    end.
Proof using All.
  revert fs ph l frames img off offs sz buf. induction n as [|n IH]; intros fs ph l frames img off offs sz buf Hld Hsp Eoff Hbuf.
  { exists (sz, true), ph, fs, l, frames, img. split; [done|]. split; [done|]. left. done. }
  cbn [exec_load load_segs]. pose proof Hld as (Hr & Hb & Hsz & Hpg).
  destruct (header_read fs0 fs ph buf (u32 off) PROGHDR_SIZE Hr) as (r & h & fs1 & E & Hr1 & Hlen & Hs); [rewrite Hbuf; done|done|apply u32_range|].
  rewrite (bind_Ok _ _ _ _ _ E). cbn [fst snd]. rewrite Eoff in Hs.
  assert (Hld1 : loaded_to sz fs0 ph fs1 l frames img) by (split_and!; done || lia).
  destruct (slice f offs PROGHDR_SIZE) as [h'|] eqn:Es; last first.
  { destruct (Z.eqb_spec r PROGHDR_SIZE); [done|]. cbn [negb]. by exists (sz, false), ph, fs1, l, frames, img. }
  destruct Hs as [-> ->]. cbn [Z.eqb PROGHDR_SIZE Pos.eqb negb]. destruct (slice_bytes _ _ _ _ contents_bytes Es) as [Hhb Hhl].
  assert (Hin : offs + 56 <= Z.of_nat (length f)).
  { pose proof (u32_range off). destruct (decide (Z.of_nat (length f) < offs + 56)); [|lia]. rewrite slice_none in Es; [done|lia|done|done]. }
  pose proof (contents_size sb D Hfiles inum Hlk) as [_ Hmax]. rewrite Hbuf in Hlen.
  pose proof (next_header off offs Eoff ltac:(lia)) as Eoff'. unfold PROGHDR_SIZE in *.
  destruct (Z.eqb_spec (ph_type (proghdr_of h')) ELF_PROG_LOAD) as [Et|Et]; cbn [negb]; [|by apply (IH fs1 ph l frames img)].
  destruct (header_bounds h' Hhb) as (B1 & B2 & B3). set (hd := proghdr_of h') in *. pose proof TRAPFRAME_eq as HT.
  destruct (Z.ltb_spec (ph_memsz hd) (ph_filesz hd)) as [|Hfm]; [by exists (sz, false), ph, fs1, l, frames, img|]. cbn [orb].
  destruct (Z.ltb_spec (u64 (ph_vaddr hd + ph_memsz hd)) (ph_vaddr hd)) as [Hw|Hw].
  { destruct (Z.ltb_spec TRAPFRAME (ph_vaddr hd + ph_memsz hd)) as [|Hno]; [by exists (sz, false), ph, fs1, l, frames, img|].
    rewrite u64_small in Hw; lia. }
  destruct (load_segment_run hd sz (fun sz1 => exec_load kend n pt ip (s32 (off + 56)) sz1 h') fs0 ph fs1 l frames img Hld1 Hsp) as (ph1 & fs2 & l1 & frames1 & img1 & Hres); [lia|lia| |].
  { destruct (decide (ph_vaddr hd + ph_memsz hd < 18446744073709551616)); [done|]. unfold u64, uwrap in Hw. change (2 ^ 64) with 18446744073709551616 in Hw. Z.div_mod_to_equations; lia. }
  unfold load_segment in Hres. destruct Hres as [(szr & E1 & Hld2 & Hbad)|(bytes & E1 & Hld2 & Hsp2 & H0 & Ha & Hsl)].
  - rewrite E1. exists (szr, false), ph1, fs2, l1, frames1, img1. split; [done|]. split; [done|].
    destruct (Z.ltb_spec TRAPFRAME (ph_vaddr hd + ph_memsz hd)); [done|]. cbn [orb].
    destruct (Z.eqb_spec (Z.max sz (ph_vaddr hd + ph_memsz hd)) 0); [done|]. cbn [orb].
    destruct (Z.eqb_spec (ph_vaddr hd mod PGSIZE) 0); [|done]. cbn [negb].
    destruct (slice f (u32 (ph_off hd)) (ph_filesz hd)) as [bytes|] eqn:Esl; [|done].
    destruct (load_segs n f _ _ _) as [[sz' im]|] eqn:El; [|done]. right. split; [done|].
    apply load_segs_mono in El. destruct Hbad as [|[|[|Hsc]]]; try done. unfold scarce in *. lia.
  - rewrite E1. destruct Hld2 as (G1 & G2 & G3 & G4). rewrite Hsl.
    destruct (Z.ltb_spec TRAPFRAME (ph_vaddr hd + ph_memsz hd)); [lia|]. destruct (Z.eqb_spec (Z.max sz (ph_vaddr hd + ph_memsz hd)) 0); [done|].
    destruct (Z.eqb_spec (ph_vaddr hd mod PGSIZE) 0); [|done]. cbn [orb negb]. apply (IH fs2 ph1 l1 frames1); [by split_and!; done || lia|done|done|done].
Qed.
End loading.

(** ** Arguments *)

(** A string of the kernel at [a], on pages that are not free. *)
Definition arg_at (m : mem) (l : list Z) (a : Z) (str : list Z) : Prop :=
  mem_read m a (length str + 1) = str ++ [0] /\ Forall (fun c => c <> 0) str /\ (length str < 4096)%nat /\
  forall x, a <= x <= a + Z.of_nat (length str) -> PGROUNDDOWN x ∉ l.

Lemma mem_read_lookup m a n i : (i < n)%nat -> mem_read m a n !! i = Some (m (a + Z.of_nat i)).
Proof. intros Hi. unfold mem_read. rewrite list_lookup_fmap, lookup_seq_lt by done. done. Qed.

Lemma strlen_arg m a str :
  mem_read m a (length str + 1) = str ++ [0] -> Forall (fun c => c <> 0) str -> (length str < 4096)%nat ->
  strlen 4097 m a = Some (Z.of_nat (length str)).
Proof.
  intros Hm Hnz Hlen. unfold strlen. assert (Hat : forall i c, (str ++ [0]) !! i = Some c -> m (a + Z.of_nat i) = c).
  { intros i c Hi. pose proof (lookup_lt_Some _ _ _ Hi) as Hl. rewrite length_app in Hl. cbn in Hl. rewrite <- Hm, mem_read_lookup in Hi by lia. congruence. }
  apply strlen_loop_spec; [| |lia].
  - intros i Hi. destruct (lookup_lt_is_Some_2 str (Z.to_nat i)) as [c Hc]; [lia|]. rewrite <- (Z2Nat.id i) by lia.
    rewrite (Hat _ c) by (by apply lookup_app_l_Some). rewrite Forall_lookup in Hnz. by eapply Hnz.
  - apply Hat. by rewrite list_lookup_middle.
Qed.

Lemma push_sp_eq sp n : 0 <= n <= sp -> sp < 18446744073709551616 -> push_sp sp n = pushed_sp sp n.
Proof. intros H1 H2. unfold push_sp, pushed_sp. cbv zeta. by rewrite u64_small by lia. Qed.

Lemma push_strs_length base strs sp ustack img sp' us' im :
  push_strs base strs sp ustack img = Some (sp', us', im) -> Z.of_nat (length us') <= Z.max (Z.of_nat (length ustack)) 32.
Proof.
  revert sp ustack img. induction strs as [|str strs IH]; intros sp ustack img; cbn [push_strs]; [intros [= _ <- _]; lia|].
  unfold MAXARG. destruct (Z.leb_spec 32 (Z.of_nat (length ustack))); cbn [orb]; [done|]. destruct (_ <? base); [done|].
  intros H1%IH. rewrite length_app in H1. cbn [length] in H1. lia.
Qed.

(** ** What the program finds on its stack *)

Lemma mem_read_write_in m a l j n : (j + n <= length l)%nat -> mem_read (mem_write m a l) (a + Z.of_nat j) n = take n (drop j l).
Proof.
  intros H. apply list_eq. intros i. destruct (decide (i < n)%nat) as [Hi|Hi].
  - rewrite mem_read_lookup by done. rewrite lookup_take_lt, lookup_drop by done. destruct (lookup_lt_is_Some_2 l (j + i)%nat) as [x Hx]; [lia|].
    rewrite Hx. f_equal. unfold mem_write. case_range; [|lia]. replace (Z.to_nat (a + Z.of_nat j + Z.of_nat i - a)) with (j + i)%nat by lia. by apply nth_lookup_Some.
  - rewrite !lookup_ge_None_2; [done|rewrite length_take; lia|rewrite length_mem_read; lia].
Qed.

Lemma mem_read_write_below m a l b n : a + Z.of_nat (length l) <= b -> mem_read (mem_write m a l) b n = mem_read m b n.
Proof. intros H. apply mem_read_agree, mem_write_agree_disjoint. by left. Qed.

(** The strings of [strs] are at the addresses [us], above [sp]. *)
Definition strs_at (img : mem) (sp : Z) (us : list Z) (strs : list (list Z)) : Prop :=
  Forall2 (fun a str => sp <= a /\ mem_read img a (length str + 1) = str ++ [0]) us strs.

Lemma strs_at_below img sp us strs sp' l :
  strs_at img sp us strs -> sp' + Z.of_nat (length l) <= sp -> strs_at (mem_write img sp' l) sp' us strs.
Proof.
  intros H Hl. eapply Forall2_impl; [exact H|]. intros a str [H1 H2]. cbv beta. split; [lia|]. by rewrite mem_read_write_below by lia.
Qed.

Lemma pushed_sp_le sp n : pushed_sp sp n + n <= sp.
Proof. unfold pushed_sp. Z.div_mod_to_equations; lia. Qed.

Lemma push_strs_at base strs sp us img sp' us' im old :
  push_strs base strs sp us img = Some (sp', us', im) -> strs_at img sp us old -> strs_at im sp' us' (old ++ strs).
Proof.
  revert sp us img old. induction strs as [|str strs IH]; intros sp us img old; cbn [push_strs].
  { intros [= <- <- <-]. by rewrite app_nil_r. }
  destruct (_ || _); [done|]. set (sp1 := pushed_sp sp _). intros E H. replace (old ++ str :: strs) with ((old ++ [str]) ++ strs) by (by rewrite <- (assoc_L (++))).
  apply (IH _ _ _ _ E). pose proof (pushed_sp_le sp (Z.of_nat (length str) + 1)) as Hle. fold sp1 in Hle. apply Forall2_app.
  - apply (strs_at_below _ sp); [done|]. rewrite length_app. cbn [length]. lia.
  - constructor; [|constructor]. split; [lia|]. replace sp1 with (sp1 + Z.of_nat 0) at 2 by lia. rewrite mem_read_write_in by (rewrite length_app; cbn [length]; lia).
    rewrite drop_0. apply take_ge. rewrite length_app. cbn [length]. lia.
Qed.

(** [argc] strings, their addresses in an array that ends with a null pointer
    and starts at the stack pointer, which is 16-byte aligned. *)
Definition args_on_stack (pg : program) (strs : list (list Z)) : Prop :=
  pg_argc pg = Z.of_nat (length strs) /\ pg_sp pg mod 16 = 0 /\ mem_read (pg_img pg) (pg_sp pg + 8 * pg_argc pg) 8 = repeat 0 8 /\
  forall i str, strs !! i = Some str -> exists a,
    mem_read (pg_img pg) (pg_sp pg + 8 * Z.of_nat i) 8 = le_bytes 8 a /\ mem_read (pg_img pg) a (length str + 1) = str ++ [0].

Lemma length_words us : length (concat (map (le_bytes 8) us)) = (8 * length us)%nat.
Proof. induction us as [|x us IH]; [done|]. cbn [map concat]. rewrite length_app, length_le_bytes, IH. cbn [length]. lia. Qed.

Lemma nth_word us i a : us !! i = Some a -> take 8 (drop (8 * i) (concat (map (le_bytes 8) us))) = le_bytes 8 a.
Proof.
  revert i. induction us as [|x us IH]; intros i; [done|]. destruct i as [|i]; cbn [map concat].
  - intros [= ->]. rewrite drop_0, take_app_le by (by rewrite length_le_bytes). apply take_ge. by rewrite length_le_bytes.
  - intros Hi. replace (8 * Datatypes.S i)%nat with (length (le_bytes 8 x) + 8 * i)%nat by (rewrite length_le_bytes; lia). rewrite drop_app_add. by apply IH.
Qed.

Lemma exec_image_args entry sz img strs pg : exec_stack_image entry sz img strs = Some pg -> args_on_stack pg strs.
Proof.
  unfold exec_stack_image. cbv zeta. set (sz1 := (sz + 4095) / 4096 * 4096 + 2 * PGSIZE). destruct (_ <? _); [done|].
  destruct (push_strs _ _ _ _ _) as [[[sp us] im]|] eqn:Eps; [|done]. destruct (_ <? _); [done|]. intros [= <-].
  apply (push_strs_at _ _ _ _ _ _ _ _ []) in Eps; [|constructor]. cbn [app] in Eps. pose proof (Forall2_length _ _ _ Eps) as Hlen.
  set (sp1 := pushed_sp sp _). pose proof (pushed_sp_le sp ((Z.of_nat (length us) + 1) * 8)) as Hle. fold sp1 in Hle.
  assert (Hw : forall i a, (us ++ [0]) !! i = Some a -> mem_read (mem_write im sp1 (concat (map (le_bytes 8) (us ++ [0])))) (sp1 + 8 * Z.of_nat i) 8 = le_bytes 8 a).
  { intros i a Hi. pose proof (lookup_lt_Some _ _ _ Hi) as Hil. replace (8 * Z.of_nat i) with (Z.of_nat (8 * i)) by lia.
    rewrite mem_read_write_in by (rewrite length_words; lia). by apply nth_word. }
  unfold args_on_stack. cbn [pg_argc pg_sp pg_img]. split; [lia|]. split; [unfold sp1, pushed_sp; Z.div_mod_to_equations; lia|]. split.
  - etransitivity; [apply (Hw (length us) 0)|done]. by rewrite list_lookup_middle.
  - intros i str Hi. destruct (Forall2_lookup_r _ _ _ _ _ Eps Hi) as (a & Ha & Hsp & Hm). exists a. split; [apply Hw; by apply lookup_app_l_Some|].
    rewrite mem_read_write_below; [done|]. rewrite length_words, length_app. cbn [length]. lia.
Qed.

Section stack.
Context {S B Dv : Type} `{HBC : !BlockCache S B}.
Variables (kend : Z) (k : kernel S Dv) (fs : fsst S).
Hypothesis kend_pos : 0 < kend.
Variables (m0 : mem) (l0 : list Z) (top : Z -> option Z) (pt : Z).

Abbreviation building := (building kend m0 l0 top).

Lemma arg_kept ph l frames g img a str :
  building ph l pt frames g img -> arg_at m0 l0 a str -> mem_read (p_mem ph) a (length str + 1) = str ++ [0].
Proof using Type.
  intros Hb (Hm & _ & _ & Hpg). rewrite <- Hm. apply mem_read_agree. intros x Hx.
  destruct (bd_keep _ _ _ _ _ _ _ _ _ _ Hb (PGROUNDDOWN x)) as [_ Hag]; [apply PGROUNDDOWN_aligned|apply Hpg; lia|].
  apply Hag. apply PGROUNDDOWN_bounds.
Qed.

(** The loop that pushes the arguments implements [push_strs]. *)
Lemma exec_args_run argv strs ph l frames n img base sp ustack :
  Forall2 (arg_at m0 l0) argv strs -> building ph l pt frames (Some n) img -> length frames = Datatypes.S (Datatypes.S n) ->
  base = (Z.of_nat n + 1) * 4096 -> base <= sp <= base + 4096 ->
  exists r ph', exec_args pt base argv (Z.of_nat (length ustack)) sp ustack (with_pf k ph fs) = Ok r (with_pf k ph' fs) /\
    match push_strs base strs sp ustack img with
    | Some (sp', us', im) => r = Some (Z.of_nat (length us'), sp', us') /\ building ph' l pt frames (Some n) im /\ base <= sp' <= base + 4096
    | None => r = None /\ exists im, building ph' l pt frames (Some n) im
    end.
Proof using kend_pos.
  intros Hargs. revert ph img sp ustack. induction Hargs as [|a str argv strs Ha Hargs IH]; intros ph img sp ustack Hb Hlen Hbase Hsp; cbn [exec_args push_strs].
  { eexists _, ph. done. }
  pose proof (sp_size _ _ _ _ _ (bd_space _ _ _ _ _ _ _ _ _ _ Hb)) as Hsz. rewrite TRAPFRAME_eq, Hlen in Hsz.
  destruct (Z.leb_spec MAXARG (Z.of_nat (length ustack))); cbn [orb]; [by eexists _, ph; split; [done|]; split; [done|]; eexists|].
  pose proof (arg_kept _ _ _ _ _ _ _ Hb Ha) as Hm. destruct Ha as (_ & Hnz & Hstr & _).
  assert (Es : strlen_at a (with_pf k ph fs) = Ok (Z.of_nat (length str)) (with_pf k ph fs)).
  { unfold strlen_at. erewrite bind_Ok by reflexivity. change (p_mem (k_phys (with_pf k ph fs))) with (p_mem ph). by rewrite (strlen_arg _ _ _ Hm Hnz Hstr). }
  rewrite (bind_Ok _ _ _ _ _ Es). rewrite push_sp_eq by lia.
  set (sp' := pushed_sp sp (Z.of_nat (length str) + 1)).
  assert (Hsp' : sp' + (Z.of_nat (length str) + 1) <= sp) by (unfold sp', pushed_sp; Z.div_mod_to_equations; lia).
  destruct (Z.ltb_spec sp' base); [by eexists _, ph; split; [done|]; split; [done|]; eexists|].
  destruct (lookup_lt_is_Some_2 frames (Datatypes.S n)) as [f Hf]; [lia|].
  destruct (building_copyout kend kend_pos m0 l0 top ph l pt frames (Some n) img (Datatypes.S n) f (sp' - base) a (Z.of_nat (length str) + 1) Hb Hf)
    as (ph' & Ec & Hb'); [intros [=]; lia|lia..|].
  replace (Z.of_nat (Datatypes.S n) * 4096 + (sp' - base)) with sp' in * by lia.
  replace (Z.to_nat (Z.of_nat (length str) + 1)) with (length str + 1)%nat in Hb' by lia. rewrite Hm in Hb'.
  rewrite (bind_Ok _ _ _ _ _ (on_phys_pf k _ ph fs _ ph' Ec)). cbn [Z.ltb Z.compare].
  replace (Z.of_nat (length ustack) + 1) with (Z.of_nat (length (ustack ++ [sp']))) by (rewrite length_app; cbn [length]; lia).
  apply IH; [done|done|done|lia].
Qed.
End stack.
