(* ===== verification/ExecSpec.v ===== *)
(** * The specification of [exec]

    [exec] either replaces the address space of the process by the one that
    the executable denotes ([exec_image]), and gives back every page of the
    old one, or returns -1 and leaves process, pages and file system as they
    were. *)

From stdpp Require Import functions.
From S2P Require Import Prelude Memory CString Riscv Csr Spinlock Kalloc Vm Copy PageTable VmProofs VmCopy VmSpace VmFree VmFork VmExec Block Cache Sleeplock Log LogProofs LogSpec Fs FsBlocks FsAlloc FsMap FsFile FsInode FsTrunc FsDir FsName FsSpec Bio BioProofs Mkfs MkfsProofs MkfsRun MkfsSpec MkfsBoot Kernel Proc ProcRun Uart Printf Console Pipe File Process Exec ExecProofs.

#[local] Set Warnings "-clear-no-such-hyp".

(** ** The old space and the new one *)

(** The registers that [exec] sets in the trapframe. *)
Definition tf_set (m : mem) (tf : Z) (pg : program) : mem :=
  store64 (store64 (store64 m (tf + TF_a 1) (pg_sp pg)) (tf + TF_epc) (pg_entry pg)) (tf + TF_sp) (pg_sp pg).

(** The guard page below the stack *)
Definition guard_page (pg : program) (va : Z) : Prop := pg_sz pg - 2 * PGSIZE <= va < pg_sz pg - PGSIZE.

Section replace.
Variable kend : Z.
Hypothesis kend_pos : 0 < kend.
(** The memory before, the free pages, the old table with its frames; the
    trampoline and the trapframe. *)
Variables (s0 : phys) (l0 : list Z) (old : Z) (fo : list Z) (tramp tf : Z).

(** The memory after: through the table [pt] the user sees the image of the
    program and nothing else.  The pages of the new space and the free pages
    are the pages of the old space and those that were free; the others keep
    their contents, up to the registers in the trapframe. *)
Record replaced (pg : program) (pt : Z) (s : phys) : Prop := {
  rp_space : exists l frames, uspace kend s l pt frames /\ Z.of_nat (length frames) * 4096 = pg_sz pg /\
    forall x, x ∈ l \/ x ∈ frames \/ owns (p_mem s) pt x <-> x ∈ l0 \/ x ∈ fo \/ owns (p_mem s0) old x;
  rp_user va : 0 <= va -> user_pa (p_mem s) pt va <> 0 <-> va < pg_sz pg /\ ~ guard_page pg va;
  rp_image va : 0 <= va < pg_sz pg -> ~ guard_page pg va -> vbyte (p_mem s) pt va = pg_img pg va;
  rp_top va : TRAPFRAME <= va < VASPAN -> pte_at (p_mem s) pt va = top_entry tramp tf va;
  rp_keep p : aligned p -> p ∉ l0 -> p ∉ fo -> ~ owns (p_mem s0) old p ->
    agree (p_mem s) (tf_set (p_mem s0) tf pg) p 4096
}.

Lemma user_entry_pa g i f : aligned f -> 0 <= f < 18446744073709551616 ->
  (if Riscv.has (user_entry g i f) PTE_U then PTE2PA (user_entry g i f) else 0) = if decide (g = Some i) then 0 else f.
Proof using Type.
  intros Ha Hf. unfold user_entry. rewrite mk_pte_flags. case_decide;
    rewrite has_PA2PTE, ?PTE2PA_PA2PTE by (done || (vm_compute; done)); by vm_compute.
Qed.

Lemma top_entry_nouser va v : top_entry tramp tf va = Some v -> Riscv.has v PTE_U = false.
Proof using Type.
  unfold top_entry. repeat case_range; intros [= <-]; rewrite mk_pte_flags, has_PA2PTE by (vm_compute; done); by vm_compute.
Qed.

(** What the user sees of a program that has been built. *)
Lemma building_view m l0' s l pt frames n img va :
  building kend m l0' (top_entry tramp tf) s l pt frames (Some n) img -> 0 <= va ->
  let i := Z.to_nat (va / 4096) in
  user_pa (p_mem s) pt va = match frames !! i with Some f => if decide (n = i) then 0 else f | None => 0 end.
Proof using kend_pos.
  intros Hb Hva i. pose proof (bd_space _ _ _ _ _ _ _ _ _ _ Hb) as Hs. pose proof (sp_size _ _ _ _ _ Hs) as Hsz.
  pose proof TRAPFRAME_eq. pose proof MAXVA_eq. pose proof VASPAN_eq. unfold user_pa.
  destruct (frames !! i) as [f|] eqn:Ef.
  - pose proof (lookup_lt_Some _ _ _ Ef) as Hi. destruct (frame_page kend kend_pos _ _ _ _ _ _ Hs Ef) as (Hfa & Hf0 & Hf1).
    destruct (Z.leb_spec MAXVA va) as [|_]; [unfold i in Hi; Z.div_mod_to_equations; lia|].
    assert (Ep : pte_at (p_mem s) pt va = pte_at (p_mem s) pt (Z.of_nat i * 4096)).
    { unfold pte_at, PageTable.slot, vapath. rewrite !(PX_page _ va (Z.of_nat i * 4096)) by (lia || (unfold i; Z.div_mod_to_equations; lia)). done. }
    rewrite Ep, (bd_user _ _ _ _ _ _ _ _ _ _ Hb i f Ef), (user_entry_pa _ _ _ Hfa) by lia.
    destruct (decide (n = i)) as [->|]; [by rewrite decide_True|]. by rewrite decide_False by congruence.
  - apply lookup_ge_None in Ef. destruct (Z.leb_spec MAXVA va) as [|Hm]; [done|]. destruct (decide (va < TRAPFRAME)).
    + rewrite (sp_none _ _ _ _ _ Hs); [done|]. split; [|done]. unfold i in Ef. Z.div_mod_to_equations; lia.
    + rewrite (bd_top _ _ _ _ _ _ _ _ _ _ Hb) by lia. destruct (top_entry tramp tf va) as [v|] eqn:Et; [|done]. by rewrite (top_entry_nouser _ _ Et).
Qed.

Hypothesis Hold : uspace kend s0 l0 old fo.
Hypothesis Holdtop : forall va, TRAPFRAME <= va < VASPAN -> pte_at (p_mem s0) old va = top_entry tramp tf va.
Hypothesis Htf : aligned tf /\ (tf ∉ l0) /\ (tf ∉ fo) /\ ~ owns (p_mem s0) old tf.

(** The pages of the old space were not free. *)
Lemma old_not_free p : owns (p_mem s0) old p \/ p ∈ fo -> aligned p /\ p ∉ l0.
Proof using Hold.
  destruct Hold as [[_ Hwf Hown] _ _ Hpg _ Hsep _]. rewrite Forall_forall in Hpg.
  intros [Hp|Hp]; [split; [apply (wf_page _ _ _ Hwf p Hp)|by apply Hown]|split; [by apply Hpg|by apply Hsep]].
Qed.

(** The pages of the new space were free, and are neither free nor of the old
    space. *)
Lemma new_pages m s l pt frames g img p :
  building kend m l0 (top_entry tramp tf) s l pt frames g img -> owns (p_mem s) pt p \/ p ∈ frames ->
  aligned p /\ (p ∉ l) /\ ~ (owns (p_mem s0) old p \/ p ∈ fo).
Proof using kend_pos Hold.
  intros Hb Hp. pose proof (bd_space _ _ _ _ _ _ _ _ _ _ Hb) as Hs. assert (Hp0 : p ∈ l0 /\ aligned p /\ p ∉ l).
  { destruct Hp as [Hp|Hp].
    - split; [by eapply building_owned; [exact kend_pos|exact Hb|right]|]. pose proof (sp_inv _ _ _ _ _ Hs) as [_ Hwf Hown]. split; [apply (wf_page _ _ _ Hwf p Hp)|by apply Hown].
    - split; [by apply (bd_fresh _ _ _ _ _ _ _ _ _ _ Hb)|]. pose proof (sp_page _ _ _ _ _ Hs) as Hall. rewrite Forall_forall in Hall. split; [by apply Hall|by apply (sp_sep _ _ _ _ _ Hs)]. }
  destruct Hp0 as (Hin & Hal & Hnl). split; [done|]. split; [done|]. by intros [_ ?]%old_not_free.
Qed.

(** The registers are stored in the trapframe, which is in neither space. *)
Lemma tf_set_building pg s l pt frames g img :
  building kend (p_mem s0) l0 (top_entry tramp tf) s l pt frames g img ->
  building kend (tf_set (p_mem s0) tf pg) l0 (top_entry tramp tf) (mkphys (tf_set (p_mem s) tf pg) (freelist s)) l pt frames g img.
Proof using kend_pos Htf.
  intros Hb. destruct Htf as (Ha & Hl & _ & _). unfold tf_set, TF_a, TF_epc, TF_sp.
  apply (building_store_kept kend kend_pos _ _ _ _ _ _ _ _ _ (tf + (112 + 8 * 1)) (pg_sp pg) tf) in Hb; [|done|done|lia|lia].
  apply (building_store_kept kend kend_pos _ _ _ _ _ _ _ _ _ (tf + 24) (pg_entry pg) tf) in Hb; [|done|done|lia|lia].
  apply (building_store_kept kend kend_pos _ _ _ _ _ _ _ _ _ (tf + 48) (pg_sp pg) tf) in Hb; [|done|done|lia|lia]. exact Hb.
Qed.

Lemma tf_set_old pg : let s := mkphys (tf_set (p_mem s0) tf pg) (freelist s0) in
  uspace kend s l0 old fo /\ (forall p, owns (p_mem s) old p <-> owns (p_mem s0) old p) /\ forall va, pte_at (p_mem s) old va = pte_at (p_mem s0) old va.
Proof using kend_pos Hold Htf.
  destruct Htf as (Ha & Hl & _ & Ho). destruct (uspace_store kend kend_pos s0 l0 old fo tf (tf_set (p_mem s0) tf pg) Hold) as (H1 & H2 & H3 & _); [done| |done].
  intros x Hx. unfold tf_set, store64, mem_write, TF_a, TF_epc, TF_sp. rewrite !length_le_bytes. repeat case_range; try lia.
Qed.

(** The last steps of [exec]: storing the registers and freeing the old space. *)
Lemma replace_run pg s l pt frames n oldsz :
  building kend (p_mem s0) l0 (top_entry tramp tf) s l pt frames (Some n) (pg_img pg) -> length frames = S (S n) ->
  pg_sz pg = Z.of_nat (length frames) * 4096 -> 0 <= oldsz <= TRAPFRAME -> PGROUNDUP oldsz = Z.of_nat (length fo) * 4096 ->
  exists s', proc_freepagetable kend old oldsz (mkphys (tf_set (p_mem s) tf pg) (freelist s)) = Ok tt s' /\ replaced pg pt s'.
Proof using kend_pos Hold Holdtop Htf.
  intros Hb0 Hlen Hsz Hosz Hopg. apply (tf_set_building pg) in Hb0 as Hb. set (s1 := mkphys _ _) in *.
  destruct (tf_set_old pg) as (Hs0' & Ho0 & Hp0).
  destruct (building_beside kend kend_pos _ _ _ _ _ _ _ _ _ _ old fo Hb Hs0' eq_refl) as (Hold1 & Ho1 & Hp1). cbn [p_mem] in Ho0, Hp0.
  destruct (proc_freepagetable_run kend kend_pos s1 l old fo oldsz tramp tf Hold1) as (s' & l' & E & Hk & Hl & Hag); [|done|done|].
  { intros va Hva. rewrite Hp1, Hp0. by apply Holdtop. }
  exists s'. split; [done|]. pose proof (bd_space _ _ _ _ _ _ _ _ _ _ Hb) as Hs1.
  assert (Hl' : forall x, x ∈ l' <-> x ∈ l \/ x ∈ fo \/ owns (p_mem s0) old x) by (intros x; by rewrite Hl, Ho1, Ho0). clear Hl.
  assert (Hnew : forall p, owns (p_mem s1) pt p \/ p ∈ frames -> (p ∉ l') /\ agree (p_mem s') (p_mem s1) p 4096).
  { intros p Hp. destruct (new_pages _ _ _ _ _ _ _ p Hb Hp) as (Hal & Hnl & Hno). split; [rewrite Hl'; tauto|]. apply Hag; [|tauto].
    split; [done|]. split; [done|]. rewrite Ho1, Ho0. tauto. }
  destruct (uspace_transfer kend s1 l pt frames s' l' Hs1 Hk Hnew) as (Hs' & Ho' & Hp').
  assert (Hua : forall va, user_pa (p_mem s') pt va = user_pa (p_mem s1) pt va) by (intros va; unfold user_pa; by rewrite Hp').
  assert (Hview : forall va, 0 <= va -> let i := Z.to_nat (va / 4096) in
    user_pa (p_mem s') pt va = match frames !! i with Some f => if decide (n = i) then 0 else f | None => 0 end).
  { intros va Hva i. rewrite Hua. by apply (building_view _ _ _ _ _ _ _ _ _ Hb). }
  assert (Hguard : forall va, 0 <= va -> guard_page pg va <-> n = Z.to_nat (va / 4096)).
  { intros va Hva. unfold guard_page, PGSIZE. rewrite Hsz, Hlen. Z.div_mod_to_equations; lia. }
  split.
  - exists l', frames. split; [done|]. split; [done|]. intros x. rewrite Ho', Hl'. pose proof (bd_pages _ _ _ _ _ _ _ _ _ _ Hb x). pose proof (bd_fresh _ _ _ _ _ _ _ _ _ _ Hb x).
    pose proof (building_owned kend kend_pos _ _ _ _ _ _ _ _ _ x Hb). tauto.
  - intros va Hva. rewrite Hview, (Hguard va Hva) by done. cbv zeta. destruct (frames !! Z.to_nat (va / 4096)) as [f|] eqn:Ef.
    + pose proof (lookup_lt_Some _ _ _ Ef). destruct (frame_page kend kend_pos _ _ _ _ _ _ Hs1 Ef) as (_ & Hf0 & _).
      case_decide; [split; [lia|tauto]|]. split; [|lia]. intros _. split; [|done]. rewrite Hsz. Z.div_mod_to_equations; lia.
    + apply lookup_ge_None in Ef. split; [lia|]. intros [H1 _]. rewrite Hsz in H1. Z.div_mod_to_equations; lia.
  - intros va Hva. rewrite (Hguard va) by lia. intros Hg. unfold vbyte. rewrite (Hview va) by lia. cbv zeta.
    destruct (lookup_lt_is_Some_2 frames (Z.to_nat (va / 4096))) as [f Ef]; [rewrite Hsz in Hva; Z.div_mod_to_equations; lia|].
    rewrite Ef, decide_False by done. destruct (Hnew f) as [_ Hagf]; [right; by eapply list_elem_of_lookup_2|].
    rewrite Hagf by (Z.div_mod_to_equations; lia). rewrite (bd_img _ _ _ _ _ _ _ _ _ _ Hb _ f _ Ef) by (apply Z.mod_pos_bound; lia). f_equal. Z.div_mod_to_equations; lia.
  - intros va Hva. rewrite Hp'. by apply (bd_top _ _ _ _ _ _ _ _ _ _ Hb).
  - intros p Ha Hl1 Hf Ho. destruct (bd_keep _ _ _ _ _ _ _ _ _ _ Hb p Ha Hl1) as [(_ & Hpl & _) Hag1].
    eapply agree_trans; [|exact Hag1]. apply Hag; [|done]. split; [done|]. split; [done|]. by rewrite Ho1, Ho0.
Qed.
End replace.

(** ** The stack and the switch *)

Section switch.
Context {S B Dv : Type} `{HBC : !BlockCache S B}.
Variables (kend tramp : Z) (k : kernel S Dv) (p : nat).
Hypothesis kend_pos : 0 < kend.
Hypothesis Hcalm : calm k.
Hypothesis Hproc : c_proc (k_cpu k) = Some p.

Abbreviation q := (k_procs k p).
Abbreviation tf := (p_trapframe (k_procs k p)).

(** The process with its new program. *)
Definition exec_proc (path : list Z) (pg : program) (pt : Z) : kernel S Dv :=
  set_kprocs (<[p := set_sz (pg_sz pg) (set_pagetable pt (set_name (copy_name (p_name q) (last_elem path path)) q))]> (k_procs k)) k.

Lemma store_tf_pf (k' : kernel S Dv) off v ph fs :
  store_tf p off v (with_pf k' ph fs) =
  Ok tt (with_pf k' (mkphys (store64 (p_mem ph) (p_trapframe (k_procs k' p) + off) v) (freelist ph)) fs).
Proof using Type. reflexivity. Qed.

Lemma upd_proc_pf (k' : kernel S Dv) g ph fs :
  upd_proc p g (with_pf k' ph fs) = Ok tt (with_pf (set_kprocs (<[p := g (k_procs k' p)]> (k_procs k')) k') ph fs).
Proof using Type. reflexivity. Qed.

Lemma exec_switch path pg pt ph fs ph' :
  proc_freepagetable kend (p_pagetable q) (p_sz q) (mkphys (tf_set (p_mem ph) tf pg) (freelist ph)) = Ok tt ph' ->
  (store_tf p (TF_a 1) (pg_sp pg) ;;
   upd_proc p (fun q => set_name (copy_name (p_name q) (last_elem path path)) q) ;;
   let! q' := get_proc p in
   let oldpagetable := p_pagetable q' in
   upd_proc p (set_pagetable pt) ;;
   upd_proc p (set_sz (pg_sz pg)) ;;
   store_tf p TF_epc (pg_entry pg) ;;
   store_tf p TF_sp (pg_sp pg) ;;
   on_phys (proc_freepagetable kend oldpagetable (p_sz q)) ;;
   ret (s32 (pg_argc pg))) (with_pf k ph fs) = Ok (s32 (pg_argc pg)) (with_pf (exec_proc path pg pt) ph' fs).
Proof using Type.
  intros E. rewrite (bind_Ok _ _ _ _ _ (store_tf_pf k _ _ ph fs)), (bind_Ok _ _ _ _ _ (upd_proc_pf k _ _ fs)). erewrite bind_Ok by reflexivity. cbv zeta.
  rewrite (bind_Ok _ _ _ _ _ (upd_proc_pf _ _ _ fs)), (bind_Ok _ _ _ _ _ (upd_proc_pf _ _ _ fs)).
  rewrite (bind_Ok _ _ _ _ _ (store_tf_pf _ _ _ _ fs)), (bind_Ok _ _ _ _ _ (store_tf_pf _ _ _ _ fs)).
  unfold with_pf at 1. cbn [k_procs set_kprocs set_kphys set_kfs]. rewrite !fn_lookup_insert. cbn [p_trapframe p_pagetable set_sz set_pagetable set_name].
  rewrite !fn_insert_insert. erewrite bind_Ok; [|apply on_phys_pf; exact E]. reflexivity.
Qed.

(** ** From the stack to the end *)
Variables (l0 fo : list Z).
Hypothesis Hold : uspace kend (k_phys k) l0 (p_pagetable q) fo.
Hypothesis Holdtop : forall va, TRAPFRAME <= va < VASPAN -> pte_at (p_mem (k_phys k)) (p_pagetable q) va = top_entry tramp tf va.
Hypothesis Htf : aligned tf /\ (tf ∉ l0) /\ (tf ∉ fo) /\ ~ owns (p_mem (k_phys k)) (p_pagetable q) tf.
Hypothesis Hosz : 0 <= p_sz q <= TRAPFRAME.
Hypothesis Hopg : PGROUNDUP (p_sz q) = Z.of_nat (length fo) * 4096.

Abbreviation building := (building kend (p_mem (k_phys k)) l0 (top_entry tramp tf)).
Abbreviation replaced := (replaced kend (k_phys k) l0 (p_pagetable q) fo tramp tf).

(** -1: only the order of the free list may have changed, and the file system
    is [fs]. *)
Definition exec_failed (fs : fsst S) (r : Z) (k' : kernel S Dv) : Prop :=
  r = -1 /\ exists ph, k' = with_pf k ph fs /\ returned kend (p_mem (k_phys k)) l0 ph.

(** The process runs [pg]. *)
Definition exec_succeeded (path : list Z) (pg : program) (fs : fsst S) (r : Z) (k' : kernel S Dv) : Prop :=
  r = pg_argc pg /\ exists ph pt, k' = with_pf (exec_proc path pg pt) ph fs /\ replaced pg pt ph.

Lemma building_root ph l pt frames g img : building ph l pt frames g img -> pt <> 0.
Proof using All.
  intros Hb. pose proof (vi_wf _ _ _ _ (sp_inv _ _ _ _ _ (bd_space _ _ _ _ _ _ _ _ _ _ Hb))) as Hwf.
  pose proof (page_ok_pos _ kend_pos _ (wf_page _ _ _ Hwf pt (owns_root _ _))). lia.
Qed.

(** The label [bad] after the executable has been closed. *)
Lemma exec_bad_none ph fs l pt frames g img sz :
  building ph l pt frames g img -> 0 <= sz <= TRAPFRAME -> PGROUNDUP sz = Z.of_nat (length frames) * 4096 ->
  exists k', exec_bad kend pt sz None (with_pf k ph fs) = Ok (-1) k' /\ exec_failed fs (-1) k'.
Proof using All.
  intros Hb Hsz Hpg. destruct (building_freepagetable kend kend_pos _ _ _ _ _ _ _ _ _ _ _ Hb Hsz Hpg) as (ph' & E & Hr).
  exists (with_pf k ph' fs). split; [|split; [done|by exists ph']]. unfold exec_bad.
  destruct (Z.eqb_spec pt 0); [by apply building_root in Hb|]. cbn [negb]. rewrite (bind_Ok _ _ _ _ _ (on_phys_pf k _ ph fs _ ph' E)). done.
Qed.

(** The end of [exec]: the array of pointers, then the switch. *)
Definition exec_finish (path elf : list Z) (pagetable sz argc sp : Z) (ustack : list Z) : M (kernel S Dv) Z :=
  let ustack := ustack ++ [0] in
  let sp := push_sp sp ((argc + 1) * 8) in
  if sp <? sz - PGSIZE then exec_bad kend pagetable sz None
  else
    let! r := on_phys (copyout_bytes pagetable sp (concat (map (le_bytes 8) ustack))) in
    if r <? 0 then exec_bad kend pagetable sz None
    else
      store_tf p (TF_a 1) sp ;;
      upd_proc p (fun q => set_name (copy_name (p_name q) (last_elem path path)) q) ;;
      let! q' := get_proc p in
      let oldpagetable := p_pagetable q' in
      upd_proc p (set_pagetable pagetable) ;;
      upd_proc p (set_sz sz) ;;
      store_tf p TF_epc (elf_entry (elfhdr_of elf)) ;;
      store_tf p TF_sp sp ;;
      on_phys (proc_freepagetable kend oldpagetable (p_sz q)) ;;
      ret (s32 argc).

Lemma exec_finish_run path e ph fs l pt frames n us sp im :
  let sz := (Z.of_nat n + 2) * 4096 in
  let sp' := pushed_sp sp ((Z.of_nat (length us) + 1) * 8) in
  building ph l pt frames (Some n) im -> length frames = Datatypes.S (Datatypes.S n) -> sz - 4096 <= sp <= sz -> Z.of_nat (length us) <= 32 ->
  exists r k', exec_finish path e pt sz (Z.of_nat (length us)) sp us (with_pf k ph fs) = Ok r k' /\
    if sp' <? sz - PGSIZE then exec_failed fs r k'
    else exec_succeeded path (mkprogram (elf_entry (elfhdr_of e)) sz sp' (Z.of_nat (length us)) (mem_write im sp' (concat (map (le_bytes 8) (us ++ [0]))))) fs r k'.
Proof using All.
  intros sz sp' Hb Hn Hsp Hus. pose proof TRAPFRAME_eq as HT. pose proof (sp_size _ _ _ _ _ (bd_space _ _ _ _ _ _ _ _ _ _ Hb)) as Hsz. rewrite Hn in Hsz.
  unfold exec_finish. rewrite push_sp_eq by (unfold sz in *; lia). fold sp'. unfold PGSIZE.
  pose proof (pushed_sp_le sp ((Z.of_nat (length us) + 1) * 8)) as Hle. fold sp' in Hle.
  destruct (Z.ltb_spec sp' (sz - 4096)).
  { destruct (exec_bad_none ph fs _ _ _ _ _ sz Hb) as (k' & E & Hf); [unfold sz; lia| |by exists (-1), k'].
    rewrite Hn. replace sz with (Z.of_nat (Datatypes.S (Datatypes.S n)) * 4096) by (unfold sz; lia). apply PGROUNDUP_mul. lia. }
  set (vec := concat (map (le_bytes 8) (us ++ [0]))).
  assert (Hvec : Z.of_nat (length vec) = (Z.of_nat (length us) + 1) * 8) by (unfold vec; rewrite length_words, length_app; cbn [length]; lia).
  destruct (lookup_lt_is_Some_2 frames (Datatypes.S n)) as [f Hf]; [lia|].
  destruct (building_copyout_bytes kend kend_pos _ _ _ _ _ _ _ _ _ (Datatypes.S n) f (sp' - (sz - 4096)) vec Hb Hf) as (ph1 & E1 & Hb1);
    [intros [=]; lia|lia|intros Ev; rewrite Ev in Hvec; cbn in Hvec; lia|unfold sz in *; lia|].
  replace (Z.of_nat (Datatypes.S n) * 4096 + (sp' - (sz - 4096))) with sp' in * by (unfold sz; lia).
  rewrite (bind_Ok _ _ _ _ _ (on_phys_pf k _ ph fs _ ph1 E1)). cbn [Z.ltb Z.compare].
  set (pg := mkprogram (elf_entry (elfhdr_of e)) sz sp' (Z.of_nat (length us)) (mem_write im sp' vec)).
  destruct (replace_run kend kend_pos (k_phys k) l0 (p_pagetable q) fo tramp tf Hold Holdtop Htf pg ph1 l pt frames n (p_sz q) Hb1 Hn) as (ph2 & E2 & Hrep); [cbn; unfold sz; lia|done|done|].
  exists (pg_argc pg), (with_pf (exec_proc path pg pt) ph2 fs). split; [|split; [done|by exists ph2, pt]].
  rewrite <- (s32_small (pg_argc pg)) by (cbn; lia). exact (exec_switch path pg pt ph1 fs ph2 E2).
Qed.

Lemma exec_stack_run path argv strs e ph fs l pt frames img sz :
  building ph l pt frames None img -> 0 <= sz <= TRAPFRAME -> PGROUNDUP sz = Z.of_nat (length frames) * 4096 -> spent l0 5 l frames ->
  Forall2 (arg_at (p_mem (k_phys k)) l0) argv strs ->
  exists r k', exec_stack kend path argv e pt sz (with_pf k ph fs) = Ok r k' /\
    match exec_stack_image (elf_entry (elfhdr_of e)) sz img strs with
    | None => exec_failed fs r k'
    | Some pg => exec_succeeded path pg fs r k' \/ exec_failed fs r k' /\ scarce l0 (pg_sz pg)
    end.
Proof using All.
  intros Hb Hsz Hpg Hsp Hargs. pose proof TRAPFRAME_eq as HT. set (N := length frames) in *.
  assert (HN : (sz + 4095) / 4096 * 4096 = Z.of_nat N * 4096) by (rewrite <- Hpg, PGROUNDUP_eq by lia; Z.div_mod_to_equations; lia).
  assert (Hlen : Z.of_nat N * 4096 <= TRAPFRAME) by apply (sp_size _ _ _ _ _ (bd_space _ _ _ _ _ _ _ _ _ _ Hb)).
  assert (Hround : PGROUNDUP (Z.of_nat N * 4096) = Z.of_nat N * 4096) by (apply PGROUNDUP_mul; lia).
  unfold exec_stack, exec_stack_image. rewrite (bind_Ok _ _ _ _ _ (curproc_pf k p Hcalm Hproc ph fs)). erewrite bind_Ok by reflexivity. cbv zeta.
  rewrite Hpg, HN. replace (Z.of_nat N * 4096 + 2 * PGSIZE) with ((Z.of_nat N + 2) * 4096) by (unfold PGSIZE; lia).
  set (sz1 := (Z.of_nat N + 2) * 4096). rewrite (u64_small sz1) by (unfold sz1; lia).
  destruct (building_grow kend kend_pos _ _ _ _ _ _ _ _ (Z.of_nat N * 4096) sz1 Hb) as (r1 & ph1 & l1 & frames1 & E1 & Hb1 & Hres1); [lia|done|lia|unfold sz1; lia|].
  rewrite (bind_Ok _ _ _ _ _ (on_phys_pf k _ ph fs _ ph1 E1)).
  destruct Hres1 as [(-> & Hle & Hlen1 & _)|(-> & -> & Hfew)]; last first.
  { cbn [Z.eqb]. destruct (exec_bad_none ph1 fs l1 pt frames None img (Z.of_nat N * 4096) Hb1 ltac:(lia) Hround) as (k' & E & Hf). exists (-1), k'. split; [done|].
    specialize (Hfew 5 Hsp). destruct (Z.ltb_spec TRAPFRAME sz1); [done|]. destruct (push_strs _ _ _ _ _) as [[[? ?] ?]|]; [|done].
    destruct (_ <? _); [done|]. right. split; [done|]. exact Hfew. }
  assert (Hround1 : PGROUNDUP sz1 = sz1) by (replace sz1 with (Z.of_nat (N + 2) * 4096) by (unfold sz1; lia); apply PGROUNDUP_mul; lia).
  assert (HN1 : length frames1 = Datatypes.S (Datatypes.S N)) by (unfold sz1 in *; lia).
  destruct (Z.eqb_spec sz1 0); [unfold sz1 in *; lia|]. destruct (Z.ltb_spec TRAPFRAME sz1); [lia|].
  destruct (lookup_lt_is_Some_2 frames1 N) as [fg Hfg]; [lia|].
  destruct (building_clear kend kend_pos _ _ _ _ _ _ _ _ N fg Hb1 Hfg) as (ph2 & E2 & Hb2). unfold PGSIZE.
  replace (sz1 - 2 * 4096) with (Z.of_nat N * 4096) by (unfold sz1; lia). rewrite (bind_Ok _ _ _ _ _ (on_phys_pf k _ ph1 fs _ ph2 E2)).
  destruct (exec_args_run kend k fs kend_pos _ l0 _ pt argv strs ph2 l1 frames1 N img (sz1 - 4096) sz1 [] Hargs Hb2 HN1) as (r & ph3 & E3 & Hres3); [unfold sz1; lia|lia|].
  rewrite (bind_Ok _ _ _ _ _ E3). destruct (push_strs _ _ _ _ _) as [[[sp us] im]|] eqn:Eps; last first.
  { destruct Hres3 as [-> (im & Hb3)]. destruct (exec_bad_none ph3 fs _ _ _ _ _ sz1 Hb3 ltac:(unfold sz1 in *; lia) ltac:(congruence)) as (k' & E & Hf). by exists (-1), k'. }
  destruct Hres3 as (-> & Hb3 & Hspr). apply push_strs_length in Eps as Hus. cbn [length] in Hus.
  destruct (exec_finish_run path e ph3 fs l1 pt frames1 N us sp im Hb3 HN1) as (r & k' & E & Hres); [fold sz1; lia|lia|]. fold sz1 in E, Hres. unfold PGSIZE in Hres.
  exists r, k'. split; [exact E|]. destruct (_ <? _); [done|by left].
Qed.
End switch.

(** ** [exec] *)
Section exec.
Context {S B Dv : Type} `{HBC : !BlockCache S B} `{HCS : !CacheSpec S B ROOTDEV}.
Variables (start size : Z) (dk : Z -> block) (sb : superblock) (D : Z -> block).
Hypothesis Hstart : 0 <= start.
Hypothesis Hend : start + size <= 2147483648.
Hypothesis Hsize : 30 <= size.
Hypothesis Hly : layout sb.
Hypothesis Hbit : bitmap_ok sb D.
Hypothesis Htree : tree_ok sb D.
Hypothesis Hfiles : files_ok sb D.
Variables (kend tramp : Z).
Hypothesis kend_pos : 0 < kend.
Hypothesis Htramp : 0 <= tramp < 4294967296.

(** A process that can call [exec]: it runs on this CPU, no file system call
    is in progress, the file table has room for the path, the pages [fo] are
    its memory, [l] the free pages, and its trapframe is a page of its own. *)
Record exec_ready (k : kernel S Dv) (p : nat) (l fo : list Z) : Prop := {
  er_calm : calm k;
  er_proc : c_proc (k_cpu k) = Some p;
  er_fs : fs_rest ROOTDEV start size dk sb D (refs_of (itable (k_fs k))) (k_fs k);
  er_root : linked sb D ROOTINO;
  er_room : nlive (itable (k_fs k)) + 2 <= Z.of_nat NINODE;
  er_refs n : refs_of (itable (k_fs k)) ROOTDEV n < 2147483640;
  er_space : uspace kend (k_phys k) l (p_pagetable (k_procs k p)) fo;
  er_top va : TRAPFRAME <= va < VASPAN ->
    pte_at (p_mem (k_phys k)) (p_pagetable (k_procs k p)) va = top_entry tramp (p_trapframe (k_procs k p)) va;
  er_size : 0 <= p_sz (k_procs k p) <= TRAPFRAME /\ PGROUNDUP (p_sz (k_procs k p)) = Z.of_nat (length fo) * 4096;
  er_tf : let tf := p_trapframe (k_procs k p) in
    aligned tf /\ (tf ∉ l) /\ (tf ∉ fo) /\ ~ owns (p_mem (k_phys k)) (p_pagetable (k_procs k p)) tf;
  er_tf_range : 0 <= p_trapframe (k_procs k p) < 4294967296
}.

Lemma with_pf_id (k : kernel S Dv) : with_pf k (k_phys k) (k_fs k) = k.
Proof using Type. by destruct k. Qed.

Section run.
Variables (k : kernel S Dv) (p : nat) (l fo : list Z).
Hypothesis Hready : exec_ready k p l fo.

Abbreviation mypid := (p_pid (k_procs k p)).
Abbreviation tf := (p_trapframe (k_procs k p)).
Abbreviation R := (refs_of (itable (k_fs k))).
Abbreviation fs_op := (fs_op ROOTDEV start size dk sb D).
Abbreviation fs_rest := (fs_rest ROOTDEV start size dk sb D R).

(** The label [bad] with the executable open. *)
Lemma exec_close_run ph fs ip inum :
  fs_op (Some ip) fs -> holding_inode ROOTDEV sb mypid D fs ip inum -> linked sb D inum ->
  (forall d n, refs_of (itable fs) d n = R d n + one ROOTDEV inum d n) ->
  exists fs1 fs', k_iunlockput ip (with_pf k ph fs) = Ok tt (with_pf k ph fs1) /\ k_end_op (with_pf k ph fs1) = Ok tt (with_pf k ph fs') /\ fs_rest fs'.
Proof using Hstart Hend Hsize Hly Hready.
  intros Hop Hh Hlk HR. destruct (op_close ROOTDEV start size dk sb Hstart Hend Hsize Hly mypid D fs ip inum R Hop Hh Hlk HR) as (fs1 & fs2 & E1 & E2 & Hrest).
  exists fs1, fs2. split; [exact (with_pid_pf k p (er_calm _ _ _ _ Hready) (er_proc _ _ _ _ Hready) (fun pid => iunlockput pid ip) ph fs tt fs1 E1)|].
  split; [by apply on_fs_pf|done].
Qed.

Abbreviation reading := (reading ROOTDEV start size dk sb D k p).
Abbreviation failed := (exec_failed kend k l).
Abbreviation succeeded := (exec_succeeded kend tramp k p l fo).

Lemma reading_refs ip inum fs0 fs d n : reading ip inum fs0 fs -> refs_of (itable fs) d n = refs_of (itable fs0) d n.
Proof using Type.
  intros [Hop _ Et]. destruct (itable_agree (itable fs) (itable fs0)
    (fun k => conj (f_equal i_ref (eq_sym (Et k))) (conj (f_equal i_dev (eq_sym (Et k))) (f_equal i_inum (eq_sym (Et k))))) (se_ok _ _ _ _ _ _ _ _ _ (op_settled _ _ _ _ _ _ _ _ Hop))) as [_ H]. by rewrite H.
Qed.

(** [goto bad] while the executable is open: the pages are given back already. *)
Lemma exec_bad_open ph ph' fs ip inum pt sz :
  reading ip inum fs fs -> linked sb D inum -> (forall d n, refs_of (itable fs) d n = R d n + one ROOTDEV inum d n) ->
  (if negb (pt =? 0) then on_phys (proc_freepagetable kend pt sz) else ret tt) (with_pf k ph fs) = Ok tt (with_pf k ph' fs) ->
  returned kend (p_mem (k_phys k)) l ph' ->
  exists k' fs', exec_bad kend pt sz (Some ip) (with_pf k ph fs) = Ok (-1) k' /\ fs_rest fs' /\ failed fs' (-1) k'.
Proof using Hstart Hend Hsize Hly Hready.
  intros [Hop Hh _] Hlk HR E Hret. destruct (exec_close_run ph' fs ip inum Hop Hh Hlk HR) as (fs1 & fs' & E1 & E2 & Hrest).
  exists (with_pf k ph' fs'), fs'. split; [|split; [done|split; [done|by exists ph']]].
  assert (Ec : (k_iunlockput ip ;; k_end_op) (with_pf k ph' fs) = Ok tt (with_pf k ph' fs')) by (by rewrite (bind_Ok _ _ _ _ _ E1)).
  unfold exec_bad. by rewrite (bind_Ok _ _ _ _ _ E), (bind_Ok _ _ _ _ _ Ec).
Qed.

Lemma exec_image_size entry sz img strs pg : exec_stack_image entry sz img strs = Some pg -> pg_sz pg = (sz + 4095) / 4096 * 4096 + 8192.
Proof using Type.
  unfold exec_stack_image. cbv zeta. destruct (_ <? _); [done|]. destruct (push_strs _ _ _ _ _) as [[[? ?] ?]|]; [|done]. destruct (_ <? _); [done|]. by intros [= <-].
Qed.

(** The outcome for the executable [f]. *)
Definition exec_outcome (path : list Z) (im : option program) (fs : fsst S) (r : Z) (k' : kernel S Dv) : Prop :=
  match im with
  | None => failed fs r k'
  | Some pg => succeeded path pg fs r k' \/ failed fs r k' /\ scarce l (pg_sz pg)
  end.

Lemma failed_outcome path im fs r k' : failed fs r k' -> (forall pg, im = Some pg -> scarce l (pg_sz pg)) -> exec_outcome path im fs r k'.
Proof using Type. intros Hf H. destruct im as [pg|]; cbn; [right; split; [done|by apply H]|done]. Qed.

(** The segments and the rest, with the new page table *)
Definition exec_program (path argv elf : list Z) (ip : nat) (pagetable : Z) : M (kernel S Dv) Z :=
  let! r := exec_load kend (Z.to_nat (elf_phnum (elfhdr_of elf))) pagetable ip (s32 (elf_phoff (elfhdr_of elf))) 0 (repeat 0 56) in
  if negb (snd r) then exec_bad kend pagetable (fst r) (Some ip)
  else
    k_iunlockput ip ;;
    k_end_op ;;
    exec_stack kend path argv elf pagetable (fst r).

Lemma exec_program_run path argv strs e ph fs ip inum pt l2 :
  reading ip inum fs fs -> linked sb D inum -> (forall d n, refs_of (itable fs) d n = R d n + one ROOTDEV inum d n) ->
  building kend (p_mem (k_phys k)) l (top_entry tramp tf) ph l2 pt [] None (fun _ => 0) -> spent l 5 l2 [] -> pt <> 0 ->
  Forall2 (arg_at (p_mem (k_phys k)) l) argv strs ->
  exists r k' fs', exec_program path argv e ip pt (with_pf k ph fs) = Ok r k' /\ fs_rest fs' /\
    exec_outcome path
      match load_segs (Z.to_nat (elf_phnum (elfhdr_of e))) (contents sb D inum) (u32 (elf_phoff (elfhdr_of e))) 0 (fun _ => 0) with
      | None => None
      | Some (sz, img) => exec_stack_image (elf_entry (elfhdr_of e)) sz img strs
      end fs' r k'.
Proof using Hstart Hend Hsize Hly Hbit Hfiles kend_pos Htramp Hready.
  intros Hr Hlk HR Hb Hsp2 Hpt Hargs. pose proof Hready as [Hcalm Hproc _ _ _ _ Hsp Htop [Hsz Hpg] Htf _]. unfold exec_program.
  destruct (exec_load_run ROOTDEV start size dk sb Hstart Hend Hsize Hly D Hbit Hfiles kend k p kend_pos Hcalm Hproc ip inum Hlk (p_mem (k_phys k)) l (top_entry tramp tf) pt
    (Z.to_nat (elf_phnum (elfhdr_of e))) fs fs ph l2 [] (fun _ => 0) (s32 (elf_phoff (elfhdr_of e))) (u32 (elf_phoff (elfhdr_of e))) 0 (repeat 0 56))
    as ([szr ok] & ph3 & fs3 & l3 & frames3 & img3 & E3 & (Hr3 & Hb3 & Hsz3 & Hpg3) & Hres3);
    [split; [done|split; [done|split; [rewrite TRAPFRAME_eq; lia|done]]]|done|apply u32_s32|done|]. cbn [fst snd] in *.
  rewrite (bind_Ok _ _ _ _ _ E3). cbn [fst snd].
  assert (HR3 : forall d n, refs_of (itable fs3) d n = R d n + one ROOTDEV inum d n) by (intros d n; by rewrite (reading_refs _ _ _ _ _ _ Hr3)).
  assert (Hbad : exists k' fs', exec_bad kend pt szr (Some ip) (with_pf k ph3 fs3) = Ok (-1) k' /\ fs_rest fs' /\ failed fs' (-1) k').
  { destruct (building_freepagetable kend kend_pos _ _ _ _ _ _ _ _ _ _ _ Hb3 Hsz3 Hpg3) as (ph4 & E4 & Hret4).
    apply (exec_bad_open ph3 ph4 fs3 ip inum pt szr); [destruct Hr3; by split|done|done| |done]. destruct (Z.eqb_spec pt 0); [done|]. cbn [negb]. by apply on_phys_pf. }
  assert (Hscarce : forall pg, match load_segs (Z.to_nat (elf_phnum (elfhdr_of e))) (contents sb D inum) (u32 (elf_phoff (elfhdr_of e))) 0 (fun _ => 0) with
      | None => None | Some (sz, img) => exec_stack_image (elf_entry (elfhdr_of e)) sz img strs end = Some pg -> ok = false -> scarce l (pg_sz pg)).
  { intros pg Epg Hok. destruct (load_segs _ _ _ _ _) as [[sz im]|]; [|done]. apply exec_image_size in Epg. destruct Hres3 as [([= -> ->] & _)|[_ Hsc]]; [done|].
    unfold scarce in *. Z.div_mod_to_equations; lia. }
  destruct ok; cbn [negb]; last first.
  { destruct Hbad as (k' & fs' & E & Hrest & Hf). exists (-1), k', fs'. split; [done|]. split; [done|]. apply failed_outcome; [done|]. intros pg Epg. by apply Hscarce. }
  destruct (load_segs _ _ _ _ _) as [[sz im]|]; [|done]. destruct Hres3 as [([= ->] & -> & Hsp3)|[? _]]; [|done].
  destruct (exec_close_run ph3 fs3 ip inum (rd_op _ _ _ _ _ _ _ _ _ _ _ _ Hr3) (rd_hold _ _ _ _ _ _ _ _ _ _ _ _ Hr3) Hlk HR3) as (fs4 & fs5 & E4 & E5 & Hrest5).
  destruct (exec_stack_run kend tramp k p kend_pos Hcalm Hproc l fo Hsp Htop Htf Hsz Hpg path argv strs e ph3 fs5 l3 pt frames3 im sz Hb3 Hsz3 Hpg3 Hsp3 Hargs) as (r & k' & E6 & Hres6).
  exists r, k', fs5. split; [|done]. by rewrite (bind_Ok _ _ _ _ _ E4), (bind_Ok _ _ _ _ _ E5).
Qed.

(** [exec] once the executable has been found and locked *)
Definition exec_file (path argv : list Z) (ip : nat) : M (kernel S Dv) Z :=
  let! r := readi_local ip (repeat 0 64) 0 ELFHDR_SIZE in
  let elf := snd r in
  if negb (fst r =? ELFHDR_SIZE) then exec_bad kend 0 0 (Some ip)
  else if negb (elf_magic (elfhdr_of elf) =? ELF_MAGIC) then exec_bad kend 0 0 (Some ip)
  else
    let! q := get_proc p in
    let! pagetable := on_phys (proc_pagetable kend tramp (p_trapframe q)) in
    if pagetable =? 0 then exec_bad kend 0 0 (Some ip) else exec_program path argv elf ip pagetable.

Lemma exec_file_run path argv strs fs ip inum :
  reading ip inum fs fs -> linked sb D inum -> (forall d n, refs_of (itable fs) d n = R d n + one ROOTDEV inum d n) ->
  Forall2 (arg_at (p_mem (k_phys k)) l) argv strs ->
  exists r k' fs', exec_file path argv ip (with_pf k (k_phys k) fs) = Ok r k' /\ fs_rest fs' /\
    exec_outcome path (exec_image (contents sb D inum) strs) fs' r k'.
Proof using Hstart Hend Hsize Hly Hbit Hfiles kend_pos Htramp Hready.
  intros Hr0 Hlk HR Hargs. pose proof Hready as [Hcalm Hproc _ _ _ _ Hsp _ _ _ Htfr]. unfold exec_file, exec_image.
  destruct (header_read ROOTDEV start size dk sb Hstart Hend Hsize Hly D Hbit Hfiles k p ip inum Hlk fs fs (k_phys k) (repeat 0 64) 0 ELFHDR_SIZE Hr0)
    as (r & e & fs1 & E1 & Hr1 & Hlen1 & Hs1); [done|done|lia|]. rewrite (bind_Ok _ _ _ _ _ E1). cbn [fst snd].
  assert (HR1 : forall d n, refs_of (itable fs1) d n = R d n + one ROOTDEV inum d n) by (intros d n; by rewrite (reading_refs _ _ _ _ _ _ Hr1)).
  assert (Hr1' : reading ip inum fs1 fs1) by (destruct Hr1; by split).
  assert (Hbad : forall ph, returned kend (p_mem (k_phys k)) l ph ->
    exists k' fs', exec_bad kend 0 0 (Some ip) (with_pf k ph fs1) = Ok (-1) k' /\ fs_rest fs' /\ failed fs' (-1) k').
  { intros ph Hret. by apply (exec_bad_open ph ph fs1 ip inum 0 0 Hr1' Hlk HR1). }
  destruct (Hbad (k_phys k)) as (k' & fs' & Ebad & Hrest & Hf); [exists l; split; [apply Hsp|by split]|].
  destruct (slice (contents sb D inum) 0 ELFHDR_SIZE) as [e'|] eqn:Es; last first.
  { destruct (Z.eqb_spec r ELFHDR_SIZE); [done|]. cbn [negb]. by exists (-1), k', fs'. }
  destruct Hs1 as [-> ->]. cbn [ELFHDR_SIZE Z.eqb Pos.eqb negb].
  destruct (elf_magic (elfhdr_of e') =? ELF_MAGIC) eqn:Emag; cbn [negb]; [|by exists (-1), k', fs'].
  erewrite bind_Ok by reflexivity. change (k_procs (with_pf k (k_phys k) fs1)) with (k_procs k).
  destruct (proc_pagetable_run kend kend_pos (p_mem (k_phys k)) l tramp tf (k_phys k)) as (pt & ph2 & E2 & Hres2); [apply Hsp|done|lia|lia|lia|lia|].
  rewrite (bind_Ok _ _ _ _ _ (on_phys_pf k _ (k_phys k) fs1 _ ph2 E2)).
  destruct Hres2 as [(Hpt & l2 & Hb2 & Hsp2)|(-> & Hret2 & Hfew)].
  - destruct (Z.eqb_spec pt 0); [done|]. by apply (exec_program_run path argv strs e' ph2 fs1 ip inum pt l2).
  - destruct (Hbad ph2 Hret2) as (k2 & fs2 & E & Hrest2 & Hf2). exists (-1), k2, fs2. split; [done|]. split; [done|]. apply failed_outcome; [done|].
    intros pg Epg. destruct (load_segs _ _ _ _ _) as [[sz im]|] eqn:El; [|done]. apply load_segs_mono in El. apply exec_image_size in Epg.
    unfold scarce. Z.div_mod_to_equations; lia.
Qed.

(** [exec] from [begin_op] to the locked inode *)
Lemma exec_run path argv strs c :
  FsName.path_ok path -> Forall is_byte path ->
  (head path = Some 47 \/ exists cwd, p_cwd (k_procs k p) = Some cwd /\ FsInode.live (itable (k_fs k)) ROOTDEV c cwd /\ linked sb D c) ->
  Forall2 (arg_at (p_mem (k_phys k)) l) argv strs ->
  exists r k' fs', exec kend tramp path argv k = Ok r k' /\ fs_rest fs' /\
    match resolve sb D false (path_start c path) (path_elems path) with
    | None => failed fs' r k'
    | Some inum => exec_outcome path (exec_image (contents sb D inum) strs) fs' r k'
    end.
Proof using All.
  intros Hp Hpb Hcwd Hargs. pose proof Hready as [Hcalm Hproc Hfs Hroot Hroom Href Hsp _ _ _ _]. replace (exec kend tramp path argv k) with (exec kend tramp path argv (with_pf k (k_phys k) (k_fs k))) by (by rewrite with_pf_id).
  unfold exec. rewrite (bind_Ok _ _ _ _ _ (curproc_pf k p Hcalm Hproc (k_phys k) (k_fs k))).
  destruct (rest_begin ROOTDEV start size dk sb D R (k_fs k) Hfs) as (fs1 & E1 & Hop1 & Et1).
  assert (E1' : k_begin_op (with_pf k (k_phys k) (k_fs k)) = Ok tt (with_pf k (k_phys k) fs1)) by (by apply on_fs_pf).
  rewrite (bind_Ok _ _ _ _ _ E1').
  assert (exists cwd, k_cwd path (with_pf k (k_phys k) fs1) = Ok cwd (with_pf k (k_phys k) fs1) /\
    (head path = Some 47 \/ FsInode.live (itable fs1) ROOTDEV c cwd /\ linked sb D c)) as (cwd & Ec & Hcwd1).
  { unfold k_cwd. rewrite Et1. assert (Ec : curproc (with_pf k (k_phys k) fs1) = Ok p (with_pf k (k_phys k) fs1)) by (by apply curproc_pf).
    destruct Hcwd as [Hh|(cwd & Ecwd & Hl)].
    - exists 0%nat. rewrite (bind_Ok _ _ _ _ _ Ec). erewrite bind_Ok by reflexivity. destruct path as [|x path']; [done|]. injection Hh as ->. split; [done|by left].
    - exists (if decide (head path = Some 47) then 0%nat else cwd). rewrite (bind_Ok _ _ _ _ _ Ec). erewrite bind_Ok by reflexivity.
      change (k_procs (with_pf k (k_phys k) fs1) p) with (k_procs k p). rewrite Ecwd. rewrite (slash_case path (ret 0%nat) (ret cwd)). case_decide; [split; [done|by left]|]. split; [done|by right]. }
  destruct (op_namei ROOTDEV start size dk sb Hstart Hend Hsize Hly mypid D Hbit Htree fs1 cwd c path eq_refl Hop1 Hcwd1 Hroot) as (r & fs2 & E2 & Hop2 & Hres);
    [by rewrite Et1|by rewrite Et1|done|done|].
  assert (E2' : k_namei path (with_pf k (k_phys k) fs1) = Ok r (with_pf k (k_phys k) fs2)).
  { unfold k_namei. rewrite (bind_Ok _ _ _ _ _ Ec). by apply (with_pid_pf k p Hcalm Hproc (fun pid => namei pid cwd path)). }
  rewrite (bind_Ok _ _ _ _ _ E2'). destruct (resolve _ _ _ _ _) as [inum|].
  - destruct Hres as (ip & -> & Hl & Hlk & HR2). rewrite Et1 in HR2.
    destruct (op_ilock ROOTDEV start size dk sb Hstart Hend Hsize Hly mypid D fs2 ip inum Hop2 Hl Hlk) as (fs3 & E3 & Hop3 & Hh3 & HR3).
    assert (E3' : k_ilock ip (with_pf k (k_phys k) fs2) = Ok tt (with_pf k (k_phys k) fs3)) by (by apply (with_pid_pf k p Hcalm Hproc (fun pid => ilock pid ip))).
    rewrite (bind_Ok _ _ _ _ _ E3'). apply exec_file_run; [by split|done|intros d n; by rewrite HR3|done].
  - destruct Hres as [-> HR2]. rewrite Et1 in HR2. destruct (op_end ROOTDEV start size dk sb D fs2 R Hop2 HR2) as (fs3 & E3 & Hrest & _).
    assert (E3' : k_end_op (with_pf k (k_phys k) fs2) = Ok tt (with_pf k (k_phys k) fs3)) by (by apply on_fs_pf).
    exists (-1), (with_pf k (k_phys k) fs3), fs3. split; [by rewrite (bind_Ok _ _ _ _ _ E3')|]. split; [done|]. split; [done|]. exists (k_phys k). split; [done|].
    exists l. split; [apply Hsp|by split].
Qed.
End run.

(** C3.  [exec] runs the program that the path denotes.  For any file, well formed
    or not, it does not panic.  If the path resolves to a file that is an
    executable ([exec_image], a function of its bytes and the arguments), the
    process gets a new address space through which it sees exactly the image:
    the segments of the file, zeros after them, an inaccessible guard page and
    a stack with the argument strings and the array of pointers to them;
    program counter, stack pointer and arguments are set, the name is that of
    the file, and every page of the old address space is free again.  In all
    other cases, and when there are no more than three free pages for each page
    of the program (and a few for the tables), it returns -1: the process, its
    memory and the set of free pages are as before.  In every case the file is
    closed and unlocked, no inode reference is lost, and no other page is
    changed.  (With exactly [MAXARG] arguments the C code stores a pointer past
    the end of [ustack]; [sys_exec] passes fewer.) *)
Theorem exec_correct k p l fo path argv strs c :
  exec_ready k p l fo -> FsName.path_ok path -> Forall is_byte path ->
  (head path = Some 47 \/ exists cwd, p_cwd (k_procs k p) = Some cwd /\ FsInode.live (itable (k_fs k)) ROOTDEV c cwd /\ linked sb D c) ->
  Forall2 (arg_at (p_mem (k_phys k)) l) argv strs -> length argv <> Z.to_nat MAXARG ->
  exists r k' fs', exec kend tramp path argv k = Ok r k' /\ fs_rest ROOTDEV start size dk sb D (refs_of (itable (k_fs k))) fs' /\
    match resolve sb D false (path_start c path) (path_elems path) with
    | None => exec_failed kend k l fs' r k'
    | Some inum =>
        match exec_image (contents sb D inum) strs with
        | None => exec_failed kend k l fs' r k'
        | Some pg =>
            exec_succeeded kend tramp k p l fo path pg fs' r k' /\ args_on_stack pg strs \/
            exec_failed kend k l fs' r k' /\ scarce l (pg_sz pg)
        end
    end.
Proof using All.
  intros Hready Hp Hpb Hcwd Hargs _. destruct (exec_run k p l fo Hready path argv strs c Hp Hpb Hcwd Hargs) as (r & k' & fs' & E & Hrest & Hres).
  exists r, k', fs'. split; [done|]. split; [done|]. destruct (resolve _ _ _ _ _) as [inum|]; [|done].
  destruct (exec_image _ _) as [pg|] eqn:Epg; [|done]. destruct Hres as [Hs|Hf]; [left|by right]. split; [done|].
  unfold exec_image in Epg. destruct (slice _ _ _) as [e|]; [|done]. destruct (negb _); [done|]. destruct (load_segs _ _ _ _ _) as [[sz im]|]; [|done].
  by eapply exec_image_args.
Qed.
End exec.

(** ** An example *)

(** An executable with one segment: six bytes, 5000 in memory. *)
Definition demo_elf : list Z :=
  [0x7f; 0x45; 0x4c; 0x46] ++ repeat 0 12 ++ le_bytes 2 2 ++ le_bytes 2 243 ++ le_bytes 4 1 ++ le_bytes 8 4 ++ le_bytes 8 64 ++ le_bytes 8 0 ++
  le_bytes 4 0 ++ le_bytes 2 64 ++ le_bytes 2 56 ++ le_bytes 2 1 ++ repeat 0 6 ++
  le_bytes 4 1 ++ le_bytes 4 7 ++ le_bytes 8 120 ++ le_bytes 8 0 ++ le_bytes 8 0 ++ le_bytes 8 6 ++ le_bytes 8 5000 ++ le_bytes 8 4096 ++
  [1; 2; 3; 4; 5; 6].

Definition demo_arg : list Z := [105; 110; 105; 116].

Lemma demo_image :
  match exec_image demo_elf [demo_arg] with
  | Some pg => pg_sz pg = 16384 /\ pg_argc pg = 1 /\ mem_read (pg_img pg) 0 7 = [1; 2; 3; 4; 5; 6; 0]
  | None => False
  end.
Proof. vm_compute. split; [reflexivity|]. split; reflexivity. Qed.

(** A machine with 64 pages for the kernel to allocate. *)
Definition demo_end : Z := PHYSTOP - 64 * PGSIZE.
Definition demo_tramp : Z := KERNBASE.

Lemma demo_machine :
  exists s l pt tf, uspace demo_end s l pt [] /\ (forall va, TRAPFRAME <= va < VASPAN -> pte_at (p_mem s) pt va = top_entry demo_tramp tf va) /\
    (aligned tf /\ (tf ∉ l) /\ ~ owns (p_mem s) pt tf) /\ 0 <= tf < 4294967296 /\ (50 < length l)%nat /\ arg_at (p_mem s) l 5000 demo_arg.
Proof.
  assert (Hpos : 0 < demo_end) by (vm_compute; done).
  destruct (kinit_run demo_end Hpos boot_state) as (s1 & _ & Hk1); [vm_compute; discriminate|done|].
  assert (Hlen : length (pages_from (PGROUNDUP demo_end) (Z.to_nat ((PHYSTOP - PGROUNDUP demo_end) / PGSIZE))) = 64%nat) by (vm_compute; done).
  destruct (pages_from _ _) as [|tf l1] eqn:El; [done|].
  destruct (kalloc_run_cons demo_end s1 tf l1 Hk1) as (s2 & _ & Hk2 & _). destruct Hk1 as (_ & Hnd & Hall). apply NoDup_cons in Hnd as [Htf1 _].
  apply Forall_inv in Hall as [Hta Htr]. unfold demo_end, PHYSTOP, KERNBASE, PGSIZE in Htr.
  destruct (proc_pagetable_run demo_end Hpos (p_mem s2) l1 demo_tramp tf s2 Hk2 eq_refl) as (pt & s3 & _ & Hres); [vm_compute; discriminate..|lia|lia|].
  cbn [length] in Hlen. destruct Hres as [(_ & l & Hb & Hsp)|(_ & _ & Hf)]; [|lia].
  pose proof (bd_space _ _ _ _ _ _ _ _ _ _ Hb) as Hs. unfold spent in Hsp. cbn [length] in Hsp.
  destruct (bd_keep _ _ _ _ _ _ _ _ _ _ Hb tf Hta Htf1) as [Hap _].
  assert (Hlow : forall x, 0 <= x < 2147483648 -> x ∉ l1).
  { intros x Hx Hin. destruct Hk2 as (_ & _ & Hall2). rewrite Forall_forall in Hall2. destruct (Hall2 x Hin) as [_ Hr]. unfold demo_end, PHYSTOP, KERNBASE, PGSIZE in Hr. lia. }
  destruct (bd_keep _ _ _ _ _ _ _ _ _ _ Hb 4096 ltac:(done) (Hlow 4096 ltac:(lia))) as [Hap1 _].
  destruct (uspace_store demo_end Hpos s3 l pt [] 4096 (mem_write (p_mem s3) 5000 (demo_arg ++ [0])) Hs Hap1) as (Hs4 & Ho4 & Hp4 & Hap4 & _).
  { intros x Hx. unfold mem_write. case_range; [cbn in *; lia|done]. }
  exists (mkphys (mem_write (p_mem s3) 5000 (demo_arg ++ [0])) (freelist s3)), l, pt, tf. split; [done|]. split.
  { intros va Hva. cbn [p_mem]. rewrite Hp4. by apply (bd_top _ _ _ _ _ _ _ _ _ _ Hb). }
  split; [by apply Hap4|]. split; [lia|]. split; [lia|]. split; [exact (mem_read_write_same (p_mem s3) 5000 (demo_arg ++ [0]))|].
  split; [by repeat constructor|]. split; [cbn; lia|]. intros x Hx Hin. apply (Hlow (PGROUNDDOWN x)).
  - pose proof (PGROUNDDOWN_bounds x). cbn in Hx. rewrite PGROUNDDOWN_eq in *. Z.div_mod_to_equations; lia.
  - eapply building_owned; [exact Hpos|exact Hb|by left].
Qed.

Definition demo_exec_host : host := mkhost (fun _ => true) (fun _ => Some [demo_elf; []]).
(** [u/_init] *)
Definition demo_exec_files : list (list Z) := [[117; 47; 95; 105; 110; 105; 116]].
Definition demo_exec_reads : list (list (list Z)) := [[demo_elf; []]].

(** The kernel at work for process 1, which has no memory yet. *)
Definition exec_kernel (ph : phys) (pt tf : Z) (fs : fsst bcache) : kernel bcache unit :=
  mkkernel (k_hart demo_kernel) (k_cpu demo_kernel) (k_locks demo_kernel)
    (<[1%nat := set_sz 0 (set_pagetable pt (set_trapframe tf (set_pid 7 (demo_procs 1))))]> demo_procs)
    (Some 0%nat) 3 100 ph fs (k_files demo_kernel) (k_pipes demo_kernel) (k_cons demo_kernel) (k_uart demo_kernel) (k_disk demo_kernel)
    tt false true false.

Lemma begin_op_idle {S} (s0 s1 : fsst S) :
  flift begin_op s0 = Ok tt s1 -> outstanding (fs_log s0) = 0 ->
  s1 = set_fslog (set_outstanding 1 (fs_log s0)) s0 /\ committing (fs_log s0) = false.
Proof.
  intros E Ho. unfold flift, zoom, begin_op, bind, get in E. rewrite Ho in E. destruct (committing (fs_log s0)); [done|].
  destruct (_ <? _); [done|]. by injection E as <-.
Qed.

(** The kernel above is ready for [exec]. *)
Lemma demo_ready ph l pt tf (s0 s1 : fsst bcache) D' :
  uspace demo_end ph l pt [] -> (forall va, TRAPFRAME <= va < VASPAN -> pte_at (p_mem ph) pt va = top_entry demo_tramp tf va) ->
  aligned tf /\ (tf ∉ l) /\ ~ owns (p_mem ph) pt tf -> 0 <= tf < 4294967296 ->
  flift begin_op s0 = Ok tt s1 -> outstanding (fs_log s0) = 0 ->
  settled (HBC := bio_cache 7) (HCS := bio_cachespec 7 ROOTDEV) ROOTDEV 2 30 D' mkfs_sb D' [] None s1 ->
  (forall k, itable s1 k = blank_inode) -> nlive (itable s1) = 0 -> linked mkfs_sb D' ROOTINO ->
  exec_ready (HBC := bio_cache 7) (HCS := bio_cachespec 7 ROOTDEV) 2 30 D' mkfs_sb D' demo_end demo_tramp (exec_kernel ph pt tf s0) 1 l [].
Proof.
  intros Hs Htop (Ht1 & Ht2 & Ht3) Htfr Eb Ho Hset Htab Hnl Hroot. destruct (begin_op_idle s0 s1 Eb Ho) as [-> Hc].
  split.
  - exact demo_calm.
  - reflexivity.
  - split; [exact Hset|exact Ho|exact Hc|reflexivity].
  - exact Hroot.
  - change (nlive (itable s0) = 0) in Hnl. cbn [k_fs exec_kernel]. rewrite Hnl. vm_compute. discriminate.
  - intros n. cbn [k_fs exec_kernel]. pose proof (no_refs _ Htab ROOTDEV n) as E. change (refs_of (itable s0) ROOTDEV n = 0) in E. rewrite E. done.
  - exact Hs.
  - exact Htop.
  - split; [|reflexivity]. vm_compute. split; discriminate.
  - split; [exact Ht1|]. split; [exact Ht2|]. split; [apply not_elem_of_nil|exact Ht3].
  - exact Htfr.
Qed.

(** [/init], built into an image by [mkfs], runs. *)
Lemma exec_correct_witness :
  exists (k k' : kernel bcache unit) l pg fs', exec (BlockCache0 := bio_cache 7) demo_end demo_tramp [47; 105; 110; 105; 116] [5000] k = Ok 1 k' /\
    exec_succeeded demo_end demo_tramp k 1 l [] [47; 105; 110; 105; 116] pg fs' 1 k' /\ args_on_stack pg [demo_arg] /\
    pg_sz pg = 16384 /\ mem_read (pg_img pg) 0 7 = [1; 2; 3; 4; 5; 6; 0].
Proof.
  destruct demo_machine as (ph & l & pt & tf & Hs & Htop & Htf & Htfr & Hlen & Harg).
  destruct (mkfs_image demo_exec_host [105] demo_exec_files demo_exec_reads) as (m & _ & _ & _ & Hbi).
  { reflexivity. }
  { by repeat constructor. }
  { repeat constructor; discriminate. }
  { repeat constructor; vm_compute; discriminate. }
  { repeat constructor; vm_compute; discriminate. }
  { vm_compute. discriminate. }
  { vm_compute. discriminate. }
  destruct (boot_fs_run 7 _ _ _ _ Hbi) as (s0 & s1 & D' & _ & Eb & Hrep & Hsb & Htab & HD & HD2 & Ho).
  assert (Hm : (16 * (Z.of_nat (length (map (fun arg => name_key 14 (short_name arg)) demo_exec_files)) + 2)) mod BSIZE <> 0) by (vm_compute; discriminate).
  assert (Hf : Z.of_nat (length (map file_bytes demo_exec_reads)) + 2 <= NINODES) by (vm_compute; discriminate).
  destruct (boot_settled 7 (m_img m) (freeblock m) _ _ Hbi Hm Hf D' HD HD2 s1 Hrep Hsb Htab) as [Hset Hnl].
  pose proof (seen_root 7 (m_img m) (freeblock m) _ _ Hbi Hm Hf D' HD HD2) as (R1 & _).
  pose proof (seen_name 7 (m_img m) (freeblock m) _ _ Hbi Hm Hf D' HD HD2 0 [105; 110; 105; 116] eq_refl ltac:(lia) ltac:(discriminate) ltac:(discriminate)) as Hnm.
  pose proof (seen_linked 7 _ _ _ _ Hbi Hm Hf D' HD HD2) as Hlinked.
  pose proof (seen_file 7 _ _ _ _ Hbi Hm Hf D' HD HD2) as Hfile.
  assert (Hroot : linked mkfs_sb D' ROOTINO) by (apply Hlinked; vm_compute; split; discriminate).
  assert (Hfiles : files_ok mkfs_sb D') by (intros inum Hl; destruct (Hfile inum Hl) as (H1 & H2 & H3 & _); exact (conj H1 (conj H2 H3))).
  assert (Hc : contents mkfs_sb D' 2 = demo_elf).
  { destruct (Hfile 2) as (_ & _ & _ & H4); [apply Hlinked; vm_compute; split; discriminate|]. unfold contents. rewrite (H4 0%nat _ eq_refl eq_refl). vm_compute. reflexivity. }
  destruct (exec_correct (HBC := bio_cache 7) (HCS := bio_cachespec 7 ROOTDEV) 2 30 D' mkfs_sb D' ltac:(lia) ltac:(lia) ltac:(lia) mkfs_layout
    (seen_bitmap 7 _ _ _ _ Hbi Hm Hf D' HD HD2) (seen_tree 7 _ _ _ _ Hbi Hm Hf D' HD HD2) Hfiles demo_end demo_tramp ltac:(vm_compute; reflexivity)
    ltac:(vm_compute; split; [discriminate|reflexivity]) (exec_kernel ph pt tf s0) 1 l [] [47; 105; 110; 105; 116] [5000] [demo_arg] 0) as (r & k' & fs' & E & _ & Hres).
  - exact (demo_ready ph l pt tf s0 s1 D' Hs Htop Htf Htfr Eb Ho Hset Htab Hnl Hroot).
  - repeat constructor; discriminate.
  - repeat constructor; discriminate.
  - by left.
  - constructor; [exact Harg|constructor].
  - vm_compute. discriminate.
  - change (path_elems [47; 105; 110; 105; 116]) with [[105; 110; 105; 116]] in Hres. cbn [path_start resolve] in Hres. rewrite R1 in Hres.
    cbn [negb andb Z.eqb T_DIR take] in Hres. rewrite Hnm in Hres. cbn [resolve Pos.eqb negb] in Hres. change (Z.of_nat 0 + 2) with 2 in Hres. rewrite Hc in Hres.
    pose proof demo_image as Hpg. destruct (exec_image demo_elf [demo_arg]) as [pg|]; [|destruct Hpg]. destruct Hpg as (Hsz & Hargc & Himg).
    destruct Hres as [[Hsuc Hargs]|[_ Hsc]].
    + pose proof Hsuc as [Hr _]. rewrite Hargc in Hr. subst r. exists (exec_kernel ph pt tf s0), k', l, pg, fs'. split; [exact E|]. split; [exact Hsuc|]. split; [exact Hargs|]. split; [exact Hsz|exact Himg].
    + exfalso. unfold scarce in Hsc. rewrite Hsz in Hsc. lia.
Defined.
