(* ===== verification/Sysfile.v ===== *)
(** * System calls on files: [src/kernel/sysfile.c], and the argument
      functions of [src/kernel/syscall.c]

    A path is the bytes of the string without its NUL.  System calls return
    the value that goes to [a0]; those that may wait in a pipe or at the
    console return a [progress]. *)

From stdpp Require Import functions.
From S2P Require Import Prelude Memory CString Riscv Csr Spinlock Kalloc Vm Copy Block Cache Log Fs Kernel Proc Uart Printf Console Pipe File Process Exec.

Definition MAXPATH : Z := 128.

Section sysfile.
Context {S B D : Type} `{!BlockCache S B} `{!Mmio D}.
Variables kend trampoline : Z.
Variable stat_pad : list Z.

Abbreviation kern := (kernel S D).

(** ** Arguments *)

Definition fetchaddr (addr : Z) : M kern (Z * Z) :=
  let! p := curproc in
  let! q := get_proc p in
  if (p_sz q <=? addr) || (p_sz q <? u64 (addr + 8)) then ret (-1, 0)
  else
    let! r := on_phys (copyin_bytes (p_pagetable q) addr 8) in
    if negb (snd r =? 0) then ret (-1, 0) else ret (0, le_val (fst r)).

(** [fetchstr] into a local array: the result and the string. *)
Definition fetchstr (addr max : Z) : M kern (Z * list Z) :=
  let! p := curproc in
  let! q := get_proc p in
  let! r := on_phys (copyinstr_bytes (p_pagetable q) addr max) in
  if snd r <? 0 then ret (snd r, []) else ret (Z.of_nat (length (fst r)), fst r).

(** [fetchstr] into a page of physical memory. *)
Definition fetchstr_page (addr buf : Z) : M kern Z :=
  let! p := curproc in
  let! q := get_proc p in
  let! err := on_phys (copyinstr (p_pagetable q) buf addr PGSIZE) in
  if err <? 0 then ret err else strlen_at buf.

Definition argraw (n : Z) : M kern Z :=
  let! p := curproc in
  if (0 <=? n) && (n <=? 5) then load_tf p (TF_a n) else panic "argraw".

(** [argint], [argaddr]: they never fail. *)
Definition argint (n : Z) : M kern Z := let! x := argraw n in ret (s32 x).
Definition argaddr (n : Z) : M kern Z := argraw n.

Definition argstr (n max : Z) : M kern (Z * list Z) :=
  let! addr := argaddr n in
  fetchstr addr max.

(** The descriptor and the file; [None] for the result -1. *)
Definition argfd (n : Z) : M kern (option (nat * nat)) :=
  let! fd := argint n in
  if (fd <? 0) || (Z.of_nat NOFILE <=? fd) then ret None
  else
    let! p := curproc in
    let! q := get_proc p in
    match p_ofile q (Z.to_nat fd) with
    | None => ret None
    | Some f => ret (Some (Z.to_nat fd, f))
    end.

Definition fdalloc (f : nat) : M kern Z :=
  let! p := curproc in
  let! r := for_first (seq 0 NOFILE) (fun fd =>
    let! q := get_proc p in
    match p_ofile q fd with
    | None => upd_proc p (set_ofile fd (Some f)) ;; ret (Some (Z.of_nat fd))
    | Some _ => ret None
    end) in
  ret (default (-1) r).

(** [myproc()->ofile[fd] = 0] *)
Definition clear_fd (fd : nat) : M kern unit :=
  let! p := curproc in
  upd_proc p (set_ofile fd None).

(** ** Descriptors *)

Definition sys_dup : M kern Z :=
  let! a := argfd 0 in
  match a with
  | None => ret (-1)
  | Some (_, f) =>
      let! fd := fdalloc f in
      if fd <? 0 then ret (-1)
      else filedup f ;; ret fd
  end.

Definition sys_read : M kern progress :=
  let! a := argfd 0 in
  match a with
  | None => ret (Done (-1))
  | Some (_, f) =>
      let! n := argint 2 in
      let! p := argaddr 1 in
      fileread f p n
  end.

Definition sys_write : M kern progress :=
  let! a := argfd 0 in
  match a with
  | None => ret (Done (-1))
  | Some (_, f) =>
      let! n := argint 2 in
      let! p := argaddr 1 in
      filewrite f p n
  end.

Definition sys_close : M kern Z :=
  let! a := argfd 0 in
  match a with
  | None => ret (-1)
  | Some (fd, f) =>
      clear_fd fd ;;
      fileclose kend f ;;
      ret 0
  end.

Definition sys_fstat : M kern Z :=
  let! a := argfd 0 in
  match a with
  | None => ret (-1)
  | Some (_, f) =>
      let! st := argaddr 1 in
      filestat stat_pad f st
  end.

(** ** Links *)

Definition k_ientry (ip : nat) : M kern inode := on_fs (ientry ip).
Definition k_iset (ip : nat) (f : inode -> inode) : M kern unit := on_fs (iset ip f).
Definition k_iupdate (ip : nat) : M kern unit := on_fs (iupdate ip).

(** [ip->nlink += d], a [short] *)
Definition add_nlink (ip : nat) (d : Z) : M kern unit :=
  k_iset ip (fun i => set_inlink (s16 (i_nlink i + d)) i).

(** The label [bad] of [sys_link]. *)
Definition link_bad (ip : nat) : M kern Z :=
  k_ilock ip ;;
  add_nlink ip (-1) ;;
  k_iupdate ip ;;
  k_iunlockput ip ;;
  k_end_op ;;
  ret (-1).

Definition sys_link : M kern Z :=
  let! old := argstr 0 MAXPATH in
  if fst old <? 0 then ret (-1)
  else
    let! new := argstr 1 MAXPATH in
    if fst new <? 0 then ret (-1)
    else
      k_begin_op ;;
      let! ip := k_namei (snd old) in
      match ip with
      | None => k_end_op ;; ret (-1)
      | Some ip =>
          k_ilock ip ;;
          let! i := k_ientry ip in
          if i_type i =? T_DIR then k_iunlockput ip ;; k_end_op ;; ret (-1)
          else
            add_nlink ip 1 ;;
            k_iupdate ip ;;
            k_iunlock ip ;;
            let! r := k_nameiparent (snd new) (repeat 0 14) in
            match r with
            | (None, _) => link_bad ip
            | (Some dp, name) =>
                k_ilock dp ;;
                let! d := k_ientry dp in
                let! i := k_ientry ip in
                let! e := (if negb (i_dev d =? i_dev i) then ret (-1)
                           else with_pid (fun pid => dirlink pid dp name (i_inum i))) in
                if e <? 0 then k_iunlockput dp ;; link_bad ip
                else
                  k_iunlockput dp ;;
                  k_iput ip ;;
                  k_end_op ;;
                  ret 0
            end
      end.

(** [for(off=2*sizeof(de); off<dp->size; off+=sizeof(de))] *)
Fixpoint isdirempty_loop (fuel dp : nat) (de : list Z) (off : Z) : M kern bool :=
  match fuel with
  | O => panic "isdirempty: fuel"
  | Datatypes.S f =>
      let! d := k_ientry dp in
      if off <? i_size d then
        let! r := readi_local dp de off 16 in
        if negb (fst r =? 16) then panic "isdirempty: readi"
        else if negb (de_inum (snd r) =? 0) then ret false
        else isdirempty_loop f dp (snd r) (off + 16)
      else ret true
  end.

Definition isdirempty (dp : nat) : M kern bool :=
  let! d := k_ientry dp in
  isdirempty_loop (Datatypes.S (Z.to_nat (i_size d / 16))) dp (repeat 0 16) 32.

(** The label [bad] of [sys_unlink]. *)
Definition unlink_bad (dp : nat) : M kern Z :=
  k_iunlockput dp ;;
  k_end_op ;;
  ret (-1).

(** [sys_unlink] once the entry of [ip] at [off] may go. *)
Definition unlink_entry (dp ip : nat) (off : Z) : M kern Z :=
  let! n := on_fs (writei (de_copyin (repeat 0 16)) dp 0 off 16) in
  if negb (n =? 16) then panic "unlink: writei"
  else
    let! i := k_ientry ip in
    (if i_type i =? T_DIR then add_nlink dp (-1) ;; k_iupdate dp else ret tt) ;;
    k_iunlockput dp ;;
    add_nlink ip (-1) ;;
    k_iupdate ip ;;
    k_iunlockput ip ;;
    k_end_op ;;
    ret 0.

Definition sys_unlink : M kern Z :=
  let! path := argstr 0 MAXPATH in
  if fst path <? 0 then ret (-1)
  else
    k_begin_op ;;
    let! r := k_nameiparent (snd path) (repeat 0 14) in
    match r with
    | (None, _) => k_end_op ;; ret (-1)
    | (Some dp, name) =>
        k_ilock dp ;;
        if (namecmp name [46] =? 0) || (namecmp name [46; 46] =? 0) then unlink_bad dp
        else
          let! r := on_fs (dirlookup dp name) in
          match r with
          | None => unlink_bad dp
          | Some (ip, off) =>
              k_ilock ip ;;
              let! i := k_ientry ip in
              if i_nlink i <? 1 then panic "unlink: nlink < 1"
              else
                let! busy := (if i_type i =? T_DIR then
                                let! e := isdirempty ip in ret (negb e)
                              else ret false) in
                if busy then k_iunlockput ip ;; unlink_bad dp
                else unlink_entry dp ip off
          end
    end.

(** ** Creating and opening *)

(** [create] of a name that is not in [dp]. *)
Definition create_new (dp : nat) (name : list Z) (type major minor : Z) : M kern (option nat) :=
  let! d := k_ientry dp in
  let! ip := on_fs (ialloc (i_dev d) type) in
  k_ilock ip ;;
  k_iset ip (set_idev major minor 1) ;;
  k_iupdate ip ;;
  let! i := k_ientry ip in
  (if type =? T_DIR then
     add_nlink dp 1 ;;
     k_iupdate dp ;;
     let! r := with_pid (fun pid => dirlink pid ip [46] (i_inum i)) in
     if r <? 0 then panic "create dots"
     else
       let! d := k_ientry dp in
       let! r := with_pid (fun pid => dirlink pid ip [46; 46] (i_inum d)) in
       if r <? 0 then panic "create dots" else ret tt
   else ret tt) ;;
  let! r := with_pid (fun pid => dirlink pid dp name (i_inum i)) in
  if r <? 0 then panic "create: dirlink"
  else
    k_iunlockput dp ;;
    ret (Some ip).

Definition create (path : list Z) (type major minor : Z) : M kern (option nat) :=
  let! r := k_nameiparent path (repeat 0 14) in
  match r with
  | (None, _) => ret None
  | (Some dp, name) =>
      k_ilock dp ;;
      let! r := on_fs (dirlookup dp name) in
      match r with
      | Some (ip, _) =>
          k_iunlockput dp ;;
          k_ilock ip ;;
          let! i := k_ientry ip in
          if (type =? T_FILE) && ((i_type i =? T_FILE) || (i_type i =? T_DEVICE)) then ret (Some ip)
          else k_iunlockput ip ;; ret None
      | None => create_new dp name type major minor
      end
  end.

(** Giving up on the locked inode [ip]. *)
Definition open_bad (ip : nat) : M kern Z :=
  k_iunlockput ip ;;
  k_end_op ;;
  ret (-1).

(** [sys_open] once it has the locked inode. *)
Definition open_inode (ip : nat) (omode : Z) : M kern Z :=
  let! i := k_ientry ip in
  if (i_type i =? T_DEVICE) && ((i_major i <? 0) || (NDEV <=? i_major i)) then open_bad ip
  else
    let! f := filealloc in
    match f with
    | None => open_bad ip
    | Some f =>
        let! fd := fdalloc f in
        if fd <? 0 then fileclose kend f ;; open_bad ip
        else
          (if i_type i =? T_DEVICE then
             upd_file f (fun x => set_fmajor (i_major i) (set_ftype FD_DEVICE x))
           else upd_file f (fun x => set_foff 0 (set_ftype FD_INODE x))) ;;
          upd_file f (set_fip ip) ;;
          upd_file f (set_fmode (negb (has omode O_WRONLY)) (has omode O_WRONLY || has omode O_RDWR)) ;;
          (if has omode O_TRUNC && (i_type i =? T_FILE) then on_fs (itrunc ip) else ret tt) ;;
          k_iunlock ip ;;
          k_end_op ;;
          ret fd
    end.

Definition sys_open : M kern Z :=
  let! path := argstr 0 MAXPATH in
  if fst path <? 0 then ret (-1)
  else
    let! omode := argint 1 in
    k_begin_op ;;
    if has omode O_CREATE then
      let! ip := create (snd path) T_FILE 0 0 in
      match ip with
      | None => k_end_op ;; ret (-1)
      | Some ip => open_inode ip omode
      end
    else
      let! ip := k_namei (snd path) in
      match ip with
      | None => k_end_op ;; ret (-1)
      | Some ip =>
          k_ilock ip ;;
          let! i := k_ientry ip in
          if (i_type i =? T_DIR) && negb (omode =? O_RDONLY) then open_bad ip
          else open_inode ip omode
      end.

Definition sys_mkdir : M kern Z :=
  k_begin_op ;;
  let! path := argstr 0 MAXPATH in
  if fst path <? 0 then k_end_op ;; ret (-1)
  else
    let! ip := create (snd path) T_DIR 0 0 in
    match ip with
    | None => k_end_op ;; ret (-1)
    | Some ip => k_iunlockput ip ;; k_end_op ;; ret 0
    end.

Definition sys_mknod : M kern Z :=
  k_begin_op ;;
  let! path := argstr 0 MAXPATH in
  if fst path <? 0 then k_end_op ;; ret (-1)
  else
    let! major := argint 1 in
    let! minor := argint 2 in
    let! ip := create (snd path) T_DEVICE (s16 major) (s16 minor) in
    match ip with
    | None => k_end_op ;; ret (-1)
    | Some ip => k_iunlockput ip ;; k_end_op ;; ret 0
    end.

Definition sys_chdir : M kern Z :=
  let! p := curproc in
  k_begin_op ;;
  let! path := argstr 0 MAXPATH in
  if fst path <? 0 then k_end_op ;; ret (-1)
  else
    let! ip := k_namei (snd path) in
    match ip with
    | None => k_end_op ;; ret (-1)
    | Some ip =>
        k_ilock ip ;;
        let! i := k_ientry ip in
        if negb (i_type i =? T_DIR) then k_iunlockput ip ;; k_end_op ;; ret (-1)
        else
          k_iunlock ip ;;
          let! q := get_proc p in
          (match p_cwd q with Some c => k_iput c | None => panic "null pointer" end) ;;
          k_end_op ;;
          upd_proc p (set_cwd (Some ip)) ;;
          ret 0
    end.

(** ** Programs and pipes *)

(** [for(i = 0; i < NELEM(argv) && argv[i] != 0; i++) kfree(argv[i]);] *)
Definition free_argv (argv : list Z) : M kern unit := for_in argv (fun a => on_phys (kfree kend a)).

(** The loop of [sys_exec] that fetches the arguments, with those it has so
    far and [n] free slots in [argv]; whether it ended at the null pointer. *)
Fixpoint exec_fetch (n : nat) (uargv : Z) (argv : list Z) : M kern (bool * list Z) :=
  match n with
  | O => ret (false, argv)
  | Datatypes.S n' =>
      let! r := fetchaddr (u64 (uargv + 8 * Z.of_nat (length argv))) in
      if fst r <? 0 then ret (false, argv)
      else if snd r =? 0 then ret (true, argv)
      else
        let! page := on_phys kalloc in
        if page =? 0 then ret (false, argv)
        else
          let! e := fetchstr_page (snd r) page in
          if e <? 0 then ret (false, argv ++ [page])
          else exec_fetch n' uargv (argv ++ [page])
  end.

Definition sys_exec : M kern Z :=
  let! path := argstr 0 MAXPATH in
  if fst path <? 0 then ret (-1)
  else
    let! uargv := argaddr 1 in
    let! r := exec_fetch (Z.to_nat MAXARG) uargv [] in
    if negb (fst r) then free_argv (snd r) ;; ret (-1)
    else
      let! v := exec kend trampoline (snd path) (snd r) in
      free_argv (snd r) ;;
      ret v.

(** Closing the two files of a pipe that cannot be delivered. *)
Definition pipe_bad (rf wf : nat) : M kern Z :=
  fileclose kend rf ;;
  fileclose kend wf ;;
  ret (-1).

Definition sys_pipe : M kern Z :=
  let! p := curproc in
  let! fdarray := argaddr 0 in
  let! r := pipealloc kend in
  match r with
  | None => ret (-1)
  | Some (rf, wf) =>
      let! fd0 := fdalloc rf in
      if fd0 <? 0 then pipe_bad rf wf
      else
        let! fd1 := fdalloc wf in
        if fd1 <? 0 then upd_proc p (set_ofile (Z.to_nat fd0) None) ;; pipe_bad rf wf
        else
          let! q := get_proc p in
          let! e := (let! e := on_phys (copyout_bytes (p_pagetable q) fdarray (le_bytes 4 fd0)) in
                     if e <? 0 then ret e
                     else on_phys (copyout_bytes (p_pagetable q) (u64 (fdarray + 4)) (le_bytes 4 fd1))) in
          if e <? 0 then
            upd_proc p (set_ofile (Z.to_nat fd0) None) ;;
            upd_proc p (set_ofile (Z.to_nat fd1) None) ;;
            pipe_bad rf wf
          else ret 0
  end.
End sysfile.
