(* ===== verification/FileRefs.v ===== *)
(** * Reference counts of open files

    The system calls that create, share and drop open files, run to their end:
    [ref] of every file stays the number of descriptors, over all processes,
    that name it. *)

From stdpp Require Import functions.
From S2P Require Import Prelude Memory CString Riscv Csr Spinlock Kalloc Vm Copy Block Cache Sleeplock Log Fs Kernel Proc ProcRun Uart Printf Console Pipe File Process SchedSpec Exec Sysfile.

(** ** Counting the descriptors that name a file *)

Definition hits (T : nat * nat -> option nat) (g : nat) (ks : list (nat * nat)) : Z :=
  Z.of_nat (length (filter (fun k => T k = Some g) ks)).
Definition one (f g : nat) : Z := if decide (g = f) then 1 else 0.
Definition hit (v : option nat) (g : nat) : Z := if decide (v = Some g) then 1 else 0.

Lemma hits_cons T g k ks : hits T g (k :: ks) = hit (T k) g + hits T g ks.
Proof. unfold hits, hit. rewrite filter_cons. destruct (decide (T k = Some g)); cbn [length]; lia. Qed.

Lemma hits_insert_out T g k v ks : k ∉ ks -> hits (<[k := v]> T) g ks = hits T g ks.
Proof.
  induction ks as [|k' ks IH]; intros Hk; [done|]. apply not_elem_of_cons in Hk as [Hk1 Hk2].
  rewrite !hits_cons, IH by done. by rewrite fn_lookup_insert_ne.
Qed.

(** One descriptor changes. *)
Lemma hits_insert T g k v ks :
  NoDup ks -> k ∈ ks -> hits (<[k := v]> T) g ks = hits T g ks - hit (T k) g + hit v g.
Proof.
  induction ks as [|k' ks IH]; intros Hn Hk; [by apply elem_of_nil in Hk|].
  apply NoDup_cons in Hn as [Hn1 Hn2]. rewrite !hits_cons. apply elem_of_cons in Hk as [->|Hk].
  - rewrite hits_insert_out, fn_lookup_insert by done. lia.
  - rewrite IH by done. rewrite fn_lookup_insert_ne by (intros ->; done). lia.
Qed.

Lemma hits_ext T T' g ks : (forall k, k ∈ ks -> T k = T' k) -> hits T g ks = hits T' g ks.
Proof.
  induction ks as [|k ks IH]; intros H; [done|]. rewrite !hits_cons, IH by set_solver.
  by rewrite H by set_solver.
Qed.

Definition fdkeys : list (nat * nat) := list_prod (seq 0 NPROC) (seq 0 NOFILE).

Lemma fdkeys_in p fd : (p < NPROC)%nat -> (fd < NOFILE)%nat -> (p, fd) ∈ fdkeys.
Proof.
  intros Hp Hfd. apply list_elem_of_In, in_prod; apply in_seq; lia.
Qed.

Lemma prod_nodup (l l' : list nat) : NoDup l -> NoDup l' -> NoDup (list_prod l l').
Proof.
  intros Hl Hl'. induction Hl as [|a l Ha Hl IH]; [constructor|]. cbn.
  apply NoDup_app. split; [|split; [|exact IH]].
  - by apply (NoDup_fmap_2 (pair a)).
  - intros [b c] Hb%list_elem_of_In Hc%list_elem_of_In. apply in_map_iff in Hb as (x & [= -> ->] & _).
    apply in_prod_iff in Hc as [Hc%list_elem_of_In _]. done.
Qed.

Lemma fdkeys_nodup : NoDup fdkeys.
Proof. apply prod_nodup; apply NoDup_seq. Qed.

Section file_refs.
Context {S B D : Type} `{!BlockCache S B} `{!Mmio D}.
Variables kend trampoline forkret_pc : Z.
Abbreviation kern := (kernel S D).
Implicit Types s : kern.

Definition fdtab s (k : nat * nat) : option nat := p_ofile (k_procs s (fst k)) (snd k).
Definition slots s (f : nat) : Z := hits (fdtab s) f fdkeys.

(** ** Code that leaves the files alone *)

Definition nofiles s (p : nat) : Prop := forall fd, (fd < NOFILE)%nat -> p_ofile (k_procs s p) fd = None.
Definition dead (q : proc) : Prop := p_state q = UNUSED \/ p_state q = ZOMBIE.

Record frel s s' : Prop := {
  fr_ref f : f_ref (k_files s' f) = f_ref (k_files s f);
  fr_open p : p_ofile (k_procs s' p) = p_ofile (k_procs s p);
  fr_me : c_proc (k_cpu s') = c_proc (k_cpu s);
  fr_dead p : dead (k_procs s' p) -> dead (k_procs s p) \/ nofiles s p /\ c_proc (k_cpu s) <> Some p
}.

Lemma frel_refl s : frel s s.
Proof. split; auto. Qed.

Lemma frel_trans s1 s2 s3 : frel s1 s2 -> frel s2 s3 -> frel s1 s3.
Proof.
  intros [A1 A2 A3 A4] [B1 B2 B3 B4]. split.
  - intros f. by rewrite B1.
  - intros p. by rewrite B2.
  - congruence.
  - intros p [H|[H Hm]]%B4; [by apply A4|]. right. split; [|congruence].
    intros fd Hfd. rewrite <- A2. by apply H.
Qed.

Lemma frel_same s s' :
  k_files s' = k_files s -> k_procs s' = k_procs s -> c_proc (k_cpu s') = c_proc (k_cpu s) -> frel s s'.
Proof. intros E1 E2 E3. split; rewrite ?E1, ?E2; auto. Qed.

Class Keeps {A} (m : M kern A) : Prop := keeps s a s' : m s = Ok a s' -> frel s s'.

#[export] Instance keeps_ret {A} (a : A) : Keeps (ret a).
Proof. intros s b s' [= <- <-]. apply frel_refl. Qed.
#[export] Instance keeps_panic {A} msg : Keeps (panic (A := A) msg).
Proof. intros s b s' H. done. Qed.
#[export] Instance keeps_sleeps {A} msg : Keeps (sleeps (A := A) msg).
Proof. intros s b s' H. done. Qed.
Lemma fkeeps_bind {A A'} (m : M kern A) (k : A -> M kern A') :
  Keeps m -> (forall a, Keeps (k a)) -> Keeps (bind m k).
Proof.
  intros Hm Hk s b s' H. apply bind_Ok_inv in H as (a & s1 & H1 & H).
  eapply frel_trans; [by eapply Hm|by eapply Hk].
Qed.
#[export] Instance keeps_gets {A} (f : kern -> A) : Keeps (gets f).
Proof. intros s b s' [= _ <-]. apply frel_refl. Qed.
#[export] Instance keeps_get_proc p : Keeps (get_proc (S := S) (D := D) p).
Proof. apply keeps_gets. Qed.
#[export] Instance keeps_get_file f : Keeps (get_file (S := S) (D := D) f).
Proof. apply keeps_gets. Qed.
#[export] Instance keeps_get_pipe pi : Keeps (get_pipe (S := S) (D := D) pi).
Proof. apply keeps_gets. Qed.
#[export] Instance keeps_phys {A} (m : M phys A) : Keeps (on_phys m).
Proof. intros s b s' H. unfold on_phys, zoom in H. destruct (m (k_phys s)); try done. injection H as _ <-. by apply frel_same. Qed.
#[export] Instance keeps_fs {A} (m : M (fsst S) A) : Keeps (on_fs m).
Proof. intros s b s' H. unfold on_fs, zoom in H. destruct (m (k_fs s)); try done. injection H as _ <-. by apply frel_same. Qed.
#[export] Instance keeps_acquire l : Keeps (acquire (S := S) (D := D) l).
Proof.
  intros s b s' H. destruct b. pose proof (acquire_inv _ _ _ H) as ([E1 E2 _] & _). apply frel_same; [|done..].
  unfold acquire, on_lock, zoom in H. destruct (Spinlock.acquire _); try done. by injection H as _ <-.
Qed.
#[export] Instance keeps_release l : Keeps (release (S := S) (D := D) l).
Proof.
  intros s b s' H. destruct b. pose proof (release_inv _ _ _ H) as ([E1 E2 _] & _). apply frel_same; [|done..].
  unfold release, on_lock, zoom in H. destruct (Spinlock.release _); try done. by injection H as _ <-.
Qed.
#[export] Instance keeps_myproc : Keeps (myproc (S := S) (D := D)).
Proof.
  intros s b s' H. pose proof (myproc_inv _ _ _ H) as ([E1 E2 _] & _). apply frel_same; [|done..].
  unfold myproc in H. run_step H. run_step H. run_step H. unfold on_hc, zoom in *.
  destruct (push_off _); try done. injection R as _ <-. injection R0 as <- <-.
  destruct (pop_off _); try done. injection R1 as _ <-. by injection H as _ <-.
Qed.
#[export] Instance keeps_curproc : Keeps (curproc (S := S) (D := D)).
Proof. unfold curproc. apply fkeeps_bind; [apply _|]. intros []; apply _. Qed.

Lemma keeps_upd_proc p f :
  (forall q, p_ofile (f q) = p_ofile q) -> (forall q, dead (f q) -> dead q) -> Keeps (upd_proc (S := S) (D := D) p f).
Proof.
  intros H1 H2 s a s' [= _ <-]. split; cbn; try done; intros q; destruct (decide (q = p)) as [->|];
    rewrite ?fn_lookup_insert, ?fn_lookup_insert_ne by done; auto.
Qed.
Lemma keeps_upd_file f g :
  (forall x, f_ref (g x) = f_ref x) -> Keeps (upd_file (S := S) (D := D) f g).
Proof.
  intros H1 s a s' [= _ <-]. split; cbn; auto. intros f'.
  destruct (decide (f' = f)) as [->|]; rewrite ?fn_lookup_insert, ?fn_lookup_insert_ne by done; auto.
Qed.
#[export] Instance keeps_upd_pipe pi f : Keeps (upd_pipe (S := S) (D := D) pi f).
Proof. intros s a s' [= _ <-]. by apply frel_same. Qed.
#[export] Instance keeps_init_lock l n : Keeps (init_lock (S := S) (D := D) l n).
Proof. intros s a s' [= _ <-]. by apply frel_same. Qed.
Lemma keeps_for_in {A} (l : list A) body :
  (forall a, Keeps (body a)) -> Keeps (for_in l body).
Proof. intros Hb. induction l; cbn; [apply _|by apply fkeeps_bind]. Qed.
Lemma keeps_for_first {A R} (l : list A) (body : A -> M kern (option R)) :
  (forall a, Keeps (body a)) -> Keeps (for_first l body).
Proof. intros Hb. induction l; cbn; [apply _|]. apply fkeeps_bind; [done|]. by intros []; [apply keeps_ret|]. Qed.
End file_refs.

(** Instances, through the branches of the code. *)
Ltac keep_fields :=
  first [ apply keeps_upd_proc; [by intros []|let H := fresh in intros [] H; first [exact H|destruct H; discriminate]]
        | apply keeps_upd_file; by intros [] ].
Ltac keep :=
  lazymatch goal with
  | |- Keeps (bind _ _) => apply fkeeps_bind; [keep|intros ?; keep]
  | |- Keeps (for_in _ _) => apply keeps_for_in; intros ?; keep
  | |- Keeps (for_first _ _) => apply keeps_for_first; intros ?; keep
  | |- Keeps (upd_proc _ _) => keep_fields
  | |- Keeps (upd_file _ _) => keep_fields
  | |- Keeps (match ?b with _ => _ end) => destruct b; keep
  | |- Keeps _ => apply _
  end.

Section file_inv.
Context {S B D : Type} `{!BlockCache S B} `{!Mmio D}.
Variables kend trampoline forkret_pc : Z.
Abbreviation kern := (kernel S D).
Implicit Types s : kern.
Implicit Types X Y : nat -> Z.

(** ** The invariant inside of a system call: [X f] references to [f] are held
       by local variables, or missing for a descriptor already written *)

Record finv X s : Prop := {
  fi_ref f : f_ref (k_files s f) = slots s f + X f;
  fi_idle p : dead (k_procs s p) -> nofiles s p;
  fi_me p : c_proc (k_cpu s) = Some p -> (p < NPROC)%nat /\ ~ dead (k_procs s p)
}.

Lemma finv_ext X Y s : finv X s -> (forall f, X f = Y f) -> finv Y s.
Proof. intros [A1 A2 A3] E. split; try done. intros f. by rewrite <- E. Qed.

Lemma slots_frel s s' f : frel s s' -> slots s' f = slots s f.
Proof. intros [_ H _ _]. apply hits_ext. intros k _. unfold fdtab. by rewrite H. Qed.

Lemma finv_frel X s s' : finv X s -> frel s s' -> finv X s'.
Proof.
  intros [A1 A2 A3] Hf. pose proof Hf as [B1 B2 B3 B4]. split.
  - intros f. by rewrite B1, (slots_frel s s').
  - intros p Hp fd Hfd. rewrite B2. destruct (B4 p Hp) as [H|[H _]]; [by apply A2|by apply H].
  - intros p. rewrite B3. intros Hp. destruct (A3 p Hp) as [Hlt Hd]. split; [done|]. intros [H|[_ H]]%B4; done.
Qed.

Lemma finv_keeps X {A} (m : M kern A) `{!Keeps m} a s s' : finv X s -> m s = Ok a s' -> finv X s'.
Proof. intros H E. eapply finv_frel; [exact H|by eapply keeps]. Qed.

(** ** Changing one count or one descriptor *)

Lemma finv_upd_ref X f g s s' :
  finv X s -> upd_file f g s = Ok tt s' ->
  finv (fun h => X h + (if decide (h = f) then f_ref (g (k_files s f)) - f_ref (k_files s f) else 0)) s'.
Proof.
  intros [A1 A2 A3] [= <-]. split; cbn; try done. intros h. pose proof (A1 h) as Ah.
  change (slots _ h) with (slots s h). destruct (decide (h = f)) as [->|].
  - rewrite fn_lookup_insert. lia.
  - rewrite fn_lookup_insert_ne by done. lia.
Qed.

Lemma fdtab_set p fd v s k :
  fdtab (set_kprocs (<[p := set_ofile fd v (k_procs s p)]> (k_procs s)) s) k = <[(p, fd) := v]> (fdtab s) k.
Proof.
  destruct k as [p' fd']. unfold fdtab; cbn. destruct (decide (p' = p)) as [->|Hp].
  - rewrite fn_lookup_insert. cbn. destruct (decide (fd' = fd)) as [->|].
    + by rewrite !fn_lookup_insert.
    + rewrite !fn_lookup_insert_ne by congruence. done.
  - by rewrite !fn_lookup_insert_ne by congruence.
Qed.

Lemma finv_set_fd X p fd v s s' :
  finv X s -> (p < NPROC)%nat -> (fd < NOFILE)%nat ->
  (dead (k_procs s p) -> v = None) -> upd_proc p (set_ofile fd v) s = Ok tt s' ->
  finv (fun h => X h + hit (p_ofile (k_procs s p) fd) h - hit v h) s'.
Proof.
  intros [A1 A2 A3] Hp Hfd Hv [= <-]. split; cbn; [| |].
  - intros h. unfold slots. rewrite (hits_ext _ _ _ _ (fun k _ => fdtab_set p fd v s k)).
    rewrite hits_insert by (apply fdkeys_nodup || by apply fdkeys_in). pose proof (A1 h) as Ah.
    unfold slots in Ah. change (fdtab s (p, fd)) with (p_ofile (k_procs s p) fd). lia.
  - intros q Hq fd' Hfd'. pose proof (fdtab_set p fd v s (q, fd')) as E. unfold fdtab at 1 in E; cbn in E.
    cbn. rewrite E. destruct (decide (q = p)) as [->|].
    + rewrite fn_lookup_insert in Hq. assert (dead (k_procs s p)) as Hd by (destruct (k_procs s p); exact Hq).
      destruct (decide (fd' = fd)) as [->|]; [rewrite fn_lookup_insert; by apply Hv|].
      rewrite fn_lookup_insert_ne by congruence. by apply (A2 p).
    + rewrite fn_lookup_insert_ne in Hq by done. rewrite fn_lookup_insert_ne by congruence. by apply (A2 q).
  - intros q Hq. destruct (A3 q Hq) as [Hlt Hd]. split; [done|]. destruct (decide (q = p)) as [->|].
    + rewrite fn_lookup_insert. exact Hd.
    + by rewrite fn_lookup_insert_ne.
Qed.

(** ** [filealloc], [filedup], [fileclose] *)

#[export] Instance keeps_wakeup ch : Keeps (wakeup (S := S) (D := D) ch).
Proof. unfold wakeup, wakeup_at. keep. Qed.
#[export] Instance keeps_pipeclose pi w : Keeps (pipeclose (S := S) (D := D) kend pi w).
Proof. unfold pipeclose. keep. Qed.
#[export] Instance keeps_with_pid {A} (m : Z -> M (fsst S) A) : Keeps (with_pid (S := S) (D := D) m).
Proof. unfold with_pid. keep. Qed.
#[export] Instance keeps_begin_op : Keeps (k_begin_op (S := S) (D := D)).
Proof. unfold k_begin_op. keep. Qed.
#[export] Instance keeps_end_op : Keeps (k_end_op (S := S) (D := D)).
Proof. unfold k_end_op. keep. Qed.

(** The descriptors are as before. *)
Definition osame s s' : Prop :=
  (forall p, p_ofile (k_procs s' p) = p_ofile (k_procs s p)) /\ c_proc (k_cpu s') = c_proc (k_cpu s).

Lemma osame_refl s : osame s s.
Proof. done. Qed.
Lemma osame_trans s1 s2 s3 : osame s1 s2 -> osame s2 s3 -> osame s1 s3.
Proof. intros [A1 A2] [B1 B2]. split; [|congruence]. intros p. by rewrite B1. Qed.
Lemma frel_osame s s' : frel s s' -> osame s s'.
Proof. by intros [_ H1 H2 _]. Qed.
Lemma keeps_osame {A} (m : M kern A) `{!Keeps m} a s s' : m s = Ok a s' -> osame s s'.
Proof. intros H. by eapply frel_osame, keeps. Qed.
Ltac kept :=
  match goal with
  | H : ?m ?s = Ok _ ?s' |- osame ?s ?s' => exact (keeps_osame m _ _ _ H)
  | H : ?m ?s = Ok _ ?s' |- finv _ ?s' => refine (finv_keeps _ m _ _ _ _ H)
  end.
Lemma upd_file_osame f g s s' : upd_file f g s = Ok tt s' -> osame s s'.
Proof. by intros [= <-]. Qed.

Definition plus X (o : option nat) : nat -> Z := fun h => X h + hit o h.
Definition minus X (o : option nat) : nat -> Z := fun h => X h - hit o h.

Lemma hit_none h : hit None h = 0.
Proof. unfold hit. by rewrite decide_False. Qed.
Lemma hit_one f h : hit (Some f) h = if decide (h = f) then 1 else 0.
Proof. unfold hit. destruct (decide (h = f)) as [->|]; [by rewrite decide_True|by rewrite decide_False by congruence]. Qed.

Lemma finv_ref_to X f n s s' :
  finv X s -> upd_file f (set_fref n) s = Ok tt s' ->
  finv (fun h => X h + hit (Some f) h * (n - f_ref (k_files s f))) s'.
Proof.
  intros H E. eapply finv_ext; [by eapply finv_upd_ref|]. intros h; cbn. rewrite hit_one.
  destruct (decide _); cbn; lia.
Qed.

Lemma alloc_file_search l X r s s' :
  finv X s ->
  for_first l (fun f =>
    let! x := get_file f in
    if f_ref x =? 0 then
      upd_file f (set_fref 1) ;;
      release LkFtable ;;
      ret (Some f)
    else ret None) s = Ok r s' ->
  finv (plus X r) s' /\ osame s s'.
Proof.
  revert s. induction l as [|f l IH]; intros s Hi H; cbn in H.
  { injection H as <- <-. split; [|done]. eapply finv_ext; [done|]. intros h. unfold plus. rewrite hit_none. lia. }
  run_step H. unfold bind at 1, get_file, gets in R. destruct (Z.eqb_spec (f_ref (k_files s f)) 0) as [E|].
  - run_step R. run_step R. injection R as <- <-. injection H as <- <-.
    pose proof (finv_ref_to _ _ _ _ _ Hi R0) as H1. pose proof (upd_file_osame _ _ _ _ R0) as H2.
    split; [|eapply osame_trans; [exact H2|kept]].
    kept. eapply finv_ext; [exact H1|]. intros h. unfold plus; cbn. rewrite E. lia.
  - injection R as <- <-. by apply IH.
Qed.

Lemma filealloc_finv X r s s' :
  finv X s -> filealloc s = Ok r s' -> finv (plus X r) s' /\ osame s s'.
Proof.
  unfold filealloc. intros Hi H. run_step H. pose proof (finv_keeps _ _ _ _ _ Hi R) as H1.
  pose proof (keeps_osame _ _ _ _ R) as R'. run_step H. apply (alloc_file_search _ X) in R0 as [H2 H3]; [|done].
  destruct a.
  - injection H as <- <-. split; [done|by eapply osame_trans].
  - run_step H. injection H as <- <-. split; [by kept|].
    do 2 (eapply osame_trans; [eassumption|]). kept.
Qed.

Lemma filedup_finv X f r s s' :
  finv X s -> filedup f s = Ok r s' -> r = f /\ finv (plus X (Some f)) s' /\ osame s s'.
Proof.
  unfold filedup. intros Hi H. run_step H. pose proof (finv_keeps _ _ _ _ _ Hi R) as H1.
  pose proof (keeps_osame _ _ _ _ R) as R'. unfold bind at 1, get_file, gets in H. destruct (_ <? 1); [done|].
  run_step H. pose proof (finv_ref_to _ _ _ _ _ H1 R0) as H2. apply upd_file_osame in R0.
  run_step H. injection H as <- <-. split; [done|].
  split; [|do 2 (eapply osame_trans; [eassumption|]); kept].
  kept. eapply finv_ext; [exact H2|]. intros h; unfold plus; cbn. lia.
Qed.

Lemma fileclose_finv X f s s' :
  finv X s -> fileclose kend f s = Ok tt s' -> finv (minus X (Some f)) s' /\ osame s s'.
Proof.
  unfold fileclose. intros Hi H. run_step H. pose proof (finv_keeps _ _ _ _ _ Hi R) as H1.
  pose proof (keeps_osame _ _ _ _ R) as R'. unfold bind at 1, get_file, gets in H.
  destruct (Z.ltb_spec (f_ref (k_files s0 f)) 1) as [|Hge]; [done|].
  run_step H. pose proof (finv_ref_to _ _ _ _ _ H1 R0) as H2. pose proof (upd_file_osame _ _ _ _ R0) as O2.
  assert (finv (minus X (Some f)) s1) as H3 by (eapply finv_ext; [exact H2|]; intros h; unfold minus; cbn; lia).
  destruct (Z.ltb_spec 0 (f_ref (k_files s0 f) - 1)) as [Hgt|Hle].
  { split; [by kept|]. do 2 (eapply osame_trans; [eassumption|]). kept. }
  unfold bind at 1, get_file, gets in H. run_step H.
  pose proof (finv_ref_to _ _ _ _ _ H3 R1) as H4. apply upd_file_osame in R1.
  assert (finv (minus X (Some f)) s2) as H5.
  { eapply finv_ext; [exact H4|]. intros h; cbn. injection R0 as <-; cbn. rewrite fn_lookup_insert; cbn.
    replace (0 - (f_ref (k_files s0 f) - 1)) with 0 by lia. unfold minus. lia. }
  assert (frel s2 s') as Hf.
  { revert H. generalize (k_files s1 f). intros ff. match goal with |- ?m _ = _ -> _ => assert (Keeps m) as HK end.
    { keep. } intros H. by eapply HK. }
  split; [by eapply finv_frel|]. do 3 (eapply osame_trans; [eassumption|]). by apply frel_osame.
Qed.

(** ** Descriptors *)

Lemma curproc_at p s s' : curproc s = Ok p s' -> c_proc (k_cpu s) = Some p.
Proof. by intros (_ & _ & H)%curproc_inv. Qed.

Lemma plus_none X s : finv X s -> finv (plus X None) s.
Proof. intros H. eapply finv_ext; [exact H|]. intros h. unfold plus. rewrite hit_none. lia. Qed.

Lemma fd_search l X p f r s s' :
  finv X s -> c_proc (k_cpu s) = Some p -> (forall fd, fd ∈ l -> (fd < NOFILE)%nat) ->
  for_first l (fun fd =>
    let! q := get_proc p in
    match p_ofile q fd with
    | None => upd_proc p (set_ofile fd (Some f)) ;; ret (Some (Z.of_nat fd))
    | Some _ => ret None
    end) s = Ok r s' ->
  match r with
  | None => finv X s' /\ osame s s'
  | Some v => exists fd, v = Z.of_nat fd /\ (fd < NOFILE)%nat /\ finv (minus X (Some f)) s' /\
      p_ofile (k_procs s p) fd = None /\ c_proc (k_cpu s') = c_proc (k_cpu s) /\
      p_ofile (k_procs s' p) = <[fd := Some f]> (p_ofile (k_procs s p))
  end.
Proof.
  revert s. induction l as [|fd l IH]; intros s Hi Hp Hl H; cbn in H; [by injection H as <- <-|].
  run_step H. unfold bind at 1, get_proc, gets in R. destruct (p_ofile (k_procs s p) fd) as [g|] eqn:E.
  - injection R as <- <-. apply IH; try done. set_solver.
  - run_step R. injection R as <- <-. injection H as <- <-.
    destruct (fi_me _ _ Hi p Hp) as [Hlt Hd].
    pose proof (finv_set_fd _ _ _ _ _ _ Hi Hlt (Hl fd ltac:(set_solver)) (fun H => False_ind _ (Hd H)) R0) as H1.
    exists fd. split_and!; [done|set_solver|..|done| |].
    + eapply finv_ext; [exact H1|]. intros h; cbn. rewrite E, hit_none. unfold minus. lia.
    + by injection R0 as <-.
    + injection R0 as <-; cbn. by rewrite fn_lookup_insert.
Qed.

Lemma fdalloc_finv X f r s s' :
  finv X s -> fdalloc f s = Ok r s' ->
  exists p, c_proc (k_cpu s) = Some p /\ c_proc (k_cpu s') = Some p /\
    ((r = -1 /\ finv X s' /\ osame s s') \/
     (exists fd, r = Z.of_nat fd /\ (fd < NOFILE)%nat /\ finv (minus X (Some f)) s' /\
        p_ofile (k_procs s p) fd = None /\ p_ofile (k_procs s' p) = <[fd := Some f]> (p_ofile (k_procs s p)))).
Proof.
  unfold fdalloc. intros Hi H. run_step H. pose proof (finv_keeps _ _ _ _ _ Hi R) as H1.
  pose proof (keeps_osame _ _ _ _ R) as [O1 O2]. apply curproc_at in R. run_step H. injection H as <- <-.
  assert (c_proc (k_cpu s0) = Some a) as Ha by congruence.
  apply (fd_search _ X) in R0; [|done|done|intros fd Hfd%elem_of_seq; lia]. exists a. split; [done|].
  destruct a0 as [v|].
  - destruct R0 as (fd & -> & Hfd & Hf & Hn & Hm & Ho). split; [congruence|]. right. exists fd.
    rewrite O1 in Hn, Ho. done.
  - destruct R0 as [Hf [Ho Hm]]. split; [congruence|]. left. split; [done|]. split; [done|].
    split; [|congruence]. intros p. by rewrite Ho.
Qed.

(** Clearing a descriptor of the current process turns it into a reference held. *)
Lemma clear_finv X p fd s s' :
  finv X s -> c_proc (k_cpu s) = Some p -> (fd < NOFILE)%nat -> upd_proc p (set_ofile fd None) s = Ok tt s' ->
  finv (plus X (p_ofile (k_procs s p) fd)) s' /\ c_proc (k_cpu s') = Some p /\
  p_ofile (k_procs s' p) = <[fd := None]> (p_ofile (k_procs s p)).
Proof.
  intros Hi Hp Hfd H. destruct (fi_me _ _ Hi p Hp) as [Hlt Hd]. split; [|split].
  - eapply finv_ext; [eapply finv_set_fd; [exact Hi|done|exact Hfd|by intros _|exact H]|].
    intros h; cbn. rewrite hit_none. unfold plus. lia.
  - by injection H as <-.
  - injection H as <-; cbn. by rewrite fn_lookup_insert.
Qed.

#[export] Instance keeps_argint n : Keeps (argint (S := S) (D := D) n).
Proof. unfold argint, argraw, load_tf. keep. Qed.
#[export] Instance keeps_argaddr n : Keeps (argaddr (S := S) (D := D) n).
Proof. unfold argaddr, argraw, load_tf. keep. Qed.
#[export] Instance keeps_argfd n : Keeps (argfd (S := S) (D := D) n).
Proof. unfold argfd. keep. Qed.

Lemma argfd_at n fd f s s' :
  argfd n s = Ok (Some (fd, f)) s' ->
  exists p, c_proc (k_cpu s) = Some p /\ (fd < NOFILE)%nat /\ p_ofile (k_procs s p) fd = Some f.
Proof.
  unfold argfd. intros H. run_step H. apply keeps_argint in R as [_ O1 O2 _].
  destruct (Z.ltb_spec a 0), (Z.leb_spec (Z.of_nat NOFILE) a); cbn [orb] in H; try done.
  run_step H. pose proof (keeps_curproc _ _ _ R) as [_ O3 _ _]. apply curproc_at in R.
  unfold bind, get_proc, gets in H. destruct (p_ofile _ _) eqn:E; [|done]. injection H as <- <- <-.
  exists a0. split; [congruence|]. split; [lia|]. by rewrite <- O1, <- O3.
Qed.

(** ** The system calls *)

Definition files_ok s : Prop := finv (fun _ => 0) s.

Lemma sys_dup_ok r s s' : files_ok s -> sys_dup s = Ok r s' -> files_ok s'.
Proof.
  unfold sys_dup, files_ok. intros Hi H. run_step H. pose proof (finv_keeps _ _ _ _ _ Hi R) as H1.
  destruct a as [[fd f]|]; [|by injection H as <- <-]. run_step H.
  destruct (fdalloc_finv _ _ _ _ _ H1 R0) as (p & _ & _ & [(-> & H2 & _)|(fd' & -> & _ & H2 & _)]).
  - by injection H as <- <-.
  - destruct (Z.ltb_spec (Z.of_nat fd') 0); [lia|]. run_step H. injection H as <- <-.
    destruct (filedup_finv _ _ _ _ _ H2 R1) as (_ & H3 & _). eapply finv_ext; [exact H3|].
    intros h. unfold plus, minus. lia.
Qed.

Lemma sys_close_ok r s s' : files_ok s -> sys_close kend s = Ok r s' -> files_ok s'.
Proof.
  unfold sys_close, files_ok. intros Hi H. run_step H. pose proof (finv_keeps _ _ _ _ _ Hi R) as H1.
  destruct a as [[fd f]|]; [|by injection H as <- <-].
  pose proof (keeps_osame _ _ _ _ R) as [O1 O2]. apply argfd_at in R as (p & Hp & Hfd & Hf).
  run_step H. unfold clear_fd in R. run_step R. pose proof (keeps_osame _ _ _ _ R0) as [O3 O4].
  pose proof (finv_keeps _ _ _ _ _ H1 R0) as H2. apply curproc_at in R0.
  assert (a = p) as -> by congruence. assert (c_proc (k_cpu s2) = Some p) as Hp2 by congruence.
  destruct (clear_finv _ _ _ _ _ H2 Hp2 Hfd R) as (H3 & _ & _).
  run_step H. injection H as <- <-. destruct (fileclose_finv _ _ _ _ H3 R1) as [H4 _].
  eapply finv_ext; [exact H4|]. intros h. rewrite O3, O1, Hf. unfold plus, minus. lia.
Qed.

#[export] Instance keeps_k_ientry ip : Keeps (k_ientry (S := S) (D := D) ip).
Proof. unfold k_ientry. keep. Qed.
#[export] Instance keeps_k_iset ip f : Keeps (k_iset (S := S) (D := D) ip f).
Proof. unfold k_iset. keep. Qed.
#[export] Instance keeps_k_iupdate ip : Keeps (k_iupdate (S := S) (D := D) ip).
Proof. unfold k_iupdate. keep. Qed.
#[export] Instance keeps_k_ilock ip : Keeps (k_ilock (S := S) (D := D) ip).
Proof. unfold k_ilock. keep. Qed.
#[export] Instance keeps_k_iunlock ip : Keeps (k_iunlock (S := S) (D := D) ip).
Proof. unfold k_iunlock. keep. Qed.
#[export] Instance keeps_k_iunlockput ip : Keeps (k_iunlockput (S := S) (D := D) ip).
Proof. unfold k_iunlockput. keep. Qed.
#[export] Instance keeps_k_namei path : Keeps (k_namei (S := S) (D := D) path).
Proof. unfold k_namei, k_cwd. keep. Qed.
#[export] Instance keeps_k_nameiparent path name : Keeps (k_nameiparent (S := S) (D := D) path name).
Proof. unfold k_nameiparent, k_cwd. keep. Qed.
#[export] Instance keeps_create path t ma mi : Keeps (create (S := S) (D := D) path t ma mi).
Proof. unfold create, create_new, add_nlink. keep. Qed.
#[export] Instance keeps_argstr n max : Keeps (argstr (S := S) (D := D) n max).
Proof. unfold argstr, fetchstr. keep. Qed.
#[export] Instance keeps_open_bad ip : Keeps (open_bad (S := S) (D := D) ip).
Proof. unfold open_bad. keep. Qed.

Lemma open_inode_ok ip omode r s s' : files_ok s -> open_inode kend ip omode s = Ok r s' -> files_ok s'.
Proof.
  unfold open_inode, files_ok. intros Hi H. run_step H. pose proof (finv_keeps _ _ _ _ _ Hi R) as H1.
  destruct (_ && _); [by kept|]. run_step H. destruct (filealloc_finv _ _ _ _ H1 R0) as [H2 _].
  destruct a0 as [f|]; [|kept; eapply finv_ext; [exact H2|]; intros h; unfold plus; rewrite hit_none; lia].
  run_step H. destruct (fdalloc_finv _ _ _ _ _ H2 R1) as (p & _ & _ & [(-> & H3 & _)|(fd & -> & _ & H3 & _)]).
  - cbn in H. run_step H. destruct (fileclose_finv _ _ _ _ H3 R2) as [H4 _]. kept.
    eapply finv_ext; [exact H4|]. intros h. unfold plus, minus. lia.
  - destruct (Z.ltb_spec (Z.of_nat fd) 0); [lia|].
    assert (finv (fun _ => 0) s2) as H4 by (eapply finv_ext; [exact H3|]; intros h; unfold plus, minus; lia).
    eapply finv_frel; [exact H4|]. revert H. match goal with |- ?m _ = _ -> _ => assert (Keeps m) as HK end.
    { keep. } apply HK.
Qed.

Lemma sys_open_ok r s s' : files_ok s -> sys_open kend s = Ok r s' -> files_ok s'.
Proof.
  unfold sys_open, files_ok. intros Hi H. run_step H. pose proof (finv_keeps _ _ _ _ _ Hi R) as H1.
  destruct (_ <? 0); [by kept|]. run_step H. pose proof (finv_keeps _ _ _ _ _ H1 R0) as H2.
  run_step H. pose proof (finv_keeps _ _ _ _ _ H2 R1) as H3. destruct (has _ _).
  - run_step H. pose proof (finv_keeps _ _ _ _ _ H3 R2) as H4. destruct a1; [by eapply open_inode_ok|].
    eapply finv_frel; [exact H4|]. revert H. apply fkeeps_bind; apply _.
  - run_step H. pose proof (finv_keeps _ _ _ _ _ H3 R2) as H4. destruct a1.
    + run_step H. pose proof (finv_keeps _ _ _ _ _ H4 R3) as H5. run_step H.
      pose proof (finv_keeps _ _ _ _ _ H5 R4) as H6. destruct (_ && _); [by kept|by eapply open_inode_ok].
    + eapply finv_frel; [exact H4|]. revert H. apply fkeeps_bind; apply _.
Qed.

Lemma pipealloc_finv X r s s' :
  finv X s -> pipealloc kend s = Ok r s' ->
  finv (plus (plus X (fst <$> r)) (snd <$> r)) s' /\ osame s s'.
Proof.
  unfold pipealloc. intros Hi H. run_step H. destruct (filealloc_finv _ _ _ _ Hi R) as [H1 O1].
  destruct a as [f0|].
  2:{ unfold pipealloc_bad in H. unfold bind, ret in H. injection H as <- <-. split; [|done].
      by apply plus_none. }
  run_step H. destruct (filealloc_finv _ _ _ _ H1 R0) as [H2 O2]. destruct a as [f1|].
  2:{ unfold pipealloc_bad in H. run_step H. unfold bind, ret in H. injection H as <- <-.
      destruct (fileclose_finv _ _ _ _ H2 R1) as [H3 O3]. split.
      - eapply finv_ext; [exact H3|]. intros h; cbn. unfold plus, minus. rewrite !hit_none. lia.
      - by repeat (eapply osame_trans; [eassumption|]). }
  run_step H. pose proof (finv_keeps _ _ _ _ _ H2 R1) as H3. pose proof (keeps_osame _ _ _ _ R1) as O3.
  destruct (_ =? 0).
  - unfold pipealloc_bad in H. run_step H. destruct (fileclose_finv _ _ _ _ H3 R2) as [H4 O4].
    run_step H. destruct (fileclose_finv _ _ _ _ H4 R3) as [H5 O5]. injection H as <- <-. split.
    + eapply finv_ext; [exact H5|]. intros h; cbn. unfold plus, minus. rewrite !hit_none. lia.
    + by repeat (eapply osame_trans; [eassumption|]).
  - assert (frel s2 s' /\ r = Some (f0, f1)) as [Hf ->].
    { do 4 run_step H. injection H as <- <-. split; [|done].
      assert (forall f pi a b, Keeps (upd_file (S := S) (D := D) f (fun x => set_fpipe pi (set_fmode a b (set_ftype FD_PIPE x))))) as HK
        by (intros; keep).
      eapply frel_trans; [by eapply keeps_upd_pipe|]. eapply frel_trans; [by eapply keeps_init_lock|].
      eapply frel_trans; by eapply HK. }
    split; [by eapply finv_frel|]. do 3 (eapply osame_trans; [eassumption|]). by apply frel_osame.
Qed.

Lemma pipe_bad_finv X rf wf r s s' :
  finv (plus (plus X (Some rf)) (Some wf)) s -> pipe_bad kend rf wf s = Ok r s' -> finv X s'.
Proof.
  unfold pipe_bad. intros Hi H. run_step H. destruct (fileclose_finv _ _ _ _ Hi R) as [H1 _].
  run_step H. destruct (fileclose_finv _ _ _ _ H1 R0) as [H2 _]. injection H as <- <-.
  eapply finv_ext; [exact H2|]. intros h. unfold plus, minus. lia.
Qed.

Lemma sys_pipe_ok r s s' : files_ok s -> sys_pipe kend s = Ok r s' -> files_ok s'.
Proof.
  unfold sys_pipe, files_ok. intros Hi H. run_step H. pose proof (finv_keeps _ _ _ _ _ Hi R) as H1.
  pose proof (keeps_osame _ _ _ _ R) as [_ O1]. apply curproc_at in R. run_step H.
  pose proof (finv_keeps _ _ _ _ _ H1 R0) as H2. pose proof (keeps_osame _ _ _ _ R0) as [_ O2].
  run_step H. destruct (pipealloc_finv _ _ _ _ H2 R1) as [H3 [_ O3]].
  destruct a1 as [[rf wf]|]; cbn in H3.
  2:{ injection H as <- <-. eapply finv_ext; [exact H3|]. intros h. unfold plus. rewrite !hit_none. lia. }
  run_step H. destruct (fdalloc_finv _ _ _ _ _ H3 R2) as (p & Hp & Hp' & [(-> & H4 & _)|(fd0 & -> & Hfd0 & H4 & Hn0 & Ho0)]).
  { by eapply pipe_bad_finv. }
  assert (a = p) as -> by congruence.
  destruct (Z.ltb_spec (Z.of_nat fd0) 0) as [?L0|?L0]; [lia|]. run_step H. rewrite Nat2Z.id in H.
  destruct (fdalloc_finv _ _ _ _ _ H4 R3) as (p' & Hq & Hq' & [(-> & H5 & [O5 _])|(fd1 & -> & Hfd1 & H5 & Hn1 & Ho1)]);
    assert (p' = p) as -> by congruence.
  - change (-1 <? 0) with true in H. cbv iota in H. run_step H. destruct (clear_finv _ _ _ _ _ H5 Hq' Hfd0 R4) as (H6 & _). eapply pipe_bad_finv; [|exact H].
    eapply finv_ext; [exact H6|]. intros h. rewrite O5, Ho0, fn_lookup_insert. unfold plus, minus. lia.
  - destruct (Z.ltb_spec (Z.of_nat fd1) 0) as [?L1|?L1]; [lia|]. rewrite Nat2Z.id in H. unfold bind at 1, get_proc, gets in H.
    assert (fd0 <> fd1) as Hne by (intros <-; by rewrite Ho0, fn_lookup_insert in Hn1).
    run_step H. assert (frel s4 s5) as Hf.
    { revert R4. match goal with |- ?m _ = _ -> _ => assert (Keeps m) as HK by keep end. apply HK. }
    pose proof (finv_frel _ _ _ H5 Hf) as H6. pose proof (frel_osame _ _ Hf) as [O6 O6'].
    destruct (_ <? 0).
    + run_step H. destruct (clear_finv _ _ _ _ _ H6 ltac:(exact (eq_trans O6' Hq')) Hfd0 R5) as (H7 & Hm7 & Ho7).
      run_step H. destruct (clear_finv _ _ _ _ _ H7 Hm7 Hfd1 R6) as (H8 & _). eapply pipe_bad_finv; [|exact H].
      eapply finv_ext; [exact H8|]. intros h. rewrite Ho7, O6, Ho1, Ho0.
      rewrite !(fn_lookup_insert_ne _ fd1 fd0) by done. rewrite !(fn_lookup_insert_ne _ fd0 fd1) by done.
      rewrite !fn_lookup_insert. unfold plus, minus. lia.
    + injection H as <- <-. eapply finv_ext; [exact H6|]. intros h. unfold plus, minus. lia.
Qed.

(** ** [exit] *)

Lemma exit_loop l X p s s' :
  finv X s -> c_proc (k_cpu s) = Some p -> (forall fd, fd ∈ l -> (fd < NOFILE)%nat) ->
  for_in l (fun fd =>
    let! q := get_proc p in
    match p_ofile q fd with
    | Some f => fileclose kend f ;; upd_proc p (set_ofile fd None)
    | None => ret tt
    end) s = Ok tt s' ->
  finv X s' /\ c_proc (k_cpu s') = Some p /\
  (forall fd, fd ∈ l \/ p_ofile (k_procs s p) fd = None -> p_ofile (k_procs s' p) fd = None).
Proof.
  revert s. induction l as [|fd l IH]; intros s Hi Hp Hl H; cbn in H.
  { injection H as <-. split; [done|split; [done|]]. intros fd [Hfd|]; [by apply elem_of_nil in Hfd|done]. }
  run_step H. unfold bind at 1, get_proc, gets in R. destruct (p_ofile (k_procs s p) fd) as [f|] eqn:E.
  - run_step R. destruct (fileclose_finv _ _ _ _ Hi R0) as [H1 [O1 O1']].
    destruct (clear_finv _ _ _ _ _ H1 ltac:(exact (eq_trans O1' Hp)) (Hl fd ltac:(set_solver)) R) as (H2 & Hm2 & Ho2).
    destruct (IH s0) as (I1 & I2 & I3); try done.
    { eapply finv_ext; [exact H2|]. intros h. rewrite O1, E. unfold plus, minus. lia. }
    { set_solver. }
    split; [done|split; [done|]]. intros fd' Hfd'. apply I3. rewrite Ho2, O1.
    destruct (decide (fd' = fd)) as [->|]; [right; by rewrite fn_lookup_insert|].
    rewrite fn_lookup_insert_ne by done. set_solver.
  - injection R as <-. destruct (IH s) as (I1 & I2 & I3); try done; [set_solver|].
    split; [done|split; [done|]]. intros fd' Hfd'. apply I3. destruct (decide (fd' = fd)) as [->|]; [by right|set_solver].
Qed.

#[export] Instance keeps_on_reg {A} (m : M hart A) : Keeps (on_reg (S := S) (D := D) m).
Proof. intros s b s' H. unfold on_reg, zoom in H. destruct (m (k_hart s)); try done. injection H as _ <-. by apply frel_same. Qed.
#[export] Instance keeps_mycpu : Keeps (mycpu (S := S) (D := D)).
Proof. apply keeps_gets. Qed.
#[export] Instance keeps_sched : Keeps (sched (S := S) (D := D)).
Proof. unfold sched. keep. Qed.
#[export] Instance keeps_reparent p : Keeps (reparent (S := S) (D := D) p).
Proof. unfold reparent. keep. Qed.

(** The process has no open files left: it may become a zombie. *)
Lemma switch_finv X p st ie s s1 s' :
  finv X s -> c_proc (k_cpu s) = Some p -> nofiles s p ->
  exit_switch p st s = Ok ie s1 -> scheduler_return p s1 = Ok tt s' -> finv X s'.
Proof.
  unfold exit_switch. intros Hi Hp Hn H Hr. run_step H. pose proof (keeps_acquire _ _ _ _ R) as F1.
  run_step H. assert (Keeps (upd_proc (S := S) (D := D) p (set_xstate st))) as HK by keep. apply HK in R0.
  pose proof (frel_trans _ _ _ F1 R0) as F2. run_step H. run_step H. pose proof (keeps_release _ _ _ _ R2) as F3.
  apply keeps_sched in H. pose proof (frel_trans _ _ _ F3 H) as F4.
  unfold scheduler_return in Hr. run_step Hr. apply keeps_release in Hr.
  pose proof (finv_frel _ _ _ Hi F2) as [A1 A2 _]. destruct F2 as [_ N2 _ _]. injection R1 as <-. injection R3 as <-.
  destruct F4 as [B1 B2 B3 B4], Hr as [C1 C2 C3 C4]. cbn in *. split.
  - intros f. rewrite C1, B1. cbn. rewrite A1. f_equal. apply hits_ext. intros [q fd] _. unfold fdtab; cbn.
    rewrite C2, B2. destruct (decide (q = p)) as [->|]; [by rewrite fn_lookup_insert|by rewrite fn_lookup_insert_ne].
  - intros q Hq fd Hfd. rewrite C2, B2. destruct (decide (q = p)) as [->|Hne].
    + rewrite fn_lookup_insert. cbn. rewrite N2. by apply Hn.
    + rewrite fn_lookup_insert_ne by done. apply C4 in Hq as [Hq|[Hq _]]; cbn in Hq.
      * apply B4 in Hq as [Hq|[Hq _]]; rewrite ?fn_lookup_insert_ne in Hq by done; [by apply A2|].
        specialize (Hq fd Hfd). cbn in Hq. by rewrite fn_lookup_insert_ne in Hq.
      * specialize (Hq fd Hfd). cbn in Hq. rewrite B2 in Hq. by rewrite fn_lookup_insert_ne in Hq.
  - intros q. rewrite C3. cbn. done.
Qed.

Lemma exit_ok st ie p s s1 s' :
  files_ok s -> c_proc (k_cpu s) = Some p -> exit_run kend st s = Ok ie s1 -> scheduler_return p s1 = Ok tt s' ->
  files_ok s'.
Proof.
  unfold exit_run, files_ok. intros Hi Hp H Hr. run_step H. pose proof (finv_keeps _ _ _ _ _ Hi R) as H1.
  pose proof (keeps_osame _ _ _ _ R) as [_ O1]. apply curproc_at in R. assert (a = p) as -> by congruence.
  unfold bind at 1, gets in H. case_bool_decide; [done|]. run_step H. unfold exit_files in R0.
  apply (exit_loop _ (fun _ => 0)) in R0 as (H2 & Hp2 & Hn2); [|done|congruence|intros fd Hfd%elem_of_seq; lia].
  assert (nofiles s2 p) as Hn by (intros fd Hfd; apply Hn2; left; apply elem_of_seq; lia).
  run_step H. unfold bind at 1, get_proc, gets in H. apply keeps_begin_op in R0.
  destruct (p_cwd _) as [ip|]; [|done]. run_step H. apply keeps_with_pid in R1.
  run_step H. apply keeps_end_op in R2. run_step H.
  assert (Keeps (upd_proc (S := S) (D := D) p (set_cwd None))) as HK by keep. apply HK in R3.
  unfold exit_zombie in H. run_step H. apply keeps_acquire in R4. run_step H. apply keeps_reparent in R5.
  unfold bind at 1, get_proc, gets in H. run_step H.
  assert (frel s8 s9) as F8.
  { destruct (p_parent _); [by apply keeps_wakeup in R6|by apply keeps_ret in R6]. }
  assert (frel s2 s9) as F by (repeat (eapply frel_trans; [eassumption|]); apply frel_refl).
  eapply switch_finv; [exact (finv_frel _ _ _ H2 F)| | |exact H|exact Hr].
  - destruct F as [_ _ -> _]. done.
  - intros fd Hfd. destruct F as [_ -> _ _]. by apply Hn.
Qed.

(** ** [fork] and [wait] *)

Lemma upd_dead_frel p st s s' :
  nofiles s p -> c_proc (k_cpu s) <> Some p -> upd_proc p (set_state st) s = Ok tt s' -> frel s s'.
Proof.
  intros Hn Hp [= <-]. split; cbn; try done; intros q; destruct (decide (q = p)) as [->|];
    rewrite ?fn_lookup_insert, ?fn_lookup_insert_ne by done; auto.
Qed.

Lemma freeproc_frel p s s' :
  nofiles s p -> c_proc (k_cpu s) <> Some p -> freeproc kend p s = Ok tt s' -> frel s s'.
Proof.
  unfold freeproc, get_proc, gets. unfold bind at 1. intros Hn Hp H.
  do 3 run_step H. do 8 (run_step H).
  assert (frel s s10) as F.
  { repeat match goal with R : ?m ?s = Ok _ ?s' |- frel ?s _ =>
      let HK := fresh in assert (Keeps m) as HK by keep; eapply frel_trans; [exact (HK _ _ _ R)|clear R HK] end.
    apply frel_refl. }
  eapply frel_trans; [exact F|]. destruct F as [_ N M _]. apply upd_dead_frel in H; [done| |congruence].
  intros fd Hfd. rewrite N. by apply Hn.
Qed.

#[export] Instance keeps_allocpid : Keeps (allocpid (S := S) (D := D)).
Proof.
  unfold allocpid. apply fkeeps_bind; [apply _|]. intros _. apply fkeeps_bind; [apply _|]. intros n.
  apply fkeeps_bind; [|intros _; keep]. intros s a s' [= _ <-]. by apply frel_same.
Qed.

Lemma alloc_found_frel p r s s' :
  nofiles s p -> c_proc (k_cpu s) <> Some p -> allocproc_found kend trampoline forkret_pc p s = Ok r s' -> frel s s'.
Proof.
  unfold allocproc_found. intros Hn Hp H. do 5 run_step H.
  assert (frel s s4) as F.
  { repeat match goal with R : ?m ?s = Ok _ ?s' |- frel ?s _ =>
      let HK := fresh in assert (Keeps m) as HK by keep; eapply frel_trans; [exact (HK _ _ _ R)|clear R HK] end.
    apply frel_refl. }
  eapply frel_trans; [exact F|]. destruct F as [_ N M _].
  assert (forall s5, frel s4 s5 -> (freeproc kend p ;; release (LkProc p) ;; ret None) s5 = Ok r s' -> frel s4 s') as Hfail.
  { intros s5 F5 H5. run_step H5. apply freeproc_frel in R4.
    - run_step H5. injection H5 as _ <-. apply keeps_release in R5. repeat (eapply frel_trans; [eassumption|]); apply frel_refl.
    - destruct F5 as [_ N5 _ _]. intros fd Hfd. rewrite N5, N. by apply Hn.
    - destruct F5 as [_ _ M5 _]. congruence. }
  destruct (_ =? 0); [by eapply Hfail; [apply frel_refl|]|].
  run_step H. apply keeps_phys in R4. run_step H.
  assert (Keeps (upd_proc (S := S) (D := D) p (set_pagetable a1))) as HK by keep. apply HK in R5.
  destruct (_ =? 0); [by eapply Hfail; [by eapply frel_trans|]|].
  run_step H. injection H as _ <-. do 2 (eapply frel_trans; [eassumption|]). revert R6.
  match goal with |- ?m _ = _ -> _ => assert (Keeps m) as HK2 by keep end. apply HK2.
Qed.

Lemma allocproc_frel X r s s' :
  finv X s -> allocproc kend trampoline forkret_pc s = Ok r s' ->
  frel s s' /\ match r with
    | Some np => (np < NPROC)%nat /\ nofiles s' np /\ c_proc (k_cpu s') <> Some np /\ instate s' np USED
    | None => True
    end.
Proof.
  intros Hi H. pose proof (allocproc_mild _ _ _ _ _ _ H) as [_ Hu]. unfold allocproc in H. run_step H.
  match type of R with ?m _ = _ => assert (Keeps m) as HK by keep end.
  pose proof (HK _ _ _ R) as F1. apply alloc_search in R as (_ & _ & Hr).
  destruct a as [p|]; [|by injection H as <- <-]. destruct Hr as [Hl Hr]. apply elem_of_seq in Hl.
  assert (dead (k_procs s p)) as Hd by (by left).
  assert (nofiles s p) as Hn by (by apply (fi_idle _ _ Hi)).
  assert (c_proc (k_cpu s) <> Some p) as Hp by (intros E; by destruct (fi_me _ _ Hi p E) as [_ []]).
  pose proof H as Hfound. apply alloc_found_frel in H.
  2:{ intros fd Hfd. destruct F1 as [_ -> _ _]. by apply Hn. }
  2:{ destruct F1 as [_ _ -> _]. done. }
  pose proof (frel_trans _ _ _ F1 H) as F. split; [done|]. apply alloc_found in Hfound as [_ Hf].
  destruct r as [np|]; [|done]. destruct Hf as [-> Hf]. split; [lia|]. destruct F as [_ N M _]. split; [|split].
  - intros fd Hfd. rewrite N. by apply Hn.
  - congruence.
  - done.
Qed.

Lemma filedup_procs f r s s' : filedup f s = Ok r s' -> k_procs s' = k_procs s.
Proof.
  unfold filedup. intros H. run_step H. apply acquire_inv in R as ([E1 _ _] & _).
  unfold bind at 1, get_file, gets in H. destruct (_ <? 1); [done|]. run_step H. run_step H. injection H as _ <-.
  apply release_inv in R0 as ([E2 _ _] & _). injection R as <-. cbn in E2. congruence.
Qed.

Lemma fork_loop l X p np s s' :
  finv X s -> (np < NPROC)%nat -> ~ dead (k_procs s np) -> p <> np -> NoDup l ->
  (forall fd, fd ∈ l -> (fd < NOFILE)%nat /\ p_ofile (k_procs s np) fd = None) ->
  for_in l (fun i =>
    let! q := get_proc p in
    match p_ofile q i with
    | Some f => let! f' := filedup f in upd_proc np (set_ofile i (Some f'))
    | None => ret tt
    end) s = Ok tt s' ->
  finv X s'.
Proof.
  revert s. induction l as [|fd l IH]; intros s Hi Hnp Hd Hne Hnd Hl H; cbn in H; [by injection H as <-|].
  apply NoDup_cons in Hnd as [Hnd1 Hnd2]. destruct (Hl fd) as [Hfd Hn]; [set_solver|].
  run_step H. unfold bind at 1, get_proc, gets in R. destruct (p_ofile (k_procs s p) fd) as [f|] eqn:E.
  - run_step R. pose proof (filedup_procs _ _ _ _ R0) as Ep.
    destruct (filedup_finv _ _ _ _ _ Hi R0) as (-> & H1 & _). rewrite <- Ep in Hd, Hn.
    pose proof (finv_set_fd _ _ _ _ _ _ H1 Hnp Hfd (fun H => False_ind _ (Hd H)) R) as H2.
    rewrite Hn in H2. injection R as <-. refine (IH _ _ Hnp _ Hne Hnd2 _ H).
    + eapply finv_ext; [exact H2|]. intros h; cbn. rewrite hit_none. unfold plus. lia.
    + cbn. rewrite fn_lookup_insert. exact Hd.
    + intros fd' Hfd'. cbn. rewrite fn_lookup_insert. cbn. rewrite fn_lookup_insert_ne by (intros ->; done).
      rewrite Ep. apply Hl. set_solver.
  - injection R as <-. apply (IH s); try done. set_solver.
Qed.

Lemma fork_ok r s s' : files_ok s -> fork kend trampoline forkret_pc s = Ok r s' -> files_ok s'.
Proof.
  unfold fork, files_ok. intros Hi H. run_step H. pose proof (finv_keeps _ _ _ _ _ Hi R) as H1.
  pose proof (keeps_osame _ _ _ _ R) as [_ O1]. apply curproc_at in R. run_step H.
  destruct (allocproc_frel _ _ _ _ H1 R0) as [F1 Hr]. pose proof (finv_frel _ _ _ H1 F1) as H2.
  destruct a0 as [np|]; [|by injection H as <- <-]. destruct Hr as (Hlt & Hn & Hm & Hu).
  unfold bind at 1 2, get_proc, gets in H. run_step H.
  pose proof (keeps_phys _ _ _ _ R1) as F2. pose proof (finv_frel _ _ _ H2 F2) as H3.
  assert (k_procs s2 = k_procs s1) as E2
    by (unfold on_phys, zoom in R1; destruct (uvmcopy _ _ _ _ _); try done; by injection R1 as _ <-).
  assert (nofiles s2 np /\ c_proc (k_cpu s2) <> Some np) as [Hn2 Hm2].
  { destruct F2 as [_ N2 M2 _]. split; [|congruence]. intros fd Hfd. rewrite N2. by apply Hn. }
  destruct (_ <? 0).
  { run_step H. apply freeproc_frel in R2; [|done|done]. run_step H. injection H as _ <-. apply keeps_release in R3.
    do 2 (eapply finv_frel; [|eassumption]). done. }
  pose proof (on_phys_instate _ _ _ _ _ _ R1 Hu) as Hu2. run_step H.
  pose proof (upd_instate _ _ _ _ _ R2 eq_refl Hu2) as Hu3. run_step H.
  pose proof (on_phys_instate _ _ _ _ _ _ R3 Hu3) as Hu4. run_step H. unfold store_tf, get_proc, gets in R4.
  unfold bind at 1 in R4. pose proof (on_phys_instate _ _ _ _ _ _ R4 Hu4) as Hu5.
  assert (frel s2 s5) as F3.
  { assert (Keeps (upd_proc (S := S) (D := D) np (set_sz (p_sz (k_procs s1 a))))) as HK by keep.
    apply HK in R2. apply keeps_phys in R3, R4. repeat (eapply frel_trans; [eassumption|]); apply frel_refl. }
  pose proof (finv_frel _ _ _ H3 F3) as H4. destruct F1 as [_ _ M1 _], F2 as [_ _ M2 _]. pose proof F3 as [_ N3 M3 _].
  run_step H. unfold fork_files in R5. run_step R5.
  apply (fork_loop _ (fun _ => 0)) in R6.
  - eapply finv_frel; [exact R6|]. unfold bind at 1, get_proc, gets in R5.
    match type of R5 with ?m _ = _ => assert (Keeps m) as HK by keep end.
    apply (frel_trans _ _ _ (HK _ _ _ R5)).
    match type of H with ?m _ = _ => assert (Keeps m) as HK2 by (unfold fork_ready; keep) end. exact (HK2 _ _ _ H).
  - done.
  - done.
  - unfold dead, instate in *. rewrite Hu5. by intros [|].
  - intros ->. congruence.
  - apply NoDup_seq.
  - intros fd Hfd%elem_of_seq. split; [lia|]. rewrite N3. apply Hn2. lia.
Qed.

Lemma wait_scan_ok X l p addr kids r s s' :
  finv X s -> wait_scan kend l p addr kids s = Ok r s' -> finv X s'.
Proof.
  revert kids s. induction l as [|np l IH]; intros kids s Hi H; cbn in H; [by injection H as <- <-|].
  unfold bind at 1, get_proc, gets in H. case_bool_decide; [|by eapply IH].
  run_step H. pose proof (finv_keeps _ _ _ _ _ Hi R) as H1. unfold bind at 1 in H. case_bool_decide as Ez.
  - unfold bind at 1 in H. run_step H.
    match type of R0 with ?m _ = _ => assert (Keeps m) as HK by keep end. pose proof (HK _ _ _ R0) as F.
    assert (k_procs s1 = k_procs s0) as E.
    { destruct (negb _); [|by injection R0 as _ <-]. unfold on_phys, zoom in R0.
      destruct (copyout_bytes _ _ _ _); try done. by injection R0 as _ <-. }
    pose proof (finv_frel _ _ _ H1 F) as H2. destruct (a <? 0).
    + do 2 run_step H. injection H as _ <-. apply keeps_release in R1, R2. by do 2 (eapply finv_frel; [|eassumption]).
    + assert (dead (k_procs s1 np)) as Hd by (right; by rewrite E).
      run_step H. apply freeproc_frel in R1.
      * do 2 run_step H. injection H as _ <-. apply keeps_release in R2, R3. by do 3 (eapply finv_frel; [|eassumption]).
      * by apply (fi_idle _ _ H2).
      * intros E'. by destruct (fi_me _ _ H2 np E') as [_ []].
  - run_step H. pose proof (finv_keeps _ _ _ _ _ H1 R0) as H2. by eapply IH.
Qed.

Lemma wait_ok addr r s s' : files_ok s -> wait kend addr s = Ok r s' -> files_ok s'.
Proof.
  unfold wait, wait_loop, files_ok. intros Hi H. run_step H. pose proof (finv_keeps _ _ _ _ _ Hi R) as H1.
  run_step H. pose proof (finv_keeps _ _ _ _ _ H1 R0) as H2. run_step H. apply (wait_scan_ok _ _ _ _ _ _ _ _ H2) in R1.
  destruct a0 as [[v|] kids]; [by injection H as <- <-|]. unfold bind at 1, get_proc, gets in H.
  destruct (_ || _).
  - run_step H. injection H as <- <-. apply keeps_release in R2. exact (finv_frel _ _ _ R1 R2).
  - unfold sleep in H. run_step H. done.
Qed.

(** ** The theorem *)

(** The kernel between two steps of a process that touch open files: a system
    call run to its end, anything that leaves counts, descriptors and process
    life alone ([fs_other]), or a CPU that turns to another running process. *)
Inductive fstep s : kern -> Prop :=
  | fs_dup r s' : sys_dup s = Ok r s' -> fstep s s'
  | fs_close r s' : sys_close kend s = Ok r s' -> fstep s s'
  | fs_open r s' : sys_open kend s = Ok r s' -> fstep s s'
  | fs_pipe r s' : sys_pipe kend s = Ok r s' -> fstep s s'
  | fs_fork r s' : fork kend trampoline forkret_pc s = Ok r s' -> fstep s s'
  | fs_wait addr r s' : wait kend addr s = Ok r s' -> fstep s s'
  | fs_exit st ie p s1 s' :
      c_proc (k_cpu s) = Some p -> exit_run kend st s = Ok ie s1 -> scheduler_return p s1 = Ok tt s' -> fstep s s'
  | fs_other s' : frel s s' -> fstep s s'
  | fs_switch h c :
      (forall p, c_proc c = Some p -> (p < NPROC)%nat /\ p_state (k_procs s p) = RUNNING) ->
      fstep s (set_kcpu c (set_khart h s)).

Lemma fstep_ok s s' : files_ok s -> fstep s s' -> files_ok s'.
Proof.
  intros Hi [r s1 H|r s1 H|r s1 H|r s1 H|r s1 H|addr r s1 H|st ie p s1 s2 Hp H1 H2|s1 H|h c H].
  - by eapply sys_dup_ok.
  - by eapply sys_close_ok.
  - by eapply sys_open_ok.
  - by eapply sys_pipe_ok.
  - by eapply fork_ok.
  - by eapply wait_ok.
  - by eapply exit_ok.
  - by eapply finv_frel.
  - destruct Hi as [A1 A2 A3]. split; [exact A1|exact A2|]. cbn. intros p Hp. destruct (H p Hp) as [Hlt Hr].
    split; [done|]. unfold dead. cbn. rewrite Hr. by intros [|].
Qed.

(** No descriptor is open and every count is 0. *)
Definition files_boot s : Prop :=
  (forall f, f_ref (k_files s f) = 0) /\ (forall p, nofiles s p) /\
  (forall p, c_proc (k_cpu s) = Some p -> (p < NPROC)%nat /\ p_state (k_procs s p) = RUNNING).

Lemma slots_empty s f : (forall p, nofiles s p) -> slots s f = 0.
Proof.
  intros H. unfold slots. assert (forall k, k ∈ fdkeys -> fdtab s k = None) as Hk.
  { intros [p fd] Hin%list_elem_of_In. apply in_prod_iff in Hin as [_ Hfd%in_seq]. apply (H p fd). lia. }
  revert Hk. generalize fdkeys. intros ks. induction ks as [|k ks IH]; intros Hk; [done|].
  rewrite hits_cons, IH by set_solver. rewrite Hk by set_solver. by rewrite hit_none.
Qed.

Lemma boot_files_ok s : files_boot s -> files_ok s.
Proof.
  intros (H1 & H2 & H3). split.
  - intros f. rewrite H1, slots_empty by done. done.
  - intros p _. apply H2.
  - intros p Hp. destruct (H3 p Hp) as [Hlt Hr]. split; [done|]. unfold dead. rewrite Hr. by intros [|].
Qed.

Inductive fsteps s : kern -> Prop :=
  | fss_refl : fsteps s s
  | fss_step s1 s2 : fsteps s s1 -> fstep s1 s2 -> fsteps s s2.

Lemma hits_pos T g k ks : k ∈ ks -> T k = Some g -> 1 <= hits T g ks.
Proof.
  assert (forall ks, 0 <= hits T g ks) as H0 by (intros; unfold hits; lia).
  induction ks as [|k' ks IH]; intros Hk E; [by apply elem_of_nil in Hk|]. rewrite hits_cons.
  apply elem_of_cons in Hk as [<-|Hk]; [rewrite E; unfold hit; rewrite decide_True by done; specialize (H0 ks); lia|].
  specialize (IH Hk E). unfold hit. destruct (decide _); lia.
Qed.

(** C2. The reference counts of open files are exact.  From start-up, however the
    processes' calls of [open], [dup], [close], [pipe], [fork], [exit] and [wait]
    follow each other, failed ones included: [ref] of every file is the number
    of descriptors that name it, over all processes; so the file behind a
    descriptor is never free ([filealloc] cannot hand it out again, and the
    checks of [filedup] and [fileclose] pass), a file no descriptor names is
    free, and a process that is unused or a zombie holds no file open. *)
Theorem file_refs_exact s0 s :
  files_boot s0 -> fsteps s0 s ->
  (forall f, f_ref (k_files s f) = slots s f) /\
  (forall p fd f, (p < NPROC)%nat -> (fd < NOFILE)%nat ->
     p_ofile (k_procs s p) fd = Some f -> 1 <= f_ref (k_files s f)) /\
  (forall p fd, p_state (k_procs s p) = UNUSED \/ p_state (k_procs s p) = ZOMBIE ->
     (fd < NOFILE)%nat -> p_ofile (k_procs s p) fd = None).
Proof.
  intros Hb Hs. assert (files_ok s) as [A1 A2 _].
  { apply boot_files_ok in Hb. induction Hs; [done|]. eapply fstep_ok; [by apply IHHs|done]. }
  assert (forall f, f_ref (k_files s f) = slots s f) as Hr by (intros f; rewrite A1; lia).
  split; [done|]. split.
  - intros p fd f Hp Hfd E. rewrite Hr. eapply hits_pos; [by apply (fdkeys_in p fd)|done].
  - intros p fd Hd Hfd. by apply A2.
Qed.
End file_inv.

(** Pipes need no disk and no device. *)
#[local] Instance no_disk : BlockCache unit unit := {
  cread _ _ := panic "no disk"; cwrite _ := panic "no disk"; crelse _ := panic "no disk"; cpin _ := panic "no disk";
  cunpin _ := panic "no disk"; cdata _ := panic "no disk"; cset _ _ := panic "no disk"; cblockno _ := panic "no disk"
}.

(** Process 1 of the small kernel calls [pipe] with the array at address 64. *)
Definition demo_files : kernel unit unit :=
  set_kphys (mkphys (store64 demo_mem (demo_tf + TF_a 0) 64) (demo_pt + 5 * 4096)) demo_kernel.

Definition demo_piped_files : kernel unit unit := end_of (sys_pipe 0) demo_files.

Lemma file_refs_exact_witness :
  p_ofile (k_procs demo_piped_files 1%nat) 0%nat = Some 0%nat /\
  f_ref (k_files demo_piped_files 0%nat) = slots demo_piped_files 0%nat /\ 1 <= f_ref (k_files demo_piped_files 0%nat).
Proof.
  assert (p_ofile (k_procs demo_piped_files 1%nat) 0%nat = Some 0%nat) as E by (vm_compute; reflexivity).
  destruct (fun Hb Hs => file_refs_exact 0 0 0 demo_files demo_piped_files Hb Hs) as (H1 & H2 & _).
  - split; [done|]. split; [intros [|[|p]] fd _; done|]. intros p [= <-]. split; [unfold NPROC; lia|done].
  - eapply fss_step; [apply fss_refl|]. refine (fs_pipe 0 0 0 demo_files 0 demo_piped_files (end_of_ok Z.eqb (sys_pipe 0) demo_files 0 (fun x y => proj1 (Z.eqb_eq x y)) _)).
    vm_compute. reflexivity.
  - split; [exact E|]. split; [apply H1|]. apply (H2 1%nat 0%nat); [unfold NPROC; lia|unfold NOFILE; lia|exact E].
Defined.
