(* ===== verification/Syscall.v ===== *)
(** * System calls on processes and the dispatcher: [src/kernel/sysproc.c],
      [src/kernel/syscall.c], [include/kernel/syscall.h] *)

From stdpp Require Import functions.
From S2P Require Import Prelude Memory CString Riscv Csr Spinlock Kalloc Vm Copy Block Cache Log Fs Kernel Proc Uart Printf Console Pipe File Process Exec Sysfile.

(** The numbers of [syscall.h], as the calls they stand for. *)
Inductive sysno :=
  | SYS_fork | SYS_exit | SYS_wait | SYS_pipe | SYS_read | SYS_kill | SYS_exec | SYS_fstat
  | SYS_chdir | SYS_dup | SYS_getpid | SYS_sbrk | SYS_sleep | SYS_uptime | SYS_open | SYS_write
  | SYS_mknod | SYS_unlink | SYS_link | SYS_mkdir | SYS_close.

Definition sysno_of (n : Z) : option sysno :=
  nth_error [SYS_fork; SYS_exit; SYS_wait; SYS_pipe; SYS_read; SYS_kill; SYS_exec; SYS_fstat;
    SYS_chdir; SYS_dup; SYS_getpid; SYS_sbrk; SYS_sleep; SYS_uptime; SYS_open; SYS_write;
    SYS_mknod; SYS_unlink; SYS_link; SYS_mkdir; SYS_close] (Z.to_nat (n - 1)).

Section syscall.
Context {S B D : Type} `{!BlockCache S B} `{!Mmio D}.
Variables kend trampoline forkret_pc : Z.
Variable spin : nat.
Variable stat_pad : list Z.

Abbreviation kern := (kernel S D).

Definition sys_exit : M kern Z :=
  let! n := argint 0 in
  exit kend n.

Definition sys_getpid : M kern Z :=
  let! p := curproc in
  let! q := get_proc p in
  ret (p_pid q).

Definition sys_fork : M kern Z := fork kend trampoline forkret_pc.

Definition sys_wait : M kern Z :=
  let! p := argaddr 0 in
  wait kend p.

Definition sys_sbrk : M kern Z :=
  let! n := argint 0 in
  let! p := curproc in
  let! q := get_proc p in
  let addr := s32 (p_sz q) in
  let! r := growproc kend n in
  if r <? 0 then ret (-1) else ret addr.

(** The loop of [sys_sleep] since [ticks0]; the comparison is unsigned. *)
Definition sleep_loop (n ticks0 : Z) : M kern progress :=
  let! ticks := gets k_ticks in
  if u32 (ticks - ticks0) <? u32 n then
    let! p := curproc in
    let! q := get_proc p in
    if negb (p_killed q =? 0) then release LkTicks ;; ret (Done (-1))
    else sleep_enter ChTicks LkTicks ;; ret (Asleep ticks0)
  else release LkTicks ;; ret (Done 0).

Definition sys_sleep : M kern progress :=
  let! n := argint 0 in
  acquire LkTicks ;;
  let! ticks0 := gets k_ticks in
  sleep_loop n ticks0.

Definition sys_kill : M kern Z :=
  let! pid := argint 0 in
  kill pid.

Definition sys_uptime : M kern Z :=
  acquire LkTicks ;;
  let! xticks := gets k_ticks in
  release LkTicks ;;
  ret xticks.

Definition finished (m : M kern Z) : M kern progress := let! r := m in ret (Done r).

(** [syscalls[num]()] *)
Definition sys_call (c : sysno) : M kern progress :=
  match c with
  | SYS_fork => finished sys_fork
  | SYS_exit => finished sys_exit
  | SYS_wait => finished sys_wait
  | SYS_pipe => finished (sys_pipe kend)
  | SYS_read => sys_read
  | SYS_kill => finished sys_kill
  | SYS_exec => finished (sys_exec kend trampoline)
  | SYS_fstat => finished (sys_fstat stat_pad)
  | SYS_chdir => finished sys_chdir
  | SYS_dup => finished sys_dup
  | SYS_getpid => finished sys_getpid
  | SYS_sbrk => finished sys_sbrk
  | SYS_sleep => sys_sleep
  | SYS_uptime => finished sys_uptime
  | SYS_open => finished (sys_open kend)
  | SYS_write => sys_write
  | SYS_mknod => finished sys_mknod
  | SYS_unlink => finished sys_unlink
  | SYS_link => finished sys_link
  | SYS_mkdir => finished sys_mkdir
  | SYS_close => finished (sys_close kend)
  end.

(** [NELEM(syscalls)] is 22; entry 0 of the array is empty. *)
Definition syscall : M kern unit :=
  let! p := curproc in
  let! a7 := load_tf p (TF_a 7) in
  let num := s32 a7 in
  match (if (0 <? num) && (num <? 22) then sysno_of num else None) with
  | Some c =>
      let! r := sys_call c in
      match r with
      | Done v => store_tf p (TF_a 0) (u64 v)
      | Asleep _ => sleeps "system call"
      end
  | None =>
      let! q := get_proc p in
      printf spin (String.append "%d %s: unknown sys call %d" NL)
        [AInt (p_pid q); AStr (Some (cstring (p_name q))); AInt num] ;;
      store_tf p (TF_a 0) (u64 (-1))
  end.
End syscall.
