(* ===== verification/Virtio.v ===== *)
(** * The disk driver: [src/kernel/platform/qemu/driver/virtio_disk.c] and
      [include/kernel/virtio.h]

    The driver and the device share the descriptors, the two rings, the
    request headers, the status bytes and the data of the buffers.  A buffer is
    named by its index.  [virtio_disk_rw] sleeps at two places, which cut it
    into [rw_begin] (from the lock to the notification of the device) and
    [rw_end] (after the completion). *)

From stdpp Require Import functions.
From S2P Require Import Prelude Memory Riscv Csr Spinlock Kalloc Vm Block Cache Log Fs Kernel Proc.

Definition NUM : nat := 8.
Definition VRING_DESC_F_NEXT : Z := 1.
Definition VRING_DESC_F_WRITE : Z := 2.
Definition VIRTIO_BLK_T_IN : Z := 0.
Definition VIRTIO_BLK_T_OUT : Z := 1.

(** The registers of the device and their addresses, [R(r)]. *)
Inductive vreg :=
  | VIRTIO_MMIO_MAGIC_VALUE
  | VIRTIO_MMIO_VERSION
  | VIRTIO_MMIO_DEVICE_ID
  | VIRTIO_MMIO_VENDOR_ID
  | VIRTIO_MMIO_DEVICE_FEATURES
  | VIRTIO_MMIO_DRIVER_FEATURES
  | VIRTIO_MMIO_GUEST_PAGE_SIZE
  | VIRTIO_MMIO_QUEUE_SEL
  | VIRTIO_MMIO_QUEUE_NUM_MAX
  | VIRTIO_MMIO_QUEUE_NUM
  | VIRTIO_MMIO_QUEUE_PFN
  | VIRTIO_MMIO_QUEUE_NOTIFY
  | VIRTIO_MMIO_INTERRUPT_STATUS
  | VIRTIO_MMIO_INTERRUPT_ACK
  | VIRTIO_MMIO_STATUS.
Definition R (r : vreg) : Z :=
  VIRTIO0 +
  match r with
  | VIRTIO_MMIO_MAGIC_VALUE => 0x000
  | VIRTIO_MMIO_VERSION => 0x004
  | VIRTIO_MMIO_DEVICE_ID => 0x008
  | VIRTIO_MMIO_VENDOR_ID => 0x00c
  | VIRTIO_MMIO_DEVICE_FEATURES => 0x010
  | VIRTIO_MMIO_DRIVER_FEATURES => 0x020
  | VIRTIO_MMIO_GUEST_PAGE_SIZE => 0x028
  | VIRTIO_MMIO_QUEUE_SEL => 0x030
  | VIRTIO_MMIO_QUEUE_NUM_MAX => 0x034
  | VIRTIO_MMIO_QUEUE_NUM => 0x038
  | VIRTIO_MMIO_QUEUE_PFN => 0x040
  | VIRTIO_MMIO_QUEUE_NOTIFY => 0x050
  | VIRTIO_MMIO_INTERRUPT_STATUS => 0x060
  | VIRTIO_MMIO_INTERRUPT_ACK => 0x064
  | VIRTIO_MMIO_STATUS => 0x070
  end.

(** Bits of the status register. *)
Inductive vstatus :=
  VIRTIO_CONFIG_S_ACKNOWLEDGE | VIRTIO_CONFIG_S_DRIVER | VIRTIO_CONFIG_S_DRIVER_OK | VIRTIO_CONFIG_S_FEATURES_OK.
Definition vstatus_val (b : vstatus) : Z :=
  match b with
  | VIRTIO_CONFIG_S_ACKNOWLEDGE => 1
  | VIRTIO_CONFIG_S_DRIVER => 2
  | VIRTIO_CONFIG_S_DRIVER_OK => 4
  | VIRTIO_CONFIG_S_FEATURES_OK => 8
  end.
Coercion vstatus_val : vstatus >-> Z.

(** The feature bits the driver turns off: [VIRTIO_BLK_F_RO], [_SCSI],
    [_CONFIG_WCE], [_MQ], [VIRTIO_F_ANY_LAYOUT], [VIRTIO_RING_F_EVENT_IDX],
    [VIRTIO_RING_F_INDIRECT_DESC]. *)
Definition unwanted_features : list Z := [5; 7; 11; 12; 27; 29; 28].
Definition negotiate (features : Z) : Z :=
  foldl (fun f bit => Z.land f (Z.lnot (Z.shiftl 1 bit))) features unwanted_features.

(** ** Fields of [struct disk] *)

Definition vset_desc (i : nat) (d : virtq_desc) (v : vdisk) : vdisk :=
  mkvdisk (<[i := d]> (v_desc v)) (v_avail_idx v) (v_avail v) (v_usedring_idx v) (v_used v) (v_free v)
    (v_used_idx v) (v_info_b v) (v_status v) (v_ops v) (v_bdisk v).
Definition vset_avail (k : nat) (x : Z) (v : vdisk) : vdisk :=
  mkvdisk (v_desc v) (v_avail_idx v) (<[k := x]> (v_avail v)) (v_usedring_idx v) (v_used v) (v_free v)
    (v_used_idx v) (v_info_b v) (v_status v) (v_ops v) (v_bdisk v).
Definition vset_avail_idx (x : Z) (v : vdisk) : vdisk :=
  mkvdisk (v_desc v) x (v_avail v) (v_usedring_idx v) (v_used v) (v_free v)
    (v_used_idx v) (v_info_b v) (v_status v) (v_ops v) (v_bdisk v).
Definition vset_free (i : nat) (b : bool) (v : vdisk) : vdisk :=
  mkvdisk (v_desc v) (v_avail_idx v) (v_avail v) (v_usedring_idx v) (v_used v) (<[i := b]> (v_free v))
    (v_used_idx v) (v_info_b v) (v_status v) (v_ops v) (v_bdisk v).
Definition vset_used_idx (x : Z) (v : vdisk) : vdisk :=
  mkvdisk (v_desc v) (v_avail_idx v) (v_avail v) (v_usedring_idx v) (v_used v) (v_free v)
    x (v_info_b v) (v_status v) (v_ops v) (v_bdisk v).
Definition vset_info (i : nat) (b : option nat) (v : vdisk) : vdisk :=
  mkvdisk (v_desc v) (v_avail_idx v) (v_avail v) (v_usedring_idx v) (v_used v) (v_free v)
    (v_used_idx v) (<[i := b]> (v_info_b v)) (v_status v) (v_ops v) (v_bdisk v).
Definition vset_status (i : nat) (x : Z) (v : vdisk) : vdisk :=
  mkvdisk (v_desc v) (v_avail_idx v) (v_avail v) (v_usedring_idx v) (v_used v) (v_free v)
    (v_used_idx v) (v_info_b v) (<[i := x]> (v_status v)) (v_ops v) (v_bdisk v).
Definition vset_ops (i : nat) (r : virtio_blk_req) (v : vdisk) : vdisk :=
  mkvdisk (v_desc v) (v_avail_idx v) (v_avail v) (v_usedring_idx v) (v_used v) (v_free v)
    (v_used_idx v) (v_info_b v) (v_status v) (<[i := r]> (v_ops v)) (v_bdisk v).
Definition vset_bdisk (b : nat) (x : bool) (v : vdisk) : vdisk :=
  mkvdisk (v_desc v) (v_avail_idx v) (v_avail v) (v_usedring_idx v) (v_used v) (v_free v)
    (v_used_idx v) (v_info_b v) (v_status v) (v_ops v) (<[b := x]> (v_bdisk v)).
(** [memset(disk.pages, 0, sizeof(disk.pages))]: descriptors and rings *)
Definition vclear (v : vdisk) : vdisk :=
  mkvdisk (fun _ => mkdesc DNull 0 0 0) 0 (fun _ => 0) 0 (fun _ => 0) (v_free v)
    (v_used_idx v) (v_info_b v) (v_status v) (v_ops v) (v_bdisk v).

Section virtio.
Context {S D : Type} `{!Mmio D}.
(** The address of [disk.pages]. *)
Variable pages : Z.

Abbreviation kern := (kernel S D).

(** [*R(r)] *)
Definition read_R (r : vreg) : M kern Z :=
  on_dev (fun d => let '(v, d') := mmio_read (R r) d in Ok (u32 v) d').
Definition write_R (r : vreg) (v : Z) : M kern unit :=
  on_dev (modify (mmio_write (R r) (u32 v))).

Definition get_disk : M kern vdisk := gets k_disk.
Definition upd_disk (f : vdisk -> vdisk) : M kern unit :=
  modify (fun s => set_kdisk (f (k_disk s)) s).

Definition virtio_disk_init : M kern unit :=
  init_lock LkDisk "virtio_disk" ;;
  let! magic := read_R VIRTIO_MMIO_MAGIC_VALUE in
  let! version := (if magic =? 0x74726976 then read_R VIRTIO_MMIO_VERSION else ret 0) in
  let! id := (if version =? 1 then read_R VIRTIO_MMIO_DEVICE_ID else ret 0) in
  let! vendor := (if id =? 2 then read_R VIRTIO_MMIO_VENDOR_ID else ret 0) in
  if negb (vendor =? 0x554d4551) then panic "could not find virtio disk"
  else
    let status : Z := VIRTIO_CONFIG_S_ACKNOWLEDGE in
    write_R VIRTIO_MMIO_STATUS status ;;
    let status := Z.lor status VIRTIO_CONFIG_S_DRIVER in
    write_R VIRTIO_MMIO_STATUS status ;;
    let! features := read_R VIRTIO_MMIO_DEVICE_FEATURES in
    write_R VIRTIO_MMIO_DRIVER_FEATURES (negotiate features) ;;
    let status := Z.lor status VIRTIO_CONFIG_S_FEATURES_OK in
    write_R VIRTIO_MMIO_STATUS status ;;
    let status := Z.lor status VIRTIO_CONFIG_S_DRIVER_OK in
    write_R VIRTIO_MMIO_STATUS status ;;
    write_R VIRTIO_MMIO_GUEST_PAGE_SIZE PGSIZE ;;
    write_R VIRTIO_MMIO_QUEUE_SEL 0 ;;
    let! max := read_R VIRTIO_MMIO_QUEUE_NUM_MAX in
    if max =? 0 then panic "virtio disk has no queue 0"
    else if max <? Z.of_nat NUM then panic "virtio disk max queue too short"
    else
      write_R VIRTIO_MMIO_QUEUE_NUM (Z.of_nat NUM) ;;
      upd_disk vclear ;;
      write_R VIRTIO_MMIO_QUEUE_PFN (Z.shiftr pages PGSHIFT) ;;
      for_in (seq 0 NUM) (fun i => upd_disk (vset_free i true)).

(** ** Descriptors *)

Definition alloc_desc : M kern (option nat) :=
  for_first (seq 0 NUM) (fun i =>
    let! v := get_disk in
    if v_free v i then upd_disk (vset_free i false) ;; ret (Some i) else ret None).

Definition free_desc (i : nat) : M kern unit :=
  if Nat.leb NUM i then panic "free_desc 1"
  else
    let! v := get_disk in
    if v_free v i then panic "free_desc 2"
    else
      upd_disk (vset_desc i (mkdesc DNull 0 0 0)) ;;
      upd_disk (vset_free i true) ;;
      wakeup ChDisk.

(** [while(1)] of [free_chain]: a chain has at most [NUM] descriptors. *)
Fixpoint free_chain_loop (fuel i : nat) : M kern unit :=
  match fuel with
  | O => panic "free_chain: fuel"
  | Datatypes.S f =>
      let! v := get_disk in
      let flag := d_flags (v_desc v i) in
      let nxt := d_next (v_desc v i) in
      free_desc i ;;
      if has flag VRING_DESC_F_NEXT then free_chain_loop f (Z.to_nat nxt) else ret tt
  end.
Definition free_chain (i : nat) : M kern unit := free_chain_loop NUM i.

(** The three indices, or [None] when there are not enough descriptors; [got]
    are those allocated so far. *)
Fixpoint alloc3_loop (n : nat) (got : list nat) : M kern (option (list nat)) :=
  match n with
  | O => ret (Some got)
  | Datatypes.S n' =>
      let! i := alloc_desc in
      match i with
      | None => for_in got free_desc ;; ret None
      | Some i => alloc3_loop n' (got ++ [i])
      end
  end.
Definition alloc3_desc : M kern (option (list nat)) := alloc3_loop 3 [].

(** ** Transfers *)

(** [b->blockno * (BSIZE / 512)]: the product of two 32-bit values *)
Definition sector_of (blockno : Z) : Z := u32 (blockno * (BSIZE / 512)).

(** The descriptors and the ring entry of a request. *)
Definition submit (i0 i1 i2 : nat) (b : nat) (blockno : Z) (write : bool) : M kern unit :=
  upd_disk (vset_ops i0 (mkreq (if write then VIRTIO_BLK_T_OUT else VIRTIO_BLK_T_IN) 0 (sector_of blockno))) ;;
  upd_disk (vset_desc i0 (mkdesc (DOps i0) 16 VRING_DESC_F_NEXT (Z.of_nat i1))) ;;
  upd_disk (vset_desc i1 (mkdesc (DData b) BSIZE
    (Z.lor (if write then 0 else VRING_DESC_F_WRITE) VRING_DESC_F_NEXT) (Z.of_nat i2))) ;;
  upd_disk (vset_status i0 0xff) ;;
  upd_disk (vset_desc i2 (mkdesc (DStatus i0) 1 VRING_DESC_F_WRITE 0)) ;;
  upd_disk (vset_bdisk b true) ;;
  upd_disk (vset_info i0 (Some b)) ;;
  upd_disk (fun v => vset_avail (Z.to_nat (v_avail_idx v mod Z.of_nat NUM)) (Z.of_nat i0) v) ;;
  upd_disk (fun v => vset_avail_idx (u16 (v_avail_idx v + 1)) v) ;;
  write_R VIRTIO_MMIO_QUEUE_NOTIFY 0.

(** One round of the loop that waits for descriptors, then the request; the
    head of its chain.  [None]: asleep until descriptors are freed. *)
Definition rw_begin (b : nat) (blockno : Z) (write : bool) : M kern (option nat) :=
  let! r := alloc3_desc in
  match r with
  | Some [i0; i1; i2] => submit i0 i1 i2 b blockno write ;; ret (Some i0)
  | _ => sleep_enter ChDisk LkDisk ;; ret None
  end.

(** [while(b->disk == 1) sleep(b, &disk.vdisk_lock);] and the rest: whether
    the request is complete. *)
Definition rw_end (i0 b : nat) : M kern bool :=
  let! v := get_disk in
  if v_bdisk v b then sleep_enter (ChBuf b) LkDisk ;; ret false
  else
    upd_disk (vset_info i0 None) ;;
    free_chain i0 ;;
    release LkDisk ;;
    ret true.

(** [virtio_disk_rw], from its lock to its first sleep, and from there on when it
    is woken while it waits for descriptors; the head of the chain, and whether the
    request is complete. *)
Definition rw_try (b : nat) (blockno : Z) (write : bool) : M kern (option (nat * bool)) :=
  let! r := rw_begin b blockno write in
  match r with
  | None => ret None
  | Some i0 => let! done := rw_end i0 b in ret (Some (i0, done))
  end.

Definition virtio_disk_rw (b : nat) (blockno : Z) (write : bool) : M kern (option (nat * bool)) :=
  acquire LkDisk ;;
  rw_try b blockno write.

(** [while(disk.used_idx != disk.used->idx)]: at most [NUM] requests are out. *)
Fixpoint intr_loop (fuel : nat) : M kern unit :=
  match fuel with
  | O => panic "virtio_disk_intr: fuel"
  | Datatypes.S f =>
      let! v := get_disk in
      if v_used_idx v =? v_usedring_idx v then ret tt
      else
        let id := Z.to_nat (v_used v (Z.to_nat (v_used_idx v mod Z.of_nat NUM))) in
        if negb (v_status v id =? 0) then panic "virtio_disk_intr status"
        else
          match v_info_b v id with
          | None => panic "null pointer"
          | Some b =>
              upd_disk (vset_bdisk b false) ;;
              wakeup (ChBuf b) ;;
              upd_disk (fun v => vset_used_idx (u16 (v_used_idx v + 1)) v) ;;
              intr_loop f
          end
  end.

Definition virtio_disk_intr : M kern unit :=
  acquire LkDisk ;;
  let! st := read_R VIRTIO_MMIO_INTERRUPT_STATUS in
  write_R VIRTIO_MMIO_INTERRUPT_ACK (Z.land st 3) ;;
  intr_loop (Datatypes.S NUM) ;;
  release LkDisk.
End virtio.
