(* ===== verification/VirtioRing.v ===== *)
(** * The queue of the disk driver

    The descriptors, the two rings and the driver's records of
    [virtio_disk.c] stand for four lists of requests: posted on the available
    ring, fetched by the device, done (on the used ring), and acknowledged by
    the interrupt handler.  Here are the device, the invariant that ties the
    memory to the lists, and its preservation by each change of the memory. *)

From stdpp Require Import functions.
From S2P Require Import Prelude Memory Riscv Csr Spinlock Kalloc Vm Block Cache Log Fs Kernel Proc Virtio.

(** ** Requests and the device *)

(** A request: its chain of descriptors, and what is to be transferred. *)
Record dreq := mkdreq {
  dr_head : nat; dr_mid : nat; dr_last : nat;
  dr_buf : nat; dr_blk : Z; dr_write : bool
}.
Definition chain (r : dreq) : list nat := [dr_head r; dr_mid r; dr_last r].

(** What the device does: direction, sector, buffer and number of bytes. *)
Record xfer := mkxfer { x_type : Z; x_sector : Z; x_buf : nat; x_len : Z }.
Definition xfer_of (r : dreq) : xfer :=
  mkxfer (if dr_write r then VIRTIO_BLK_T_OUT else VIRTIO_BLK_T_IN) (sector_of (dr_blk r)) (dr_buf r) BSIZE.

(** The device: how far it has read the available ring, the chains it has
    fetched, and the transfers it has made. *)
Record vdev := mkvdev { dv_last : Z; dv_pending : list nat; dv_log : list xfer }.

(** It fetches the next head from the available ring. *)
Definition dev_fetch (v : vdisk) (dv : vdev) : option vdev :=
  if dv_last dv =? v_avail_idx v then None
  else Some (mkvdev (u16 (dv_last dv + 1))
    (dv_pending dv ++ [Z.to_nat (v_avail v (Z.to_nat (dv_last dv mod Z.of_nat NUM)))]) (dv_log dv)).

(** It carries out the chain of [h]: a header it reads, the data, and a status
    byte it writes; then it puts the head on the used ring. *)
Definition dev_complete (h : nat) (v : vdisk) (dv : vdev) : option (vdisk * vdev) :=
  let d0 := v_desc v h in
  let d1 := v_desc v (Z.to_nat (d_next d0)) in
  let d2 := v_desc v (Z.to_nat (d_next d1)) in
  match d_addr d0, d_addr d1, d_addr d2 with
  | DOps k, DData b, DStatus j =>
      let op := v_ops v k in
      if has (d_flags d0) VRING_DESC_F_NEXT && has (d_flags d1) VRING_DESC_F_NEXT &&
         eqb (has (d_flags d1) VRING_DESC_F_WRITE) (rq_type op =? VIRTIO_BLK_T_IN) &&
         has (d_flags d2) VRING_DESC_F_WRITE && bool_decide (h ∈ dv_pending dv) then
        let v1 := vset_status j 0 v in
        Some (mkvdisk (v_desc v1) (v_avail_idx v1) (v_avail v1) (u16 (v_usedring_idx v1 + 1))
                (<[Z.to_nat (v_usedring_idx v1 mod Z.of_nat NUM) := Z.of_nat h]> (v_used v1)) (v_free v1)
                (v_used_idx v1) (v_info_b v1) (v_status v1) (v_ops v1) (v_bdisk v1),
              mkvdev (dv_last dv) (filter (fun x => x <> h) (dv_pending dv))
                (dv_log dv ++ [mkxfer (rq_type op) (rq_sector op) b (d_len d1)]))
      else None
  | _, _, _ => None
  end.

(** ** The lists of requests *)

Record vqueue := mkvq {
  q_posted : list dreq; q_fetched : list dreq; q_done : list dreq; q_acked : list dreq;
  q_log : list dreq                                  (** the requests carried out so far *)
}.
Definition running (q : vqueue) : list dreq := q_posted q ++ q_fetched q ++ q_done q.
Definition requests (q : vqueue) : list dreq := running q ++ q_acked q.
Definition chains (l : list dreq) : list nat := concat (chain <$> l).

(** [l] is on the ring [f] from position [i] on. *)
Definition on_ring (f : nat -> Z) (i : Z) (l : list nat) : Prop :=
  forall k x, l !! k = Some x -> f (Z.to_nat (u16 (i + Z.of_nat k) mod Z.of_nat NUM)) = Z.of_nat x.

(** The descriptors of [r] are filled in. *)
Record formatted (v : vdisk) (r : dreq) : Prop := {
  fm_ops : v_ops v (dr_head r) =
    mkreq (if dr_write r then VIRTIO_BLK_T_OUT else VIRTIO_BLK_T_IN) 0 (sector_of (dr_blk r));
  fm_head : v_desc v (dr_head r) = mkdesc (DOps (dr_head r)) 16 VRING_DESC_F_NEXT (Z.of_nat (dr_mid r));
  fm_mid : v_desc v (dr_mid r) = mkdesc (DData (dr_buf r)) BSIZE
    (Z.lor (if dr_write r then 0 else VRING_DESC_F_WRITE) VRING_DESC_F_NEXT) (Z.of_nat (dr_last r));
  fm_last : v_desc v (dr_last r) = mkdesc (DStatus (dr_head r)) 1 VRING_DESC_F_WRITE 0;
  fm_info : v_info_b v (dr_head r) = Some (dr_buf r)
}.

(** The memory [v] and the device hold the requests of [q]; the descriptors of
    [got] are allocated besides. *)
Record vinv (v : vdisk) (dv : vdev) (q : vqueue) (got : list nat) : Prop := {
  vi_nodup : NoDup (got ++ chains (requests q));
  vi_bound : Forall (fun i => i < NUM)%nat (got ++ chains (requests q));
  vi_free i : (i < NUM)%nat -> v_free v i = true <-> i ∉ got ++ chains (requests q);
  vi_bufs : NoDup (dr_buf <$> requests q);
  vi_form : Forall (formatted v) (requests q);
  vi_info i b : v_info_b v i = Some b -> exists r, r ∈ requests q /\ dr_head r = i /\ dr_buf r = b;
  vi_busy b : v_bdisk v b = true <-> b ∈ dr_buf <$> running q;
  vi_avail : on_ring (v_avail v) (dv_last dv) (dr_head <$> q_posted q);
  vi_avail_idx : v_avail_idx v = u16 (dv_last dv + Z.of_nat (length (q_posted q)));
  vi_pending : dv_pending dv = dr_head <$> q_fetched q;
  vi_used : on_ring (v_used v) (v_used_idx v) (dr_head <$> q_done q);
  vi_used_idx : v_usedring_idx v = u16 (v_used_idx v + Z.of_nat (length (q_done q)));
  vi_status : Forall (fun r => v_status v (dr_head r) = 0) (q_done q);
  vi_log : dv_log dv = xfer_of <$> q_log q;
  vi_range : 0 <= dv_last dv < 65536 /\ 0 <= v_used_idx v < 65536
}.

(** ** Counting *)

Lemma length_chains l : length (chains l) = (3 * length l)%nat.
Proof. induction l as [|r l IH]; [done|]. change (chains (r :: l)) with (chain r ++ chains l). rewrite length_app, IH. cbn. lia. Qed.

Lemma nodup_bound (l : list nat) n : NoDup l -> Forall (fun i => i < n)%nat l -> (length l <= n)%nat.
Proof.
  intros Hn Hb. rewrite <- (length_seq n 0). apply submseteq_length, NoDup_submseteq; [done|].
  intros i Hi. apply elem_of_seq. rewrite Forall_forall in Hb. specialize (Hb i Hi). lia.
Qed.

(** At most two requests fit into the eight descriptors. *)
Lemma vinv_two v dv q got : vinv v dv q got -> (length got + 3 * length (requests q) <= 8)%nat.
Proof.
  intros H. pose proof (nodup_bound _ _ (vi_nodup _ _ _ _ H) (vi_bound _ _ _ _ H)) as Hl.
  rewrite length_app, length_chains in Hl. exact Hl.
Qed.

(** ** Rings *)

Lemma u16_mod8 i : u16 i mod 8 = i mod 8.
Proof.
  unfold u16, uwrap. change (2 ^ 16) with 65536. rewrite (Z.mod_eq i 65536) by lia.
  replace (i - 65536 * (i / 65536)) with (i + (- (8192 * (i / 65536))) * 8) by lia. apply Z_mod_plus_full.
Qed.

Lemma slot_mod i : Z.to_nat (u16 i mod Z.of_nat NUM) = Z.to_nat (i mod 8).
Proof. f_equal. apply u16_mod8. Qed.

Lemma slot_ne i k n : 0 <= k < n -> n <= 7 -> Z.to_nat ((i + k) mod 8) <> Z.to_nat ((i + n) mod 8).
Proof.
  intros Hk Hn H. apply Z2Nat.inj in H; [|apply Z.mod_pos_bound; lia..].
  assert ((i + n - (i + k)) mod 8 = 0) as E by (rewrite Zminus_mod, H, Z.sub_diag; done).
  replace (i + n - (i + k)) with (n - k) in E by lia. rewrite Z.mod_small in E by lia. lia.
Qed.

Lemma ring_push f i l x :
  on_ring f i l -> (length l <= 7)%nat ->
  on_ring (<[Z.to_nat (u16 (i + Z.of_nat (length l)) mod Z.of_nat NUM) := Z.of_nat x]> f) i (l ++ [x]).
Proof.
  intros H Hl k y Hk. rewrite !slot_mod. destruct (decide (k < length l)%nat) as [Hlt|Hge].
  - rewrite lookup_app_l in Hk by done. rewrite fn_lookup_insert_ne.
    + rewrite <- slot_mod. by apply H.
    + intros E. symmetry in E. revert E. apply slot_ne; lia.
  - rewrite lookup_app_r in Hk by lia. destruct (k - length l)%nat as [|j] eqn:Ek; [|done]. injection Hk as <-.
    assert (k = length l) as -> by lia. by rewrite fn_lookup_insert.
Qed.

Lemma ring_pop f i x l : on_ring f i (x :: l) -> on_ring f (u16 (i + 1)) l.
Proof.
  intros H k y Hk. specialize (H (S k) y Hk). rewrite slot_mod in H |- *. rewrite <- H. do 2 f_equal.
  rewrite Zplus_mod, u16_mod8, <- Zplus_mod. f_equal. lia.
Qed.

Lemma u16_add i j : u16 (u16 i + j) = u16 (i + j).
Proof. unfold u16, uwrap. apply Zplus_mod_idemp_l. Qed.

Lemma u16_moved i n : 0 <= i < 65536 -> 0 < n < 65536 -> i <> u16 (i + n).
Proof.
  intros Hi Hn Ez. rewrite <- (u16_small i) in Ez at 1 by lia. unfold u16, uwrap in Ez. change (2 ^ 16) with 65536 in Ez.
  assert ((i + n - i) mod 65536 = 0) as E0 by (rewrite Zminus_mod, <- Ez, Z.sub_diag; done).
  rewrite Z.mod_small in E0 by lia. lia.
Qed.

(** ** Lists of requests *)

Lemma chains_cons r l : chains (r :: l) = chain r ++ chains l.
Proof. done. Qed.
Lemma chains_app l1 l2 : chains (l1 ++ l2) = chains l1 ++ chains l2.
Proof. unfold chains. by rewrite fmap_app, concat_app. Qed.

#[export] Instance chains_perm : Proper ((≡ₚ) ==> (≡ₚ)) chains.
Proof.
  intros l l' H. induction H as [|r l l' _ IH|r1 r2 l|l1 l2 l3 _ IH1 _ IH2]; [done| | |by rewrite IH1].
  - by rewrite !chains_cons, IH.
  - rewrite !chains_cons, !app_assoc. f_equiv. apply Permutation_app_comm.
Qed.

Lemma head_in_chains r l : r ∈ l -> dr_head r ∈ chains l.
Proof. intros (l1 & l2 & ->)%list_elem_of_split. rewrite chains_app, chains_cons. set_solver. Qed.

Lemma in_chains i r l : i ∈ chain r -> r ∈ l -> i ∈ chains l.
Proof. intros Hi (l1 & l2 & ->)%list_elem_of_split. rewrite chains_app, chains_cons. set_solver. Qed.

(** A change of the memory outside of the chains keeps the requests formatted. *)
Lemma formatted_frame v v' r :
  formatted v r ->
  (forall i, i ∈ chain r -> v_desc v' i = v_desc v i) ->
  v_ops v' (dr_head r) = v_ops v (dr_head r) -> v_info_b v' (dr_head r) = v_info_b v (dr_head r) ->
  formatted v' r.
Proof.
  intros [H1 H2 H3 H4 H5] Hd Ho Hi. split; rewrite ?Ho, ?Hi; try done; rewrite Hd; try done; unfold chain; set_solver.
Qed.

Lemma forms_frame v v' l :
  Forall (formatted v) l ->
  (forall i, i ∈ chains l -> v_desc v' i = v_desc v i) ->
  (forall i, i ∈ chains l -> v_ops v' i = v_ops v i) -> (forall i, i ∈ chains l -> v_info_b v' i = v_info_b v i) ->
  Forall (formatted v') l.
Proof.
  rewrite !Forall_forall. intros H Hd Ho Hi r Hr. apply (formatted_frame v); [by apply H| | |].
  - intros i Hc. apply Hd. by eapply in_chains.
  - by apply Ho, head_in_chains.
  - by apply Hi, head_in_chains.
Qed.

(** What has been allocated only matters as a set. *)
Lemma vinv_perm v dv q got got' : got ≡ₚ got' -> vinv v dv q got -> vinv v dv q got'.
Proof.
  intros Hp [I1 I2 I3 I4 I5 J5 I6 I7 I8 I9 I10 I11 I12 I13 I14]. split; try done.
  - by rewrite <- Hp.
  - by rewrite <- Hp.
  - intros i Hi. rewrite I3 by done. by rewrite Hp.
Qed.

(** ** Allocating and freeing descriptors *)

Lemma vinv_alloc v dv q got i :
  vinv v dv q got -> (i < NUM)%nat -> v_free v i = true -> vinv (vset_free i false v) dv q (got ++ [i]).
Proof.
  intros H Hi Hf. apply (vinv_perm _ _ _ (i :: got)); [by rewrite Permutation_app_comm|].
  destruct H as [I1 I2 I3 I4 I5 J5 I6 I7 I8 I9 I10 I11 I12 I13 I14]. pose proof Hf as Hn. rewrite I3 in Hn by done.
  split; try done.
  - by constructor.
  - by constructor.
  - intros j Hj. cbn [vset_free v_free]. destruct (decide (j = i)) as [->|Hne].
    + rewrite fn_lookup_insert. split; [done|]. intros []. apply elem_of_cons. by left.
    + rewrite fn_lookup_insert_ne, I3 by done. cbn [app]. rewrite not_elem_of_cons. tauto.
  - by apply (forms_frame v).
Qed.

Definition desc_freed (i : nat) (v : vdisk) : vdisk := vset_free i true (vset_desc i (mkdesc DNull 0 0 0) v).

Lemma vinv_free v dv q got i : vinv v dv q (i :: got) -> vinv (desc_freed i v) dv q got.
Proof.
  intros [I1 I2 I3 I4 I5 J5 I6 I7 I8 I9 I10 I11 I12 I13 I14]. cbn [app] in *.
  apply NoDup_cons in I1 as [Hni I1]. apply Forall_cons in I2 as [Hi I2]. split; try done.
  - intros j Hj. cbn [desc_freed vset_free vset_desc v_free]. destruct (decide (j = i)) as [->|Hne].
    + by rewrite fn_lookup_insert.
    + rewrite fn_lookup_insert_ne, I3 by done. rewrite not_elem_of_cons. tauto.
  - apply (forms_frame v); [done| |done|done].
    intros j Hj. cbn. rewrite fn_lookup_insert_ne; [done|]. intros <-. apply Hni, elem_of_app. by right.
Qed.

(** ** Posting a request *)

Definition posted_mem (r : dreq) (v : vdisk) : vdisk :=
  let v := vset_ops (dr_head r) (mkreq (if dr_write r then VIRTIO_BLK_T_OUT else VIRTIO_BLK_T_IN) 0 (sector_of (dr_blk r))) v in
  let v := vset_desc (dr_head r) (mkdesc (DOps (dr_head r)) 16 VRING_DESC_F_NEXT (Z.of_nat (dr_mid r))) v in
  let v := vset_desc (dr_mid r) (mkdesc (DData (dr_buf r)) BSIZE
    (Z.lor (if dr_write r then 0 else VRING_DESC_F_WRITE) VRING_DESC_F_NEXT) (Z.of_nat (dr_last r))) v in
  let v := vset_status (dr_head r) 0xff v in
  let v := vset_desc (dr_last r) (mkdesc (DStatus (dr_head r)) 1 VRING_DESC_F_WRITE 0) v in
  let v := vset_bdisk (dr_buf r) true v in
  let v := vset_info (dr_head r) (Some (dr_buf r)) v in
  let v := vset_avail (Z.to_nat (v_avail_idx v mod Z.of_nat NUM)) (Z.of_nat (dr_head r)) v in
  vset_avail_idx (u16 (v_avail_idx v + 1)) v.

Lemma posted_formatted r v : NoDup (chain r) -> formatted (posted_mem r v) r.
Proof.
  intros Hn. unfold chain in Hn. rewrite !NoDup_cons in Hn. destruct Hn as (H1 & H2 & _).
  assert (dr_head r <> dr_mid r /\ dr_head r <> dr_last r /\ dr_mid r <> dr_last r) as (N1 & N2 & N3) by set_solver.
  split; cbn; by rewrite ?fn_lookup_insert, ?fn_lookup_insert_ne, ?fn_lookup_insert by congruence.
Qed.

Definition q_post (r : dreq) (q : vqueue) : vqueue :=
  mkvq (q_posted q ++ [r]) (q_fetched q) (q_done q) (q_acked q) (q_log q).

Lemma requests_post r q : requests (q_post r q) ≡ₚ r :: requests q.
Proof. unfold requests, running, q_post. cbn. solve_Permutation. Qed.
Lemma running_post r q : running (q_post r q) ≡ₚ r :: running q.
Proof. unfold running, q_post. cbn. solve_Permutation. Qed.

Lemma vinv_post v dv q r :
  vinv v dv q (chain r) -> dr_buf r ∉ dr_buf <$> requests q -> vinv (posted_mem r v) dv (q_post r q) [].
Proof.
  intros H Hb. pose proof (vinv_two _ _ _ _ H) as Htwo.
  destruct H as [I1 I2 I3 I4 I5 J5 I6 I7 I8 I9 I10 I11 I12 I13 I14]. cbn [length chain] in Htwo.
  assert (forall i, i ∈ chain r -> i ∉ chains (requests q)) as Hout by (apply NoDup_app in I1 as (_ & H & _); exact H).
  assert (length (q_posted q) <= 7)%nat as Hl by (unfold requests, running in Htwo; rewrite !length_app in Htwo; lia).
  split.
  - rewrite requests_post. exact I1.
  - rewrite requests_post. exact I2.
  - intros i Hi. rewrite requests_post. by apply I3.
  - rewrite requests_post. by constructor.
  - rewrite requests_post. constructor; [apply posted_formatted; by apply NoDup_app in I1 as [H _]|].
    apply (forms_frame v); [done|..]; intros i Hi; cbn; rewrite ?fn_lookup_insert_ne; try done; intros <-;
      (eapply Hout; [|exact Hi]); unfold chain; set_solver.
  - intros i b. cbn [posted_mem vset_avail_idx vset_avail vset_info v_info_b]. destruct (decide (i = dr_head r)) as [->|Hne].
    + rewrite fn_lookup_insert. intros [= <-]. exists r. rewrite requests_post. set_solver.
    + rewrite fn_lookup_insert_ne by done. intros (x & Hx & Hxi)%J5. exists x. rewrite requests_post. set_solver.
  - intros b. rewrite running_post. cbn [fmap list_fmap posted_mem vset_avail_idx vset_avail vset_info vset_bdisk v_bdisk].
    rewrite elem_of_cons, <- I6. destruct (decide (b = dr_buf r)) as [->|Hne]; [rewrite fn_lookup_insert; tauto|].
    rewrite fn_lookup_insert_ne by done. tauto.
  - cbn. rewrite fmap_app. cbn [fmap list_fmap]. rewrite I8, <- (length_fmap dr_head). apply ring_push; [done|by rewrite length_fmap].
  - cbn. rewrite I8, u16_add, length_app. f_equal. cbn. lia.
  - done.
  - done.
  - done.
  - cbn. apply Forall_forall. intros x Hx. rewrite Forall_forall in I12.
    rewrite fn_lookup_insert_ne; [by apply I12|]. intros E.
    apply (Hout (dr_head r)); [unfold chain; set_solver|]. rewrite E. apply head_in_chains. unfold requests, running. set_solver.
  - done.
  - done.
Qed.

(** ** The device *)

(** The invariant on the lists, when requests only move between them. *)
Lemma vinv_move v v' dv dv' q q' got :
  vinv v dv q got -> requests q' ≡ₚ requests q ->
  v_desc v' = v_desc v -> v_ops v' = v_ops v -> v_info_b v' = v_info_b v -> v_free v' = v_free v ->
  (forall b, v_bdisk v' b = true <-> b ∈ dr_buf <$> running q') ->
  on_ring (v_avail v') (dv_last dv') (dr_head <$> q_posted q') ->
  v_avail_idx v' = u16 (dv_last dv' + Z.of_nat (length (q_posted q'))) ->
  dv_pending dv' = dr_head <$> q_fetched q' ->
  on_ring (v_used v') (v_used_idx v') (dr_head <$> q_done q') ->
  v_usedring_idx v' = u16 (v_used_idx v' + Z.of_nat (length (q_done q'))) ->
  Forall (fun r => v_status v' (dr_head r) = 0) (q_done q') ->
  dv_log dv' = xfer_of <$> q_log q' ->
  0 <= dv_last dv' < 65536 /\ 0 <= v_used_idx v' < 65536 ->
  vinv v' dv' q' got.
Proof.
  intros [I1 I2 I3 I4 I5 J5 _ _ _ _ _ _ _ _ _] Hp Hd Ho Hi Hf. intros. split; try done.
  - by rewrite Hp.
  - by rewrite Hp.
  - intros i Hb. rewrite Hf, Hp. by apply I3.
  - by rewrite Hp.
  - rewrite Hp. apply (forms_frame v); [done|..]; intros; by rewrite ?Hd, ?Ho, ?Hi.
  - intros i b. rewrite Hi. intros (r & Hr & Hri)%J5. exists r. by rewrite Hp.
Qed.

Lemma vinv_fetch v dv q got r l :
  vinv v dv q got -> q_posted q = r :: l ->
  exists dv', dev_fetch v dv = Some dv' /\
    vinv v dv' (mkvq l (q_fetched q ++ [r]) (q_done q) (q_acked q) (q_log q)) got.
Proof.
  intros H E. pose proof (vinv_two _ _ _ _ H) as Htwo. pose proof H as [I1 I2 I3 I4 I5 J5 I6 I7 I8 I9 I10 I11 I12 I13 I14].
  assert (length l <= 1)%nat as Hl by (unfold requests, running in Htwo; rewrite E, !length_app in Htwo; cbn in Htwo; lia).
  rewrite E in *. cbn [fmap list_fmap] in I7.
  assert (v_avail v (Z.to_nat (dv_last dv mod Z.of_nat NUM)) = Z.of_nat (dr_head r)) as Eh.
  { specialize (I7 0%nat (dr_head r) eq_refl). rewrite Z.add_0_r, slot_mod in I7. exact I7. }
  unfold dev_fetch. rewrite I8, Eh, Nat2Z.id. cbn [length].
  destruct (Z.eqb_spec (dv_last dv) (u16 (dv_last dv + Z.of_nat (S (length l))))) as [Ez|_].
  { exfalso. revert Ez. apply u16_moved; [apply I14|lia]. }
  eexists. split; [done|]. apply (vinv_move v v dv _ q); cbn; try done.
  - unfold requests, running. cbn. rewrite E. solve_Permutation.
  - intros b. rewrite I6. unfold running. cbn. rewrite E. assert (r :: l ++ q_fetched q ++ q_done q ≡ₚ l ++ (q_fetched q ++ [r]) ++ q_done q) as Hp by solve_Permutation.
    cbn [app]. by rewrite Hp.
  - by eapply ring_pop.
  - rewrite I8. cbn [length]. rewrite u16_add. f_equal. lia.
  - rewrite I9, fmap_app. done.
  - split; [apply u16_range|apply I14].
Qed.

Lemma heads_nodup v dv q got : vinv v dv q got -> NoDup (dr_head <$> requests q).
Proof.
  intros H. destruct (proj1 (NoDup_app _ _) (vi_nodup _ _ _ _ H)) as (_ & _ & I1). clear -I1.
  induction (requests q) as [|x l IH]; cbn; [constructor|].
  rewrite chains_cons in I1. apply NoDup_app in I1 as (_ & Hx & Hl). constructor; [|by apply IH].
  intros (y & Ey & Hy)%list_elem_of_fmap. apply (Hx (dr_head x)); [unfold chain; set_solver|]. rewrite Ey. by apply head_in_chains.
Qed.

Lemma filter_out (l1 l2 : list nat) h : NoDup (l1 ++ h :: l2) -> filter (fun x => x <> h) (l1 ++ h :: l2) = l1 ++ l2.
Proof.
  assert (forall l : list nat, h ∉ l -> filter (fun x => x <> h) l = l) as Hf.
  { induction l as [|x l IH]; [done|]. rewrite not_elem_of_cons. intros [Hx Hl]. rewrite filter_cons_True by congruence. f_equal. by apply IH. }
  intros (_ & H1 & H2)%NoDup_app. apply NoDup_cons in H2 as [H2 _]. rewrite filter_app, filter_cons_False by tauto.
  rewrite !Hf; [done|done|]. intros Hin. apply (H1 h Hin). apply elem_of_cons. by left.
Qed.

Lemma vinv_complete v dv q got l1 r l2 :
  vinv v dv q got -> q_fetched q = l1 ++ r :: l2 ->
  exists v' dv', dev_complete (dr_head r) v dv = Some (v', dv') /\
    vinv v' dv' (mkvq (q_posted q) (l1 ++ l2) (q_done q ++ [r]) (q_acked q) (q_log q ++ [r])) got.
Proof.
  intros H E. pose proof (vinv_two _ _ _ _ H) as Htwo. pose proof H as [I1 I2 I3 I4 I5 J5 I6 I7 I8 I9 I10 I11 I12 I13 I14].
  assert (length (q_done q) <= 7)%nat as Hl by (unfold requests, running in Htwo; rewrite !length_app in Htwo; lia).
  assert (r ∈ requests q) as Hr by (unfold requests, running; rewrite E; set_solver).
  assert (NoDup (dr_head <$> l1 ++ r :: l2)) as Hheads.
  { pose proof (heads_nodup _ _ _ _ H) as Hn. unfold requests, running in Hn. rewrite E, !fmap_app in Hn.
    rewrite fmap_app. apply NoDup_app in Hn as (Hn & _ & _). apply NoDup_app in Hn as (_ & _ & Hn). by apply NoDup_app in Hn as (Hn & _ & _). }
  pose proof (proj1 (Forall_forall _ _) I5 r Hr) as [F1 F2 F3 F4 F5].
  unfold dev_complete. rewrite F2. cbn [d_next d_addr d_flags]. rewrite Nat2Z.id, F3. cbn [d_next d_addr d_flags d_len].
  rewrite Nat2Z.id, F4. cbn [d_next d_addr d_flags]. rewrite F1. cbn [rq_type rq_sector].
  assert (dr_head r ∈ dv_pending dv) as Hpend by (rewrite I9, E, fmap_app; set_solver).
  rewrite (bool_decide_true _ Hpend). replace (_ && _) with true by (by destruct (dr_write r)).
  eexists _, _. split; [done|]. apply (vinv_move v _ dv _ q); cbn; try done.
  - unfold requests, running. cbn. rewrite E. solve_Permutation.
  - intros b. rewrite I6. unfold running. cbn. rewrite E.
    assert (q_posted q ++ (l1 ++ r :: l2) ++ q_done q ≡ₚ q_posted q ++ (l1 ++ l2) ++ q_done q ++ [r]) as Hp by solve_Permutation.
    by rewrite Hp.
  - rewrite I9, E, !fmap_app in *. by apply filter_out.
  - rewrite fmap_app. cbn [fmap list_fmap]. rewrite I11, <- (length_fmap dr_head). apply ring_push; [done|by rewrite length_fmap].
  - rewrite I11, u16_add, length_app. f_equal. cbn. lia.
  - apply Forall_app. split; [|constructor; [by rewrite fn_lookup_insert|done]]. apply Forall_forall. intros x Hx.
    destruct (decide (dr_head x = dr_head r)) as [->|Hne]; [by rewrite fn_lookup_insert|].
    rewrite fn_lookup_insert_ne by done. by apply (proj1 (Forall_forall _ _) I12).
  - rewrite I13, fmap_app. done.
Qed.

(** ** Acknowledging and ending a request *)

Definition acked_mem (b : nat) (v : vdisk) : vdisk :=
  let v := vset_bdisk b false v in vset_used_idx (u16 (v_used_idx v + 1)) v.

(** What the interrupt handler finds at the front of the used ring. *)
Lemma vinv_used_front v dv q got r l :
  vinv v dv q got -> q_done q = r :: l ->
  v_used_idx v <> v_usedring_idx v /\ v_used v (Z.to_nat (v_used_idx v mod Z.of_nat NUM)) = Z.of_nat (dr_head r) /\
  v_status v (dr_head r) = 0 /\ v_info_b v (dr_head r) = Some (dr_buf r).
Proof.
  intros H E. pose proof (vinv_two _ _ _ _ H) as Htwo. destruct H as [I1 I2 I3 I4 I5 J5 I6 I7 I8 I9 I10 I11 I12 I13 I14].
  assert (length l <= 1)%nat as Hl by (unfold requests, running in Htwo; rewrite E, !length_app in Htwo; cbn in Htwo; lia).
  rewrite E in I10, I11, I12. split_and!.
  - rewrite I11. cbn [length]. apply u16_moved; [apply I14|lia].
  - specialize (I10 0%nat (dr_head r) eq_refl). rewrite Z.add_0_r, slot_mod in I10. exact I10.
  - by apply Forall_cons in I12 as [H _].
  - rewrite Forall_forall in I5. apply I5. unfold requests, running. rewrite E. set_solver.
Qed.

Lemma vinv_ack v dv q got r l :
  vinv v dv q got -> q_done q = r :: l ->
  vinv (acked_mem (dr_buf r) v) dv (mkvq (q_posted q) (q_fetched q) l (q_acked q ++ [r]) (q_log q)) got.
Proof.
  intros H E. pose proof H as [I1 I2 I3 I4 I5 J5 I6 I7 I8 I9 I10 I11 I12 I13 I14]. rewrite E in *.
  assert (requests q ≡ₚ r :: (q_posted q ++ q_fetched q ++ l) ++ q_acked q) as Hp
    by (unfold requests, running; rewrite E; solve_Permutation).
  apply (vinv_move v _ dv _ q); cbn; try done.
  - rewrite Hp. unfold requests, running. cbn. solve_Permutation.
  - intros b. unfold running. cbn. rewrite Hp in I4. cbn [fmap list_fmap] in I4. rewrite fmap_app in I4.
    apply NoDup_cons in I4 as [Hn _]. rewrite not_elem_of_app in Hn.
    destruct (decide (b = dr_buf r)) as [->|Hne]; [rewrite fn_lookup_insert; naive_solver|].
    rewrite fn_lookup_insert_ne, I6 by done. unfold running. rewrite E.
    assert (q_posted q ++ q_fetched q ++ r :: l ≡ₚ r :: (q_posted q ++ q_fetched q ++ l)) as -> by solve_Permutation.
    rewrite fmap_cons, elem_of_cons. tauto.
  - by eapply ring_pop.
  - rewrite I11. cbn [length]. rewrite u16_add. f_equal. lia.
  - by apply Forall_cons in I12 as [_ H'].
  - split; [apply I14|apply u16_range].
Qed.

Lemma vinv_end v dv q l1 r l2 :
  vinv v dv q [] -> q_acked q = l1 ++ r :: l2 ->
  vinv (vset_info (dr_head r) None v) dv (mkvq (q_posted q) (q_fetched q) (q_done q) (l1 ++ l2) (q_log q)) (chain r).
Proof.
  intros H E. pose proof H as [I1 I2 I3 I4 I5 J5 I6 I7 I8 I9 I10 I11 I12 I13 I14].
  set (q' := mkvq _ _ _ _ _). assert (requests q ≡ₚ r :: requests q') as Hp
    by (unfold requests, running; cbn; rewrite E; solve_Permutation).
  cbn [app] in *. rewrite Hp in I1, I2, I4, I5. rewrite chains_cons in I1, I2. apply Forall_cons in I5 as [_ I5].
  split; try done.
  - intros i Hi. cbn. rewrite I3, Hp by done. done.
  - by apply NoDup_cons in I4 as [_ I4].
  - apply (forms_frame v); [done|done|done|]. intros i Hi. cbn. rewrite fn_lookup_insert_ne; [done|]. intros <-.
    apply NoDup_app in I1 as (_ & I1 & _). apply (I1 (dr_head r)); [unfold chain; set_solver|done].
  - intros i b. cbn. destruct (decide (i = dr_head r)) as [->|Hne]; [by rewrite fn_lookup_insert|].
    rewrite fn_lookup_insert_ne by done. intros (x & Hx & <- & <-)%J5. exists x. split; [|done].
    rewrite Hp in Hx. by apply elem_of_cons in Hx as [->|Hx].
Qed.
