(* ===== verification/VirtioProofs.v ===== *)
(** * Running the disk driver

    Inside the section that [disk.vdisk_lock] protects: what each function of
    the driver does to the queue of requests of [VirtioRing], and whom it wakes
    up. *)

From stdpp Require Import functions.
From S2P Require Import Prelude Memory Riscv Csr Spinlock Kalloc Vm Block Cache Log Fs Kernel Proc ProcRun Virtio VirtioRing.

Section driver.
Context {S D : Type} `{!Mmio D}.
Abbreviation kern := (kernel S D).
Implicit Types s : kern.

(** ** Inside the lock *)

Definition insec s : Prop := calm s /\ proc_locks_free s.

(** The CPU and the locks are the same, and nobody has fallen asleep. *)
Record sec s s' : Prop := {
  sec_cpart : cpart s' = cpart s;
  sec_asleep ch p : asleep_on ch (k_procs s' p) = true -> asleep_on ch (k_procs s p) = true
}.

Lemma sec_refl s : sec s s.
Proof. done. Qed.
Lemma sec_trans s1 s2 s3 : sec s1 s2 -> sec s2 s3 -> sec s1 s3.
Proof. intros [H1 H2] [H3 H4]. split; [congruence|auto]. Qed.

Lemma sec_same s s' : cpart s' = cpart s -> k_procs s' = k_procs s -> sec s s'.
Proof. intros H1 H2. split; [done|]. by rewrite H2. Qed.

Lemma sec_insec s s' : sec s s' -> insec s -> insec s'.
Proof.
  intros [E _] [H1 H2]. assert (k_hart s' = k_hart s /\ k_cpu s' = k_cpu s /\ k_locks s' = k_locks s) as (E1 & E2 & E3)
    by (unfold cpart in E; split_and!; congruence).
  split; [unfold calm in *; by rewrite E1, E2|]. unfold proc_locks_free, lock_free in *. rewrite E2, E3. exact H2.
Qed.

Lemma sec_me s s' : sec s s' -> c_proc (k_cpu s') = c_proc (k_cpu s).
Proof. intros [E _]. unfold cpart in E. congruence. Qed.

(** Nobody but the caller is asleep on [ch]. *)
Definition nobody ch s : Prop :=
  forall p, (p < NPROC)%nat -> c_proc (k_cpu s) <> Some p -> asleep_on ch (k_procs s p) = false.

Lemma nobody_sec ch s s' : sec s s' -> nobody ch s -> nobody ch s'.
Proof.
  intros H Hn p Hp Hm. rewrite (sec_me _ _ H) in Hm. specialize (Hn p Hp Hm).
  destruct (asleep_on ch (k_procs s' p)) eqn:E; [|done]. apply (sec_asleep _ _ H) in E. congruence.
Qed.

Lemma wakeup_sec ch s :
  insec s -> exists s', wakeup ch s = Ok tt s' /\ sec s s' /\ k_disk s' = k_disk s /\ k_dev s' = k_dev s /\ nobody ch s'.
Proof.
  intros [Hc Hl]. eexists. split; [by apply wakeup_ok|]. split_and!; [|done|done|].
  - split; [done|]. intros ch' p. cbn. unfold woken. destruct (decide _); [|done]. intros H. by apply asleep_wake in H as [H _].
  - intros p Hp Hm. cbn in *. unfold woken. rewrite decide_True by done.
    destruct (asleep_on ch (wake ch (k_procs s p))) eqn:E; [|done]. by apply asleep_wake in E as [_ E].
Qed.

(** ** Descriptors *)

Definition alloc_result s (r : option nat) : kern :=
  match r with Some i => set_kdisk (vset_free i false (k_disk s)) s | None => s end.

Lemma alloc_scan l s :
  exists r, for_first l (fun i => let! v := get_disk in
      if v_free v i then upd_disk (vset_free i false) ;; ret (Some i) else ret None) s = Ok r (alloc_result s r) /\
    match r with Some i => i ∈ l /\ v_free (k_disk s) i = true | None => forall i, i ∈ l -> v_free (k_disk s) i = false end.
Proof.
  induction l as [|i l IH]; cbn [for_first].
  - exists None. split; [done|]. intros i Hi. by apply elem_of_nil in Hi.
  - unfold bind at 1 2, get_disk, gets. destruct (v_free (k_disk s) i) eqn:E.
    + exists (Some i). split; [done|]. split; [apply elem_of_cons; by left|done].
    + destruct IH as (r & H1 & H2). exists r. split; [exact H1|]. destruct r as [j|].
      * destruct H2 as [H2 H3]. split; [apply elem_of_cons; by right|done].
      * intros j [->|Hj]%elem_of_cons; [done|by apply H2].
Qed.

Lemma alloc_desc_ok s :
  exists r, alloc_desc s = Ok r (alloc_result s r) /\
    match r with Some i => (i < NUM)%nat /\ v_free (k_disk s) i = true
    | None => forall i, (i < NUM)%nat -> v_free (k_disk s) i = false end.
Proof.
  destruct (alloc_scan (seq 0 NUM) s) as (r & H1 & H2). exists r. split; [exact H1|]. destruct r as [i|].
  - rewrite elem_of_seq in H2. destruct H2. split; [lia|done].
  - intros i Hi. apply H2, elem_of_seq. lia.
Qed.

Lemma free_desc_ok i s :
  insec s -> (i < NUM)%nat -> v_free (k_disk s) i = false ->
  exists s', free_desc i s = Ok tt s' /\ sec s s' /\ k_disk s' = desc_freed i (k_disk s) /\ nobody ChDisk s'.
Proof.
  intros Hs Hi Hf. unfold free_desc. destruct (Nat.leb_spec NUM i) as [|_]; [lia|].
  unfold bind at 1, get_disk, gets. rewrite Hf. unfold bind, upd_disk, modify. cbn [k_disk set_kdisk].
  match goal with |- exists _, wakeup _ ?x = _ /\ _ => set (s1 := x) end.
  assert (sec s s1) as H1 by (by apply sec_same).
  destruct (wakeup_sec ChDisk s1) as (s' & E & H2 & H3 & _ & H4); [by eapply sec_insec|].
  exists s'. split; [exact E|]. split; [by eapply sec_trans|]. split; [by rewrite H3|done].
Qed.

(** Descriptors allocated for nothing are given back. *)
Lemma free_all_ok got s dv q :
  insec s -> vinv (k_disk s) dv q got ->
  exists s', for_in got free_desc s = Ok tt s' /\ sec s s' /\ vinv (k_disk s') dv q [] /\ (got <> [] -> nobody ChDisk s').
Proof.
  revert s. induction got as [|i got IH]; intros s Hs Hv; cbn [for_in].
  - exists s. split; [done|]. split; [apply sec_refl|]. done.
  - destruct (free_desc_ok i s Hs) as (s1 & E1 & S1 & D1 & N1).
    { pose proof (vi_bound _ _ _ _ Hv) as Hb. by apply Forall_cons in Hb as [Hb _]. }
    { pose proof (vi_bound _ _ _ _ Hv) as Hb. apply Forall_cons in Hb as [Hb _].
      destruct (v_free (k_disk s) i) eqn:E; [|done]. rewrite (vi_free _ _ _ _ Hv i Hb) in E. destruct E. apply elem_of_cons. by left. }
    rewrite (bind_Ok _ _ _ _ _ E1). destruct (IH s1) as (s' & E & S2 & V2 & N2).
    { by eapply sec_insec. } { rewrite D1. by apply vinv_free. }
    exists s'. split; [exact E|]. split; [by eapply sec_trans|]. split; [done|]. intros _. by eapply nobody_sec.
Qed.

Lemma none_free v dv q got :
  vinv v dv q got -> (forall i, (i < NUM)%nat -> v_free v i = false) -> (8 <= length got + 3 * length (requests q))%nat.
Proof.
  intros Hv Hf. rewrite <- length_chains, <- length_app. change 8%nat with NUM. rewrite <- (length_seq NUM 0).
  apply submseteq_length, NoDup_submseteq; [apply NoDup_seq|]. intros i Hi. rewrite elem_of_seq in Hi.
  destruct (decide (i ∈ got ++ chains (requests q))) as [|Hn]; [done|].
  rewrite <- (vi_free _ _ _ _ Hv i) in Hn by lia. rewrite Hf in Hn by lia. done.
Qed.

Lemma alloc3_loop_ok n got s dv q :
  insec s -> vinv (k_disk s) dv q got -> (n + length got = 3)%nat ->
  exists r s', alloc3_loop n got s = Ok r s' /\ sec s s' /\
    match r with
    | Some l => length l = 3%nat /\ vinv (k_disk s') dv q l
    | None => vinv (k_disk s') dv q [] /\ length (requests q) = 2%nat
    end.
Proof.
  revert got s. induction n as [|n IH]; intros got s Hs Hv Hn; cbn [alloc3_loop].
  - exists (Some got), s. split; [done|]. split; [apply sec_refl|]. split; [lia|done].
  - destruct (alloc_desc_ok s) as ([i|] & E & H); rewrite (bind_Ok _ _ _ _ _ E); cbn [alloc_result].
    + destruct H as [Hi Hf]. set (s1 := set_kdisk _ s). assert (sec s s1) as S1 by (by apply sec_same).
      destruct (IH (got ++ [i]) s1) as (r & s' & E' & S2 & H).
      { by eapply sec_insec. } { by apply vinv_alloc. } { rewrite length_app. cbn. lia. }
      exists r, s'. split; [exact E'|]. split; [by eapply sec_trans|]. exact H.
    + pose proof (none_free _ _ _ _ Hv H) as H8. pose proof (vinv_two _ _ _ _ Hv).
      destruct (free_all_ok got s dv q Hs Hv) as (s' & E' & S' & V' & _). rewrite (bind_Ok _ _ _ _ _ E').
      exists None, s'. split; [done|]. split; [done|]. split; [done|lia].
Qed.

(** ** Requests *)

Lemma submit_ok r s :
  exists s', submit (dr_head r) (dr_mid r) (dr_last r) (dr_buf r) (dr_blk r) (dr_write r) s = Ok tt s' /\
    sec s s' /\ k_disk s' = posted_mem r (k_disk s).
Proof. eexists. split; [reflexivity|]. split; [by apply sec_same|reflexivity]. Qed.

(** The caller: a process running outside of any critical section, with the
    locks the driver takes free. *)
Record disk_ready s (pr : nat) : Prop := {
  dk_calm : calm s;
  dk_noff : c_noff (k_cpu s) = 0;
  dk_me : c_proc (k_cpu s) = Some pr;
  dk_lock : lock_free s LkDisk;
  dk_procs p : (p < NPROC)%nat -> lock_free s (LkProc p);
  dk_bound : (pr < NPROC)%nat
}.

Lemma ready_insec s pr : disk_ready s pr -> insec (taken LkDisk s).
Proof.
  intros [Hc _ _ _ Hp _]. split; [by apply taken_calm|]. intros p Hb _. unfold lock_free, taken. cbn.
  rewrite fn_lookup_insert_ne by done. by apply Hp.
Qed.

(** Falling asleep inside the section. *)
Lemma sleep_sec ch s pr s1 :
  disk_ready s pr -> sec (taken LkDisk s) s1 ->
  exists s', sleep_enter ch LkDisk s1 = Ok (enabled (k_hart s)) s' /\ k_disk s' = k_disk s1 /\
    k_procs s' = slept pr ch (k_procs s1) /\ k_dev s' = k_dev s1.
Proof.
  intros [Hc Hn Hp Hl Hpl Hb] [E _]. eexists. split.
  { apply (sleep_enter_ok ch LkDisk pr s s1); try done. by apply Hpl. }
  done.
Qed.

(** What [virtio_disk_rw] does up to its first sleep: it posts the request and
    waits for it, or waits for descriptors. *)
Lemma rw_try_ok s pr dv q b blk w :
  disk_ready s pr -> vinv (k_disk s) dv q [] -> (forall i, v_info_b (k_disk s) i <> Some b) ->
  exists o s' s1 ch, rw_try b blk w (taken LkDisk s) = Ok o s' /\ sec (taken LkDisk s) s1 /\
    k_procs s' = slept pr ch (k_procs s1) /\ k_disk s' = k_disk s1 /\
    match o with
    | Some (h, done) =>
        done = false /\ ch = ChBuf b /\ exists r, dr_head r = h /\ dr_buf r = b /\ dr_blk r = blk /\ dr_write r = w /\
          vinv (k_disk s') dv (q_post r q) []
    | None => ch = ChDisk /\ vinv (k_disk s') dv q [] /\ length (requests q) = 2%nat
    end.
Proof.
  intros Hr Hv Hb. pose proof (ready_insec s pr Hr) as Hi. unfold rw_try.
  destruct (alloc3_loop_ok 3 [] (taken LkDisk s) dv q Hi Hv eq_refl) as ([l|] & s1 & E & S1 & H).
  - destruct H as [Hl Hv1]. destruct l as [|i0 [|i1 [|i2 [|]]]]; try done.
    set (r := mkdreq i0 i1 i2 b blk w). destruct (submit_ok r s1) as (s2 & E2 & S2 & D2).
    cbn [r dr_head dr_mid dr_last dr_buf dr_blk dr_write] in E2.
    assert (vinv (k_disk s2) dv (q_post r q) []) as Hv2.
    { rewrite D2. apply vinv_post; [exact Hv1|]. intros (x & Ex & Hx)%list_elem_of_fmap. apply (Hb (dr_head x)).
      pose proof (vi_form _ _ _ _ Hv) as Hf. rewrite Forall_forall in Hf. destruct (Hf x Hx) as [_ _ _ _ H]. cbn in Ex. by rewrite Ex, H. }
    assert (v_bdisk (k_disk s2) b = true) as Hbusy by (rewrite D2; cbn; by rewrite fn_lookup_insert).
    destruct (sleep_sec (ChBuf b) s pr s2 Hr) as (s' & E' & D' & P' & _); [by eapply sec_trans|].
    exists (Some (i0, false)), s', s2, (ChBuf b). split.
    { assert (rw_begin b blk w (taken LkDisk s) = Ok (Some i0) s2) as Eb
        by (unfold rw_begin, alloc3_desc; by rewrite (bind_Ok _ _ _ _ _ E), (bind_Ok _ _ _ _ _ E2)).
      assert (rw_end i0 b s2 = Ok false s') as Ee
        by (unfold rw_end; unfold bind at 1, get_disk, gets; rewrite Hbusy; by rewrite (bind_Ok _ _ _ _ _ E')).
      rewrite (bind_Ok _ _ _ _ _ Eb). by rewrite (bind_Ok _ _ _ _ _ Ee). }
    split; [by eapply sec_trans|]. split; [done|]. split; [done|]. split; [done|]. split; [done|]. exists r. rewrite D'. done.
  - destruct H as [Hv1 H2]. destruct (sleep_sec ChDisk s pr s1 Hr S1) as (s' & E' & D' & P' & _).
    exists None, s', s1, ChDisk. split; [|rewrite D'; done].
    assert (rw_begin b blk w (taken LkDisk s) = Ok None s') as Eb
      by (unfold rw_begin, alloc3_desc; by rewrite (bind_Ok _ _ _ _ _ E), (bind_Ok _ _ _ _ _ E')).
    by rewrite (bind_Ok _ _ _ _ _ Eb).
Qed.

(** ** The end of a request *)

Lemma free_chain_step fuel i got s dv q :
  insec s -> vinv (k_disk s) dv q (i :: got) ->
  exists s', free_desc i s = Ok tt s' /\ sec s s' /\ k_disk s' = desc_freed i (k_disk s) /\
    vinv (k_disk s') dv q got /\ nobody ChDisk s' /\
    free_chain_loop (Datatypes.S fuel) i s =
      (if has (d_flags (v_desc (k_disk s) i)) VRING_DESC_F_NEXT
       then free_chain_loop fuel (Z.to_nat (d_next (v_desc (k_disk s) i))) else ret tt) s'.
Proof.
  intros Hs Hv. pose proof (vi_bound _ _ _ _ Hv) as Hb. apply Forall_cons in Hb as [Hb _].
  destruct (free_desc_ok i s Hs Hb) as (s' & E & S' & D' & N').
  { destruct (v_free (k_disk s) i) eqn:E; [|done]. rewrite (vi_free _ _ _ _ Hv i Hb) in E. destruct E. apply elem_of_cons. by left. }
  exists s'. split_and!; [done|done|done|rewrite D'; by apply vinv_free|done|].
  cbn [free_chain_loop]. unfold bind at 1, get_disk, gets. by rewrite (bind_Ok _ _ _ _ _ E).
Qed.

(** The descriptors of [r], as they were filled in. *)
Definition chained (v : vdisk) (r : dreq) : Prop :=
  v_desc v (dr_head r) = mkdesc (DOps (dr_head r)) 16 VRING_DESC_F_NEXT (Z.of_nat (dr_mid r)) /\
  v_desc v (dr_mid r) = mkdesc (DData (dr_buf r)) BSIZE
    (Z.lor (if dr_write r then 0 else VRING_DESC_F_WRITE) VRING_DESC_F_NEXT) (Z.of_nat (dr_last r)) /\
  v_desc v (dr_last r) = mkdesc (DStatus (dr_head r)) 1 VRING_DESC_F_WRITE 0.

Lemma free_chain_ok r s dv q :
  insec s -> vinv (k_disk s) dv q (chain r) -> chained (k_disk s) r ->
  exists s', free_chain (dr_head r) s = Ok tt s' /\ sec s s' /\ vinv (k_disk s') dv q [] /\ nobody ChDisk s'.
Proof.
  intros Hs Hv (F1 & F2 & F3). unfold chain in Hv.
  pose proof (vi_nodup _ _ _ _ Hv) as Hn. cbn [app] in Hn. rewrite !NoDup_cons, !not_elem_of_cons in Hn.
  destruct Hn as ((N1 & N2 & _) & (N3 & _) & _).
  destruct (free_chain_step 7 (dr_head r) [dr_mid r; dr_last r] s dv q Hs Hv) as (s1 & _ & S1 & D1 & V1 & _ & E1). rewrite F1 in E1. cbn [d_flags d_next] in E1.
  rewrite Nat2Z.id in E1. change (has VRING_DESC_F_NEXT VRING_DESC_F_NEXT) with true in E1. cbv iota in E1.
  destruct (free_chain_step 6 (dr_mid r) [dr_last r] s1 dv q) as (s2 & _ & S2 & D2 & V2 & _ & E2); [by eapply sec_insec|exact V1|].
  rewrite D1 in E2. cbn [desc_freed vset_free vset_desc v_desc] in E2. rewrite !fn_lookup_insert_ne, F2 in E2 by congruence. cbn [d_flags d_next] in E2.
  rewrite Nat2Z.id in E2. replace (has (Z.lor _ _) _) with true in E2 by (by destruct (dr_write r)).
  destruct (free_chain_step 5 (dr_last r) [] s2 dv q) as (s3 & _ & S3 & D3 & V3 & N & E3); [eapply sec_insec; [exact S2|by eapply sec_insec]|exact V2|].
  rewrite D2, D1 in E3. cbn [desc_freed vset_free vset_desc v_desc] in E3. rewrite !fn_lookup_insert_ne, F3 in E3 by congruence.
  exists s3. split; [unfold free_chain; change NUM with 8%nat; by rewrite E1, E2, E3|]. split; [|done].
  eapply sec_trans; [exact S1|]. by eapply sec_trans.
Qed.

(** [rw_end] when the request is still running, and when it is acknowledged. *)
Lemma rw_end_wait s pr dv q r :
  disk_ready s pr -> vinv (k_disk s) dv q [] -> r ∈ running q ->
  exists s', rw_end (dr_head r) (dr_buf r) (taken LkDisk s) = Ok false s' /\ k_disk s' = k_disk s /\
    k_procs s' = slept pr (ChBuf (dr_buf r)) (k_procs s).
Proof.
  intros Hr Hv Hin. assert (v_bdisk (k_disk s) (dr_buf r) = true) as Hb.
  { apply (vi_busy _ _ _ _ Hv), list_elem_of_fmap. by exists r. }
  destruct (sleep_sec (ChBuf (dr_buf r)) s pr (taken LkDisk s) Hr (sec_refl _)) as (s' & E & D' & P' & _).
  exists s'. split; [|done]. unfold rw_end. unfold bind at 1, get_disk, gets.
  change (k_disk (taken LkDisk s)) with (k_disk s). rewrite Hb. by rewrite (bind_Ok _ _ _ _ _ E).
Qed.

Definition q_end (l1 l2 : list dreq) (q : vqueue) : vqueue :=
  mkvq (q_posted q) (q_fetched q) (q_done q) (l1 ++ l2) (q_log q).

(** The buffer of an acknowledged request is not in transfer. *)
Lemma acked_idle v dv q got l1 r l2 :
  vinv v dv q got -> q_acked q = l1 ++ r :: l2 -> v_bdisk v (dr_buf r) = false.
Proof.
  intros Hv Hq. destruct (v_bdisk _ _) eqn:E; [|done]. apply (vi_busy _ _ _ _ Hv) in E. exfalso.
  pose proof (vi_bufs _ _ _ _ Hv) as Hn. unfold requests in Hn. rewrite Hq, fmap_app in Hn.
  apply NoDup_app in Hn as (_ & Hn & _). apply (Hn _ E). rewrite fmap_app. set_solver.
Qed.

Lemma rw_end_done s pr dv q l1 r l2 :
  disk_ready s pr -> vinv (k_disk s) dv q [] -> q_acked q = l1 ++ r :: l2 ->
  exists s', rw_end (dr_head r) (dr_buf r) (taken LkDisk s) = Ok true s' /\ vinv (k_disk s') dv (q_end l1 l2 q) [] /\
    cpart s' = cpart s /\ (forall ch p, asleep_on ch (k_procs s' p) = true -> asleep_on ch (k_procs s p) = true) /\
    (forall p, (p < NPROC)%nat -> p <> pr -> asleep_on ChDisk (k_procs s' p) = false).
Proof.
  intros Hr Hv Hq. assert (r ∈ requests q) as Hin by (unfold requests; rewrite Hq; set_solver).
  pose proof (acked_idle _ _ _ _ _ _ _ Hv Hq) as Hb.
  pose proof (vi_form _ _ _ _ Hv) as Hf. rewrite Forall_forall in Hf. destruct (Hf r Hin) as [_ F1 F2 F3 _].
  pose proof (vinv_end _ _ _ _ _ _ Hv Hq) as Hv1.
  set (s1 := set_kdisk (vset_info (dr_head r) None (k_disk s)) (taken LkDisk s)).
  assert (sec (taken LkDisk s) s1) as S1 by (by apply sec_same).
  destruct (free_chain_ok r s1 dv (q_end l1 l2 q)) as (s2 & E2 & S2 & V2 & N2).
  { eapply sec_insec; [exact S1|]. by eapply ready_insec. } { exact Hv1. } { done. }
  assert (sec (taken LkDisk s) s2) as S3 by (by eapply sec_trans).
  exists (restore s s2). split.
  - unfold rw_end. unfold bind at 1, get_disk, gets. change (k_disk (taken LkDisk s)) with (k_disk s). rewrite Hb.
    unfold bind at 1, upd_disk, modify. change (k_disk (taken LkDisk s)) with (k_disk s). fold s1. rewrite (bind_Ok _ _ _ _ _ E2).
    rewrite (bind_Ok _ _ _ _ _ (release_restore LkDisk s s2 (dk_calm _ _ Hr) (dk_lock _ _ Hr) (sec_cpart _ _ S3))). done.
  - split; [exact V2|]. split; [apply cpart_restore|]. split; [apply (sec_asleep _ _ S3)|]. intros p Hp Hne. apply N2; [done|].
    rewrite (sec_me _ _ S3). cbn. rewrite (dk_me _ _ Hr). congruence.
Qed.

(** ** The interrupt handler *)

Definition q_ackall (q : vqueue) : vqueue :=
  mkvq (q_posted q) (q_fetched q) [] (q_acked q ++ q_done q) (q_log q).

Lemma intr_loop_ok fuel s dv q :
  insec s -> vinv (k_disk s) dv q [] -> (length (q_done q) < fuel)%nat ->
  exists s', intr_loop fuel s = Ok tt s' /\ sec s s' /\ vinv (k_disk s') dv (q_ackall q) [] /\
    forall r, r ∈ q_done q -> nobody (ChBuf (dr_buf r)) s'.
Proof.
  revert s q. induction fuel as [|f IH]; intros s q Hs Hv Hf; [lia|]. cbn [intr_loop]. unfold bind at 1, get_disk, gets.
  destruct (q_done q) as [|r l] eqn:Ed.
  - pose proof (vi_used_idx _ _ _ _ Hv) as Hu. rewrite Ed, Z.add_0_r in Hu. rewrite u16_small in Hu by apply Hv. rewrite Hu, Z.eqb_refl.
    exists s. split_and!; [done|apply sec_refl| |intros r Hr; by apply elem_of_nil in Hr].
    unfold q_ackall. rewrite Ed, app_nil_r. destruct q. cbn in *. by subst.
  - destruct (vinv_used_front _ _ _ _ _ _ Hv Ed) as (U1 & U2 & U3 & U4).
    destruct (Z.eqb_spec (v_used_idx (k_disk s)) (v_usedring_idx (k_disk s))) as [|_]; [done|].
    rewrite U2, Nat2Z.id, U3, U4. cbn [Z.eqb negb]. unfold bind at 1, upd_disk, modify.
    set (s1 := set_kdisk _ s). assert (sec s s1) as S1 by (by apply sec_same).
    destruct (wakeup_sec (ChBuf (dr_buf r)) s1) as (s2 & E2 & S2 & D2 & _ & N2); [by eapply sec_insec|].
    rewrite (bind_Ok _ _ _ _ _ E2). unfold bind at 1. set (s3 := set_kdisk _ s2). assert (sec s2 s3) as S3 by (by apply sec_same).
    assert (sec s s3) as S03 by (eapply sec_trans; [exact S1|by eapply sec_trans]).
    set (q1 := mkvq (q_posted q) (q_fetched q) l (q_acked q ++ [r]) (q_log q)).
    destruct (IH s3 q1) as (s' & E' & S' & V' & N').
    + by eapply sec_insec.
    + cbn [s3 k_disk set_kdisk]. rewrite D2. exact (vinv_ack _ _ _ _ _ _ Hv Ed).
    + cbn in *. lia.
    + exists s'. split; [exact E'|]. split; [by eapply sec_trans|]. split.
      * revert V'. unfold q_ackall, q1. cbn. by rewrite Ed, <- app_assoc.
      * intros x [->|Hx]%elem_of_cons; [|by apply N']. eapply nobody_sec; [|exact N2]. by eapply sec_trans.
Qed.

(** An interrupt may come at any time outside of critical sections. *)
Record intr_ready s : Prop := {
  ir_calm : calm s;
  ir_lock : lock_free s LkDisk;
  ir_procs p : (p < NPROC)%nat -> lock_free s (LkProc p);
  ir_awake p : c_proc (k_cpu s) = Some p -> awake s p
}.

Lemma intr_ok s dv q :
  intr_ready s -> vinv (k_disk s) dv q [] ->
  exists s', virtio_disk_intr s = Ok tt s' /\ vinv (k_disk s') dv (q_ackall q) [] /\
    (forall ch p, asleep_on ch (k_procs s' p) = true -> asleep_on ch (k_procs s p) = true) /\
    (forall r p, r ∈ q_done q -> (p < NPROC)%nat -> asleep_on (ChBuf (dr_buf r)) (k_procs s' p) = false).
Proof.
  intros [Hc Hl Hp Ha] Hv. assert (insec (taken LkDisk s)) as Hi.
  { split; [by apply taken_calm|]. intros p Hb _. unfold lock_free, taken. cbn. rewrite fn_lookup_insert_ne by done. by apply Hp. }
  unfold virtio_disk_intr. rewrite (bind_Ok _ _ _ _ _ (acquire_ok LkDisk s Hc Hl)).
  unfold bind at 1, read_R, on_dev, zoom. destruct (mmio_read _ _) as [st d1]. unfold bind at 1, write_R, on_dev, zoom, modify.
  match goal with |- exists _, bind _ _ ?x = _ /\ _ => set (s1 := x) end.
  assert (sec (taken LkDisk s) s1) as S1 by (by apply sec_same).
  pose proof (vinv_two _ _ _ _ Hv) as Htwo. unfold requests, running in Htwo. rewrite !length_app in Htwo.
  destruct (intr_loop_ok (Datatypes.S NUM) s1 dv q) as (s2 & E2 & S2 & V2 & N2).
  { by eapply sec_insec. } { exact Hv. } { unfold NUM. lia. }
  rewrite (bind_Ok _ _ _ _ _ E2). assert (sec (taken LkDisk s) s2) as S3 by (by eapply sec_trans).
  exists (restore s s2). split; [apply release_restore; [done|done|apply S3]|]. split; [exact V2|]. split; [apply (sec_asleep _ _ S3)|].
  intros r p Hr Hb. destruct (decide (c_proc (k_cpu s) = Some p)) as [Hme|Hme].
  - destruct (asleep_on _ _) eqn:E; [|done]. apply (sec_asleep _ _ S3) in E. rewrite awake_not_asleep in E; [done|]. by apply Ha.
  - apply (N2 r Hr); [done|]. rewrite (sec_me _ _ S3). exact Hme.
Qed.
End driver.
