(* ===== verification/VirtioSpec.v ===== *)
(** * What the disk driver promises

    Any number of processes transfer buffers, the device works on the requests
    in its own order and at its own pace, and interrupts come at any time: every
    request is carried out exactly once, the driver never panics, and nobody
    sleeps for nothing. *)

From stdpp Require Import functions.
From S2P Require Import Prelude Memory Riscv Csr Spinlock Kalloc Vm Block Cache Log Fs Kernel Proc ProcRun Virtio VirtioRing VirtioProofs.

(** ** The system *)

(** A transfer as its caller knows it: head of its chain, buffer, block and
    direction. *)
Abbreviation transfer := (nat * nat * Z * bool)%type.
Definition view (r : dreq) : transfer := (dr_head r, dr_buf r, dr_blk r, dr_write r).
Definition head_buf (t : transfer) : nat * nat := fst (fst t).
Definition xfer_for (t : transfer) : xfer :=
  let '(_, b, blk, w) := t in mkxfer (if w then VIRTIO_BLK_T_OUT else VIRTIO_BLK_T_IN) (sector_of blk) b BSIZE.

Inductive dlabel :=
  | LPost (t : transfer)
  | LEnd (h b : nat)
  | LTau.

Fixpoint posts (ls : list dlabel) : list transfer :=
  match ls with [] => [] | LPost t :: ls => t :: posts ls | _ :: ls => posts ls end.
Fixpoint ends (ls : list dlabel) : list (nat * nat) :=
  match ls with [] => [] | LEnd h b :: ls => (h, b) :: ends ls | _ :: ls => ends ls end.

Section spec.
Context {S D : Type} `{!Mmio D}.
Abbreviation kern := (kernel S D).
Implicit Types s : kern.

(** A step of the system at the disk: [virtio_disk_rw] on a buffer that is not
    in transfer already (its caller holds the buffer's sleep lock) until it
    sleeps, a call that continues after a sleep, an interrupt, a step of the
    device, or anything that leaves the driver alone. *)
Inductive dstep : kern * vdev -> dlabel -> kern * vdev -> Prop :=
  | ds_try s dv pr b blk w o s' :
      disk_ready s pr -> awake s pr -> (forall i, v_info_b (k_disk s) i <> Some b) ->
      rw_try b blk w (taken LkDisk s) = Ok o s' ->
      dstep (s, dv) (match o with Some (h, _) => LPost (h, b, blk, w) | None => LTau end) (s', dv)
  | ds_end s dv pr h b d s' :
      disk_ready s pr -> awake s pr -> v_info_b (k_disk s) h = Some b ->
      rw_end h b (taken LkDisk s) = Ok d s' ->
      dstep (s, dv) (if d : bool then LEnd h b else LTau) (s', dv)
  | ds_intr s dv s' : intr_ready s -> virtio_disk_intr s = Ok tt s' -> dstep (s, dv) LTau (s', dv)
  | ds_fetch s dv dv' : dev_fetch (k_disk s) dv = Some dv' -> dstep (s, dv) LTau (s, dv')
  | ds_complete s dv h v' dv' :
      dev_complete h (k_disk s) dv = Some (v', dv') -> dstep (s, dv) LTau (set_kdisk v' s, dv')
  | ds_other s dv s' :
      k_disk s' = k_disk s ->
      (forall p, asleep_on ChDisk (k_procs s' p) = true -> asleep_on ChDisk (k_procs s p) = true) ->
      (forall p b, asleep_on (ChBuf b) (k_procs s' p) = true -> asleep_on (ChBuf b) (k_procs s p) = true) ->
      dstep (s, dv) LTau (s', dv).

Inductive dsteps (c0 : kern * vdev) : list dlabel -> kern * vdev -> Prop :=
  | dsts_refl : dsteps c0 [] c0
  | dsts_step ls c l c' : dsteps c0 ls c -> dstep c l c' -> dsteps c0 (ls ++ [l]) c'.

(** After [virtio_disk_init]. *)
Record disk_boot s (dv : vdev) : Prop := {
  db_free i : (i < NUM)%nat -> v_free (k_disk s) i = true;
  db_info i : v_info_b (k_disk s) i = None;
  db_idle b : v_bdisk (k_disk s) b = false;
  db_idx : v_avail_idx (k_disk s) = 0 /\ v_usedring_idx (k_disk s) = 0 /\ v_used_idx (k_disk s) = 0;
  db_dev : dv = mkvdev 0 [] [];
  db_calm p : (p < NPROC)%nat ->
    asleep_on ChDisk (k_procs s p) = false /\ forall b, asleep_on (ChBuf b) (k_procs s p) = false
}.

(** ** The simulation *)

(** Nobody sleeps for nothing. *)
Definition dlive s (q : vqueue) : Prop :=
  forall p, (p < NPROC)%nat ->
    (forall b, asleep_on (ChBuf b) (k_procs s p) = true -> v_bdisk (k_disk s) b = true) /\
    (asleep_on ChDisk (k_procs s p) = true -> length (requests q) = 2%nat).

(** The requests of [q] are what the calls have asked for. *)
Definition dhist (ls : list dlabel) (q : vqueue) : Prop :=
  posts ls ≡ₚ view <$> (q_log q ++ q_posted q ++ q_fetched q) /\
  (head_buf ∘ view) <$> q_log q ≡ₚ ends ls ++ ((head_buf ∘ view) <$> (q_acked q ++ q_done q)).

Definition dsim (c : kern * vdev) (ls : list dlabel) (q : vqueue) : Prop :=
  vinv (k_disk (fst c)) (snd c) q [] /\ dlive (fst c) q /\ dhist ls q.

Lemma posts_app ls l : posts (ls ++ l) = posts ls ++ posts l.
Proof. induction ls as [|[] ls IH]; cbn; by rewrite ?IH. Qed.
Lemma ends_app ls l : ends (ls ++ l) = ends ls ++ ends l.
Proof. induction ls as [|[] ls IH]; cbn; by rewrite ?IH. Qed.

Lemma dhist_tau ls q q' :
  dhist ls q -> q_log q' = q_log q -> q_posted q' ++ q_fetched q' ≡ₚ q_posted q ++ q_fetched q ->
  q_acked q' ++ q_done q' ≡ₚ q_acked q ++ q_done q -> dhist (ls ++ [LTau]) q'.
Proof.
  intros [H1 H2] E1 E2 E3. unfold dhist. rewrite posts_app, ends_app, E1. cbn. rewrite !app_nil_r, H1, H2. split.
  - by rewrite E2.
  - by rewrite E3.
Qed.

Lemma boot_sim s dv : disk_boot s dv -> dsim (s, dv) [] (mkvq [] [] [] [] []).
Proof.
  intros [H1 H2 H3 (H4 & H5 & H6) -> H7]. split; [|split].
  - split; cbn; try done.
    + constructor.
    + intros i Hi. rewrite H1 by done. set_solver.
    + constructor.
    + intros i b. by rewrite H2.
    + intros b. rewrite H3. set_solver.
    + by rewrite H5, H6.
    + rewrite H6. lia.
  - intros p Hp. destruct (H7 p Hp) as [E1 E2]. cbn [fst]. rewrite E1. split; [|done]. intros b. by rewrite E2.
  - done.
Qed.

Lemma asleep_slept_inv pr ch ch' P p :
  asleep_on ch (slept pr ch' P p) = true -> p = pr /\ ch = ch' \/ p <> pr /\ asleep_on ch (P p) = true.
Proof.
  unfold slept. destruct (decide (p = pr)) as [->|Hne].
  - rewrite fn_lookup_insert. unfold asleep_on. cbn. intros [_ H]%andb_true_iff. apply bool_decide_eq_true in H.
    left. split; [done|]. congruence.
  - rewrite fn_lookup_insert_ne by done. by right.
Qed.

Lemma try_sim s dv ls q pr b blk w o s' :
  dsim (s, dv) ls q -> disk_ready s pr -> awake s pr -> (forall i, v_info_b (k_disk s) i <> Some b) ->
  rw_try b blk w (taken LkDisk s) = Ok o s' ->
  exists q', dsim (s', dv) (ls ++ [match o with Some (h, _) => LPost (h, b, blk, w) | None => LTau end]) q'.
Proof.
  intros (Hv & Hl & Hh) Hr Ha Hb E. destruct (rw_try_ok s pr dv q b blk w Hr Hv Hb) as (o' & s2 & s1 & ch & E' & S1 & P1 & D1 & H).
  rewrite E in E'. injection E' as <- <-.
  assert (forall ch' p, asleep_on ch' (k_procs s' p) = true -> p = pr /\ ch' = ch \/ asleep_on ch' (k_procs s p) = true) as Has.
  { intros ch' p. rewrite P1. intros [[-> ->]|[_ H']]%asleep_slept_inv; [by left|]. right. apply (sec_asleep _ _ S1) in H'. exact H'. }
  destruct o as [[h d]|].
  - destruct H as (-> & -> & r & <- & <- & <- & <- & Hv'). exists (q_post r q). split; [exact Hv'|]. split.
    + intros p Hp. cbn [fst]. destruct (Hl p Hp) as [L1 L2]. cbn [fst] in *.
      assert (forall b', v_bdisk (k_disk s) b' = true -> v_bdisk (k_disk s') b' = true) as Hmono.
      { intros b'. rewrite (vi_busy _ _ _ _ Hv), (vi_busy _ _ _ _ Hv'), running_post. cbn. set_solver. }
      split.
      * intros b' [[-> [= ->]]|H']%Has; [|by apply Hmono, L1]. apply (vi_busy _ _ _ _ Hv'). rewrite running_post. set_solver.
      * intros [[_ ?]|H']%Has; [done|]. exfalso. pose proof (vinv_two _ _ _ _ Hv') as Ht. rewrite requests_post in Ht. cbn in Ht.
        specialize (L2 H'). lia.
    + destruct Hh as [H1 H2]. unfold dhist. rewrite posts_app, ends_app, H1. cbn [posts ends q_post q_log q_posted q_fetched q_acked q_done].
      rewrite app_nil_r. split; [|exact H2]. rewrite !fmap_app. change [(dr_head r, dr_buf r, dr_blk r, dr_write r)] with (view <$> [r]). solve_Permutation.
  - destruct H as (-> & Hv' & H2). exists q. split; [exact Hv'|]. split; [|by eapply dhist_tau].
    intros p Hp. destruct (Hl p Hp) as [L1 L2]. cbn [fst] in *. split.
    + intros b' [[_ ?]|H']%Has; [done|]. apply L1 in H'. rewrite (vi_busy _ _ _ _ Hv'). by rewrite <- (vi_busy _ _ _ _ Hv).
    + intros [_|H']%Has; [done|by apply L2].
Qed.

Lemma end_sim s dv ls q pr h b d s' :
  dsim (s, dv) ls q -> disk_ready s pr -> awake s pr -> v_info_b (k_disk s) h = Some b ->
  rw_end h b (taken LkDisk s) = Ok d s' ->
  exists q', dsim (s', dv) (ls ++ [if d then LEnd h b else LTau]) q'.
Proof.
  intros (Hv & Hl & Hh) Hr Ha Hi E. destruct (vi_info _ _ _ _ Hv h b Hi) as (r & Hin & <- & <-).
  unfold requests in Hin. apply elem_of_app in Hin as [Hin|Hin].
  - destruct (rw_end_wait s pr dv q r Hr Hv Hin) as (s2 & E' & D' & P'). rewrite E in E'. injection E' as -> <-.
    exists q. split; [cbn; by rewrite D'|]. split; [|by eapply dhist_tau].
    intros p Hp. destruct (Hl p Hp) as [L1 L2]. cbn [fst] in *. rewrite D', P'. split.
    + intros b' [[-> [= ->]]|[_ H']]%asleep_slept_inv; [|by apply L1]. apply (vi_busy _ _ _ _ Hv), list_elem_of_fmap. by exists r.
    + intros [[_ ?]|[_ H']]%asleep_slept_inv; [done|by apply L2].
  - apply list_elem_of_split in Hin as (l1 & l2 & Hq).
    destruct (rw_end_done s pr dv q l1 r l2 Hr Hv Hq) as (s2 & E' & V' & _ & A' & N'). rewrite E in E'. injection E' as -> <-.
    exists (q_end l1 l2 q). split; [exact V'|]. split.
    + intros p Hp. destruct (Hl p Hp) as [L1 L2]. cbn [fst] in *. split.
      * intros b' H'%A'%L1. rewrite (vi_busy _ _ _ _ Hv) in H'. by rewrite (vi_busy _ _ _ _ V').
      * intros H'. destruct (decide (p = pr)) as [->|Hne]; [|rewrite N' in H'; done].
        apply A' in H'. by rewrite awake_not_asleep in H'.
    + destruct Hh as [H1 H2]. unfold dhist. rewrite posts_app, ends_app, H1, H2. cbn. rewrite app_nil_r. split; [done|].
      rewrite Hq, !fmap_app. cbn [fmap list_fmap]. change ((head_buf ∘ view) r) with (dr_head r, dr_buf r). solve_Permutation.
Qed.

Lemma intr_sim s dv ls q s' :
  dsim (s, dv) ls q -> intr_ready s -> virtio_disk_intr s = Ok tt s' -> exists q', dsim (s', dv) (ls ++ [LTau]) q'.
Proof.
  intros (Hv & Hl & Hh) Hr E. destruct (intr_ok s dv q Hr Hv) as (s2 & E' & V' & A' & N'). rewrite E in E'. injection E' as <-.
  exists (q_ackall q). split; [exact V'|]. split.
  - intros p Hp. destruct (Hl p Hp) as [L1 L2]. cbn [fst] in *. split.
    + intros b H'. pose proof (A' _ _ H') as Hb%L1. rewrite (vi_busy _ _ _ _ Hv) in Hb. rewrite (vi_busy _ _ _ _ V').
      unfold running in *. cbn. rewrite app_nil_r. rewrite app_assoc, fmap_app in Hb. apply elem_of_app in Hb as [Hb|Hb]; [done|].
      apply list_elem_of_fmap in Hb as (r & -> & Hr'). by rewrite N' in H'.
    + intros H'%A'%L2. rewrite <- H'. apply Permutation_length. unfold requests, running. cbn. solve_Permutation.
  - eapply dhist_tau; [exact Hh|done|done|]. cbn. by rewrite app_nil_r.
Qed.

(** Steps of the device change no sleeper and no busy mark. *)
Lemma device_live s s' q q' :
  dlive s q -> k_procs s' = k_procs s -> v_bdisk (k_disk s') = v_bdisk (k_disk s) ->
  requests q' ≡ₚ requests q -> dlive s' q'.
Proof. intros Hl E1 E2 E3 p Hp. rewrite E1, E2, E3. by apply Hl. Qed.

Lemma fetch_sim s dv ls q dv' :
  dsim (s, dv) ls q -> dev_fetch (k_disk s) dv = Some dv' -> exists q', dsim (s, dv') (ls ++ [LTau]) q'.
Proof.
  intros (Hv & Hl & Hh) E. destruct (q_posted q) as [|r l] eqn:Eq.
  - exfalso. pose proof (vi_avail_idx _ _ _ _ Hv) as Hi. rewrite Eq, Z.add_0_r, u16_small in Hi by apply Hv.
    unfold dev_fetch in E. cbn [fst] in Hi. by rewrite Hi, Z.eqb_refl in E.
  - destruct (vinv_fetch _ _ _ _ _ _ Hv Eq) as (dv2 & E' & V'). cbn [fst snd] in *. rewrite E in E'. injection E' as <-.
    eexists. split; [exact V'|]. split.
    + eapply device_live; [exact Hl|done|done|]. unfold requests, running. cbn. rewrite Eq. solve_Permutation.
    + eapply dhist_tau; [exact Hh|done| |done]. cbn. rewrite Eq. solve_Permutation.
Qed.

Lemma complete_sim s dv ls q h v' dv' :
  dsim (s, dv) ls q -> dev_complete h (k_disk s) dv = Some (v', dv') ->
  exists q', dsim (set_kdisk v' s, dv') (ls ++ [LTau]) q'.
Proof.
  intros (Hv & Hl & Hh) E. cbn [fst snd] in *.
  assert (h ∈ dv_pending dv) as Hp.
  { unfold dev_complete in E. destruct (d_addr _); try done. destruct (d_addr _); try done. destruct (d_addr _); try done.
    destruct (_ && _) eqn:Eb; [|done]. apply andb_true_iff in Eb as [_ Eb]. by apply bool_decide_eq_true in Eb. }
  rewrite (vi_pending _ _ _ _ Hv) in Hp. apply list_elem_of_fmap in Hp as (r & -> & Hr).
  apply list_elem_of_split in Hr as (l1 & l2 & Eq).
  assert (v_bdisk v' = v_bdisk (k_disk s)) as Eb.
  { unfold dev_complete in E. destruct (d_addr _); try done. destruct (d_addr _); try done. destruct (d_addr _); try done.
    destruct (_ && _); [|done]. by injection E as <- _. }
  destruct (vinv_complete _ _ _ _ _ _ _ Hv Eq) as (v2 & dv2 & E' & V'). rewrite E in E'. injection E' as <- <-.
  eexists. split; [exact V'|]. split.
  - eapply device_live; [exact Hl|done|done|]. unfold requests, running. cbn. rewrite Eq. solve_Permutation.
  - destruct Hh as [H1 H2]. unfold dhist. rewrite posts_app, ends_app, H1. cbn. rewrite !app_nil_r. split.
    + rewrite Eq, !fmap_app. cbn [fmap list_fmap]. solve_Permutation.
    + rewrite !fmap_app, H2, !fmap_app. solve_Permutation.
Qed.

Lemma steps_sim s0 dv0 ls c : disk_boot s0 dv0 -> dsteps (s0, dv0) ls c -> exists q, dsim c ls q.
Proof.
  intros Hb H. induction H as [|ls c l c' _ [q IH] Hs]; [eexists; by apply boot_sim|].
  destruct Hs as [s dv pr b blk w o s'|s dv pr h b d s'|s dv s'|s dv dv'|s dv h v' dv'|s dv s' E H1 H2].
  - by eapply try_sim.
  - by eapply end_sim.
  - by eapply intr_sim.
  - by eapply fetch_sim.
  - by eapply complete_sim.
  - destruct IH as (Hv & Hl & Hh). exists q. split; [cbn; by rewrite E|]. split; [|by eapply dhist_tau].
    intros p Hp. destruct (Hl p Hp) as [L1 L2]. cbn [fst] in *. rewrite E. split; [intros b ?; by apply L1, H2|intros ?; by apply L2, H1].
Qed.

(** C4. The disk driver and its device, under any interleaving of transfers by any
    processes, completions in any order, and interrupts.  Every transfer asked
    for is carried out by the device exactly once or still to be carried out, and
    a call that returns is one whose transfer was carried out, with the sector,
    direction and buffer it asked for; at most two are under way.  No call and no
    interrupt panics ([virtio_disk_rw] posts its request or finds two under way,
    and after a wake-up it returns exactly if its buffer's transfer is over); the
    device finds a well-formed chain behind every head it has fetched.  A process
    asleep on a buffer waits for a transfer under way, and one asleep for
    descriptors means that two are under way: no wake-up is lost. *)
Theorem virtio_exactly_once s0 dv0 ls s dv :
  disk_boot s0 dv0 -> dsteps (s0, dv0) ls (s, dv) ->
  (exists carried waiting, posts ls ≡ₚ carried ++ waiting /\ dv_log dv = xfer_for <$> carried /\
     ends ls ⊆+ (head_buf <$> carried)) /\
  (length (posts ls) <= length (ends ls) + 2)%nat /\
  (forall pr b blk w, disk_ready s pr -> (forall i, v_info_b (k_disk s) i <> Some b) ->
     exists o s', rw_try b blk w (taken LkDisk s) = Ok o s' /\
       (o = None -> length (posts ls) = length (ends ls) + 2)%nat) /\
  (forall pr h b, disk_ready s pr -> v_info_b (k_disk s) h = Some b ->
     exists s', rw_end h b (taken LkDisk s) = Ok (negb (v_bdisk (k_disk s) b)) s') /\
  (intr_ready s -> exists s', virtio_disk_intr s = Ok tt s') /\
  (forall h, h ∈ dv_pending dv -> is_Some (dev_complete h (k_disk s) dv)) /\
  (forall p, (p < NPROC)%nat ->
     (forall b, asleep_on (ChBuf b) (k_procs s p) = true -> v_bdisk (k_disk s) b = true) /\
     (asleep_on ChDisk (k_procs s p) = true -> length (posts ls) = length (ends ls) + 2)%nat).
Proof.
  intros Hb Hs. destruct (steps_sim _ _ _ _ Hb Hs) as (q & Hv & Hl & H1 & H2). cbn [fst snd] in *.
  assert (length (posts ls) = length (ends ls) + length (requests q))%nat as Hn.
  { apply Permutation_length in H1, H2. rewrite !length_fmap, !length_app in *. rewrite length_fmap, length_app in H2.
    unfold requests, running. rewrite !length_app. lia. }
  pose proof (vinv_two _ _ _ _ Hv) as Htwo. cbn [length] in Htwo. split_and!.
  - exists (view <$> q_log q), (view <$> (q_posted q ++ q_fetched q)). split_and!.
    + by rewrite H1, fmap_app.
    + rewrite (vi_log _ _ _ _ Hv), <- list_fmap_compose. done.
    + rewrite <- list_fmap_compose. rewrite H2. by apply submseteq_inserts_r.
  - lia.
  - intros pr b blk w Hr Hf. destruct (rw_try_ok s pr dv q b blk w Hr Hv Hf) as (o & s' & s1 & ch & E & _ & _ & _ & H).
    exists o, s'. split; [done|]. intros ->. destruct H as (_ & _ & H). lia.
  - intros pr h b Hr Hi. destruct (vi_info _ _ _ _ Hv h b Hi) as (r & Hin & <- & <-).
    unfold requests in Hin. apply elem_of_app in Hin as [Hin|Hin].
    + destruct (rw_end_wait s pr dv q r Hr Hv Hin) as (s' & E & _). exists s'.
      assert (v_bdisk (k_disk s) (dr_buf r) = true) as -> by (apply (vi_busy _ _ _ _ Hv), list_elem_of_fmap; by exists r). done.
    + apply list_elem_of_split in Hin as (l1 & l2 & Hq). destruct (rw_end_done s pr dv q l1 r l2 Hr Hv Hq) as (s' & E & _).
      exists s'. by rewrite (acked_idle _ _ _ _ _ _ _ Hv Hq).
  - intros Hr. destruct (intr_ok s dv q Hr Hv) as (s' & E & _). by exists s'.
  - intros h. rewrite (vi_pending _ _ _ _ Hv). intros (r & -> & Hr)%list_elem_of_fmap.
    apply list_elem_of_split in Hr as (l1 & l2 & Eq). destruct (vinv_complete _ _ _ _ _ _ _ Hv Eq) as (v2 & dv2 & E' & _). by rewrite E'.
  - intros p Hp. destruct (Hl p Hp) as [L1 L2]. split; [done|]. intros H%L2. lia.
Qed.
End spec.

(** ** An example *)

(** A device whose registers read as 0. *)
#[local] Instance quiet_mmio : Mmio unit := {| mmio_read _ d := (0, d); mmio_write _ _ d := d |}.

(** Process 1 writes buffer 3 to block 5; the device carries it out. *)
Definition demo_posted : kernel unit unit := end_of (rw_try 3 5 true) (taken LkDisk demo_kernel).
Definition demo_fetched : vdev := mkvdev 1 [0%nat] [].
Definition demo_done : option (vdisk * vdev) := dev_complete 0 (k_disk demo_posted) demo_fetched.

Lemma demo_posted_ok : rw_try 3 5 true (taken LkDisk demo_kernel) = Ok (Some (0%nat, false)) demo_posted.
Proof.
  unfold demo_posted.
  refine (end_of_ok (fun x y => bool_decide (x = y)) (rw_try 3 5 true) (taken LkDisk demo_kernel) (Some (0%nat, false)) _ _).
  - intros x y. apply bool_decide_eq_true.
  - vm_compute. reflexivity.
Qed.
#[local] Opaque demo_posted.

Lemma virtio_exactly_once_witness :
  exists v, demo_done = Some (v, mkvdev 1 [] [mkxfer VIRTIO_BLK_T_OUT 10 3 1024]) /\
    (exists carried waiting, [(0%nat, 3%nat, 5, true)] ≡ₚ carried ++ waiting /\
       [mkxfer VIRTIO_BLK_T_OUT 10 3 1024] = xfer_for <$> carried /\ [] ⊆+ (head_buf <$> carried)).
Proof.
  destruct demo_done as [[v dv]|] eqn:E; [|exfalso; revert E; vm_compute; discriminate].
  assert (dv = mkvdev 1 [] [mkxfer VIRTIO_BLK_T_OUT 10 3 1024]) as ->.
  { enough (Some dv = snd <$> Some (v, dv)) as H by (rewrite <- E in H; revert H; vm_compute; congruence). done. }
  exists v. split; [reflexivity|]. unfold demo_done in E.
  destruct (virtio_exactly_once demo_kernel (mkvdev 0 [] []) [LPost (0%nat, 3%nat, 5, true); LTau; LTau]
    (set_kdisk v demo_posted) (mkvdev 1 [] [mkxfer VIRTIO_BLK_T_OUT 10 3 1024])) as [H _]; [| |exact H].
  - split.
    + intros i _. reflexivity.
    + intros i. reflexivity.
    + intros b. reflexivity.
    + split_and!; reflexivity.
    + reflexivity.
    + intros [|[|p]] _; (split; [|intros b]); reflexivity.
  - refine (dsts_step _ [LPost (0%nat, 3%nat, 5, true); LTau] (demo_posted, demo_fetched) LTau _ _
      (ds_complete demo_posted demo_fetched 0 v _ E)).
    refine (dsts_step _ [LPost (0%nat, 3%nat, 5, true)] (demo_posted, mkvdev 0 [] []) LTau _ _ (ds_fetch demo_posted _ demo_fetched _)).
    + refine (dsts_step _ [] (demo_kernel, mkvdev 0 [] []) (LPost (0%nat, 3%nat, 5, true)) (demo_posted, mkvdev 0 [] []) (dsts_refl _)
        (ds_try demo_kernel (mkvdev 0 [] []) 1 3 5 true (Some (0%nat, false)) demo_posted _ _ _ _)).
      * split; [apply demo_calm|reflexivity|reflexivity|split; reflexivity|intros p _; split; reflexivity|unfold NPROC; lia].
      * unfold awake. discriminate.
      * intros i. discriminate.
      * exact demo_posted_ok.
    + vm_compute. reflexivity.
Defined.
