(* ===== verification/Trap.v ===== *)
(** * Traps and interrupts: [src/kernel/trap.c], [src/kernel/plic.c]

    The addresses of the assembly entry points and the firmware's timer call
    are parameters.  [usertrapret] ends with the jump to the trampoline; its
    result is the pair of arguments of that jump. *)

From stdpp Require Import functions.
From S2P Require Import Prelude Memory CString Riscv Csr Spinlock Kalloc Vm Copy Block Cache Log Fs Kernel Proc Uart Printf Console Pipe File Process Exec Sysfile Syscall Virtio.

Definition UART0_IRQ : Z := 10.
Definition VIRTIO0_IRQ : Z := 1.
Definition CLOCK_FREQ : Z := 1000000.
Definition PLIC_SENABLE (hart : Z) : Z := PLIC + 0x2080 + hart * 0x100.
Definition PLIC_SPRIORITY (hart : Z) : Z := PLIC + 0x201000 + hart * 0x2000.
Definition PLIC_SCLAIM (hart : Z) : Z := PLIC + 0x201004 + hart * 0x2000.

Section trap.
Context {S B D : Type} `{!BlockCache S B} `{!Mmio D}.
Variables kend trampoline forkret_pc : Z.
Variable spin : nat.
Variable stat_pad : list Z.
(** [kernelvec], [uservec], [userret] (assembly) and [usertrap]. *)
Variables kernelvec uservec userret usertrap_pc : Z.
(** [sbi_legacy_set_timer] *)
Variable sbi_set_timer : Z -> D -> D.

Abbreviation kern := (kernel S D).

Definition k_cpuid : M kern Z := gets (fun s => cpuid (k_hart s)).

(** ** The interrupt controller *)

Definition write32 (a v : Z) : M kern unit := on_dev (modify (mmio_write a (u32 v))).

Definition plicinit : M kern unit :=
  write32 (PLIC + UART0_IRQ * 4) 1 ;;
  write32 (PLIC + VIRTIO0_IRQ * 4) 1.

Definition plicinithart : M kern unit :=
  let! hart := k_cpuid in
  write32 (PLIC_SENABLE hart) (Z.lor (Z.shiftl 1 UART0_IRQ) (Z.shiftl 1 VIRTIO0_IRQ)) ;;
  write32 (PLIC_SPRIORITY hart) 0.

Definition plic_claim : M kern Z :=
  let! hart := k_cpuid in
  on_dev (fun d => let '(v, d') := mmio_read (PLIC_SCLAIM hart) d in Ok (s32 v) d').

Definition plic_complete (irq : Z) : M kern unit :=
  let! hart := k_cpuid in
  write32 (PLIC_SCLAIM hart) irq.

(** ** The clock *)

Definition RESET_TIMER : M kern unit :=
  let! t := on_dev (fun d => let '(v, d') := mmio_read CLINT_MTIME d in Ok v d') in
  on_dev (modify (sbi_set_timer (u64 (t + CLOCK_FREQ)))).

Definition trapinit : M kern unit := init_lock LkTicks "time".

Definition trapinithart : M kern unit :=
  on_reg (w_stvec kernelvec) ;;
  let! x := on_reg r_sie in
  on_reg (w_sie (Z.lor (Z.lor (Z.lor x SIE_SEIE) SIE_STIE) SIE_SSIE)) ;;
  RESET_TIMER.

Definition clockintr : M kern unit :=
  acquire LkTicks ;;
  modify (fun s => set_kticks (u32 (k_ticks s + 1)) s) ;;
  wakeup ChTicks ;;
  release LkTicks.

(** ** Interrupts *)

Definition devintr : M kern Z :=
  let! scause := on_reg r_scause in
  if has scause 0x8000000000000000 && (Z.land scause 0xff =? 9) then
    let! irq := plic_claim in
    (if irq =? UART0_IRQ then uartintr spin
     else if irq =? VIRTIO0_IRQ then virtio_disk_intr
     else if negb (irq =? 0) then printf spin (String.append "unexpected interrupt irq=%d" NL) [AInt irq]
     else ret tt) ;;
    (if negb (irq =? 0) then plic_complete irq else ret tt) ;;
    ret 1
  else if scause =? 0x8000000000000005 then
    let! id := k_cpuid in
    (if id =? 0 then clockintr ;; RESET_TIMER else ret tt) ;;
    let! x := on_reg r_sip in
    on_reg (w_sip (Z.land x (Z.lnot 0x10000))) ;;
    ret 2
  else ret 0.

(** [kerneltrap] up to the [yield] of a timer interrupt: the saved [sepc] and
    [sstatus], and what [yield] returned if the process gave up the CPU. *)
Definition kerneltrap_enter : M kern (Z * Z * option bool) :=
  let! sepc := on_reg r_sepc in
  let! sstatus := on_reg r_sstatus in
  let! scause := on_reg r_scause in
  if negb (has sstatus SSTATUS_SPP) then panic "kerneltrap: not from supervisor mode"
  else
    let! on := on_reg intr_get in
    if on then panic "kerneltrap: interrupts enabled"
    else
      let! which_dev := devintr in
      if which_dev =? 0 then
        printf spin (String.append "scause %p" NL) [APtr scause] ;;
        let! stval := on_reg r_stval in
        printf spin (String.append "sepc=%p stval=%p" NL) [APtr sepc; APtr stval] ;;
        panic "kerneltrap"
      else
        if which_dev =? 2 then
          let! me := myproc in
          match me with
          | Some p =>
              let! q := get_proc p in
              if bool_decide (p_state q = RUNNING) then
                let! intena := yield in
                ret (sepc, sstatus, Some intena)
              else ret (sepc, sstatus, None)
          | None => ret (sepc, sstatus, None)
          end
        else ret (sepc, sstatus, None).

(** The end of [kerneltrap], possibly on another CPU. *)
Definition kerneltrap_return (sepc sstatus : Z) : M kern unit :=
  on_reg (w_sepc sepc) ;;
  on_reg (w_sstatus sstatus).

(** ** To and from user space *)

Definition usertrapret : M kern (Z * Z) :=
  let! p := curproc in
  on_reg intr_off ;;
  on_reg (w_stvec (TRAMPOLINE + (uservec - trampoline))) ;;
  let! satp := on_reg r_satp in
  store_tf p TF_kernel_satp satp ;;
  let! q := get_proc p in
  store_tf p TF_kernel_sp (p_kstack q + PGSIZE) ;;
  store_tf p TF_kernel_trap usertrap_pc ;;
  let! tp := on_reg r_tp in
  store_tf p TF_kernel_hartid tp ;;
  let! x := on_reg r_sstatus in
  let x := Z.land x (Z.lnot SSTATUS_SPP) in
  let x := Z.lor x SSTATUS_SPIE in
  on_reg (w_sstatus x) ;;
  let! epc := load_tf p TF_epc in
  on_reg (w_sepc epc) ;;
  let! q := get_proc p in
  ret (TRAPFRAME, MAKE_SATP (p_pagetable q)).

(** [forkret]: a new process's first way out. *)
Definition forkret : M kern (Z * Z) :=
  let! p := curproc in
  release (LkProc p) ;;
  let! first := gets k_first in
  (if first then
     modify (set_kfirst false) ;;
     on_fs (fsinit ROOTDEV)
   else ret tt) ;;
  usertrapret.

(** [usertrap] up to the return: whether the process gave up the CPU at a
    timer interrupt (what [yield] returned). *)
Definition usertrap_enter : M kern (option bool) :=
  let! sstatus := on_reg r_sstatus in
  if has sstatus SSTATUS_SPP then panic "usertrap: not from user mode"
  else
    on_reg (w_stvec kernelvec) ;;
    let! p := curproc in
    let! sepc := on_reg r_sepc in
    store_tf p TF_epc sepc ;;
    let! scause := on_reg r_scause in
    let! which_dev :=
      (if scause =? 8 then
         let! q := get_proc p in
         if negb (p_killed q =? 0) then exit kend (-1)
         else
           let! epc := load_tf p TF_epc in
           store_tf p TF_epc (u64 (epc + 4)) ;;
           on_reg intr_on ;;
           syscall kend trampoline forkret_pc spin stat_pad ;;
           ret 0
       else
         let! which_dev := devintr in
         if negb (which_dev =? 0) then ret which_dev
         else
           let! q := get_proc p in
           printf spin (String.append "usertrap(): unexpected scause %p pid=%d" NL) [APtr scause; AInt (p_pid q)] ;;
           let! stval := on_reg r_stval in
           printf spin (String.append "            sepc=%p stval=%p" NL) [APtr sepc; APtr stval] ;;
           upd_proc p (set_killed 1) ;;
           ret 0) in
    let! q := get_proc p in
    if negb (p_killed q =? 0) then exit kend (-1)
    else if which_dev =? 2 then let! intena := yield in ret (Some intena)
    else ret None.

(** A trap that does not give up the CPU. *)
Definition usertrap : M kern (Z * Z) :=
  let! gave_up := usertrap_enter in
  match gave_up with
  | None => usertrapret
  | Some _ => sleeps "yield"
  end.
End trap.
