(* ===== verification/Main.v ===== *)
(** * Start-up: [src/kernel/main.c]

    The boot of the first CPU over the buffer cache of [Bio]; the other CPUs
    wait until it is done.  The state at entry is the zeroed data segment. *)

From stdpp Require Import functions.
From S2P Require Import Prelude Memory CString Riscv Csr Spinlock Kalloc Vm Copy Block Cache Sleeplock Bio Log Fs Kernel Proc Uart Printf Console Pipe File Process Exec Sysfile Syscall Virtio Trap.

Section main.
Context {D : Type} `{!Mmio D}.
Variables kend etext trampoline forkret_pc pages : Z.
Variable spin : nat.
Variable kernelvec : Z.
Variable sbi_set_timer : Z -> D -> D.

Abbreviation kern := (kernel bcache D).
#[local] Existing Instance bio_cache.

(** [kvminithart]; the TLB flush has no counterpart. *)
Definition kvminithart (kernel_pagetable : Z) : M kern unit :=
  on_reg (w_satp (MAKE_SATP kernel_pagetable)).

Definition on_bcache {A} (m : M bcache A) : M kern A := on_fs (flift (lift m)).

(** [main] on CPU 0, up to [scheduler()]; the kernel page table. *)
Definition main0 : M kern Z :=
  consoleinit ;;
  printfinit ;;
  printf spin NL [] ;;
  printf spin (String.append "xv6 kernel is booting" NL) [] ;;
  printf spin NL [] ;;
  on_phys (kinit kend) ;;
  let! kernel_pagetable := on_phys (kvmmake etext trampoline) in
  kvminithart kernel_pagetable ;;
  procinit ;;
  trapinit ;;
  trapinithart kernelvec sbi_set_timer ;;
  plicinit ;;
  plicinithart ;;
  on_bcache binit ;;
  on_fs iinit ;;
  fileinit ;;
  virtio_disk_init pages ;;
  userinit kend trampoline forkret_pc (BlockCache0 := bio_cache 0) ;;
  ret kernel_pagetable.

(** [main] on another CPU, once [started] is set. *)
Definition main_other (kernel_pagetable : Z) : M kern unit :=
  let! id := k_cpuid in
  printf spin (String.append "hart %d starting" NL) [AInt id] ;;
  kvminithart kernel_pagetable ;;
  trapinithart kernelvec sbi_set_timer ;;
  plicinithart.
End main.
