(* ===== verification/Umalloc.v ===== *)
(** * The user-level allocator: [src/user/lib/umalloc.c]

    The memory of the process is its bytes; a header is 16 bytes, [ptr] at
    offset 0 and the 32-bit [size], in units of 16 bytes, at offset 8.  [sbrk]
    is the system call; the address of the static [base] is the linker's.  The
    two loops take the number of blocks they may look at. *)

From S2P Require Import Prelude Memory.

Definition load32 (m : mem) (a : Z) : Z := le_val (mem_read m a 4).
Definition store32 (m : mem) (a v : Z) : mem := mem_write m a (le_bytes 4 v).

(** [freep] and [u_sz], the size of the process (its break). *)
Record uheap := mkuheap { u_mem : mem; u_freep : Z; u_sz : Z }.

Definition set_umem (m : mem) (s : uheap) : uheap := mkuheap m (u_freep s) (u_sz s).
Definition set_ufreep (p : Z) (s : uheap) : uheap := mkuheap (u_mem s) p (u_sz s).

(** [sizeof(Header)] *)
Definition HDR : Z := 16.

Definition get_ptr (p : Z) : M uheap Z := gets (fun s => load64 (u_mem s) p).
Definition get_size (p : Z) : M uheap Z := gets (fun s => load32 (u_mem s) (p + 8)).
Definition set_ptr (p v : Z) : M uheap unit := modify (fun s => set_umem (store64 (u_mem s) p v) s).
Definition set_size (p v : Z) : M uheap unit := modify (fun s => set_umem (store32 (u_mem s) (p + 8) (u32 v)) s).

Section umalloc.
Variable base : Z.
Variable sbrk : Z -> M uheap Z.

(** [for(p = freep; !(bp > p && bp < p->s.ptr); p = p->s.ptr)] *)
Fixpoint free_loop (fuel : nat) (bp p : Z) : M uheap Z :=
  match fuel with
  | O => panic "free: fuel"
  | S fuel' =>
      let! next := get_ptr p in
      if (p <? bp) && (bp <? next) then ret p
      else if (next <=? p) && ((p <? bp) || (bp <? next)) then ret p
      else free_loop fuel' bp next
  end.

Definition free (fuel : nat) (ap : Z) : M uheap unit :=
  let bp := ap - HDR in
  let! freep := gets u_freep in
  let! p := free_loop fuel bp freep in
  let! bsize := get_size bp in
  let! next := get_ptr p in
  (if bp + HDR * bsize =? next then
     let! nsize := get_size next in
     set_size bp (bsize + nsize) ;;
     let! nptr := get_ptr next in
     set_ptr bp nptr
   else set_ptr bp next) ;;
  let! psize := get_size p in
  (if p + HDR * psize =? bp then
     let! bsize := get_size bp in
     set_size p (psize + bsize) ;;
     let! bptr := get_ptr bp in
     set_ptr p bptr
   else set_ptr p bp) ;;
  modify (set_ufreep p).

(** The argument of [sbrk] is an [int]. *)
Definition morecore (fuel : nat) (nu : Z) : M uheap Z :=
  let nu := if nu <? 4096 then 4096 else nu in
  let! p := sbrk (s32 (nu * HDR)) in
  if p =? u64 (-1) then ret 0
  else
    set_size p nu ;;
    free fuel (p + HDR) ;;
    gets u_freep.

(** The loop of [malloc]; [n] bounds the loop of [free]. *)
Fixpoint malloc_loop (fuel n : nat) (nunits prevp p : Z) : M uheap Z :=
  match fuel with
  | O => panic "malloc: fuel"
  | S fuel' =>
      let! size := get_size p in
      if nunits <=? size then
        let! p' := (if size =? nunits then
                      let! next := get_ptr p in
                      set_ptr prevp next ;;
                      ret p
                    else
                      set_size p (size - nunits) ;;
                      let! size' := get_size p in
                      let p' := p + HDR * size' in
                      set_size p' nunits ;;
                      ret p') in
        modify (set_ufreep prevp) ;;
        ret (p' + HDR)
      else
        let continue q :=
          let! next := get_ptr q in
          malloc_loop fuel' n nunits q next in
        let! freep := gets u_freep in
        if p =? freep then
          let! q := morecore n nunits in
          if q =? 0 then ret 0 else continue q
        else continue p
  end.

Definition malloc (fuel : nat) (nbytes : Z) : M uheap Z :=
  let nunits := u32 ((nbytes + HDR - 1) / HDR + 1) in
  let! freep := gets u_freep in
  (if freep =? 0 then
     set_ptr base base ;;
     modify (set_ufreep base) ;;
     set_size base 0
   else ret tt) ;;
  let! prevp := gets u_freep in
  let! p := get_ptr prevp in
  malloc_loop fuel fuel nunits prevp p.
End umalloc.
