(* ===== verification/UmallocFree.v ===== *)
(** * The ring of free blocks, and [free]

    The free list is a ring through [base], in ascending order of addresses, of
    blocks that neither overlap nor touch; the blocks handed out overlap neither
    it nor each other. *)

From Stdlib Require Import Sorted.
From S2P Require Import Prelude Memory Umalloc.

(** ** Words of memory *)

Lemma load32_agree m1 m2 a : agree m1 m2 a 4 -> load32 m1 a = load32 m2 a.
Proof. intros H. unfold load32. by rewrite (mem_read_agree m1 m2). Qed.
Lemma store32_agree_disjoint m a v b n : a + 4 <= b \/ b + n <= a -> agree (store32 m a v) m b n.
Proof. intros H. apply mem_write_agree_disjoint. by rewrite length_le_bytes. Qed.
Lemma load32_store32_same m a v : load32 (store32 m a v) a = u32 v.
Proof.
  unfold load32, store32. rewrite <-(length_le_bytes 4 v) at 2.
  rewrite mem_read_write_same, le_val_le_bytes. done.
Qed.
Lemma load32_store32_other m a b v : a + 4 <= b \/ b + 4 <= a -> load32 (store32 m a v) b = load32 m b.
Proof. intros H. apply load32_agree, store32_agree_disjoint. lia. Qed.
Lemma load64_store32_other m a b v : a + 4 <= b \/ b + 8 <= a -> load64 (store32 m a v) b = load64 m b.
Proof. intros H. apply load64_agree, store32_agree_disjoint. lia. Qed.
Lemma load32_store64_other m a b v : a + 8 <= b \/ b + 4 <= a -> load32 (store64 m a v) b = load32 m b.
Proof. intros H. apply load32_agree, store64_agree_disjoint. lia. Qed.

(** ** Blocks and the linked list *)

(** The address of the header and the size in units. *)
Abbreviation blk := (Z * Z)%type.
Definition bend (b : blk) : Z := fst b + 16 * snd b.

Definition hd_addr (l : list blk) (e : Z) : Z := match l with [] => e | b :: _ => fst b end.

(** The headers of [l] are in memory, each pointing to the next, the last to [e]. *)
Fixpoint links (m : mem) (l : list blk) (e : Z) : Prop :=
  match l with
  | [] => True
  | b :: l' => load64 m (fst b) = hd_addr l' e /\ load32 m (fst b + 8) = snd b /\ links m l' e
  end.

Lemma hd_addr_app l1 l2 e : hd_addr (l1 ++ l2) e = hd_addr l1 (hd_addr l2 e).
Proof. by destruct l1. Qed.

Lemma links_app m l1 l2 e : links m (l1 ++ l2) e <-> links m l1 (hd_addr l2 e) /\ links m l2 e.
Proof.
  induction l1 as [|b l1 IH]; cbn [app links]; [tauto|]. rewrite hd_addr_app, IH. tauto.
Qed.

Lemma links_frame m m' l e :
  links m l e -> (forall b, b ∈ l -> agree m' m (fst b) 16) -> links m' l e.
Proof.
  induction l as [|b l IH]; cbn [links]; [done|]. intros (H1 & H2 & H3) Ha.
  assert (agree m' m (fst b) 16) as Hb by (apply Ha; set_solver). split_and!.
  - rewrite (load64_agree m' m); [done|]. eapply agree_sub; [exact Hb|lia|lia].
  - rewrite (load32_agree m' m); [done|]. eapply agree_sub; [exact Hb|lia|lia].
  - apply IH; [done|]. intros b' Hb'. apply Ha. set_solver.
Qed.

(** A ring may be read from any of its blocks. *)
Lemma links_rot m l1 l2 : links m (l1 ++ l2) (hd_addr (l1 ++ l2) 0) -> links m (l2 ++ l1) (hd_addr (l2 ++ l1) 0).
Proof.
  rewrite !links_app, !hd_addr_app. intros [H1 H2]. destruct l1 as [|b1 l1], l2 as [|b2 l2]; by split.
Qed.

(** ** Ascending lists of separate blocks *)

(** Above [lo], nonempty, with a gap before each block; all up to [hi]. *)
Fixpoint asc (lo : Z) (l : list blk) (hi : Z) : Prop :=
  match l with
  | [] => lo <= hi
  | b :: l' => lo < fst b /\ 1 <= snd b /\ asc (bend b) l' hi
  end.

Definition lend (lo : Z) (l : list blk) : Z := match last l with Some b => bend b | None => lo end.

Lemma asc_app lo l1 l2 hi : asc lo (l1 ++ l2) hi <-> asc lo l1 (lend lo l1) /\ asc (lend lo l1) l2 hi.
Proof.
  revert lo. induction l1 as [|b l1 IH]; intros lo; cbn [app asc].
  - unfold lend; cbn. split; [|tauto]. intros H. split; [lia|done].
  - rewrite IH. replace (lend lo (b :: l1)) with (lend (bend b) l1); [tauto|].
    unfold lend. rewrite last_cons. by destruct (last l1).
Qed.

Lemma asc_le lo l hi : asc lo l hi -> lo <= hi.
Proof.
  revert lo. induction l as [|b l IH]; intros lo; cbn; [done|]. intros (H1 & H2 & H3%IH). unfold bend in *. lia.
Qed.

Lemma asc_in lo l hi b : asc lo l hi -> b ∈ l -> lo < fst b /\ 1 <= snd b /\ bend b <= hi.
Proof.
  revert lo. induction l as [|b' l IH]; intros lo H Hb; [by apply elem_of_nil in Hb|].
  destruct H as (H1 & H2 & H3). apply elem_of_cons in Hb as [->|Hb].
  - split; [done|split; [done|]]. by apply asc_le in H3.
  - destruct (IH _ H3 Hb) as (H4 & H5 & H6). unfold bend in *. split_and!; lia.
Qed.

Lemma asc_weaken lo lo' l hi hi' : asc lo l hi -> lo' <= lo -> hi <= hi' -> asc lo' l hi'.
Proof.
  revert lo lo'. induction l as [|b l IH]; intros lo lo'; cbn; [lia|].
  intros (H1 & H2 & H3) Hl Hh. split_and!; [lia|done|]. eapply IH; [exact H3|lia|done].
Qed.

(** ** Searching the ring *)

Definition before (b c : blk) : Prop := fst b < fst c.

Lemma sorted_next x b c y : StronglySorted before (x ++ b :: c :: y) -> fst b < fst c.
Proof.
  induction x as [|d x IH]; cbn; intros H; apply StronglySorted_inv in H as [H1 H2]; [|by apply IH].
  by apply Forall_inv in H2.
Qed.

Lemma asc_sorted lo fl hi : asc lo fl hi -> StronglySorted before fl /\ Forall (fun b => lo < fst b) fl.
Proof.
  revert lo. induction fl as [|b fl IH]; intros lo; cbn; [by repeat constructor|]. intros (H1 & H2 & H3).
  destruct (IH _ H3) as [I1 I2]. unfold bend in *. split; constructor; try done.
  - eapply Forall_impl; [exact I2|]. intros c Hc. unfold before. cbn in *. lia.
  - eapply Forall_impl; [exact I2|]. intros c Hc. cbn in *. lia.
Qed.

Lemma links_in m x b y e : links m (x ++ b :: y) e -> load64 m (fst b) = hd_addr y e /\ load32 m (fst b + 8) = snd b.
Proof. rewrite links_app. cbn [links]. tauto. Qed.

Section free_loop.
Variables (s : uheap) (base bp : Z) (r1 l2 : list blk) (pb : blk).
Hypothesis Hlinks : links (u_mem s) (r1 ++ pb :: l2) base.
Hypothesis Hsort : StronglySorted before (r1 ++ pb :: l2).
Hypothesis Hhead : hd_addr (r1 ++ pb :: l2) base = base.
Hypothesis Hbase : base < bp.
Hypothesis Hlow : forall b, b ∈ r1 \/ b = pb -> fst b < bp.
Hypothesis Hhigh : forall b, b ∈ l2 -> bp < fst b.

(** From a block below [bp]. *)
Lemma free_loop_low y x fuel :
  r1 = x ++ y -> (length y < fuel)%nat -> free_loop fuel bp (hd_addr (y ++ [pb]) 0) s = Ok (fst pb) s.
Proof.
  revert x fuel. induction y as [|b y IH]; intros x [|fuel] Er Hf; cbn [length] in Hf; try lia.
  - cbn [app hd_addr free_loop]. unfold bind, get_ptr, gets. apply links_in in Hlinks as [E _]. rewrite E.
    pose proof (Hlow pb ltac:(auto)) as Hp. destruct (Z.ltb_spec (fst pb) bp); [|lia]. cbn [andb orb].
    destruct l2 as [|c l2']; cbn [hd_addr].
    + destruct (Z.ltb_spec bp base); [lia|]. destruct (Z.leb_spec base (fst pb)); [done|].
      exfalso. destruct r1 as [|d r1']; cbn in Hhead; [lia|]. cbn in Hsort. apply StronglySorted_inv in Hsort as [_ HF].
      rewrite Forall_app in HF. destruct HF as [_ HF%Forall_inv]. unfold before in HF. lia.
    + pose proof (Hhigh c ltac:(set_solver)). by destruct (Z.ltb_spec bp (fst c)); [|lia].
  - assert (Hl : links (u_mem s) (x ++ b :: (y ++ pb :: l2)) base) by (by rewrite Er, <- app_assoc in Hlinks).
    apply links_in in Hl as [E _]. cbn [app hd_addr free_loop]. unfold bind, get_ptr, gets. rewrite E.
    rewrite Er, <- app_assoc in Hsort. cbn in Hsort.
    assert (exists c z, y ++ pb :: l2 = c :: z /\ fst c < bp /\ hd_addr (y ++ [pb]) 0 = fst c) as (c & z & Ec & Hc & Eh).
    { destruct y as [|c y]; cbn; eexists _, _; (split; [reflexivity|]); split; try done; apply Hlow; [by right|left; set_solver]. }
    rewrite Ec in *. apply sorted_next in Hsort. cbn [hd_addr].
    destruct (Z.ltb_spec bp (fst c)); [lia|]. rewrite andb_false_r. destruct (Z.leb_spec (fst c) (fst b)); [lia|].
    cbn [andb]. rewrite <- Eh. apply (IH (x ++ [b])); [|lia]. by rewrite Er, <- app_assoc.
Qed.

(** From a block above [bp]: around the ring. *)
Lemma free_loop_high y x b fuel :
  l2 = x ++ b :: y -> (length y + length r1 + 1 < fuel)%nat -> free_loop fuel bp (fst b) s = Ok (fst pb) s.
Proof.
  revert x b fuel. induction y as [|c y IH]; intros x b [|fuel] El Hf; cbn [length] in Hf; try lia.
  - assert (Hl : links (u_mem s) ((r1 ++ pb :: x) ++ b :: []) base) by (by rewrite El in Hlinks; rewrite <- app_assoc).
    apply links_in in Hl as [E _]. cbn [free_loop]. unfold bind, get_ptr, gets. rewrite E. cbn [hd_addr].
    pose proof (Hhigh b ltac:(set_solver)). destruct (Z.ltb_spec (fst b) bp); [lia|]. cbn [andb orb].
    destruct (Z.ltb_spec bp base); [lia|]. rewrite andb_false_r.
    assert (hd_addr (r1 ++ [pb]) 0 = base) as Eb by (clear - Hhead; destruct r1; done). rewrite <- Eb at 1. apply (free_loop_low r1 []); [done|lia].
  - assert (Hl : links (u_mem s) ((r1 ++ pb :: x) ++ b :: c :: y) base) by (by rewrite El in Hlinks; rewrite <- app_assoc).
    apply links_in in Hl as [E _]. cbn [free_loop]. unfold bind, get_ptr, gets. rewrite E. cbn [hd_addr].
    pose proof (Hhigh b ltac:(set_solver)). destruct (Z.ltb_spec (fst b) bp); [lia|]. cbn [andb orb].
    assert (fst b < fst c) as Hbc.
    { clear - Hsort El. rewrite El in Hsort. apply (sorted_next (r1 ++ pb :: x) b c y). by rewrite <- app_assoc. }
    destruct (Z.ltb_spec bp (fst c)); [|pose proof (Hhigh c ltac:(set_solver)); lia].
    destruct (Z.leb_spec (fst c) (fst b)); [lia|]. cbn [andb].
    apply (IH (x ++ [b])); [by rewrite El, <- app_assoc|lia].
Qed.

Lemma free_loop_ok q fuel :
  q ∈ fst <$> (r1 ++ pb :: l2) -> (length r1 + length l2 + 2 <= fuel)%nat -> free_loop fuel bp q s = Ok (fst pb) s.
Proof.
  intros (b & -> & Hb)%list_elem_of_fmap Hf. apply elem_of_app in Hb as [Hb|[->|Hb]%elem_of_cons].
  - apply list_elem_of_split in Hb as (x & y & E). change (fst b) with (hd_addr ((b :: y) ++ [pb]) 0).
    apply (free_loop_low (b :: y) x); [done|]. rewrite E, length_app in Hf. lia.
  - change (fst pb) with (hd_addr ([] ++ [pb]) 0) at 1. apply (free_loop_low [] r1); [by rewrite app_nil_r|cbn; lia].
  - apply list_elem_of_split in Hb as (x & y & E). apply (free_loop_high y x); [done|].
    rewrite E, length_app in Hf. cbn in Hf. lia.
Qed.
End free_loop.

(** ** The heap *)

Definition sep (b c : blk) : Prop := bend b <= fst c \/ bend c <= fst b.

Record heap_rep (base : Z) (s : uheap) (fl al : list blk) : Prop := {
  hr_base : 0 < base;
  hr_sz : base + 16 <= u_sz s <= 4294967296;
  hr_asc : asc (base + 15) fl (u_sz s);
  hr_links : links (u_mem s) ((base, 0) :: fl) base;
  hr_freep : u_freep s ∈ fst <$> (base, 0) :: fl;
  hr_al b : b ∈ al -> base + 16 <= fst b /\ 1 <= snd b /\ bend b <= u_sz s /\ load32 (u_mem s) (fst b + 8) = snd b;
  hr_al_sep : ForallOrdPairs sep al;
  hr_cross b c : b ∈ fl -> c ∈ al -> sep b c
}.

Definition units (l : list blk) : Z := foldr Z.add 0 (snd <$> l).

Lemma units_app l1 l2 : units (l1 ++ l2) = units l1 + units l2.
Proof. unfold units. induction l1 as [|b l1 IH]; cbn; [done|]. rewrite IH. lia. Qed.

(** Where a block belongs in the list. *)
Lemma asc_split lo fl hi b :
  asc lo fl hi -> 1 <= snd b -> (forall c, c ∈ fl -> sep c b) ->
  exists l1 l2, fl = l1 ++ l2 /\ (forall c, c ∈ l1 -> bend c <= fst b) /\ (forall c, c ∈ l2 -> bend b <= fst c).
Proof.
  revert lo. induction fl as [|c fl IH]; intros lo Ha Hb Hs.
  { exists [], []. split; [done|]. split; intros c Hc; by apply elem_of_nil in Hc. }
  destruct Ha as (H1 & H2 & H3). destruct (Hs c) as [Hc|Hc]; [set_solver| |].
  - destruct (IH _ H3 Hb) as (l1 & l2 & -> & L1 & L2); [set_solver|]. exists (c :: l1), l2. split; [done|]. split; [|done].
    intros d [->|Hd]%elem_of_cons; [done|by apply L1].
  - exists [], (c :: fl). split; [done|]. split; [intros d Hd; by apply elem_of_nil in Hd|].
    intros d [->|Hd]%elem_of_cons; [done|]. destruct (asc_in _ _ _ _ H3 Hd) as (H4 & _). unfold bend in *. lia.
Qed.

(** The last block of the ring below. *)
Lemma ring_snoc (a : blk) l : exists r p, a :: l = r ++ [p].
Proof. destruct (exists_last (l := a :: l)) as (r & p & E); [done|]. by exists r, p. Qed.

(** The memory after one of the two merges of [free]: the header of [a] gets the
    size [n] and the pointer [e]. *)
Lemma header_set m a n e x :
  0 <= n < 4294967296 -> 0 <= e < 18446744073709551616 ->
  (x = store64 (store32 m (a + 8) (u32 n)) a e \/ (x = store64 m a e /\ load32 m (a + 8) = n)) ->
  load64 x a = e /\ load32 x (a + 8) = n /\ (forall c k, a + 16 <= c \/ c + k <= a -> agree x m c k).
Proof.
  intros Hn He [->|[-> Hl]].
  - split_and!.
    + rewrite load64_store64_same. by apply u64_small.
    + rewrite load32_store64_other, load32_store32_same by lia. rewrite !u32_small; [done|lia|]. rewrite u32_small; lia.
    + intros c k Hc. eapply agree_trans; [apply store64_agree_disjoint; lia|apply store32_agree_disjoint; lia].
  - split_and!.
    + rewrite load64_store64_same. by apply u64_small.
    + by rewrite load32_store64_other by lia.
    + intros c k Hc. apply store64_agree_disjoint. lia.
Qed.

Definition merge_next (b : blk) (l : list blk) : blk * list blk :=
  match l with
  | c :: l' => if bend b =? fst c then ((fst b, snd b + snd c), l') else (b, l)
  | [] => (b, [])
  end.
Definition merge_prev (p b : blk) : list blk :=
  if bend p =? fst b then [(fst p, snd p + snd b)] else [p; b].

Definition umem_ok (s : uheap) (m : mem) : uheap := mkuheap m (u_freep s) (u_sz s).

(** [if(bp + bp->s.size == p->s.ptr)] *)
Lemma free_next base s b l :
  load32 (u_mem s) (fst b + 8) = snd b -> links (u_mem s) l base -> bend b <> base -> 0 < fst b ->
  1 <= snd b -> asc (bend b - 1) l 4294967296 -> 0 <= base < 4294967296 ->
  exists x,
    (if fst b + HDR * snd b =? hd_addr l base then
       let! nsize := get_size (hd_addr l base) in
       set_size (fst b) (snd b + nsize) ;;
       let! nptr := get_ptr (hd_addr l base) in
       set_ptr (fst b) nptr
     else set_ptr (fst b) (hd_addr l base)) s = Ok tt (umem_ok s x) /\
    load64 x (fst b) = hd_addr (snd (merge_next b l)) base /\
    load32 x (fst b + 8) = snd (fst (merge_next b l)) /\
    (forall c k, fst b + 16 <= c \/ c + k <= fst b -> agree x (u_mem s) c k).
Proof.
  intros Hb Hl Hne Hpos H1 Ha Hbase. change (fst b + HDR * snd b) with (bend b). destruct l as [|c l].
  - cbn [hd_addr merge_next fst snd]. destruct (Z.eqb_spec (bend b) base); [done|]. eexists. split; [reflexivity|].
    pose proof (asc_le _ _ _ Ha). apply header_set; [unfold bend in *; lia|lia|by right].
  - destruct Hl as (E1 & E2 & Hl). destruct Ha as (A1 & A2 & A3). pose proof (asc_le _ _ _ A3) as A4.
    cbn [hd_addr]. unfold merge_next. destruct (Z.eqb_spec (bend b) (fst c)) as [E|E]; cbn [fst snd].
    + eexists. split.
      { unfold bind, get_size, get_ptr, set_size, set_ptr, gets, modify. cbn [u_mem set_umem]. rewrite E2.
        rewrite load64_store32_other by (unfold bend in *; lia). rewrite E1. reflexivity. }
      unfold bend in *. apply header_set; [lia| |by left].
      destruct l as [|d l]; cbn [hd_addr]; [lia|]. destruct A3 as (B1 & B2 & B3). apply asc_le in B3.
      unfold bend in *. lia.
    + eexists. split; [reflexivity|]. cbn [hd_addr]. unfold bend in *. apply header_set; [lia|lia|by right].
Qed.

(** [if(p + p->s.size == bp)] *)
Lemma free_prev s p b e :
  load32 (u_mem s) (fst p + 8) = snd p -> load32 (u_mem s) (fst b + 8) = snd b -> load64 (u_mem s) (fst b) = e ->
  0 < fst p -> 0 <= snd p -> 1 <= snd b -> bend p <= fst b -> fst p + 16 <= fst b -> bend b <= 4294967296 ->
  0 <= e < 4294967296 ->
  exists x,
    (if fst p + HDR * snd p =? fst b then
       let! bsize := get_size (fst b) in
       set_size (fst p) (snd p + bsize) ;;
       let! bptr := get_ptr (fst b) in
       set_ptr (fst p) bptr
     else set_ptr (fst p) (fst b)) s = Ok tt (umem_ok s x) /\
    load64 x (fst p) = (if bend p =? fst b then e else fst b) /\
    load32 x (fst p + 8) = (if bend p =? fst b then snd p + snd b else snd p) /\
    (forall c k, fst p + 16 <= c \/ c + k <= fst p -> agree x (u_mem s) c k).
Proof.
  intros Hp Hb He Hp0 Hp1 Hb1 Hle Hle2 Hend Hrange. change (fst p + HDR * snd p) with (bend p). unfold bend in *.
  destruct (Z.eqb_spec (fst p + 16 * snd p) (fst b)) as [E|E].
  - eexists. split.
    { unfold bind, get_size, get_ptr, set_size, set_ptr, gets, modify. cbn [u_mem set_umem]. rewrite Hb.
      rewrite load64_store32_other by lia. rewrite He. reflexivity. }
    apply header_set; [lia|lia|by left].
  - eexists. split; [reflexivity|]. apply header_set; [lia|lia|by right].
Qed.

(** ** Positions in the ring *)

Definition apart (b c : blk) : Prop := fst b + 16 <= fst c.

Lemma ring_apart base fl hi : asc (base + 15) fl hi -> StronglySorted apart ((base, 0) :: fl).
Proof.
  intros H. assert (forall lo l, asc lo l hi -> StronglySorted apart l) as Hs.
  { clear. intros lo l. revert lo. induction l as [|b l IH]; intros lo; cbn; [constructor|]. intros (H1 & H2 & H3).
    constructor; [by eapply IH|]. apply asc_sorted in H3 as [_ H3]. eapply Forall_impl; [exact H3|].
    intros c Hc. unfold apart, bend in *. cbn in *. lia. }
  constructor; [by eapply Hs|]. apply asc_sorted in H as [_ H]. eapply Forall_impl; [exact H|].
  intros c Hc. unfold apart. cbn in *. lia.
Qed.

Lemma apart_before l : StronglySorted apart l -> StronglySorted before l.
Proof.
  induction 1 as [|b l Hl IH HF]; constructor; [done|]. eapply Forall_impl; [exact HF|].
  intros c. unfold apart, before. lia.
Qed.

Lemma apart_mid r p l c :
  StronglySorted apart (r ++ p :: l) -> (c ∈ r -> apart c p) /\ (c ∈ l -> apart p c).
Proof.
  induction r as [|d r IH]; cbn; intros H; apply StronglySorted_inv in H as [H1 H2].
  - split; [intros Hc; by apply elem_of_nil in Hc|]. intros Hc. by eapply Forall_forall in H2.
  - destruct (IH H1) as [I1 I2]. split; [|done]. intros [->|Hc]%elem_of_cons; [|by apply I1].
    eapply Forall_forall in H2; [exact H2|]. set_solver.
Qed.

Lemma asc_raise lo lo' l hi : asc lo l hi -> (forall c, c ∈ l -> lo' < fst c) -> lo' <= hi -> asc lo' l hi.
Proof. destruct l as [|b l]; cbn; [done|]. intros (H1 & H2 & H3) Hl Hh. split_and!; try done. apply Hl. set_solver. Qed.

Lemma merge_next_ok b l hi :
  1 <= snd b -> asc (bend b - 1) l hi -> bend b <= hi ->
  asc (bend (fst (merge_next b l))) (snd (merge_next b l)) hi /\
  fst (fst (merge_next b l)) = fst b /\ snd b <= snd (fst (merge_next b l)) /\
  snd (fst (merge_next b l)) + units (snd (merge_next b l)) = snd b + units l /\
  (length (snd (merge_next b l)) <= length l)%nat /\ (forall c, c ∈ snd (merge_next b l) -> c ∈ l) /\
  (fst (merge_next b l) = b \/ exists c, c ∈ l /\ bend b = fst c /\ bend (fst (merge_next b l)) = bend c).
Proof.
  intros Hb Ha Hh. destruct l as [|c l]; cbn [merge_next].
  - cbn. split_and!; auto; lia.
  - destruct Ha as (A1 & A2 & A3). destruct (Z.eqb_spec (bend b) (fst c)) as [E|E]; cbn [fst snd].
    + assert (bend (fst b, snd b + snd c) = bend c) as Eb by (unfold bend in *; cbn; lia).
      rewrite Eb. unfold units; cbn. split_and!; auto; try lia; [set_solver|]. right. exists c. split; [set_solver|done].
    + unfold units; cbn. split_and!; auto; try lia.
Qed.

Lemma asc_prev lo r p b rest hi :
  asc lo (r ++ [p]) (bend p) -> bend p <= fst b -> 1 <= snd b -> asc (bend b) rest hi ->
  asc lo (r ++ merge_prev p b ++ rest) hi.
Proof.
  intros H1 H2 H3 H4. apply asc_app in H1 as [H1 (P1 & P2 & _)]. apply asc_app. split; [done|].
  unfold merge_prev. destruct (Z.eqb_spec (bend p) (fst b)) as [E|E]; cbn [app asc fst snd].
  - split_and!; [done|lia|]. replace (bend (fst p, snd p + snd b)) with (bend b) by (unfold bend in *; cbn; lia). done.
  - split_and!; try done. lia.
Qed.

Lemma links_splice x r p b rest e :
  links x r (fst p) -> load64 x (fst p) = (if bend p =? fst b then hd_addr rest e else fst b) ->
  load32 x (fst p + 8) = (if bend p =? fst b then snd p + snd b else snd p) ->
  load64 x (fst b) = hd_addr rest e -> load32 x (fst b + 8) = snd b -> links x rest e ->
  links x (r ++ merge_prev p b ++ rest) e.
Proof.
  intros H1 H2 H3 H4 H5 H6. rewrite links_app. unfold merge_prev in *.
  destruct (bend p =? fst b); cbn [app links hd_addr fst snd]; tauto.
Qed.

Lemma merge_prev_units p b : units (merge_prev p b) = snd p + snd b.
Proof. unfold merge_prev, units. destruct (_ =? _); cbn; lia. Qed.

Lemma merge_prev_in p b c :
  c ∈ merge_prev p b -> c = p \/ c = b \/ (bend p = fst b /\ fst c = fst p /\ bend c = bend b).
Proof.
  unfold merge_prev. destruct (Z.eqb_spec (bend p) (fst b)); [|set_solver].
  intros ->%list_elem_of_singleton. right. right. unfold bend in *; cbn. split_and!; [done|done|lia].
Qed.

Lemma sep_merge p b c a :
  sep p a -> sep b a -> 1 <= snd a -> bend p = fst b -> fst c = fst p -> bend c = bend b -> 1 <= snd b -> sep c a.
Proof. unfold sep, bend. lia. Qed.

(** The part of the ring that [free] works on. *)
Lemma free_split base s fl al b :
  heap_rep base s fl (b :: al) ->
  exists r1 p l1 l2, fl = l1 ++ l2 /\ (base, 0) :: l1 = r1 ++ [p] /\
    (forall c, c ∈ l1 -> bend c <= fst b) /\ (forall c, c ∈ l2 -> bend b <= fst c) /\
    (base, 0) :: fl = r1 ++ p :: l2 /\ bend p <= fst b /\ fst p + 16 <= fst b /\ 0 <= snd p /\ 0 < fst p /\
    links (u_mem s) (r1 ++ p :: l2) base.
Proof.
  intros [H1 H2 H3 H4 H5 H6 H7 H8]. destruct (H6 b) as (B1 & B2 & B3 & B4); [set_solver|].
  destruct (asc_split _ _ _ b H3) as (l1 & l2 & -> & L1 & L2); [done|intros c Hc; apply H8; set_solver|].
  destruct (ring_snoc (base, 0) l1) as (r1 & p & Er).
  assert ((base, 0) :: l1 ++ l2 = r1 ++ p :: l2) as E
    by (change ((base, 0) :: l1 ++ l2) with (((base, 0) :: l1) ++ l2); by rewrite Er, <- app_assoc).
  exists r1, p, l1, l2. rewrite E in H4. split_and!; try done; apply asc_app in H3 as [H3 _];
    (assert (p ∈ (base, 0) :: l1) as [->|Hp]%elem_of_cons by (rewrite Er; set_solver); [unfold bend; cbn; lia|]);
    destruct (asc_in _ _ _ _ H3 Hp) as (P1 & P2 & _); pose proof (L1 p Hp); unfold bend in *; lia.
Qed.

(** What [free] computes. *)
Lemma free_run base s fl al b fuel :
  heap_rep base s fl (b :: al) -> (length fl + 2 <= fuel)%nat ->
  forall r1 p l1 l2, fl = l1 ++ l2 -> (base, 0) :: l1 = r1 ++ [p] ->
    (forall c, c ∈ l1 -> bend c <= fst b) -> (forall c, c ∈ l2 -> bend b <= fst c) ->
    (base, 0) :: fl = r1 ++ p :: l2 -> bend p <= fst b -> fst p + 16 <= fst b -> 0 <= snd p -> 0 < fst p ->
    links (u_mem s) (r1 ++ p :: l2) base ->
  let b' := fst (merge_next b l2) in
  let rest := snd (merge_next b l2) in
  exists x, free fuel (fst b + 16) s = Ok tt (mkuheap x (fst p) (u_sz s)) /\
    links x (r1 ++ merge_prev p b' ++ rest) base /\
    (forall c k, fst b + 16 <= c \/ c + k <= fst b -> fst p + 16 <= c \/ c + k <= fst p -> agree x (u_mem s) c k).
Proof.
  intros Hr Hfuel r1 p l1 l2 -> Er L1 L2 Efl Pb Pb2 P0 Pp Hl b' rest. pose proof Hr as [H1 H2 H3 _ H5 H6 _ _].
  destruct (H6 b) as (B1 & B2 & B3 & B4); [set_solver|].
  pose proof (ring_apart _ _ _ H3) as Hap. rewrite Efl in Hap, H5.
  apply asc_app in H3 as [H3a H3b].
  assert (asc (bend b - 1) l2 (u_sz s)) as A2.
  { eapply asc_raise; [exact H3b|intros c Hc; pose proof (L2 c Hc); lia|lia]. }
  destruct (merge_next_ok b l2 (u_sz s)) as (N1 & N2 & N3 & N4 & N5 & N6 & N7); [done|done|done|].
  fold b' rest in N1, N2, N3, N4, N5, N6, N7.
  pose proof Hl as Hl0. apply links_app in Hl0 as [Lr Lp]. cbn [links hd_addr] in Lr, Lp. destruct Lp as (Lp1 & Lp2 & Ll2).
  unfold free. replace (fst b + 16 - HDR) with (fst b) by (unfold HDR; lia).
  unfold bind at 1, gets. erewrite bind_Ok.
  2:{ eapply (free_loop_ok s base (fst b) r1 l2 p); [exact Hl|by apply apart_before|by rewrite <- Efl|lia|..|exact H5|].
      - intros c [Hc| ->]; [|lia]. pose proof (proj1 (apart_mid _ _ _ c Hap) Hc). unfold apart in *. lia.
      - intros c Hc. pose proof (L2 c Hc). unfold bend in *. lia.
      - assert (length ((base, 0) :: l1) = length (r1 ++ [p])) as El by (by rewrite Er).
        rewrite length_app in El, Hfuel. cbn in El. lia. }
  unfold bind at 1, get_size at 1, gets. rewrite B4. unfold bind at 1, get_ptr at 1, gets. rewrite Lp1.
  destruct (free_next base s b l2) as (x1 & E1 & X1 & X2 & X3); try done; try lia.
  { unfold bend in *. lia. } { eapply asc_weaken; [exact A2|lia|lia]. }
  fold b' rest in X1, X2. erewrite bind_Ok by exact E1.
  assert (load32 x1 (fst p + 8) = snd p) as Lp2'.
  { rewrite <- Lp2. apply load32_agree. apply X3. lia. }
  unfold bind at 1, get_size at 1, gets. cbn [u_mem umem_ok]. rewrite Lp2'.
  assert (0 <= hd_addr rest base < 4294967296) as Hrest.
  { destruct rest as [|c rest'] eqn:Erest; cbn [hd_addr]; [unfold bend in *; lia|]. cbn [asc] in N1. destruct N1 as (M1 & M2 & M3).
    apply asc_le in M3. unfold bend in *. rewrite N2 in M1. lia. }
  destruct (free_prev (umem_ok s x1) p b' (hd_addr rest base)) as (x2 & E2 & Y1 & Y2 & Y3);
    rewrite ?N2; try done; try lia.
  { pose proof (asc_le _ _ _ N1). lia. }
  rewrite N2 in E2. erewrite bind_Ok by exact E2. exists x2. split; [reflexivity|]. cbn [u_mem umem_ok] in Y3.
  rewrite N2 in Y1, Y2.
  assert (forall c k, fst b + 16 <= c \/ c + k <= fst b -> fst p + 16 <= c \/ c + k <= fst p -> agree x2 (u_mem s) c k) as HA.
  { intros c k Hc1 Hc2. eapply agree_trans; [by apply Y3|by apply X3]. }
  split; [|exact HA]. apply links_splice; rewrite ?N2.
  - eapply links_frame; [exact Lr|]. intros c Hc. apply apart_mid with (c := c) in Hap as [Hap _]. specialize (Hap Hc).
    unfold apart in Hap. apply HA; lia.
  - done.
  - done.
  - rewrite <- X1. apply load64_agree, Y3. lia.
  - rewrite <- X2. apply load32_agree, Y3. lia.
  - assert (links (u_mem s) rest base) as Lrest.
    { unfold rest, merge_next. destruct l2 as [|c l2']; [done|]. destruct (_ =? _); cbn [snd]; [|done]. apply Ll2. }
    eapply links_frame; [exact Lrest|]. intros c Hc. apply N6 in Hc. pose proof (L2 c Hc).
    unfold bend in *. apply HA; lia.
Qed.

(** The blocks that are not [b] keep their contents. *)
Definition kept (s s' : uheap) (al : list blk) : Prop :=
  forall c, c ∈ al -> agree (u_mem s') (u_mem s) (fst c) (16 * snd c).

Lemma ForallOrdPairs_cons_iff {A} (R : A -> A -> Prop) x l :
  ForallOrdPairs R (x :: l) <-> Forall (R x) l /\ ForallOrdPairs R l.
Proof. split; [intros H; by inversion H|intros []; by constructor]. Qed.

(** The list after [free]. *)
Lemma free_ring base r1 (p : blk) l1 l2 (b b' : blk) rest hi (al : list blk) :
  (base, 0) :: l1 = r1 ++ [p] -> asc (base + 15) l1 (lend (base + 15) l1) -> asc (bend b') rest hi ->
  bend p <= fst b -> base + 16 <= fst b -> fst b' = fst b -> 1 <= snd b' -> snd b <= snd b' ->
  base < bend b' -> (length rest <= length l2)%nat -> snd b' + units rest = snd b + units l2 ->
  (forall c a, c ∈ l1 ++ rest -> a ∈ al -> sep c a) -> (forall a, a ∈ al -> sep b' a) ->
  (forall a, a ∈ al -> 1 <= snd a) ->
  exists fl', r1 ++ merge_prev p b' ++ rest = (base, 0) :: fl' /\ asc (base + 15) fl' hi /\
    units fl' = units (l1 ++ l2) + snd b /\ (length fl' <= length (l1 ++ l2) + 1)%nat /\
    (exists c, c ∈ fl' /\ snd b <= snd c) /\ (forall c a, c ∈ fl' -> a ∈ al -> sep c a).
Proof.
  intros Er Hl1 Hrest Hp Hb Eb Hb' Hbb He Hlen Hu Hs Hsb Ha. destruct r1 as [|d r1]; cbn in Er.
  - injection Er as <- ->. exists (b' :: rest). unfold merge_prev, bend; cbn [fst snd].
    destruct (Z.eqb_spec (base + 16 * 0) (fst b')); [lia|]. cbn [app asc length]. rewrite app_nil_l in *.
    split_and!; try done; [lia| | lia| |].
    + unfold units in *; cbn. lia.
    + exists b'. split; [set_solver|done].
    + intros c a [->|Hc]%elem_of_cons Hac; [by apply Hsb|by apply Hs].
  - injection Er as <- ->. exists (r1 ++ merge_prev p b' ++ rest). split; [done|]. split_and!.
    + apply asc_prev; [|lia|done|done]. unfold lend in Hl1. by rewrite last_snoc in Hl1.
    + rewrite !units_app, merge_prev_units. unfold units at 4. cbn. lia.
    + rewrite !length_app. unfold merge_prev. destruct (_ =? _); cbn; lia.
    + unfold merge_prev. destruct (_ =? _).
      * exists (fst p, snd p + snd b'). split; [set_solver|]. cbn.
        apply asc_app in Hl1 as [_ (_ & ? & _)]. lia.
      * exists b'. split; [set_solver|done].
    + intros c a Hc Hac. apply elem_of_app in Hc as [Hc|Hc]; [apply Hs; set_solver|].
      apply elem_of_app in Hc as [Hc|Hc]; [|apply Hs; set_solver].
      apply merge_prev_in in Hc as [->|[->|(M1 & M2 & M3)]]; [apply Hs; set_solver|by apply Hsb|].
      apply (sep_merge p b' c a); try done; [apply Hs; set_solver|by apply Hsb|by apply Ha].
Qed.

Lemma free_kept base s fl al b x p r1 l1 l2 :
  heap_rep base s fl (b :: al) -> fl = l1 ++ l2 -> (base, 0) :: l1 = r1 ++ [p] ->
  (forall c k, fst b + 16 <= c \/ c + k <= fst b -> fst p + 16 <= c \/ c + k <= fst p -> agree x (u_mem s) c k) ->
  kept s (mkuheap x (fst p) (u_sz s)) al.
Proof.
  intros [H1 H2 H3 _ _ H6 H7 H8] -> Er HA c Hc. cbn [u_mem]. destruct (H6 c) as (C1 & C2 & C3 & C4); [set_solver|].
  destruct (H6 b) as (B1 & B2 & B3 & B4); [set_solver|]. apply ForallOrdPairs_cons_iff in H7 as [H7 _].
  assert (sep b c) as Sbc by (by eapply Forall_forall in H7). unfold sep, bend in *. apply HA; [lia|].
  assert (p ∈ (base, 0) :: l1) as [->|Hp]%elem_of_cons by (rewrite Er; set_solver); [cbn; lia|].
  assert (sep p c) as Spc by (apply H8; set_solver). apply asc_app in H3 as [H3 _].
  destruct (asc_in _ _ _ _ H3 Hp) as (P1 & P2 & _). unfold sep, bend in *. lia.
Qed.

Lemma free_ok base s fl al b fuel :
  heap_rep base s fl (b :: al) -> (length fl + 2 <= fuel)%nat ->
  exists fl' s', free fuel (fst b + 16) s = Ok tt s' /\ heap_rep base s' fl' al /\ u_sz s' = u_sz s /\
    units fl' = units fl + snd b /\ (length fl' <= length fl + 1)%nat /\
    (exists c, c ∈ fl' /\ snd b <= snd c) /\ kept s s' al.
Proof.
  intros Hr Hfuel. destruct (free_split _ _ _ _ _ Hr) as (r1 & p & l1 & l2 & -> & Er & L1 & L2 & Efl & Pb & Pb2 & P0 & Pp & Hl).
  destruct (free_run _ _ _ _ _ _ Hr Hfuel r1 p l1 l2) as (x & E & Hx & HA); try done.
  pose proof Hr as [H1 H2 H3 _ _ H6 H7 H8]. destruct (H6 b) as (B1 & B2 & B3 & B4); [set_solver|].
  apply asc_app in H3 as [H3a H3b].
  destruct (merge_next_ok b l2 (u_sz s)) as (N1 & N2 & N3 & N4 & N5 & N6 & N7); try done.
  { eapply asc_raise; [exact H3b|intros c Hc; pose proof (L2 c Hc); lia|lia]. }
  set (b' := fst (merge_next b l2)) in *. set (rest := snd (merge_next b l2)) in *.
  apply ForallOrdPairs_cons_iff in H7 as [H7 H7'].
  assert (forall a, a ∈ al -> sep b' a) as Sb.
  { intros a Ha. destruct (H6 a) as (_ & A2 & _); [set_solver|].
    assert (sep b a) as Sba by (by eapply Forall_forall in H7).
    destruct N7 as [->|(c & Hc & N7 & N7')]; [done|].
    apply (sep_merge b c b' a); try done; [apply H8; set_solver|].
    apply asc_in with (b := c) in H3b; [apply H3b|done]. }
  assert (exists fl', r1 ++ merge_prev p b' ++ rest = (base, 0) :: fl' /\ asc (base + 15) fl' (u_sz s) /\
    units fl' = units (l1 ++ l2) + snd b /\ (length fl' <= length (l1 ++ l2) + 1)%nat /\
    (exists c, c ∈ fl' /\ snd b <= snd c) /\ (forall c a, c ∈ fl' -> a ∈ al -> sep c a))
    as (fl' & Efl' & F1 & F2 & F3 & F4 & F5).
  { apply free_ring; try done.
    - lia.
    - unfold bend in *. lia.
    - intros c a Hc Ha. apply H8; [|set_solver]. apply elem_of_app in Hc as [Hc|Hc]; [set_solver|]. apply N6 in Hc. set_solver.
    - intros a Ha. apply H6. set_solver. }
  exists fl', (mkuheap x (fst p) (u_sz s)). rewrite Efl' in Hx. split_and!; try done.
  - assert (kept s (mkuheap x (fst p) (u_sz s)) al) as HK by (exact (free_kept _ _ _ _ _ _ _ _ _ _ Hr eq_refl Er HA)).
    split; try done.
    + rewrite <- Efl'. apply list_elem_of_fmap. unfold merge_prev.
      destruct (_ =? _); [exists (fst p, snd p + snd b')|exists p]; (split; [done|set_solver]).
    + intros c Hc. destruct (H6 c) as (C1 & C2 & C3 & C4); [set_solver|]. split_and!; try done. cbn [u_mem].
      rewrite <- C4. apply load32_agree. eapply agree_sub; [by apply HK|lia|lia].
  - exact (free_kept _ _ _ _ _ _ _ _ _ _ Hr eq_refl Er HA).
Qed.
