(* ===== verification/UmallocSpec.v ===== *)
(** * Correctness of [malloc] and [free]

    The scan of the ring, taking a block from it, and the contract of the two
    functions. *)

From Stdlib Require Import Sorted.
From S2P Require Import Prelude Memory Umalloc UmallocFree.

(** ** Taking a block *)

Lemma links_inj m R e q1 q2 a :
  links m R e -> StronglySorted before R -> q1 ∈ R -> q2 ∈ R ->
  load64 m (fst q1) = a -> load64 m (fst q2) = a -> a <> e -> q1 = q2.
Proof.
  induction R as [|c R IH]; intros Hl Hs H1 H2 E1 E2 Ha; [by apply elem_of_nil in H1|].
  apply StronglySorted_inv in Hs as [Hs HF]. destruct Hl as (L1 & _ & Hl).
  assert (forall q, q ∈ R -> load64 m (fst c) = a -> load64 m (fst q) = a -> False) as Hx.
  { clear - Hl Hs L1 Ha. intros q Hq Ec Eq. apply list_elem_of_split in Hq as (x & y & ->).
    apply links_in in Hl as [Hq _]. destruct y as [|d y]; cbn [hd_addr] in Hq; [congruence|].
    destruct x as [|g x]; cbn [hd_addr app] in L1.
    - apply (sorted_next [] q d y) in Hs. lia.
    - cbn in Hs. apply StronglySorted_inv in Hs as [_ HF]. eapply (Forall_forall _ _) in HF; [|apply elem_of_app; right; apply elem_of_cons; right; by left].
      unfold before in HF. lia. }
  apply elem_of_cons in H1 as [->|H1]; apply elem_of_cons in H2 as [->|H2]; [done| | |by eapply IH]; exfalso.
  - by apply (Hx q2).
  - by apply (Hx q1).
Qed.

Lemma rep_ring base s fl al : heap_rep base s fl al -> StronglySorted apart ((base, 0) :: fl).
Proof. intros H. by eapply ring_apart, hr_asc. Qed.

(** The predecessor of a free block. *)
Lemma rep_pred base s fl al b q :
  heap_rep base s fl al -> b ∈ fl -> q ∈ (base, 0) :: fl -> load64 (u_mem s) (fst q) = fst b ->
  exists x y, (base, 0) :: fl = x ++ q :: b :: y.
Proof.
  intros Hr Hb Hq E. apply list_elem_of_split in Hb as (u & y & Ef).
  destruct (ring_snoc (base, 0) u) as (x & q' & Ex).
  assert ((base, 0) :: fl = x ++ q' :: b :: y) as ER.
  { rewrite Ef. change ((base, 0) :: u ++ b :: y) with (((base, 0) :: u) ++ b :: y). by rewrite Ex, <- app_assoc. }
  exists x, y. rewrite ER. do 2 f_equal. pose proof (hr_links _ _ _ _ Hr) as Hl. rewrite ER in Hl.
  pose proof (links_in _ _ _ _ _ Hl) as [Hq' _]. eapply (links_inj (u_mem s)); [exact Hl|..|exact Hq'|exact E|].
  - rewrite <- ER. by eapply apart_before, rep_ring.
  - set_solver.
  - by rewrite <- ER.
  - cbn. assert (b ∈ fl) as Hb by (rewrite Ef; set_solver).
    pose proof (asc_in _ _ _ _ (hr_asc _ _ _ _ Hr) Hb). lia.
Qed.

Lemma asc_mid lo z b y hi c :
  asc lo (z ++ b :: y) hi -> (c ∈ z -> bend c < fst b) /\ (c ∈ y -> bend b < fst c).
Proof.
  intros H. apply asc_app in H as [H1 (H2 & H3 & H4)]. split; intros Hc.
  - apply (asc_in _ _ _ _ H1) in Hc. lia.
  - apply (asc_in _ _ _ _ H4) in Hc. lia.
Qed.

Lemma asc_remove lo z b y hi : asc lo (z ++ b :: y) hi -> asc lo (z ++ y) hi.
Proof.
  rewrite !asc_app. intros [H1 (H2 & H3 & H4)]. split; [done|]. eapply asc_weaken; [exact H4|unfold bend; lia|lia].
Qed.

Lemma asc_shrink lo z b y hi k :
  asc lo (z ++ b :: y) hi -> 1 <= k <= snd b -> asc lo (z ++ (fst b, k) :: y) hi.
Proof.
  rewrite !asc_app. cbn [asc fst snd]. intros [H1 (H2 & H3 & H4)] Hk. split_and!; try done; [lia|].
  eapply asc_weaken; [exact H4|unfold bend; cbn; lia|lia].
Qed.

Lemma ring_tail base fl x (q b : blk) y :
  (base, 0) :: fl = x ++ q :: b :: y -> exists z, fl = z ++ b :: y /\ (base, 0) :: z = x ++ [q].
Proof.
  intros E. destruct x as [|d x]; cbn in E.
  - injection E as <- ->. by exists [].
  - injection E as <- ->. exists (x ++ [q]). by rewrite <- app_assoc.
Qed.

(** A block of the heap that is handed out. *)
Lemma rep_alloc base s s' fl fl' al (b n : blk) z y :
  heap_rep base s fl al -> fl = z ++ b :: y -> asc (base + 15) fl' (u_sz s) -> u_sz s' = u_sz s ->
  links (u_mem s') ((base, 0) :: fl') base -> u_freep s' ∈ fst <$> (base, 0) :: fl' ->
  fst b <= fst n -> bend n <= bend b -> 1 <= snd n -> load32 (u_mem s') (fst n + 8) = snd n -> kept s s' al ->
  (forall c, c ∈ fl' -> c ∈ z \/ c ∈ y \/ (fst c = fst b /\ 1 <= snd c /\ bend c <= fst n)) ->
  heap_rep base s' fl' (n :: al).
Proof.
  intros [H1 H2 H3 _ _ H6 H7 H8] -> Ha Es Hl Hf N1 N2 N3 N4 HK Hin.
  assert (forall c, sep b c -> 1 <= snd c -> sep n c) as Hsep by (intros c; unfold sep, bend in *; lia).
  assert (b ∈ z ++ b :: y) as Hb by set_solver. pose proof (asc_in _ _ _ _ H3 Hb) as (B1 & B2 & B3).
  split; rewrite ?Es; try done.
  - intros c [->|Hc]%elem_of_cons; [unfold bend in *; split_and!; (lia || done)|].
    destruct (H6 c Hc) as (C1 & C2 & C3 & C4). split_and!; try done. rewrite <- C4. apply load32_agree.
    eapply agree_sub; [by apply HK|lia|lia].
  - apply ForallOrdPairs_cons_iff. split; [|done]. apply Forall_forall. intros c Hc.
    apply Hsep; [by apply H8|by apply H6].
  - intros c d Hc [->|Hd]%elem_of_cons.
    + pose proof (asc_mid _ _ _ _ _ c H3) as [M1 M2]. unfold sep.
      destruct (Hin c Hc) as [Hz|[Hy|(C1 & C2 & C3)]]; [specialize (M1 Hz); lia|specialize (M2 Hy); lia|lia].
    + destruct (H6 d Hd) as (_ & D2 & _).
      destruct (Hin c Hc) as [Hz|[Hy|(C1 & C2 & C3)]]; [apply H8; [set_solver|done]..|].
      assert (sep b d) as Sbd by (by apply H8). unfold sep, bend in *. lia.
Qed.

Lemma load32_u32 m a v : 0 <= v < 4294967296 -> load32 (store32 m a (u32 v)) a = v.
Proof. intros H. rewrite load32_store32_same, !u32_small; [done|done|by rewrite u32_small]. Qed.

(** The block after [q] is taken from the ring, whole or its upper part. *)
Section take.
Variables (base : Z) (s : uheap) (al x y z : list blk) (q b : blk).
Hypothesis Hr : heap_rep base s (z ++ b :: y) al.
Hypothesis Ez : (base, 0) :: z = x ++ [q].

Lemma take_facts :
  StronglySorted apart (x ++ q :: b :: y) /\ apart q b /\ base + 15 < fst b /\ bend b <= u_sz s /\
  u_sz s <= 4294967296 /\ 0 < base /\ 0 < fst q /\
  links (u_mem s) x (fst q) /\ load64 (u_mem s) (fst q) = fst b /\ load32 (u_mem s) (fst q + 8) = snd q /\
  load64 (u_mem s) (fst b) = hd_addr y base /\ load32 (u_mem s) (fst b + 8) = snd b /\ links (u_mem s) y base /\
  0 <= hd_addr y base < 4294967296.
Proof.
  pose proof Hr as [H1 H2 H3 H4 _ _ _ _]. pose proof (rep_ring _ _ _ _ Hr) as Hap.
  assert ((base, 0) :: z ++ b :: y = x ++ q :: b :: y) as ER
    by (change ((base, 0) :: z ++ b :: y) with (((base, 0) :: z) ++ b :: y); by rewrite Ez, <- app_assoc).
  rewrite ER in Hap, H4. assert (b ∈ z ++ b :: y) as Hb by set_solver. pose proof (asc_in _ _ _ _ H3 Hb) as (B1 & B2 & B3).
  rewrite links_app in H4. cbn [links hd_addr] in H4. destruct H4 as (Lx & Lq1 & Lq2 & Lb1 & Lb2 & Ly).
  split_and!; try done; try lia.
  - apply (apart_mid x q (b :: y) b Hap); set_solver.
  - assert (q ∈ (base, 0) :: z) as [->|Hq]%elem_of_cons by (rewrite Ez; set_solver); [done|].
    assert (q ∈ z ++ b :: y) as Hq' by set_solver. pose proof (asc_in _ _ _ _ H3 Hq'). lia.
  - destruct y as [|c y']; cbn [hd_addr]; [lia|]. assert (c ∈ z ++ b :: c :: y') as Hc by set_solver.
    pose proof (asc_in _ _ _ _ H3 Hc). lia.
  - destruct y as [|c y']; cbn [hd_addr]; [lia|]. assert (c ∈ z ++ b :: c :: y') as Hc by set_solver.
    pose proof (asc_in _ _ _ _ H3 Hc). unfold bend in *. lia.
Qed.

(** Writes to the headers of blocks of the ring, and inside of [b], leave the
    blocks handed out alone. *)
Lemma take_kept m p a :
  (forall c k, (a + 16 <= c \/ c + k <= a) -> (fst b <= c \/ c + k <= fst b) -> (bend b <= c \/ c + k <= fst b) ->
     agree m (u_mem s) c k) ->
  a = fst q \/ a = fst b -> kept s (mkuheap m p (u_sz s)) al.
Proof.
  intros HA Hq c Hc. pose proof Hr as [H1 H2 H3 _ _ H6 _ H8]. destruct (H6 c Hc) as (C1 & C2 & C3 & _). cbn [u_mem].
  assert (sep b c) as Sb by (apply H8; [set_solver|done]). assert (b ∈ z ++ b :: y) as Hb by set_solver.
  pose proof (asc_in _ _ _ _ H3 Hb) as (_ & B2 & _).
  assert (a + 16 <= fst c \/ bend c <= a) as Ha.
  { destruct Hq as [->| ->]; [|unfold sep, bend in *; lia].
    assert (q ∈ (base, 0) :: z) as [->|Hq]%elem_of_cons by (rewrite Ez; set_solver); [cbn; lia|].
    assert (sep q c) as Sq by (apply H8; [set_solver|done]). assert (q ∈ z ++ b :: y) as Hq' by set_solver.
    pose proof (asc_in _ _ _ _ H3 Hq') as (_ & Q2 & _). unfold sep, bend in *. lia. }
  apply HA; unfold sep, bend in *; lia.
Qed.

Lemma take_exact :
  let s' := mkuheap (store64 (u_mem s) (fst q) (hd_addr y base)) (fst q) (u_sz s) in
  heap_rep base s' (z ++ y) (b :: al) /\ kept s s' al.
Proof.
  destruct take_facts as (Hap & Aqb & B1 & B2 & B3 & B4 & B5 & Lx & Lq1 & Lq2 & Lb1 & Lb2 & Ly & Hy). intros s'.
  assert (forall c k, fst q + 16 <= c \/ c + k <= fst q -> agree (u_mem s') (u_mem s) c k) as HA
    by (intros c k Hc; apply store64_agree_disjoint; lia).
  assert (kept s s' al) as HK by (apply (take_kept _ _ (fst q)); auto).
  split; [|done]. pose proof (hr_asc _ _ _ _ Hr) as H3. assert (b ∈ z ++ b :: y) as Hb by set_solver.
  pose proof (asc_in _ _ _ _ H3 Hb) as (_ & Bn & _).
  apply (rep_alloc base s s' (z ++ b :: y) (z ++ y) al b b z y Hr eq_refl); try done; try lia.
  - by eapply asc_remove.
  - change ((base, 0) :: z ++ y) with (((base, 0) :: z) ++ y). rewrite Ez, <- app_assoc. cbn [app].
    rewrite links_app. cbn [links hd_addr]. unfold s' at 2 3; cbn [u_mem].
    rewrite load64_store64_same, load32_store64_other by lia. rewrite u64_small by lia. split_and!; try done.
    + eapply links_frame; [exact Lx|]. intros c Hc. apply HA. pose proof (proj1 (apart_mid _ _ _ c Hap) Hc). unfold apart in *. lia.
    + eapply links_frame; [exact Ly|]. intros c Hc. apply HA.
      assert (c ∈ b :: y) as Hc' by set_solver. pose proof (proj2 (apart_mid x q (b :: y) c Hap) Hc'). unfold apart in *. lia.
  - cbn [u_freep s']. change ((base, 0) :: z ++ y) with (((base, 0) :: z) ++ y). rewrite Ez. set_solver.
  - cbn [u_mem s']. by rewrite load32_store64_other by (unfold apart in *; lia).
  - set_solver.
Qed.

Lemma take_split k :
  1 <= k < snd b ->
  let n := (fst b + 16 * (snd b - k), k) in
  let s' := mkuheap (store32 (store32 (u_mem s) (fst b + 8) (u32 (snd b - k))) (fst n + 8) (u32 k)) (fst q) (u_sz s) in
  heap_rep base s' (z ++ (fst b, snd b - k) :: y) (n :: al) /\ kept s s' al.
Proof.
  destruct take_facts as (Hap & Aqb & B1 & B2 & B3 & B4 & B5 & Lx & Lq1 & Lq2 & Lb1 & Lb2 & Ly & Hy). intros Hk n s'.
  assert (forall c k', fst b + 16 <= c \/ c + k' <= fst b -> fst n + 16 <= c \/ c + k' <= fst n -> agree (u_mem s') (u_mem s) c k') as HA.
  { intros c k' Hc Hc'. eapply agree_trans; apply store32_agree_disjoint; lia. }
  unfold bend in B2.
  assert (kept s s' al) as HK.
  { apply (take_kept _ _ (fst b)); [|auto]. intros c k' H1 H2 H4. apply HA; cbn [fst n]; unfold bend in *; lia. }
  split; [|done]. pose proof (hr_asc _ _ _ _ Hr) as H3.
  assert (load32 (u_mem s') (fst n + 8) = k /\ load32 (u_mem s') (fst b + 8) = snd b - k) as [Ln Lb].
  { split; cbn [u_mem s'].
    - apply load32_u32. lia.
    - rewrite load32_store32_other by (cbn [fst n]; lia). apply load32_u32. lia. }
  apply (rep_alloc base s s' (z ++ b :: y) (z ++ (fst b, snd b - k) :: y) al b n z y Hr eq_refl); try done;
    cbn [fst snd n]; try lia.
  - apply asc_shrink; [done|lia].
  - change ((base, 0) :: z ++ (fst b, snd b - k) :: y) with (((base, 0) :: z) ++ (fst b, snd b - k) :: y).
    rewrite Ez, <- app_assoc. cbn [app]. rewrite links_app. cbn [links hd_addr fst snd].
    assert (forall c : blk, fst c + 16 <= fst b \/ bend b < fst c -> agree (u_mem s') (u_mem s) (fst c) 16) as HF.
    { intros c Hc. apply HA; cbn [fst n]; unfold bend in *; lia. }
    assert (agree (u_mem s') (u_mem s) (fst q) 16) as Hq by (apply HF; unfold apart in *; lia).
    split_and!; try done.
    + eapply links_frame; [exact Lx|]. intros c Hc. apply HF. pose proof (proj1 (apart_mid _ _ _ c Hap) Hc). unfold apart in *. lia.
    + rewrite <- Lq1. apply load64_agree. eapply agree_sub; [exact Hq|lia|lia].
    + rewrite <- Lq2. apply load32_agree. eapply agree_sub; [exact Hq|lia|lia].
    + rewrite <- Lb1. cbn [u_mem s']. rewrite !load64_store32_other by (cbn [fst n]; lia). done.
    + eapply links_frame; [exact Ly|]. intros c Hc. apply HF. right. by apply (asc_mid _ _ _ _ _ c H3).
  - cbn [u_freep s']. change ((base, 0) :: z ++ (fst b, snd b - k) :: y) with (((base, 0) :: z) ++ (fst b, snd b - k) :: y).
    rewrite Ez. set_solver.
  - unfold bend; cbn. lia.
  - intros c Hc. apply elem_of_app in Hc as [Hc|[->|Hc]%elem_of_cons]; [by left| |by right; left].
    right. right. unfold bend; cbn. split_and!; lia.
Qed.
End take.

Lemma take_ok base s fl al x q b y nunits :
  heap_rep base s fl al -> (base, 0) :: fl = x ++ q :: b :: y -> 1 <= nunits <= snd b ->
  exists n s' fl',
    (let! p' := (if snd b =? nunits then
                   let! next := get_ptr (fst b) in
                   set_ptr (fst q) next ;;
                   ret (fst b)
                 else
                   set_size (fst b) (snd b - nunits) ;;
                   let! size' := get_size (fst b) in
                   let p' := fst b + HDR * size' in
                   set_size p' nunits ;;
                   ret p') in
     modify (set_ufreep (fst q)) ;;
     ret (p' + HDR)) s = Ok (fst n + 16) s' /\
    heap_rep base s' fl' (n :: al) /\ snd n = nunits /\ units fl = units fl' + nunits /\ u_sz s' = u_sz s /\ kept s s' al.
Proof.
  intros Hr ER Hn. destruct (ring_tail _ _ _ _ _ _ ER) as (z & -> & Ez).
  destruct (take_facts _ _ _ _ _ _ _ _ Hr Ez) as (_ & _ & B1 & B2 & B3 & B4 & _ & _ & _ & _ & Lb1 & Lb2 & _).
  destruct (Z.eqb_spec (snd b) nunits) as [E|E].
  - destruct (take_exact _ _ _ _ _ _ _ _ Hr Ez) as [T1 T2]. eexists b, _, (z ++ y). split.
    { unfold bind, get_ptr, gets, set_ptr, modify, ret. rewrite Lb1. reflexivity. }
    split_and!; [exact T1|done| |done|exact T2]. rewrite !units_app. unfold units at 2. cbn. fold (units y). lia.
  - destruct (take_split _ _ _ _ _ _ _ _ Hr Ez nunits) as [T1 T2]; [lia|].
    eexists (_, nunits), _, (z ++ (fst b, snd b - nunits) :: y). split.
    { unfold bind, get_size, gets, set_size, modify, ret. cbn [u_mem set_umem set_ufreep u_freep u_sz].
      rewrite load32_u32 by (unfold bend in *; lia). reflexivity. }
    split_and!; [exact T1|done| |done|exact T2]. rewrite !units_app. unfold units at 2 4. cbn. fold (units y). lia.
Qed.

(** ** The scan of the ring *)

Section malloc.
Variable base : Z.
Variable sbrk : Z -> M uheap Z.

(** [malloc] has found a block. *)
Definition got (s : uheap) (fl al : list blk) (nunits : Z) (o : outcome uheap Z) : Prop :=
  exists n s' fl', o = Ok (fst n + 16) s' /\ heap_rep base s' fl' (n :: al) /\ snd n = nunits /\
    units fl = units fl' + nunits /\ u_sz s' = u_sz s /\ kept s s' al.

Lemma malloc_step fuel n nunits prevp p s :
  malloc_loop sbrk (S fuel) n nunits prevp p s =
  if nunits <=? load32 (u_mem s) (p + 8) then
    (let! p' := (if load32 (u_mem s) (p + 8) =? nunits then
                   let! next := get_ptr p in
                   set_ptr prevp next ;;
                   ret p
                 else
                   set_size p (load32 (u_mem s) (p + 8) - nunits) ;;
                   let! size' := get_size p in
                   let p' := p + HDR * size' in
                   set_size p' nunits ;;
                   ret p') in
     modify (set_ufreep prevp) ;;
     ret (p' + HDR)) s
  else if p =? u_freep s then
    (let! q := morecore sbrk n nunits in
     if q =? 0 then ret 0 else let! next := get_ptr q in malloc_loop sbrk fuel n nunits q next) s
  else malloc_loop sbrk fuel n nunits p (load64 (u_mem s) p) s.
Proof.
  cbn [malloc_loop]. unfold bind at 1, get_size at 1, gets at 1. destruct (_ <=? _); [done|].
  unfold bind at 1, gets at 1. by destruct (_ =? _).
Qed.

(** [L] is the ring read from the block after [freep], [fb] the block of [freep]. *)
Lemma scan_ok s fl al L fb nunits n :
  heap_rep base s fl al -> (forall b, b ∈ L <-> b ∈ (base, 0) :: fl) -> NoDup (fst <$> L) ->
  links (u_mem s) L (hd_addr L 0) -> u_freep s = fst fb -> 1 <= nunits ->
  forall y x q fuel, L = x ++ y -> (exists y0, y = y0 ++ [fb]) -> q ∈ (base, 0) :: fl ->
    load64 (u_mem s) (fst q) = hd_addr y 0 -> Forall (fun b => snd b < nunits) x -> (length y <= fuel)%nat ->
  got s fl al nunits (malloc_loop sbrk fuel n nunits (fst q) (hd_addr y 0) s) \/
  (Forall (fun b => snd b < nunits) L /\
   malloc_loop sbrk fuel n nunits (fst q) (hd_addr y 0) s =
   (let! p := morecore sbrk n nunits in
    if p =? 0 then ret 0 else let! next := get_ptr p in malloc_loop sbrk (fuel - length y) n nunits p next) s).
Proof.
  intros Hr HL Hnd Hl Hf Hn y. induction y as [|b y IH]; intros x q fuel -> [y0 Ey] Hq Eq Hx Hfuel.
  { by destruct y0. }
  destruct fuel as [|fuel]; [cbn in Hfuel; lia|]. cbn [length] in Hfuel.
  pose proof (links_in _ _ _ _ _ Hl) as [Lb1 Lb2]. cbn [hd_addr] in *. rewrite malloc_step, Lb2.
  assert (b ∈ (base, 0) :: fl) as Hb by (apply HL; set_solver).
  destruct (Z.leb_spec nunits (snd b)) as [Hle|Hlt].
  - left. assert (b ∈ fl) as Hb' by (apply elem_of_cons in Hb as [->|Hb]; [cbn in Hle; lia|done]).
    destruct (rep_pred _ _ _ _ _ _ Hr Hb' Hq Eq) as (u & v & ER).
    destruct (take_ok _ _ _ _ _ _ _ _ nunits Hr ER) as (n' & s' & fl' & E & T); [lia|]. exists n', s', fl'.
    split; [exact E|exact T].
  - rewrite Hf. destruct y as [|c y].
    + assert (b = fb) as -> by (destruct y0 as [|? []]; cbn in Ey; congruence). rewrite Z.eqb_refl. right. split.
      * apply Forall_app. split; [done|]. by repeat constructor.
      * cbn [length]. by replace (S fuel - 1)%nat with fuel by lia.
    + destruct y0 as [|d y0]; cbn in Ey; [done|]. injection Ey as <- Ey.
      assert (fst b <> fst fb) as Hne.
      { intros E. rewrite Ey, fmap_app in Hnd. cbn in Hnd. apply NoDup_app in Hnd as (_ & _ & Hnd).
        apply NoDup_cons in Hnd as [Hnd _]. apply Hnd. rewrite fmap_app, E. set_solver. }
      destruct (Z.eqb_spec (fst b) (fst fb)); [done|]. rewrite Lb1. cbn [hd_addr].
      destruct (IH (x ++ [b]) b fuel) as [G|[G1 G2]]; try done.
      * by rewrite <- app_assoc.
      * by exists y0.
      * apply Forall_app. split; [done|]. by repeat constructor.
      * cbn [length] in *. lia.
      * by left.
      * right. split; [exact G1|exact G2].
Qed.

(** The ring from the block after [freep] on. *)
Lemma ring_from s fl al :
  heap_rep base s fl al ->
  exists y0 fb, u_freep s = fst fb /\ fb ∈ (base, 0) :: fl /\ (forall b, b ∈ y0 ++ [fb] <-> b ∈ (base, 0) :: fl) /\
    NoDup (fst <$> y0 ++ [fb]) /\ length (y0 ++ [fb]) = S (length fl) /\
    links (u_mem s) (y0 ++ [fb]) (hd_addr (y0 ++ [fb]) 0) /\ load64 (u_mem s) (fst fb) = hd_addr (y0 ++ [fb]) 0.
Proof.
  intros Hr. pose proof (hr_freep _ _ _ _ Hr) as (fb & Ef & Hfb)%list_elem_of_fmap.
  pose proof (hr_links _ _ _ _ Hr) as Hl. pose proof (apart_before _ (rep_ring _ _ _ _ Hr)) as Hs.
  pose proof Hfb as Hfb'. apply list_elem_of_split in Hfb' as (a & c & ER). exists (c ++ a), fb.
  assert (hd_addr ((base, 0) :: fl) 0 = base) as Eh by done. rewrite ER in *.
  assert (links (u_mem s) ((c ++ a) ++ [fb]) (hd_addr ((c ++ a) ++ [fb]) 0)) as Hl'.
  { rewrite <- app_assoc. apply links_rot. rewrite <- app_assoc. cbn [app]. by rewrite Eh. }
  split_and!; try done.
  - intros b. set_solver.
  - assert (forall l, StronglySorted before l -> NoDup (fst <$> l)) as HN.
    { clear. induction 1 as [|b l Hl IH HF]; cbn; constructor; [|done].
      intros (d & Ed & Hd)%list_elem_of_fmap. eapply (Forall_forall _ _) in HF; [|exact Hd]. unfold before in HF. lia. }
    apply HN in Hs. eapply NoDup_Permutation_proper; [|exact Hs]. apply fmap_Permutation.
    rewrite Permutation_app_comm. cbn. rewrite (Permutation_app_comm c a). apply Permutation_middle.
  - assert (length ((base, 0) :: fl) = length (a ++ fb :: c)) as El by (by rewrite ER).
    rewrite !length_app in *. cbn in *. lia.
  - pose proof (links_in _ (c ++ a) fb [] _ Hl') as [E _]. exact E.
Qed.

(** ** More memory *)

(** What the allocator relies on: [sbrk(n)], for a positive [n], fails with
    (char * )-1 and changes nothing, or extends the process by [n] bytes above its
    old end, which it returns, and keeps the memory below. *)
Definition sbrk_grows : Prop :=
  forall n s, 0 < n ->
    sbrk n s = Ok (u64 (-1)) s \/
    exists m, sbrk n s = Ok (u_sz s) (mkuheap m (u_freep s) (u_sz s + n)) /\
      agree m (u_mem s) 0 (u_sz s) /\ u_sz s + n <= 4294967296.

(** The new memory as a block handed out. *)
Lemma rep_grow s fl al m nu :
  heap_rep base s fl al -> agree m (u_mem s) 0 (u_sz s) -> 1 <= nu -> u_sz s + 16 * nu <= 4294967296 ->
  let s' := mkuheap (store32 m (u_sz s + 8) (u32 nu)) (u_freep s) (u_sz s + 16 * nu) in
  heap_rep base s' fl ((u_sz s, nu) :: al) /\ kept s s' al.
Proof.
  intros [H1 H2 H3 H4 H5 H6 H7 H8] Hm Hnu Hsz s'.
  assert (forall a k, 0 <= a -> a + k <= u_sz s -> agree (u_mem s') (u_mem s) a k) as HA.
  { intros a k Ha Hk. eapply agree_trans; [apply store32_agree_disjoint; lia|]. eapply agree_sub; [exact Hm|lia|lia]. }
  assert (kept s s' al) as HK.
  { intros c Hc. destruct (H6 c Hc) as (C1 & C2 & C3 & _). unfold bend in *. apply HA; lia. }
  split; [|done]. split; cbn [u_sz s']; try done.
  - lia.
  - eapply asc_weaken; [exact H3|lia|lia].
  - eapply links_frame; [exact H4|]. intros b [->|Hb]%elem_of_cons; cbn [fst]; [apply HA; lia|].
    pose proof (asc_in _ _ _ _ H3 Hb). unfold bend in *. apply HA; lia.
  - intros c [->|Hc]%elem_of_cons; cbn [fst snd].
    + unfold bend; cbn. split_and!; try lia. cbn [u_mem s']. apply load32_u32. lia.
    + destruct (H6 c Hc) as (C1 & C2 & C3 & C4). split_and!; try done; [lia|].
      rewrite <- C4. unfold bend in *. apply load32_agree, HA; lia.
  - apply ForallOrdPairs_cons_iff. split; [|done]. apply Forall_forall. intros c Hc.
    destruct (H6 c Hc) as (_ & _ & C3 & _). by right.
  - intros b c Hb [->|Hc]%elem_of_cons; [|by apply H8]. left. cbn. by apply (asc_in _ _ _ _ H3 Hb).
Qed.

Lemma kept_trans s1 s2 s3 al : kept s1 s2 al -> kept s2 s3 al -> kept s1 s3 al.
Proof. intros H1 H2 c Hc. eapply agree_trans; [by apply H2|by apply H1]. Qed.

Lemma morecore_ok s fl al nu fuel :
  sbrk_grows -> heap_rep base s fl al -> 1 <= nu <= 134217727 -> (length fl + 2 <= fuel)%nat ->
  morecore sbrk fuel nu s = Ok 0 s \/
  exists s' fl', morecore sbrk fuel nu s = Ok (u_freep s') s' /\ heap_rep base s' fl' al /\
    (length fl' <= length fl + 1)%nat /\ (exists c, c ∈ fl' /\ nu <= snd c) /\ kept s s' al /\ u_sz s <= u_sz s'.
Proof.
  intros Hsb Hr Hnu Hf. unfold morecore. set (nu' := if nu <? 4096 then 4096 else nu).
  assert (nu <= nu' /\ 1 <= nu' <= 134217727) as [Hle Hnu'] by (unfold nu'; destruct (Z.ltb_spec nu 4096); lia).
  rewrite s32_small by (unfold HDR; lia). unfold HDR.
  destruct (Hsb (nu' * 16) s) as [E|(m & E & Hm & Hsz)]; [lia| |]; erewrite bind_Ok by exact E.
  { left. by rewrite Z.eqb_refl. }
  pose proof (hr_sz _ _ _ _ Hr) as Hsz'. pose proof (hr_base _ _ _ _ Hr) as Hb.
  destruct (Z.eqb_spec (u_sz s) (u64 (-1))) as [E'|_]; [change (u64 (-1)) with 18446744073709551615 in E'; lia|]. right.
  replace (nu' * 16) with (16 * nu') in * by lia.
  destruct (rep_grow s fl al m nu') as [G1 G2]; try done; try lia.
  destruct (free_ok _ _ _ _ _ fuel G1) as (fl' & s' & F1 & F2 & F3 & F4 & F5 & F6 & F7); [done|].
  exists s', fl'. split; [|split_and!; try done].
  - erewrite bind_Ok by reflexivity. cbn [fst] in F1. erewrite bind_Ok by exact F1. reflexivity.
  - destruct F6 as (c & Hc & Hcn). exists c. split; [done|]. cbn in Hcn. lia.
  - by eapply kept_trans.
  - rewrite F3. cbn. lia.
Qed.

(** ** [malloc] *)

(** One pass over the ring from [freep]. *)
Lemma pass_ok s fl al nunits n fuel :
  heap_rep base s fl al -> 1 <= nunits -> (length fl + 1 <= fuel)%nat ->
  got s fl al nunits (malloc_loop sbrk fuel n nunits (u_freep s) (load64 (u_mem s) (u_freep s)) s) \/
  (Forall (fun b => snd b < nunits) fl /\
   malloc_loop sbrk fuel n nunits (u_freep s) (load64 (u_mem s) (u_freep s)) s =
   (let! p := morecore sbrk n nunits in
    if p =? 0 then ret 0
    else let! next := get_ptr p in malloc_loop sbrk (fuel - (length fl + 1)) n nunits p next) s).
Proof.
  intros Hr Hn Hf. destruct (ring_from _ _ _ Hr) as (y0 & fb & Ef & Hfb & HL & Hnd & Hlen & Hl & E).
  rewrite Ef, E.
  destruct (scan_ok s fl al (y0 ++ [fb]) fb nunits n Hr HL Hnd Hl Ef Hn (y0 ++ [fb]) [] fb fuel) as [G|[G1 G2]]; try done.
  - by exists y0.
  - lia.
  - by left.
  - right. split.
    + apply Forall_forall. intros b Hb. eapply (Forall_forall _ _) in G1; [exact G1|]. apply HL. set_solver.
    + rewrite G2, Hlen. by replace (S (length fl)) with (length fl + 1)%nat by lia.
Qed.

(** The state before the first call, or a heap. *)
Definition heap_state (s : uheap) (fl al : list blk) : Prop :=
  heap_rep base s fl al \/
  (u_freep s = 0 /\ fl = [] /\ al = [] /\ 0 < base /\ base + 16 <= u_sz s <= 4294967296).

Lemma malloc_start s fl al :
  heap_state s fl al ->
  exists s', (let! freep := gets u_freep in
              if freep =? 0 then set_ptr base base ;; modify (set_ufreep base) ;; set_size base 0 else ret tt) s = Ok tt s' /\
    heap_rep base s' fl al /\ kept s s' al /\ u_sz s' = u_sz s.
Proof.
  intros [Hr|(Ef & -> & -> & Hb & Hs)]; unfold bind at 1, gets.
  - pose proof (hr_freep _ _ _ _ Hr) as (fb & E & Hfb)%list_elem_of_fmap. pose proof (hr_base _ _ _ _ Hr).
    assert (0 < u_freep s) as Hpos.
    { rewrite E. apply elem_of_cons in Hfb as [->|Hfb]; [done|]. pose proof (asc_in _ _ _ _ (hr_asc _ _ _ _ Hr) Hfb). lia. }
    destruct (Z.eqb_spec (u_freep s) 0); [lia|]. exists s. split; [done|]. split; [done|]. split; [|done]. by intros c Hc.
  - rewrite Ef. cbn [Z.eqb]. eexists. split; [reflexivity|]. split; [|split; [|done]].
    + split; cbn [u_sz set_umem set_ufreep u_mem u_freep]; try done.
      * cbn. lia.
      * cbn [links hd_addr fst snd]. split_and!; try done.
        -- rewrite load64_store32_other, load64_store64_same by lia. apply u64_small. lia.
        -- by apply (load32_u32 _ _ 0).
      * cbn. set_solver.
      * intros b Hb'. by apply elem_of_nil in Hb'.
      * constructor.
      * intros b c Hb'. by apply elem_of_nil in Hb'.
    + intros c Hc. by apply elem_of_nil in Hc.
Qed.

Lemma malloc_ok s fl al nbytes fuel :
  sbrk_grows -> heap_state s fl al -> 0 <= nbytes <= 2147483616 -> (2 * length fl + 6 <= fuel)%nat ->
  exists s' fl' r, malloc base sbrk fuel nbytes s = Ok r s' /\ kept s s' al /\
    ((r = 0 /\ heap_rep base s' fl' al) \/
     exists n, r = fst n + 16 /\ nbytes <= 16 * (snd n - 1) /\ heap_rep base s' fl' (n :: al)).
Proof.
  intros Hsb Hr Hb Hf. unfold malloc. set (nunits := u32 ((nbytes + HDR - 1) / HDR + 1)).
  assert (nunits = (nbytes + 15) / 16 + 1) as En.
  { unfold nunits, HDR. replace (nbytes + 16 - 1) with (nbytes + 15) by lia. apply u32_small.
    assert (0 <= (nbytes + 15) / 16 <= 134217728); [|lia]. split; [apply Z.div_pos; lia|apply Z.div_le_upper_bound; lia]. }
  assert (1 <= nunits <= 134217727 /\ nbytes <= 16 * (nunits - 1)) as [Hn Hbn].
  { rewrite En. pose proof (Z.div_mod (nbytes + 15) 16 ltac:(lia)). pose proof (Z.mod_pos_bound (nbytes + 15) 16 ltac:(lia)). lia. }
  destruct (malloc_start _ _ _ Hr) as (s1 & E1 & R1 & K1 & Z1). unfold bind at 1, gets in E1. unfold bind at 1, gets.
  erewrite bind_Ok by exact E1. unfold bind at 1, gets. unfold bind at 1, get_ptr, gets. clearbody nunits.
  assert (forall s2 fl2 o, heap_rep base s2 fl2 al -> kept s s2 al -> got s2 fl2 al nunits o ->
    exists s' fl' r, o = Ok r s' /\ kept s s' al /\
      ((r = 0 /\ heap_rep base s' fl' al) \/
       exists n, r = fst n + 16 /\ nbytes <= 16 * (snd n - 1) /\ heap_rep base s' fl' (n :: al))) as Hgot.
  { intros s2 fl2 o R2 K2 (n & s' & fl' & -> & G1 & G2 & _ & _ & G5). exists s', fl', (fst n + 16). split; [done|].
    split; [by eapply kept_trans|]. right. exists n. split_and!; [done|lia|done]. }
  destruct (pass_ok s1 fl al nunits fuel fuel R1) as [G|[G1 G2]]; [lia|lia|by eapply Hgot|]. rewrite G2.
  destruct (morecore_ok s1 fl al nunits fuel Hsb R1) as [E|(s2 & fl2 & E & R2 & L2 & (c & Hc & Hcn) & K2 & _)]; [lia|lia|..];
    erewrite bind_Ok by exact E.
  { exists s1, fl, 0. split; [done|]. split; [done|]. by left. }
  pose proof (hr_freep _ _ _ _ R2) as (fb & Ef & Hfb)%list_elem_of_fmap.
  assert (0 < u_freep s2) as Hpos.
  { rewrite Ef. pose proof (hr_base _ _ _ _ R2). apply elem_of_cons in Hfb as [->|Hfb]; [done|].
    pose proof (asc_in _ _ _ _ (hr_asc _ _ _ _ R2) Hfb). lia. }
  destruct (Z.eqb_spec (u_freep s2) 0); [lia|]. unfold bind at 1, get_ptr, gets.
  destruct (pass_ok s2 fl2 al nunits fuel (fuel - (length fl + 1)) R2) as [G|[G _]]; [lia|lia|..].
  - eapply Hgot; [exact R2|by eapply kept_trans|exact G].
  - eapply (Forall_forall _ _) in G; [|exact Hc]. cbn in G. lia.
Qed.

Lemma sep_perm al al' : al ≡ₚ al' -> ForallOrdPairs sep al -> ForallOrdPairs sep al'.
Proof.
  induction 1 as [|b l l' Hp IH|b c l|l1 l2 l3 _ IH1 _ IH2]; rewrite ?ForallOrdPairs_cons_iff; auto.
  - intros [H1 H2]. split; [by rewrite <- Hp|auto].
  - rewrite !Forall_cons. unfold sep. intros ((H1 & H2) & H3 & H4). split_and!; [lia|done|done|done].
Qed.

Lemma rep_perm s fl al al' : al ≡ₚ al' -> heap_rep base s fl al -> heap_rep base s fl al'.
Proof.
  intros Hp [H1 H2 H3 H4 H5 H6 H7 H8]. split; try done.
  - intros b. rewrite <- Hp. apply H6.
  - by eapply sep_perm.
  - intros b c Hb. rewrite <- Hp. by apply H8.
Qed.

End malloc.

(** A process of one page of code and data that may grow up to 16 megabytes. *)
Definition demo_sbrk (n : Z) : M uheap Z := fun s =>
  if (0 <? n) && (u_sz s + n <=? 16777216) then Ok (u_sz s) (mkuheap (u_mem s) (u_freep s) (u_sz s + n))
  else Ok (u64 (-1)) s.

Lemma demo_sbrk_grows : sbrk_grows demo_sbrk.
Proof.
  intros n s Hn. unfold demo_sbrk. destruct (Z.ltb_spec 0 n); [|lia]. destruct (Z.leb_spec (u_sz s + n) 16777216); cbn [andb].
  - right. exists (u_mem s). split_and!; [done|done|lia].
  - by left.
Qed.

