(* ===== verification/Ulib.v ===== *)
(** * The user library: [src/user/lib/ulib.c] and [src/user/lib/printf.c]

    A program sees the kernel through the system calls of [usys.S]; their
    results are an interface ([Usys]) over the world they change.  The string
    routines are the C loops over the memory of the process; a scan for a NUL
    takes the number of bytes it may look at. *)

From S2P Require Import Prelude Memory Printf Fs.

(** ** System calls *)

Class Usys (W : Type) := {
  u_read : Z -> Z -> M W (option (list Z));   (** [read(fd, _, n)]: the bytes, or -1 *)
  u_write : Z -> list Z -> M W Z;             (** [write(fd, bytes, length)] *)
  u_open : list Z -> Z -> M W Z;              (** [open(path, mode)] *)
  u_close : Z -> M W Z;
  u_fstat : Z -> M W (option stat);           (** [fstat(fd, _)]: the structure, or -1 *)
  u_link : list Z -> list Z -> M W Z;         (** [link(old, new)] *)
  u_unlink : list Z -> M W Z;
  u_mkdir : list Z -> M W Z;
  u_kill : Z -> M W Z
}.

(** ** Strings *)

Fixpoint ustrcpy (fuel : nat) (m : mem) (s t : Z) : option mem :=
  match fuel with
  | O => None
  | S f => let m' := upd m s (m t) in if m t =? 0 then Some m' else ustrcpy f m' (s + 1) (t + 1)
  end.

Fixpoint ustrcmp (fuel : nat) (m : mem) (p q : Z) : option Z :=
  match fuel with
  | O => None
  | S f =>
      if negb (m p =? 0) && (m p =? m q) then ustrcmp f m (p + 1) (q + 1)
      else Some (u8 (m p) - u8 (m q))
  end.

Definition ustrlen (fuel : nat) (m : mem) (s : Z) : option Z :=
  (fix loop (fuel : nat) (n : Z) : option Z :=
     match fuel with
     | O => None
     | S f => if m (s + n) =? 0 then Some (u32 n) else loop f (n + 1)
     end) fuel 0.

Definition umemset (m : mem) (dst c n : Z) : mem :=
  (fix loop (m : mem) (i : Z) (k : nat) : mem :=
     match k with
     | O => m
     | S k' => loop (upd m (dst + i) (u8 c)) (i + 1) k'
     end) m 0 (Z.to_nat n).

(** A pointer, 0 for null. *)
Fixpoint ustrchr (fuel : nat) (m : mem) (s c : Z) : option Z :=
  match fuel with
  | O => None
  | S f => if m s =? 0 then Some 0 else if m s =? c then Some s else ustrchr f m (s + 1) c
  end.

(** [while('0' <= *s && *s <= '9') n = n*10 + *s++ - '0';] *)
Definition uatoi (fuel : nat) (m : mem) (s : Z) : option Z :=
  (fix loop (fuel : nat) (s n : Z) : option Z :=
     match fuel with
     | O => None
     | S f => if (48 <=? m s) && (m s <=? 57) then loop f (s + 1) (s32 (n * 10 + m s - 48)) else Some n
     end) fuel s 0.

Fixpoint ucopy_up (m : mem) (dst src : Z) (n : nat) : mem :=
  match n with
  | O => m
  | S n' => ucopy_up (upd m dst (m src)) (dst + 1) (src + 1) n'
  end.
Fixpoint ucopy_down (m : mem) (dst src : Z) (n : nat) : mem :=
  match n with
  | O => m
  | S n' => ucopy_down (upd m (dst - 1) (m (src - 1))) (dst - 1) (src - 1) n'
  end.

(** [n] is an [int]. *)
Definition umemmove (m : mem) (dst src n : Z) : mem :=
  if dst <? src then ucopy_up m dst src (Z.to_nat n)
  else ucopy_down m (dst + n) (src + n) (Z.to_nat n).

Definition umemcmp (m : mem) (s1 s2 n : Z) : Z :=
  (fix loop (p1 p2 : Z) (n : nat) : Z :=
     match n with
     | O => 0
     | S n' => if negb (m p1 =? m p2) then m p1 - m p2 else loop (p1 + 1) (p2 + 1) n'
     end) s1 s2 (Z.to_nat n).

(** The length, a [uint], becomes an [int]. *)
Definition umemcpy (m : mem) (dst src n : Z) : mem := umemmove m dst src (s32 n).

(** ** Input, and [stat] *)

Section io.
Context {W : Type} `{!Usys W}.

(** The bytes [gets] stores before the NUL; the loop is
    [for(i=0; i+1 < max; )]. *)
Definition ugets (max : Z) : M W (list Z) :=
  (fix loop (k : nat) : M W (list Z) :=
     match k with
     | O => ret []
     | S k' =>
         let! r := u_read 0 1 in
         match r with
         | Some (c :: _) =>
             if (c =? 10) || (c =? 13) then ret [c]
             else let! l := loop k' in ret (c :: l)
         | _ => ret []
         end
     end) (Z.to_nat (max - 1)).

Definition ustat (n : list Z) : M W (option stat) :=
  let! fd := u_open n 0 in
  if fd <? 0 then ret None
  else
    let! r := u_fstat fd in
    u_close fd ;;
    ret r.

(** ** Formatted output *)

(** [digits[d]] *)
Definition udigit (d : Z) : Z := nth (Z.to_nat d) (bytes_of "0123456789ABCDEF") 0.

Definition putc (fd c : Z) : M W unit := u_write fd [u8 c] ;; ret tt.

(** [do { buf[i++] = digits[x % base]; } while((x /= base) != 0);] *)
Fixpoint uprint_digits (fuel : nat) (x base : Z) : list Z :=
  match fuel with
  | O => []
  | S f => udigit (x mod base) :: (if x / base =? 0 then [] else uprint_digits f (x / base) base)
  end.

Definition uprintint_buf (xx base : Z) (sgn : bool) : list Z :=
  let neg := sgn && (xx <? 0) in
  let x := if neg then u32 (- xx) else u32 xx in
  uprint_digits 32 x base ++ (if neg then [45] else []).

Definition uprintint (fd xx base : Z) (sgn : bool) : M W unit :=
  for_in (rev (uprintint_buf xx base sgn)) (putc fd).

Fixpoint uptr_digits (n : nat) (x : Z) : list Z :=
  match n with
  | O => []
  | S n' => udigit (Z.shiftr x 60) :: uptr_digits n' (u64 (Z.shiftl x 4))
  end.
Definition uprintptr (fd x : Z) : M W unit :=
  putc fd 48 ;; putc fd 120 ;; for_in (uptr_digits 16 x) (putc fd).

(** The conversion after a [%], and the arguments left. *)
Definition uprint_conv (fd c : Z) (args : list parg) : M W (list parg) :=
  if c =? 100 then
    match args with AInt x :: rest => uprintint fd x 10 true ;; ret rest | _ => panic "va_arg" end
  else if c =? 108 then
    match args with APtr x :: rest => uprintint fd (s32 x) 10 false ;; ret rest | _ => panic "va_arg" end
  else if c =? 120 then
    match args with AInt x :: rest => uprintint fd x 16 false ;; ret rest | _ => panic "va_arg" end
  else if c =? 112 then
    match args with APtr x :: rest => uprintptr fd x ;; ret rest | _ => panic "va_arg" end
  else if c =? 115 then
    match args with
    | AStr s :: rest => for_in (default (bytes_of "(null)") s) (putc fd) ;; ret rest
    | _ => panic "va_arg"
    end
  else if c =? 99 then
    match args with AInt x :: rest => putc fd x ;; ret rest | _ => panic "va_arg" end
  else if c =? 37 then putc fd c ;; ret args
  else putc fd 37 ;; putc fd c ;; ret args.

(** [state] is whether a [%] has been read. *)
Fixpoint vprintf (fd : Z) (state : bool) (fmt : list Z) (args : list parg) : M W unit :=
  match fmt with
  | [] => ret tt
  | c :: fmt' =>
      if negb state then
        if c =? 37 then vprintf fd true fmt' args
        else putc fd c ;; vprintf fd false fmt' args
      else
        let! rest := uprint_conv fd c args in
        vprintf fd false fmt' rest
  end.

Definition fprintf (fd : Z) (fmt : string) (args : list parg) : M W unit := vprintf fd false (bytes_of fmt) args.
Definition uprintf (fmt : string) (args : list parg) : M W unit := vprintf 1 false (bytes_of fmt) args.
End io.
