(* ===== verification/Grep.v ===== *)
(** * [grep], [wc], [cat], [echo], [ls], [kill], [ln], [mkdir] and [rm]: [src/user]

    Strings are lists of bytes without their NUL.  A function that may call
    [exit] returns [inl code] when it does.  The loops that read a file to its
    end take the number of [read]s they may make. *)

From S2P Require Import Prelude Memory Printf Fs Ulib.

(** ** The matcher of [grep.c] *)

(** [matchstar(c, re, text)]; [here] is [matchhere(re, _)]. *)
Fixpoint matchstar (c : Z) (here : list Z -> bool) (text : list Z) : bool :=
  if here text then true
  else
    match text with
    | [] => false
    | t :: text' => if (t =? c) || (c =? 46) then matchstar c here text' else false
    end.

Fixpoint matchhere (re text : list Z) : bool :=
  match re with
  | [] => true
  | c :: re1 =>
      let one :=
        match text with
        | [] => false
        | t :: text' => if (c =? 46) || (c =? t) then matchhere re1 text' else false
        end in
      match re1 with
      | s :: re2 => if s =? 42 then matchstar c (matchhere re2) text else one
      | [] => if c =? 36 then match text with [] => true | _ => false end else one
      end
  end.

(** [do { ... } while( *text++ != '\0');] *)
Fixpoint match_loop (re text : list Z) : bool :=
  if matchhere re text then true
  else match text with [] => false | _ :: text' => match_loop re text' end.

Definition match_re (re text : list Z) : bool :=
  match re with
  | c :: re' => if c =? 94 then matchhere re' text else match_loop re text
  | [] => match_loop re text
  end.

(** ** [grep] *)

(** [strchr(p, '\n')]: the line before the newline and what follows it. *)
Fixpoint split_line (p : list Z) : option (list Z * list Z) :=
  match p with
  | [] => None
  | c :: p' =>
      if c =? 0 then None
      else if c =? 10 then Some ([], p')
      else match split_line p' with Some (l, r) => Some (c :: l, r) | None => None end
  end.

(** ** File names of [ls.c] *)

(** [for(p = path + k; p >= path && *p != '/'; p--); p++;]: where [p] points. *)
Fixpoint name_start (path : list Z) (k : nat) : nat :=
  if nth k path 0 =? 47 then S k
  else match k with O => O | S k' => name_start path k' end.

(** The blank-padded name; byte [DIRSIZ] of the static buffer is never written
    and stays NUL. *)
Definition fmtname (path : list Z) : list Z :=
  let p := drop (name_start path (length path)) path in
  if DIRSIZ <=? Z.of_nat (length p) then p
  else p ++ replicate (Z.to_nat (DIRSIZ - Z.of_nat (length p))) 32.

Section progs.
Context {W : Type} `{!Usys W}.

(** [while((q = strchr(p, '\n')) != 0)]: the bytes from [p] on at the end. *)
Fixpoint grep_lines (fuel : nat) (pattern p : list Z) : M W (list Z) :=
  match fuel with
  | O => panic "grep: fuel"
  | S f =>
      match split_line p with
      | None => ret p
      | Some (line, rest) =>
          (if match_re pattern line then u_write 1 (line ++ [10]) ;; ret tt else ret tt) ;;
          grep_lines f pattern rest
      end
  end.

(** [buf] holds the [m] bytes of [pend]. *)
Fixpoint grep_loop (fuel : nat) (pattern : list Z) (fd : Z) (pend : list Z) : M W unit :=
  match fuel with
  | O => panic "grep: fuel"
  | S f =>
      let! r := u_read fd (1024 - Z.of_nat (length pend) - 1) in
      match r with
      | None | Some [] => ret tt
      | Some d =>
          let! pend' := grep_lines (S (length (pend ++ d))) pattern (pend ++ d) in
          grep_loop f pattern fd pend'
      end
  end.

Definition grep (fuel : nat) (pattern : list Z) (fd : Z) : M W unit := grep_loop fuel pattern fd [].

(** The loop of [main] over the files. *)
Fixpoint grep_files (fuel : nat) (pattern : list Z) (files : list (list Z)) : M W Z :=
  match files with
  | [] => ret 0
  | f :: files' =>
      let! fd := u_open f 0 in
      if fd <? 0 then uprintf "grep: cannot open %s" [AStr (Some f)] ;; uprintf NL [] ;; ret 1
      else
        grep fuel pattern fd ;;
        u_close fd ;;
        grep_files fuel pattern files'
  end.

Definition grep_main (fuel : nat) (argv : list (list Z)) : M W Z :=
  match argv with
  | _ :: pattern :: files =>
      match files with
      | [] => grep fuel pattern 0 ;; ret 0
      | _ => grep_files fuel pattern files
      end
  | _ => fprintf 2 "usage: grep pattern [file ...]" [] ;; fprintf 2 NL [] ;; ret 1
  end.

(** ** [wc] *)

Record wcount := mkwc { wc_l : Z; wc_w : Z; wc_c : Z; wc_in : bool }.

(** The body of [for(i=0; i<n; i++)]; [strchr] finds the five blanks and no NUL. *)
Definition wc_byte (k : wcount) (c : Z) : wcount :=
  let l := if c =? 10 then s32 (wc_l k + 1) else wc_l k in
  let n := s32 (wc_c k + 1) in
  if (c =? 32) || (c =? 13) || (c =? 9) || (c =? 10) || (c =? 11) then mkwc l (wc_w k) n false
  else if negb (wc_in k) then mkwc l (s32 (wc_w k + 1)) n true
  else mkwc l (wc_w k) n (wc_in k).

Fixpoint wc_loop (fuel : nat) (fd : Z) (k : wcount) : M W (option wcount) :=
  match fuel with
  | O => panic "wc: fuel"
  | S f =>
      let! r := u_read fd 512 in
      match r with
      | None => ret None
      | Some [] => ret (Some k)
      | Some d => wc_loop f fd (foldl wc_byte k d)
      end
  end.

Definition wc (fuel : nat) (fd : Z) (name : list Z) : M W (Z + unit) :=
  let! r := wc_loop fuel fd (mkwc 0 0 0 false) in
  match r with
  | None => uprintf "wc: read error" [] ;; uprintf NL [] ;; ret (inl 1)
  | Some k =>
      uprintf "%d %d %d %s" [AInt (wc_l k); AInt (wc_w k); AInt (wc_c k); AStr (Some name)] ;; uprintf NL [] ;;
      ret (inr tt)
  end.

(** ** [cat] and [echo] *)

Fixpoint cat (fuel : nat) (fd : Z) : M W (Z + unit) :=
  match fuel with
  | O => panic "cat: fuel"
  | S f =>
      let! r := u_read fd 512 in
      match r with
      | None => fprintf 2 "cat: read error" [] ;; fprintf 2 NL [] ;; ret (inl 1)
      | Some [] => ret (inr tt)
      | Some d =>
          let! n := u_write 1 d in
          if negb (n =? Z.of_nat (length d)) then
            fprintf 2 "cat: write error" [] ;; fprintf 2 NL [] ;; ret (inl 1)
          else cat f fd
      end
  end.

(** The body shared by [main] of [cat] and [wc] is their loop over the files. *)
Fixpoint cat_files (fuel : nat) (files : list (list Z)) : M W Z :=
  match files with
  | [] => ret 0
  | f :: files' =>
      let! fd := u_open f 0 in
      if fd <? 0 then fprintf 2 "cat: cannot open %s" [AStr (Some f)] ;; fprintf 2 NL [] ;; ret 1
      else
        let! r := cat fuel fd in
        match r with
        | inl code => ret code
        | inr _ => u_close fd ;; cat_files fuel files'
        end
  end.

Definition cat_main (fuel : nat) (argv : list (list Z)) : M W Z :=
  match argv with
  | _ :: f :: files => cat_files fuel (f :: files)
  | _ => let! r := cat fuel 0 in ret (match r with inl code => code | inr _ => 0 end)
  end.

Fixpoint wc_files (fuel : nat) (files : list (list Z)) : M W Z :=
  match files with
  | [] => ret 0
  | f :: files' =>
      let! fd := u_open f 0 in
      if fd <? 0 then uprintf "wc: cannot open %s" [AStr (Some f)] ;; uprintf NL [] ;; ret 1
      else
        let! r := wc fuel fd f in
        match r with
        | inl code => ret code
        | inr _ => u_close fd ;; wc_files fuel files'
        end
  end.

Definition wc_main (fuel : nat) (argv : list (list Z)) : M W Z :=
  match argv with
  | _ :: f :: files => wc_files fuel (f :: files)
  | _ => let! r := wc fuel 0 [] in ret (match r with inl code => code | inr _ => 0 end)
  end.

Fixpoint echo_args (args : list (list Z)) : M W unit :=
  match args with
  | [] => ret tt
  | a :: args' =>
      u_write 1 a ;;
      (match args' with [] => u_write 1 [10] | _ => u_write 1 [32] end) ;;
      echo_args args'
  end.

Definition echo_main (argv : list (list Z)) : M W Z := echo_args (tail argv) ;; ret 0.

(** ** [ls] *)

(** [while(read(fd, &de, sizeof(de)) == sizeof(de))]: [buf] holds [path], a slash
    and, after [memmove] and the NUL, the name of the entry.  Of a [uint64], [%d]
    takes the low 32 bits. *)
Fixpoint ls_entries (fuel : nat) (fd : Z) (path : list Z) : M W unit :=
  match fuel with
  | O => panic "ls: fuel"
  | S f =>
      let! r := u_read fd 16 in
      match r with
      | None => ret tt
      | Some de =>
          if negb (Z.of_nat (length de) =? 16) then ret tt
          else if de_inum de =? 0 then ls_entries f fd path
          else
            let buf := path ++ [47] ++ cstring (de_name de) in
            let! st := ustat buf in
            match st with
            | None => uprintf "ls: cannot stat %s" [AStr (Some buf)] ;; uprintf NL [] ;; ls_entries f fd path
            | Some st =>
                uprintf "%s %d %d %d"
                  [AStr (Some (fmtname buf)); AInt (st_type st); AInt (s32 (st_ino st)); AInt (s32 (st_size st))] ;;
                uprintf NL [] ;;
                ls_entries f fd path
            end
      end
  end.

Definition ls (fuel : nat) (path : list Z) : M W unit :=
  let! fd := u_open path 0 in
  if fd <? 0 then fprintf 2 "ls: cannot open %s" [AStr (Some path)] ;; fprintf 2 NL []
  else
    let! r := u_fstat fd in
    match r with
    | None =>
        fprintf 2 "ls: cannot stat %s" [AStr (Some path)] ;; fprintf 2 NL [] ;;
        u_close fd ;;
        ret tt
    | Some st =>
        (if st_type st =? T_FILE then
           uprintf "%s %d %d %l"
             [AStr (Some (fmtname path)); AInt (st_type st); AInt (s32 (st_ino st)); APtr (st_size st)] ;;
           uprintf NL []
         else if st_type st =? T_DIR then
           if 512 <? Z.of_nat (length path) + 1 + DIRSIZ + 1 then uprintf "ls: path too long" [] ;; uprintf NL []
           else ls_entries fuel fd path
         else ret tt) ;;
        u_close fd ;;
        ret tt
    end.

Definition ls_main (fuel : nat) (argv : list (list Z)) : M W Z :=
  match argv with
  | _ :: f :: files => for_in (f :: files) (ls fuel) ;; ret 0
  | _ => ls fuel (bytes_of ".") ;; ret 0
  end.

(** ** [kill], [ln], [mkdir] and [rm] *)

(** [atoi] reads the argument from the memory where it lies. *)
Definition kill_main (argv : list (list Z)) : M W Z :=
  match argv with
  | _ :: a :: args =>
      for_in (a :: args) (fun a =>
        match uatoi (S (length a)) (fun x => nth (Z.to_nat x) a 0) 0 with
        | Some pid => u_kill pid ;; ret tt
        | None => panic "atoi: fuel"
        end) ;;
      ret 0
  | _ => fprintf 2 "usage: kill pid..." [] ;; fprintf 2 NL [] ;; ret 1
  end.

Definition ln_main (argv : list (list Z)) : M W Z :=
  match argv with
  | [_; old; new] =>
      let! r := u_link old new in
      (if r <? 0 then fprintf 2 "link %s %s: failed" [AStr (Some old); AStr (Some new)] ;; fprintf 2 NL []
       else ret tt) ;;
      ret 0
  | _ => fprintf 2 "Usage: ln old new" [] ;; fprintf 2 NL [] ;; ret 1
  end.

(** The loops of [mkdir] and [rm]: [call] on every argument up to the first failure. *)
Fixpoint until_fail (call : list Z -> M W Z) (msg : string) (args : list (list Z)) : M W unit :=
  match args with
  | [] => ret tt
  | a :: args' =>
      let! r := call a in
      if r <? 0 then fprintf 2 msg [AStr (Some a)] ;; fprintf 2 NL []
      else until_fail call msg args'
  end.

Definition mkdir_main (argv : list (list Z)) : M W Z :=
  match argv with
  | _ :: a :: args => until_fail u_mkdir "mkdir: %s failed to create" (a :: args) ;; ret 0
  | _ => fprintf 2 "Usage: mkdir files..." [] ;; fprintf 2 NL [] ;; ret 1
  end.

Definition rm_main (argv : list (list Z)) : M W Z :=
  match argv with
  | _ :: a :: args => until_fail u_unlink "rm: %s failed to delete" (a :: args) ;; ret 0
  | _ => fprintf 2 "Usage: rm files..." [] ;; fprintf 2 NL [] ;; ret 1
  end.
End progs.
