(* ===== verification/GrepSpec.v ===== *)
(** * Correctness of [grep]

    The matcher decides the language of its pattern; [grep] prints exactly the
    matching lines of its input however [read] cuts it into pieces. *)

From S2P Require Import Prelude Memory Printf Ulib Grep.

(** ** Patterns and their language *)

Inductive atom := Any | Lit (c : Z).
Inductive item := One (a : atom) | Many (a : atom).

Definition atom_of (c : Z) : atom := if c =? 46 then Any else Lit c.
Definition accepts (a : atom) (c : Z) : Prop := match a with Any => True | Lit d => c = d end.

(** The items of a pattern after its [^], and whether it ends in [$].  A [*]
    makes the character before it, whatever it is, an item. *)
Fixpoint parse (re : list Z) : list item * bool :=
  match re with
  | [] => ([], false)
  | c :: re1 =>
      match re1 with
      | s :: re2 =>
          if s =? 42 then let (l, e) := parse re2 in (Many (atom_of c) :: l, e)
          else let (l, e) := parse re1 in (One (atom_of c) :: l, e)
      | [] => if c =? 36 then ([], true) else ([One (atom_of c)], false)
      end
  end.

Inductive lang : list item -> list Z -> Prop :=
  | lang_nil : lang [] []
  | lang_one a l c t : accepts a c -> lang l t -> lang (One a :: l) (c :: t)
  | lang_many_nil a l t : lang l t -> lang (Many a :: l) t
  | lang_many_cons a l c t : accepts a c -> lang (Many a :: l) t -> lang (Many a :: l) (c :: t).

(** A prefix of [text] is in the language, all of it when the pattern ends in [$]. *)
Definition prefix_in (p : list item * bool) (text : list Z) : Prop :=
  exists t1 t2, text = t1 ++ t2 /\ lang (fst p) t1 /\ (snd p = true -> t2 = []).

Lemma accepts_iff c t : accepts (atom_of c) t <-> (c =? 46) || (c =? t) = true.
Proof.
  unfold accepts, atom_of. destruct (Z.eqb_spec c 46); cbn; [tauto|]. rewrite Z.eqb_eq. split; congruence.
Qed.

Lemma prefix_one a l e text :
  prefix_in (One a :: l, e) text <-> exists c t, text = c :: t /\ accepts a c /\ prefix_in (l, e) t.
Proof.
  split.
  - intros (t1 & t2 & -> & Hl & He). inversion Hl as [|? ? c t Ha Hl'| |]; subst. exists c, (t ++ t2).
    split; [done|]. split; [done|]. by exists t, t2.
  - intros (c & t & -> & Ha & t1 & t2 & -> & Hl & He). exists (c :: t1), t2. split_and!; [done|by constructor|done].
Qed.

Lemma prefix_many a l e text :
  prefix_in (Many a :: l, e) text <->
  prefix_in (l, e) text \/ exists c t, text = c :: t /\ accepts a c /\ prefix_in (Many a :: l, e) t.
Proof.
  split.
  - intros (t1 & t2 & -> & Hl & He). inversion Hl as [| |? ? ? Hl'|? ? c t Ha Hl']; subst.
    + left. by exists t1, t2.
    + right. exists c, (t ++ t2). split; [done|]. split; [done|]. by exists t, t2.
  - intros [(t1 & t2 & -> & Hl & He)|(c & t & -> & Ha & t1 & t2 & -> & Hl & He)].
    + exists t1, t2. split_and!; [done|by constructor|done].
    + exists (c :: t1), t2. split_and!; [done|by constructor|done].
Qed.

Lemma prefix_end text : prefix_in ([], true) text <-> text = [].
Proof.
  split; [|intros ->; exists [], []; by split_and!; [|constructor|]].
  intros (t1 & t2 & -> & Hl & He). inversion Hl; subst. by rewrite He.
Qed.

Lemma matchstar_ok c here l e text :
  (forall t, here t = true <-> prefix_in (l, e) t) ->
  matchstar c here text = true <-> prefix_in (Many (atom_of c) :: l, e) text.
Proof.
  intros Hh. induction text as [|t text IH]; rewrite prefix_many; cbn [matchstar].
  - destruct (here []) eqn:E; [split; [intros _; left; by apply Hh|done]|].
    split; [done|]. intros [H%Hh|(? & ? & ? & _)]; congruence.
  - destruct (here (t :: text)) eqn:E; [split; [intros _; left; by apply Hh|done]|].
    assert ((t =? c) || (c =? 46) = (c =? 46) || (c =? t)) as -> by (rewrite orb_comm; by rewrite (Z.eqb_sym t)).
    destruct ((c =? 46) || (c =? t)) eqn:Ea.
    + rewrite IH. split.
      * intros H. right. exists t, text. split; [done|]. by rewrite accepts_iff.
      * intros [H%Hh|(? & ? & [= <- <-] & _ & H)]; [congruence|done].
    + split; [done|]. intros [H%Hh|(? & ? & [= <- <-] & H%accepts_iff & _)]; congruence.
Qed.

Lemma matchhere_ok re text : matchhere re text = true <-> prefix_in (parse re) text.
Proof.
  remember (length re) as n eqn:En. assert (length re <= n)%nat as Hn by lia. clear En.
  revert re text Hn. induction n as [|n IH]; intros [|c re1] text Hn; cbn [length] in Hn; try lia.
  1, 2: cbn; split; [intros _; exists [], text; by split_and!; [|constructor|]|done].
  assert (forall re, (length re <= n)%nat -> (let (l, e) := parse re in (One (atom_of c) :: l, e)) = (One (atom_of c) :: fst (parse re), snd (parse re))) as Ep
    by (intros re _; by destruct (parse re)).
  assert ((match text with
           | [] => false
           | t :: text' => if (c =? 46) || (c =? t) then matchhere re1 text' else false
           end) = true <-> prefix_in (One (atom_of c) :: fst (parse re1), snd (parse re1)) text) as Hone.
  { rewrite prefix_one. destruct text as [|t text].
    - split; [done|]. by intros (? & ? & ? & _).
    - destruct ((c =? 46) || (c =? t)) eqn:Ea.
      + rewrite IH by lia. rewrite <- surjective_pairing. split.
        * intros H. exists t, text. split; [done|]. by rewrite accepts_iff.
        * by intros (? & ? & [= <- <-] & _ & H).
      + split; [done|]. intros (? & ? & [= <- <-] & H%accepts_iff & _). congruence. }
  cbn [matchhere parse]. destruct re1 as [|s re2].
  - destruct (Z.eqb_spec c 36); [|exact Hone]. rewrite prefix_end. destruct text; split; congruence.
  - destruct (s =? 42).
    + rewrite matchstar_ok with (l := fst (parse re2)) (e := snd (parse re2)).
      * by destruct (parse re2).
      * intros t. rewrite IH by (cbn in Hn; lia). by rewrite <- surjective_pairing.
    + rewrite Ep by lia. exact Hone.
Qed.

Lemma match_loop_ok re text :
  match_loop re text = true <-> exists t0 t, text = t0 ++ t /\ matchhere re t = true.
Proof.
  induction text as [|c text IH]; cbn [match_loop].
  - destruct (matchhere re []) eqn:E; (split; [|]); try done.
    + intros _. by exists [], [].
    + intros (t0 & t & Et & H). symmetry in Et. apply app_eq_nil in Et as [-> ->]. congruence.
  - destruct (matchhere re (c :: text)) eqn:E.
    + split; [|done]. intros _. by exists [], (c :: text).
    + rewrite IH. split.
      * intros (t0 & t & -> & H). by exists (c :: t0), t.
      * intros ([|d t0] & t & Et & H); cbn in Et; [congruence|]. injection Et as <- ->. by exists t0, t.
Qed.

(** C10. The matcher of [grep] decides the language of its pattern: it answers yes
    exactly if some part of the line, from its start when the pattern begins with
    [^] and up to its end when it ends in an unstarred [$], is a word of the
    sequence of characters, dots and starred characters or dots that the pattern
    denotes.  It always terminates. *)
Theorem match_correct re text :
  match_re re text = true <->
  let anchored := bool_decide (head re = Some 94) in
  let p := parse (if anchored then tail re else re) in
  exists t0 t1 t2, text = t0 ++ t1 ++ t2 /\ lang (fst p) t1 /\
    (anchored = true -> t0 = []) /\ (snd p = true -> t2 = []).
Proof.
  cbn zeta. assert (forall re, match_loop re text = true <->
    exists t0 t1 t2, text = t0 ++ t1 ++ t2 /\ lang (fst (parse re)) t1 /\ (false = true -> t0 = []) /\
      (snd (parse re) = true -> t2 = [])) as Hloop.
  { intros re'. rewrite match_loop_ok. split.
    - intros (t0 & t & -> & (t1 & t2 & -> & Hl & He)%matchhere_ok). by exists t0, t1, t2.
    - intros (t0 & t1 & t2 & -> & Hl & _ & He). exists t0, (t1 ++ t2). split; [done|]. apply matchhere_ok. by exists t1, t2. }
  unfold match_re. destruct re as [|c re].
  - rewrite Hloop. by rewrite bool_decide_false.
  - cbn [head tail]. destruct (Z.eqb_spec c 94) as [->|Hc].
    + rewrite bool_decide_true by done. rewrite matchhere_ok. split.
      * intros (t1 & t2 & -> & Hl & He). by exists [], t1, t2.
      * intros (t0 & t1 & t2 & -> & Hl & H0 & He). rewrite H0 by done. by exists t1, t2.
    + rewrite bool_decide_false by congruence. apply Hloop.
Qed.

(** ** Lines *)

(** The terminated lines, without their newlines, and what follows the last. *)
Fixpoint lines (l : list Z) : list (list Z) * list Z :=
  match l with
  | [] => ([], [])
  | c :: l' =>
      let (ls, r) := lines l' in
      if c =? 10 then ([] :: ls, r)
      else match ls with [] => ([], c :: r) | x :: ls' => ((c :: x) :: ls', r) end
  end.

Lemma lines_cons c l :
  c <> 10 -> lines (c :: l) =
  match fst (lines l) with [] => ([], c :: snd (lines l)) | x :: ls => ((c :: x) :: ls, snd (lines l)) end.
Proof. intros H. cbn. destruct (lines l) as [ls r]. destruct (Z.eqb_spec c 10); [done|]. by destruct ls. Qed.

Lemma lines_nl l : lines (10 :: l) = ([] :: fst (lines l), snd (lines l)).
Proof. cbn. by destruct (lines l). Qed.

Lemma lines_app a b :
  lines (a ++ b) = (fst (lines a) ++ fst (lines (snd (lines a) ++ b)), snd (lines (snd (lines a) ++ b))).
Proof.
  induction a as [|c a IH]; cbn [app].
  - cbn. by destruct (lines b).
  - destruct (Z.eq_dec c 10) as [->|Hc]; [rewrite !lines_nl, IH; done|]. rewrite !(lines_cons c) by done. rewrite IH.
    cbn [fst snd]. destruct (fst (lines a)) as [|x ls] eqn:E; cbn [fst snd app]; [|done].
    rewrite (lines_cons c) by done. by destruct (fst (lines (snd (lines a) ++ b))).
Qed.

(** The unfinished line is a prefix of the next line or of what is left. *)
Lemma lines_prefix a b (k : nat) :
  Forall (fun x => length x <= k)%nat (fst (lines (a ++ b))) -> (length (snd (lines (a ++ b))) <= k)%nat ->
  (length (snd (lines a)) <= k)%nat.
Proof.
  rewrite lines_app. cbn [fst snd]. rewrite Forall_app. intros [_ H1] H2. revert H1 H2.
  assert (forall r, Forall (fun c => c <> 10) r -> forall b,
    match fst (lines (r ++ b)) with
    | [] => (length r <= length (snd (lines (r ++ b))))%nat
    | x :: _ => (length r <= length x)%nat
    end) as Hr.
  { clear. induction 1 as [|c r Hc Hr IH]; intros b; [cbn; destruct (lines b) as [[|x ls] r]; cbn; lia|].
    specialize (IH b). cbn [app]. rewrite lines_cons by done. destruct (fst (lines (r ++ b))); cbn [fst snd length] in *; lia. }
  assert (Forall (fun c => c <> 10) (snd (lines a))) as Ha.
  { clear. induction a as [|c a IH]; [constructor|]. destruct (Z.eq_dec c 10) as [->|Hc]; [by rewrite lines_nl|].
    rewrite lines_cons by done. destruct (fst (lines a)); cbn [snd]; [by constructor|done]. }
  specialize (Hr _ Ha b). destruct (fst (lines (snd (lines a) ++ b))) as [|x ls]; [lia|].
  intros H1%Forall_inv. lia.
Qed.

Lemma split_line_ok p :
  Forall (fun c => c <> 0) p ->
  match split_line p with
  | None => lines p = ([], p)
  | Some (x, r) => lines p = (x :: fst (lines r), snd (lines r)) /\ (length r < length p)%nat /\ Forall (fun c => c <> 0) r
  end.
Proof.
  induction 1 as [|c p Hc Hp IH]; [done|]. cbn [split_line]. destruct (Z.eqb_spec c 0); [done|].
  destruct (Z.eqb_spec c 10) as [->|Hn]; [rewrite lines_nl; cbn; by split_and!; [|lia|]|].
  destruct (split_line p) as [[x r]|].
  - destruct IH as (E & Hl & Hr). rewrite lines_cons, E by done. cbn. split_and!; [done|lia|done].
  - rewrite lines_cons, IH by done. done.
Qed.

(** ** [grep] *)

Section grep.
Context {W : Type} `{!Usys W}.
(** The bytes still to be read from [fd], and those written to standard output. *)
Variables (fd : Z) (src out : W -> list Z).

(** [fd] delivers its bytes in pieces of any size, at least one byte of what is
    left, then the end of the file; [write] appends. *)
Record stream : Prop := {
  st_read n w : 0 < n -> exists d w', u_read fd n w = Ok (Some d) w' /\ src w = d ++ src w' /\
    Z.of_nat (length d) <= n /\ (d = [] -> src w = []) /\ out w' = out w;
  st_write l w : exists r w', u_write 1 l w = Ok r w' /\ out w' = out w ++ l /\ src w' = src w
}.

(** The lines that match, with their newlines. *)
Definition selected (pattern : list Z) (ls : list (list Z)) : list Z :=
  concat ((fun x => x ++ [10]) <$> filter (fun x => match_re pattern x = true) ls).

Lemma selected_app pattern l1 l2 : selected pattern (l1 ++ l2) = selected pattern l1 ++ selected pattern l2.
Proof. unfold selected. by rewrite filter_app, fmap_app, concat_app. Qed.

Lemma selected_cons pattern x ls :
  selected pattern (x :: ls) = (if match_re pattern x then x ++ [10] else []) ++ selected pattern ls.
Proof. unfold selected. rewrite filter_cons. destruct (match_re pattern x); [by rewrite decide_True|by rewrite decide_False]. Qed.

Lemma grep_lines_ok pattern p fuel w :
  stream -> Forall (fun c => c <> 0) p -> (length p < fuel)%nat ->
  exists w', grep_lines fuel pattern p w = Ok (snd (lines p)) w' /\ src w' = src w /\
    out w' = out w ++ selected pattern (fst (lines p)).
Proof.
  intros Hs. revert p w. induction fuel as [|fuel IH]; intros p w Hp Hf; [lia|]. cbn [grep_lines].
  pose proof (split_line_ok p Hp) as Hl. destruct (split_line p) as [[x r]|].
  - destruct Hl as (E & Hlen & Hr). rewrite E. cbn [fst snd]. rewrite selected_cons. destruct (match_re pattern x).
    + destruct (st_write Hs (x ++ [10]) w) as (k & w1 & E1 & O1 & S1). erewrite bind_Ok.
      2:{ erewrite bind_Ok by exact E1. reflexivity. }
      destruct (IH r w1 Hr) as (w' & E2 & S2 & O2); [lia|]. exists w'. split_and!; [done|congruence|].
      by rewrite O2, O1, <- app_assoc.
    + erewrite bind_Ok by reflexivity. by apply IH; [|lia].
  - exists w. rewrite Hl. split_and!; [done|done|]. cbn. by rewrite app_nil_r.
Qed.

Lemma grep_loop_ok pattern fuel pend w :
  stream -> Forall (fun c => c <> 0) (pend ++ src w) -> snd (lines pend) = pend -> fst (lines pend) = [] ->
  Forall (fun x => length x <= 1022)%nat (fst (lines (pend ++ src w))) ->
  (length (snd (lines (pend ++ src w))) <= 1022)%nat -> (length (src w) < fuel)%nat ->
  exists w', grep_loop fuel pattern fd pend w = Ok tt w' /\ src w' = [] /\
    out w' = out w ++ selected pattern (fst (lines (pend ++ src w))).
Proof.
  intros Hs. revert pend w. induction fuel as [|fuel IH]; intros pend w Hz Hp1 Hp2 Hl1 Hl2 Hf; [lia|]. cbn [grep_loop].
  pose proof (lines_prefix pend (src w) 1022 Hl1 Hl2) as Hlen. rewrite Hp1 in Hlen.
  destruct (st_read Hs (1024 - Z.of_nat (length pend) - 1) w) as (d & w1 & E & Hd & _ & Hend & O1); [lia|].
  erewrite bind_Ok by exact E. destruct d as [|c d].
  - exists w1. rewrite Hend in * by done. rewrite app_nil_r, Hp2. split_and!; [done|by symmetry|]. cbn. by rewrite app_nil_r, O1.
  - rewrite Hd, app_assoc in Hz, Hl1, Hl2. pose proof Hz as Hz'. apply Forall_app in Hz' as [Hz1 Hz2].
    destruct (grep_lines_ok pattern (pend ++ c :: d) (S (length (pend ++ c :: d))) w1 Hs Hz1) as (w2 & E2 & S2 & O2); [lia|].
    erewrite bind_Ok by exact E2. rewrite Hd, app_assoc.
    set (p := pend ++ c :: d) in *. rewrite (lines_app p) in Hl1, Hl2 |- *. cbn [fst snd]. cbn [fst snd] in Hl1, Hl2.
    apply Forall_app in Hl1 as [_ Hl1]. rewrite <- S2 in Hl1, Hl2, Hz2 |- *.
    assert (forall a, Forall (fun c => c <> 0) a -> Forall (fun c => c <> 0) (snd (lines a)) /\
      snd (lines (snd (lines a))) = snd (lines a) /\ fst (lines (snd (lines a))) = []) as Hsnd.
    { clear. induction 1 as [|c a Hc Ha IH]; [done|]. destruct (Z.eq_dec c 10) as [->|Hc']; [by rewrite lines_nl|].
      rewrite lines_cons by done. destruct IH as (I1 & I2 & I3). destruct (fst (lines a)); cbn [snd]; [|done].
      rewrite lines_cons by done. rewrite I3. cbn [fst snd]. split_and!; [by constructor|by rewrite I2|done]. }
    destruct (Hsnd p Hz1) as (Q1 & Q2 & Q3).
    destruct (IH (snd (lines p)) w2) as (w' & E3 & S3 & O3); try done.
    + by apply Forall_app.
    + rewrite Hd, length_app in Hf. rewrite S2. cbn in Hf. lia.
    + exists w'. split_and!; [done|done|]. rewrite O3, O2, O1, selected_app. by rewrite <- app_assoc.
Qed.

End grep.

(** A file of which [read] returns at most three bytes at a time. *)
Definition demo_world : Type := list Z * list Z.

#[local] Instance demo_usys : Usys demo_world := {
  u_read _ n := fun w => let k := Nat.min 3 (Z.to_nat n) in Ok (Some (take k (fst w))) (drop k (fst w), snd w);
  u_write _ l := fun w => Ok (Z.of_nat (length l)) (fst w, snd w ++ l);
  u_open _ _ := ret 3;
  u_close _ := ret 0;
  u_fstat _ := ret None;
  u_link _ _ := ret (-1);
  u_unlink _ := ret (-1);
  u_mkdir _ := ret (-1);
  u_kill _ := ret (-1)
}.

Lemma demo_stream : stream (W := demo_world) 0 fst snd.
Proof.
  split.
  - intros n w Hn. exists (take (Nat.min 3 (Z.to_nat n)) (fst w)), (drop (Nat.min 3 (Z.to_nat n)) (fst w), snd w).
    split; [reflexivity|]. split; [cbn [fst]; by rewrite take_drop|]. rewrite length_take. split; [lia|]. split; [|done].
    intros H. assert (exists k, Nat.min 3 (Z.to_nat n) = S k) as [k Ek] by (exists (pred (Nat.min 3 (Z.to_nat n))); lia).
    rewrite Ek in H. by destruct (fst w).
  - intros l w. by eexists _, _.
Qed.

