(* ===== verification/LsSpec.v ===== *)
(** * Correctness of [ls]

    [ls] prints one row for every file and every directory entry it is asked
    for, and leaves no descriptor open.  The system calls it makes are
    described by the files they see. *)

From stdpp Require Import pretty.
From S2P Require Import Prelude Memory Printf Fs Ulib Grep.

(** ** Numbers and names that [ls] prints *)

(** The decimal numeral of a number that is not negative. *)
Definition dec (x : Z) : list Z := bytes_of (pretty (Z.to_N x)).

Lemma udigit_pretty x s :
  0 <= x < 10 -> bytes_of (String (pretty_N_char (Z.to_N x)) s) = udigit x :: bytes_of s.
Proof.
  intros H. assert (x ∈ seqZ 0 10) as Hx by (apply elem_of_seqZ; lia).
  revert Hx. change (seqZ 0 10) with [0;1;2;3;4;5;6;7;8;9]. intros Hx.
  repeat (apply elem_of_cons in Hx as [->|Hx]; [reflexivity|]). by apply not_elem_of_nil in Hx.
Qed.

Lemma digits_pretty fuel x s :
  0 < x < 10 ^ Z.of_nat fuel ->
  bytes_of (pretty_N_go (Z.to_N x) s) = rev (uprint_digits fuel x 10) ++ bytes_of s.
Proof.
  revert x s. induction fuel as [|f IH]; intros x s Hx; [cbn in Hx; lia|].
  rewrite pretty_N_go_step by lia. cbn [uprint_digits rev]. rewrite <- app_assoc. cbn [app].
  replace (Z.to_N x `div` 10)%N with (Z.to_N (x / 10)) by (rewrite Z2N.inj_div by lia; done).
  replace (Z.to_N x `mod` 10)%N with (Z.to_N (x mod 10)) by (rewrite Z2N.inj_mod by lia; done).
  rewrite <- udigit_pretty by (apply Z.mod_pos_bound; lia).
  rewrite Nat2Z.inj_succ, Z.pow_succ_r in Hx by lia.
  destruct (Z.eqb_spec (x / 10) 0) as [->|E]; [done|]. apply IH. split.
  - assert (0 <= x / 10) by (apply Z.div_pos; lia). lia.
  - apply Z.div_lt_upper_bound; lia.
Qed.

Lemma uprintint_dec x sgn : 0 <= x < 2 ^ 31 -> rev (uprintint_buf x 10 sgn) = dec x.
Proof.
  intros Hx. unfold uprintint_buf, dec, pretty, pretty_N. destruct (Z.ltb_spec x 0); [lia|].
  rewrite andb_false_r, app_nil_r. assert (u32 x = x) as -> by (apply Z.mod_small; lia).
  destruct (decide (x = 0)) as [->|Hn]; [reflexivity|].
  rewrite decide_False by lia. rewrite (digits_pretty 32) by lia. by rewrite app_nil_r.
Qed.

(** What follows the last slash. *)
Fixpoint basename (path : list Z) : list Z :=
  match path with
  | [] => []
  | c :: path' => if bool_decide (47 ∈ path) then basename path' else path
  end.

(** A name as a column of [DIRSIZ] bytes. *)
Definition padded (name : list Z) : list Z := name ++ replicate (14 - length name) 32.

Lemma basename_noslash path : 47 ∉ path -> basename path = path.
Proof. destruct path as [|c path]; [done|]. intros H. cbn [basename]. by rewrite bool_decide_false. Qed.

Lemma basename_slash a b : 47 ∉ b -> basename (a ++ 47 :: b) = b.
Proof.
  intros Hb. induction a as [|c a IH]; cbn [app basename].
  - rewrite bool_decide_true by set_solver. by apply basename_noslash.
  - by rewrite bool_decide_true by set_solver.
Qed.

Lemma name_start_ok path k :
  47 ∉ drop (S k) path -> drop (name_start path k) path = basename path.
Proof.
  assert (forall k, 47 ∉ drop (S k) path -> nth k path 0 <> 47 -> 47 ∉ drop k path) as Hdrop.
  { clear k. intros k H Hk. destruct (path !! k) as [x|] eqn:E.
    - rewrite (drop_S _ _ _ E). rewrite nth_lookup, E in Hk. cbn in Hk. set_solver.
    - apply lookup_ge_None in E. rewrite drop_ge by lia. set_solver. }
  induction k as [|k IH]; intros H; cbn [name_start].
  - destruct (Z.eqb_spec (nth 0 path 0) 47) as [E|E].
    + destruct path as [|c path]; [done|]. cbn in E. subst c. symmetry. by apply (basename_slash [] path).
    + symmetry. apply basename_noslash. by apply (Hdrop 0%nat).
  - destruct (Z.eqb_spec (nth (S k) path 0) 47) as [E|E]; [|apply IH; by apply Hdrop].
    destruct (path !! S k) as [x|] eqn:Ex; [|rewrite nth_lookup, Ex in E; done].
    rewrite nth_lookup, Ex in E. cbn in E. subst x.
    rewrite <- (take_drop_middle _ _ _ Ex) at 2. by rewrite basename_slash.
Qed.

Lemma fmtname_ok path : fmtname path = padded (basename path).
Proof.
  unfold fmtname, padded. rewrite name_start_ok by (rewrite drop_ge by lia; set_solver). unfold DIRSIZ.
  destruct (Z.leb_spec 14 (Z.of_nat (length (basename path)))).
  - replace (14 - length (basename path))%nat with 0%nat by lia. cbn. by rewrite app_nil_r.
  - do 2 f_equal. lia.
Qed.

Lemma basename_bytes path : Forall is_byte path -> Forall is_byte (basename path).
Proof. induction 1; cbn [basename]; [done|]. case_bool_decide; [done|by constructor]. Qed.

Lemma padded_bytes n : Forall is_byte n -> Forall is_byte (padded n).
Proof. intros H. apply Forall_app. split; [done|]. apply Forall_replicate. unfold is_byte. lia. Qed.

(** ** Formatted output *)

(** The bytes that [vprintf] writes for the conversions [%d], [%l] and [%s]. *)
Fixpoint formatted (state : bool) (fmt : list Z) (args : list parg) : option (list Z) :=
  match fmt with
  | [] => Some []
  | c :: fmt' =>
      if negb state then
        if c =? 37 then formatted true fmt' args else cons c <$> formatted false fmt' args
      else
        match args with
        | AInt x :: rest =>
            if c =? 100 then app (rev (uprintint_buf x 10 true)) <$> formatted false fmt' rest else None
        | APtr x :: rest =>
            if c =? 108 then app (rev (uprintint_buf (s32 x) 10 false)) <$> formatted false fmt' rest else None
        | AStr (Some s) :: rest => if c =? 115 then app s <$> formatted false fmt' rest else None
        | _ => None
        end
  end.

Section ls.
Context {W : Type} `{!Usys W}.
(** What has been written to standard output; for every open descriptor, its
    path and the bytes still to be read; the files, by path. *)
Variables (out : W -> list Z) (fds : W -> gmap Z (list Z * list Z)).
Variable node : list Z -> option (stat * list Z).

(** The system calls on files and directories that nobody changes; a process may
    have [NOFILE] descriptors. *)
Record tree : Prop := {
  tr_open p w : (size (fds w) < 16)%nat -> exists fd w', u_open p 0 w = Ok fd w' /\ out w' = out w /\
    match node p with
    | None => fd < 0 /\ fds w' = fds w
    | Some (_, c) => 0 <= fd /\ fds w !! fd = None /\ fds w' = <[fd := (p, c)]> (fds w)
    end;
  tr_read fd n p c w : fds w !! fd = Some (p, c) -> exists w', u_read fd n w = Ok (Some (take (Z.to_nat n) c)) w' /\
    out w' = out w /\ fds w' = <[fd := (p, drop (Z.to_nat n) c)]> (fds w);
  tr_fstat fd p c st d w : fds w !! fd = Some (p, c) -> node p = Some (st, d) ->
    exists w', u_fstat fd w = Ok (Some st) w' /\ out w' = out w /\ fds w' = fds w;
  tr_close fd w : exists r w', u_close fd w = Ok r w' /\ out w' = out w /\ fds w' = delete fd (fds w);
  tr_write fd l w : fd = 1 \/ fd = 2 -> exists r w', u_write fd l w = Ok r w' /\ fds w' = fds w /\
    out w' = out w ++ (if fd =? 1 then l else [])
}.

(** Files have their attributes within the fields' ranges, and bytes as contents. *)
Definition sane : Prop := forall p st c, node p = Some (st, c) ->
  0 <= st_type st < 2 ^ 15 /\ 0 <= st_ino st < 2 ^ 31 /\ 0 <= st_size st < 2 ^ 31 /\ Forall is_byte c.

(** ** The listing *)

(** Name, type, inode number and size. *)
Definition row (p : list Z) (st : stat) : list Z :=
  padded (basename p) ++ [32] ++ dec (st_type st) ++ [32] ++ dec (st_ino st) ++ [32] ++ dec (st_size st) ++ [10].

(** The directory entries that a file holds. *)
Definition records (c : list Z) : list (list Z) :=
  (fun i => take 16 (drop (16 * i) c)) <$> seq 0 (length c / 16).

Definition entry_row (path de : list Z) : list Z :=
  if de_inum de =? 0 then []
  else
    let p := path ++ [47] ++ cstring (de_name de) in
    match node p with
    | None => bytes_of "ls: cannot stat " ++ p ++ [10]
    | Some (st, _) => row p st
    end.

Definition listing (path : list Z) : list Z :=
  match node path with
  | None => []
  | Some (st, c) =>
      if st_type st =? T_FILE then row path st
      else if st_type st =? T_DIR then
        if (496 <? length path)%nat then bytes_of "ls: path too long" ++ [10]
        else concat (entry_row path <$> records c)
      else []
  end.

Lemma records_short c : (length c < 16)%nat -> records c = [].
Proof. intros H. unfold records. by rewrite Nat.div_small. Qed.

Lemma records_step c : (16 <= length c)%nat -> records c = take 16 c :: records (drop 16 c).
Proof.
  intros H. unfold records. rewrite length_drop.
  replace (length c) with (length c - 16 + 1 * 16)%nat at 1 by lia. rewrite Nat.div_add by lia.
  rewrite Nat.add_1_r. cbn [seq fmap list_fmap]. f_equal. rewrite <- fmap_S_seq, <- list_fmap_compose.
  apply list_fmap_ext. intros i x _. cbn [compose]. rewrite drop_drop. do 2 f_equal. unfold compose. f_equal. lia.
Qed.

(** [c] writes [l] to standard output and does nothing else. *)
Definition writes (c : M W unit) (l : list Z) : Prop :=
  forall w, exists w', c w = Ok tt w' /\ out w' = out w ++ l /\ fds w' = fds w.

Lemma writes_ret : writes (ret tt) [].
Proof. intros w. exists w. by rewrite app_nil_r. Qed.

Lemma writes_bind c k l1 l2 : writes c l1 -> writes k l2 -> writes (c ;; k) (l1 ++ l2).
Proof.
  intros Hc Hk w. destruct (Hc w) as (w1 & E1 & O1 & F1). destruct (Hk w1) as (w2 & E2 & O2 & F2).
  exists w2. split; [by erewrite bind_Ok by exact E1|]. by rewrite O2, O1, <- app_assoc, F2, F1.
Qed.

Hypothesis Htree : tree.

(** What reaches standard output of bytes written to [fd]. *)
Definition shown (fd : Z) (l : list Z) : list Z := if fd =? 1 then l else [].

Lemma shown_app fd l1 l2 : shown fd (l1 ++ l2) = shown fd l1 ++ shown fd l2.
Proof. unfold shown. by destruct (fd =? 1). Qed.

Lemma writes_putc fd c : fd = 1 \/ fd = 2 -> is_byte c -> writes (putc fd c) (shown fd [c]).
Proof using Htree.
  intros Hfd Hc w. destruct (tr_write Htree fd [c] w Hfd) as (r & w' & E & F & O). exists w'.
  assert (u8 c = c) as Hu by (by apply Z.mod_small). unfold putc. rewrite Hu. by erewrite bind_Ok by exact E.
Qed.

Lemma writes_puts fd l : fd = 1 \/ fd = 2 -> Forall is_byte l -> writes (for_in l (putc fd)) (shown fd l).
Proof using Htree.
  intros Hfd. induction 1 as [|c l Hc Hl IH]; cbn [for_in]; [unfold shown; destruct (fd =? 1); apply writes_ret|].
  change (c :: l) with ([c] ++ l). rewrite shown_app. apply writes_bind; [by apply writes_putc|done].
Qed.

Lemma bytes_of_bytes s : Forall is_byte (bytes_of s).
Proof.
  induction s as [|c s IH]; [constructor|]. cbn [bytes_of]. constructor; [|done].
  unfold is_byte. pose proof (Ascii.N_ascii_bounded c). lia.
Qed.

Definition printable (a : parg) : Prop := match a with AStr (Some s) => Forall is_byte s | _ => True end.

Lemma uprintint_bytes x base sgn : Forall is_byte (rev (uprintint_buf x base sgn)).
Proof.
  assert (forall d, is_byte (udigit d)) as Hd.
  { intros d. unfold udigit. rewrite nth_lookup. destruct (_ !! _) as [y|] eqn:E; [|cbn; unfold is_byte; lia].
    revert E. generalize (Z.to_nat d). intros n E. do 16 (destruct n; [injection E as <-; cbn; unfold is_byte; lia|]). done. }
  apply Forall_rev, Forall_app. split; [|destruct (_ && _); repeat constructor; unfold is_byte; lia].
  generalize 32%nat. intros f. generalize (if sgn && (x <? 0) then u32 (- x) else u32 x).
  induction f as [|f IH]; intros y; cbn [uprint_digits]; [done|]. constructor; [done|]. by destruct (_ =? 0).
Qed.

Lemma vprintf_ok fd state fmt args l :
  fd = 1 \/ fd = 2 -> Forall is_byte fmt -> Forall printable args -> formatted state fmt args = Some l ->
  writes (vprintf fd state fmt args) (shown fd l).
Proof using Htree.
  intros Hfd Hfmt. revert state args l. induction Hfmt as [|c fmt Hc Hfmt IH]; intros state args l Ha E; cbn [formatted vprintf] in E |- *.
  { injection E as <-. unfold shown. destruct (fd =? 1); apply writes_ret. }
  destruct state; cbn [negb] in E |- *.
  - assert (forall x r l', writes x (shown fd r) -> forall args', Forall printable args' ->
      app r <$> formatted false fmt args' = Some l' ->
      writes (let! rest := x ;; ret args' in vprintf fd false fmt rest) (shown fd l')) as Hconv.
    { intros x r l' Hx args' Ha' E' w. apply fmap_Some in E' as (l2 & E2 & ->). rewrite shown_app.
      destruct (writes_bind _ _ _ _ Hx (IH _ _ _ Ha' E2) w) as (w' & R & O & F). exists w'. split; [|done].
      unfold bind in R |- *. by destruct (x w). }
    destruct args as [|[x|x|[s|]] rest]; try done; apply Forall_cons in Ha as [Hs Ha].
    + destruct (Z.eqb_spec c 100) as [->|]; [|done]. exact (Hconv _ _ _ (writes_puts fd _ Hfd (uprintint_bytes _ _ _)) _ Ha E).
    + destruct (Z.eqb_spec c 108) as [->|]; [|done]. exact (Hconv _ _ _ (writes_puts fd _ Hfd (uprintint_bytes _ _ _)) _ Ha E).
    + destruct (Z.eqb_spec c 115) as [->|]; [|done]. apply (Hconv _ _ _ (writes_puts fd _ Hfd Hs) _ Ha E).
  - destruct (c =? 37); [by apply IH|]. apply fmap_Some in E as (l2 & E2 & ->). change (c :: l2) with ([c] ++ l2).
    rewrite shown_app. apply writes_bind; [by apply writes_putc|by apply IH].
Qed.

Lemma say_writes fd fmt args l :
  fd = 1 \/ fd = 2 -> Forall printable args -> formatted false (bytes_of fmt) args = Some l ->
  writes (fprintf fd fmt args ;; fprintf fd NL []) (shown fd (l ++ [10])).
Proof using Htree.
  intros Hfd Ha E. rewrite shown_app. apply writes_bind; (apply vprintf_ok; [done|apply bytes_of_bytes|done|done]).
Qed.

Lemma say {A} fd fmt args l (k : M W A) w :
  fd = 1 \/ fd = 2 -> Forall printable args -> formatted false (bytes_of fmt) args = Some l ->
  exists w', (fprintf fd fmt args ;; fprintf fd NL [] ;; k) w = k w' /\ out w' = out w ++ shown fd (l ++ [10]) /\
    fds w' = fds w.
Proof using Htree.
  intros Hfd Ha E. destruct (say_writes fd fmt args l Hfd Ha E w) as (w' & R & O & F). exists w'. split; [|done].
  unfold bind in R |- *. destruct (fprintf fd fmt args w) as [u w1| |]; [|done..]. by rewrite R.
Qed.

Lemma usay {A} fmt args l (k : M W A) w :
  Forall printable args -> formatted false (bytes_of fmt) args = Some l ->
  exists w', (uprintf fmt args ;; uprintf NL [] ;; k) w = k w' /\ out w' = out w ++ l ++ [10] /\ fds w' = fds w.
Proof using Htree. exact (say 1 fmt args l k w (or_introl eq_refl)). Qed.

Lemma usay_writes fmt args l :
  Forall printable args -> formatted false (bytes_of fmt) args = Some l ->
  writes (uprintf fmt args ;; uprintf NL []) (l ++ [10]).
Proof using Htree. exact (say_writes 1 fmt args l (or_introl eq_refl)). Qed.

Lemma formatted_row n x y z :
  formatted false (bytes_of "%s %d %d %d") [AStr (Some n); AInt x; AInt y; AInt z] =
  Some (n ++ [32] ++ rev (uprintint_buf x 10 true) ++ [32] ++ rev (uprintint_buf y 10 true) ++ [32] ++
        rev (uprintint_buf z 10 true) ++ []).
Proof. reflexivity. Qed.

Lemma formatted_file n x y z :
  formatted false (bytes_of "%s %d %d %l") [AStr (Some n); AInt x; AInt y; APtr z] =
  Some (n ++ [32] ++ rev (uprintint_buf x 10 true) ++ [32] ++ rev (uprintint_buf y 10 true) ++ [32] ++
        rev (uprintint_buf (s32 z) 10 false) ++ []).
Proof. reflexivity. Qed.

Lemma formatted_stat s :
  formatted false (bytes_of "ls: cannot stat %s") [AStr (Some s)] = Some (bytes_of "ls: cannot stat " ++ s).
Proof. transitivity (Some (bytes_of "ls: cannot stat " ++ s ++ [])); [reflexivity|]. by rewrite app_nil_r. Qed.

Lemma formatted_open s :
  formatted false (bytes_of "ls: cannot open %s") [AStr (Some s)] = Some (bytes_of "ls: cannot open " ++ s ++ []).
Proof. reflexivity. Qed.

Lemma formatted_long : formatted false (bytes_of "ls: path too long") [] = Some (bytes_of "ls: path too long").
Proof. reflexivity. Qed.

Lemma ustat_ok p w :
  (size (fds w) < 16)%nat -> exists w', ustat p w = Ok (fst <$> node p) w' /\ out w' = out w /\ fds w' = fds w.
Proof using Htree.
  intros Hw. destruct (tr_open Htree p w Hw) as (fd & w1 & E1 & O1 & H1). unfold ustat.
  erewrite bind_Ok by exact E1. destruct (node p) as [[st c]|] eqn:En; destruct (Z.ltb_spec fd 0); try lia.
  - destruct H1 as (_ & Hn & F1).
    destruct (tr_fstat Htree fd p c st c w1) as (w2 & E2 & O2 & F2); [rewrite F1; apply lookup_insert_eq|done|].
    destruct (tr_close Htree fd w2) as (r & w3 & E3 & O3 & F3). exists w3. erewrite bind_Ok by exact E2.
    erewrite bind_Ok by exact E3. split; [done|]. split; [congruence|]. rewrite F3, F2, F1. by apply delete_insert_id.
  - exists w1. by destruct H1 as [_ ->].
Qed.

Hypothesis Hsane : sane.

Lemma row_text p st c :
  node p = Some (st, c) ->
  formatted false (bytes_of "%s %d %d %d")
    [AStr (Some (fmtname p)); AInt (st_type st); AInt (s32 (st_ino st)); AInt (s32 (st_size st))] =
    Some (take (length (row p st) - 1) (row p st)) /\
  formatted false (bytes_of "%s %d %d %l")
    [AStr (Some (fmtname p)); AInt (st_type st); AInt (s32 (st_ino st)); APtr (st_size st)] =
    Some (take (length (row p st) - 1) (row p st)) /\
  take (length (row p st) - 1) (row p st) ++ [10] = row p st.
Proof using Hsane.
  intros Hn. destruct (Hsane _ _ _ Hn) as (Ht & Hi & Hs & _).
  set (l := padded (basename p) ++ [32] ++ dec (st_type st) ++ [32] ++ dec (st_ino st) ++ [32] ++ dec (st_size st)).
  assert (row p st = l ++ [10]) as E by (unfold row, l; by rewrite <- !app_assoc).
  assert (take (length (row p st) - 1) (row p st) = l) as ->.
  { rewrite E, length_app, Nat.add_sub. apply take_app_length. }
  rewrite formatted_row, formatted_file, fmtname_ok, !s32_small, !uprintint_dec, app_nil_r by lia. done.
Qed.

Lemma print_row {A} p st c (k : M W A) w :
  node p = Some (st, c) -> Forall is_byte p ->
  exists w', (uprintf "%s %d %d %d"
      [AStr (Some (fmtname p)); AInt (st_type st); AInt (s32 (st_ino st)); AInt (s32 (st_size st))] ;;
    uprintf NL [] ;; k) w = k w' /\ out w' = out w ++ row p st /\ fds w' = fds w.
Proof using Hsane Htree.
  intros Hn Hp. destruct (row_text p st c Hn) as (E & _ & El).
  assert (Forall is_byte (fmtname p)) by (rewrite fmtname_ok; by apply padded_bytes, basename_bytes).
  destruct (fun Ha => usay _ _ _ k w Ha E) as (w' & H'); [by repeat constructor|]. exists w'. by rewrite El in H'.
Qed.

Lemma cstring_bytes l : Forall is_byte l -> Forall is_byte (cstring l).
Proof. induction 1 as [|c l Hc Hl IH]; cbn [cstring]; [done|]. destruct (c =? 0); [done|by constructor]. Qed.

Lemma ls_entries_ok fuel F fd path c w :
  Forall is_byte path -> Forall is_byte c -> F !! fd = None -> fds w = <[fd := (path, c)]> F ->
  (size F + 2 <= 16)%nat -> (length c < fuel)%nat ->
  exists w' c', ls_entries fuel fd path w = Ok tt w' /\ fds w' = <[fd := (path, c')]> F /\
    out w' = out w ++ concat (entry_row path <$> records c).
Proof using Hsane Htree.
  intros Hp Hc HF Hw HsF. revert c w Hc Hw. induction fuel as [|f IH]; intros c w Hc Hw Hf; [lia|]. cbn [ls_entries].
  destruct (tr_read Htree fd 16 path c w) as (w1 & E1 & O1 & F1); [rewrite Hw; apply lookup_insert_eq|].
  change (Z.to_nat 16) with 16%nat in *. rewrite Hw, insert_insert_eq in F1. erewrite bind_Ok by exact E1.
  cbv beta iota. rewrite length_take. destruct (decide (16 <= length c)%nat) as [Hl|Hl].
  2:{ destruct (Z.eqb_spec (Z.of_nat (16 `min` length c)) 16); [lia|]. cbn [negb]. exists w1, (drop 16 c).
      rewrite records_short by lia. cbn. by rewrite app_nil_r. }
  destruct (Z.eqb_spec (Z.of_nat (16 `min` length c)) 16); [|lia]. cbn [negb]. rewrite records_step by done.
  cbn [fmap list_fmap concat]. set (de := take 16 c).
  assert (forall w2, fds w2 = fds w1 -> out w2 = out w1 ++ entry_row path de ->
    exists w' c', ls_entries f fd path w2 = Ok tt w' /\ fds w' = <[fd := (path, c')]> F /\
    out w' = out w ++ entry_row path de ++ concat (entry_row path <$> records (drop 16 c))) as Hgo.
  { intros w2 F2 O2. destruct (IH (drop 16 c) w2) as (w' & c' & E & F' & O'); [by apply Forall_drop|congruence|rewrite length_drop; lia|].
    exists w', c'. by rewrite O', O2, O1, app_assoc. }
  assert (Forall is_byte (path ++ [47] ++ cstring (de_name de))) as Hbuf.
  { apply Forall_app; split; [done|]. constructor; [unfold is_byte; lia|]. by apply cstring_bytes, Forall_drop, Forall_take. }
  assert (exists r, entry_row path de = r) as [r Er] by eauto. pose proof Er as Er'. unfold entry_row in Er'.
  destruct (de_inum de =? 0); [apply Hgo; [done|]; by rewrite Er, <- Er', app_nil_r|].
  destruct (ustat_ok (path ++ [47] ++ cstring (de_name de)) w1) as (w2 & E2 & O2 & F2).
  { rewrite F1, map_size_insert_None by done. lia. }
  erewrite bind_Ok by exact E2. destruct (node (path ++ [47] ++ cstring (de_name de))) as [[st d]|] eqn:En; cbn [fst fmap option_fmap option_map].
  - destruct (print_row _ _ _ (ls_entries f fd path) w2 En Hbuf) as (w3 & E3 & O3 & F3). rewrite E3.
    apply Hgo; [congruence|]. by rewrite Er, <- Er', O3, O2.
  - destruct (fun Ha => usay _ _ _ (ls_entries f fd path) w2 Ha (formatted_stat (path ++ [47] ++ cstring (de_name de))))
      as (w3 & E3 & O3 & F3); [by repeat constructor|].
    rewrite E3. apply Hgo; [congruence|]. by rewrite Er, <- Er', O3, O2, <- !app_assoc.
Qed.

Variable fuel : nat.
Hypothesis Hfuel : forall p st c, node p = Some (st, c) -> (length c < fuel)%nat.

(** The [switch] of [ls] on an open descriptor. *)
Lemma ls_switch F fd path st c w :
  node path = Some (st, c) -> Forall is_byte path -> F !! fd = None -> fds w = <[fd := (path, c)]> F ->
  (size F + 2 <= 16)%nat ->
  exists w' c', (if st_type st =? T_FILE then
         uprintf "%s %d %d %l"
           [AStr (Some (fmtname path)); AInt (st_type st); AInt (s32 (st_ino st)); APtr (st_size st)] ;;
         uprintf NL []
       else if st_type st =? T_DIR then
         if 512 <? Z.of_nat (length path) + 1 + DIRSIZ + 1 then uprintf "ls: path too long" [] ;; uprintf NL []
         else ls_entries fuel fd path
       else ret tt) w = Ok tt w' /\ fds w' = <[fd := (path, c')]> F /\ out w' = out w ++ listing path.
Proof using Hfuel Hsane Htree.
  intros Hn Hp HF Hw Hs. destruct (Hsane _ _ _ Hn) as (_ & _ & _ & Hc).
  unfold listing. rewrite Hn. destruct (st_type st =? T_FILE).
  - destruct (row_text path st c Hn) as (_ & E & El).
    assert (Forall is_byte (fmtname path)) by (rewrite fmtname_ok; by apply padded_bytes, basename_bytes).
    destruct (fun Ha => usay_writes _ _ _ Ha E w) as (w' & R & O & Fd); [by repeat constructor|].
    exists w', c. split; [exact R|]. split; [congruence|]. by rewrite O, El.
  - destruct (st_type st =? T_DIR); [|exists w, c; by rewrite app_nil_r]. unfold DIRSIZ.
    destruct (Z.ltb_spec 512 (Z.of_nat (length path) + 1 + 14 + 1)); destruct (Nat.ltb_spec 496 (length path)); try lia.
    + destruct (usay_writes "ls: path too long" [] _ (Forall_nil_2 _) formatted_long w) as (w' & R & O & Fd).
      exists w', c. split; [exact R|]. split; [congruence|exact O].
    + apply (ls_entries_ok fuel F fd path c w); try done. by eapply Hfuel.
Qed.

Lemma ls_ok path w :
  Forall is_byte path -> (size (fds w) + 2 <= 16)%nat ->
  exists w', ls fuel path w = Ok tt w' /\ fds w' = fds w /\ out w' = out w ++ listing path.
Proof using Hfuel Hsane Htree.
  intros Hp Hw. destruct (tr_open Htree path w) as (fd & w1 & E1 & O1 & H1); [lia|]. unfold ls.
  erewrite bind_Ok by exact E1. destruct (node path) as [[st c]|] eqn:En; destruct (Z.ltb_spec fd 0); try lia.
  - destruct H1 as (_ & HF & F1).
    destruct (tr_fstat Htree fd path c st c w1) as (w2 & E2 & O2 & F2); [rewrite F1; apply lookup_insert_eq|done|].
    destruct (ls_switch (fds w) fd path st c w2 En Hp HF) as (w3 & c' & E3 & F3 & O3); [congruence|done|].
    destruct (tr_close Htree fd w3) as (r & w4 & E4 & O4 & F4). exists w4. erewrite bind_Ok by exact E2. cbv beta iota.
    erewrite bind_Ok by exact E3. erewrite bind_Ok by exact E4. split; [done|].
    rewrite F4, F3, O4, O3, O2, O1. split; [by apply delete_insert_id|done].
  - destruct H1 as (_ & F1). unfold listing. rewrite En, app_nil_r.
    destruct (fun Ha => say_writes 2 _ _ _ (or_intror eq_refl) Ha (formatted_open path) w1) as (w2 & R & O & Fd);
      [by repeat constructor|].
    exists w2. split; [exact R|]. split; [congruence|]. rewrite O, O1. apply app_nil_r.
Qed.

Lemma ls_all_ok paths w :
  Forall (Forall is_byte) paths -> (size (fds w) + 2 <= 16)%nat ->
  exists w', for_in paths (ls fuel) w = Ok tt w' /\ fds w' = fds w /\ out w' = out w ++ concat (listing <$> paths).
Proof using Hfuel Hsane Htree.
  intros Hp. revert w. induction Hp as [|p paths Hp Hps IH]; intros w Hw; cbn [for_in fmap list_fmap concat].
  { exists w. by rewrite app_nil_r. }
  destruct (ls_ok p w Hp Hw) as (w1 & E1 & F1 & O1). destruct (IH w1) as (w2 & E2 & F2 & O2); [by rewrite F1|].
  exists w2. erewrite bind_Ok by exact E1. by rewrite F2, F1, O2, O1, app_assoc.
Qed.

(** C12. [ls], started with at least two free descriptors on files that do not
    change meanwhile, exits with 0 after writing, for every path of its arguments
    in order ([.] without arguments), exactly its listing: a row of name, type,
    inode number and size for a file, and for a directory one row per entry in
    use, by the order of the entries, with a message in place of the row of an
    entry that cannot be opened.  It closes every descriptor it opened. *)
Theorem ls_correct argv w :
  Forall (Forall is_byte) argv -> (size (fds w) + 2 <= 16)%nat ->
  exists w', ls_main fuel argv w = Ok 0 w' /\ fds w' = fds w /\
    out w' = out w ++ concat (listing <$> match tail argv with [] => [bytes_of "."] | paths => paths end).
Proof using Hfuel Hsane Htree.
  intros Ha Hw. destruct argv as [|a [|p paths]]; cbn [tail].
  1,2: destruct (ls_ok (bytes_of ".") w (bytes_of_bytes _) Hw) as (w' & E & F & O); exists w';
    (split; [unfold ls_main; by erewrite bind_Ok by exact E|]); split; [done|]; cbn [fmap list_fmap concat];
    by rewrite app_nil_r.
  apply Forall_cons in Ha as [_ Ha]. destruct (ls_all_ok (p :: paths) w Ha Hw) as (w' & E & F & O).
  exists w'. split; [|done]. unfold ls_main. by erewrite bind_Ok by exact E.
Qed.
End ls.

(** ** A directory with a file, a free slot and the entry of a file that is gone *)

Module LsDemo.
Definition world : Type := gmap Z (list Z * list Z) * list Z.

Definition dir : list Z :=
  mkdirent 1 (bytes_of ".") ++ mkdirent 2 (bytes_of "f") ++ replicate 16 0 ++ mkdirent 9 (bytes_of "gone").

Definition node (p : list Z) : option (stat * list Z) :=
  if bool_decide (p = bytes_of "." \/ p = bytes_of "./.") then Some (mkstat 1 1 T_DIR 1 64, dir)
  else if bool_decide (p = bytes_of "./f") then Some (mkstat 1 2 T_FILE 1 5, bytes_of "hello")
  else None.

(** A descriptor above all those in use. *)
Definition next (m : gmap Z (list Z * list Z)) : Z := 1 + map_fold (fun fd _ top => Z.max fd top) 2 m.

#[local] Instance usys : Usys world := {
  u_read fd n := fun w =>
    match w.1 !! fd with
    | Some (p, c) => Ok (Some (take (Z.to_nat n) c)) (<[fd := (p, drop (Z.to_nat n) c)]> w.1, w.2)
    | None => Ok None w
    end;
  u_write fd l := fun w => Ok (Z.of_nat (length l)) (w.1, w.2 ++ (if fd =? 1 then l else []));
  u_open p _ := fun w =>
    match node p with
    | Some (_, c) => Ok (next w.1) (<[next w.1 := (p, c)]> w.1, w.2)
    | None => Ok (-1) w
    end;
  u_close fd := fun w => Ok 0 (delete fd w.1, w.2);
  u_fstat fd := fun w =>
    Ok (match w.1 !! fd with Some (p, _) => fst <$> node p | None => None end) w;
  u_link _ _ := ret (-1);
  u_unlink _ := ret (-1);
  u_mkdir _ := ret (-1);
  u_kill _ := ret (-1)
}.

Lemma next_free m : 2 < next m /\ m !! next m = None.
Proof.
  assert (2 <= map_fold (fun fd (_ : list Z * list Z) top => Z.max fd top) 2 m /\
    forall fd x, m !! fd = Some x -> fd <= map_fold (fun fd (_ : list Z * list Z) top => Z.max fd top) 2 m) as [H1 H2].
  { apply (map_fold_weak_ind (fun r m => 2 <= r /\ forall fd x, m !! fd = Some x -> fd <= r)); [done|].
    intros i x m' r Hi [H2 IH]. split; [lia|]. intros fd y [[-> _]|[_ H]]%lookup_insert_Some; [lia|].
    specialize (IH _ _ H). lia. }
  unfold next. split; [lia|]. destruct (m !! _) as [x|] eqn:E; [|done]. specialize (H2 _ _ E). lia.
Qed.

Lemma demo_tree : tree (W := world) snd fst node.
Proof.
  split.
  - intros p w _. cbn. destruct (node p) as [[st c]|]; [|by exists (-1), w].
    destruct (next_free w.1). eexists _, _. split; [done|]. split; [done|]. split; [lia|done].
  - intros fd n p c w H. cbn. rewrite H. by eexists.
  - intros fd p c st d w H Hn. cbn. rewrite H, Hn. by eexists.
  - intros fd w. by eexists _, _.
  - intros fd l w _. by eexists _, _.
Qed.

Lemma demo_sane : sane node.
Proof.
  intros p st c. unfold node. repeat case_bool_decide; intros [= <- <-]; cbn [st_type st_ino st_size].
  all: split; [unfold T_DIR, T_FILE; lia|]; split; [lia|]; split; [lia|].
  - apply (bool_decide_eq_true_1 (Forall is_byte dir)). vm_compute. reflexivity.
  - apply (bool_decide_eq_true_1 (Forall is_byte (bytes_of "hello"))). vm_compute. reflexivity.
Qed.

Lemma demo_short p st c : node p = Some (st, c) -> (length c < 100)%nat.
Proof. unfold node. repeat case_bool_decide; intros [= <- <-]; apply Nat.ltb_lt; vm_compute; reflexivity. Qed.
End LsDemo.

(** [ls] in that directory. *)
Lemma ls_correct_witness :
  exists w', ls_main (W := LsDemo.world) (Usys0 := LsDemo.usys) 100 [bytes_of "ls"] (∅, []) = Ok 0 w' /\ fst w' = ∅ /\
    snd w' = bytes_of (".              1 1 64" ++ NL ++ "f              2 2 5" ++ NL ++ "ls: cannot stat ./gone" ++ NL).
Proof.
  destruct (ls_correct (Usys0 := LsDemo.usys) snd fst LsDemo.node LsDemo.demo_tree LsDemo.demo_sane 100 LsDemo.demo_short
    [bytes_of "ls"] (∅, [])) as (w' & H1 & H2 & H3).
  - apply Forall_singleton, bytes_of_bytes.
  - cbn [fst]. rewrite map_size_empty. lia.
  - exists w'. split; [exact H1|]. split; [exact H2|]. rewrite H3. vm_compute. reflexivity.
Defined.
