(* ===== verification/Sh.v ===== *)
(** * The shell: [src/user/sh/sh.c]

    The command line is a buffer of bytes ended by a NUL; a pointer into it is
    an index, and the parser's state is the index [*ps].  A parsed command
    holds indices, as in the C structures, until [nulterminate] has ended the
    words with NULs.  The error exits ([panic]) end the parse.  The recursive
    functions take a bound on their nesting and repetition. *)

From S2P Require Import Prelude Fs Memory Printf Ulib.

Definition MAXARGS : nat := 10.


(** [struct cmd] and its variants; [argv] with the ends of the words. *)
Inductive cmd :=
  | EXEC (argv : list (nat * nat))
  | REDIR (c : cmd) (file efile : nat) (mode fd : Z)
  | PIPE (left right : cmd)
  | LIST (left right : cmd)
  | BACK (c : cmd).

(** [strchr(s, c)] for a constant string [s]: not null. *)
Definition chr (s : string) (c : Z) : bool := existsb (Z.eqb c) (bytes_of s).

(** [char whitespace[] = " \t\r\n\v"] *)
Definition whitespace (c : Z) : bool := (c =? 32) || (c =? 9) || (c =? 13) || (c =? 10) || (c =? 11).
Definition symbols (c : Z) : bool := chr "<|>&;()" c.

Section parser.
(** The bytes of the line; [es] is its end. *)
Variable buf : list Z.
Definition es : nat := length buf.

(** [*s]; the byte at [es] is the NUL. *)
Definition at_ (s : nat) : Z := nth s buf 0.

(** [while(s < es && strchr(whitespace, *s)) s++;] in [k = es - s] rounds. *)
Fixpoint skip_ws (k s : nat) : nat :=
  match k with
  | O => s
  | S k' => if whitespace (at_ s) then skip_ws k' (S s) else s
  end.
Definition skip (s : nat) : nat := skip_ws (es - s) s.

(** [while(s < es && !strchr(whitespace, *s) && !strchr(symbols, *s)) s++;] *)
Fixpoint skip_word (k s : nat) : nat :=
  match k with
  | O => s
  | S k' => if negb (whitespace (at_ s)) && negb (symbols (at_ s)) then skip_word k' (S s) else s
  end.

(** The token, [*q] and [*eq]. *)
Definition gettoken : M nat (Z * nat * nat) := fun ps =>
  let q := skip ps in
  let c := at_ q in
  let '(r, s) :=
    if c =? 0 then (c, q)
    else if chr "|();&<" c then (c, S q)
    else if c =? 62 then if at_ (S q) =? 62 then (43, S (S q)) else (c, S q)
    else (97, skip_word (es - q) q) in
  Ok (r, q, s) (skip s).

Definition peek (toks : string) : M nat bool := fun ps =>
  let s := skip ps in
  Ok (negb (at_ s =? 0) && chr toks (at_ s)) s.

(** A redirection: file, its end, mode and descriptor. *)
Abbreviation redir := (nat * nat * Z * Z)%type.
Definition redircmd (c : cmd) (r : redir) : cmd :=
  let '(file, efile, mode, fd) := r in REDIR c file efile mode fd.

(** [parseredirs]: the redirections it wraps around the command, innermost
    first.  The command itself may still be growing: [parseexec] stores
    arguments into the [execcmd] that [ret] already contains. *)
Fixpoint parseredirs (fuel : nat) : M nat (list redir) :=
  match fuel with
  | O => panic "fuel"
  | S f =>
      let! b := peek "<>" in
      if b then
        let! t := gettoken in
        let! w := gettoken in
        let '(tok, _, _) := t in
        let '(wtok, q, eq) := w in
        if negb (wtok =? 97) then panic "missing file for redirection"
        else
          let! rs := parseredirs f in
          ret (if tok =? 60 then (q, eq, oflag_val O_RDONLY, 0) :: rs
               else if tok =? 62 then (q, eq, Z.lor (Z.lor O_WRONLY O_CREATE) O_TRUNC, 1) :: rs
               else if tok =? 43 then (q, eq, Z.lor O_WRONLY O_CREATE, 1) :: rs
               else rs)
      else ret []
  end.

(** The loop of [parseexec]: the arguments and the redirections. *)
Fixpoint exec_args (fuel : nat) (argc : nat) : M nat (list (nat * nat) * list redir) :=
  match fuel with
  | O => panic "fuel"
  | S f =>
      let! b := peek "|)&;" in
      if b then ret ([], [])
      else
        let! t := gettoken in
        let '(tok, q, eq) := t in
        if tok =? 0 then ret ([], [])
        else if negb (tok =? 97) then panic "syntax"
        else if (MAXARGS <=? S argc)%nat then panic "too many args"
        else
          let! rs := parseredirs f in
          let! r := exec_args f (S argc) in
          ret ((q, eq) :: fst r, rs ++ snd r)
  end.

(** [while(peek(ps, es, "&"))] of [parseline] *)
Fixpoint back_loop (fuel : nat) (c : cmd) : M nat cmd :=
  match fuel with
  | O => panic "fuel"
  | S f =>
      let! b := peek "&" in
      if b then gettoken ;; back_loop f (BACK c) else ret c
  end.

Fixpoint parseline (fuel : nat) : M nat cmd :=
  match fuel with
  | O => panic "fuel"
  | S f =>
      let! c := parsepipe f in
      let! c := back_loop f c in
      let! b := peek ";" in
      if b then
        gettoken ;;
        let! r := parseline f in
        ret (LIST c r)
      else ret c
  end
with parsepipe (fuel : nat) : M nat cmd :=
  match fuel with
  | O => panic "fuel"
  | S f =>
      let! c := parseexec f in
      let! b := peek "|" in
      if b then
        gettoken ;;
        let! r := parsepipe f in
        ret (PIPE c r)
      else ret c
  end
with parseexec (fuel : nat) : M nat cmd :=
  match fuel with
  | O => panic "fuel"
  | S f =>
      let! b := peek "(" in
      if b then parseblock f
      else
        let! rs := parseredirs f in
        let! r := exec_args f 0 in
        ret (foldl redircmd (EXEC (fst r)) (rs ++ snd r))
  end
with parseblock (fuel : nat) : M nat cmd :=
  match fuel with
  | O => panic "fuel"
  | S f =>
      let! b := peek "(" in
      if negb b then panic "parseblock"
      else
        gettoken ;;
        let! c := parseline f in
        let! b := peek ")" in
        if negb b then panic "syntax - missing )"
        else
          gettoken ;;
          let! rs := parseredirs f in
          ret (foldl redircmd c rs)
  end.

(** [nulterminate]: the buffer with the NULs, indexed up to [es]. *)
Fixpoint nulterminate (c : cmd) (b : list Z) : list Z :=
  match c with
  | EXEC argv => foldl (fun b a => <[snd a := 0]> b) b argv
  | REDIR c' _ efile _ _ => <[efile := 0]> (nulterminate c' b)
  | PIPE l r | LIST l r => nulterminate r (nulterminate l b)
  | BACK c' => nulterminate c' b
  end.

(** The command and the buffer it points into, or the place of the leftovers,
    which are printed before [panic("syntax")]. *)
Definition parsecmd (fuel : nat) : M nat (nat + cmd * list Z) :=
  let! c := parseline fuel in
  peek "" ;;
  let! s := gets (fun s => s) in
  if negb (s =? es)%nat then ret (inl s)
  else ret (inr (c, nulterminate c (buf ++ [0]))).
End parser.

(** The string a pointer into the buffer points to. *)
Definition str_at (b : list Z) (q : nat) : list Z := cstring (drop q b).
