(* ===== verification/ShSpec.v ===== *)
(** * The shell's parser stops

    What the tokens consume of the line, and that the parser ends on every line
    within a bound on its nesting. *)

From S2P Require Import Prelude Memory Printf Ulib Sh.

(** ** The rest of the line *)

Fixpoint lskip (l : list Z) : list Z :=
  match l with
  | [] => []
  | c :: l' => if whitespace c then lskip l' else l
  end.

(** A byte of a word. *)
Definition wordc (c : Z) : bool := negb (whitespace c) && negb (symbols c) && negb (c =? 0).

Definition first (l : list Z) : Z := hd 0 l.

Lemma lskip_idem l : lskip (lskip l) = lskip l.
Proof. induction l as [|c l IH]; [done|]. cbn. destruct (whitespace c) eqn:E; [done|]. cbn. by rewrite E. Qed.

Lemma lskip_length l : (length (lskip l) <= length l)%nat.
Proof. induction l as [|c l IH]; cbn; [lia|]. destruct (whitespace c); cbn; lia. Qed.

Lemma first_lskip l : first (lskip l) <> 0 -> whitespace (first (lskip l)) = false.
Proof. induction l as [|c l IH]; cbn; [done|]. destruct (whitespace c) eqn:E; [done|]. by cbn. Qed.

Lemma lskip_word w r : wordc (first w) = true -> w <> [] -> lskip (w ++ r) = w ++ r.
Proof.
  destruct w as [|c w]; [done|]. cbn. unfold wordc. destruct (whitespace c); done.
Qed.

Section parse.
Variable buf : list Z.
Hypothesis Hnul : Forall (fun c => c <> 0) buf.

(** What the parser still sees at [s]. *)
Definition V (s : nat) : list Z := lskip (drop s buf).

Lemma at_first s : at_ buf s = first (drop s buf).
Proof.
  unfold at_, first. revert s. induction buf as [|c l IH]; intros [|s]; try done. cbn. by inversion Hnul; apply IH.
Qed.

Lemma skip_ws_ok k s :
  (s + k = es buf)%nat -> (s <= skip_ws buf k s <= es buf)%nat /\ drop (skip_ws buf k s) buf = lskip (drop s buf).
Proof.
  revert s. induction k as [|k IH]; intros s Hs; cbn [skip_ws].
  - split; [lia|]. rewrite drop_ge by (unfold es in *; lia). done.
  - destruct (drop s buf) as [|c l] eqn:E.
    { assert (length (drop s buf) = 0)%nat as El by (by rewrite E). rewrite length_drop in El. unfold es in *. lia. }
    rewrite at_first, E. cbn [first hd lskip].
    assert (drop (S s) buf = l) as E' by (change (S s) with (1 + s)%nat; rewrite Nat.add_comm, <- drop_drop, E; done).
    destruct (whitespace c).
    + destruct (IH (S s)) as [H1 H2]; [lia|]. split; [lia|]. by rewrite H2, E'.
    + split; [lia|done].
Qed.

Lemma skip_ok s : (s <= es buf)%nat -> (s <= skip buf s <= es buf)%nat /\ drop (skip buf s) buf = V s.
Proof. intros H. unfold skip. apply skip_ws_ok. lia. Qed.

Lemma V_skip s : (s <= es buf)%nat -> V (skip buf s) = V s.
Proof. intros H. unfold V at 1. destruct (skip_ok s H) as [_ ->]. unfold V. apply lskip_idem. Qed.

Lemma drop_cons s c l : drop s buf = c :: l -> drop (S s) buf = l /\ (s < es buf)%nat.
Proof.
  intros E. split.
  - change (S s) with (1 + s)%nat. by rewrite Nat.add_comm, <- drop_drop, E.
  - destruct (decide (s < es buf)%nat) as [|Hge]; [done|]. rewrite drop_ge in E by (unfold es in *; lia). done.
Qed.

Lemma drop_nil s : (s <= es buf)%nat -> drop s buf = [] -> s = es buf.
Proof. intros H E. assert (length (drop s buf) = 0)%nat as El by (by rewrite E). rewrite length_drop in El. unfold es in *. lia. Qed.

Lemma in_buf s c l : drop s buf = c :: l -> c <> 0.
Proof.
  intros E. eapply (Forall_forall _ buf) in Hnul; [exact Hnul|]. rewrite <- (take_drop s buf), E. set_solver.
Qed.

(** ** Tokens *)

Lemma peek_ok toks s :
  (s <= es buf)%nat ->
  exists s', peek buf toks s = Ok (chr toks (first (V s)) && negb (first (V s) =? 0)) s' /\ (s <= s' <= es buf)%nat /\ V s' = V s.
Proof.
  intros H. destruct (skip_ok s H) as [H1 H2]. exists (skip buf s). unfold peek. rewrite at_first, H2, andb_comm.
  split; [done|]. split; [done|by apply V_skip].
Qed.

Lemma skip_word_ok k s w r :
  (s + k = es buf)%nat -> drop s buf = w ++ r -> Forall (fun c => wordc c = true) w -> wordc (first r) = false ->
  skip_word buf k s = (s + length w)%nat.
Proof.
  revert k s. induction w as [|c w IH]; intros k s Hk E Hw Hr.
  - cbn [app] in E. rewrite Nat.add_0_r. destruct k as [|k]; [done|]. cbn [skip_word]. rewrite at_first, E.
    destruct r as [|c r]; [apply drop_nil in E; lia|]. cbn [first hd] in *. apply in_buf in E as Hc. unfold wordc in Hr.
    destruct (Z.eqb_spec c 0); [done|]. rewrite andb_true_r in Hr. by rewrite Hr.
  - apply Forall_cons in Hw as [Hc Hw]. destruct (drop_cons _ _ _ E) as [E' Hs]. destruct k as [|k]; [lia|].
    cbn [skip_word]. rewrite at_first, E. cbn [first hd app]. unfold wordc in Hc. apply andb_true_iff in Hc as [Hc _].
    rewrite Hc. rewrite (IH k (S s)); [cbn; lia|lia|done|done|done].
Qed.

(** The end of the line, a symbol, a word. *)
Lemma token_end s :
  (s <= es buf)%nat -> V s = [] -> exists q s', gettoken buf s = Ok (0, q, q) s' /\ (s <= s' <= es buf)%nat /\ V s' = [].
Proof.
  intros H E. destruct (skip_ok s H) as [H1 H2]. rewrite E in H2. unfold gettoken. rewrite at_first, H2. cbn [first hd Z.eqb].
  destruct (skip_ok (skip buf s)) as [H3 H4]; [lia|]. exists (skip buf s), (skip buf (skip buf s)). split; [done|].
  split; [lia|]. rewrite V_skip, V_skip by lia. done.
Qed.

Lemma token_sym s c r :
  (s <= es buf)%nat -> V s = c :: r -> chr "|();&<" c = true \/ (c = 62 /\ first r <> 62) ->
  exists q s', gettoken buf s = Ok (c, q, S q) s' /\ (s < s' <= es buf)%nat /\ V s' = lskip r.
Proof.
  intros H E Hc. destruct (skip_ok s H) as [H1 H2]. rewrite E in H2. unfold gettoken. rewrite at_first, H2. cbn [first hd].
  destruct (drop_cons _ _ _ H2) as [E' Hlt]. apply in_buf in H2 as Hz. destruct (Z.eqb_spec c 0); [done|].
  exists (skip buf s), (skip buf (S (skip buf s))). destruct (skip_ok (S (skip buf s))) as [H3 H4]; [lia|].
  split; [|split; [lia|]].
  - destruct Hc as [->|[-> Hf]]; [done|]. cbn -[skip]. rewrite at_first, E'. by destruct (Z.eqb_spec (first r) 62).
  - rewrite V_skip by lia. unfold V. by rewrite E'.
Qed.

Lemma token_append s r :
  (s <= es buf)%nat -> V s = 62 :: 62 :: r ->
  exists q s', gettoken buf s = Ok (43, q, S (S q)) s' /\ (s < s' <= es buf)%nat /\ V s' = lskip r.
Proof.
  intros H E. destruct (skip_ok s H) as [H1 H2]. rewrite E in H2. unfold gettoken. rewrite at_first, H2. cbn -[skip].
  destruct (drop_cons _ _ _ H2) as [E' Hlt]. destruct (drop_cons _ _ _ E') as [E'' Hlt']. rewrite at_first, E'. cbn -[skip].
  exists (skip buf s), (skip buf (S (S (skip buf s)))). destruct (skip_ok (S (S (skip buf s)))) as [H3 H4]; [lia|].
  split; [done|]. split; [lia|]. rewrite V_skip by lia. unfold V. by rewrite E''.
Qed.

Lemma wordc_sym c : wordc c = true -> (c =? 0) = false /\ chr "|();&<" c = false /\ (c =? 62) = false.
Proof.
  unfold wordc. rewrite !andb_true_iff, !negb_true_iff. intros [[_ H] H0]. split; [done|]. revert H.
  unfold symbols, chr; cbn. rewrite !orb_false_iff. tauto.
Qed.

Lemma token_word s w r :
  (s <= es buf)%nat -> V s = w ++ r -> w <> [] -> Forall (fun c => wordc c = true) w -> wordc (first r) = false ->
  exists q s', gettoken buf s = Ok (97, q, (q + length w)%nat) s' /\ (s < s' <= es buf)%nat /\ V s' = lskip r /\
    drop q buf = w ++ r.
Proof.
  intros H E Hne Hw Hr. destruct (skip_ok s H) as [H1 H2]. rewrite E in H2. unfold gettoken. rewrite at_first, H2.
  exists (skip buf s), (skip buf (skip buf s + length w)).
  assert (skip_word buf (es buf - skip buf s) (skip buf s) = skip buf s + length w)%nat as Ew
    by (eapply skip_word_ok; [lia|exact H2|done|done]).
  assert (skip buf s + length w <= es buf)%nat as Hle.
  { assert (length (drop (skip buf s) buf) = length (w ++ r)) as El by (by rewrite H2).
    rewrite length_drop, length_app in El. unfold es in *. destruct w; [done|cbn in *; lia]. }
  destruct (skip_ok _ Hle) as [H3 H4]. split; [|split; [|split; [|done]]].
  - destruct w as [|c w]; [done|]. apply Forall_inv in Hw as Hc. cbn [first hd app].
    apply wordc_sym in Hc as (-> & -> & ->). by rewrite Ew.
  - destruct w; [done|]. cbn [length] in *. lia.
  - rewrite V_skip by lia. unfold V. rewrite <- drop_drop, H2. by rewrite drop_app_length.
Qed.

(** ** The parser stops *)

Lemma word_span l : exists w r, l = w ++ r /\ Forall (fun c => wordc c = true) w /\ wordc (first r) = false.
Proof.
  induction l as [|c l (w & r & -> & H1 & H2)]; [by exists [], []|]. destruct (wordc c) eqn:E.
  - exists (c :: w), r. split_and!; [done|by constructor|done].
  - by exists [], (c :: w ++ r).
Qed.

Lemma wordc_intro c : c <> 0 -> whitespace c = false -> chr "|();&<" c = false -> c <> 62 -> wordc c = true.
Proof.
  intros H0 Hw Hc H62. unfold wordc. rewrite Hw. apply Z.eqb_neq in H0, H62. rewrite H0. revert Hc.
  unfold symbols, chr. change (bytes_of "|();&<") with [124; 40; 41; 59; 38; 60].
  change (bytes_of "<|>&;()") with [60; 124; 62; 38; 59; 40; 41]. cbn [existsb].
  rewrite !orb_false_iff, H62. intros (H1 & H2 & H3 & H4 & H5 & H6 & _). by rewrite H1, H2, H3, H4, H5, H6.
Qed.

Definition rem (s : nat) : nat := length (V s).

Lemma gettoken_total s :
  (s <= es buf)%nat ->
  exists tok q eq s', gettoken buf s = Ok (tok, q, eq) s' /\ (s' <= es buf)%nat /\ (rem s' <= rem s)%nat /\
    (V s <> [] -> (rem s' < rem s)%nat) /\ (V s = [] -> tok = 0).
Proof.
  intros H. unfold rem. destruct (V s) as [|c r] eqn:E.
  - destruct (token_end s H E) as (q & s' & E1 & H1 & H2). exists 0, q, q, s'. rewrite H2. by split_and!; [|lia|cbn; lia| |].
  - assert (c <> 0) as Hc by (destruct (skip_ok s H) as [_ H2]; rewrite E in H2; by eapply in_buf).
    assert (whitespace c = false) as Hw by (pose proof (first_lskip (drop s buf)) as Hf; fold (V s) in Hf; rewrite E in Hf; by apply Hf).
    pose proof (lskip_length r). destruct (chr "|();&<" c) eqn:Es.
    { destruct (token_sym s c r H E) as (q & s' & E1 & H1 & H2); [by left|]. eexists _, _, _, s'. rewrite H2.
      by split_and!; [exact E1|lia|cbn; lia|cbn; lia|]. }
    destruct (Z.eq_dec c 62) as [->|H62].
    { destruct (Z.eq_dec (first r) 62) as [Hr|Hr].
      - destruct r as [|d r]; [done|]. cbn in Hr. subst d. destruct (token_append s r H E) as (q & s' & E1 & H1 & H2).
        pose proof (lskip_length r). eexists _, _, _, s'. rewrite H2. by split_and!; [exact E1|lia|cbn; lia|cbn; lia|].
      - destruct (token_sym s 62 r H E) as (q & s' & E1 & H1 & H2); [by right|]. eexists _, _, _, s'. rewrite H2.
        by split_and!; [exact E1|lia|cbn; lia|cbn; lia|]. }
    destruct (word_span (c :: r)) as (w & r' & Ew & Hw1 & Hw2).
    assert (w <> []) as Hne.
    { intros ->. cbn in Ew. subst r'. cbn in Hw2. rewrite wordc_intro in Hw2; done. }
    rewrite Ew in E. destruct (token_word s w r' H E Hne Hw1 Hw2) as (q & s' & E1 & H1 & H2 & _).
    pose proof (lskip_length r'). eexists _, _, _, s'. rewrite H2, Ew, length_app.
    assert (1 <= length w)%nat by (destruct w; [done|cbn; lia]).
    by split_and!; [exact E1|lia|lia|lia|destruct w].
Qed.

(** The messages of [panic] in the parser. *)
Definition syntax_errors : list string :=
  ["missing file for redirection"; "syntax"; "too many args"; "parseblock"; "syntax - missing )"]%string.

(** The run returns, with at most [n] bytes left, or ends in a syntax error. *)
Definition good {A} (n : nat) (r : outcome nat A) : Prop :=
  match r with
  | Ok _ s' => (s' <= es buf)%nat /\ (rem s' <= n)%nat
  | Panic msg => msg ∈ syntax_errors
  | Sleeps _ _ => False
  end.

Lemma good_bind {A A'} n (m : M nat A) (k : A -> M nat A') s :
  good n (m s) -> (forall a s', (s' <= es buf)%nat -> (rem s' <= n)%nat -> good n (k a s')) -> good n (bind m k s).
Proof. intros H1 H2. unfold bind. destruct (m s); cbn in *; [|done|done]. apply H2; tauto. Qed.

Lemma good_le {A} n n' (r : outcome nat A) : good n r -> (n <= n')%nat -> good n' r.
Proof. destruct r; cbn; [|done|done]. intros [? ?] ?. split; lia. Qed.

Lemma good_peek toks n s {A'} (k : bool -> M nat A') :
  (s <= es buf)%nat -> (rem s <= n)%nat ->
  (forall b s', (s' <= es buf)%nat -> V s' = V s -> (b = true -> V s <> []) -> good n (k b s')) ->
  good n (bind (peek buf toks) k s).
Proof.
  intros Hs Hn Hk. destruct (peek_ok toks s Hs) as (s' & E & H1 & H2). erewrite bind_Ok by exact E.
  apply Hk; [lia|done|]. intros [_ Hb]%andb_true_iff Hv. by rewrite Hv in Hb.
Qed.

Lemma good_token n s {A'} (k : Z * nat * nat -> M nat A') :
  (s <= es buf)%nat ->
  (forall t s', (s' <= es buf)%nat -> (rem s' <= rem s)%nat -> (V s <> [] -> (rem s' < rem s)%nat) ->
     (V s = [] -> fst (fst t) = 0) -> good n (k t s')) ->
  good n (bind (gettoken buf) k s).
Proof.
  intros Hs Hk. destruct (gettoken_total s Hs) as (tok & q & eq & s' & E & H1 & H2 & H3 & H4).
  erewrite bind_Ok by exact E. by apply Hk.
Qed.

Ltac syntax_err := unfold panic, good, syntax_errors; set_solver.

Lemma parseredirs_total fuel s :
  (s <= es buf)%nat -> (rem s < fuel)%nat -> good (rem s) (parseredirs buf fuel s).
Proof.
  revert s. induction fuel as [|fuel IH]; intros s Hs Hf; [lia|]. cbn [parseredirs].
  apply good_peek; [done|lia|]. intros b s1 Hs1 E1 Hb. unfold rem in *. destruct b; [|split; [done|unfold rem; by rewrite E1]].
  apply good_token; [done|]. intros t s2 Hs2 Hr2 Hlt _. specialize (Hb eq_refl). rewrite <- E1 in Hb. specialize (Hlt Hb).
  apply good_token; [done|]. intros [[wtok q] eq] s3 Hs3 Hr3 _ _. destruct t as [[tok ?] ?]. unfold rem in *.
  destruct (negb _); [syntax_err|]. apply (good_le (length (V s3))); [|rewrite <- E1; lia].
  apply good_bind; [apply IH; [done|rewrite <- E1 in Hf; unfold rem in *; lia]|].
  intros rs s4 H4 H5. cbn. by split.
Qed.

Lemma exec_args_total fuel argc s :
  (s <= es buf)%nat -> (rem s < fuel)%nat -> good (rem s) (exec_args buf fuel argc s).
Proof.
  revert argc s. induction fuel as [|fuel IH]; intros argc s Hs Hf; [lia|]. cbn [exec_args].
  apply good_peek; [done|lia|]. intros b s1 Hs1 E1 _. unfold rem in *. destruct b; [split; [done|unfold rem; by rewrite E1]|].
  apply good_token; [done|]. intros [[tok q] eq] s2 Hs2 Hr2 Hlt Hend. unfold rem in *. rewrite E1 in *.
  destruct (Z.eqb_spec tok 0); [by split|].
  assert (length (V s2) < length (V s))%nat as Hlt' by (apply Hlt; intros Hv; by apply Hend in Hv).
  destruct (negb _); [syntax_err|]. destruct (_ <=? _)%nat; [syntax_err|].
  apply (good_le (length (V s2))); [|lia]. apply good_bind; [apply parseredirs_total; [done|unfold rem; lia]|].
  intros rs s3 H3 H3'. unfold rem in *. apply (good_le (length (V s3))); [|done].
  apply good_bind; [apply IH; [done|unfold rem; lia]|]. intros r s4 H4 H4'. cbn. by split.
Qed.

Lemma back_loop_total fuel c s :
  (s <= es buf)%nat -> (rem s < fuel)%nat -> good (rem s) (back_loop buf fuel c s).
Proof.
  revert c s. induction fuel as [|fuel IH]; intros c s Hs Hf; [lia|]. cbn [back_loop].
  apply good_peek; [done|lia|]. intros b s1 Hs1 E1 Hb. unfold rem in *. destruct b; [|split; [done|unfold rem; by rewrite E1]].
  apply good_token; [done|]. intros t s2 Hs2 Hr2 Hlt _. specialize (Hb eq_refl). rewrite <- E1 in Hb. specialize (Hlt Hb).
  unfold rem in *. rewrite E1 in *. apply (good_le (length (V s2))); [|lia]. apply IH; [done|unfold rem; lia].
Qed.

Lemma parse_total_all fuel s :
  (s <= es buf)%nat ->
  ((4 * rem s + 4 <= fuel)%nat -> good (rem s) (parseline buf fuel s)) /\
  ((4 * rem s + 3 <= fuel)%nat -> good (rem s) (parsepipe buf fuel s)) /\
  ((4 * rem s + 2 <= fuel)%nat -> good (rem s) (parseexec buf fuel s)) /\
  ((4 * rem s + 1 <= fuel)%nat -> good (rem s) (parseblock buf fuel s)).
Proof.
  revert s. induction fuel as [|fuel IH]; intros s Hs; [split_and!; lia|].
  destruct (IH s Hs) as (I1 & I2 & I3 & I4). split_and!; intros Hf.
  - cbn [parseline]. apply good_bind; [apply I2; lia|]. intros c s1 H1 R1.
    apply good_bind; [eapply good_le; [apply back_loop_total; [done|lia]|done]|]. intros c' s2 H2 R2.
    apply good_peek; [done|done|]. intros b s3 H3 E3 Hb. destruct b; [|split; [done|unfold rem in *; by rewrite E3]].
    apply good_token; [done|]. intros t s4 H4 R4 Hlt _. specialize (Hb eq_refl). rewrite <- E3 in Hb. specialize (Hlt Hb).
    unfold rem in *. rewrite E3 in *. apply (good_le (rem s4)); [|unfold rem; lia].
    apply good_bind; [apply IH; [done|unfold rem; lia]|]. intros r s5 H5 R5. by split.
  - cbn [parsepipe]. apply good_bind; [apply I3; lia|]. intros c s1 H1 R1.
    apply good_peek; [done|done|]. intros b s3 H3 E3 Hb. destruct b; [|split; [done|unfold rem in *; by rewrite E3]].
    apply good_token; [done|]. intros t s4 H4 R4 Hlt _. specialize (Hb eq_refl). rewrite <- E3 in Hb. specialize (Hlt Hb).
    unfold rem in *. rewrite E3 in *. apply (good_le (rem s4)); [|unfold rem; lia].
    apply good_bind; [apply IH; [done|unfold rem; lia]|]. intros r s5 H5 R5. by split.
  - cbn [parseexec]. apply good_peek; [done|lia|]. intros b s1 H1 E1 _.
    assert (rem s1 = rem s) as Er by (unfold rem; by rewrite E1). destruct b.
    + rewrite <- Er. apply IH; [done|lia].
    + rewrite <- Er. apply good_bind; [apply parseredirs_total; [done|lia]|]. intros rs s2 H2 R2.
      apply good_bind; [eapply good_le; [apply exec_args_total; [done|lia]|done]|]. intros r s3 H3 R3. by split.
  - cbn [parseblock]. apply good_peek; [done|lia|]. intros b s1 H1 E1 Hb.
    assert (rem s1 = rem s) as Er by (unfold rem; by rewrite E1). destruct b; cbn [negb]; [|syntax_err].
    apply good_token; [done|]. intros t s2 H2 R2 Hlt _. specialize (Hb eq_refl). rewrite <- E1 in Hb. specialize (Hlt Hb).
    apply (good_le (rem s2)); [|lia]. apply good_bind; [apply IH; [done|lia]|]. intros c s3 H3 R3.
    apply good_peek; [done|done|]. intros b s4 H4 E4 Hb4. destruct b; cbn [negb]; [|syntax_err].
    assert (rem s4 = rem s3) as Er4 by (unfold rem; by rewrite E4).
    apply good_token; [done|]. intros t' s5 H5 R5 _ _. apply (good_le (rem s5)); [|lia].
    apply good_bind; [apply parseredirs_total; [done|lia]|]. intros rs s6 H6 R6. by split.
Qed.
End parse.

(** C9. The shell's parser stops on every line: with nesting and repetition bounded
    by four times the length of the line plus four, [parsecmd] returns a command
    after consuming the whole line, or finds leftovers before the end of the line,
    or ends in one of its syntax errors; it never needs more, and never reads past
    the NUL at the end. *)
Theorem sh_parse_total buf fuel :
  Forall (fun c => c <> 0) buf -> (4 * length buf + 4 <= fuel)%nat ->
  (exists r, parsecmd buf fuel 0%nat = Ok (inr r) (length buf)) \/
  (exists s, parsecmd buf fuel 0%nat = Ok (inl s) s /\ (s < length buf)%nat) \/
  (exists msg, parsecmd buf fuel 0%nat = Panic msg /\ msg ∈ syntax_errors).
Proof.
  intros Hn Hf. unfold parsecmd.
  assert (rem buf 0%nat <= length buf)%nat as Hr by (unfold rem, V; pose proof (lskip_length (drop 0 buf)) as Hl; rewrite drop_0 in Hl |- *; lia).
  destruct (parse_total_all buf Hn fuel 0%nat) as (H & _); [lia|]. specialize (H ltac:(lia)).
  destruct (parseline buf fuel 0%nat) as [c s|msg|] eqn:Ep; unfold good in H;
    [|right; right; exists msg; split; [unfold bind; by rewrite Ep|exact H]|done].
  destruct H as [Hs _]. destruct (peek_ok buf Hn "" s Hs) as (s' & E & H1 & H2).
  rewrite (bind_Ok _ _ _ _ _ Ep), (bind_Ok _ _ _ _ _ E). unfold bind, gets.
  destruct (Nat.eqb_spec s' (es buf)) as [->|]; cbn [negb].
  - left. by eexists.
  - right. left. exists s'. split; [done|]. unfold es in *. lia.
Qed.

(** "ls | (cat; x" *)
Lemma sh_parse_total_witness :
  parsecmd (bytes_of "ls | (cat; x") 60 0%nat = Panic "syntax - missing )" /\
  ((exists r, parsecmd (bytes_of "ls | (cat; x") 60 0%nat = Ok (inr r) 12%nat) \/
   (exists s, parsecmd (bytes_of "ls | (cat; x") 60 0%nat = Ok (inl s) s /\ (s < 12)%nat) \/
   (exists msg, parsecmd (bytes_of "ls | (cat; x") 60 0%nat = Panic msg /\ msg ∈ syntax_errors)).
Proof.
  split; [vm_compute; reflexivity|]. apply (sh_parse_total (bytes_of "ls | (cat; x") 60).
  - repeat constructor; done.
  - vm_compute. lia.
Defined.
