(* ===== verification/ShRound.v ===== *)
(** * The shell's parser reads back what is printed

    Commands as trees of words, their printed form, and the proof that
    [parsecmd] returns the command whose strings, in the buffer that
    [nulterminate] has cut, are exactly those words. *)

From S2P Require Import Prelude Fs Memory Printf Ulib Sh ShSpec.

(** ** Commands and their printed form *)

Inductive rkind := RIn | ROut | RApp.

Inductive acmd :=
  | AExec (argv : list (list Z))
  | ARedir (c : acmd) (k : rkind) (file : list Z)
  | APipe (l r : acmd)
  | AList (l r : acmd)
  | ABack (c : acmd).

Definition rsym (k : rkind) : list Z := match k with RIn => [60] | ROut => [62] | RApp => [62; 62] end.
Definition rmode (k : rkind) : Z :=
  match k with RIn => O_RDONLY | ROut => Z.lor (Z.lor O_WRONLY O_CREATE) O_TRUNC | RApp => Z.lor O_WRONLY O_CREATE end.
Definition rfd (k : rkind) : Z := match k with RIn => 0 | _ => 1 end.

Definition pr_words (ws : list (list Z)) : list Z := concat ((fun w => w ++ [32]) <$> ws).
Definition pr_redirs (rs : list (rkind * list Z)) : list Z :=
  concat ((fun r => rsym (fst r) ++ 32 :: snd r ++ [32]) <$> rs).
Definition parens (l : list Z) : list Z := 40 :: 32 :: l ++ [41; 32].

(** At level 0 as a line, 1 as a list element, 2 as a pipeline, 3 as a pipeline
    element; parentheses where the level does not admit the command. *)
Fixpoint pr (lvl : nat) (c : acmd) : list Z :=
  match c with
  | AExec ws => pr_words ws
  | ARedir c k w => pr 3 c ++ rsym k ++ 32 :: w ++ [32]
  | APipe l r => (if (lvl <=? 2)%nat then id else parens) (pr 3 l ++ 124 :: 32 :: pr 2 r)
  | AList l r => (if (lvl <=? 0)%nat then id else parens) (pr 1 l ++ 59 :: 32 :: pr 0 r)
  | ABack c => (if (lvl <=? 1)%nat then id else parens) (pr 1 c ++ [38; 32])
  end.

(** Words are nonempty and made of word bytes; at most [MAXARGS - 1] arguments. *)
Definition is_word (w : list Z) : Prop := w <> [] /\ Forall (fun c => wordc c = true) w.
Fixpoint wf (c : acmd) : Prop :=
  match c with
  | AExec ws => Forall is_word ws /\ (length ws < MAXARGS)%nat
  | ARedir c _ w => wf c /\ is_word w
  | APipe l r | AList l r => wf l /\ wf r
  | ABack c => wf c
  end.

(** The parsed command [c] over the buffer [b] is [a]. *)
Fixpoint reads (b : list Z) (c : cmd) (a : acmd) : Prop :=
  match c, a with
  | EXEC argv, AExec ws => (fun x => str_at b (fst x)) <$> argv = ws
  | REDIR c f _ mode fd, ARedir a k w => mode = rmode k /\ fd = rfd k /\ str_at b f = w /\ reads b c a
  | PIPE l r, APipe al ar => reads b l al /\ reads b r ar
  | LIST l r, AList al ar => reads b l al /\ reads b r ar
  | BACK c, ABack a => reads b c a
  | _, _ => False
  end.

(** ** Peeking at a known byte *)

Lemma wordc_chr c toks :
  wordc c = true -> forallb symbols (bytes_of toks) = true -> chr toks c = false.
Proof.
  intros Hc Ht. unfold chr. destruct (existsb _ _) eqn:E; [|done]. apply existsb_exists in E as (d & Hd & ->%Z.eqb_eq).
  rewrite forallb_forall in Ht. specialize (Ht _ Hd). unfold wordc in Hc.
  apply andb_true_iff in Hc as [[_ Hc]%andb_true_iff _]. by rewrite Ht in Hc.
Qed.

(** The bytes that may follow a pipeline element. *)
Definition stop3 (c : Z) : Prop := c = 124 \/ c = 41 \/ c = 38 \/ c = 59 \/ c = 0.

Section round.
Variable buf : list Z.
Hypothesis Hnul : Forall (fun c => c <> 0) buf.
Abbreviation es := (Sh.es buf).
Abbreviation V := (ShSpec.V buf).

(** The word [w] is at [fst x] and ends at [snd x]. *)
Definition span (x : nat * nat) (w : list Z) : Prop :=
  is_word w /\ snd x = (fst x + length w)%nat /\ exists r, drop (fst x) buf = w ++ r /\ wordc (first r) = false.
Definition rspan (x : nat * nat * Z * Z) (r : rkind * list Z) : Prop :=
  let '(q, eq, mode, fd) := x in span (q, eq) (snd r) /\ mode = rmode (fst r) /\ fd = rfd (fst r).

Fixpoint spans (c : cmd) (a : acmd) : Prop :=
  match c, a with
  | EXEC argv, AExec ws => Forall2 span argv ws
  | REDIR c f ef mode fd, ARedir a k w => rspan (f, ef, mode, fd) (k, w) /\ spans c a
  | PIPE l r, APipe al ar => spans l al /\ spans r ar
  | LIST l r, AList al ar => spans l al /\ spans r ar
  | BACK c, ABack a => spans c a
  | _, _ => False
  end.

(** A run that leaves exactly [rest] to be read. *)
Definition leaves {A} (rest : list Z) (P : A -> Prop) (r : outcome nat A) : Prop :=
  exists a s', r = Ok a s' /\ (s' <= es)%nat /\ V s' = lskip rest /\ P a.

Lemma leaves_bind {A A'} rest rest' P Q (m : M nat A) (k : A -> M nat A') s :
  leaves rest P (m s) ->
  (forall a s', (s' <= es)%nat -> V s' = lskip rest -> P a -> leaves rest' Q (k a s')) ->
  leaves rest' Q (bind m k s).
Proof. intros (a & s' & E & H1 & H2 & H3) Hk. rewrite (bind_Ok _ _ _ _ _ E). by apply Hk. Qed.

Lemma leaves_peek {A} toks b s rest P (k : bool -> M nat A) :
  (s <= es)%nat -> chr toks (first (V s)) && negb (first (V s) =? 0) = b ->
  (forall s', (s' <= es)%nat -> V s' = V s -> leaves rest P (k b s')) -> leaves rest P (bind (peek buf toks) k s).
Proof.
  intros Hs Hb Hk. destruct (peek_ok buf Hnul toks s Hs) as (s' & E & H1 & H2). rewrite Hb in E.
  rewrite (bind_Ok _ _ _ _ _ E). apply Hk; [lia|done].
Qed.

Lemma leaves_sym {A} s c r rest P (k : _ -> M nat A) :
  (s <= es)%nat -> V s = c :: r -> chr "|();&<" c = true \/ (c = 62 /\ first r <> 62) ->
  (forall q e s', (s' <= es)%nat -> V s' = lskip r -> leaves rest P (k (c, q, e) s')) ->
  leaves rest P (bind (gettoken buf) k s).
Proof.
  intros Hs E Hc Hk. destruct (token_sym buf Hnul s c r Hs E Hc) as (q & s' & E1 & H1 & H2).
  rewrite (bind_Ok _ _ _ _ _ E1). apply Hk; [lia|done].
Qed.

Lemma leaves_word {A} s w r rest P (k : _ -> M nat A) :
  (s <= es)%nat -> V s = w ++ 32 :: r -> is_word w ->
  (forall q e s', (s' <= es)%nat -> V s' = lskip r -> span (q, e) w -> leaves rest P (k (97, q, e) s')) ->
  leaves rest P (bind (gettoken buf) k s).
Proof.
  intros Hs E [Hne Hw] Hk. destruct (token_word buf Hnul s w (32 :: r) Hs E Hne Hw) as (q & s' & E1 & H1 & H2 & H3); [done|].
  rewrite (bind_Ok _ _ _ _ _ E1). apply Hk; [lia|done|]. split; [done|]. split; [done|]. by exists (32 :: r).
Qed.

Lemma lskip_is_word w r : is_word w -> lskip (w ++ r) = w ++ r.
Proof. intros [Hne Hw]. apply lskip_word; [|done]. destruct w; [done|]. by apply Forall_inv in Hw. Qed.

Lemma first_is_word w r : is_word w -> wordc (first (w ++ r)) = true.
Proof. intros [Hne Hw]. destruct w; [done|]. by apply Forall_inv in Hw. Qed.

(** ** Redirections *)

Lemma rsym_first k : first (rsym k) = 60 \/ first (rsym k) = 62.
Proof. destruct k; cbn; auto. Qed.

Lemma parseredirs_ok rs rest fuel s :
  Forall (fun r => is_word (snd r)) rs -> (s <= es)%nat -> V s = lskip (pr_redirs rs ++ rest) ->
  first (lskip rest) <> 60 -> first (lskip rest) <> 62 -> (length rs < fuel)%nat ->
  leaves rest (fun l => Forall2 rspan l rs) (parseredirs buf fuel s).
Proof.
  revert fuel s. induction rs as [|[k w] rs IH]; intros [|fuel] s Hw Hs Hv H60 H62 Hf; cbn [length] in Hf; try lia.
  - cbn [parseredirs]. cbn in Hv. apply (leaves_peek _ false); [done| |].
    { rewrite Hv. unfold chr. change (bytes_of "<>") with [60; 62]. cbn [existsb].
      apply Z.eqb_neq in H60, H62. by rewrite H60, H62. }
    intros s' Hs' Hv'. exists [], s'. split_and!; try done. by rewrite Hv'.
  - apply Forall_cons in Hw as [Hw1 Hw]. cbn [parseredirs snd] in *.
    assert (V s = rsym k ++ 32 :: w ++ 32 :: pr_redirs rs ++ rest) as Hv'.
    { rewrite Hv. unfold pr_redirs. cbn [fmap list_fmap concat fst snd]. rewrite <- !app_assoc.
      destruct k; cbn [rsym app lskip whitespace]; by rewrite <- !app_assoc. }
    apply (leaves_peek _ true); [done|rewrite Hv'; by destruct k|]. intros s1 Hs1 Hv1. rewrite Hv' in Hv1.
    assert (forall (q e s2 : nat), (s2 <= es)%nat -> V s2 = lskip (w ++ 32 :: pr_redirs rs ++ rest) ->
      leaves rest (fun l => Forall2 rspan l ((k, w) :: rs))
        ((let! w0 := gettoken buf in
          let '(tok, _, _) := (match k with RIn => 60 | ROut => 62 | RApp => 43 end, q, e) in
          let '(wtok, q, eq) := w0 in
          if negb (wtok =? 97) then panic "missing file for redirection"
          else
            let! rs := parseredirs buf fuel in
            ret (if tok =? 60 then (q, eq, oflag_val O_RDONLY, 0) :: rs
                 else if tok =? 62 then (q, eq, Z.lor (Z.lor O_WRONLY O_CREATE) O_TRUNC, 1) :: rs
                 else if tok =? 43 then (q, eq, Z.lor O_WRONLY O_CREATE, 1) :: rs
                 else rs)) s2)) as Hword.
    { intros q e s2 Hs2 Hv2. rewrite lskip_is_word in Hv2 by done. eapply leaves_word; [done|exact Hv2|done|].
      intros q' e' s3 Hs3 Hv3 Hsp. cbn [negb Z.eqb Pos.eqb]. eapply leaves_bind; [apply IH; try done; lia|].
      intros l s4 Hs4 Hv4 Hl. eexists _, s4. split; [reflexivity|]. split; [done|]. split; [done|].
      destruct k; cbn; constructor; try done; by split_and!. }
    destruct k; cbn [rsym app] in Hv1.
    + eapply leaves_sym; [done|exact Hv1|by left|]. intros q e s2 Hs2 Hv2. by apply Hword.
    + eapply leaves_sym; [done|exact Hv1|by right|]. intros q e s2 Hs2 Hv2. by apply Hword.
    + destruct (token_append buf Hnul s1 _ Hs1 Hv1) as (q & s2 & E & Hs2 & Hv2). rewrite (bind_Ok _ _ _ _ _ E).
      apply (Hword q (S (S q)) s2); [apply Hs2|exact Hv2].
Qed.

(** ** Simple commands *)

Lemma stop3_facts c :
  stop3 c -> c <> 60 /\ c <> 62 /\ c <> 40 /\ wordc c = false /\ (c <> 0 -> chr "|)&;" c = true).
Proof. unfold stop3. intros [ -> | [ -> | [ -> | [ -> | -> ]]]]; by split_and!. Qed.

Lemma word_facts w r :
  is_word w -> first (w ++ r) <> 60 /\ first (w ++ r) <> 62 /\ first (w ++ r) <> 40 /\ first (w ++ r) <> 0 /\
  chr "|)&;" (first (w ++ r)) = false.
Proof.
  intros Hw. pose proof (first_is_word w r Hw) as Hc. pose proof (wordc_chr _ "|)&;" Hc eq_refl) as H1.
  split_and!; try done; intros E; rewrite E in Hc; done.
Qed.

Lemma first_nil l : first l = 0 -> Forall (fun c => c <> 0) l -> l = [].
Proof. destruct l; [done|]. cbn. intros -> H. by inversion H. Qed.

Lemma V_nonzero s : Forall (fun c => c <> 0) (V s).
Proof.
  assert (forall l, Forall (fun c => c <> 0) l -> Forall (fun c => c <> 0) (lskip l)) as Hl.
  { intros l. induction 1 as [|c l Hc Hl IH]; cbn; [done|]. destruct (whitespace c); [done|by constructor]. }
  apply Hl. by apply Forall_drop.
Qed.

Lemma exec_args_ok ws rs rest fuel argc s :
  Forall is_word ws -> Forall (fun r => is_word (snd r)) rs -> (ws = [] -> rs = []) ->
  (s <= es)%nat -> V s = lskip (pr_words ws ++ pr_redirs rs ++ rest) -> stop3 (first (lskip rest)) ->
  (argc + length ws < MAXARGS)%nat -> (length ws + length rs + 1 < fuel)%nat ->
  leaves rest (fun x => Forall2 span (fst x) ws /\ Forall2 rspan (snd x) rs) (exec_args buf fuel argc s).
Proof.
  revert rs fuel argc s. induction ws as [|w ws IH]; intros rs [|fuel] argc s Hws Hrs Hnil Hs Hv Hst Hargc Hf; cbn [length] in *; try lia.
  - rewrite Hnil in * by done. cbn in Hv. cbn [exec_args]. destruct (stop3_facts _ Hst) as (_ & _ & _ & _ & Hc).
    destruct (Z.eq_dec (first (lskip rest)) 0) as [E0|E0].
    + assert (V s = []) as Hv0 by (apply first_nil; [by rewrite Hv|apply V_nonzero]).
      apply (leaves_peek _ false); [done|by rewrite Hv0|]. intros s1 Hs1 Hv1. rewrite Hv0 in Hv1.
      destruct (token_end buf Hnul s1 Hs1 Hv1) as (q & s2 & E & Hs2 & Hv2). rewrite (bind_Ok _ _ _ _ _ E). cbn [Z.eqb].
      eexists _, s2. split; [reflexivity|]. split; [lia|]. split; [by rewrite Hv2, <- Hv|]. by split; constructor.
    + apply (leaves_peek _ true); [done| |].
      { rewrite Hv, (Hc E0). apply Z.eqb_neq in E0. by rewrite E0. }
      intros s1 Hs1 Hv1. eexists _, s1. split; [reflexivity|]. split; [done|]. split; [by rewrite Hv1|]. by split; constructor.
  - apply Forall_cons in Hws as [Hw Hws]. cbn [exec_args].
    assert (V s = w ++ 32 :: pr_words ws ++ pr_redirs rs ++ rest) as Hv'.
    { rewrite Hv. unfold pr_words. cbn [fmap list_fmap concat]. rewrite <- !app_assoc. by rewrite lskip_is_word. }
    destruct (word_facts w (32 :: pr_words ws ++ pr_redirs rs ++ rest) Hw) as (W1 & W2 & W3 & W4 & W5).
    apply (leaves_peek _ false); [done|by rewrite Hv', W5|]. intros s1 Hs1 Hv1. rewrite Hv' in Hv1.
    eapply leaves_word; [done|exact Hv1|done|]. intros q e s2 Hs2 Hv2 Hsp. cbn [negb Z.eqb Pos.eqb].
    destruct (Nat.leb_spec MAXARGS (S argc)); [lia|].
    set (rs1 := match ws with [] => rs | _ => [] end). set (rs2 := match ws with [] => [] | _ => rs end).
    assert (pr_words ws ++ pr_redirs rs ++ rest = pr_redirs rs1 ++ pr_words ws ++ pr_redirs rs2 ++ rest) as Epr
      by (by destruct ws).
    rewrite Epr in Hv2. eapply leaves_bind; [eapply (parseredirs_ok rs1); [by destruct ws|exact Hs2|exact Hv2|..]|].
    + destruct ws as [|w' ws']; [by apply (stop3_facts _ Hst)|]. apply Forall_inv in Hws as Hw'.
      unfold pr_words; cbn [fmap list_fmap concat]. rewrite <- !app_assoc, lskip_is_word by done. by apply word_facts.
    + destruct ws as [|w' ws']; [by apply (stop3_facts _ Hst)|]. apply Forall_inv in Hws as Hw'.
      unfold pr_words; cbn [fmap list_fmap concat]. rewrite <- !app_assoc, lskip_is_word by done. by apply word_facts.
    + unfold rs1. destruct ws; cbn; lia.
    + intros l1 s3 Hs3 Hv3 Hl1. eapply leaves_bind; [apply (IH rs2 fuel (S argc) s3 Hws); [| |exact Hs3|exact Hv3|done| |]|].
      * by destruct ws.
      * by intros ->.
      * lia.
      * unfold rs2. destruct ws; cbn [length] in *; lia.
      * intros [l2 l3] s4 Hs4 Hv4 [H1 H2]. eexists _, s4. split; [reflexivity|]. split; [done|]. split; [done|].
        split; [by constructor|]. cbn [snd fst] in *. replace rs with (rs1 ++ rs2) by (unfold rs1, rs2; by destruct ws; rewrite ?app_nil_r).
        by apply Forall2_app.
Qed.

(** ** Redirections around a command *)

Fixpoint base_of (a : acmd) : acmd := match a with ARedir a' _ _ => base_of a' | _ => a end.
Fixpoint redirs_of (a : acmd) : list (rkind * list Z) :=
  match a with ARedir a' k w => redirs_of a' ++ [(k, w)] | _ => [] end.
Fixpoint sz (a : acmd) : nat :=
  match a with
  | AExec ws => 1 + length ws
  | ARedir a' _ _ | ABack a' => 1 + sz a'
  | APipe l r | AList l r => 1 + sz l + sz r
  end.

Lemma pr_redirs_of a : pr 3 a = pr 3 (base_of a) ++ pr_redirs (redirs_of a).
Proof.
  induction a as [|a IH k w| | |]; cbn [base_of redirs_of]; try by (unfold pr_redirs; cbn [fmap list_fmap concat]; rewrite app_nil_r).
  cbn [pr]. rewrite IH at 1. unfold pr_redirs. rewrite fmap_app, concat_app. cbn [fmap list_fmap concat fst snd].
  by rewrite app_nil_r, <- app_assoc.
Qed.

Lemma spans_redirs a c l :
  spans c (base_of a) -> Forall2 rspan l (redirs_of a) -> spans (foldl redircmd c l) a.
Proof.
  revert l. induction a as [ws|a IH k w|x _ y _|x _ y _|x _]; cbn [base_of redirs_of]; intros l Hc Hl;
    try by (apply Forall2_nil_inv_r in Hl; subst).
  apply Forall2_app_inv_r in Hl as (l1 & l2 & H1 & H2 & ->). apply Forall2_cons_inv_r in H2 as ([[[q e] m] fd] & l3 & H2 & H3 & ->).
  apply Forall2_nil_inv_r in H3 as ->. rewrite foldl_snoc. cbn [redircmd spans]. split; [done|]. by apply IH.
Qed.

Lemma wf_parts a : wf a -> wf (base_of a) /\ Forall (fun r => is_word (snd r)) (redirs_of a).
Proof.
  induction a as [ws|a IH k w|x _ y _|x _ y _|x _]; cbn [base_of redirs_of wf]; intros H; try by split.
  destruct H as [[H1 H2]%IH Hw]. split; [done|]. apply Forall_app. split; [done|]. by constructor.
Qed.

Lemma sz_parts a : sz a = (sz (base_of a) + length (redirs_of a))%nat.
Proof. induction a; cbn [base_of redirs_of sz]; rewrite ?length_app; cbn [length]; lia. Qed.

Definition Pexec (need : nat) (a : acmd) : Prop := forall rest s fuel,
  wf a -> (s <= es)%nat -> V s = lskip (pr 3 a ++ rest) -> stop3 (first (lskip rest)) -> (need <= fuel)%nat ->
  leaves rest (fun c => spans c a) (parseexec buf fuel s).

(** The bytes that may follow a pipeline, or a line. *)
Definition stop2 (c : Z) : Prop := c = 41 \/ c = 38 \/ c = 59 \/ c = 0.
Definition stop0 (c : Z) : Prop := c = 41 \/ c = 0.

Definition Ppipe (need : nat) (a : acmd) : Prop := forall rest s fuel,
  wf a -> (s <= es)%nat -> V s = lskip (pr 2 a ++ rest) -> stop2 (first (lskip rest)) -> (need <= fuel)%nat ->
  leaves rest (fun c => spans c a) (parsepipe buf fuel s).

Definition Pline (need : nat) (a : acmd) : Prop := forall rest s fuel,
  wf a -> (s <= es)%nat -> V s = lskip (pr 0 a ++ rest) -> stop0 (first (lskip rest)) -> (need <= fuel)%nat ->
  leaves rest (fun c => spans c a) (parseline buf fuel s).

(** A simple command with redirections. *)
Lemma exec_simple a ws : base_of a = AExec ws -> Pexec (6 * sz a + 2) a.
Proof.
  intros Eb rest s [|fuel] Hwf Hs Hv Hst Hf; [lia|]. rewrite pr_redirs_of, Eb, <- app_assoc in Hv. cbn [pr] in Hv.
  destruct (wf_parts _ Hwf) as [Hb Hr]. rewrite Eb in Hb. destruct Hb as [Hws Hlen].
  pose proof (sz_parts a) as Hsz. rewrite Eb in Hsz. cbn [sz] in Hsz.
  set (rs1 := match ws with [] => redirs_of a | _ => [] end). set (rs2 := match ws with [] => [] | _ => redirs_of a end).
  assert (pr_words ws ++ pr_redirs (redirs_of a) ++ rest = pr_redirs rs1 ++ pr_words ws ++ pr_redirs rs2 ++ rest) as Epr
    by (by destruct ws).
  assert (first (lskip (pr_words ws ++ pr_redirs rs2 ++ rest)) <> 60 /\ first (lskip (pr_words ws ++ pr_redirs rs2 ++ rest)) <> 62 /\
          first (lskip (pr_words ws ++ pr_redirs (redirs_of a) ++ rest)) <> 40) as (N60 & N62 & N40).
  { destruct ws as [|w ws].
    - cbn. destruct (stop3_facts _ Hst) as (S1 & S2 & S3 & _). split_and!; try done.
      destruct (redirs_of a) as [|[k w] rs]; [done|]. unfold pr_redirs; cbn [fmap list_fmap concat fst snd].
      rewrite <- !app_assoc. by destruct k.
    - apply Forall_inv in Hws. unfold pr_words; cbn [fmap list_fmap concat]. rewrite <- !app_assoc, !lskip_is_word by done.
      split_and!; by apply word_facts. }
  cbn [parseexec]. apply (leaves_peek _ false); [done| |].
  { rewrite Hv. unfold chr. change (bytes_of "(") with [40]. cbn [existsb]. apply Z.eqb_neq in N40. by rewrite N40. }
  intros s1 Hs1 Hv1. rewrite Hv, Epr in Hv1.
  eapply leaves_bind; [eapply (parseredirs_ok rs1); [by destruct ws|exact Hs1|exact Hv1|done|done|]|].
  { unfold rs1. destruct ws; cbn [length] in *; lia. }
  intros l1 s2 Hs2 Hv2 Hl1. eapply leaves_bind.
  { eapply (exec_args_ok ws rs2); [done|by destruct ws|by intros ->|exact Hs2|exact Hv2|done|cbn; lia|].
    unfold rs2. destruct ws; cbn [length] in *; lia. }
  intros [argv l2] s3 Hs3 Hv3 [H1 H2]. eexists _, s3. split; [reflexivity|]. split; [done|]. split; [done|].
  cbn [fst snd] in *. apply spans_redirs; [by rewrite Eb|].
  replace (redirs_of a) with (rs1 ++ rs2) by (unfold rs1, rs2; by destruct ws; rewrite ?app_nil_r). by apply Forall2_app.
Qed.

(** A command in parentheses with redirections. *)
Lemma exec_block a need :
  Pline need (base_of a) -> pr 3 (base_of a) = parens (pr 0 (base_of a)) -> (length (redirs_of a) < need)%nat ->
  Pexec (need + 2) a.
Proof.
  intros HP Eb Hlen rest s fuel Hwf Hs Hv Hst Hf. rewrite pr_redirs_of, Eb, <- app_assoc in Hv.
  destruct (wf_parts _ Hwf) as [Hb Hr]. destruct fuel as [|[|fuel]]; [lia|lia|].
  assert (V s = 40 :: 32 :: pr 0 (base_of a) ++ 41 :: 32 :: pr_redirs (redirs_of a) ++ rest) as Hv'.
  { rewrite Hv. unfold parens. cbn [app lskip]. by rewrite <- app_assoc. }
  cbn [parseexec]. apply (leaves_peek _ true); [done|by rewrite Hv'|]. intros s1 Hs1 Hv1.
  cbn [parseblock]. apply (leaves_peek _ true); [done|by rewrite Hv1, Hv'|]. intros s2 Hs2 Hv2. cbn [negb].
  rewrite Hv1, Hv' in Hv2. eapply leaves_sym; [done|exact Hv2|by left|]. intros q e s3 Hs3 Hv3.
  eapply leaves_bind; [apply (HP (41 :: 32 :: pr_redirs (redirs_of a) ++ rest) s3 fuel); [done|done| |by left|lia]|].
  { rewrite Hv3. done. }
  intros c s4 Hs4 Hv4 Hc. apply (leaves_peek _ true); [done|by rewrite Hv4|]. intros s5 Hs5 Hv5. cbn [negb]. rewrite Hv4 in Hv5.
  eapply leaves_sym; [done|exact Hv5|by left|]. intros q' e' s6 Hs6 Hv6.
  destruct (stop3_facts _ Hst) as (S1 & S2 & _).
  eapply leaves_bind; [eapply (parseredirs_ok (redirs_of a)); [done|exact Hs6| |exact S1|exact S2|lia]|].
  { rewrite Hv6. done. }
  intros l s7 Hs7 Hv7 Hl. eexists _, s7. split; [reflexivity|]. split; [done|]. split; [done|]. by apply spans_redirs.
Qed.

Lemma Pexec_more n n' a : Pexec n a -> (n <= n')%nat -> Pexec n' a.
Proof. intros H Hn rest s fuel H1 H2 H3 H4 H5. apply H; try done. lia. Qed.
Lemma Ppipe_more n n' a : Ppipe n a -> (n <= n')%nat -> Ppipe n' a.
Proof. intros H Hn rest s fuel H1 H2 H3 H4 H5. apply H; try done. lia. Qed.

Lemma stop2_3 c : stop2 c -> stop3 c /\ chr "|" c = false.
Proof. unfold stop2, stop3. intros [ -> | [ -> | [ -> | -> ]]]; by split; [auto|]. Qed.

(** ** Pipelines *)

Lemma pipe_one n a : Pexec n a -> pr 2 a = pr 3 a -> Ppipe (S n) a.
Proof.
  intros HP E rest s [|fuel] Hwf Hs Hv Hst Hf; [lia|]. destruct (stop2_3 _ Hst) as [Hst3 Hc].
  rewrite E in Hv. cbn [parsepipe]. eapply leaves_bind; [apply (HP rest s fuel); try done; lia|].
  intros c s1 Hs1 Hv1 Hsp. apply (leaves_peek _ false); [done|by rewrite Hv1, Hc|]. intros s2 Hs2 Hv2.
  eexists _, s2. split; [reflexivity|]. split; [done|]. split; [by rewrite Hv2|done].
Qed.

Lemma pipe_two n1 n2 l r : Pexec n1 l -> Ppipe n2 r -> Ppipe (S (Nat.max n1 n2)) (APipe l r).
Proof.
  intros HP1 HP2 rest s [|fuel] [Hl Hr] Hs Hv Hst Hf; [lia|]. cbn [pr Nat.leb id] in Hv.
  rewrite <- app_assoc in Hv. cbn [app] in Hv. cbn [parsepipe].
  eapply leaves_bind; [apply (HP1 (124 :: 32 :: pr 2 r ++ rest) s fuel); [done|done|exact Hv|by left|lia]|].
  intros c s1 Hs1 Hv1 Hsp. apply (leaves_peek _ true); [done|by rewrite Hv1|]. intros s2 Hs2 Hv2. rewrite Hv1 in Hv2.
  eapply leaves_sym; [done|exact Hv2|by left|]. intros q e s3 Hs3 Hv3.
  eapply leaves_bind; [apply (HP2 rest s3 fuel); [done|done|by rewrite Hv3|done|lia]|].
  intros c' s4 Hs4 Hv4 Hsp'. eexists _, s4. split; [reflexivity|]. split; [done|]. by split.
Qed.

(** ** Lines *)

Fixpoint unback (a : acmd) : acmd := match a with ABack a' => unback a' | _ => a end.
Fixpoint backs (a : acmd) : nat := match a with ABack a' => S (backs a') | _ => 0 end.
Definition amps (k : nat) : list Z := concat (repeat [38; 32] k).

Lemma amps_snoc k : amps k ++ [38; 32] = amps (S k).
Proof. induction k as [|k IH]; [done|]. unfold amps in *. cbn [repeat concat] in *. rewrite <- app_assoc, IH. done. Qed.

Lemma pr_unback a : pr 1 a = pr 2 (unback a) ++ amps (backs a).
Proof.
  induction a as [|a IH k w| | |a IH]; cbn [unback backs]; try by (unfold amps; cbn [repeat concat]; rewrite app_nil_r).
  cbn [pr Nat.leb id]. rewrite IH, <- app_assoc. by rewrite amps_snoc.
Qed.

Lemma wf_unback a : wf a -> wf (unback a).
Proof. induction a; cbn; auto. Qed.
Lemma sz_unback a : sz a = (backs a + sz (unback a))%nat.
Proof. induction a; cbn [sz backs unback]; lia. Qed.

Lemma spans_back a c : spans c (unback a) -> spans (Nat.iter (backs a) BACK c) a.
Proof. induction a; cbn [unback backs Nat.iter spans]; auto. Qed.

Lemma back_loop_ok k c rest fuel s :
  (s <= es)%nat -> V s = lskip (amps k ++ rest) -> first (lskip rest) <> 38 -> (k < fuel)%nat ->
  leaves rest (fun c' => c' = Nat.iter k BACK c) (back_loop buf fuel c s).
Proof.
  revert c fuel s. induction k as [|k IH]; intros c [|fuel] s Hs Hv Hr Hf; try lia; cbn [back_loop].
  - cbn in Hv. apply (leaves_peek _ false); [done| |].
    { rewrite Hv. unfold chr. change (bytes_of "&") with [38]. cbn [existsb]. apply Z.eqb_neq in Hr. by rewrite Hr. }
    intros s1 Hs1 Hv1. exists c, s1. split_and!; try done. by rewrite Hv1.
  - assert (V s = 38 :: 32 :: amps k ++ rest) as Hv' by (by rewrite Hv).
    apply (leaves_peek _ true); [done|by rewrite Hv'|]. intros s1 Hs1 Hv1. rewrite Hv' in Hv1.
    eapply leaves_sym; [done|exact Hv1|by left|]. intros q e s2 Hs2 Hv2.
    destruct (IH (BACK c) fuel s2) as (c' & s3 & E & H1 & H2 & ->); [done|by rewrite Hv2|done|lia|].
    exists (Nat.iter k BACK (BACK c)), s3. split_and!; try done. by rewrite Nat.iter_succ_r.
Qed.

Lemma back_first a rest : stop0 (first (lskip rest)) \/ first (lskip rest) = 59 -> stop2 (first (lskip (amps a ++ rest))).
Proof.
  destruct a as [|a]; [|intros _; right; by left]. cbn. unfold stop0, stop2. tauto.
Qed.

(** A list element, up to its [&]s. *)
Lemma element_ok n a rest fuel s {A} (k : cmd -> M nat A) rest' Q :
  Ppipe n (unback a) -> wf a -> (s <= es)%nat -> V s = lskip (pr 1 a ++ rest) ->
  stop0 (first (lskip rest)) \/ first (lskip rest) = 59 -> (n <= fuel)%nat -> (backs a < fuel)%nat ->
  (forall c s', (s' <= es)%nat -> V s' = lskip rest -> spans c a -> leaves rest' Q (k c s')) ->
  leaves rest' Q (bind (parsepipe buf fuel) (fun c => bind (back_loop buf fuel c) k) s).
Proof.
  intros HP Hwf Hs Hv Hst Hn Hb Hk. rewrite pr_unback, <- app_assoc in Hv.
  eapply leaves_bind; [apply (HP (amps (backs a) ++ rest) s fuel); [by apply wf_unback|done|exact Hv|by apply back_first|done]|].
  intros c s1 Hs1 Hv1 Hc. eapply leaves_bind; [apply (back_loop_ok (backs a) c rest fuel s1); try done|].
  - destruct Hst as [[-> | ->] | ->]; done.
  - intros c' s2 Hs2 Hv2 ->. apply Hk; try done. by apply spans_back.
Qed.

Lemma line_one n a :
  Ppipe n (unback a) -> pr 0 a = pr 1 a -> Pline (S (S (n + backs a))) a.
Proof.
  intros HP E rest s [|fuel] Hwf Hs Hv Hst Hf; [lia|]. rewrite E in Hv. cbn [parseline].
  eapply element_ok; [exact HP|done|done|exact Hv|by left|lia|lia|]. intros c s1 Hs1 Hv1 Hc.
  apply (leaves_peek _ false); [done|rewrite Hv1; destruct Hst as [-> | ->]; done|]. intros s2 Hs2 Hv2.
  exists c, s2. split_and!; try done. by rewrite Hv2.
Qed.

Lemma line_two n m l r :
  Ppipe n (unback l) -> Pline m r -> Pline (S (S (Nat.max (n + backs l) m))) (AList l r).
Proof.
  intros HP HL rest s [|fuel] [Hl Hr] Hs Hv Hst Hf; [lia|]. cbn [pr Nat.leb id] in Hv.
  rewrite <- app_assoc in Hv. cbn [app] in Hv. cbn [parseline].
  eapply element_ok; [exact HP|done|done|exact Hv|by right|lia|lia|]. intros c s1 Hs1 Hv1 Hc.
  apply (leaves_peek _ true); [done|by rewrite Hv1|]. intros s2 Hs2 Hv2. rewrite Hv1 in Hv2.
  eapply leaves_sym; [done|exact Hv2|by left|]. intros q e s3 Hs3 Hv3.
  eapply leaves_bind; [apply (HL rest s3 fuel); [done|done|by rewrite Hv3|done|lia]|].
  intros c' s4 Hs4 Hv4 Hc'. eexists _, s4. split; [reflexivity|]. split; [done|]. by split.
Qed.

(** ** Every command *)

Definition N (a : acmd) : nat := 8 * sz a.

Lemma Pline_more n n' a : Pline n a -> (n <= n')%nat -> Pline n' a.
Proof. intros H Hn rest s fuel H1 H2 H3 H4 H5. apply H; try done. lia. Qed.

Lemma sz_pos a : (1 <= sz a)%nat.
Proof. destruct a; cbn; lia. Qed.

Definition all3 (a : acmd) : Prop := Pline (N a + 4) a /\ Pexec (N a + 6) a /\ Ppipe (N a + 7) a.

(** From its form as a pipeline element, or as a line in parentheses. *)
Lemma all3_exec a : Pexec (N a + 1) a -> pr 2 a = pr 3 a -> pr 0 a = pr 1 a -> unback a = a -> backs a = 0%nat -> all3 a.
Proof.
  intros He E2 E0 Eu Eb. pose proof (pipe_one _ _ He E2) as Hp. split_and!.
  - eapply Pline_more; [apply line_one; [rewrite Eu; exact Hp|done]|]. lia.
  - eapply Pexec_more; [exact He|lia].
  - eapply Ppipe_more; [exact Hp|lia].
Qed.

Lemma all3_line a :
  Pline (N a + 4) a -> base_of a = a -> redirs_of a = [] -> pr 3 a = parens (pr 0 a) ->
  Pexec (N a + 6) a /\ (pr 2 a = pr 3 a -> Ppipe (N a + 7) a).
Proof.
  intros Hl Eb Er E. assert (Pexec (N a + 6) a) as He.
  { eapply Pexec_more; [apply (exec_block a (N a + 4)); rewrite ?Eb, ?Er; try done; cbn; lia|lia]. }
  split; [done|]. intros E2. eapply Ppipe_more; [by apply (pipe_one (N a + 6))|lia].
Qed.

Lemma all_ok a : all3 a.
Proof.
  remember (sz a) as n eqn:En. assert (sz a <= n)%nat as Hn by lia. clear En. revert a Hn.
  induction n as [|n IH]; intros a Hn; [pose proof (sz_pos a); lia|].
  assert (forall b, (sz b < sz a)%nat -> all3 b) as IH' by (intros b Hb; apply IH; lia).
  destruct a as [ws|a k w|l r|l r|a].
  - apply all3_exec; try done. eapply Pexec_more; [by eapply exec_simple|unfold N; cbn [sz]; lia].
  - apply all3_exec; try done. pose proof (sz_parts (ARedir a k w)) as Hsz. cbn [base_of redirs_of] in Hsz.
    rewrite length_app in Hsz. cbn [length] in Hsz. destruct (IH' (base_of a)) as [Hl _]; [lia|].
    assert ((exists ws, base_of a = AExec ws) \/ pr 3 (base_of a) = parens (pr 0 (base_of a))) as [[ws Eb]|Eb].
    { clear. induction a; cbn [base_of]; eauto. }
    + eapply Pexec_more; [by eapply exec_simple|unfold N; lia].
    + eapply Pexec_more; [apply (exec_block (ARedir a k w) (N (base_of a) + 4 + length (redirs_of a) + 1))|].
      * eapply Pline_more; [exact Hl|lia].
      * done.
      * cbn [redirs_of]. rewrite length_app. cbn [length]. unfold N. pose proof (sz_pos (base_of a)). lia.
      * unfold N in *. lia.
  - destruct (IH' l) as (_ & He & _); [cbn [sz]; lia|]. destruct (IH' r) as (_ & _ & Hp); [cbn [sz]; lia|].
    pose proof (pipe_two _ _ _ _ He Hp) as H. assert (Pline (N (APipe l r) + 4) (APipe l r)) as Hl.
    { eapply Pline_more; [by apply line_one|]. unfold N in *. cbn [backs sz]. lia. }
    destruct (all3_line _ Hl) as [H3 _]; try done. split_and!; try done. eapply Ppipe_more; [exact H|]. unfold N. cbn [sz]. lia.
  - pose proof (sz_unback l) as Hu. destruct (IH' (unback l)) as (_ & _ & Hp); [cbn [sz]; lia|].
    destruct (IH' r) as (Hr & _ & _); [cbn [sz]; lia|].
    assert (Pline (N (AList l r) + 4) (AList l r)) as Hl.
    { eapply Pline_more; [by apply (line_two _ _ _ _ Hp Hr)|]. unfold N in *. cbn [sz]. lia. }
    destruct (all3_line _ Hl) as [H3 H2]; try done. split_and!; [done|done|by apply H2].
  - pose proof (sz_unback a) as Hu. destruct (IH' (unback a)) as (_ & _ & Hp); [cbn [sz]; lia|].
    assert (Pline (N (ABack a) + 4) (ABack a)) as Hl.
    { eapply Pline_more; [by apply (line_one _ (ABack a) Hp)|]. unfold N in *. cbn [sz backs]. lia. }
    destruct (all3_line _ Hl) as [H3 H2]; try done. split_and!; [done|done|by apply H2].
Qed.

(** ** The words after [nulterminate] *)

Fixpoint ends (c : cmd) : list nat :=
  match c with
  | EXEC argv => snd <$> argv
  | REDIR c' _ e _ _ => e :: ends c'
  | PIPE l r | LIST l r => ends l ++ ends r
  | BACK c' => ends c'
  end.

(** The word bytes of the line are still in [b]. *)
Definition keeps_words (b : list Z) : Prop :=
  length b = S (length buf) /\ forall i c, buf !! i = Some c -> wordc c = true -> b !! i = Some c.

(** The end of a word: not a word byte, and in the buffer. *)
Definition is_end (e : nat) : Prop := (e <= length buf)%nat /\ forall c, buf !! e = Some c -> wordc c = false.

Lemma span_end x w : span x w -> is_end (snd x).
Proof.
  intros ([Hne Hw] & -> & r & E & Hr). assert (length (drop (fst x) buf) = length (w ++ r)) as El by (by rewrite E).
  rewrite length_drop, length_app in El. split; [destruct w; [done|cbn in *; lia]|].
  intros c Hc. assert (drop (fst x) buf !! length w = Some c) as Hd by (by rewrite lookup_drop).
  rewrite E, lookup_app_r, Nat.sub_diag in Hd by lia. by destruct r; [|injection Hd as ->].
Qed.

Lemma ends_ok c a : spans c a -> Forall is_end (ends c).
Proof.
  revert a. induction c as [argv|c IH f e m fd|l IHl r IHr|l IHl r IHr|c IH]; intros [ws|a k w|x y|x y|a]; cbn [spans ends]; try done.
  - intros H. induction H as [|x w argv ws Hs _ IHf]; cbn; constructor; [by eapply span_end|done].
  - intros [[Hs _] H]. constructor; [by apply (span_end (f, e) w)|by eapply IH].
  - intros [H1 H2]. apply Forall_app. eauto.
  - intros [H1 H2]. apply Forall_app. eauto.
  - apply IH.
Qed.

Lemma put_keeps b e : keeps_words b -> is_end e -> keeps_words (<[e := 0]> b).
Proof.
  intros [Hl Hb] [He Hc]. split; [by rewrite length_insert|]. intros i c Hi Hw.
  destruct (decide (i = e)) as [->|]; [apply Hc in Hi; congruence|]. rewrite list_lookup_insert_ne by done. by apply Hb.
Qed.

Lemma put_zero (b : list Z) e i : b !! i = Some 0 -> <[e := 0]> b !! i = Some 0.
Proof.
  intros H. destruct (decide (i = e)) as [->|]; [|by rewrite list_lookup_insert_ne].
  rewrite list_lookup_insert_eq; [done|]. by eapply lookup_lt_Some.
Qed.

Lemma put_here (b : list Z) e : (e < length b)%nat -> <[e := 0]> b !! e = Some 0.
Proof. apply list_lookup_insert_eq. Qed.

(** It writes NULs at the ends, and nothing else. *)
Lemma nulterminate_ok c b :
  keeps_words b -> Forall is_end (ends c) ->
  keeps_words (nulterminate c b) /\ (forall e, e ∈ ends c -> nulterminate c b !! e = Some 0) /\
  (forall i, b !! i = Some 0 -> nulterminate c b !! i = Some 0).
Proof.
  assert (forall l b, keeps_words b -> Forall is_end l ->
    let b' := foldl (fun b e => <[e := 0]> b) b l in
    keeps_words b' /\ (forall e, e ∈ l -> b' !! e = Some 0) /\ (forall i, b !! i = Some 0 -> b' !! i = Some 0)) as Hfold.
  { clear. induction l as [|e l IH]; intros b Hb He; cbn [foldl]; [split_and!; try done; intros e He'; by apply elem_of_nil in He'|].
    apply Forall_cons in He as [He1 He2]. destruct (IH _ (put_keeps _ _ Hb He1) He2) as (I1 & I2 & I3). split_and!; [done| |].
    - intros e' [->|He']%elem_of_cons; [|by apply I2]. apply I3, put_here. destruct Hb as [-> _], He1. lia.
    - intros i Hi. by apply I3, put_zero. }
  revert b. induction c as [argv|c IH f e m fd|l IHl r IHr|l IHl r IHr|c IH]; intros b Hb He; cbn [nulterminate ends] in *.
  - specialize (Hfold (snd <$> argv) b Hb He). cbn zeta in Hfold. by rewrite foldl_fmap in Hfold.
  - apply Forall_cons in He as [He1 He2]. destruct (IH b Hb He2) as (I1 & I2 & I3). split_and!; [by apply put_keeps| |].
    + intros e' [->|He']%elem_of_cons; [apply put_here; destruct I1 as [-> _], He1; lia|by apply put_zero, I2].
    + intros i Hi. by apply put_zero, I3.
  - apply Forall_app in He as [He1 He2]. destruct (IHl b Hb He1) as (I1 & I2 & I3). destruct (IHr _ I1 He2) as (J1 & J2 & J3).
    split_and!; [done| |auto]. intros e [He|He]%elem_of_app; [by apply J3, I2|by apply J2].
  - apply Forall_app in He as [He1 He2]. destruct (IHl b Hb He1) as (I1 & I2 & I3). destruct (IHr _ I1 He2) as (J1 & J2 & J3).
    split_and!; [done| |auto]. intros e [He|He]%elem_of_app; [by apply J3, I2|by apply J2].
  - by apply IH.
Qed.

Lemma cstr_word b q w :
  (forall i c, w !! i = Some c -> b !! (q + i)%nat = Some c /\ c <> 0) -> b !! (q + length w)%nat = Some 0 -> str_at b q = w.
Proof.
  unfold str_at. revert q. induction w as [|c w IH]; intros q Hw Hz; cbn [length] in Hz.
  - rewrite Nat.add_0_r in Hz. by rewrite (drop_S _ _ _ Hz).
  - destruct (Hw 0%nat c eq_refl) as [Hq Hc]. rewrite Nat.add_0_r in Hq. rewrite (drop_S _ _ _ Hq). cbn [cstring].
    destruct (Z.eqb_spec c 0); [done|]. f_equal. apply IH.
    + intros i d Hi. destruct (Hw (S i) d Hi) as [H1 H2]. split; [|done]. by replace (S q + i)%nat with (q + S i)%nat by lia.
    + by replace (S q + length w)%nat with (q + S (length w))%nat by lia.
Qed.

Lemma span_cstr b x w : keeps_words b -> span x w -> b !! snd x = Some 0 -> str_at b (fst x) = w.
Proof.
  intros [_ Hb] ([Hne Hw] & E & r & Ed & _) Hz. apply cstr_word; [|by rewrite <- E].
  intros i c Hi. pose proof Hi as Hi'. eapply Forall_lookup in Hi' as Hc; [|exact Hw].
  assert (buf !! (fst x + i)%nat = Some c) as Hbuf by (rewrite <- lookup_drop, Ed; by apply lookup_app_l_Some).
  split; [by apply Hb|]. intros ->. done.
Qed.

Lemma spans_reads b c a :
  keeps_words b -> (forall e, e ∈ ends c -> b !! e = Some 0) -> spans c a -> reads b c a.
Proof.
  intros Hb. revert a. induction c as [argv|c IH f e m fd|l IHl r IHr|l IHl r IHr|c IH]; intros [ws|a k w|x y|x y|a] He;
    cbn [spans reads ends] in *; try done.
  - intros H. induction H as [|x w argv ws Hs _ IHf]; cbn; [done|]. f_equal.
    + apply span_cstr; [done|done|apply He; set_solver].
    + apply IHf. intros e' He'. apply He. set_solver.
  - intros [(Hs & -> & ->) H]. split_and!; [done|done| |apply IH; [intros e' He'; apply He; set_solver|done]].
    apply (span_cstr b (f, e)); [done|done|apply He; set_solver].
  - intros [H1 H2]. split; [apply IHl|apply IHr]; try done; intros e' He'; apply He; set_solver.
  - intros [H1 H2]. split; [apply IHl|apply IHr]; try done; intros e' He'; apply He; set_solver.
  - by apply IH.
Qed.
End round.

(** A printed command holds no NUL. *)
Lemma pr_nonzero a lvl : wf a -> Forall (fun c => c <> 0) (pr lvl a).
Proof.
  assert (forall w, is_word w -> Forall (fun c => c <> 0) w) as Hword.
  { intros w [_ Hw]. eapply Forall_impl; [exact Hw|]. by intros c Hc ->. }
  assert (forall (b : bool) l, Forall (fun c => c <> 0) l -> Forall (fun c => c <> 0) ((if b then id else parens) l)) as Hpar.
  { intros [] l Hl; [done|]. unfold parens. repeat constructor; [lia..|]. apply Forall_app. split; [done|]. repeat constructor; lia. }
  revert lvl. induction a as [ws|a IH k w|l IHl r IHr|l IHl r IHr|a IH]; intros lvl; cbn [wf pr].
  - intros [H _]. unfold pr_words. induction H as [|w ws Hw _ IH]; cbn; [done|].
    rewrite !Forall_app. split_and!; [by apply Hword|by repeat constructor|done].
  - intros [H1 H2]. rewrite Forall_app. split; [by apply IH|]. rewrite Forall_app. split; [by destruct k; repeat constructor|].
    constructor; [done|]. rewrite Forall_app. split; [by apply Hword|by repeat constructor].
  - intros [H1 H2]. apply Hpar. rewrite Forall_app. split; [by apply IHl|]. repeat constructor; [done..|by apply IHr].
  - intros [H1 H2]. apply Hpar. rewrite Forall_app. split; [by apply IHl|]. repeat constructor; [done..|by apply IHr].
  - intros H. apply Hpar. rewrite Forall_app. split; [by apply IH|]. by repeat constructor.
Qed.

Lemma parse_printed a fuel :
  wf a -> (8 * sz a + 4 <= fuel)%nat ->
  exists c b, parsecmd (pr 0 a) fuel 0%nat = Ok (inr (c, b)) (length (pr 0 a)) /\ reads b c a.
Proof.
  intros Hwf Hf. unfold parsecmd. pose proof (pr_nonzero a 0 Hwf) as Hn. set (buf := pr 0 a) in *.
  destruct (proj1 (all_ok buf Hn a) [] 0%nat fuel Hwf) as (c & s & E & Hs & Hv & Hsp);
    [lia|unfold V; by rewrite drop_0, app_nil_r|by right|exact Hf|].
  rewrite (bind_Ok _ _ _ _ _ E). cbn [lskip] in Hv. destruct (peek_ok buf Hn "" s Hs) as (s' & E' & H1 & H2).
  rewrite (bind_Ok _ _ _ _ _ E'). unfold bind, gets.
  assert (s' = es buf) as ->.
  { unfold peek in E'. injection E' as _ <-. apply drop_nil; [lia|]. destruct (skip_ok buf Hn s Hs) as [_ ->]. exact Hv. }
  rewrite Nat.eqb_refl. cbn [negb]. eexists _, _. split; [reflexivity|].
  assert (keeps_words buf (buf ++ [0])) as Hb.
  { split; [rewrite length_app; cbn; lia|]. intros i d Hi _. by apply lookup_app_l_Some. }
  destruct (nulterminate_ok buf c _ Hb (ends_ok _ _ _ Hsp)) as (K1 & K2 & _). by apply (spans_reads buf).
Qed.

(** C8. The shell's parser reads back every command: for every command made of
    simple commands with up to nine arguments, redirections, pipelines, lists and
    background jobs, nested in any way, [parsecmd] of its printed form (the
    precedences of pipe, ampersand and semicolon, parentheses only where they
    require them) consumes the whole line and returns a command of the same shape,
    with the right open modes and descriptors, whose strings in the buffer cut by
    [nulterminate] are exactly the words of the original. *)
Theorem sh_parse_print a fuel :
  wf a -> (8 * sz a + 4 <= fuel)%nat ->
  exists c b, parsecmd (pr 0 a) fuel 0%nat = Ok (inr (c, b)) (length (pr 0 a)) /\ reads b c a.
Proof. apply parse_printed. Qed.

(** [(ls -l > f ; wc &) | grep x] with words of letters. *)
Definition demo_cmd : acmd :=
  APipe (AList (ARedir (AExec [bytes_of "ls"; bytes_of "-l"]) ROut (bytes_of "f")) (ABack (AExec [bytes_of "wc"])))
    (AExec [bytes_of "grep"; bytes_of "x"]).

Lemma sh_parse_print_witness :
  pr 0 demo_cmd = bytes_of "( ls -l > f ; wc & ) | grep x " /\
  exists c b, parsecmd (pr 0 demo_cmd) 120 0%nat = Ok (inr (c, b)) (length (pr 0 demo_cmd)) /\ reads b c demo_cmd.
Proof.
  split; [vm_compute; reflexivity|]. apply sh_parse_print.
  - repeat first [split|constructor]; try (vm_compute; done); (done || (vm_compute; lia)).
  - vm_compute. lia.
Defined.
