(* ===== verification/User.v ===== *)
(** * Programs that create processes: [src/user/init/init.c], and the commands
      and the command loop of [src/user/sh/sh.c]

    A program that forks is a tree of its system calls (and of the library's
    [gets] and [fprintf]), each with the continuation for every result.  An
    endless loop takes a number of rounds; [PMore] is where it would go on. *)

From S2P Require Import Prelude Fs Memory Printf Ulib Sh.

Inductive uprog :=
  | PExit (status : Z)
  | PExec (path : list Z) (argv : list (list Z)) (k : uprog)   (** [exec] returns only if it fails *)
  | POpen (path : list Z) (mode : Z) (k : Z -> uprog)
  | PMknod (path : list Z) (major minor : Z) (k : uprog)
  | PClose (fd : Z) (k : uprog)
  | PDup (fd : Z) (k : uprog)
  | PPipe (k : Z -> Z -> Z -> uprog)                           (** the result, [p[0]] and [p[1]] *)
  | PFork (k : Z -> uprog)
  | PWait (k : Z -> uprog)
  | PChdir (path : list Z) (k : Z -> uprog)
  | PGets (max : Z) (k : list Z -> uprog)
  | PPrint (fd : Z) (fmt : string) (args : list parg) (k : uprog)
  | PMore.

Definition line (s : string) : string := (s ++ NL)%string.

(** ** [sh.c] *)

(** [panic] *)
Definition sh_panic (s : list Z) : uprog := PPrint 2 (line "%s") [AStr (Some s)] (PExit 1).

Definition fork1 (k : Z -> uprog) : uprog :=
  PFork (fun pid => if pid =? -1 then sh_panic (bytes_of "fork") else k pid).

(** [b] is the buffer the command points into. *)
Fixpoint runcmd (b : list Z) (c : cmd) : uprog :=
  match c with
  | EXEC argv =>
      match argv with
      | [] => PExit 1
      | a :: _ =>
          PExec (str_at b (fst a)) ((fun x => str_at b (fst x)) <$> argv)
            (PPrint 2 (line "exec %s failed") [AStr (Some (str_at b (fst a)))] (PExit 0))
      end
  | REDIR c' file _ mode fd =>
      PClose fd
        (POpen (str_at b file) mode (fun r =>
          if r <? 0 then PPrint 2 (line "open %s failed") [AStr (Some (str_at b file))] (PExit 1)
          else runcmd b c'))
  | LIST l r =>
      fork1 (fun pid => if pid =? 0 then runcmd b l else PWait (fun _ => runcmd b r))
  | PIPE l r =>
      PPipe (fun res p0 p1 =>
        if res <? 0 then sh_panic (bytes_of "pipe")
        else
          fork1 (fun pid =>
            if pid =? 0 then PClose 1 (PDup p1 (PClose p0 (PClose p1 (runcmd b l))))
            else
              fork1 (fun pid =>
                if pid =? 0 then PClose 0 (PDup p0 (PClose p0 (PClose p1 (runcmd b r))))
                else PClose p0 (PClose p1 (PWait (fun _ => PWait (fun _ => PExit 0)))))))
  | BACK c' => fork1 (fun pid => if pid =? 0 then runcmd b c' else PExit 0)
  end.

(** [runcmd(parsecmd(buf))] *)
Definition run_line (buf : list Z) : uprog :=
  match parsecmd buf (8 * length buf + 16) 0%nat with
  | Ok (inr (c, b)) _ => runcmd b c
  | Ok (inl s) _ => PPrint 2 (line "leftovers: %s") [AStr (Some (str_at buf s))] (sh_panic (bytes_of "syntax"))
  | Panic msg => sh_panic (bytes_of msg)
  | Sleeps _ _ => PMore
  end.

(** [getcmd]: the buffer after [memset] and [gets], or [None] at the end of the input. *)
Definition getcmd (nbuf : Z) (k : option (list Z) -> uprog) : uprog :=
  PPrint 2 "$ " [] (PGets nbuf (fun l => k (match cstring l with [] => None | s => Some s end))).

(** The loop of [main] over the commands, [rounds] of them. *)
Fixpoint sh_loop (rounds : nat) : uprog :=
  match rounds with
  | O => PMore
  | S n =>
      getcmd 100 (fun r =>
        match r with
        | None => PExit 0
        | Some s =>
            match s with
            | 99 :: 100 :: 32 :: _ =>
                (* [buf[strlen(buf)-1] = 0;] *)
                let path := drop 3 (take (length s - 1) s) in
                PChdir path (fun r =>
                  if r <? 0 then PPrint 2 (line "cannot cd %s") [AStr (Some path)] (sh_loop n)
                  else sh_loop n)
            | _ => fork1 (fun pid => if pid =? 0 then run_line s else PWait (fun _ => sh_loop n))
            end
        end)
  end.

(** [while((fd = open("console", O_RDWR)) >= 0)] *)
Fixpoint open_console (fuel : nat) (k : uprog) : uprog :=
  match fuel with
  | O => PMore
  | S f =>
      POpen (bytes_of "console") O_RDWR (fun fd =>
        if fd <? 0 then k else if 3 <=? fd then PClose fd k else open_console f k)
  end.

Definition sh_main (rounds : nat) : uprog := open_console 16 (sh_loop rounds).

(** ** [init.c] *)

(** [for(;;) { wpid = wait(0); ... }]: [k] after the shell has exited. *)
Fixpoint init_wait (rounds : nat) (pid : Z) (k : uprog) : uprog :=
  match rounds with
  | O => PMore
  | S n =>
      PWait (fun wpid =>
        if wpid =? pid then k
        else if wpid <? 0 then PPrint 1 (line "init: wait returned an error") [] (PExit 1)
        else init_wait n pid k)
  end.

Fixpoint init_loop (rounds : nat) : uprog :=
  match rounds with
  | O => PMore
  | S n =>
      PPrint 1 (line "init: starting sh") []
        (PFork (fun pid =>
          if pid <? 0 then PPrint 1 (line "init: fork failed") [] (PExit 1)
          else if pid =? 0 then
            PExec (bytes_of "sh") [bytes_of "sh"] (PPrint 1 (line "init: exec sh failed") [] (PExit 1))
          else init_wait rounds pid (init_loop n)))
  end.

Definition init_main (rounds : nat) : uprog :=
  let rest := PDup 0 (PDup 0 (init_loop rounds)) in
  POpen (bytes_of "console") O_RDWR (fun r =>
    if r <? 0 then PMknod (bytes_of "console") 1 0 (POpen (bytes_of "console") O_RDWR (fun _ => rest))
    else rest).
