(* ===== verification/ShRunSpec.v ===== *)
(** * The shell runs what is on the line

    The processes of a command line: each has its descriptor table and the rest
    of its program, and steps of the processes interleave in any order, with
    any system call failing at any time.  The commands that get executed, with
    their descriptors, are those of the line's tree of pipes and redirections. *)

From S2P Require Import Prelude Fs Memory Printf Ulib Sh ShSpec ShRound User.

(** ** Descriptor tables *)

(** What a descriptor refers to: something inherited, a file opened by path and
    mode, or an end of the pipe that the process of the given name made. *)
Inductive desc :=
  | DInherit (n : nat)
  | DFile (path : list Z) (mode : Z)
  | DPipeR (creator : list nat)
  | DPipeW (creator : list nat).

Abbreviation fdtable := (list (option desc)).

(** The lowest free slot, as [fdalloc] takes it. *)
Fixpoint lowest (t : fdtable) : option nat :=
  match t with
  | [] => None
  | None :: _ => Some O
  | Some _ :: t' => S <$> lowest t'
  end.
Definition alloc_fd (t : fdtable) (d : desc) : option (nat * fdtable) :=
  match lowest t with Some i => Some (i, <[i := Some d]> t) | None => None end.
Definition close_fd (t : fdtable) (fd : Z) : fdtable := if fd <? 0 then t else <[Z.to_nat fd := None]> t.
Definition look (t : fdtable) (fd : Z) : option desc := if fd <? 0 then None else mjoin (t !! Z.to_nat fd).

(** ** Processes *)

(** A process is named by its forks from the first one; [up_forks] counts its own. *)
Record uproc := mkuproc {
  up_name : list nat;
  up_forks : nat;
  up_fds : fdtable;
  up_prog : uprog
}.

(** A command that was executed: its arguments and its descriptors. *)
Abbreviation started := (list (list Z) * fdtable)%type.

(** One step of a process: whether it is the failure of a call, the processes
    it leaves, and what it started.  [wait] may return at any time. *)
Inductive ustep : uproc -> bool -> list uproc -> list started -> Prop :=
  | us_exit a n t st : ustep (mkuproc a n t (PExit st)) false [] []
  | us_exec a n t path argv k : ustep (mkuproc a n t (PExec path argv k)) false [] [(argv, t)]
  | us_exec_fail a n t path argv k : ustep (mkuproc a n t (PExec path argv k)) true [mkuproc a n t k] []
  | us_open a n t path mode k fd t' :
      alloc_fd t (DFile path mode) = Some (fd, t') ->
      ustep (mkuproc a n t (POpen path mode k)) false [mkuproc a n t' (k (Z.of_nat fd))] []
  | us_open_fail a n t path mode k : ustep (mkuproc a n t (POpen path mode k)) true [mkuproc a n t (k (-1))] []
  | us_mknod a n t path major minor k b : ustep (mkuproc a n t (PMknod path major minor k)) b [mkuproc a n t k] []
  | us_close a n t fd k : ustep (mkuproc a n t (PClose fd k)) false [mkuproc a n (close_fd t fd) k] []
  | us_dup a n t fd k d i t' :
      look t fd = Some d -> alloc_fd t d = Some (i, t') ->
      ustep (mkuproc a n t (PDup fd k)) false [mkuproc a n t' k] []
  | us_dup_fail a n t fd k :
      look t fd = None \/ lowest t = None -> ustep (mkuproc a n t (PDup fd k)) true [mkuproc a n t k] []
  | us_pipe a n t k i t' j t'' :
      alloc_fd t (DPipeR a) = Some (i, t') -> alloc_fd t' (DPipeW a) = Some (j, t'') ->
      ustep (mkuproc a n t (PPipe k)) false [mkuproc a n t'' (k 0 (Z.of_nat i) (Z.of_nat j))] []
  | us_pipe_fail a n t k x y : ustep (mkuproc a n t (PPipe k)) true [mkuproc a n t (k (-1) x y)] []
  | us_fork a n t k pid :
      0 < pid ->
      ustep (mkuproc a n t (PFork k)) false [mkuproc a (S n) t (k pid); mkuproc (a ++ [n]) 0 t (k 0)] []
  | us_fork_fail a n t k : ustep (mkuproc a n t (PFork k)) true [mkuproc a n t (k (-1))] []
  | us_wait a n t k pid : ustep (mkuproc a n t (PWait k)) false [mkuproc a n t (k pid)] []
  | us_chdir a n t path k r : ustep (mkuproc a n t (PChdir path k)) (r <? 0) [mkuproc a n t (k r)] []
  | us_gets a n t max k l : ustep (mkuproc a n t (PGets max k)) false [mkuproc a n t (k l)] []
  | us_print a n t fd fmt args k : ustep (mkuproc a n t (PPrint fd fmt args k)) false [mkuproc a n t k] [].

(** The processes, what has been started so far, and whether a call has failed. *)
Record ustate := mkustate { us_procs : list uproc; us_log : list started; us_failed : bool }.

Inductive ureach : ustate -> ustate -> Prop :=
  | ur_refl s : ureach s s
  | ur_step s0 l1 p l2 log f b ps st :
      ureach s0 (mkustate (l1 ++ p :: l2) log f) -> ustep p b ps st ->
      ureach s0 (mkustate (l1 ++ ps ++ l2) (log ++ st) (f || b)).

(** ** What a line stands for *)

(** The commands of [a] with their descriptors, when the process [me], after [n]
    forks, runs it with the descriptors [t]. *)
Fixpoint plumb (a : acmd) (me : list nat) (n : nat) (t : fdtable) : list started :=
  match a with
  | AExec ws => match ws with [] => [] | _ => [(ws, t)] end
  | ARedir a k w => plumb a me n (<[Z.to_nat (rfd k) := Some (DFile w (rmode k))]> t)
  | APipe l r =>
      plumb l (me ++ [n]) 0 (<[1%nat := Some (DPipeW me)]> t) ++
      plumb r (me ++ [S n]) 0 (<[0%nat := Some (DPipeR me)]> t)
  | AList l r => plumb l (me ++ [n]) 0 t ++ plumb r me (S n) t
  | ABack a => plumb a (me ++ [n]) 0 t
  end.

(** The descriptors the first process inherits. *)
Definition env0 : fdtable := [Some (DInherit 0); Some (DInherit 1); Some (DInherit 2)] ++ replicate 13 None.

(** Nothing is open but 0, 1 and 2, and no end of a pipe of the process [me]. *)
Definition tidy (me : list nat) (t : fdtable) : Prop :=
  forall i d, t !! i = Some (Some d) -> (i < 3)%nat /\ d <> DPipeR me /\ d <> DPipeW me.

(** ** What a program does *)

Definition older (me : list nat) (d : desc) : Prop :=
  match d with DPipeR c | DPipeW c => (length c < length me)%nat | _ => True end.
Definition std (me : list nat) (t : fdtable) : Prop :=
  exists d0 d1 d2, t = [Some d0; Some d1; Some d2] ++ replicate 13 None /\ Forall (older me) [d0; d1; d2].

(** The program starts the commands [l], in some order and if no call fails; it
    waits only with a tidy table. *)
Fixpoint does (p : uprog) (me : list nat) (n : nat) (t : fdtable) (l : list started) : Prop :=
  match p with
  | PExit _ => l = []
  | PExec _ argv k => l = [(argv, t)] /\ does k me n t []
  | POpen path mode k =>
      (exists fd t', alloc_fd t (DFile path mode) = Some (fd, t') /\ does (k (Z.of_nat fd)) me n t' l) /\
      does (k (-1)) me n t []
  | PMknod _ _ _ k => does k me n t l
  | PClose fd k => does k me n (close_fd t fd) l
  | PDup fd k => exists d i t', look t fd = Some d /\ alloc_fd t d = Some (i, t') /\ does k me n t' l
  | PPipe k =>
      (exists i t' j t'', alloc_fd t (DPipeR me) = Some (i, t') /\ alloc_fd t' (DPipeW me) = Some (j, t'') /\
        does (k 0 (Z.of_nat i) (Z.of_nat j)) me n t'' l) /\
      forall x y, does (k (-1) x y) me n t []
  | PFork k =>
      (exists l1 l2, l = l1 ++ l2 /\ does (k 0) (me ++ [n]) 0 t l1 /\ forall pid, 0 < pid -> does (k pid) me (S n) t l2) /\
      does (k (-1)) me n t []
  | PWait k => tidy me t /\ forall pid, does (k pid) me n t l
  | PChdir _ k => forall r, does (k r) me n t l
  | PGets _ k => forall s, does (k s) me n t l
  | PPrint _ _ _ k => does k me n t l
  | PMore => False
  end.
Abbreviation pdoes := (fun p l => does (up_prog p) (up_name p) (up_forks p) (up_fds p) l).

Lemma step_does p l b ps st :
  pdoes p l -> ustep p b ps st ->
  exists ls, Forall2 pdoes ps ls /\ st ++ concat ls ⊆+ l /\ (b = false -> st ++ concat ls ≡ₚ l).
Proof.
  intros H Hs. destruct Hs; cbn [up_prog up_name up_forks up_fds does] in H.
  - subst. exists []. by split_and!.
  - destruct H as [-> _]. exists []. by split_and!.
  - exists [[]]. split_and!; [repeat constructor; apply H|apply submseteq_nil_l|done].
  - destruct H as [(fd' & t2 & E & H) _]. assert (fd' = fd /\ t2 = t') as [-> ->] by (split; congruence).
    exists [l]. cbn. rewrite app_nil_r. by split_and!; [repeat constructor| |].
  - exists [[]]. split_and!; [repeat constructor; apply H|apply submseteq_nil_l|done].
  - exists [l]. cbn. rewrite app_nil_r. by split_and!; [repeat constructor| |].
  - exists [l]. cbn. rewrite app_nil_r. by split_and!; [repeat constructor| |].
  - destruct H as (d' & i' & t2 & E1 & E2 & H). assert (t2 = t') as -> by congruence.
    exists [l]. cbn. rewrite app_nil_r. by split_and!; [repeat constructor| |].
  - destruct H as (d' & i' & t2 & E1 & E2 & _). unfold alloc_fd in E2. destruct (lowest t); destruct H0; congruence.
  - destruct H as [(i' & t2 & j' & t3 & E1 & E2 & H) _].
    assert (i' = i /\ t2 = t') as [-> ->] by (split; congruence). assert (j' = j /\ t3 = t'') as [-> ->] by (split; congruence).
    exists [l]. cbn. rewrite app_nil_r. by split_and!; [repeat constructor| |].
  - exists [[]]. split_and!; [repeat constructor; apply H|apply submseteq_nil_l|done].
  - destruct H as [(l1 & l2 & -> & H1 & H2) _]. exists [l2; l1]. cbn. rewrite app_nil_r, (Permutation_app_comm l2).
    by split_and!; [repeat constructor; [by apply H2|done]| |].
  - exists [[]]. split_and!; [repeat constructor; apply H|apply submseteq_nil_l|done].
  - exists [l]. cbn. rewrite app_nil_r. by split_and!; [repeat constructor; apply H| |].
  - exists [l]. cbn. rewrite app_nil_r. by split_and!; [repeat constructor; apply H| |].
  - exists [l]. cbn. rewrite app_nil_r. by split_and!; [repeat constructor; apply H| |].
  - exists [l]. cbn. rewrite app_nil_r. by split_and!; [repeat constructor| |].
Qed.

Lemma reach_does p L s :
  pdoes p L -> ureach (mkustate [p] [] false) s ->
  exists ls, Forall2 pdoes (us_procs s) ls /\ us_log s ++ concat ls ⊆+ L /\
    (us_failed s = false -> us_log s ++ concat ls ≡ₚ L).
Proof.
  intros Hp. remember (mkustate [p] [] false) as s0 eqn:E0. induction 1 as [s|s0 l1 q l2 log f b ps st _ IH Hs]; subst.
  - exists [L]. cbn. rewrite app_nil_r. by split_and!; [repeat constructor| |].
  - destruct (IH eq_refl) as (ls & HF & Hsub & Heq). cbn [us_procs us_log us_failed] in *.
    apply Forall2_app_inv_l in HF as (ls1 & ls' & H1 & H2 & ->). apply Forall2_cons_inv_l in H2 as (l & ls2 & Hq & H2 & ->).
    destruct (step_does _ _ _ _ _ Hq Hs) as (lp & Hlp & Hs1 & Hs2).
    assert ((log ++ st) ++ concat (ls1 ++ lp ++ ls2) ≡ₚ (log ++ concat ls1 ++ concat ls2) ++ (st ++ concat lp)) as E1
      by (rewrite !concat_app; solve_Permutation).
    assert (log ++ concat (ls1 ++ l :: ls2) ≡ₚ (log ++ concat ls1 ++ concat ls2) ++ l) as E2
      by (rewrite !concat_app; cbn [concat]; solve_Permutation).
    exists (ls1 ++ lp ++ ls2). split_and!; [by repeat apply Forall2_app| |].
    + rewrite E1. etrans; [|exact Hsub]. rewrite E2. by apply submseteq_app.
    + intros [Hf Hb]%orb_false_iff. rewrite E1, (Hs2 Hb), <- E2. by apply Heq.
Qed.

(** Every process can be run to its end without a failure. *)
Lemma run_alone prog s0 me n t l l1 l2 log f :
  does prog me n t l -> ureach s0 (mkustate (l1 ++ mkuproc me n t prog :: l2) log f) ->
  exists l', l' ≡ₚ l /\ ureach s0 (mkustate (l1 ++ l2) (log ++ l') f).
Proof.
  assert (forall q ps log f st, ustep q false ps st -> forall l1 l2, ureach s0 (mkustate (l1 ++ q :: l2) log f) ->
    ureach s0 (mkustate (l1 ++ ps ++ l2) (log ++ st) f)) as go.
  { clear. intros q ps log f st Hs l1 l2 H. pose proof (ur_step _ _ _ _ _ _ _ _ _ H Hs) as H'. by rewrite orb_false_r in H'. }
  revert me n t l l1 l2 log f.
  induction prog as [st|path argv k IH|path mode k IH|path x y k IH|fd k IH|fd k IH|k IH|k IH|k IH|path k IH|x k IH|fd x y k IH|];
    intros me n t l l1 l2 log f H R; cbn [does] in H; [..|done].
  - subst. exists []. split; [done|]. apply (go _ _ _ _ _ (us_exit me n t st) _ _ R).
  - destruct H as [-> _]. exists [(argv, t)]. split; [done|]. apply (go _ _ _ _ _ (us_exec me n t path argv k) _ _ R).
  - destruct H as [(fd & t' & E & H) _]. pose proof (go _ _ _ _ _ (us_open me n t path mode k fd t' E) _ _ R) as R'.
    rewrite app_nil_r in R'. by apply (IH _ _ _ _ _ _ _ _ _ H R').
  - pose proof (go _ _ _ _ _ (us_mknod me n t path x y k false) _ _ R) as R'. rewrite app_nil_r in R'. by apply (IH _ _ _ _ _ _ _ _ H R').
  - pose proof (go _ _ _ _ _ (us_close me n t fd k) _ _ R) as R'. rewrite app_nil_r in R'. by apply (IH _ _ _ _ _ _ _ _ H R').
  - destruct H as (d & i & t' & E1 & E2 & H). pose proof (go _ _ _ _ _ (us_dup me n t fd k d i t' E1 E2) _ _ R) as R'.
    rewrite app_nil_r in R'. by apply (IH _ _ _ _ _ _ _ _ H R').
  - destruct H as [(i & t' & j & t'' & E1 & E2 & H) _]. pose proof (go _ _ _ _ _ (us_pipe me n t k i t' j t'' E1 E2) _ _ R) as R'.
    rewrite app_nil_r in R'. by apply (IH _ _ _ _ _ _ _ _ _ _ _ H R').
  - destruct H as [(m1 & m2 & -> & H1 & H2) _]. pose proof (go _ _ _ _ _ (us_fork me n t k 1 ltac:(lia)) _ _ R) as R'.
    rewrite app_nil_r in R'. cbn [app] in R'. destruct (IH _ _ _ _ _ _ _ _ _ (H2 1 ltac:(lia)) R') as (l' & E1 & R1).
    destruct (IH _ _ _ _ _ _ _ _ _ H1 R1) as (l'' & E2 & R2). exists (l' ++ l''). rewrite app_assoc. split; [|done].
    by rewrite E1, E2, Permutation_app_comm.
  - destruct H as [_ H]. pose proof (go _ _ _ _ _ (us_wait me n t k 1) _ _ R) as R'. rewrite app_nil_r in R'.
    by apply (IH _ _ _ _ _ _ _ _ _ (H 1) R').
  - pose proof (go _ _ _ _ _ (us_chdir me n t path k 0) _ _ R) as R'. rewrite app_nil_r in R'. by apply (IH _ _ _ _ _ _ _ _ _ (H 0) R').
  - pose proof (go _ _ _ _ _ (us_gets me n t x k []) _ _ R) as R'. rewrite app_nil_r in R'. by apply (IH _ _ _ _ _ _ _ _ _ (H []) R').
  - pose proof (go _ _ _ _ _ (us_print me n t fd x y k) _ _ R) as R'. rewrite app_nil_r in R'. by apply (IH _ _ _ _ _ _ _ _ H R').
Qed.

(** ** The commands of the shell *)

Lemma std_tidy me t : std me t -> tidy me t.
Proof.
  intros (d0 & d1 & d2 & -> & HF) i d Hi.
  assert ((i < 3)%nat /\ older me d) as [H1 H2].
  { rewrite !Forall_cons in HF. destruct HF as (O0 & O1 & O2 & _).
    destruct i as [|[|[|i]]]; cbn in Hi; [split; [lia|congruence]..|].
    change (replicate 13 (@None desc) !! i = Some (Some d)) in Hi. by apply lookup_replicate in Hi as [? _]. }
  split_and!; [done| |]; intros ->; cbn in H2; lia.
Qed.

Lemma older_child me n d : older me d -> older (me ++ [n]) d.
Proof. destruct d; cbn; rewrite ?length_app; cbn; lia. Qed.

Lemma std_child me n t : std me t -> std (me ++ [n]) t.
Proof.
  intros (d0 & d1 & d2 & -> & HF). exists d0, d1, d2. split; [done|]. eapply Forall_impl; [exact HF|]. intros d. apply older_child.
Qed.

Lemma std_put me t i d : std me t -> (i < 3)%nat -> older me d -> std me (<[i := Some d]> t).
Proof.
  intros (d0 & d1 & d2 & -> & HF) Hi Hd. rewrite !Forall_cons in HF. destruct HF as (O0 & O1 & O2 & _).
  destruct i as [|[|[|i]]]; [..|lia]; cbn [insert list_insert app].
  - exists d, d1, d2. by repeat constructor.
  - exists d0, d, d2. by repeat constructor.
  - exists d0, d1, d. by repeat constructor.
Qed.

(** Closing a standard descriptor and opening something takes its place. *)
Lemma std_reopen me t i d : std me t -> (i < 3)%nat -> alloc_fd (<[i := None]> t) d = Some (i, <[i := Some d]> t).
Proof. intros (d0 & d1 & d2 & -> & HF) Hi. by destruct i as [|[|[|i]]]; [..|lia]. Qed.

Lemma fork1_does k me n t l1 l2 :
  does (k 0) (me ++ [n]) 0 t l1 -> (forall pid, 0 < pid -> does (k pid) me (S n) t l2) -> does (fork1 k) me n t (l1 ++ l2).
Proof.
  intros H1 H2. cbn [fork1 does]. split; [|done]. exists l1, l2. split_and!; [done|done|]. intros pid Hp.
  destruct (Z.eqb_spec pid (-1)); [lia|]. by apply H2.
Qed.

(** The table after [pipe]. *)
Definition piped (me : list nat) (t : fdtable) : fdtable :=
  <[4%nat := Some (DPipeW me)]> (<[3%nat := Some (DPipeR me)]> t).

(** A child of a pipeline puts its end of the pipe in place. *)
Lemma pipe_child k me0 me t i p d l :
  std me t -> (i, p, d) = (1%nat, 4, DPipeW me0) \/ (i, p, d) = (0%nat, 3, DPipeR me0) ->
  does k me 0 (<[i := Some d]> t) l ->
  does (PClose (Z.of_nat i) (PDup p (PClose 3 (PClose 4 k)))) me 0 (piped me0 t) l.
Proof.
  intros (d0 & d1 & d2 & -> & _) [E|E] H; injection E as -> -> ->; cbn [does].
  - exists (DPipeW me0), 1%nat. eexists. split_and!; [done|done|exact H].
  - exists (DPipeR me0), 0%nat. eexists. split_and!; [done|done|exact H].
Qed.

Lemma length_child (me : list nat) n : (length me < length (me ++ [n]))%nat.
Proof. rewrite length_app. cbn. lia. Qed.

Lemma runcmd_does b c a me n t : reads b c a -> std me t -> does (runcmd b c) me n t (plumb a me n t).
Proof.
  revert a me n t. induction c as [argv|c IH f e m fd|l IHl r IHr|l IHl r IHr|c IH]; intros [ws|a k w|x y|x y|a] me n t;
    cbn [reads runcmd plumb]; try done.
  - intros <- _. destruct argv; by cbn.
  - intros (-> & -> & <- & Hr) Hs. cbn [does]. split; [|by destruct k].
    assert (Z.to_nat (rfd k) < 3)%nat as Hk by (destruct k; cbn; lia). exists (Z.to_nat (rfd k)).
    eexists. split; [|].
    { unfold close_fd. replace (rfd k <? 0) with false by (by destruct k). by apply (std_reopen me). }
    destruct (Z.ltb_spec (Z.of_nat (Z.to_nat (rfd k))) 0); [lia|]. apply IH; [done|]. by apply std_put.
  - intros [H1 H2] Hs. cbn [does]. split; [|done]. pose proof Hs as (d0 & d1 & d2 & E & _).
    exists 3%nat, (<[3%nat := Some (DPipeR me)]> t), 4%nat, (piped me t). split_and!; [by subst t..|]. apply fork1_does.
    + apply (pipe_child _ me _ t 1 4 (DPipeW me)); [by apply std_child|by left|]. apply IHl; [done|].
      apply std_put; [by apply std_child|lia|apply length_child].
    + intros pid Hp. destruct (Z.eqb_spec pid 0); [lia|]. rewrite <- (app_nil_r (plumb y _ _ _)). apply fork1_does.
      * apply (pipe_child _ me _ t 0 3 (DPipeR me)); [by apply std_child|by right|]. apply IHr; [done|].
        apply std_put; [by apply std_child|lia|apply length_child].
      * intros pid' Hp'. destruct (Z.eqb_spec pid' 0); [lia|]. cbn [does]. apply std_tidy in Hs as Ht.
        assert (close_fd (close_fd (piped me t) 3) 4 = t) as Ec by (by subst t).
        change (Z.of_nat 3) with 3. change (Z.of_nat 4) with 4. rewrite Ec. by split_and!.
  - intros [H1 H2] Hs. apply fork1_does; [by apply IHl, std_child|]. intros pid Hp. destruct (Z.eqb_spec pid 0); [lia|].
    cbn [does]. split; [by apply std_tidy|]. intros _. by apply IHr.
  - intros H Hs. rewrite <- (app_nil_r (plumb a _ _ _)). apply fork1_does; [by apply IH, std_child|].
    intros pid Hp. by destruct (Z.eqb_spec pid 0); [lia|].
Qed.

Lemma plumb_std a me n t : std me t -> Forall (fun x => exists me', std me' (snd x)) (plumb a me n t).
Proof.
  revert me n t. induction a as [ws|a IH k w|l IHl r IHr|l IHl r IHr|a IH]; intros me n t Hs; cbn [plumb].
  - destruct ws; repeat constructor. by exists me.
  - apply IH, std_put; [done|by destruct k; cbn; lia|done].
  - apply Forall_app. split; [apply IHl|apply IHr]; (apply std_put; [by apply std_child|lia|apply length_child]).
  - apply Forall_app. split; [by apply IHl, std_child|by apply IHr].
  - by apply IH, std_child.
Qed.

Lemma sz_pr a lvl : wf a -> (sz a <= length (pr lvl a) + 1)%nat.
Proof.
  assert (forall (b : bool) l, length l <= length ((if b then id else parens) l))%nat as Hpar.
  { intros [] l; unfold parens; cbn; rewrite ?length_app; lia. }
  revert lvl. induction a as [ws|a IH k w|l IHl r IHr|l IHl r IHr|a IH]; intros lvl; cbn [wf pr sz].
  - intros [_ _]. enough (length ws <= length (pr_words ws))%nat by lia. unfold pr_words.
    induction ws as [|w ws IHw]; cbn; [lia|]. rewrite !length_app. cbn. lia.
  - intros [Ha _]. specialize (IH 3%nat Ha). rewrite !length_app. cbn. lia.
  - intros [Ha Hb]. etrans; [|apply Nat.add_le_mono_r, Hpar]. rewrite length_app. cbn. specialize (IHl 3%nat Ha). specialize (IHr 2%nat Hb). lia.
  - intros [Ha Hb]. etrans; [|apply Nat.add_le_mono_r, Hpar]. rewrite length_app. cbn. specialize (IHl 1%nat Ha). specialize (IHr 0%nat Hb). lia.
  - intros Ha. etrans; [|apply Nat.add_le_mono_r, Hpar]. rewrite length_app. cbn. specialize (IH 1%nat Ha). lia.
Qed.

Lemma env0_std : std [] env0.
Proof. exists (DInherit 0), (DInherit 1), (DInherit 2). by repeat constructor. Qed.

(** The process the shell forks for the line. *)
Definition line_proc (buf : list Z) : uproc := mkuproc [] 0 env0 (run_line buf).

Lemma line_does a : wf a -> pdoes (line_proc (pr 0 a)) (plumb a [] 0 env0).
Proof.
  intros Hwf. cbn [line_proc up_prog up_name up_forks up_fds]. unfold run_line.
  destruct (parse_printed a (8 * length (pr 0 a) + 16) Hwf) as (c & b & E & Hr).
  { pose proof (sz_pr a 0 Hwf). lia. }
  rewrite E. apply runcmd_does; [done|apply env0_std].
Qed.

(** C7. From the line to the processes.  The shell gives a command line to a new
    process; for every command, written with its words, redirections, pipes, lists
    and background jobs, and however the processes this creates interleave: what
    they execute are the simple commands of the line, each at most once, with
    standard input and output connected as the line says (the two sides of a pipe
    to the ends of one pipe of their own, redirections inside out) and no other
    descriptor open.  If no system call fails, then at the end all of them have
    been executed, and such a run exists.  A process that waits holds no end of its
    pipe, so that the readers see the end of the input when the writers are done. *)
Theorem sh_line_runs a :
  wf a ->
  (forall s, ureach (mkustate [line_proc (pr 0 a)] [] false) s ->
    us_log s ⊆+ plumb a [] 0 env0 /\
    (us_procs s = [] -> us_failed s = false -> us_log s ≡ₚ plumb a [] 0 env0) /\
    (forall ws t, (ws, t) ∈ us_log s -> exists me, tidy me t) /\
    (forall p k, p ∈ us_procs s -> up_prog p = PWait k -> tidy (up_name p) (up_fds p))) /\
  exists s, ureach (mkustate [line_proc (pr 0 a)] [] false) s /\ us_procs s = [] /\ us_failed s = false.
Proof.
  intros Hwf. apply line_does in Hwf as Hd. split.
  - intros s Hs. destruct (reach_does _ _ _ Hd Hs) as (ls & HF & Hsub & Heq).
    assert (us_log s ⊆+ plumb a [] 0 env0) as Hlog by (etrans; [|exact Hsub]; apply submseteq_inserts_r; done).
    split_and!; [done| | |].
    + intros Hp Hf. rewrite Hp in HF. apply Forall2_nil_inv_l in HF as ->. specialize (Heq Hf). by rewrite app_nil_r in Heq.
    + intros ws t Hin. pose proof (plumb_std a [] 0 env0 env0_std) as Hstd. rewrite Forall_forall in Hstd.
      destruct (Hstd (ws, t)) as [me Hme]; [by eapply elem_of_submseteq|]. exists me. by apply std_tidy.
    + intros p k Hin Hk. apply list_elem_of_lookup in Hin as [i Hi]. destruct (Forall2_lookup_l _ _ _ _ _ HF Hi) as (l & _ & Hl).
      cbn beta in Hl. rewrite Hk in Hl. apply Hl.
  - destruct (run_alone (run_line (pr 0 a)) _ [] 0 env0 _ [] [] [] false Hd (ur_refl _)) as (l' & _ & R).
    eexists. split; [exact R|]. done.
Qed.

(** The commands of [( ls -l > f ; wc & ) | grep x], with their input and output. *)
Lemma sh_line_runs_witness :
  (fun x => (fst x, take 2 (snd x))) <$> plumb demo_cmd [] 0 env0 =
    [([bytes_of "ls"; bytes_of "-l"], [Some (DInherit 0); Some (DFile (bytes_of "f") (rmode ROut))]);
     ([bytes_of "wc"], [Some (DInherit 0); Some (DPipeW [])]);
     ([bytes_of "grep"; bytes_of "x"], [Some (DPipeR []); Some (DInherit 1)])] /\
  (forall s, ureach (mkustate [line_proc (pr 0 demo_cmd)] [] false) s -> us_log s ⊆+ plumb demo_cmd [] 0 env0) /\
  exists s, ureach (mkustate [line_proc (pr 0 demo_cmd)] [] false) s /\ us_procs s = [] /\ us_failed s = false.
Proof.
  split; [vm_compute; reflexivity|]. destruct (sh_line_runs demo_cmd) as [H1 H2].
  - repeat first [split|constructor]; try (vm_compute; done); (done || (vm_compute; lia)).
  - split; [|exact H2]. intros s Hs. apply (H1 s Hs).
Defined.
